(* ===== verification/_CoqProject ===== *)
-Q . S2P
Prelude.v
Numerics.v
PyStr.v
PyJson.v
PyTime.v
Stores.v
Contracts.v
Replay.v
Canonical.v
PyVal.v
RiskModels.v
Amounts.v
RiskEngine.v
RiskSafety.v
RiskContract.v
RiskBatch.v
RiskStore.v
Invariants.v
ValidationRun.v
EvalModels.v
EvalService.v
EvalContract.v
ExecModels.v
OrderBuilder.v
ExecStore.v
ExecService.v
ExecFacts.v
ExecContract.v
OrchModels.v
Leadership.v
OrchEnv.v
Flatten.v
Session.v
SessionFacts.v
SessionContract.v
SessionVerdict.v
SessionTrading.v
FeatureModels.v
FeatureLedger.v
FeatureCore.v
FeatureResistance.v
FeatureJoins.v
FeatureEngine.v
FeatureStore.v
RecorderModels.v
RecorderStore.v
BatchWriter.v
RecorderAdapters.v
SecPoller.v
SecContract.v
StreamAdapter.v
Capture.v
CaptureContract.v
RecorderConfig.v
Settings.v
PaperGate.v
AnalyticsModels.v
Analytics.v
PaperAcceptance.v
AnalyticsContract.v
OperationsModels.v
Operations.v
OperationsContract.v
ReleaseModels.v
Release.v
ReleaseContract.v
Scanner.v
ScannerContract.v
DecimalText.v
Alpaca.v
AlpacaContract.v
AlpacaOps.v
AlpacaOpsContract.v
MarketData.v
