(* ===== verification/Prelude.v ===== *)
(** * Project Daybreak: a verification library

    Project Daybreak is a paper-trading system: a recorder stores the market's
    raw events; a feature engine turns them into a point-in-time snapshot; a
    language model evaluates the candidates; its answer is checked by a
    deterministic replay of the scoring and by 77 invariants; a risk engine
    sizes the approved ones; an execution service sends them to the broker; a
    session orchestrator runs the day under a lease and a kill switch and
    flattens at its end; analytics, operations and release review collect the
    evidence; a scanner works beside all this on market data alone.  This
    library models that code (directories daybreak* of the sources) and proves
    what makes it correct.

    ** How the code is modelled

    A function of the source is a Definition or Fixpoint of the same name.
    Python's exceptions are the type [exn] of this file.  A pure function that
    may raise returns a [result]; code with effects is in [eff S], state
    passing with exceptions, where what was written before an exception stays
    written; [except Exception] is [observe], other handlers [try_except].  A
    pydantic model is a record, its constraints and validators a boolean
    [*_ok]; building a refused one raises [EValidation].  Asynchronous code is
    a step relation with an explicit label per run between two awaits
    (BatchWriter.v), or code over a world whose coroutines may do whatever
    their laws allow (SecPoller.v, StreamAdapter.v, Capture.v).

    Numbers keep their arithmetic: Decimal is coefficient and exponent in the
    28-digit context, binary64 floats are exact rationals rounded to 53 bits
    (without overflow and subnormals), and a float that is only stored is its
    decimal or its text.  A datetime is its instant in microseconds; text is
    UTF-8 bytes, or code points where the source counts them.  Dicts are gmaps,
    or lists of items where their order shows.  SHA-256, json.dumps and the
    readers of numbers are concrete.

    What is not part of the sources is a parameter: the answers of the broker,
    the HTTP server, the provider, the SEC, the clock and the files are
    arbitrary functions of the calls made before; uuid5, the offset of New
    York, fromisoformat, pydantic's dump of a model and its parser, and the
    text of containers are classes ([Uuid5], [NewYork], [FromIso], [Dump], ...).
    A law about one of them is a named hypothesis or a class of laws, and a
    concrete instance shows that it can hold.

    ** The parts

    Shared: Prelude.v (exceptions, result and state monads with their Hoare
    rules, stable sorting, comparisons), Numerics.v, PyStr.v, PyJson.v,
    PyTime.v, Stores.v, Canonical.v, PyVal.v, DecimalText.v, Amounts.v.

    Contracts and scoring (daybreak_contracts): Contracts.v the models;
    Replay.v the scoring, the eight gates and the ranking; Invariants.v and
    ValidationRun.v the 77 checks and their report.  Theorems: the gates fail
    exactly as specified, the ranking terminates and does not depend on the
    order of the input, an execution-ready report is evidence of the run.

    Risk (daybreak_risk): RiskModels.v, RiskEngine.v, RiskStore.v; proofs in
    RiskSafety.v, RiskContract.v, RiskBatch.v.  Every approved size fits the
    account, is the largest that does, each rejection is explained, and a batch
    never overcommits the session.

    Evaluator (daybreak_evaluator): EvalModels.v, EvalService.v; EvalContract.v
    proves that the primary path fails closed and that attempts are bounded.

    Execution (daybreak_execution): ExecModels.v, OrderBuilder.v, ExecStore.v
    with the [Broker] interface, ExecService.v; ExecFacts.v and ExecContract.v
    prove the outcomes of submission and of trade updates, that the repository
    stays well typed, and that the orders sent refine a ledger of justified
    ones, over every broker.  Alpaca.v implements the interface over HTTP;
    AlpacaContract.v proves that a POST follows a lookup answered by 404, and
    that an echoed order is read back as itself.

    Orchestration (daybreak_orchestration): OrchModels.v, Leadership.v,
    OrchEnv.v, Flatten.v, AlpacaOps.v, Session.v, PaperGate.v; proofs in
    Leadership.v (a deposed leader is fenced off), Flatten.v and
    AlpacaOpsContract.v (nothing is closed beyond what the session owns),
    SessionFacts.v, SessionContract.v, SessionVerdict.v, SessionTrading.v (a
    run ends, releases its lease, trades only behind its gates, and its result
    means what it says).

    Features (daybreak_features): FeatureModels.v, FeatureLedger.v,
    FeatureCore.v, FeatureResistance.v, FeatureJoins.v, FeatureEngine.v,
    FeatureStore.v, each with its proofs: order independence and conservation
    of trades, clusters as a partition, joins that never look ahead, every
    candidate accounted for.

    Recorder (daybreak_recorder): RecorderModels.v, RecorderStore.v,
    BatchWriter.v, RecorderAdapters.v, SecPoller.v, StreamAdapter.v, Capture.v,
    RecorderConfig.v; proofs beside them, in SecContract.v and in
    CaptureContract.v.  An acknowledged event is stored in order, a replay
    gives back what was captured, no filing is lost, the lifecycle events of a
    stream match its connections, and the record of a session is true.

    Evidence: AnalyticsModels.v, Analytics.v, PaperAcceptance.v,
    AnalyticsContract.v (daybreak_analytics); OperationsModels.v, Operations.v,
    OperationsContract.v (daybreak_operations); ReleaseModels.v, Release.v,
    ReleaseContract.v (daybreak_release).  Summaries are exact, a recovery plan
    never resumes entries, a restore certifies the backup, a candidate is
    judged by its gates.

    Scanner (daybreak_scanner): Scanner.v, MarketData.v, ScannerContract.v: its
    ATR is the feature engine's, an outcome is the first touch, and paging reads
    every page once.  Settings.v is daybreak/core/config.py: settings that load
    never trade live.

    ** Bounds and fuel

    The loops that wait or poll run on fuel and raise [EDiverge] without it, an
    exception no source raises.  A session ends with fuel that its clock bounds
    (SessionContract.v), the ranking within the number of its records
    (Replay.v), the watch of a stream within the looks its thread lasts
    (StreamAdapter.v); paging ends exactly when the server names a last page
    (MarketData.v); all the other recursions are structural.  The theorems of the
    risk engine assume amounts of at most 10^11 dollars, where 28 digits are
    exact.

    ** What the modelling showed

    Examples and lemmas named after the behaviour hold what the code does
    against its intent: a quote one millisecond too old, a late fill left open,
    an alert that prevents the flatten, a correction that overwrites a trade, an
    event accepted and lost while the writer stops, an order that may be live
    reported as rejected, a short position closed as a long one, a session left
    running by a cancelled shutdown, a misspelt flag that means live, and others.

    ** Not modelled

    The PostgreSQL repositories and the migrations are SQL; the command lines,
    dashboards, exports, health checks, logging and schema generation are input
    and output around the modelled services; the transports of the provider's
    libraries (OpenAI, alpaca-py, the calendar) are calls of code outside the
    sources, whose answers are parameters; the SEC poller's rate limiter and
    the hand-over between event loops are timing only; of the recorder's
    settings the URLs and secrets are left out.  Text operations know ASCII
    letters, digits and spaces; non-ASCII text passes through unchanged. *)
From Stdlib Require Export ZArith Lia Bool.
From Stdlib Require Import Permutation Sorted.
From Stdlib Require Ascii String.
From stdpp Require Export base tactics option list gmap strings pretty sorting.

#[global] Open Scope Z_scope.

(** ** Exceptions and the result monad

    Every Python exception the modelled code raises, catches or lets through.
    [EValidation] is pydantic's ValidationError, a subclass of ValueError, so a
    handler for ValueError also catches it (see [is_value_error]). *)
Inductive exn : Type :=
  | EValue (msg : string)
  | EValidation (msg : string)
  | ERuntime (msg : string)
  | EAssertion
  | EKey (key : string)
  | ETypeError
  | EInvalidOperation
  | EZeroDivision
  | EBrokerNotFound
  | EBrokerTransport (transient : bool)
  | EDataQuality (code : string)
  | ELeadershipUnavailable (msg : string)
  | EPersistentKillSwitch (msg : string)
  | EOther (kind msg : string)
  | EDiverge.

#[global] Instance exn_eq_dec : EqDecision exn.
Proof. solve_decision. Defined.

Definition is_value_error (e : exn) : bool :=
  match e with EValue _ | EValidation _ => true | _ => false end.

Inductive result (A : Type) : Type :=
  | Ok (a : A)
  | Err (e : exn).
Arguments Ok {A} a.
Arguments Err {A} e.

#[global] Instance result_ret : MRet result := fun A => Ok.
#[global] Instance result_bind : MBind result := fun A B f m =>
  match m with Ok a => f a | Err e => Err e end.

Lemma Ok_inj {A} (x y : A) : Ok x = Ok y → x = y.
Proof. congruence. Qed.

Definition is_ok {A} (r : result A) : bool := match r with Ok _ => true | Err _ => false end.

Definition get_ok {A} (r : result A) : is_ok r = true → A :=
  match r with Ok a => λ _, a | Err _ => λ H, match Bool.diff_false_true H with end end.

Lemma get_ok_eq {A} (r : result A) (H : is_ok r = true) : r = Ok (get_ok r H).
Proof. by destruct r. Qed.

(** [guard_or c e]: Python's [if not c: raise e]. *)
Definition guard_or (c : bool) (e : exn) : result unit := if c then Ok tt else Err e.

Lemma bind_Ok {A B} (m : result A) (f : A → result B) b :
  m ≫= f = Ok b ↔ ∃ a, m = Ok a ∧ f a = Ok b.
Proof.
  destruct m as [a|e]; simpl; split; [eauto | by intros (? & [= ->] & ?) | done | by intros (? & ? & _)].
Qed.

Lemma bind_returns {A B} (m : result A) (f : A → result B) a :
  m = Ok a → (∃ b, f a = Ok b) → ∃ b, m ≫= f = Ok b.
Proof. by intros ->. Qed.

Lemma bind_returns_with {A B} (m : result A) (f : A → result B) a (P : B → Prop) :
  m = Ok a → (∃ b, f a = Ok b ∧ P b) → ∃ b, m ≫= f = Ok b ∧ P b.
Proof. by intros ->. Qed.

Lemma bind_Err {A B} (m : result A) (f : A → result B) e :
  m ≫= f = Err e ↔ m = Err e ∨ ∃ a, m = Ok a ∧ f a = Err e.
Proof.
  destruct m as [a|e']; simpl; split.
  - intros H. right. by exists a.
  - intros [H|(a' & H & ?)]; [done | by injection H as ->].
  - intros [= ->]. by left.
  - intros [[= ->]|(a' & H & ?)]; done.
Qed.

Lemma guard_or_Ok c e u : guard_or c e = Ok u ↔ c = true.
Proof. by destruct c, u. Qed.

Lemma guard_or_Err c e e' : guard_or c e = Err e' ↔ c = false ∧ e' = e.
Proof.
  destruct c; simpl; split; [done | by intros [? _] | by intros [= ->] | by intros [_ ->]].
Qed.

Fixpoint map_result {A B} (f : A → result B) (l : list A) : result (list B) :=
  match l with
  | [] => Ok []
  | x :: l' => y ← f x; ys ← map_result f l'; Ok (y :: ys)
  end.

Lemma map_result_Forall2 {A B} (f : A → result B) l k :
  map_result f l = Ok k ↔ Forall2 (λ x y, f x = Ok y) l k.
Proof.
  revert k. induction l as [|x l IH]; intros k; simpl.
  - split; [intros [= <-]; constructor | inversion 1; done].
  - rewrite bind_Ok. setoid_rewrite bind_Ok. split.
    + intros (y & Hy & ys & Hys & [= <-]). constructor; [done|]. by apply IH.
    + inversion 1 as [|? y ? ys Hy Hys]; subst. exists y. split; [done|].
      exists ys. split; [by apply IH | done].
Qed.

(** ** State with exceptions

    [eff S A] is code that reads and writes a state [S] and returns or raises.
    As in Python, state written before an exception stays written. *)
Definition eff (S A : Type) : Type := S → result A * S.

#[global] Instance eff_ret S : MRet (eff S) := fun A a s => (Ok a, s).
#[global] Instance eff_bind S : MBind (eff S) := fun A B f m s =>
  match m s with
  | (Ok a, s') => f a s'
  | (Err e, s') => (Err e, s')
  end.

Definition raise {S A} (e : exn) : eff S A := fun s => (Err e, s).
Definition lift {S A} (r : result A) : eff S A := fun s => (r, s).
Definition gets {S A} (f : S → A) : eff S A := fun s => (Ok (f s), s).
Definition modify {S} (f : S → S) : eff S unit := fun s => (Ok tt, f s).
(** [try m h]: Python's try/except; [h e = None] lets the exception through. *)
Definition try_except {S A} (m : eff S A) (h : exn → option (eff S A)) : eff S A := fun s =>
  match m s with
  | (Ok a, s') => (Ok a, s')
  | (Err e, s') => match h e with Some k => k s' | None => (Err e, s') end
  end.

(** [try: ... except Exception], as a value: what was returned or raised. *)
Definition observe {S A} (m : eff S A) : eff S (result A) := λ s, (Ok (m s).1, (m s).2).

Lemma eff_bind_unfold {S A B} (m : eff S A) (f : A → eff S B) s :
  (m ≫= f) s = match m s with (Ok a, s') => f a s' | (Err e, s') => (Err e, s') end.
Proof. done. Qed.

(** ** Hoare triples for effectful code

    [triple P m Q E]: from a state in [P], [m] ends in [Q a s'] when it returns
    [a] and in [E e s'] when it raises [e]. *)
Definition triple {S A} (P : S → Prop) (m : eff S A) (Q : A → S → Prop) (E : exn → S → Prop) :=
  ∀ s, P s → match m s with (Ok a, s') => Q a s' | (Err e, s') => E e s' end.

(** Invariant preservation, exceptions included. *)
Definition preserves {S A} (I : S → Prop) (m : eff S A) : Prop := ∀ s, I s → I (m s).2.

Section hoare.
Context {S : Type}.
Implicit Types I P : S → Prop.

Lemma triple_ret {A} (a : A) Q E : triple (Q a) (mret a : eff S A) Q E.
Proof. by intros s H. Qed.

Lemma triple_raise {A} e (Q : A → S → Prop) E : triple (E e) (raise e) Q E.
Proof. by intros s H. Qed.

Lemma triple_bind {A B} P (m : eff S A) (f : A → eff S B) R Q E :
  triple P m R E → (∀ a, triple (R a) (f a) Q E) → triple P (m ≫= f) Q E.
Proof.
  intros Hm Hf s HP. specialize (Hm s HP). rewrite eff_bind_unfold.
  destruct (m s) as [[a|e] s']; [by apply Hf | done].
Qed.

Lemma triple_weaken {A} P P' (m : eff S A) (Q Q' : A → S → Prop) (E E' : exn → S → Prop) :
  triple P m Q E → (∀ s, P' s → P s) → (∀ a s, Q a s → Q' a s) →
  (∀ e s, E e s → E' e s) → triple P' m Q' E'.
Proof.
  intros Hm HP HQ HE s Hs. specialize (Hm s (HP s Hs)).
  destruct (m s) as [[a|e] s']; auto.
Qed.

Lemma triple_try {A} P (m : eff S A) h (Q : A → S → Prop) (E E' : exn → S → Prop) :
  triple P m Q E' →
  (∀ e s, E' e s → match h e with Some k => triple (E' e) k Q E | None => E e s end) →
  triple P (try_except m h) Q E.
Proof.
  intros Hm Hh s HP. specialize (Hm s HP). unfold try_except.
  destruct (m s) as [[a|e] s']; [done|].
  specialize (Hh e s' Hm). destruct (h e); [by apply Hh | done].
Qed.

Lemma preserves_ret {A} I (a : A) : preserves I (mret a : eff S A).
Proof. by intros s H. Qed.
Lemma preserves_raise {A} I e : preserves I (raise e : eff S A).
Proof. by intros s H. Qed.
Lemma preserves_lift {A} I (r : result A) : preserves I (lift r : eff S A).
Proof. by intros s H. Qed.
Lemma preserves_gets {A} I (f : S → A) : preserves I (gets f).
Proof. by intros s H. Qed.
Lemma preserves_modify I f : (∀ s, I s → I (f s)) → preserves I (modify f).
Proof. intros H s Hs. by apply H. Qed.

Lemma preserves_bind {A B} I (m : eff S A) (f : A → eff S B) :
  preserves I m → (∀ a, preserves I (f a)) → preserves I (m ≫= f).
Proof.
  intros Hm Hf s Hs. specialize (Hm s Hs). rewrite eff_bind_unfold.
  destruct (m s) as [[a|e] s']; [by apply Hf | done].
Qed.

Lemma preserves_try {A} I (m : eff S A) h :
  preserves I m → (∀ e k, h e = Some k → preserves I k) → preserves I (try_except m h).
Proof.
  intros Hm Hh s Hs. specialize (Hm s Hs). unfold try_except.
  destruct (m s) as [[a|e] s']; [done|]. simpl in *.
  destruct (h e) eqn:He; [by eapply Hh | done].
Qed.
End hoare.

(** [evolves R m]: whatever [m] does, its final state is related to its initial
    one, exceptions included. *)
Definition evolves {S A} (R : S → S → Prop) (m : eff S A) : Prop := ∀ s, R s (m s).2.

Section evolution.
Context {S : Type} (R : S → S → Prop) `{!PreOrder R}.

Lemma evolves_ret {A} (a : A) : evolves R (mret a : eff S A).
Proof. by intros s. Qed.
Lemma evolves_raise {A} e : evolves R (raise e : eff S A).
Proof. by intros s. Qed.
Lemma evolves_lift {A} (r : result A) : evolves R (lift r : eff S A).
Proof. by intros s. Qed.
Lemma evolves_gets {A} (f : S → A) : evolves R (gets f).
Proof. by intros s. Qed.
Lemma evolves_modify f : (∀ s, R s (f s)) → evolves R (modify f).
Proof. by intros H s. Qed.

Lemma evolves_bind {A B} (m : eff S A) (f : A → eff S B) :
  evolves R m → (∀ a, evolves R (f a)) → evolves R (m ≫= f).
Proof.
  intros Hm Hf s. specialize (Hm s). rewrite eff_bind_unfold.
  destruct (m s) as [[a|e] s']; [|done]. simpl in Hm. etrans; [done | apply Hf].
Qed.

Lemma evolves_try {A} (m : eff S A) h :
  evolves R m → (∀ e k, h e = Some k → evolves R k) → evolves R (try_except m h).
Proof.
  intros Hm Hh s. specialize (Hm s). unfold try_except.
  destruct (m s) as [[a|e] s']; [done|]. simpl in Hm.
  destruct (h e) eqn:He; [|done]. etrans; [done | by eapply Hh].
Qed.

(** What follows a step evolves from where the step ended. *)
Lemma evolves_after {A B} (m : eff S A) (f : A → eff S B) s :
  (∀ a, evolves R (f a)) → R (m s).2 ((m ≫= f) s).2.
Proof. intros Hf. rewrite eff_bind_unfold. destruct (m s) as [[a|e] s']; [apply Hf | reflexivity]. Qed.
End evolution.

Lemma evolves_weaken {S A} (R R' : S → S → Prop) (m : eff S A) :
  (∀ s s', R s s' → R' s s') → evolves R m → evolves R' m.
Proof. intros Hr Hm s. by apply Hr. Qed.

(** A sequence that returned: its parts returned, in order. *)
Lemma eff_bind_Ok {S A B} (m : eff S A) (f : A → eff S B) s b s' :
  (m ≫= f) s = (Ok b, s') ↔ ∃ a s1, m s = (Ok a, s1) ∧ f a s1 = (Ok b, s').
Proof.
  rewrite eff_bind_unfold. destruct (m s) as [[a|e] s1]; split; [eauto | | done |].
  - by intros (? & ? & [= <- <-] & ?).
  - by intros (? & ? & ? & _).
Qed.

Lemma lift_Ok {S A} (r : result A) (s s' : S) a : lift r s = (Ok a, s') ↔ r = Ok a ∧ s' = s.
Proof. unfold lift. split; [by intros [= -> ->] | by intros [-> ->]]. Qed.

Create HintDb daybreak.
#[export] Hint Resolve evolves_ret evolves_raise evolves_lift evolves_gets : daybreak.
#[export] Hint Resolve evolves_bind evolves_try : daybreak.
#[export] Hint Resolve preserves_ret preserves_raise preserves_lift preserves_gets : daybreak.
#[export] Hint Resolve preserves_bind preserves_try : daybreak.

(** ** Tactics *)

(** Open every [bind] equation in the context. *)
Ltac inv_bind :=
  repeat match goal with
  | H : (_ ≫= _) = Ok _ |- _ => apply bind_Ok in H; destruct H as (? & ? & ?)
  | H : Ok _ = Ok _ |- _ => injection H as H; subst
  | H : mret _ = Ok _ |- _ => injection H as H; subst
  | H : Err _ = Ok _ |- _ => discriminate H
  | H : guard_or _ _ = Ok _ |- _ => apply guard_or_Ok in H
  end.

(** Turn boolean tests of the context into propositions. *)
Ltac bool_to_prop :=
  repeat match goal with
  | H : (_ && _)%bool = true |- _ => apply andb_true_iff in H; destruct H
  | H : (_ || _)%bool = false |- _ => apply orb_false_iff in H; destruct H
  | H : negb _ = true |- _ => apply negb_true_iff in H
  | H : negb _ = false |- _ => apply negb_false_iff in H
  | H : bool_decide _ = true |- _ => apply bool_decide_eq_true in H
  | H : bool_decide _ = false |- _ => apply bool_decide_eq_false in H
  | H : (_ <? _)%Z = true |- _ => apply Z.ltb_lt in H
  | H : (_ <? _)%Z = false |- _ => apply Z.ltb_ge in H
  | H : (_ <=? _)%Z = true |- _ => apply Z.leb_le in H
  | H : (_ <=? _)%Z = false |- _ => apply Z.leb_gt in H
  | H : (_ =? _)%Z = true |- _ => apply Z.eqb_eq in H
  | H : (_ =? _)%Z = false |- _ => apply Z.eqb_neq in H
  end.

(** ** Python's [sorted]: a stable sort by a boolean order *)
Section sorting.
Context {A : Type} (le : A → A → bool).

Fixpoint insert_by (x : A) (l : list A) : list A :=
  match l with
  | [] => [x]
  | y :: l' => if le x y then x :: l else y :: insert_by x l'
  end.

Definition sorted_by (l : list A) : list A := foldr insert_by [] l.

Lemma insert_by_perm x l : Permutation (insert_by x l) (x :: l).
Proof.
  induction l as [|y l IH]; simpl; [done|].
  destruct (le x y); [done|]. rewrite IH. apply Permutation_swap.
Qed.

Lemma sorted_by_perm l : Permutation (sorted_by l) l.
Proof.
  induction l as [|x l IH]; simpl; [done|]. rewrite insert_by_perm. by rewrite IH.
Qed.

Lemma elem_of_sorted_by x l : x ∈ sorted_by l ↔ x ∈ l.
Proof. by rewrite (sorted_by_perm l). Qed.

Lemma length_sorted_by l : length (sorted_by l) = length l.
Proof. apply Permutation_length, sorted_by_perm. Qed.

Abbreviation leP := (λ x y, le x y = true).

Lemma insert_by_sorted x l :
  (∀ a b, le a b = true ∨ le b a = true) →
  Sorted leP l → Sorted leP (insert_by x l).
Proof.
  intros Htot. induction 1 as [|y l Hs IH Hhd]; simpl.
  - repeat constructor.
  - destruct (le x y) eqn:E; [by repeat constructor|].
    constructor; [done|].
    destruct l as [|z l]; simpl in *.
    + constructor. destruct (Htot x y); congruence.
    + destruct (le x z); constructor; [|by inversion Hhd].
      destruct (Htot x y); congruence.
Qed.

Lemma sorted_by_sorted l :
  (∀ a b, le a b = true ∨ le b a = true) → Sorted leP (sorted_by l).
Proof.
  intros Htot. induction l as [|x l IH]; simpl; [constructor|].
  by apply insert_by_sorted.
Qed.

(** A total order that tells any two elements apart makes the result of
    sorting independent of the order of the input. *)
Lemma sorted_by_unique l k :
  (∀ a b, le a b = true ∨ le b a = true) →
  (∀ a b c, le a b = true → le b c = true → le a c = true) →
  (∀ a b, a ∈ l → b ∈ l → le a b = true → le b a = true → a = b) →
  Permutation l k → sorted_by l = sorted_by k.
Proof.
  intros Htot Htr Hanti Hp.
  assert (Permutation (sorted_by l) (sorted_by k)) as HP.
  { by rewrite !sorted_by_perm. }
  assert (Transitive leP) as Htrans by (intros a b c; apply Htr).
  assert (StronglySorted leP (sorted_by l)) as Hl
    by (apply Sorted_StronglySorted; [done | by apply sorted_by_sorted]).
  assert (StronglySorted leP (sorted_by k)) as Hk
    by (apply Sorted_StronglySorted; [done | by apply sorted_by_sorted]).
  clear Htrans.
  assert (∀ a b, a ∈ sorted_by l → b ∈ sorted_by l →
    le a b = true → le b a = true → a = b) as Hanti'.
  { intros a b Ha Hb. apply Hanti; by apply elem_of_sorted_by. }
  clear Hanti Hp. revert HP Hl Hk Hanti'.
  generalize (sorted_by l) (sorted_by k). clear l k. intros l.
  induction l as [|x l IH]; intros k HP Hl Hk Hanti.
  - by apply Permutation_nil in HP.
  - destruct k as [|y k]; [by apply Permutation_nil_r in HP|].
    inversion_clear Hl as [|?? Hl' HFl]; inversion_clear Hk as [|?? Hk' HFk].
    assert (x = y) as <-.
    { assert (y ∈ x :: l) as Hy by (rewrite HP; constructor).
      assert (x ∈ y :: k) as Hx by (rewrite <- HP; constructor).
      apply elem_of_cons in Hx as [->|Hx]; [done|].
      apply elem_of_cons in Hy as [->|Hy]; [done|].
      rewrite Forall_forall in HFl, HFk.
      apply Hanti; [constructor | by constructor | auto | auto]. }
    f_equal. apply Permutation_cons_inv in HP.
    apply IH; auto. intros; apply Hanti; try (by constructor); done.
Qed.
End sorting.

(** Sorting commutes with a map that keeps the order. *)
Lemma sorted_by_map {A B} (le : A → A → bool) (le' : B → B → bool) (f : A → B) l :
  (∀ a b, le' (f a) (f b) = le a b) → sorted_by le' (map f l) = map f (sorted_by le l).
Proof.
  intros Hf. induction l as [|x l IH]; simpl; [done|]. rewrite IH. clear IH.
  induction (sorted_by le l) as [|y k IHk]; simpl; [done|].
  rewrite Hf. destruct (le x y); simpl; [done|]. by rewrite IHk.
Qed.

(** Keep the first occurrence of each element, in order. *)
Section dedup.
Context {A} `{EqDecision A}.

Fixpoint unique_from (seen : list A) (l : list A) : list A :=
  match l with
  | [] => []
  | x :: l' => if decide (x ∈ seen) then unique_from seen l'
               else x :: unique_from (x :: seen) l'
  end.

Lemma elem_of_unique_from seen l x :
  x ∈ unique_from seen l ↔ x ∈ l ∧ x ∉ seen.
Proof.
  revert seen. induction l as [|y l IH]; intros seen; simpl; [set_solver|].
  case_decide; [rewrite IH; set_solver|].
  rewrite elem_of_cons, IH. destruct (decide (x = y)) as [->|]; set_solver.
Qed.

Lemma NoDup_unique_from seen l : NoDup (unique_from seen l).
Proof.
  revert seen. induction l as [|y l IH]; intros seen; simpl; [constructor|].
  case_decide; [done|]. constructor; [|done].
  rewrite elem_of_unique_from. set_solver.
Qed.

Lemma unique_from_nil seen l : (∀ x, x ∈ l → x ∈ seen) → unique_from seen l = [].
Proof.
  induction l as [|y l IH]; intros H; simpl; [done|].
  case_decide; [|set_solver]. apply IH. set_solver.
Qed.
End dedup.

(** ** Comparison functions, as Python compares sort keys

    A [good_compare] is a total preorder given by its three-way comparison;
    tuples of keys compare lexicographically. *)
Definition not_gt (c : comparison) : bool := match c with Gt => false | _ => true end.
Definition lex (c1 c2 : comparison) : comparison := match c1 with Eq => c2 | _ => c1 end.

Record good_compare {A} (c : A → A → comparison) : Prop := {
  gc_flip a b : c b a = CompOpp (c a b);
  gc_eq a b d : c a b = Eq → c a d = c b d;
  gc_lt a b d : c a b = Lt → c b d = Lt → c a d = Lt;
}.

Section compare.
Context {A : Type}.
Implicit Types c : A → A → comparison.

Lemma good_lex c1 c2 :
  good_compare c1 → good_compare c2 → good_compare (λ a b, lex (c1 a b) (c2 a b)).
Proof.
  intros [f1 e1 l1] [f2 e2 l2]. split.
  - intros a b. rewrite (f1 a b), (f2 a b). by destruct (c1 a b).
  - intros a b d. unfold lex. destruct (c1 a b) eqn:E; [|done..].
    intros H. by rewrite (e1 a b d E), (e2 a b d H).
  - intros a b d. unfold lex. destruct (c1 a b) eqn:E1; [|intros _|done].
    + intros H. rewrite (e1 a b d E1). destruct (c1 b d); [|done..]. by apply l2.
    + destruct (c1 b d) eqn:E2; [intros _|intros _|done].
      * assert (c1 a d = Lt) as ->; [|done].
        rewrite (f1 d a), (e1 d b a), (f1 a b), E1; [done|]. by rewrite (f1 b d), E2.
      * by rewrite (l1 a b d).
Qed.

Lemma good_map {B} (f : B → A) c : good_compare c → good_compare (λ x y, c (f x) (f y)).
Proof.
  intros [H1 H2 H3]. split; [intros; apply H1 | intros ???; apply H2 | intros ???; apply H3].
Qed.

Lemma good_opp c : good_compare c → good_compare (λ a b, c b a).
Proof.
  intros [f e l]. split; [intros; apply f | |].
  - intros a b d H. rewrite (f a d), (f b d), (f d a), (f d b), !CompOpp_involutive.
    rewrite (f a d), (f b d). f_equal. apply e. by rewrite f, H.
  - intros a b d H1 H2. by apply (l d b a).
Qed.

Lemma good_total c a b : good_compare c → not_gt (c a b) = true ∨ not_gt (c b a) = true.
Proof. intros [f _ _]. rewrite (f a b). destruct (c a b); simpl; auto. Qed.

Lemma good_trans c a b d :
  good_compare c → not_gt (c a b) = true → not_gt (c b d) = true → not_gt (c a d) = true.
Proof.
  intros [f e l]. destruct (c a b) eqn:E1; [| |done]; intros _.
  - by rewrite (e a b d E1).
  - destruct (c b d) eqn:E2; [| |done]; intros _.
    + assert (c a d = Lt) as ->; [|done].
      rewrite (f d a), (e d b a), (f a b), E1; [done|]. by rewrite (f b d), E2.
    + by rewrite (l a b d).
Qed.

Lemma good_antisym c a b :
  good_compare c → not_gt (c a b) = true → not_gt (c b a) = true → c a b = Eq.
Proof. intros [f _ _]. rewrite (f a b). by destruct (c a b). Qed.

(** Sorting by a good comparison. *)
Lemma sort_sorted c l :
  good_compare c → StronglySorted (λ x y, not_gt (c x y) = true) (sorted_by (λ x y, not_gt (c x y)) l).
Proof.
  intros Hc. apply Sorted_StronglySorted.
  - intros a b d. by apply good_trans.
  - apply sorted_by_sorted. intros. by apply good_total.
Qed.

Lemma sort_unique c l k :
  good_compare c → (∀ a b, a ∈ l → b ∈ l → c a b = Eq → a = b) → Permutation l k →
  sorted_by (λ x y, not_gt (c x y)) l = sorted_by (λ x y, not_gt (c x y)) k.
Proof.
  intros Hc Heq. apply sorted_by_unique.
  - intros. by apply good_total.
  - intros ???. by apply good_trans.
  - intros a b Ha Hb H1 H2. apply Heq; [done..|]. by apply good_antisym.
Qed.
End compare.

Lemma good_Z : good_compare Z.compare.
Proof.
  split.
  - intros a b. apply Z.compare_antisym.
  - intros a b d H. apply Z.compare_eq in H. by subst.
  - intros a b d. rewrite !Z.compare_lt_iff. lia.
Qed.

Lemma ascii_compare_N a b : Ascii.compare a b = N.compare (Ascii.N_of_ascii a) (Ascii.N_of_ascii b).
Proof. done. Qed.

Lemma good_string : good_compare String.compare.
Proof.
  split.
  - intros a b. apply String.compare_antisym.
  - intros a b d H. apply String.compare_eq_iff in H. by subst.
  - intros a. induction a as [|x a IH]; intros [|y b] [|z d]; simpl; try done.
    rewrite !ascii_compare_N.
    destruct (N.compare_spec (Ascii.N_of_ascii x) (Ascii.N_of_ascii y)) as [E1|E1|E1]; [|intros _|done];
    destruct (N.compare_spec (Ascii.N_of_ascii y) (Ascii.N_of_ascii z)) as [E2|E2|E2]; try done.
    + intros H1 H2. rewrite E1, E2, N.compare_refl. by apply (IH b d).
    + intros _ _. rewrite E1. by apply N.compare_lt_iff in E2 as ->.
    + intros _. rewrite <- E2. by apply N.compare_lt_iff in E1 as ->.
    + intros _. assert (Ascii.N_of_ascii x < Ascii.N_of_ascii z)%N as H by lia.
      by apply N.compare_lt_iff in H as ->.
Qed.

#[export] Hint Resolve good_lex good_map good_opp good_Z good_string : daybreak.

(** Elements that a key tells apart are told apart by a comparison that ends
    with the key. *)
Lemma NoDup_map_inj {A B} (f : A → B) (l : list A) a b :
  NoDup (map f l) → a ∈ l → b ∈ l → f a = f b → a = b.
Proof.
  induction l as [|x l IH]; simpl; [set_solver|].
  intros Hnd Ha Hb Hf. apply NoDup_cons in Hnd as [Hx Hnd].
  assert (∀ y, y ∈ l → f y ∈ map f l) as Hin by (intros y Hy; apply list_elem_of_fmap; eauto).
  apply elem_of_cons in Ha as [->|Ha]; apply elem_of_cons in Hb as [->|Hb]; [done| | |by apply IH].
  - exfalso. apply Hx. rewrite Hf. by apply Hin.
  - exfalso. apply Hx. rewrite <- Hf. by apply Hin.
Qed.

Lemma NoDup_of_map {A B} (f : A → B) (l : list A) : NoDup (map f l) → NoDup l.
Proof. apply NoDup_fmap_1. Qed.

Lemma filter_ext_in {A} (P Q : A → Prop) `{∀ x, Decision (P x)} `{∀ x, Decision (Q x)} (l : list A) :
  (∀ x, x ∈ l → P x ↔ Q x) → filter P l = filter Q l.
Proof.
  induction l as [|x l IH]; intros H'; [done|].
  rewrite !filter_cons. rewrite IH by (intros; apply H'; by constructor).
  assert (P x ↔ Q x) as Hx by (apply H'; constructor).
  destruct (decide (P x)), (decide (Q x)); tauto.
Qed.

Lemma StronglySorted_filter {A} (R : A → A → Prop) (P : A → Prop) `{∀ x, Decision (P x)} (l : list A) :
  StronglySorted R l → StronglySorted R (filter P l).
Proof.
  induction 1 as [|x l Hs IH Hf]; [constructor|]. rewrite filter_cons.
  case_decide; [|done]. constructor; [done|].
  apply Forall_forall. intros y Hy. apply list_elem_of_filter in Hy as [_ Hy].
  by eapply Forall_forall in Hf.
Qed.

Lemma StronglySorted_app_intro {A} (R : A → A → Prop) (l k : list A) :
  StronglySorted R l → StronglySorted R k → (∀ x y, x ∈ l → y ∈ k → R x y) →
  StronglySorted R (l ++ k).
Proof.
  induction 1 as [|x l Hs IH Hf]; intros Hk Hx; simpl; [done|].
  constructor; [apply IH; set_solver|].
  apply Forall_app. split; [done|]. apply Forall_forall. intros y Hy. apply Hx; [constructor | done].
Qed.

Lemma NoDup_map_filter {A B} (f : A → B) (P : A → Prop) `{∀ x, Decision (P x)} (l : list A) :
  NoDup (map f l) → NoDup (map f (filter P l)).
Proof.
  induction l as [|x l IH]; simpl; [done|]. intros Hnd.
  apply NoDup_cons in Hnd as [Hx Hnd]. rewrite filter_cons. case_decide; [|by apply IH].
  simpl. apply NoDup_cons. split; [|by apply IH].
  intros Hin. apply Hx. apply list_elem_of_fmap in Hin as (y & -> & Hy).
  apply list_elem_of_filter in Hy as [_ Hy]. apply list_elem_of_fmap. eauto.
Qed.

(** ** Python's [==] on model values

    Models compare field by field, decimals by value; everything else by
    structural equality. *)
Class PyEq (A : Type) := py_eqb : A → A → bool.
Class PyEqLaws (A : Type) `{PyEq A} := {
  py_eqb_refl a : py_eqb a a = true;
  py_eqb_sym a b : py_eqb a b = py_eqb b a;
  py_eqb_trans a b c : py_eqb a b = true → py_eqb b c = true → py_eqb a c = true;
}.

#[export] Instance py_eq_dec {A} `{EqDecision A} : PyEq A | 10 := λ a b, bool_decide (a = b).
#[export] Instance py_eq_prod {A B} `{PyEq A, PyEq B} : PyEq (A * B) | 1 :=
  λ a b, py_eqb a.1 b.1 && py_eqb a.2 b.2.
#[export] Instance py_eq_option {A} `{PyEq A} : PyEq (option A) | 1 := λ a b,
  match a, b with Some x, Some y => py_eqb x y | None, None => true | _, _ => false end.
#[export] Instance py_eq_list {A} `{PyEq A} : PyEq (list A) | 1 :=
  fix go l k := match l, k with
  | [], [] => true | x :: l', y :: k' => py_eqb x y && go l' k' | _, _ => false end.

#[export] Instance py_eq_dec_laws {A} `{EqDecision A} : PyEqLaws A | 10.
Proof.
  split; unfold py_eqb, py_eq_dec.
  - intros a. by apply bool_decide_eq_true.
  - intros a b. apply bool_decide_ext. split; congruence.
  - intros a b c E1 E2. bool_to_prop. apply bool_decide_eq_true. congruence.
Qed.

#[export] Instance py_eq_prod_laws {A B} `{PyEqLaws A, PyEqLaws B} : PyEqLaws (A * B) | 1.
Proof.
  split; unfold py_eqb, py_eq_prod.
  - intros [a b]. by rewrite !py_eqb_refl.
  - intros [a b] [c d]; simpl. by rewrite (py_eqb_sym a), (py_eqb_sym b).
  - intros [a b] [c d] [e f] E1 E2; simpl in *. bool_to_prop. apply andb_true_iff.
    split; eapply py_eqb_trans; eauto.
Qed.

#[export] Instance py_eq_option_laws {A} `{PyEqLaws A} : PyEqLaws (option A) | 1.
Proof.
  split; unfold py_eqb, py_eq_option.
  - intros [a|]; [apply py_eqb_refl | done].
  - intros [a|] [b|]; try done. apply py_eqb_sym.
  - intros [a|] [b|] [c|]; try done. apply py_eqb_trans.
Qed.

#[export] Instance py_eq_list_laws {A} `{PyEqLaws A} : PyEqLaws (list A) | 1.
Proof.
  split; unfold py_eqb, py_eq_list.
  - intros l. induction l as [|a l IH]; simpl; [done|]. by rewrite py_eqb_refl, IH.
  - intros l. induction l as [|a l IH]; intros [|b k]; simpl; try done. by rewrite py_eqb_sym, IH.
  - intros l. induction l as [|a l IH]; intros [|b k] [|c m]; simpl; try done.
    intros E1 E2. bool_to_prop. apply andb_true_iff. split; [by eapply py_eqb_trans | by eapply IH].
Qed.

(** Equality of a record through the tuple of its fields. *)
Lemma py_eq_via {A B} `{PyEqLaws B} (f : A → B) :
  @PyEqLaws A (λ a b, py_eqb (f a) (f b)).
Proof.
  split.
  - intros a. apply (py_eqb_refl (f a)).
  - intros a b. apply (py_eqb_sym (f a)).
  - intros a b c. apply (py_eqb_trans (f a)).
Qed.
