(* ===== verification/Numerics.v ===== *)
(** * Numerics: Python's decimal and float arithmetic

    The arithmetic the source relies on, from the Standard Library of Python:
    [decimal.Decimal] in the default context (28 significant digits, ties to
    even, the traps InvalidOperation and DivisionByZero enabled) and binary64
    floats where the source converts a [timedelta].  Both are instances of one
    correctly rounded quotient, [round_sig], whose error bound carries every
    numeric theorem of the development.  Exponents are unbounded: Python's
    limits (10^±999999, 2^1023) are far from any value the models admit. *)
From Stdlib Require Import QArith Qabs Lqa Qpower Qround.
From S2P Require Import Prelude.

#[local] Open Scope Z_scope.

(** ** Integer division under a rounding mode *)

Inductive rounding := RFloor | RCeiling | RHalfEven.

Definition div_half_even (n d : Z) : Z :=
  let q := n / d in let r := n mod d in
  if 2 * r <? d then q else if d <? 2 * r then q + 1
  else if Z.even q then q else q + 1.

Definition round_div (mode : rounding) (n d : Z) : Z :=
  match mode with
  | RFloor => n / d
  | RCeiling => - ((- n) / d)
  | RHalfEven => div_half_even n d
  end.

(** ** Digit counts *)

Fixpoint ndigits_aux (fuel : nat) (b n : Z) : Z :=
  match fuel with
  | O => 0
  | S f => if n =? 0 then 0 else 1 + ndigits_aux f b (n / b)
  end.

(** Number of base-[b] digits of [|n|]; 0 for 0. *)
Definition ndigits (b n : Z) : Z := ndigits_aux (S (Z.to_nat (Z.log2 (Z.abs n)))) b (Z.abs n).

(** ** The correctly rounded quotient

    [round_sig b p n d] is [(m, e)] with [m * b^e] the [p]-digit base-[b]
    number nearest to [n / d] (ties to even), for [0 < n] and [0 < d]. *)
Definition quotient_exponent (b p n d : Z) : Z :=
  let k := ndigits b n - ndigits b d in
  if (if 0 <=? k then d * b ^ k <=? n else d <=? n * b ^ (- k)) then k + 1 - p else k - p.

Definition round_sig (b p n d : Z) : Z * Z :=
  let e := quotient_exponent b p n d in
  let m := div_half_even (n * b ^ Z.max 0 (- e)) (d * b ^ Z.max 0 e) in
  if m =? b ^ p then (b ^ (p - 1), e + 1) else (m, e).

(** ** Decimal *)

(** [Dec c e] is Python's finite decimal with value [c * 10^e]. *)
Record decimal := Dec { coef : Z; expo : Z }.

#[global] Instance decimal_eq_dec : EqDecision decimal.
Proof. solve_decision. Defined.

Definition prec : Z := 28.

Module dec.
Definition of_Z (z : Z) : decimal := Dec z 0.
Definition zero : decimal := Dec 0 0.

(** The rounding of a result to the context ([_fix]). *)
Definition fix_ (a : decimal) : decimal :=
  let k := ndigits 10 (coef a) - prec in
  if k <=? 0 then a else
  let c := div_half_even (coef a) (10 ^ k) in
  if Z.abs c =? 10 ^ prec then Dec (c / 10) (expo a + k + 1) else Dec c (expo a + k).

Definition align (a : decimal) (e : Z) : Z := coef a * 10 ^ (expo a - e).

Definition add (a b : decimal) : decimal :=
  let e := Z.min (expo a) (expo b) in fix_ (Dec (align a e + align b e) e).
Definition sub (a b : decimal) : decimal :=
  let e := Z.min (expo a) (expo b) in fix_ (Dec (align a e - align b e) e).
Definition mul (a b : decimal) : decimal := fix_ (Dec (coef a * coef b) (expo a + expo b)).
Definition neg (a : decimal) : decimal := fix_ (Dec (- coef a) (expo a)).
Definition abs (a : decimal) : decimal := fix_ (Dec (Z.abs (coef a)) (expo a)).

Fixpoint strip_zeros (fuel : nat) (c e ideal : Z) : decimal :=
  match fuel with
  | O => Dec c e
  | S f => if (e <? ideal) && (c mod 10 =? 0) then strip_zeros f (c / 10) (e + 1) ideal
           else Dec c e
  end.

(** True division: correctly rounded; an exact quotient is brought as close
    as possible to the exponent [expo a - expo b]. *)
Definition div (a b : decimal) : result decimal :=
  if coef b =? 0 then Err (if coef a =? 0 then EInvalidOperation else EZeroDivision)
  else if coef a =? 0 then Ok (Dec 0 (expo a - expo b))
  else
    let n := Z.abs (coef a) in let d := Z.abs (coef b) in
    let s := Z.sgn (coef a) * Z.sgn (coef b) in
    let ideal := expo a - expo b in
    let (m, e) := round_sig 10 prec n d in
    let exact := n * 10 ^ Z.max 0 (- e) =? m * (d * 10 ^ Z.max 0 e) in
    Ok (if exact then strip_zeros 28 (s * m) (e + ideal) ideal else Dec (s * m) (e + ideal)).

(** The rescaling of [quantize] and [to_integral_value]. *)
Definition rescale (mode : rounding) (a : decimal) (e : Z) : decimal :=
  if e <=? expo a then Dec (align a e) e
  else Dec (round_div mode (coef a) (10 ^ (e - expo a))) e.

Definition quantize (a : decimal) (e : Z) (mode : rounding) : result decimal :=
  let r := rescale mode a e in
  if prec <? ndigits 10 (coef r) then Err EInvalidOperation else Ok r.

Definition to_integral_value (a : decimal) (mode : rounding) : decimal :=
  if 0 <=? expo a then a else rescale mode a 0.

(** [int(x)]: truncation towards zero. *)
Definition to_int (a : decimal) : Z :=
  if 0 <=? expo a then coef a * 10 ^ expo a else Z.quot (coef a) (10 ^ (- expo a)).

(** Comparison is exact and by value. *)
Definition compare (a b : decimal) : comparison :=
  let e := Z.min (expo a) (expo b) in Z.compare (align a e) (align b e).
Definition leb (a b : decimal) : bool := match compare a b with Gt => false | _ => true end.
Definition ltb (a b : decimal) : bool := match compare a b with Lt => true | _ => false end.
Definition eqb (a b : decimal) : bool := match compare a b with Eq => true | _ => false end.

(** Python's [min] and [max] keep the first of equal arguments. *)
Definition min (a b : decimal) : decimal := if ltb b a then b else a.
Definition max (a b : decimal) : decimal := if ltb a b then b else a.

Definition sum (l : list decimal) : decimal := fold_left add l zero.
End dec.

Declare Scope dec_scope.
Delimit Scope dec_scope with dec.
Bind Scope dec_scope with decimal.
Infix "<=?" := dec.leb (at level 70, no associativity) : dec_scope.
Infix "<?" := dec.ltb (at level 70, no associativity) : dec_scope.
Infix "=?" := dec.eqb (at level 70, no associativity) : dec_scope.
Infix "+" := dec.add : dec_scope.
Infix "-" := dec.sub : dec_scope.
Infix "*" := dec.mul : dec_scope.

(** ** Floats from time intervals *)

(** A finite nonnegative-exponent-free double [fm * 2^fe]. *)
Record flt := Flt { fm : Z; fe : Z }.

Module flt.
(** The double nearest to [n / d]; [0 < d]. *)
Definition of_ratio (n d : Z) : flt :=
  if n =? 0 then Flt 0 0
  else let (m, e) := round_sig 2 53 (Z.abs n) d in Flt (Z.sgn n * m) e.

(** The product with an integer, rounded. *)
Definition mul_Z (a : flt) (k : Z) : flt :=
  if 0 <=? fe a then of_ratio (fm a * k * 2 ^ fe a) 1 else of_ratio (fm a * k) (2 ^ (- fe a)).

(** [int(x)]. *)
Definition to_int (a : flt) : Z :=
  if 0 <=? fe a then fm a * 2 ^ fe a else Z.quot (fm a) (2 ^ (- fe a)).

(** Exact comparison with an integer, as Python compares float and int. *)
Definition ltb_Z (a : flt) (k : Z) : bool :=
  if 0 <=? fe a then fm a * 2 ^ fe a <? k else fm a <? k * 2 ^ (- fe a).
Definition gtb_Z (a : flt) (k : Z) : bool :=
  if 0 <=? fe a then k <? fm a * 2 ^ fe a else k * 2 ^ (- fe a) <? fm a.
End flt.

(** [timedelta.total_seconds()] of an interval in microseconds. *)
Definition total_seconds (us : Z) : flt := flt.of_ratio us 1000000.
(** [delta.total_seconds() * 1000], and its truncation by [int]. *)
Definition total_ms (us : Z) : flt := flt.mul_Z (total_seconds us) 1000.
Definition age_ms (us : Z) : Z := flt.to_int (total_ms us).


(** ** Rational values and the error of one rounding *)

Section powers.
#[local] Open Scope Q_scope.
Variable b : Z.
Hypothesis Hb : (2 <= b)%Z.

Definition bp (e : Z) : Q := Qpower (inject_Z b) e.

Lemma inject_b_pos : 0 < inject_Z b.
Proof. unfold Qlt; simpl; lia. Qed.

Lemma bp_pos e : 0 < bp e.
Proof. apply Qpower_0_lt, inject_b_pos. Qed.

Lemma bp_add e f : bp (e + f) == bp e * bp f.
Proof.
  apply Qpower_plus. intros H. pose proof inject_b_pos as Hp. rewrite H in Hp. by apply Qlt_irrefl in Hp.
Qed.

Lemma bp_nonneg e : (0 <= e)%Z → bp e == inject_Z (b ^ e).
Proof.
  intros He. unfold bp. by rewrite Zpower_Qpower by done.
Qed.

Lemma bp_0 : bp 0 == 1.
Proof. done. Qed.

Lemma bp_opp e : bp (- e) * bp e == 1.
Proof. rewrite <- bp_add. replace (- e + e)%Z with 0%Z by lia. done. Qed.

Lemma bp_ge_1 e : (0 <= e)%Z → 1 <= bp e.
Proof.
  intros He. rewrite bp_nonneg by done. change 1 with (inject_Z 1).
  rewrite <- Zle_Qle. pose proof (Z.pow_pos_nonneg b e). lia.
Qed.

Lemma bp_mono e f : (e <= f)%Z → bp e <= bp f.
Proof.
  intros Hef. replace f with (e + (f - e))%Z by lia. rewrite bp_add.
  pose proof (bp_ge_1 (f - e) ltac:(lia)). pose proof (bp_pos e). nra.
Qed.

Lemma bp_lt e f : bp e < bp f → (e < f)%Z.
Proof.
  intros H. destruct (Z_lt_le_dec e f) as [|Hle]; [done|].
  apply bp_mono in Hle. lra.
Qed.

Lemma bp_S e : bp (e + 1) == bp e * inject_Z b.
Proof. by rewrite bp_add. Qed.
End powers.

Lemma inject_Z_pos z : 0 < z → (0 < inject_Z z)%Q.
Proof. intros. unfold Qlt; simpl; lia. Qed.

Lemma ndigits_aux_spec fuel b n :
  2 <= b → 0 <= n < 2 ^ Z.of_nat fuel →
  0 <= ndigits_aux fuel b n ∧ n < b ^ ndigits_aux fuel b n ∧
  (0 < n → b ^ (ndigits_aux fuel b n - 1) <= n ∧ 1 <= ndigits_aux fuel b n).
Proof.
  intros Hb. revert n. induction fuel as [|f IH]; intros n Hn.
  - change (2 ^ Z.of_nat 0) with 1 in Hn. simpl. rewrite Z.pow_0_r. lia.
  - cbn [ndigits_aux]. destruct (Z.eqb_spec n 0) as [->|Hn0]; [simpl; lia|].
    assert (0 <= n / b < 2 ^ Z.of_nat f) as Hq.
    { split; [apply Z.div_pos; lia|]. apply Z.div_lt_upper_bound; [lia|].
      rewrite Nat2Z.inj_succ, Z.pow_succ_r in Hn by lia. nia. }
    specialize (IH (n / b) Hq) as (H0 & H1 & H2).
    set (k := ndigits_aux f b (n / b)) in *.
    pose proof (Z.div_mod n b ltac:(lia)) as Hdm.
    pose proof (Z.mod_pos_bound n b ltac:(lia)) as Hmod.
    split; [lia|]. split.
    + replace (1 + k) with (Z.succ k) by lia. rewrite Z.pow_succ_r by lia. nia.
    + intros _. replace (1 + k - 1) with k by lia. split; [|lia].
      destruct (Z.eq_dec (n / b) 0) as [Hz|Hz].
      * assert (k = 0) as ->.
        { unfold k. rewrite Hz. by destruct f. }
        rewrite Z.pow_0_r. lia.
      * destruct H2 as [H2 H3]; [lia|].
        replace k with (Z.succ (k - 1)) by lia. rewrite Z.pow_succ_r by lia. nia.
Qed.

Lemma ndigits_spec b n : 2 <= b → n ≠ 0 →
  1 <= ndigits b n ∧ b ^ (ndigits b n - 1) <= Z.abs n < b ^ ndigits b n.
Proof.
  intros Hb Hn. unfold ndigits.
  destruct (ndigits_aux_spec (S (Z.to_nat (Z.log2 (Z.abs n)))) b (Z.abs n)) as (H0 & H1 & H2); [done| |].
  - pose proof (Z.log2_spec (Z.abs n) ltac:(lia)) as [_ H].
    pose proof (Z.log2_nonneg (Z.abs n)).
    rewrite Nat2Z.inj_succ, Z2Nat.id by lia. lia.
  - specialize (H2 ltac:(lia)). lia.
Qed.

Lemma ndigits_0 b : ndigits b 0 = 0.
Proof. done. Qed.

Lemma ndigits_nonneg b n : 2 <= b → 0 <= ndigits b n.
Proof. intros Hb. destruct (Z.eq_dec n 0) as [->|]; [done|]. pose proof (ndigits_spec b n Hb). lia. Qed.

(** [|n| < b^k] is the same as having at most [k] digits. *)
Lemma ndigits_le b n k : 2 <= b → 0 <= k → (ndigits b n <= k ↔ Z.abs n < b ^ k).
Proof.
  intros Hb Hk. destruct (Z.eq_dec n 0) as [->|Hn].
  { rewrite ndigits_0. split; intros; [|lia]. pose proof (Z.pow_pos_nonneg b k). lia. }
  destruct (ndigits_spec b n Hb Hn) as (H1 & H2 & H3). split; intros H.
  - eapply Z.lt_le_trans; [apply H3|]. apply Z.pow_le_mono_r; lia.
  - destruct (Z_le_gt_dec (ndigits b n) k); [done|exfalso].
    assert (b ^ k <= b ^ (ndigits b n - 1)) by (apply Z.pow_le_mono_r; lia). lia.
Qed.

Lemma div_half_even_err N D : 0 < D → 2 * Z.abs (div_half_even N D * D - N) <= D.
Proof.
  intros HD. unfold div_half_even.
  pose proof (Z.div_mod N D ltac:(lia)). pose proof (Z.mod_pos_bound N D HD).
  destruct (Z.ltb_spec (2 * (N mod D)) D); [lia|].
  destruct (Z.ltb_spec D (2 * (N mod D))); [lia|].
  destruct (Z.even (N / D)); lia.
Qed.

Lemma div_half_even_exact N D : 0 < D → N mod D = 0 → div_half_even N D = N / D.
Proof.
  intros HD Hm. unfold div_half_even. rewrite Hm.
  destruct (Z.ltb_spec (2 * 0) D); [done | lia].
Qed.

Lemma Qdiv_scale (n d b e : Z) : 2 <= b → 0 < d →
  (inject_Z (n * b ^ Z.max 0 (- e)) / inject_Z (d * b ^ Z.max 0 e) ==
   inject_Z n / inject_Z d * bp b (- e))%Q.
Proof.
  intros Hb Hd.
  pose proof (inject_Z_pos d Hd) as Hd'. pose proof (bp_pos b Hb e) as Hp.
  destruct (Z_le_gt_dec 0 e) as [He|He].
  - replace (Z.max 0 (- e)) with 0 by lia. replace (Z.max 0 e) with e by lia.
    rewrite Z.pow_0_r, Z.mul_1_r, inject_Z_mult, <- (bp_nonneg b e He).
    pose proof (bp_opp b Hb e) as Ho.
    assert (bp b (- e) == / bp b e)%Q as ->.
    { field_simplify_eq; [|lra]. lra. }
    field. split; lra.
  - replace (Z.max 0 (- e)) with (- e) by lia. replace (Z.max 0 e) with 0 by lia.
    rewrite Z.pow_0_r, Z.mul_1_r, inject_Z_mult, <- (bp_nonneg b (- e)) by lia.
    field. lra.
Qed.

Section round.
Variables b p n d : Z.
Hypothesis Hb : 2 <= b.
Hypothesis Hp : 1 <= p.
Hypothesis Hn : 0 < n.
Hypothesis Hd : 0 < d.

Let x : Q := (inject_Z n / inject_Z d)%Q.
Let e := quotient_exponent b p n d.
Let M := div_half_even (n * b ^ Z.max 0 (- e)) (d * b ^ Z.max 0 e).

Lemma quotient_pos : (0 < x)%Q.
Proof.
  pose proof (inject_Z_pos n Hn). pose proof (inject_Z_pos d Hd).
  unfold x. apply Qlt_shift_div_l; [done|]. lra.
Qed.

Lemma quotient_bracket : (bp b (e + p - 1) <= x /\ x < bp b (e + p))%Q.
Proof.
  destruct (ndigits_spec b n Hb ltac:(lia)) as (N1 & N2 & N3).
  destruct (ndigits_spec b d Hb ltac:(lia)) as (D1 & D2 & D3).
  rewrite Z.abs_eq in N2, N3, D2, D3 by lia.
  set (kn := ndigits b n) in *. set (kd := ndigits b d) in *.
  rewrite Zle_Qle, <- bp_nonneg in N2, D2 by lia.
  rewrite Zlt_Qlt, <- bp_nonneg in N3, D3 by lia.
  pose proof (inject_Z_pos n Hn) as Hn'. pose proof (inject_Z_pos d Hd) as Hd'.
  pose proof (bp_pos b Hb) as Hpos.
  assert (bp b (kn - kd - 1) <= x)%Q as Hlo.
  { unfold x. apply Qle_shift_div_l; [done|].
    setoid_replace (bp b (kn - kd - 1) * inject_Z d)%Q
      with (bp b (kn - 1) * (bp b (- kd) * inject_Z d))%Q using relation Qeq
      by (replace (kn - kd - 1) with (kn - 1 + - kd) by lia; rewrite bp_add by done; ring).
    pose proof (bp_opp b Hb kd). pose proof (Hpos (- kd)). pose proof (Hpos (kn - 1)).
    assert (bp b (- kd) * inject_Z d <= 1)%Q by nra. nra. }
  assert (x < bp b (kn - kd + 1))%Q as Hhi.
  { unfold x. apply Qlt_shift_div_r; [done|].
    setoid_replace (bp b (kn - kd + 1) * inject_Z d)%Q
      with (bp b kn * (bp b (- (kd - 1)) * inject_Z d))%Q using relation Qeq
      by (replace (kn - kd + 1) with (kn + - (kd - 1)) by lia; rewrite bp_add by done; ring).
    pose proof (bp_opp b Hb (kd - 1)). pose proof (Hpos (- (kd - 1))). pose proof (Hpos kn).
    assert (1 <= bp b (- (kd - 1)) * inject_Z d)%Q by nra. nra. }
  unfold e, quotient_exponent. fold kn kd. set (k := kn - kd) in *.
  assert ((if (if 0 <=? k then d * b ^ k <=? n else d <=? n * b ^ (- k)) then true else false) = true
    ↔ (bp b k <= x)%Q) as Htest.
  { destruct (Z.leb_spec 0 k) as [Hk|Hk].
    - assert (bp b k <= x <-> inject_Z (d * b ^ k) <= inject_Z n)%Q as ->.
      { rewrite inject_Z_mult, <- bp_nonneg by done. unfold x. split; intros H.
        - apply (Qmult_le_r _ _ (inject_Z d)) in H; [|done].
          setoid_replace (inject_Z n / inject_Z d * inject_Z d)%Q with (inject_Z n) using relation Qeq in H by (field; lra). lra.
        - apply Qle_shift_div_l; [done|]. lra. }
      rewrite <- Zle_Qle. destruct (Z.leb_spec (d * b ^ k) n); split; intros; try done; lia.
    - assert (bp b k <= x <-> inject_Z d <= inject_Z (n * b ^ (- k)))%Q as ->.
      { rewrite inject_Z_mult, <- bp_nonneg by lia. unfold x.
        pose proof (bp_opp b Hb k). pose proof (Hpos k). pose proof (Hpos (- k)). split; intros H'.
        - apply (Qmult_le_r _ _ (inject_Z d)) in H'; [|done].
          setoid_replace (inject_Z n / inject_Z d * inject_Z d)%Q with (inject_Z n) using relation Qeq in H' by (field; lra). nra.
        - apply Qle_shift_div_l; [done|]. nra. }
      rewrite <- Zle_Qle. destruct (Z.leb_spec d (n * b ^ (- k))); split; intros; try done; lia. }
  destruct (if 0 <=? k then d * b ^ k <=? n else d <=? n * b ^ (- k)).
  - replace (k + 1 - p + p - 1) with k by lia. replace (k + 1 - p + p) with (k + 1) by lia.
    split; [by apply Htest | done].
  - replace (k - p + p - 1) with (k - 1) by lia. replace (k - p + p) with k by lia.
    split; [done|]. apply Qnot_le_lt. intros H. by apply Htest in H.
Qed.

Definition round_value : Q := (inject_Z (round_sig b p n d).1 * bp b (round_sig b p n d).2)%Q.

Lemma round_value_M : (round_value == inject_Z M * bp b e)%Q.
Proof.
  unfold round_value, round_sig. fold e. fold M.
  destruct (Z.eqb_spec M (b ^ p)) as [->|]; [|done]. cbn [fst snd].
  rewrite <- !bp_nonneg by lia. rewrite <- !bp_add by done.
  by replace (p - 1 + (e + 1)) with (p + e) by lia.
Qed.

Lemma round_half_ulp : (Qabs (round_value - x) <= (1 # 2) * bp b e)%Q.
Proof.
  rewrite round_value_M.
  assert (0 < d * b ^ Z.max 0 e) as HD.
  { apply Z.mul_pos_pos; [done|]. apply Z.pow_pos_nonneg; lia. }
  pose proof (div_half_even_err (n * b ^ Z.max 0 (- e)) _ HD) as Herr. fold M in Herr.
  set (N := n * b ^ Z.max 0 (- e)) in *. set (D := d * b ^ Z.max 0 e) in *.
  assert (Qabs (inject_Z M - inject_Z N / inject_Z D) <= 1 # 2)%Q as HQ.
  { pose proof (inject_Z_pos D HD) as HD'.
    setoid_replace (inject_Z M - inject_Z N / inject_Z D)%Q
      with (inject_Z (M * D - N) / inject_Z D)%Q using relation Qeq.
    2:{ unfold Zminus. rewrite inject_Z_plus, inject_Z_mult, inject_Z_opp. field. lra. }
    unfold Qdiv. rewrite Qabs_Qmult, (Qabs_pos (/ inject_Z D)) by (apply Qinv_le_0_compat; lra).
    apply Qle_shift_div_r; [done|]. change (Qabs (inject_Z (M * D - N))) with (inject_Z (Z.abs (M * D - N))).
    unfold Qle. simpl. lia. }
  unfold N, D in HQ. rewrite (Qdiv_scale n d b e Hb Hd) in HQ. fold x in HQ.
  pose proof (bp_pos b Hb e). pose proof (bp_opp b Hb e).
  assert (x * bp b (- e) * bp b e == x)%Q as Hx by (rewrite <- Qmult_assoc, (bp_opp b Hb e); ring).
  setoid_replace (inject_Z M * bp b e - x)%Q with ((inject_Z M - x * bp b (- e)) * bp b e)%Q using relation Qeq by lra.
  rewrite Qabs_Qmult, (Qabs_pos (bp b e)) by lra. nra.
Qed.

Lemma round_rel_err : (Qabs (round_value - x) <= (1 # 2) * bp b (1 - p) * x)%Q.
Proof.
  pose proof round_half_ulp as H. destruct quotient_bracket as [Hlo _].
  assert (bp b e <= bp b (1 - p) * x)%Q as He.
  { replace e with (1 - p + (e + p - 1)) at 1 by lia. rewrite bp_add by done.
    pose proof (bp_pos b Hb (1 - p)). nra. }
  lra.
Qed.

(** A positive quotient does not round to zero. *)
Lemma round_sig_pos : 0 < (round_sig b p n d).1.
Proof.
  pose proof round_rel_err as Herr. pose proof quotient_pos as Hx. unfold round_value in Herr.
  destruct (round_sig b p n d) as [m e']. cbn [fst snd] in *. destruct (Z_lt_le_dec 0 m) as [|Hle]; [done|]. exfalso.
  assert (inject_Z m <= 0)%Q as Hm0 by (by rewrite Zle_Qle in Hle).
  pose proof (bp_pos b Hb e') as He. assert (bp b (1 - p) <= 1)%Q as Hb1.
  { rewrite <- (bp_0 b). apply bp_mono; [done | lia]. }
  pose proof (bp_pos b Hb (1 - p)). assert (inject_Z m * bp b e' <= 0)%Q by nra.
  rewrite Qabs_neg in Herr by nra. nra.
Qed.

(** A quotient that has at most [p] digits is not rounded. *)
Lemma round_exact k t :
  0 < k < b ^ p → (x == inject_Z k * bp b t)%Q → (round_value == x)%Q.
Proof.
  intros Hk Hx. destruct quotient_bracket as [Hlo _].
  assert (e <= t) as Het.
  { assert (bp b (e + p - 1) < bp b (p + t))%Q as Hlt.
    { rewrite (bp_add b Hb p t). rewrite Hx in Hlo.
      assert (inject_Z k < bp b p)%Q by (rewrite bp_nonneg by lia; rewrite <- Zlt_Qlt; lia).
      pose proof (bp_pos b Hb t). nra. }
    apply bp_lt in Hlt; [lia | done]. }
  set (N := n * b ^ Z.max 0 (- e)). set (D := d * b ^ Z.max 0 e).
  assert (0 < D) as HD by (apply Z.mul_pos_pos; [done|]; apply Z.pow_pos_nonneg; lia).
  assert (N = k * b ^ (t - e) * D) as HND.
  { pose proof (Qdiv_scale n d b e Hb Hd) as HQ. fold N D x in HQ.
    rewrite Hx, <- Qmult_assoc, <- bp_add in HQ by done.
    rewrite bp_nonneg, <- inject_Z_mult in HQ by lia.
    replace (t + - e) with (t - e) in HQ by lia.
    pose proof (inject_Z_pos D HD).
    apply inject_Z_injective. rewrite inject_Z_mult, <- HQ. field. lra. }
  rewrite round_value_M. unfold M. fold N D.
  rewrite div_half_even_exact, HND, Z.div_mul by (try lia; rewrite HND; apply Z.mod_mul; lia).
  rewrite inject_Z_mult, <- bp_nonneg by lia.
  rewrite Hx, <- Qmult_assoc, <- bp_add by done. by replace (t - e + e) with t by lia.
Qed.
End round.

(** ** Values of decimals *)

Definition dval (a : decimal) : Q := (inject_Z (coef a) * bp 10 (expo a))%Q.

Abbreviation bp10 := (bp 10).
Lemma ten_ok : 2 <= 10. Proof. lia. Qed.
Lemma bp10_pos e : (0 < bp10 e)%Q. Proof. apply bp_pos, ten_ok. Qed.
Lemma bp10_add e f : (bp10 (e + f) == bp10 e * bp10 f)%Q. Proof. apply bp_add, ten_ok. Qed.
Lemma bp10_nonneg e : 0 <= e → (bp10 e == inject_Z (10 ^ e))%Q. Proof. apply bp_nonneg. Qed.

Lemma dval_align a e : e <= expo a → (inject_Z (dec.align a e) * bp10 e == dval a)%Q.
Proof.
  intros He. unfold dec.align, dval.
  rewrite inject_Z_mult, <- bp10_nonneg, <- Qmult_assoc, <- bp10_add by lia.
  by replace (expo a - e + e) with (expo a) by lia.
Qed.

Lemma dval_of_Z z : (dval (dec.of_Z z) == inject_Z z)%Q.
Proof. unfold dval; simpl. change (bp10 0) with 1%Q. ring. Qed.

Lemma dcompare_spec a b : dec.compare a b = (dval a ?= dval b)%Q.
Proof.
  unfold dec.compare. set (e := Z.min (expo a) (expo b)).
  pose proof (dval_align a e ltac:(lia)) as Ha. pose proof (dval_align b e ltac:(lia)) as Hb.
  pose proof (bp10_pos e) as Hp.
  destruct (Z.compare_spec (dec.align a e) (dec.align b e)) as [H|H|H]; symmetry.
  - apply Qeq_alt. by rewrite <- Ha, <- Hb, H.
  - apply Qlt_alt. rewrite <- Ha, <- Hb. apply Qmult_lt_r; [done|]. by rewrite <- Zlt_Qlt.
  - apply Qgt_alt. rewrite <- Ha, <- Hb. apply Qmult_lt_r; [done|]. by rewrite <- Zlt_Qlt.
Qed.

Lemma dleb_spec a b : dec.leb a b = true ↔ (dval a <= dval b)%Q.
Proof. unfold dec.leb. rewrite dcompare_spec. rewrite Qle_alt. by destruct (dval a ?= dval b)%Q. Qed.
Lemma dltb_spec a b : dec.ltb a b = true ↔ (dval a < dval b)%Q.
Proof. unfold dec.ltb. rewrite dcompare_spec. rewrite Qlt_alt. by destruct (dval a ?= dval b)%Q. Qed.
Lemma deqb_spec a b : dec.eqb a b = true ↔ (dval a == dval b)%Q.
Proof. unfold dec.eqb. rewrite dcompare_spec. rewrite Qeq_alt. by destruct (dval a ?= dval b)%Q. Qed.
Lemma dleb_false a b : dec.leb a b = false ↔ (dval b < dval a)%Q.
Proof. unfold dec.leb. rewrite dcompare_spec. rewrite Qgt_alt. by destruct (dval a ?= dval b)%Q. Qed.
Lemma dltb_false a b : dec.ltb a b = false ↔ (dval b <= dval a)%Q.
Proof. unfold dec.ltb. rewrite dcompare_spec. rewrite Qge_alt. by destruct (dval a ?= dval b)%Q. Qed.

Lemma dmin_spec a b :
  (dval (dec.min a b) <= dval a /\ dval (dec.min a b) <= dval b)%Q ∧ (dec.min a b = a ∨ dec.min a b = b).
Proof.
  unfold dec.min. destruct (dec.ltb b a) eqn:E.
  - apply dltb_spec in E. split; [split; lra | by right].
  - apply dltb_false in E. split; [split; lra | by left].
Qed.

Lemma dmax_spec a b :
  (dval a <= dval (dec.max a b) /\ dval b <= dval (dec.max a b))%Q ∧ (dec.max a b = a ∨ dec.max a b = b).
Proof.
  unfold dec.max. destruct (dec.ltb a b) eqn:E.
  - apply dltb_spec in E. split; [split; lra | by right].
  - apply dltb_false in E. split; [split; lra | by left].
Qed.

Lemma inject_Z_abs z : (Qabs (inject_Z z) == inject_Z (Z.abs z))%Q.
Proof. done. Qed.

Lemma inject_minus a b : (inject_Z (a - b) == inject_Z a - inject_Z b)%Q.
Proof. unfold Zminus. rewrite inject_Z_plus, inject_Z_opp. ring. Qed.

(** [representable q]: [q] has at most 28 significant digits. *)
Definition representable (q : Q) : Prop :=
  ∃ k t, (q == inject_Z k * bp10 t)%Q ∧ Z.abs k < 10 ^ prec.

#[export] Instance representable_proper : Proper (Qeq ==> iff) representable.
Proof. intros p q H. unfold representable. by setoid_rewrite H. Qed.

Lemma fix_exact a : representable (dval a) → (dval (dec.fix_ a) == dval a)%Q.
Proof.
  intros (k & t & Hv & Hk). unfold dec.fix_.
  set (n := ndigits 10 (coef a) - prec). destruct (Z.leb_spec n 0) as [|Hn]; [done|].
  destruct (Z.eq_dec (coef a) 0) as [Hc|Hc].
  { unfold n in Hn. rewrite Hc, ndigits_0 in Hn. unfold prec in Hn. lia. }
  destruct (ndigits_spec 10 (coef a) ten_ok Hc) as (_ & Hlo & _).
  assert (expo a + n <= t) as Ht.
  { assert (bp10 (expo a + (n + prec - 1)) < bp10 (prec + t))%Q as Hlt.
    { apply Qle_lt_trans with (Qabs (dval a)).
      - unfold dval. rewrite Qabs_Qmult, inject_Z_abs, (Qabs_pos (bp10 _)) by (pose proof (bp10_pos (expo a)); lra).
        rewrite Z.add_comm, bp10_add. apply Qmult_le_compat_r; [|pose proof (bp10_pos (expo a)); lra].
        rewrite bp10_nonneg by (unfold prec; lia). rewrite <- Zle_Qle.
        by replace (n + prec - 1) with (ndigits 10 (coef a) - 1) by (unfold n; lia).
      - rewrite Hv, Qabs_Qmult, inject_Z_abs, (Qabs_pos (bp10 _)) by (pose proof (bp10_pos t); lra).
        rewrite bp10_add. apply Qmult_lt_compat_r; [apply bp10_pos|].
        rewrite (bp10_nonneg prec) by done. by rewrite <- Zlt_Qlt. }
    apply bp_lt in Hlt; [lia | apply ten_ok]. }
  assert (coef a = k * 10 ^ (t - expo a - n) * 10 ^ n) as Hca.
  { apply inject_Z_injective. rewrite !inject_Z_mult, <- !bp10_nonneg by lia.
    rewrite <- Qmult_assoc, <- bp10_add. replace (t - expo a - n + n) with (t - expo a) by lia.
    pose proof (bp10_pos (expo a)).
    apply (Qmult_inj_r _ _ (bp10 (expo a))); [lra|].
    rewrite <- Qmult_assoc, <- bp10_add. replace (t - expo a + expo a) with t by lia.
    by rewrite <- Hv. }
  assert (0 < 10 ^ n) as Hpn by (apply Z.pow_pos_nonneg; lia).
  rewrite div_half_even_exact by (try done; rewrite Hca; apply Z.mod_mul; lia).
  assert (dval (Dec (coef a / 10 ^ n) (expo a + n)) == dval a)%Q as Hfin.
  { unfold dval; cbn [coef expo]. rewrite Hca, Z.div_mul by lia. rewrite !inject_Z_mult, <- !bp10_nonneg by lia.
    rewrite <- !Qmult_assoc, <- !bp10_add. by replace (expo a + n) with (n + expo a) by lia. }
  destruct (Z.eqb_spec (Z.abs (coef a / 10 ^ n)) (10 ^ prec)) as [Hm|]; [|done].
  rewrite <- Hfin. unfold dval; cbn [coef expo].
  rewrite bp10_add. change (bp10 1) with (inject_Z 10).
  rewrite (Qmult_comm (bp10 _)), Qmult_assoc, <- inject_Z_mult.
  replace (coef a / 10 ^ n / 10 * 10) with (coef a / 10 ^ n); [done|].
  unfold prec in Hm. change (10 ^ 28) with (10 ^ 27 * 10) in Hm.
  assert (coef a / 10 ^ n = 10 ^ 27 * 10 ∨ coef a / 10 ^ n = - 10 ^ 27 * 10) as [->| ->] by lia;
    by rewrite Z.div_mul.
Qed.

Lemma half_ulp_bound : ((1 # 2) * bp10 (1 - prec) * inject_Z (2 * 10 ^ (prec - 1)) == 1)%Q.
Proof. vm_compute. done. Qed.

Lemma Qabs_dval a : (Qabs (dval a) == inject_Z (Z.abs (coef a)) * bp10 (expo a))%Q.
Proof.
  unfold dval. pose proof (bp10_pos (expo a)).
  rewrite Qabs_Qmult, inject_Z_abs, (Qabs_pos (bp10 _)) by lra. done.
Qed.

(** Rounding to the context moves a value by at most half a unit in the 28th
    digit. *)
Lemma fix_err a :
  (Qabs (dval (dec.fix_ a) - dval a) <= (1 # 2) * bp10 (1 - prec) * Qabs (dval a))%Q.
Proof.
  unfold dec.fix_. set (n := ndigits 10 (coef a) - prec).
  pose proof (bp10_pos (1 - prec)) as Hp1. pose proof (Qabs_nonneg (dval a)) as Ha0.
  destruct (Z.leb_spec n 0) as [|Hn].
  { setoid_replace (dval a - dval a)%Q with 0%Q using relation Qeq by ring.
    change (Qabs 0) with 0%Q. apply Qmult_le_0_compat; [lra | done]. }
  assert (coef a ≠ 0) as Hc0.
  { intros Hc. unfold n in Hn. rewrite Hc, ndigits_0 in Hn. unfold prec in Hn. lia. }
  destruct (ndigits_spec 10 (coef a) ten_ok Hc0) as (_ & Hlo & _).
  set (D := 10 ^ n). assert (0 < D) as HD by (apply Z.pow_pos_nonneg; lia).
  pose proof (div_half_even_err (coef a) D HD) as Herr. set (c := div_half_even (coef a) D) in *.
  assert (10 ^ (prec - 1) * D <= Z.abs (coef a)) as HcD.
  { unfold D. rewrite <- Z.pow_add_r by (unfold prec; lia).
    by replace (prec - 1 + n) with (ndigits 10 (coef a) - 1) by (unfold n; lia). }
  assert (dval (if Z.abs c =? 10 ^ prec then Dec (c / 10) (expo a + n + 1) else Dec c (expo a + n))
          == inject_Z (c * D) * bp10 (expo a))%Q as ->.
  { assert (dval (Dec c (expo a + n)) == inject_Z (c * D) * bp10 (expo a))%Q as Hv.
    { unfold dval, D; cbn [coef expo]. rewrite inject_Z_mult, <- bp10_nonneg, bp10_add by lia. ring. }
    destruct (Z.eqb_spec (Z.abs c) (10 ^ prec)) as [Hm|]; [|done].
    rewrite <- Hv. unfold dval; cbn [coef expo]. rewrite bp10_add. change (bp10 1) with (inject_Z 10).
    rewrite (Qmult_comm (bp10 _)), Qmult_assoc, <- inject_Z_mult.
    replace (c / 10 * 10) with c; [done|].
    unfold prec in Hm. change (10 ^ 28) with (10 ^ 27 * 10) in Hm.
    assert (c = 10 ^ 27 * 10 ∨ c = - 10 ^ 27 * 10) as [->| ->] by lia; by rewrite Z.div_mul. }
  rewrite Qabs_dval. unfold dval.
  setoid_replace (inject_Z (c * D) * bp10 (expo a) - inject_Z (coef a) * bp10 (expo a))%Q
    with (inject_Z (c * D - coef a) * bp10 (expo a))%Q using relation Qeq
    by (rewrite inject_minus; ring).
  pose proof (bp10_pos (expo a)) as Hpe.
  rewrite Qabs_Qmult, inject_Z_abs, (Qabs_pos (bp10 _)), Qmult_assoc by lra.
  apply Qmult_le_compat_r; [|lra].
  assert (2 * 10 ^ (prec - 1) * Z.abs (c * D - coef a) <= Z.abs (coef a)) as Hz.
  { unfold prec in *. nia. }
  rewrite Zle_Qle, inject_Z_mult in Hz.
  pose proof half_ulp_bound as Hh. set (w := ((1 # 2) * bp10 (1 - prec))%Q) in *.
  assert (0 < w)%Q by (unfold w; lra).
  set (T := inject_Z (2 * 10 ^ (prec - 1))) in *.
  assert (inject_Z (Z.abs (c * D - coef a)) == w * (T * inject_Z (Z.abs (c * D - coef a))))%Q as ->.
  { rewrite Qmult_assoc, Hh. ring. }
  apply Qmult_le_l; [done | exact Hz].
Qed.

Lemma dval_min_align a b :
  let e := Z.min (expo a) (expo b) in
  (inject_Z (dec.align a e) * bp10 e == dval a)%Q ∧ (inject_Z (dec.align b e) * bp10 e == dval b)%Q.
Proof. split; apply dval_align; lia. Qed.

Lemma add_exact a b : representable (dval a + dval b) → (dval (dec.add a b) == dval a + dval b)%Q.
Proof.
  intros H. unfold dec.add. destruct (dval_min_align a b) as [Ha Hb].
  set (e := Z.min (expo a) (expo b)) in *.
  assert (dval (Dec (dec.align a e + dec.align b e) e) == dval a + dval b)%Q as Hv.
  { rewrite <- Ha, <- Hb. unfold dval; simpl. rewrite inject_Z_plus. ring. }
  rewrite fix_exact; by rewrite Hv.
Qed.

Lemma sub_exact a b : representable (dval a - dval b) → (dval (dec.sub a b) == dval a - dval b)%Q.
Proof.
  intros H. unfold dec.sub. destruct (dval_min_align a b) as [Ha Hb].
  set (e := Z.min (expo a) (expo b)) in *.
  assert (dval (Dec (dec.align a e - dec.align b e) e) == dval a - dval b)%Q as Hv.
  { rewrite <- Ha, <- Hb. unfold dval; simpl. rewrite inject_minus. ring. }
  rewrite fix_exact; by rewrite Hv.
Qed.

Lemma mul_exact a b : representable (dval a * dval b) → (dval (dec.mul a b) == dval a * dval b)%Q.
Proof.
  intros H. unfold dec.mul.
  assert (dval (Dec (coef a * coef b) (expo a + expo b)) == dval a * dval b)%Q as Hv.
  { unfold dval; simpl. rewrite inject_Z_mult, bp10_add. ring. }
  rewrite fix_exact; by rewrite Hv.
Qed.

(** ** Quantize and integral rounding *)

Lemma rescale_floor a e :
  expo (dec.rescale RFloor a e) = e ∧
  (dval (dec.rescale RFloor a e) <= dval a /\ dval a < dval (dec.rescale RFloor a e) + bp10 e)%Q.
Proof.
  unfold dec.rescale. pose proof (bp10_pos e) as Hp. destruct (Z.leb_spec e (expo a)) as [He|He].
  - split; [done|]. pose proof (dval_align a e He) as H.
    change (dval (Dec (dec.align a e) e)) with (inject_Z (dec.align a e) * bp10 e)%Q. split; lra.
  - split; [done|]. simpl. set (m := 10 ^ (e - expo a)).
    assert (0 < m) as Hm by (apply Z.pow_pos_nonneg; lia).
    pose proof (Z.mul_div_le (coef a) m Hm). pose proof (Z.mul_succ_div_gt (coef a) m Hm).
    assert (bp10 e == inject_Z m * bp10 (expo a))%Q as Hbe.
    { unfold m. rewrite <- bp10_nonneg, <- bp10_add by lia. by replace (e - expo a + expo a) with e by lia. }
    pose proof (bp10_pos (expo a)) as Hpa.
    assert (dval (Dec (coef a / m) e) == inject_Z (m * (coef a / m)) * bp10 (expo a))%Q as ->.
    { unfold dval; simpl. rewrite Hbe, inject_Z_mult. ring. }
    rewrite Hbe. unfold dval. split.
    + apply Qmult_le_compat_r; [by rewrite <- Zle_Qle | lra].
    + rewrite <- Qmult_plus_distr_l, <- inject_Z_plus. apply Qmult_lt_compat_r; [done|].
      rewrite <- Zlt_Qlt. lia.
Qed.

Lemma rescale_exact mode a e k :
  (dval a == inject_Z k * bp10 e)%Q → dec.rescale mode a e = Dec k e.
Proof.
  intros H. unfold dec.rescale. pose proof (bp10_pos e) as Hp. destruct (Z.leb_spec e (expo a)) as [He|He].
  - f_equal. apply inject_Z_injective. pose proof (dval_align a e He) as Ha.
    apply (Qmult_inj_r _ _ (bp10 e)); [lra|]. by rewrite Ha, H.
  - f_equal. set (m := 10 ^ (e - expo a)).
    assert (0 < m) as Hm by (apply Z.pow_pos_nonneg; lia).
    assert (coef a = k * m) as ->.
    { apply inject_Z_injective. pose proof (bp10_pos (expo a)).
      apply (Qmult_inj_r _ _ (bp10 (expo a))); [lra|]. rewrite inject_Z_mult.
      unfold m. rewrite <- bp10_nonneg, <- Qmult_assoc, <- bp10_add by lia.
      replace (e - expo a + expo a) with e by lia. by rewrite <- H. }
    destruct mode; simpl.
    + by rewrite Z.div_mul by lia.
    + rewrite <- Z.mul_opp_l, Z.div_mul by lia. lia.
    + rewrite div_half_even_exact, Z.div_mul by (try lia; apply Z.mod_mul; lia). done.
Qed.

Lemma quantize_Ok a e mode r :
  dec.quantize a e mode = Ok r → r = dec.rescale mode a e ∧ Z.abs (coef r) < 10 ^ prec.
Proof.
  unfold dec.quantize. destruct (Z.ltb_spec prec (ndigits 10 (coef (dec.rescale mode a e)))) as [|H]; [done|].
  intros [= <-]. split; [done|]. by apply (ndigits_le 10 _ prec ten_ok).
Qed.

(** [q] is a whole multiple of [10^e]. *)
Definition multiple_of (e : Z) (q : Q) : Prop := ∃ k, (q == inject_Z k * bp10 e)%Q.

Lemma expo_multiple a : multiple_of (expo a) (dval a).
Proof. by exists (coef a). Qed.

Lemma quantize_multiple a e mode r : dec.quantize a e mode = Ok r → multiple_of e (dval r).
Proof.
  intros H. apply quantize_Ok in H as [-> _]. exists (coef (dec.rescale mode a e)).
  unfold dec.rescale. by destruct (e <=? expo a).
Qed.

(** ** Division *)

Lemma strip_zeros_value f c e i : (dval (dec.strip_zeros f c e i) == dval (Dec c e))%Q.
Proof.
  revert c e. induction f as [|f IH]; intros c e; simpl; [done|].
  destruct ((e <? i) && (c mod 10 =? 0)) eqn:E; [|done].
  bool_to_prop. rewrite IH. unfold dval; cbn [coef expo].
  rewrite bp10_add. change (bp10 1) with (inject_Z 10).
  rewrite (Qmult_comm (bp10 e)), Qmult_assoc, <- inject_Z_mult.
  replace (c / 10 * 10) with c; [done|]. pose proof (Z.div_mod c 10). lia.
Qed.

(** Division of positive decimals is correctly rounded. *)
Lemma div_pos_spec a b :
  0 < coef a → 0 < coef b →
  ∃ q, dec.div a b = Ok q ∧
    (Qabs (dval q - dval a / dval b) <= (1 # 2) * bp10 (1 - prec) * (dval a / dval b))%Q ∧
    (representable (dval a / dval b) → dval q == dval a / dval b)%Q.
Proof.
  intros Ha Hb. unfold dec.div.
  destruct (Z.eqb_spec (coef b) 0) as [|_]; [lia|].
  destruct (Z.eqb_spec (coef a) 0) as [|_]; [lia|].
  rewrite !Z.abs_eq, !Z.sgn_pos, Z.mul_1_l by lia.
  set (n := coef a) in *. set (d := coef b) in *. set (i := expo a - expo b).
  assert (dval a / dval b == inject_Z n / inject_Z d * bp10 i)%Q as Hx.
  { unfold dval, i. unfold Zminus. fold n d. rewrite bp10_add.
    pose proof (inject_Z_pos d Hb). pose proof (bp10_pos (expo b)).
    pose proof (bp_opp 10 ten_ok (expo b)) as Ho.
    assert (bp10 (- expo b) == / bp10 (expo b))%Q as ->.
    { field_simplify_eq; [|lra]. lra. }
    field. lra. }
  pose proof (round_rel_err 10 prec n d ten_ok ltac:(done) Ha Hb) as Herr.
  pose proof (round_exact 10 prec n d ten_ok ltac:(done) Ha Hb) as Hex.
  unfold round_value in *. destruct (round_sig 10 prec n d) as [m e]. cbn [fst snd] in *.
  set (q := if _ : bool then _ else _). exists q. split; [done|].
  assert (dval q == inject_Z m * bp10 e * bp10 i)%Q as ->.
  { unfold q. rewrite Z.mul_1_l. destruct (_ =? _); [rewrite strip_zeros_value|];
      unfold dval; cbn [coef expo]; rewrite bp10_add; ring. }
  rewrite !Hx. pose proof (bp10_pos i) as Hi. split.
  - setoid_replace (inject_Z m * bp10 e * bp10 i - inject_Z n / inject_Z d * bp10 i)%Q
      with ((inject_Z m * bp10 e - inject_Z n / inject_Z d) * bp10 i)%Q using relation Qeq by ring.
    rewrite Qabs_Qmult, (Qabs_pos (bp10 i)) by lra.
    rewrite Qmult_assoc. apply Qmult_le_compat_r; [done | lra].
  - intros (k & t & Hv & Hk).
    assert (0 < inject_Z n / inject_Z d)%Q as Hpos by (by apply quotient_pos).
    assert (0 < k) as Hk0.
    { pose proof (bp10_pos t). destruct (Z_lt_le_dec 0 k) as [|Hle]; [done|exfalso].
      rewrite Zle_Qle in Hle. change (inject_Z 0) with 0%Q in Hle.
      assert (0 < inject_Z n / inject_Z d * bp10 i)%Q by nra. nra. }
    rewrite (Hex k (t - i)); [done | lia |].
    unfold Zminus. rewrite bp10_add. pose proof (bp_opp 10 ten_ok i) as Ho.
    rewrite Qmult_assoc, <- Hv, <- Qmult_assoc, (Qmult_comm (bp10 i)), Ho. ring.
Qed.

Lemma div_zero_l a b : coef a = 0 → 0 < coef b → dec.div a b = Ok (Dec 0 (expo a - expo b)).
Proof. intros Ha Hb. unfold dec.div. destruct (Z.eqb_spec (coef b) 0); [lia|]. by rewrite Ha. Qed.

Lemma coef_pos a : (0 < dval a)%Q ↔ 0 < coef a.
Proof.
  unfold dval. pose proof (bp10_pos (expo a)). rewrite Zlt_Qlt. change (inject_Z 0) with 0%Q.
  split; intros; nra.
Qed.

(** Comparing a rounded quotient with an integer gives the answer of the exact
    quotient, as long as the dividend, in units of a common quantum [u], stays
    below [2 * 10^27]: 28 digits never carry a quotient across an integer. *)
Lemma div_cmp_int a b q u A B k :
  dec.div a b = Ok q → (0 < u)%Q →
  (dval a == inject_Z A * u)%Q → (dval b == inject_Z B * u)%Q →
  0 <= A < 2 * 10 ^ (prec - 1) → 0 < B →
  ((inject_Z k <= dval q)%Q ↔ k * B <= A) ∧ ((dval q <= inject_Z k)%Q ↔ A <= k * B).
Proof.
  intros Hq Hu HA HB HAb HB0.
  pose proof (inject_Z_pos B HB0) as HBQ.
  assert (0 < coef b) as Hcb by (apply coef_pos; rewrite HB; nra).
  destruct (Z.eq_dec A 0) as [->|HA0].
  { assert (coef a = 0) as Hca.
    { apply inject_Z_injective. pose proof (bp10_pos (expo a)).
      apply (Qmult_inj_r _ _ (bp10 (expo a))); [lra|]. change (inject_Z (coef a) * bp10 (expo a))%Q with (dval a).
      rewrite HA. change (inject_Z 0) with 0%Q. ring. }
    rewrite div_zero_l in Hq by done. injection Hq as <-.
    assert (dval (Dec 0 (expo a - expo b)) == 0)%Q as -> by (unfold dval; simpl; ring).
    change 0%Q with (inject_Z 0). rewrite <- !Zle_Qle. nia. }
  assert (0 < coef a) as Hca.
  { apply coef_pos. rewrite HA. pose proof (inject_Z_pos A ltac:(lia)). nra. }
  destruct (div_pos_spec a b Hca Hcb) as (q' & Hq' & Herr & Hex).
  rewrite Hq in Hq'. injection Hq' as <-.
  assert (dval a / dval b == inject_Z A / inject_Z B)%Q as Hx.
  { rewrite HA, HB. field. lra. }
  setoid_rewrite Hx in Herr. setoid_rewrite Hx in Hex. clear Hx.
  set (x := (inject_Z A / inject_Z B)%Q) in *.
  assert (x * inject_Z B == inject_Z A)%Q as HxB by (unfold x; field; lra).
  assert (0 < inject_Z A)%Q as HAQ by (apply inject_Z_pos; lia).
  assert (0 < x)%Q as Hx0 by (unfold x; apply Qlt_shift_div_l; lra).
  set (w := ((1 # 2) * bp10 (1 - prec))%Q) in *.
  assert (0 < w)%Q as Hw by (vm_compute; done).
  assert (w * inject_Z A < 1)%Q as HwA.
  { rewrite <- half_ulp_bound. fold w. apply Qmult_lt_l; [done|]. rewrite <- Zlt_Qlt. lia. }
  assert (Habs : (- (w * x) <= dval q - x /\ dval q - x <= w * x)%Q) by (by apply Qabs_Qle_condition).
  (* strict separation from an integer that is not the exact quotient *)
  assert (A < k * B → (dval q < inject_Z k)%Q) as Hlt.
  { intros H. assert (A + 1 <= k * B) as H' by lia.
    rewrite Zle_Qle, inject_Z_plus, inject_Z_mult in H'. change (inject_Z 1) with 1%Q in H'.
    assert (w * x * inject_Z B < 1)%Q by (rewrite <- Qmult_assoc, HxB; done).
    assert (dval q * inject_Z B < inject_Z k * inject_Z B)%Q by nra.
    by apply (Qmult_lt_r _ _ (inject_Z B)). }
  assert (k * B < A → (inject_Z k < dval q)%Q) as Hgt.
  { intros H. assert (k * B + 1 <= A) as H' by lia.
    rewrite Zle_Qle, inject_Z_plus, inject_Z_mult in H'. change (inject_Z 1) with 1%Q in H'.
    assert (w * x * inject_Z B < 1)%Q by (rewrite <- Qmult_assoc, HxB; done).
    assert (inject_Z k * inject_Z B < dval q * inject_Z B)%Q by nra.
    by apply (Qmult_lt_r _ _ (inject_Z B)). }
  assert (k * B = A → (dval q == inject_Z k)%Q) as Heq.
  { intros H. assert (x == inject_Z k)%Q as Hxk.
    { apply (Qmult_inj_r _ _ (inject_Z B)); [lra|]. by rewrite HxB, <- inject_Z_mult, H. }
    rewrite <- Hxk. apply Hex. exists k, 0. split; [rewrite Hxk; change (bp10 0) with 1%Q; ring|].
    unfold prec in *. change (10 ^ 28) with (10 * 10 ^ 27). change (10 ^ (28 - 1)) with (10 ^ 27) in HAb.
    assert (0 <= k <= A) by nia. lia. }
  destruct (Z.lt_trichotomy A (k * B)) as [H|[H|H]].
  - specialize (Hlt H). split; split; intros; try lia; lra.
  - specialize (Heq ltac:(lia)). split; split; intros; try lia; lra.
  - specialize (Hgt H). split; split; intros; try lia; lra.
Qed.

(** ** Floors *)

Definition dfloor (a : decimal) : Z := dec.to_int (dec.to_integral_value a RFloor).

Lemma dfloor_spec a : (inject_Z (dfloor a) <= dval a /\ dval a < inject_Z (dfloor a + 1))%Q.
Proof.
  unfold dfloor, dec.to_integral_value.
  destruct (Z.leb_spec 0 (expo a)) as [He|He].
  - unfold dec.to_int. destruct (Z.leb_spec 0 (expo a)); [|lia].
    unfold dval. rewrite inject_Z_plus, inject_Z_mult, <- bp10_nonneg by lia.
    change (inject_Z 1) with 1%Q. split; lra.
  - pose proof (rescale_floor a 0) as (Hex & Hlo & Hhi).
    unfold dec.to_int. rewrite Hex. change (0 <=? 0) with true. cbv iota. change (10 ^ 0) with 1. rewrite Z.mul_1_r.
    assert (dval (dec.rescale RFloor a 0) == inject_Z (coef (dec.rescale RFloor a 0)))%Q as Hv.
    { unfold dval. rewrite Hex. change (bp10 0) with 1%Q. ring. }
    rewrite Hv in Hlo, Hhi. change (bp10 0) with 1%Q in Hhi. rewrite inject_Z_plus.
    change (inject_Z 1) with 1%Q. split; lra.
Qed.

Lemma dfloor_unique a k : (inject_Z k <= dval a)%Q → (dval a < inject_Z (k + 1))%Q → dfloor a = k.
Proof.
  intros H1 H2. destruct (dfloor_spec a) as [H3 H4].
  assert (inject_Z k < inject_Z (dfloor a + 1))%Q as H5 by lra.
  assert (inject_Z (dfloor a) < inject_Z (k + 1))%Q as H6 by lra.
  rewrite <- Zlt_Qlt in H5, H6. lia.
Qed.

(** The floor of a rounded quotient is the exact integer quotient. *)
Lemma div_floor a b q u A B :
  dec.div a b = Ok q → (0 < u)%Q →
  (dval a == inject_Z A * u)%Q → (dval b == inject_Z B * u)%Q →
  0 <= A < 2 * 10 ^ (prec - 1) → 0 < B → dfloor q = A / B.
Proof.
  intros Hq Hu HA HB HAb HB0.
  pose proof (Z.mul_div_le A B HB0). pose proof (Z.mul_succ_div_gt A B HB0).
  apply dfloor_unique.
  - apply (div_cmp_int a b q u A B (A / B)); try done. lia.
  - apply Qnot_le_lt. intros Hle. apply (div_cmp_int a b q u A B (A / B + 1)) in Hle; try done. lia.
Qed.

Lemma good_dec : good_compare dec.compare.
Proof.
  split.
  - intros a b. rewrite !dcompare_spec. symmetry. apply Qcompare_antisym.
  - intros a b d. rewrite !dcompare_spec. intros H%Qeq_alt. by rewrite H.
  - intros a b d. rewrite !dcompare_spec, <- !Qlt_alt. apply Qlt_trans.
Qed.
#[export] Hint Resolve good_dec : daybreak.

#[export] Instance py_eq_decimal : PyEq decimal | 1 := dec.eqb.
#[export] Instance py_eq_decimal_laws : PyEqLaws decimal | 1.
Proof.
  split; unfold py_eqb, py_eq_decimal.
  - intros a. by apply deqb_spec.
  - intros a b. apply eq_true_iff_eq. rewrite !deqb_spec. split; by symmetry.
  - intros a b c. rewrite !deqb_spec. by intros ->.
Qed.

(** [int(x)] of an integral value is the value. *)
Lemma to_int_integral a mode :
  dec.eqb a (dec.to_integral_value a mode) = true → (dval a == inject_Z (dec.to_int a))%Q.
Proof.
  unfold dec.to_integral_value, dec.to_int. destruct (Z.leb_spec 0 (expo a)) as [He|He]; intros Heq.
  - unfold dval. rewrite inject_Z_mult, <- bp10_nonneg by lia. reflexivity.
  - assert (∃ m, dec.rescale mode a 0 = Dec m 0) as [m Hm].
    { unfold dec.rescale. case_match; by eexists. }
    rewrite Hm in Heq. pose proof Heq as Hv. apply deqb_spec in Hv. rewrite Hv.
    assert (coef a = m * 10 ^ (- expo a)) as ->.
    { pose proof (dval_min_align a (Dec m 0)) as Hal. cbv zeta in Hal. simpl expo in Hal.
      rewrite Z.min_l in Hal by lia. destruct Hal as [Ha Hb].
      assert (inject_Z (dec.align a (expo a)) * bp10 (expo a) ==
              inject_Z (dec.align (Dec m 0) (expo a)) * bp10 (expo a))%Q as E by (rewrite Ha, Hb; done).
      apply Qmult_inj_r in E; [|pose proof (bp10_pos (expo a)); lra].
      apply (proj1 (inject_Z_injective _ _)) in E. unfold dec.align in E. cbn [coef expo] in E.
      rewrite Z.sub_diag, Z.sub_0_l, Z.pow_0_r in E. lia. }
    rewrite Z.quot_mul by (apply Z.pow_nonzero; lia). unfold dval. simpl. change (bp10 0) with 1%Q. ring.
Qed.

(** ** Floats of decimals, and their shortest decimals

    [py_float x] is the decimal of the shortest representation of the double
    nearest to [x]: the fewest digits, at most seventeen, that read back as the
    same double.  Exponents are unbounded (no subnormals, no overflow). *)
Definition dec_float (x : decimal) : flt :=
  if 0 <=? expo x then flt.of_ratio (coef x * 10 ^ expo x) 1 else flt.of_ratio (coef x) (10 ^ (- expo x)).

Definition flt_digits (p : Z) (f : flt) : decimal :=
  let n := Z.abs (fm f) in
  let (m, e) := if 0 <=? fe f then round_sig 10 p (n * 2 ^ fe f) 1 else round_sig 10 p n (2 ^ (- fe f)) in
  Dec (Z.sgn (fm f) * m) e.

Definition same_flt (a b : flt) : bool := (fm a =? fm b) && (fe a =? fe b).

Fixpoint shortest_from (n : nat) (p : Z) (f : flt) : decimal :=
  match n with
  | O => flt_digits p f
  | S n' => let d := flt_digits p f in if same_flt (dec_float d) f then d else shortest_from n' (p + 1) f
  end.
Definition shortest (f : flt) : decimal := if fm f =? 0 then dec.zero else shortest_from 16 1 f.
Definition py_float (x : decimal) : decimal := shortest (dec_float x).

Example py_float_examples :
  map py_float [Dec 1250000 (-6); Dec 100 (-2); Dec 333333333333333333333333 (-24); Dec (-5) (-1); Dec 0 (-6)]
  = [Dec 125 (-2); Dec 1 0; Dec 3333333333333333 (-16); Dec (-5) (-1); Dec 0 0].
Proof. vm_compute. reflexivity. Qed.

Lemma total_seconds_sign us : Z.sgn (fm (total_seconds us)) = Z.sgn us.
Proof.
  unfold total_seconds, flt.of_ratio. destruct (Z.eqb_spec us 0) as [->|Hne]; [done|].
  pose proof (round_sig_pos 2 53 (Z.abs us) 1000000 ltac:(lia) ltac:(lia) ltac:(lia) ltac:(lia)) as Hm.
  destruct (round_sig _ _ _ _) as [m e]. cbn [fst fm] in *. rewrite Z.sgn_mul, (Z.sgn_pos m), Z.mul_1_r by done. apply Z.sgn_sgn.
Qed.

Lemma flt_digits_sign p f : 1 <= p → fm f ≠ 0 → Z.sgn (coef (flt_digits p f)) = Z.sgn (fm f).
Proof.
  intros Hp Hf. unfold flt_digits.
  assert (0 < (if 0 <=? fe f then round_sig 10 p (Z.abs (fm f) * 2 ^ fe f) 1
               else round_sig 10 p (Z.abs (fm f)) (2 ^ (- fe f))).1) as Hm.
  { pose proof (Z.pow_nonneg 2 (fe f)). pose proof (Z.pow_pos_nonneg 2 (fe f)). pose proof (Z.pow_pos_nonneg 2 (- fe f)).
    destruct (Z.leb_spec 0 (fe f)); apply round_sig_pos; nia. }
  destruct (if 0 <=? fe f then _ else _) as [m e]. cbn [fst coef] in *. rewrite Z.sgn_mul, (Z.sgn_pos m), Z.mul_1_r by done. apply Z.sgn_sgn.
Qed.

Lemma shortest_sign f : Z.sgn (coef (shortest f)) = Z.sgn (fm f).
Proof.
  unfold shortest. destruct (Z.eqb_spec (fm f) 0) as [->|Hf]; [done|].
  assert (∀ n p, 1 <= p → Z.sgn (coef (shortest_from n p f)) = Z.sgn (fm f)) as H; [|by apply H].
  induction n as [|n IH]; intros p Hp; cbn [shortest_from]; [by apply flt_digits_sign|].
  destruct (same_flt _ _); [by apply flt_digits_sign | apply IH; lia].
Qed.
