(* ===== verification/PyStr.v ===== *)
(** * PyStr: the string and sequence operations of Python the source uses

    Identifiers are [string] (bytes of their UTF-8 text); free text that the
    source indexes by code point is a [text], a list of code points. *)
From Stdlib Require Import Ascii String.
From S2P Require Import Prelude Numerics.

#[local] Open Scope Z_scope.

(** Free text, as Unicode code points. *)
Abbreviation text := (list Z).

(** [s[lo:hi]] on a sequence, negative and out-of-range indices included. *)
Definition slice_index (n i : Z) : Z := if i <? 0 then Z.max 0 (i + n) else Z.min i n.
Definition py_slice {A} (l : list A) (lo hi : Z) : list A :=
  let n := Z.of_nat (length l) in
  let a := slice_index n lo in let b := slice_index n hi in
  take (Z.to_nat (b - a)) (drop (Z.to_nat a) l).

(** [p in s] on code points. *)
Fixpoint is_prefix_of (p s : text) : bool :=
  match p, s with
  | [], _ => true
  | x :: p', y :: s' => (x =? y) && is_prefix_of p' s'
  | _, [] => false
  end.
Fixpoint text_in (p s : text) : bool :=
  is_prefix_of p s || match s with [] => false | _ :: s' => text_in p s' end.

Lemma is_prefix_of_spec p s : is_prefix_of p s = true ↔ ∃ t, s = p ++ t.
Proof.
  revert s. induction p as [|x p IH]; intros s; simpl; [naive_solver|].
  destruct s as [|y s]; [split; [done | by intros [? ?]]|].
  rewrite andb_true_iff, IH, Z.eqb_eq. split.
  - intros [-> [t ->]]. by exists t.
  - intros [t [= -> ->]]. eauto.
Qed.

Lemma text_in_spec p s : text_in p s = true ↔ ∃ a b, s = a ++ p ++ b.
Proof.
  induction s as [|y s IH]; simpl; rewrite orb_true_iff, is_prefix_of_spec.
  - split.
    + intros [[t H]|H]; [by exists [], t | done].
    + intros (a & b & H). left. symmetry in H. apply app_nil in H as [-> H]. by exists b.
  - rewrite IH. split.
    + intros [[t H]|(a & b & ->)]; [by exists [], t | by exists (y :: a), b].
    + intros ([|z a] & b & H); [left; by exists b | right]. injection H as -> ->. by exists a, b.
Qed.

(** ** Strings *)

Fixpoint string_contains (p s : string) : bool :=
  String.prefix p s || match s with EmptyString => false | String _ s' => string_contains p s' end.

Definition ascii_upper (c : ascii) : ascii :=
  let n := nat_of_ascii c in
  if ((97 <=? n) && (n <=? 122))%nat then ascii_of_nat (n - 32) else c.
Definition ascii_lower (c : ascii) : ascii :=
  let n := nat_of_ascii c in
  if ((65 <=? n) && (n <=? 90))%nat then ascii_of_nat (n + 32) else c.
Fixpoint string_map (f : ascii → ascii) (s : string) : string :=
  match s with EmptyString => EmptyString | String c s' => String (f c) (string_map f s') end.
Definition string_upper : string → string := string_map ascii_upper.
Definition string_lower : string → string := string_map ascii_lower.

(** [s[:n]]. *)
Definition string_take (n : nat) (s : string) : string := String.substring 0 n s.

Definition string_leb (a b : string) : bool := String.leb a b.
Definition string_ltb (a b : string) : bool := String.ltb a b.

(** [s.endswith(t)]. *)
Definition string_ends_with (t s : string) : bool :=
  let n := String.length s in let k := String.length t in
  ((k <=? n)%nat && String.eqb (String.substring (n - k) k s) t)%bool.

(** The code points of a UTF-8 text: its bytes that do not continue one. *)
Fixpoint code_points (s : string) : Z :=
  match s with
  | EmptyString => 0
  | String c s' =>
      let n := nat_of_ascii c in
      (if ((128 <=? n) && (n <? 192))%nat then 0 else 1) + code_points s'
  end.

(** ** [repr] of a float given by the decimal digits of its shortest form *)

Fixpoint zeros (n : nat) : string := match n with O => "" | S n' => String "0" (zeros n') end.

Definition digits_string (z : Z) : string := pretty (Z.to_N z).

(** [c * 10^e], [c] without trailing zeros: fixed notation for exponents from
    -4 to 15, scientific notation outside, as [float.__repr__] prints. *)
Definition float_repr (x : decimal) : string :=
  if coef x =? 0 then "0.0" else
  let d := dec.strip_zeros 400 (Z.abs (coef x)) (expo x) (expo x + 400) in
  let ds := digits_string (coef d) in
  let n := Z.of_nat (String.length ds) in
  let point := n + expo d in                    (* digits before the point *)
  let sign := if coef x <? 0 then "-" else "" in
  if (-4 <? point) && (point <=? 16) then
    if 0 <=? expo d then sign +:+ ds +:+ zeros (Z.to_nat (expo d)) +:+ ".0"
    else if 0 <? point then
      sign +:+ string_take (Z.to_nat point) ds +:+ "." +:+
        String.substring (Z.to_nat point) (Z.to_nat (n - point)) ds
    else sign +:+ "0." +:+ zeros (Z.to_nat (- point)) +:+ ds
  else
    let x10 := point - 1 in
    let mant := if n =? 1 then ds else string_take 1 ds +:+ "." +:+ String.substring 1 (String.length ds) ds in
    let es := digits_string (Z.abs x10) in
    let es := if (String.length es <? 2)%nat then String "0" es else es in
    sign +:+ mant +:+ "e" +:+ (if x10 <? 0 then "-" else "+") +:+ es.

Example float_repr_examples :
  map float_repr [Dec 35 (-1); Dec 4 0; Dec 1 (-7); Dec 123456789 12; Dec 15 15; Dec (-25) (-5); Dec 1 (-4); Dec 5 (-5)]
  = ["3.5"; "4.0"; "1e-07"; "1.23456789e+20"; "1.5e+16"; "-0.00025"; "0.0001"; "5e-05"].
Proof. vm_compute. reflexivity. Qed.

(** ** Exceptions as text *)

(** [type(exc).__name__] and [str(exc)]. *)
Definition exn_type_name (e : exn) : string :=
  match e with
  | EValue _ => "ValueError" | EValidation _ => "ValidationError" | ERuntime _ => "RuntimeError"
  | EAssertion => "AssertionError" | EKey _ => "KeyError" | ETypeError => "TypeError"
  | EInvalidOperation => "InvalidOperation" | EZeroDivision => "DivisionByZero"
  | EBrokerNotFound => "BrokerNotFound" | EBrokerTransport _ => "BrokerTransportError"
  | EDataQuality _ => "DataQualityError" | ELeadershipUnavailable _ => "LeadershipUnavailable"
  | EPersistentKillSwitch _ => "PersistentKillSwitchActive" | EOther kind _ => kind | EDiverge => ""
  end.
Definition exn_message (e : exn) : string :=
  match e with
  | EValue m | EValidation m | ERuntime m | EDataQuality m | ELeadershipUnavailable m
  | EPersistentKillSwitch m | EOther _ m => m
  | EKey k => "'" +:+ k +:+ "'"
  | EInvalidOperation => "[<class 'decimal.InvalidOperation'>]"
  | _ => ""
  end.
Definition describe (e : exn) : string := exn_type_name e +:+ ": " +:+ exn_message e.

(** ** Characters: spaces and digits of ASCII *)

Abbreviation chars := (list ascii).

Definition is_space (c : ascii) : bool :=
  let n := nat_of_ascii c in (((9 <=? n) && (n <=? 13)) || ((28 <=? n) && (n <=? 32)))%nat.
Definition is_digit (c : ascii) : bool :=
  let n := nat_of_ascii c in ((48 <=? n) && (n <=? 57))%nat.

Fixpoint strip_left (l : chars) : chars :=
  match l with c :: l' => if is_space c then strip_left l' else l | [] => [] end.
Definition strip (l : chars) : chars := rev (strip_left (rev (strip_left l))).

Fixpoint span_digits (l : chars) : chars * chars :=
  match l with
  | c :: l' => if is_digit c then let (a, b) := span_digits l' in (c :: a, b) else ([], l)
  | [] => ([], [])
  end.

(** [not s.strip()]. *)
Definition blank (s : string) : bool := forallb is_space (list_ascii_of_string s).
