(* ===== verification/PyJson.v ===== *)
(** * PyJson: which texts [json.loads] accepts

    The grammar of Python's json decoder: JSON with NaN, Infinity and
    -Infinity, strings without control characters, and integers of at most
    4300 digits.  Only the outcome is modelled, not the value: accepted, or the
    exception raised.  The interpreter's recursion limit is not modelled. *)
From Stdlib Require Import Ascii String.
From S2P Require Import Prelude PyStr.

#[local] Open Scope Z_scope.

Definition char_in (lo hi : nat) (c : ascii) : bool := (lo <=? nat_of_ascii c)%nat && (nat_of_ascii c <=? hi)%nat.
Definition json_space (c : ascii) : bool := existsb (Ascii.eqb c) [" "; "009"; "010"; "013"]%char.
Definition is_hex_digit (c : ascii) : bool := is_digit c || char_in 65 70 c || char_in 97 102 c.

Fixpoint skip_spaces (l : chars) : chars :=
  match l with c :: l' => if json_space c then skip_spaces l' else l | [] => [] end.

Definition JSONDecodeError : exn := EOther "JSONDecodeError" "".
Definition digits_limit : exn := EValue "Exceeds the limit (4300 digits) for integer string conversion".

(** The rest of a string, after its opening quote. *)
Fixpoint string_rest (l : chars) : result chars :=
  match l with
  | [] => Err JSONDecodeError
  | c :: l' =>
      if Ascii.eqb c "034" then Ok l'
      else if Ascii.eqb c "\" then
        match l' with
        | "u"%char :: a :: b :: x :: y :: l'' =>
            if forallb is_hex_digit [a; b; x; y] then string_rest l'' else Err JSONDecodeError
        | e :: l'' => if existsb (Ascii.eqb e) ["034"; "\"; "/"; "b"; "f"; "n"; "r"; "t"]%char then string_rest l'' else Err JSONDecodeError
        | [] => Err JSONDecodeError
        end
      else if (nat_of_ascii c <? 32)%nat then Err JSONDecodeError
      else string_rest l'
  end.

(** A number: the rest after it.  A fraction or an exponent without digits is
    left in the rest. *)
Definition take_fraction (l : chars) : bool * chars :=
  match l with
  | "."%char :: l' => match span_digits l' with (_ :: _, r) => (true, r) | _ => (false, l) end
  | _ => (false, l)
  end.
Definition take_exponent (l : chars) : bool * chars :=
  match l with
  | c :: l' =>
      if existsb (Ascii.eqb c) ["e"; "E"]%char then
        let l2 := match l' with s :: r => if existsb (Ascii.eqb s) ["+"; "-"]%char then r else l' | [] => [] end in
        match span_digits l2 with (_ :: _, r) => (true, r) | _ => (false, l) end
      else (false, l)
  | [] => (false, l)
  end.
Definition number_rest (l : chars) : result chars :=
  match l with
  | c :: l' =>
      if is_digit c then
        let (ds, r) := if Ascii.eqb c "0" then ([c], l') else span_digits l in
        let (frac, r1) := take_fraction r in
        let (expo, r2) := take_exponent r1 in
        if frac || expo then Ok r2
        else if (4300 <? length ds)%nat then Err digits_limit else Ok r2
      else Err JSONDecodeError
  | [] => Err JSONDecodeError
  end.

(** The rest after a constant. *)
Fixpoint after (w l : chars) : result chars :=
  match w, l with
  | [], _ => Ok l
  | a :: w', b :: l' => if Ascii.eqb a b then after w' l' else Err JSONDecodeError
  | _, [] => Err JSONDecodeError
  end.
Definition constant (w : string) : chars → result chars := after (list_ascii_of_string w).

(** A value, with no space before it; the members of an object and the elements
    of an array, from one that must follow. *)
Fixpoint json_value (fuel : nat) (l : chars) : result chars :=
  match fuel with
  | O => Err EDiverge
  | S n =>
      match l with
      | [] => Err JSONDecodeError
      | c :: r =>
          if Ascii.eqb c "034" then string_rest r
          else if Ascii.eqb c "{" then
            match skip_spaces r with
            | "}"%char :: r' => Ok r'
            | r' => json_members n r'
            end
          else if Ascii.eqb c "[" then
            match skip_spaces r with
            | "]"%char :: r' => Ok r'
            | r' => json_elements n r'
            end
          else if Ascii.eqb c "n" then constant "null" l
          else if Ascii.eqb c "t" then constant "true" l
          else if Ascii.eqb c "f" then constant "false" l
          else if Ascii.eqb c "N" then constant "NaN" l
          else if Ascii.eqb c "I" then constant "Infinity" l
          else if Ascii.eqb c "-" then
            match r with "I"%char :: _ => constant "Infinity" r | _ => number_rest r end
          else number_rest l
      end
  end
with json_members (fuel : nat) (l : chars) : result chars :=
  match fuel with
  | O => Err EDiverge
  | S n =>
      match l with
      | "034"%char :: r =>
          r1 ← string_rest r;
          match skip_spaces r1 with
          | ":"%char :: r2 =>
              r3 ← json_value n (skip_spaces r2);
              match skip_spaces r3 with
              | "}"%char :: r4 => Ok r4
              | ","%char :: r4 => json_members n (skip_spaces r4)
              | _ => Err JSONDecodeError
              end
          | _ => Err JSONDecodeError
          end
      | _ => Err JSONDecodeError
      end
  end
with json_elements (fuel : nat) (l : chars) : result chars :=
  match fuel with
  | O => Err EDiverge
  | S n =>
      r1 ← json_value n l;
      match skip_spaces r1 with
      | "]"%char :: r2 => Ok r2
      | ","%char :: r2 => json_elements n (skip_spaces r2)
      | _ => Err JSONDecodeError
      end
  end.

(** [json.loads(s)]: two calls per character at most. *)
Definition json_loads (s : string) : result unit :=
  let l := list_ascii_of_string s in
  r ← json_value (S (2 * length l)) (skip_spaces l);
  match skip_spaces r with [] => Ok tt | _ => Err JSONDecodeError end.

Example json_loads_examples :
  map (λ s, is_ok (json_loads s))
    ["{}"; " [1, -2.5e3, NaN] "; "{'a': 1}"; "[1,]"; "01"; "1."; "nul"; ""; "[[[]]]"; "-Infinity"; "true false"]
  = [true; true; false; false; false; false; false; false; true; true; false].
Proof. vm_compute. reflexivity. Qed.

(** ** The fuel is enough *)

(** An outcome that is not divergence, whose rest is no longer than [n]. *)
Definition rest_within (n : nat) (r : result chars) : Prop :=
  match r with Ok r => (length r <= n)%nat | Err e => e ≠ EDiverge end.

Lemma rest_within_le n m r : rest_within n r → (n <= m)%nat → rest_within m r.
Proof. destruct r; simpl; [lia | done]. Qed.

Lemma skip_spaces_length l : (length (skip_spaces l) <= length l)%nat.
Proof. induction l as [|c l IH]; simpl; [done|]. destruct (json_space c); simpl; lia. Qed.

Lemma span_digits_length l : (length (span_digits l).2 <= length l)%nat.
Proof. induction l as [|c l IH]; simpl; [done|]. destruct (is_digit c); [destruct (span_digits l); simpl in *; lia | done]. Qed.

Lemma string_rest_within l : rest_within (length l) (string_rest l).
Proof.
  induction l as [l IH] using (induction_ltof1 _ (@length ascii)). unfold ltof in IH.
  assert (∀ k, (length k < length l)%nat → rest_within (length l) (string_rest k)) as Hk.
  { intros k Hlt. eapply rest_within_le; [by apply IH | lia]. }
  destruct l as [|c l]; [done|]. cbn [string_rest]. simpl in Hk.
  repeat case_match; first [done | apply Hk; simpl; lia | simpl; lia].
Qed.

Lemma take_fraction_length l : (length (take_fraction l).2 <= length l)%nat.
Proof.
  unfold take_fraction. destruct l as [|c l]; [done|]. pose proof (span_digits_length l) as H.
  destruct (span_digits l) as [[|d ds] r]; repeat case_match; simpl in *; try lia; naive_solver lia.
Qed.

Lemma take_exponent_length l : (length (take_exponent l).2 <= length l)%nat.
Proof.
  unfold take_exponent. destruct l as [|c l]; [done|]. destruct (existsb _ _); [|done]. cbv zeta.
  set (k := match l with [] => _ | _ => _ end). assert (length k <= length l)%nat as Hk.
  { unfold k. destruct l as [|x l]; [done|]. destruct (existsb _ _); simpl; lia. }
  clearbody k. pose proof (span_digits_length k) as H. destruct (span_digits k) as [[|d ds] r]; simpl in *; lia.
Qed.

Lemma number_rest_within l : rest_within (length l) (number_rest l).
Proof.
  unfold number_rest. destruct l as [|c l]; [done|]. destruct (is_digit c); [|done].
  set (p := if Ascii.eqb c "0" then _ else _). assert (length p.2 <= S (length l))%nat as Hp.
  { unfold p. destruct (Ascii.eqb c "0"); [simpl; lia | apply (span_digits_length (c :: l))]. }
  destruct p as [ds r]. simpl in Hp. pose proof (take_fraction_length r) as H1. destruct (take_fraction r) as [frac r1].
  pose proof (take_exponent_length r1) as H2. destruct (take_exponent r1) as [expo r2]. simpl in *.
  repeat case_match; simpl; (lia || done).
Qed.

Lemma after_within w l : rest_within (length l) (after w l).
Proof.
  revert l. induction w as [|a w IH]; intros [|b l]; simpl; try done; try lia.
  destruct (Ascii.eqb a b); [eapply rest_within_le; [apply IH | lia] | done].
Qed.

Lemma rest_within_bind n m r (f : chars → result chars) :
  rest_within n r → (∀ k, (length k <= n)%nat → rest_within m (f k)) → rest_within m (r ≫= f).
Proof. destruct r; simpl; [intros Hn Hf; by apply Hf | done]. Qed.

Lemma skip_within n l (f : chars → result chars) m :
  (length l <= n)%nat → (∀ k, (length k <= n)%nat → rest_within m (f k)) → rest_within m (f (skip_spaces l)).
Proof. intros Hl Hf. apply Hf. pose proof (skip_spaces_length l). lia. Qed.

(** Each call leaves a rest no longer than its text, within its fuel. *)
Lemma json_within fuel :
  (∀ l, (2 * length l < fuel)%nat → rest_within (length l) (json_value fuel l)) ∧
  (∀ l, (2 * length l < fuel)%nat → rest_within (length l) (json_members fuel l)) ∧
  (∀ l, (2 * length l + 1 < fuel)%nat → rest_within (length l) (json_elements fuel l)).
Proof.
  induction fuel as [|n (IHv & IHm & IHe)]; [split; [|split]; intros l; lia|].
  assert (∀ k r, (length r <= k)%nat → rest_within k (Ok r)) as Hok by done.
  split; [|split]; intros l Hl.
  - destruct l as [|c r]; [done|]. cbn [json_value]. cbn [length] in Hl |- *.
    pose proof (skip_spaces_length r) as Hs. set (k := skip_spaces r) in *. clearbody k.
    repeat match goal with
    | |- context [if ?b then _ else _] => destruct b
    end; try apply (after_within _ (c :: r)); try apply (number_rest_within (c :: r)).
    + eapply rest_within_le; [apply string_rest_within | lia].
    + repeat case_match; first [apply Hok; simpl in *; lia | eapply rest_within_le; [apply IHm; simpl in *; lia | simpl in *; lia]].
    + repeat case_match; first [apply Hok; simpl in *; lia | eapply rest_within_le; [apply IHe; simpl in *; lia | simpl in *; lia]].
    + assert (rest_within (S (length r)) (number_rest r)) by (eapply rest_within_le; [apply number_rest_within | lia]).
      assert (rest_within (S (length r)) (constant "Infinity" r)) by (eapply rest_within_le; [apply after_within | lia]).
      repeat case_match; done.
  - destruct l as [|c r]; [done|]. cbn [json_members]. cbn [length] in Hl |- *.
    assert (rest_within (S (length r))
      (r1 ← string_rest r;
       match skip_spaces r1 with
       | ":"%char :: r2 =>
           r3 ← json_value n (skip_spaces r2);
           match skip_spaces r3 with
           | "}"%char :: r4 => Ok r4
           | ","%char :: r4 => json_members n (skip_spaces r4)
           | _ => Err JSONDecodeError
           end
       | _ => Err JSONDecodeError
       end)) as H; [|by repeat case_match].
    eapply rest_within_bind; [apply string_rest_within|]. intros r1 H1. pose proof (skip_spaces_length r1).
    destruct (skip_spaces r1) as [|d r2]; [done|]. cbn [length] in *.
    assert (rest_within (S (length r))
      (r3 ← json_value n (skip_spaces r2);
       match skip_spaces r3 with
       | "}"%char :: r4 => Ok r4
       | ","%char :: r4 => json_members n (skip_spaces r4)
       | _ => Err JSONDecodeError
       end)) as H2; [|by repeat case_match].
    pose proof (skip_spaces_length r2). eapply rest_within_bind; [apply IHv; lia|]. intros r3 H3.
    pose proof (skip_spaces_length r3). destruct (skip_spaces r3) as [|e r4]; [done|]. cbn [length] in *.
    pose proof (skip_spaces_length r4).
    assert (rest_within (S (length r)) (Ok r4)) by (apply Hok; lia).
    assert (rest_within (S (length r)) (json_members n (skip_spaces r4))) by (eapply rest_within_le; [apply IHm; lia | lia]).
    by repeat case_match.
  - cbn [json_elements]. eapply rest_within_bind; [apply IHv; lia|]. intros r1 H1.
    pose proof (skip_spaces_length r1). destruct (skip_spaces r1) as [|e r2]; [done|]. cbn [length] in *.
    pose proof (skip_spaces_length r2).
    assert (rest_within (length l) (Ok r2)) by (apply Hok; lia).
    assert (rest_within (length l) (json_elements n (skip_spaces r2))) by (eapply rest_within_le; [apply IHe; lia | lia]).
    by repeat case_match.
Qed.

(** [json.loads] always ends, with a value or an exception. *)
Lemma json_loads_ends s : json_loads s ≠ Err EDiverge.
Proof.
  unfold json_loads. cbv zeta. set (l := list_ascii_of_string s). pose proof (skip_spaces_length l).
  destruct (json_within (S (2 * length l))) as [Hv _]. specialize (Hv (skip_spaces l) ltac:(lia)).
  destruct (json_value _ _) as [r|e]; simpl in *; [by destruct (skip_spaces r) | congruence].
Qed.
