(* ===== verification/PyTime.v ===== *)
(** * PyTime: dates, times of day and UTC instants of Python's [datetime]

    An aware datetime is its instant in microseconds since 1970-01-01T00:00Z
    (the models convert every datetime to UTC on entry); [timedelta] is a
    number of microseconds.  The offset of America/New_York comes from the tz
    database, which is not part of the source: it is the class [NewYork]. *)
From Stdlib Require Import Ascii String.
From S2P Require Import Prelude PyStr.

#[local] Open Scope Z_scope.

Abbreviation datetime := Z (only parsing).

Definition SECOND : Z := 1000000.
Definition MINUTE : Z := 60 * SECOND.
Definition HOUR : Z := 60 * MINUTE.
Definition DAY : Z := 24 * HOUR.

Record date := Date { d_year : Z; d_month : Z; d_day : Z }.
#[global] Instance date_eq_dec : EqDecision date. Proof. solve_decision. Defined.
#[global] Instance date_countable : Countable date.
Proof.
  refine (inj_countable' (λ d, (d_year d, d_month d, d_day d)) (λ '(y, m, d), Date y m d) _).
  by intros [].
Defined.

(** Proleptic Gregorian calendar: the date of a day number (day 0 is
    1970-01-01) and back. *)
Definition civil_of_days (days : Z) : date :=
  let z := days + 719468 in
  let era := z / 146097 in
  let doe := z mod 146097 in
  let yoe := (doe - doe / 1460 + doe / 36524 - doe / 146096) / 365 in
  let doy := doe - (365 * yoe + yoe / 4 - yoe / 100) in
  let mp := (5 * doy + 2) / 153 in
  let day := doy - (153 * mp + 2) / 5 + 1 in
  let month := if mp <? 10 then mp + 3 else mp - 9 in
  Date (yoe + era * 400 + (if month <=? 2 then 1 else 0)) month day.

Definition days_of_civil (d : date) : Z :=
  let y := d_year d - (if d_month d <=? 2 then 1 else 0) in
  let era := y / 400 in
  let yoe := y mod 400 in
  let doy := (153 * (d_month d + (if 2 <? d_month d then -3 else 9)) + 2) / 5 + d_day d - 1 in
  let doe := yoe * 365 + yoe / 4 - yoe / 100 + doy in
  era * 146097 + doe - 719468.

(** [date.weekday()]: Monday is 0. *)
Definition weekday (d : date) : Z := (days_of_civil d + 3) mod 7.

Definition date_compare (a b : date) : comparison :=
  lex (Z.compare (d_year a) (d_year b))
      (lex (Z.compare (d_month a) (d_month b)) (Z.compare (d_day a) (d_day b))).

Definition utc_date (t : datetime) : date := civil_of_days (t / DAY).

(** Wall-clock time in New York is UTC plus the offset in force. *)
Class NewYork := ny_offset : Z → Z.
Section new_york.
Context `{NewYork}.
Definition ny_wall (t : datetime) : Z := t + ny_offset t.
Definition ny_date (t : datetime) : date := utc_date (ny_wall t).
(** Microseconds since local midnight. *)
Definition ny_time (t : datetime) : Z := ny_wall t mod DAY.
End new_york.

Definition time_of (h m : Z) : Z := h * HOUR + m * MINUTE.

(** ** Formatting *)

Definition pad (width : nat) (z : Z) : string :=
  let s := digits_string z in zeros (width - String.length s) +:+ s.

(** [strftime('%Y%m%d')]; [%Y] is not padded. *)
Definition date_compact (d : date) : string :=
  digits_string (d_year d) +:+ pad 2 (d_month d) +:+ pad 2 (d_day d).

Definition date_iso (d : date) : string :=
  pad 4 (d_year d) +:+ "-" +:+ pad 2 (d_month d) +:+ "-" +:+ pad 2 (d_day d).

Definition time_iso (us : Z) : string :=
  pad 2 (us / HOUR) +:+ ":" +:+ pad 2 (us / MINUTE mod 60) +:+ ":" +:+ pad 2 (us / SECOND mod 60)
  +:+ (if us mod SECOND =? 0 then "" else "." +:+ pad 6 (us mod SECOND)).

(** [datetime.isoformat()] of a UTC datetime. *)
Definition datetime_iso (t : datetime) : string :=
  date_iso (utc_date t) +:+ "T" +:+ time_iso (t mod DAY) +:+ "+00:00".

Example datetime_iso_examples :
  (datetime_iso 0, datetime_iso 1767621599000001, date_compact (utc_date 1767621599000001),
   weekday (utc_date 1767621599000001))
  = ("1970-01-01T00:00:00+00:00", "2026-01-05T13:59:59.000001+00:00", "20260105", 0).
Proof. vm_compute. reflexivity. Qed.
