(* ===== verification/Stores.v ===== *)
(** * Stores: what the in-memory repositories share

    Python dicts as finite maps, the identity-collision check followed by
    [setdefault] that makes a repository append-only, and its laws. *)
From S2P Require Import Prelude.

(** [d.setdefault(k, v)]. *)
Definition setdefault {A} (k : string) (v : A) (m : gmap string A) : gmap string A :=
  match m !! k with Some _ => m | None => <[k := v]> m end.

(** [existing is not None and existing != value]. *)
Definition collides {A} `{PyEq A} (existing : option A) (value : A) : bool :=
  match existing with Some e => negb (py_eqb e value) | None => false end.

(** Raise [msg] if another value has the key, else [setdefault].  [get] and
    [set] are the dict attribute of the repository. *)
Definition put_once {S A} `{PyEq A} (get : S → gmap string A) (set : gmap string A → S → S)
    (msg : string) (k : string) (v : A) : eff S unit :=
  existing ← gets (λ s, get s !! k);
  if collides existing v then raise (ERuntime msg)
  else modify (λ s, set (setdefault k v (get s)) s).

(** The attribute laws. *)
Class Attribute {S A} (get : S → A) (set : A → S → S) := {
  attr_get_set a s : get (set a s) = a;
  attr_set_get s : set (get s) s = s;
}.

(** [holds m k v]: the dict has a value equal to [v] under [k]. *)
Definition holds {A} `{PyEq A} (m : gmap string A) (k : string) (v : A) : Prop :=
  ∃ u, m !! k = Some u ∧ py_eqb u v = true.

Section once.
Context {S A : Type} `{PyEqLaws A} (get : S → gmap string A) (set : gmap string A → S → S).
Context `{!Attribute get set}.

Lemma setdefault_subseteq k (v : A) m : m ⊆ setdefault k v m.
Proof.
  unfold setdefault. destruct (m !! k) eqn:E; [done|]. by apply insert_subseteq.
Qed.

Lemma setdefault_lookup k (v : A) m : setdefault k v m !! k = Some (default v (m !! k)).
Proof. unfold setdefault. destruct (m !! k) eqn:E; simpl; [done|]. by rewrite lookup_insert_eq. Qed.

Lemma holds_subseteq m m' k (v : A) : m ⊆ m' → holds m k v → holds m' k v.
Proof. intros Hm (u & Hu & Heq). exists u. split; [by eapply lookup_weaken | done]. Qed.

Lemma collides_holds m k (v : A) : holds m k v → collides (m !! k) v = false.
Proof. intros (u & -> & Heq). simpl. by rewrite Heq. Qed.

Lemma setdefault_holds m k (v : A) : collides (m !! k) v = false → holds (setdefault k v m) k v.
Proof.
  intros Hc. exists (default v (m !! k)). rewrite setdefault_lookup. split; [done|].
  destruct (m !! k) as [u|]; simpl in *; [by apply negb_false_iff in Hc | apply py_eqb_refl].
Qed.

(** Two outcomes only: the collision, with the state unchanged, or the value
    held under its key. *)
Lemma put_once_spec msg k v s :
  (collides (get s !! k) v = true ∧ put_once get set msg k v s = (Err (ERuntime msg), s)) ∨
  (collides (get s !! k) v = false ∧
   put_once get set msg k v s = (Ok tt, set (setdefault k v (get s)) s)).
Proof.
  unfold put_once. rewrite eff_bind_unfold. simpl.
  destruct (collides (get s !! k) v) eqn:E; [left | right]; done.
Qed.

Lemma put_once_returns msg k v s u s' :
  put_once get set msg k v s = (Ok u, s') →
  s' = set (setdefault k v (get s)) s ∧ holds (get s') k v.
Proof.
  destruct (put_once_spec msg k v s) as [[E ->]|[E ->]]; [done|]. intros [= _ <-].
  split; [done|]. rewrite attr_get_set. by apply setdefault_holds.
Qed.

Lemma put_once_again msg k v s :
  holds (get s) k v → put_once get set msg k v s = (Ok tt, s).
Proof.
  intros Hh. destruct (put_once_spec msg k v s) as [[E _]|[E ->]].
  - by rewrite collides_holds in E.
  - destruct Hh as (u & Hu & _). unfold setdefault. by rewrite Hu, attr_set_get.
Qed.

Lemma put_once_evolves (R : S → S → Prop) msg k v :
  (∀ s, R s s) → (∀ s m, get s ⊆ m → R s (set m s)) → evolves R (put_once get set msg k v).
Proof.
  intros Hr HR s. destruct (put_once_spec msg k v s) as [[E ->]|[E ->]]; simpl; [done|].
  apply HR, setdefault_subseteq.
Qed.
End once.
