(* ===== verification/Contracts.v ===== *)
(** * Contracts: the evaluator's input and output models

    The enums of daybreak_contracts/enums.py and the strict models of
    input_models.py and output_models.py: a record per model, and per model a
    boolean [*_ok] that holds when the field constraints and the model
    validator accept the values.  Floats are the decimals of their shortest
    representation, which order and compare as the floats do. *)
From Stdlib Require Import Ascii String.
From S2P Require Import Prelude Numerics PyStr.

#[local] Open Scope Z_scope.

(** ** Enums *)

Inductive MarketStatus := MS_NORMAL | MS_LIMIT_UP_DOWN_ACTIVE | MS_CIRCUIT_BREAKER_HALT.
Inductive SourceType := ST_PRIMARY | ST_SECONDARY | ST_UNCONFIRMED.
Inductive VolumeProfile := VP_CLEAN | VP_SPIKY.
Inductive BorrowStatus := BS_EASY | BS_HARD_TO_BORROW | BS_UNKNOWN.
Inductive ChartStructure := CS_BLUE_SKY | CS_CLEAN_SHORT_TERM | CS_MODERATE_ROOM | CS_CAPPED.
Inductive DisqualifierFlag :=
  DF_PAID_PROMOTION | DF_REVERSE_SPLIT_ONLY | DF_UNCONFIRMED_RUMOR | DF_NON_OPERATING_PROMOTION | DF_OTHER.
Inductive RunStatus := RS_APPROVED | RS_NO_SETUPS | RS_BLOCKED_MARKET | RS_STALE_PAYLOAD | RS_SCHEMA_FAILURE.
Inductive MagnitudeBucket :=
  MB_MAJOR_CONCRETE | MB_MATERIAL_PARTIALLY_QUANTIFIED | MB_CREDIBLE_UNQUANTIFIED
  | MB_WEAK_OR_PRELIMINARY | MB_NO_VALID_DRIVER.
Inductive EvidencePurpose := EP_MAGNITUDE | EP_DISQUALIFIER | EP_NONE.
Inductive CatalystZeroReason :=
  CZ_DISQUALIFIER_FLAG | CZ_UNCONFIRMED_SOURCE | CZ_STALE_CATALYST | CZ_NO_VALID_DRIVER.
Inductive TechnicalGrade := TG_A_PLUS | TG_A | TG_B | TG_C.
Inductive RiskFlag :=
  RF_PARABOLIC | RF_HARD_TO_BORROW | RF_UNKNOWN_BORROW | RF_LOW_FLOAT | RF_SPIKY_VOLUME | RF_SECONDARY_SOURCE.
Inductive ReasonCode :=
  RC_HALTED | RC_CATALYST_SCORE_TOO_LOW | RC_UNCORROBORATED_CATALYST | RC_GAP_TOO_SMALL
  | RC_PREMARKET_VOLUME_TOO_LOW | RC_RVOL_TOO_LOW | RC_RESISTANCE_TOO_CLOSE | RC_CAPPED_CHART.
Inductive BlockerCode := BC_MARKET_NOT_NORMAL | BC_PAYLOAD_STALE.
Inductive SchemaFailureScope := SF_PAYLOAD | SF_TICKER.

#[global] Instance MarketStatus_eq : EqDecision MarketStatus. Proof. solve_decision. Defined.
#[global] Instance SourceType_eq : EqDecision SourceType. Proof. solve_decision. Defined.
#[global] Instance VolumeProfile_eq : EqDecision VolumeProfile. Proof. solve_decision. Defined.
#[global] Instance BorrowStatus_eq : EqDecision BorrowStatus. Proof. solve_decision. Defined.
#[global] Instance ChartStructure_eq : EqDecision ChartStructure. Proof. solve_decision. Defined.
#[global] Instance DisqualifierFlag_eq : EqDecision DisqualifierFlag. Proof. solve_decision. Defined.
#[global] Instance RunStatus_eq : EqDecision RunStatus. Proof. solve_decision. Defined.
#[global] Instance MagnitudeBucket_eq : EqDecision MagnitudeBucket. Proof. solve_decision. Defined.
#[global] Instance EvidencePurpose_eq : EqDecision EvidencePurpose. Proof. solve_decision. Defined.
#[global] Instance CatalystZeroReason_eq : EqDecision CatalystZeroReason. Proof. solve_decision. Defined.
#[global] Instance TechnicalGrade_eq : EqDecision TechnicalGrade. Proof. solve_decision. Defined.
#[global] Instance RiskFlag_eq : EqDecision RiskFlag. Proof. solve_decision. Defined.
#[global] Instance ReasonCode_eq : EqDecision ReasonCode. Proof. solve_decision. Defined.
#[global] Instance BlockerCode_eq : EqDecision BlockerCode. Proof. solve_decision. Defined.
#[global] Instance SchemaFailureScope_eq : EqDecision SchemaFailureScope. Proof. solve_decision. Defined.

(** ** Tickers *)

Definition ticker_edge (c : ascii) : bool :=
  let n := nat_of_ascii c in (((65 <=? n) && (n <=? 90)) || ((48 <=? n) && (n <=? 57)))%nat.
Definition ticker_inner (c : ascii) : bool :=
  ticker_edge c || Ascii.eqb c "."%char || Ascii.eqb c "-"%char.

Fixpoint ticker_tail (fuel : nat) (s : string) : bool :=
  match fuel, s with
  | _, String c EmptyString => ticker_edge c
  | S f, String c s' => ticker_inner c && ticker_tail f s'
  | _, _ => false
  end.

(** TICKER_PATTERN: one edge character, optionally followed by at most
    thirteen inner characters and an edge character. *)
Definition is_canonical_ticker (s : string) : bool :=
  match s with
  | EmptyString => false
  | String c EmptyString => ticker_edge c
  | String c s' => ticker_edge c && ticker_tail 13 s'
  end.

(** ** Input models *)

Record NewsContext := {
  nc_catalyst_text : text;
  nc_source_type : SourceType;
  nc_source_name : text;
  nc_source_timestamp : string;
  nc_catalyst_age_hours : decimal;
  nc_corroborated : bool;
  nc_disqualifier_flags : list DisqualifierFlag;
}.

Definition between (lo hi n : Z) : bool := (lo <=? n) && (n <=? hi).
Definition len {A} (l : list A) : Z := Z.of_nat (length l).
Definition no_dup {A} `{EqDecision A} (l : list A) : bool := bool_decide (NoDup l).
Definition nonneg (x : decimal) : bool := (dec.zero <=? x)%dec.
Definition positive_dec (x : decimal) : bool := (dec.zero <? x)%dec.

Definition NewsContext_ok (n : NewsContext) : bool :=
  between 1 4000 (len (nc_catalyst_text n)) && between 1 256 (len (nc_source_name n))
  && nonneg (nc_catalyst_age_hours n)
  && (len (nc_disqualifier_flags n) <=? 5) && no_dup (nc_disqualifier_flags n).

Record LiquidityMetrics := {
  lm_gap_pct : decimal;
  lm_premarket_volume : Z;
  lm_rvol_time_matched : decimal;
  lm_float_shares : Z;
  lm_volume_profile : VolumeProfile;
  lm_borrow_status : BorrowStatus;
}.

Definition LiquidityMetrics_ok (l : LiquidityMetrics) : bool :=
  (0 <=? lm_premarket_volume l) && nonneg (lm_rvol_time_matched l) && (0 <? lm_float_shares l).

Record TechnicalContext := {
  tc_distance_to_resistance_atr : decimal;
  tc_distance_from_vwap_atr : decimal;
  tc_chart_structure : ChartStructure;
  tc_current_price : decimal;
  tc_atr_value : decimal;
  tc_premarket_low : decimal;
}.

Definition TechnicalContext_ok (t : TechnicalContext) : bool :=
  nonneg (tc_distance_to_resistance_atr t) && positive_dec (tc_current_price t)
  && positive_dec (tc_atr_value t) && positive_dec (tc_premarket_low t)
  && negb (bool_decide (tc_chart_structure t = CS_CLEAN_SHORT_TERM)
           && (tc_distance_to_resistance_atr t <=? dec.of_Z 2)%dec)
  && negb (bool_decide (tc_chart_structure t = CS_MODERATE_ROOM)
           && negb ((dec.of_Z 1 <=? tc_distance_to_resistance_atr t)%dec
                    && (tc_distance_to_resistance_atr t <=? dec.of_Z 2)%dec))
  && negb (tc_current_price t <? tc_premarket_low t)%dec.

Record TickerInput := {
  ti_ticker : string;
  ti_halted : bool;
  ti_news_context : NewsContext;
  ti_liquidity_metrics : LiquidityMetrics;
  ti_technical_context : TechnicalContext;
}.

Definition TickerInput_ok (t : TickerInput) : bool :=
  is_canonical_ticker (ti_ticker t) && NewsContext_ok (ti_news_context t)
  && LiquidityMetrics_ok (ti_liquidity_metrics t) && TechnicalContext_ok (ti_technical_context t).

Record DaybreakInput := {
  di_evaluation_timestamp : string;
  di_payload_timestamp : string;
  di_payload_age_seconds : Z;
  di_catalyst_freshness_threshold_hours : decimal;
  di_market_status : MarketStatus;
  di_tickers : list TickerInput;
}.

Definition DaybreakInput_ok (d : DaybreakInput) : bool :=
  (0 <=? di_payload_age_seconds d) && positive_dec (di_catalyst_freshness_threshold_hours d)
  && (len (di_tickers d) <=? 25) && forallb TickerInput_ok (di_tickers d)
  && no_dup (map ti_ticker (di_tickers d)).

(** ** Output models *)

Definition RISK_FLAG_ORDER : list RiskFlag :=
  [RF_PARABOLIC; RF_HARD_TO_BORROW; RF_UNKNOWN_BORROW; RF_LOW_FLOAT; RF_SPIKY_VOLUME; RF_SECONDARY_SOURCE].

(** [RISK_FLAG_ORDER.index(flag)]. *)
Fixpoint flag_index_in (l : list RiskFlag) (f : RiskFlag) : option Z :=
  match l with
  | [] => None
  | g :: l' => if decide (f = g) then Some 0 else Z.succ <$> flag_index_in l' f
  end.
Definition flag_index (f : RiskFlag) : Z := default 0 (flag_index_in RISK_FLAG_ORDER f).

(** [indexes == sorted(indexes)]. *)
Fixpoint is_sorted_Z (l : list Z) : bool :=
  match l with
  | x :: ((y :: _) as l') => (x <=? y) && is_sorted_Z l'
  | _ => true
  end.

Definition validate_risk_flags (flags : list RiskFlag) : bool :=
  no_dup flags && is_sorted_Z (map flag_index flags).

Record ScoreBreakdown := {
  sb_source_quality_points : Z;
  sb_catalyst_magnitude_bucket : MagnitudeBucket;
  sb_catalyst_magnitude_points : Z;
  sb_evidence_purpose : EvidencePurpose;
  sb_magnitude_evidence_excerpt : text;
  sb_magnitude_evidence_truncated : bool;
  sb_magnitude_evidence_start_char : option Z;
  sb_magnitude_evidence_end_char : option Z;
  sb_catalyst_zero_override : bool;
  sb_catalyst_zero_reason : option CatalystZeroReason;
  sb_catalyst_score_raw : Z;
  sb_catalyst_points : Z;
  sb_volume_points : Z;
  sb_technical_grade : TechnicalGrade;
  sb_technical_base_points : Z;
  sb_technical_points : Z;
  sb_parabolic_adjusted : bool;
}.

Definition is_some {A} (o : option A) : bool := match o with Some _ => true | None => false end.

Definition ScoreBreakdown_ok (s : ScoreBreakdown) : bool :=
  between 0 6 (sb_source_quality_points s) && between 0 4 (sb_catalyst_magnitude_points s)
  && (len (sb_magnitude_evidence_excerpt s) <=? 200)
  && between 0 10 (sb_catalyst_score_raw s) && between 0 40 (sb_catalyst_points s)
  && bool_decide (sb_volume_points s ∈ [0; 15; 25; 35])
  && bool_decide (sb_technical_base_points s ∈ [0; 13; 22; 25])
  && bool_decide (sb_technical_points s ∈ [0; 7; 13; 16; 19; 22; 25])
  && eqb (is_some (sb_magnitude_evidence_start_char s)) (is_some (sb_magnitude_evidence_end_char s))
  && eqb (sb_catalyst_zero_override s) (is_some (sb_catalyst_zero_reason s))
  && match sb_evidence_purpose s with
     | EP_DISQUALIFIER => bool_decide (sb_catalyst_zero_reason s = Some CZ_DISQUALIFIER_FLAG)
     | EP_NONE =>
         bool_decide (sb_catalyst_zero_reason s = Some CZ_NO_VALID_DRIVER)
         && bool_decide ((sb_magnitude_evidence_excerpt s, sb_magnitude_evidence_truncated s,
                          sb_magnitude_evidence_start_char s, sb_magnitude_evidence_end_char s)
                         = ([], false, None, None))
     | EP_MAGNITUDE =>
         negb (bool_decide (sb_catalyst_zero_reason s = Some CZ_DISQUALIFIER_FLAG)
               || bool_decide (sb_catalyst_zero_reason s = Some CZ_NO_VALID_DRIVER))
     end.

(** EvaluationSnapshot extends ScoreBreakdown with the risk flags. *)
Record EvaluationSnapshot := {
  es_score : ScoreBreakdown;
  es_risk_flags : list RiskFlag;
}.

Definition EvaluationSnapshot_ok (e : EvaluationSnapshot) : bool :=
  ScoreBreakdown_ok (es_score e) && validate_risk_flags (es_risk_flags e).

Record TradeParameters := {
  tp_reference_price : decimal;
  tp_atr_value_used : decimal;
  tp_premarket_low_used : decimal;
  tp_risk_stop_atr_multiple : decimal;
  tp_profit_target_atr_multiple : decimal;
}.

Definition TradeParameters_ok (t : TradeParameters) : bool :=
  positive_dec (tp_reference_price t) && positive_dec (tp_atr_value_used t)
  && positive_dec (tp_premarket_low_used t)
  && (tp_risk_stop_atr_multiple t =? dec.of_Z 1)%dec
  && (tp_profit_target_atr_multiple t =? dec.of_Z 2)%dec.

Record ApprovedSetup := {
  as_ticker : string;
  as_conviction_score : Z;
  as_score_breakdown : ScoreBreakdown;
  as_master_thesis : text;
  as_catalyst_source : text;
  as_source_type : SourceType;
  as_source_timestamp : string;
  as_catalyst_age_hours : decimal;
  as_corroborated : bool;
  as_risk_flags : list RiskFlag;
  as_trade_parameters : TradeParameters;
}.

Definition ApprovedSetup_ok (a : ApprovedSetup) : bool :=
  is_canonical_ticker (as_ticker a) && between 0 100 (as_conviction_score a)
  && ScoreBreakdown_ok (as_score_breakdown a) && nonneg (as_catalyst_age_hours a)
  && validate_risk_flags (as_risk_flags a) && TradeParameters_ok (as_trade_parameters a).

Record QualifiedNotSelected := {
  qn_ticker : string;
  qn_final_rank : Z;
  qn_conviction_score : Z;
  qn_score_breakdown : ScoreBreakdown;
  qn_catalyst_source : text;
  qn_source_type : SourceType;
  qn_source_timestamp : string;
  qn_catalyst_age_hours : decimal;
  qn_corroborated : bool;
  qn_risk_flags : list RiskFlag;
}.

Definition QualifiedNotSelected_ok (q : QualifiedNotSelected) : bool :=
  is_canonical_ticker (qn_ticker q) && (4 <=? qn_final_rank q) && between 0 100 (qn_conviction_score q)
  && ScoreBreakdown_ok (qn_score_breakdown q) && nonneg (qn_catalyst_age_hours q)
  && validate_risk_flags (qn_risk_flags q).

Record ReasonObject := {
  ro_reason_code : ReasonCode;
  ro_field : string;
  ro_observed_value : string;
  ro_required_condition : string;
  ro_reason : string;
}.

#[global] Instance ReasonObject_eq : EqDecision ReasonObject. Proof. solve_decision. Defined.

Record ExcludedTicker := {
  ex_ticker : string;
  ex_primary_reason : ReasonObject;
  ex_additional_reasons : list ReasonObject;
  ex_evaluation_snapshot : EvaluationSnapshot;
}.

Definition ExcludedTicker_ok (e : ExcludedTicker) : bool :=
  is_canonical_ticker (ex_ticker e) && EvaluationSnapshot_ok (ex_evaluation_snapshot e).

Record SchemaFailure := {
  sf_scope : SchemaFailureScope;
  sf_ticker : option string;
  sf_field : string;
  sf_reason : string;
}.

Definition SchemaFailure_ok (s : SchemaFailure) : bool :=
  negb (bool_decide (sf_scope s = SF_PAYLOAD) && is_some (sf_ticker s)).

Record RunBlocker := {
  rb_blocker_code : BlockerCode;
  rb_field : string;
  rb_observed_value : string;
  rb_required_condition : string;
  rb_reason : string;
}.

Record DaybreakOutput := {
  do_run_status : RunStatus;
  do_execution_timestamp : option string;
  do_payload_timestamp_used : option string;
  do_market_status : option MarketStatus;
  do_approved_setups : list ApprovedSetup;
  do_qualified_not_selected : list QualifiedNotSelected;
  do_excluded_tickers : list ExcludedTicker;
  do_schema_failures : list SchemaFailure;
  do_run_blockers : list RunBlocker;
}.

Definition nonempty {A} (l : list A) : bool := match l with [] => false | _ => true end.

Definition has_blocker (c : BlockerCode) (l : list RunBlocker) : bool :=
  existsb (λ b, bool_decide (rb_blocker_code b = c)) l.

(** DaybreakOutput.validate_status_shape. *)
Definition validate_status_shape (o : DaybreakOutput) : bool :=
  let trading := nonempty (do_approved_setups o) || nonempty (do_qualified_not_selected o)
                 || nonempty (do_excluded_tickers o) in
  let failures := nonempty (do_schema_failures o) in
  let blockers := nonempty (do_run_blockers o) in
  (len (do_approved_setups o) <=? 3)
  && negb (failures && blockers)
  && negb (bool_decide (do_run_status o ∈ [RS_SCHEMA_FAILURE; RS_BLOCKED_MARKET; RS_STALE_PAYLOAD]) && trading)
  && (if decide (do_run_status o = RS_SCHEMA_FAILURE) then failures && negb blockers
      else is_some (do_execution_timestamp o) && is_some (do_payload_timestamp_used o)
           && is_some (do_market_status o) && negb failures)
  && match do_run_status o with
     | RS_APPROVED => nonempty (do_approved_setups o)
     | RS_NO_SETUPS =>
         negb (nonempty (do_approved_setups o) || nonempty (do_qualified_not_selected o)) && negb blockers
     | RS_BLOCKED_MARKET => has_blocker BC_MARKET_NOT_NORMAL (do_run_blockers o)
     | RS_STALE_PAYLOAD =>
         negb (has_blocker BC_MARKET_NOT_NORMAL (do_run_blockers o))
         && has_blocker BC_PAYLOAD_STALE (do_run_blockers o)
     | RS_SCHEMA_FAILURE => true
     end.

Definition DaybreakOutput_ok (o : DaybreakOutput) : bool :=
  forallb ApprovedSetup_ok (do_approved_setups o)
  && forallb QualifiedNotSelected_ok (do_qualified_not_selected o)
  && forallb ExcludedTicker_ok (do_excluded_tickers o)
  && forallb SchemaFailure_ok (do_schema_failures o)
  && validate_status_shape o.
