(* ===== verification/Replay.v ===== *)
(** * Replay: the deterministic scoring, gating and ranking rules

    daybreak_contracts/logic/replay.py.  Part one is the code; part two proves
    the ranges of the expected scores, the exact meaning of the eight hard
    gates, and that the ranking loop terminates with a permutation of the
    passing records that respects the two-point bands and does not depend on
    the order in which the evaluator listed them. *)
From Stdlib Require Import String Permutation QArith Lqa.
From S2P Require Import Prelude Numerics PyStr Contracts.

#[local] Open Scope Z_scope.

(** ** The rules *)

Inductive TerminalRecord :=
  | TApproved (r : ApprovedSetup)
  | TQualified (r : QualifiedNotSelected)
  | TExcluded (r : ExcludedTicker).

Definition MAGNITUDE_POINTS (b : MagnitudeBucket) : Z :=
  match b with
  | MB_MAJOR_CONCRETE => 4
  | MB_MATERIAL_PARTIALLY_QUANTIFIED => 3
  | MB_CREDIBLE_UNQUANTIFIED => 2
  | MB_WEAK_OR_PRELIMINARY => 1
  | MB_NO_VALID_DRIVER => 0
  end.

Record ExpectedTechnical := {
  et_grade : TechnicalGrade;
  et_base_points : Z;
  et_points : Z;
  et_parabolic_adjusted : bool;
}.

Record PassingRecord := {
  pr_ticker : string;
  pr_conviction_score : Z;
  pr_catalyst_age_hours : decimal;
  pr_catalyst_score_raw : Z;
  pr_volume_points : Z;
  pr_technical_points : Z;
}.

(** A later entry of the same ticker replaces the value of an earlier one, as
    in the dict comprehension. *)
Definition input_by_ticker (payload : DaybreakInput) : gmap string TickerInput :=
  list_to_map (reverse (map (λ e, (ti_ticker e, e)) (di_tickers payload))).

Definition terminal_records (o : DaybreakOutput) : list (string * TerminalRecord) :=
  map (λ a, (as_ticker a, TApproved a)) (do_approved_setups o)
  ++ map (λ q, (qn_ticker q, TQualified q)) (do_qualified_not_selected o)
  ++ map (λ e, (ex_ticker e, TExcluded e)) (do_excluded_tickers o).

Definition score_of (r : TerminalRecord) : ScoreBreakdown :=
  match r with
  | TExcluded e => es_score (ex_evaluation_snapshot e)
  | TApproved a => as_score_breakdown a
  | TQualified q => qn_score_breakdown q
  end.

Definition risk_flags_of (r : TerminalRecord) : list RiskFlag :=
  match r with
  | TExcluded e => es_risk_flags (ex_evaluation_snapshot e)
  | TApproved a => as_risk_flags a
  | TQualified q => qn_risk_flags q
  end.

Definition expected_source_quality (e : TickerInput) : Z :=
  let news := ti_news_context e in
  match nc_source_type news with
  | ST_PRIMARY => 6
  | ST_SECONDARY => if nc_corroborated news then 4 else 2
  | ST_UNCONFIRMED => 0
  end.

Definition expected_zero_reason (payload : DaybreakInput) (e : TickerInput)
    (bucket : MagnitudeBucket) : option CatalystZeroReason :=
  let news := ti_news_context e in
  if nonempty (nc_disqualifier_flags news) then Some CZ_DISQUALIFIER_FLAG
  else if bool_decide (nc_source_type news = ST_UNCONFIRMED) then Some CZ_UNCONFIRMED_SOURCE
  else if (di_catalyst_freshness_threshold_hours payload <? nc_catalyst_age_hours news)%dec
    then Some CZ_STALE_CATALYST
  else if bool_decide (bucket = MB_NO_VALID_DRIVER) then Some CZ_NO_VALID_DRIVER
  else None.

Definition expected_evidence_purpose (zero_reason : option CatalystZeroReason) : EvidencePurpose :=
  match zero_reason with
  | Some CZ_DISQUALIFIER_FLAG => EP_DISQUALIFIER
  | Some CZ_NO_VALID_DRIVER => EP_NONE
  | _ => EP_MAGNITUDE
  end.

Definition expected_volume_points (e : TickerInput) : Z :=
  let liq := ti_liquidity_metrics e in
  if bool_decide (lm_volume_profile liq = VP_SPIKY) then 15
  else if (lm_rvol_time_matched liq <? dec.of_Z 5)%dec then 0
  else if (lm_rvol_time_matched liq <=? dec.of_Z 10)%dec then 25
  else 35.

Definition expected_technical (e : TickerInput) : ExpectedTechnical :=
  let tech := ti_technical_context e in
  if (tc_distance_to_resistance_atr tech <? dec.of_Z 1)%dec
     || bool_decide (tc_chart_structure tech = CS_CAPPED)
  then {| et_grade := TG_C; et_base_points := 0; et_points := 0; et_parabolic_adjusted := false |}
  else
    let '(grade, base) := match tc_chart_structure tech with
      | CS_BLUE_SKY => (TG_A_PLUS, 25)
      | CS_CLEAN_SHORT_TERM => (TG_A, 22)
      | CS_MODERATE_ROOM | CS_CAPPED => (TG_B, 13)   (* capped returned above *)
      end in
    let adjusted := (dec.of_Z 3 <? tc_distance_from_vwap_atr tech)%dec in
    {| et_grade := grade; et_base_points := base;
       et_points := if adjusted then base - 6 else base; et_parabolic_adjusted := adjusted |}.

(** [when c x]: the list of one conditional [append]. *)
Definition when {A} (c : bool) (x : A) : list A := if c then [x] else [].

Definition expected_risk_flags (e : TickerInput) (t : ExpectedTechnical) : list RiskFlag :=
  let liq := ti_liquidity_metrics e in
  let news := ti_news_context e in
  when (et_parabolic_adjusted t) RF_PARABOLIC
  ++ when (bool_decide (lm_borrow_status liq = BS_HARD_TO_BORROW)) RF_HARD_TO_BORROW
  ++ when (bool_decide (lm_borrow_status liq = BS_UNKNOWN)) RF_UNKNOWN_BORROW
  ++ when (lm_float_shares liq <? 50000000) RF_LOW_FLOAT
  ++ when (bool_decide (lm_volume_profile liq = VP_SPIKY)) RF_SPIKY_VOLUME
  ++ when (bool_decide (nc_source_type news = ST_SECONDARY)) RF_SECONDARY_SOURCE.

Record ExpectedScore := {
  xs_source_quality_points : Z;
  xs_catalyst_magnitude_points : Z;
  xs_catalyst_zero_override : bool;
  xs_catalyst_zero_reason : option CatalystZeroReason;
  xs_evidence_purpose : EvidencePurpose;
  xs_catalyst_score_raw : Z;
  xs_catalyst_points : Z;
  xs_volume_points : Z;
  xs_technical_grade : TechnicalGrade;
  xs_technical_base_points : Z;
  xs_technical_points : Z;
  xs_parabolic_adjusted : bool;
  xs_risk_flags : list RiskFlag;
}.

Definition expected_score_fields (payload : DaybreakInput) (e : TickerInput)
    (reported : ScoreBreakdown) : ExpectedScore :=
  let source_points := expected_source_quality e in
  let bucket := sb_catalyst_magnitude_bucket reported in
  let magnitude_points := MAGNITUDE_POINTS bucket in
  let zero_reason := expected_zero_reason payload e bucket in
  let raw := if is_some zero_reason then 0 else source_points + magnitude_points in
  let technical := expected_technical e in
  {| xs_source_quality_points := source_points;
     xs_catalyst_magnitude_points := magnitude_points;
     xs_catalyst_zero_override := is_some zero_reason;
     xs_catalyst_zero_reason := zero_reason;
     xs_evidence_purpose := expected_evidence_purpose zero_reason;
     xs_catalyst_score_raw := raw;
     xs_catalyst_points := if is_some zero_reason then 0 else raw * 4;
     xs_volume_points := expected_volume_points e;
     xs_technical_grade := et_grade technical;
     xs_technical_base_points := et_base_points technical;
     xs_technical_points := et_points technical;
     xs_parabolic_adjusted := et_parabolic_adjusted technical;
     xs_risk_flags := expected_risk_flags e technical |}.

(** [_number_string], per type of the observed value. *)
Definition bool_string (b : bool) : string := if b then "true" else "false".
Definition int_string (z : Z) : string := pretty z.

Definition ChartStructure_value (c : ChartStructure) : string :=
  match c with
  | CS_BLUE_SKY => "blue_sky" | CS_CLEAN_SHORT_TERM => "clean_short_term"
  | CS_MODERATE_ROOM => "moderate_room" | CS_CAPPED => "capped"
  end.

Definition gate (failed : bool) (code : ReasonCode) (field observed condition reason : string)
    : list ReasonObject :=
  when failed {| ro_reason_code := code; ro_field := field; ro_observed_value := observed;
                 ro_required_condition := condition; ro_reason := reason |}.

Definition expected_failed_gates (e : TickerInput) (catalyst_score_raw : Z) : list ReasonObject :=
  let liq := ti_liquidity_metrics e in
  let tech := ti_technical_context e in
  let news := ti_news_context e in
  gate (ti_halted e) RC_HALTED "halted" (bool_string (ti_halted e))
    "halted must equal false"
    "The ticker is halted and cannot be approved."
  ++ gate (catalyst_score_raw <? 7) RC_CATALYST_SCORE_TOO_LOW "news_context.catalyst_score_raw"
    (int_string catalyst_score_raw)
    "catalyst_score_raw must be greater than or equal to 7"
    "The catalyst score is below the required minimum."
  ++ gate (negb (nc_corroborated news) && (catalyst_score_raw <? 9)) RC_UNCORROBORATED_CATALYST
    "news_context.corroborated" (bool_string (nc_corroborated news))
    "uncorroborated catalysts require catalyst_score_raw greater than or equal to 9"
    "The uncorroborated catalyst does not meet the stricter score requirement."
  ++ gate (lm_gap_pct liq <? dec.of_Z 4)%dec RC_GAP_TOO_SMALL "liquidity_metrics.gap_pct"
    (float_repr (lm_gap_pct liq))
    "gap_pct must be greater than or equal to 4.0"
    "The premarket gap is below the required minimum."
  ++ gate (lm_premarket_volume liq <? 500000) RC_PREMARKET_VOLUME_TOO_LOW
    "liquidity_metrics.premarket_volume" (int_string (lm_premarket_volume liq))
    "premarket_volume must be greater than or equal to 500000"
    "Premarket volume is below the required minimum."
  ++ gate (lm_rvol_time_matched liq <? dec.of_Z 5)%dec RC_RVOL_TOO_LOW
    "liquidity_metrics.rvol_time_matched" (float_repr (lm_rvol_time_matched liq))
    "rvol_time_matched must be greater than or equal to 5.0"
    "Time-matched RVOL is below the required minimum."
  ++ gate (tc_distance_to_resistance_atr tech <? dec.of_Z 1)%dec RC_RESISTANCE_TOO_CLOSE
    "technical_context.distance_to_resistance_atr" (float_repr (tc_distance_to_resistance_atr tech))
    "distance_to_resistance_atr must be greater than or equal to 1.0"
    "The ticker has insufficient room before resistance."
  ++ gate (bool_decide (tc_chart_structure tech = CS_CAPPED)) RC_CAPPED_CHART
    "technical_context.chart_structure" (ChartStructure_value (tc_chart_structure tech))
    "chart_structure must not equal capped"
    "The chart is capped by nearby structural resistance.".

Definition passing_records (o : DaybreakOutput) : list PassingRecord :=
  map (λ a, {| pr_ticker := as_ticker a; pr_conviction_score := as_conviction_score a;
               pr_catalyst_age_hours := as_catalyst_age_hours a;
               pr_catalyst_score_raw := sb_catalyst_score_raw (as_score_breakdown a);
               pr_volume_points := sb_volume_points (as_score_breakdown a);
               pr_technical_points := sb_technical_points (as_score_breakdown a) |})
    (do_approved_setups o)
  ++ map (λ q, {| pr_ticker := qn_ticker q; pr_conviction_score := qn_conviction_score q;
               pr_catalyst_age_hours := qn_catalyst_age_hours q;
               pr_catalyst_score_raw := sb_catalyst_score_raw (qn_score_breakdown q);
               pr_volume_points := sb_volume_points (qn_score_breakdown q);
               pr_technical_points := sb_technical_points (qn_score_breakdown q) |})
    (do_qualified_not_selected o).

(** The sort keys, compared as Python compares tuples. *)
Definition conviction_compare (a b : PassingRecord) : comparison :=
  lex (Z.compare (- pr_conviction_score a) (- pr_conviction_score b))
      (String.compare (pr_ticker a) (pr_ticker b)).

Definition freshness_compare (a b : PassingRecord) : comparison :=
  lex (dec.compare (pr_catalyst_age_hours a) (pr_catalyst_age_hours b))
  (lex (Z.compare (- pr_catalyst_score_raw a) (- pr_catalyst_score_raw b))
  (lex (Z.compare (- pr_volume_points a) (- pr_volume_points b))
  (lex (Z.compare (- pr_technical_points a) (- pr_technical_points b))
       (String.compare (pr_ticker a) (pr_ticker b))))).

(** One turn of the ranking loop: the group of the anchor, and the rest. *)
Definition anchor_group (remaining : list PassingRecord) : list PassingRecord :=
  match remaining with
  | [] => []
  | a :: _ => filter (λ r, pr_conviction_score a - pr_conviction_score r <= 2) remaining
  end.
Definition after_group (remaining group : list PassingRecord) : list PassingRecord :=
  filter (λ r, pr_ticker r ∉ map pr_ticker group) remaining.

(** The [while remaining] loop; each turn removes at least the anchor, so the
    length of [remaining] is enough fuel (see [rank_loop_spec]). *)
Fixpoint rank_loop (fuel : nat) (remaining ranked : list PassingRecord) : list PassingRecord :=
  match fuel, remaining with
  | _, [] => ranked
  | O, _ :: _ => ranked
  | S f, _ :: _ =>
      let group := anchor_group remaining in
      rank_loop f (after_group remaining group)
        (ranked ++ sorted_by (λ a b, not_gt (freshness_compare a b)) group)
  end.

Definition rank_records (l : list PassingRecord) : list PassingRecord :=
  let remaining := sorted_by (λ a b, not_gt (conviction_compare a b)) l in
  rank_loop (length remaining) remaining [].

Definition expected_passing_order (o : DaybreakOutput) : list string :=
  map pr_ticker (rank_records (passing_records o)).

(** ** Scores *)

Definition technical_results : list (TechnicalGrade * Z) :=
  [(TG_A_PLUS, 25); (TG_A_PLUS, 19); (TG_A, 22); (TG_A, 16); (TG_B, 13); (TG_B, 7); (TG_C, 0)].

Lemma expected_technical_result e :
  (et_grade (expected_technical e), et_points (expected_technical e)) ∈ technical_results ∧
  (et_parabolic_adjusted (expected_technical e) = true → et_grade (expected_technical e) ≠ TG_C) ∧
  et_base_points (expected_technical e) ∈ [0; 13; 22; 25].
Proof.
  unfold expected_technical.
  destruct (_ || _); [simpl; split_and!; [set_solver | done | set_solver]|].
  destruct (tc_chart_structure _); destruct (dec.ltb _ _); simpl; split_and!;
    try done; unfold technical_results; set_solver.
Qed.

Lemma expected_volume_range e : expected_volume_points e ∈ [0; 15; 25; 35].
Proof.
  unfold expected_volume_points.
  destruct (bool_decide _); [set_solver|]. destruct (dec.ltb _ _); [set_solver|].
  destruct (dec.leb _ _); set_solver.
Qed.

Lemma expected_catalyst_range payload e r :
  let x := expected_score_fields payload e r in
  0 <= xs_catalyst_score_raw x <= 10 ∧ xs_catalyst_points x = 4 * xs_catalyst_score_raw x.
Proof.
  simpl. destruct (is_some _); [lia|].
  assert (0 <= expected_source_quality e <= 6).
  { unfold expected_source_quality. destruct (nc_source_type _); [lia| |lia].
    destruct (nc_corroborated _); lia. }
  assert (0 <= MAGNITUDE_POINTS (sb_catalyst_magnitude_bucket r) <= 4)
    by (destruct (sb_catalyst_magnitude_bucket r); simpl; lia).
  lia.
Qed.

Lemma expected_technical_points_range e : 0 <= et_points (expected_technical e) <= 25.
Proof.
  destruct (expected_technical_result e) as [H _]. unfold technical_results in H.
  repeat (apply elem_of_cons in H as [[= _ ->]|H]; [lia|]). by apply not_elem_of_nil in H.
Qed.

Lemma expected_risk_flags_valid e t : validate_risk_flags (expected_risk_flags e t) = true.
Proof.
  unfold expected_risk_flags, validate_risk_flags, when.
  destruct (et_parabolic_adjusted t); destruct (lm_borrow_status _); destruct (Z.ltb _ _);
    destruct (lm_volume_profile _); destruct (nc_source_type _); vm_compute; reflexivity.
Qed.

(** ** Hard gates *)

Definition gate_order : list ReasonCode :=
  [RC_HALTED; RC_CATALYST_SCORE_TOO_LOW; RC_UNCORROBORATED_CATALYST; RC_GAP_TOO_SMALL;
   RC_PREMARKET_VOLUME_TOO_LOW; RC_RVOL_TOO_LOW; RC_RESISTANCE_TOO_CLOSE; RC_CAPPED_CHART].

(** The requirement each reason code stands for, over exact values. *)
Definition gate_condition (e : TickerInput) (raw : Z) (c : ReasonCode) : Prop :=
  let liq := ti_liquidity_metrics e in
  let tech := ti_technical_context e in
  let news := ti_news_context e in
  match c with
  | RC_HALTED => ti_halted e = false
  | RC_CATALYST_SCORE_TOO_LOW => 7 <= raw
  | RC_UNCORROBORATED_CATALYST => nc_corroborated news = true ∨ 9 <= raw
  | RC_GAP_TOO_SMALL => (4 <= dval (lm_gap_pct liq))%Q
  | RC_PREMARKET_VOLUME_TOO_LOW => 500000 <= lm_premarket_volume liq
  | RC_RVOL_TOO_LOW => (5 <= dval (lm_rvol_time_matched liq))%Q
  | RC_RESISTANCE_TOO_CLOSE => (1 <= dval (tc_distance_to_resistance_atr tech))%Q
  | RC_CAPPED_CHART => tc_chart_structure tech ≠ CS_CAPPED
  end.

Lemma map_when {A B} (f : A → B) c x : map f (when c x) = when c (f x).
Proof. by destruct c. Qed.

Definition gate_codes (e : TickerInput) (raw : Z) : list ReasonCode :=
  map ro_reason_code (expected_failed_gates e raw).

(** The test behind each reason code. *)
Definition gate_failed (e : TickerInput) (raw : Z) (c : ReasonCode) : bool :=
  let liq := ti_liquidity_metrics e in
  let tech := ti_technical_context e in
  let news := ti_news_context e in
  match c with
  | RC_HALTED => ti_halted e
  | RC_CATALYST_SCORE_TOO_LOW => raw <? 7
  | RC_UNCORROBORATED_CATALYST => negb (nc_corroborated news) && (raw <? 9)
  | RC_GAP_TOO_SMALL => (lm_gap_pct liq <? dec.of_Z 4)%dec
  | RC_PREMARKET_VOLUME_TOO_LOW => lm_premarket_volume liq <? 500000
  | RC_RVOL_TOO_LOW => (lm_rvol_time_matched liq <? dec.of_Z 5)%dec
  | RC_RESISTANCE_TOO_CLOSE => (tc_distance_to_resistance_atr tech <? dec.of_Z 1)%dec
  | RC_CAPPED_CHART => bool_decide (tc_chart_structure tech = CS_CAPPED)
  end.

Lemma when_filter e raw c l :
  when (gate_failed e raw c) c ++ filter (λ c, gate_failed e raw c = true) l =
  filter (λ c, gate_failed e raw c = true) (c :: l).
Proof.
  rewrite filter_cons. unfold when. by destruct (gate_failed e raw c) eqn:E; case_decide.
Qed.

Lemma gate_codes_filter e raw :
  gate_codes e raw = filter (λ c, gate_failed e raw c = true) gate_order.
Proof.
  unfold gate_order. rewrite <- !when_filter.
  unfold gate_codes, expected_failed_gates, gate. rewrite !map_app, !map_when. simpl.
  by rewrite app_nil_r.
Qed.

Lemma gate_failed_spec e raw c : gate_failed e raw c = true ↔ ¬ gate_condition e raw c.
Proof.
  destruct c; simpl; rewrite ?andb_true_iff, ?negb_true_iff, ?Z.ltb_lt, ?dltb_spec, ?dval_of_Z,
    ?bool_decide_eq_true.
  - by destruct (ti_halted e).
  - lia.
  - destruct (nc_corroborated _); split; [by intros [??] | tauto | intros [_ ?] [?|?]; [done|lia] |].
    intros H. split; [done|]. destruct (Z_lt_le_dec raw 9); [done|tauto].
  - change (inject_Z 4) with 4%Q. split; [apply Qlt_not_le | apply Qnot_le_lt].
  - lia.
  - change (inject_Z 5) with 5%Q. split; [apply Qlt_not_le | apply Qnot_le_lt].
  - change (inject_Z 1) with 1%Q. split; [apply Qlt_not_le | apply Qnot_le_lt].
  - split; [tauto|]. by intros ?%dec_stable.
Qed.

Lemma gate_codes_spec e raw c : c ∈ gate_codes e raw ↔ ¬ gate_condition e raw c.
Proof.
  rewrite gate_codes_filter, list_elem_of_filter, gate_failed_spec.
  assert (c ∈ gate_order) by (unfold gate_order; destruct c; set_solver). tauto.
Qed.

Lemma gate_codes_sublist e raw : gate_codes e raw `sublist_of` gate_order.
Proof. rewrite gate_codes_filter. apply sublist_filter. Qed.

Lemma gate_codes_NoDup e raw : NoDup (gate_codes e raw).
Proof.
  rewrite gate_codes_filter. apply NoDup_filter. unfold gate_order.
  apply (bool_decide_unpack _). vm_compute. exact I.
Qed.

(** Passing every gate is having no failure. *)
Lemma expected_failed_gates_nil e raw :
  expected_failed_gates e raw = [] ↔ ∀ c, gate_condition e raw c.
Proof.
  assert (expected_failed_gates e raw = [] ↔ gate_codes e raw = []) as ->.
  { unfold gate_codes. split; [by intros -> | by intros ?%map_eq_nil]. }
  split.
  - intros Hn c. assert (¬ ¬ gate_condition e raw c) as Hc.
    { rewrite <- gate_codes_spec, Hn. apply not_elem_of_nil. }
    rewrite <- gate_failed_spec in Hc. destruct (gate_failed e raw c) eqn:E; [done|].
    destruct c; simpl in *; bool_to_prop; try done; try tauto.
    + apply andb_false_iff in E as [E|E]; [left; by destruct (nc_corroborated _) | right; bool_to_prop; lia].
    + apply dltb_false in E. by rewrite dval_of_Z in E.
    + apply dltb_false in E. by rewrite dval_of_Z in E.
    + apply dltb_false in E. by rewrite dval_of_Z in E.
  - intros Hc. destruct (gate_codes e raw) as [|c l] eqn:E; [done|].
    exfalso. apply (gate_codes_spec e raw c); [rewrite E; constructor | apply Hc].
Qed.

(** ** Ranking *)

Section ranking.
Implicit Types l k remaining group ranked : list PassingRecord.

Lemma conviction_good : good_compare conviction_compare.
Proof.
  apply (good_lex (λ a b, Z.compare (- pr_conviction_score a) (- pr_conviction_score b))
                  (λ a b, String.compare (pr_ticker a) (pr_ticker b))).
  - apply (good_map (λ a, - pr_conviction_score a)), good_Z.
  - apply (good_map pr_ticker), good_string.
Qed.

Lemma freshness_good : good_compare freshness_compare.
Proof.
  unfold freshness_compare.
  apply (good_lex (λ a b, dec.compare (pr_catalyst_age_hours a) (pr_catalyst_age_hours b))
    (λ a b, lex (Z.compare (- pr_catalyst_score_raw a) (- pr_catalyst_score_raw b)) _)).
  { apply (good_map pr_catalyst_age_hours), good_dec. }
  apply (good_lex (λ a b, Z.compare (- pr_catalyst_score_raw a) (- pr_catalyst_score_raw b))
    (λ a b, lex (Z.compare (- pr_volume_points a) (- pr_volume_points b)) _)).
  { apply (good_map (λ a, - pr_catalyst_score_raw a)), good_Z. }
  apply (good_lex (λ a b, Z.compare (- pr_volume_points a) (- pr_volume_points b))
    (λ a b, lex (Z.compare (- pr_technical_points a) (- pr_technical_points b)) _)).
  { apply (good_map (λ a, - pr_volume_points a)), good_Z. }
  apply (good_lex (λ a b, Z.compare (- pr_technical_points a) (- pr_technical_points b))
    (λ a b, String.compare (pr_ticker a) (pr_ticker b))).
  - apply (good_map (λ a, - pr_technical_points a)), good_Z.
  - apply (good_map pr_ticker), good_string.
Qed.

Lemma lex_Eq c1 c2 : lex c1 c2 = Eq → c1 = Eq ∧ c2 = Eq.
Proof. by destruct c1. Qed.

Lemma conviction_Eq a b : conviction_compare a b = Eq → pr_ticker a = pr_ticker b.
Proof. unfold conviction_compare. intros [_ H]%lex_Eq. by apply String.compare_eq_iff. Qed.

Lemma freshness_Eq a b : freshness_compare a b = Eq → pr_ticker a = pr_ticker b.
Proof.
  unfold freshness_compare. intros [_ [_ [_ [_ H]%lex_Eq]%lex_Eq]%lex_Eq]%lex_Eq.
  by apply String.compare_eq_iff.
Qed.

Lemma conviction_le a b :
  not_gt (conviction_compare a b) = true → pr_conviction_score b <= pr_conviction_score a.
Proof.
  unfold conviction_compare. destruct (Z.compare_spec (- pr_conviction_score a) (- pr_conviction_score b));
    simpl; [lia | lia | done].
Qed.

Abbreviation by_conviction := (λ a b, not_gt (conviction_compare a b) = true).
Abbreviation by_freshness := (sorted_by (λ a b, not_gt (freshness_compare a b))).

(** The group and the rest share out the remaining records. *)
Lemma anchor_group_split remaining :
  NoDup (map pr_ticker remaining) →
  Permutation (anchor_group remaining ++ after_group remaining (anchor_group remaining)) remaining.
Proof.
  intros Hnd. destruct remaining as [|a l]; [done|]. unfold anchor_group, after_group.
  set (P := λ r, pr_conviction_score a - pr_conviction_score r <= 2).
  set (R := a :: l) in *.
  rewrite (filter_ext_in (λ r, pr_ticker r ∉ map pr_ticker (filter P R)) (λ r, ¬ P r)).
  { apply filter_app_complement. }
  intros r Hr. split; intros H Hc; apply H.
  - apply list_elem_of_fmap. exists r. split; [done|]. by apply list_elem_of_filter.
  - apply list_elem_of_fmap in Hc as (r' & Ht & Hr'). apply list_elem_of_filter in Hr' as [HP Hr'].
    by rewrite (NoDup_map_inj pr_ticker R r r').
Qed.

Lemma anchor_group_cons a l : a ∈ anchor_group (a :: l).
Proof. apply list_elem_of_filter. split; [lia | constructor]. Qed.

Lemma after_group_shorter a l :
  NoDup (map pr_ticker (a :: l)) →
  (length (after_group (a :: l) (anchor_group (a :: l))) <= length l)%nat.
Proof.
  intros Hnd. pose proof (Permutation_length (anchor_group_split _ Hnd)) as Hlen.
  rewrite length_app in Hlen. cbn [length] in Hlen.
  pose proof (anchor_group_cons a l) as Ha.
  destruct (anchor_group (a :: l)); [by apply not_elem_of_nil in Ha|]. simpl in *. lia.
Qed.

(** The band order: nobody is preceded by a record more than two points
    below. *)
Definition band (a b : PassingRecord) : Prop := pr_conviction_score b <= pr_conviction_score a + 2.

Lemma rank_loop_spec fuel remaining ranked :
  (length remaining <= fuel)%nat → NoDup (map pr_ticker remaining) →
  StronglySorted by_conviction remaining →
  ∃ tail, rank_loop fuel remaining ranked = ranked ++ tail ∧
    Permutation tail remaining ∧ StronglySorted band tail.
Proof.
  revert remaining ranked. induction fuel as [|f IH]; intros remaining ranked Hlen Hnd Hs.
  { destruct remaining; [|simpl in Hlen; lia]. exists []. simpl. rewrite app_nil_r. by repeat constructor. }
  destruct remaining as [|a l].
  { exists []. simpl. rewrite app_nil_r. by repeat constructor. }
  cbn [rank_loop]. set (R := a :: l) in *. set (g := anchor_group R).
  pose proof (anchor_group_split R Hnd) as Hsplit. fold g in Hsplit.
  destruct (IH (after_group R g) (ranked ++ by_freshness g)) as (t & -> & Hp & Hb).
  - pose proof (after_group_shorter a l Hnd) as H. fold R g in H. simpl in Hlen. lia.
  - by apply NoDup_map_filter.
  - by apply StronglySorted_filter.
  - exists (by_freshness g ++ t). split; [by rewrite app_assoc|]. split.
    + rewrite sorted_by_perm, Hp. done.
    + assert (∀ b, b ∈ R → pr_conviction_score b <= pr_conviction_score a) as Hmax.
      { intros b Hin. apply elem_of_cons in Hin as [->|Hin]; [lia|].
        apply StronglySorted_inv in Hs as [_ Hf]. eapply Forall_forall in Hf; [|done].
        by apply conviction_le. }
      assert (∀ x y, x ∈ g → y ∈ R → band x y) as Hband.
      { intros x y Hx Hy. apply list_elem_of_filter in Hx as [Hx _].
        specialize (Hmax y Hy). unfold band. lia. }
      assert (∀ x, x ∈ g → x ∈ R) as Hsub by (by intros x [_ ?]%list_elem_of_filter).
      apply StronglySorted_app_intro; [|done|].
      * assert (∀ k, (∀ x, x ∈ k → x ∈ g) → StronglySorted band k) as Hall.
        { induction k as [|x k IHk]; intros Hk; constructor; [apply IHk; set_solver|].
          apply Forall_forall. intros y Hy. apply Hband; [|apply Hsub]; apply Hk; set_solver. }
        apply Hall. intros x. by rewrite elem_of_sorted_by.
      * intros x y Hx Hy. apply Hband; [by apply elem_of_sorted_by in Hx|].
        rewrite Hp in Hy. by apply list_elem_of_filter in Hy as [_ ?].
Qed.

Lemma rank_records_spec l :
  NoDup (map pr_ticker l) → Permutation (rank_records l) l ∧ StronglySorted band (rank_records l).
Proof.
  intros Hnd. unfold rank_records.
  set (s := sorted_by (λ a b, not_gt (conviction_compare a b)) l).
  assert (Permutation s l) as Hp by apply sorted_by_perm.
  destruct (rank_loop_spec (length s) s []) as (t & -> & Ht & Hb); [done | by rewrite Hp | |].
  - apply sort_sorted, conviction_good.
  - split; [by rewrite Ht|done].
Qed.

Lemma rank_records_perm l k :
  NoDup (map pr_ticker l) → Permutation l k → rank_records l = rank_records k.
Proof.
  intros Hnd Hp. unfold rank_records.
  rewrite (sort_unique conviction_compare l k); [done | apply conviction_good | | done].
  intros a b Ha Hb H. apply (NoDup_map_inj pr_ticker l); [done..|]. by apply conviction_Eq.
Qed.
End ranking.

(** ** Properties *)

(** C1: the hard gates fail exactly where their documented requirement fails.
    The reason codes that [expected_failed_gates] reports are, without
    repetition and in the canonical gate order, those whose requirement (read
    over the exact values of the input) does not hold, so the list is empty
    exactly when every gate holds. *)
Theorem failed_gates_exact e raw :
  let codes := map ro_reason_code (expected_failed_gates e raw) in
  codes `sublist_of` gate_order ∧ NoDup codes ∧
  (∀ c, c ∈ codes ↔ ¬ gate_condition e raw c) ∧
  (codes = [] ↔ ∀ c, gate_condition e raw c).
Proof.
  split_and!; [apply gate_codes_sublist | apply gate_codes_NoDup | intros; apply gate_codes_spec |].
  rewrite <- expected_failed_gates_nil. split; [apply map_eq_nil | by intros ->].
Qed.

(** The expected score stays inside the published scale.  Whatever the
    magnitude bucket reported, the expected components lie in the ranges and
    point tables of the schema, their total lies between 0 and 100, a zero
    override sets both catalyst scores to zero, and the expected risk flags
    are in canonical order without repetition. *)
Theorem expected_score_in_scale payload e r :
  let x := expected_score_fields payload e r in
  0 <= xs_catalyst_score_raw x <= 10 ∧
  xs_catalyst_points x = 4 * xs_catalyst_score_raw x ∧
  xs_volume_points x ∈ [0; 15; 25; 35] ∧
  (xs_technical_grade x, xs_technical_points x) ∈ technical_results ∧
  0 <= xs_catalyst_points x + xs_volume_points x + xs_technical_points x <= 100 ∧
  (xs_catalyst_zero_override x = true →
     xs_catalyst_score_raw x = 0 ∧ is_some (xs_catalyst_zero_reason x) = true) ∧
  validate_risk_flags (xs_risk_flags x) = true.
Proof.
  pose proof (expected_catalyst_range payload e r) as [Hr Hp].
  pose proof (expected_volume_range e) as Hv.
  pose proof (expected_technical_result e) as [Ht _].
  pose proof (expected_technical_points_range e).
  assert (0 <= expected_volume_points e <= 35).
  { repeat (apply elem_of_cons in Hv as [->|Hv]; [lia|]). by apply not_elem_of_nil in Hv. }
  cbn zeta in *.
  split; [lia|]. split; [done|]. split; [apply expected_volume_range|]. split; [done|].
  split; [simpl in *; lia|]. split; [by simpl; intros -> | apply expected_risk_flags_valid].
Qed.

(** C2: ranking terminates and loses nobody.  When no ticker is listed twice,
    the band loop ends within its fuel with each passing ticker exactly once,
    and no record is placed behind one whose conviction is more than two
    points below its own. *)
Theorem passing_order_spec o :
  NoDup (map pr_ticker (passing_records o)) →
  expected_passing_order o = map pr_ticker (rank_records (passing_records o)) ∧
  Permutation (rank_records (passing_records o)) (passing_records o) ∧
  StronglySorted (λ a b, pr_conviction_score b <= pr_conviction_score a + 2)
    (rank_records (passing_records o)).
Proof. intros H. split; [done|]. by apply rank_records_spec. Qed.

(** Three approved setups whose anchor (94) comes behind a fresher 92. *)
Definition sample_score (raw volume technical : Z) : ScoreBreakdown :=
  {| sb_source_quality_points := 6; sb_catalyst_magnitude_bucket := MB_MAJOR_CONCRETE;
     sb_catalyst_magnitude_points := 4; sb_evidence_purpose := EP_MAGNITUDE;
     sb_magnitude_evidence_excerpt := []; sb_magnitude_evidence_truncated := false;
     sb_magnitude_evidence_start_char := None; sb_magnitude_evidence_end_char := None;
     sb_catalyst_zero_override := false; sb_catalyst_zero_reason := None;
     sb_catalyst_score_raw := raw; sb_catalyst_points := 4 * raw; sb_volume_points := volume;
     sb_technical_grade := TG_A_PLUS; sb_technical_base_points := 25;
     sb_technical_points := technical; sb_parabolic_adjusted := false |}.

Definition sample_setup (ticker : string) (conviction raw age : Z) : ApprovedSetup :=
  {| as_ticker := ticker; as_conviction_score := conviction;
     as_score_breakdown := sample_score raw 25 25; as_master_thesis := []; as_catalyst_source := [];
     as_source_type := ST_PRIMARY; as_source_timestamp := "2026-01-05T13:00:00Z";
     as_catalyst_age_hours := dec.of_Z age; as_corroborated := true; as_risk_flags := [];
     as_trade_parameters :=
       {| tp_reference_price := dec.of_Z 10; tp_atr_value_used := dec.of_Z 1;
          tp_premarket_low_used := dec.of_Z 9; tp_risk_stop_atr_multiple := dec.of_Z 1;
          tp_profit_target_atr_multiple := dec.of_Z 2 |} |}.

Definition sample_output (setups : list ApprovedSetup) : DaybreakOutput :=
  {| do_run_status := RS_APPROVED; do_execution_timestamp := Some "2026-01-05T13:45:00Z";
     do_payload_timestamp_used := Some "2026-01-05T13:44:59Z"; do_market_status := Some MS_NORMAL;
     do_approved_setups := setups; do_qualified_not_selected := []; do_excluded_tickers := [];
     do_schema_failures := []; do_run_blockers := [] |}.

Definition sample_ranked : DaybreakOutput :=
  sample_output [sample_setup "AAA" 94 10 5; sample_setup "BBB" 92 10 2; sample_setup "CCC" 91 10 1].

Example sample_ranked_order : expected_passing_order sample_ranked = ["BBB"; "AAA"; "CCC"].
Proof. reflexivity. Qed.

Lemma passing_order_spec_witness :
  Permutation (rank_records (passing_records sample_ranked)) (passing_records sample_ranked).
Proof.
  apply (passing_order_spec sample_ranked). apply (bool_decide_unpack _). vm_compute. exact I.
Defined.

(** The expected order depends on the passing records only, not on the
    order (or the split into approved and not selected) in which the
    evaluator listed them. *)
Theorem passing_order_unique o o' :
  NoDup (map pr_ticker (passing_records o)) →
  Permutation (passing_records o) (passing_records o') →
  expected_passing_order o = expected_passing_order o'.
Proof. intros Hnd Hp. unfold expected_passing_order. by rewrite (rank_records_perm _ _ Hnd Hp). Qed.

Lemma passing_order_unique_witness :
  expected_passing_order sample_ranked =
  expected_passing_order (sample_output (reverse (do_approved_setups sample_ranked))).
Proof.
  apply passing_order_unique; [apply (bool_decide_unpack _); vm_compute; exact I|].
  change (passing_records (sample_output (reverse (do_approved_setups sample_ranked))))
    with (reverse (passing_records sample_ranked)).
  symmetry. apply reverse_Permutation.
Defined.
