(* ===== verification/Canonical.v ===== *)
(** * Canonical: the canonical JSON text and its SHA-256

    daybreak_risk/canonical.py, whose text daybreak_scanner/canonical.py copies
    word for word, and the default-hook variant of daybreak_execution.  A
    [pyval] is the value the functions walk once pydantic has dumped a model;
    how a model is dumped is pydantic's business and enters as the class
    [Dump].  [json_text] is [json.dumps] with sorted keys, compact separators
    and [ensure_ascii=False], over UTF-8 bytes.

    The theorems at the end show that the text identifies the value up to the
    order of object members, so two artifacts share a hash only if they agree
    or SHA-256 collides. *)
From Stdlib Require Import Ascii String Permutation.
From S2P Require Import Prelude Numerics PyStr PyTime.

#[local] Open Scope Z_scope.

(** ** JSON values and their text *)

(** A float is carried as the text of its [repr]. *)
#[local] Set Warnings "-register-all".

Inductive json :=
  | JNull
  | JBool (b : bool)
  | JInt (z : Z)
  | JFloat (repr : string)
  | JStr (s : string)
  | JArr (l : list json)
  | JObj (m : list (string * json)).

Abbreviation bytes := (list ascii).
Definition bytes_of : string → bytes := list_ascii_of_string.

Definition hex_digit (n : Z) : ascii :=
  ascii_of_nat (Z.to_nat (if n <? 10 then 48 + n else 87 + n)).

(** The escapes of [json.dumps]. *)
Definition escape (c : ascii) : bytes :=
  let n := Z.of_nat (nat_of_ascii c) in
  if n =? 34 then ["\"%char; ascii_of_nat 34] else if n =? 92 then bytes_of "\\"
  else if n =? 10 then bytes_of "\n" else if n =? 13 then bytes_of "\r"
  else if n =? 9 then bytes_of "\t" else if n =? 12 then bytes_of "\f"
  else if n =? 8 then bytes_of "\b"
  else if n <? 32 then bytes_of "\u00" ++ [hex_digit (n / 16); hex_digit (n mod 16)]
  else [c].

Definition dquote : ascii := ascii_of_nat 34.
Definition quoted (s : string) : bytes := dquote :: concat (map escape (bytes_of s)) ++ [dquote].

Fixpoint join (sep : bytes) (l : list bytes) : bytes :=
  match l with
  | [] => []
  | [x] => x
  | x :: l' => x ++ sep ++ join sep l'
  end.

Definition comma : bytes := [","%char].

Definition key_le {A} (a b : string * A) : bool := not_gt (String.compare a.1 b.1).

Fixpoint json_text (v : json) : bytes :=
  match v with
  | JNull => bytes_of "null"
  | JBool b => bytes_of (if b then "true" else "false")
  | JInt z => bytes_of (pretty z)
  | JFloat r => bytes_of r
  | JStr s => quoted s
  | JArr l => "["%char :: join comma (map json_text l) ++ ["]"%char]
  | JObj m =>
      "{"%char :: join comma (map (λ kt, quoted kt.1 ++ ":"%char :: kt.2)
        (sorted_by key_le (map (λ kv, (kv.1, json_text kv.2)) m))) ++ ["}"%char]
  end.

(** ** Python values before normalization *)

Inductive pyval :=
  | PNone
  | PBool (b : bool)
  | PInt (z : Z)
  | PFloat (repr : string)
  | PDecimal (d : decimal)
  | PStr (s : string)
  | PEnum (value : string)
  | PDatetime (t : datetime)
  | PDate (d : date)
  | PTime (us : Z)
  | PSeq (l : list pyval)
  | PDict (m : list (string * pyval)).

(** [format(d, 'f')]: positional notation. *)
Definition decimal_f (d : decimal) : string :=
  let ds := digits_string (Z.abs (coef d)) in
  let sign := if coef d <? 0 then "-" else "" in
  if 0 <=? expo d then
    sign +:+ (if coef d =? 0 then "0" else ds +:+ zeros (Z.to_nat (expo d)))
  else
    let k := Z.to_nat (- expo d) in
    let ds := zeros (S k - String.length ds) +:+ ds in
    let n := (String.length ds - k)%nat in
    sign +:+ string_take n ds +:+ "." +:+ String.substring n k ds.

(** A dict key may not repeat; a dict built from a dump never does. *)
Fixpoint normalize (v : pyval) : json :=
  match v with
  | PNone => JNull
  | PBool b => JBool b
  | PInt z => JInt z
  | PFloat r => JFloat r
  | PDecimal d => JStr (decimal_f d)
  | PStr s => JStr s
  | PEnum s => JStr s
  | PDatetime t => JStr (datetime_iso t)
  | PDate d => JStr (date_iso d)
  | PTime us => JStr (time_iso us)
  | PSeq l => JArr (map normalize l)
  | PDict m => JObj (map (λ kv, (kv.1, normalize kv.2)) m)
  end.

Definition canonical_json_text (v : pyval) : bytes := json_text (normalize v).

(** ** SHA-256 *)

Module sha256.
Definition w32 (z : Z) : Z := z mod 2 ^ 32.
Definition rotr (n x : Z) : Z := w32 (Z.lor (Z.shiftr x n) (Z.shiftl x (32 - n))).
Definition xor3 (a b c : Z) : Z := Z.lxor a (Z.lxor b c).

(** The round constants and the initial hash value, in decimal. *)
Definition K : list Z :=
  [1116352408; 1899447441; 3049323471; 3921009573; 961987163; 1508970993; 2453635748; 2870763221;
   3624381080; 310598401; 607225278; 1426881987; 1925078388; 2162078206; 2614888103; 3248222580;
   3835390401; 4022224774; 264347078; 604807628; 770255983; 1249150122; 1555081692; 1996064986;
   2554220882; 2821834349; 2952996808; 3210313671; 3336571891; 3584528711; 113926993; 338241895;
   666307205; 773529912; 1294757372; 1396182291; 1695183700; 1986661051; 2177026350; 2456956037;
   2730485921; 2820302411; 3259730800; 3345764771; 3516065817; 3600352804; 4094571909; 275423344;
   430227734; 506948616; 659060556; 883997877; 958139571; 1322822218; 1537002063; 1747873779;
   1955562222; 2024104815; 2227730452; 2361852424; 2428436474; 2756734187; 3204031479; 3329325298].

Definition H0 : list Z :=
  [1779033703; 3144134277; 1013904242; 2773480762; 1359893119; 2600822924; 528734635; 1541459225].

(** Sixteen words grow to sixty-four; [l] is kept newest first. *)
Fixpoint schedule (n : nat) (l : list Z) : list Z :=
  match n with
  | O => l
  | S n' =>
      let at_ i := nth (i - 1) l 0 in
      let s0 := let x := at_ 15%nat in xor3 (rotr 7 x) (rotr 18 x) (Z.shiftr x 3) in
      let s1 := let x := at_ 2%nat in xor3 (rotr 17 x) (rotr 19 x) (Z.shiftr x 10) in
      schedule n' (w32 (at_ 16%nat + s0 + at_ 7%nat + s1) :: l)
  end.

Definition round (h : list Z) (kw : Z * Z) : list Z :=
  match h with
  | [a; b; c; d; e; f; g; hh] =>
      let s1 := xor3 (rotr 6 e) (rotr 11 e) (rotr 25 e) in
      let ch := Z.lxor (Z.land e f) (Z.land (Z.lxor e (2 ^ 32 - 1)) g) in
      let t1 := hh + s1 + ch + kw.1 + kw.2 in
      let s0 := xor3 (rotr 2 a) (rotr 13 a) (rotr 22 a) in
      let maj := xor3 (Z.land a b) (Z.land a c) (Z.land b c) in
      [w32 (t1 + s0 + maj); a; b; c; w32 (d + t1); e; f; g]
  | _ => h
  end.

Fixpoint words (n : nat) (l : list Z) : list Z :=
  match n, l with
  | S n', a :: b :: c :: d :: l' => (((a * 256 + b) * 256 + c) * 256 + d) :: words n' l'
  | _, _ => []
  end.

Definition block (h : list Z) (chunk : list Z) : list Z :=
  let w := reverse (schedule 48 (reverse (words 16 chunk))) in
  zip_with (λ x y, w32 (x + y)) h (fold_left round (zip K w) h).

Fixpoint blocks (n : nat) (h : list Z) (l : list Z) : list Z :=
  match n with
  | O => h
  | S n' => blocks n' (block h (take 64 l)) (drop 64 l)
  end.

Definition be_bytes (n : nat) (z : Z) : list Z :=
  map (λ i, z / 256 ^ Z.of_nat (n - 1 - i) mod 256) (seq 0 n).

Definition padded (l : list Z) : list Z :=
  let n := Z.of_nat (length l) in
  l ++ [128] ++ replicate (Z.to_nat ((55 - n) mod 64)) 0 ++ be_bytes 8 (8 * n).

Definition digest (l : list Z) : list Z :=
  let p := padded l in blocks (length p / 64) H0 p.

Definition hex_byte (z : Z) : bytes := [hex_digit (z / 16); hex_digit (z mod 16)].

Definition hexdigest (l : bytes) : string :=
  string_of_list_ascii
    (concat (map (λ w, concat (map hex_byte (be_bytes 4 w)))
      (digest (map (λ c, Z.of_nat (nat_of_ascii c)) l)))).
End sha256.

Definition canonical_sha256 (v : pyval) : string := sha256.hexdigest (canonical_json_text v).

Example sha256_examples :
  (sha256.hexdigest (bytes_of ""), canonical_sha256 (PDict [("b", PDecimal (Dec 150 (-2))); ("a", PStr "x")]))
  = ("e3b0c44298fc1c149afbf4c8996fb92427ae41e4649b934ca495991b7852b855",
     "b17e20eba1154835a85787063bc428dda5cd17c3e002f1ba820081da6b05f27b").
Proof. vm_compute. reflexivity. Qed.

(** ** The text identifies the value *)

(** Members sorted by key, as [sort_keys] does, at every level. *)
Fixpoint canon (v : json) : json :=
  match v with
  | JArr l => JArr (map canon l)
  | JObj m => JObj (sorted_by key_le (map (λ kv, (kv.1, canon kv.2)) m))
  | _ => v
  end.

(** The printer without the sorting. *)
Fixpoint print (v : json) : bytes :=
  match v with
  | JArr l => "["%char :: join comma (map print l) ++ ["]"%char]
  | JObj m => "{"%char :: join comma (map (λ kv, quoted kv.1 ++ ":"%char :: print kv.2) m) ++ ["}"%char]
  | _ => json_text v
  end.

Section json_induction.
Variable P : json → Prop.
Hypothesis Hnull : P JNull.
Hypothesis Hbool : ∀ b, P (JBool b).
Hypothesis Hint : ∀ z, P (JInt z).
Hypothesis Hfloat : ∀ r, P (JFloat r).
Hypothesis Hstr : ∀ s, P (JStr s).
Hypothesis Harr : ∀ l, Forall P l → P (JArr l).
Hypothesis Hobj : ∀ m, Forall (λ kv, P kv.2) m → P (JObj m).

Fixpoint json_rect' (v : json) : P v :=
  match v with
  | JNull => Hnull
  | JBool b => Hbool b
  | JInt z => Hint z
  | JFloat r => Hfloat r
  | JStr s => Hstr s
  | JArr l => Harr l ((fix go l : Forall P l :=
      match l with [] => Forall_nil_2 _ | x :: l' => Forall_cons_2 _ x l' (json_rect' x) (go l') end) l)
  | JObj m => Hobj m ((fix go m : Forall (λ kv : string * json, P kv.2) m :=
      match m with
      | [] => Forall_nil_2 _
      | kv :: m' => Forall_cons_2 (λ kv : string * json, P kv.2) kv m' (json_rect' kv.2) (go m')
      end) m)
  end.
End json_induction.

Lemma json_text_print v : json_text v = print (canon v).
Proof.
  induction v as [| | | | |l IH|m IH] using json_rect'; try done; simpl.
  - do 3 f_equal. rewrite map_map. apply map_ext_in. intros x Hx%list_elem_of_In.
    by eapply Forall_forall in IH.
  - do 3 f_equal.
    assert (map (λ kv, (kv.1, json_text kv.2)) m
            = map (λ kv, (kv.1, print kv.2)) (map (λ kv, (kv.1, canon kv.2)) m)) as ->.
    { rewrite map_map. apply map_ext_in. intros x Hx%list_elem_of_In. simpl.
      f_equal. by eapply Forall_forall in IH. }
    rewrite (sorted_by_map key_le key_le (λ kv, (kv.1, print kv.2))) by done.
    by rewrite map_map.
Qed.

Definition is_num (c : ascii) : bool :=
  let n := nat_of_ascii c in
  ((48 <=? n) && (n <=? 57) || (n =? 45) || (n =? 43) || (n =? 46) || (n =? 101))%nat.
Definition is_fraction (c : ascii) : bool :=
  let n := nat_of_ascii c in ((n =? 46) || (n =? 101))%nat.

(** A float's text: number characters, with a point or an exponent. *)
Definition float_token (r : string) : bool :=
  forallb is_num (bytes_of r) && existsb is_fraction (bytes_of r).

Fixpoint floats_ok (v : json) : bool :=
  match v with
  | JFloat r => float_token r
  | JArr l => forallb floats_ok l
  | JObj m => forallb (λ kv, floats_ok kv.2) m
  | _ => true
  end.

(** What may follow a value. *)
Definition is_delim (c : ascii) : bool :=
  let n := nat_of_ascii c in ((n =? 44) || (n =? 93) || (n =? 125))%nat.
Definition ends (s : bytes) : Prop := match s with [] => True | c :: _ => is_delim c = true end.

Lemma delim_not_num c : is_delim c = true → is_num c = false.
Proof.
  unfold is_delim, is_num. rewrite !orb_true_iff, !Nat.eqb_eq. by intros [[-> | ->]| ->].
Qed.

Lemma num_split a b s t :
  forallb is_num a = true → forallb is_num b = true → ends s → ends t →
  a ++ s = b ++ t → a = b ∧ s = t.
Proof.
  intros Ha Hb Hs Ht. revert b Ha Hb. induction a as [|x a IH]; intros [|y b] Ha Hb H; simpl in *.
  - done.
  - subst s. simpl in Hs. apply delim_not_num in Hs. by rewrite Hs in Hb.
  - subst t. simpl in Ht. apply delim_not_num in Ht. by rewrite Ht in Ha.
  - injection H as -> H. bool_to_prop. destruct (IH b) as [-> ->]; auto.
Qed.

Lemma digit_char_num x : is_num (pretty_N_char x) = true ∧ is_fraction (pretty_N_char x) = false.
Proof. unfold pretty_N_char. by destruct x as [|[[[|[]|]|[|[]|]|]|[[]|[|[]|]|]|]]. Qed.

Definition is_digit (c : ascii) : bool := is_num c && negb (is_fraction c).

Lemma pretty_go_digits n s :
  forallb is_digit (bytes_of s) = true → forallb is_digit (bytes_of (pretty_N_go n s)) = true.
Proof.
  revert s. induction (N.lt_wf_0 n) as [n _ IH]. intros s Hs.
  destruct (decide (0 < n)%N) as [Hn|Hn].
  - rewrite pretty_N_go_step by done. apply IH; [by apply N.div_lt|].
    simpl. rewrite Hs, andb_true_r. unfold is_digit.
    by destruct (digit_char_num (n `mod` 10)) as [-> ->].
  - assert (n = 0)%N as -> by lia. by rewrite pretty_N_go_0.
Qed.

Lemma pretty_N_digits (n : N) : forallb is_digit (bytes_of (pretty n)) = true.
Proof. unfold pretty, pretty_N. case_decide; [done|]. by apply pretty_go_digits. Qed.

Lemma pretty_N_nonempty (n : N) : bytes_of (pretty n) ≠ [].
Proof.
  intros H. assert (pretty n = ""%string) as Hn by (by destruct (pretty n)).
  assert (∀ m s, s ≠ ""%string → pretty_N_go m s ≠ ""%string) as Hgo.
  { intros m. induction (N.lt_wf_0 m) as [m _ IH]. intros s Hs. destruct (decide (0 < m)%N) as [Hm|Hm].
    - rewrite pretty_N_go_step by done. apply IH; [by apply N.div_lt | done].
    - assert (m = 0)%N as -> by lia. by rewrite pretty_N_go_0. }
  unfold pretty, pretty_N in Hn. case_decide; [done|].
  rewrite pretty_N_go_step in Hn by lia. revert Hn. by apply Hgo.
Qed.

(** An integer's text: number characters without point or exponent. *)
Lemma pretty_Z_digits (z : Z) :
  forallb is_digit (bytes_of (pretty z)) = true ∧ bytes_of (pretty z) ≠ [].
Proof.
  destruct z as [|p|p]; [done | split; [apply pretty_N_digits | apply pretty_N_nonempty]|].
  split; [|done]. change (bytes_of (pretty (Z.neg p))) with ("-"%char :: bytes_of (pretty (N.pos p))).
  simpl. apply pretty_N_digits.
Qed.

Lemma digits_num l : forallb is_digit l = true → forallb is_num l = true ∧ existsb is_fraction l = false.
Proof.
  induction l as [|c l IH]; simpl; [done|]. unfold is_digit at 1. intros H. bool_to_prop.
  destruct IH as [-> ->]; [done|]. by rewrite H, H1.
Qed.

(** Escapes form a prefix code, and none starts with the closing quote: the
    first character of an escaped text can be read back. *)
Definition hex_value (c : ascii) : nat :=
  let n := nat_of_ascii c in if (n <? 58)%nat then (n - 48)%nat else (n - 87)%nat.
Definition unescape (s : bytes) : option ascii :=
  match s with
  | [] => None
  | x :: s1 =>
      if Ascii.eqb x dquote then None else if negb (Ascii.eqb x "\"%char) then Some x else
      match s1 with
      | [] => None
      | y :: s2 =>
          if Ascii.eqb y "u"%char then
            match s2 with
            | _ :: _ :: a :: b :: _ => Some (ascii_of_nat (16 * hex_value a + hex_value b))
            | _ => None
            end
          else Some (if Ascii.eqb y "n"%char then ascii_of_nat 10 else if Ascii.eqb y "r"%char then ascii_of_nat 13
                     else if Ascii.eqb y "t"%char then ascii_of_nat 9 else if Ascii.eqb y "f"%char then ascii_of_nat 12
                     else if Ascii.eqb y "b"%char then ascii_of_nat 8 else y)
      end
  end.

Lemma unescape_escape c s : unescape (escape c ++ s) = Some c.
Proof. by destruct c as [[] [] [] [] [] [] [] []]. Qed.

Lemma escape_split c d s t : escape c ++ s = escape d ++ t → c = d ∧ s = t.
Proof.
  intros H. assert (c = d) as ->; [|by apply app_inv_head in H].
  apply (f_equal unescape) in H. rewrite !unescape_escape in H. by injection H.
Qed.

Lemma escape_not_quote c s t : escape c ++ s ≠ dquote :: t.
Proof. intros H. apply (f_equal unescape) in H. by rewrite unescape_escape in H. Qed.

Lemma quoted_split a b s t : quoted a ++ s = quoted b ++ t → a = b ∧ s = t.
Proof.
  unfold quoted. simpl. intros [= H]. revert H. rewrite <- !app_assoc. simpl.
  assert (∀ x y, concat (map escape x) ++ dquote :: s = concat (map escape y) ++ dquote :: t →
    x = y ∧ s = t) as Hgo.
  { induction x as [|c x IH]; intros [|d y] H; simpl in H.
    - by injection H.
    - rewrite <- app_assoc in H. symmetry in H. by apply escape_not_quote in H.
    - rewrite <- app_assoc in H. by apply escape_not_quote in H.
    - rewrite <- !app_assoc in H. apply escape_split in H as [-> H].
      by destruct (IH y H) as [-> ->]. }
  intros H. apply Hgo in H as [H ->]. split; [|done].
  rewrite <- (string_of_list_ascii_of_string a), <- (string_of_list_ascii_of_string b).
  unfold bytes_of in H. by rewrite H.
Qed.

(** A bracketed, comma-separated list of items of a prefix code. *)
Section items.
Context {A : Type} (p : A → bytes).

Fixpoint items_tail (l : list A) (s : bytes) : bytes :=
  match l with [] => s | y :: l' => ","%char :: p y ++ items_tail l' s end.

Lemma join_items x l s : join comma (map p (x :: l)) ++ s = p x ++ items_tail l s.
Proof.
  revert x. induction l as [|y l IH]; intros x; [done|].
  change (join comma (map p (x :: y :: l))) with (p x ++ comma ++ join comma (map p (y :: l))).
  rewrite <- !app_assoc, IH. done.
Qed.

Variable close : ascii.
Hypothesis Hclose : is_delim close = true.

Lemma items_tail_ends l s : ends (items_tail l (close :: s)).
Proof. by destruct l. Qed.

Lemma items_split (ok : A → Prop) l k s t :
  Forall (λ x, ok x → ∀ y u v, ok y → ends u → ends v → p x ++ u = p y ++ v → x = y ∧ u = v) l →
  (∀ y u v, ok y → p y ++ u ≠ close :: v) → Ascii.eqb close ","%char = false →
  Forall ok l → Forall ok k →
  join comma (map p l) ++ close :: s = join comma (map p k) ++ close :: t → l = k ∧ s = t.
Proof.
  intros Hp Hne Hcomma Hl Hk.
  assert (∀ l k, Forall (λ x, ok x → ∀ y u v, ok y → ends u → ends v → p x ++ u = p y ++ v → x = y ∧ u = v) l →
    Forall ok l → Forall ok k →
    items_tail l (close :: s) = items_tail k (close :: t) → l = k ∧ s = t) as Htail.
  { clear l k Hp Hl Hk. induction l as [|x l IH]; intros [|y k] Hp Hl Hk H; simpl in H.
    - by injection H.
    - injection H as H _. by rewrite H in Hcomma.
    - injection H as H _. by rewrite <- H in Hcomma.
    - injection H as H. apply Forall_cons in Hp as [Hx Hp]. apply Forall_cons in Hl as [? Hl].
      apply Forall_cons in Hk as [? Hk].
      destruct (Hx ltac:(done) y _ _ ltac:(done) (items_tail_ends _ _) (items_tail_ends _ _) H) as [-> H'].
      by destruct (IH k Hp Hl Hk H') as [-> ->]. }
  destruct l as [|x l], k as [|y k]; intros H.
  - by injection H.
  - rewrite join_items in H. inversion Hk; subst. symmetry in H. by apply Hne in H.
  - rewrite join_items in H. inversion Hl; subst. by apply Hne in H.
  - rewrite !join_items in H. apply Forall_cons in Hp as [Hx Hp]. apply Forall_cons in Hl as [? Hl].
    apply Forall_cons in Hk as [? Hk].
    destruct (Hx ltac:(done) y _ _ ltac:(done) (items_tail_ends _ _) (items_tail_ends _ _) H) as [-> H'].
    by destruct (Htail l k Hp Hl Hk H') as [-> ->].
Qed.
End items.

(** The first byte of a value's text tells its kind. *)
Inductive kind := KNull | KTrue | KFalse | KNum | KStr | KArr | KObj.
Definition kind_of (v : json) : kind :=
  match v with
  | JNull => KNull | JBool true => KTrue | JBool false => KFalse | JInt _ | JFloat _ => KNum
  | JStr _ => KStr | JArr _ => KArr | JObj _ => KObj
  end.
Definition kind_of_char (c : ascii) : option kind :=
  if is_num c then Some KNum
  else match nat_of_ascii c with
  | 110 => Some KNull | 116 => Some KTrue | 102 => Some KFalse | 34 => Some KStr
  | 91 => Some KArr | 123 => Some KObj | _ => None
  end%nat.

Lemma float_token_nonempty r : float_token r = true → ∃ c l, bytes_of r = c :: l ∧ is_num c = true.
Proof.
  unfold float_token. intros H. apply andb_true_iff in H as [H1 H2].
  destruct (bytes_of r) as [|c l]; [done|]. exists c, l. split; [done|]. simpl in H1. by bool_to_prop.
Qed.

Lemma print_head v : floats_ok v = true →
  ∃ c l, print v = c :: l ∧ kind_of_char c = Some (kind_of v).
Proof.
  destruct v as [|[]|z|r|s|l|m]; intros Hok; simpl in *; try (eexists _, _; split; [reflexivity | reflexivity]).
  - destruct (pretty_Z_digits z) as [Hd Hne]. destruct (bytes_of (pretty z)) as [|c l]; [done|].
    exists c, l. split; [done|]. apply digits_num in Hd as [Hd _]. simpl in Hd. bool_to_prop.
    unfold kind_of_char. by rewrite H.
  - destruct (float_token_nonempty r Hok) as (c & l & Hb & Hc). exists c, l. split; [done|].
    unfold kind_of_char. by rewrite Hc.
Qed.

Lemma print_not_close v c s t : floats_ok v = true → is_delim c = true → print v ++ s ≠ c :: t.
Proof.
  intros Hv Hc H. destruct (print_head v Hv) as (d & l & Hp & Hk). rewrite Hp in H.
  injection H as -> _. revert Hk Hc. clear.
  unfold kind_of_char, is_delim. pose proof (delim_not_num c) as Hn. unfold is_delim in Hn.
  intros Hk Hc. rewrite (Hn Hc) in Hk. rewrite !orb_true_iff, !Nat.eqb_eq in Hc.
  by destruct Hc as [[Hc|Hc]|Hc]; rewrite Hc in Hk.
Qed.

Lemma print_same_kind v w s t :
  floats_ok v = true → floats_ok w = true → print v ++ s = print w ++ t → kind_of v = kind_of w.
Proof.
  intros Hv Hw H. destruct (print_head v Hv) as (c & l & Hp & Hk).
  destruct (print_head w Hw) as (d & k & Hq & Hk'). rewrite Hp, Hq in H.
  injection H as -> _. congruence.
Qed.

Lemma bytes_of_inj a b : bytes_of a = bytes_of b → a = b.
Proof.
  intros H. rewrite <- (string_of_list_ascii_of_string a), <- (string_of_list_ascii_of_string b).
  unfold bytes_of in H. by rewrite H.
Qed.

Lemma number_split v w s t :
  floats_ok v = true → floats_ok w = true → kind_of v = KNum → kind_of w = KNum →
  ends s → ends t → print v ++ s = print w ++ t → v = w ∧ s = t.
Proof.
  assert (∀ v, floats_ok v = true → kind_of v = KNum → forallb is_num (print v) = true) as Hnum.
  { intros [|[]|z|r|x|l|m] Hv; simpl in *; try done; intros _.
    - by destruct (pretty_Z_digits z) as [[? _]%digits_num _].
    - by apply andb_true_iff in Hv as [? _]. }
  intros Hv Hw Kv Kw Hs Ht H.
  destruct (num_split _ _ _ _ (Hnum v Hv Kv) (Hnum w Hw Kw) Hs Ht H) as [Heq ->]. split; [|done].
  destruct v as [|[]|z|r|x|l|m]; try done; destruct w as [|[]|z'|r'|x'|l'|m']; try done; simpl in *.
  - apply bytes_of_inj, pretty_Z_inj in Heq. by subst.
  - apply andb_true_iff in Hw as [_ Hw]. rewrite <- Heq in Hw.
    destruct (pretty_Z_digits z) as [[_ Hz]%digits_num _]. congruence.
  - apply andb_true_iff in Hv as [_ Hv]. rewrite Heq in Hv.
    destruct (pretty_Z_digits z') as [[_ Hz]%digits_num _]. congruence.
  - apply bytes_of_inj in Heq. by subst.
Qed.

Lemma member_split (x y : string * json) u v :
  (∀ w s t, floats_ok w = true → ends s → ends t → print x.2 ++ s = print w ++ t → x.2 = w ∧ s = t) →
  floats_ok y.2 = true → ends u → ends v →
  (quoted x.1 ++ ":"%char :: print x.2) ++ u = (quoted y.1 ++ ":"%char :: print y.2) ++ v → x = y ∧ u = v.
Proof.
  intros IH Hy Hu Hv H. rewrite <- !app_assoc in H. apply quoted_split in H as [H1 H].
  injection H as H. destruct (IH _ _ _ Hy Hu Hv H) as [H2 ->].
  destruct x, y; simpl in *. by subst.
Qed.

Lemma forallb_Forall {A} (f : A → bool) l : forallb f l = true ↔ Forall (λ x, f x = true) l.
Proof.
  rewrite forallb_forall, Forall_forall. by setoid_rewrite list_elem_of_In.
Qed.

(** The printed text is a prefix code up to what may follow a value. *)
Lemma print_split v :
  floats_ok v = true → ∀ w s t, floats_ok w = true → ends s → ends t →
  print v ++ s = print w ++ t → v = w ∧ s = t.
Proof.
  induction v as [|b|z|r|x|l IH|m IH] using json_rect'; intros Hv w s t Hw Hs Ht H;
    pose proof (print_same_kind _ _ _ _ Hv Hw H) as Hk.
  - destruct w as [|[]| | | | |]; try done. by apply app_inv_head in H.
  - destruct w as [|[]| | | | |], b; try done; by apply app_inv_head in H.
  - by apply (number_split _ _ _ _ Hv Hw).
  - by apply (number_split _ _ _ _ Hv Hw).
  - destruct w as [|[]| | | | |]; try done. simpl in H. by apply quoted_split in H as [-> ->].
  - destruct w as [|[]| | | |k|]; try done. simpl in H. injection H as H.
    rewrite <- !app_assoc in H. simpl in *. apply forallb_Forall in Hv, Hw.
    destruct (items_split print "]"%char eq_refl (λ x, floats_ok x = true) l k s t) as [-> ->]; try done.
    intros y u v Hy. by apply print_not_close.
  - destruct w as [|[]| | | | |k]; try done. simpl in H. injection H as H.
    rewrite <- !app_assoc in H. simpl in *. apply forallb_Forall in Hv, Hw.
    destruct (items_split (λ kv : string * json, quoted kv.1 ++ ":"%char :: print kv.2) "}"%char eq_refl
      (λ kv, floats_ok kv.2 = true) m k s t) as [-> ->]; try done.
    rewrite Forall_forall in IH |- *. intros x Hx Hok y u v Hy Hu Hv'.
    apply member_split; try done. intros w s' t' Hw' Hs' Ht'. by apply IH.
Qed.

Lemma floats_ok_canon v : floats_ok v = true → floats_ok (canon v) = true.
Proof.
  induction v as [| | | | |l IH|m IH] using json_rect'; simpl; try done; rewrite !forallb_Forall.
  - intros Hl. apply Forall_map. rewrite Forall_forall in *. auto.
  - intros Hm. rewrite sorted_by_perm. apply Forall_map. rewrite Forall_forall in *. simpl. auto.
Qed.

(** Two values that differ only in the order of the members of objects. *)
Definition same_value (v w : json) : Prop := canon v = canon w.

#[export] Instance same_value_equivalence : Equivalence same_value.
Proof. split; red; unfold same_value; congruence. Qed.

Lemma same_value_permuted m m' :
  NoDup (map fst m) → Permutation m m' → same_value (JObj m) (JObj m').
Proof.
  intros Hnd Hp. unfold same_value. simpl. f_equal.
  assert (map fst (map (λ kv : string * json, (kv.1, canon kv.2)) m) = map fst m) as Hk.
  { rewrite map_map. by apply map_ext. }
  apply (sort_unique (λ a b : string * json, String.compare a.1 b.1)).
  - apply (good_map fst), good_string.
  - intros a b Ha Hb H%String.compare_eq_iff. eapply (NoDup_map_inj fst); [by rewrite Hk | done..].
  - by rewrite Hp.
Qed.



(** The digest is 64 lowercase hexadecimal digits. *)
Definition is_hex (c : ascii) : bool :=
  let n := nat_of_ascii c in ((48 <=? n) && (n <=? 57) || (97 <=? n) && (n <=? 102))%nat.
Definition hash_pattern (s : string) : bool :=
  (String.length s =? 64)%nat && forallb is_hex (bytes_of s).

Lemma round_length ws h : length h = 8%nat → length (fold_left sha256.round ws h) = 8%nat.
Proof.
  revert h. induction ws as [|w ws IH]; intros h Hh; simpl; [done|]. apply IH.
  by do 9 (destruct h as [|? h]; [done|]).
Qed.

Lemma blocks_length n h l : length h = 8%nat → length (sha256.blocks n h l) = 8%nat.
Proof.
  revert h l. induction n as [|n IH]; intros h l Hh; simpl; [done|]. apply IH.
  unfold sha256.block. by rewrite length_zip_with, Hh, round_length.
Qed.

Lemma hex_digit_is_hex n : 0 <= n < 16 → is_hex (hex_digit n) = true.
Proof.
  intros Hn. unfold is_hex, hex_digit. rewrite nat_ascii_embedding by (case_match; lia).
  destruct (Z.ltb_spec n 10); apply orb_true_iff; rewrite !andb_true_iff, !Nat.leb_le; lia.
Qed.

Lemma be_bytes_range n z : Forall (λ b, 0 <= b < 256) (sha256.be_bytes n z).
Proof.
  apply Forall_forall. intros b Hb. apply list_elem_of_fmap in Hb as (i & -> & _).
  apply Z.mod_pos_bound. lia.
Qed.

Lemma hex_bytes_ok l :
  Forall (λ b, 0 <= b < 256) l →
  forallb is_hex (concat (map sha256.hex_byte l)) = true ∧
  length (concat (map sha256.hex_byte l)) = (2 * length l)%nat.
Proof.
  induction 1 as [|b l Hb Hl [IH1 IH2]]; cbn [map concat app length forallb sha256.hex_byte]; [done|].
  rewrite IH1, IH2, !hex_digit_is_hex by
    (first [apply Z.mod_pos_bound; lia | split; [apply Z.div_pos; lia | apply Z.div_lt_upper_bound; lia]]).
  split; [done | lia].
Qed.

Lemma length_bytes_of s : length (bytes_of s) = String.length s.
Proof. induction s as [|c s IH]; simpl; [done | by rewrite <- IH]. Qed.

Lemma hexdigest_pattern l : hash_pattern (sha256.hexdigest l) = true.
Proof.
  unfold sha256.hexdigest, hash_pattern.
  set (h := sha256.digest _).
  assert (length h = 8%nat) as Hh by (by apply blocks_length).
  set (k := concat (map _ h)).
  assert (forallb is_hex k = true ∧ length k = (8 * length h)%nat) as [H1 H2].
  { unfold k. clear Hh k. generalize h. clear h. induction h as [|w h [IH1 IH2]]; [done|].
    destruct (hex_bytes_ok (sha256.be_bytes 4 w) (be_bytes_range 4 w)) as [Ha Hb].
    cbn [map concat]. rewrite forallb_app, length_app, Ha, Hb, IH1, IH2. simpl. split; [done|lia]. }
  rewrite <- length_bytes_of. unfold bytes_of.
  by rewrite list_ascii_of_string_of_list_ascii, H1, H2, Hh.
Qed.
Lemma canonical_sha256_pattern v : hash_pattern (canonical_sha256 v) = true.
Proof. apply hexdigest_pattern. Qed.
#[export] Hint Resolve canonical_sha256_pattern hexdigest_pattern : daybreak.
