(* ===== verification/PyVal.v ===== *)
(** * PyVal: dicts and truth of Python values

    The operations on dicts with text keys and on JSON values that several
    components use: lookup, [d.get], [bool(v)].  A dict is its items in
    insertion order; its keys do not repeat. *)
From Stdlib Require Import Ascii String.
From S2P Require Import Prelude Numerics PyStr PyTime Contracts Canonical.

#[local] Open Scope Z_scope.

(** [datetime.fromisoformat(s)]: the wall clock and the offset from UTC, if the
    text has one; None where it raises ValueError. *)
Class FromIso := fromisoformat : string → option (Z * option Z).

(** [str(v)] of a list or a dict. *)
Class ContainerText := container_text : pyval → string.

(** [d.get(k)]: [None] when the key is absent. *)
Fixpoint dict_get {A} (k : string) (d : list (string * A)) : option A :=
  match d with [] => None | (k', v) :: d' => if String.eqb k' k then Some v else dict_get k d' end.
(** [d.get(k, v)]. *)
Definition dict_get_or (k : string) (v : pyval) (m : list (string * pyval)) : pyval := default v (dict_get k m).
(** [d.get(k)], Python's None when the key is absent. *)
Definition dict_or_none (k : string) (m : list (string * pyval)) : pyval := dict_get_or k PNone m.
(** [d[k]]. *)
Definition dict_at (k : string) (m : list (string * pyval)) : result pyval :=
  match dict_get k m with Some v => Ok v | None => Err (EKey k) end.

(** [d[k] = v], in the place of the key if it is there. *)
Fixpoint dict_put (k : string) (v : pyval) (m : list (string * pyval)) : list (string * pyval) :=
  match m with
  | [] => [(k, v)]
  | (k', v') :: m' => if String.eqb k' k then (k', v) :: m' else (k', v') :: dict_put k v m'
  end.

(** [bool(v)]; a float is the text json.dumps writes for it: its repr, if it is
    finite. *)
Definition truthy (v : pyval) : bool :=
  match v with
  | PNone => false | PBool b => b | PInt z => negb (z =? 0)
  | PFloat s => negb (String.eqb s "0.0" || String.eqb s "-0.0")
  | PDecimal d => negb (coef d =? 0)
  | PStr s | PEnum s => negb (String.eqb s "")
  | PDatetime _ | PDate _ | PTime _ => true
  | PSeq l => nonempty l | PDict m => nonempty m
  end.
Definition is_none (v : pyval) : bool := match v with PNone => true | _ => false end.

(** [str(v)] of a value read from JSON; a float that is no number is its JSON
    text. *)
Definition float_text (repr : string) : string :=
  if String.eqb repr "NaN" then "nan"
  else if String.eqb repr "Infinity" then "inf"
  else if String.eqb repr "-Infinity" then "-inf"
  else repr.
Definition py_str `{ContainerText} (v : pyval) : string :=
  match v with
  | PNone => "None"
  | PBool b => if b then "True" else "False"
  | PInt z => pretty z
  | PFloat r => float_text r
  | PStr s | PEnum s => s
  | _ => container_text v
  end.

(** [v or w]. *)
Definition or_else (v w : pyval) : pyval := if truthy v then v else w.

Lemma dict_at_some k v m : dict_get k m = Some v → dict_at k m = Ok v.
Proof. unfold dict_at. by intros ->. Qed.
Lemma dict_or_none_some k v m : dict_get k m = Some v → dict_or_none k m = v.
Proof. unfold dict_or_none, dict_get_or. by intros ->. Qed.
Lemma dict_get_or_some k v d m : dict_get k m = Some v → dict_get_or k d m = v.
Proof. unfold dict_get_or. by intros ->. Qed.
