(* ===== verification/RiskModels.v ===== *)
(** * RiskModels: the data of the position risk service

    daybreak_risk/enums.py, models.py and rounding.py.  Fields whose type
    admits a single literal (policy_version, allow_margin,
    allow_fractional_shares, allow_overnight_positions,
    max_entries_per_ticker_per_day, minimum_quantity) are constants, not
    fields.  Datetimes are instants, so the timezone-awareness validators hold
    by construction.  A [*_ok] predicate is a model's field constraints and
    validators; equality is by value. *)
From Stdlib Require Import Ascii String.
From S2P Require Import Prelude Numerics PyStr PyTime Contracts Canonical.

#[local] Open Scope Z_scope.

(** How pydantic dumps a model is a parameter of the development. *)
Class Dump (A : Type) := dump : A → pyval.

(** ** Enums *)

Inductive RiskProfileName := RP_PAPER_V1 | RP_LIVE_PILOT_V1.
Inductive RiskDecisionStatus := RD_APPROVED | RD_REJECTED.
Inductive BindingCap :=
  BC_TRADE_RISK | BC_OPEN_RISK | BC_DAILY_LOSS | BC_BUYING_POWER | BC_POSITION_NOTIONAL
  | BC_GROSS_EXPOSURE | BC_ADV_LIQUIDITY | BC_PREMARKET_LIQUIDITY.
Inductive RiskRejectionCode :=
  RR_ACCOUNT_NOT_ACTIVE | RR_ACCOUNT_BLOCKED | RR_TRADING_BLOCKED | RR_TRADE_SUSPENDED_BY_USER
  | RR_ACCOUNT_SNAPSHOT_STALE | RR_INVALID_ACCOUNT_VALUE | RR_PENDING_TRANSFER_OUT
  | RR_ACCOUNT_STATE_UNRECONCILED | RR_STREAM_HEALTH_FAILURE | RR_DATABASE_HEALTH_FAILURE
  | RR_KILL_SWITCH_ACTIVE | RR_MARKET_NOT_NORMAL | RR_SYMBOL_HALTED | RR_EXECUTION_CUTOFF_EXCEEDED
  | RR_QUOTE_SNAPSHOT_STALE | RR_LAST_TRADE_STALE | RR_INVALID_QUOTE
  | RR_REGULAR_SESSION_NBBO_NOT_CONFIRMED | RR_SPREAD_TOO_WIDE | RR_ENTRY_PRICE_DRIFT_TOO_LARGE
  | RR_ENTRY_LIMIT_NOT_MARKETABLE | RR_INVALID_PRICE_GEOMETRY | RR_PREMARKET_LOW_BROKEN
  | RR_STOP_ABOVE_PREMARKET_LOW | RR_INVALID_LIQUIDITY_INPUT | RR_SOFT_DAILY_LOSS_LIMIT
  | RR_HARD_DAILY_LOSS_LIMIT | RR_SESSION_PNL_RECONCILIATION_FAILURE | RR_MAX_CONSECUTIVE_LOSSES
  | RR_MAX_NEW_ENTRIES_PER_DAY | RR_DUPLICATE_TICKER_DAY | RR_MAX_CONCURRENT_POSITIONS
  | RR_NO_BUYING_POWER_CAPACITY | RR_NO_OPEN_RISK_CAPACITY | RR_NO_DAILY_LOSS_CAPACITY
  | RR_NO_GROSS_EXPOSURE_CAPACITY | RR_FINAL_QUANTITY_BELOW_MINIMUM | RR_INVALID_POLICY_CONFIGURATION.
Inductive ReservationStatus :=
  RV_RESERVED | RV_SUBMITTED | RV_PARTIALLY_FILLED | RV_FILLED | RV_RELEASED | RV_EXPIRED
  | RV_RECONCILIATION_REQUIRED.

#[export] Instance RiskProfileName_eq : EqDecision RiskProfileName. Proof. solve_decision. Defined.
#[export] Instance RiskDecisionStatus_eq : EqDecision RiskDecisionStatus. Proof. solve_decision. Defined.
#[export] Instance BindingCap_eq : EqDecision BindingCap. Proof. solve_decision. Defined.
#[export] Instance RiskRejectionCode_eq : EqDecision RiskRejectionCode. Proof. solve_decision. Defined.
#[export] Instance ReservationStatus_eq : EqDecision ReservationStatus. Proof. solve_decision. Defined.

(** ** Rounding (rounding.py) *)

(** [value.quantize(CENT, ROUND_FLOOR)]. *)
Definition floor_to_cent (value : decimal) : result decimal := dec.quantize value (-2) RFloor.
Definition floor_to_int (value : decimal) : Z := dec.to_int (dec.to_integral_value value RFloor).
Definition round_to_increment (mode : rounding) (value increment : decimal) : result decimal :=
  if (increment <=? dec.zero)%dec then Err (EValue "increment must be positive") else
  q ← dec.div value increment;
  Ok (dec.mul (dec.to_integral_value q mode) increment).
Definition round_down_to_increment := round_to_increment RFloor.
Definition round_up_to_increment := round_to_increment RCeiling.
(** [value.quantize(MONEY_QUANTUM, ROUND_HALF_EVEN)]. *)
Definition quantize_money (value : decimal) : result decimal := dec.quantize value (-10) RHalfEven.

(** ** Field constraints *)

(** Money: at most 30 digits, at most 10 of them after the point. *)
Definition money_ok (a : decimal) : bool :=
  if -10 <=? expo a then Z.abs (coef a * 10 ^ (expo a + 10)) <? 10 ^ 30
  else (coef a mod 10 ^ (-10 - expo a) =? 0) && (Z.abs (coef a / 10 ^ (-10 - expo a)) <? 10 ^ 30).
Definition nonneg_money (a : decimal) : bool := money_ok a && nonneg a.
Definition positive_money (a : decimal) : bool := money_ok a && positive_dec a.
Definition opt_ok {A} (f : A → bool) (o : option A) : bool :=
  match o with Some x => f x | None => true end.
Definition ratio_ok (a : decimal) : bool := positive_dec a && (a <? dec.of_Z 1)%dec.
Definition within (lo hi a : decimal) : bool := (lo <=? a)%dec && (a <=? hi)%dec.

(** ** Inputs *)

Record RiskPolicyConfig := {
  pol_profile_name : RiskProfileName;
  pol_risk_per_trade_pct : decimal;
  pol_max_open_risk_pct : decimal;
  pol_max_position_notional_pct : decimal;
  pol_max_gross_long_exposure_pct : decimal;
  pol_buying_power_reserve_pct : decimal;
  pol_max_concurrent_positions : Z;
  pol_max_new_entries_per_day : Z;
  pol_soft_daily_loss_pct : decimal;
  pol_hard_daily_loss_pct : decimal;
  pol_max_consecutive_losses : Z;
  pol_slippage_buffer_atr_multiple : decimal;
  pol_slippage_buffer_spread_multiple : decimal;
  pol_max_pct_adv20 : decimal;
  pol_max_pct_premarket_volume : decimal;
  pol_max_account_snapshot_age_ms : Z;
  pol_max_quote_age_ms : Z;
  pol_max_last_trade_age_ms : Z;
  pol_max_spread_pct : decimal;
  pol_max_spread_atr_fraction : decimal;
  pol_max_entry_drift_pct : decimal;
  pol_max_entry_drift_atr_multiple : decimal;
  pol_pnl_reconciliation_tolerance : decimal;
  pol_mandatory_flatten_time_et : Z;
}.

Definition policy_version : string := "position_risk_policy_v1".
Definition minimum_quantity : Z := 1.

(** RiskPolicyConfig.validate_coherence. *)
Definition validate_coherence (p : RiskPolicyConfig) : bool :=
  (pol_soft_daily_loss_pct p <? pol_hard_daily_loss_pct p)%dec
  && (pol_risk_per_trade_pct p <=? pol_max_open_risk_pct p)%dec
  && (pol_max_position_notional_pct p <=? pol_max_gross_long_exposure_pct p)%dec
  && (pol_max_concurrent_positions p <=? pol_max_new_entries_per_day p).

Definition RiskPolicyConfig_ok (p : RiskPolicyConfig) : bool :=
  ratio_ok (pol_risk_per_trade_pct p) && ratio_ok (pol_max_open_risk_pct p)
  && ratio_ok (pol_max_position_notional_pct p) && ratio_ok (pol_max_gross_long_exposure_pct p)
  && nonneg (pol_buying_power_reserve_pct p) && (pol_buying_power_reserve_pct p <? dec.of_Z 1)%dec
  && between 1 3 (pol_max_concurrent_positions p) && between 1 3 (pol_max_new_entries_per_day p)
  && ratio_ok (pol_soft_daily_loss_pct p) && ratio_ok (pol_hard_daily_loss_pct p)
  && between 1 10 (pol_max_consecutive_losses p)
  && within dec.zero (dec.of_Z 2) (pol_slippage_buffer_atr_multiple p)
  && within dec.zero (dec.of_Z 5) (pol_slippage_buffer_spread_multiple p)
  && ratio_ok (pol_max_pct_adv20 p) && ratio_ok (pol_max_pct_premarket_volume p)
  && between 1 10000 (pol_max_account_snapshot_age_ms p) && between 1 10000 (pol_max_quote_age_ms p)
  && between 1 30000 (pol_max_last_trade_age_ms p) && ratio_ok (pol_max_spread_pct p)
  && positive_dec (pol_max_spread_atr_fraction p)
  && (pol_max_spread_atr_fraction p <=? dec.of_Z 1)%dec
  && ratio_ok (pol_max_entry_drift_pct p) && positive_dec (pol_max_entry_drift_atr_multiple p)
  && (pol_max_entry_drift_atr_multiple p <=? dec.of_Z 2)%dec
  && nonneg_money (pol_pnl_reconciliation_tolerance p)
  && validate_coherence p.

Definition paper_v1 : RiskPolicyConfig := {|
  pol_profile_name := RP_PAPER_V1;
  pol_risk_per_trade_pct := Dec 25 (-4);
  pol_max_open_risk_pct := Dec 75 (-4);
  pol_max_position_notional_pct := Dec 10 (-2);
  pol_max_gross_long_exposure_pct := Dec 25 (-2);
  pol_buying_power_reserve_pct := Dec 20 (-2);
  pol_max_concurrent_positions := 3;
  pol_max_new_entries_per_day := 3;
  pol_soft_daily_loss_pct := Dec 75 (-4);
  pol_hard_daily_loss_pct := Dec 100 (-4);
  pol_max_consecutive_losses := 2;
  pol_slippage_buffer_atr_multiple := Dec 10 (-2);
  pol_slippage_buffer_spread_multiple := Dec 50 (-2);
  pol_max_pct_adv20 := Dec 1 (-3);
  pol_max_pct_premarket_volume := Dec 5 (-3);
  pol_max_account_snapshot_age_ms := 1000;
  pol_max_quote_age_ms := 1000;
  pol_max_last_trade_age_ms := 2000;
  pol_max_spread_pct := Dec 1 (-2);
  pol_max_spread_atr_fraction := Dec 10 (-2);
  pol_max_entry_drift_pct := Dec 1 (-2);
  pol_max_entry_drift_atr_multiple := Dec 25 (-2);
  pol_pnl_reconciliation_tolerance := Dec 100 (-2);
  pol_mandatory_flatten_time_et := time_of 15 50;
|}.

Definition live_pilot_v1 : RiskPolicyConfig := {|
  pol_profile_name := RP_LIVE_PILOT_V1;
  pol_risk_per_trade_pct := Dec 10 (-4);
  pol_max_open_risk_pct := Dec 20 (-4);
  pol_max_position_notional_pct := Dec 5 (-2);
  pol_max_gross_long_exposure_pct := Dec 10 (-2);
  pol_buying_power_reserve_pct := Dec 30 (-2);
  pol_max_concurrent_positions := 1;
  pol_max_new_entries_per_day := 1;
  pol_soft_daily_loss_pct := Dec 30 (-4);
  pol_hard_daily_loss_pct := Dec 50 (-4);
  pol_max_consecutive_losses := 1;
  pol_slippage_buffer_atr_multiple := Dec 10 (-2);
  pol_slippage_buffer_spread_multiple := Dec 50 (-2);
  pol_max_pct_adv20 := Dec 5 (-4);
  pol_max_pct_premarket_volume := Dec 25 (-4);
  pol_max_account_snapshot_age_ms := 1000;
  pol_max_quote_age_ms := 1000;
  pol_max_last_trade_age_ms := 2000;
  pol_max_spread_pct := Dec 1 (-2);
  pol_max_spread_atr_fraction := Dec 10 (-2);
  pol_max_entry_drift_pct := Dec 1 (-2);
  pol_max_entry_drift_atr_multiple := Dec 25 (-2);
  pol_pnl_reconciliation_tolerance := Dec 100 (-2);
  pol_mandatory_flatten_time_et := time_of 15 50;
|}.

Example shipped_policies_ok : RiskPolicyConfig_ok paper_v1 = true ∧ RiskPolicyConfig_ok live_pilot_v1 = true.
Proof. split; reflexivity. Qed.

Record AccountSnapshot := {
  acc_snapshot_timestamp : datetime;
  acc_status : string;
  acc_account_blocked : bool;
  acc_trading_blocked : bool;
  acc_trade_suspended_by_user : bool;
  acc_equity : decimal;
  acc_last_equity : decimal;
  acc_cash : decimal;
  acc_buying_power : decimal;
  acc_non_marginable_buying_power : decimal;
  acc_regt_buying_power : decimal;
  acc_initial_margin : decimal;
  acc_maintenance_margin : decimal;
  acc_long_market_value : decimal;
  acc_multiplier : decimal;
  acc_pending_transfer_in : decimal;
  acc_pending_transfer_out : decimal;
}.

Definition AccountSnapshot_ok (a : AccountSnapshot) : bool :=
  forallb money_ok
    [acc_equity a; acc_last_equity a; acc_cash a; acc_buying_power a; acc_non_marginable_buying_power a;
     acc_regt_buying_power a; acc_initial_margin a; acc_maintenance_margin a; acc_long_market_value a;
     acc_pending_transfer_in a; acc_pending_transfer_out a]
  && nonneg (acc_multiplier a).

Record QuoteSnapshot := {
  qt_quote_timestamp : datetime;
  qt_last_trade_timestamp : datetime;
  qt_bid_price : decimal;
  qt_ask_price : decimal;
  qt_bid_size : Z;
  qt_ask_size : Z;
  qt_last_price : decimal;
  qt_first_regular_session_nbbo_confirmed : bool;
}.

Definition QuoteSnapshot_ok (q : QuoteSnapshot) : bool :=
  money_ok (qt_bid_price q) && money_ok (qt_ask_price q) && money_ok (qt_last_price q)
  && (0 <=? qt_bid_size q) && (0 <=? qt_ask_size q).

Definition spread (q : QuoteSnapshot) : decimal := (qt_ask_price q - qt_bid_price q)%dec.
Definition midpoint (q : QuoteSnapshot) : result decimal :=
  dec.div (qt_bid_price q + qt_ask_price q)%dec (dec.of_Z 2).

Record LiquiditySnapshot := {
  liq_premarket_volume : Z;
  liq_adv20_shares : Z;
  liq_asset_tradable : bool;
  liq_asset_fractionable : bool;
  liq_asset_marginable : bool;
  liq_asset_status : string;
}.

Definition LiquiditySnapshot_ok (l : LiquiditySnapshot) : bool :=
  (0 <? liq_premarket_volume l) && (0 <? liq_adv20_shares l).

Record SessionRiskState := {
  ss_session_reference_equity : decimal;
  ss_session_start_equity : decimal;
  ss_net_external_cash_flow : decimal;
  ss_internal_realized_pnl : decimal;
  ss_internal_unrealized_pnl : decimal;
  ss_current_total_open_risk : decimal;
  ss_reserved_entry_notional : decimal;
  ss_current_long_market_value : decimal;
  ss_open_daybreak_position_count : Z;
  ss_reserved_entry_position_count : Z;
  ss_completed_entry_count : Z;
  ss_consecutive_closed_losses : Z;
  ss_traded_tickers_today : list string;
  ss_account_state_reconciled : bool;
  ss_streams_healthy : bool;
  ss_database_healthy : bool;
  ss_kill_switch_active : bool;
}.

(** [tuple(sorted(set(value))) == value]. *)
Fixpoint strictly_sorted (l : list string) : bool :=
  match l with
  | a :: ((b :: _) as l') => string_ltb a b && strictly_sorted l'
  | _ => true
  end.

Definition SessionRiskState_ok (s : SessionRiskState) : bool :=
  positive_money (ss_session_reference_equity s) && positive_money (ss_session_start_equity s)
  && money_ok (ss_net_external_cash_flow s) && money_ok (ss_internal_realized_pnl s)
  && money_ok (ss_internal_unrealized_pnl s) && nonneg_money (ss_current_total_open_risk s)
  && nonneg_money (ss_reserved_entry_notional s) && nonneg_money (ss_current_long_market_value s)
  && (0 <=? ss_open_daybreak_position_count s) && (0 <=? ss_reserved_entry_position_count s)
  && (0 <=? ss_completed_entry_count s) && (0 <=? ss_consecutive_closed_losses s)
  && forallb is_canonical_ticker (ss_traded_tickers_today s)
  && strictly_sorted (ss_traded_tickers_today s).

Record SizingRequest := {
  rq_request_id : string;
  rq_run_id : string;
  rq_trading_date : date;
  rq_final_rank : Z;
  rq_calculated_at : datetime;
  rq_execution_cutoff_timestamp : datetime;
  rq_setup : ApprovedSetup;
  rq_policy : RiskPolicyConfig;
  rq_account : AccountSnapshot;
  rq_quote : QuoteSnapshot;
  rq_liquidity : LiquiditySnapshot;
  rq_session : SessionRiskState;
  rq_planned_entry_limit : decimal;
  rq_tick_size : decimal;
  rq_market_status_normal : bool;
  rq_symbol_halted : bool;
  rq_configuration_hash : string;
}.

Definition SizingRequest_ok `{NewYork} (r : SizingRequest) : bool :=
  between 1 3 (rq_final_rank r) && ApprovedSetup_ok (rq_setup r) && RiskPolicyConfig_ok (rq_policy r)
  && AccountSnapshot_ok (rq_account r) && QuoteSnapshot_ok (rq_quote r)
  && LiquiditySnapshot_ok (rq_liquidity r) && SessionRiskState_ok (rq_session r)
  && positive_money (rq_planned_entry_limit r) && positive_money (rq_tick_size r)
  && hash_pattern (rq_configuration_hash r)
  && bool_decide (rq_trading_date r = ny_date (rq_calculated_at r))
  && (rq_calculated_at r <=? rq_execution_cutoff_timestamp r).

(** ** Outputs *)

Record QuantityCaps := {
  cap_trade_risk : Z;
  cap_open_risk : Z;
  cap_daily_loss : Z;
  cap_buying_power : Z;
  cap_position_notional : Z;
  cap_gross_exposure : Z;
  cap_adv_liquidity : Z;
  cap_premarket_liquidity : Z;
}.
#[export] Instance QuantityCaps_eq : EqDecision QuantityCaps. Proof. solve_decision. Defined.

(** [caps.model_dump().values()], in field order. *)
Definition cap_values (c : QuantityCaps) : list Z :=
  [cap_trade_risk c; cap_open_risk c; cap_daily_loss c; cap_buying_power c; cap_position_notional c;
   cap_gross_exposure c; cap_adv_liquidity c; cap_premarket_liquidity c].

Definition QuantityCaps_ok (c : QuantityCaps) : bool := forallb (Z.leb 0) (cap_values c).

Record RiskReservation := {
  rv_reservation_id : string;
  rv_request_id : string;
  rv_run_id : string;
  rv_trading_date : date;
  rv_ticker : string;
  rv_client_order_id : string;
  rv_reserved_quantity : Z;
  rv_reserved_notional : decimal;
  rv_reserved_modeled_risk : decimal;
  rv_created_at : datetime;
  rv_expires_at : datetime;
  rv_status : ReservationStatus;
}.

Definition RiskReservation_ok (r : RiskReservation) : bool :=
  is_canonical_ticker (rv_ticker r)
  && between 1 48 (Z.of_nat (String.length (rv_client_order_id r)))
  && (0 <? rv_reserved_quantity r) && positive_money (rv_reserved_notional r)
  && positive_money (rv_reserved_modeled_risk r) && (rv_created_at r <? rv_expires_at r).

(** The figures a decision records, the ones a rejection copies from
    [calculations]. *)
Record Calculations := {
  cal_session_reference_equity : option decimal;
  cal_broker_session_pnl : option decimal;
  cal_internal_session_pnl : option decimal;
  cal_risk_session_pnl : option decimal;
  cal_usable_buying_power : option decimal;
  cal_base_trade_risk_budget : option decimal;
  cal_risk_flag_multiplier : option decimal;
  cal_adjusted_trade_risk_budget : option decimal;
  cal_planned_entry_limit : option decimal;
  cal_stop_price : option decimal;
  cal_target_price : option decimal;
  cal_structural_risk_per_share : option decimal;
  cal_execution_risk_buffer : option decimal;
  cal_modeled_risk_per_share : option decimal;
  cal_maximum_total_open_risk : option decimal;
  cal_remaining_open_risk_capacity : option decimal;
  cal_remaining_hard_loss_capacity : option decimal;
  cal_maximum_position_notional : option decimal;
  cal_remaining_gross_exposure : option decimal;
}.

(** The fields of RiskDecision other than its hash: what the hash covers. *)
Record RiskBody := {
  rd_decision_id : string;
  rd_request_id : string;
  rd_run_id : string;
  rd_trading_date : date;
  rd_profile_name : RiskProfileName;
  rd_ticker : string;
  rd_final_rank : Z;
  rd_decision : RiskDecisionStatus;
  rd_rejection_reasons : list RiskRejectionCode;
  rd_kill_switch_required : bool;
  rd_calculations : Calculations;
  rd_quantity_caps : option QuantityCaps;
  rd_binding_cap : option BindingCap;
  rd_final_quantity : Z;
  rd_reserved_modeled_risk : option decimal;
  rd_reserved_notional : option decimal;
  rd_reservation : option RiskReservation;
  rd_calculated_at : datetime;
  rd_account_snapshot_timestamp : datetime;
  rd_quote_timestamp : datetime;
  rd_configuration_hash : string;
  rd_input_hash : string;
}.

Record RiskDecision := {
  rd_body : RiskBody;
  rd_decision_hash : string;
}.

(** ** Equality *)

#[export] Instance ScoreBreakdown_eq : EqDecision ScoreBreakdown. Proof. solve_decision. Defined.
#[export] Instance LiquiditySnapshot_eq : EqDecision LiquiditySnapshot. Proof. solve_decision. Defined.

Definition setup_fields (a : ApprovedSetup) :=
  (as_ticker a, as_conviction_score a, as_score_breakdown a, as_master_thesis a, as_catalyst_source a,
   as_source_type a, as_source_timestamp a, as_catalyst_age_hours a, as_corroborated a, as_risk_flags a,
   let t := as_trade_parameters a in
   (tp_reference_price t, tp_atr_value_used t, tp_premarket_low_used t, tp_risk_stop_atr_multiple t,
    tp_profit_target_atr_multiple t)).
#[export] Instance ApprovedSetup_py_eq : PyEq ApprovedSetup := λ a b, py_eqb (setup_fields a) (setup_fields b).
#[export] Instance ApprovedSetup_py_laws : PyEqLaws ApprovedSetup := py_eq_via setup_fields.

Definition policy_fields (p : RiskPolicyConfig) :=
  (pol_profile_name p, pol_risk_per_trade_pct p, pol_max_open_risk_pct p, pol_max_position_notional_pct p,
   pol_max_gross_long_exposure_pct p, pol_buying_power_reserve_pct p, pol_max_concurrent_positions p,
   pol_max_new_entries_per_day p, pol_soft_daily_loss_pct p, pol_hard_daily_loss_pct p,
   pol_max_consecutive_losses p, pol_slippage_buffer_atr_multiple p, pol_slippage_buffer_spread_multiple p,
   pol_max_pct_adv20 p, pol_max_pct_premarket_volume p, pol_max_account_snapshot_age_ms p,
   pol_max_quote_age_ms p, pol_max_last_trade_age_ms p, pol_max_spread_pct p, pol_max_spread_atr_fraction p,
   pol_max_entry_drift_pct p, pol_max_entry_drift_atr_multiple p, pol_pnl_reconciliation_tolerance p,
   pol_mandatory_flatten_time_et p).
#[export] Instance RiskPolicyConfig_py_eq : PyEq RiskPolicyConfig := λ a b, py_eqb (policy_fields a) (policy_fields b).
#[export] Instance RiskPolicyConfig_py_laws : PyEqLaws RiskPolicyConfig := py_eq_via policy_fields.

Definition account_fields (a : AccountSnapshot) :=
  (acc_snapshot_timestamp a, acc_status a, acc_account_blocked a, acc_trading_blocked a,
   acc_trade_suspended_by_user a, acc_equity a, acc_last_equity a, acc_cash a, acc_buying_power a,
   acc_non_marginable_buying_power a, acc_regt_buying_power a, acc_initial_margin a,
   acc_maintenance_margin a, acc_long_market_value a, acc_multiplier a, acc_pending_transfer_in a,
   acc_pending_transfer_out a).
#[export] Instance AccountSnapshot_py_eq : PyEq AccountSnapshot := λ a b, py_eqb (account_fields a) (account_fields b).
#[export] Instance AccountSnapshot_py_laws : PyEqLaws AccountSnapshot := py_eq_via account_fields.

Definition quote_fields (q : QuoteSnapshot) :=
  (qt_quote_timestamp q, qt_last_trade_timestamp q, qt_bid_price q, qt_ask_price q, qt_bid_size q,
   qt_ask_size q, qt_last_price q, qt_first_regular_session_nbbo_confirmed q).
#[export] Instance QuoteSnapshot_py_eq : PyEq QuoteSnapshot := λ a b, py_eqb (quote_fields a) (quote_fields b).
#[export] Instance QuoteSnapshot_py_laws : PyEqLaws QuoteSnapshot := py_eq_via quote_fields.

Definition session_fields (s : SessionRiskState) :=
  (ss_session_reference_equity s, ss_session_start_equity s, ss_net_external_cash_flow s,
   ss_internal_realized_pnl s, ss_internal_unrealized_pnl s, ss_current_total_open_risk s,
   ss_reserved_entry_notional s, ss_current_long_market_value s, ss_open_daybreak_position_count s,
   ss_reserved_entry_position_count s, ss_completed_entry_count s, ss_consecutive_closed_losses s,
   ss_traded_tickers_today s, ss_account_state_reconciled s, ss_streams_healthy s, ss_database_healthy s,
   ss_kill_switch_active s).
#[export] Instance SessionRiskState_py_eq : PyEq SessionRiskState := λ a b, py_eqb (session_fields a) (session_fields b).
#[export] Instance SessionRiskState_py_laws : PyEqLaws SessionRiskState := py_eq_via session_fields.

Definition request_fields (r : SizingRequest) :=
  (rq_request_id r, rq_run_id r, rq_trading_date r, rq_final_rank r, rq_calculated_at r,
   rq_execution_cutoff_timestamp r, rq_setup r, rq_policy r, rq_account r, rq_quote r, rq_liquidity r,
   rq_session r, rq_planned_entry_limit r, rq_tick_size r, rq_market_status_normal r, rq_symbol_halted r,
   rq_configuration_hash r).
#[export] Instance SizingRequest_py_eq : PyEq SizingRequest := λ a b, py_eqb (request_fields a) (request_fields b).
#[export] Instance SizingRequest_py_laws : PyEqLaws SizingRequest := py_eq_via request_fields.

Definition reservation_fields (r : RiskReservation) :=
  (rv_reservation_id r, rv_request_id r, rv_run_id r, rv_trading_date r, rv_ticker r, rv_client_order_id r,
   rv_reserved_quantity r, rv_reserved_notional r, rv_reserved_modeled_risk r, rv_created_at r,
   rv_expires_at r, rv_status r).
#[export] Instance RiskReservation_py_eq : PyEq RiskReservation := λ a b, py_eqb (reservation_fields a) (reservation_fields b).
#[export] Instance RiskReservation_py_laws : PyEqLaws RiskReservation := py_eq_via reservation_fields.

Definition calculation_list (c : Calculations) : list (option decimal) :=
  [cal_session_reference_equity c; cal_broker_session_pnl c; cal_internal_session_pnl c;
   cal_risk_session_pnl c; cal_usable_buying_power c; cal_base_trade_risk_budget c;
   cal_risk_flag_multiplier c; cal_adjusted_trade_risk_budget c; cal_planned_entry_limit c;
   cal_stop_price c; cal_target_price c; cal_structural_risk_per_share c; cal_execution_risk_buffer c;
   cal_modeled_risk_per_share c; cal_maximum_total_open_risk c; cal_remaining_open_risk_capacity c;
   cal_remaining_hard_loss_capacity c; cal_maximum_position_notional c; cal_remaining_gross_exposure c].

Definition decision_fields (d : RiskDecision) :=
  let b := rd_body d in
  (rd_decision_id b, rd_request_id b, rd_run_id b, rd_trading_date b, rd_profile_name b, rd_ticker b,
   rd_final_rank b, rd_decision b, rd_rejection_reasons b, rd_kill_switch_required b,
   calculation_list (rd_calculations b), rd_quantity_caps b, rd_binding_cap b, rd_final_quantity b,
   rd_reserved_modeled_risk b, rd_reserved_notional b, rd_reservation b, rd_calculated_at b,
   rd_account_snapshot_timestamp b, rd_quote_timestamp b, rd_configuration_hash b, rd_input_hash b,
   rd_decision_hash d).
#[export] Instance RiskDecision_py_eq : PyEq RiskDecision := λ a b, py_eqb (decision_fields a) (decision_fields b).
#[export] Instance RiskDecision_py_laws : PyEqLaws RiskDecision := py_eq_via decision_fields.

(** ** Validators of the outputs *)

(** The Money fields; risk_flag_multiplier is a plain Decimal. *)
Definition Calculations_ok (c : Calculations) : bool :=
  forallb (opt_ok money_ok)
    [cal_session_reference_equity c; cal_broker_session_pnl c; cal_internal_session_pnl c;
     cal_risk_session_pnl c; cal_usable_buying_power c; cal_base_trade_risk_budget c;
     cal_adjusted_trade_risk_budget c; cal_planned_entry_limit c; cal_stop_price c; cal_target_price c;
     cal_structural_risk_per_share c; cal_execution_risk_buffer c; cal_modeled_risk_per_share c;
     cal_maximum_total_open_risk c; cal_remaining_open_risk_capacity c; cal_remaining_hard_loss_capacity c;
     cal_maximum_position_notional c; cal_remaining_gross_exposure c].

(** The reservation repeats the decision it belongs to. *)
Definition reservation_matches (b : RiskBody) (r : RiskReservation) : bool :=
  bool_decide (rv_request_id r = rd_request_id b) && bool_decide (rv_run_id r = rd_run_id b)
  && bool_decide (rv_trading_date r = rd_trading_date b) && bool_decide (rv_ticker r = rd_ticker b)
  && (rv_reserved_quantity r =? rd_final_quantity b)
  && py_eqb (Some (rv_reserved_notional r)) (rd_reserved_notional b)
  && py_eqb (Some (rv_reserved_modeled_risk r)) (rd_reserved_modeled_risk b)
  && (rv_created_at r =? rd_calculated_at b).

(** RiskDecision.validate_terminal_shape, up to the hash. *)
Definition validate_terminal_shape (b : RiskBody) : bool :=
  bool_decide (rd_decision_id b = "risk-" +:+ rd_request_id b)
  && match rd_decision b with
     | RD_APPROVED =>
         negb (nonempty (rd_rejection_reasons b))
         && (1 <=? rd_final_quantity b)
         && is_some (rd_binding_cap b) && is_some (rd_quantity_caps b)
         && is_some (cal_planned_entry_limit (rd_calculations b)) && is_some (cal_stop_price (rd_calculations b))
         && is_some (cal_target_price (rd_calculations b))
         && is_some (cal_modeled_risk_per_share (rd_calculations b))
         && is_some (rd_reserved_modeled_risk b) && is_some (rd_reserved_notional b)
         && match rd_reservation b with Some r => reservation_matches b r | None => false end
     | RD_REJECTED =>
         nonempty (rd_rejection_reasons b)
         && (rd_final_quantity b =? 0) && negb (is_some (rd_reservation b))
         && negb (is_some (rd_quantity_caps b)) && negb (is_some (rd_binding_cap b))
         && negb (is_some (rd_reserved_modeled_risk b)) && negb (is_some (rd_reserved_notional b))
     end.

Definition RiskBody_ok (b : RiskBody) : bool :=
  is_canonical_ticker (rd_ticker b) && between 1 3 (rd_final_rank b)
  && Calculations_ok (rd_calculations b) && opt_ok QuantityCaps_ok (rd_quantity_caps b)
  && (0 <=? rd_final_quantity b) && opt_ok money_ok (rd_reserved_modeled_risk b)
  && opt_ok money_ok (rd_reserved_notional b) && opt_ok RiskReservation_ok (rd_reservation b)
  && hash_pattern (rd_configuration_hash b) && hash_pattern (rd_input_hash b)
  && validate_terminal_shape b.

Definition RiskDecision_ok `{Dump RiskBody} (d : RiskDecision) : bool :=
  RiskBody_ok (rd_body d) && hash_pattern (rd_decision_hash d)
  && bool_decide (canonical_sha256 (dump (rd_body d)) = rd_decision_hash d).

Record BatchSizingResult := {
  bs_decisions : list RiskDecision;
  bs_ending_session_state : SessionRiskState;
}.

(** BatchSizingRequest is a tuple of requests. *)
Definition contiguous_ranks (l : list SizingRequest) : bool :=
  bool_decide (map rq_final_rank l = map Z.of_nat (seq 1 (length l))).

Definition BatchSizingRequest_ok `{NewYork} (l : list SizingRequest) : bool :=
  forallb SizingRequest_ok l && nonempty l && (len l <=? 3) && contiguous_ranks l
  && no_dup (map rq_request_id l) && no_dup (map (λ r, as_ticker (rq_setup r)) l)
  && match l with
     | [] => false
     | first :: rest =>
         forallb (λ r,
           bool_decide (rq_run_id r = rq_run_id first)
           && bool_decide (rq_configuration_hash r = rq_configuration_hash first)
           && (rq_calculated_at r =? rq_calculated_at first)
           && (rq_execution_cutoff_timestamp r =? rq_execution_cutoff_timestamp first)
           && py_eqb (rq_policy r) (rq_policy first) && py_eqb (rq_account r) (rq_account first)
           && py_eqb (rq_session r) (rq_session first)) rest
     end.
