(* ===== verification/Amounts.v ===== *)
(** * Amounts: exact decimal arithmetic in units of 10^-10

    The quantum of the risk service's money is 10^-10.  [amt k a] says that the
    decimal [a] is worth exactly [k] quanta; within 28 digits the decimal
    operations on such values are the integer operations on their quanta, and
    every rounding of rounding.py has an exact integer description. *)
From Stdlib Require Import QArith Qabs Lqa.
From S2P Require Import Prelude Numerics PyStr PyTime Contracts Canonical RiskModels.

#[local] Open Scope Z_scope.

Definition quantum : Q := bp10 (-10).
Lemma quantum_pos : (0 < quantum)%Q. Proof. apply bp10_pos. Qed.

Definition amt (k : Z) (a : decimal) : Prop := (dval a == inject_Z k * quantum)%Q.

Lemma amt_scale j k : (inject_Z j * quantum <= inject_Z k * quantum)%Q ↔ j <= k.
Proof.
  rewrite Zle_Qle. pose proof quantum_pos. split; intros; [|nra].
  apply (Qmult_le_r _ _ quantum); done.
Qed.

Lemma amt_scale_lt j k : (inject_Z j * quantum < inject_Z k * quantum)%Q ↔ j < k.
Proof.
  rewrite Zlt_Qlt. pose proof quantum_pos. split; intros; [|nra].
  apply (Qmult_lt_r _ _ quantum); done.
Qed.

Lemma amt_inj j k a : amt j a → amt k a → j = k.
Proof.
  unfold amt. intros Hj Hk. rewrite Hj in Hk.
  assert (j <= k ∧ k <= j) as [? ?]; [|lia].
  rewrite <- !amt_scale. split; lra.
Qed.

Lemma amt_le j k a b : amt j a → amt k b → (dval a <= dval b)%Q ↔ j <= k.
Proof. unfold amt. intros -> ->. apply amt_scale. Qed.
Lemma amt_lt j k a b : amt j a → amt k b → (dval a < dval b)%Q ↔ j < k.
Proof. unfold amt. intros -> ->. apply amt_scale_lt. Qed.

Lemma amt_leb j k a b : amt j a → amt k b → (a <=? b)%dec = (j <=? k).
Proof. intros Ha Hb. apply eq_true_iff_eq. rewrite dleb_spec, Z.leb_le. by apply amt_le. Qed.
Lemma amt_ltb j k a b : amt j a → amt k b → (a <? b)%dec = (j <? k).
Proof. intros Ha Hb. apply eq_true_iff_eq. rewrite dltb_spec, Z.ltb_lt. by apply amt_lt. Qed.

Lemma amt_Dec k : amt k (Dec k (-10)).
Proof. done. Qed.
Lemma amt_of_Z z : amt (z * 10 ^ 10) (dec.of_Z z).
Proof.
  unfold amt. rewrite dval_of_Z, inject_Z_mult. unfold quantum.
  rewrite <- Qmult_assoc. setoid_replace (inject_Z (10 ^ 10) * bp10 (-10))%Q with 1%Q using relation Qeq
    by (vm_compute; done). ring.
Qed.
Lemma amt_zero : amt 0 dec.zero.
Proof. apply (amt_of_Z 0). Qed.

Lemma amt_representable k : Z.abs k < 10 ^ 28 → representable (inject_Z k * quantum).
Proof. intros H. by exists k, (-10). Qed.

Lemma amt_add j k a b : amt j a → amt k b → Z.abs (j + k) < 10 ^ 28 → amt (j + k) (a + b)%dec.
Proof.
  unfold amt. intros Ha Hb H.
  assert (dval a + dval b == inject_Z (j + k) * quantum)%Q as Hs by (rewrite Ha, Hb, inject_Z_plus; ring).
  rewrite add_exact; [done|]. rewrite Hs. by apply amt_representable.
Qed.

Lemma amt_sub j k a b : amt j a → amt k b → Z.abs (j - k) < 10 ^ 28 → amt (j - k) (a - b)%dec.
Proof.
  unfold amt. intros Ha Hb H.
  assert (dval a - dval b == inject_Z (j - k) * quantum)%Q as Hs by (rewrite Ha, Hb, inject_minus; ring).
  rewrite sub_exact; [done|]. rewrite Hs. by apply amt_representable.
Qed.

Lemma amt_mul_Z k z a : amt k a → Z.abs (k * z) < 10 ^ 28 → amt (k * z) (a * dec.of_Z z)%dec.
Proof.
  unfold amt. intros Ha H.
  assert (dval a * dval (dec.of_Z z) == inject_Z (k * z) * quantum)%Q as Hs
    by (rewrite Ha, dval_of_Z, inject_Z_mult; ring).
  rewrite mul_exact; [done|]. rewrite Hs. by apply amt_representable.
Qed.

Lemma amt_neg k a : amt k a → Z.abs k < 10 ^ 28 → amt (- k) (dec.neg a).
Proof.
  unfold amt, dec.neg. intros Ha H.
  assert (dval (Dec (- coef a) (expo a)) == inject_Z (- k) * quantum)%Q as Hs.
  { unfold dval in *; cbn [coef expo]. rewrite !inject_Z_opp.
    setoid_replace (- inject_Z k * quantum)%Q with (- (inject_Z k * quantum))%Q using relation Qeq by ring.
    rewrite <- Ha. ring. }
  rewrite fix_exact; [done|]. rewrite Hs. apply amt_representable. lia.
Qed.

Lemma amt_abs k a : amt k a → Z.abs k < 10 ^ 28 → amt (Z.abs k) (dec.abs a).
Proof.
  unfold amt, dec.abs. intros Ha H.
  assert (dval (Dec (Z.abs (coef a)) (expo a)) == inject_Z (Z.abs k) * quantum)%Q as Hs.
  { transitivity (Qabs (dval a)); [by rewrite Qabs_dval|].
    rewrite Ha, Qabs_Qmult, inject_Z_abs, (Qabs_pos quantum); [done|]. pose proof quantum_pos. lra. }
  rewrite fix_exact; [done|]. rewrite Hs. apply amt_representable. lia.
Qed.

Lemma amt_min j k a b : amt j a → amt k b → amt (Z.min j k) (dec.min a b).
Proof.
  intros Ha Hb. unfold dec.min. rewrite (amt_ltb k j b a) by done.
  destruct (Z.ltb_spec k j); [rewrite Z.min_r by lia | rewrite Z.min_l by lia]; done.
Qed.
Lemma amt_max j k a b : amt j a → amt k b → amt (Z.max j k) (dec.max a b).
Proof.
  intros Ha Hb. unfold dec.max. rewrite (amt_ltb j k a b) by done.
  destruct (Z.ltb_spec j k); [rewrite Z.max_r by lia | rewrite Z.max_l by lia]; done.
Qed.

(** ** Money *)

(** A decimal with at most [- e] digits after the point and below a bound:
    what pydantic's decimal_places and max_digits ask for. *)
Lemma fixed_digits e B a :
  (if e <=? expo a then Z.abs (coef a * 10 ^ (expo a - e)) <? B
   else (coef a mod 10 ^ (e - expo a) =? 0) && (Z.abs (coef a / 10 ^ (e - expo a)) <? B)) = true ↔
  ∃ k, (dval a == inject_Z k * bp10 e)%Q ∧ Z.abs k < B.
Proof.
  pose proof (bp10_pos e) as Hpe. destruct (Z.leb_spec e (expo a)) as [He|He].
  - rewrite Z.ltb_lt. set (k := coef a * 10 ^ (expo a - e)).
    assert (dval a == inject_Z k * bp10 e)%Q as Hk.
    { unfold k, dval. rewrite inject_Z_mult, <- bp10_nonneg, <- Qmult_assoc, <- bp10_add by lia.
      by replace (expo a - e + e) with (expo a) by lia. }
    split; [by exists k|]. intros (j & Hj & Hb). replace k with j; [done|].
    apply inject_Z_injective, (Qmult_inj_r _ _ (bp10 e)); [lra|]. by rewrite <- Hj, <- Hk.
  - set (m := 10 ^ (e - expo a)). assert (0 < m) as Hm by (apply Z.pow_pos_nonneg; lia).
    assert (bp10 e == inject_Z m * bp10 (expo a))%Q as Hb.
    { unfold m. rewrite <- bp10_nonneg, <- bp10_add by lia. by replace (e - expo a + expo a) with e by lia. }
    pose proof (bp10_pos (expo a)).
    assert (∀ j, (dval a == inject_Z j * bp10 e)%Q → coef a = j * m) as Hc.
    { intros j Hj. apply inject_Z_injective. apply (Qmult_inj_r _ _ (bp10 (expo a))); [lra|].
      rewrite inject_Z_mult, <- Qmult_assoc, <- Hb, <- Hj. done. }
    rewrite andb_true_iff, Z.eqb_eq, Z.ltb_lt. split.
    + intros [H1 H2]. exists (coef a / m). split; [|done].
      rewrite Hb, Qmult_assoc, <- inject_Z_mult. unfold dval.
      replace (coef a / m * m) with (coef a); [done|]. pose proof (Z.div_mod (coef a) m). lia.
    + intros (j & Hj & Hlt). apply Hc in Hj. rewrite Hj, Z.mod_mul, Z.div_mul by lia. done.
Qed.

Lemma money_ok_amt a : money_ok a = true ↔ ∃ k, amt k a ∧ Z.abs k < 10 ^ 30.
Proof. exact (fixed_digits (-10) (10 ^ 30) a). Qed.

Lemma positive_money_amt a : positive_money a = true ↔ ∃ k, amt k a ∧ 0 < k < 10 ^ 30.
Proof.
  unfold positive_money, positive_dec. rewrite andb_true_iff, money_ok_amt. split.
  - intros [(k & Hk & Hb) Hp]. exists k. rewrite (amt_ltb 0 k) in Hp by (done || apply amt_zero).
    bool_to_prop. split; [done|lia].
  - intros (k & Hk & Hb). split; [exists k; split; [done|lia]|].
    rewrite (amt_ltb 0 k) by (done || apply amt_zero). apply Z.ltb_lt. lia.
Qed.

Lemma nonneg_money_amt a : nonneg_money a = true ↔ ∃ k, amt k a ∧ 0 <= k < 10 ^ 30.
Proof.
  unfold nonneg_money, nonneg. rewrite andb_true_iff, money_ok_amt. split.
  - intros [(k & Hk & Hb) Hp]. exists k. rewrite (amt_leb 0 k) in Hp by (done || apply amt_zero).
    bool_to_prop. split; [done|lia].
  - intros (k & Hk & Hb). split; [exists k; split; [done|lia]|].
    rewrite (amt_leb 0 k) by (done || apply amt_zero). apply Z.leb_le. lia.
Qed.

(** ** Quantizing *)

Lemma quantize_fits mode a e r :
  dec.rescale mode a e = r → Z.abs (coef r) < 10 ^ 28 → dec.quantize a e mode = Ok r.
Proof.
  intros <- H. unfold dec.quantize. apply (ndigits_le 10 _ prec ten_ok) in H; [|done].
  by destruct (Z.ltb_spec prec (ndigits 10 (coef (dec.rescale mode a e)))); [lia|].
Qed.

Lemma quantize_money_amt k a : amt k a → Z.abs k < 10 ^ 28 → quantize_money a = Ok (Dec k (-10)).
Proof. intros H Hk. apply quantize_fits; [by apply rescale_exact | done]. Qed.

Lemma quantize_money_inv a c : quantize_money a = Ok c → ∃ k, amt k c.
Proof. apply quantize_multiple. Qed.

(** A money amount after quantization differs by at most half a quantum. *)
Lemma rescale_half_even_err a e :
  (Qabs (dval (dec.rescale RHalfEven a e) - dval a) <= (1 # 2) * bp10 e)%Q.
Proof.
  unfold dec.rescale. pose proof (bp10_pos e) as Hp. destruct (Z.leb_spec e (expo a)) as [He|He].
  - pose proof (dval_align a e He) as Ha. unfold dval at 1; cbn [coef expo]. rewrite Ha.
    setoid_replace (dval a - dval a)%Q with 0%Q using relation Qeq by ring.
    change (Qabs 0) with 0%Q. lra.
  - set (m := 10 ^ (e - expo a)). assert (0 < m) as Hm by (apply Z.pow_pos_nonneg; lia).
    pose proof (bp10_pos (expo a)) as Hpa.
    assert (bp10 e == inject_Z m * bp10 (expo a))%Q as Hbe.
    { unfold m. rewrite <- bp10_nonneg, <- bp10_add by lia. by replace (e - expo a + expo a) with e by lia. }
    cbn [round_div]. pose proof (div_half_even_err (coef a) m Hm) as Herr. set (q := div_half_even (coef a) m) in *.
    setoid_replace (dval (Dec q e) - dval a)%Q with (inject_Z (q * m - coef a) * bp10 (expo a))%Q using relation Qeq
      by (unfold dval; cbn [coef expo]; rewrite Hbe, inject_minus, inject_Z_mult; ring).
    rewrite Qabs_Qmult, inject_Z_abs, (Qabs_pos (bp10 _)), Hbe by lra.
    rewrite Zle_Qle, inject_Z_mult in Herr. change (inject_Z 2) with 2%Q in Herr. nra.
Qed.

Lemma quantize_money_ok a B :
  (Qabs (dval a) <= inject_Z B)%Q → 0 <= B <= 10 ^ 17 →
  ∃ k, quantize_money a = Ok (Dec k (-10)) ∧ Z.abs k <= B * 10 ^ 10 + 1 ∧ ((0 <= dval a)%Q → 0 <= k).
Proof.
  intros Ha HB. pose proof (rescale_half_even_err a (-10)) as Herr.
  set (r := dec.rescale RHalfEven a (-10)) in *.
  assert (r = Dec (coef r) (-10)) as Hr.
  { unfold r, dec.rescale. by destruct (_ <=? _). }
  set (k := coef r) in *. rewrite Hr in Herr.
  assert (dval (Dec k (-10)) == inject_Z k * quantum)%Q as Hk by done.
  rewrite Hk in Herr. fold quantum in Herr. pose proof quantum_pos as Hq.
  apply Qabs_Qle_condition in Herr as [Hlo Hhi]. apply Qabs_Qle_condition in Ha as [Ha1 Ha2].
  assert (inject_Z B == inject_Z (B * 10 ^ 10) * quantum)%Q as HBq.
  { pose proof (amt_of_Z B) as H. unfold amt in H. by rewrite dval_of_Z in H. }
  assert (Z.abs k <= B * 10 ^ 10 + 1) as Hkb.
  { assert (k <= B * 10 ^ 10 + 1 ∧ - (B * 10 ^ 10 + 1) <= k) as [? ?]; [|lia].
    rewrite <- !amt_scale. rewrite !inject_Z_opp, inject_Z_plus. change (inject_Z 1) with 1%Q. split; nra. }
  exists k. split_and!; [|done|].
  - apply quantize_fits; [done|]. cbn [coef]. lia.
  - intros H0. assert (-1 < k) as ?; [|lia]. rewrite <- amt_scale_lt. change (inject_Z (-1)) with (-(1))%Q. nra.
Qed.

Lemma cent_quanta : (bp10 (-2) == inject_Z (10 ^ 8) * quantum)%Q.
Proof. vm_compute. done. Qed.

Lemma amt_cents k : amt (k * 10 ^ 8) (Dec k (-2)).
Proof.
  unfold amt, dval; cbn [coef expo]. by rewrite inject_Z_mult, <- Qmult_assoc, <- cent_quanta.
Qed.

Lemma floor_to_cent_inv a c :
  floor_to_cent a = Ok c →
  ∃ k, c = Dec k (-2) ∧ amt (k * 10 ^ 8) c ∧ (dval c <= dval a)%Q ∧ (dval a < dval c + (1 # 100))%Q.
Proof.
  intros H. apply quantize_Ok in H as [-> _]. pose proof (rescale_floor a (-2)) as (He & Hlo & Hhi).
  set (r := dec.rescale RFloor a (-2)) in *. clearbody r. exists (coef r).
  assert (r = Dec (coef r) (-2)) as Hr by (rewrite <- He; by destruct r).
  split; [done|]. split; [|split; [done|]].
  - rewrite Hr at 2. apply amt_cents.
  - by change (bp10 (-2)) with (1 # 100)%Q in Hhi.
Qed.

Lemma floor_to_cent_ok a B :
  (Qabs (dval a) <= inject_Z B)%Q → 0 <= B <= 10 ^ 25 → ∃ c, floor_to_cent a = Ok c.
Proof.
  intros Ha HB. exists (dec.rescale RFloor a (-2)). apply quantize_fits; [done|].
  pose proof (rescale_floor a (-2)) as (He & Hlo & Hhi).
  set (r := dec.rescale RFloor a (-2)) in *. clearbody r. destruct r as [k e]. cbn [coef expo] in *. subst e.
  assert (dval (Dec k (-2)) == inject_Z k * (1 # 100))%Q as Hk by done.
  rewrite Hk in Hlo, Hhi. change (bp10 (-2)) with (1 # 100)%Q in *.
  apply Qabs_Qle_condition in Ha as [Ha1 Ha2].
  assert (inject_Z k <= inject_Z (100 * B))%Q as H1 by (rewrite inject_Z_mult; change (inject_Z 100) with 100%Q; lra).
  assert (inject_Z (- (100 * B + 1)) <= inject_Z k)%Q as H2.
  { rewrite inject_Z_opp, inject_Z_plus, inject_Z_mult. change (inject_Z 100) with 100%Q. change (inject_Z 1) with 1%Q. lra. }
  rewrite <- !Zle_Qle in *. lia.
Qed.

Lemma floor_to_cent_amt v a :
  amt v a → Z.abs v < 10 ^ 35 → floor_to_cent a = Ok (Dec (v / 10 ^ 8) (-2)).
Proof.
  intros Hv Hb.
  assert (Z.abs (v / 10 ^ 8) < 10 ^ 28) as Hq.
  { assert (- 10 ^ 27 <= v / 10 ^ 8 < 10 ^ 27); [|lia]. split.
    - apply Z.div_le_lower_bound; lia.
    - apply Z.div_lt_upper_bound; lia. }
  apply quantize_fits; [|done].
  pose proof (rescale_floor a (-2)) as (He & Hlo & Hhi).
  destruct (dec.rescale RFloor a (-2)) as [k e]. cbn [coef expo] in *. subst e. f_equal.
  pose proof (amt_cents k) as Hk.
  assert (k * 10 ^ 8 <= v) as H1 by (by apply (amt_le _ _ _ _ Hk Hv)).
  assert (v < (k + 1) * 10 ^ 8) as H2.
  { apply amt_scale_lt. unfold amt in *. rewrite <- Hv. eapply Qlt_le_trans; [exact Hhi|].
    rewrite Hk. rewrite !inject_Z_mult, inject_Z_plus. change (inject_Z 1) with 1%Q.
    rewrite cent_quanta. lra. }
  apply Z.div_unique with (v - k * 10 ^ 8); lia.
Qed.

(** ** Products and quotients *)

(** A product is within a factor two of the exact one and keeps its sign. *)
Lemma mul_mag a b x y :
  (Qabs (dval a) <= x)%Q → (Qabs (dval b) <= y)%Q → (Qabs (dval (a * b)%dec) <= 2 * (x * y))%Q.
Proof.
  intros Hx Hy. unfold dec.mul. set (p := Dec _ _).
  assert (dval p == dval a * dval b)%Q as Hp.
  { unfold p, dval; cbn [coef expo]. rewrite inject_Z_mult, bp10_add. ring. }
  pose proof (fix_err p) as He. rewrite Hp in He.
  assert (Qabs (dval a * dval b) <= x * y)%Q as Hxy.
  { rewrite Qabs_Qmult. pose proof (Qabs_nonneg (dval a)). pose proof (Qabs_nonneg (dval b)). nra. }
  assert ((1 # 2) * bp10 (1 - prec) <= 1)%Q as Hw by (vm_compute; done).
  pose proof (Qabs_nonneg (dval a * dval b)) as H0.
  assert (Qabs (dval (dec.fix_ p)) <= Qabs (dval (dec.fix_ p) - dval a * dval b) + Qabs (dval a * dval b))%Q.
  { setoid_replace (dval (dec.fix_ p)) with ((dval (dec.fix_ p) - dval a * dval b) + dval a * dval b)%Q using relation Qeq at 1 by ring.
    apply Qabs_triangle. }
  set (w := ((1 # 2) * bp10 (1 - prec))%Q) in *. nra.
Qed.

Lemma mul_nonneg a b : (0 <= dval a)%Q → (0 <= dval b)%Q → (0 <= dval (a * b)%dec)%Q.
Proof.
  intros Ha Hb. unfold dec.mul. set (p := Dec _ _).
  assert (dval p == dval a * dval b)%Q as Hp.
  { unfold p, dval; cbn [coef expo]. rewrite inject_Z_mult, bp10_add. ring. }
  pose proof (fix_err p) as He. rewrite Hp in He.
  assert (0 <= dval a * dval b)%Q as H0 by (by apply Qmult_le_0_compat).
  rewrite (Qabs_pos (dval a * dval b)) in He by done.
  assert ((1 # 2) * bp10 (1 - prec) <= 1)%Q as Hw by (vm_compute; done).
  set (w := ((1 # 2) * bp10 (1 - prec))%Q) in *.
  apply Qabs_Qle_condition in He as [He _]. nra.
Qed.

Lemma amt_coef_pos k a : amt k a → 0 < k → 0 < coef a.
Proof.
  intros Ha Hk. apply coef_pos. unfold amt in Ha. rewrite Ha.
  pose proof quantum_pos. pose proof (inject_Z_pos k Hk). nra.
Qed.

Lemma amt_pos k a : amt k a → 0 < k → (0 < dval a)%Q.
Proof. intros Ha Hk. apply coef_pos. by apply (amt_coef_pos k). Qed.

Lemma amt_coef_zero a : amt 0 a → coef a = 0.
Proof.
  intros Ha. apply inject_Z_injective. pose proof (bp10_pos (expo a)).
  apply (Qmult_inj_r _ _ (bp10 (expo a))); [lra|]. unfold amt, dval in Ha.
  rewrite Ha. change (inject_Z 0) with 0%Q. ring.
Qed.

Lemma div_amt_ok A B a b : amt A a → amt B b → 0 <= A → 0 < B → ∃ q, dec.div a b = Ok q.
Proof.
  intros Ha Hb HA HB. pose proof (amt_coef_pos B b Hb HB). destruct (Z.eq_dec A 0) as [->|].
  - rewrite div_zero_l by (done || by apply amt_coef_zero). eauto.
  - destruct (div_pos_spec a b) as (q & Hq & _); [by apply (amt_coef_pos A); [|lia] | done | eauto].
Qed.

(** ** Dividends of either sign *)

Definition opp (a : decimal) : decimal := Dec (- coef a) (expo a).

Lemma dval_opp a : (dval (opp a) == - dval a)%Q.
Proof. unfold opp, dval; cbn [coef expo]. rewrite inject_Z_opp. ring. Qed.

Lemma strip_zeros_opp f c e i : dec.strip_zeros f (- c) e i = opp (dec.strip_zeros f c e i).
Proof.
  revert c e. induction f as [|f IH]; intros c e; simpl; [done|].
  destruct (Z.eqb_spec (c mod 10) 0) as [Hc|Hc].
  - rewrite Z.mod_opp_l_z, Z.eqb_refl by lia.
    rewrite Z.div_opp_l_z by lia. destruct (e <? i); simpl; [apply IH | done].
  - destruct (Z.eqb_spec (- c mod 10) 0) as [Hc'|]; [|by rewrite andb_false_r].
    exfalso. apply Hc. rewrite <- (Z.opp_involutive c). by rewrite Z.mod_opp_l_z.
Qed.

Lemma div_opp a b q : dec.div a b = Ok q → ∃ q', dec.div (opp a) b = Ok q' ∧ (dval q' == - dval q)%Q.
Proof.
  unfold dec.div, opp. cbn [coef expo].
  destruct (Z.eqb_spec (coef b) 0); [done|].
  destruct (Z.eqb_spec (coef a) 0) as [->|Ha].
  { intros [= <-]. eexists. split; [done|]. unfold dval; cbn [coef expo]. change (inject_Z 0) with 0%Q. ring. }
  destruct (Z.eqb_spec (- coef a) 0) as [|_]; [lia|]. rewrite Z.abs_opp, Z.sgn_opp, Z.mul_opp_l.
  destruct (round_sig 10 prec (Z.abs (coef a)) (Z.abs (coef b))) as [m e].
  intros <-%Ok_inj. eexists. split; [reflexivity|]. rewrite !Z.mul_opp_l.
  destruct (_ =? _); [rewrite strip_zeros_opp; apply dval_opp|].
  unfold dval; cbn [coef expo]. rewrite inject_Z_opp. ring.
Qed.

Lemma div_signed_ok A B a b : amt A a → amt B b → 0 < B → ∃ q, dec.div a b = Ok q.
Proof.
  intros Ha Hb HB. destruct (Z_lt_le_dec A 0) as [HA|HA]; [|by apply (div_amt_ok A B)].
  assert (amt (- A) (opp a)) as Hna.
  { unfold amt in *. rewrite dval_opp, Ha, inject_Z_opp. ring. }
  destruct (div_amt_ok (- A) B (opp a) b) as [q Hq]; [done.. | lia | done |].
  apply div_opp in Hq as (q' & Hq & _). unfold opp in Hq; cbn [coef expo] in Hq.
  rewrite Z.opp_involutive in Hq. destruct a; eauto.
Qed.

Lemma Qopp_le_iff x y : (x <= y)%Q ↔ (- y <= - x)%Q.
Proof. split; intros; lra. Qed.

Lemma div_cmp_amt a b q A B k :
  dec.div a b = Ok q → amt A a → amt B b → Z.abs A < 2 * 10 ^ 27 → 0 < B →
  ((inject_Z k <= dval q)%Q ↔ k * B <= A) ∧ ((dval q <= inject_Z k)%Q ↔ A <= k * B).
Proof.
  intros Hq Ha Hb HA HB. destruct (Z_lt_le_dec A 0) as [Hn|Hn].
  - destruct (div_opp a b q Hq) as (q' & Hq' & Hv).
    assert (dval (opp a) == inject_Z (- A) * quantum)%Q as Hna.
    { unfold amt in Ha. rewrite dval_opp, Ha, inject_Z_opp. ring. }
    destruct (div_cmp_int (opp a) b q' quantum (- A) B (- k) Hq' quantum_pos Hna Hb ltac:(unfold prec; lia) HB) as [H1 H2].
    rewrite Hv, inject_Z_opp in H1, H2. split.
    + etransitivity; [apply Qopp_le_iff|]. rewrite H2. lia.
    + etransitivity; [apply Qopp_le_iff|]. rewrite H1. lia.
  - apply (div_cmp_int a b q quantum A B k Hq quantum_pos Ha Hb); [unfold prec; lia | done].
Qed.

Lemma div_floor_amt a b A B :
  amt A a → amt B b → Z.abs A < 2 * 10 ^ 27 → 0 < B →
  ∃ q, dec.div a b = Ok q ∧ floor_to_int q = A / B.
Proof.
  intros Ha Hb HA HB. destruct (div_signed_ok A B a b) as [q Hq]; [done..|].
  exists q. split; [done|]. apply dfloor_unique.
  - apply (div_cmp_amt a b q A B); try done. pose proof (Z.mul_div_le A B HB). lia.
  - apply Qnot_le_lt. intros Hle. apply (div_cmp_amt a b q A B) in Hle; try done.
    pose proof (Z.mul_succ_div_gt A B HB). lia.
Qed.

(** ** Integral values and increments *)

Lemma integral_value a mode :
  ∃ z, (dval (dec.to_integral_value a mode) == inject_Z z)%Q.
Proof.
  unfold dec.to_integral_value. destruct (Z.leb_spec 0 (expo a)) as [He|He].
  - exists (coef a * 10 ^ expo a). unfold dval. by rewrite inject_Z_mult, <- bp10_nonneg.
  - unfold dec.rescale. destruct (Z.leb_spec 0 (expo a)); [lia|]. eexists. unfold dval; cbn [coef expo].
    change (bp10 0) with 1%Q. apply Qmult_1_r.
Qed.

Lemma to_integral_floor a z :
  (dval (dec.to_integral_value a RFloor) == inject_Z z)%Q → (inject_Z z <= dval a)%Q ∧ (dval a < inject_Z (z + 1))%Q.
Proof.
  unfold dec.to_integral_value. rewrite inject_Z_plus. change (inject_Z 1) with 1%Q.
  destruct (Z.leb_spec 0 (expo a)) as [He|He]; [intros ->; split; lra|].
  pose proof (rescale_floor a 0) as (_ & Hlo & Hhi). intros Hz. rewrite Hz in Hlo, Hhi.
  by change (bp10 0) with 1%Q in Hhi.
Qed.

Lemma to_integral_ceiling a z :
  (dval (dec.to_integral_value a RCeiling) == inject_Z z)%Q →
  (dval a <= inject_Z z)%Q ∧ (inject_Z (z - 1) < dval a)%Q.
Proof.
  assert (inject_Z (z - 1) == inject_Z z - 1)%Q as -> by (rewrite inject_minus; done).
  unfold dec.to_integral_value. destruct (Z.leb_spec 0 (expo a)) as [He|He]; [intros ->; split; lra|].
  pose proof (rescale_floor (opp a) 0) as (_ & Hlo & Hhi). rewrite dval_opp in Hlo, Hhi.
  unfold dec.rescale in *. unfold opp in *; cbn [coef expo round_div] in *.
  destruct (Z.leb_spec 0 (expo a)); [lia|]. intros Hz.
  assert (dval (Dec (- coef a / 10 ^ (0 - expo a)) 0) == - inject_Z z)%Q as Hf.
  { rewrite <- Hz. unfold dval; cbn [coef expo]. rewrite inject_Z_opp. ring. }
  rewrite Hf in Hlo, Hhi. change (bp10 0) with 1%Q in Hhi. split; lra.
Qed.

Lemma mul_integral a b z k :
  (dval a == inject_Z z)%Q → amt k b → Z.abs (z * k) < 10 ^ 28 → amt (z * k) (a * b)%dec.
Proof.
  unfold amt. intros Ha Hb H.
  assert (dval a * dval b == inject_Z (z * k) * quantum)%Q as Hs by (rewrite Ha, Hb, inject_Z_mult; ring).
  rewrite mul_exact; [done|]. rewrite Hs. by apply amt_representable.
Qed.

Lemma increment_positive I inc : amt I inc → 0 < I → (inc <=? dec.zero)%dec = false.
Proof. intros H HI. rewrite (amt_leb I 0) by (done || apply amt_zero). apply Z.leb_gt. lia. Qed.

(** Rounding down yields the greatest multiple of the increment that is not
    above the value, rounding up the least one not below. *)
Lemma round_down_amt V I v inc :
  amt V v → amt I inc → Z.abs V < 2 * 10 ^ 27 → 0 < I <= 2 * 10 ^ 27 →
  ∃ r, round_down_to_increment v inc = Ok r ∧ amt (V / I * I) r.
Proof.
  intros Hv Hi HV HI. unfold round_down_to_increment, round_to_increment.
  rewrite (increment_positive I) by (done || lia).
  destruct (div_signed_ok V I v inc) as [q Hq]; [done.. | lia |]. rewrite Hq. simpl.
  destruct (integral_value q RFloor) as [z Hz]. eexists. split; [done|].
  destruct (to_integral_floor q z Hz) as [H1 H2].
  apply (div_cmp_amt v inc q V I) in H1; [|done..|lia].
  assert (V < (z + 1) * I) as H3.
  { apply Z.lt_nge. intros Hle. apply (div_cmp_amt v inc q V I) in Hle; [|done..|lia]. lra. }
  assert (V / I = z) as -> by (symmetry; apply Z.div_unique with (V - z * I); lia).
  apply mul_integral; [done..|]. lia.
Qed.

Lemma round_up_amt V I v inc :
  amt V v → amt I inc → Z.abs V < 2 * 10 ^ 27 → 0 < I <= 2 * 10 ^ 27 →
  ∃ r c, round_up_to_increment v inc = Ok r ∧ amt (c * I) r ∧ (c - 1) * I < V <= c * I.
Proof.
  intros Hv Hi HV HI. unfold round_up_to_increment, round_to_increment.
  rewrite (increment_positive I) by (done || lia).
  destruct (div_signed_ok V I v inc) as [q Hq]; [done.. | lia |]. rewrite Hq. simpl.
  destruct (integral_value q RCeiling) as [z Hz]. eexists _, z. split; [done|].
  destruct (to_integral_ceiling q z Hz) as [H1 H2].
  apply (div_cmp_amt v inc q V I) in H1; [|done..|lia].
  assert ((z - 1) * I < V) as H3.
  { apply Z.lt_nge. intros Hle. apply (div_cmp_amt v inc q V I) in Hle; [|done..|lia]. lra. }
  split; [|done]. apply mul_integral; [done..|]. lia.
Qed.

(** ** Magnitudes

    [mag B a]: the value of [a] is at most [B] in absolute value. *)
Definition mag (B : Z) (a : decimal) : Prop := (Qabs (dval a) <= inject_Z B)%Q.

Definition below (B : Z) (a : decimal) : bool := within (dec.of_Z (- B)) (dec.of_Z B) a.

Lemma below_mag B a : below B a = true ↔ mag B a.
Proof.
  unfold below, within, mag. rewrite andb_true_iff, !dleb_spec, !dval_of_Z, Qabs_Qle_condition, inject_Z_opp. done.
Qed.

Lemma mag_mono B C a : mag B a → B <= C → mag C a.
Proof. unfold mag. rewrite Zle_Qle. intros. lra. Qed.

Lemma mag_nonneg B a : mag B a → 0 <= B.
Proof.
  unfold mag. intros H. pose proof (Qabs_nonneg (dval a)). rewrite Zle_Qle. change (inject_Z 0) with 0%Q. lra.
Qed.

Lemma amt_mag B k a : amt k a → mag B a ↔ Z.abs k <= B * 10 ^ 10.
Proof.
  unfold amt, mag. intros H. pose proof quantum_pos as Hq.
  rewrite H, Qabs_Qmult, inject_Z_abs, (Qabs_pos quantum) by lra.
  pose proof (amt_of_Z B) as HB. unfold amt in HB. rewrite dval_of_Z in HB. rewrite HB. apply amt_scale.
Qed.

Lemma inject_2 : (2 == inject_Z 2)%Q. Proof. done. Qed.

Lemma mag_mul x y a b : mag x a → mag y b → mag (2 * (x * y)) (a * b)%dec.
Proof.
  unfold mag. intros Ha Hb. rewrite !inject_Z_mult. by apply mul_mag.
Qed.

Lemma mag_fix B a : mag B a → mag (2 * B) (dec.fix_ a).
Proof.
  unfold mag. rewrite inject_Z_mult. change (inject_Z 2) with 2%Q. intros Ha.
  pose proof (fix_err a) as He. assert ((1 # 2) * bp10 (1 - prec) <= 1)%Q as Hw by (vm_compute; done).
  pose proof (Qabs_nonneg (dval a)) as H0. set (w := ((1 # 2) * bp10 (1 - prec))%Q) in *.
  assert (Qabs (dval (dec.fix_ a)) <= Qabs (dval (dec.fix_ a) - dval a) + Qabs (dval a))%Q.
  { setoid_replace (dval (dec.fix_ a)) with ((dval (dec.fix_ a) - dval a) + dval a)%Q using relation Qeq at 1 by ring.
    apply Qabs_triangle. }
  nra.
Qed.

Lemma mag_add x y a b : mag x a → mag y b → mag (2 * (x + y)) (a + b)%dec.
Proof.
  intros Ha Hb. unfold dec.add. apply mag_fix. unfold mag in *.
  destruct (dval_min_align a b) as [Hva Hvb]. set (e := Z.min (expo a) (expo b)) in *.
  assert (dval (Dec (dec.align a e + dec.align b e) e) == dval a + dval b)%Q as ->.
  { rewrite <- Hva, <- Hvb. unfold dval; cbn [coef expo]. rewrite inject_Z_plus. ring. }
  rewrite inject_Z_plus. eapply Qle_trans; [apply Qabs_triangle | lra].
Qed.

Lemma mag_opp B a : mag B a → mag B (opp a).
Proof. unfold mag. by rewrite dval_opp, Qabs_opp. Qed.

Lemma mag_sub x y a b : mag x a → mag y b → mag (2 * (x + y)) (a - b)%dec.
Proof.
  intros Ha Hb. assert ((a - b)%dec = (a + opp b)%dec) as ->.
  { unfold dec.sub, dec.add, opp, dec.align; cbn [coef expo]. do 2 f_equal. lia. }
  apply mag_add; [done | by apply mag_opp].
Qed.

Lemma mag_min x y a b : mag x a → mag y b → mag (Z.max x y) (dec.min a b).
Proof. intros. unfold dec.min. destruct (_ <? _)%dec; eapply mag_mono; [done|lia|done|lia]. Qed.
Lemma mag_max x y a b : mag x a → mag y b → mag (Z.max x y) (dec.max a b).
Proof. intros. unfold dec.max. destruct (_ <? _)%dec; eapply mag_mono; [done|lia|done|lia]. Qed.
Lemma mag_neg B a : mag B a → mag (2 * B) (dec.neg a).
Proof. intros H. apply (mag_fix B (opp a)). by apply mag_opp. Qed.
Lemma mag_zero : mag 0 dec.zero.
Proof. done. Qed.
Lemma mag_of_Z z : mag (Z.abs z) (dec.of_Z z).
Proof. unfold mag. rewrite dval_of_Z, inject_Z_abs. apply Qle_refl. Qed.

Lemma mag_floor_to_cent B a c : floor_to_cent a = Ok c → mag B a → mag (B + 1) c.
Proof.
  intros Hc Ha. apply floor_to_cent_inv in Hc as (k & _ & _ & Hlo & Hhi). unfold mag in *.
  rewrite inject_Z_plus. change (inject_Z 1) with 1%Q. apply Qabs_Qle_condition in Ha as [H1 H2].
  apply Qabs_Qle_condition. split; lra.
Qed.

Lemma mag_within lo hi B a :
  within (dec.of_Z lo) (dec.of_Z hi) a = true → - B <= lo → hi <= B → mag B a.
Proof.
  unfold within, mag. intros H H1 H2. bool_to_prop. apply dleb_spec in H, H0.
  rewrite dval_of_Z in *. rewrite Zle_Qle, ?inject_Z_opp in *. apply Qabs_Qle_condition. split; lra.
Qed.

Lemma ratio_mag a : ratio_ok a = true → mag 1 a ∧ (0 < dval a)%Q ∧ (dval a < 1)%Q.
Proof.
  unfold ratio_ok, positive_dec, mag. intros H. bool_to_prop. apply dltb_spec in H, H0.
  change (dval dec.zero) with (dval (dec.of_Z 0)) in H. rewrite dval_of_Z in H, H0.
  change (inject_Z 0) with 0%Q in H. change (inject_Z 1) with 1%Q in *.
  split; [apply Qabs_Qle_condition; split; lra | by split].
Qed.

Lemma dec_div_ok a b : coef b ≠ 0 → ∃ q, dec.div a b = Ok q.
Proof.
  intros Hb. unfold dec.div. destruct (Z.eqb_spec (coef b) 0); [done|].
  destruct (coef a =? 0); [eauto|]. destruct (round_sig _ _ _ _). eauto.
Qed.

Lemma positive_dec_coef a : positive_dec a = true ↔ 0 < coef a.
Proof.
  unfold positive_dec. rewrite dltb_spec, <- coef_pos. change (dval dec.zero) with (inject_Z 0 * bp10 0)%Q.
  change (inject_Z 0 * bp10 0)%Q with (0 * 1)%Q. split; intros; lra.
Qed.

(** A whole number of quanta of bounded size. *)
Definition amount (B : Z) (a : decimal) : Prop := ∃ k, amt k a ∧ Z.abs k <= B * 10 ^ 10.

Lemma amount_mag B a : amount B a → mag B a.
Proof. intros (k & Hk & H). by apply (amt_mag B k). Qed.

Lemma amount_mono B C a : amount B a → B <= C → amount C a.
Proof. intros (k & Hk & H) HB. exists k. split; [done|lia]. Qed.

Lemma amount_intro B k a : amt k a → mag B a → amount B a.
Proof. intros Hk Hm. exists k. split; [done|]. by apply (amt_mag B k) in Hm. Qed.

Lemma floor_to_cent_amount B C a c : floor_to_cent a = Ok c → mag B a → B + 1 <= C → amount C c.
Proof.
  intros Hc Ha HC. pose proof (mag_floor_to_cent B a c Hc Ha) as Hm.
  apply floor_to_cent_inv in Hc as (k & _ & Hk & _). eapply amount_mono; [by eapply amount_intro | done].
Qed.

Lemma amount_money B a : amount B a → B < 10 ^ 20 → money_ok a = true.
Proof. intros (k & Hk & H) HB. apply money_ok_amt. exists k. split; [done|lia]. Qed.

(** Bound the magnitude of an expression by the magnitudes of its parts. *)
Ltac mag_step :=
  lazymatch goal with
  | |- mag _ dec.zero => apply mag_zero
  | |- mag _ (dec.of_Z _) => apply mag_of_Z
  | |- mag _ (dec.mul _ _) => apply mag_mul
  | |- mag _ (dec.sub _ _) => apply mag_sub
  | |- mag _ (dec.add _ _) => apply mag_add
  | |- mag _ (dec.min _ _) => apply mag_min
  | |- mag _ (dec.max _ _) => apply mag_max
  | |- mag _ (dec.neg _) => apply mag_neg
  | H : mag _ ?a |- mag _ ?a => exact H
  | H : amount _ ?a |- mag _ ?a => exact (amount_mag _ _ H)
  end.
Ltac solve_mag := eapply mag_mono; [repeat mag_step | lia].

(** Sums, differences and extrema of amounts are exact. *)
Lemma amount_add x y a b : amount x a → amount y b → x + y < 10 ^ 17 → amount (x + y) (a + b)%dec.
Proof. intros (j & Hj & ?) (k & Hk & ?) ?. exists (j + k). split; [apply amt_add; [done..|lia]|lia]. Qed.
Lemma amount_sub x y a b : amount x a → amount y b → x + y < 10 ^ 17 → amount (x + y) (a - b)%dec.
Proof. intros (j & Hj & ?) (k & Hk & ?) ?. exists (j - k). split; [apply amt_sub; [done..|lia]|lia]. Qed.
Lemma amount_min x y a b : amount x a → amount y b → amount (Z.max x y) (dec.min a b).
Proof. intros (j & Hj & ?) (k & Hk & ?). exists (Z.min j k). split; [by apply amt_min|lia]. Qed.
Lemma amount_max x y a b : amount x a → amount y b → amount (Z.max x y) (dec.max a b).
Proof. intros (j & Hj & ?) (k & Hk & ?). exists (Z.max j k). split; [by apply amt_max|lia]. Qed.
Lemma amount_neg x a : amount x a → x < 10 ^ 17 → amount x (dec.neg a).
Proof. intros (j & Hj & ?) ?. exists (- j). split; [apply amt_neg; [done|lia]|lia]. Qed.
Lemma amount_zero : amount 0 dec.zero.
Proof. exists 0. split; [apply amt_zero | done]. Qed.

Ltac amount_step :=
  lazymatch goal with
  | |- amount _ dec.zero => apply amount_zero
  | |- amount _ (dec.sub _ _) => eapply amount_sub
  | |- amount _ (dec.add _ _) => eapply amount_add
  | |- amount _ (dec.min _ _) => eapply amount_min
  | |- amount _ (dec.max _ _) => eapply amount_max
  | |- amount _ (dec.neg _) => eapply amount_neg
  | H : amount _ ?a |- amount _ ?a => exact H
  | |- _ < _ => lia
  end.
Ltac solve_amount := eapply amount_mono; [repeat amount_step | lia].
