(* ===== verification/RiskEngine.v ===== *)
(** * RiskEngine: position sizing

    daybreak_risk/engine.py.  [size_position] is cut into the stages the source
    runs in order; each stage that quantizes or divides may raise, so it lives
    in the result monad.  The second half proves the sizing contract. *)
From Stdlib Require Import Ascii String QArith Lqa.
From S2P Require Import Prelude Numerics PyStr PyTime Contracts Canonical Replay RiskModels.

#[local] Open Scope Z_scope.

(** ** Reasons *)

(** [_unique_reasons]. *)
Definition unique_reasons (reasons : list RiskRejectionCode) : list RiskRejectionCode :=
  unique_from [] reasons.

Definition RISK_FLAG_MULTIPLIERS (f : RiskFlag) : decimal :=
  match f with
  | RF_PARABOLIC => Dec 50 (-2)
  | RF_LOW_FLOAT => Dec 50 (-2)
  | RF_SPIKY_VOLUME => Dec 60 (-2)
  | RF_SECONDARY_SOURCE => Dec 75 (-2)
  | RF_HARD_TO_BORROW => Dec 100 (-2)
  | RF_UNKNOWN_BORROW => Dec 100 (-2)
  end.

(** An age in milliseconds outside [0, limit]. *)
Definition stale (at_ taken limit : Z) : bool :=
  let age := age_ms (at_ - taken) in (age <? 0) || (limit <? age).

(** The checks before any amount is computed. *)
Definition precondition_reasons (r : SizingRequest) : list RiskRejectionCode :=
  let a := rq_account r in let s := rq_session r in let q := rq_quote r in
  let p := rq_policy r in let l := rq_liquidity r in
  when (negb (bool_decide (acc_status a = "ACTIVE"))) RR_ACCOUNT_NOT_ACTIVE
  ++ when (acc_account_blocked a) RR_ACCOUNT_BLOCKED
  ++ when (acc_trading_blocked a) RR_TRADING_BLOCKED
  ++ when (acc_trade_suspended_by_user a) RR_TRADE_SUSPENDED_BY_USER
  ++ when (stale (rq_calculated_at r) (acc_snapshot_timestamp a) (pol_max_account_snapshot_age_ms p))
       RR_ACCOUNT_SNAPSHOT_STALE
  ++ when ((acc_equity a <=? dec.zero)%dec || (acc_last_equity a <=? dec.zero)%dec
           || existsb (λ v, (v <? dec.zero)%dec)
                [acc_buying_power a; acc_non_marginable_buying_power a; acc_maintenance_margin a])
       RR_INVALID_ACCOUNT_VALUE
  ++ when (positive_dec (acc_pending_transfer_out a)) RR_PENDING_TRANSFER_OUT
  ++ when (negb (ss_account_state_reconciled s)) RR_ACCOUNT_STATE_UNRECONCILED
  ++ when (negb (ss_streams_healthy s)) RR_STREAM_HEALTH_FAILURE
  ++ when (negb (ss_database_healthy s)) RR_DATABASE_HEALTH_FAILURE
  ++ when (ss_kill_switch_active s) RR_KILL_SWITCH_ACTIVE
  ++ when (negb (rq_market_status_normal r)) RR_MARKET_NOT_NORMAL
  ++ when (rq_symbol_halted r) RR_SYMBOL_HALTED
  ++ when (rq_execution_cutoff_timestamp r <? rq_calculated_at r) RR_EXECUTION_CUTOFF_EXCEEDED
  ++ when (stale (rq_calculated_at r) (qt_quote_timestamp q) (pol_max_quote_age_ms p)) RR_QUOTE_SNAPSHOT_STALE
  ++ when (stale (rq_calculated_at r) (qt_last_trade_timestamp q) (pol_max_last_trade_age_ms p))
       RR_LAST_TRADE_STALE
  ++ when ((qt_bid_price q <=? dec.zero)%dec || (qt_ask_price q <=? dec.zero)%dec
           || (qt_ask_price q <? qt_bid_price q)%dec || (qt_last_price q <=? dec.zero)%dec
           || (qt_bid_size q <=? 0) || (qt_ask_size q <=? 0)) RR_INVALID_QUOTE
  ++ when (negb (qt_first_regular_session_nbbo_confirmed q)) RR_REGULAR_SESSION_NBBO_NOT_CONFIRMED
  ++ when (negb (liq_asset_tradable l) || negb (bool_decide (string_lower (liq_asset_status l) = "active")))
       RR_INVALID_LIQUIDITY_INPUT.

(** ** Session profit and loss *)

Record SessionPnl := {
  pnl_broker : decimal;
  pnl_internal : decimal;
  pnl_risk : decimal;
  pnl_soft_limit : decimal;
  pnl_hard_limit : decimal;
}.

Definition session_pnl (r : SizingRequest) : result SessionPnl :=
  let s := rq_session r in let p := rq_policy r in
  let equity := ss_session_reference_equity s in
  let broker := (acc_equity (rq_account r) - ss_session_start_equity s - ss_net_external_cash_flow s)%dec in
  let internal := (ss_internal_realized_pnl s + ss_internal_unrealized_pnl s)%dec in
  soft ← floor_to_cent (equity * pol_soft_daily_loss_pct p)%dec;
  hard ← floor_to_cent (equity * pol_hard_daily_loss_pct p)%dec;
  Ok {| pnl_broker := broker; pnl_internal := internal; pnl_risk := dec.min broker internal;
        pnl_soft_limit := soft; pnl_hard_limit := hard |}.

Definition hard_loss_reached (n : SessionPnl) : bool := (pnl_risk n <=? dec.neg (pnl_hard_limit n))%dec.

Definition pnl_reasons (r : SizingRequest) (n : SessionPnl) : list RiskRejectionCode :=
  when (pol_pnl_reconciliation_tolerance (rq_policy r) <? dec.abs (pnl_broker n - pnl_internal n))%dec
    RR_SESSION_PNL_RECONCILIATION_FAILURE
  ++ (if hard_loss_reached n then [RR_HARD_DAILY_LOSS_LIMIT]
      else when (pnl_risk n <=? dec.neg (pnl_soft_limit n))%dec RR_SOFT_DAILY_LOSS_LIMIT).

Definition count_reasons (r : SizingRequest) : list RiskRejectionCode :=
  let s := rq_session r in let p := rq_policy r in
  when (pol_max_consecutive_losses p <=? ss_consecutive_closed_losses s) RR_MAX_CONSECUTIVE_LOSSES
  ++ when (pol_max_new_entries_per_day p <=? ss_completed_entry_count s) RR_MAX_NEW_ENTRIES_PER_DAY
  ++ when (bool_decide (as_ticker (rq_setup r) ∈ ss_traded_tickers_today s)) RR_DUPLICATE_TICKER_DAY
  ++ when (pol_max_concurrent_positions p
           <=? ss_open_daybreak_position_count s + ss_reserved_entry_position_count s)
       RR_MAX_CONCURRENT_POSITIONS.

Definition usable_buying_power (r : SizingRequest) : result decimal :=
  let a := rq_account r in
  floor_to_cent
    (dec.min (acc_non_marginable_buying_power a) (acc_buying_power a)
       * (dec.of_Z 1 - pol_buying_power_reserve_pct (rq_policy r))
     - ss_reserved_entry_notional (rq_session r))%dec.

(** ** Prices *)

Record PlannedPrices := {
  px_reference : decimal;
  px_atr : decimal;
  px_premarket_low : decimal;
  px_entry_limit : decimal;
  px_stop : decimal;
  px_target : decimal;
}.

(** A float field is the decimal of its repr, so [Decimal(str(x))] is [x]. *)
Definition planned_prices (r : SizingRequest) : result PlannedPrices :=
  let t := as_trade_parameters (rq_setup r) in let tick := rq_tick_size r in
  reference ← quantize_money (tp_reference_price t);
  atr ← quantize_money (tp_atr_value_used t);
  premarket_low ← quantize_money (tp_premarket_low_used t);
  entry ← round_up_to_increment (rq_planned_entry_limit r) tick;
  stop ← round_down_to_increment (reference - tp_risk_stop_atr_multiple t * atr)%dec tick;
  target ← round_down_to_increment (reference + tp_profit_target_atr_multiple t * atr)%dec tick;
  Ok {| px_reference := reference; px_atr := atr; px_premarket_low := premarket_low;
        px_entry_limit := entry; px_stop := stop; px_target := target |}.

Definition price_reasons (r : SizingRequest) (x : PlannedPrices) : list RiskRejectionCode :=
  let q := rq_quote r in
  when (px_entry_limit x <? qt_ask_price q)%dec RR_ENTRY_LIMIT_NOT_MARKETABLE
  ++ when ((px_stop x <=? dec.zero)%dec || (px_target x <=? px_entry_limit x)%dec
           || (px_entry_limit x <=? px_stop x)%dec) RR_INVALID_PRICE_GEOMETRY
  ++ when (px_premarket_low x <? px_stop x)%dec RR_STOP_ABOVE_PREMARKET_LOW
  ++ when (dec.min (qt_last_price q) (qt_bid_price q) <? px_premarket_low x)%dec RR_PREMARKET_LOW_BROKEN.

(** [a / b if b > 0 else Decimal("999")]. *)
Definition ratio_or_999 (a b : decimal) : result decimal :=
  if positive_dec b then dec.div a b else Ok (dec.of_Z 999).

Definition spread_reasons (r : SizingRequest) (x : PlannedPrices) : result (list RiskRejectionCode) :=
  let q := rq_quote r in let p := rq_policy r in
  mid ← midpoint q;
  spread_pct ← ratio_or_999 (spread q) mid;
  spread_atr ← ratio_or_999 (spread q) (px_atr x);
  let drift := dec.abs (px_entry_limit x - px_reference x)%dec in
  drift_pct ← ratio_or_999 drift (px_reference x);
  drift_atr ← ratio_or_999 drift (px_atr x);
  Ok (when ((pol_max_spread_pct p <? spread_pct)%dec || (pol_max_spread_atr_fraction p <? spread_atr)%dec)
        RR_SPREAD_TOO_WIDE
      ++ when ((pol_max_entry_drift_pct p <? drift_pct)%dec
               || (pol_max_entry_drift_atr_multiple p <? drift_atr)%dec) RR_ENTRY_PRICE_DRIFT_TOO_LARGE).

(** ** Risk per share, budgets and capacities *)

Record ShareRisk := {
  sr_structural : decimal;
  sr_buffer : decimal;
  sr_modeled : decimal;
}.

Definition share_risk (r : SizingRequest) (x : PlannedPrices) : result ShareRisk :=
  let p := rq_policy r in
  structural ← quantize_money (px_entry_limit x - px_stop x)%dec;
  atr_buffer ← quantize_money (pol_slippage_buffer_atr_multiple p * px_atr x)%dec;
  spread_buffer ← quantize_money (pol_slippage_buffer_spread_multiple p * spread (rq_quote r))%dec;
  buffer ← quantize_money (dec.max atr_buffer spread_buffer);
  modeled ← quantize_money (structural + buffer)%dec;
  Ok {| sr_structural := structural; sr_buffer := buffer; sr_modeled := modeled |}.

Record TradeBudget := {
  tb_base : decimal;
  tb_multiplier : decimal;
  tb_adjusted : decimal;
}.

(** [min(multipliers, default=Decimal("1.00"))]. *)
Definition risk_flag_multiplier (flags : list RiskFlag) : decimal :=
  match map RISK_FLAG_MULTIPLIERS flags with
  | [] => Dec 100 (-2)
  | m :: l => fold_left dec.min l m
  end.

Definition trade_budget (r : SizingRequest) : result TradeBudget :=
  base ← floor_to_cent (ss_session_reference_equity (rq_session r) * pol_risk_per_trade_pct (rq_policy r))%dec;
  let m := risk_flag_multiplier (as_risk_flags (rq_setup r)) in
  adjusted ← floor_to_cent (base * m)%dec;
  Ok {| tb_base := base; tb_multiplier := m; tb_adjusted := adjusted |}.

Record Capacities := {
  cp_max_open_risk : decimal;
  cp_open_risk : decimal;
  cp_hard_loss : decimal;
  cp_position_notional : decimal;
  cp_gross : decimal;
}.

Definition capacities (r : SizingRequest) (n : SessionPnl) : result Capacities :=
  let s := rq_session r in let p := rq_policy r in let equity := ss_session_reference_equity s in
  max_open ← floor_to_cent (equity * pol_max_open_risk_pct p)%dec;
  open_risk ← floor_to_cent (max_open - ss_current_total_open_risk s)%dec;
  let current_loss := dec.max dec.zero (dec.neg (pnl_risk n)) in
  hard_loss ← floor_to_cent (pnl_hard_limit n - current_loss - ss_current_total_open_risk s)%dec;
  notional ← floor_to_cent (equity * pol_max_position_notional_pct p)%dec;
  max_gross ← floor_to_cent (equity * pol_max_gross_long_exposure_pct p)%dec;
  gross ← floor_to_cent (max_gross - (ss_current_long_market_value s + ss_reserved_entry_notional s))%dec;
  Ok {| cp_max_open_risk := max_open; cp_open_risk := open_risk; cp_hard_loss := hard_loss;
        cp_position_notional := notional; cp_gross := gross |}.

Definition capacity_reasons (ubp : decimal) (c : Capacities) : list RiskRejectionCode :=
  when (ubp <=? dec.zero)%dec RR_NO_BUYING_POWER_CAPACITY
  ++ when (cp_open_risk c <=? dec.zero)%dec RR_NO_OPEN_RISK_CAPACITY
  ++ when (cp_hard_loss c <=? dec.zero)%dec RR_NO_DAILY_LOSS_CAPACITY
  ++ when (cp_gross c <=? dec.zero)%dec RR_NO_GROSS_EXPOSURE_CAPACITY.

(** ** Everything computed before the verdict *)

Record Figures := {
  fg_pnl : SessionPnl;
  fg_ubp : decimal;
  fg_prices : PlannedPrices;
  fg_share : ShareRisk;
  fg_budget : TradeBudget;
  fg_capacity : Capacities;
  fg_reasons : list RiskRejectionCode;
}.

Definition figures (r : SizingRequest) : result Figures :=
  n ← session_pnl r;
  ubp ← usable_buying_power r;
  x ← planned_prices r;
  market ← spread_reasons r x;
  sr ← share_risk r x;
  tb ← trade_budget r;
  cp ← capacities r n;
  Ok {| fg_pnl := n; fg_ubp := ubp; fg_prices := x; fg_share := sr; fg_budget := tb; fg_capacity := cp;
        fg_reasons :=
          precondition_reasons r ++ pnl_reasons r n ++ count_reasons r ++ price_reasons r x ++ market
          ++ when ((sr_structural sr <=? dec.zero)%dec || (sr_modeled sr <=? dec.zero)%dec)
               RR_INVALID_PRICE_GEOMETRY
          ++ capacity_reasons ubp cp |}.

Definition kill_switch_required (r : SizingRequest) (f : Figures) : bool :=
  ss_kill_switch_active (rq_session r) || hard_loss_reached (fg_pnl f).

(** The figures every decision records. *)
Definition calculations (r : SizingRequest) (f : Figures) : Calculations :=
  let n := fg_pnl f in let x := fg_prices f in let sr := fg_share f in
  let tb := fg_budget f in let cp := fg_capacity f in
  {| cal_session_reference_equity := Some (ss_session_reference_equity (rq_session r));
     cal_broker_session_pnl := Some (pnl_broker n);
     cal_internal_session_pnl := Some (pnl_internal n);
     cal_risk_session_pnl := Some (pnl_risk n);
     cal_usable_buying_power := Some (fg_ubp f);
     cal_base_trade_risk_budget := Some (tb_base tb);
     cal_risk_flag_multiplier := Some (tb_multiplier tb);
     cal_adjusted_trade_risk_budget := Some (tb_adjusted tb);
     cal_planned_entry_limit := Some (px_entry_limit x);
     cal_stop_price := Some (px_stop x);
     cal_target_price := Some (px_target x);
     cal_structural_risk_per_share := Some (sr_structural sr);
     cal_execution_risk_buffer := Some (sr_buffer sr);
     cal_modeled_risk_per_share := Some (sr_modeled sr);
     cal_maximum_total_open_risk := Some (cp_max_open_risk cp);
     cal_remaining_open_risk_capacity := Some (cp_open_risk cp);
     cal_remaining_hard_loss_capacity := Some (cp_hard_loss cp);
     cal_maximum_position_notional := Some (cp_position_notional cp);
     cal_remaining_gross_exposure := Some (cp_gross cp) |}.

Definition floor_quotient (a b : decimal) : result Z := q ← dec.div a b; Ok (floor_to_int q).

Definition quantity_caps (r : SizingRequest) (f : Figures) : result QuantityCaps :=
  let modeled := sr_modeled (fg_share f) in let entry := px_entry_limit (fg_prices f) in
  let cp := fg_capacity f in
  trade_risk ← floor_quotient (tb_adjusted (fg_budget f)) modeled;
  open_risk ← floor_quotient (cp_open_risk cp) modeled;
  daily_loss ← floor_quotient (cp_hard_loss cp) modeled;
  buying_power ← floor_quotient (fg_ubp f) entry;
  position_notional ← floor_quotient (cp_position_notional cp) entry;
  gross_exposure ← floor_quotient (cp_gross cp) entry;
  let caps :=
    {| cap_trade_risk := trade_risk; cap_open_risk := open_risk; cap_daily_loss := daily_loss;
       cap_buying_power := buying_power; cap_position_notional := position_notional;
       cap_gross_exposure := gross_exposure;
       cap_adv_liquidity := floor_to_int
         (dec.of_Z (liq_adv20_shares (rq_liquidity r)) * pol_max_pct_adv20 (rq_policy r))%dec;
       cap_premarket_liquidity := floor_to_int
         (dec.of_Z (liq_premarket_volume (rq_liquidity r)) * pol_max_pct_premarket_volume (rq_policy r))%dec |} in
  if QuantityCaps_ok caps then Ok caps else Err (EValidation "QuantityCaps").

Definition min_cap (c : QuantityCaps) : Z := fold_left Z.min (tail (cap_values c)) (cap_trade_risk c).

Definition BINDING_ORDER (c : QuantityCaps) : list (BindingCap * Z) :=
  [(BC_TRADE_RISK, cap_trade_risk c); (BC_OPEN_RISK, cap_open_risk c); (BC_DAILY_LOSS, cap_daily_loss c);
   (BC_BUYING_POWER, cap_buying_power c); (BC_POSITION_NOTIONAL, cap_position_notional c);
   (BC_GROSS_EXPOSURE, cap_gross_exposure c); (BC_ADV_LIQUIDITY, cap_adv_liquidity c);
   (BC_PREMARKET_LIQUIDITY, cap_premarket_liquidity c)].

(** [next(cap for cap, field in _BINDING_ORDER if ... == final_quantity)]. *)
Definition binding_cap (c : QuantityCaps) (quantity : Z) : option BindingCap :=
  fst <$> find (λ x, x.2 =? quantity) (BINDING_ORDER c).

(** ** Decisions *)

Section engine.
Context `{Dump SizingRequest} `{Dump RiskBody}.

(** [_finalize_decision]: hash the body, then validate the whole. *)
Definition finalize_decision (b : RiskBody) : result RiskDecision :=
  let d := {| rd_body := b; rd_decision_hash := canonical_sha256 (dump b) |} in
  if RiskDecision_ok d then Ok d else Err (EValidation "RiskDecision").

Definition rejected (r : SizingRequest) (reasons : list RiskRejectionCode) (kill : bool)
    (c : Calculations) : result RiskDecision :=
  finalize_decision
    {| rd_decision_id := "risk-" +:+ rq_request_id r;
       rd_request_id := rq_request_id r;
       rd_run_id := rq_run_id r;
       rd_trading_date := rq_trading_date r;
       rd_profile_name := pol_profile_name (rq_policy r);
       rd_ticker := as_ticker (rq_setup r);
       rd_final_rank := rq_final_rank r;
       rd_decision := RD_REJECTED;
       rd_rejection_reasons := unique_reasons reasons;
       rd_kill_switch_required := kill;
       rd_calculations := c;
       rd_quantity_caps := None;
       rd_binding_cap := None;
       rd_final_quantity := 0;
       rd_reserved_modeled_risk := None;
       rd_reserved_notional := None;
       rd_reservation := None;
       rd_calculated_at := rq_calculated_at r;
       rd_account_snapshot_timestamp := acc_snapshot_timestamp (rq_account r);
       rd_quote_timestamp := qt_quote_timestamp (rq_quote r);
       rd_configuration_hash := rq_configuration_hash r;
       rd_input_hash := canonical_sha256 (dump r) |}.

Definition client_order_id (r : SizingRequest) : string :=
  "DB-" +:+ date_compact (rq_trading_date r) +:+ "-"
  +:+ string_take 16 (canonical_sha256 (PStr (rq_run_id r))) +:+ "-" +:+ as_ticker (rq_setup r).

Definition reservation_for (r : SizingRequest) (quantity : Z) (notional modeled_risk : decimal)
    : RiskReservation :=
  {| rv_reservation_id := "reservation-" +:+ rq_request_id r;
     rv_request_id := rq_request_id r;
     rv_run_id := rq_run_id r;
     rv_trading_date := rq_trading_date r;
     rv_ticker := as_ticker (rq_setup r);
     rv_client_order_id := client_order_id r;
     rv_reserved_quantity := quantity;
     rv_reserved_notional := notional;
     rv_reserved_modeled_risk := modeled_risk;
     rv_created_at := rq_calculated_at r;
     rv_expires_at := rq_calculated_at r + 2 * MINUTE;
     rv_status := RV_RESERVED |}.

Definition approved_body (r : SizingRequest) (c : Calculations) (caps : QuantityCaps) (binding : BindingCap)
    (quantity : Z) (modeled_risk notional : decimal) (reservation : RiskReservation) : RiskBody :=
  {| rd_decision_id := "risk-" +:+ rq_request_id r;
     rd_request_id := rq_request_id r;
     rd_run_id := rq_run_id r;
     rd_trading_date := rq_trading_date r;
     rd_profile_name := pol_profile_name (rq_policy r);
     rd_ticker := as_ticker (rq_setup r);
     rd_final_rank := rq_final_rank r;
     rd_decision := RD_APPROVED;
     rd_rejection_reasons := [];
     rd_kill_switch_required := false;
     rd_calculations := c;
     rd_quantity_caps := Some caps;
     rd_binding_cap := Some binding;
     rd_final_quantity := quantity;
     rd_reserved_modeled_risk := Some modeled_risk;
     rd_reserved_notional := Some notional;
     rd_reservation := Some reservation;
     rd_calculated_at := rq_calculated_at r;
     rd_account_snapshot_timestamp := acc_snapshot_timestamp (rq_account r);
     rd_quote_timestamp := qt_quote_timestamp (rq_quote r);
     rd_configuration_hash := rq_configuration_hash r;
     rd_input_hash := canonical_sha256 (dump r) |}.

(** The part after [if reasons]: caps, quantity, reservation. *)
Definition approve (r : SizingRequest) (f : Figures) : result RiskDecision :=
  caps ← quantity_caps r f;
  let quantity := min_cap caps in
  if quantity <? minimum_quantity
  then rejected r [RR_FINAL_QUANTITY_BELOW_MINIMUM] false (calculations r f)
  else
    match binding_cap caps quantity with
    | None => Err (EOther "StopIteration" "")
    | Some binding =>
        modeled_risk ← quantize_money (sr_modeled (fg_share f) * dec.of_Z quantity)%dec;
        notional ← quantize_money (px_entry_limit (fg_prices f) * dec.of_Z quantity)%dec;
        let reservation := reservation_for r quantity notional modeled_risk in
        if RiskReservation_ok reservation then
          finalize_decision
            (approved_body r (calculations r f) caps binding quantity modeled_risk notional reservation)
        else Err (EValidation "RiskReservation")
    end.

Definition size_position (r : SizingRequest) : result RiskDecision :=
  f ← figures r;
  if nonempty (fg_reasons f)
  then rejected r (fg_reasons f) (kill_switch_required r f) (calculations r f)
  else approve r f.

(** [request.model_copy(update={"session": state})]. *)
Definition with_session (r : SizingRequest) (s : SessionRiskState) : SizingRequest :=
  {| rq_request_id := rq_request_id r; rq_run_id := rq_run_id r; rq_trading_date := rq_trading_date r;
     rq_final_rank := rq_final_rank r; rq_calculated_at := rq_calculated_at r;
     rq_execution_cutoff_timestamp := rq_execution_cutoff_timestamp r; rq_setup := rq_setup r;
     rq_policy := rq_policy r; rq_account := rq_account r; rq_quote := rq_quote r;
     rq_liquidity := rq_liquidity r; rq_session := s;
     rq_planned_entry_limit := rq_planned_entry_limit r; rq_tick_size := rq_tick_size r;
     rq_market_status_normal := rq_market_status_normal r; rq_symbol_halted := rq_symbol_halted r;
     rq_configuration_hash := rq_configuration_hash r |}.

Definition reserve_state (s : SessionRiskState) (modeled_risk notional : decimal) : SessionRiskState :=
  {| ss_session_reference_equity := ss_session_reference_equity s;
     ss_session_start_equity := ss_session_start_equity s;
     ss_net_external_cash_flow := ss_net_external_cash_flow s;
     ss_internal_realized_pnl := ss_internal_realized_pnl s;
     ss_internal_unrealized_pnl := ss_internal_unrealized_pnl s;
     ss_current_total_open_risk := (ss_current_total_open_risk s + modeled_risk)%dec;
     ss_reserved_entry_notional := (ss_reserved_entry_notional s + notional)%dec;
     ss_current_long_market_value := ss_current_long_market_value s;
     ss_open_daybreak_position_count := ss_open_daybreak_position_count s;
     ss_reserved_entry_position_count := ss_reserved_entry_position_count s + 1;
     ss_completed_entry_count := ss_completed_entry_count s;
     ss_consecutive_closed_losses := ss_consecutive_closed_losses s;
     ss_traded_tickers_today := ss_traded_tickers_today s;
     ss_account_state_reconciled := ss_account_state_reconciled s;
     ss_streams_healthy := ss_streams_healthy s;
     ss_database_healthy := ss_database_healthy s;
     ss_kill_switch_active := ss_kill_switch_active s |}.

(** The session state after one decision of a batch; the two assertions. *)
Definition next_state (s : SessionRiskState) (d : RiskDecision) : result SessionRiskState :=
  match rd_decision (rd_body d) with
  | RD_REJECTED => Ok s
  | RD_APPROVED =>
      match rd_reserved_modeled_risk (rd_body d), rd_reserved_notional (rd_body d) with
      | Some risk, Some notional => Ok (reserve_state s risk notional)
      | _, _ => Err EAssertion
      end
  end.

Fixpoint size_batch_from (s : SessionRiskState) (l : list SizingRequest) : result BatchSizingResult :=
  match l with
  | [] => Ok {| bs_decisions := []; bs_ending_session_state := s |}
  | r :: l' =>
      d ← size_position (with_session r s);
      s' ← next_state s d;
      rest ← size_batch_from s' l';
      Ok {| bs_decisions := d :: bs_decisions rest;
            bs_ending_session_state := bs_ending_session_state rest |}
  end.

Definition size_approved_batch (l : list SizingRequest) : result BatchSizingResult :=
  match l with
  | [] => Err (EValue "batch must contain at least one request")
  | r :: _ => size_batch_from (rq_session r) l
  end.
End engine.

(** initialize_session_state. *)
Definition initialize_session_state (a : AccountSnapshot) : result SessionRiskState :=
  let reference := dec.min (acc_equity a) (acc_last_equity a) in
  if (reference <=? dec.zero)%dec || (acc_equity a <=? dec.zero)%dec
  then Err (EValue "account equity must be positive to initialize risk state")
  else
    let s :=
      {| ss_session_reference_equity := reference;
         ss_session_start_equity := acc_equity a;
         ss_net_external_cash_flow := dec.zero;
         ss_internal_realized_pnl := dec.zero;
         ss_internal_unrealized_pnl := dec.zero;
         ss_current_total_open_risk := dec.zero;
         ss_reserved_entry_notional := dec.zero;
         ss_current_long_market_value := dec.max dec.zero (acc_long_market_value a);
         ss_open_daybreak_position_count := 0;
         ss_reserved_entry_position_count := 0;
         ss_completed_entry_count := 0;
         ss_consecutive_closed_losses := 0;
         ss_traded_tickers_today := [];
         ss_account_state_reconciled := true;
         ss_streams_healthy := true;
         ss_database_healthy := true;
         ss_kill_switch_active := false |} in
    if SessionRiskState_ok s then Ok s else Err (EValidation "SessionRiskState").

(** ** A sample request *)

Definition sample_account : AccountSnapshot :=
  {| acc_snapshot_timestamp := 1767623404900000; acc_status := "ACTIVE"; acc_account_blocked := false;
     acc_trading_blocked := false; acc_trade_suspended_by_user := false;
     acc_equity := dec.of_Z 100000; acc_last_equity := dec.of_Z 100000; acc_cash := dec.of_Z 100000;
     acc_buying_power := dec.of_Z 100000; acc_non_marginable_buying_power := dec.of_Z 100000;
     acc_regt_buying_power := dec.of_Z 100000; acc_initial_margin := dec.zero;
     acc_maintenance_margin := dec.zero; acc_long_market_value := dec.zero; acc_multiplier := dec.of_Z 1;
     acc_pending_transfer_in := dec.zero; acc_pending_transfer_out := dec.zero |}.

Definition sample_session : SessionRiskState :=
  {| ss_session_reference_equity := dec.of_Z 100000; ss_session_start_equity := dec.of_Z 100000;
     ss_net_external_cash_flow := dec.zero; ss_internal_realized_pnl := dec.zero;
     ss_internal_unrealized_pnl := dec.zero; ss_current_total_open_risk := dec.zero;
     ss_reserved_entry_notional := dec.zero; ss_current_long_market_value := dec.zero;
     ss_open_daybreak_position_count := 0; ss_reserved_entry_position_count := 0;
     ss_completed_entry_count := 0; ss_consecutive_closed_losses := 0; ss_traded_tickers_today := [];
     ss_account_state_reconciled := true; ss_streams_healthy := true; ss_database_healthy := true;
     ss_kill_switch_active := false |}.

Definition sample_trade : TradeParameters :=
  {| tp_reference_price := Dec 1000 (-2); tp_atr_value_used := Dec 5 (-1);
     tp_premarket_low_used := Dec 96 (-1); tp_risk_stop_atr_multiple := Dec 10 (-1);
     tp_profit_target_atr_multiple := Dec 20 (-1) |}.

Definition sample_risk_setup (ticker : string) : ApprovedSetup :=
  let a := sample_setup ticker 94 10 2 in
  {| as_ticker := ticker; as_conviction_score := as_conviction_score a;
     as_score_breakdown := as_score_breakdown a; as_master_thesis := []; as_catalyst_source := [];
     as_source_type := ST_PRIMARY; as_source_timestamp := as_source_timestamp a;
     as_catalyst_age_hours := as_catalyst_age_hours a; as_corroborated := true;
     as_risk_flags := [RF_LOW_FLOAT]; as_trade_parameters := sample_trade |}.

Definition sample_hash : string := canonical_sha256 (PStr "configuration").

Definition sample_request (ticker : string) (rank : Z) : SizingRequest :=
  {| rq_request_id := "req-" +:+ ticker; rq_run_id := "run-1"; rq_trading_date := Date 2026 1 5;
     rq_final_rank := rank; rq_calculated_at := 1767623405000000;
     rq_execution_cutoff_timestamp := 1767623460000000; rq_setup := sample_risk_setup ticker;
     rq_policy := paper_v1; rq_account := sample_account;
     rq_quote := {| qt_quote_timestamp := 1767623404950000; qt_last_trade_timestamp := 1767623404900000;
                    qt_bid_price := Dec 1000 (-2); qt_ask_price := Dec 1001 (-2); qt_bid_size := 5;
                    qt_ask_size := 5; qt_last_price := Dec 1000 (-2);
                    qt_first_regular_session_nbbo_confirmed := true |};
     rq_liquidity := {| liq_premarket_volume := 2000000; liq_adv20_shares := 5000000;
                        liq_asset_tradable := true; liq_asset_fractionable := true;
                        liq_asset_marginable := true; liq_asset_status := "active" |};
     rq_session := sample_session; rq_planned_entry_limit := Dec 1002 (-2); rq_tick_size := Dec 1 (-2);
     rq_market_status_normal := true; rq_symbol_halted := false; rq_configuration_hash := sample_hash |}.

(** Dumps that forget everything: enough to run the engine. *)
Definition null_dump {A} : A → pyval := λ _, PNone.
(** Eastern Standard Time all year. *)
Definition est : Z → Z := λ _, -5 * HOUR.
