(* ===== verification/RiskSafety.v ===== *)
(** * RiskSafety: reading the figures of the sizing engine

    Inversion of [size_position] and the exact meaning of every figure it
    computes for a request of moderate size, which RiskContract.v assembles
    into the contract of the engine.  [moderate] bounds the
    amounts of a request by 10^11 dollars, far below the point (2 * 10^17) where
    28 digits could carry a quotient across an integer. *)
From Stdlib Require Import Ascii String QArith Qabs Lqa.
From S2P Require Import Prelude Numerics PyStr PyTime Contracts Canonical Replay RiskModels Amounts RiskEngine.

#[local] Open Scope Z_scope.

Definition LIMIT : Z := 10 ^ 11.

Definition date_ok (d : date) : bool :=
  between 1 9999 (d_year d) && between 1 12 (d_month d) && between 1 31 (d_day d).

Definition session_amounts (s : SessionRiskState) : list decimal :=
  [ss_session_reference_equity s; ss_session_start_equity s; ss_net_external_cash_flow s;
   ss_internal_realized_pnl s; ss_internal_unrealized_pnl s; ss_current_total_open_risk s;
   ss_reserved_entry_notional s; ss_current_long_market_value s].

Definition market_amounts (r : SizingRequest) : list decimal :=
  let a := rq_account r in let q := rq_quote r in let t := as_trade_parameters (rq_setup r) in
  [acc_equity a; acc_buying_power a; acc_non_marginable_buying_power a; qt_bid_price q; qt_ask_price q;
   tp_reference_price t; tp_atr_value_used t; tp_premarket_low_used t; rq_planned_entry_limit r;
   rq_tick_size r].

(** Amounts of at most 10^11 and a date Python can represent. *)
Definition moderate (r : SizingRequest) : bool :=
  forallb (below LIMIT) (session_amounts (rq_session r) ++ market_amounts r) && date_ok (rq_trading_date r)
  && (liq_premarket_volume (rq_liquidity r) <=? LIMIT) && (liq_adv20_shares (rq_liquidity r) <=? LIMIT).

(** ** Reading a request *)

(** A money field of moderate size, in quanta. *)
Definition sized (lo : Z) (a : decimal) : Prop := ∃ k, amt k a ∧ lo <= k <= LIMIT * 10 ^ 10.

Lemma sized_money a : money_ok a = true → mag LIMIT a → sized (- (LIMIT * 10 ^ 10)) a.
Proof.
  intros (k & Hk & _)%money_ok_amt Hm. exists k. rewrite (amt_mag _ k) in Hm by done. split; [done|lia].
Qed.
Lemma sized_nonneg a : nonneg_money a = true → mag LIMIT a → sized 0 a.
Proof.
  intros (k & Hk & H0)%nonneg_money_amt Hm. exists k. rewrite (amt_mag _ k) in Hm by done. split; [done|lia].
Qed.
Lemma sized_positive a : positive_money a = true → mag LIMIT a → sized 1 a.
Proof.
  intros (k & Hk & H0)%positive_money_amt Hm. exists k. rewrite (amt_mag _ k) in Hm by done. split; [done|lia].
Qed.

Lemma sized_mag lo a : - (LIMIT * 10 ^ 10) <= lo → sized lo a → mag LIMIT a.
Proof. intros Hlo (k & Hk & H). apply (amt_mag _ k); [done|]. lia. Qed.

(** What the theorems use of a valid request of moderate size. *)
Record Readable (r : SizingRequest) : Prop := {
  rb_equity : sized 1 (ss_session_reference_equity (rq_session r));
  rb_start : sized 1 (ss_session_start_equity (rq_session r));
  rb_flow : sized (- (LIMIT * 10 ^ 10)) (ss_net_external_cash_flow (rq_session r));
  rb_realized : sized (- (LIMIT * 10 ^ 10)) (ss_internal_realized_pnl (rq_session r));
  rb_unrealized : sized (- (LIMIT * 10 ^ 10)) (ss_internal_unrealized_pnl (rq_session r));
  rb_open_risk : sized 0 (ss_current_total_open_risk (rq_session r));
  rb_reserved : sized 0 (ss_reserved_entry_notional (rq_session r));
  rb_market_value : sized 0 (ss_current_long_market_value (rq_session r));
  rb_account_equity : sized (- (LIMIT * 10 ^ 10)) (acc_equity (rq_account r));
  rb_buying_power : sized (- (LIMIT * 10 ^ 10)) (acc_buying_power (rq_account r));
  rb_cash_power : sized (- (LIMIT * 10 ^ 10)) (acc_non_marginable_buying_power (rq_account r));
  rb_bid : sized (- (LIMIT * 10 ^ 10)) (qt_bid_price (rq_quote r));
  rb_ask : sized (- (LIMIT * 10 ^ 10)) (qt_ask_price (rq_quote r));
  rb_limit : sized 1 (rq_planned_entry_limit r);
  rb_tick : sized 1 (rq_tick_size r);
  rb_reference : mag LIMIT (tp_reference_price (as_trade_parameters (rq_setup r)));
  rb_atr : mag LIMIT (tp_atr_value_used (as_trade_parameters (rq_setup r)));
  rb_premarket_low : mag LIMIT (tp_premarket_low_used (as_trade_parameters (rq_setup r)));
  rb_trade : TradeParameters_ok (as_trade_parameters (rq_setup r)) = true;
  rb_policy : RiskPolicyConfig_ok (rq_policy r) = true;
  rb_ticker : is_canonical_ticker (as_ticker (rq_setup r)) = true;
  rb_rank : between 1 3 (rq_final_rank r) = true;
  rb_config : hash_pattern (rq_configuration_hash r) = true;
  rb_date : date_ok (rq_trading_date r) = true;
  rb_volumes : 0 < liq_premarket_volume (rq_liquidity r) ∧ 0 < liq_adv20_shares (rq_liquidity r);
}.

Lemma readable `{NewYork} r : SizingRequest_ok r = true → moderate r = true → Readable r.
Proof.
  unfold SizingRequest_ok, moderate. intros Hok Hm. bool_to_prop.
  unfold ApprovedSetup_ok, AccountSnapshot_ok, QuoteSnapshot_ok, LiquiditySnapshot_ok, SessionRiskState_ok in *.
  cbn [forallb app session_amounts market_amounts] in *. bool_to_prop.
  repeat match goal with H : below _ _ = true |- _ => apply below_mag in H end.
  split; try done; (apply sized_money || apply sized_nonneg || apply sized_positive); done.
Qed.

(** ** Inversion of the engine *)

Section inversion.
Context `{Dump SizingRequest} `{Dump RiskBody}.
Implicit Types r : SizingRequest.

Lemma finalize_body b d : finalize_decision b = Ok d → rd_body d = b ∧ RiskDecision_ok d = true.
Proof. unfold finalize_decision. destruct (RiskDecision_ok _) eqn:E; [|done]. by intros <-%Ok_inj. Qed.

Lemma rejected_body r reasons kill c d :
  rejected r reasons kill c = Ok d →
  rd_decision (rd_body d) = RD_REJECTED ∧ rd_rejection_reasons (rd_body d) = unique_reasons reasons ∧
  rd_kill_switch_required (rd_body d) = kill ∧ rd_calculations (rd_body d) = c ∧
  rd_final_quantity (rd_body d) = 0 ∧ rd_reservation (rd_body d) = None.
Proof. intros [-> _]%finalize_body. done. Qed.

(** The three ways [size_position] returns. *)
Inductive Sized r d f : Prop :=
  | sized_rejected :
      fg_reasons f ≠ [] →
      rejected r (fg_reasons f) (kill_switch_required r f) (calculations r f) = Ok d → Sized r d f
  | sized_too_small caps :
      fg_reasons f = [] → quantity_caps r f = Ok caps → min_cap caps < minimum_quantity →
      rejected r [RR_FINAL_QUANTITY_BELOW_MINIMUM] false (calculations r f) = Ok d → Sized r d f
  | sized_approved caps binding risk notional :
      fg_reasons f = [] → quantity_caps r f = Ok caps → minimum_quantity <= min_cap caps →
      binding_cap caps (min_cap caps) = Some binding →
      quantize_money (sr_modeled (fg_share f) * dec.of_Z (min_cap caps))%dec = Ok risk →
      quantize_money (px_entry_limit (fg_prices f) * dec.of_Z (min_cap caps))%dec = Ok notional →
      rd_body d = approved_body r (calculations r f) caps binding (min_cap caps) risk notional
        (reservation_for r (min_cap caps) notional risk) →
      RiskDecision_ok d = true → Sized r d f.

Lemma size_position_cases r d : size_position r = Ok d → ∃ f, figures r = Ok f ∧ Sized r d f.
Proof.
  unfold size_position. intros Hd. apply bind_Ok in Hd as (f & Hf & Hd). exists f. split; [done|].
  destruct (fg_reasons f) as [|x l] eqn:Hr; simpl in Hd.
  2:{ rewrite <- Hr in Hd. apply sized_rejected; [by rewrite Hr | done]. }
  unfold approve in Hd. apply bind_Ok in Hd as (caps & Hc & Hd).
  destruct (Z.ltb_spec (min_cap caps) minimum_quantity); [by eapply sized_too_small|].
  destruct (binding_cap caps (min_cap caps)) as [b|] eqn:Hb; [|done].
  apply bind_Ok in Hd as (risk & Hrisk & Hd). apply bind_Ok in Hd as (notional & Hn & Hd).
  destruct (RiskReservation_ok _); [|done]. apply finalize_body in Hd as [Hd Hok].
  by eapply sized_approved.
Qed.

Lemma approved_inv r d :
  size_position r = Ok d → rd_decision (rd_body d) = RD_APPROVED →
  ∃ f caps binding risk notional,
    figures r = Ok f ∧ fg_reasons f = [] ∧ quantity_caps r f = Ok caps ∧
    1 <= min_cap caps ∧ binding_cap caps (min_cap caps) = Some binding ∧
    quantize_money (sr_modeled (fg_share f) * dec.of_Z (min_cap caps))%dec = Ok risk ∧
    quantize_money (px_entry_limit (fg_prices f) * dec.of_Z (min_cap caps))%dec = Ok notional ∧
    rd_body d = approved_body r (calculations r f) caps binding (min_cap caps) risk notional
      (reservation_for r (min_cap caps) notional risk).
Proof.
  intros Hd Ha. destruct (size_position_cases r d Hd) as (f & Hf & Hs).
  destruct Hs as [_ Hs|caps _ _ _ Hs|caps b risk notional]; [destruct (rejected_body _ _ _ _ _ Hs) as [E _]; by rewrite Ha in E..|].
  by exists f, caps, b, risk, notional.
Qed.
End inversion.

(** ** Quantities *)

Lemma min_cap_spec c : min_cap c ∈ cap_values c ∧ Forall (λ x, min_cap c <= x) (cap_values c).
Proof.
  assert (∀ l a, fold_left Z.min l a ∈ a :: l ∧ Forall (λ x, fold_left Z.min l a <= x) (a :: l)) as Hgo.
  { induction l as [|x l IH]; intros a; simpl.
    { split; [set_solver|]. by repeat constructor. }
    destruct (IH (Z.min a x)) as [H1 H2]. apply Forall_cons in H2 as [H2 H3]. split.
    - apply elem_of_cons in H1 as [H1|H1]; [|set_solver].
      rewrite !elem_of_cons.
      destruct (Z.min_spec a x) as [[_ E]|[_ E]]; [left | right; left]; congruence.
    - repeat constructor; [lia | lia | done]. }
  apply (Hgo (tail (cap_values c)) (cap_trade_risk c)).
Qed.

Lemma min_cap_le c : Forall (λ x, min_cap c <= x) (cap_values c).
Proof. apply min_cap_spec. Qed.

Lemma binding_map c : map snd (BINDING_ORDER c) = cap_values c.
Proof. done. Qed.

(** The binding cap is the first in the order whose value is the minimum. *)
Lemma binding_cap_spec c q b :
  binding_cap c q = Some b →
  ∃ before after, BINDING_ORDER c = before ++ (b, q) :: after ∧ Forall (λ x, x.2 ≠ q) before.
Proof.
  unfold binding_cap. generalize (BINDING_ORDER c). induction l as [|[x v] l IH]; [done|]. simpl.
  destruct (Z.eqb_spec v q) as [->|Hne].
  - intros [= <-]. by exists [], l.
  - intros (before & after & -> & Hf)%IH. exists ((x, v) :: before), after.
    split; [done|]. by constructor.
Qed.

Lemma binding_cap_total c : ∃ b, binding_cap c (min_cap c) = Some b.
Proof.
  destruct (min_cap_spec c) as [Hin _]. rewrite <- binding_map in Hin. unfold binding_cap.
  destruct (find (λ x, x.2 =? min_cap c) (BINDING_ORDER c)) eqn:E; [by eexists|].
  apply list_elem_of_fmap in Hin as (x & Hx & Hin). apply list_elem_of_In in Hin.
  eapply find_none in E; [|done]. cbv beta in E. rewrite <- Hx, Z.eqb_refl in E. done.
Qed.

(** ** Reasons *)

Lemma when_nil {A} c (x : A) : when c x = [] ↔ c = false.
Proof. by destruct c. Qed.

Lemma elem_of_when {A} c (x y : A) : y ∈ when c x ↔ c = true ∧ y = x.
Proof. destruct c; simpl; set_solver. Qed.

(** Split an empty concatenation of conditional reasons into its conditions. *)
Ltac no_reasons H :=
  repeat match type of H with
  | _ ++ _ = [] => let H' := fresh "Hc" in apply app_nil in H as [H' H]
  end;
  repeat match goal with
  | K : when _ _ = [] |- _ => apply when_nil in K
  | K : (_ || _)%bool = false |- _ => apply orb_false_iff in K as [? ?]
  end.

(** ** The figures of a readable request *)

Lemma figures_inv r f :
  figures r = Ok f →
  ∃ market,
    session_pnl r = Ok (fg_pnl f) ∧ usable_buying_power r = Ok (fg_ubp f) ∧
    planned_prices r = Ok (fg_prices f) ∧ spread_reasons r (fg_prices f) = Ok market ∧
    share_risk r (fg_prices f) = Ok (fg_share f) ∧ trade_budget r = Ok (fg_budget f) ∧
    capacities r (fg_pnl f) = Ok (fg_capacity f) ∧
    fg_reasons f =
      precondition_reasons r ++ pnl_reasons r (fg_pnl f) ++ count_reasons r
      ++ price_reasons r (fg_prices f) ++ market
      ++ when ((sr_structural (fg_share f) <=? dec.zero)%dec || (sr_modeled (fg_share f) <=? dec.zero)%dec)
           RR_INVALID_PRICE_GEOMETRY
      ++ capacity_reasons (fg_ubp f) (fg_capacity f).
Proof.
  unfold figures. intros Hf.
  do 7 (let x := fresh "x" in let H := fresh "H" in apply bind_Ok in Hf as (x & H & Hf)).
  apply Ok_inj in Hf as <-. cbn [fg_pnl fg_ubp fg_prices fg_share fg_budget fg_capacity fg_reasons].
  exists x2. split_and!; first [assumption | reflexivity].
Qed.

Section readable.
Variable r : SizingRequest.
Hypothesis Hr : Readable r.

Lemma sized_amount lo a : sized lo a → - (LIMIT * 10 ^ 10) <= lo → amount LIMIT a.
Proof. intros (k & Hk & ?) ?. exists k. split; [done|lia]. Qed.

Lemma readable_amounts :
  let s := rq_session r in let a := rq_account r in
  Forall (amount LIMIT)
    [ss_session_reference_equity s; ss_session_start_equity s; ss_net_external_cash_flow s;
     ss_internal_realized_pnl s; ss_internal_unrealized_pnl s; ss_current_total_open_risk s;
     ss_reserved_entry_notional s; ss_current_long_market_value s; acc_equity a; acc_buying_power a;
     acc_non_marginable_buying_power a; qt_bid_price (rq_quote r); qt_ask_price (rq_quote r)].
Proof.
  destruct Hr. cbv zeta.
  repeat (apply Forall_cons; split; [eapply sized_amount; [eassumption | unfold LIMIT; lia]|]). constructor.
Qed.

Lemma policy_mags :
  let p := rq_policy r in
  Forall (mag 1)
    [pol_risk_per_trade_pct p; pol_max_open_risk_pct p; pol_max_position_notional_pct p;
     pol_max_gross_long_exposure_pct p; pol_buying_power_reserve_pct p; pol_soft_daily_loss_pct p;
     pol_hard_daily_loss_pct p; pol_max_pct_adv20 p; pol_max_pct_premarket_volume p] ∧
  mag 2 (pol_slippage_buffer_atr_multiple p) ∧ mag 5 (pol_slippage_buffer_spread_multiple p).
Proof.
  pose proof (rb_policy r Hr) as Hp. unfold RiskPolicyConfig_ok in Hp. bool_to_prop. cbv zeta. split.
  - repeat (apply Forall_cons; split; [try (by apply ratio_mag)|]); [|constructor].
    apply (mag_within 0 1); [|lia..]. unfold within. apply andb_true_iff. split; [done|].
    apply dleb_spec. apply Qlt_le_weak. by apply dltb_spec.
  - split; [by apply (mag_within 0 2) | by apply (mag_within 0 5)].
Qed.

Definition BIG : Z := 10 ^ 15.

Ltac readable_facts :=
  pose proof readable_amounts as Hra; pose proof policy_mags as (Hpm & Hpm1 & Hpm2); cbv zeta in Hra, Hpm;
  repeat match goal with H : Forall _ (_ :: _) |- _ => apply Forall_cons in H as [? H] end;
  unfold LIMIT, BIG in *.

Lemma session_pnl_amounts n :
  session_pnl r = Ok n →
  amount BIG (pnl_broker n) ∧ amount BIG (pnl_internal n) ∧ amount (10 ^ 13) (pnl_risk n) ∧
  amount (10 ^ 13) (pnl_soft_limit n) ∧ amount (10 ^ 13) (pnl_hard_limit n).
Proof.
  unfold session_pnl. intros Hn. apply bind_Ok in Hn as (soft & Hs & Hn).
  apply bind_Ok in Hn as (hard & Hh & <-%Ok_inj). cbn. readable_facts.
  split_and!; [solve_amount | solve_amount | solve_amount | |].
  - eapply floor_to_cent_amount; [exact Hs | repeat mag_step | lia].
  - eapply floor_to_cent_amount; [exact Hh | repeat mag_step | lia].
Qed.


Lemma ubp_amount u : usable_buying_power r = Ok u → amount BIG u.
Proof.
  unfold usable_buying_power. intros Hu. readable_facts.
  eapply floor_to_cent_amount; [exact Hu | repeat mag_step | lia].
Qed.

Lemma multiplier_mag flags : mag 1 (risk_flag_multiplier flags).
Proof.
  assert (∀ f, mag 1 (RISK_FLAG_MULTIPLIERS f)) as Hm by (intros []; done).
  unfold risk_flag_multiplier. destruct flags as [|f l]; [done|]. simpl.
  specialize (Hm f) as Hf. revert Hf. generalize (RISK_FLAG_MULTIPLIERS f).
  induction l as [|g l IH]; intros m Hf; simpl; [done|]. apply IH.
  eapply mag_mono; [apply mag_min; [exact Hf | apply Hm] | lia].
Qed.

Lemma budget_amounts b :
  trade_budget r = Ok b → amount (10 ^ 13) (tb_base b) ∧ amount BIG (tb_adjusted b).
Proof.
  unfold trade_budget. intros Hb. apply bind_Ok in Hb as (base & Hbase & Hb).
  apply bind_Ok in Hb as (adj & Hadj & <-%Ok_inj). cbn. readable_facts.
  pose proof (multiplier_mag (as_risk_flags (rq_setup r))).
  assert (amount (10 ^ 13) base)
    by (eapply floor_to_cent_amount; [exact Hbase | repeat mag_step | lia]).
  split; [done|]. eapply floor_to_cent_amount; [exact Hadj | repeat mag_step | lia].
Qed.

Lemma capacity_amounts n c :
  session_pnl r = Ok n → capacities r n = Ok c →
  Forall (amount BIG) [cp_max_open_risk c; cp_open_risk c; cp_hard_loss c; cp_position_notional c; cp_gross c].
Proof.
  intros (_ & _ & ? & _ & ?)%session_pnl_amounts. unfold capacities. intros Hc.
  apply bind_Ok in Hc as (mo & Hmo & Hc). apply bind_Ok in Hc as (op & Hop & Hc).
  apply bind_Ok in Hc as (hl & Hhl & Hc). apply bind_Ok in Hc as (pn & Hpn & Hc).
  apply bind_Ok in Hc as (mg & Hmg & Hc). apply bind_Ok in Hc as (gr & Hgr & <-%Ok_inj).
  cbn [cp_max_open_risk cp_open_risk cp_hard_loss cp_position_notional cp_gross]. readable_facts.
  assert (amount (10 ^ 13) mo) by (eapply floor_to_cent_amount; [exact Hmo | repeat mag_step | lia]).
  assert (amount (10 ^ 13) mg) by (eapply floor_to_cent_amount; [exact Hmg | repeat mag_step | lia]).
  repeat apply Forall_cons_2; try apply Forall_nil_2.
  - eapply amount_mono; [eassumption | lia].
  - eapply floor_to_cent_amount; [exact Hop | repeat mag_step | lia].
  - eapply floor_to_cent_amount; [exact Hhl | repeat mag_step | lia].
  - eapply floor_to_cent_amount; [exact Hpn | repeat mag_step | lia].
  - eapply floor_to_cent_amount; [exact Hgr | repeat mag_step | lia].
Qed.

(** The prices: quantized reference, ATR and low; entry limit, stop and target
    on the tick grid. *)
Lemma literal_mul (m : decimal) z k a :
  (dval m == inject_Z z)%Q → amt k a → Z.abs (z * k) < 10 ^ 28 → amt (z * k) (m * a)%dec.
Proof. apply mul_integral. Qed.

Record PriceFacts (x : PlannedPrices) (ref atr low limit tick c : Z) : Prop := {
  pf_ref : amt ref (px_reference x);
  pf_atr : amt atr (px_atr x);
  pf_low : amt low (px_premarket_low x);
  pf_limit : amt limit (rq_planned_entry_limit r);
  pf_tick : amt tick (rq_tick_size r);
  pf_entry : amt (c * tick) (px_entry_limit x);
  pf_ceiling : (c - 1) * tick < limit <= c * tick;
  pf_stop : amt ((ref - atr) / tick * tick) (px_stop x);
  pf_target : amt ((ref + 2 * atr) / tick * tick) (px_target x);
  pf_bounds : 0 <= ref <= 10 ^ 22 + 1 ∧ 0 <= atr <= 10 ^ 22 + 1 ∧ 0 <= low <= 10 ^ 22 + 1 ∧
    0 < limit <= 10 ^ 22 ∧ 0 < tick <= 10 ^ 22;
}.

Lemma positive_dec_nonneg a : positive_dec a = true → (0 <= dval a)%Q.
Proof. intros H%positive_dec_coef. apply Qlt_le_weak. by apply coef_pos. Qed.

Lemma planned_prices_facts :
  ∃ x ref atr low limit tick c, planned_prices r = Ok x ∧ PriceFacts x ref atr low limit tick c.
Proof.
  pose proof (rb_trade r Hr) as Ht. unfold TradeParameters_ok in Ht. bool_to_prop.
  repeat match goal with K : (_ =? _)%dec = true |- _ => apply deqb_spec in K; rewrite dval_of_Z in K end.
  pose proof (rb_reference r Hr) as Hm1. pose proof (rb_atr r Hr) as Hm2.
  pose proof (rb_premarket_low r Hr) as Hm3. unfold LIMIT in *.
  destruct (quantize_money_ok _ _ Hm1 ltac:(lia)) as (ref & Href & Hb1 & Hn1).
  destruct (quantize_money_ok _ _ Hm2 ltac:(lia)) as (atr & Hatr & Hb2 & Hn2).
  destruct (quantize_money_ok _ _ Hm3 ltac:(lia)) as (low & Hlow & Hb3 & Hn3).
  specialize (Hn1 ltac:(apply positive_dec_nonneg; assumption)).
  specialize (Hn2 ltac:(apply positive_dec_nonneg; assumption)).
  specialize (Hn3 ltac:(apply positive_dec_nonneg; assumption)).
  destruct (rb_limit r Hr) as (limit & Hlimit & Hlb). destruct (rb_tick r Hr) as (tick & Htick & Htb).
  unfold LIMIT in *.
  destruct (round_up_amt limit tick _ _ Hlimit Htick) as (entry & c & Hup & Hentry & Hc); [lia..|].
  set (t := as_trade_parameters (rq_setup r)) in *.
  assert (amt (ref - atr) (Dec ref (-10) - tp_risk_stop_atr_multiple t * Dec atr (-10))%dec) as Hs.
  { apply amt_sub; [apply amt_Dec | | lia]. rewrite <- (Z.mul_1_l atr) at 1. apply mul_integral; [done | apply amt_Dec | lia]. }
  assert (amt (ref + 2 * atr) (Dec ref (-10) + tp_profit_target_atr_multiple t * Dec atr (-10))%dec) as Hg.
  { apply amt_add; [apply amt_Dec | | lia]. apply mul_integral; [done | apply amt_Dec | lia]. }
  destruct (round_down_amt _ _ _ _ Hs Htick) as (stop & Hstop & Hsa); [lia..|].
  destruct (round_down_amt _ _ _ _ Hg Htick) as (target & Htarget & Hta); [lia..|].
  eexists _, ref, atr, low, limit, tick, c. split.
  - unfold planned_prices. cbn zeta.
    do 6 (apply bind_Ok; eexists; split; [eassumption|]). reflexivity.
  - split; cbn; try done. lia.
Qed.

(** The per-share risk: structure plus the larger of two buffers. *)
Record ShareFacts (x : PlannedPrices) (sr : ShareRisk) (structural buffer : Z) : Prop := {
  sf_structural : amt structural (sr_structural sr);
  sf_buffer : amt buffer (sr_buffer sr);
  sf_modeled : amt (structural + buffer) (sr_modeled sr);
  sf_bounds : Z.abs structural <= 10 ^ 25 ∧ Z.abs buffer <= 10 ^ 25;
  sf_entry_stop : (dval (sr_structural sr) == dval (px_entry_limit x) - dval (px_stop x))%Q;
}.

Lemma share_risk_facts x ref atr low limit tick c :
  PriceFacts x ref atr low limit tick c →
  ∃ sr structural buffer, share_risk r x = Ok sr ∧ ShareFacts x sr structural buffer.
Proof.
  intros [Href Hatr Hlow Hlimit Htick Hentry Hc Hstop Htarget Hb]. readable_facts.
  set (stop := (ref - atr) / tick * tick) in *.
  assert (Z.abs stop <= 10 ^ 23) as Hsb.
  { unfold stop. pose proof (Z.mul_div_le (ref - atr) tick ltac:(lia)).
    pose proof (Z.mul_succ_div_gt (ref - atr) tick ltac:(lia)). lia. }
  assert (0 <= c * tick <= 10 ^ 23) as Hcb by lia.
  assert (amt (c * tick - stop) (px_entry_limit x - px_stop x)%dec) as Hst by (apply amt_sub; [done..|lia]).
  assert (mag (10 ^ 13) (px_atr x)) as Hatrm by (apply (amt_mag _ atr); [done|lia]).
  assert (mag (4 * 10 ^ 12) (spread (rq_quote r))) as Hspm by (unfold spread; solve_mag).
  assert (mag (10 ^ 14) (pol_slippage_buffer_atr_multiple (rq_policy r) * px_atr x)%dec) as Hm1 by solve_mag.
  assert (mag (10 ^ 14) (pol_slippage_buffer_spread_multiple (rq_policy r) * spread (rq_quote r))%dec) as Hm2 by solve_mag.
  destruct (quantize_money_ok _ _ Hm1 ltac:(lia)) as (b1 & Hq1 & Hb1 & _).
  destruct (quantize_money_ok _ _ Hm2 ltac:(lia)) as (b2 & Hq2 & Hb2 & _).
  pose proof (amt_max _ _ _ _ (amt_Dec b1) (amt_Dec b2)) as Hmax.
  pose proof (quantize_money_amt _ _ Hmax ltac:(lia)) as Hq3.
  pose proof (quantize_money_amt _ _ Hst ltac:(lia)) as Hq4.
  pose proof (amt_add _ _ _ _ (amt_Dec (c * tick - stop)) (amt_Dec (Z.max b1 b2)) ltac:(lia)) as Hsum.
  pose proof (quantize_money_amt _ _ Hsum ltac:(lia)) as Hq5.
  eexists _, (c * tick - stop), (Z.max b1 b2). split.
  - unfold share_risk. cbn zeta.
    do 5 (apply bind_Ok; eexists; split; [eassumption|]). reflexivity.
  - split; cbn [sr_structural sr_buffer sr_modeled]; [done | done | done | lia|].
    unfold amt in *. change (dval (Dec (c * tick - stop) (-10))) with (inject_Z (c * tick - stop) * quantum)%Q.
    rewrite Hentry, Hstop, inject_minus. ring.
Qed.

(** ** The stages always return *)

Lemma ratio_or_999_ok a b : ∃ q, ratio_or_999 a b = Ok q.
Proof.
  unfold ratio_or_999. destruct (positive_dec b) eqn:E; [|eauto].
  apply positive_dec_coef in E. apply dec_div_ok. lia.
Qed.

Lemma spread_reasons_ok x : ∃ l, spread_reasons r x = Ok l.
Proof.
  unfold spread_reasons. cbn zeta.
  destruct (dec_div_ok (qt_bid_price (rq_quote r) + qt_ask_price (rq_quote r))%dec (dec.of_Z 2)) as [mid Hmid]; [done|].
  unfold midpoint. rewrite Hmid. cbn [mbind result_bind].
  repeat match goal with
  | |- context [ratio_or_999 ?a ?b] =>
      destruct (ratio_or_999_ok a b) as [? ->]; cbn [mbind result_bind]
  end. eauto.
Qed.

Ltac floor_ok x :=
  let H := fresh "Hf" in let c := fresh "c" in
  lazymatch goal with |- context [floor_to_cent ?a] =>
    let B := fresh in
    assert (mag (10 ^ 24) a) as H by solve_mag;
    destruct (floor_to_cent_ok a _ H ltac:(lia)) as [c x]; rewrite x; cbn [mbind result_bind]
  end.

Lemma session_pnl_ok : ∃ n, session_pnl r = Ok n.
Proof.
  unfold session_pnl. cbn zeta. readable_facts. floor_ok Hs. floor_ok Hh. eauto.
Qed.

Lemma ubp_ok : ∃ u, usable_buying_power r = Ok u.
Proof.
  unfold usable_buying_power. cbn zeta. readable_facts. floor_ok Hs. eauto.
Qed.

Lemma budget_ok : ∃ b, trade_budget r = Ok b.
Proof.
  unfold trade_budget. cbn zeta. readable_facts. floor_ok Hs.
  pose proof (multiplier_mag (as_risk_flags (rq_setup r))).
  assert (amount (10 ^ 13) c) by (eapply floor_to_cent_amount; [exact Hs | repeat mag_step | lia]).
  floor_ok Hh. eauto.
Qed.

Lemma capacities_ok n : session_pnl r = Ok n → ∃ c, capacities r n = Ok c.
Proof.
  intros (_ & _ & ? & _ & ?)%session_pnl_amounts. unfold capacities. cbn zeta. readable_facts.
  floor_ok Hs. assert (amount (10 ^ 13) c) by (eapply floor_to_cent_amount; [exact Hs | repeat mag_step | lia]).
  floor_ok K2. floor_ok K3. floor_ok K4. floor_ok K5.
  assert (amount (10 ^ 13) c3) by (eapply floor_to_cent_amount; [exact K5 | repeat mag_step | lia]).
  floor_ok K6. eauto.
Qed.

Record FigureFacts (f : Figures) (ref atr low limit tick c structural buffer : Z) : Prop := {
  ff_prices : PriceFacts (fg_prices f) ref atr low limit tick c;
  ff_share : ShareFacts (fg_prices f) (fg_share f) structural buffer;
}.

Lemma figures_ok : ∃ f, figures r = Ok f.
Proof.
  destruct session_pnl_ok as [n Hn]. destruct ubp_ok as [u Hu]. destruct budget_ok as [b Hb].
  destruct (capacities_ok n Hn) as [cp Hcp].
  destruct planned_prices_facts as (x & ref & atr & low & limit & tick & c & Hx & Hpf).
  destruct (share_risk_facts x ref atr low limit tick c Hpf) as (sr & st & bu & Hsr & _).
  destruct (spread_reasons_ok x) as [l Hl].
  unfold figures. do 7 (eapply bind_returns; [eassumption|]). eexists. reflexivity.
Qed.

Lemma figure_facts f :
  figures r = Ok f → ∃ ref atr low limit tick c structural buffer, FigureFacts f ref atr low limit tick c structural buffer.
Proof.
  intros (market & _ & _ & Hx & _ & Hsr & _)%figures_inv.
  destruct planned_prices_facts as (x & ref & atr & low & limit & tick & c & Hx' & Hpf).
  rewrite Hx in Hx'. apply Ok_inj in Hx' as <-.
  destruct (share_risk_facts _ ref atr low limit tick c Hpf) as (sr & st & bu & Hsr' & Hsf).
  rewrite Hsr in Hsr'. apply Ok_inj in Hsr' as <-.
  exists ref, atr, low, limit, tick, c, st, bu. by split.
Qed.

(** ** Quantities and reservations of a request without reasons *)

Lemma positive_amt a : (a <=? dec.zero)%dec = false → ∀ k, amt k a → 0 < k.
Proof. intros H k Hk. rewrite (amt_leb k 0) in H by (done || apply amt_zero). by apply Z.leb_gt in H. Qed.

Lemma clean_figures f :
  figures r = Ok f → fg_reasons f = [] →
  precondition_reasons r = [] ∧ pnl_reasons r (fg_pnl f) = [] ∧ count_reasons r = [] ∧
  price_reasons r (fg_prices f) = [] ∧ spread_reasons r (fg_prices f) = Ok [] ∧
  ((sr_structural (fg_share f) <=? dec.zero)%dec = false ∧ (sr_modeled (fg_share f) <=? dec.zero)%dec = false) ∧
  ((fg_ubp f <=? dec.zero)%dec = false ∧ (cp_open_risk (fg_capacity f) <=? dec.zero)%dec = false ∧
   (cp_hard_loss (fg_capacity f) <=? dec.zero)%dec = false ∧ (cp_gross (fg_capacity f) <=? dec.zero)%dec = false).
Proof.
  intros (market & _ & _ & _ & Hsp & _ & _ & _ & Hreasons)%figures_inv Hnil.
  rewrite Hnil in Hreasons. symmetry in Hreasons. rewrite Hsp.
  unfold capacity_reasons in Hreasons. no_reasons Hreasons.
  subst market. split_and!; assumption || reflexivity.
Qed.

Lemma figure_amounts f :
  figures r = Ok f →
  Forall (amount BIG)
    [pnl_broker (fg_pnl f); pnl_internal (fg_pnl f); pnl_risk (fg_pnl f); pnl_hard_limit (fg_pnl f);
     fg_ubp f; tb_base (fg_budget f); tb_adjusted (fg_budget f); cp_max_open_risk (fg_capacity f);
     cp_open_risk (fg_capacity f); cp_hard_loss (fg_capacity f); cp_position_notional (fg_capacity f);
     cp_gross (fg_capacity f)].
Proof.
  intros (market & Hn & Hu & _ & _ & _ & Hb & Hc & _)%figures_inv.
  pose proof (capacity_amounts _ _ Hn Hc) as Hca. apply budget_amounts in Hb as [Hb1 Hb2].
  apply session_pnl_amounts in Hn as (Hn1 & Hn2 & Hn3 & _ & Hn5). apply ubp_amount in Hu.
  repeat (apply Forall_cons in Hca as [? Hca]).
  repeat apply Forall_cons_2; try apply Forall_nil_2;
    first [assumption | eapply amount_mono; [eassumption | unfold BIG; lia]].
Qed.

Lemma floor_quotient_amt A B a b :
  amt A a → amt B b → Z.abs A < 2 * 10 ^ 27 → 0 < B → floor_quotient a b = Ok (A / B).
Proof.
  intros Ha Hb HA HB. destruct (div_floor_amt a b A B) as (q & Hq & Hf); [done..|].
  unfold floor_quotient. rewrite Hq. cbn. by rewrite Hf.
Qed.

(** The six monetary caps are exact integer quotients. *)
Record CapFacts (f : Figures) (caps : QuantityCaps) (B E : Z) : Prop := {
  cf_modeled : amt B (sr_modeled (fg_share f));
  cf_entry : amt E (px_entry_limit (fg_prices f));
  cf_positive : 0 < B ∧ 0 < E;
  cf_trade : ∃ A, amt A (tb_adjusted (fg_budget f)) ∧ cap_trade_risk caps = A / B ∧ Z.abs A <= BIG * 10 ^ 10;
  cf_open : ∃ A, amt A (cp_open_risk (fg_capacity f)) ∧ cap_open_risk caps = A / B ∧ Z.abs A <= BIG * 10 ^ 10;
  cf_loss : ∃ A, amt A (cp_hard_loss (fg_capacity f)) ∧ cap_daily_loss caps = A / B ∧ Z.abs A <= BIG * 10 ^ 10;
  cf_power : ∃ A, amt A (fg_ubp f) ∧ cap_buying_power caps = A / E ∧ Z.abs A <= BIG * 10 ^ 10;
  cf_notional : ∃ A, amt A (cp_position_notional (fg_capacity f)) ∧ cap_position_notional caps = A / E ∧ Z.abs A <= BIG * 10 ^ 10;
  cf_gross : ∃ A, amt A (cp_gross (fg_capacity f)) ∧ cap_gross_exposure caps = A / E ∧ Z.abs A <= BIG * 10 ^ 10;
  cf_adv : cap_adv_liquidity caps =
    floor_to_int (dec.of_Z (liq_adv20_shares (rq_liquidity r)) * pol_max_pct_adv20 (rq_policy r))%dec;
  cf_premarket : cap_premarket_liquidity caps =
    floor_to_int (dec.of_Z (liq_premarket_volume (rq_liquidity r)) * pol_max_pct_premarket_volume (rq_policy r))%dec;
}.

Lemma positive_unit f :
  figures r = Ok f → fg_reasons f = [] →
  ∃ B E, amt B (sr_modeled (fg_share f)) ∧ amt E (px_entry_limit (fg_prices f)) ∧ 0 < B ∧ 0 < E.
Proof.
  intros Hf Hnil. destruct (clean_figures f Hf Hnil) as (_ & _ & _ & Hpr & _ & (_ & Hm) & _).
  destruct (figure_facts f Hf) as (ref & atr & low & limit & tick & c & st & bu & [Hp Hs]).
  exists (st + bu), (c * tick). destruct Hs as [_ _ Hmod _ _].
  destruct Hp as [_ _ _ _ _ Hentry Hc _ _ Hb].
  split; [done|]. split; [done|]. split; [by apply (positive_amt (sr_modeled (fg_share f)))|]. lia.
Qed.

Lemma quantity_caps_facts f caps :
  figures r = Ok f → fg_reasons f = [] → quantity_caps r f = Ok caps → ∃ B E, CapFacts f caps B E.
Proof.
  intros Hf Hnil Hc. destruct (positive_unit f Hf Hnil) as (B & E & HB & HE & HB0 & HE0).
  exists B, E. pose proof (figure_amounts f Hf) as Ha.
  repeat match goal with H : Forall _ (_ :: _) |- _ => apply Forall_cons in H as [? H] end.
  repeat match goal with H : amount _ _ |- _ => destruct H as (? & ? & ?) end.
  unfold quantity_caps in Hc. cbn zeta in Hc.
  repeat match type of Hc with
  | _ = Ok _ => let x := fresh "q" in let K := fresh "Hq" in apply bind_Ok in Hc as (x & K & Hc);
      erewrite floor_quotient_amt in K by (first [eassumption | unfold BIG in *; lia]); apply Ok_inj in K
  end.
  destruct (QuantityCaps_ok _); [|done]. apply Ok_inj in Hc as <-.
  split; cbn [cap_trade_risk cap_open_risk cap_daily_loss cap_buying_power cap_position_notional
    cap_gross_exposure cap_adv_liquidity cap_premarket_liquidity]; try reflexivity; try assumption; try by split.
  all: subst; eexists; split_and!; [eassumption | reflexivity | assumption].
Qed.
End readable.

(** ** Policies whose percentages have at most six decimals

    For them every budget of a moderate request is the floor, in cents, of an
    exact product; both shipped policies are of this kind. *)
Definition grain (a : decimal) : bool :=
  if -6 <=? expo a then true else coef a mod 10 ^ (-6 - expo a) =? 0.

Definition policy_grain (p : RiskPolicyConfig) : bool :=
  forallb grain [pol_risk_per_trade_pct p; pol_max_open_risk_pct p; pol_max_position_notional_pct p;
    pol_max_gross_long_exposure_pct p; pol_buying_power_reserve_pct p; pol_hard_daily_loss_pct p].

Example shipped_policies_grain : policy_grain paper_v1 = true ∧ policy_grain live_pilot_v1 = true.
Proof. split; reflexivity. Qed.

Lemma grain_spec a : grain a = true → ∃ j, (dval a == inject_Z j * bp10 (-6))%Q.
Proof.
  unfold grain. destruct (Z.leb_spec (-6) (expo a)) as [He|He].
  - intros _. exists (dec.align a (-6)). symmetry. by apply dval_align.
  - intros H. bool_to_prop. set (m := 10 ^ (-6 - expo a)) in *.
    assert (0 < m) by (apply Z.pow_pos_nonneg; lia). exists (coef a / m). unfold dval.
    assert (bp10 (-6) == inject_Z m * bp10 (expo a))%Q as ->.
    { unfold m. rewrite <- bp10_nonneg, <- bp10_add by lia. by replace (-6 - expo a + expo a) with (-6) by lia. }
    rewrite Qmult_assoc, <- inject_Z_mult.
    replace (coef a / m * m) with (coef a); [done|]. pose proof (Z.div_mod (coef a) m). lia.
Qed.

Lemma millionth : (bp10 (-6) * inject_Z (10 ^ 6) == 1)%Q.
Proof. vm_compute. done. Qed.

Lemma grain_factor p :
  grain p = true → (0 <= dval p)%Q → (dval p <= 1)%Q →
  ∃ j, (dval p == inject_Z j * bp10 (-6))%Q ∧ 0 <= j <= 10 ^ 6.
Proof.
  intros Hg H0 H1. apply grain_spec in Hg as [j Hj]. exists j. split; [done|].
  pose proof (bp10_pos (-6)). pose proof millionth as Hm. rewrite Hj in H0, H1.
  set (w := bp10 (-6)) in *. assert (-1 < j ∧ j < 10 ^ 6 + 1) as [? ?]; [|lia].
  split; rewrite Zlt_Qlt; apply Qnot_le_lt; intros Hle;
    pose proof (Qmult_le_compat_r _ _ w Hle ltac:(lra)) as Hc.
  - change (inject_Z (-1)) with (-(1))%Q in Hc. lra.
  - rewrite inject_Z_plus in Hc. change (inject_Z 1) with 1%Q in Hc. lra.
Qed.

(** The product has at most 16 decimals and is not rounded. *)
Lemma grain_product k a p :
  amt k a → Z.abs k <= 2 * 10 ^ 21 → grain p = true → (0 <= dval p)%Q → (dval p <= 1)%Q →
  (dval (a * p)%dec == dval a * dval p)%Q ∧
  ∃ m, (dval a * dval p == inject_Z m * bp10 (-16))%Q ∧ Z.abs m <= Z.abs k * 10 ^ 6.
Proof.
  unfold amt. intros Ha Hk Hg H0 H1. destruct (grain_factor p Hg H0 H1) as (j & Hj & Hjb).
  assert (dval a * dval p == inject_Z (k * j) * bp10 (-16))%Q as Hv.
  { rewrite Ha, Hj, inject_Z_mult. unfold quantum.
    assert (bp10 (-16) == bp10 (-10) * bp10 (-6))%Q as -> by (vm_compute; done). ring. }
  assert (Z.abs (k * j) <= Z.abs k * 10 ^ 6) as Hb.
  { rewrite Z.abs_mul. apply Z.mul_le_mono_nonneg_l; lia. }
  split; [|by exists (k * j)].
  apply mul_exact. exists (k * j), (-16). split; [done|]. unfold prec. lia.
Qed.

Lemma floor_to_cent_le a c : floor_to_cent a = Ok c → (dval c <= dval a)%Q.
Proof. by intros (k & _ & _ & H & _)%floor_to_cent_inv. Qed.

(** ** Equity shares *)

Lemma equity_share r pct c :
  Readable r → ratio_ok pct = true → grain pct = true →
  floor_to_cent (ss_session_reference_equity (rq_session r) * pct)%dec = Ok c →
  (dval c <= dval (ss_session_reference_equity (rq_session r)) * dval pct)%Q.
Proof.
  intros Hr Hp Hg Hc. destruct (rb_equity r Hr) as (k & Hk & Hb). unfold LIMIT in Hb.
  apply ratio_mag in Hp as (_ & H0 & H1). apply floor_to_cent_le in Hc.
  destruct (grain_product k _ pct Hk ltac:(lia) Hg ltac:(lra) ltac:(lra)) as [He _].
  by rewrite He in Hc.
Qed.

Lemma multiplier_range flags : (0 < dval (risk_flag_multiplier flags) /\ dval (risk_flag_multiplier flags) <= 1)%Q.
Proof.
  assert (∀ f, 0 < dval (RISK_FLAG_MULTIPLIERS f) /\ dval (RISK_FLAG_MULTIPLIERS f) <= 1)%Q as Hm
    by (intros []; split; vm_compute; done).
  unfold risk_flag_multiplier. destruct flags as [|f l]; [split; vm_compute; done|]. simpl.
  specialize (Hm f) as Hf. revert Hf. generalize (RISK_FLAG_MULTIPLIERS f).
  induction l as [|g l IH]; intros m Hf; simpl; [done|]. apply IH.
  destruct (dmin_spec m (RISK_FLAG_MULTIPLIERS g)) as [_ [-> | ->]]; [done | apply Hm].
Qed.

(** ** The contract of an approval *)

Lemma quotient_fits A B q : 0 < B → q <= A / B → q * B <= A.
Proof. intros HB Hq. pose proof (Z.mul_div_le A B HB). nia. Qed.

Lemma amt_le_of j k a b : amt j a → amt k b → j <= k → (dval a <= dval b)%Q.
Proof. intros Ha Hb H. by apply (amt_le j k a b). Qed.

(** Reserved risk and notional are exact products that fit the six caps. *)
Lemma reservation_fits r f caps risk notional :
  Readable r → figures r = Ok f → fg_reasons f = [] → quantity_caps r f = Ok caps → 1 <= min_cap caps →
  quantize_money (sr_modeled (fg_share f) * dec.of_Z (min_cap caps))%dec = Ok risk →
  quantize_money (px_entry_limit (fg_prices f) * dec.of_Z (min_cap caps))%dec = Ok notional →
  (∃ R, amt R risk ∧ 0 < R <= BIG * 10 ^ 10) ∧ (∃ N, amt N notional ∧ 0 < N <= BIG * 10 ^ 10) ∧
  Forall (λ c, dval risk <= dval c)%Q
    [tb_adjusted (fg_budget f); cp_open_risk (fg_capacity f); cp_hard_loss (fg_capacity f)] ∧
  Forall (λ c, dval notional <= dval c)%Q
    [fg_ubp f; cp_position_notional (fg_capacity f); cp_gross (fg_capacity f)] ∧
  (dval risk == inject_Z (min_cap caps) * dval (sr_modeled (fg_share f)))%Q ∧
  (dval notional == inject_Z (min_cap caps) * dval (px_entry_limit (fg_prices f)))%Q.
Proof.
  intros Hr Hf Hnil Hc Hq Hrisk Hnot.
  destruct (quantity_caps_facts r Hr f caps Hf Hnil Hc) as (B & E & HF).
  destruct HF as [HB HE [HB0 HE0] (A1 & H1 & C1 & M1) (A2 & H2 & C2 & M2) (A3 & H3 & C3 & M3)
    (A4 & H4 & C4 & M4) (A5 & H5 & C5 & M5) (A6 & H6 & C6 & M6) _ _].
  pose proof (min_cap_le caps) as Hmin. set (q := min_cap caps) in *. unfold cap_values in Hmin.
  do 6 (let K := fresh "L" in apply Forall_cons in Hmin as [K Hmin]).
  rewrite C1 in L. rewrite C2 in L0. rewrite C3 in L1. rewrite C4 in L2. rewrite C5 in L3. rewrite C6 in L4.
  apply quotient_fits in L, L0, L1, L2, L3, L4; [|done..].
  unfold BIG in *.
  assert (0 < B * q <= 10 ^ 15 * 10 ^ 10) as HBq by nia.
  assert (0 < E * q <= 10 ^ 15 * 10 ^ 10) as HEq by nia.
  pose proof (amt_mul_Z _ q _ HB ltac:(lia)) as HRa. pose proof (amt_mul_Z _ q _ HE ltac:(lia)) as HNa.
  rewrite (quantize_money_amt _ _ HRa ltac:(lia)) in Hrisk. apply Ok_inj in Hrisk as <-.
  rewrite (quantize_money_amt _ _ HNa ltac:(lia)) in Hnot. apply Ok_inj in Hnot as <-.
  split; [exists (B * q); split; [apply amt_Dec | lia]|].
  split; [exists (E * q); split; [apply amt_Dec | lia]|].
  split; [repeat apply Forall_cons_2; try apply Forall_nil_2; (eapply amt_le_of; [apply amt_Dec | eassumption | lia])|].
  split; [repeat apply Forall_cons_2; try apply Forall_nil_2; (eapply amt_le_of; [apply amt_Dec | eassumption | lia])|].
  unfold amt in HB, HE. change (dval (Dec ?c (-10))) with (inject_Z c * quantum)%Q.
  rewrite HB, HE, !inject_Z_mult. split; ring.
Qed.

Lemma grain_complement p : grain p = true → (0 <= dval p)%Q → (dval p <= 1)%Q →
  (dval (dec.of_Z 1 - p)%dec == 1 - dval p)%Q ∧
  ∃ j, (1 - dval p == inject_Z j * bp10 (-6))%Q ∧ 0 <= j <= 10 ^ 6.
Proof.
  intros Hg H0 H1. destruct (grain_factor p Hg H0 H1) as (j & Hj & Hjb).
  assert (1 - dval p == inject_Z (10 ^ 6 - j) * bp10 (-6))%Q as Hv.
  { rewrite Hj, inject_minus. pose proof millionth as Hm. set (w := bp10 (-6)) in *. set (M := inject_Z (10 ^ 6)) in *.
    setoid_replace ((M - inject_Z j) * w)%Q with (w * M - inject_Z j * w)%Q using relation Qeq by ring.
    by rewrite Hm. }
  split; [|exists (10 ^ 6 - j); split; [done|lia]].
  assert (dval (dec.of_Z 1) - dval p == 1 - dval p)%Q as Ho by (rewrite dval_of_Z; done).
  rewrite sub_exact; [done|]. rewrite Ho. exists (10 ^ 6 - j), (-6). split; [done|]. unfold prec. lia.
Qed.

Lemma quantum_split : (quantum == inject_Z (10 ^ 6) * bp10 (-16))%Q ∧ (bp10 (-16) == quantum * bp10 (-6))%Q.
Proof. split; vm_compute; done. Qed.

(** What is left of [a] after the fraction [p] and the amount [s]. *)
Lemma floor_share a p s u k j :
  amt k a → Z.abs k <= 10 ^ 21 → amt j s → Z.abs j <= 10 ^ 21 →
  grain p = true → (0 <= dval p)%Q → (dval p <= 1)%Q →
  floor_to_cent (a * (dec.of_Z 1 - p) - s)%dec = Ok u →
  (dval u + dval s <= dval a * (1 - dval p))%Q.
Proof.
  intros Ha Hk Hs Hj Hg H0 H1 Hu. apply floor_to_cent_le in Hu.
  destruct (grain_complement p Hg H0 H1) as (Hc & i & Hi & Hib). destruct quantum_split as [Hq1 Hq2].
  assert (dval a * (1 - dval p) == inject_Z (k * i) * bp10 (-16))%Q as Hv.
  { unfold amt in Ha. rewrite Ha, Hi, inject_Z_mult, Hq2. ring. }
  assert (Z.abs (k * i) <= 10 ^ 21 * 10 ^ 6) as Hki.
  { rewrite Z.abs_mul. apply Z.mul_le_mono_nonneg; lia. }
  assert (dval (a * (dec.of_Z 1 - p))%dec == dval a * (1 - dval p))%Q as Hprod.
  { rewrite <- Hc. apply mul_exact. rewrite Hc, Hv. exists (k * i), (-16). split; [reflexivity|]. unfold prec. lia. }
  assert (representable (dval (a * (dec.of_Z 1 - p))%dec - dval s)) as Hrep.
  { exists (k * i - j * 10 ^ 6), (-16). split; [|unfold prec; lia].
    unfold amt in Hs. rewrite Hprod, Hv, Hs, inject_minus, (inject_Z_mult j), Hq1. ring. }
  rewrite (sub_exact _ _ Hrep), Hprod in Hu. lra.
Qed.

Lemma usable_buying_power_le r u :
  Readable r → grain (pol_buying_power_reserve_pct (rq_policy r)) = true →
  usable_buying_power r = Ok u →
  (dval u + dval (ss_reserved_entry_notional (rq_session r)) <=
   dval (dec.min (acc_non_marginable_buying_power (rq_account r)) (acc_buying_power (rq_account r)))
   * (1 - dval (pol_buying_power_reserve_pct (rq_policy r))))%Q.
Proof.
  intros Hr Hg. pose proof (rb_policy r Hr) as Hp. unfold RiskPolicyConfig_ok in Hp. bool_to_prop.
  match goal with H : nonneg ?a = true, K : (?a <? dec.of_Z 1)%dec = true |- _ =>
    apply dleb_spec in H; apply dltb_spec in K; rewrite dval_of_Z in K; rename H into Hp0; rename K into Hp1 end.
  destruct (rb_buying_power r Hr) as (k1 & Hk1 & Hb1). destruct (rb_cash_power r Hr) as (k2 & Hk2 & Hb2).
  destruct (rb_reserved r Hr) as (k3 & Hk3 & Hb3). unfold LIMIT in *.
  pose proof (amt_min _ _ _ _ Hk2 Hk1) as Hm.
  assert (dval dec.zero == 0)%Q as Hz by (vm_compute; done). rewrite Hz in Hp0.
  change (inject_Z 1) with 1%Q in Hp1.
  apply (floor_share _ _ _ _ (Z.min k2 k1) k3); try assumption; try lia. lra.
Qed.

Lemma multiplier_grain flags : grain (risk_flag_multiplier flags) = true.
Proof.
  assert (∀ f, (-6 <=? expo (RISK_FLAG_MULTIPLIERS f)) = true) as Hx by (by intros []).
  unfold grain. assert ((-6 <=? expo (risk_flag_multiplier flags)) = true) as ->; [|done].
  unfold risk_flag_multiplier. destruct flags as [|f l]; [done|]. simpl.
  specialize (Hx f) as Hf. revert Hf. generalize (RISK_FLAG_MULTIPLIERS f).
  induction l as [|g l IH]; intros m Hf; simpl; [done|]. apply IH. unfold dec.min. by destruct (_ <? _)%dec.
Qed.

(** Two floors in a row: the fraction [p] of [a], then the factor [m]. *)
Lemma budget_share a p m base adj k :
  amt k a → 0 < k <= 10 ^ 21 → ratio_ok p = true → grain p = true →
  grain m = true → (0 < dval m)%Q → (dval m <= 1)%Q →
  floor_to_cent (a * p)%dec = Ok base → floor_to_cent (base * m)%dec = Ok adj →
  (dval adj <= dval a * dval p)%Q.
Proof.
  intros Ha Hk Hp Hg Hgm Hm0 Hm1 Hbase Hadj. apply ratio_mag in Hp as (_ & Hp0 & Hp1).
  destruct (grain_product _ _ _ Ha ltac:(lia) Hg ltac:(lra) ltac:(lra)) as [He _].
  assert (0 <= dval a)%Q as Ha0.
  { unfold amt in Ha. rewrite Ha. pose proof quantum_pos. pose proof (inject_Z_pos k ltac:(lia)). nra. }
  assert (0 <= dval a * dval p)%Q as Hap by (apply Qmult_le_0_compat; lra).
  destruct (floor_to_cent_inv _ _ Hbase) as (b & Hb & Hab & Hle & Hlow). rewrite He in Hle, Hlow.
  assert (-1 < b) as Hb0.
  { rewrite Zlt_Qlt. change (inject_Z (-1)) with (-(1))%Q. rewrite Hb in Hlow.
    assert (dval (Dec b (-2)) == inject_Z b * (1 # 100))%Q as Hd by done. rewrite Hd in Hlow. lra. }
  assert (b * 10 ^ 8 <= k) as Hbk.
  { apply (amt_le _ _ base a Hab Ha). nra. }
  destruct (grain_product _ _ _ Hab ltac:(lia) Hgm ltac:(lra) Hm1) as [He2 _].
  apply floor_to_cent_le in Hadj. rewrite He2 in Hadj.
  assert (0 <= dval base)%Q as Hbase0.
  { unfold amt in Hab. rewrite Hab. pose proof quantum_pos.
    assert (0 <= inject_Z (b * 10 ^ 8))%Q by (change 0%Q with (inject_Z 0); rewrite <- Zle_Qle; lia). nra. }
  nra.
Qed.

Lemma policy_ratios p :
  RiskPolicyConfig_ok p = true →
  ratio_ok (pol_risk_per_trade_pct p) = true ∧ ratio_ok (pol_max_open_risk_pct p) = true ∧
  ratio_ok (pol_max_position_notional_pct p) = true ∧ ratio_ok (pol_max_gross_long_exposure_pct p) = true ∧
  ratio_ok (pol_hard_daily_loss_pct p) = true.
Proof. unfold RiskPolicyConfig_ok. intros H. bool_to_prop. split_and!; assumption. Qed.

Lemma budget_le r b :
  Readable r → grain (pol_risk_per_trade_pct (rq_policy r)) = true → trade_budget r = Ok b →
  (dval (tb_adjusted b) <= dval (ss_session_reference_equity (rq_session r))
     * dval (pol_risk_per_trade_pct (rq_policy r)))%Q.
Proof.
  intros Hr Hg Hb. unfold trade_budget in Hb. apply bind_Ok in Hb as (base & Hbase & Hb).
  apply bind_Ok in Hb as (adj & Hadj & <-%Ok_inj). cbn [tb_adjusted].
  destruct (policy_ratios _ (rb_policy r Hr)) as (Hp & _). destruct (rb_equity r Hr) as (k & Hk & Hkb).
  destruct (multiplier_range (as_risk_flags (rq_setup r))) as [Hm0 Hm1]. unfold LIMIT in Hkb.
  apply (budget_share _ _ (risk_flag_multiplier (as_risk_flags (rq_setup r))) base adj k Hk); try assumption; [lia | apply multiplier_grain].
Qed.

Lemma amount_sub_value x y a b :
  amount x a → amount y b → x + y < 10 ^ 17 → (dval (a - b)%dec == dval a - dval b)%Q.
Proof.
  intros (j & Hj & ?) (k & Hk & ?) Hxy. pose proof (amt_sub j k a b Hj Hk ltac:(lia)) as Hs.
  unfold amt in *. rewrite Hs, Hj, Hk, inject_minus. ring.
Qed.

Lemma amount_add_value x y a b :
  amount x a → amount y b → x + y < 10 ^ 17 → (dval (a + b)%dec == dval a + dval b)%Q.
Proof.
  intros (j & Hj & ?) (k & Hk & ?) Hxy. pose proof (amt_add j k a b Hj Hk ltac:(lia)) as Hs.
  unfold amt in *. rewrite Hs, Hj, Hk, inject_Z_plus. ring.
Qed.

(** The loss the session has already taken. *)
Definition current_loss (n : SessionPnl) : decimal := dec.max dec.zero (dec.neg (pnl_risk n)).

Lemma capacities_le r n c :
  Readable r → policy_grain (rq_policy r) = true → session_pnl r = Ok n → capacities r n = Ok c →
  let s := rq_session r in let p := rq_policy r in let E := dval (ss_session_reference_equity s) in
  (dval (cp_open_risk c) + dval (ss_current_total_open_risk s) <= E * dval (pol_max_open_risk_pct p))%Q ∧
  (dval (cp_hard_loss c) + dval (current_loss n) + dval (ss_current_total_open_risk s)
     <= E * dval (pol_hard_daily_loss_pct p))%Q ∧
  (dval (cp_position_notional c) <= E * dval (pol_max_position_notional_pct p))%Q ∧
  (dval (cp_gross c) + dval (ss_current_long_market_value s) + dval (ss_reserved_entry_notional s)
     <= E * dval (pol_max_gross_long_exposure_pct p))%Q.
Proof.
  intros Hr Hg Hn Hc. cbv zeta. destruct (policy_ratios _ (rb_policy r Hr)) as (Hp1 & Hp2 & Hp3 & Hp4 & Hp5).
  unfold policy_grain in Hg. cbn [forallb] in Hg. bool_to_prop.
  destruct (session_pnl_amounts r Hr n Hn) as (_ & _ & Hrisk & _ & Hhard).
  assert (dval (pnl_hard_limit n) <= dval (ss_session_reference_equity (rq_session r))
    * dval (pol_hard_daily_loss_pct (rq_policy r)))%Q as Hh.
  { unfold session_pnl in Hn. apply bind_Ok in Hn as (so & _ & Hn). apply bind_Ok in Hn as (ha & Hha & <-%Ok_inj).
    by apply (equity_share r). }
  pose proof (readable_amounts r Hr) as Ha. cbv zeta in Ha.
  repeat (apply Forall_cons in Ha as [? Ha]). unfold LIMIT in *.
  assert (amount (10 ^ 13) (current_loss n)) as Hloss by (unfold current_loss; solve_amount).
  unfold capacities in Hc. cbn zeta in Hc. fold (current_loss n) in Hc.
  apply bind_Ok in Hc as (mo & Hmo & Hc). apply bind_Ok in Hc as (op & Hop & Hc).
  apply bind_Ok in Hc as (hl & Hhl & Hc). apply bind_Ok in Hc as (pn & Hpn & Hc).
  apply bind_Ok in Hc as (mg & Hmg & Hc). apply bind_Ok in Hc as (gr & Hgr & <-%Ok_inj).
  cbn [cp_open_risk cp_hard_loss cp_position_notional cp_gross].
  pose proof (policy_mags r Hr) as (Hpm & _). cbv zeta in Hpm. repeat (apply Forall_cons in Hpm as [? Hpm]).
  assert (amount (10 ^ 13) mo) as Amo by (eapply floor_to_cent_amount; [exact Hmo | repeat mag_step | lia]).
  assert (amount (10 ^ 13) mg) as Amg by (eapply floor_to_cent_amount; [exact Hmg | repeat mag_step | lia]).
  apply (equity_share r) in Hmo, Hpn, Hmg; try assumption.
  apply floor_to_cent_le in Hop, Hhl, Hgr.
  rewrite (amount_sub_value (10 ^ 13) (10 ^ 11)) in Hop by (assumption || lia).
  rewrite (amount_sub_value (2 * 10 ^ 13) (10 ^ 11)) in Hhl by (first [assumption | lia | solve_amount]).
  rewrite (amount_sub_value (10 ^ 13) (10 ^ 13)) in Hhl by (assumption || lia).
  rewrite (amount_sub_value (10 ^ 13) (10 ^ 12)) in Hgr by (first [assumption | lia | solve_amount]).
  rewrite (amount_add_value (10 ^ 11) (10 ^ 11)) in Hgr by (assumption || lia).
  split_and!; lra.
Qed.
