(* ===== verification/RiskContract.v ===== *)
(** * RiskContract: what the sizing engine promises

    An approved reservation fits every budget and capacity of the account, a
    rejection names every failed check, the engine returns a decision for every
    valid request of moderate size, and a batch never overcommits the
    session. *)
From Stdlib Require Import Ascii String QArith Qabs Lqa.
From S2P Require Import Prelude Numerics PyStr PyTime Contracts Canonical Replay RiskModels Amounts RiskEngine RiskSafety.

#[local] Open Scope Z_scope.

(** ** The engine always decides *)

Lemma money_of_amt k a : amt k a → Z.abs k < 10 ^ 30 → money_ok a = true.
Proof. intros Hk Hb. apply money_ok_amt. eauto. Qed.

Lemma calculations_valid r f : Readable r → figures r = Ok f → Calculations_ok (calculations r f) = true.
Proof.
  intros Hr Hf. pose proof (figure_amounts r Hr f Hf) as Ha.
  destruct (figure_facts r Hr f Hf) as (ref & atr & low & limit & tick & c & st & bu & [Hp Hs]).
  destruct Hp as [_ _ _ _ _ Hentry Hc Hstop Htarget Hb]. destruct Hs as [Hst Hbu Hmo Hsb _].
  assert (∀ v, 0 <= Z.abs v <= 4 * 10 ^ 22 → Z.abs (v / tick * tick) < 10 ^ 30) as Hdiv.
  { intros v Hv. pose proof (Z.mul_div_le v tick ltac:(lia)). pose proof (Z.mul_succ_div_gt v tick ltac:(lia)). lia. }
  destruct (rb_equity r Hr) as (k & Hk & Hkb). unfold LIMIT in Hkb.
  repeat (apply Forall_cons in Ha as [? Ha]).
  unfold Calculations_ok, calculations. cbn [forallb opt_ok cal_session_reference_equity cal_broker_session_pnl
    cal_internal_session_pnl cal_risk_session_pnl cal_usable_buying_power cal_base_trade_risk_budget
    cal_adjusted_trade_risk_budget cal_planned_entry_limit cal_stop_price cal_target_price
    cal_structural_risk_per_share cal_execution_risk_buffer cal_modeled_risk_per_share
    cal_maximum_total_open_risk cal_remaining_open_risk_capacity cal_remaining_hard_loss_capacity
    cal_maximum_position_notional cal_remaining_gross_exposure].
  rewrite !andb_true_iff. repeat split;
    first [ eapply amount_money; [eassumption | unfold BIG; lia]
          | eapply money_of_amt; [eassumption | first [apply Hdiv; lia | lia]] ].
Qed.

(** A number below [10^k] has at most [k] digits. *)
Lemma pretty_go_length k x s :
  (x < 10 ^ N.of_nat k)%N → (String.length (pretty_N_go x s) <= k + String.length s)%nat.
Proof.
  revert x s. induction k as [|k IH]; intros x s Hx.
  - assert (x = 0%N) as -> by (simpl in Hx; lia). by rewrite pretty_N_go_0.
  - destruct (decide (x = 0%N)) as [->|Hx0]; [rewrite pretty_N_go_0; lia|].
    rewrite pretty_N_go_step by lia. etrans; [apply IH|simpl; lia].
    apply N.Div0.div_lt_upper_bound. rewrite <- N.pow_succ_r'. by rewrite <- Nat2N.inj_succ.
Qed.

Lemma digits_length k z :
  (0 < k)%nat → 0 <= z < 10 ^ Z.of_nat k → (String.length (digits_string z) <= k)%nat.
Proof.
  intros Hk Hz. unfold digits_string, pretty, pretty_N. case_decide as H; [simpl; lia|].
  etrans; [apply (pretty_go_length k) | simpl; lia].
  apply N2Z.inj_lt. rewrite Z2N.id, N2Z.inj_pow, nat_N_Z by lia. simpl. lia.
Qed.

Lemma digits_small : forallb (λ n, (String.length (pad 2 (Z.of_nat n)) =? 2)%nat) (seq 0 100) = true.
Proof. vm_compute. reflexivity. Qed.

Lemma length_append a b : String.length (a +:+ b) = (String.length a + String.length b)%nat.
Proof. induction a as [|x a IH]; simpl; [done|]. by rewrite IH. Qed.

Lemma forallb_seq (P : nat → bool) n m : forallb P (seq 0 n) = true → (m < n)%nat → P m = true.
Proof. intros H Hm. rewrite forallb_forall in H. apply H, in_seq. lia. Qed.

Lemma length_date_compact d : date_ok d = true → (String.length (date_compact d) <= 8)%nat.
Proof.
  unfold date_ok, between. intros H. bool_to_prop. unfold date_compact. rewrite !length_append.
  pose proof (digits_length 4 (d_year d) ltac:(lia) ltac:(simpl; lia)) as Hy.
  pose proof (forallb_seq _ _ (Z.to_nat (d_month d)) digits_small ltac:(lia)) as Hm.
  pose proof (forallb_seq _ _ (Z.to_nat (d_day d)) digits_small ltac:(lia)) as Hd.
  cbv beta in *. rewrite Z2Nat.id in Hm, Hd by lia.
  apply Nat.eqb_eq in Hm, Hd. lia.
Qed.

Lemma ticker_tail_length n s : ticker_tail n s = true → (1 <= String.length s <= n + 1)%nat.
Proof.
  revert s. induction n as [|n IH]; intros [|c s] H; simpl in *; try done.
  - destruct s; [simpl; lia | done].
  - destruct s as [|c' s]; [simpl; lia|]. bool_to_prop. apply IH in H0. simpl in *. lia.
Qed.

Lemma ticker_length s : is_canonical_ticker s = true → (1 <= String.length s <= 15)%nat.
Proof.
  destruct s as [|c s]; [done|]. cbn [is_canonical_ticker]. destruct s as [|c' s]; [simpl; lia|].
  intros H. bool_to_prop. apply ticker_tail_length in H0. cbn [String.length] in *. lia.
Qed.

Lemma length_substring n m s : (String.length (String.substring n m s) <= m)%nat.
Proof.
  revert n m. induction s as [|c s IH]; intros [|n] [|m]; simpl; try lia; [pose proof (IH 0%nat m) | pose proof (IH n 0%nat) | pose proof (IH n (S m))]; lia.
Qed.

Lemma client_order_id_length r :
  date_ok (rq_trading_date r) = true → is_canonical_ticker (as_ticker (rq_setup r)) = true →
  between 1 48 (Z.of_nat (String.length (client_order_id r))) = true.
Proof.
  intros Hd Ht. unfold client_order_id. rewrite !length_append.
  pose proof (length_date_compact _ Hd). pose proof (ticker_length _ Ht).
  pose proof (length_substring 0 16 (canonical_sha256 (PStr (rq_run_id r)))). unfold string_take.
  cbn [String.length]. unfold between. apply andb_true_iff. split; apply Z.leb_le; lia.
Qed.

Lemma unique_reasons_nonempty l : nonempty l = true → nonempty (unique_reasons l) = true.
Proof. destruct l; [done|]. intros _. done. Qed.

Section total.
Context `{Dump SizingRequest} `{Dump RiskBody}.

Lemma finalize_ok b : RiskBody_ok b = true → ∃ d, finalize_decision b = Ok d.
Proof.
  intros Hb. unfold finalize_decision, RiskDecision_ok. cbn [rd_body rd_decision_hash].
  rewrite Hb, canonical_sha256_pattern, bool_decide_eq_true_2 by done. eauto.
Qed.

Lemma rejected_ok r reasons kill f :
  Readable r → figures r = Ok f → nonempty reasons = true →
  ∃ d, rejected r reasons kill (calculations r f) = Ok d.
Proof.
  intros Hr Hf Hn. apply finalize_ok. unfold RiskBody_ok, validate_terminal_shape.
  cbn [rd_ticker rd_final_rank rd_calculations rd_quantity_caps rd_final_quantity rd_reserved_modeled_risk
    rd_reserved_notional rd_reservation rd_configuration_hash rd_input_hash rd_decision rd_decision_id
    rd_request_id rd_rejection_reasons rd_binding_cap opt_ok is_some].
  rewrite (rb_ticker r Hr), (rb_rank r Hr), (rb_config r Hr), canonical_sha256_pattern,
    (calculations_valid r f Hr Hf), (unique_reasons_nonempty _ Hn), bool_decide_eq_true_2 by done.
  done.
Qed.

Lemma floor_to_cent_nonneg a c : floor_to_cent a = Ok c → (0 <= dval a)%Q → (0 <= dval c)%Q.
Proof.
  intros (k & -> & _ & _ & Hlt)%floor_to_cent_inv Ha.
  assert (dval (Dec k (-2)) == inject_Z k * (1 # 100))%Q as Hd by done. rewrite Hd in *.
  assert (-1 < k) as Hk by (rewrite Zlt_Qlt; change (inject_Z (-1)) with (-(1))%Q; lra).
  assert (0 <= inject_Z k)%Q by (change 0%Q with (inject_Z 0); rewrite <- Zle_Qle; lia). lra.
Qed.

Lemma floor_to_int_nonneg a : (0 <= dval a)%Q → 0 <= floor_to_int a.
Proof.
  intros Ha. destruct (dfloor_spec a) as [_ H1]. fold (floor_to_int a) in H1.
  assert (0 < floor_to_int a + 1) as ?; [|lia].
  rewrite Zlt_Qlt. change (inject_Z 0) with 0%Q. change (dfloor a) with (floor_to_int a) in H1. lra.
Qed.

Lemma caps_nonneg r f :
  Readable r → figures r = Ok f → fg_reasons f = [] →
  (0 <= dval (tb_adjusted (fg_budget f)))%Q ∧ (0 <= dval (cp_position_notional (fg_capacity f)))%Q.
Proof.
  intros Hr Hf Hnil. destruct (figures_inv r f Hf) as (market & Hn & _ & _ & _ & _ & Hb & Hcp & _).
  destruct (policy_ratios _ (rb_policy r Hr)) as (Hp1 & _ & Hp3 & _).
  apply ratio_mag in Hp1 as (_ & Hp1 & _). apply ratio_mag in Hp3 as (_ & Hp3 & _).
  destruct (rb_equity r Hr) as (k & Hk & Hkb). pose proof (amt_pos k _ Hk ltac:(lia)) as He.
  unfold trade_budget in Hb. apply bind_Ok in Hb as (base & Hbase & Hb). apply bind_Ok in Hb as (adj & Hadj & Hb).
  apply Ok_inj in Hb. rewrite <- Hb. cbn [tb_adjusted].
  unfold capacities in Hcp. cbn zeta in Hcp.
  apply bind_Ok in Hcp as (mo & _ & Hc). apply bind_Ok in Hc as (op & _ & Hc).
  apply bind_Ok in Hc as (hl & _ & Hc). apply bind_Ok in Hc as (pn & Hpn & Hc).
  apply bind_Ok in Hc as (mg & _ & Hc). apply bind_Ok in Hc as (gr & _ & Hc). apply Ok_inj in Hc.
  rewrite <- Hc. cbn [cp_position_notional].
  destruct (multiplier_range (as_risk_flags (rq_setup r))) as [Hm0 _].
  apply floor_to_cent_nonneg in Hbase; [|apply mul_nonneg; lra].
  split; [apply (floor_to_cent_nonneg _ _ Hadj) | apply (floor_to_cent_nonneg _ _ Hpn)]; apply mul_nonneg; lra.
Qed.

Lemma floor_quotient_nonneg a b B :
  amount BIG a → (0 <= dval a)%Q → amt B b → 0 < B → ∃ q, floor_quotient a b = Ok q ∧ 0 <= q.
Proof.
  intros (A & HA & HAb) Ha Hb HB. unfold BIG in HAb.
  assert (0 <= A) as HA0.
  { apply (amt_le 0 A dec.zero a amt_zero HA). change dec.zero with (dec.of_Z 0). by rewrite dval_of_Z. }
  exists (A / B). split; [apply floor_quotient_amt; [done..|lia|done] | by apply Z.div_pos].
Qed.

Lemma positive_value a : (a <=? dec.zero)%dec = false → (0 <= dval a)%Q.
Proof.
  intros Ha%dleb_false. change dec.zero with (dec.of_Z 0) in Ha. rewrite dval_of_Z in Ha.
  change (inject_Z 0) with 0%Q in Ha. lra.
Qed.

Lemma share_cap_nonneg z pct : 0 < z → ratio_ok pct = true → 0 <= floor_to_int (dec.of_Z z * pct)%dec.
Proof.
  intros Hz Hp. apply ratio_mag in Hp as (_ & Hp & _). apply floor_to_int_nonneg, mul_nonneg; [|lra].
  rewrite dval_of_Z. apply inject_Z_pos in Hz. lra.
Qed.

Lemma quantity_caps_ok r f :
  Readable r → figures r = Ok f → fg_reasons f = [] →
  ∃ caps, quantity_caps r f = Ok caps ∧ QuantityCaps_ok caps = true.
Proof.
  intros Hr Hf Hnil. destruct (positive_unit r Hr f Hf Hnil) as (B & E & HB & HE & HB0 & HE0).
  destruct (clean_figures r f Hf Hnil) as (_ & _ & _ & _ & _ & _ & Hc1 & Hc2 & Hc3 & Hc4).
  destruct (caps_nonneg r f Hr Hf Hnil) as [Hn1 Hn2].
  apply positive_value in Hc1, Hc2, Hc3, Hc4.
  pose proof (figure_amounts r Hr f Hf) as Ha. repeat (apply Forall_cons in Ha as [? Ha]).
  destruct (floor_quotient_nonneg (tb_adjusted (fg_budget f)) _ B ltac:(assumption) Hn1 HB HB0) as (q1 & E1 & P1).
  destruct (floor_quotient_nonneg (cp_open_risk (fg_capacity f)) _ B ltac:(assumption) Hc2 HB HB0) as (q2 & E2 & P2).
  destruct (floor_quotient_nonneg (cp_hard_loss (fg_capacity f)) _ B ltac:(assumption) Hc3 HB HB0) as (q3 & E3 & P3).
  destruct (floor_quotient_nonneg (fg_ubp f) _ E ltac:(assumption) Hc1 HE HE0) as (q4 & E4 & P4).
  destruct (floor_quotient_nonneg (cp_position_notional (fg_capacity f)) _ E ltac:(assumption) Hn2 HE HE0) as (q5 & E5 & P5).
  destruct (floor_quotient_nonneg (cp_gross (fg_capacity f)) _ E ltac:(assumption) Hc4 HE HE0) as (q6 & E6 & P6).
  destruct (rb_volumes r Hr) as [Hv1 Hv2].
  pose proof (rb_policy r Hr) as Hp. unfold RiskPolicyConfig_ok in Hp. bool_to_prop.
  pose proof (share_cap_nonneg _ (pol_max_pct_adv20 (rq_policy r)) Hv2 ltac:(assumption)) as P7.
  pose proof (share_cap_nonneg _ (pol_max_pct_premarket_volume (rq_policy r)) Hv1 ltac:(assumption)) as P8.
  unfold quantity_caps. cbn zeta. do 6 (eapply bind_returns_with; [eassumption|]).
  set (caps := {| cap_trade_risk := _ |}).
  assert (QuantityCaps_ok caps = true) as Hcaps.
  { unfold QuantityCaps_ok. apply forallb_Forall. unfold cap_values, caps.
    repeat apply Forall_cons_2; try apply Forall_nil_2; by apply Z.leb_le. }
  rewrite Hcaps. by eexists.
Qed.

Lemma approved_body_ok r f caps b q risk notional rv :
  Readable r → figures r = Ok f → QuantityCaps_ok caps = true → 1 <= q →
  rv = reservation_for r q notional risk → RiskReservation_ok rv = true →
  RiskBody_ok (approved_body r (calculations r f) caps b q risk notional rv) = true.
Proof.
  intros Hr Hf Hcaps Hq -> Hrv. pose proof Hrv as Hrv'. unfold RiskReservation_ok in Hrv'.
  cbn [rv_reserved_notional rv_reserved_modeled_risk reservation_for] in Hrv'. unfold positive_money in Hrv'. bool_to_prop.
  unfold RiskBody_ok, validate_terminal_shape, approved_body, reservation_matches.
  cbn [rd_ticker rd_final_rank rd_calculations rd_quantity_caps rd_final_quantity rd_reserved_modeled_risk
    rd_reserved_notional rd_reservation rd_configuration_hash rd_input_hash rd_decision rd_decision_id
    rd_request_id rd_rejection_reasons rd_binding_cap opt_ok is_some rd_run_id rd_trading_date rd_calculated_at
    rv_request_id rv_run_id rv_trading_date rv_ticker rv_reserved_quantity rv_reserved_notional
    rv_reserved_modeled_risk rv_created_at reservation_for].
  rewrite (rb_ticker r Hr), (rb_rank r Hr), (rb_config r Hr), canonical_sha256_pattern,
    (calculations_valid r f Hr Hf), Hcaps, !bool_decide_eq_true_2, !py_eqb_refl, !Z.eqb_refl by done.
  rewrite Hrv. repeat match goal with H : money_ok _ = true |- _ => rewrite H end.
  rewrite !andb_true_iff. cbn. repeat split; first [done | apply Z.leb_le; lia].
Qed.

(** An approval passes the validators of its reservation and decision. *)
Lemma approve_ok r f :
  Readable r → figures r = Ok f → fg_reasons f = [] → ∃ d, approve r f = Ok d.
Proof.
  intros Hr Hf Hnil. destruct (quantity_caps_ok r f Hr Hf Hnil) as (caps & Hc & Hcok).
  unfold approve. eapply bind_returns; [exact Hc|]. cbn beta zeta.
  destruct (Z.ltb_spec (min_cap caps) minimum_quantity) as [|Hq]; [by apply rejected_ok|].
  unfold minimum_quantity in Hq. destruct (binding_cap_total caps) as [b Hb]. rewrite Hb.
  destruct (quantity_caps_facts r Hr f caps Hf Hnil Hc) as (B & E & HF).
  destruct HF as [HB HE [HB0 HE0] (A1 & H1 & C1 & M1) _ _ (A4 & H4 & C4 & M4) _ _ _ _].
  pose proof (min_cap_le caps) as Hmin. set (q := min_cap caps) in *. unfold cap_values in Hmin.
  apply Forall_cons in Hmin as [L1 Hmin]. do 2 apply Forall_cons in Hmin as [_ Hmin].
  apply Forall_cons in Hmin as [L4 _]. rewrite C1 in L1. rewrite C4 in L4.
  apply quotient_fits in L1, L4; [|done..]. unfold BIG in *.
  assert (0 < B * q <= 10 ^ 15 * 10 ^ 10) as HBq by nia.
  assert (0 < E * q <= 10 ^ 15 * 10 ^ 10) as HEq by nia.
  pose proof (quantize_money_amt _ _ (amt_mul_Z _ q _ HB ltac:(lia)) ltac:(lia)) as Hrisk.
  pose proof (quantize_money_amt _ _ (amt_mul_Z _ q _ HE ltac:(lia)) ltac:(lia)) as Hnot.
  eapply bind_returns; [exact Hrisk|]. eapply bind_returns; [exact Hnot|]. cbn beta.
  assert (∀ k, 0 < k <= 10 ^ 15 * 10 ^ 10 → positive_money (Dec k (-10)) = true) as Hpos.
  { intros k Hk. apply positive_money_amt. exists k. split; [apply amt_Dec | lia]. }
  set (rv := reservation_for _ _ _ _).
  assert (RiskReservation_ok rv = true) as Hrv.
  { unfold RiskReservation_ok, rv, reservation_for. cbn [rv_ticker rv_client_order_id rv_reserved_quantity
      rv_reserved_notional rv_reserved_modeled_risk rv_created_at rv_expires_at].
    rewrite (rb_ticker r Hr), (client_order_id_length r (rb_date r Hr) (rb_ticker r Hr)), !Hpos by done.
    rewrite !andb_true_l, andb_true_iff, !Z.ltb_lt. unfold MINUTE, SECOND. lia. }
  rewrite Hrv. apply finalize_ok. apply approved_body_ok; try done.
Qed.
End total.

(** ** Kill switch, reasons, quantities *)

Lemma no_kill_without_reasons r f :
  figures r = Ok f → fg_reasons f = [] → kill_switch_required r f = false.
Proof.
  intros Hf Hnil. destruct (clean_figures r f Hf Hnil) as (Hpre & Hpnl & _).
  unfold precondition_reasons in Hpre. unfold pnl_reasons in Hpnl. cbv zeta in *.
  no_reasons Hpre. no_reasons Hpnl. unfold kill_switch_required.
  apply orb_false_iff. split; [done|]. by destruct (hard_loss_reached (fg_pnl f)).
Qed.

Lemma unique_reasons_spec l : NoDup (unique_reasons l) ∧ ∀ x, x ∈ unique_reasons l ↔ x ∈ l.
Proof.
  split; [apply NoDup_unique_from|]. intros x. unfold unique_reasons. rewrite elem_of_unique_from. set_solver.
Qed.

Lemma market_codes r x market :
  spread_reasons r x = Ok market → ∀ c, c ∈ market → c = RR_SPREAD_TOO_WIDE ∨ c = RR_ENTRY_PRICE_DRIFT_TOO_LARGE.
Proof.
  unfold spread_reasons. intros Hm. do 5 (apply bind_Ok in Hm as (? & _ & Hm)). apply Ok_inj in Hm as <-.
  intros c. rewrite elem_of_app, !elem_of_when. tauto.
Qed.

Lemma not_elem_of_when {A} (b : bool) (x y : A) : b = false ∨ y ≠ x → y ∉ when b x.
Proof. rewrite elem_of_when. intros [-> | H] [? ?]; done. Qed.

Ltac in_reasons := rewrite !elem_of_app, !elem_of_when, ?list_elem_of_singleton; tauto.
Ltac not_in_reasons :=
  try lazymatch goal with |- ?x ∈ ?l → False => change (x ∉ l) end;
  rewrite !not_elem_of_app; repeat split;
  first [ assumption | apply not_elem_of_when; first [by left | by right]
        | by rewrite list_elem_of_singleton ].

(** Which code stands for which condition among all reasons of a request. *)
Lemma reason_meaning r f :
  figures r = Ok f →
  (RR_KILL_SWITCH_ACTIVE ∈ fg_reasons f ↔ ss_kill_switch_active (rq_session r) = true) ∧
  (RR_HARD_DAILY_LOSS_LIMIT ∈ fg_reasons f ↔ hard_loss_reached (fg_pnl f) = true) ∧
  RR_FINAL_QUANTITY_BELOW_MINIMUM ∉ fg_reasons f.
Proof.
  intros (market & _ & _ & _ & Hsp & _ & _ & _ & ->)%figures_inv.
  pose proof (market_codes _ _ _ Hsp) as Hmk. clear Hsp.
  assert ((RR_KILL_SWITCH_ACTIVE ∉ market) ∧ (RR_HARD_DAILY_LOSS_LIMIT ∉ market)
    ∧ (RR_FINAL_QUANTITY_BELOW_MINIMUM ∉ market)) as (M1 & M2 & M3).
  { split_and!; intros H; by destruct (Hmk _ H). }
  unfold precondition_reasons, pnl_reasons, count_reasons, price_reasons, capacity_reasons. cbv zeta.
  split_and!.
  - destruct (ss_kill_switch_active (rq_session r)); split; try done; intros H.
    + in_reasons.
    + exfalso. revert H. destruct (hard_loss_reached (fg_pnl f)); not_in_reasons.
  - destruct (hard_loss_reached (fg_pnl f)); split; try done; intros H.
    + in_reasons.
    + exfalso. revert H. not_in_reasons.
  - destruct (hard_loss_reached (fg_pnl f)); not_in_reasons.
Qed.

(** [k] is the greatest number of shares of unit cost [u] within [c]. *)
Definition greatest_within (k : Z) (u c : decimal) : Prop :=
  ((inject_Z k * dval u <= dval c) /\ (dval c < inject_Z (k + 1) * dval u))%Q.

Lemma quotient_greatest A B a b : amt A a → amt B b → 0 < B → greatest_within (A / B) b a.
Proof.
  intros Ha Hb HB. unfold greatest_within, amt in *. rewrite Ha, Hb, !Qmult_assoc, <- !inject_Z_mult.
  rewrite amt_scale, amt_scale_lt. pose proof (Z.mul_div_le A B HB). pose proof (Z.mul_succ_div_gt A B HB). lia.
Qed.

Lemma caps_greatest r f caps :
  Readable r → figures r = Ok f → fg_reasons f = [] → quantity_caps r f = Ok caps →
  let modeled := sr_modeled (fg_share f) in let entry := px_entry_limit (fg_prices f) in
  greatest_within (cap_trade_risk caps) modeled (tb_adjusted (fg_budget f)) ∧
  greatest_within (cap_open_risk caps) modeled (cp_open_risk (fg_capacity f)) ∧
  greatest_within (cap_daily_loss caps) modeled (cp_hard_loss (fg_capacity f)) ∧
  greatest_within (cap_buying_power caps) entry (fg_ubp f) ∧
  greatest_within (cap_position_notional caps) entry (cp_position_notional (fg_capacity f)) ∧
  greatest_within (cap_gross_exposure caps) entry (cp_gross (fg_capacity f)).
Proof.
  intros Hr Hf Hnil Hc. destruct (quantity_caps_facts r Hr f caps Hf Hnil Hc) as (B & E & HF).
  destruct HF as [HB HE [HB0 HE0] (A1 & H1 & C1 & _) (A2 & H2 & C2 & _) (A3 & H3 & C3 & _)
    (A4 & H4 & C4 & _) (A5 & H5 & C5 & _) (A6 & H6 & C6 & _) _ _].
  cbv zeta. rewrite C1, C2, C3, C4, C5, C6. split_and!; by apply quotient_greatest.
Qed.

(** ** Bounds of an approval *)

Lemma approval_bounds `{Dump SizingRequest} `{Dump RiskBody} r d :
  Readable r → policy_grain (rq_policy r) = true → grain (pol_buying_power_reserve_pct (rq_policy r)) = true →
  size_position r = Ok d → rd_decision (rd_body d) = RD_APPROVED →
  let s := rq_session r in let p := rq_policy r in let E := dval (ss_session_reference_equity s) in
  ∃ f risk notional R N,
    figures r = Ok f ∧
    rd_reserved_modeled_risk (rd_body d) = Some risk ∧ rd_reserved_notional (rd_body d) = Some notional ∧
    rd_calculations (rd_body d) = calculations r f ∧
    amt R risk ∧ amt N notional ∧ 0 < R ∧ 0 < N ∧
    (dval risk == inject_Z (rd_final_quantity (rd_body d)) * dval (sr_modeled (fg_share f)))%Q ∧
    (dval notional == inject_Z (rd_final_quantity (rd_body d)) * dval (px_entry_limit (fg_prices f)))%Q ∧
    (dval risk <= E * dval (pol_risk_per_trade_pct p))%Q ∧
    (dval (ss_current_total_open_risk s) + dval risk <= E * dval (pol_max_open_risk_pct p))%Q ∧
    (dval (current_loss (fg_pnl f)) + dval (ss_current_total_open_risk s) + dval risk
       <= E * dval (pol_hard_daily_loss_pct p))%Q ∧
    (dval notional <= E * dval (pol_max_position_notional_pct p))%Q ∧
    (dval (ss_current_long_market_value s) + dval (ss_reserved_entry_notional s) + dval notional
       <= E * dval (pol_max_gross_long_exposure_pct p))%Q ∧
    (dval (ss_reserved_entry_notional s) + dval notional
       <= dval (dec.min (acc_non_marginable_buying_power (rq_account r)) (acc_buying_power (rq_account r)))
          * (1 - dval (pol_buying_power_reserve_pct p)))%Q.
Proof.
  intros Hr Hg Hg2 Hd Ha. cbv zeta.
  destruct (approved_inv r d Hd Ha) as (f & caps & b & risk & notional & Hf & Hnil & Hc & Hq & _ & Hri & Hno & Hbody).
  destruct (figures_inv r f Hf) as (market & Hn & Hu & _ & _ & _ & Hb & Hcp & _).
  destruct (reservation_fits r f caps risk notional Hr Hf Hnil Hc Hq Hri Hno)
    as ((R & HR & HR0) & (N & HN & HN0) & Hfit & Hfit2 & Hv1 & Hv2).
  repeat (apply Forall_cons in Hfit as [? Hfit]). repeat (apply Forall_cons in Hfit2 as [? Hfit2]).
  destruct (capacities_le r _ _ Hr Hg Hn Hcp) as (L1 & L2 & L3 & L4). cbv zeta in *.
  pose proof (usable_buying_power_le r _ Hr Hg2 Hu) as L5.
  unfold policy_grain in Hg. cbn [forallb] in Hg. bool_to_prop.
  pose proof (budget_le r _ Hr ltac:(eassumption) Hb) as L6.
  exists f, risk, notional, R, N. rewrite Hbody. unfold approved_body.
  cbn [rd_reserved_modeled_risk rd_reserved_notional rd_calculations rd_final_quantity].
  do 6 (split; [done|]). split; [lia|]. split; [lia|]. do 2 (split; [done|]). repeat split; lra.
Qed.

(** ** Properties *)

Section contract.
Context `{NewYork} `{Dump SizingRequest} `{Dump RiskBody}.

(** C4: an approved position fits the account.  For every valid request of
    moderate size under a policy with at most six decimals per percentage, an
    approval reserves exactly quantity times the modeled risk per share and
    quantity times the entry limit, both positive, and, as exact rationals:
    the reserved risk is at most the per-trade share of the reference equity;
    open risk plus reserved risk is at most the open-risk share; loss so far
    plus open plus reserved risk is at most the hard daily loss; the notional
    is at most the position share; market value, reserved notional and this
    notional are at most the gross share; and all reserved notional is at most
    the buying power left after the reserve. *)
Theorem approved_fits_account r d :
  SizingRequest_ok r = true → moderate r = true →
  policy_grain (rq_policy r) = true → grain (pol_buying_power_reserve_pct (rq_policy r)) = true →
  size_position r = Ok d → rd_decision (rd_body d) = RD_APPROVED →
  let s := rq_session r in let p := rq_policy r in let E := dval (ss_session_reference_equity s) in
  ∃ n risk notional modeled entry,
    session_pnl r = Ok n ∧
    rd_reserved_modeled_risk (rd_body d) = Some risk ∧ rd_reserved_notional (rd_body d) = Some notional ∧
    cal_modeled_risk_per_share (rd_calculations (rd_body d)) = Some modeled ∧
    cal_planned_entry_limit (rd_calculations (rd_body d)) = Some entry ∧
    (dval risk == inject_Z (rd_final_quantity (rd_body d)) * dval modeled /\ 0 < dval risk)%Q ∧
    (dval notional == inject_Z (rd_final_quantity (rd_body d)) * dval entry /\ 0 < dval notional)%Q ∧
    (dval risk <= E * dval (pol_risk_per_trade_pct p))%Q ∧
    (dval (ss_current_total_open_risk s) + dval risk <= E * dval (pol_max_open_risk_pct p))%Q ∧
    (dval (current_loss n) + dval (ss_current_total_open_risk s) + dval risk
       <= E * dval (pol_hard_daily_loss_pct p))%Q ∧
    (dval notional <= E * dval (pol_max_position_notional_pct p))%Q ∧
    (dval (ss_current_long_market_value s) + dval (ss_reserved_entry_notional s) + dval notional
       <= E * dval (pol_max_gross_long_exposure_pct p))%Q ∧
    (dval (ss_reserved_entry_notional s) + dval notional
       <= dval (dec.min (acc_non_marginable_buying_power (rq_account r)) (acc_buying_power (rq_account r)))
          * (1 - dval (pol_buying_power_reserve_pct p)))%Q.
Proof.
  intros Hok Hm Hg Hg2 Hd Ha. cbv zeta.
  destruct (approval_bounds r d (readable r Hok Hm) Hg Hg2 Hd Ha)
    as (f & risk & notional & R & N & Hf & E1 & E2 & E3 & HR & HN & P1 & P2 & V1 & V2 & Hle).
  destruct (figures_inv r f Hf) as (market & Hn & _).
  exists (fg_pnl f), risk, notional, (sr_modeled (fg_share f)), (px_entry_limit (fg_prices f)).
  rewrite E3. do 5 (split; [done|]).
  pose proof (amt_pos R risk HR P1). pose proof (amt_pos N notional HN P2).
  split; [by split|]. split; [by split|]. exact Hle.
Qed.

(** Sizing always decides.  For every valid request of moderate size the
    engine returns, and what it returns passes the validators of RiskDecision:
    no quantization, division or validator can raise. *)
Theorem size_position_total r :
  SizingRequest_ok r = true → moderate r = true →
  ∃ d, size_position r = Ok d ∧ RiskDecision_ok d = true.
Proof.
  intros Hok Hm. pose proof (readable r Hok Hm) as Hr. destruct (figures_ok r Hr) as [f Hf].
  assert (∃ d, size_position r = Ok d) as [d Hd].
  { unfold size_position. eapply bind_returns; [exact Hf|]. cbn beta.
    destruct (fg_reasons f) eqn:Hnil; [by apply approve_ok | by apply rejected_ok]. }
  exists d. split; [done|].
  destruct (size_position_cases r d Hd) as (f' & _ & [_ Hs|caps _ _ _ Hs|caps b risk notional _ _ _ _ _ _ _ Hs]);
    [by apply finalize_body in Hs as [_ Hs].. | done].
Qed.

(** An approval implies every precondition.  Whatever the request, an
    approved decision means: the account is active and unblocked, nothing is
    halted, stale, unhealthy or switched off, the cutoff has not passed, the
    quote is two-sided and confirmed, the day's loss limits and counts are not
    reached, the ticker was not traded today, and the prices are ordered:
    0 < stop < entry < target, stop at or below the premarket low, which last
    and bid still respect, and the entry limit at or above the ask. *)
Theorem approved_preconditions r d :
  size_position r = Ok d → rd_decision (rd_body d) = RD_APPROVED →
  let a := rq_account r in let s := rq_session r in let q := rq_quote r in let p := rq_policy r in
  ∃ n x, session_pnl r = Ok n ∧ planned_prices r = Ok x ∧
    (acc_status a = "ACTIVE" ∧ acc_account_blocked a = false ∧ acc_trading_blocked a = false ∧
     acc_trade_suspended_by_user a = false) ∧
    (ss_account_state_reconciled s = true ∧ ss_streams_healthy s = true ∧ ss_database_healthy s = true ∧
     ss_kill_switch_active s = false ∧ rq_market_status_normal r = true ∧ rq_symbol_halted r = false) ∧
    rq_calculated_at r <= rq_execution_cutoff_timestamp r ∧
    (stale (rq_calculated_at r) (qt_quote_timestamp q) (pol_max_quote_age_ms p) = false ∧
     stale (rq_calculated_at r) (acc_snapshot_timestamp a) (pol_max_account_snapshot_age_ms p) = false) ∧
    (0 < dval (qt_bid_price q) /\ dval (qt_bid_price q) <= dval (qt_ask_price q))%Q ∧
    ((dval (dec.neg (pnl_hard_limit n)) < dval (pnl_risk n)) /\
     (dval (dec.neg (pnl_soft_limit n)) < dval (pnl_risk n)))%Q ∧
    (ss_consecutive_closed_losses s < pol_max_consecutive_losses p ∧
     ss_completed_entry_count s < pol_max_new_entries_per_day p ∧
     ss_open_daybreak_position_count s + ss_reserved_entry_position_count s < pol_max_concurrent_positions p) ∧
    (as_ticker (rq_setup r) ∉ ss_traded_tickers_today s) ∧
    (0 < dval (px_stop x) /\ dval (px_stop x) < dval (px_entry_limit x) /\
     dval (px_entry_limit x) < dval (px_target x) /\ dval (px_stop x) <= dval (px_premarket_low x) /\
     dval (px_premarket_low x) <= dval (dec.min (qt_last_price q) (qt_bid_price q)) /\
     dval (qt_ask_price q) <= dval (px_entry_limit x))%Q.
Proof.
  intros Hd Ha. cbv zeta.
  destruct (approved_inv r d Hd Ha) as (f & _ & _ & _ & _ & Hf & Hnil & _).
  destruct (figures_inv r f Hf) as (market & Hn & _ & Hx & _).
  destruct (clean_figures r f Hf Hnil) as (Hpre & Hpnl & Hcount & Hprice & _).
  exists (fg_pnl f), (fg_prices f). split; [done|]. split; [done|].
  unfold precondition_reasons in Hpre. unfold pnl_reasons in Hpnl. unfold count_reasons in Hcount.
  unfold price_reasons in Hprice. cbv zeta in *.
  no_reasons Hpre. no_reasons Hpnl. no_reasons Hcount. no_reasons Hprice.
  destruct (hard_loss_reached (fg_pnl f)) eqn:Hhard; [done|]. apply when_nil in Hpnl.
  unfold hard_loss_reached in Hhard.
  repeat match goal with
  | K : (_ <=? _)%dec = false |- _ => apply dleb_false in K
  | K : (_ <? _)%dec = false |- _ => apply dltb_false in K
  end.
  assert (dval dec.zero == 0)%Q as Hz by (vm_compute; done). rewrite Hz in *.
  bool_to_prop. repeat split; first [assumption | lia].
Qed.

(** C5: a decision explains itself.  The reasons of a decision are without
    repetition and there are none exactly when it approves; a rejection
    reserves nothing; the kill-switch request, the KILL_SWITCH_ACTIVE reason and
    the HARD_DAILY_LOSS_LIMIT reason are present exactly when the session's kill
    switch is on, respectively the session result is at or below the hard
    limit; and a quantity below the minimum is the only reason found late. *)
Theorem decision_explained r d :
  size_position r = Ok d →
  let b := rd_body d in
  ∃ n, session_pnl r = Ok n ∧
    NoDup (rd_rejection_reasons b) ∧
    (rd_rejection_reasons b = [] ↔ rd_decision b = RD_APPROVED) ∧
    (rd_decision b = RD_REJECTED → rd_final_quantity b = 0 ∧ rd_reservation b = None) ∧
    (RR_KILL_SWITCH_ACTIVE ∈ rd_rejection_reasons b ↔ ss_kill_switch_active (rq_session r) = true) ∧
    (RR_HARD_DAILY_LOSS_LIMIT ∈ rd_rejection_reasons b ↔ hard_loss_reached n = true) ∧
    rd_kill_switch_required b = ss_kill_switch_active (rq_session r) || hard_loss_reached n ∧
    (RR_FINAL_QUANTITY_BELOW_MINIMUM ∈ rd_rejection_reasons b →
       rd_rejection_reasons b = [RR_FINAL_QUANTITY_BELOW_MINIMUM]).
Proof.
  intros Hd. cbv zeta. destruct (size_position_cases r d Hd) as (f & Hf & Hs).
  destruct (figures_inv r f Hf) as (market & Hn & _). exists (fg_pnl f). split; [done|].
  destruct (reason_meaning r f Hf) as (Hk & Hh & Hsmall).
  pose proof (no_kill_without_reasons r f Hf) as Hno. unfold kill_switch_required in Hno.
  destruct Hs as [Hne Hs|caps Hnil _ _ Hs|caps b risk notional Hnil _ _ _ _ _ -> _].
  - apply rejected_body in Hs as (-> & -> & -> & _ & -> & ->).
    destruct (unique_reasons_spec (fg_reasons f)) as [Hnd Hel]. rewrite !Hel. split_and!; try done.
    split; [|done]. intros He. apply (f_equal nonempty) in He.
    rewrite unique_reasons_nonempty in He; [done | by destruct (fg_reasons f)].
  - apply rejected_body in Hs as (-> & -> & -> & _ & -> & ->).
    specialize (Hno Hnil). apply orb_false_iff in Hno as [N1 N2]. rewrite N1, N2.
    unfold unique_reasons. simpl. rewrite !list_elem_of_singleton.
    split_and!; try done. apply NoDup_singleton.
  - specialize (Hno Hnil). apply orb_false_iff in Hno as [N1 N2]. rewrite N1, N2. cbn.
    rewrite !elem_of_nil. split_and!; try done. apply NoDup_nil_2.
Qed.

(** C6: the approved quantity is the greatest one that fits.  It is the
    smallest of the eight caps, of which the six monetary ones are the exact
    integer quotients of a capacity by the risk or the price per share, so one
    more share would exceed the capacity of the cap named as binding; the
    binding cap is the first in the canonical order among those that attain
    the minimum. *)
Theorem quantity_optimal r d :
  SizingRequest_ok r = true → moderate r = true →
  size_position r = Ok d → rd_decision (rd_body d) = RD_APPROVED →
  ∃ f caps binding before after,
    figures r = Ok f ∧ rd_quantity_caps (rd_body d) = Some caps ∧ rd_binding_cap (rd_body d) = Some binding ∧
    (rd_final_quantity (rd_body d) ∈ cap_values caps ∧
     Forall (λ x, rd_final_quantity (rd_body d) <= x) (cap_values caps)) ∧
    BINDING_ORDER caps = before ++ (binding, rd_final_quantity (rd_body d)) :: after ∧
    Forall (λ x, x.2 ≠ rd_final_quantity (rd_body d)) before ∧
    (let modeled := sr_modeled (fg_share f) in let entry := px_entry_limit (fg_prices f) in
     greatest_within (cap_trade_risk caps) modeled (tb_adjusted (fg_budget f)) ∧
     greatest_within (cap_open_risk caps) modeled (cp_open_risk (fg_capacity f)) ∧
     greatest_within (cap_daily_loss caps) modeled (cp_hard_loss (fg_capacity f)) ∧
     greatest_within (cap_buying_power caps) entry (fg_ubp f) ∧
     greatest_within (cap_position_notional caps) entry (cp_position_notional (fg_capacity f)) ∧
     greatest_within (cap_gross_exposure caps) entry (cp_gross (fg_capacity f))).
Proof.
  intros Hok Hm Hd Ha. pose proof (readable r Hok Hm) as Hr.
  destruct (approved_inv r d Hd Ha) as (f & caps & b & risk & notional & Hf & Hnil & Hc & _ & Hb & _ & _ & Hbody).
  destruct (binding_cap_spec _ _ _ Hb) as (before & after & Hord & Hbef).
  exists f, caps, b, before, after. rewrite Hbody.
  cbn [rd_quantity_caps rd_binding_cap rd_final_quantity approved_body].
  do 3 (split; [done|]). split; [apply min_cap_spec|]. split; [done|]. split; [done|].
  by apply (caps_greatest r f caps).
Qed.
End contract.

(** The engine on the sample request, with Eastern Standard Time all year and
    dumps that forget everything. *)
Definition sample_size (r : SizingRequest) : result RiskDecision := @size_position null_dump null_dump r.

Lemma sample_sized : is_ok (sample_size (sample_request "ABC" 1)) = true.
Proof. vm_compute. reflexivity. Qed.

Definition sample_decision : RiskDecision := get_ok _ sample_sized.

Lemma sample_decision_eq : @size_position null_dump null_dump (sample_request "ABC" 1) = Ok sample_decision.
Proof. exact (get_ok_eq _ sample_sized). Qed.

(** A quote or account snapshot 1001 ms old passes the limit of 1000 ms: the
    age is a float number of seconds times 1000, truncated. *)
Example stale_accepts_1001_ms : stale 1001000 0 1000 = false.
Proof. vm_compute. reflexivity. Qed.

Lemma approved_fits_account_witness :
  ∃ risk, rd_reserved_modeled_risk (rd_body sample_decision) = Some risk ∧
    (dval risk <= dval (dec.of_Z 100000) * dval (Dec 25 (-4)))%Q.
Proof.
  destruct (@approved_fits_account est null_dump null_dump (sample_request "ABC" 1) sample_decision)
    as (n & risk & notional & m & e & _ & Hrisk & _ & _ & _ & _ & _ & Hle & _).
  1-4: vm_compute; reflexivity.
  - exact sample_decision_eq.
  - vm_compute. reflexivity.
  - exists risk. split; [exact Hrisk | exact Hle].
Defined.

Lemma size_position_total_witness :
  ∃ d, sample_size (sample_request "ABC" 1) = Ok d ∧ @RiskDecision_ok null_dump d = true.
Proof.
  apply (@size_position_total est null_dump null_dump); vm_compute; reflexivity.
Defined.

Lemma approved_preconditions_witness :
  acc_status (rq_account (sample_request "ABC" 1)) = "ACTIVE".
Proof.
  destruct (@approved_preconditions null_dump null_dump (sample_request "ABC" 1) sample_decision)
    as (n & x & _ & _ & H & _); [exact sample_decision_eq | vm_compute; reflexivity | apply H].
Defined.

Lemma decision_explained_witness :
  NoDup (rd_rejection_reasons (rd_body sample_decision)).
Proof.
  destruct (@decision_explained null_dump null_dump (sample_request "ABC" 1) sample_decision)
    as (n & _ & H & _); [exact sample_decision_eq | exact H].
Defined.

Lemma quantity_optimal_witness :
  ∃ caps, rd_quantity_caps (rd_body sample_decision) = Some caps ∧
    rd_final_quantity (rd_body sample_decision) ∈ cap_values caps.
Proof.
  destruct (@quantity_optimal est null_dump null_dump (sample_request "ABC" 1) sample_decision)
    as (f & caps & b & before & after & _ & Hcaps & _ & [Hin _] & _).
  1-2: vm_compute; reflexivity.
  - exact sample_decision_eq.
  - vm_compute. reflexivity.
  - exists caps. split; [exact Hcaps | exact Hin].
Defined.
