(* ===== verification/RiskBatch.v ===== *)
(** * RiskBatch: a batch never overcommits the session

    [size_approved_batch] threads the session through its requests; this file
    proves that the state it ends in accounts for exactly the reservations made
    and still satisfies the session's limits. *)
From Stdlib Require Import Ascii String QArith Qabs Lqa.
From S2P Require Import Prelude Numerics PyStr PyTime Contracts Canonical Replay RiskModels Amounts RiskEngine RiskSafety RiskContract.

#[local] Open Scope Z_scope.

(** What a decision reserves. *)
Definition opt_val (o : option decimal) : Q := match o with Some x => dval x | None => 0 end.
Definition reserved_risk (d : RiskDecision) : Q := opt_val (rd_reserved_modeled_risk (rd_body d)).
Definition reserved_value (d : RiskDecision) : Q := opt_val (rd_reserved_notional (rd_body d)).
Definition is_approved (d : RiskDecision) : bool := bool_decide (rd_decision (rd_body d) = RD_APPROVED).

Definition sumQ (l : list Q) : Q := foldr Qplus 0%Q l.
Definition count_approved (l : list RiskDecision) : Z := Z.of_nat (length (filter (λ d, is_approved d = true) l)).

(** A request that can be sized from the session [s]. *)
Definition sizable `{NewYork} (s : SessionRiskState) (r : SizingRequest) : Prop :=
  SizingRequest_ok (with_session r s) = true ∧ moderate (with_session r s) = true ∧
  policy_grain (rq_policy r) = true ∧ grain (pol_buying_power_reserve_pct (rq_policy r)) = true.

(** Growing the reservations of [s] within its equity keeps it valid. *)
Lemma reserve_state_ok s risk notional R N :
  SessionRiskState_ok s = true → forallb (below LIMIT) (session_amounts s) = true →
  amt R risk → amt N notional → 0 < R → 0 < N →
  (dval (ss_current_total_open_risk s) + dval risk <= dval (ss_session_reference_equity s))%Q →
  (dval (ss_current_long_market_value s) + dval (ss_reserved_entry_notional s) + dval notional
     <= dval (ss_session_reference_equity s))%Q →
  let s' := reserve_state s risk notional in
  SessionRiskState_ok s' = true ∧ forallb (below LIMIT) (session_amounts s') = true ∧
  (dval (ss_current_total_open_risk s') == dval (ss_current_total_open_risk s) + dval risk)%Q ∧
  (dval (ss_reserved_entry_notional s') == dval (ss_reserved_entry_notional s) + dval notional)%Q.
Proof.
  intros Hok Hm HR HN HR0 HN0 Hle1 Hle2. cbv zeta.
  unfold SessionRiskState_ok in *. cbn [forallb session_amounts] in *. bool_to_prop.
  repeat match goal with K : below _ _ = true |- _ => apply below_mag in K end.
  destruct (sized_positive (ss_session_reference_equity s)) as (e & He & Heb); [done..|].
  destruct (sized_nonneg (ss_current_total_open_risk s)) as (o & Ho & Hob); [done..|].
  destruct (sized_nonneg (ss_reserved_entry_notional s)) as (n & Hn & Hnb); [done..|].
  destruct (sized_nonneg (ss_current_long_market_value s)) as (m & Hmv & Hmb); [done..|].
  unfold LIMIT in *.
  assert (o + R <= e) as L1.
  { apply amt_scale. unfold amt in *. rewrite inject_Z_plus, Qmult_plus_distr_l, <- Ho, <- HR, <- He. lra. }
  assert (m + n + N <= e) as L2.
  { apply amt_scale. unfold amt in *. rewrite !inject_Z_plus, !Qmult_plus_distr_l, <- Hmv, <- Hn, <- HN, <- He. lra. }
  pose proof (amt_add _ _ _ _ Ho HR ltac:(lia)) as Ho'. pose proof (amt_add _ _ _ _ Hn HN ltac:(lia)) as Hn'.
  assert (nonneg_money (ss_current_total_open_risk s + risk)%dec = true) as K1
    by (apply nonneg_money_amt; exists (o + R); split; [done|lia]).
  assert (nonneg_money (ss_reserved_entry_notional s + notional)%dec = true) as K2
    by (apply nonneg_money_amt; exists (n + N); split; [done|lia]).
  assert (below (10 ^ 11) (ss_current_total_open_risk s + risk)%dec = true) as K3
    by (apply below_mag, (amt_mag _ (o + R)); [done|lia]).
  assert (below (10 ^ 11) (ss_reserved_entry_notional s + notional)%dec = true) as K4
    by (apply below_mag, (amt_mag _ (n + N)); [done|lia]).
  split_and!.
  - unfold reserve_state; cbn. rewrite K1, K2. rewrite !andb_true_iff, !Z.leb_le in *.
    repeat split; first [assumption | lia].
  - unfold reserve_state; cbn [ss_session_reference_equity ss_session_start_equity ss_net_external_cash_flow
      ss_internal_realized_pnl ss_internal_unrealized_pnl ss_current_total_open_risk ss_reserved_entry_notional
      ss_current_long_market_value]. rewrite K3, K4.
    repeat match goal with K : mag _ _ |- _ => apply below_mag in K; rewrite K; clear K end. done.
  - cbn. unfold amt in *. rewrite Ho', Ho, HR, inject_Z_plus. ring.
  - cbn. unfold amt in *. rewrite Hn', Hn, HN, inject_Z_plus. ring.
Qed.

(** ** One step of the batch *)

Lemma with_session_same r s : rq_session (with_session r s) = s.
Proof. done. Qed.

Section batch.
Context `{NewYork} `{Dump SizingRequest} `{Dump RiskBody}.

Lemma sizable_decides s r : sizable s r → ∃ d, size_position (with_session r s) = Ok d.
Proof.
  intros (Hok & Hm & _). pose proof (readable _ Hok Hm) as Hr. destruct (figures_ok _ Hr) as [f Hf].
  unfold size_position. eapply bind_returns; [exact Hf|]. cbn beta.
  destruct (fg_reasons f) eqn:Hnil; [by apply approve_ok | by apply rejected_ok].
Qed.

(** A request of the same batch keeps its own fields, so only the session
    matters for its validity. *)
Lemma sizable_session s s' r :
  SessionRiskState_ok s' = true → forallb (below LIMIT) (session_amounts s') = true →
  sizable s r → sizable s' r.
Proof.
  intros Hs' Hm' (Hok & Hm & Hg & Hg2). split_and!; [| |done..].
  - unfold SizingRequest_ok in *. cbn in *. rewrite Hs'. rewrite !andb_true_iff in *. tauto.
  - unfold moderate in *. rewrite with_session_same in *.
    change (market_amounts (with_session r s')) with (market_amounts (with_session r s)).
    rewrite forallb_app, Hm' in *. cbn [rq_trading_date rq_liquidity with_session] in *.
    rewrite !andb_true_iff in *. tauto.
Qed.

Definition session_valid (s : SessionRiskState) : Prop :=
  SessionRiskState_ok s = true ∧ forallb (below LIMIT) (session_amounts s) = true.

Lemma sizable_session_valid s r : sizable s r → session_valid s.
Proof.
  intros (Hok & Hm & _). unfold SizingRequest_ok, moderate in *. rewrite with_session_same in *.
  rewrite forallb_app in Hm. bool_to_prop. by split.
Qed.

(** The limits a reservation leaves intact. *)
Definition within_session_limits (p : RiskPolicyConfig) (s : SessionRiskState) : Prop :=
  let E := dval (ss_session_reference_equity s) in
  (dval (ss_current_total_open_risk s) <= E * dval (pol_max_open_risk_pct p))%Q ∧
  (dval (ss_current_long_market_value s) + dval (ss_reserved_entry_notional s)
     <= E * dval (pol_max_gross_long_exposure_pct p))%Q ∧
  ss_open_daybreak_position_count s + ss_reserved_entry_position_count s <= pol_max_concurrent_positions p.

(** The fields a batch does not touch. *)
Definition same_frame (s s' : SessionRiskState) : Prop :=
  ss_session_reference_equity s' = ss_session_reference_equity s ∧
  ss_current_long_market_value s' = ss_current_long_market_value s ∧
  ss_open_daybreak_position_count s' = ss_open_daybreak_position_count s.

Lemma share_le E p : (0 < E)%Q → (p < 1)%Q → (E * p <= E)%Q.
Proof. intros. nra. Qed.

Lemma step_rejected s (v : Prop) : v → Ok s = Ok s ∧ v ∧ same_frame s s ∧
  (dval (ss_current_total_open_risk s) == dval (ss_current_total_open_risk s) + 0)%Q ∧
  (dval (ss_reserved_entry_notional s) == dval (ss_reserved_entry_notional s) + 0)%Q ∧
  ss_reserved_entry_position_count s = ss_reserved_entry_position_count s + 0 ∧ s = s.
Proof. intros Hv. do 2 (split; [done|]). split; [done|]. split; [lra|]. split; [lra|]. split; [lia|done]. Qed.

Lemma step_spec s r d :
  sizable s r → size_position (with_session r s) = Ok d →
  ∃ s', next_state s d = Ok s' ∧ session_valid s' ∧ same_frame s s' ∧
    (dval (ss_current_total_open_risk s') == dval (ss_current_total_open_risk s) + reserved_risk d)%Q ∧
    (dval (ss_reserved_entry_notional s') == dval (ss_reserved_entry_notional s) + reserved_value d)%Q ∧
    ss_reserved_entry_position_count s' =
      ss_reserved_entry_position_count s + (if is_approved d then 1 else 0) ∧
    (if is_approved d then within_session_limits (rq_policy r) s' else s' = s).
Proof.
  intros Hsz Hd. pose proof (sizable_session_valid s r Hsz) as Hval. destruct Hsz as (Hok & Hm & Hg & Hg2).
  pose proof (readable _ Hok Hm) as Hr. unfold is_approved, next_state, reserved_risk, reserved_value.
  destruct (rd_decision (rd_body d)) eqn:Ha; cbn [bool_decide decide_rel].
  - destruct (approval_bounds _ d Hr Hg Hg2 Hd Ha)
      as (f & risk & notional & R & N & Hf & E1 & E2 & _ & HR & HN & P1 & P2 & _ & _ & _ & L2 & _ & _ & L5 & _).
    rewrite with_session_same in *. rewrite E1, E2. cbn [opt_val].
    destruct (policy_ratios _ (rb_policy _ Hr)) as (_ & Hp2 & _ & Hp4 & _).
    apply ratio_mag in Hp2 as (_ & _ & Hp2). apply ratio_mag in Hp4 as (_ & _ & Hp4).
    destruct (rb_equity _ Hr) as (k & Hk & Hkb). rewrite with_session_same in Hk.
    pose proof (amt_pos k _ Hk ltac:(lia)) as He. cbn [rq_policy with_session] in *.
    destruct (reserve_state_ok s risk notional R N) as (V1 & V2 & S1 & S2); try done;
      [apply Hval | apply Hval | eapply Qle_trans; [exact L2|]; by apply share_le
      | eapply Qle_trans; [exact L5|]; by apply share_le |].
    eexists. split; [done|]. split; [by split|]. split; [done|]. do 2 (split; [done|]). split; [done|].
    rewrite bool_decide_eq_true_2 by done. unfold within_session_limits. cbv zeta.
    change (ss_session_reference_equity (reserve_state s risk notional)) with (ss_session_reference_equity s).
    rewrite S1, S2. split; [lra|]. split; [cbn [ss_current_long_market_value reserve_state]; lra|].
    destruct (approved_inv _ d Hd Ha) as (f' & _ & _ & _ & _ & Hf' & Hnil & _).
    destruct (clean_figures _ f' Hf' Hnil) as (_ & _ & Hcount & _). unfold count_reasons in Hcount.
    no_reasons Hcount. rewrite with_session_same in *. bool_to_prop. cbn in *. lia.
  - exists s. destruct (size_position_cases _ d Hd) as (f & _ & [_ Hs|caps _ _ _ Hs|caps b risk notional _ _ _ _ _ _ Hs _]).
    + apply finalize_body in Hs as [-> _]. by apply step_rejected.
    + apply finalize_body in Hs as [-> _]. by apply step_rejected.
    + by rewrite Hs in Ha.
Qed.

(** Policies that compare equal impose the same session limits. *)
Lemma same_policy_limits p p' s :
  py_eqb p p' = true → within_session_limits p s → within_session_limits p' s.
Proof.
  intros Heq. change (py_eqb (policy_fields p) (policy_fields p') = true) in Heq.
  unfold policy_fields in Heq.
  repeat match type of Heq with
  | py_eqb (?a, ?b) (?c, ?d) = true =>
      change (py_eqb a c && py_eqb b d = true) in Heq; apply andb_true_iff in Heq as [Heq ?]
  end.
  repeat match goal with
  | K : py_eqb (pol_max_open_risk_pct _) _ = true |- _ => apply deqb_spec in K
  | K : py_eqb (pol_max_gross_long_exposure_pct _) _ = true |- _ => apply deqb_spec in K
  | K : py_eqb (pol_max_concurrent_positions _) _ = true |- _ =>
      change (bool_decide (pol_max_concurrent_positions p = pol_max_concurrent_positions p') = true) in K;
      apply bool_decide_eq_true in K
  end.
  unfold within_session_limits. cbv zeta. intros (L1 & L2 & L3).
  split; [|split; [|lia]].
  - match goal with K : (dval (pol_max_open_risk_pct p) == _)%Q |- _ => by rewrite <- K end.
  - match goal with K : (dval (pol_max_gross_long_exposure_pct p) == _)%Q |- _ => by rewrite <- K end.
Qed.

Lemma size_batch_from_spec p s l :
  Forall (sizable s) l → Forall (λ r, py_eqb (rq_policy r) p = true) l →
  ∃ res, size_batch_from s l = Ok res ∧
    let ds := bs_decisions res in let s' := bs_ending_session_state res in
    length ds = length l ∧ same_frame s s' ∧
    (dval (ss_current_total_open_risk s') ==
       dval (ss_current_total_open_risk s) + sumQ (map reserved_risk ds))%Q ∧
    (dval (ss_reserved_entry_notional s') ==
       dval (ss_reserved_entry_notional s) + sumQ (map reserved_value ds))%Q ∧
    ss_reserved_entry_position_count s' = ss_reserved_entry_position_count s + count_approved ds ∧
    (count_approved ds = 0 → s' = s) ∧ (0 < count_approved ds → within_session_limits p s').
Proof.
  revert s. induction l as [|r l IH]; intros s Hs Hp.
  { eexists. split; [reflexivity|]. cbn. split_and!; try done; try lra. change (count_approved []) with 0. lia. }
  apply Forall_cons in Hs as [Hr Hs]. apply Forall_cons in Hp as [Hpr Hp].
  destruct (sizable_decides s r Hr) as [d Hd].
  destruct (step_spec s r d Hr Hd) as (s1 & Hn & Hv1 & Hf1 & R1 & N1 & C1 & L1).
  assert (Forall (sizable s1) l) as Hs1.
  { rewrite Forall_forall in Hs |- *. intros x Hx. destruct Hv1. by apply (sizable_session s); [..|apply Hs]. }
  destruct (IH s1 Hs1 Hp) as (rest & Hrest & Hlen & Hf & HR & HN & HC & Hz & Hl).
  eexists. split.
  { cbn [size_batch_from]. rewrite Hd. cbn [mbind result_bind]. rewrite Hn. cbn [mbind result_bind]. by rewrite Hrest. }
  cbv zeta. cbn [bs_decisions bs_ending_session_state map sumQ foldr length].
  assert (count_approved (d :: bs_decisions rest) =
    (if is_approved d then 1 else 0) + count_approved (bs_decisions rest)) as Hcount.
  { unfold count_approved. rewrite filter_cons. case_decide as Hdec; destruct (is_approved d); try done; simpl; lia. }
  rewrite Hcount. destruct Hf1 as (F1 & F2 & F3), Hf as (G1 & G2 & G3).
  assert (0 <= count_approved (bs_decisions rest)) as Hnn by (unfold count_approved; lia).
  split; [by rewrite Hlen|]. split; [split_and!; congruence|].
  split; [unfold sumQ in *; rewrite HR, R1; ring|]. split; [unfold sumQ in *; rewrite HN, N1; ring|].
  split; [lia|]. destruct (is_approved d).
  - split; [lia|]. intros _. destruct (Z.eq_dec (count_approved (bs_decisions rest)) 0) as [E|E].
    + rewrite (Hz E). by apply (same_policy_limits (rq_policy r)).
    + apply Hl. lia.
  - split; [intros E; rewrite Hz by lia; done|]. intros E. apply Hl. lia.
Qed.

Lemma with_session_id r : with_session r (rq_session r) = r.
Proof. by destruct r. Qed.

End batch.

Definition sample_batch : list SizingRequest :=
  [sample_request "ABC" 1; sample_request "DEF" 2; sample_request "GHI" 3].

