(* ===== verification/RiskStore.v ===== *)
(** * RiskStore: the append-only risk repository and the risk service

    MemoryRiskRepository of daybreak_risk/persistence.py and RiskService of
    service.py.  A repository is its three dicts; every operation runs in the
    state-and-exception monad, so what was written before an exception stays
    written. *)
From Stdlib Require Import Ascii String.
From S2P Require Import Prelude Numerics PyStr PyTime Stores Contracts Canonical Replay RiskModels RiskEngine.

#[local] Open Scope Z_scope.

Record RiskRepository := {
  rr_requests : gmap string SizingRequest;
  rr_decisions : gmap string RiskDecision;
  rr_reservations : gmap string RiskReservation;
}.

Definition empty_risk_repository : RiskRepository :=
  {| rr_requests := ∅; rr_decisions := ∅; rr_reservations := ∅ |}.

Abbreviation repo := (eff RiskRepository).

Definition set_requests (m : gmap string SizingRequest) (s : RiskRepository) : RiskRepository :=
  {| rr_requests := m; rr_decisions := rr_decisions s; rr_reservations := rr_reservations s |}.
Definition set_decisions (m : gmap string RiskDecision) (s : RiskRepository) : RiskRepository :=
  {| rr_requests := rr_requests s; rr_decisions := m; rr_reservations := rr_reservations s |}.
Definition set_reservations (m : gmap string RiskReservation) (s : RiskRepository) : RiskRepository :=
  {| rr_requests := rr_requests s; rr_decisions := rr_decisions s; rr_reservations := m |}.

#[export] Instance requests_attribute : Attribute rr_requests set_requests.
Proof. by split; [|intros []]. Qed.
#[export] Instance decisions_attribute : Attribute rr_decisions set_decisions.
Proof. by split; [|intros []]. Qed.

Definition save_request (r : SizingRequest) : repo unit :=
  put_once rr_requests set_requests "risk sizing request identity collision" (rq_request_id r) r.

Definition save_decision (d : RiskDecision) : repo unit :=
  put_once rr_decisions set_decisions "risk decision identity collision" (rd_decision_id (rd_body d)) d.

(** Another reservation with the same client order id. *)
Definition duplicate_client_order (v : RiskReservation) (m : gmap string RiskReservation) : bool :=
  existsb (λ x, bool_decide (rv_client_order_id x = rv_client_order_id v)
                && negb (bool_decide (rv_reservation_id x = rv_reservation_id v)))
    (map_to_list m).*2.

Definition reserve (d : RiskDecision) : repo unit :=
  save_decision d ;;
  match rd_reservation (rd_body d) with
  | None => mret tt
  | Some v =>
      existing ← gets (λ s, rr_reservations s !! rv_reservation_id v);
      if collides existing v then raise (ERuntime "risk reservation identity collision") else
      dup ← gets (λ s, duplicate_client_order v (rr_reservations s));
      if dup : bool then raise (ERuntime "duplicate client_order_id reservation")
      else modify (λ s, set_reservations (<[rv_reservation_id v := v]> (rr_reservations s)) s)
  end.

(** The sort keys of the listings. *)
Definition decision_key_le (a b : RiskDecision) : bool :=
  not_gt (lex (String.compare (rd_ticker (rd_body a)) (rd_ticker (rd_body b)))
              (String.compare (rd_decision_id (rd_body a)) (rd_decision_id (rd_body b)))).
Definition reservation_key_le (a b : RiskReservation) : bool :=
  not_gt (lex (String.compare (rv_ticker a) (rv_ticker b))
              (String.compare (rv_reservation_id a) (rv_reservation_id b))).

Definition list_decisions (day : date) : repo (list RiskDecision) :=
  gets (λ s, sorted_by decision_key_le
    (filter (λ d, rd_trading_date (rd_body d) = day) (map_to_list (rr_decisions s)).*2)).
Definition list_reservations (day : date) : repo (list RiskReservation) :=
  gets (λ s, sorted_by reservation_key_le
    (filter (λ v, rv_trading_date v = day) (map_to_list (rr_reservations s)).*2)).

(** ** RiskService *)
Section service.
Context `{Dump SizingRequest} `{Dump RiskBody}.

Definition save_outcome (d : RiskDecision) : repo unit :=
  match rd_reservation (rd_body d) with Some _ => reserve d | None => save_decision d end.

Definition evaluate (r : SizingRequest) : repo RiskDecision :=
  save_request r ;;
  d ← lift (size_position r);
  save_outcome d ;;
  mret d.

(** The [zip(..., strict=True)] loop of [evaluate_batch]. *)
Fixpoint save_batch (l : list SizingRequest) (ds : list RiskDecision) : repo unit :=
  match l, ds with
  | [], [] => mret tt
  | r :: l', d :: ds' => save_request r ;; save_outcome d ;; save_batch l' ds'
  | _, _ => raise (EValue "zip() arguments have different lengths")
  end.

Definition evaluate_batch (l : list SizingRequest) : repo BatchSizingResult :=
  result ← lift (size_approved_batch l);
  save_batch l (bs_decisions result) ;;
  mret result.
(** verify_risk_replay (replay.py). *)
Definition verify_risk_replay `{Dump RiskDecision} (r : SizingRequest) (stored : RiskDecision)
    : result unit :=
  replayed ← size_position r;
  if bool_decide (canonical_json_text (dump replayed) = canonical_json_text (dump stored)) then Ok tt
  else Err (ERuntime "risk replay mismatch").
End service.

(** ** What the repository keeps

    [grows]: entries are never removed or changed (a reservation may be
    replaced by an equal one). *)
Definition grows (s s' : RiskRepository) : Prop :=
  rr_requests s ⊆ rr_requests s' ∧ rr_decisions s ⊆ rr_decisions s' ∧
  ∀ k v, rr_reservations s !! k = Some v → holds (rr_reservations s') k v.

(** Reservations are filed under their id, and no two share a client order. *)
Definition one_per_client_order (s : RiskRepository) : Prop :=
  (∀ k v, rr_reservations s !! k = Some v → rv_reservation_id v = k) ∧
  (∀ k k' v v', rr_reservations s !! k = Some v → rr_reservations s !! k' = Some v' →
     rv_client_order_id v = rv_client_order_id v' → k = k').

Lemma grows_refl s : grows s s.
Proof. split; [done|]. split; [done|]. intros k v Hv. exists v. split; [done | apply py_eqb_refl]. Qed.

#[export] Instance grows_preorder : PreOrder grows.
Proof.
  split; [exact grows_refl|].
  intros s1 s2 s3 (Hr & Hd & Hv) (Hr' & Hd' & Hv').
  split; [by etrans|]. split; [by etrans|]. intros k v Hk.
  destruct (Hv k v Hk) as (u & Hu & Eu). destruct (Hv' k u Hu) as (w & Hw & Ew).
  exists w. split; [done | by eapply py_eqb_trans].
Qed.

Lemma save_request_grows r : evolves grows (save_request r).
Proof.
  apply put_once_evolves; [exact grows_refl|]. intros s m Hm. split; [done|]. apply (grows_refl s).
Qed.

Lemma save_decision_grows d : evolves grows (save_decision d).
Proof.
  apply put_once_evolves; [exact grows_refl|]. intros s m Hm. split; [done|]. split; [done|].
  apply (grows_refl s).
Qed.

(** The reservation part of [reserve]. *)
Definition file_reservation (v : RiskReservation) : repo unit :=
  existing ← gets (λ s, rr_reservations s !! rv_reservation_id v);
  if collides existing v then raise (ERuntime "risk reservation identity collision") else
  dup ← gets (λ s, duplicate_client_order v (rr_reservations s));
  if dup : bool then raise (ERuntime "duplicate client_order_id reservation")
  else modify (λ s, set_reservations (<[rv_reservation_id v := v]> (rr_reservations s)) s).

(** It either raises and changes nothing, or files the reservation. *)
Lemma file_reservation_spec v s :
  (∃ e, file_reservation v s = (Err e, s)) ∨
  (collides (rr_reservations s !! rv_reservation_id v) v = false ∧
   duplicate_client_order v (rr_reservations s) = false ∧
   file_reservation v s =
     (Ok tt, set_reservations (<[rv_reservation_id v := v]> (rr_reservations s)) s)).
Proof.
  unfold file_reservation. rewrite eff_bind_unfold. simpl.
  destruct (collides _ v); [left; by eexists|]. rewrite eff_bind_unfold. simpl.
  destruct (duplicate_client_order _ _); [left; by eexists | by right].
Qed.

Lemma file_reservation_grows v : evolves grows (file_reservation v).
Proof.
  intros s. destruct (file_reservation_spec v s) as [[e ->]|(Hc & _ & ->)]; simpl; [done|].
  split; [done|]. split; [done|]. intros k u Hu. simpl.
  destruct (decide (k = rv_reservation_id v)) as [->|Hk].
  - rewrite Hu in Hc. simpl in Hc. apply negb_false_iff in Hc.
    exists v. split; [by rewrite lookup_insert_eq | by rewrite py_eqb_sym].
  - exists u. split; [by rewrite lookup_insert_ne | apply py_eqb_refl].
Qed.

Lemma no_duplicate v m k u :
  duplicate_client_order v m = false → m !! k = Some u →
  rv_client_order_id u = rv_client_order_id v → rv_reservation_id u = rv_reservation_id v.
Proof.
  unfold duplicate_client_order. intros Hd Hu Hc.
  destruct (decide (rv_reservation_id u = rv_reservation_id v)) as [|Hn]; [done|].
  enough (existsb (λ x, bool_decide (rv_client_order_id x = rv_client_order_id v)
    && negb (bool_decide (rv_reservation_id x = rv_reservation_id v))) (map_to_list m).*2 = true)
    by congruence.
  apply existsb_exists. exists u. split.
  - apply list_elem_of_In, list_elem_of_fmap. exists (k, u). split; [done|].
    by apply elem_of_map_to_list.
  - by rewrite (bool_decide_eq_true_2 _ Hc), (bool_decide_eq_false_2 _ Hn).
Qed.

Lemma file_reservation_inv v : preserves one_per_client_order (file_reservation v).
Proof.
  intros s [Hkey Huniq].
  destruct (file_reservation_spec v s) as [[e ->]|(_ & Hd & ->)]; simpl; [done|].
  assert (∀ k u, rr_reservations s !! k = Some u → rv_client_order_id u = rv_client_order_id v →
    k = rv_reservation_id v) as Hsame.
  { intros k u Hu Hc. rewrite <- (Hkey k u Hu). by eapply no_duplicate. }
  split; simpl.
  - intros k u. rewrite lookup_insert_Some. intros [[<- <-]|[_ Hu]]; [done | by apply Hkey].
  - intros k k' u u'. rewrite !lookup_insert_Some.
    intros [[<- <-]|[Hk Hu]] [[<- <-]|[Hk' Hu']] Hc; [done | | by eapply Hsame | by eapply Huniq].
    symmetry. by eapply Hsame.
Qed.

Lemma reserve_unfold d :
  reserve d = (save_decision d ;; match rd_reservation (rd_body d) with
                                  | None => mret tt | Some v => file_reservation v end).
Proof. done. Qed.

Lemma reserve_grows d : evolves grows (reserve d).
Proof.
  rewrite reserve_unfold. apply evolves_bind; [apply _ | apply save_decision_grows|]. intros _.
  destruct (rd_reservation (rd_body d)); [apply file_reservation_grows | by intros s].
Qed.

Lemma put_once_inv {A} `{PyEq A} get set msg k (v : A) :
  (∀ s m, rr_reservations (set m s) = rr_reservations s) →
  preserves one_per_client_order (put_once get set msg k v).
Proof.
  intros Hset s Hs. destruct (put_once_spec get set msg k v s) as [[_ ->]|[_ ->]]; simpl; [done|].
  unfold one_per_client_order. by rewrite Hset.
Qed.

Lemma reserve_inv d : preserves one_per_client_order (reserve d).
Proof.
  rewrite reserve_unfold. apply preserves_bind; [by apply put_once_inv|]. intros _.
  destruct (rd_reservation (rd_body d)); [apply file_reservation_inv | by intros s].
Qed.

#[export] Hint Resolve save_request_grows save_decision_grows reserve_grows reserve_inv : daybreak.

Section service_facts.
Context `{Dump SizingRequest} `{Dump RiskBody}.

Lemma save_outcome_grows d : evolves grows (save_outcome d).
Proof. unfold save_outcome. destruct (rd_reservation _); eauto with daybreak. Qed.

Lemma save_outcome_inv d : preserves one_per_client_order (save_outcome d).
Proof. unfold save_outcome. destruct (rd_reservation _); [apply reserve_inv | by apply put_once_inv]. Qed.

Lemma save_request_inv r : preserves one_per_client_order (save_request r).
Proof. by apply put_once_inv. Qed.

Lemma evaluate_grows r : evolves grows (evaluate r).
Proof.
  unfold evaluate.
  apply evolves_bind; [apply _ | apply save_request_grows | intros _].
  apply evolves_bind; [apply _ | by intros s | intros d].
  apply evolves_bind; [apply _ | apply save_outcome_grows | by intros _ s].
Qed.

Lemma evaluate_inv r : preserves one_per_client_order (evaluate r).
Proof.
  unfold evaluate.
  apply preserves_bind; [apply save_request_inv | intros _].
  apply preserves_bind; [apply preserves_lift | intros d].
  apply preserves_bind; [apply save_outcome_inv | intros _; apply preserves_ret].
Qed.

Lemma save_batch_grows l ds : evolves grows (save_batch l ds).
Proof.
  revert ds. induction l as [|r l IH]; intros [|d ds]; simpl; try by intros s.
  apply evolves_bind; [apply _ | apply save_request_grows | intros _].
  apply evolves_bind; [apply _ | apply save_outcome_grows | intros _; apply IH].
Qed.

Lemma save_batch_inv l ds : preserves one_per_client_order (save_batch l ds).
Proof.
  revert ds. induction l as [|r l IH]; intros [|d ds]; simpl; try (by intros s).
  apply preserves_bind; [apply save_request_inv | intros _].
  apply preserves_bind; [apply save_outcome_inv | intros _; apply IH].
Qed.

Lemma evaluate_batch_grows l : evolves grows (evaluate_batch l).
Proof.
  unfold evaluate_batch.
  apply evolves_bind; [apply _ | by intros s | intros b].
  apply evolves_bind; [apply _ | apply save_batch_grows | by intros _ s].
Qed.

Lemma evaluate_batch_inv l : preserves one_per_client_order (evaluate_batch l).
Proof.
  unfold evaluate_batch. apply preserves_bind; [apply preserves_lift | intros b].
  apply preserves_bind; [apply save_batch_inv | intros _; apply preserves_ret].
Qed.

(** A decision is recorded: it is held under its id, and so is its
    reservation. *)
Definition recorded (d : RiskDecision) (s : RiskRepository) : Prop :=
  holds (rr_decisions s) (rd_decision_id (rd_body d)) d ∧
  ∀ v, rd_reservation (rd_body d) = Some v → holds (rr_reservations s) (rv_reservation_id v) v.

Lemma recorded_grows d s s' : grows s s' → recorded d s → recorded d s'.
Proof.
  intros (_ & Hd & Hv) [Hr Hres]. split; [by eapply holds_subseteq|].
  intros v Ev. destruct (Hres v Ev) as (u & Hu & Eu). destruct (Hv _ _ Hu) as (w & Hw & Ew).
  exists w. split; [done | by eapply py_eqb_trans].
Qed.

Lemma save_outcome_recorded d s u s' : save_outcome d s = (Ok u, s') → recorded d s'.
Proof.
  unfold save_outcome. destruct (rd_reservation (rd_body d)) as [v|] eqn:Ev.
  - rewrite reserve_unfold, Ev. intros (? & s1 & Hd & Hf)%eff_bind_Ok.
    apply (put_once_returns _ _ _) in Hd as [_ Hd].
    destruct (file_reservation_spec v s1) as [[e E]|(_ & _ & E)]; rewrite E in Hf; [done|].
    injection Hf as _ <-. split; [done|]. intros v' [= <-]%(eq_trans (eq_sym Ev)). simpl.
    exists v. split; [by rewrite lookup_insert_eq | apply py_eqb_refl].
  - intros Hd. apply (put_once_returns _ _ _) in Hd as [_ Hd]. split; [done|]. congruence.
Qed.

Lemma save_batch_recorded l ds s u s' :
  save_batch l ds s = (Ok u, s') → ∀ d, d ∈ ds → recorded d s'.
Proof.
  revert ds s. induction l as [|r l IH]; intros [|d ds] s; simpl; try done; [set_solver|].
  intros (? & s1 & _ & (? & s2 & Ho & Hb)%eff_bind_Ok)%eff_bind_Ok d' [->|Hd]%elem_of_cons.
  - apply save_outcome_recorded in Ho. eapply recorded_grows; [|done].
    pose proof (save_batch_grows l ds s2) as Hg. by rewrite Hb in Hg.
  - by eapply IH.
Qed.

(** Filing a stored reservation again changes nothing. *)
Lemma file_reservation_again v s :
  one_per_client_order s → rr_reservations s !! rv_reservation_id v = Some v →
  file_reservation v s = (Ok tt, s).
Proof.
  intros [Hkey Huniq] Hv. unfold file_reservation. rewrite eff_bind_unfold. simpl. rewrite Hv. simpl.
  rewrite (py_eqb_refl v). simpl. rewrite eff_bind_unfold. simpl.
  destruct (duplicate_client_order v (rr_reservations s)) eqn:Hd.
  - unfold duplicate_client_order in Hd. apply existsb_exists in Hd as (x & Hx & Hb).
    apply list_elem_of_In, list_elem_of_fmap in Hx as ([k y] & -> & Hx). simpl in Hb.
    apply elem_of_map_to_list in Hx. bool_to_prop. rewrite (Hkey _ _ Hx) in *. exfalso.
    by eapply Huniq in Hx; [|exact Hv|done].
  - unfold modify. by rewrite insert_id by done; destruct s.
Qed.

Lemma save_outcome_again d s :
  one_per_client_order s → holds (rr_decisions s) (rd_decision_id (rd_body d)) d →
  (∀ v, rd_reservation (rd_body d) = Some v → rr_reservations s !! rv_reservation_id v = Some v) →
  save_outcome d s = (Ok tt, s).
Proof.
  intros Hs Hd Hv. unfold save_outcome.
  assert (save_decision d s = (Ok tt, s)) as Hsave by exact (put_once_again rr_decisions set_decisions _ _ _ _ Hd).
  destruct (rd_reservation (rd_body d)) as [v|] eqn:Ev; [|done].
  rewrite reserve_unfold, Ev, eff_bind_unfold, Hsave. apply file_reservation_again; auto.
Qed.

Lemma save_outcome_returns d s u s' :
  save_outcome d s = (Ok u, s') →
  holds (rr_decisions s') (rd_decision_id (rd_body d)) d ∧
  ∀ v, rd_reservation (rd_body d) = Some v → rr_reservations s' !! rv_reservation_id v = Some v.
Proof.
  intros Ho. split; [by eapply save_outcome_recorded in Ho as [? _]|]. intros v Ev.
  unfold save_outcome in Ho. rewrite Ev, reserve_unfold, Ev in Ho.
  apply eff_bind_Ok in Ho as (? & s1 & _ & Hf).
  destruct (file_reservation_spec v s1) as [[e E]|(_ & _ & E)]; rewrite E in Hf; [done|].
  injection Hf as _ <-. simpl. by rewrite lookup_insert_eq.
Qed.

(** Every step of [evaluate] that returned. *)
Lemma evaluate_inversion r d s s' :
  evaluate r s = (Ok d, s') →
  ∃ s1, save_request r s = (Ok tt, s1) ∧ size_position r = Ok d ∧ save_outcome d s1 = (Ok tt, s').
Proof.
  unfold evaluate. intros (? & s1 & Hr & He)%eff_bind_Ok.
  apply eff_bind_Ok in He as (d' & s2 & Hd & He). unfold lift in Hd. injection Hd as Hd <-.
  apply eff_bind_Ok in He as (? & s3 & Ho & He). injection He as <- <-.
  exists s1. by repeat match goal with u : unit |- _ => destruct u end.
Qed.

(** The risk repository is append-only whatever is evaluated and however
    it ends: no stored request or decision is removed or changed, no stored
    reservation is replaced by a different one, and no two reservations ever
    share a client order id; a batch that returns has recorded every decision
    with its reservation. *)
Theorem risk_store_append_only r l s :
  one_per_client_order s →
  (grows s (evaluate r s).2 ∧ one_per_client_order (evaluate r s).2) ∧
  (grows s (evaluate_batch l s).2 ∧ one_per_client_order (evaluate_batch l s).2) ∧
  (∀ b s', evaluate_batch l s = (Ok b, s') → ∀ d, d ∈ bs_decisions b → recorded d s').
Proof.
  intros Hs. split; [split; [apply evaluate_grows | by apply evaluate_inv]|].
  split; [split; [apply evaluate_batch_grows | by apply evaluate_batch_inv]|].
  intros b s' (b' & s1 & Hb & He)%eff_bind_Ok. injection Hb as _ <-.
  apply eff_bind_Ok in He as (? & s2 & Hsave & He). injection He as -> ->. by eapply save_batch_recorded.
Qed.

(** [evaluate] that returns has stored the request, the decision and the
    reservation, and evaluating the same request again returns the same
    decision and leaves the repository exactly as it is. *)
Theorem evaluate_idempotent r d s s' :
  one_per_client_order s → evaluate r s = (Ok d, s') →
  size_position r = Ok d ∧ holds (rr_requests s') (rq_request_id r) r ∧ recorded d s' ∧
  evaluate r s' = (Ok d, s').
Proof.
  intros Hs He. assert (one_per_client_order s') as Hs'.
  { pose proof (evaluate_inv r s Hs) as Hi. by rewrite He in Hi. }
  apply evaluate_inversion in He as (s1 & Hr & Hd & Ho). split; [done|].
  apply (put_once_returns _ _ _) in Hr as [_ Hr].
  assert (holds (rr_requests s') (rq_request_id r) r) as Hreq.
  { eapply holds_subseteq; [|done]. pose proof (save_outcome_grows d s1) as Hg.
    rewrite Ho in Hg. apply Hg. }
  split; [done|]. split; [by eapply save_outcome_recorded|].
  apply save_outcome_returns in Ho as [Hdec Hres].
  unfold evaluate. rewrite eff_bind_unfold.
  assert (save_request r s' = (Ok tt, s')) as -> by by exact (put_once_again rr_requests set_requests _ _ _ _ Hreq).
  rewrite eff_bind_unfold. unfold lift. rewrite Hd, eff_bind_unfold.
  by rewrite save_outcome_again.
Qed.

End service_facts.

Lemma empty_repository_inv : one_per_client_order empty_risk_repository.
Proof. split; simpl; intros *; by rewrite lookup_empty. Qed.

Lemma risk_store_append_only_witness :
  one_per_client_order empty_risk_repository ∧
  grows empty_risk_repository
    (@evaluate null_dump null_dump (sample_request "AAA" 1) empty_risk_repository).2.
Proof.
  split; [apply empty_repository_inv|].
  apply (@risk_store_append_only null_dump null_dump (sample_request "AAA" 1) []
    empty_risk_repository empty_repository_inv).
Defined.

Lemma sample_evaluates :
  is_ok (@evaluate null_dump null_dump (sample_request "AAA" 1) empty_risk_repository).1 = true.
Proof. vm_compute. reflexivity. Qed.

Lemma evaluate_idempotent_witness :
  ∃ d s', @evaluate null_dump null_dump (sample_request "AAA" 1) empty_risk_repository = (Ok d, s') ∧
    @evaluate null_dump null_dump (sample_request "AAA" 1) s' = (Ok d, s').
Proof.
  pose proof sample_evaluates as Hok.
  destruct (@evaluate null_dump null_dump (sample_request "AAA" 1) empty_risk_repository)
    as [[d|e] s'] eqn:E; [|discriminate Hok].
  exists d, s'. split; [reflexivity|].
  apply (@evaluate_idempotent null_dump null_dump (sample_request "AAA" 1) d
    empty_risk_repository s' empty_repository_inv E).
Defined.
