(* ===== verification/Invariants.v ===== *)
(** * Invariants: the 77 checks of an evaluator run

    daybreak_contracts/validation/models.py, helpers.py and invariants.py.
    A check reads the validation context (the parsed input, if it parsed, the
    output, the raw input and the orchestration metadata) and passes, fails
    with its violations or is not evaluated.  A violation keeps the values
    whose [str()] the program stores. *)
From Stdlib Require Import Ascii String.
From S2P Require Import Prelude Numerics PyStr PyTime Contracts Replay Canonical.

#[local] Open Scope Z_scope.

(** ** Values shown in a violation *)

Inductive shown :=
  | HNone
  | HBool (b : bool)
  | HInt (z : Z)
  | HFloat (d : decimal)
  | HStr (s : string)
  | HText (t : text)
  | HTuple (l : list shown)
  | HList (l : list shown)
  | HSet (l : list shown)
  | HReason (r : ReasonObject)
  | HBlocker (b : RunBlocker).

Class Show (A : Type) := show : A → shown.

Definition RunStatus_value (s : RunStatus) : string :=
  match s with
  | RS_APPROVED => "approved" | RS_NO_SETUPS => "no_setups" | RS_BLOCKED_MARKET => "blocked_market"
  | RS_STALE_PAYLOAD => "stale_payload" | RS_SCHEMA_FAILURE => "schema_failure"
  end.
Definition MarketStatus_value (s : MarketStatus) : string :=
  match s with
  | MS_NORMAL => "normal" | MS_LIMIT_UP_DOWN_ACTIVE => "limit_up_down_active"
  | MS_CIRCUIT_BREAKER_HALT => "circuit_breaker_halt"
  end.
Definition MagnitudeBucket_value (b : MagnitudeBucket) : string :=
  match b with
  | MB_MAJOR_CONCRETE => "major_concrete"
  | MB_MATERIAL_PARTIALLY_QUANTIFIED => "material_partially_quantified"
  | MB_CREDIBLE_UNQUANTIFIED => "credible_unquantified"
  | MB_WEAK_OR_PRELIMINARY => "weak_or_preliminary"
  | MB_NO_VALID_DRIVER => "no_valid_driver"
  end.
Definition EvidencePurpose_value (p : EvidencePurpose) : string :=
  match p with EP_MAGNITUDE => "magnitude" | EP_DISQUALIFIER => "disqualifier" | EP_NONE => "none" end.
Definition CatalystZeroReason_value (r : CatalystZeroReason) : string :=
  match r with
  | CZ_DISQUALIFIER_FLAG => "disqualifier_flag" | CZ_UNCONFIRMED_SOURCE => "unconfirmed_source"
  | CZ_STALE_CATALYST => "stale_catalyst" | CZ_NO_VALID_DRIVER => "no_valid_driver"
  end.
Definition TechnicalGrade_value (g : TechnicalGrade) : string :=
  match g with TG_A_PLUS => "A+" | TG_A => "A" | TG_B => "B" | TG_C => "C" end.
Definition RiskFlag_value (f : RiskFlag) : string :=
  match f with
  | RF_PARABOLIC => "parabolic_vwap_extension" | RF_HARD_TO_BORROW => "hard_to_borrow"
  | RF_UNKNOWN_BORROW => "unknown_borrow" | RF_LOW_FLOAT => "low_float"
  | RF_SPIKY_VOLUME => "spiky_volume" | RF_SECONDARY_SOURCE => "secondary_source"
  end.
Definition ReasonCode_value (c : ReasonCode) : string :=
  match c with
  | RC_HALTED => "HALTED" | RC_CATALYST_SCORE_TOO_LOW => "CATALYST_SCORE_TOO_LOW"
  | RC_UNCORROBORATED_CATALYST => "UNCORROBORATED_CATALYST" | RC_GAP_TOO_SMALL => "GAP_TOO_SMALL"
  | RC_PREMARKET_VOLUME_TOO_LOW => "PREMARKET_VOLUME_TOO_LOW" | RC_RVOL_TOO_LOW => "RVOL_TOO_LOW"
  | RC_RESISTANCE_TOO_CLOSE => "RESISTANCE_TOO_CLOSE" | RC_CAPPED_CHART => "CAPPED_CHART"
  end.
Definition DisqualifierFlag_value (f : DisqualifierFlag) : string :=
  match f with
  | DF_PAID_PROMOTION => "paid_promotion" | DF_REVERSE_SPLIT_ONLY => "reverse_split_only"
  | DF_UNCONFIRMED_RUMOR => "unconfirmed_rumor" | DF_NON_OPERATING_PROMOTION => "non_operating_promotion"
  | DF_OTHER => "other_disqualifying_catalyst"
  end.

#[export] Instance show_string : Show string := HStr.
#[export] Instance show_bool : Show bool := HBool.
#[export] Instance show_Z : Show Z := HInt.
#[export] Instance show_nat : Show nat := λ n, HInt (Z.of_nat n).
#[export] Instance show_decimal : Show decimal := HFloat.
#[export] Instance show_shown : Show shown := id.
#[export] Instance show_option {A} `{Show A} : Show (option A) := λ o,
  match o with Some x => show x | None => HNone end.
#[export] Instance show_list {A} `{Show A} : Show (list A) := λ l, HList (map show l).
#[export] Instance show_RunStatus : Show RunStatus := λ s, HStr (RunStatus_value s).
#[export] Instance show_MarketStatus : Show MarketStatus := λ s, HStr (MarketStatus_value s).
#[export] Instance show_MagnitudeBucket : Show MagnitudeBucket := λ s, HStr (MagnitudeBucket_value s).
#[export] Instance show_EvidencePurpose : Show EvidencePurpose := λ s, HStr (EvidencePurpose_value s).
#[export] Instance show_CatalystZeroReason : Show CatalystZeroReason := λ s, HStr (CatalystZeroReason_value s).
#[export] Instance show_TechnicalGrade : Show TechnicalGrade := λ s, HStr (TechnicalGrade_value s).
#[export] Instance show_RiskFlag : Show RiskFlag := λ s, HStr (RiskFlag_value s).
#[export] Instance show_ReasonCode : Show ReasonCode := λ s, HStr (ReasonCode_value s).
#[export] Instance show_DisqualifierFlag : Show DisqualifierFlag := λ s, HStr (DisqualifierFlag_value s).
#[export] Instance show_ReasonObject : Show ReasonObject := HReason.
#[export] Instance show_RunBlocker : Show RunBlocker := HBlocker.

(** ** Models (models.py) *)

Inductive CheckStatus := CK_PASS | CK_FAIL | CK_NOT_EVALUATED.
#[export] Instance CheckStatus_eq : EqDecision CheckStatus. Proof. solve_decision. Defined.

Record InvariantViolation := {
  iv_invariant_number : Z;
  iv_path : string;
  iv_expected : shown;
  iv_observed : shown;
  iv_message : string;
}.

Record InvariantCheck := {
  ic_invariant_number : Z;
  ic_name : string;
  ic_status : CheckStatus;
  ic_violations : list InvariantViolation;
  ic_note : option string;
}.

Record ValidationMetadata := {
  md_evaluator_candidate_count : option Z;
  md_max_evaluator_candidates_hard : option Z;
  md_prequalified_out_tickers : gset string;
  md_capacity_omitted_tickers : gset string;
  md_capacity_omissions_logged : gset string;
  md_preselection_policy_version : option string;
  md_evaluator_response_timestamp : option datetime;
  md_execution_cutoff_timestamp : option datetime;
  md_order_authorized : option bool;
  md_completed_phases : list string;
  md_scoring_completed_before_gates : option bool;
  md_duplicate_detection_after_ticker_validation : option bool;
  md_duplicate_detection_valid_only : option bool;
  md_operational_blockers_after_schema_validation : option bool;
  md_semantic_magnitude_before_override : gset string;
  md_invisible_disqualifier_tickers : gset string;
}.

(** [ValidationMetadata()]. *)
Definition no_metadata : ValidationMetadata :=
  {| md_evaluator_candidate_count := None; md_max_evaluator_candidates_hard := None;
     md_prequalified_out_tickers := ∅; md_capacity_omitted_tickers := ∅;
     md_capacity_omissions_logged := ∅; md_preselection_policy_version := None;
     md_evaluator_response_timestamp := None; md_execution_cutoff_timestamp := None;
     md_order_authorized := None; md_completed_phases := []; md_scoring_completed_before_gates := None;
     md_duplicate_detection_after_ticker_validation := None; md_duplicate_detection_valid_only := None;
     md_operational_blockers_after_schema_validation := None;
     md_semantic_magnitude_before_override := ∅; md_invisible_disqualifier_tickers := ∅ |}.

(** A raw JSON object, as its members. *)
Abbreviation raw_dict := (list (string * pyval)).

(** [raw.get(key)]. *)
Fixpoint raw_get (m : raw_dict) (key : string) : option pyval :=
  match m with
  | [] => None
  | (k, v) :: m' => if String.eqb k key then Some v else raw_get m' key
  end.

Record ValidationContext := {
  cx_input_payload : option DaybreakInput;
  cx_output : DaybreakOutput;
  cx_raw_input : option raw_dict;
  cx_raw_output : option raw_dict;
  cx_metadata : ValidationMetadata;
}.

(** ** Helpers (helpers.py) *)

Definition passed_note (number : Z) (name : string) (note : option string) : InvariantCheck :=
  {| ic_invariant_number := number; ic_name := name; ic_status := CK_PASS; ic_violations := [];
     ic_note := note |}.
Definition passed (number : Z) (name note : string) : InvariantCheck := passed_note number name (Some note).
Definition passed_silently (number : Z) (name : string) : InvariantCheck := passed_note number name None.
Definition not_evaluated (number : Z) (name note : string) : InvariantCheck :=
  {| ic_invariant_number := number; ic_name := name; ic_status := CK_NOT_EVALUATED; ic_violations := [];
     ic_note := Some note |}.
Definition checked (number : Z) (name : string) (violations : list InvariantViolation) : InvariantCheck :=
  {| ic_invariant_number := number; ic_name := name;
     ic_status := if nonempty violations then CK_FAIL else CK_PASS;
     ic_violations := violations; ic_note := None |}.
Definition violation {A B} `{Show A} `{Show B} (number : Z) (path : string) (expected : A) (observed : B)
    (message : string) : InvariantViolation :=
  {| iv_invariant_number := number; iv_path := path; iv_expected := show expected;
     iv_observed := show observed; iv_message := message |}.

(** ** Views of the output *)

Definition approved_tickers (o : DaybreakOutput) : list string := map as_ticker (do_approved_setups o).
Definition qualified_tickers (o : DaybreakOutput) : list string := map qn_ticker (do_qualified_not_selected o).
Definition excluded_symbols (o : DaybreakOutput) : list string := map ex_ticker (do_excluded_tickers o).
Definition failed_symbols (o : DaybreakOutput) : list string :=
  omap (λ f, if decide (sf_scope f = SF_TICKER) then sf_ticker f else None) (do_schema_failures o).

(** [_terminal_symbols], as the items of its dict, in order. *)
Definition terminal_symbols (ctx : ValidationContext) : list (string * list string) :=
  let output := cx_output ctx in
  [("approved_setups", approved_tickers output); ("qualified_not_selected", qualified_tickers output);
   ("excluded_tickers", excluded_symbols output); ("schema_failures", failed_symbols output)].

Definition score_path (record : TerminalRecord) (ticker : string) : string :=
  match record with
  | TExcluded _ => "excluded_tickers[" +:+ ticker +:+ "].evaluation_snapshot"
  | TApproved _ => "approved_setups[" +:+ ticker +:+ "].score_breakdown"
  | TQualified _ => "qualified_not_selected[" +:+ ticker +:+ "].score_breakdown"
  end.

(** [if ctx.input_payload is None: return not_evaluated(...)]. *)
Definition with_input (ctx : ValidationContext) (number : Z) (name note : string)
    (k : DaybreakInput → InvariantCheck) : InvariantCheck :=
  match cx_input_payload ctx with
  | None => not_evaluated number name note
  | Some payload => k payload
  end.
Definition input_required : string := "valid evaluator input is required".

Definition for_records (ctx : ValidationContext) (f : string → TerminalRecord → list InvariantViolation)
    : list InvariantViolation :=
  mjoin (map (λ x, f x.1 x.2) (terminal_records (cx_output ctx))).

(** The loop over the terminal records that skips tickers without input. *)
Definition for_entries (ctx : ValidationContext) (payload : DaybreakInput)
    (f : string → TerminalRecord → TickerInput → list InvariantViolation) : list InvariantViolation :=
  let mapping := input_by_ticker payload in
  for_records ctx (λ ticker record,
    match mapping !! ticker with None => [] | Some entry => f ticker record entry end).

Definition reason_codes (e : ExcludedTicker) : list ReasonCode :=
  ro_reason_code (ex_primary_reason e) :: map ro_reason_code (ex_additional_reasons e).

(** A reported field against its expected value. *)
Definition differs {A} `{EqDecision A} `{Show A} (number : Z) (path : string) (expected observed : A)
    (message : string) : list InvariantViolation :=
  if decide (observed = expected) then [] else [violation number path expected observed message].

Definition unless (condition : bool) (v : InvariantViolation) : list InvariantViolation :=
  if condition then [] else [v].

(** ** Invariants 1 to 18: the terminal partition and the score replay *)

Definition invariant_001 (ctx : ValidationContext) : InvariantCheck :=
  let name := "terminal categories are mutually exclusive" in
  let pairs := mjoin (map (λ c, map (λ s, (s, c.1)) c.2) (terminal_symbols ctx)) in
  let categories symbol := map snd (filter (λ x, x.1 = symbol) pairs) in
  checked 1 name
    (mjoin (map (λ symbol,
       if (1 <? length (categories symbol))%nat then
         [violation 1 symbol "one terminal category" (categories symbol)
            "ticker appears in multiple terminal categories"]
       else []) (unique_from [] (map fst pairs)))).

Definition invariant_002 (ctx : ValidationContext) : InvariantCheck :=
  let name := "schema-invalid tickers appear only in schema_failures" in
  let o := cx_output ctx in
  let trading := approved_tickers o ++ qualified_tickers o ++ excluded_symbols o in
  checked 2 name
    (mjoin (map (λ f,
       match sf_scope f, sf_ticker f with
       | SF_TICKER, Some ticker =>
           if decide (ticker ∈ trading) then
             [violation 2 (if String.eqb ticker "" then "null" else ticker) "absent from trading arrays"
                "present" "schema-invalid ticker reached trading output"]
           else []
       | _, _ => []
       end) (do_schema_failures o))).

Definition excluded_reason_violations (mapping : gmap string TickerInput) (item : ExcludedTicker)
    : list InvariantViolation :=
  match mapping !! ex_ticker item with
  | None => [violation 3 (ex_ticker item) "ticker in input" "missing"
               "excluded ticker has no corresponding input"]
  | Some entry =>
      let expected := expected_failed_gates entry
        (sb_catalyst_score_raw (es_score (ex_evaluation_snapshot item))) in
      let observed := ex_primary_reason item :: ex_additional_reasons item in
      if nonempty expected then
        differs 3 (ex_ticker item) expected observed
          "hard-gate reasons or ordering do not match deterministic replay"
      else [violation 3 (ex_ticker item) "at least one failed hard gate" "none"
              "excluded ticker passes all hard gates"]
  end.

Definition invariant_003 (ctx : ValidationContext) : InvariantCheck :=
  let name := "every excluded ticker fails at least one hard gate" in
  with_input ctx 3 name input_required (λ payload,
    checked 3 name (mjoin (map (excluded_reason_violations (input_by_ticker payload))
                              (do_excluded_tickers (cx_output ctx))))).

Definition passing_gate_violations (mapping : gmap string TickerInput) (x : string * Z)
    : list InvariantViolation :=
  match mapping !! x.1 with
  | None => [violation 4 x.1 "ticker in input" "missing" "passing ticker has no corresponding input"]
  | Some entry =>
      let failures := expected_failed_gates entry x.2 in
      if nonempty failures then
        [violation 4 x.1 "zero hard-gate failures" (map ro_reason_code failures)
           "passing ticker failed a hard gate"]
      else []
  end.

Definition invariant_004 (ctx : ValidationContext) : InvariantCheck :=
  let name := "passing terminal records pass all eight hard gates" in
  with_input ctx 4 name input_required (λ payload,
    let passing :=
      map (λ a, (as_ticker a, sb_catalyst_score_raw (as_score_breakdown a))) (do_approved_setups (cx_output ctx))
      ++ map (λ q, (qn_ticker q, sb_catalyst_score_raw (qn_score_breakdown q)))
           (do_qualified_not_selected (cx_output ctx)) in
    checked 4 name (mjoin (map (passing_gate_violations (input_by_ticker payload)) passing))).

Definition trading_count (o : DaybreakOutput) : Z :=
  len (do_approved_setups o) + len (do_qualified_not_selected o) + len (do_excluded_tickers o).

Definition invariant_005 (ctx : ValidationContext) : InvariantCheck :=
  let name := "approved/no-setups terminal partition is exhaustive" in
  if decide (do_run_status (cx_output ctx) ∈ [RS_APPROVED; RS_NO_SETUPS]) then
    with_input ctx 5 name input_required (λ payload,
      checked 5 name (differs 5 "terminal arrays" (len (di_tickers payload)) (trading_count (cx_output ctx))
                        "terminal partition count mismatch"))
  else passed 5 name "partition equation is not applicable to this run status".

Definition invariant_006 (ctx : ValidationContext) : InvariantCheck :=
  let count := len (do_approved_setups (cx_output ctx)) in
  checked 6 "approved setup count never exceeds three"
    (unless (count <=? 3) (violation 6 "approved_setups" "<= 3" count "approval cap exceeded")).

Definition invariant_007 (ctx : ValidationContext) : InvariantCheck :=
  passed 7 "every excluded ticker has exactly one primary reason" "enforced by the strict ExcludedTicker model".
Definition invariant_008 (ctx : ValidationContext) : InvariantCheck :=
  passed 8 "additional reasons use the primary reason schema" "enforced by the shared ReasonObject model".
Definition invariant_009 (ctx : ValidationContext) : InvariantCheck :=
  passed 9 "SCHEMA_FAILURE is never an exclusion reason" "enforced by the ReasonCode enum".
Definition invariant_010 (ctx : ValidationContext) : InvariantCheck :=
  passed 10 "excluded evaluation snapshots are complete" "enforced by EvaluationSnapshot".
Definition invariant_011 (ctx : ValidationContext) : InvariantCheck :=
  passed 11 "run blockers use only allowed codes" "enforced by BlockerCode".
Definition invariant_012 (ctx : ValidationContext) : InvariantCheck :=
  passed 12 "schema failures use allowed scopes" "enforced by SchemaFailureScope".

Definition invariant_013 (ctx : ValidationContext) : InvariantCheck :=
  let name := "non-scoring statuses have zero ticker trading results" in
  if decide (do_run_status (cx_output ctx) ∈ [RS_SCHEMA_FAILURE; RS_BLOCKED_MARKET; RS_STALE_PAYLOAD]) then
    checked 13 name (differs 13 "trading arrays" 0 (trading_count (cx_output ctx))
                       "non-scoring run contains ticker results")
  else passed_silently 13 name.

Definition expected_status (payload : DaybreakInput) (o : DaybreakOutput) : RunStatus :=
  if negb (bool_decide (di_market_status payload = MS_NORMAL)) then RS_BLOCKED_MARKET
  else if 180 <? di_payload_age_seconds payload then RS_STALE_PAYLOAD
  else if nonempty (do_approved_setups o) then RS_APPROVED
  else RS_NO_SETUPS.

Definition invariant_014 (ctx : ValidationContext) : InvariantCheck :=
  let name := "run status follows universal precedence" in
  match cx_input_payload ctx with
  | None =>
      if decide (do_run_status (cx_output ctx) = RS_SCHEMA_FAILURE)
      then passed 14 name "schema-failure precedence is represented by the output model"
      else not_evaluated 14 name "valid input or staged schema trace is required"
  | Some payload =>
      checked 14 name (differs 14 "run_status" (expected_status payload (cx_output ctx))
                         (do_run_status (cx_output ctx)) "run-status precedence mismatch")
  end.

(** A flag of the metadata that must be present and true. *)
Definition traced (number : Z) (name note path message : string) (value : option bool) : InvariantCheck :=
  match value with
  | None => not_evaluated number name note
  | Some b => checked number name (unless b (violation number path true b message))
  end.

Definition invariant_015 (ctx : ValidationContext) : InvariantCheck :=
  traced 15 "all scoring stages complete before hard gates" "requires orchestrator evaluation trace"
    "evaluation_trace" "scoring/gate order was not proven"
    (md_scoring_completed_before_gates (cx_metadata ctx)).

Definition invariant_016 (ctx : ValidationContext) : InvariantCheck :=
  passed 16 "no terminal scoring result is partially populated"
    "enforced by ScoreBreakdown and EvaluationSnapshot".

(** The loop over the replayed score fields. *)
Definition score_field_violations (path : string) (s : ScoreBreakdown) (x : ExpectedScore)
    : list InvariantViolation :=
  let f {A} `{EqDecision A} `{Show A} (field : string) (expected observed : A) :=
    differs 17 (path +:+ "." +:+ field) expected observed "deterministic score replay mismatch" in
  f "source_quality_points" (xs_source_quality_points x) (sb_source_quality_points s)
  ++ f "catalyst_magnitude_points" (xs_catalyst_magnitude_points x) (sb_catalyst_magnitude_points s)
  ++ f "catalyst_zero_override" (xs_catalyst_zero_override x) (sb_catalyst_zero_override s)
  ++ f "catalyst_zero_reason" (xs_catalyst_zero_reason x) (sb_catalyst_zero_reason s)
  ++ f "catalyst_score_raw" (xs_catalyst_score_raw x) (sb_catalyst_score_raw s)
  ++ f "catalyst_points" (xs_catalyst_points x) (sb_catalyst_points s)
  ++ f "volume_points" (xs_volume_points x) (sb_volume_points s)
  ++ f "technical_grade" (xs_technical_grade x) (sb_technical_grade s)
  ++ f "technical_base_points" (xs_technical_base_points x) (sb_technical_base_points s)
  ++ f "technical_points" (xs_technical_points x) (sb_technical_points s)
  ++ f "parabolic_adjusted" (xs_parabolic_adjusted x) (sb_parabolic_adjusted s).

Definition conviction_of (record : TerminalRecord) : option Z :=
  match record with
  | TApproved a => Some (as_conviction_score a)
  | TQualified q => Some (qn_conviction_score q)
  | TExcluded _ => None
  end.

Definition conviction_violations (ticker : string) (record : TerminalRecord) : list InvariantViolation :=
  match conviction_of record with
  | None => []
  | Some conviction =>
      let score := score_of record in
      differs 17 (ticker +:+ ".conviction_score")
        (sb_catalyst_points score + sb_volume_points score + sb_technical_points score) conviction
        "conviction score replay mismatch"
  end.

Definition trade_echo (tech : TechnicalContext) (trade : TradeParameters) : bool :=
  (tp_reference_price trade =? tc_current_price tech)%dec
  && (tp_atr_value_used trade =? tc_atr_value tech)%dec
  && (tp_premarket_low_used trade =? tc_premarket_low tech)%dec.

Definition trade_violations (ticker : string) (record : TerminalRecord) (entry : TickerInput)
    : list InvariantViolation :=
  match record with
  | TApproved a =>
      let trade := as_trade_parameters a in let tech := ti_technical_context entry in
      unless (trade_echo tech trade)
        (violation 17 (ticker +:+ ".trade_parameters")
           (HTuple [show (tc_current_price tech); show (tc_atr_value tech); show (tc_premarket_low tech)])
           (HTuple [show (tp_reference_price trade); show (tp_atr_value_used trade);
                    show (tp_premarket_low_used trade)])
           "trade-parameter echo mismatch")
  | _ => []
  end.

Definition invariant_017 (ctx : ValidationContext) : InvariantCheck :=
  let name := "hard gates do not alter component scores" in
  with_input ctx 17 name input_required (λ payload,
    checked 17 name (for_entries ctx payload (λ ticker record entry,
      let score := score_of record in
      let expected := expected_score_fields payload entry score in
      score_field_violations (score_path record ticker) score expected
      ++ differs 17 (ticker +:+ ".risk_flags") (xs_risk_flags expected) (risk_flags_of record)
           "risk-flag truth replay mismatch"
      ++ conviction_violations ticker record
      ++ trade_violations ticker record entry))).

Definition invariant_018 (ctx : ValidationContext) : InvariantCheck :=
  passed 18 "conviction score appears only on passing records" "enforced by terminal object schemas".

(** ** Invariants 19 to 40: evidence, volume, technical and zero-override rules *)

Inductive EvidenceMode := EM_SUBSTRING | EM_FULL | EM_TRUNCATED | EM_PAIR | EM_BOUNDS.

Definition evidence_name (mode : EvidenceMode) : string :=
  match mode with
  | EM_SUBSTRING => "evidence excerpt is a contiguous substring"
  | EM_FULL => "nontruncated excerpt equals the identified span"
  | EM_TRUNCATED => "truncated excerpt is the first 200 code points"
  | EM_PAIR => "evidence positions are paired"
  | EM_BOUNDS => "evidence positions are in bounds"
  end.

Definition positions (start end_ : option Z) : shown := HTuple [show start; show end_].

(** The branch of one mode of [_evidence_checks]. *)
Definition evidence_violations (number : Z) (mode : EvidenceMode) (path : string) (s : ScoreBreakdown)
    (txt : text) : list InvariantViolation :=
  let excerpt := sb_magnitude_evidence_excerpt s in
  let start := sb_magnitude_evidence_start_char s in
  let end_ := sb_magnitude_evidence_end_char s in
  let excerpt_path := path +:+ ".magnitude_evidence_excerpt" in
  match mode with
  | EM_SUBSTRING =>
      if nonempty excerpt && negb (text_in excerpt txt) then
        [violation number excerpt_path "substring of catalyst_text" (HText excerpt)
           "evidence excerpt is not present verbatim"]
      else []
  | EM_FULL =>
      match sb_magnitude_evidence_truncated s, start, end_ with
      | false, Some a, Some b =>
          let expected := py_slice txt a b in
          unless (bool_decide (excerpt = expected))
            (violation number excerpt_path (HText expected) (HText excerpt)
               "nontruncated evidence does not equal indexed span")
      | _, _, _ => []
      end
  | EM_TRUNCATED =>
      if sb_magnitude_evidence_truncated s then
        match start, end_ with
        | Some a, Some b =>
            let full_span := py_slice txt a b in
            let expected := py_slice full_span 0 200 in
            if (len full_span <=? 200) || negb (bool_decide (excerpt = expected)) then
              [violation number excerpt_path "first 200 code points of span > 200" (HText excerpt)
                 "truncation rule mismatch"]
            else []
        | _, _ => [violation number path "integer positions" "null" "truncated evidence requires positions"]
        end
      else []
  | EM_PAIR =>
      unless (eqb (is_some start) (is_some end_))
        (violation number path "both integer or both null" (positions start end_)
           "evidence positions are not paired")
  | EM_BOUNDS =>
      match start, end_ with
      | Some a, Some b =>
          unless ((0 <=? a) && (a <? b) && (b <=? len txt))
            (violation number path ("0 <= start < end <= " +:+ int_string (len txt)) (positions start end_)
               "evidence offsets are out of bounds")
      | _, _ => []
      end
  end.

Definition evidence_checks (ctx : ValidationContext) (number : Z) (mode : EvidenceMode) : InvariantCheck :=
  with_input ctx number (evidence_name mode) input_required (λ payload,
    checked number (evidence_name mode) (for_entries ctx payload (λ ticker record entry,
      evidence_violations number mode (score_path record ticker) (score_of record)
        (nc_catalyst_text (ti_news_context entry))))).

Definition invariant_019 (ctx : ValidationContext) : InvariantCheck := evidence_checks ctx 19 EM_SUBSTRING.
Definition invariant_020 (ctx : ValidationContext) : InvariantCheck := evidence_checks ctx 20 EM_FULL.
Definition invariant_021 (ctx : ValidationContext) : InvariantCheck := evidence_checks ctx 21 EM_TRUNCATED.
Definition invariant_022 (ctx : ValidationContext) : InvariantCheck := evidence_checks ctx 22 EM_PAIR.
Definition invariant_023 (ctx : ValidationContext) : InvariantCheck := evidence_checks ctx 23 EM_BOUNDS.

Definition invariant_024 (ctx : ValidationContext) : InvariantCheck :=
  passed 24 "volume points use the exhaustive allowed set" "enforced by Literal[0,15,25,35]".

Definition check_volume_rule (ctx : ValidationContext) (number : Z) (predicate : TickerInput → bool)
    (expected_value : Z) (name : string) : InvariantCheck :=
  with_input ctx number name input_required (λ payload,
    checked number name (for_entries ctx payload (λ ticker record entry,
      if predicate entry then
        differs number (score_path record ticker +:+ ".volume_points") expected_value
          (sb_volume_points (score_of record)) "volume rule mismatch"
      else []))).

Definition invariant_025 (ctx : ValidationContext) : InvariantCheck :=
  check_volume_rule ctx 25
    (λ e, bool_decide (lm_volume_profile (ti_liquidity_metrics e) = VP_CLEAN)
          && (lm_rvol_time_matched (ti_liquidity_metrics e) <? dec.of_Z 5)%dec)
    0 "clean RVOL below 5 scores zero".

Definition invariant_026 (ctx : ValidationContext) : InvariantCheck :=
  check_volume_rule ctx 26 (λ e, bool_decide (lm_volume_profile (ti_liquidity_metrics e) = VP_SPIKY))
    15 "spiky volume always scores 15".

(** A score record always has volume points, so there is no violation to
    report. *)
Definition invariant_027 (ctx : ValidationContext) : InvariantCheck :=
  checked 27 "RVOL gate failures retain volume points"
    (mjoin (map (λ item,
       let volume_points := Some (sb_volume_points (es_score (ex_evaluation_snapshot item))) in
       if bool_decide (RC_RVOL_TOO_LOW ∈ reason_codes item) && negb (is_some volume_points) then
         [violation 27 (ex_ticker item) "non-null volume_points" "null" "RVOL failure lacks volume diagnostics"]
       else []) (do_excluded_tickers (cx_output ctx)))).

Definition technical_of (s : ScoreBreakdown) : TechnicalGrade * Z * Z * bool :=
  (sb_technical_grade s, sb_technical_base_points s, sb_technical_points s, sb_parabolic_adjusted s).
Definition show_technical (t : TechnicalGrade * Z * Z * bool) : shown :=
  let '(g, b, p, a) := t in HTuple [show g; show b; show p; show a].

Definition invariant_028 (ctx : ValidationContext) : InvariantCheck :=
  checked 28 "resistance/capped failures have grade C zero technical result"
    (mjoin (map (λ item,
       if existsb (λ c, bool_decide (c ∈ [RC_RESISTANCE_TOO_CLOSE; RC_CAPPED_CHART])) (reason_codes item) then
         let observed := technical_of (es_score (ex_evaluation_snapshot item)) in
         let expected := (TG_C, 0, 0, false) in
         unless (bool_decide (observed = expected))
           (violation 28 (ex_ticker item) (show_technical expected) (show_technical observed)
              "failing chart technical result mismatch")
       else []) (do_excluded_tickers (cx_output ctx)))).

Definition invariant_029 (ctx : ValidationContext) : InvariantCheck :=
  checked 29 "parabolic penalty never applies to grade C"
    (for_records ctx (λ ticker record,
       let s := score_of record in
       if bool_decide (sb_technical_grade s = TG_C) && sb_parabolic_adjusted s then
         [violation 29 ticker false (sb_parabolic_adjusted s) "grade-C result received parabolic penalty"]
       else [])).

Definition allowed_technical : list (TechnicalGrade * Z) :=
  [(TG_A_PLUS, 25); (TG_A_PLUS, 19); (TG_A, 22); (TG_A, 16); (TG_B, 13); (TG_B, 7); (TG_C, 0)].
Definition show_grade_points (x : TechnicalGrade * Z) : shown := HTuple [show x.1; show x.2].

Definition invariant_030 (ctx : ValidationContext) : InvariantCheck :=
  checked 30 "technical grade/point combinations are exhaustive"
    (for_records ctx (λ ticker record,
       let s := score_of record in
       let observed := (sb_technical_grade s, sb_technical_points s) in
       unless (bool_decide (observed ∈ allowed_technical))
         (violation 30 ticker (HSet (map show_grade_points allowed_technical)) (show_grade_points observed)
            "unsupported technical result"))).

Definition override_violations (number : Z) (ticker : string) (record : TerminalRecord)
    : list InvariantViolation :=
  let s := score_of record in
  unless (eqb (sb_catalyst_zero_override s) (is_some (sb_catalyst_zero_reason s)))
    (violation number ticker "override iff reason non-null"
       (HTuple [show (sb_catalyst_zero_override s); show (sb_catalyst_zero_reason s)])
       "zero-override equivalence failed").

Definition invariant_031 (ctx : ValidationContext) : InvariantCheck :=
  checked 31 "zero override is equivalent to non-null zero reason" (for_records ctx (override_violations 31)).

Definition invariant_032 (ctx : ValidationContext) : InvariantCheck :=
  checked 32 "zero override zeros raw and weighted catalyst scores"
    (for_records ctx (λ ticker record,
       let s := score_of record in
       if sb_catalyst_zero_override s
          && negb ((sb_catalyst_score_raw s =? 0) && (sb_catalyst_points s =? 0)) then
         [violation 32 ticker (HTuple [HInt 0; HInt 0])
            (HTuple [show (sb_catalyst_score_raw s); show (sb_catalyst_points s)])
            "zero override did not zero final catalyst score"]
       else [])).

Definition bucket_violations (number : Z) (message ticker : string) (s : ScoreBreakdown)
    : list InvariantViolation :=
  differs number ticker (MAGNITUDE_POINTS (sb_catalyst_magnitude_bucket s)) (sb_catalyst_magnitude_points s)
    message.

Definition invariant_033 (ctx : ValidationContext) : InvariantCheck :=
  checked 33 "magnitude bucket and points follow ordinary bucket mapping"
    (for_records ctx (λ ticker record,
       bucket_violations 33 "magnitude bucket/points mapping mismatch" ticker (score_of record))).

Definition joined (l : list string) : string := String.concat ", " l.

Definition invariant_034 (ctx : ValidationContext) : InvariantCheck :=
  let name := "disqualifier override changes evidence target, not bucket" in
  with_input ctx 34 name "valid input is required" (λ payload,
    let applicable := map ti_ticker
      (filter (λ e, nonempty (nc_disqualifier_flags (ti_news_context e)) = true) (di_tickers payload)) in
    let missing_trace := filter (λ t, t ∉ md_semantic_magnitude_before_override (cx_metadata ctx)) applicable in
    if nonempty missing_trace then
      not_evaluated 34 name ("semantic pre-override trace missing for: " +:+ joined missing_trace)
    else passed_silently 34 name).

Definition invariant_035 (ctx : ValidationContext) : InvariantCheck :=
  let name := "disqualifier override can retain positive magnitude diagnostics" in
  let found := existsb (λ x,
    let s := score_of x.2 in
    bool_decide (sb_catalyst_zero_reason s = Some CZ_DISQUALIFIER_FLAG)
    && (0 <? sb_catalyst_magnitude_points s) && (sb_catalyst_score_raw s =? 0)
    && (sb_catalyst_points s =? 0)) (terminal_records (cx_output ctx)) in
  if found then passed 35 name "reachability fixture observed"
  else not_evaluated 35 name "reachability property is asserted by dedicated fixture, not every run".

(** [sorted(set)]. *)
Definition sorted_strings (l : list string) : list string := sorted_by string_leb l.

Definition invisible_violations (ticker : string) (s : ScoreBreakdown) : list InvariantViolation :=
  (if decide (sb_catalyst_zero_reason s = Some CZ_DISQUALIFIER_FLAG) then []
   else [violation 36 ticker "disqualifier_flag" (sb_catalyst_zero_reason s) "wrong zero reason"])
  ++ (if nonempty (sb_magnitude_evidence_excerpt s) || is_some (sb_magnitude_evidence_start_char s)
         || is_some (sb_magnitude_evidence_end_char s) then
        [violation 36 ticker "empty evidence and null positions"
           (HTuple [HText (sb_magnitude_evidence_excerpt s); show (sb_magnitude_evidence_start_char s);
                    show (sb_magnitude_evidence_end_char s)])
           "invisible disqualifier evidence shape mismatch"]
      else [])
  ++ bucket_violations 36 "bucket points were altered by invisible disqualifier" ticker s.

Definition invariant_036 (ctx : ValidationContext) : InvariantCheck :=
  let name := "invisible disqualifier evidence does not force no-valid-driver" in
  let targets := elements (md_invisible_disqualifier_tickers (cx_metadata ctx)) in
  let records : gmap string TerminalRecord := list_to_map (reverse (terminal_records (cx_output ctx))) in
  if nonempty targets then
    checked 36 name (mjoin (map (λ ticker,
      match records !! ticker with
      | None => [violation 36 ticker "terminal record" "missing" "fixture ticker missing"]
      | Some record => invisible_violations ticker (score_of record)
      end) (sorted_strings targets)))
  else not_evaluated 36 name "requires semantic fixture identifying an invisible supplied disqualifier".

Definition invariant_037 (ctx : ValidationContext) : InvariantCheck :=
  let name := "unconfirmed/stale evidence targets content magnitude" in
  with_input ctx 37 name "valid input is required" (λ payload,
    checked 37 name (for_records ctx (λ ticker record,
      let s := score_of record in
      if bool_decide (sb_catalyst_zero_reason s ∈ [Some CZ_UNCONFIRMED_SOURCE; Some CZ_STALE_CATALYST])
         && negb (bool_decide (sb_catalyst_magnitude_bucket s = MB_NO_VALID_DRIVER))
         && negb (nonempty (sb_magnitude_evidence_excerpt s)) then
        [violation 37 ticker "content evidence or valid empty-span semantic trace" "empty"
           "metadata zero reason appears to have suppressed content evidence"]
      else []))).

Definition driver_shape (s : ScoreBreakdown) : MagnitudeBucket * Z * text * option Z * option Z :=
  (sb_catalyst_magnitude_bucket s, sb_catalyst_magnitude_points s, sb_magnitude_evidence_excerpt s,
   sb_magnitude_evidence_start_char s, sb_magnitude_evidence_end_char s).
Definition show_driver (x : MagnitudeBucket * Z * text * option Z * option Z) : shown :=
  let '(b, p, e, i, j) := x in HTuple [show b; show p; HText e; show i; show j].

Definition invariant_038 (ctx : ValidationContext) : InvariantCheck :=
  checked 38 "no-valid-driver zero reason has canonical diagnostics"
    (for_records ctx (λ ticker record,
       let s := score_of record in
       if decide (sb_catalyst_zero_reason s = Some CZ_NO_VALID_DRIVER) then
         let expected := (MB_NO_VALID_DRIVER, 0, [], None, None) in
         unless (bool_decide (driver_shape s = expected))
           (violation 38 ticker (show_driver expected) (show_driver (driver_shape s))
              "no-valid-driver diagnostic shape mismatch")
       else [])).

Definition invariant_039 (ctx : ValidationContext) : InvariantCheck :=
  let name := "no-valid-driver is assigned only by ordinary content analysis" in
  let targets := map fst (filter (λ x, sb_catalyst_zero_reason (score_of x.2) = Some CZ_NO_VALID_DRIVER)
                            (terminal_records (cx_output ctx))) in
  let missing := filter (λ t, t ∉ md_semantic_magnitude_before_override (cx_metadata ctx)) targets in
  if nonempty targets then
    if nonempty missing then
      not_evaluated 39 name ("ordinary-content trace missing for: " +:+ joined missing)
    else passed_silently 39 name
  else not_evaluated 39 name "no no-valid-driver record in this run".

Definition zero_reason_check (ctx : ValidationContext) (number : Z) (name note message : string)
    : InvariantCheck :=
  with_input ctx number name note (λ payload,
    checked number name (for_entries ctx payload (λ ticker record entry,
      let s := score_of record in
      differs number ticker (xs_catalyst_zero_reason (expected_score_fields payload entry s))
        (sb_catalyst_zero_reason s) message))).

Definition invariant_040 (ctx : ValidationContext) : InvariantCheck :=
  zero_reason_check ctx 40 "automatic-zero precedence is exact" input_required
    "automatic-zero precedence mismatch".

(** ** Invariants 41 to 60: orchestration evidence, charts, echoes, duplicates *)

Definition invariant_041 (ctx : ValidationContext) : InvariantCheck :=
  let name := "evaluator candidate count does not exceed hard maximum" in
  let count := match md_evaluator_candidate_count (cx_metadata ctx) with
    | Some c => Some c
    | None => (λ payload, len (di_tickers payload)) <$> cx_input_payload ctx
    end in
  match md_max_evaluator_candidates_hard (cx_metadata ctx), count with
  | None, _ => not_evaluated 41 name "hard maximum metadata is required"
  | _, None => not_evaluated 41 name "candidate count is required"
  | Some maximum, Some count =>
      checked 41 name (unless (count <=? maximum)
        (violation 41 "candidate_count" ("<= " +:+ int_string maximum) count "candidate hard maximum exceeded"))
  end.

Definition invariant_042 (ctx : ValidationContext) : InvariantCheck :=
  let output_symbols := mjoin (map snd (terminal_symbols ctx)) in
  let overlap := sorted_strings (elements
    ((list_to_set output_symbols : gset string) ∩ md_prequalified_out_tickers (cx_metadata ctx))) in
  checked 42 "prequalified-out candidates are absent from evaluator output"
    (map (λ symbol, violation 42 symbol "absent" "present"
            "prequalified-out ticker appeared in evaluator output") overlap).

Definition show_set (s : gset string) : shown := HSet (map HStr (elements s)).

Definition invariant_043 (ctx : ValidationContext) : InvariantCheck :=
  let name := "capacity omissions are logged with policy version" in
  let md := cx_metadata ctx in
  let omitted := md_capacity_omitted_tickers md in
  if decide (omitted = ∅) then passed_silently 43 name else
  checked 43 name
    (unless (bool_decide (omitted ∖ md_capacity_omissions_logged md = ∅))
       (violation 43 "capacity_omissions_logged" (show_set omitted) (show_set (md_capacity_omissions_logged md))
          "capacity omissions were not all logged")
     ++ match md_preselection_policy_version md with
        | Some v => unless (negb (String.eqb v ""))
            (violation 43 "preselection_policy_version" "nonempty" HNone "capacity omission lacks policy version")
        | None => [violation 43 "preselection_policy_version" "nonempty" HNone
                     "capacity omission lacks policy version"]
        end).

Definition invariant_044 (ctx : ValidationContext) : InvariantCheck :=
  let name := "late evaluator responses cannot authorize orders" in
  let md := cx_metadata ctx in
  match md_evaluator_response_timestamp md, md_execution_cutoff_timestamp md, md_order_authorized md with
  | Some received, Some cutoff, Some authorized =>
      checked 44 name (unless (negb ((cutoff <? received) && authorized))
        (violation 44 "order_authorized" false true "late response authorized an order"))
  | _, _, _ => not_evaluated 44 name "response time, cutoff, and authorization metadata are required"
  end.

Inductive ChartMode := CM_BLUE_SKY_LOW_DISTANCE | CM_CAPPED | CM_CAPPED_REASON_ORDER.
Definition chart_name (mode : ChartMode) : string :=
  match mode with
  | CM_BLUE_SKY_LOW_DISTANCE => "blue-sky low-distance case receives C and resistance failure"
  | CM_CAPPED => "every capped case receives C and capped failure"
  | CM_CAPPED_REASON_ORDER => "capped reason precedence is deterministic"
  end.

Definition chart_applies (mode : ChartMode) (tech : TechnicalContext) : bool :=
  match mode with
  | CM_BLUE_SKY_LOW_DISTANCE =>
      bool_decide (tc_chart_structure tech = CS_BLUE_SKY)
      && (tc_distance_to_resistance_atr tech <? dec.of_Z 1)%dec
  | _ => bool_decide (tc_chart_structure tech = CS_CAPPED)
  end.

Definition grade_and_codes (excluded : ExcludedTicker) : shown :=
  HTuple [show (sb_technical_grade (es_score (ex_evaluation_snapshot excluded)));
          show (reason_codes excluded)].

Definition chart_violations (number : Z) (mode : ChartMode) (ticker : string) (tech : TechnicalContext)
    (excluded : ExcludedTicker) : list InvariantViolation :=
  let grade := sb_technical_grade (es_score (ex_evaluation_snapshot excluded)) in
  let codes := reason_codes excluded in
  match mode with
  | CM_BLUE_SKY_LOW_DISTANCE =>
      unless (bool_decide (grade = TG_C) && bool_decide (RC_RESISTANCE_TOO_CLOSE ∈ codes))
        (violation number ticker "grade C + RESISTANCE_TOO_CLOSE" (grade_and_codes excluded)
           "blue-sky low-distance outcome mismatch")
  | CM_CAPPED =>
      unless (bool_decide (grade = TG_C) && bool_decide (RC_CAPPED_CHART ∈ codes))
        (violation number ticker "grade C + CAPPED_CHART" (grade_and_codes excluded) "capped outcome mismatch")
  | CM_CAPPED_REASON_ORDER =>
      let expected_primary :=
        if (tc_distance_to_resistance_atr tech <? dec.of_Z 1)%dec then RC_RESISTANCE_TOO_CLOSE
        else RC_CAPPED_CHART in
      differs number ticker expected_primary (ro_reason_code (ex_primary_reason excluded))
        "capped primary reason order mismatch"
  end.

(** The items of [input_by_ticker(payload)], in insertion order: the position
    of a ticker's first entry, the value of its last. *)
Definition input_items (payload : DaybreakInput) : list (string * TickerInput) :=
  omap (λ t, (t,.) <$> input_by_ticker payload !! t) (unique_from [] (map ti_ticker (di_tickers payload))).

Definition excluded_by_ticker (o : DaybreakOutput) : gmap string ExcludedTicker :=
  list_to_map (reverse (map (λ e, (ex_ticker e, e)) (do_excluded_tickers o))).

Definition check_chart_reachability (ctx : ValidationContext) (number : Z) (mode : ChartMode)
    : InvariantCheck :=
  let name := chart_name mode in
  with_input ctx number name "valid input is required" (λ payload,
    let output_excluded := excluded_by_ticker (cx_output ctx) in
    let applicable := filter (λ x, chart_applies mode (ti_technical_context x.2) = true) (input_items payload) in
    if nonempty applicable then
      checked number name (mjoin (map (λ x,
        match output_excluded !! x.1 with
        | None => [violation number x.1 "excluded" "not excluded" "chart reachability case missing exclusion"]
        | Some excluded => chart_violations number mode x.1 (ti_technical_context x.2) excluded
        end) applicable))
    else not_evaluated number name "reachability case is covered by a dedicated fixture").

Definition invariant_045 (ctx : ValidationContext) : InvariantCheck :=
  check_chart_reachability ctx 45 CM_BLUE_SKY_LOW_DISTANCE.
Definition invariant_046 (ctx : ValidationContext) : InvariantCheck :=
  check_chart_reachability ctx 46 CM_CAPPED.
Definition invariant_047 (ctx : ValidationContext) : InvariantCheck :=
  check_chart_reachability ctx 47 CM_CAPPED_REASON_ORDER.

(** [v.model_copy(update={"invariant_number": n})]. *)
Definition renumber (n : Z) (v : InvariantViolation) : InvariantViolation :=
  {| iv_invariant_number := n; iv_path := iv_path v; iv_expected := iv_expected v;
     iv_observed := iv_observed v; iv_message := iv_message v |}.

Definition invariant_048 (ctx : ValidationContext) : InvariantCheck :=
  let base := invariant_031 ctx in
  {| ic_invariant_number := 48;
     ic_name := "zero reason nullability is consistent in all score records";
     ic_status := ic_status base; ic_violations := map (renumber 48) (ic_violations base);
     ic_note := ic_note base |}.

Definition invariant_049 (ctx : ValidationContext) : InvariantCheck :=
  passed 49 "standalone catalyst/liquidity thesis fields never appear"
    "enforced by extra=forbid terminal schemas".
Definition invariant_050 (ctx : ValidationContext) : InvariantCheck :=
  passed 50 "every schema-valid terminal record contains risk_flags" "enforced by terminal schemas".

(** [raw.get(source)] is absent or null. *)
Definition raw_missing (raw : raw_dict) (source : string) : bool :=
  match raw_get raw source with None | Some PNone => true | Some _ => false end.

Definition repaired_echo {A} `{Show A} (raw : raw_dict) (source target : string) (observed : option A)
    : list InvariantViolation :=
  if raw_missing raw source && is_some observed then
    [violation 51 target HNone observed "missing source echo was repaired"]
  else [].

Definition invariant_051 (ctx : ValidationContext) : InvariantCheck :=
  let name := "schema-failure echoes are null only for invalid or missing source fields" in
  let o := cx_output ctx in
  if decide (do_run_status o = RS_SCHEMA_FAILURE) then
    match cx_raw_input ctx with
    | None => not_evaluated 51 name "raw invalid input is required"
    | Some raw =>
        checked 51 name
          (repaired_echo raw "evaluation_timestamp" "execution_timestamp" (do_execution_timestamp o)
           ++ repaired_echo raw "payload_timestamp" "payload_timestamp_used" (do_payload_timestamp_used o)
           ++ repaired_echo raw "market_status" "market_status" (do_market_status o))
    end
  else passed_silently 51 name.

Definition echo_values (o : DaybreakOutput) : option string * option string * option MarketStatus :=
  (do_execution_timestamp o, do_payload_timestamp_used o, do_market_status o).
Definition show_echo (x : option string * option string * option MarketStatus) : shown :=
  let '(a, b, c) := x in HTuple [show a; show b; show c].

Definition invariant_052 (ctx : ValidationContext) : InvariantCheck :=
  let name := "non-schema-failure echo fields are valid, non-null, and exact" in
  let o := cx_output ctx in
  if decide (do_run_status o = RS_SCHEMA_FAILURE) then passed_silently 52 name else
  checked 52 name
    (unless (is_some (do_execution_timestamp o) && is_some (do_payload_timestamp_used o)
             && is_some (do_market_status o))
       (violation 52 "echo fields" "all non-null" (show_echo (echo_values o))
          "non-schema response contains null echo")
     ++ match cx_input_payload ctx with
        | None => []
        | Some payload =>
            let expected := (Some (di_evaluation_timestamp payload), Some (di_payload_timestamp payload),
                             Some (di_market_status payload)) in
            unless (bool_decide (echo_values o = expected))
              (violation 52 "echo fields" (show_echo expected) (show_echo (echo_values o))
                 "top-level echo mismatch")
        end).

Definition invariant_053 (ctx : ValidationContext) : InvariantCheck :=
  let name := "valid payload tickers are canonical and unique" in
  with_input ctx 53 name "valid input model is required" (λ payload,
    let symbols := map ti_ticker (di_tickers payload) in
    checked 53 name (unless (no_dup symbols) (violation 53 "tickers" "unique" symbols "duplicate symbols"))).

Definition invariant_054 (ctx : ValidationContext) : InvariantCheck :=
  zero_reason_check ctx 54 "catalyst freshness uses the payload-level threshold" "valid input is required"
    "freshness/zero-reason replay mismatch".

Definition invariant_055 (ctx : ValidationContext) : InvariantCheck :=
  let name := "both chart hard gates are independently reachable" in
  let primary_codes := map (λ e, ro_reason_code (ex_primary_reason e)) (do_excluded_tickers (cx_output ctx)) in
  if decide (RC_RESISTANCE_TOO_CLOSE ∈ primary_codes ∧ RC_CAPPED_CHART ∈ primary_codes)
  then passed_silently 55 name
  else not_evaluated 55 name "requires a fixture containing both independent primary outcomes".

Definition invariant_056 (ctx : ValidationContext) : InvariantCheck :=
  passed 56 "output narrative fields are restricted" "enforced by strict terminal schemas".

Definition invariant_057 (ctx : ValidationContext) : InvariantCheck :=
  traced 57 "duplicate detection follows ticker validation" "requires staged input-validation trace"
    "validation_trace" "duplicate check ran in the wrong phase"
    (md_duplicate_detection_after_ticker_validation (cx_metadata ctx)).
Definition invariant_058 (ctx : ValidationContext) : InvariantCheck :=
  traced 58 "only fully valid tickers participate in duplicate detection"
    "requires staged input-validation trace" "validation_trace"
    "invalid ticker participated in duplicate detection"
    (md_duplicate_detection_valid_only (cx_metadata ctx)).

(** [item.get("ticker")] of the dict items of the raw ticker list. *)
Definition raw_tickers (l : list pyval) : list (option pyval) :=
  omap (λ item, match item with PDict m => Some (raw_get m "ticker") | _ => None end) l.
Definition canonical_raw (l : list pyval) : list string :=
  omap (λ t, match t with Some (PStr s) => if is_canonical_ticker s then Some s else None | _ => None end)
    (raw_tickers l).
Definition invalid_raw (l : list pyval) : list string :=
  omap (λ t, match t with Some (PStr s) => if is_canonical_ticker s then None else Some s | _ => None end)
    (raw_tickers l).

Definition raw_ticker_list (ctx : ValidationContext) : option (list pyval) :=
  match cx_raw_input ctx with
  | Some raw => match raw_get raw "tickers" with Some (PSeq l) => Some l | _ => None end
  | None => None
  end.

Definition invariant_059 (ctx : ValidationContext) : InvariantCheck :=
  let name := "duplicate-valid-ticker response is a non-scoring schema failure" in
  let o := cx_output ctx in
  match raw_ticker_list ctx with
  | None => not_evaluated 59 name "raw input ticker list is required"
  | Some items =>
      if no_dup (canonical_raw items) then
        not_evaluated 59 name "no duplicate-valid-ticker fixture in this run"
      else
        let arrays_empty := negb (nonempty (do_approved_setups o) || nonempty (do_qualified_not_selected o)
                                  || nonempty (do_excluded_tickers o) || nonempty (do_run_blockers o)) in
        let condition := bool_decide (do_run_status o = RS_SCHEMA_FAILURE) && arrays_empty in
        checked 59 name (unless condition
          (violation 59 "duplicate response" "schema_failure with empty trading/blocker arrays"
             (do_run_status o) "duplicate response shape mismatch"))
  end.

Definition invariant_060 (ctx : ValidationContext) : InvariantCheck :=
  let name := "duplicate failure preserves independent ticker failures" in
  match raw_ticker_list ctx with
  | None => not_evaluated 60 name "raw input ticker list is required"
  | Some items =>
      if no_dup (canonical_raw items) || negb (nonempty (invalid_raw items)) then
        not_evaluated 60 name "requires duplicate-valid and independent invalid-ticker conditions"
      else
        let missing := filter (λ t, t ∉ failed_symbols (cx_output ctx)) (invalid_raw items) in
        checked 60 name (map (λ ticker,
          violation 60 ticker "preserved ticker failure" "missing"
            "duplicate failure erased independent ticker failure") missing)
  end.

(** ** Invariants 61 to 77: terminal states, ranking, risk flags, text bounds *)

Definition invariant_061 (ctx : ValidationContext) : InvariantCheck :=
  passed 61 "partition equation is not applied during schema failure"
    "the partition validator skips schema_failure".

Definition invariant_062 (ctx : ValidationContext) : InvariantCheck :=
  traced 62 "ticker validation and duplicate detection precede blockers" "requires staged validation trace"
    "validation_trace" "operational blockers ran too early"
    (md_operational_blockers_after_schema_validation (cx_metadata ctx)).

Definition both_failures_and_blockers (o : DaybreakOutput) : bool :=
  nonempty (do_schema_failures o) && nonempty (do_run_blockers o).

Definition invariant_063 (ctx : ValidationContext) : InvariantCheck :=
  let name := "operational blockers do not suppress eligible schema failures" in
  if both_failures_and_blockers (cx_output ctx) then
    checked 63 name [violation 63 "run_blockers" "empty" (HTuple (map show (do_run_blockers (cx_output ctx))))
                       "blocker coexists with schema failure"]
  else passed_silently 63 name.

Definition invariant_064 (ctx : ValidationContext) : InvariantCheck :=
  let name := "schema failure status has nonempty failures and empty blockers" in
  let o := cx_output ctx in
  if nonempty (do_schema_failures o) then
    let condition := bool_decide (do_run_status o = RS_SCHEMA_FAILURE) && negb (nonempty (do_run_blockers o)) in
    checked 64 name (unless condition
      (violation 64 "run status/arrays" "schema_failure + failures + no blockers" (do_run_status o)
         "schema failure terminal state mismatch"))
  else passed_silently 64 name.

Definition invariant_065 (ctx : ValidationContext) : InvariantCheck :=
  checked 65 "schema_failures and run_blockers are mutually exclusive"
    (unless (negb (both_failures_and_blockers (cx_output ctx)))
       (violation 65 "top-level arrays" "not both nonempty" "both nonempty"
          "failure/blocker exclusivity violated")).

Definition invariant_066 (ctx : ValidationContext) : InvariantCheck :=
  let name := "operational blockers run only after eligible schema phases pass" in
  match md_operational_blockers_after_schema_validation (cx_metadata ctx) with
  | None =>
      if both_failures_and_blockers (cx_output ctx) then
        checked 66 name [violation 66 "top-level arrays" "schema valid before blockers"
                           "schema failures present" "blocker evaluated on schema-invalid run"]
      else not_evaluated 66 name "requires staged validation trace for affirmative proof"
  | Some value =>
      checked 66 name (unless value (violation 66 "validation_trace" true value "blocker phase order mismatch"))
  end.

Definition passing_tickers (o : DaybreakOutput) : list string := approved_tickers o ++ qualified_tickers o.

(** The ticker at rank [index] of the expected order must be approved up to
    rank three, and be qualified under that rank after it. *)
Definition rank_violations (o : DaybreakOutput) (index : Z) (ticker : string) : list InvariantViolation :=
  (if (index <=? 3) && negb (bool_decide (ticker ∈ approved_tickers o)) then
     [violation 67 ticker "approved rank 1-3" "not approved" "top-three ticker routed incorrectly"]
   else [])
  ++ (if 4 <=? index then
        let item := find (λ q, String.eqb (qn_ticker q) ticker) (do_qualified_not_selected o) in
        if match item with None => true | Some q => negb (qn_final_rank q =? index) end then
          [violation 67 ticker ("qualified rank " +:+ int_string index) (qn_final_rank <$> item)
             "rank-4+ ticker routed or ranked incorrectly"]
        else []
      else []).

Definition invariant_067 (ctx : ValidationContext) : InvariantCheck :=
  let name := "passing records are split by final rank into approved and qualified" in
  let o := cx_output ctx in
  let ordered := expected_passing_order o in
  checked 67 name
    (differs 67 "passing order" ordered (passing_tickers o)
       "passing records are not in deterministic rank order"
     ++ mjoin (imap (λ i ticker, rank_violations o (Z.of_nat i + 1) ticker) ordered)).

Definition invariant_068 (ctx : ValidationContext) : InvariantCheck :=
  passed 68 "qualified-not-selected records have the exact non-executable shape"
    "enforced by QualifiedNotSelected with extra=forbid".

Definition invariant_069 (ctx : ValidationContext) : InvariantCheck :=
  checked 69 "parabolic risk flag appears iff parabolic adjustment applies"
    (for_records ctx (λ ticker record,
       let adjusted := sb_parabolic_adjusted (score_of record) in
       let has_flag := bool_decide (RF_PARABOLIC ∈ risk_flags_of record) in
       differs 69 ticker adjusted has_flag "parabolic flag equivalence failed")).

(** [[RISK_FLAG_ORDER.index(flag) for flag in flags]]; None for a ValueError. *)
Fixpoint flag_indexes (flags : list RiskFlag) : option (list Z) :=
  match flags with
  | [] => Some []
  | f :: flags' =>
      match flag_index_in RISK_FLAG_ORDER f, flag_indexes flags' with
      | Some i, Some l => Some (i :: l)
      | _, _ => None
      end
  end.

Definition flag_violations (ticker : string) (flags : list RiskFlag) : list InvariantViolation :=
  if negb (no_dup flags) then [violation 70 ticker "unique risk flags" flags "duplicate risk flag"]
  else match flag_indexes flags with
       | None => [violation 70 ticker (HTuple (map show RISK_FLAG_ORDER)) flags "unsupported risk flag"]
       | Some indexes =>
           unless (is_sorted_Z indexes)
             (violation 70 ticker "canonical order" flags "risk flags are out of order")
       end.

Definition invariant_070 (ctx : ValidationContext) : InvariantCheck :=
  checked 70 "risk flags are allowed, unique, and canonically ordered"
    (for_records ctx (λ ticker record, flag_violations ticker (risk_flags_of record))).

Definition invariant_071 (ctx : ValidationContext) : InvariantCheck :=
  let name := "evidence indexing uses decoded Unicode code points" in
  let result := evidence_checks ctx 23 EM_BOUNDS in
  match ic_status result with
  | CK_NOT_EVALUATED =>
      not_evaluated 71 name
        (match ic_note result with
         | Some note => if String.eqb note "" then "valid input required" else note
         | None => "valid input required"
         end)
  | _ => checked 71 name (map (renumber 71) (ic_violations result))
  end.

(** A schema failure's ticker is a string or null by its type. *)
Definition invariant_072 (ctx : ValidationContext) : InvariantCheck :=
  checked 72 "schema-failure ticker is exact supplied string or null"
    (mjoin (imap (λ index f,
       let is_string := match sf_ticker f with Some _ => true | None => false end in
       if is_some (sf_ticker f) && negb is_string then
         [violation 72 ("schema_failures[" +:+ int_string (Z.of_nat index) +:+ "].ticker") "string or null"
            "not a string" "schema-failure ticker was coerced"]
       else []) (do_schema_failures (cx_output ctx)))).

Definition invariant_073 (ctx : ValidationContext) : InvariantCheck :=
  checked 73 "evidence purpose explicitly identifies the evidence target"
    (for_records ctx (λ ticker record,
       let score := score_of record in
       let expected := match sb_catalyst_zero_reason score with
         | Some CZ_DISQUALIFIER_FLAG => EP_DISQUALIFIER
         | Some CZ_NO_VALID_DRIVER => EP_NONE
         | _ => EP_MAGNITUDE
         end in
       differs 73 ticker expected (sb_evidence_purpose score)
         "evidence purpose does not match the selected evidence target")).

Definition invariant_074 (ctx : ValidationContext) : InvariantCheck :=
  passed 74 "unknown fields are rejected at every input and output object level"
    "enforced by StrictFrozenModel extra=forbid and recursive provider schemas".

Definition bound_violations (entry : TickerInput) : list InvariantViolation :=
  let news := ti_news_context entry in
  unless (between 1 4000 (len (nc_catalyst_text news)))
    (violation 75 (ti_ticker entry +:+ ".catalyst_text") "1..4000 code points" (len (nc_catalyst_text news))
       "catalyst text bound violated")
  ++ unless (between 1 256 (len (nc_source_name news)))
       (violation 75 (ti_ticker entry +:+ ".source_name") "1..256 code points" (len (nc_source_name news))
          "source-name bound violated")
  ++ unless ((len (nc_disqualifier_flags news) <=? 5) && no_dup (nc_disqualifier_flags news))
       (violation 75 (ti_ticker entry +:+ ".disqualifier_flags") "<=5 unique values"
          (nc_disqualifier_flags news) "disqualifier bound or uniqueness violated").

Definition invariant_075 (ctx : ValidationContext) : InvariantCheck :=
  let name := "schema-valid input satisfies bounded external-text and candidate limits" in
  with_input ctx 75 name input_required (λ payload,
    let n := len (di_tickers payload) in
    checked 75 name
      (unless (n <=? 25) (violation 75 "tickers" "<= 25" n "candidate limit exceeded")
       ++ mjoin (map bound_violations (di_tickers payload)))).

Definition invariant_076 (ctx : ValidationContext) : InvariantCheck :=
  let name := "premarket low is not above current price" in
  with_input ctx 76 name input_required (λ payload,
    checked 76 name (mjoin (map (λ entry,
      let tech := ti_technical_context entry in
      if (tc_current_price tech <? tc_premarket_low tech)%dec then
        [violation 76 (ti_ticker entry +:+ ".technical_context.premarket_low")
           ("<= " +:+ float_repr (tc_current_price tech)) (tc_premarket_low tech)
           "premarket low exceeds current price"]
      else []) (di_tickers payload)))).

Definition invariant_077 (ctx : ValidationContext) : InvariantCheck :=
  let o := cx_output ctx in
  checked 77 "freshness tie groups include exact two-point differences"
    (differs 77 "passing order" (expected_passing_order o) (passing_tickers o)
       "inclusive fixed-anchor two-point tie grouping mismatch").

(** INVARIANT_REGISTRY, in the order of its numbers. *)
Definition INVARIANT_REGISTRY : list (ValidationContext → InvariantCheck) :=
  [invariant_001; invariant_002; invariant_003; invariant_004; invariant_005; invariant_006; invariant_007;
   invariant_008; invariant_009; invariant_010; invariant_011; invariant_012; invariant_013; invariant_014;
   invariant_015; invariant_016; invariant_017; invariant_018; invariant_019; invariant_020; invariant_021;
   invariant_022; invariant_023; invariant_024; invariant_025; invariant_026; invariant_027; invariant_028;
   invariant_029; invariant_030; invariant_031; invariant_032; invariant_033; invariant_034; invariant_035;
   invariant_036; invariant_037; invariant_038; invariant_039; invariant_040; invariant_041; invariant_042;
   invariant_043; invariant_044; invariant_045; invariant_046; invariant_047; invariant_048; invariant_049;
   invariant_050; invariant_051; invariant_052; invariant_053; invariant_054; invariant_055; invariant_056;
   invariant_057; invariant_058; invariant_059; invariant_060; invariant_061; invariant_062; invariant_063;
   invariant_064; invariant_065; invariant_066; invariant_067; invariant_068; invariant_069; invariant_070;
   invariant_071; invariant_072; invariant_073; invariant_074; invariant_075; invariant_076; invariant_077].

Definition run_checks (ctx : ValidationContext) : list InvariantCheck :=
  map (λ f, f ctx) INVARIANT_REGISTRY.
