(* ===== verification/ValidationRun.v ===== *)
(** * ValidationRun: the validation of a whole evaluator run

    validate_daybreak_run of daybreak_contracts/validation/runner.py.  Parsing
    JSON text or a dict into a model is pydantic's, a parameter; the report is
    computed by the 77 checks of Invariants.v.  The theorems say what a report
    that is valid, or execution-ready, proves about the run. *)
From Stdlib Require Import Ascii String Permutation QArith.
From S2P Require Import Prelude Numerics PyStr PyTime Contracts Replay Canonical Invariants.

#[local] Open Scope Z_scope.

(** ** The runner *)

(** An argument that is a model, a dict, or JSON text. *)
Inductive source (A : Type) :=
  | SModel (a : A)
  | SDict (d : raw_dict)
  | SText (s : string).
Arguments SModel {A} a.
Arguments SDict {A} d.
Arguments SText {A} s.

(** [model_type.model_validate_json] of the text, or of the dict's JSON text. *)
Class Parse (A : Type) := {
  parse_text : string → result A;
  parse_dict : raw_dict → result A;
}.

Definition parse_model {A} `{Parse A} (value : source A) : result A :=
  match value with SModel a => Ok a | SText s => parse_text s | SDict d => parse_dict d end.

Definition raw_of {A} (value : source A) : option raw_dict :=
  match value with SDict d => Some d | _ => None end.

(** [except (ValidationError, ValueError, TypeError)]. *)
Definition parse_error (e : exn) : bool := is_value_error e || bool_decide (e = ETypeError).

(** A model error keeps the exception whose text the report carries. *)
Inductive ModelError := InputError (e : exn) | OutputError (e : exn).

Record ValidationReport := {
  vr_valid : bool;
  vr_execution_ready : bool;
  vr_model_errors : list ModelError;
  vr_checks : list InvariantCheck;
}.

Definition EXECUTION_EVIDENCE_INVARIANTS : list Z := [15; 41; 44; 62; 66].

Definition has_status (s : CheckStatus) (c : InvariantCheck) : bool := bool_decide (ic_status c = s).

(** ValidationReport.failures and .not_evaluated. *)
Definition failures (r : ValidationReport) : list InvariantCheck :=
  filter (λ c, ic_status c = CK_FAIL) (vr_checks r).
Definition unevaluated (r : ValidationReport) : list InvariantCheck :=
  filter (λ c, ic_status c = CK_NOT_EVALUATED) (vr_checks r).

Definition evidence_missing (c : InvariantCheck) : bool :=
  bool_decide (ic_invariant_number c ∈ EXECUTION_EVIDENCE_INVARIANTS) && has_status CK_NOT_EVALUATED c.

(** The part of the runner after both models are parsed. *)
Definition report_on (ctx : ValidationContext) (model_errors : list ModelError)
    (require_execution_evidence : bool) : ValidationReport :=
  let checks := run_checks ctx in
  let failed := existsb (has_status CK_FAIL) checks in
  let missing_execution_evidence := existsb evidence_missing checks in
  let valid := negb (nonempty model_errors) && negb failed in
  let execution_ready := valid && negb missing_execution_evidence in
  {| vr_valid := if require_execution_evidence then execution_ready else valid;
     vr_execution_ready := execution_ready; vr_model_errors := model_errors; vr_checks := checks |}.

Section runner.
Context `{Parse DaybreakInput} `{Parse DaybreakOutput} `{Parse ValidationMetadata}.

(** The parsed input and the error of parsing it, if any. *)
Definition parse_input (input_payload : option (source DaybreakInput))
    : result (option DaybreakInput * option exn) :=
  match input_payload with
  | None => Ok (None, None)
  | Some value =>
      match parse_model value with
      | Ok payload => Ok (Some payload, None)
      | Err e => if parse_error e then Ok (None, Some e) else Err e
      end
  end.

Definition parse_metadata (metadata : option (source ValidationMetadata)) : result ValidationMetadata :=
  match metadata with None => Ok no_metadata | Some value => parse_model value end.

Definition validate_daybreak_run (input_payload : option (source DaybreakInput))
    (output : source DaybreakOutput) (metadata : option (source ValidationMetadata))
    (require_execution_evidence : bool) : result ValidationReport :=
  '(parsed_input, input_error) ← parse_input input_payload;
  match parse_model output with
  | Err e =>
      if parse_error e then
        Ok {| vr_valid := false; vr_execution_ready := false; vr_model_errors := [OutputError e];
              vr_checks := [] |}
      else Err e
  | Ok parsed_output =>
      let model_errors := match input_error with
        | Some e => if decide (do_run_status parsed_output = RS_SCHEMA_FAILURE) then [] else [InputError e]
        | None => []
        end in
      parsed_metadata ← parse_metadata metadata;
      Ok (report_on
            {| cx_input_payload := parsed_input; cx_output := parsed_output;
               cx_raw_input := input_payload ≫= raw_of; cx_raw_output := raw_of output;
               cx_metadata := parsed_metadata |}
            model_errors require_execution_evidence)
  end.
End runner.

(** ** Every check reports under its own number *)

(** Violations are numbered [n]. *)
Definition numbered (n : Z) (l : list InvariantViolation) : Prop :=
  Forall (λ v, iv_invariant_number v = n) l.

(** A check numbered [n] fails exactly when it has violations, all numbered
    [n]; one that is not evaluated says why. *)
Record sound_check (n : Z) (c : InvariantCheck) : Prop := {
  sc_number : ic_invariant_number c = n;
  sc_fail : ic_status c = CK_FAIL ↔ ic_violations c ≠ [];
  sc_violations : numbered n (ic_violations c);
  sc_note : ic_status c = CK_NOT_EVALUATED → is_some (ic_note c) = true;
}.

Lemma sound_passed n name note : sound_check n (passed_note n name note).
Proof. split; simpl; [done | by split | constructor | done]. Qed.

Lemma sound_not_evaluated n name note : sound_check n (not_evaluated n name note).
Proof. split; simpl; [done | by split | constructor | done]. Qed.

Lemma sound_checked n name l : numbered n l → sound_check n (checked n name l).
Proof. intros Hl. split; simpl; [done | | done |]; by destruct l. Qed.

Lemma sound_with_input ctx n name note k :
  (∀ p, sound_check n (k p)) → sound_check n (with_input ctx n name note k).
Proof. intros Hk. unfold with_input. destruct (cx_input_payload ctx); [apply Hk | apply sound_not_evaluated]. Qed.

Lemma numbered_nil n : numbered n [].
Proof. constructor. Qed.

Lemma numbered_cons {A B} `{Show A} `{Show B} n p (e : A) (o : B) m l :
  numbered n l → numbered n (violation n p e o m :: l).
Proof. by constructor. Qed.

Lemma numbered_app n l k : numbered n l → numbered n k → numbered n (l ++ k).
Proof. intros. by apply Forall_app. Qed.

Lemma numbered_flat {A} n (f : A → list InvariantViolation) l :
  (∀ x, numbered n (f x)) → numbered n (mjoin (map f l)).
Proof. intros Hf. induction l as [|x l IH]; simpl; [constructor|]. by apply numbered_app. Qed.

Lemma numbered_imap {A} n (f : nat → A → list InvariantViolation) l :
  (∀ i x, numbered n (f i x)) → numbered n (mjoin (imap f l)).
Proof.
  revert f. induction l as [|x l IH]; intros f Hf; simpl; [constructor|].
  apply numbered_app; [apply Hf | apply IH; intros; apply Hf].
Qed.

Lemma numbered_map {A} n (f : A → InvariantViolation) l :
  (∀ x, iv_invariant_number (f x) = n) → numbered n (map f l).
Proof. intros Hf. induction l; simpl; constructor; auto. Qed.

Lemma numbered_records n ctx f : (∀ t r, numbered n (f t r)) → numbered n (for_records ctx f).
Proof. intros Hf. apply numbered_flat. intros [t r]. apply Hf. Qed.

Lemma numbered_entries n ctx p f : (∀ t r e, numbered n (f t r e)) → numbered n (for_entries ctx p f).
Proof.
  intros Hf. apply numbered_records. intros t r. destruct (input_by_ticker p !! t); [apply Hf | constructor].
Qed.

Lemma numbered_differs {A} `{EqDecision A} `{Show A} n p (e o : A) m : numbered n (differs n p e o m).
Proof. unfold differs. destruct (decide _); repeat constructor. Qed.

Lemma numbered_unless n c v : iv_invariant_number v = n → numbered n (unless c v).
Proof. intros Hv. destruct c; repeat constructor. done. Qed.

Create HintDb checks.
#[export] Hint Resolve sound_passed sound_not_evaluated sound_checked : checks.
#[export] Hint Resolve numbered_nil numbered_cons numbered_app numbered_differs : checks.

(** Follow the structure of a check. *)
Ltac sound :=
  repeat first
  [ apply sound_with_input; intros ?
  | apply sound_passed | apply sound_not_evaluated | apply sound_checked
  | apply numbered_nil | apply numbered_cons | apply numbered_differs
  | apply numbered_app | apply numbered_unless; reflexivity
  | apply numbered_entries; intros ???
  | apply numbered_records; intros ??
  | apply numbered_flat; intros ?
  | apply numbered_imap; intros ??
  | apply numbered_map; intros ?; reflexivity
  | match goal with
    | |- sound_check _ (if ?c then _ else _) => destruct c
    | |- sound_check _ (match ?c with _ => _ end) => destruct c
    | |- numbered _ (if ?c then _ else _) => destruct c
    | |- numbered _ (match ?c with _ => _ end) => destruct c
    end
  | progress cbv zeta beta ].

Lemma sound_traced n name note path message v : sound_check n (traced n name note path message v).
Proof. unfold traced. sound. Qed.

Lemma sound_evidence ctx n mode : sound_check n (evidence_checks ctx n mode).
Proof. unfold evidence_checks. sound. unfold evidence_violations. destruct mode; sound. Qed.

Lemma sound_volume ctx n f v name : sound_check n (check_volume_rule ctx n f v name).
Proof. unfold check_volume_rule. sound. Qed.

Lemma sound_zero_reason ctx n name note m : sound_check n (zero_reason_check ctx n name note m).
Proof. unfold zero_reason_check. sound. Qed.

Lemma sound_chart ctx n mode : sound_check n (check_chart_reachability ctx n mode).
Proof. unfold check_chart_reachability. sound. unfold chart_violations. destruct mode; sound. Qed.

Lemma sound_renumbered n m c name : sound_check n c → ic_status c ≠ CK_NOT_EVALUATED →
  sound_check m {| ic_invariant_number := m; ic_name := name; ic_status := ic_status c;
                   ic_violations := map (renumber m) (ic_violations c); ic_note := ic_note c |}.
Proof.
  intros [_ Hf _ _] Hs. split; simpl; [done | | by apply numbered_map | done].
  rewrite Hf. by destruct (ic_violations c).
Qed.

Lemma sound_048 ctx : sound_check 48 (invariant_048 ctx).
Proof.
  apply (sound_renumbered 31 48 (invariant_031 ctx)).
  - unfold invariant_031, override_violations. sound.
  - simpl. by destruct (nonempty _).
Qed.

Lemma sound_071 ctx : sound_check 71 (invariant_071 ctx).
Proof. unfold invariant_071. sound. Qed.

(** Unfold a check to its structure. *)
Ltac sound_invariant :=
  match goal with |- sound_check _ (?f _) => unfold f end;
  first [ apply sound_traced | apply sound_evidence | apply sound_volume | apply sound_zero_reason
        | apply sound_chart | cbv zeta; sound ];
  unfold excluded_reason_violations, passing_gate_violations, conviction_violations, trade_violations,
    score_field_violations, invisible_violations, override_violations, bucket_violations, repaired_echo,
    rank_violations, flag_violations, bound_violations;
  sound.

Lemma registry_sound ctx : Forall2 (λ n f, sound_check n (f ctx)) (seqZ 1 77) INVARIANT_REGISTRY.
Proof.
  unfold INVARIANT_REGISTRY, seqZ. simpl.
  repeat (apply Forall2_cons; split; [first [apply sound_048 | apply sound_071 | sound_invariant]|]).
  constructor.
Qed.

Lemma run_checks_sound ctx : Forall2 sound_check (seqZ 1 77) (run_checks ctx).
Proof. apply Forall2_fmap_r. apply registry_sound. Qed.

(** ** What a check that did not fail proves *)

Definition holds_in (ctx : ValidationContext) (f : ValidationContext → InvariantCheck) : Prop :=
  ic_status (f ctx) ≠ CK_FAIL.

Lemma checked_holds n name l : ic_status (checked n name l) ≠ CK_FAIL → l = [].
Proof. simpl. by destruct l. Qed.

Lemma with_input_holds ctx n name note k p :
  cx_input_payload ctx = Some p → ic_status (with_input ctx n name note k) ≠ CK_FAIL →
  ic_status (k p) ≠ CK_FAIL.
Proof. unfold with_input. by intros ->. Qed.

Lemma mjoin_map_nil {A B} (f : A → list B) l : mjoin (map f l) = [] → ∀ x, x ∈ l → f x = [].
Proof.
  induction l as [|y l IH]; simpl; [set_solver|].
  intros [Hy Hl]%app_nil x [->|Hx]%elem_of_cons; auto.
Qed.

Lemma for_records_nil ctx f t r :
  for_records ctx f = [] → (t, r) ∈ terminal_records (cx_output ctx) → f t r = [].
Proof. intros Hf Hr. by apply (mjoin_map_nil _ _ Hf (t, r)). Qed.

Lemma for_entries_nil ctx p f t r e :
  for_entries ctx p f = [] → (t, r) ∈ terminal_records (cx_output ctx) →
  input_by_ticker p !! t = Some e → f t r e = [].
Proof. intros Hf Hr He. apply (for_records_nil _ _ t r) in Hf; [|done].
  cbv zeta beta in Hf. by rewrite He in Hf.
Qed.

Lemma mjoin_imap_nil {A B} (f : nat → A → list B) l i x :
  mjoin (imap f l) = [] → l !! i = Some x → f i x = [].
Proof.
  revert f i. induction l as [|y l IH]; intros f i; simpl; [done|].
  intros [Hy Hl]%app_nil Hi. destruct i as [|i]; simpl in Hi; [by injection Hi as <-|].
  exact (IH _ _ Hl Hi).
Qed.

(** A list in which the pairs of every key number at most one has distinct
    keys. *)
Lemma NoDup_by_count {A B} `{EqDecision A} (l : list (A * B)) :
  (∀ a, a ∈ map fst l → (length (filter (λ x, x.1 = a) l) <= 1)%nat) → NoDup (map fst l).
Proof.
  induction l as [|[a b] l IH]; simpl; intros Hc; [constructor|]. constructor.
  - intros Ha. specialize (Hc a (list_elem_of_here _ _)). rewrite filter_cons_True in Hc by done.
    apply list_elem_of_fmap in Ha as ([a' b'] & -> & Hx). simpl in *.
    apply le_S_n, Nat.le_0_r, length_zero_iff_nil in Hc.
    assert ((a', b') ∈ @nil (A * B)) as Hf by (rewrite <- Hc; by apply list_elem_of_filter).
    by apply elem_of_nil in Hf.
  - apply IH. intros a' Ha'. etrans; [|apply (Hc a'); by constructor].
    rewrite filter_cons. case_decide; [apply Nat.le_succ_diag_r | done].
Qed.

Lemma differs_nil {A} `{EqDecision A} `{Show A} n p (e o : A) m : differs n p e o m = [] → o = e.
Proof. unfold differs. by destruct (decide (o = e)). Qed.

Lemma unless_nil c v : unless c v = [] → c = true.
Proof. by destruct c. Qed.

Lemma input_lookup p t e : input_by_ticker p !! t = Some e → e ∈ di_tickers p ∧ ti_ticker e = t.
Proof.
  intros He. apply elem_of_list_to_map_2 in He. rewrite elem_of_reverse in He.
  apply list_elem_of_fmap in He as (e' & [= -> ->] & He). done.
Qed.

(** ** The replayed score *)

(** The reported score has exactly the fields the rules give. *)
Record score_agrees (s : ScoreBreakdown) (x : ExpectedScore) : Prop := {
  ag_source : sb_source_quality_points s = xs_source_quality_points x;
  ag_magnitude : sb_catalyst_magnitude_points s = xs_catalyst_magnitude_points x;
  ag_override : sb_catalyst_zero_override s = xs_catalyst_zero_override x;
  ag_reason : sb_catalyst_zero_reason s = xs_catalyst_zero_reason x;
  ag_purpose : sb_evidence_purpose s = xs_evidence_purpose x;
  ag_raw : sb_catalyst_score_raw s = xs_catalyst_score_raw x;
  ag_points : sb_catalyst_points s = xs_catalyst_points x;
  ag_volume : sb_volume_points s = xs_volume_points x;
  ag_grade : sb_technical_grade s = xs_technical_grade x;
  ag_base : sb_technical_base_points s = xs_technical_base_points x;
  ag_technical : sb_technical_points s = xs_technical_points x;
  ag_parabolic : sb_parabolic_adjusted s = xs_parabolic_adjusted x;
}.

(** The quoted evidence really is in the catalyst text: verbatim, and equal to
    the span its offsets name (its first 200 code points when truncated). *)
Definition evidence_grounded (s : ScoreBreakdown) (txt : text) : Prop :=
  let excerpt := sb_magnitude_evidence_excerpt s in
  (excerpt ≠ [] → ∃ before after, txt = before ++ excerpt ++ after) ∧
  match sb_magnitude_evidence_start_char s, sb_magnitude_evidence_end_char s with
  | Some a, Some b =>
      0 <= a < b ∧ b <= len txt ∧
      let span := take (Z.to_nat (b - a)) (drop (Z.to_nat a) txt) in
      if sb_magnitude_evidence_truncated s then 200 < len span ∧ excerpt = take 200 span
      else excerpt = span
  | None, None => sb_magnitude_evidence_truncated s = false
  | _, _ => False
  end.

Lemma py_slice_in {A} (l : list A) a b :
  0 <= a → a < b → b <= len l → py_slice l a b = take (Z.to_nat (b - a)) (drop (Z.to_nat a) l).
Proof.
  unfold len. intros Ha Hab Hb. unfold py_slice, slice_index.
  rewrite (proj2 (Z.ltb_ge a 0)), (proj2 (Z.ltb_ge b 0)) by lia.
  by rewrite !Z.min_l by lia.
Qed.

Lemma py_slice_200 {A} (l : list A) : 200 < len l → py_slice l 0 200 = take 200 l.
Proof. intros Hl. rewrite py_slice_in by lia. done. Qed.

Section valid_context.
Context (ctx : ValidationContext) (payload : DaybreakInput).
Context (Hin : cx_input_payload ctx = Some payload).
Context (Hall : Forall (holds_in ctx) INVARIANT_REGISTRY).

Lemma holds_at (i : nat) f : INVARIANT_REGISTRY !! i = Some f → ic_status (f ctx) ≠ CK_FAIL.
Proof. intros Hi. by eapply Forall_lookup_1 in Hall. Qed.

(** Invariant [f] is entry [i]; open it on the parsed input. *)
Ltac use i f H :=
  pose proof (holds_at i f eq_refl) as H; unfold f in H;
  try (eapply with_input_holds in H; [|exact Hin]).

Section record.
Context (t : string) (r : TerminalRecord) (e : TickerInput).
Context (Hr : (t, r) ∈ terminal_records (cx_output ctx)) (He : input_by_ticker payload !! t = Some e).
Abbreviation s := (score_of r).
Abbreviation x := (expected_score_fields payload e s).

Lemma replay_parts :
  score_field_violations (score_path r t) s x = [] ∧
  risk_flags_of r = xs_risk_flags x ∧ conviction_violations t r = [] ∧ trade_violations t r e = [].
Proof using Hin Hall Hr He.
  use 16%nat invariant_017 H. apply checked_holds in H.
  eapply for_entries_nil in H; [|exact Hr|exact He]. cbv zeta in H.
  apply app_nil in H as [H1 H]. apply app_nil in H as [H2%differs_nil H].
  apply app_nil in H as [H3 H4]. done.
Qed.

Lemma evidence_purpose_replayed : sb_evidence_purpose s = expected_evidence_purpose (sb_catalyst_zero_reason s).
Proof using Hin Hall Hr.
  use 72%nat invariant_073 H. apply checked_holds in H.
  eapply for_records_nil in H; [|exact Hr]. cbv zeta in H. by apply differs_nil in H.
Qed.

Lemma score_replayed : score_agrees s x.
Proof using Hin Hall Hr He.
  pose proof replay_parts as (H & _). unfold score_field_violations in H.
  repeat (let K := fresh "K" in apply app_nil in H as [K H]; apply differs_nil in K).
  apply differs_nil in H. split; try done.
  rewrite evidence_purpose_replayed, K2. done.
Qed.

Lemma conviction_replayed c :
  conviction_of r = Some c → c = sb_catalyst_points s + sb_volume_points s + sb_technical_points s.
Proof using Hin Hall Hr He.
  intros Hc. pose proof replay_parts as (_ & _ & H & _). unfold conviction_violations in H.
  rewrite Hc in H. by apply differs_nil in H.
Qed.

Lemma evidence_at (n : nat) num mode :
  INVARIANT_REGISTRY !! n = Some (λ c, evidence_checks c num mode) →
  evidence_violations num mode (score_path r t) s (nc_catalyst_text (ti_news_context e)) = [].
Proof using Hin Hall Hr He.
  intros Hn. pose proof (holds_at n _ Hn) as H. unfold evidence_checks in H.
  eapply with_input_holds in H; [|exact Hin]. apply checked_holds in H.
  by eapply for_entries_nil in H.
Qed.

Lemma evidence_replayed : evidence_grounded s (nc_catalyst_text (ti_news_context e)).
Proof using Hin Hall Hr He.
  pose proof (evidence_at 18 19 EM_SUBSTRING eq_refl) as H1.
  pose proof (evidence_at 19 20 EM_FULL eq_refl) as H2.
  pose proof (evidence_at 20 21 EM_TRUNCATED eq_refl) as H3.
  pose proof (evidence_at 21 22 EM_PAIR eq_refl) as H4.
  pose proof (evidence_at 22 23 EM_BOUNDS eq_refl) as H5.
  unfold evidence_violations in *. apply unless_nil, eqb_prop in H4. split.
  - intros Hne. apply text_in_spec. destruct (text_in _ _) eqn:Hin'; [done|].
    destruct (sb_magnitude_evidence_excerpt s); done.
  - destruct (sb_magnitude_evidence_start_char s) as [a|], (sb_magnitude_evidence_end_char s) as [b|];
      try done; [|by destruct (sb_magnitude_evidence_truncated s)].
    apply unless_nil in H5. bool_to_prop. split; [done|]. split; [done|].
    destruct (sb_magnitude_evidence_truncated s).
    + rewrite py_slice_in in H3 by lia. cbv zeta in H3.
      destruct (len _ <=? 200) eqn:Hlen; [done|]. bool_to_prop. split; [done|].
      rewrite py_slice_200 in H3 by done. simpl in H3.
      by destruct (bool_decide _) eqn:Hb in H3; [bool_to_prop | done].
    + cbv zeta in H2. apply unless_nil in H2. bool_to_prop. by rewrite py_slice_in in H2 by lia.
Qed.
End record.

Lemma trade_echoed a e :
  a ∈ do_approved_setups (cx_output ctx) → input_by_ticker payload !! as_ticker a = Some e →
  let tech := ti_technical_context e in let trade := as_trade_parameters a in
  (dval (tp_reference_price trade) == dval (tc_current_price tech))%Q ∧
  (dval (tp_atr_value_used trade) == dval (tc_atr_value tech))%Q ∧
  (dval (tp_premarket_low_used trade) == dval (tc_premarket_low tech))%Q.
Proof using Hin Hall.
  intros Ha He. assert ((as_ticker a, TApproved a) ∈ terminal_records (cx_output ctx)) as Hr.
  { apply elem_of_app. left. apply list_elem_of_fmap. eauto. }
  destruct (replay_parts _ _ _ Hr He) as (_ & _ & _ & H). simpl in H.
  apply unless_nil in H. unfold trade_echo in H. bool_to_prop.
  cbv zeta. split_and!; by apply deqb_spec.
Qed.

(** *** The partition *)

Lemma terminal_unique : NoDup (mjoin (map snd (terminal_symbols ctx))).
Proof using Hin Hall.
  use 0%nat invariant_001 H. apply checked_holds in H.
  set (pairs := mjoin (map (λ c, map (λ s, (s, c.1)) c.2) (terminal_symbols ctx))) in H.
  assert (mjoin (map snd (terminal_symbols ctx)) = map fst pairs) as ->.
  { unfold pairs, terminal_symbols. simpl. by rewrite !map_app, !map_map, !map_id, !app_nil_r. }
  apply NoDup_by_count. intros symbol Hs.
  eapply mjoin_map_nil in H; [|apply elem_of_unique_from; split; [exact Hs | apply not_elem_of_nil]].
  cbv beta in H. rewrite length_map in H. destruct (1 <? _)%nat eqn:E in H; [done|].
  by apply Nat.ltb_ge in E.
Qed.

Definition trading_tickers (o : DaybreakOutput) : list string :=
  approved_tickers o ++ qualified_tickers o ++ excluded_symbols o.

Lemma trading_unique : NoDup (trading_tickers (cx_output ctx)).
Proof using Hin Hall.
  pose proof terminal_unique as H. unfold terminal_symbols in H. simpl in H.
  rewrite app_nil_r, !app_assoc in H. apply NoDup_app in H as [H _].
  unfold trading_tickers. by rewrite app_assoc.
Qed.

Lemma excluded_decided x :
  x ∈ do_excluded_tickers (cx_output ctx) →
  ∃ e, input_by_ticker payload !! ex_ticker x = Some e ∧
    expected_failed_gates e (sb_catalyst_score_raw (es_score (ex_evaluation_snapshot x)))
    = ex_primary_reason x :: ex_additional_reasons x.
Proof using Hin Hall.
  intros Hx. use 2%nat invariant_003 H. apply checked_holds in H.
  eapply mjoin_map_nil in H; [|exact Hx]. unfold excluded_reason_violations in H.
  destruct (input_by_ticker payload !! ex_ticker x) as [e|]; [|done]. exists e. split; [done|].
  cbv zeta in H. destruct (nonempty _); [|done]. by apply differs_nil in H.
Qed.

Lemma passing_decided t raw :
  (t, raw) ∈ map (λ a, (as_ticker a, sb_catalyst_score_raw (as_score_breakdown a)))
               (do_approved_setups (cx_output ctx))
             ++ map (λ q, (qn_ticker q, sb_catalyst_score_raw (qn_score_breakdown q)))
               (do_qualified_not_selected (cx_output ctx)) →
  ∃ e, input_by_ticker payload !! t = Some e ∧ expected_failed_gates e raw = [].
Proof using Hin Hall.
  intros Hx. use 3%nat invariant_004 H. cbv zeta in H. apply checked_holds in H.
  eapply mjoin_map_nil in H; [|exact Hx]. unfold passing_gate_violations in H. simpl in H.
  destruct (input_by_ticker payload !! t) as [e|]; [|done]. exists e. split; [done|].
  by destruct (expected_failed_gates e raw).
Qed.

Lemma trading_in_input t :
  t ∈ trading_tickers (cx_output ctx) → ∃ e, input_by_ticker payload !! t = Some e.
Proof using Hin Hall.
  unfold trading_tickers, approved_tickers, qualified_tickers, excluded_symbols.
  rewrite !elem_of_app, !list_elem_of_fmap. intros [(a & -> & Ha)|[(q & -> & Hq)|(x & -> & Hx)]].
  - destruct (passing_decided (as_ticker a) (sb_catalyst_score_raw (as_score_breakdown a))) as (e & He & _).
    { apply elem_of_app. left. apply list_elem_of_fmap. eauto. }
    eauto.
  - destruct (passing_decided (qn_ticker q) (sb_catalyst_score_raw (qn_score_breakdown q))) as (e & He & _).
    { apply elem_of_app. right. apply list_elem_of_fmap. eauto. }
    eauto.
  - destruct (excluded_decided x Hx) as (e & He & _). eauto.
Qed.

Lemma status_expected : do_run_status (cx_output ctx) = expected_status payload (cx_output ctx).
Proof using Hin Hall.
  use 13%nat invariant_014 H. cbv zeta in H. rewrite Hin in H. apply checked_holds in H.
  by apply differs_nil in H.
Qed.

Lemma no_trading_unless_scored :
  do_run_status (cx_output ctx) ∉ [RS_APPROVED; RS_NO_SETUPS] → trading_tickers (cx_output ctx) = [].
Proof using Hin Hall.
  intros Hs. use 12%nat invariant_013 H. cbv zeta in H. rewrite decide_True in H.
  - apply checked_holds, differs_nil in H. apply length_zero_iff_nil.
    unfold trading_tickers, approved_tickers, qualified_tickers, excluded_symbols.
    rewrite !length_app, !length_map. unfold trading_count, len in H. lia.
  - destruct (do_run_status _); set_solver.
Qed.

Lemma partition_complete :
  NoDup (map ti_ticker (di_tickers payload)) →
  do_run_status (cx_output ctx) ∈ [RS_APPROVED; RS_NO_SETUPS] →
  Permutation (trading_tickers (cx_output ctx)) (map ti_ticker (di_tickers payload)).
Proof using Hin Hall.
  intros Hnd Hs. use 4%nat invariant_005 H. cbv zeta in H. rewrite decide_True in H by done.
  eapply with_input_holds in H; [|exact Hin]. apply checked_holds, differs_nil in H.
  apply submseteq_length_Permutation.
  - apply NoDup_submseteq; [apply trading_unique|]. intros t Ht.
    destruct (trading_in_input t Ht) as (e & [He <-]%input_lookup). apply list_elem_of_fmap. eauto.
  - unfold trading_tickers, approved_tickers, qualified_tickers, excluded_symbols.
    rewrite !length_app, !length_map. unfold trading_count, len in H. lia.
Qed.

(** *** The ranking *)

Lemma order_observed : passing_tickers (cx_output ctx) = expected_passing_order (cx_output ctx).
Proof using Hin Hall.
  use 66%nat invariant_067 H. cbv zeta in H. apply checked_holds, app_nil in H as [H _].
  by apply differs_nil in H.
Qed.

Lemma rank_at i t :
  passing_tickers (cx_output ctx) !! i = Some t →
  ((i < 3)%nat → t ∈ approved_tickers (cx_output ctx)) ∧
  ((3 <= i)%nat → ∃ q, q ∈ do_qualified_not_selected (cx_output ctx) ∧ qn_ticker q = t ∧
     qn_final_rank q = Z.of_nat i + 1).
Proof using Hin Hall.
  intros Ht. rewrite order_observed in Ht.
  use 66%nat invariant_067 H. cbv zeta in H. apply checked_holds, app_nil in H as [_ H].
  eapply mjoin_imap_nil in H; [|exact Ht]. unfold rank_violations in H.
  apply app_nil in H as [H1 H2]. split; intros Hi.
  - rewrite (proj2 (Z.leb_le _ 3)) in H1 by lia. simpl in H1.
    by destruct (bool_decide _) eqn:E in H1; [bool_to_prop|].
  - rewrite (proj2 (Z.leb_le 4 _)) in H2 by lia. cbv zeta in H2.
    destruct (find _ _) as [q|] eqn:E; [|done]. apply find_some in E as [Hq Heq].
    exists q. split; [by apply list_elem_of_In|]. split; [by apply String.eqb_eq|].
    destruct (qn_final_rank q =? _) eqn:Er in H2; [by apply Z.eqb_eq in Er | done].
Qed.

Lemma approved_at_most_three : (length (approved_tickers (cx_output ctx)) <= 3)%nat.
Proof using Hin Hall.
  use 5%nat invariant_006 H. cbv zeta in H. apply checked_holds, unless_nil in H. bool_to_prop.
  unfold approved_tickers. rewrite length_map. unfold len in H. lia.
Qed.

Lemma passing_unique : NoDup (passing_tickers (cx_output ctx)).
Proof using Hin Hall.
  pose proof trading_unique as H. unfold trading_tickers in H. rewrite app_assoc in H.
  by apply NoDup_app in H as [H _].
Qed.

(** A qualified record follows three approved ones. *)
Lemma approved_full :
  do_qualified_not_selected (cx_output ctx) ≠ [] → length (approved_tickers (cx_output ctx)) = 3%nat.
Proof using Hin Hall.
  intros Hq. pose proof approved_at_most_three as Hle.
  destruct (decide (length (approved_tickers (cx_output ctx)) = 3%nat)) as [|Hne]; [done|]. exfalso.
  destruct (do_qualified_not_selected (cx_output ctx)) as [|q l] eqn:E; [done|].
  assert (passing_tickers (cx_output ctx) !! length (approved_tickers (cx_output ctx))
    = Some (qn_ticker q)) as Hlook.
  { unfold passing_tickers. rewrite lookup_app_r, Nat.sub_diag by lia. unfold qualified_tickers. by rewrite E. }
  apply rank_at in Hlook as [Ha _]. specialize (Ha ltac:(lia)).
  pose proof passing_unique as Hnd. unfold passing_tickers in Hnd. apply NoDup_app in Hnd as (_ & Hd & _).
  apply (Hd _ Ha). unfold qualified_tickers. rewrite E. constructor.
Qed.

Lemma approved_are_top :
  approved_tickers (cx_output ctx) = take 3 (expected_passing_order (cx_output ctx)) ∧
  qualified_tickers (cx_output ctx) = drop 3 (expected_passing_order (cx_output ctx)).
Proof using Hin Hall.
  rewrite <- order_observed. unfold passing_tickers.
  destruct (decide (do_qualified_not_selected (cx_output ctx) = [])) as [E|E].
  - unfold qualified_tickers. rewrite E. simpl. rewrite app_nil_r.
    pose proof approved_at_most_three. by rewrite take_ge, drop_ge by lia.
  - rewrite <- (approved_full E). by rewrite take_app_length, drop_app_length.
Qed.

Lemma qualified_ranks i q :
  do_qualified_not_selected (cx_output ctx) !! i = Some q → qn_final_rank q = Z.of_nat i + 4.
Proof using Hin Hall.
  intros Hq. assert (length (approved_tickers (cx_output ctx)) = 3%nat) as H3.
  { apply approved_full. by intros E; rewrite E in Hq. }
  assert (passing_tickers (cx_output ctx) !! (3 + i)%nat = Some (qn_ticker q)) as Hlook.
  { unfold passing_tickers. rewrite <- H3, lookup_app_r by lia.
    replace (length _ + i - length _)%nat with i by lia. unfold qualified_tickers.
    by rewrite list_lookup_fmap, Hq. }
  apply rank_at in Hlook as [_ Hr]. destruct (Hr ltac:(lia)) as (q' & Hq' & Ht & Hrank).
  assert (q' = q) as ->; [|lia].
  pose proof passing_unique as Hnd. apply NoDup_app in Hnd as (_ & _ & Hnd).
  eapply (NoDup_map_inj qn_ticker); [exact Hnd | done | | done].
  by apply list_elem_of_lookup_2 in Hq.
Qed.
End valid_context.

(** ** Reading a report *)

Lemma existsb_false {A} (f : A → bool) l : existsb f l = false ↔ Forall (λ x, f x = false) l.
Proof.
  induction l as [|x l IH]; simpl; [by split|]. rewrite orb_false_iff, IH, Forall_cons. done.
Qed.

Lemma not_failed ctx :
  existsb (has_status CK_FAIL) (run_checks ctx) = false ↔ Forall (holds_in ctx) INVARIANT_REGISTRY.
Proof.
  rewrite existsb_false. unfold run_checks. rewrite Forall_map.
  apply Forall_iff. intros f. unfold has_status, holds_in. simpl. by rewrite bool_decide_eq_false.
Qed.

Lemma report_valid ctx errors req :
  vr_valid (report_on ctx errors req) = true ↔
  errors = [] ∧ Forall (holds_in ctx) INVARIANT_REGISTRY ∧
  (req = true → existsb evidence_missing (run_checks ctx) = false).
Proof.
  rewrite <- not_failed. unfold report_on. cbn [vr_valid vr_execution_ready].
  destruct errors as [|e l]; destruct (existsb (has_status CK_FAIL) _);
    destruct (existsb evidence_missing _); destruct req; simpl; intuition congruence.
Qed.

Lemma report_ready ctx errors req :
  vr_execution_ready (report_on ctx errors req) = true ↔
  errors = [] ∧ Forall (holds_in ctx) INVARIANT_REGISTRY ∧
  existsb evidence_missing (run_checks ctx) = false.
Proof.
  rewrite <- not_failed. unfold report_on. cbn [vr_valid vr_execution_ready].
  destruct errors as [|e l]; destruct (existsb (has_status CK_FAIL) _);
    destruct (existsb evidence_missing _); simpl; intuition congruence.
Qed.

(** A report that is execution-ready is also valid. *)
Lemma ready_valid ctx errors req :
  vr_execution_ready (report_on ctx errors req) = true → vr_valid (report_on ctx errors req) = true.
Proof. rewrite report_ready, report_valid. tauto. Qed.

Section run.
Context `{Parse DaybreakInput} `{Parse DaybreakOutput} `{Parse ValidationMetadata}.

(** The two ways a run ends in a report. *)
Lemma validate_cases inp out md req rep :
  validate_daybreak_run inp out md req = Ok rep →
  (∃ e, parse_model out = Err e ∧
     rep = {| vr_valid := false; vr_execution_ready := false; vr_model_errors := [OutputError e];
              vr_checks := [] |}) ∨
  (∃ p ie o m, parse_input inp = Ok (p, ie) ∧ parse_model out = Ok o ∧ parse_metadata md = Ok m ∧
     rep = report_on
       {| cx_input_payload := p; cx_output := o; cx_raw_input := inp ≫= raw_of; cx_raw_output := raw_of out;
          cx_metadata := m |}
       (match ie with
        | Some e => if decide (do_run_status o = RS_SCHEMA_FAILURE) then [] else [InputError e]
        | None => [] end) req).
Proof.
  unfold validate_daybreak_run. intros ([p ie] & Hp & Hr)%bind_Ok. cbv beta iota in Hr.
  destruct (parse_model out) as [o|e].
  - apply bind_Ok in Hr as (m & Hm & Hr). apply Ok_inj in Hr as <-. right. exists p, ie, o, m. done.
  - destruct (parse_error e); [|done]. apply Ok_inj in Hr as <-. left. eauto.
Qed.

(** C8: the report is complete and fails closed.  A report either records
    that the output did not parse, with no check and not valid, or lists
    checks 1 to 77 in order, each failing exactly when it has violations, all
    under its own number.  It is valid exactly when there is no model error
    and no failed check (and, when asked for, no missing execution evidence);
    it is execution-ready exactly when it is also true that none of the
    evidence checks 15, 41, 44, 62, 66 was left unevaluated; an input that
    does not parse makes it invalid unless the output reports a schema
    failure. *)
Theorem report_fails_closed inp out md req rep :
  validate_daybreak_run inp out md req = Ok rep →
  (vr_checks rep = [] ∧ vr_valid rep = false ∧ vr_execution_ready rep = false ∧
   ∃ e, parse_model out = Err e ∧ vr_model_errors rep = [OutputError e]) ∨
  (∃ o, parse_model out = Ok o ∧ Forall2 sound_check (seqZ 1 77) (vr_checks rep) ∧
   (vr_execution_ready rep = true ↔
      vr_model_errors rep = [] ∧ failures rep = [] ∧
      ∀ c, c ∈ vr_checks rep → ic_invariant_number c ∈ EXECUTION_EVIDENCE_INVARIANTS →
           ic_status c ≠ CK_NOT_EVALUATED) ∧
   (vr_valid rep = true ↔
      vr_model_errors rep = [] ∧ failures rep = [] ∧ (req = true → vr_execution_ready rep = true)) ∧
   (∀ e, (∃ p, parse_input inp = Ok (p, Some e)) → do_run_status o ≠ RS_SCHEMA_FAILURE →
      vr_valid rep = false ∧ vr_model_errors rep = [InputError e])).
Proof.
  intros Hv. apply validate_cases in Hv as [(e & He & ->)|(p & ie & o & m & Hp & Ho & Hm & ->)].
  { left. simpl. split_and!; [done..|]. by exists e. }
  right. exists o. split; [done|]. split; [apply run_checks_sound|].
  match goal with |- context [report_on ?c ?errs req] => remember errs as errors eqn:Herrors; set (ctx := c) end.
  assert (failures (report_on ctx errors req) = [] ↔ Forall (holds_in ctx) INVARIANT_REGISTRY) as Hf.
  { unfold failures. cbn [vr_checks report_on]. rewrite <- not_failed, existsb_false.
    unfold has_status. setoid_rewrite bool_decide_eq_false. induction (run_checks ctx) as [|c l IH]; [by split|].
    rewrite filter_cons, Forall_cons. 
    destruct (decide (ic_status c = CK_FAIL)); [split; [discriminate | by intros [? _]] | rewrite IH; tauto]. }
  assert (existsb evidence_missing (run_checks ctx) = false ↔
    ∀ c, c ∈ run_checks ctx → ic_invariant_number c ∈ EXECUTION_EVIDENCE_INVARIANTS →
      ic_status c ≠ CK_NOT_EVALUATED) as Hev.
  { rewrite existsb_false, Forall_forall. split; intros Hc c Hin.
    - intros Hn Hs. specialize (Hc c Hin). unfold evidence_missing, has_status in Hc.
      by rewrite !bool_decide_true in Hc.
    - unfold evidence_missing, has_status. apply andb_false_iff.
      destruct (decide (ic_invariant_number c ∈ EXECUTION_EVIDENCE_INVARIANTS)) as [Hn|Hn].
      + right. apply bool_decide_eq_false. by apply Hc.
      + left. by apply bool_decide_eq_false. }
  rewrite Hf. split; [by rewrite report_ready, Hev|].
  split; [rewrite report_valid; setoid_rewrite report_ready; tauto|].
  intros e (p' & Hp') Hs. rewrite Hp in Hp'. injection Hp' as -> ->.
  rewrite decide_False in Herrors by done. subst errors. split; [|done].
  destruct (vr_valid _) eqn:Hval; [|done]. by apply report_valid in Hval as [? _].
Qed.

Lemma evaluated_at ctx (i : nat) f :
  existsb evidence_missing (run_checks ctx) = false → INVARIANT_REGISTRY !! i = Some f →
  ic_invariant_number (f ctx) ∈ EXECUTION_EVIDENCE_INVARIANTS → ic_status (f ctx) ≠ CK_NOT_EVALUATED.
Proof.
  rewrite existsb_false. intros Hev Hi Hn Hs. unfold run_checks in Hev.
  rewrite Forall_map in Hev. eapply Forall_lookup_1 in Hev; [|exact Hi]. simpl in Hev.
  unfold evidence_missing, has_status in Hev. by rewrite !bool_decide_true in Hev.
Qed.

Lemma traced_proves n name note path message v :
  ic_status (traced n name note path message v) ≠ CK_FAIL →
  ic_status (traced n name note path message v) ≠ CK_NOT_EVALUATED → v = Some true.
Proof. by destruct v as [[]|]. Qed.

Lemma traced_number n name note path message v :
  ic_invariant_number (traced n name note path message v) = n.
Proof. by destruct v. Qed.

Lemma evidence_number n :
  existsb (Z.eqb n) EXECUTION_EVIDENCE_INVARIANTS = true → n ∈ EXECUTION_EVIDENCE_INVARIANTS.
Proof. intros (x & Hx & ->%Z.eqb_eq)%existsb_exists. by apply list_elem_of_In. Qed.

(** C9: execution readiness is evidence.  A report is execution-ready only if
    the orchestration metadata proves that scoring finished before the gates
    and that operational blockers ran after schema validation, that the number
    of candidates is known and within the hard maximum, and that the response
    time, the cutoff and the order authorization are known, with no order
    authorized by a response received after the cutoff; such a report is also
    valid. *)
Theorem execution_ready_evidence inp out md req rep :
  validate_daybreak_run inp out md req = Ok rep → vr_execution_ready rep = true →
  vr_valid rep = true ∧
  ∃ m p ie, parse_metadata md = Ok m ∧ parse_input inp = Ok (p, ie) ∧
    md_scoring_completed_before_gates m = Some true ∧
    md_operational_blockers_after_schema_validation m = Some true ∧
    (∃ maximum count, md_max_evaluator_candidates_hard m = Some maximum ∧ count <= maximum ∧
       (md_evaluator_candidate_count m = Some count ∨
        md_evaluator_candidate_count m = None ∧ ∃ payload, p = Some payload ∧ count = len (di_tickers payload))) ∧
    (∃ received cutoff authorized, md_evaluator_response_timestamp m = Some received ∧
       md_execution_cutoff_timestamp m = Some cutoff ∧ md_order_authorized m = Some authorized ∧
       (authorized = true → received <= cutoff)).
Proof.
  intros Hv Hready. apply validate_cases in Hv as [(e & _ & ->)|(p & ie & o & m & Hp & Ho & Hm & ->)];
    [done|]. split; [by apply ready_valid|]. exists m, p, ie. split; [done|]. split; [done|].
  apply report_ready in Hready as (_ & Hall & Hev).
  match type of Hall with Forall (holds_in ?c) _ => set (ctx := c) in * end.
  assert (∀ i f, INVARIANT_REGISTRY !! i = Some f → ic_status (f ctx) ≠ CK_FAIL) as Hat.
  { intros i f Hi. by eapply Forall_lookup_1 in Hall. }
  split; [|split; [|split]].
  - eapply traced_proves; [apply (Hat 14%nat invariant_015 eq_refl)|].
    apply (evaluated_at ctx 14%nat invariant_015 Hev eq_refl). unfold invariant_015. rewrite traced_number.
    by apply evidence_number.
  - eapply traced_proves; [apply (Hat 61%nat invariant_062 eq_refl)|].
    apply (evaluated_at ctx 61%nat invariant_062 Hev eq_refl). unfold invariant_062. rewrite traced_number.
    by apply evidence_number.
  - pose proof (Hat 40%nat invariant_041 eq_refl) as F1.
    pose proof (evaluated_at ctx 40%nat invariant_041 Hev eq_refl) as F2.
    unfold invariant_041 in F1, F2. simpl in F1, F2.
    destruct (md_max_evaluator_candidates_hard m) as [maximum|]; [|exfalso; apply F2; [by apply evidence_number | done]].
    exists maximum. destruct (md_evaluator_candidate_count m) as [c|].
    + exists c. apply (checked_holds 0 ""), unless_nil in F1. bool_to_prop. split; [done|]. split; [done | by left].
    + destruct p as [payload|]; simpl in F1, F2; [|exfalso; apply F2; [by apply evidence_number | done]].
      exists (len (di_tickers payload)). apply (checked_holds 0 ""), unless_nil in F1. bool_to_prop.
      split; [done|]. split; [done|]. right. split; [done|]. by exists payload.
  - pose proof (Hat 43%nat invariant_044 eq_refl) as F1.
    pose proof (evaluated_at ctx 43%nat invariant_044 Hev eq_refl) as F2.
    unfold invariant_044 in F1, F2. simpl in F1, F2.
    destruct (md_evaluator_response_timestamp m) as [received|],
      (md_execution_cutoff_timestamp m) as [cutoff|], (md_order_authorized m) as [authorized|];
      try (exfalso; apply F2; [by apply evidence_number | done]).
    exists received, cutoff, authorized. split_and!; try done. intros ->.
    apply (checked_holds 0 ""), unless_nil in F1. rewrite andb_true_r in F1. bool_to_prop. done.
Qed.

(** Metadata that states every field the evidence checks read leaves none of
    them unevaluated. *)
Lemma evidence_complete ctx :
  let m := cx_metadata ctx in
  is_some (md_scoring_completed_before_gates m) && is_some (md_operational_blockers_after_schema_validation m)
  && is_some (md_max_evaluator_candidates_hard m) && is_some (md_evaluator_candidate_count m)
  && is_some (md_evaluator_response_timestamp m) && is_some (md_execution_cutoff_timestamp m)
  && is_some (md_order_authorized m) = true →
  existsb evidence_missing (run_checks ctx) = false.
Proof.
  cbv zeta. intros Hm. apply existsb_false, Forall_forall. intros c Hc. unfold evidence_missing.
  destruct (decide (ic_invariant_number c ∈ EXECUTION_EVIDENCE_INVARIANTS)) as [Hn|Hn];
    [|by rewrite (bool_decide_eq_false_2 _ Hn)].
  rewrite andb_comm. apply andb_false_iff. left. unfold has_status. apply bool_decide_eq_false. intros Hs.
  apply list_elem_of_lookup in Hc as [i Hc]. pose proof (run_checks_sound ctx) as Hsound.
  eapply Forall2_lookup_r in Hsound as (n & Hi & [Hnum _ _ _]); [|exact Hc].
  apply lookup_seqZ in Hi as [-> _].
  assert (∀ f, INVARIANT_REGISTRY !! i = Some f → c = f ctx) as Hf.
  { intros f Hf. unfold run_checks in Hc. rewrite list_lookup_fmap, Hf in Hc. by apply (inj Some) in Hc. }
  assert (i = 14 ∨ i = 40 ∨ i = 43 ∨ i = 61 ∨ i = 65)%nat as Hcases.
  { rewrite Hnum in Hn. unfold EXECUTION_EVIDENCE_INVARIANTS in Hn.
    repeat (apply elem_of_cons in Hn as [Hn|Hn]; [lia|]). by apply elem_of_nil in Hn. }
  clear Hc Hnum Hn. destruct ctx as [? ? ? ? []]. unfold is_some in Hm. simpl in Hm. 
  repeat match type of Hm with
    | context [match ?o with Some _ => true | None => false end] => destruct o; [|by rewrite ?andb_false_r in Hm]
    end.
  destruct Hcases as [-> | [-> | [-> | [-> | ->]]]]; rewrite (Hf _ eq_refl) in Hs; simpl in Hs;
    repeat match type of Hs with context [unless ?b _] => destruct b; simpl in Hs end; discriminate Hs.
Qed.

(** A run of a parsed input and output whose report is valid. *)
Lemma valid_context inp out md req rep payload ie o :
  parse_input inp = Ok (Some payload, ie) → parse_model out = Ok o →
  validate_daybreak_run inp out md req = Ok rep → vr_valid rep = true →
  ∃ ctx, cx_input_payload ctx = Some payload ∧ cx_output ctx = o ∧ Forall (holds_in ctx) INVARIANT_REGISTRY.
Proof.
  intros Hp Ho Hv Hval. apply validate_cases in Hv as [(e & He & _)|(p & ie' & o' & m & Hp' & Ho' & _ & ->)];
    [congruence|].
  rewrite Hp in Hp'. injection Hp' as <- <-. rewrite Ho in Ho'. injection Ho' as <-.
  apply report_valid in Hval as (_ & Hall & _). eexists. split; [|split; [|exact Hall]]; done.
Qed.

(** A valid run of an abnormal market or a stale payload decides nothing. *)
Lemma abnormal_trades_nothing inp out md req rep payload ie o :
  parse_input inp = Ok (Some payload, ie) → parse_model out = Ok o →
  validate_daybreak_run inp out md req = Ok rep → vr_valid rep = true →
  di_market_status payload ≠ MS_NORMAL ∨ 180 < di_payload_age_seconds payload → trading_tickers o = [].
Proof.
  intros Hp Ho Hv Hval Hb.
  destruct (valid_context _ _ _ _ _ _ _ _ Hp Ho Hv Hval) as (ctx & Hin & <- & Hall).
  pose proof (status_expected ctx payload Hin Hall) as Hs. unfold expected_status in Hs.
  eapply no_trading_unless_scored; [exact Hin | exact Hall|]. rewrite Hs.
  destruct Hb as [Hb|Hb]; [rewrite (bool_decide_eq_false_2 _ Hb); set_solver|].
  rewrite (proj2 (Z.ltb_lt _ _) Hb). destruct (negb _); set_solver.
Qed.

(** A ticker a valid run approves is in the input and passes every hard gate. *)
Lemma approved_passes inp out md req rep payload ie o a :
  parse_input inp = Ok (Some payload, ie) → parse_model out = Ok o →
  validate_daybreak_run inp out md req = Ok rep → vr_valid rep = true →
  a ∈ do_approved_setups o →
  ∃ e, e ∈ di_tickers payload ∧ ti_ticker e = as_ticker a ∧
    ∀ c, gate_condition e (sb_catalyst_score_raw (as_score_breakdown a)) c.
Proof.
  intros Hp Ho Hv Hval Ha.
  destruct (valid_context _ _ _ _ _ _ _ _ Hp Ho Hv Hval) as (ctx & Hin & <- & Hall).
  destruct (passing_decided ctx payload Hin Hall (as_ticker a) (sb_catalyst_score_raw (as_score_breakdown a)))
    as (e & He & Hg).
  { apply elem_of_app. left. apply list_elem_of_fmap. eauto. }
  apply input_lookup in He as [He Ht]. exists e. split; [done|]. split; [done|]. by apply expected_failed_gates_nil.
Qed.

(** A valid run decides every candidate once, and by the rules.  If the
    market is not normal or the payload is stale there is no ticker result;
    otherwise the approved, qualified and excluded tickers are exactly the
    input's, each in one place; approved and qualified tickers satisfy every
    hard gate at their reported catalyst score; an excluded ticker's reasons
    are exactly its failed gates, in order, and at least one; the approved
    setups are the first three of the expected order and the qualified ones
    the rest, ranked from four on. *)
Theorem valid_run_decides inp out md req rep payload ie o :
  parse_input inp = Ok (Some payload, ie) → parse_model out = Ok o →
  NoDup (map ti_ticker (di_tickers payload)) →
  validate_daybreak_run inp out md req = Ok rep → vr_valid rep = true →
  (di_market_status payload ≠ MS_NORMAL ∨ 180 < di_payload_age_seconds payload → trading_tickers o = []) ∧
  (di_market_status payload = MS_NORMAL ∧ di_payload_age_seconds payload <= 180 →
     Permutation (trading_tickers o) (map ti_ticker (di_tickers payload))) ∧
  (∀ t raw, (t, raw) ∈ map (λ a, (as_ticker a, sb_catalyst_score_raw (as_score_breakdown a)))
                         (do_approved_setups o)
                       ++ map (λ q, (qn_ticker q, sb_catalyst_score_raw (qn_score_breakdown q)))
                         (do_qualified_not_selected o) →
     ∃ e, e ∈ di_tickers payload ∧ ti_ticker e = t ∧ ∀ c, gate_condition e raw c) ∧
  (∀ x, x ∈ do_excluded_tickers o →
     ∃ e, e ∈ di_tickers payload ∧ ti_ticker e = ex_ticker x ∧
       expected_failed_gates e (sb_catalyst_score_raw (es_score (ex_evaluation_snapshot x)))
       = ex_primary_reason x :: ex_additional_reasons x) ∧
  approved_tickers o = take 3 (expected_passing_order o) ∧
  qualified_tickers o = drop 3 (expected_passing_order o) ∧
  (∀ i q, do_qualified_not_selected o !! i = Some q → qn_final_rank q = Z.of_nat i + 4).
Proof.
  intros Hp Ho Hnd Hv Hval.
  split; [by eapply abnormal_trades_nothing|].
  destruct (valid_context _ _ _ _ _ _ _ _ Hp Ho Hv Hval) as (ctx & Hin & <- & Hall).
  pose proof (status_expected ctx payload Hin Hall) as Hs. unfold expected_status in Hs.
  split; [|split; [|split]].
  - intros [Hm Ha]. eapply partition_complete; [exact Hin | exact Hall | exact Hnd|]. rewrite Hs.
    rewrite (bool_decide_eq_true_2 _ Hm), (proj2 (Z.ltb_ge _ _) Ha). simpl. destruct (nonempty _); set_solver.
  - intros t raw Ht. eapply passing_decided in Ht as (e & He & Hg); [|exact Hin | exact Hall].
    apply input_lookup in He as [He Ht]. exists e. split; [done|]. split; [done|].
    by apply expected_failed_gates_nil.
  - intros x Hx. eapply excluded_decided in Hx as (e & He & Hg); [|exact Hin | exact Hall].
    apply input_lookup in He as [He Ht]. eauto.
  - destruct (approved_are_top ctx payload Hin Hall) as [Ha Hq]. split; [done|]. split; [done|].
    by apply (qualified_ranks ctx payload Hin Hall).
Qed.

(** C10: a valid run reports the scores the rules give.  Every terminal record
    whose ticker is in the input has exactly the replayed score fields,
    evidence purpose and risk flags, its conviction score is the sum of its
    catalyst, volume and technical points, its evidence is quoted verbatim
    from the catalyst text at the offsets it names, and an approved setup's
    price, ATR and premarket low are the input's. *)
Theorem valid_run_replays inp out md req rep payload ie o t r e :
  parse_input inp = Ok (Some payload, ie) → parse_model out = Ok o →
  validate_daybreak_run inp out md req = Ok rep → vr_valid rep = true →
  (t, r) ∈ terminal_records o → input_by_ticker payload !! t = Some e →
  let s := score_of r in
  score_agrees s (expected_score_fields payload e s) ∧
  risk_flags_of r = xs_risk_flags (expected_score_fields payload e s) ∧
  evidence_grounded s (nc_catalyst_text (ti_news_context e)) ∧
  (∀ c, conviction_of r = Some c →
     c = sb_catalyst_points s + sb_volume_points s + sb_technical_points s) ∧
  (∀ a, r = TApproved a →
     (dval (tp_reference_price (as_trade_parameters a)) == dval (tc_current_price (ti_technical_context e)))%Q ∧
     (dval (tp_atr_value_used (as_trade_parameters a)) == dval (tc_atr_value (ti_technical_context e)))%Q ∧
     (dval (tp_premarket_low_used (as_trade_parameters a)) == dval (tc_premarket_low (ti_technical_context e)))%Q).
Proof.
  intros Hp Ho Hv Hval Hr He s.
  destruct (valid_context _ _ _ _ _ _ _ _ Hp Ho Hv Hval) as (ctx & Hin & <- & Hall).
  split; [by eapply score_replayed|].
  split; [by destruct (replay_parts ctx payload Hin Hall t r e Hr He) as (_ & ? & _)|].
  split; [by eapply evidence_replayed|]. split; [intros c Hc; by eapply conviction_replayed|].
  intros a ->. assert (a ∈ do_approved_setups (cx_output ctx) ∧ as_ticker a = t) as [Ha Ht].
  { revert Hr. unfold terminal_records. rewrite !elem_of_app, !list_elem_of_fmap.
    intros [(? & [= -> ->] & ?)|[(? & [=] & _)|(? & [=] & _)]]. done. }
  subst t. by eapply trade_echoed.
Qed.
End run.

(** ** A run: one approved, one halted candidate *)

Definition sample_entry (ticker : string) (halted : bool) : TickerInput :=
  {| ti_ticker := ticker; ti_halted := halted;
     ti_news_context :=
       {| nc_catalyst_text := [67; 111; 110; 116; 114; 97; 99; 116]; nc_source_type := ST_PRIMARY;
          nc_source_name := [83; 69; 67]; nc_source_timestamp := "2026-01-05T13:00:00Z";
          nc_catalyst_age_hours := dec.of_Z 5; nc_corroborated := true; nc_disqualifier_flags := [] |};
     ti_liquidity_metrics :=
       {| lm_gap_pct := dec.of_Z 8; lm_premarket_volume := 900000; lm_rvol_time_matched := dec.of_Z 6;
          lm_float_shares := 60000000; lm_volume_profile := VP_CLEAN; lm_borrow_status := BS_EASY |};
     ti_technical_context :=
       {| tc_distance_to_resistance_atr := dec.of_Z 5; tc_distance_from_vwap_atr := dec.of_Z 1;
          tc_chart_structure := CS_BLUE_SKY; tc_current_price := dec.of_Z 10; tc_atr_value := dec.of_Z 1;
          tc_premarket_low := dec.of_Z 9 |} |}.

Definition sample_payload : DaybreakInput :=
  {| di_evaluation_timestamp := "2026-01-05T13:45:00Z"; di_payload_timestamp := "2026-01-05T13:44:59Z";
     di_payload_age_seconds := 1; di_catalyst_freshness_threshold_hours := dec.of_Z 24;
     di_market_status := MS_NORMAL; di_tickers := [sample_entry "AAA" false; sample_entry "BBB" true] |}.

Definition sample_excluded : ExcludedTicker :=
  {| ex_ticker := "BBB";
     ex_primary_reason :=
       {| ro_reason_code := RC_HALTED; ro_field := "halted"; ro_observed_value := "true";
          ro_required_condition := "halted must equal false";
          ro_reason := "The ticker is halted and cannot be approved." |};
     ex_additional_reasons := [];
     ex_evaluation_snapshot := {| es_score := sample_score 10 25 25; es_risk_flags := [] |} |}.

Definition sample_run : DaybreakOutput :=
  {| do_run_status := RS_APPROVED; do_execution_timestamp := Some "2026-01-05T13:45:00Z";
     do_payload_timestamp_used := Some "2026-01-05T13:44:59Z"; do_market_status := Some MS_NORMAL;
     do_approved_setups := [sample_setup "AAA" 90 10 5]; do_qualified_not_selected := [];
     do_excluded_tickers := [sample_excluded]; do_schema_failures := []; do_run_blockers := [] |}.

Definition sample_metadata : ValidationMetadata :=
  {| md_evaluator_candidate_count := None; md_max_evaluator_candidates_hard := Some 25;
     md_prequalified_out_tickers := ∅; md_capacity_omitted_tickers := ∅;
     md_capacity_omissions_logged := ∅; md_preselection_policy_version := None;
     md_evaluator_response_timestamp := Some 0; md_execution_cutoff_timestamp := Some 60000000;
     md_order_authorized := Some true; md_completed_phases := [];
     md_scoring_completed_before_gates := Some true;
     md_duplicate_detection_after_ticker_validation := Some true;
     md_duplicate_detection_valid_only := Some true;
     md_operational_blockers_after_schema_validation := Some true;
     md_semantic_magnitude_before_override := ∅; md_invisible_disqualifier_tickers := ∅ |}.

(** A parser that rejects every document. *)
Definition reject {A} : Parse A :=
  {| parse_text := λ _, Err (EValidation "document"); parse_dict := λ _, Err (EValidation "document") |}.

Definition sample_report : result ValidationReport :=
  @validate_daybreak_run reject reject reject (Some (SModel sample_payload)) (SModel sample_run)
    (Some (SModel sample_metadata)) true.

Definition report_flags (r : result ValidationReport) : option (bool * bool) :=
  match r with Ok rep => Some (vr_valid rep, vr_execution_ready rep) | Err _ => None end.

Example sample_report_ready : report_flags sample_report = Some (true, true).
Proof. vm_compute. reflexivity. Qed.

(** A score that does not replay, a late authorization, an output that does
    not parse. *)
Example bad_reports :
  (report_flags (@validate_daybreak_run reject reject reject (Some (SModel sample_payload))
     (SModel (sample_output [sample_setup "AAA" 90 10 5])) (Some (SModel sample_metadata)) false),
   report_flags (@validate_daybreak_run reject reject reject (Some (SModel sample_payload))
     (SModel sample_run) None true),
   report_flags (@validate_daybreak_run reject reject reject None (SText "{}") None false))
  = (Some (false, false), Some (false, false), Some (false, false)).
Proof. vm_compute. reflexivity. Qed.

Lemma sample_report_Ok : ∃ rep, sample_report = Ok rep ∧ vr_valid rep = true ∧ vr_execution_ready rep = true.
Proof.
  pose proof sample_report_ready as H. destruct sample_report as [rep|e]; [|discriminate].
  exists rep. simpl in H. injection H as -> ->. done.
Qed.

Lemma report_fails_closed_witness :
  ∃ rep, sample_report = Ok rep ∧ length (vr_checks rep) = 77%nat.
Proof.
  destruct sample_report_Ok as (rep & Hrep & Hval & Hready). exists rep. split; [exact Hrep|].
  destruct (@report_fails_closed reject reject reject (Some (SModel sample_payload)) (SModel sample_run)
    (Some (SModel sample_metadata)) true rep Hrep) as [(_ & Hv & _)|(o & _ & Hc & _)].
  - rewrite Hval in Hv. discriminate.
  - apply Forall2_length in Hc. rewrite <- Hc. reflexivity.
Defined.

Lemma execution_ready_evidence_witness : ∃ rep, sample_report = Ok rep ∧ vr_valid rep = true.
Proof.
  destruct sample_report_Ok as (rep & Hrep & Hval & Hready). exists rep. split; [exact Hrep|].
  apply (@execution_ready_evidence reject reject reject (Some (SModel sample_payload)) (SModel sample_run)
    (Some (SModel sample_metadata)) true rep Hrep Hready).
Defined.

Lemma valid_run_decides_witness :
  ∃ rep, sample_report = Ok rep ∧ vr_valid rep = true ∧
    Permutation (trading_tickers sample_run) (map ti_ticker (di_tickers sample_payload)).
Proof.
  destruct sample_report_Ok as (rep & Hrep & Hval & Hready). exists rep.
  split; [exact Hrep|]. split; [exact Hval|].
  apply (@valid_run_decides reject reject reject (Some (SModel sample_payload)) (SModel sample_run)
    (Some (SModel sample_metadata)) true rep sample_payload None sample_run eq_refl eq_refl).
  - apply (bool_decide_unpack _). vm_compute. exact I.
  - exact Hrep.
  - exact Hval.
  - split; [reflexivity | vm_compute; discriminate].
Defined.

Lemma valid_run_replays_witness :
  ∃ rep, sample_report = Ok rep ∧ vr_valid rep = true ∧
    score_agrees (sample_score 10 25 25)
      (expected_score_fields sample_payload (sample_entry "AAA" false) (sample_score 10 25 25)).
Proof.
  destruct sample_report_Ok as (rep & Hrep & Hval & Hready). exists rep.
  split; [exact Hrep|]. split; [exact Hval|].
  apply (@valid_run_replays reject reject reject (Some (SModel sample_payload)) (SModel sample_run)
    (Some (SModel sample_metadata)) true rep sample_payload None sample_run "AAA"
    (TApproved (sample_setup "AAA" 90 10 5)) (sample_entry "AAA" false) eq_refl eq_refl Hrep Hval).
  - apply list_elem_of_here.
  - reflexivity.
Defined.
