(* ===== verification/EvalModels.v ===== *)
(** * EvalModels: the data of the evaluator service

    daybreak_evaluator/models.py, the in-memory repository of persistence.py
    and the prompt of prompt.py.  Fields of one value only are constants; a
    [*_ok] predicate is a model's constraints and validators; datetimes are
    instants in UTC, so the validators that convert them hold by construction. *)
From Stdlib Require Import Ascii String.
From S2P Require Import Prelude Numerics PyStr PyTime Contracts Stores Canonical RiskModels Invariants ValidationRun.

#[local] Open Scope Z_scope.

(** ** Enums *)

Inductive AttemptRole := AR_PRIMARY | AR_SHADOW.
#[export] Instance AttemptRole_eq_dec : EqDecision AttemptRole. Proof. solve_decision. Defined.
Inductive AttemptStatus :=
  AT_SUCCEEDED | AT_DEADLINE_EXCEEDED | AT_TRANSPORT_ERROR | AT_REFUSED | AT_INCOMPLETE | AT_EMPTY_OUTPUT
  | AT_INVALID_JSON | AT_SCHEMA_INVALID | AT_INVARIANT_INVALID | AT_CANCELED.
#[export] Instance AttemptStatus_eq_dec : EqDecision AttemptStatus. Proof. solve_decision. Defined.
Inductive EvalRunStatus := EV_PRIMARY_VALID | EV_PRIMARY_INVALID | EV_CUTOFF_MISSED | EV_INPUT_REJECTED.
#[export] Instance EvalRunStatus_eq_dec : EqDecision EvalRunStatus. Proof. solve_decision. Defined.

Definition AttemptRole_value (r : AttemptRole) : string :=
  match r with AR_PRIMARY => "primary" | AR_SHADOW => "shadow" end.

(** ** Models *)

Record TokenUsage := {
  tu_input_tokens : Z;
  tu_cached_input_tokens : Z;
  tu_output_tokens : Z;
  tu_reasoning_tokens : Z;
  tu_total_tokens : Z;
}.
Definition no_usage : TokenUsage :=
  {| tu_input_tokens := 0; tu_cached_input_tokens := 0; tu_output_tokens := 0; tu_reasoning_tokens := 0;
     tu_total_tokens := 0 |}.
Definition TokenUsage_ok (u : TokenUsage) : bool :=
  (0 <=? tu_input_tokens u) && (0 <=? tu_cached_input_tokens u) && (0 <=? tu_output_tokens u)
  && (0 <=? tu_reasoning_tokens u) && (0 <=? tu_total_tokens u).

Record EvaluatorPolicy := {
  ep_primary_model : string;
  ep_shadow_model : option string;
  ep_reasoning_effort : string;
  ep_max_output_tokens : Z;
  ep_max_attempts : Z;
  ep_max_evaluator_candidates_hard : Z;
  ep_request_timeout_seconds : decimal;
  ep_shadow_timeout_seconds : decimal;
  ep_store_raw_provider_response : bool;
}.
Definition schema_name : string := "project_daybreak_v6_3_output".

Definition validate_models (p : EvaluatorPolicy) : bool :=
  negb (blank (ep_primary_model p))
  && match ep_shadow_model p with
     | Some m => negb (blank m) && negb (String.eqb m (ep_primary_model p))
     | None => true
     end.
Definition EvaluatorPolicy_ok (p : EvaluatorPolicy) : bool :=
  existsb (String.eqb (ep_reasoning_effort p)) ["none"; "low"; "medium"; "high"; "xhigh"; "max"]%string
  && between 1000 128000 (ep_max_output_tokens p) && between 1 2 (ep_max_attempts p)
  && between 1 25 (ep_max_evaluator_candidates_hard p)
  && positive_dec (ep_request_timeout_seconds p) && (ep_request_timeout_seconds p <=? dec.of_Z 300)%dec
  && positive_dec (ep_shadow_timeout_seconds p) && (ep_shadow_timeout_seconds p <=? dec.of_Z 600)%dec
  && validate_models p.
Definition default_evaluator_policy : EvaluatorPolicy :=
  {| ep_primary_model := "gpt-5.6-terra"; ep_shadow_model := Some "gpt-5.6-sol"%string; ep_reasoning_effort := "low";
     ep_max_output_tokens := 64000; ep_max_attempts := 2; ep_max_evaluator_candidates_hard := 25;
     ep_request_timeout_seconds := dec.of_Z 90; ep_shadow_timeout_seconds := dec.of_Z 180;
     ep_store_raw_provider_response := true |}.

Record EvaluationEvidence := {
  ee_snapshot_id : option string;
  ee_context_hash : option string;
  ee_payload_hash : string;
  ee_feature_hash : option string;
  ee_audit_hash : option string;
  ee_configuration_hash : string;
  ee_prequalified_out_tickers : gset string;
  ee_capacity_omitted_tickers : gset string;
  ee_capacity_omissions_logged : gset string;
  ee_preselection_policy_version : option string;
}.
Definition optional_hash (h : option string) : bool := match h with Some s => hash_pattern s | None => true end.
Definition EvaluationEvidence_ok (e : EvaluationEvidence) : bool :=
  forallb optional_hash [ee_snapshot_id e; ee_context_hash e; ee_feature_hash e; ee_audit_hash e]
  && hash_pattern (ee_payload_hash e) && hash_pattern (ee_configuration_hash e).

Record EvaluationRequest := {
  er_run_id : string;
  er_input_payload : DaybreakInput;
  er_evidence : EvaluationEvidence;
  er_response_cutoff_timestamp : datetime;
  er_requested_at : datetime;
}.
(** EvaluationRequest.validate_request. *)
Definition validate_request `{Dump DaybreakInput} (r : EvaluationRequest) : bool :=
  (er_requested_at r <? er_response_cutoff_timestamp r)
  && String.eqb (ee_payload_hash (er_evidence r)) (canonical_sha256 (dump (er_input_payload r))).
Definition EvaluationRequest_ok `{Dump DaybreakInput} (r : EvaluationRequest) : bool :=
  between 1 128 (code_points (er_run_id r)) && EvaluationEvidence_ok (er_evidence r)
  && DaybreakInput_ok (er_input_payload r) && validate_request r.

Record ProviderResult := {
  pv_response_id : option string;
  pv_model : string;
  pv_created_at : option datetime;
  pv_completed_at : datetime;
  pv_output_text : option string;
  pv_refusal : option string;
  pv_incomplete_reason : option string;
  pv_usage : TokenUsage;
  pv_raw_response : option pyval;
}.

Record EvaluationAttempt := {
  ea_attempt_id : string;
  ea_run_id : string;
  ea_role : AttemptRole;
  ea_attempt_number : Z;
  ea_model : string;
  ea_request_started_at : datetime;
  ea_response_received_at : option datetime;
  ea_status : AttemptStatus;
  ea_request_hash : string;
  ea_prompt_hash : string;
  ea_spec_hash : string;
  ea_schema_hash : string;
  ea_response_id : option string;
  ea_raw_output_text : option string;
  ea_raw_provider_response : option pyval;
  ea_response_text_hash : option string;
  ea_raw_response_hash : option string;
  ea_output : option DaybreakOutput;
  ea_validation_report : option ValidationReport;
  ea_usage : TokenUsage;
  ea_error_type : option string;
  ea_error_message : option string;
}.
(** EvaluationAttempt.terminal_shape. *)
Definition terminal_shape (a : EvaluationAttempt) : bool :=
  negb (bool_decide (ea_status a = AT_SUCCEEDED))
  || (is_some (ea_output a) && match ea_validation_report a with Some r => vr_valid r | None => false end).
Definition EvaluationAttempt_ok (a : EvaluationAttempt) : bool :=
  between 1 2 (ea_attempt_number a)
  && forallb hash_pattern [ea_request_hash a; ea_prompt_hash a; ea_spec_hash a; ea_schema_hash a]
  && optional_hash (ea_response_text_hash a) && optional_hash (ea_raw_response_hash a) && terminal_shape a.

Record TickerDisagreement := {
  td_ticker : string;
  td_primary_terminal : option string;
  td_shadow_terminal : option string;
  td_primary_magnitude_bucket : option MagnitudeBucket;
  td_shadow_magnitude_bucket : option MagnitudeBucket;
  td_primary_conviction_score : option Z;
  td_shadow_conviction_score : option Z;
  td_evidence_span_equal : option bool;
}.

Record ShadowComparison := {
  sc_primary_attempt_id : string;
  sc_shadow_attempt_id : string;
  sc_exact_output_match : bool;
  sc_same_run_status : bool;
  sc_same_approved_order : bool;
  sc_ticker_disagreements : list TickerDisagreement;
  sc_primary_output_hash : string;
  sc_shadow_output_hash : string;
}.

Record ShadowEvaluationResult := {
  sr_run_id : string;
  sr_attempts : list EvaluationAttempt;
  sr_comparison : option ShadowComparison;
}.

Record EvaluationRunResult := {
  ev_run_id : string;
  ev_status : EvalRunStatus;
  ev_request : EvaluationRequest;
  ev_primary_attempts : list EvaluationAttempt;
  ev_shadow_attempts : list EvaluationAttempt;
  ev_selected_primary_attempt_id : option string;
  ev_output : option DaybreakOutput;
  ev_comparison : option ShadowComparison;
  ev_decision_ready_at : option datetime;
  ev_late_response_rejected : bool;
}.

Definition attempt_named (id : string) (a : EvaluationAttempt) : bool := String.eqb (ea_attempt_id a) id.
Definition has_role (r : AttemptRole) (a : EvaluationAttempt) : bool := bool_decide (ea_role a = r).

(** [selected.output != self.output]. *)
Definition same_output `{PyEq DaybreakOutput} (a b : option DaybreakOutput) : bool :=
  match a, b with Some x, Some y => py_eqb x y | None, None => true | _, _ => false end.

(** EvaluationRunResult.coherent. *)
Definition result_coherent `{PyEq DaybreakOutput} (r : EvaluationRunResult) : bool :=
  let attempts := ev_primary_attempts r ++ ev_shadow_attempts r in
  String.eqb (ev_run_id r) (er_run_id (ev_request r))
  && forallb (λ a, String.eqb (ea_run_id a) (ev_run_id r)) attempts
  && forallb (has_role AR_PRIMARY) (ev_primary_attempts r)
  && forallb (has_role AR_SHADOW) (ev_shadow_attempts r)
  && no_dup (map ea_attempt_id attempts)
  && (if decide (ev_status r = EV_PRIMARY_VALID) then
        match ev_selected_primary_attempt_id r with
        | Some id =>
            is_some (ev_output r) && is_some (ev_decision_ready_at r) && negb (ev_late_response_rejected r)
            && match find (attempt_named id) (ev_primary_attempts r) with
               | Some a => bool_decide (ea_status a = AT_SUCCEEDED) && same_output (ea_output a) (ev_output r)
               | None => false
               end
        | None => false
        end
      else negb (is_some (ev_selected_primary_attempt_id r)) && negb (is_some (ev_output r))
           && negb (is_some (ev_decision_ready_at r)))
  && eqb (ev_late_response_rejected r) (bool_decide (ev_status r = EV_CUTOFF_MISSED)).

(** EvaluationRunResult.executable_candidate_output. *)
Definition executable_candidate_output (r : EvaluationRunResult) : option DaybreakOutput :=
  if negb (bool_decide (ev_status r = EV_PRIMARY_VALID)) || ev_late_response_rejected r then None else ev_output r.
