(* ===== verification/EvalService.v ===== *)
(** * EvalService: the evaluator service

    daybreak_evaluator/service.py, prompt.py, schema.py's sanitizer and
    comparison.py.  The clock, the identifiers, the provider's transport and
    the specification files are outside the program: each answer is an
    arbitrary function of the calls made before it, and the calls are on
    record.  The repository is MemoryEvaluatorRepository. *)
From Stdlib Require Import Ascii String.
From S2P Require Import Prelude Numerics PyStr PyTime Contracts Replay Stores Canonical RiskModels Invariants ValidationRun PyJson EvalModels PyVal.

#[local] Open Scope Z_scope.

(** ** The environment *)

Record CreateCall := {
  cc_model : string;
  cc_directive : string;
  cc_payload_text : string;
  cc_reasoning_effort : string;
  cc_max_output_tokens : Z;
  cc_timeout_seconds : decimal;
}.
Inductive EvalCall := VClock | VNewId | VCreate (c : CreateCall).
Abbreviation calls := (list EvalCall).

Class EvalEnv := {
  vn_clock : calls → datetime;
  vn_new_id : calls → string;
  vn_create : calls → CreateCall → result ProviderResult;
}.

(** The specification: the file at a path, if there is one, and the bundled
    resource. *)
Class SpecFiles := {
  sf_file : string → option string;
  sf_bundled : string;
}.
(** DaybreakOutput's JSON schema, as pydantic gives it. *)
Class OutputSchema := output_schema : pyval.
(** [str] of a json.JSONDecodeError. *)
Class JsonErrorText := json_error_text : string → string.

(** ** The repository *)

Record EvaluatorRepository := {
  vq_requests : gmap string EvaluationRequest;
  vq_attempts : gmap string EvaluationAttempt;
  vq_comparisons : gmap string ShadowComparison;
  vq_results : gmap string EvaluationRunResult;
}.
Definition empty_evaluator_repository : EvaluatorRepository :=
  {| vq_requests := ∅; vq_attempts := ∅; vq_comparisons := ∅; vq_results := ∅ |}.
Definition set_vq_requests m (s : EvaluatorRepository) : EvaluatorRepository :=
  {| vq_requests := m; vq_attempts := vq_attempts s; vq_comparisons := vq_comparisons s; vq_results := vq_results s |}.
Definition set_vq_attempts m (s : EvaluatorRepository) : EvaluatorRepository :=
  {| vq_requests := vq_requests s; vq_attempts := m; vq_comparisons := vq_comparisons s; vq_results := vq_results s |}.
Definition set_vq_comparisons m (s : EvaluatorRepository) : EvaluatorRepository :=
  {| vq_requests := vq_requests s; vq_attempts := vq_attempts s; vq_comparisons := m; vq_results := vq_results s |}.
Definition set_vq_results m (s : EvaluatorRepository) : EvaluatorRepository :=
  {| vq_requests := vq_requests s; vq_attempts := vq_attempts s; vq_comparisons := vq_comparisons s; vq_results := m |}.

#[export] Instance vq_requests_attribute : Attribute vq_requests set_vq_requests.
Proof. split; [done | by intros []]. Qed.
#[export] Instance vq_attempts_attribute : Attribute vq_attempts set_vq_attempts.
Proof. split; [done | by intros []]. Qed.
#[export] Instance vq_comparisons_attribute : Attribute vq_comparisons set_vq_comparisons.
Proof. split; [done | by intros []]. Qed.
#[export] Instance vq_results_attribute : Attribute vq_results set_vq_results.
Proof. split; [done | by intros []]. Qed.

Module evaluations.
Section repository.
Context `{PyEq EvaluationRequest} `{PyEq EvaluationAttempt} `{PyEq ShadowComparison} `{PyEq EvaluationRunResult}.
Definition save_request (r : EvaluationRequest) : eff EvaluatorRepository unit :=
  put_once vq_requests set_vq_requests "evaluator request identity collision" (er_run_id r) r.
Definition save_attempt (a : EvaluationAttempt) : eff EvaluatorRepository unit :=
  put_once vq_attempts set_vq_attempts "evaluator attempt identity collision" (ea_attempt_id a) a.
Definition save_comparison (run_id : string) (c : ShadowComparison) : eff EvaluatorRepository unit :=
  put_once vq_comparisons set_vq_comparisons "evaluator comparison identity collision" run_id c.
Definition save_result (r : EvaluationRunResult) : eff EvaluatorRepository unit :=
  put_once vq_results set_vq_results "evaluator result identity collision" (ev_run_id r) r.
Definition get_result (run_id : string) : eff EvaluatorRepository (option EvaluationRunResult) :=
  gets (λ s, vq_results s !! run_id).
End repository.
End evaluations.

(** The state of the service: the calls made and the repository. *)
Abbreviation world := (calls * EvaluatorRepository)%type.
Abbreviation serv := (eff world).

Definition on_repository {A} (m : eff EvaluatorRepository A) : serv A := λ w,
  let (r, s) := m w.2 in (r, (w.1, s)).

Section calls.
Context `{EvalEnv}.
Definition clock_now : serv datetime := λ w, (Ok (vn_clock w.1), (w.1 ++ [VClock], w.2)).
Definition new_id : serv string := λ w, (Ok (vn_new_id w.1), (w.1 ++ [VNewId], w.2)).
(** A provider's answer is a result or an exception; divergence is not one. *)
Definition create (c : CreateCall) : serv ProviderResult := λ w,
  (match vn_create w.1 c with Err EDiverge => Err (EOther "Exception" "") | r => r end, (w.1 ++ [VCreate c], w.2)).
End calls.

(** ** prompt.py *)

Record PromptBundle := {
  pb_directive : string;
  pb_payload_text : string;
  pb_spec_hash : string;
}.
Definition prompt_hash (p : PromptBundle) : string :=
  canonical_sha256 (PDict [("directive"%string, PStr (pb_directive p)); ("payload_text"%string, PStr (pb_payload_text p));
    ("spec_hash"%string, PStr (pb_spec_hash p))]).

Definition EXPECTED_SPEC_SHA256 : string := "0872a5c3e168d4698819b2a4470d02566173a61caeecd4bacaa401e5f6a0fbf2".
Definition sha256_text (s : string) : string := sha256.hexdigest (list_ascii_of_string s).

(** The text and its digest; decoding the pinned bytes does not fail. *)
Definition load_spec_text `{SpecFiles} (spec_path : string) : result (string * string) :=
  match sf_file spec_path with
  | Some raw =>
      let digest := sha256_text raw in
      if String.eqb digest EXPECTED_SPEC_SHA256 then Ok (raw, digest)
      else Err (EValue "evaluator specification hash does not match pinned v6.3")
  | None =>
      let digest := sha256_text sf_bundled in
      if String.eqb digest EXPECTED_SPEC_SHA256 then Ok (sf_bundled, digest)
      else Err (EValue "bundled evaluator specification failed integrity verification")
  end.

(** The file can be read and decoded: the digest is what can fail. *)
Definition spec_is_available `{SpecFiles} (spec_path : string) : bool := is_ok (load_spec_text spec_path).
Definition spec_sha256 `{SpecFiles} (spec_path : string) : result string :=
  spec ← load_spec_text spec_path; Ok spec.2.

Definition build_prompt `{SpecFiles} `{Dump DaybreakInput} (spec_path : string) (payload : DaybreakInput)
    : result PromptBundle :=
  spec ← load_spec_text spec_path;
  Ok {| pb_directive := spec.1; pb_payload_text := string_of_list_ascii (canonical_json_text (dump payload));
        pb_spec_hash := spec.2 |}.

(** ** schema.py *)

Definition DROP_KEYS : list string := ["title"; "description"; "default"; "examples"].
Definition dict_lookup (k : string) (m : list (string * pyval)) : option pyval :=
  snd <$> find (λ kv, String.eqb kv.1 k) m.
Definition is_object (m : list (string * pyval)) : bool :=
  match dict_lookup "type" m with Some (PStr s) => String.eqb s "object" | _ => false end
  || is_some (dict_lookup "properties" m).
Definition strict_object (m : list (string * pyval)) : list (string * pyval) :=
  if is_object m then
    let m := dict_put "additionalProperties" (PBool false) m in
    match dict_lookup "properties" m with
    | Some (PDict ps) => dict_put "required" (PSeq (map (λ kv, PStr kv.1) ps)) m
    | Some _ => m
    | None => dict_put "required" (PSeq []) m
    end
  else m.
Fixpoint sanitize_node (v : pyval) : pyval :=
  match v with
  | PSeq l => PSeq (map sanitize_node l)
  | PDict m =>
      PDict (strict_object (omap (λ kv, if existsb (String.eqb kv.1) DROP_KEYS then None
                                        else Some (kv.1, sanitize_node kv.2)) m))
  | _ => v
  end.
Definition schema_sha256 `{OutputSchema} : string := canonical_sha256 (sanitize_node output_schema).

(** ** comparison.py *)

Abbreviation terminals := (gmap string (string * TerminalRecord)).
Definition add_terminals {A} (ticker : A → string) (kind : string) (record : A → TerminalRecord) (l : list A)
    (m : terminals) : terminals :=
  fold_left (λ m a, <[ticker a := (kind, record a)]> m) l m.
Definition terminal_map (o : DaybreakOutput) : terminals :=
  add_terminals ex_ticker "excluded" TExcluded (do_excluded_tickers o)
    (add_terminals qn_ticker "qualified_not_selected" TQualified (do_qualified_not_selected o)
      (add_terminals as_ticker "approved" TApproved (do_approved_setups o) ∅)).

Definition same_span (a b : ScoreBreakdown) : bool :=
  bool_decide (sb_magnitude_evidence_excerpt a = sb_magnitude_evidence_excerpt b)
  && bool_decide (sb_magnitude_evidence_start_char a = sb_magnitude_evidence_start_char b)
  && bool_decide (sb_magnitude_evidence_end_char a = sb_magnitude_evidence_end_char b).

(** What the two outputs say of a ticker, and whether they disagree. *)
Definition disagreement (ticker : string) (p s : option (string * TerminalRecord)) : TickerDisagreement :=
  let score r := score_of (snd r) in
  {| td_ticker := ticker; td_primary_terminal := fst <$> p; td_shadow_terminal := fst <$> s;
     td_primary_magnitude_bucket := (λ r, sb_catalyst_magnitude_bucket (score r)) <$> p;
     td_shadow_magnitude_bucket := (λ r, sb_catalyst_magnitude_bucket (score r)) <$> s;
     td_primary_conviction_score := p ≫= (λ r, conviction_of r.2);
     td_shadow_conviction_score := s ≫= (λ r, conviction_of r.2);
     td_evidence_span_equal := match p, s with Some a, Some b => Some (same_span (score a) (score b)) | _, _ => None end |}.
Definition disagrees (d : TickerDisagreement) : bool :=
  negb (bool_decide (td_primary_terminal d = td_shadow_terminal d))
  || negb (bool_decide (td_primary_magnitude_bucket d = td_shadow_magnitude_bucket d))
  || negb (bool_decide (td_primary_conviction_score d = td_shadow_conviction_score d))
  || bool_decide (td_evidence_span_equal d = Some false).

Definition compare_outputs `{Dump DaybreakOutput} (primary_attempt_id shadow_attempt_id : string)
    (primary shadow : DaybreakOutput) : ShadowComparison :=
  let p_hash := canonical_sha256 (dump primary) in
  let s_hash := canonical_sha256 (dump shadow) in
  let p_map := terminal_map primary in
  let s_map := terminal_map shadow in
  let tickers := sorted_by string_leb (elements (dom p_map ∪ dom s_map : gset string)) in
  {| sc_primary_attempt_id := primary_attempt_id; sc_shadow_attempt_id := shadow_attempt_id;
     sc_exact_output_match := String.eqb p_hash s_hash;
     sc_same_run_status := bool_decide (do_run_status primary = do_run_status shadow);
     sc_same_approved_order := bool_decide (approved_tickers primary = approved_tickers shadow);
     sc_ticker_disagreements :=
       filter (λ d, disagrees d = true) (map (λ t, disagreement t (p_map !! t) (s_map !! t)) tickers);
     sc_primary_output_hash := p_hash; sc_shadow_output_hash := s_hash |}.

(** ** service.py *)

(** The subclasses of OSError but TimeoutError, which is caught first. *)
Definition OS_ERRORS : list string :=
  ["OSError"; "BlockingIOError"; "ChildProcessError"; "ConnectionError"; "BrokenPipeError"; "ConnectionAbortedError";
   "ConnectionRefusedError"; "ConnectionResetError"; "FileExistsError"; "FileNotFoundError"; "InterruptedError";
   "IsADirectoryError"; "NotADirectoryError"; "PermissionError"; "ProcessLookupError"].
Definition is_timeout (e : exn) : bool := String.eqb (exn_type_name e) "TimeoutError".
Definition is_transport (e : exn) : bool :=
  existsb (String.eqb (exn_type_name e)) ("EvaluatorTransportError"%string :: OS_ERRORS).

Definition hash_text (s : option string) : option string := (λ t, canonical_sha256 (PStr t)) <$> s.
Definition hash_json (v : option pyval) : option string := canonical_sha256 <$> v.

(** Python's truth of an optional text. *)
Definition truthy_text (s : option string) : option string :=
  match s with Some EmptyString => None | _ => s end.

(** The provider's result, the output and the report of an attempt, as far as
    it went, and its error. *)
Record AttemptEvidence := {
  ae_provider : option ProviderResult;
  ae_output : option DaybreakOutput;
  ae_report : option ValidationReport;
  ae_error : option exn;
}.
Definition failed_before (e : exn) : AttemptEvidence :=
  {| ae_provider := None; ae_output := None; ae_report := None; ae_error := Some e |}.
Definition failed_after (p : ProviderResult) (e : exn) : AttemptEvidence :=
  {| ae_provider := Some p; ae_output := None; ae_report := None; ae_error := Some e |}.

Section service.
Context `{EvalEnv} `{SpecFiles} `{OutputSchema} `{JsonErrorText}.
Context `{Dump DaybreakInput} `{Dump EvaluationEvidence} `{Dump EvaluatorPolicy} `{Dump DaybreakOutput}.
Context `{Parse DaybreakInput} `{Parse DaybreakOutput} `{Parse ValidationMetadata}.
Context `{PyEq EvaluationRequest} `{PyEq EvaluationAttempt} `{PyEq ShadowComparison} `{PyEq EvaluationRunResult}.
Context `{PyEq DaybreakOutput}.
Variable policy : EvaluatorPolicy.
Variable spec_path : string.

Definition metadata (r : EvaluationRequest) (response_received_at : datetime) : ValidationMetadata :=
  let evidence := er_evidence r in
  {| md_evaluator_candidate_count := Some (len (di_tickers (er_input_payload r)));
     md_max_evaluator_candidates_hard := Some (ep_max_evaluator_candidates_hard policy);
     md_prequalified_out_tickers := ee_prequalified_out_tickers evidence;
     md_capacity_omitted_tickers := ee_capacity_omitted_tickers evidence;
     md_capacity_omissions_logged := ee_capacity_omissions_logged evidence;
     md_preselection_policy_version := ee_preselection_policy_version evidence;
     md_evaluator_response_timestamp := Some response_received_at;
     md_execution_cutoff_timestamp := Some (er_response_cutoff_timestamp r);
     md_order_authorized := Some false; md_completed_phases := [];
     md_scoring_completed_before_gates := Some true;
     md_duplicate_detection_after_ticker_validation := Some true;
     md_duplicate_detection_valid_only := Some true;
     md_operational_blockers_after_schema_validation := Some true;
     md_semantic_magnitude_before_override := ∅; md_invisible_disqualifier_tickers := ∅ |}.

Definition request_hash (r : EvaluationRequest) (p : PromptBundle) (model : string) (role : AttemptRole) : string :=
  canonical_sha256 (PDict [("run_id"%string, PStr (er_run_id r)); ("payload"%string, dump (er_input_payload r));
    ("evidence"%string, dump (er_evidence r));
    ("response_cutoff_timestamp"%string, PStr (datetime_iso (er_response_cutoff_timestamp r)));
    ("model"%string, PStr model); ("role"%string, PStr (AttemptRole_value role)); ("policy"%string, dump policy);
    ("prompt_hash"%string, PStr (prompt_hash p))]).

(** What is fixed for an attempt before the provider is called. *)
Record AttemptContext := {
  ax_request : EvaluationRequest;
  ax_prompt : PromptBundle;
  ax_role : AttemptRole;
  ax_model : string;
  ax_number : Z;
  ax_started : datetime;
}.

(** [_attempt]. *)
Definition attempt (x : AttemptContext) (status : AttemptStatus) (e : AttemptEvidence) : serv EvaluationAttempt :=
  let raw := p ← ae_provider e; if ep_store_raw_provider_response policy then pv_raw_response p else None in
  id ← new_id;
  received ← match ae_provider e with Some p => mret (pv_completed_at p) | None => clock_now end;
  let a :=
    {| ea_attempt_id := id; ea_run_id := er_run_id (ax_request x); ea_role := ax_role x;
       ea_attempt_number := ax_number x; ea_model := ax_model x; ea_request_started_at := ax_started x;
       ea_response_received_at := Some received; ea_status := status;
       ea_request_hash := request_hash (ax_request x) (ax_prompt x) (ax_model x) (ax_role x);
       ea_prompt_hash := prompt_hash (ax_prompt x); ea_spec_hash := pb_spec_hash (ax_prompt x);
       ea_schema_hash := schema_sha256; ea_response_id := ae_provider e ≫= pv_response_id;
       ea_raw_output_text := ae_provider e ≫= pv_output_text; ea_raw_provider_response := raw;
       ea_response_text_hash := hash_text (ae_provider e ≫= pv_output_text); ea_raw_response_hash := hash_json raw;
       ea_output := ae_output e; ea_validation_report := ae_report e;
       ea_usage := match ae_provider e with Some p => pv_usage p | None => no_usage end;
       ea_error_type := exn_type_name <$> ae_error e; ea_error_message := exn_message <$> ae_error e |} in
  if EvaluationAttempt_ok a then mret a else raise (EValidation "EvaluationAttempt").

(** The attempt, saved. *)
Definition recorded (x : AttemptContext) (status : AttemptStatus) (e : AttemptEvidence) : serv EvaluationAttempt :=
  a ← attempt x status e;
  on_repository (evaluations.save_attempt a) ;; mret a.

(** How long to wait for the provider, or the deadline already passed. *)
Definition timeout_of (x : AttemptContext) : option decimal :=
  match ax_role x with
  | AR_PRIMARY =>
      let remaining := total_seconds (er_response_cutoff_timestamp (ax_request x) - ax_started x) in
      if flt.gtb_Z remaining 0 then Some (dec.min (shortest remaining) (ep_request_timeout_seconds policy)) else None
  | AR_SHADOW => Some (ep_shadow_timeout_seconds policy)
  end.

(** What a response that parsed and is an output amounts to. *)
Definition judge_output (x : AttemptContext) (p : ProviderResult) (o : DaybreakOutput) : serv EvaluationAttempt :=
  report ← lift (validate_daybreak_run (Some (SModel (er_input_payload (ax_request x)))) (SModel o)
                   (Some (SModel (metadata (ax_request x) (pv_completed_at p)))) false);
  let evidence error := {| ae_provider := Some p; ae_output := Some o; ae_report := Some report; ae_error := error |} in
  if vr_valid report then recorded x AT_SUCCEEDED (evidence None)
  else recorded x AT_INVARIANT_INVALID (evidence (Some (EValue "Daybreak invariant validation failed"))).

(** From a response that carries a text. *)
Definition judge_text (x : AttemptContext) (p : ProviderResult) (text : string) : serv EvaluationAttempt :=
  match json_loads text with
  | Err e =>
      if String.eqb (exn_type_name e) "JSONDecodeError"
      then recorded x AT_INVALID_JSON (failed_after p (EOther "JSONDecodeError" (json_error_text text)))
      else raise e
  | Ok _ =>
      match parse_text text : result DaybreakOutput with
      | Err (EValidation m) => recorded x AT_SCHEMA_INVALID (failed_after p (EValidation m))
      | Err e => raise e
      | Ok o => judge_output x p o
      end
  end.

(** From the provider's response. *)
Definition judge (x : AttemptContext) (p : ProviderResult) : serv EvaluationAttempt :=
  if bool_decide (ax_role x = AR_PRIMARY) && (er_response_cutoff_timestamp (ax_request x) <? pv_completed_at p)
  then recorded x AT_DEADLINE_EXCEEDED (failed_after p (EOther "TimeoutError" "provider response arrived after cutoff"))
  else
    match truthy_text (pv_refusal p), truthy_text (pv_incomplete_reason p), truthy_text (pv_output_text p) with
    | Some refusal, _, _ => recorded x AT_REFUSED (failed_after p (EValue refusal))
    | None, Some reason, _ => recorded x AT_INCOMPLETE (failed_after p (EValue reason))
    | None, None, None => recorded x AT_EMPTY_OUTPUT (failed_after p (EValue "provider returned empty output_text"))
    | None, None, Some text => judge_text x p text
    end.

(** [_call_once]. *)
Definition call_once (r : EvaluationRequest) (prompt : PromptBundle) (role : AttemptRole) (model : string) (number : Z)
    : serv EvaluationAttempt :=
  started ← clock_now;
  let x := {| ax_request := r; ax_prompt := prompt; ax_role := role; ax_model := model; ax_number := number;
              ax_started := started |} in
  match timeout_of x with
  | None =>
      recorded x AT_DEADLINE_EXCEEDED (failed_before (EOther "TimeoutError" "evaluator response cutoff already passed"))
  | Some timeout =>
      answer ← observe (create
        {| cc_model := model; cc_directive := pb_directive prompt; cc_payload_text := pb_payload_text prompt;
           cc_reasoning_effort := ep_reasoning_effort policy; cc_max_output_tokens := ep_max_output_tokens policy;
           cc_timeout_seconds := timeout |});
      match answer with
      | Ok p => judge x p
      | Err e =>
          if is_timeout e then recorded x AT_DEADLINE_EXCEEDED (failed_before e)
          else if is_transport e then recorded x AT_TRANSPORT_ERROR (failed_before e)
          else raise e
      end
  end.

(** The attempts of [_evaluate_role], from the [number]-th, [left] at most. *)
Fixpoint evaluate_from (left : nat) (r : EvaluationRequest) (prompt : PromptBundle) (role : AttemptRole) (model : string)
    (number : Z) : serv (list EvaluationAttempt) :=
  match left with
  | O => mret []
  | S left' =>
      a ← call_once r prompt role model number;
      if negb (bool_decide (ea_status a = AT_TRANSPORT_ERROR)) then mret [a]
      else
        over ← match role with
               | AR_PRIMARY => now ← clock_now; mret (er_response_cutoff_timestamp r <=? now)
               | AR_SHADOW => mret false
               end;
        if over : bool then mret [a]
        else rest ← evaluate_from left' r prompt role model (number + 1); mret (a :: rest)
  end.
Definition evaluate_role (r : EvaluationRequest) (prompt : PromptBundle) (role : AttemptRole) (model : string)
    : serv (list EvaluationAttempt) :=
  evaluate_from (Z.to_nat (ep_max_attempts policy)) r prompt role model 1.

(** The last successful attempt. *)
Definition successful (attempts : list EvaluationAttempt) : option EvaluationAttempt :=
  find (λ a, bool_decide (ea_status a = AT_SUCCEEDED)) (rev attempts).

(** The result, validated and saved. *)
Definition conclude (r : EvaluationRunResult) : serv EvaluationRunResult :=
  if result_coherent r then on_repository (evaluations.save_result r) ;; mret r
  else raise (EValidation "EvaluationRunResult").

Definition without_output (r : EvaluationRequest) (status : EvalRunStatus) (attempts : list EvaluationAttempt) (late : bool)
    : EvaluationRunResult :=
  {| ev_run_id := er_run_id r; ev_status := status; ev_request := r; ev_primary_attempts := attempts;
     ev_shadow_attempts := []; ev_selected_primary_attempt_id := None; ev_output := None; ev_comparison := None;
     ev_decision_ready_at := None; ev_late_response_rejected := late |}.

Definition evaluate_primary (r : EvaluationRequest) : serv EvaluationRunResult :=
  on_repository (evaluations.save_request r) ;;
  if ep_max_evaluator_candidates_hard policy <? len (di_tickers (er_input_payload r)) then
    conclude (without_output r EV_INPUT_REJECTED [] false)
  else
    prompt ← lift (build_prompt spec_path (er_input_payload r));
    attempts ← evaluate_role r prompt AR_PRIMARY (ep_primary_model policy);
    let late := existsb (λ a, bool_decide (ea_status a = AT_DEADLINE_EXCEEDED)) attempts in
    match successful attempts with
    | None => conclude (without_output r (if late then EV_CUTOFF_MISSED else EV_PRIMARY_INVALID) attempts late)
    | Some primary =>
        conclude {| ev_run_id := er_run_id r; ev_status := EV_PRIMARY_VALID; ev_request := r;
                    ev_primary_attempts := attempts; ev_shadow_attempts := [];
                    ev_selected_primary_attempt_id := Some (ea_attempt_id primary); ev_output := ea_output primary;
                    ev_comparison := None; ev_decision_ready_at := ea_response_received_at primary;
                    ev_late_response_rejected := false |}
    end.

Definition evaluate_shadow (r : EvaluationRequest) (primary_result : EvaluationRunResult) : serv ShadowEvaluationResult :=
  on_repository (evaluations.save_request r) ;;
  match truthy_text (ep_shadow_model policy), ev_output primary_result with
  | Some model, Some primary =>
      prompt ← lift (build_prompt spec_path (er_input_payload r));
      attempts ← evaluate_role r prompt AR_SHADOW model;
      comparison ←
        match successful attempts, ev_selected_primary_attempt_id primary_result with
        | Some shadow, Some primary_id =>
            match ea_output shadow with
            | Some o =>
                let c := compare_outputs primary_id (ea_attempt_id shadow) primary o in
                on_repository (evaluations.save_comparison (er_run_id r) c) ;; mret (Some c)
            | None => mret None
            end
        | _, _ => mret None
        end;
      mret {| sr_run_id := er_run_id r; sr_attempts := attempts; sr_comparison := comparison |}
  | _, _ => mret {| sr_run_id := er_run_id r; sr_attempts := []; sr_comparison := None |}
  end.

(** [model_copy] does not validate. *)
Definition with_shadow (s : ShadowEvaluationResult) (r : EvaluationRunResult) : EvaluationRunResult :=
  {| ev_run_id := ev_run_id r; ev_status := ev_status r; ev_request := ev_request r;
     ev_primary_attempts := ev_primary_attempts r; ev_shadow_attempts := sr_attempts s;
     ev_selected_primary_attempt_id := ev_selected_primary_attempt_id r; ev_output := ev_output r;
     ev_comparison := sr_comparison s; ev_decision_ready_at := ev_decision_ready_at r;
     ev_late_response_rejected := ev_late_response_rejected r |}.

Definition evaluate_with_shadow (r : EvaluationRequest) : serv EvaluationRunResult :=
  primary ← evaluate_primary r;
  shadow ← evaluate_shadow r primary;
  mret (with_shadow shadow primary).

Definition evaluate (r : EvaluationRequest) (run_shadow : bool) : serv EvaluationRunResult :=
  if run_shadow then evaluate_with_shadow r else evaluate_primary r.
End service.
