(* ===== verification/EvalContract.v ===== *)
(** * EvalContract: the evaluator's primary path fails closed

    What [evaluate_primary] promises the session that calls it: the provider
    is asked a bounded number of times, only a transport failure is retried,
    every attempt is on record, and the only output a result carries is one
    that arrived by the cutoff, parsed, and passed all invariants. *)
From Stdlib Require Import Ascii String.
From S2P Require Import Prelude Numerics PyStr PyTime Contracts Replay Stores Canonical RiskModels Invariants ValidationRun PyJson EvalModels EvalService.

#[local] Open Scope Z_scope.

(** ** The provider calls and the repository *)

Definition is_create (c : EvalCall) : bool := match c with VCreate _ => true | _ => false end.
Definition provider_calls (cs : calls) : nat := length (filter (λ c, is_create c = true) cs).

Lemma provider_calls_app cs ds : provider_calls (cs ++ ds) = (provider_calls cs + provider_calls ds)%nat.
Proof. unfold provider_calls. by rewrite filter_app, length_app. Qed.

(** [held m k v]: the dict has [v], or a value equal to it, under [k]. *)
Definition held {A} `{PyEq A} (m : gmap string A) (k : string) (v : A) : Prop :=
  ∃ u, m !! k = Some u ∧ (u = v ∨ py_eqb u v = true).

Lemma put_once_held {S A} `{PyEq A} (get : S → gmap string A) set `{!Attribute get set} msg k v s u s' :
  put_once get set msg k v s = (Ok u, s') → s' = set (setdefault k v (get s)) s ∧ held (get s') k v.
Proof.
  unfold put_once. rewrite eff_bind_unfold. simpl. unfold collides, setdefault, held, raise, modify.
  destruct (get s !! k) as [e|] eqn:E.
  - destruct (py_eqb e v) eqn:Eq; simpl; [|done]. intros [= _ <-]. split; [by rewrite E|].
    rewrite E, attr_set_get. eauto.
  - simpl. intros [= _ <-]. rewrite E, attr_get_set. split; [done|]. exists v. by rewrite lookup_insert_eq; auto.
Qed.

(** What any step before the result is saved may do: [n] provider calls at
    most, requests and attempts only added, results left alone. *)
Record spends (n : nat) (w w' : world) : Prop := {
  sp_calls : ∃ made, w'.1 = w.1 ++ made ∧ (provider_calls made <= n)%nat;
  sp_requests : vq_requests w.2 ⊆ vq_requests w'.2;
  sp_attempts : vq_attempts w.2 ⊆ vq_attempts w'.2;
  sp_results : vq_results w'.2 = vq_results w.2;
}.

Lemma spends_refl w : spends 0 w w.
Proof. split; [exists []; by rewrite app_nil_r | done..]. Qed.
Lemma spends_trans n m w w1 w2 : spends n w w1 → spends m w1 w2 → spends (n + m) w w2.
Proof.
  intros [(c1 & E1 & L1) R1 A1 V1] [(c2 & E2 & L2) R2 A2 V2]. split; [|by etrans..].
  exists (c1 ++ c2). rewrite E2, E1, app_assoc, provider_calls_app. split; [done | lia].
Qed.
Lemma spends_weaken n m w w' : (n <= m)%nat → spends n w w' → spends m w w'.
Proof. intros L [(c & E & ?) ???]. split; [exists c; split; [done | lia] | done..]. Qed.
Lemma spends_repository n w s' :
  vq_requests w.2 ⊆ vq_requests s' → vq_attempts w.2 ⊆ vq_attempts s' → vq_results s' = vq_results w.2 →
  spends n w (w.1, s').
Proof. intros. split; [exists []; rewrite app_nil_r; split; [done | apply Nat.le_0_l] | done..]. Qed.

Lemma spends_bind {A B} n m (f : serv A) (g : A → serv B) :
  evolves (spends n) f → (∀ a, evolves (spends m) (g a)) → evolves (spends (n + m)) (f ≫= g).
Proof.
  intros Hf Hg w. specialize (Hf w). rewrite eff_bind_unfold. destruct (f w) as [[a|e] w1]; simpl in *.
  - eapply spends_trans; [done | apply Hg].
  - eapply spends_weaken; [|done]. lia.
Qed.
Lemma spends_free {A B} n (f : serv A) (g : A → serv B) :
  evolves (spends 0) f → (∀ a, evolves (spends n) (g a)) → evolves (spends n) (f ≫= g).
Proof. apply (spends_bind 0 n). Qed.
Lemma spends_still {A} (m : serv A) n : (∀ w, (m w).2 = w) → evolves (spends n) m.
Proof. intros E w. rewrite E. eapply spends_weaken; [|apply spends_refl]. lia. Qed.
Lemma spends_ret {A} (a : A) n : evolves (spends n) (mret a : serv A).
Proof. by apply spends_still. Qed.
Lemma spends_raise {A} e n : evolves (spends n) (raise e : serv A).
Proof. by apply spends_still. Qed.
Lemma spends_lift {A} (r : result A) n : evolves (spends n) (lift r : serv A).
Proof. by apply spends_still. Qed.

(** A saved attempt or request. *)
Lemma put_once_grows {S A} `{PyEq A} (get : S → gmap string A) set msg k v (P : S → S → Prop) s :
  P s s → (∀ m, get s ⊆ m → P s (set m s)) → P s (put_once get set msg k v s).2.
Proof.
  intros Hs Hm. unfold put_once. rewrite eff_bind_unfold. simpl. destruct (collides _ _); simpl; [done|].
  apply Hm, setdefault_subseteq.
Qed.

Create HintDb evaluator.
#[export] Hint Resolve spends_free spends_ret spends_raise spends_lift : evaluator.

Section contract.
Context `{EvalEnv} `{SpecFiles} `{OutputSchema} `{JsonErrorText}.
Context `{Dump DaybreakInput} `{Dump EvaluationEvidence} `{Dump EvaluatorPolicy} `{Dump DaybreakOutput}.
Context `{Parse DaybreakInput} `{Parse DaybreakOutput} `{Parse ValidationMetadata}.
Context `{PyEq EvaluationRequest} `{PyEq EvaluationAttempt} `{PyEq ShadowComparison} `{PyEq EvaluationRunResult}.
Context `{PyEq DaybreakOutput}.
Variable policy : EvaluatorPolicy.
Variable spec_path : string.

Lemma on_repository_spends {A} n (m : eff EvaluatorRepository A) :
  (∀ s, vq_requests s ⊆ vq_requests (m s).2 ∧ vq_attempts s ⊆ vq_attempts (m s).2 ∧
        vq_results (m s).2 = vq_results s) →
  evolves (spends n) (on_repository m).
Proof.
  intros Hm w. unfold on_repository. destruct (Hm w.2) as (? & ? & ?). destruct (m w.2) as [a s'].
  by apply spends_repository.
Qed.
Lemma save_request_spends r : evolves (spends 0) (on_repository (evaluations.save_request r)).
Proof.
  apply on_repository_spends. intros s. unfold evaluations.save_request.
  apply (put_once_grows _ _ _ _ _ (λ s s', vq_requests s ⊆ vq_requests s' ∧ vq_attempts s ⊆ vq_attempts s' ∧
    vq_results s' = vq_results s)); [done | by intros m].
Qed.
Lemma save_attempt_spends a : evolves (spends 0) (on_repository (evaluations.save_attempt a)).
Proof.
  apply on_repository_spends. intros s. unfold evaluations.save_attempt.
  apply (put_once_grows _ _ _ _ _ (λ s s', vq_requests s ⊆ vq_requests s' ∧ vq_attempts s ⊆ vq_attempts s' ∧
    vq_results s' = vq_results s)); [done | by intros m].
Qed.

Lemma call_spends (c : EvalCall) n (w : world) :
  (is_create c = true → (1 <= n)%nat) → spends n w (w.1 ++ [c], w.2).
Proof.
  intros Hc. split; [|done..]. exists [c]. split; [done|]. unfold provider_calls.
  destruct c; simpl in *; [lia..|by apply Hc].
Qed.
Lemma clock_spends n : evolves (spends n) clock_now.
Proof. intros w. by apply call_spends. Qed.
Lemma new_id_spends n : evolves (spends n) new_id.
Proof. intros w. by apply call_spends. Qed.
Lemma create_spends c : evolves (spends 1) (observe (create c)).
Proof. intros w. apply call_spends. lia. Qed.

#[local] Hint Resolve save_request_spends save_attempt_spends clock_spends new_id_spends create_spends : evaluator.

Lemma remaining_positive us : flt.gtb_Z (total_seconds us) 0 = (0 <? us).
Proof.
  pose proof (total_seconds_sign us) as H'. unfold flt.gtb_Z.
  assert (∀ a b, Z.sgn a = Z.sgn b → (0 <? a) = (0 <? b)) as Hs.
  { intros a b E. destruct (Z.ltb_spec 0 a), (Z.ltb_spec 0 b); lia. }
  destruct (Z.leb_spec 0 (fe (total_seconds us))).
  - apply Hs. rewrite Z.sgn_mul, H', (Z.sgn_pos (2 ^ _)) by (apply Z.pow_pos_nonneg; lia). lia.
  - rewrite Z.mul_0_l. by apply Hs.
Qed.

Lemma attempt_spends x st e : evolves (spends 0) (attempt policy x st e).
Proof.
  unfold attempt. cbv zeta. apply spends_free; [auto with evaluator|]. intros id.
  apply spends_free; [destruct (ae_provider e); auto with evaluator|]. intros received.
  destruct (EvaluationAttempt_ok _); auto with evaluator.
Qed.
#[local] Hint Resolve attempt_spends : evaluator.
Lemma recorded_spends x st e : evolves (spends 0) (recorded policy x st e).
Proof. unfold recorded. auto 8 with evaluator. Qed.
#[local] Hint Resolve recorded_spends : evaluator.

Lemma judge_text_spends x p t : evolves (spends 0) (judge_text policy x p t).
Proof.
  unfold judge_text. destruct (json_loads t) as [[]|e].
  - destruct (parse_text t) as [o|[]]; auto with evaluator.
    unfold judge_output. apply spends_free; [auto with evaluator|]. intros report. cbv zeta.
    destruct (vr_valid report); auto with evaluator.
  - destruct (String.eqb _ _); auto with evaluator.
Qed.
Lemma judge_spends x p : evolves (spends 0) (judge policy x p).
Proof.
  unfold judge. destruct (_ && _); [auto with evaluator|].
  destruct (truthy_text _); [auto with evaluator|]. destruct (truthy_text _); [auto with evaluator|].
  destruct (truthy_text _); [apply judge_text_spends | auto with evaluator].
Qed.
Lemma call_once_spends r prompt role model n : evolves (spends 1) (call_once policy r prompt role model n).
Proof.
  unfold call_once. apply spends_free; [auto with evaluator|]. intros started. cbv zeta.
  destruct (timeout_of _ _) as [t|].
  - apply (spends_bind 1 0); [auto with evaluator|]. intros [p|e]; [apply judge_spends|].
    destruct (is_timeout e); [auto with evaluator|]. destruct (is_transport e); auto with evaluator.
  - intros w. eapply spends_weaken; [|apply recorded_spends]. lia.
Qed.
Lemma evaluate_from_spends left r prompt role model n :
  evolves (spends left) (evaluate_from policy left r prompt role model n).
Proof.
  revert n. induction left as [|left IH]; intros n; simpl; [auto with evaluator|].
  apply (spends_bind 1 left); [apply call_once_spends|]. intros a.
  destruct (negb _); [auto with evaluator|]. apply spends_free.
  - destruct role; [|auto with evaluator]. apply spends_free; auto with evaluator.
  - intros []; [auto with evaluator|]. apply (evolves_weaken (spends (left + 0))); [by rewrite Nat.add_0_r|].
    apply spends_bind; [apply IH | auto with evaluator].
Qed.

(** ** The attempts a run returns *)

(** [tells x st e a]: the attempt is the record of [x] with this status and
    evidence. *)
Record tells (x : AttemptContext) (st : AttemptStatus) (e : AttemptEvidence) (a : EvaluationAttempt) : Prop := {
  tl_run : ea_run_id a = er_run_id (ax_request x);
  tl_role : ea_role a = ax_role x;
  tl_number : ea_attempt_number a = ax_number x;
  tl_model : ea_model a = ax_model x;
  tl_started : ea_request_started_at a = ax_started x;
  tl_status : ea_status a = st;
  tl_text : ea_raw_output_text a = ae_provider e ≫= pv_output_text;
  tl_output : ea_output a = ae_output e;
  tl_report : ea_validation_report a = ae_report e;
  tl_received : ∀ p, ae_provider e = Some p → ea_response_received_at a = Some (pv_completed_at p);
}.

Lemma attempt_returns x st e w a w' : attempt policy x st e w = (Ok a, w') → tells x st e a.
Proof.
  unfold attempt. cbv zeta. rewrite eff_bind_Ok. intros (id & w1 & _ & Ha).
  rewrite eff_bind_Ok in Ha. destruct Ha as (received & w2 & Hr & Ha).
  destruct (EvaluationAttempt_ok _); [|done]. injection Ha as <- _.
  split; try done. intros p Hp. simpl. rewrite Hp in Hr. by injection Hr as ->.
Qed.

Lemma recorded_returns x st e w a w' :
  recorded policy x st e w = (Ok a, w') → tells x st e a ∧ held (vq_attempts w'.2) (ea_attempt_id a) a.
Proof.
  unfold recorded. rewrite eff_bind_Ok. intros (a' & w1 & Ha & Hs).
  rewrite eff_bind_Ok in Hs. destruct Hs as (u & w2 & Hs & Hr). injection Hr as -> ->.
  split; [by eapply attempt_returns|]. unfold on_repository in Hs.
  destruct (evaluations.save_attempt a w1.2) as [r s2] eqn:E. injection Hs as -> <-.
  by apply (put_once_held vq_attempts set_vq_attempts) in E as [_ Hh].
Qed.

(** What a successful attempt stands on: the text the provider returned parsed
    as JSON and as an output, and validating it with the evidence of the
    request gave the attempt's report, which is valid. *)
Definition backed (r : EvaluationRequest) (a : EvaluationAttempt) (o : DaybreakOutput) : Prop :=
  ∃ text received report,
    ea_raw_output_text a = Some text ∧ json_loads text = Ok tt ∧ parse_text text = Ok o ∧
    ea_output a = Some o ∧ ea_response_received_at a = Some received ∧ ea_validation_report a = Some report ∧
    vr_valid report = true ∧
    validate_daybreak_run (Some (SModel (er_input_payload r))) (SModel o)
      (Some (SModel (metadata policy r received))) false = Ok report.
(** In time: asked before the cutoff, answered by the cutoff. *)
Definition in_time (r : EvaluationRequest) (a : EvaluationAttempt) : Prop :=
  ea_request_started_at a < er_response_cutoff_timestamp r ∧
  ∃ received, ea_response_received_at a = Some received ∧ received <= er_response_cutoff_timestamp r.

(** What is known of an attempt [call_once] returned. *)
Record known (r : EvaluationRequest) (role : AttemptRole) (number : Z) (a : EvaluationAttempt) (w : world) : Prop := {
  kn_run : ea_run_id a = er_run_id r;
  kn_role : ea_role a = role;
  kn_number : ea_attempt_number a = number;
  kn_saved : held (vq_attempts w.2) (ea_attempt_id a) a;
  kn_success : ea_status a = AT_SUCCEEDED → (∃ o, backed r a o) ∧ (role = AR_PRIMARY → in_time r a);
}.

Lemma recorded_known x st e w a w' :
  recorded policy x st e w = (Ok a, w') →
  (st = AT_SUCCEEDED → tells x st e a →
     (∃ o, backed (ax_request x) a o) ∧ (ax_role x = AR_PRIMARY → in_time (ax_request x) a)) →
  known (ax_request x) (ax_role x) (ax_number x) a w'.
Proof.
  intros [Ht Hh]%recorded_returns Hs. split; [apply Ht..|done|].
  intros E. apply Hs; [|done]. by rewrite <- E, (tl_status _ _ _ _ Ht).
Qed.
(** Any status but success says nothing more. *)
Lemma recorded_failure x st e w a w' :
  recorded policy x st e w = (Ok a, w') → st ≠ AT_SUCCEEDED →
  known (ax_request x) (ax_role x) (ax_number x) a w'.
Proof. intros Hr Hst. by eapply recorded_known. Qed.

Lemma judge_text_known x p t w a w' :
  judge_text policy x p t w = (Ok a, w') → pv_output_text p = Some t →
  (ax_role x = AR_PRIMARY → ax_started x < er_response_cutoff_timestamp (ax_request x) ∧
     pv_completed_at p <= er_response_cutoff_timestamp (ax_request x)) →
  known (ax_request x) (ax_role x) (ax_number x) a w'.
Proof.
  unfold judge_text. intros Ha Ht Htime. destruct (json_loads t) as [[]|e] eqn:Hj.
  - destruct (parse_text t) as [o|[]] eqn:Hp; try done; [|by eapply recorded_failure].
    unfold judge_output in Ha. rewrite eff_bind_Ok in Ha. destruct Ha as (report & w1 & Hv & Ha).
    apply lift_Ok in Hv as [Hv ->]. cbv zeta in Ha.
    destruct (vr_valid report) eqn:Hval; [|by eapply recorded_failure].
    eapply recorded_known; [exact Ha|]. intros _ [].
    split.
    + exists o, t, (pv_completed_at p), report. split_and!; try done; [by rewrite tl_text0 | by apply tl_received0].
    + intros Hrole. destruct (Htime Hrole) as [? ?]. split; [by rewrite tl_started0|].
      exists (pv_completed_at p). split; [by apply tl_received0 | done].
  - destruct (String.eqb _ _); [by eapply recorded_failure | done].
Qed.

Lemma judge_known x p w a w' :
  judge policy x p w = (Ok a, w') →
  (ax_role x = AR_PRIMARY → ax_started x < er_response_cutoff_timestamp (ax_request x)) →
  known (ax_request x) (ax_role x) (ax_number x) a w'.
Proof.
  unfold judge. intros Ha Hstart. destruct (_ && _) eqn:Hlate; [by eapply recorded_failure|].
  destruct (truthy_text (pv_refusal p)); [by eapply recorded_failure|].
  destruct (truthy_text (pv_incomplete_reason p)); [by eapply recorded_failure|].
  destruct (truthy_text (pv_output_text p)) as [t|] eqn:Ht; [|by eapply recorded_failure].
  eapply judge_text_known; [exact Ha | by destruct (pv_output_text p) as [[]|]|].
  intros Hrole. split; [by apply Hstart|]. rewrite bool_decide_eq_true_2 in Hlate by done. simpl in Hlate. bool_to_prop. done.
Qed.

Lemma call_once_known r prompt role model n w a w' :
  call_once policy r prompt role model n w = (Ok a, w') → known r role n a w'.
Proof.
  unfold call_once. rewrite eff_bind_Ok. intros (started & w1 & _ & Ha). cbv zeta in Ha.
  set (x := {| ax_request := r; ax_prompt := prompt; ax_role := role; ax_model := model; ax_number := n;
               ax_started := started |}) in *.
  change (known (ax_request x) (ax_role x) (ax_number x) a w').
  destruct (timeout_of policy x) as [t|] eqn:Ht; [|by eapply recorded_failure].
  rewrite eff_bind_Ok in Ha. destruct Ha as ([p|e] & w2 & _ & Ha).
  - eapply judge_known; [exact Ha|]. intros Hrole. unfold timeout_of in Ht. rewrite Hrole in Ht. cbv zeta in Ht.
    rewrite remaining_positive in Ht. destruct (0 <? _) eqn:Hr; [|done]. bool_to_prop. lia.
  - destruct (is_timeout e); [by eapply recorded_failure|].
    destruct (is_transport e); [by eapply recorded_failure | done].
Qed.

Lemma known_later r role n a w w' k : spends k w w' → known r role n a w → known r role n a w'.
Proof.
  intros Hs []. split; try done. destruct kn_saved0 as (u & Hu & ?). exists u. split; [|done].
  eapply lookup_weaken; [done | apply Hs].
Qed.

(** The attempts are numbered from one; all but the last failed in transport. *)
Lemma evaluate_from_known left r prompt role model n w l w' :
  evaluate_from policy left r prompt role model n w = (Ok l, w') →
  (∀ i a, l !! i = Some a → known r role (n + Z.of_nat i) a w') ∧
  (∀ i a, l !! i = Some a → S i ≠ length l → ea_status a = AT_TRANSPORT_ERROR) ∧ (length l <= left)%nat.
Proof.
  revert n w l w'. induction left as [|left IH]; intros n w l w'; simpl; [by intros [= <- _]|].
  rewrite eff_bind_Ok. intros (a & w1 & Ha & Hl). apply call_once_known in Ha as Hk.
  assert (∀ w2, spends 0 w1 w2 → l = [a] → w' = w2 →
    (∀ i b, l !! i = Some b → known r role (n + Z.of_nat i) b w') ∧
    (∀ i b, l !! i = Some b → S i ≠ length l → ea_status b = AT_TRANSPORT_ERROR) ∧ (length l <= S left)%nat) as Hone.
  { intros w2 Hs -> ->. split; [|split]; [intros [|i] b; [|done] | intros [|i] b; [|done] | simpl; lia].
    - intros [= <-]. rewrite Z.add_0_r. by eapply known_later.
    - done. }
  destruct (negb _) eqn:Hst.
  { injection Hl as <- <-. by apply (Hone w1); [apply spends_refl|..]. }
  bool_to_prop. rewrite eff_bind_Ok in Hl. destruct Hl as (over & w2 & Ho & Hl).
  assert (spends 0 w1 w2) as Hs.
  { destruct role; [|by injection Ho as _ ->; apply spends_refl].
    pose proof (spends_free 0 clock_now (λ now, mret (er_response_cutoff_timestamp r <=? now)) (clock_spends 0)
      (λ _, spends_ret _ 0) w1) as Hs. by rewrite Ho in Hs. }
  destruct over; [injection Hl as <- <-; by apply (Hone w2)|].
  rewrite eff_bind_Ok in Hl. destruct Hl as (rest & w3 & Hr & Hl). injection Hl as <- <-.
  pose proof (evaluate_from_spends left r prompt role model (n + 1) w2) as Hs2. rewrite Hr in Hs2.
  apply IH in Hr as (Hr1 & Hr2 & Hr3). split; [|split].
  - intros [|i] b Hb; simpl in Hb.
    + injection Hb as <-. rewrite Z.add_0_r. eapply known_later; [exact Hs2|]. by eapply known_later.
    + replace (n + Z.of_nat (S i)) with (n + 1 + Z.of_nat i) by lia. by apply Hr1.
  - intros [|i] b Hb Hi; simpl in Hb, Hi; [by injection Hb as <- | apply (Hr2 i b Hb); lia].
  - simpl. lia.
Qed.

(** ** The run *)

(** The only output a run can hand on: the output of an attempt of the primary
    model that was asked before the cutoff, answered by it, parsed, and valid;
    the report is ready for execution. *)
Definition authorized (r : EvaluationRequest) (v : EvaluationRunResult) (a : EvaluationAttempt) (o : DaybreakOutput)
    : Prop :=
  ev_primary_attempts v !! pred (length (ev_primary_attempts v)) = Some a ∧
  ea_status a = AT_SUCCEEDED ∧ ea_role a = AR_PRIMARY ∧
  ev_selected_primary_attempt_id v = Some (ea_attempt_id a) ∧
  ev_decision_ready_at v = ea_response_received_at a ∧ ev_late_response_rejected v = false ∧
  backed r a o ∧ in_time r a ∧ (∃ report, ea_validation_report a = Some report ∧ vr_execution_ready report = true).

(** What a run that returned says. *)
Record concluded (r : EvaluationRequest) (v : EvaluationRunResult) (w : world) : Prop := {
  cn_run : ev_run_id v = er_run_id r;
  cn_request : ev_request v = r;
  cn_saved : held (vq_results w.2) (er_run_id r) v;
  cn_attempts : ∀ a, a ∈ ev_primary_attempts v → ea_run_id a = er_run_id r ∧ held (vq_attempts w.2) (ea_attempt_id a) a;
  cn_retries : ∀ i a, ev_primary_attempts v !! i = Some a → S i ≠ length (ev_primary_attempts v) →
    ea_status a = AT_TRANSPORT_ERROR;
  cn_output : match executable_candidate_output v with
    | Some o => ev_status v = EV_PRIMARY_VALID ∧ ev_output v = Some o ∧ ∃ a, authorized r v a o
    | None => ev_status v ≠ EV_PRIMARY_VALID ∧ ev_output v = None
    end;
}.

Lemma backed_ready r a o : backed r a o →
  ∃ report, ea_validation_report a = Some report ∧ vr_execution_ready report = true.
Proof.
  intros (t & received & report & _ & _ & _ & _ & _ & Hr & Hval & Hv). exists report. split; [done|].
  apply validate_cases in Hv as [(e & He & _)|(p & ie & o' & m & Hp & Ho & Hm & ->)]; [done|].
  apply report_ready. apply report_valid in Hval as (He & Hall & _). split; [done|]. split; [done|].
  apply evidence_complete. by apply Ok_inj in Hm as <-.
Qed.

Lemma successful_last l a :
  successful l = Some a → (∀ i b, l !! i = Some b → S i ≠ length l → ea_status b = AT_TRANSPORT_ERROR) →
  l !! pred (length l) = Some a ∧ ea_status a = AT_SUCCEEDED.
Proof.
  unfold successful. intros Hf Hrest. apply find_some in Hf as [Hin Hs]. bool_to_prop.
  apply in_rev, list_elem_of_In, list_elem_of_lookup in Hin as [i Hi]. split; [|done].
  destruct (decide (S i = length l)) as [<-|Hne]; [done|]. specialize (Hrest i a Hi Hne). congruence.
Qed.

Lemma conclude_returns v w v' w' :
  conclude v w = (Ok v', w') → v' = v ∧ held (vq_results w'.2) (ev_run_id v) v ∧ vq_attempts w'.2 = vq_attempts w.2.
Proof.
  unfold conclude. destruct (result_coherent v); [|done]. rewrite eff_bind_Ok. intros (u & w1 & Hs & Hr).
  injection Hr as <- <-. unfold on_repository in Hs.
  destruct (evaluations.save_result v w.2) as [r s2] eqn:E. injection Hs as -> <-.
  apply (put_once_held vq_results set_vq_results) in E as [-> Hh]. split; [done|]. by split.
Qed.

Lemma conclude_grows v w :
  ∃ s', (conclude v w).2 = (w.1, s') ∧ vq_requests s' = vq_requests w.2 ∧ vq_attempts s' = vq_attempts w.2 ∧
    vq_results w.2 ⊆ vq_results s' ∧ (is_ok (conclude v w).1 = false → vq_results s' = vq_results w.2).
Proof.
  unfold conclude. destruct (result_coherent v); [|by exists w.2; destruct w].
  rewrite eff_bind_unfold. unfold on_repository, evaluations.save_result, put_once. rewrite eff_bind_unfold. simpl.
  destruct (collides _ _); simpl; [by eexists|]. eexists. split_and!; try done. simpl. apply setdefault_subseteq.
Qed.

(** What a run does to the world, whether it returns or raises: [n] provider
    calls at most; attempts and results only added, and no result when it raises. *)
Record grown (n : nat) {A} (res : result A) (w w' : world) : Prop := {
  gr_calls : ∃ made, w'.1 = w.1 ++ made ∧ (provider_calls made <= n)%nat;
  gr_attempts : vq_attempts w.2 ⊆ vq_attempts w'.2;
  gr_results : vq_results w.2 ⊆ vq_results w'.2;
  gr_raised : is_ok res = false → vq_results w'.2 = vq_results w.2;
}.

Lemma conclude_grown v w : grown 0 (conclude v w).1 w (conclude v w).2.
Proof.
  destruct (conclude_grows v w) as (s' & -> & _ & Ha & Hr & He). split; simpl; [|by rewrite Ha | done | done].
  exists []. by rewrite app_nil_r.
Qed.
Lemma grown_after {A B} n k (m : serv A) (g : A → serv B) w :
  evolves (spends n) m → (∀ a w1, grown k (g a w1).1 w1 (g a w1).2) →
  grown (n + k) ((m ≫= g) w).1 w ((m ≫= g) w).2.
Proof.
  intros Hm Hg. specialize (Hm w). rewrite eff_bind_unfold. destruct (m w) as [[a|e] w1]; simpl in *.
  - destruct Hm as [(c1 & E1 & L1) _ A1 V1], (Hg a w1) as [(c2 & E2 & L2) A2 R2 X2]. split.
    + exists (c1 ++ c2). rewrite E2, E1, app_assoc, provider_calls_app. split; [done | lia].
    + by etrans.
    + by rewrite <- V1.
    + intros Hx. by rewrite X2.
  - destruct Hm as [(c1 & E1 & L1) _ A1 V1]. split; [|done | by rewrite V1 | done].
    exists c1. split; [done | lia].
Qed.

Lemma evaluate_primary_grown r w :
  let m := evaluate_primary policy spec_path r w in
  grown (if ep_max_evaluator_candidates_hard policy <? len (di_tickers (er_input_payload r)) then 0
         else Z.to_nat (ep_max_attempts policy)) m.1 w m.2.
Proof.
  cbv zeta. unfold evaluate_primary. apply (grown_after 0 (if (_ : bool) then _ else _)); [apply save_request_spends|]. intros _ w1.
  destruct (_ <? _); [apply conclude_grown|].
  apply (grown_after 0 (Z.to_nat (ep_max_attempts policy))); [apply spends_lift|]. intros prompt w2.
  rewrite <- (Nat.add_0_r (Z.to_nat (ep_max_attempts policy))).
  apply grown_after; [apply evaluate_from_spends|]. intros attempts w3. cbv zeta.
  destruct (successful attempts); apply conclude_grown.
Qed.

(** A run that ended without an output. *)
Lemma without_output_concluded r st l late w v w' :
  conclude (without_output r st l late) w = (Ok v, w') → st ≠ EV_PRIMARY_VALID →
  (∀ i a, l !! i = Some a → known r AR_PRIMARY (1 + Z.of_nat i) a w) →
  (∀ i a, l !! i = Some a → S i ≠ length l → ea_status a = AT_TRANSPORT_ERROR) →
  concluded r v w'.
Proof.
  intros (-> & Hh & Ha)%conclude_returns Hst Hk Hr. split; try done.
  - intros a [i Hi]%list_elem_of_lookup. destruct (Hk i a Hi). by rewrite Ha.
  - unfold executable_candidate_output. simpl. by rewrite (bool_decide_eq_false_2 _ Hst).
Qed.

Lemma evaluate_primary_concluded r w v w' :
  evaluate_primary policy spec_path r w = (Ok v, w') →
  concluded r v w' ∧ (Z.of_nat (length (ev_primary_attempts v)) <= Z.max 0 (ep_max_attempts policy)).
Proof.
  unfold evaluate_primary. rewrite eff_bind_Ok. intros (_ & w1 & _ & Hv).
  destruct (_ <? _).
  { split; [by eapply without_output_concluded|]. apply conclude_returns in Hv as (-> & _). simpl. lia. }
  rewrite eff_bind_Ok in Hv. destruct Hv as (prompt & w2 & _ & Hv).
  rewrite eff_bind_Ok in Hv. destruct Hv as (l & w3 & Hl & Hv). cbv zeta in Hv.
  apply evaluate_from_known in Hl as (Hk & Hr & Hlen).
  destruct (successful l) as [a|] eqn:Hs.
  - apply successful_last in Hs as [Hlast Hs]; [|done]. destruct (Hk _ _ Hlast) as [_ Hrole _ _ Hok].
    destruct (Hok Hs) as [(o & Hb) Ht]. specialize (Ht eq_refl).
    assert (ea_output a = Some o) as Ho by (by destruct Hb as (? & ? & ? & ? & ? & ? & ? & _)).
    apply conclude_returns in Hv as (-> & Hh & Ha). split; [|simpl; lia]. split; try done.
    + intros b [i Hi]%list_elem_of_lookup. destruct (Hk i b Hi). by rewrite Ha.
    + unfold executable_candidate_output. simpl. rewrite Ho. split; [done|]. split; [done|].
      exists a. split_and!; try done. by eapply backed_ready.
  - split; [eapply without_output_concluded; try done; by destruct (existsb _ l)|].
    apply conclude_returns in Hv as (-> & _). simpl. lia.
Qed.


(** What JSON parsing raises besides JSONDecodeError is not caught: the attempt
    is neither returned nor recorded. *)
Lemma other_json_error_escapes x p t m w :
  json_loads t = Err (EValue m) → judge_text policy x p t w = (Err (EValue m), w).
Proof. intros E. unfold judge_text. by rewrite E. Qed.
End contract.

(** An integer of more than 4300 digits, which Python refuses to convert. *)
Definition huge_integer : string := string_of_list_ascii (replicate (Z.to_nat 4301) "7"%char).
Lemma huge_integer_refused : json_loads huge_integer = Err digits_limit.
Proof. vm_compute. reflexivity. Qed.

(** The provider's text is such an integer: the run raises, with no attempt on
    record, where the other malformed texts are recorded and fail closed. *)
Theorem huge_integer_escapes `{EvalEnv} `{OutputSchema} `{JsonErrorText} `{Dump DaybreakInput} `{Dump EvaluationEvidence}
  `{Dump EvaluatorPolicy} `{Parse DaybreakInput} `{Parse DaybreakOutput} `{Parse ValidationMetadata} `{PyEq EvaluationAttempt}
  policy x p w :
  judge_text policy x p huge_integer w = (Err digits_limit, w).
Proof. apply other_json_error_escapes, huge_integer_refused. Qed.
