(* ===== verification/ExecModels.v ===== *)
(** * ExecModels: the data of the paper execution coordinator

    daybreak_execution/enums.py, models.py and order_builder.py, and the
    status values of daybreak_execution/reservations.py.  Datetimes are
    instants, so the awareness validators hold by construction; uuid5 in the
    URL namespace is a parameter; a raw broker response is a Python dict, and
    two are equal when their canonical texts are. *)
From Stdlib Require Import Ascii String.
From S2P Require Import Prelude Numerics PyStr PyTime Contracts Canonical RiskModels.

#[local] Open Scope Z_scope.

(** [uuid5(NAMESPACE_URL, name).hex]. *)
Class Uuid5 := uuid5_hex : string → string.

(** ** Enums *)

Inductive ExecutionMode := XM_PAPER.
Inductive OrderSide := OS_BUY | OS_SELL.
Inductive OrderType := OT_LIMIT | OT_STOP.
Inductive TimeInForce := TF_DAY.
Inductive OrderClass := OC_BRACKET | OC_SIMPLE.
Inductive BrokerOrderStatus :=
  BO_ACCEPTED | BO_ACCEPTED_FOR_BIDDING | BO_PENDING_NEW | BO_NEW | BO_PARTIALLY_FILLED | BO_FILLED
  | BO_DONE_FOR_DAY | BO_CANCELED | BO_EXPIRED | BO_REPLACED | BO_PENDING_CANCEL | BO_PENDING_REPLACE
  | BO_STOPPED | BO_REJECTED | BO_SUSPENDED | BO_CALCULATED.
Inductive ExecutionOutcome :=
  XO_SUBMITTED | XO_EXISTING_RECONCILED | XO_PARTIAL_FILL_PROTECTED | XO_REJECTED
  | XO_RECONCILIATION_REQUIRED.
Inductive ExecutionEventType :=
  XT_REQUEST_ACCEPTED | XT_COMMAND_PERSISTED | XT_BROKER_LOOKUP | XT_SUBMIT_STARTED
  | XT_BROKER_ACKNOWLEDGED | XT_TRADE_UPDATE | XT_CANCEL_REQUESTED | XT_PROTECTIVE_STOP_SUBMIT_STARTED
  | XT_PROTECTIVE_STOP_ACKNOWLEDGED | XT_REJECTED | XT_RECONCILIATION_REQUIRED.
Inductive ExecutionRejectionCode :=
  XR_PAPER_MODE_REQUIRED | XR_LIVE_ENDPOINT_FORBIDDEN | XR_RISK_DECISION_NOT_APPROVED
  | XR_RESERVATION_MISSING | XR_RESERVATION_EXPIRED | XR_SUBMISSION_CUTOFF_EXCEEDED | XR_REQUEST_STALE
  | XR_INVALID_ORDER_GEOMETRY | XR_COMMAND_IDENTITY_CONFLICT | XR_BROKER_ORDER_MISMATCH
  | XR_BROKER_REJECTED | XR_BROKER_TIMEOUT_UNKNOWN_STATE | XR_BROKER_TRANSPORT_FAILURE
  | XR_PARTIAL_FILL_PROTECTION_FAILED | XR_POSITION_RECONCILIATION_FAILURE.

#[export] Instance ExecutionMode_eq : EqDecision ExecutionMode. Proof. solve_decision. Defined.
#[export] Instance OrderSide_eq : EqDecision OrderSide. Proof. solve_decision. Defined.
#[export] Instance OrderType_eq : EqDecision OrderType. Proof. solve_decision. Defined.
#[export] Instance TimeInForce_eq : EqDecision TimeInForce. Proof. solve_decision. Defined.
#[export] Instance OrderClass_eq : EqDecision OrderClass. Proof. solve_decision. Defined.
#[export] Instance BrokerOrderStatus_eq : EqDecision BrokerOrderStatus. Proof. solve_decision. Defined.
#[export] Instance ExecutionOutcome_eq : EqDecision ExecutionOutcome. Proof. solve_decision. Defined.
#[export] Instance ExecutionEventType_eq : EqDecision ExecutionEventType. Proof. solve_decision. Defined.
#[export] Instance ExecutionRejectionCode_eq : EqDecision ExecutionRejectionCode. Proof. solve_decision. Defined.

Definition OrderSide_value (s : OrderSide) : string := match s with OS_BUY => "buy" | OS_SELL => "sell" end.
Definition OrderType_value (t : OrderType) : string := match t with OT_LIMIT => "limit" | OT_STOP => "stop" end.
Definition TimeInForce_value (t : TimeInForce) : string := match t with TF_DAY => "day" end.
Definition OrderClass_value (c : OrderClass) : string :=
  match c with OC_BRACKET => "bracket" | OC_SIMPLE => "simple" end.
Definition BrokerOrderStatus_value (s : BrokerOrderStatus) : string :=
  match s with
  | BO_ACCEPTED => "accepted" | BO_ACCEPTED_FOR_BIDDING => "accepted_for_bidding"
  | BO_PENDING_NEW => "pending_new" | BO_NEW => "new" | BO_PARTIALLY_FILLED => "partially_filled"
  | BO_FILLED => "filled" | BO_DONE_FOR_DAY => "done_for_day" | BO_CANCELED => "canceled"
  | BO_EXPIRED => "expired" | BO_REPLACED => "replaced" | BO_PENDING_CANCEL => "pending_cancel"
  | BO_PENDING_REPLACE => "pending_replace" | BO_STOPPED => "stopped" | BO_REJECTED => "rejected"
  | BO_SUSPENDED => "suspended" | BO_CALCULATED => "calculated"
  end.
Definition ExecutionEventType_value (t : ExecutionEventType) : string :=
  match t with
  | XT_REQUEST_ACCEPTED => "request_accepted" | XT_COMMAND_PERSISTED => "command_persisted"
  | XT_BROKER_LOOKUP => "broker_lookup" | XT_SUBMIT_STARTED => "submit_started"
  | XT_BROKER_ACKNOWLEDGED => "broker_acknowledged" | XT_TRADE_UPDATE => "trade_update"
  | XT_CANCEL_REQUESTED => "cancel_requested"
  | XT_PROTECTIVE_STOP_SUBMIT_STARTED => "protective_stop_submit_started"
  | XT_PROTECTIVE_STOP_ACKNOWLEDGED => "protective_stop_acknowledged"
  | XT_REJECTED => "rejected" | XT_RECONCILIATION_REQUIRED => "reconciliation_required"
  end.
Definition ExecutionOutcome_value (o : ExecutionOutcome) : string :=
  match o with
  | XO_SUBMITTED => "submitted" | XO_EXISTING_RECONCILED => "existing_reconciled"
  | XO_PARTIAL_FILL_PROTECTED => "partial_fill_protected" | XO_REJECTED => "rejected"
  | XO_RECONCILIATION_REQUIRED => "reconciliation_required"
  end.
Definition ExecutionRejectionCode_value (c : ExecutionRejectionCode) : string :=
  match c with
  | XR_PAPER_MODE_REQUIRED => "PAPER_MODE_REQUIRED" | XR_LIVE_ENDPOINT_FORBIDDEN => "LIVE_ENDPOINT_FORBIDDEN"
  | XR_RISK_DECISION_NOT_APPROVED => "RISK_DECISION_NOT_APPROVED"
  | XR_RESERVATION_MISSING => "RESERVATION_MISSING" | XR_RESERVATION_EXPIRED => "RESERVATION_EXPIRED"
  | XR_SUBMISSION_CUTOFF_EXCEEDED => "SUBMISSION_CUTOFF_EXCEEDED" | XR_REQUEST_STALE => "REQUEST_STALE"
  | XR_INVALID_ORDER_GEOMETRY => "INVALID_ORDER_GEOMETRY"
  | XR_COMMAND_IDENTITY_CONFLICT => "COMMAND_IDENTITY_CONFLICT"
  | XR_BROKER_ORDER_MISMATCH => "BROKER_ORDER_MISMATCH" | XR_BROKER_REJECTED => "BROKER_REJECTED"
  | XR_BROKER_TIMEOUT_UNKNOWN_STATE => "BROKER_TIMEOUT_UNKNOWN_STATE"
  | XR_BROKER_TRANSPORT_FAILURE => "BROKER_TRANSPORT_FAILURE"
  | XR_PARTIAL_FILL_PROTECTION_FAILED => "PARTIAL_FILL_PROTECTION_FAILED"
  | XR_POSITION_RECONCILIATION_FAILURE => "POSITION_RECONCILIATION_FAILURE"
  end.

(** ** Models *)

(** Python dicts of JSON values, equal when their canonical texts are. *)
#[export] Instance pyval_py_eq : PyEq pyval := λ a b,
  bool_decide (canonical_json_text a = canonical_json_text b).
#[export] Instance pyval_py_laws : PyEqLaws pyval.
Proof.
  split; unfold py_eqb, pyval_py_eq.
  - intros a. by apply bool_decide_eq_true.
  - intros a b. apply bool_decide_ext. split; congruence.
  - intros a b c E1 E2. bool_to_prop. apply bool_decide_eq_true. congruence.
Qed.

Record ExecutionPolicy := {
  xp_mode : ExecutionMode;
  xp_max_request_age_ms : Z;
  xp_request_timeout_seconds : decimal;
  xp_cancel_unfilled_after_seconds : Z;
  xp_partial_fill_protection_enabled : bool;
  xp_allow_live_execution : bool;
}.

Definition ExecutionPolicy_ok (p : ExecutionPolicy) : bool :=
  between 1 30000 (xp_max_request_age_ms p)
  && positive_dec (xp_request_timeout_seconds p) && (xp_request_timeout_seconds p <=? dec.of_Z 30)%dec
  && between 1 120 (xp_cancel_unfilled_after_seconds p) && negb (xp_allow_live_execution p).

(** [ExecutionPolicy()]. *)
Definition default_execution_policy : ExecutionPolicy :=
  {| xp_mode := XM_PAPER; xp_max_request_age_ms := 2000; xp_request_timeout_seconds := dec.of_Z 5;
     xp_cancel_unfilled_after_seconds := 10; xp_partial_fill_protection_enabled := true;
     xp_allow_live_execution := false |}.

Record ExecutionRequest := {
  xq_execution_id : string;
  xq_run_id : string;
  xq_trading_date : date;
  xq_requested_at : datetime;
  xq_submission_cutoff_timestamp : datetime;
  xq_risk_decision : RiskDecision;
  xq_policy : ExecutionPolicy;
  xq_configuration_hash : string;
}.

Definition str_len (s : string) : Z := Z.of_nat (String.length s).

(** ExecutionRequest.matches_risk_identity. *)
Definition matches_risk_identity `{Dump RiskBody} (r : ExecutionRequest) : bool :=
  let d := xq_risk_decision r in
  bool_decide (xq_run_id r = rd_run_id (rd_body d))
  && bool_decide (xq_trading_date r = rd_trading_date (rd_body d))
  && bool_decide (xq_configuration_hash r = rd_configuration_hash (rd_body d))
  && (xq_requested_at r <=? xq_submission_cutoff_timestamp r)
  && bool_decide (canonical_sha256 (dump (rd_body d)) = rd_decision_hash d).

Definition ExecutionRequest_ok `{Dump RiskBody} (r : ExecutionRequest) : bool :=
  between 8 64 (str_len (xq_execution_id r)) && between 1 128 (str_len (xq_run_id r))
  && RiskDecision_ok (xq_risk_decision r) && ExecutionPolicy_ok (xq_policy r)
  && hash_pattern (xq_configuration_hash r) && matches_risk_identity r.

(** The command without its hash, which is computed from it. *)
Record CommandBody := {
  cb_command_id : string;
  cb_execution_id : string;
  cb_client_order_id : string;
  cb_symbol : string;
  cb_quantity : Z;
  cb_side : OrderSide;
  cb_order_type : OrderType;
  cb_time_in_force : TimeInForce;
  cb_order_class : OrderClass;
  cb_limit_price : option decimal;
  cb_stop_price : option decimal;
  cb_take_profit_limit_price : option decimal;
  cb_stop_loss_stop_price : option decimal;
  cb_parent_client_order_id : option string;
}.

Record BrokerOrderCommand := {
  co_body : CommandBody;
  co_command_hash : string;
}.

Definition co_client_order_id (c : BrokerOrderCommand) : string := cb_client_order_id (co_body c).

(** BrokerOrderCommand.validate_shape. *)
Definition validate_shape (c : CommandBody) : bool :=
  match cb_order_class c with
  | OC_BRACKET =>
      bool_decide (cb_side c = OS_BUY) && bool_decide (cb_order_type c = OT_LIMIT)
      && match cb_limit_price c, cb_take_profit_limit_price c, cb_stop_loss_stop_price c with
         | Some entry, Some target, Some stop => (stop <? entry)%dec && (entry <? target)%dec
         | _, _, _ => false
         end
  | OC_SIMPLE =>
      bool_decide (cb_order_type c = OT_STOP) && bool_decide (cb_side c = OS_SELL)
      && is_some (cb_stop_price c) && negb (is_some (cb_limit_price c))
  end.

Definition BrokerOrderCommand_ok (c : BrokerOrderCommand) : bool :=
  let b := co_body c in
  between 8 64 (str_len (cb_command_id b)) && between 1 48 (str_len (cb_client_order_id b))
  && is_canonical_ticker (cb_symbol b) && (0 <? cb_quantity b)
  && forallb (opt_ok positive_money)
       [cb_limit_price b; cb_stop_price b; cb_take_profit_limit_price b; cb_stop_loss_stop_price b]
  && hash_pattern (co_command_hash c) && validate_shape b.

Record BrokerOrderLeg := {
  lg_broker_order_id : string;
  lg_client_order_id : option string;
  lg_side : string;
  lg_order_type : string;
  lg_status : string;
  lg_quantity : decimal;
  lg_filled_quantity : decimal;
  lg_limit_price : option decimal;
  lg_stop_price : option decimal;
}.

Record BrokerOrderSnapshot := {
  os_snapshot_id : string;
  os_broker_order_id : string;
  os_client_order_id : string;
  os_symbol : string;
  os_side : OrderSide;
  os_order_type : OrderType;
  os_time_in_force : string;
  os_order_class : string;
  os_status : BrokerOrderStatus;
  os_quantity : decimal;
  os_filled_quantity : decimal;
  os_filled_avg_price : option decimal;
  os_limit_price : option decimal;
  os_stop_price : option decimal;
  os_submitted_at : option datetime;
  os_updated_at : datetime;
  os_legs : list BrokerOrderLeg;
  os_raw_response_hash : string;
  os_raw_response : pyval;
}.

Definition BrokerOrderLeg_ok (l : BrokerOrderLeg) : bool :=
  opt_ok money_ok (lg_limit_price l) && opt_ok money_ok (lg_stop_price l).

Definition BrokerOrderSnapshot_ok (o : BrokerOrderSnapshot) : bool :=
  between 8 64 (str_len (os_snapshot_id o)) && is_canonical_ticker (os_symbol o)
  && positive_dec (os_quantity o) && nonneg (os_filled_quantity o)
  && forallb (opt_ok money_ok) [os_filled_avg_price o; os_limit_price o; os_stop_price o]
  && forallb BrokerOrderLeg_ok (os_legs o) && hash_pattern (os_raw_response_hash o)
  && (os_filled_quantity o <=? os_quantity o)%dec.

Record BrokerPositionSnapshot := {
  ps_symbol : string;
  ps_quantity : decimal;
  ps_average_entry_price : option decimal;
  ps_observed_at : datetime;
  ps_raw_response_hash : string;
}.

Definition BrokerPositionSnapshot_ok (p : BrokerPositionSnapshot) : bool :=
  is_canonical_ticker (ps_symbol p) && nonneg (ps_quantity p)
  && opt_ok money_ok (ps_average_entry_price p) && hash_pattern (ps_raw_response_hash p).

Record ExecutionEvent := {
  xe_execution_id : string;
  xe_event_sequence : Z;
  xe_event_type : ExecutionEventType;
  xe_event_timestamp : datetime;
  xe_broker_order_id : option string;
  xe_client_order_id : option string;
  xe_status : option string;
  xe_filled_quantity : option decimal;
  xe_details : pyval;
  xe_event_hash : string;
}.

Definition ExecutionEvent_ok (e : ExecutionEvent) : bool :=
  (1 <=? xe_event_sequence e) && opt_ok nonneg (xe_filled_quantity e) && hash_pattern (xe_event_hash e).

Record TradeUpdate := {
  tu_event_id : string;
  tu_event : string;
  tu_event_timestamp : datetime;
  tu_order : BrokerOrderSnapshot;
  tu_raw_event_hash : string;
}.

Definition TradeUpdate_ok (u : TradeUpdate) : bool :=
  between 1 128 (str_len (tu_event_id u)) && hash_pattern (tu_raw_event_hash u).

Record ReconciliationReport := {
  rc_report_id : string;
  rc_execution_id : string;
  rc_client_order_id : string;
  rc_checked_at : datetime;
  rc_matched : bool;
  rc_mismatch_codes : list string;
  rc_broker_order : option BrokerOrderSnapshot;
  rc_broker_position : option BrokerPositionSnapshot;
  rc_report_hash : string;
}.

Record ExecutionResult := {
  xs_result_id : string;
  xs_execution_id : string;
  xs_outcome : ExecutionOutcome;
  xs_rejection_reasons : list ExecutionRejectionCode;
  xs_command : option BrokerOrderCommand;
  xs_broker_order : option BrokerOrderSnapshot;
  xs_protective_order : option BrokerOrderSnapshot;
  xs_reconciliation_required : bool;
  xs_events : list ExecutionEvent;
  xs_completed_at : datetime;
  xs_request_hash : string;
  xs_result_hash : string;
}.

(** ExecutionResult.terminal_shape. *)
Definition terminal_shape (r : ExecutionResult) : bool :=
  match xs_outcome r with
  | XO_SUBMITTED | XO_EXISTING_RECONCILED | XO_PARTIAL_FILL_PROTECTED =>
      is_some (xs_command r) && is_some (xs_broker_order r)
  | XO_REJECTED => nonempty (xs_rejection_reasons r)
  | XO_RECONCILIATION_REQUIRED => xs_reconciliation_required r
  end.

Definition ExecutionResult_ok (r : ExecutionResult) : bool :=
  hash_pattern (xs_request_hash r) && hash_pattern (xs_result_hash r) && terminal_shape r.

(** ** Equality *)

Definition execution_policy_fields (p : ExecutionPolicy) :=
  (xp_mode p, xp_max_request_age_ms p, xp_request_timeout_seconds p, xp_cancel_unfilled_after_seconds p,
   xp_partial_fill_protection_enabled p, xp_allow_live_execution p).
#[export] Instance ExecutionPolicy_py_eq : PyEq ExecutionPolicy := λ a b, py_eqb (execution_policy_fields a) (execution_policy_fields b).
#[export] Instance ExecutionPolicy_py_laws : PyEqLaws ExecutionPolicy := py_eq_via execution_policy_fields.

Definition execution_request_fields (r : ExecutionRequest) :=
  (xq_execution_id r, xq_run_id r, xq_trading_date r, xq_requested_at r, xq_submission_cutoff_timestamp r,
   xq_risk_decision r, xq_policy r, xq_configuration_hash r).
#[export] Instance ExecutionRequest_py_eq : PyEq ExecutionRequest := λ a b, py_eqb (execution_request_fields a) (execution_request_fields b).
#[export] Instance ExecutionRequest_py_laws : PyEqLaws ExecutionRequest := py_eq_via execution_request_fields.

Definition command_fields (c : BrokerOrderCommand) :=
  let b := co_body c in
  (cb_command_id b, cb_execution_id b, cb_client_order_id b, cb_symbol b, cb_quantity b, cb_side b,
   cb_order_type b, cb_time_in_force b, cb_order_class b, cb_limit_price b, cb_stop_price b,
   cb_take_profit_limit_price b, cb_stop_loss_stop_price b, cb_parent_client_order_id b, co_command_hash c).
#[export] Instance BrokerOrderCommand_py_eq : PyEq BrokerOrderCommand := λ a b, py_eqb (command_fields a) (command_fields b).
#[export] Instance BrokerOrderCommand_py_laws : PyEqLaws BrokerOrderCommand := py_eq_via command_fields.

Definition leg_fields (l : BrokerOrderLeg) :=
  (lg_broker_order_id l, lg_client_order_id l, lg_side l, lg_order_type l, lg_status l, lg_quantity l,
   lg_filled_quantity l, lg_limit_price l, lg_stop_price l).
#[export] Instance BrokerOrderLeg_py_eq : PyEq BrokerOrderLeg := λ a b, py_eqb (leg_fields a) (leg_fields b).
#[export] Instance BrokerOrderLeg_py_laws : PyEqLaws BrokerOrderLeg := py_eq_via leg_fields.

Definition snapshot_fields (o : BrokerOrderSnapshot) :=
  (os_snapshot_id o, os_broker_order_id o, os_client_order_id o, os_symbol o, os_side o, os_order_type o,
   os_time_in_force o, os_order_class o, os_status o, os_quantity o, os_filled_quantity o,
   os_filled_avg_price o, os_limit_price o, os_stop_price o, os_submitted_at o, os_updated_at o, os_legs o,
   os_raw_response_hash o, os_raw_response o).
#[export] Instance BrokerOrderSnapshot_py_eq : PyEq BrokerOrderSnapshot := λ a b, py_eqb (snapshot_fields a) (snapshot_fields b).
#[export] Instance BrokerOrderSnapshot_py_laws : PyEqLaws BrokerOrderSnapshot := py_eq_via snapshot_fields.

Definition event_fields (e : ExecutionEvent) :=
  (xe_execution_id e, xe_event_sequence e, xe_event_type e, xe_event_timestamp e, xe_broker_order_id e,
   xe_client_order_id e, xe_status e, xe_filled_quantity e, xe_details e, xe_event_hash e).
#[export] Instance ExecutionEvent_py_eq : PyEq ExecutionEvent := λ a b, py_eqb (event_fields a) (event_fields b).
#[export] Instance ExecutionEvent_py_laws : PyEqLaws ExecutionEvent := py_eq_via event_fields.

Definition result_fields (r : ExecutionResult) :=
  (xs_result_id r, xs_execution_id r, xs_outcome r, xs_rejection_reasons r, xs_command r, xs_broker_order r,
   xs_protective_order r, xs_reconciliation_required r, xs_events r, xs_completed_at r, xs_request_hash r,
   xs_result_hash r).
#[export] Instance ExecutionResult_py_eq : PyEq ExecutionResult := λ a b, py_eqb (result_fields a) (result_fields b).
#[export] Instance ExecutionResult_py_laws : PyEqLaws ExecutionResult := py_eq_via result_fields.
