(* ===== verification/OrderBuilder.v ===== *)
(** * OrderBuilder: the two commands the coordinator may send

    daybreak_execution/order_builder.py: the bracket entry of an approved risk
    decision and the protective stop of a partial fill, and what each commits
    the account to. *)
From Stdlib Require Import Ascii String QArith.
From S2P Require Import Prelude Numerics PyStr PyTime Contracts Canonical RiskModels ExecModels.

#[local] Open Scope Z_scope.

(** The text of the ValidationError of a command that does not validate is
    pydantic's. *)
Class CommandError := command_error : BrokerOrderCommand → string.

Section builder.
Context `{Uuid5} `{CommandError}.

Definition command_id (execution_id client_order_id : string) : string :=
  uuid5_hex ("daybreak-command:" +:+ execution_id +:+ ":" +:+ client_order_id).

Definition opt_val {A} (f : A → pyval) (o : option A) : pyval :=
  match o with Some x => f x | None => PNone end.

(** The dict that is hashed. *)
Definition command_payload (b : CommandBody) : pyval :=
  PDict [("command_id", PStr (cb_command_id b)); ("execution_id", PStr (cb_execution_id b));
         ("client_order_id", PStr (cb_client_order_id b)); ("symbol", PStr (cb_symbol b));
         ("quantity", PInt (cb_quantity b)); ("side", PEnum (OrderSide_value (cb_side b)));
         ("order_type", PEnum (OrderType_value (cb_order_type b)));
         ("time_in_force", PEnum (TimeInForce_value (cb_time_in_force b)));
         ("order_class", PEnum (OrderClass_value (cb_order_class b)));
         ("limit_price", opt_val PDecimal (cb_limit_price b));
         ("stop_price", opt_val PDecimal (cb_stop_price b));
         ("take_profit_limit_price", opt_val PDecimal (cb_take_profit_limit_price b));
         ("stop_loss_stop_price", opt_val PDecimal (cb_stop_loss_stop_price b));
         ("extended_hours", PBool false);
         ("parent_client_order_id", opt_val PStr (cb_parent_client_order_id b))].

(** The entry's payload has no stop_price key. *)
Definition entry_payload (b : CommandBody) : pyval :=
  match command_payload b with
  | PDict m => PDict (filter (λ kv, kv.1 ≠ "stop_price") m)
  | v => v
  end.

(** [_with_hash]. *)
Definition with_hash (payload : CommandBody → pyval) (b : CommandBody) : result BrokerOrderCommand :=
  let c := {| co_body := b; co_command_hash := canonical_sha256 (payload b) |} in
  if BrokerOrderCommand_ok c then Ok c else Err (EValidation (command_error c)).

Definition entry_body (r : ExecutionRequest) (v : RiskReservation) (limit stop target : decimal) : CommandBody :=
  let d := rd_body (xq_risk_decision r) in
  {| cb_command_id := command_id (xq_execution_id r) (rv_client_order_id v);
     cb_execution_id := xq_execution_id r;
     cb_client_order_id := rv_client_order_id v;
     cb_symbol := rd_ticker d;
     cb_quantity := rd_final_quantity d;
     cb_side := OS_BUY; cb_order_type := OT_LIMIT; cb_time_in_force := TF_DAY; cb_order_class := OC_BRACKET;
     cb_limit_price := Some limit; cb_stop_price := None;
     cb_take_profit_limit_price := Some target; cb_stop_loss_stop_price := Some stop;
     cb_parent_client_order_id := None |}.

Definition build_entry_command (r : ExecutionRequest) (now : datetime) : result BrokerOrderCommand :=
  let d := rd_body (xq_risk_decision r) in
  if negb (bool_decide (rd_decision d = RD_APPROVED)) then Err (EValue "risk decision is not approved") else
  match rd_reservation d with
  | None => Err (EValue "approved risk decision has no reservation")
  | Some v =>
      if negb (bool_decide (rv_status v = RV_RESERVED))
      then Err (EValue "risk reservation is not in reserved status")
      else if xq_submission_cutoff_timestamp r <? now then Err (EValue "submission cutoff exceeded")
      else if rv_expires_at v <=? now then Err (EValue "risk reservation expired")
      else if negb (rd_final_quantity d =? rv_reserved_quantity v)
      then Err (EValue "risk quantity and reservation quantity differ")
      else
        match cal_planned_entry_limit (rd_calculations d), cal_stop_price (rd_calculations d),
              cal_target_price (rd_calculations d) with
        | Some limit, Some stop, Some target => with_hash entry_payload (entry_body r v limit stop target)
        | _, _, _ => Err (EValue "risk decision is missing executable prices")
        end
  end.

(** [f"{parent[: 48 - len(suffix)]}{suffix}"]. *)
Definition protective_client_order_id (parent : string) : string := string_take 46 parent +:+ "-P".

Definition protective_body (r : ExecutionRequest) (v : RiskReservation) (filled_quantity : Z) (stop : decimal)
    : CommandBody :=
  let d := rd_body (xq_risk_decision r) in
  let client_id := protective_client_order_id (rv_client_order_id v) in
  {| cb_command_id := command_id (xq_execution_id r) client_id;
     cb_execution_id := xq_execution_id r;
     cb_client_order_id := client_id;
     cb_symbol := rd_ticker d;
     cb_quantity := filled_quantity;
     cb_side := OS_SELL; cb_order_type := OT_STOP; cb_time_in_force := TF_DAY; cb_order_class := OC_SIMPLE;
     cb_limit_price := None; cb_stop_price := Some stop;
     cb_take_profit_limit_price := None; cb_stop_loss_stop_price := None;
     cb_parent_client_order_id := Some (rv_client_order_id v) |}.

Definition build_partial_fill_protective_stop (r : ExecutionRequest) (filled_quantity : Z)
    : result BrokerOrderCommand :=
  let d := rd_body (xq_risk_decision r) in
  if filled_quantity <=? 0 then Err (EValue "protective stop requires positive filled quantity") else
  match cal_stop_price (rd_calculations d), rd_reservation d with
  | Some stop, Some v => with_hash command_payload (protective_body r v filled_quantity stop)
  | _, _ => Err (EValue "risk decision is missing stop or reservation")
  end.

(** ** What the commands are *)

Lemma with_hash_Ok payload b c :
  with_hash payload b = Ok c →
  c = {| co_body := b; co_command_hash := canonical_sha256 (payload b) |} ∧ BrokerOrderCommand_ok c = true.
Proof.
  unfold with_hash. cbv zeta. destruct (BrokerOrderCommand_ok _) eqn:E; [|done].
  intros <-%Ok_inj. done.
Qed.

(** The entry of an approved decision, at its quantity and prices, within the
    submission cutoff and the life of its reservation. *)
Record entry_of (r : ExecutionRequest) (now : datetime) (c : BrokerOrderCommand) : Prop := {
  en_approved : rd_decision (rd_body (xq_risk_decision r)) = RD_APPROVED;
  en_reservation : ∃ v limit stop target,
    rd_reservation (rd_body (xq_risk_decision r)) = Some v ∧ rv_status v = RV_RESERVED ∧
    cal_planned_entry_limit (rd_calculations (rd_body (xq_risk_decision r))) = Some limit ∧
    cal_stop_price (rd_calculations (rd_body (xq_risk_decision r))) = Some stop ∧
    cal_target_price (rd_calculations (rd_body (xq_risk_decision r))) = Some target ∧
    co_body c = entry_body r v limit stop target ∧ now < rv_expires_at v ∧
    rd_final_quantity (rd_body (xq_risk_decision r)) = rv_reserved_quantity v ∧
    (dval stop < dval limit)%Q ∧ (dval limit < dval target)%Q;
  en_cutoff : now <= xq_submission_cutoff_timestamp r;
  en_positive : 0 < cb_quantity (co_body c);
  en_ok : BrokerOrderCommand_ok c = true;
}.

Lemma command_ok_quantity c : BrokerOrderCommand_ok c = true → 0 < cb_quantity (co_body c).
Proof. unfold BrokerOrderCommand_ok. intros Hok. bool_to_prop. done. Qed.

Lemma command_ok_shape c : BrokerOrderCommand_ok c = true → validate_shape (co_body c) = true.
Proof. unfold BrokerOrderCommand_ok. intros [_ Hs]%andb_true_iff. done. Qed.

Lemma build_entry_command_Ok r now c : build_entry_command r now = Ok c → entry_of r now c.
Proof.
  unfold build_entry_command.
  destruct (bool_decide (rd_decision _ = RD_APPROVED)) eqn:Ha; [|done]. simpl negb. cbv iota.
  destruct (rd_reservation _) as [v|] eqn:Ev; [|done].
  destruct (bool_decide (rv_status v = RV_RESERVED)) eqn:Hs; [|done]. simpl negb. cbv iota.
  destruct (_ <? now) eqn:Hcut; [done|]. destruct (rv_expires_at v <=? now) eqn:Hexp; [done|].
  destruct (_ =? _) eqn:Hq; [|done]. simpl negb. cbv iota.
  destruct (cal_planned_entry_limit _) as [limit|] eqn:El; [|done].
  destruct (cal_stop_price _) as [stop|] eqn:Es; [|done].
  destruct (cal_target_price _) as [target|] eqn:Et; [|done].
  intros [-> Hok]%with_hash_Ok. bool_to_prop. pose proof (command_ok_shape _ Hok) as Hg.
  change ((stop <? limit)%dec && (limit <? target)%dec = true) in Hg. apply andb_true_iff in Hg as [Hg1 Hg2].
  split; simpl; try done.
  - exists v, limit, stop, target. split_and!; try done.
    + by apply dltb_spec.
    + by apply dltb_spec.
  - by apply command_ok_quantity in Hok.
Qed.

(** The protective stop sells exactly the filled quantity at the decision's
    stop. *)
Lemma build_protective_Ok r n c :
  build_partial_fill_protective_stop r n = Ok c →
  0 < n ∧ BrokerOrderCommand_ok c = true ∧
  ∃ v stop, rd_reservation (rd_body (xq_risk_decision r)) = Some v ∧
    cal_stop_price (rd_calculations (rd_body (xq_risk_decision r))) = Some stop ∧
    co_body c = protective_body r v n stop.
Proof.
  unfold build_partial_fill_protective_stop. destruct (n <=? 0) eqn:Hn; [done|].
  destruct (cal_stop_price _) as [stop|]; [|done]. destruct (rd_reservation _) as [v|]; [|done].
  intros [-> Hok]%with_hash_Ok. bool_to_prop. split; [lia|]. split; [done|]. by exists v, stop.
Qed.

Lemma build_entry_command_hash r now c :
  build_entry_command r now = Ok c → co_command_hash c = canonical_sha256 (entry_payload (co_body c)).
Proof. unfold build_entry_command. repeat case_match; try done. by intros [-> _]%with_hash_Ok. Qed.

Lemma build_protective_hash r n c :
  build_partial_fill_protective_stop r n = Ok c → co_command_hash c = canonical_sha256 (command_payload (co_body c)).
Proof. unfold build_partial_fill_protective_stop. repeat case_match; try done. by intros [-> _]%with_hash_Ok. Qed.

(** The only exceptions are ValueErrors, whose text the service reads. *)
Lemma build_entry_command_Err r now e : build_entry_command r now = Err e → is_value_error e = true.
Proof.
  unfold build_entry_command, with_hash. repeat case_match; intros [=]; subst; done.
Qed.

Lemma build_protective_Err r n e :
  build_partial_fill_protective_stop r n = Err e → is_value_error e = true.
Proof.
  unfold build_partial_fill_protective_stop, with_hash. repeat case_match; intros [=]; subst; done.
Qed.
End builder.
