(* ===== verification/ExecStore.v ===== *)
(** * ExecStore: the execution repository, the reservation sink and the broker

    MemoryExecutionRepository of daybreak_execution/persistence.py,
    MemoryReservationEventSink of reservations.py and the BrokerClient
    protocol of broker.py.  The broker is outside the program: every answer is
    an arbitrary function of the calls made before it, and the calls are
    recorded, so a theorem over all brokers is a theorem over all the ways the
    broker can behave. *)
From Stdlib Require Import Ascii String.
From S2P Require Import Prelude Numerics PyStr PyTime Stores Contracts Canonical RiskModels ExecModels.

#[local] Open Scope Z_scope.

(** ** MemoryExecutionRepository *)

Record ExecutionRepository := {
  er_requests : gmap string ExecutionRequest;
  er_commands : gmap string BrokerOrderCommand;
  er_snapshots : gmap string BrokerOrderSnapshot;
  er_events : gmap string (list ExecutionEvent);
  er_results : gmap string ExecutionResult;
  er_reconciliations : gmap string ReconciliationReport;
  er_trade_update_ids : gmap string (string * string);
}.

Definition empty_execution_repository : ExecutionRepository :=
  {| er_requests := ∅; er_commands := ∅; er_snapshots := ∅; er_events := ∅; er_results := ∅;
     er_reconciliations := ∅; er_trade_update_ids := ∅ |}.

Definition set_er_requests m (s : ExecutionRepository) : ExecutionRepository :=
  {| er_requests := m; er_commands := er_commands s; er_snapshots := er_snapshots s;
     er_events := er_events s; er_results := er_results s; er_reconciliations := er_reconciliations s;
     er_trade_update_ids := er_trade_update_ids s |}.
Definition set_er_commands m (s : ExecutionRepository) : ExecutionRepository :=
  {| er_requests := er_requests s; er_commands := m; er_snapshots := er_snapshots s;
     er_events := er_events s; er_results := er_results s; er_reconciliations := er_reconciliations s;
     er_trade_update_ids := er_trade_update_ids s |}.
Definition set_er_snapshots m (s : ExecutionRepository) : ExecutionRepository :=
  {| er_requests := er_requests s; er_commands := er_commands s; er_snapshots := m;
     er_events := er_events s; er_results := er_results s; er_reconciliations := er_reconciliations s;
     er_trade_update_ids := er_trade_update_ids s |}.
Definition set_er_events m (s : ExecutionRepository) : ExecutionRepository :=
  {| er_requests := er_requests s; er_commands := er_commands s; er_snapshots := er_snapshots s;
     er_events := m; er_results := er_results s; er_reconciliations := er_reconciliations s;
     er_trade_update_ids := er_trade_update_ids s |}.
Definition set_er_results m (s : ExecutionRepository) : ExecutionRepository :=
  {| er_requests := er_requests s; er_commands := er_commands s; er_snapshots := er_snapshots s;
     er_events := er_events s; er_results := m; er_reconciliations := er_reconciliations s;
     er_trade_update_ids := er_trade_update_ids s |}.
Definition set_er_reconciliations m (s : ExecutionRepository) : ExecutionRepository :=
  {| er_requests := er_requests s; er_commands := er_commands s; er_snapshots := er_snapshots s;
     er_events := er_events s; er_results := er_results s; er_reconciliations := m;
     er_trade_update_ids := er_trade_update_ids s |}.
Definition set_er_trade_update_ids m (s : ExecutionRepository) : ExecutionRepository :=
  {| er_requests := er_requests s; er_commands := er_commands s; er_snapshots := er_snapshots s;
     er_events := er_events s; er_results := er_results s; er_reconciliations := er_reconciliations s;
     er_trade_update_ids := m |}.

#[export] Instance er_requests_attribute : Attribute er_requests set_er_requests.
Proof. by split; [|intros []]. Qed.
#[export] Instance er_commands_attribute : Attribute er_commands set_er_commands.
Proof. by split; [|intros []]. Qed.
#[export] Instance er_results_attribute : Attribute er_results set_er_results.
Proof. by split; [|intros []]. Qed.

Module repository.
Abbreviation M := (eff ExecutionRepository).

Definition save_request (r : ExecutionRequest) : M unit :=
  put_once er_requests set_er_requests "execution request identity collision" (xq_execution_id r) r.

Definition save_command (c : BrokerOrderCommand) : M unit :=
  put_once er_commands set_er_commands "client_order_id command collision" (co_client_order_id c) c.

Definition get_command_by_client_order_id (id : string) : M (option BrokerOrderCommand) :=
  gets (λ s, er_commands s !! id).

Definition get_request (id : string) : M (option ExecutionRequest) := gets (λ s, er_requests s !! id).

Definition save_snapshot (o : BrokerOrderSnapshot) : M unit :=
  modify (λ s, set_er_snapshots (setdefault (os_snapshot_id o) o (er_snapshots s)) s).

(** [self.events.get(id, [])]. *)
Definition events_of (id : string) (s : ExecutionRepository) : list ExecutionEvent :=
  default [] (er_events s !! id).

(** [setdefault] runs before the checks, so a refused first event leaves an
    empty list behind. *)
Definition append_event (e : ExecutionEvent) : M unit :=
  modify (λ s, set_er_events (setdefault (xe_execution_id e) [] (er_events s)) s) ;;
  items ← gets (events_of (xe_execution_id e));
  match last items with
  | Some prior =>
      if xe_event_sequence e =? xe_event_sequence prior + 1
      then modify (λ s, set_er_events (<[xe_execution_id e := items ++ [e]]> (er_events s)) s)
      else raise (ERuntime "execution event sequence is not contiguous")
  | None =>
      if xe_event_sequence e =? 1
      then modify (λ s, set_er_events (<[xe_execution_id e := items ++ [e]]> (er_events s)) s)
      else raise (ERuntime "first execution event sequence must be one")
  end.

Definition next_event_sequence (id : string) : M Z := gets (λ s, len (events_of id s) + 1).
Definition list_events (id : string) : M (list ExecutionEvent) := gets (events_of id).

Definition save_result (r : ExecutionResult) : M unit :=
  put_once er_results set_er_results "execution result identity collision" (xs_result_id r) r.

Definition save_reconciliation (r : ReconciliationReport) : M unit :=
  modify (λ s, set_er_reconciliations (setdefault (rc_report_id r) r (er_reconciliations s)) s).

Definition claim_trade_update (event_id execution_id raw_event_hash : string) : M bool :=
  existing ← gets (λ s, er_trade_update_ids s !! event_id);
  match existing with
  | Some known =>
      if decide (known = (execution_id, raw_event_hash)) then mret false
      else raise (ERuntime "trade update identity collision")
  | None =>
      modify (λ s, set_er_trade_update_ids (<[event_id := (execution_id, raw_event_hash)]> (er_trade_update_ids s)) s) ;;
      mret true
  end.
End repository.

(** ** The world of the coordinator: repository, sink, broker calls *)

Inductive BrokerCall :=
  | CLookup (client_order_id : string)
  | CSubmit (c : BrokerOrderCommand)
  | CCancel (broker_order_id : string)
  | CGet (broker_order_id : string)
  | CPosition (symbol : string)
  | CPositions
  | COrders (status : string).

(** BrokerClient: each answer depends on the calls made before. *)
Class Broker := {
  bk_get_order_by_client_order_id : list BrokerCall → string → result BrokerOrderSnapshot;
  bk_submit_order : list BrokerCall → BrokerOrderCommand → result BrokerOrderSnapshot;
  bk_cancel_order : list BrokerCall → string → result unit;
  bk_get_order : list BrokerCall → string → result BrokerOrderSnapshot;
  bk_get_position : list BrokerCall → string → result (option BrokerPositionSnapshot);
}.

Definition ReservationEvent : Type := string * ReservationStatus * datetime * pyval.

Record World := {
  w_repo : ExecutionRepository;
  w_sink : list ReservationEvent;
  w_calls : list BrokerCall;
}.

Definition empty_world : World := {| w_repo := empty_execution_repository; w_sink := []; w_calls := [] |}.

Abbreviation exec := (eff World).

Definition on_repo {A} (m : eff ExecutionRepository A) : exec A := λ w,
  let (r, s) := m (w_repo w) in (r, {| w_repo := s; w_sink := w_sink w; w_calls := w_calls w |}).

(** MemoryReservationEventSink.append_status. *)
Definition append_status (reservation_id : string) (status : ReservationStatus) (at_ : datetime)
    (details : pyval) : exec unit :=
  modify (λ w, {| w_repo := w_repo w; w_sink := w_sink w ++ [(reservation_id, status, at_, details)];
                  w_calls := w_calls w |}).

(** A call: the answer of the broker after the calls so far, and the call on
    record. *)
Definition call {A} (c : BrokerCall) (answer : list BrokerCall → result A) : exec A := λ w,
  (answer (w_calls w), {| w_repo := w_repo w; w_sink := w_sink w; w_calls := w_calls w ++ [c] |}).

Section broker.
Context `{Broker}.
Definition get_order_by_client_order_id (id : string) : exec BrokerOrderSnapshot :=
  call (CLookup id) (λ h, bk_get_order_by_client_order_id h id).
Definition submit_order (c : BrokerOrderCommand) : exec BrokerOrderSnapshot :=
  call (CSubmit c) (λ h, bk_submit_order h c).
Definition cancel_order (id : string) : exec unit := call (CCancel id) (λ h, bk_cancel_order h id).
Definition get_order (id : string) : exec BrokerOrderSnapshot := call (CGet id) (λ h, bk_get_order h id).
Definition get_position (symbol : string) : exec (option BrokerPositionSnapshot) :=
  call (CPosition symbol) (λ h, bk_get_position h symbol).
End broker.

(** ** The repository only grows *)

(** The events of every execution are numbered 1, 2, 3, ... and carry its id. *)
Definition events_contiguous (s : ExecutionRepository) : Prop :=
  ∀ id, Forall2 (λ n e, xe_event_sequence e = n ∧ xe_execution_id e = id)
          (seqZ 1 (len (repository.events_of id s))) (repository.events_of id s).

(** Nothing stored is removed or changed, and event lists only get longer. *)
Record extends (s s' : ExecutionRepository) : Prop := {
  ex_requests : er_requests s ⊆ er_requests s';
  ex_commands : er_commands s ⊆ er_commands s';
  ex_snapshots : er_snapshots s ⊆ er_snapshots s';
  ex_events id : repository.events_of id s `prefix_of` repository.events_of id s';
  ex_results : er_results s ⊆ er_results s';
  ex_reconciliations : er_reconciliations s ⊆ er_reconciliations s';
  ex_claims : er_trade_update_ids s ⊆ er_trade_update_ids s';
}.

#[export] Instance extends_preorder : PreOrder extends.
Proof.
  split.
  - intros s. split; done.
  - intros s1 s2 s3 [a1 a2 a3 a4 a5 a6 a7] [b1 b2 b3 b4 b5 b6 b7]. split;
      [by etrans | by etrans | by etrans | | by etrans | by etrans | by etrans].
    intros id. etrans; [apply a4 | apply b4].
Qed.

Lemma last_sequence n (l : list ExecutionEvent) id e :
  Forall2 (λ n e, xe_event_sequence e = n ∧ xe_execution_id e = id) (seqZ n (len l)) l →
  last l = Some e → xe_event_sequence e = n + len l - 1.
Proof.
  intros Hl Hlast. rewrite last_lookup in Hlast.
  eapply Forall2_lookup_r in Hl as (m & Hm & He & _); [|exact Hlast].
  apply lookup_seqZ in Hm as [-> Hlt]. rewrite He. unfold len.
  destruct l; [done|]. simpl length. lia.
Qed.

Section repository_facts.
Import repository.
Implicit Types s : ExecutionRepository.

Lemma events_of_setdefault id k s :
  events_of id (set_er_events (setdefault k [] (er_events s)) s) = events_of id s.
Proof.
  unfold events_of, setdefault. simpl. destruct (er_events s !! k) eqn:E; [done|].
  destruct (decide (id = k)) as [->|Hne]; [by rewrite lookup_insert_eq, E | by rewrite lookup_insert_ne].
Qed.

Lemma events_of_insert id k l s :
  events_of id (set_er_events (<[k := l]> (er_events s)) s) = if decide (id = k) then l else events_of id s.
Proof.
  unfold events_of. simpl. case_decide as E; [subst; by rewrite lookup_insert_eq | by rewrite lookup_insert_ne].
Qed.

(** [append_event] under contiguity: it appends exactly the next event. *)
Lemma append_event_spec e s :
  events_contiguous s →
  let s0 := set_er_events (setdefault (xe_execution_id e) [] (er_events s)) s in
  append_event e s =
    if xe_event_sequence e =? len (events_of (xe_execution_id e) s) + 1
    then (Ok tt, set_er_events (<[xe_execution_id e := events_of (xe_execution_id e) s ++ [e]]> (er_events s0)) s0)
    else (Err (ERuntime (match events_of (xe_execution_id e) s with
                         | [] => "first execution event sequence must be one"
                         | _ => "execution event sequence is not contiguous" end)), s0).
Proof.
  intros Hc s0. unfold append_event. rewrite eff_bind_unfold. cbn [modify].
  rewrite eff_bind_unfold. cbn [gets]. fold s0.
  assert (events_of (xe_execution_id e) s0 = events_of (xe_execution_id e) s) as -> by apply events_of_setdefault.
  specialize (Hc (xe_execution_id e)).
  destruct (last (events_of (xe_execution_id e) s)) as [p|] eqn:Hl.
  - pose proof (last_sequence _ _ _ _ Hc Hl) as ->.
    replace (1 + len (events_of (xe_execution_id e) s) - 1 + 1)
      with (len (events_of (xe_execution_id e) s) + 1) by lia.
    destruct (xe_event_sequence e =? _); [done|]. by destruct (events_of _ s).
  - apply last_None in Hl. rewrite Hl. simpl. by destruct (_ =? _).
Qed.

Lemma append_event_contiguous e : preserves events_contiguous (append_event e).
Proof.
  intros s Hs. pose proof (append_event_spec e s Hs) as Hspec. cbv zeta in Hspec. rewrite Hspec. clear Hspec.
  set (s0 := set_er_events (setdefault (xe_execution_id e) [] (er_events s)) s).
  destruct (_ =? _) eqn:Hq; cbn [snd]; intros id.
  - rewrite events_of_insert. case_decide as E; [|unfold s0; rewrite events_of_setdefault; apply Hs].
    subst id. unfold len. rewrite length_app, Nat2Z.inj_add. cbn [length].
    rewrite seqZ_app by lia. apply Forall2_app; [apply Hs|].
    apply Z.eqb_eq in Hq. unfold len in Hq.
    rewrite seqZ_cons by lia. constructor; [split; [lia | done]|]. by rewrite seqZ_nil by lia.
  - unfold s0. rewrite events_of_setdefault. apply Hs.
Qed.

Lemma extends_events s m :
  (∀ id, events_of id s `prefix_of` events_of id (set_er_events m s)) → extends s (set_er_events m s).
Proof. intros He. split; done. Qed.

Lemma append_event_extends e : evolves extends (append_event e).
Proof.
  unfold append_event. apply evolves_bind; [apply _ | |].
  { apply evolves_modify. intros s. apply extends_events. intros id. by rewrite events_of_setdefault. }
  intros _ s. rewrite eff_bind_unfold. cbn [gets].
  assert (extends s (set_er_events (<[xe_execution_id e := events_of (xe_execution_id e) s ++ [e]]> (er_events s)) s)) as Hx.
  { apply extends_events. intros id. rewrite events_of_insert. case_decide as E; [|done].
    subst. by apply prefix_app_r. }
  destruct (last _); destruct (_ =? _); simpl; done.
Qed.

Lemma put_once_extends {A} `{PyEqLaws A} get set msg k (v : A) :
  (∀ s m, get s ⊆ m → extends s (set m s)) → evolves extends (put_once get set msg k v).
Proof. intros Hx. apply put_once_evolves; [|done]. by intros s. Qed.

Lemma save_request_extends r : evolves extends (save_request r).
Proof. apply put_once_extends. intros s m Hm. split; done. Qed.
Lemma save_command_extends c : evolves extends (save_command c).
Proof. apply put_once_extends. intros s m Hm. split; done. Qed.
Lemma save_result_extends r : evolves extends (save_result r).
Proof. apply put_once_extends. intros s m Hm. split; done. Qed.
Lemma save_snapshot_extends o : evolves extends (save_snapshot o).
Proof. apply evolves_modify. intros s. split; try done. apply setdefault_subseteq. Qed.
Lemma save_reconciliation_extends r : evolves extends (save_reconciliation r).
Proof. apply evolves_modify. intros s. split; try done. apply setdefault_subseteq. Qed.

Lemma claim_extends a b c : evolves extends (claim_trade_update a b c).
Proof.
  intros s. unfold claim_trade_update. rewrite eff_bind_unfold. cbn [gets].
  destruct (er_trade_update_ids s !! a) as [k|] eqn:E; [by case_decide|].
  simpl. split; try done. simpl. by apply insert_subseteq.
Qed.

Lemma events_contiguous_of s s' : er_events s' = er_events s → events_contiguous s → events_contiguous s'.
Proof. intros He Hs id. unfold events_of. rewrite He. apply Hs. Qed.
End repository_facts.
