(* ===== verification/ExecService.v ===== *)
(** * ExecService: the paper execution coordinator

    ExecutionService of daybreak_execution/service.py and reconcile_command of
    reconciliation.py, in the state-and-exception monad over the World of
    ExecStore.v.  The lock of [_synchronized] makes each public method one
    sequential step.  [now] is the clock reading of the call. *)
From Stdlib Require Import Ascii String.
From S2P Require Import Prelude Numerics PyStr PyTime Stores Contracts Canonical RiskModels ExecModels OrderBuilder ExecStore.

#[local] Open Scope Z_scope.

(** [str(exc)] of a ValueError. *)
Definition exn_text (e : exn) : string := match e with EValue m | EValidation m => m | _ => "" end.

(** The rejection code of a command that could not be built, read off the
    text of the error. *)
Definition reason_of_message (message : string) : ExecutionRejectionCode :=
  if string_contains "cutoff" message then XR_SUBMISSION_CUTOFF_EXCEEDED
  else if string_contains "expired" message then XR_RESERVATION_EXPIRED
  else if string_contains "approved" message then XR_RISK_DECISION_NOT_APPROVED
  else if string_contains "reservation" message then XR_RESERVATION_MISSING
  else XR_INVALID_ORDER_GEOMETRY.

(** [_matches]. *)
Definition take_profit_leg (c : CommandBody) (l : BrokerOrderLeg) : bool :=
  String.eqb (lg_side l) "sell" && String.eqb (lg_order_type l) "limit"
  && py_eqb (lg_limit_price l) (cb_take_profit_limit_price c)
  && (lg_quantity l =? dec.of_Z (cb_quantity c))%dec.
Definition stop_loss_leg (c : CommandBody) (l : BrokerOrderLeg) : bool :=
  String.eqb (lg_side l) "sell"
  && (String.eqb (lg_order_type l) "stop" || String.eqb (lg_order_type l) "stop_limit")
  && py_eqb (lg_stop_price l) (cb_stop_loss_stop_price c)
  && (lg_quantity l =? dec.of_Z (cb_quantity c))%dec.

Definition prices_match (c : CommandBody) (o : BrokerOrderSnapshot) : bool :=
  match cb_limit_price c with Some p => py_eqb (os_limit_price o) (Some p) | None => true end
  && match cb_stop_price c with Some p => py_eqb (os_stop_price o) (Some p) | None => true end.

Definition identity_matches (c : CommandBody) (o : BrokerOrderSnapshot) : bool :=
  String.eqb (cb_client_order_id c) (os_client_order_id o) && String.eqb (cb_symbol c) (os_symbol o)
  && bool_decide (cb_side c = os_side o) && bool_decide (cb_order_type c = os_order_type o)
  && String.eqb (TimeInForce_value (cb_time_in_force c)) (os_time_in_force o)
  && String.eqb (OrderClass_value (cb_order_class c)) (os_order_class o)
  && (dec.of_Z (cb_quantity c) =? os_quantity o)%dec && prices_match c o.

Definition matches (command : BrokerOrderCommand) (o : BrokerOrderSnapshot) : bool :=
  let c := co_body command in
  if negb (identity_matches c o) then false
  else match cb_order_class c with
       | OC_SIMPLE => true
       | OC_BRACKET =>
           (len (os_legs o) =? 2)
           && (len (filter (λ l, take_profit_leg c l = true) (os_legs o)) =? 1)
           && (len (filter (λ l, stop_loss_leg c l = true) (os_legs o)) =? 1)
       end.

Definition terminal_rejection (o : BrokerOrderSnapshot) : bool :=
  bool_decide (os_status o ∈ [BO_REJECTED; BO_CANCELED; BO_EXPIRED]).
Definition broker_state_requires_reconciliation (o : BrokerOrderSnapshot) : bool :=
  bool_decide (os_status o ∈ [BO_DONE_FOR_DAY; BO_SUSPENDED; BO_STOPPED; BO_PENDING_REPLACE]).

(** The reservation status of an order status. *)
Definition reservation_status_of (s : BrokerOrderStatus) : ReservationStatus :=
  match s with
  | BO_PARTIALLY_FILLED => RV_PARTIALLY_FILLED
  | BO_FILLED => RV_FILLED
  | BO_CANCELED | BO_REJECTED => RV_RELEASED
  | BO_EXPIRED => RV_EXPIRED
  | _ => RV_SUBMITTED
  end.

Section service.
Context `{Broker} `{Uuid5} `{CommandError}.
Context `{Dump ExecutionRequest} `{Dump BrokerOrderCommand} `{Dump BrokerOrderSnapshot} `{Dump ExecutionEvent}.
Context `{Dump BrokerPositionSnapshot}.

(** [_event]. *)
Definition event_payload (execution_id : string) (sequence : Z) (event_type : ExecutionEventType)
    (timestamp : datetime) (order : option BrokerOrderSnapshot) (client_order_id : option string)
    (details : pyval) : pyval :=
  PDict [("execution_id", PStr execution_id); ("event_sequence", PInt sequence);
         ("event_type", PEnum (ExecutionEventType_value event_type));
         ("event_timestamp", PDatetime timestamp);
         ("broker_order_id", opt_val PStr (os_broker_order_id <$> order));
         ("client_order_id", opt_val PStr client_order_id);
         ("status", opt_val PStr ((λ o, BrokerOrderStatus_value (os_status o)) <$> order));
         ("filled_quantity", opt_val PDecimal (os_filled_quantity <$> order));
         ("details", details)].

Definition event (r : ExecutionRequest) (event_type : ExecutionEventType) (timestamp : datetime)
    (order : option BrokerOrderSnapshot) (command : option BrokerOrderCommand) (details : pyval) : exec unit :=
  sequence ← on_repo (repository.next_event_sequence (xq_execution_id r));
  let client_order_id := match order with
    | Some o => Some (os_client_order_id o)
    | None => co_client_order_id <$> command
    end in
  let e :=
    {| xe_execution_id := xq_execution_id r; xe_event_sequence := sequence; xe_event_type := event_type;
       xe_event_timestamp := timestamp; xe_broker_order_id := os_broker_order_id <$> order;
       xe_client_order_id := client_order_id;
       xe_status := (λ o, BrokerOrderStatus_value (os_status o)) <$> order;
       xe_filled_quantity := os_filled_quantity <$> order; xe_details := details;
       xe_event_hash := canonical_sha256
         (event_payload (xq_execution_id r) sequence event_type timestamp order client_order_id details) |} in
  if ExecutionEvent_ok e then on_repo (repository.append_event e)
  else raise (EValidation "ExecutionEvent").

Definition no_details : pyval := PDict [].
Definition reason_details (reason : string) : pyval := PDict [("reason", PStr reason)].

(** [_result]. *)
Definition result_core (r : ExecutionRequest) (outcome : ExecutionOutcome)
    (reasons : list ExecutionRejectionCode) (command : option BrokerOrderCommand)
    (broker_order protective_order : option BrokerOrderSnapshot) (reconciliation_required : bool)
    (events : list ExecutionEvent) (completed_at : datetime) : pyval :=
  PDict [("execution_id", PStr (xq_execution_id r)); ("outcome", PEnum (ExecutionOutcome_value outcome));
         ("rejection_reasons", PSeq (map (λ c, PEnum (ExecutionRejectionCode_value c)) reasons));
         ("command", opt_val dump command); ("broker_order", opt_val dump broker_order);
         ("protective_order", opt_val dump protective_order);
         ("reconciliation_required", PBool reconciliation_required);
         ("events", PSeq (map dump events)); ("completed_at", PDatetime completed_at);
         ("request_hash", PStr (canonical_sha256 (dump r)))].

Definition result_of (r : ExecutionRequest) (outcome : ExecutionOutcome)
    (reasons : list ExecutionRejectionCode) (command : option BrokerOrderCommand)
    (broker_order protective_order : option BrokerOrderSnapshot) (reconciliation_required : bool)
    (completed_at : datetime) (events : list ExecutionEvent) : ExecutionResult :=
  let result_hash := canonical_sha256 (result_core r outcome reasons command broker_order protective_order
    reconciliation_required events completed_at) in
  {| xs_result_id := uuid5_hex ("daybreak-execution-result:" +:+ xq_execution_id r +:+ ":" +:+ result_hash);
     xs_execution_id := xq_execution_id r; xs_outcome := outcome; xs_rejection_reasons := reasons;
     xs_command := command; xs_broker_order := broker_order; xs_protective_order := protective_order;
     xs_reconciliation_required := reconciliation_required; xs_events := events;
     xs_completed_at := completed_at; xs_request_hash := canonical_sha256 (dump r);
     xs_result_hash := result_hash |}.

Definition finish (r : ExecutionRequest) (outcome : ExecutionOutcome)
    (reasons : list ExecutionRejectionCode) (command : option BrokerOrderCommand)
    (broker_order protective_order : option BrokerOrderSnapshot) (reconciliation_required : bool)
    (completed_at : datetime) : exec ExecutionResult :=
  events ← on_repo (repository.list_events (xq_execution_id r));
  let res := result_of r outcome reasons command broker_order protective_order reconciliation_required
    completed_at events in
  if ExecutionResult_ok res then on_repo (repository.save_result res) ;; mret res
  else raise (EValidation "ExecutionResult").

(** The results the code builds. *)
Definition rejected_result (r : ExecutionRequest) (reason : ExecutionRejectionCode)
    (command : option BrokerOrderCommand) (order : option BrokerOrderSnapshot) (at_ : datetime) :=
  finish r XO_REJECTED [reason] command order None false at_.
Definition unresolved_result (r : ExecutionRequest) (reason : ExecutionRejectionCode)
    (command : option BrokerOrderCommand) (order : option BrokerOrderSnapshot) (at_ : datetime) :=
  finish r XO_RECONCILIATION_REQUIRED [reason] command order None true at_.
Definition settled_result (r : ExecutionRequest) (outcome : ExecutionOutcome) (command : BrokerOrderCommand)
    (order : BrokerOrderSnapshot) (at_ : datetime) :=
  finish r outcome [] (Some command) (Some order) None false at_.

(** [_record_reservation_from_order]. *)
Definition record_reservation_from_order (r : ExecutionRequest) (order : BrokerOrderSnapshot) (at_ : datetime)
    : exec unit :=
  match rd_reservation (rd_body (xq_risk_decision r)) with
  | None => mret tt
  | Some v =>
      append_status (rv_reservation_id v) (reservation_status_of (os_status order)) at_
        (PDict [("broker_order_id", PStr (os_broker_order_id order));
                ("filled_quantity", PStr (decimal_f (os_filled_quantity order)))])
  end.

(** [except (BrokerNotFound, BrokerTransportError, ValueError)]. *)
Definition broker_or_value_error (e : exn) : bool :=
  match e with EBrokerNotFound | EBrokerTransport _ => true | _ => is_value_error e end.

(** The protective stop: stored, announced, looked up, sent if unknown. *)
Definition place_protective_stop (r : ExecutionRequest) (command : BrokerOrderCommand)
    (final_parent : BrokerOrderSnapshot) (protective_command : BrokerOrderCommand) (now : datetime)
    : exec ExecutionResult :=
  on_repo (repository.save_command protective_command) ;;
  event r XT_PROTECTIVE_STOP_SUBMIT_STARTED now None (Some protective_command) no_details ;;
  protective ← try_except (get_order_by_client_order_id (co_client_order_id protective_command))
    (λ e, match e with EBrokerNotFound => Some (submit_order protective_command) | _ => None end);
  if negb (matches protective_command protective) then
    raise (EValue "protective stop does not match its command")
  else
    on_repo (repository.save_snapshot protective) ;;
    event r XT_PROTECTIVE_STOP_ACKNOWLEDGED now (Some protective) None no_details ;;
    finish r XO_PARTIAL_FILL_PROTECTED [] (Some command) (Some final_parent) (Some protective) true now.

(** The parent read back after its cancellation. *)
Definition protect_parent (r : ExecutionRequest) (command : BrokerOrderCommand)
    (final_parent : BrokerOrderSnapshot) (now : datetime) : exec ExecutionResult :=
  on_repo (repository.save_snapshot final_parent) ;;
  if bool_decide (os_status final_parent = BO_FILLED) then
    if negb (matches command final_parent) then raise (EValue "filled bracket no longer matches its command")
    else settled_result r XO_EXISTING_RECONCILED command final_parent now
  else if negb (bool_decide (os_status final_parent = BO_CANCELED)) then
    raise (EValue "parent cancellation was not confirmed")
  else if (os_filled_quantity final_parent <=? dec.zero)%dec then
    raise (EValue "canceled parent has no protected fill")
  else if negb (os_filled_quantity final_parent
                =? dec.to_integral_value (os_filled_quantity final_parent) RHalfEven)%dec then
    raise (EValue "whole-share order returned fractional partial fill")
  else
    protective_command ← lift (build_partial_fill_protective_stop r
                                 (dec.to_int (os_filled_quantity final_parent)));
    place_protective_stop r command final_parent protective_command now.

(** The body of the [try]. *)
Definition protect_partial_fill (r : ExecutionRequest) (u : TradeUpdate) (command : BrokerOrderCommand)
    : exec ExecutionResult :=
  let order := tu_order u in
  cancel_order (os_broker_order_id order) ;;
  final_parent ← get_order (os_broker_order_id order);
  protect_parent r command final_parent (tu_event_timestamp u).

Definition needs_protection (r : ExecutionRequest) (o : BrokerOrderSnapshot) : bool :=
  bool_decide (os_status o = BO_PARTIALLY_FILLED) && (dec.zero <? os_filled_quantity o)%dec
  && xp_partial_fill_protection_enabled (xq_policy r).

Definition handle_trade_update (r : ExecutionRequest) (u : TradeUpdate) : exec ExecutionResult :=
  let now := tu_event_timestamp u in
  let order := tu_order u in
  claimed ← on_repo (repository.claim_trade_update (tu_event_id u) (xq_execution_id r) (tu_raw_event_hash u));
  command ← on_repo (repository.get_command_by_client_order_id (os_client_order_id order));
  match command with
  | None => unresolved_result r XR_COMMAND_IDENTITY_CONFLICT None (Some order) now
  | Some command =>
      if negb claimed then settled_result r XO_EXISTING_RECONCILED command order now
      else
        on_repo (repository.save_snapshot order) ;;
        event r XT_TRADE_UPDATE now (Some order) None
          (PDict [("provider_event", PStr (tu_event u)); ("raw_event_hash", PStr (tu_raw_event_hash u))]) ;;
        record_reservation_from_order r order now ;;
        if needs_protection r order then
          event r XT_CANCEL_REQUESTED now (Some order) None no_details ;;
          try_except (protect_partial_fill r u command)
            (λ e, if broker_or_value_error e
                  then Some (unresolved_result r XR_PARTIAL_FILL_PROTECTION_FAILED (Some command) (Some order) now)
                  else None)
        else settled_result r XO_EXISTING_RECONCILED command order now
  end.

(** The update [submit] builds for an order that is already partly filled. *)
Definition initial_update (o : BrokerOrderSnapshot) : TradeUpdate :=
  {| tu_event_id := "initial-" +:+ os_snapshot_id o; tu_event := "partial_fill";
     tu_event_timestamp := os_updated_at o; tu_order := o; tu_raw_event_hash := os_raw_response_hash o |}.

(** What [submit] does with an order, found or placed; the two copies in the
    code differ in the outcome of the ordinary case only. *)
Definition acknowledge (r : ExecutionRequest) (command : BrokerOrderCommand) (o : BrokerOrderSnapshot)
    (outcome : ExecutionOutcome) (now : datetime) : exec ExecutionResult :=
  on_repo (repository.save_snapshot o) ;;
  event r XT_BROKER_ACKNOWLEDGED now (Some o) None no_details ;;
  record_reservation_from_order r o now ;;
  if negb (matches command o) then unresolved_result r XR_BROKER_ORDER_MISMATCH (Some command) (Some o) now
  else if terminal_rejection o then rejected_result r XR_BROKER_REJECTED (Some command) (Some o) now
  else if broker_state_requires_reconciliation o then
    unresolved_result r XR_BROKER_TRANSPORT_FAILURE (Some command) (Some o) now
  else if needs_protection r o then
    if TradeUpdate_ok (initial_update o) then handle_trade_update r (initial_update o)
    else raise (EValidation "TradeUpdate")
  else settled_result r outcome command o now.

Definition reject_request (r : ExecutionRequest) (reason : ExecutionRejectionCode) (now : datetime)
    : exec ExecutionResult :=
  event r XT_REJECTED now None None (reason_details (ExecutionRejectionCode_value reason)) ;;
  rejected_result r reason None None now.

(** The lookup: [inl] a result that ends [submit], [inr] the order found. *)
Definition lookup_existing (r : ExecutionRequest) (command : BrokerOrderCommand) (now : datetime)
    : exec (ExecutionResult + option BrokerOrderSnapshot) :=
  try_except (o ← get_order_by_client_order_id (co_client_order_id command); mret (inr (Some o)))
    (λ e, match e with
          | EBrokerNotFound => Some (mret (inr None))
          | EBrokerTransport _ =>
              Some (res ← unresolved_result r XR_BROKER_TRANSPORT_FAILURE (Some command) None now;
                    mret (inl res))
          | _ => None
          end).

Definition not_found_or_transport (e : exn) : bool :=
  match e with EBrokerNotFound | EBrokerTransport _ => true | _ => false end.

(** The POST, and the lookup after an ambiguous failure. *)
Definition place_order (r : ExecutionRequest) (command : BrokerOrderCommand) (now : datetime)
    : exec (ExecutionResult + BrokerOrderSnapshot) :=
  try_except (o ← submit_order command; mret (inr o))
    (λ e, match e with
          | EBrokerTransport true =>
              Some (try_except (o ← get_order_by_client_order_id (co_client_order_id command); mret (inr o))
                (λ e', if not_found_or_transport e' then
                         Some (event r XT_RECONCILIATION_REQUIRED now None (Some command)
                                 (reason_details "ambiguous_submit_state") ;;
                               res ← unresolved_result r XR_BROKER_TIMEOUT_UNKNOWN_STATE (Some command) None now;
                               mret (inl res))
                       else None))
          | EBrokerTransport false =>
              Some (res ← rejected_result r XR_BROKER_REJECTED (Some command) None now; mret (inl res))
          | _ => None
          end).

(** From the persisted command on. *)
Definition route_command (r : ExecutionRequest) (command : BrokerOrderCommand) (now : datetime)
    : exec ExecutionResult :=
  found ← lookup_existing r command now;
  match found with
  | inl res => mret res
  | inr (Some o) => acknowledge r command o XO_EXISTING_RECONCILED now
  | inr None =>
      event r XT_SUBMIT_STARTED now None (Some command) no_details ;;
      placed ← place_order r command now;
      match placed with
      | inl res => mret res
      | inr o => acknowledge r command o XO_SUBMITTED now
      end
  end.

(** [request_age_ms < 0 or request_age_ms > max], on the float. *)
Definition request_stale (r : ExecutionRequest) (now : datetime) : bool :=
  let age := total_ms (now - xq_requested_at r) in
  flt.ltb_Z age 0 || flt.gtb_Z age (xp_max_request_age_ms (xq_policy r)).

Definition submit (r : ExecutionRequest) (now : datetime) : exec ExecutionResult :=
  on_repo (repository.save_request r) ;;
  event r XT_REQUEST_ACCEPTED now None None no_details ;;
  if negb (bool_decide (xp_mode (xq_policy r) = XM_PAPER)) || xp_allow_live_execution (xq_policy r) then
    reject_request r XR_PAPER_MODE_REQUIRED now
  else if request_stale r now then reject_request r XR_REQUEST_STALE now
  else
    match build_entry_command r now with
    | Err e => if is_value_error e then reject_request r (reason_of_message (exn_text e)) now else raise e
    | Ok command =>
        existing_local ← on_repo (repository.get_command_by_client_order_id (co_client_order_id command));
        if collides existing_local command then
          unresolved_result r XR_COMMAND_IDENTITY_CONFLICT (Some command) None now
        else
          on_repo (repository.save_command command) ;;
          event r XT_COMMAND_PERSISTED now None (Some command) no_details ;;
          event r XT_BROKER_LOOKUP now None (Some command) no_details ;;
          route_command r command now
    end.

Definition cancel_stale_entry (r : ExecutionRequest) (o : BrokerOrderSnapshot) (now : datetime) : exec bool :=
  if (dec.zero <? os_filled_quantity o)%dec
     || bool_decide (os_status o ∈ [BO_FILLED; BO_CANCELED; BO_EXPIRED; BO_REJECTED]) then mret false
  else
    let anchor := default (os_updated_at o) (os_submitted_at o) in
    if flt.ltb_Z (total_seconds (now - anchor)) (xp_cancel_unfilled_after_seconds (xq_policy r)) then mret false
    else
      cancel_order (os_broker_order_id o) ;;
      event r XT_CANCEL_REQUESTED now (Some o) None no_details ;;
      mret true.

(** ** reconcile_command *)

Definition reconcile_lookup (command : BrokerOrderCommand) : exec (option BrokerOrderSnapshot * list string) :=
  try_except (o ← get_order_by_client_order_id (co_client_order_id command); mret (Some o, []))
    (λ e, match e with
          | EBrokerNotFound => Some (mret (None, ["BROKER_ORDER_NOT_FOUND"]))
          | EBrokerTransport _ => Some (mret (None, ["BROKER_LOOKUP_FAILED"]))
          | _ => None
          end).

Definition order_mismatches (c : CommandBody) (o : BrokerOrderSnapshot) : list string :=
  (if String.eqb (os_symbol o) (cb_symbol c) then [] else ["SYMBOL_MISMATCH"])
  ++ (if bool_decide (os_side o = cb_side c) then [] else ["SIDE_MISMATCH"])
  ++ (if (os_quantity o =? dec.of_Z (cb_quantity c))%dec then [] else ["QUANTITY_MISMATCH"])
  ++ (if String.eqb (os_client_order_id o) (cb_client_order_id c) then [] else ["CLIENT_ORDER_ID_MISMATCH"]).

Definition reconcile_command (execution_id : string) (command : BrokerOrderCommand) (checked_at : datetime)
    : exec ReconciliationReport :=
  '(order, failures) ← reconcile_lookup command;
  position ← get_position (cb_symbol (co_body command));
  let mismatch := failures ++ match order with Some o => order_mismatches (co_body command) o | None => [] end in
  let report_hash := canonical_sha256 (PDict
    [("execution_id", PStr execution_id); ("client_order_id", PStr (co_client_order_id command));
     ("checked_at", PDatetime checked_at); ("matched", PBool (negb (nonempty mismatch)));
     ("mismatch_codes", PSeq (map PStr mismatch)); ("broker_order", opt_val dump order);
     ("broker_position", opt_val dump position)]) in
  mret {| rc_report_id := uuid5_hex ("daybreak-reconcile:" +:+ execution_id +:+ ":"
                             +:+ co_client_order_id command +:+ ":" +:+ report_hash);
          rc_execution_id := execution_id; rc_client_order_id := co_client_order_id command;
          rc_checked_at := checked_at; rc_matched := negb (nonempty mismatch);
          rc_mismatch_codes := mismatch; rc_broker_order := order; rc_broker_position := position;
          rc_report_hash := report_hash |}.
End service.
