(* ===== verification/ExecFacts.v ===== *)
(** * ExecFacts: what the execution coordinator guarantees

    Steps of the coordinator over the World of ExecStore.v and their
    reachability; the frame of every operation (the repository and the two
    journals only grow); the journal invariant that justifies every order sent
    to the broker; and the results of [submit] and [handle_trade_update]. *)
From Stdlib Require Import Ascii String.
From S2P Require Import Prelude Numerics PyStr PyTime Stores Contracts Canonical RiskModels ExecModels OrderBuilder ExecStore ExecService.

#[local] Open Scope Z_scope.

(** ** Frames *)

(** The world only grows. *)
Record grows (w w' : World) : Prop := {
  gr_repo : extends (w_repo w) (w_repo w');
  gr_sink : w_sink w `prefix_of` w_sink w';
  gr_calls : w_calls w `prefix_of` w_calls w';
}.

(** It grows and the broker is not called. *)
Record silent (w w' : World) : Prop := {
  si_repo : extends (w_repo w) (w_repo w');
  si_sink : w_sink w `prefix_of` w_sink w';
  si_calls : w_calls w' = w_calls w;
}.

(** Only the repository changes. *)
Record quiet (w w' : World) : Prop := {
  qu_repo : extends (w_repo w) (w_repo w');
  qu_sink : w_sink w' = w_sink w;
  qu_calls : w_calls w' = w_calls w;
}.

#[export] Instance grows_preorder : PreOrder grows.
Proof. split; [by intros w; split | intros a b c [] []; split; by etrans]. Qed.
#[export] Instance silent_preorder : PreOrder silent.
Proof. split; [by intros w; split | intros a b c [] []; split; by etrans]. Qed.
#[export] Instance quiet_preorder : PreOrder quiet.
Proof. split; [by intros w; split | intros a b c [] []; split; by etrans]. Qed.

Lemma quiet_silent w w' : quiet w w' → silent w w'.
Proof. intros [? Hs ?]. split; [done | by rewrite Hs | done]. Qed.
Lemma silent_grows w w' : silent w w' → grows w w'.
Proof. intros [? ? Hc]. split; [done | done | by rewrite Hc]. Qed.

Lemma on_repo_quiet {A} (m : eff ExecutionRepository A) : evolves extends m → evolves quiet (on_repo m).
Proof.
  intros Hm w. specialize (Hm (w_repo w)). unfold on_repo.
  destruct (m (w_repo w)) as [res s]. by split.
Qed.

Lemma on_repo_run {A} (m : eff ExecutionRepository A) w :
  on_repo m w = ((m (w_repo w)).1, {| w_repo := (m (w_repo w)).2; w_sink := w_sink w; w_calls := w_calls w |}).
Proof. unfold on_repo. by destruct (m (w_repo w)). Qed.

Lemma call_grows {A} c (f : list BrokerCall → result A) : evolves grows (call c f).
Proof. intros w. split; [done | done |]. simpl. by apply prefix_app_r. Qed.

Lemma append_status_silent a b c d : evolves silent (append_status a b c d).
Proof. intros w. split; [done | | done]. simpl. by apply prefix_app_r. Qed.

Create HintDb world.
Lemma read_extends {A} (f : ExecutionRepository → A) : evolves extends (gets f).
Proof. by intros s. Qed.
#[export] Hint Extern 1 (evolves extends (repository.next_event_sequence _)) => apply read_extends : world.
#[export] Hint Extern 1 (evolves extends (repository.list_events _)) => apply read_extends : world.
#[export] Hint Extern 1 (evolves extends (repository.get_command_by_client_order_id _)) => apply read_extends : world.
#[export] Hint Resolve save_request_extends save_command_extends save_result_extends save_snapshot_extends
  claim_extends append_event_extends : world.

(** One step of a frame proof: the outermost construct of the program. *)
Ltac frame_step :=
  match goal with
  | |- evolves _ (mret _) => apply evolves_ret; apply _
  | |- evolves _ (raise _) => apply evolves_raise; apply _
  | |- evolves _ (lift _) => apply evolves_lift; apply _
  | |- evolves _ (gets _) => apply evolves_gets; apply _
  | |- evolves quiet (on_repo _) => apply on_repo_quiet; auto with world
  | |- evolves silent (on_repo _) => apply (evolves_weaken quiet); [apply quiet_silent|]
  | |- evolves grows (on_repo _) =>
      apply (evolves_weaken quiet); [intros ? ? ?; by apply silent_grows, quiet_silent|]
  | |- evolves _ (_ ≫= _) => apply evolves_bind; [apply _ | | intros ?]
  | |- evolves _ (try_except _ _) => apply evolves_try; [apply _ | | intros ? ? ?]
  end.

Section facts.
Context `{Broker} `{Uuid5} `{CommandError}.
Context `{Dump ExecutionRequest} `{Dump BrokerOrderCommand} `{Dump BrokerOrderSnapshot} `{Dump ExecutionEvent}.
Context `{Dump BrokerPositionSnapshot}.
Implicit Types (r : ExecutionRequest) (c : BrokerOrderCommand) (o : BrokerOrderSnapshot) (w : World).

Lemma event_quiet r ty t oo oc d : evolves quiet (event r ty t oo oc d).
Proof. unfold event. frame_step; [by frame_step|]. case_match; by frame_step. Qed.

Lemma finish_quiet r out rs oc oo op q t : evolves quiet (finish r out rs oc oo op q t).
Proof. unfold finish. frame_step; [by frame_step|]. case_match; repeat frame_step. Qed.

Lemma event_silent r ty t oo oc d : evolves silent (event r ty t oo oc d).
Proof. apply (evolves_weaken quiet); [apply quiet_silent | apply event_quiet]. Qed.
Lemma finish_silent r out rs oc oo op q t : evolves silent (finish r out rs oc oo op q t).
Proof. apply (evolves_weaken quiet); [apply quiet_silent | apply finish_quiet]. Qed.
Lemma record_reservation_silent r o t : evolves silent (record_reservation_from_order r o t).
Proof. unfold record_reservation_from_order. case_match; [apply append_status_silent | by frame_step]. Qed.
Lemma silent_save {A} (m : eff ExecutionRepository A) : evolves extends m → evolves silent (on_repo m).
Proof. intros Hm. apply (evolves_weaken quiet); [apply quiet_silent | by apply on_repo_quiet]. Qed.

Lemma silent_evolves_grows {A} (m : exec A) : evolves silent m → evolves grows m.
Proof. apply evolves_weaken, silent_grows. Qed.

Lemma reject_silent r reason now : evolves silent (reject_request r reason now).
Proof. unfold reject_request, rejected_result. frame_step; [apply event_silent | apply finish_silent]. Qed.

(** ** Every order sent is justified *)

(** The state [w] satisfies [P] and what follows of it: stable predicates. *)
Definition stable (R : World → World → Prop) (P : World → Prop) : Prop := ∀ w w', R w w' → P w → P w'.

Lemma stable_preserves {A} R P (m : exec A) : stable R P → evolves R m → preserves P m.
Proof. intros Hp Hm w Hw. by eapply Hp. Qed.

(** Where a submitted command comes from: the entry of a request that passed
    every gate, or the protective stop of a fill the broker has just confirmed
    on a cancelled parent. *)
Inductive origin (s : ExecutionRepository) (h : list BrokerCall) (c : BrokerOrderCommand) : Prop :=
  | origin_entry r now :
      entry_of r now c → xp_mode (xq_policy r) = XM_PAPER → xp_allow_live_execution (xq_policy r) = false →
      request_stale r now = false → holds (er_requests s) (xq_execution_id r) r → origin s h c
  | origin_protective r h0 id o :
      h = h0 ++ [CCancel id; CGet id] → bk_get_order (h0 ++ [CCancel id]) id = Ok o →
      os_status o = BO_CANCELED →
      (os_filled_quantity o =? dec.to_integral_value (os_filled_quantity o) RHalfEven)%dec = true →
      build_partial_fill_protective_stop r (dec.to_int (os_filled_quantity o)) = Ok c → origin s h c.

(** A submission after the calls [h]: the last of them looked the order up and
    found none, the command is stored, and it has an origin. *)
Record justified (s : ExecutionRepository) (h : list BrokerCall) (c : BrokerOrderCommand) : Prop := {
  ju_lookup : ∃ h0, h = h0 ++ [CLookup (co_client_order_id c)] ∧
    bk_get_order_by_client_order_id h0 (co_client_order_id c) = Err EBrokerNotFound ∧ origin s h0 c;
  ju_stored : holds (er_commands s) (co_client_order_id c) c;
}.

Definition journal (w : World) : Prop :=
  ∀ h c t, w_calls w = h ++ CSubmit c :: t → justified (w_repo w) h c.

Lemma origin_extends s s' h c : extends s s' → origin s h c → origin s' h c.
Proof.
  intros Hs [r now ?????|]; [|by eapply origin_protective].
  eapply origin_entry; [done..|]. eapply holds_subseteq; [apply Hs | done].
Qed.

Lemma justified_extends s s' h c : extends s s' → justified s h c → justified s' h c.
Proof.
  intros Hs [(h0 & ? & ? & ?) ?]. split.
  - exists h0. split_and!; [done | done | by eapply origin_extends].
  - eapply holds_subseteq; [apply Hs | done].
Qed.

Lemma journal_silent : stable silent journal.
Proof.
  intros w w' [Hr _ Hc] Hw h c t E. rewrite Hc in E. eapply justified_extends, Hw; done.
Qed.

(** A call on record. *)
Lemma journal_call {A} x (f : list BrokerCall → result A) w :
  journal w → (∀ c, x = CSubmit c → justified (w_repo w) (w_calls w) c) → journal (call x f w).2.
Proof.
  intros Hw Hx h c t. simpl. destruct t as [|t y _] using rev_ind.
  - intros [E [= ->]]%app_inj_tail. subst h. by apply Hx.
  - rewrite app_comm_cons, app_assoc. intros [E ->]%app_inj_tail. by eapply Hw.
Qed.

Lemma journal_other {A} x (f : list BrokerCall → result A) :
  (∀ c, x ≠ CSubmit c) → preserves journal (call x f).
Proof. intros Hx w Hw. apply journal_call; [done|]. intros c ->. by destruct (Hx c). Qed.

(** [keeps P m]: from [P], [m] ends with a justified journal either way. *)
Definition keeps {A} (P : World → Prop) (m : exec A) : Prop :=
  triple P m (λ _ w, journal w) (λ _ w, journal w).

Lemma keeps_preserves {A} (m : exec A) : preserves journal m ↔ keeps journal m.
Proof.
  split; intros Hm w Hw; specialize (Hm w Hw); destruct (m w) as [[a|e] w']; done.
Qed.

Lemma keeps_silent {A} P (m : exec A) : (∀ w, P w → journal w) → evolves silent m → keeps P m.
Proof.
  intros HP Hm w Hw. specialize (Hm w). apply HP in Hw.
  destruct (m w) as [[a|e] w']; by eapply journal_silent.
Qed.

(** A step that does not call the broker keeps any predicate on the journal. *)
Lemma keeps_after {A B} P (m : exec A) (f : A → exec B) :
  stable silent P → (∀ w, P w → journal w) → evolves silent m → (∀ a, keeps P (f a)) → keeps P (m ≫= f).
Proof.
  intros Hs HP Hm Hf. apply (triple_bind P m f (λ _, P)); [|done]. intros w Hw. specialize (Hm w).
  destruct (m w) as [[a|e] w']; [by eapply Hs | by eapply HP, Hs].
Qed.

(** What must hold to look an order up, and then to send it. *)
Definition ready c w : Prop :=
  journal w ∧ origin (w_repo w) (w_calls w) c ∧ holds (er_commands (w_repo w)) (co_client_order_id c) c.
Definition cleared c w : Prop := journal w ∧ justified (w_repo w) (w_calls w) c.

Lemma ready_stable c : stable silent (ready c).
Proof.
  intros w w' Hsi (Hj & Ho & Hh). pose proof Hsi as [Hr _ Hc]. split_and!.
  - by eapply journal_silent.
  - rewrite Hc. by eapply origin_extends.
  - eapply holds_subseteq; [apply Hr | done].
Qed.

Lemma cleared_stable c : stable silent (cleared c).
Proof.
  intros w w' Hsi (Hj & Hh). pose proof Hsi as [Hr _ Hc]. split; [by eapply journal_silent|].
  rewrite Hc. by eapply justified_extends.
Qed.

Lemma lookup_clears c :
  triple (ready c) (get_order_by_client_order_id (co_client_order_id c))
    (λ _ w, journal w) (λ e w, journal w ∧ (e = EBrokerNotFound → cleared c w)).
Proof.
  intros w (Hj & Ho & Hh). unfold get_order_by_client_order_id, call.
  set (id := co_client_order_id c).
  assert (journal (call (CLookup id) (λ h, bk_get_order_by_client_order_id h id) w).2) as Hj'
    by by apply journal_other.
  simpl in Hj'. destruct (bk_get_order_by_client_order_id (w_calls w) id) as [o|e] eqn:E; [done|].
  split; [done|]. intros ->. split; [done|]. split; [|done]. exists (w_calls w). done.
Qed.

Lemma submit_cleared c : keeps (cleared c) (submit_order c).
Proof.
  intros w [Hj Hju]. pose proof (journal_call (CSubmit c) (λ h, bk_submit_order h c) w Hj) as Hc.
  unfold submit_order. simpl in *.
  destruct (bk_submit_order (w_calls w) c); apply Hc; by intros ? [= <-].
Qed.

(** The lookup followed by the submission, the way [handle_trade_update] and
    [submit] write it. *)
Lemma keeps_ret {A} P (a : A) : (∀ w, P w → journal w) → keeps P (mret a : exec A).
Proof. intros HP w Hw. by apply HP. Qed.

Lemma keeps_weaken {A} P P' (m : exec A) : (∀ w, P' w → P w) → keeps P m → keeps P' m.
Proof. intros HP Hm. by eapply triple_weaken. Qed.

Lemma keeps_bind {A B} P (m : exec A) (f : A → exec B) :
  keeps P m → (∀ a, keeps journal (f a)) → keeps P (m ≫= f).
Proof. intros Hm Hf. by apply (triple_bind P m f (λ _, journal)). Qed.

(** A failure after which the journal is justified is handled by any handler
    that keeps it so. *)
Lemma keeps_try {A} P (m : exec A) h :
  keeps P m → (∀ e k, h e = Some k → keeps journal k) → keeps P (try_except m h).
Proof.
  intros Hm Hh. eapply triple_try; [done|]. intros e w Hw. simpl. destruct (h e) eqn:E; [|done].
  by eapply Hh.
Qed.

(** The parent has just been cancelled and read back as [o]. *)
Definition polled o w : Prop :=
  journal w ∧ ∃ h0 id, w_calls w = h0 ++ [CCancel id; CGet id] ∧ bk_get_order (h0 ++ [CCancel id]) id = Ok o.

Lemma polled_stable o : stable silent (polled o).
Proof.
  intros w w' Hsi (Hj & h0 & id & E1 & E2). split; [by eapply journal_silent|].
  exists h0, id. by rewrite (si_calls _ _ Hsi).
Qed.

Lemma cancel_get_polled id :
  triple journal (cancel_order id ;; get_order id) (λ o w, polled o w) (λ _ w, journal w).
Proof.
  intros w Hj. rewrite eff_bind_unfold.
  pose proof (journal_other (CCancel id) (λ h, bk_cancel_order h id) ltac:(done) w Hj) as Hj1.
  unfold cancel_order, get_order. destruct (call (CCancel id) _ w) as [[u|e] w1] eqn:Ec; [|done].
  injection Ec as _ Ew.
  pose proof (journal_other (CGet id) (λ h, bk_get_order h id) ltac:(done) w1 Hj1) as Hj2.
  simpl in *. destruct (bk_get_order (w_calls w1) id) as [o|e] eqn:E; [|done].
  split; [done|]. subst w1. simpl in *. exists (w_calls w), id. by rewrite <- app_assoc.
Qed.

(** [save_command] leaves the command stored. *)
Lemma save_command_stores P c :
  stable silent P → (∀ w, P w → journal w) →
  triple P (on_repo (repository.save_command c))
    (λ _ w, P w ∧ holds (er_commands (w_repo w)) (co_client_order_id c) c) (λ _ w, journal w).
Proof.
  intros Hs HP w Hw. pose proof (silent_save _ (save_command_extends c) w) as Hsi.
  rewrite on_repo_run in *. pose proof (Hs _ _ Hsi Hw) as Hw'. unfold repository.save_command in *.
  destruct (put_once _ _ _ _ c (w_repo w)) as [[u|e] s] eqn:E; simpl in *; [|by apply HP].
  split; [done|]. by apply (put_once_returns er_commands set_er_commands) in E as [_ ?].
Qed.

Lemma place_protective c :
  keeps (ready c)
    (try_except (get_order_by_client_order_id (co_client_order_id c))
      (λ e, match e with EBrokerNotFound => Some (submit_order c) | _ => None end)).
Proof.
  eapply triple_try; [apply lookup_clears|]. intros e w [Hj Hc]. simpl.
  destruct e; try done. apply (keeps_weaken (cleared c)), submit_cleared. intros w' [_ Hw']. by apply Hw'.
Qed.

Lemma journal_of_ready c w : ready c w → journal w.
Proof. by intros []. Qed.
Lemma journal_of_polled o w : polled o w → journal w.
Proof. by intros []. Qed.

Lemma keeps_lift {A B} P (res : result A) (f : A → exec B) :
  (∀ w, P w → journal w) → (∀ a, res = Ok a → keeps P (f a)) → keeps P (lift res ≫= f).
Proof.
  intros HP Hf. destruct res as [a|e]; [by apply (Hf a)|]. intros w Hw. by apply HP.
Qed.

Lemma place_protective_stop_keeps P r c o pc now :
  stable silent P → (∀ w, P w → journal w) →
  (∀ w, P w → origin (w_repo w) (w_calls w) pc) → keeps P (place_protective_stop r c o pc now).
Proof.
  intros Hs HP Ho. unfold place_protective_stop.
  apply (triple_bind P _ _ (λ _, ready pc)).
  - eapply triple_weaken; [by apply (save_command_stores P pc) | done | | done].
    intros [] w [Hw Hh]. split_and!; [by apply HP | by apply Ho | done].
  - intros []. apply keeps_after; [apply ready_stable | apply journal_of_ready | apply event_silent | intros []].
    apply keeps_bind; [apply place_protective | intros q]. case_match; [by intros ?|].
    apply keeps_after; [apply journal_silent | done | apply silent_save, save_snapshot_extends | intros []].
    apply keeps_after; [apply journal_silent | done | apply event_silent | intros []].
    apply keeps_silent; [done | apply finish_silent].
Qed.

Lemma protect_parent_keeps r c o now : keeps (polled o) (protect_parent r c o now).
Proof.
  unfold protect_parent.
  apply keeps_after; [apply polled_stable | apply journal_of_polled
                     | apply silent_save, save_snapshot_extends | intros []].
  assert (∀ e, keeps (polled o) (raise e : exec ExecutionResult)) as Hr
    by (intros e w Hw; exact (journal_of_polled _ _ Hw)).
  destruct (bool_decide (os_status o = BO_FILLED)).
  { destruct (negb _); [apply Hr|]. apply keeps_silent; [apply journal_of_polled | apply finish_silent]. }
  destruct (bool_decide (os_status o = BO_CANCELED)) eqn:Ec; [|apply Hr].
  destruct (_ <=? _)%dec; [apply Hr|]. destruct (_ =? _)%dec eqn:Ei; [|apply Hr]. simpl negb. cbv iota.
  apply keeps_lift; [apply journal_of_polled|]. intros pc Hpc.
  apply place_protective_stop_keeps; [apply polled_stable | apply journal_of_polled|].
  intros w (_ & h0 & id & E1 & E2). bool_to_prop. by eapply origin_protective.
Qed.

(** The steps of [protect_partial_fill] in order: the cancellation is read
    back, the stop is stored, looked up and, if unknown, sent. *)
Lemma protect_keeps r u c : keeps journal (protect_partial_fill r u c).
Proof.
  intros w Hw. unfold protect_partial_fill. rewrite eff_bind_unfold.
  pose proof (cancel_get_polled (os_broker_order_id (tu_order u)) w Hw) as Hp.
  rewrite eff_bind_unfold in Hp.
  destruct (cancel_order _ w) as [[a|e] w1]; [|done]. rewrite eff_bind_unfold.
  destruct (get_order _ w1) as [[o|e] w2]; [|done]. by apply protect_parent_keeps.
Qed.

Lemma journal_id : stable silent journal.
Proof. apply journal_silent. Qed.

(** Steps that keep [journal] on the way. *)
Ltac keep_step :=
  match goal with
  | |- keeps journal (event _ _ _ _ _ _ ≫= _) =>
      apply keeps_after; [apply journal_silent | done | apply event_silent | intros []]
  | |- keeps journal (record_reservation_from_order _ _ _ ≫= _) =>
      apply keeps_after; [apply journal_silent | done | apply record_reservation_silent | intros []]
  | |- keeps journal (on_repo _ ≫= _) =>
      apply keeps_after; [apply journal_silent | done | repeat frame_step; auto with world | intros ?]
  | |- keeps journal (finish _ _ _ _ _ _ _ _) => apply keeps_silent; [done | apply finish_silent]
  | |- keeps journal (raise _) => by intros ?
  | |- keeps journal (mret _) => by intros ?
  end.

Lemma handle_trade_update_keeps r u : keeps journal (handle_trade_update r u).
Proof.
  unfold handle_trade_update, unresolved_result, settled_result. do 2 keep_step. case_match; [|by keep_step].
  case_match; [by keep_step|]. do 3 keep_step. case_match; [|by keep_step]. keep_step.
  apply keeps_try; [apply protect_keeps|]. intros e k. destruct (broker_or_value_error e); intros [= <-].
  by keep_step.
Qed.

Lemma acknowledge_keeps r c o out now : keeps journal (acknowledge r c o out now).
Proof.
  unfold acknowledge, unresolved_result, rejected_result, settled_result. do 3 keep_step.
  repeat (case_match; try by keep_step). apply handle_trade_update_keeps.
Qed.

(** A result that ends [submit] early. *)
Lemma ends_early {A B} P (m : exec A) (f : A → B) (Q : B → World → Prop) :
  keeps P m → (∀ a w, journal w → Q (f a) w) →
  triple P (a ← m; mret (f a)) Q (λ _ w, journal w).
Proof. intros Hm HQ. eapply triple_bind; [apply Hm|]. intros a w Hw. by apply HQ. Qed.

(** The lookup and the post of [submit]. *)
Lemma lookup_existing_clears r c now :
  triple (ready c) (lookup_existing r c now)
    (λ res w, journal w ∧ (res = inr None → cleared c w)) (λ _ w, journal w).
Proof.
  unfold lookup_existing.
  apply (triple_try (ready c) _ _ _ _ (λ e w, journal w ∧ (e = EBrokerNotFound → cleared c w))).
  - apply (triple_bind _ _ _ (λ _ w, journal w)); [apply lookup_clears|]. intros o w Hw. by split.
  - intros e w0 Hw0. destruct e; try by destruct Hw0.
    + intros w [Hj Hc]. split; [done|]. intros _. by apply Hc.
    + apply ends_early; [|done]. apply (keeps_weaken journal); [by intros w []|].
      unfold unresolved_result. by keep_step.
Qed.

Lemma place_order_keeps r c now : keeps (cleared c) (place_order r c now).
Proof.
  unfold place_order. apply keeps_try.
  - apply keeps_bind; [apply submit_cleared|]. intros o. by keep_step.
  - intros e k. destruct e as [| | | | | | | | |[]| | | | |]; intros [= <-].
    + apply keeps_try.
      * apply keeps_bind; [by apply keeps_preserves, journal_other|]. intros o. by keep_step.
      * intros e k. destruct (not_found_or_transport e); intros [= <-]. keep_step.
        apply keeps_bind; [unfold unresolved_result; by keep_step|]. intros x. by keep_step.
    + apply keeps_bind; [unfold rejected_result; by keep_step|]. intros x. by keep_step.
Qed.

Lemma route_command_keeps r c now : keeps (ready c) (route_command r c now).
Proof.
  unfold route_command. eapply triple_bind; [apply lookup_existing_clears|]. intros [res|[o|]].
  - by intros w [Hw _].
  - eapply keeps_weaken; [|apply acknowledge_keeps]. by intros w [].
  - apply (keeps_weaken (cleared c)); [intros w [_ Hc]; by apply Hc|].
    apply keeps_after; [apply cleared_stable | by intros w [] | apply event_silent | intros []].
    apply keeps_bind; [apply place_order_keeps|]. intros [res|o]; [by keep_step | apply acknowledge_keeps].
Qed.

Lemma save_request_stores r :
  triple journal (on_repo (repository.save_request r))
    (λ _ w, journal w ∧ holds (er_requests (w_repo w)) (xq_execution_id r) r) (λ _ w, journal w).
Proof.
  intros w Hw. pose proof (silent_save _ (save_request_extends r) w) as Hsi.
  rewrite on_repo_run in *. pose proof (journal_silent _ _ Hsi Hw) as Hw'. unfold repository.save_request in *.
  destruct (put_once _ _ _ _ r (w_repo w)) as [[u|e] s] eqn:E; simpl in *; [|done].
  split; [done|]. by apply (put_once_returns er_requests set_er_requests) in E as [_ ?].
Qed.

Definition requested r w : Prop := journal w ∧ holds (er_requests (w_repo w)) (xq_execution_id r) r.

Lemma requested_stable r : stable silent (requested r).
Proof.
  intros w w' Hsi [Hj Hh]. split; [by eapply journal_silent|].
  eapply holds_subseteq; [apply Hsi | done].
Qed.

Lemma submit_keeps r now : keeps journal (submit r now).
Proof.
  unfold submit. eapply triple_bind; [apply save_request_stores|]. intros []. fold (requested r).
  assert (∀ w, requested r w → journal w) as Hj by by intros w [].
  apply keeps_after; [apply requested_stable | done | apply event_silent | intros []].
  destruct (_ || _) eqn:Hp; [apply keeps_silent; [done | apply reject_silent]|].
  destruct (request_stale r now) eqn:Hs; [apply keeps_silent; [done | apply reject_silent]|].
  destruct (build_entry_command r now) as [c|e] eqn:Hb.
  2: { destruct (is_value_error e); [apply keeps_silent; [done | apply reject_silent] | by intros w []]. }
  apply keeps_after; [apply requested_stable | done | repeat frame_step; auto with world | intros known].
  destruct (collides known c); [apply keeps_silent; [done | apply finish_silent]|].
  apply build_entry_command_Ok in Hb. bool_to_prop.
  apply (triple_bind _ _ _ (λ _, ready c)); [eapply triple_weaken|].
  - apply (save_command_stores (requested r) c); [apply requested_stable | done].
  - done.
  - intros [] w [[Hw Hr] Hh]. split_and!; [done | | done]. by eapply origin_entry.
  - done.
  - intros [].
    do 2 (apply keeps_after; [apply ready_stable | apply journal_of_ready | apply event_silent | intros []]).
    apply route_command_keeps.
Qed.

Lemma cancel_stale_entry_keeps r o now : keeps journal (cancel_stale_entry r o now).
Proof.
  unfold cancel_stale_entry. case_match; [by keep_step|]. case_match; [by keep_step|].
  apply keeps_bind; [by apply keeps_preserves, journal_other | intros []]. keep_step. by keep_step.
Qed.

Lemma reconcile_command_keeps id c now : keeps journal (reconcile_command id c now).
Proof.
  unfold reconcile_command. apply keeps_bind.
  - unfold reconcile_lookup. apply keeps_try.
    + apply keeps_bind; [by apply keeps_preserves, journal_other | intros o]. by keep_step.
    + intros e k. destruct e; intros [= <-]; by keep_step.
  - intros [oo fs]. apply keeps_bind; [by apply keeps_preserves, journal_other | intros q]. by keep_step.
Qed.

(** ** The operations only grow the world *)

End facts.

Ltac grow_step :=
  match goal with
  | |- evolves _ (cancel_order _) => apply call_grows
  | |- evolves _ (get_order _) => apply call_grows
  | |- evolves _ (get_order_by_client_order_id _) => apply call_grows
  | |- evolves _ (submit_order _) => apply call_grows
  | |- evolves _ (get_position _) => apply call_grows
  | |- evolves _ (event _ _ _ _ _ _) => apply silent_evolves_grows, event_silent
  | |- evolves _ (finish _ _ _ _ _ _ _ _) => apply silent_evolves_grows, finish_silent
  | |- evolves _ (record_reservation_from_order _ _ _) => apply silent_evolves_grows, record_reservation_silent
  | |- evolves _ (reject_request _ _ _) => apply silent_evolves_grows, reject_silent
  | _ => frame_step
  | |- evolves _ (match ?x with _ => _ end) => destruct x
  | |- evolves extends _ => solve [auto with world]
  | E : ?h = Some ?k |- evolves _ ?k => repeat case_match; simplify_eq
  end.

Section growth.
Context `{Broker} `{Uuid5} `{CommandError}.
Context `{Dump ExecutionRequest} `{Dump BrokerOrderCommand} `{Dump BrokerOrderSnapshot} `{Dump ExecutionEvent}.
Context `{Dump BrokerPositionSnapshot}.
Implicit Types (r : ExecutionRequest) (c : BrokerOrderCommand) (o : BrokerOrderSnapshot) (w : World).

Lemma protect_grows r u c : evolves grows (protect_partial_fill r u c).
Proof.
  unfold protect_partial_fill, protect_parent, place_protective_stop, settled_result.
  repeat grow_step.
Qed.

Lemma handle_trade_update_grows r u : evolves grows (handle_trade_update r u).
Proof.
  unfold handle_trade_update, unresolved_result, settled_result.
  repeat first [apply protect_grows | grow_step].
Qed.

Lemma acknowledge_grows r c o out now : evolves grows (acknowledge r c o out now).
Proof.
  unfold acknowledge, unresolved_result, rejected_result, settled_result.
  repeat first [apply handle_trade_update_grows | grow_step].
Qed.

Lemma submit_grows r now : evolves grows (submit r now).
Proof.
  unfold submit, route_command, lookup_existing, place_order, unresolved_result, rejected_result.
  repeat first [apply acknowledge_grows | grow_step].
Qed.

Lemma cancel_stale_entry_grows r o now : evolves grows (cancel_stale_entry r o now).
Proof. unfold cancel_stale_entry. repeat grow_step. Qed.

Lemma reconcile_command_grows id c now : evolves grows (reconcile_command id c now).
Proof. unfold reconcile_command, reconcile_lookup. repeat grow_step. Qed.

(** ** The repository is well typed *)

Definition event_typed (e : ExecutionEvent) : Prop :=
  ExecutionEvent_ok e = true ∧
  ∃ oo cid, xe_broker_order_id e = os_broker_order_id <$> oo ∧ xe_client_order_id e = cid ∧
    xe_status e = (λ o, BrokerOrderStatus_value (os_status o)) <$> oo ∧
    xe_filled_quantity e = os_filled_quantity <$> oo ∧
    xe_event_hash e = canonical_sha256 (event_payload (xe_execution_id e) (xe_event_sequence e)
      (xe_event_type e) (xe_event_timestamp e) oo cid (xe_details e)).

(** Every stored value is under its own key and passed its model's checks, its
    hash is the hash of its content, event logs are numbered 1, 2, ..., and a
    result carries the event log as it stood when the result was made. *)
Record well_typed (s : ExecutionRepository) : Prop := {
  wt_requests k r : er_requests s !! k = Some r → k = xq_execution_id r;
  wt_commands k c : er_commands s !! k = Some c →
    k = co_client_order_id c ∧ BrokerOrderCommand_ok c = true ∧
    (co_command_hash c = canonical_sha256 (entry_payload (co_body c)) ∨
     co_command_hash c = canonical_sha256 (command_payload (co_body c)));
  wt_snapshots k o : er_snapshots s !! k = Some o → k = os_snapshot_id o;
  wt_contiguous : events_contiguous s;
  wt_events id e : e ∈ repository.events_of id s → event_typed e;
  wt_results k x : er_results s !! k = Some x →
    k = xs_result_id x ∧ ExecutionResult_ok x = true ∧
    xs_events x `prefix_of` repository.events_of (xs_execution_id x) s;
}.

Lemma setdefault_inv {A} k k' (v u : A) (m : gmap string A) :
  setdefault k v m !! k' = Some u → m !! k' = Some u ∨ k' = k ∧ u = v.
Proof.
  unfold setdefault. destruct (m !! k) eqn:E; [by left|].
  intros [[<- <-]|[_ ?]]%lookup_insert_Some; [by right | by left].
Qed.

Lemma put_once_preserves {S A} `{PyEq A} (I : S → Prop) get set msg k (v : A) :
  (∀ s, I s → I (set (setdefault k v (get s)) s)) → preserves I (put_once get set msg k v).
Proof.
  intros Hi s Hs. unfold put_once. rewrite eff_bind_unfold. simpl.
  destruct (collides (get s !! k) v); [done | by apply Hi].
Qed.

Lemma save_request_typed r : preserves well_typed (repository.save_request r).
Proof.
  apply put_once_preserves. intros s []. split; try done. simpl. intros k x [?|[-> ->]]%setdefault_inv; auto.
Qed.

Lemma save_command_typed c :
  BrokerOrderCommand_ok c = true →
  (co_command_hash c = canonical_sha256 (entry_payload (co_body c)) ∨
   co_command_hash c = canonical_sha256 (command_payload (co_body c))) →
  preserves well_typed (repository.save_command c).
Proof.
  intros Hok Hh. apply put_once_preserves. intros s []. split; try done. simpl.
  intros k x [?|[-> ->]]%setdefault_inv; auto.
Qed.

Lemma save_snapshot_typed o : preserves well_typed (repository.save_snapshot o).
Proof.
  apply preserves_modify. intros s []. split; try done. simpl. intros k x [?|[-> ->]]%setdefault_inv; auto.
Qed.

Lemma claim_typed id x h : preserves well_typed (repository.claim_trade_update id x h).
Proof.
  intros s Hs. unfold repository.claim_trade_update. rewrite eff_bind_unfold. cbn [gets].
  destruct (er_trade_update_ids s !! id); [by case_decide|]. destruct Hs. by split.
Qed.

Lemma save_result_typed x s :
  well_typed s → ExecutionResult_ok x = true →
  xs_events x = repository.events_of (xs_execution_id x) s →
  well_typed (repository.save_result x s).2.
Proof.
  intros Hs Hok Hev. unfold repository.save_result, put_once. rewrite eff_bind_unfold. simpl.
  destruct (collides _ x); [done|]. destruct Hs. split; try done. simpl.
  intros k y [?|[-> ->]]%setdefault_inv; [by apply wt_results0|]. split_and!; [done | done | by rewrite Hev].
Qed.

Lemma append_event_typed e : event_typed e → preserves well_typed (repository.append_event e).
Proof.
  intros He s Hs. pose proof Hs as [Hr Hc Hn Hk Hv Hx].
  pose proof (append_event_spec e s Hk) as E. cbv zeta in E.
  pose proof (append_event_contiguous e s Hk) as Hk'.
  pose proof (ex_events _ _ (append_event_extends e s)) as Hp. rewrite E in Hk', Hp |- *. clear E.
  destruct (_ =? _); cbn [snd] in *; split; try done.
  - intros id e'. rewrite events_of_insert. case_decide; [subst id|].
    + intros [?| ->%list_elem_of_singleton]%elem_of_app; [by eapply Hv | done].
    + rewrite events_of_setdefault. apply Hv.
  - intros k x Hl. destruct (Hx k x Hl) as (? & ? & ?). split_and!; [done | done|]. by etrans.
  - intros id e'. rewrite events_of_setdefault. apply Hv.
  - intros k x Hl. destruct (Hx k x Hl) as (? & ? & ?). split_and!; [done | done|]. by rewrite events_of_setdefault.
Qed.

Definition typed (w : World) : Prop := well_typed (w_repo w).

Lemma on_repo_typed {A} (m : eff ExecutionRepository A) : preserves well_typed m → preserves typed (on_repo m).
Proof. intros Hm w Hw. rewrite on_repo_run. by apply Hm. Qed.

Lemma call_typed {A} x (f : list BrokerCall → result A) : preserves typed (call x f).
Proof. by intros w Hw. Qed.

Lemma event_preserves_typed r ty t oo oc d : preserves typed (event r ty t oo oc d).
Proof.
  unfold event. apply preserves_bind; [by apply on_repo_typed, preserves_gets|]. intros n.
  destruct (ExecutionEvent_ok _) eqn:E; [|apply preserves_raise].
  apply on_repo_typed, append_event_typed. split; [done|]. by eexists oo, _.
Qed.

Lemma finish_preserves_typed r out rs oc oo op q t : preserves typed (finish r out rs oc oo op q t).
Proof.
  intros w Hw. unfold finish. rewrite eff_bind_unfold, on_repo_run. cbn [fst snd repository.list_events gets].
  set (w1 := {| w_repo := _ |}). cbv zeta. case_match; [|done].
  rewrite eff_bind_unfold, on_repo_run.
  match goal with |- context [repository.save_result ?x ?s] => pose proof (save_result_typed x s) as K end.
  destruct (repository.save_result _ _) as [[?|?] ?]; by apply K.
Qed.

Lemma lift_typed {A B} (res : result A) (f : A → exec B) :
  (∀ a, res = Ok a → preserves typed (f a)) → preserves typed (lift res ≫= f).
Proof. intros Hf. destruct res as [a|e]; [by apply (Hf a) | by intros w]. Qed.

Lemma save_entry_typed r now c :
  build_entry_command r now = Ok c → preserves typed (on_repo (repository.save_command c)).
Proof.
  intros Hb. apply on_repo_typed, save_command_typed; [by eapply en_ok, build_entry_command_Ok|].
  left. by eapply build_entry_command_hash.
Qed.

Lemma save_protective_typed r n c :
  build_partial_fill_protective_stop r n = Ok c → preserves typed (on_repo (repository.save_command c)).
Proof.
  intros Hb. apply on_repo_typed, save_command_typed; [by eapply build_protective_Ok|].
  right. by eapply build_protective_hash.
Qed.

Ltac typed_step :=
  match goal with
  | |- preserves typed (lift _ ≫= _) => apply lift_typed; intros ? ?
  | E : build_entry_command _ _ = Ok _ |- preserves typed (on_repo (repository.save_command _)) =>
      exact (save_entry_typed _ _ _ E)
  | E : build_partial_fill_protective_stop _ _ = Ok _ |- preserves typed (on_repo (repository.save_command _)) =>
      exact (save_protective_typed _ _ _ E)
  | |- preserves typed (cancel_order _) => apply call_typed
  | |- preserves typed (get_order _) => apply call_typed
  | |- preserves typed (get_order_by_client_order_id _) => apply call_typed
  | |- preserves typed (submit_order _) => apply call_typed
  | |- preserves typed (get_position _) => apply call_typed
  | |- preserves typed (event _ _ _ _ _ _) => apply event_preserves_typed
  | |- preserves typed (finish _ _ _ _ _ _ _ _) => apply finish_preserves_typed
  | |- preserves typed (on_repo (repository.save_request _)) => apply on_repo_typed, save_request_typed
  | |- preserves typed (on_repo (repository.save_snapshot _)) => apply on_repo_typed, save_snapshot_typed
  | |- preserves typed (on_repo (repository.claim_trade_update _ _ _)) => apply on_repo_typed, claim_typed
  | |- preserves typed (on_repo (repository.get_command_by_client_order_id _)) =>
      apply on_repo_typed, preserves_gets
  | |- preserves _ (mret _) => apply preserves_ret
  | |- preserves _ (raise _) => apply preserves_raise
  | |- preserves _ (_ ≫= _) => apply preserves_bind; [|intros ?]
  | |- preserves _ (try_except _ _) => apply preserves_try; [|intros ? ? ?]
  | |- preserves _ (match ?x with _ => _ end) => destruct x eqn:?
  | E : ?h = Some ?k |- preserves _ ?k => repeat case_match; simplify_eq
  end.

Lemma record_reservation_typed r o t : preserves typed (record_reservation_from_order r o t).
Proof. unfold record_reservation_from_order. typed_step; [by apply preserves_modify | typed_step]. Qed.

Lemma protect_typed r u c : preserves typed (protect_partial_fill r u c).
Proof.
  unfold protect_partial_fill, protect_parent, place_protective_stop, settled_result. repeat typed_step.
Qed.

Lemma handle_trade_update_typed r u : preserves typed (handle_trade_update r u).
Proof.
  unfold handle_trade_update, unresolved_result, settled_result.
  repeat first [apply protect_typed | apply record_reservation_typed | typed_step].
Qed.

Lemma acknowledge_typed r c o out now : preserves typed (acknowledge r c o out now).
Proof.
  unfold acknowledge, unresolved_result, rejected_result, settled_result.
  repeat first [apply handle_trade_update_typed | apply record_reservation_typed | typed_step].
Qed.

Lemma submit_typed r now : preserves typed (submit r now).
Proof.
  unfold submit, route_command, lookup_existing, place_order, reject_request, unresolved_result, rejected_result.
  repeat first [apply acknowledge_typed | typed_step].
Qed.

Lemma cancel_stale_entry_typed r o now : preserves typed (cancel_stale_entry r o now).
Proof. unfold cancel_stale_entry. repeat typed_step. Qed.

Lemma reconcile_command_typed id c now : preserves typed (reconcile_command id c now).
Proof. unfold reconcile_command, reconcile_lookup. repeat typed_step. Qed.

(** ** Steps and reachability *)

(** One call of a public operation, with whatever it returns or raises; the
    lock of the service makes a run a sequence of such calls. *)
Inductive exec_step : World → World → Prop :=
  | step_submit r now w : exec_step w (submit r now w).2
  | step_trade_update r u w : exec_step w (handle_trade_update r u w).2
  | step_cancel r o now w : exec_step w (cancel_stale_entry r o now w).2
  | step_reconcile id c now w : exec_step w (reconcile_command id c now w).2.

Definition reachable : World → Prop := rtc exec_step empty_world.

Lemma step_grows w w' : exec_step w w' → grows w w'.
Proof.
  intros []; [apply submit_grows | apply handle_trade_update_grows | apply cancel_stale_entry_grows
             | apply reconcile_command_grows].
Qed.

Lemma step_typed w w' : exec_step w w' → typed w → typed w'.
Proof.
  intros []; [apply submit_typed | apply handle_trade_update_typed | apply cancel_stale_entry_typed
             | apply reconcile_command_typed].
Qed.

Lemma step_journal w w' : exec_step w w' → journal w → journal w'.
Proof.
  intros []; [apply keeps_preserves, submit_keeps | apply keeps_preserves, handle_trade_update_keeps
             | apply keeps_preserves, cancel_stale_entry_keeps | apply keeps_preserves, reconcile_command_keeps].
Qed.

(** Rule induction over a run, once. *)
Lemma rtc_invariant (P : World → Prop) w w' :
  (∀ a b, exec_step a b → P a → P b) → rtc exec_step w w' → P w → P w'.
Proof. intros Hs Hr. induction Hr; eauto. Qed.

Lemma empty_typed : typed empty_world.
Proof.
  split; try (intros ? ?; unfold empty_world; simpl; by rewrite lookup_empty); try done.
  - intros id. constructor.
  - intros id e He. by apply elem_of_nil in He.
Qed.

Lemma empty_journal : journal empty_world.
Proof. intros h c t E. by destruct h. Qed.
End growth.
