(* ===== verification/ExecContract.v ===== *)
(** * ExecContract: the contract of the execution coordinator

    The properties of daybreak_execution/service.py over every broker, request
    and history, on the invariants of ExecFacts.v, with a sample broker and an
    approved sample decision for the witnesses. *)
From Stdlib Require Import Ascii String QArith.
From S2P Require Import Prelude Numerics PyStr PyTime Stores Contracts Canonical RiskModels Amounts RiskEngine RiskContract ExecModels OrderBuilder ExecStore ExecService ExecFacts.

#[local] Open Scope Z_scope.

(** ** Results *)

(** [gives m Q]: when [m] returns, its result and states are in [Q]. *)
Definition gives {A} (m : exec A) (Q : World → A → World → Prop) : Prop :=
  ∀ w a w', m w = (Ok a, w') → Q w a w'.

Lemma gives_ret {A} (a : A) : gives (mret a) (λ w a' w', a' = a ∧ w' = w).
Proof. by intros w a' w' [= <- <-]. Qed.

Lemma gives_bind {A B} (m : exec A) (f : A → exec B) R Q :
  gives m R → (∀ a, gives (f a) (Q a)) →
  gives (m ≫= f) (λ w b w', ∃ a w1, R w a w1 ∧ Q a w1 b w').
Proof. intros Hm Hf w b w' (a & w1 & E1 & E2)%eff_bind_Ok. exists a, w1. split; [by apply Hm | by apply Hf]. Qed.

Lemma gives_weaken {A} (m : exec A) (Q Q' : World → A → World → Prop) :
  gives m Q → (∀ w a w', Q w a w' → Q' w a w') → gives m Q'.
Proof. intros Hm HQ w a w' E. by apply HQ, Hm. Qed.

(** A silent step in front. *)
Lemma gives_after {A B} (m : exec A) (f : A → exec B) (Q : World → B → World → Prop) :
  evolves silent m → (∀ w0 w b w', w_calls w = w_calls w0 → Q w b w' → Q w0 b w') →
  (∀ a, gives (f a) Q) → gives (m ≫= f) Q.
Proof.
  intros Hm HQ Hf w b w' (a & w1 & E1 & E2)%eff_bind_Ok. apply (HQ w w1); [|by apply (Hf a)].
  pose proof (si_calls _ _ (Hm w)) as Hc. by rewrite E1 in Hc.
Qed.

Section contract.
Context `{Broker} `{Uuid5} `{CommandError}.
Context `{Dump ExecutionRequest} `{Dump BrokerOrderCommand} `{Dump BrokerOrderSnapshot} `{Dump ExecutionEvent}.
Context `{Dump BrokerPositionSnapshot}.
Implicit Types (r : ExecutionRequest) (c : BrokerOrderCommand) (o : BrokerOrderSnapshot) (w : World).

(** The fields of a result. *)
Definition shape (res : ExecutionResult) :=
  (xs_outcome res, xs_rejection_reasons res, xs_command res, xs_broker_order res, xs_protective_order res,
   xs_reconciliation_required res).

Lemma finish_gives r out rs oc oo op q t :
  gives (finish r out rs oc oo op q t)
    (λ w res w', shape res = (out, rs, oc, oo, op, q) ∧ w_calls w' = w_calls w).
Proof.
  intros w res w' E. pose proof (si_calls _ _ (finish_silent r out rs oc oo op q t w)) as Hc.
  rewrite E in Hc. split; [|done]. unfold finish in E. apply eff_bind_Ok in E as (ev & w1 & _ & E).
  cbv zeta in E. destruct (ExecutionResult_ok _); [|done].
  apply eff_bind_Ok in E as (u & w2 & _ & E). injection E as <- _. done.
Qed.

(** A protected partial fill: the parent is cancelled with a whole number of
    shares filled, and the protective order is the sell stop for exactly those
    shares at the stop of the decision. *)
Definition protected r (parent q : BrokerOrderSnapshot) : Prop :=
  os_status parent = BO_CANCELED ∧
  ∃ n v stop p, 0 < n ∧ (dval (os_filled_quantity parent) == inject_Z n)%Q ∧
    rd_reservation (rd_body (xq_risk_decision r)) = Some v ∧
    cal_stop_price (rd_calculations (rd_body (xq_risk_decision r))) = Some stop ∧
    os_stop_price q = Some p ∧ (dval p == dval stop)%Q ∧
    (dval (os_quantity q) == inject_Z n)%Q ∧ os_side q = OS_SELL ∧ os_order_type q = OT_STOP ∧
    os_symbol q = rd_ticker (rd_body (xq_risk_decision r)) ∧
    os_client_order_id q = protective_client_order_id (rv_client_order_id v).

Lemma matches_identity c o : matches c o = true → identity_matches (co_body c) o = true.
Proof. unfold matches. by destruct (identity_matches _ _). Qed.

Lemma protected_of r n pc parent q :
  build_partial_fill_protective_stop r n = Ok pc → os_status parent = BO_CANCELED →
  (dval (os_filled_quantity parent) == inject_Z n)%Q → matches pc q = true → protected r parent q.
Proof.
  intros Hb Hs Hf Hm%matches_identity. apply build_protective_Ok in Hb as (Hn & _ & v & stop & Hv & Hstop & Eb).
  rewrite Eb in Hm. unfold identity_matches, prices_match in Hm. cbn in Hm. bool_to_prop.
  repeat match goal with E : String.eqb _ _ = true |- _ => apply String.eqb_eq in E end.
  destruct (os_stop_price q) as [p|] eqn:Ep; [|done].
  split; [done|]. exists n, v, stop, p.
  split_and!; try done; try by symmetry.
  - by apply deqb_spec.
  - match goal with E : (_ =? os_quantity q)%dec = true |- _ => apply deqb_spec in E; rewrite <- E end.
    apply dval_of_Z.
Qed.

(** The results of [handle_trade_update]. *)
Definition update_result r (res : ExecutionResult) : Prop :=
  match xs_outcome res with
  | XO_EXISTING_RECONCILED =>
      xs_rejection_reasons res = [] ∧ xs_reconciliation_required res = false ∧ xs_protective_order res = None ∧
      is_some (xs_command res) = true ∧ is_some (xs_broker_order res) = true
  | XO_PARTIAL_FILL_PROTECTED =>
      xs_rejection_reasons res = [] ∧ xs_reconciliation_required res = true ∧
      ∃ parent q, xs_broker_order res = Some parent ∧ xs_protective_order res = Some q ∧ protected r parent q
  | XO_RECONCILIATION_REQUIRED =>
      xs_reconciliation_required res = true ∧ ∃ x, xs_rejection_reasons res = [x]
  | XO_SUBMITTED | XO_REJECTED => False
  end.

Abbreviation gives_result m P := (gives m (λ _ res _, P res)).

Lemma gives_result_bind {A} (m : exec A) (f : A → exec ExecutionResult) P :
  (∀ a, gives_result (f a) P) → gives_result (m ≫= f) P.
Proof. intros Hf w b w' (a & w1 & _ & E)%eff_bind_Ok. by eapply Hf. Qed.

Lemma gives_result_try (m : exec ExecutionResult) h P :
  gives_result m P → (∀ e k, h e = Some k → gives_result k P) → gives_result (try_except m h) P.
Proof.
  intros Hm Hh w b w' E. unfold try_except in E. destruct (m w) as [[a|e] w1] eqn:Em.
  - injection E as <- <-. by eapply Hm.
  - destruct (h e) as [k|] eqn:Ek; [|done]. by eapply Hh.
Qed.

Lemma gives_result_raise e (P : ExecutionResult → Prop) : gives_result (raise e) P.
Proof. by intros w a w' [=]. Qed.

Lemma gives_result_finish (P : ExecutionResult → Prop) r out rs oc oo op q t :
  (∀ res, shape res = (out, rs, oc, oo, op, q) → P res) →
  gives_result (finish r out rs oc oo op q t) P.
Proof. intros HP w res w' [Hs _]%finish_gives. by apply HP. Qed.

Lemma gives_result_lift {A} (x : result A) (f : A → exec ExecutionResult) P :
  (∀ a, x = Ok a → gives_result (f a) P) → gives_result (lift x ≫= f) P.
Proof. intros Hf w b w' (a & w1 & E1 & E)%eff_bind_Ok. injection E1 as E1 <-. by eapply Hf. Qed.

(** A result of a known shape. *)
Ltac known_result :=
  apply gives_result_finish;
  let res := fresh "res" in
  intros res; unfold shape; intros [= ? ? ? ? ? ?];
  unfold update_result;
  repeat match goal with E : _ res = _ |- _ => rewrite E; clear E end.

Lemma place_protective_result r n c o pc now :
  build_partial_fill_protective_stop r n = Ok pc → os_status o = BO_CANCELED →
  (dval (os_filled_quantity o) == inject_Z n)%Q →
  gives_result (place_protective_stop r c o pc now) (update_result r).
Proof.
  intros Hb Hs Hf. unfold place_protective_stop. do 3 (apply gives_result_bind; intros ?).
  destruct (matches pc _) eqn:Em; [|apply gives_result_raise]. simpl negb. cbv iota.
  do 2 (apply gives_result_bind; intros ?). known_result.
  split_and!; [done..|]. eexists _, _. split_and!; [done..|]. by eapply protected_of.
Qed.

Lemma protect_result r u c : gives_result (protect_partial_fill r u c) (update_result r).
Proof.
  unfold protect_partial_fill, protect_parent, settled_result.
  do 3 (apply gives_result_bind; intros ?).
  destruct (bool_decide (os_status _ = BO_FILLED)).
  { destruct (negb _); [apply gives_result_raise|]. by known_result. }
  destruct (bool_decide (os_status _ = BO_CANCELED)) eqn:Ec; [|apply gives_result_raise].
  destruct (_ <=? _)%dec; [apply gives_result_raise|].
  destruct (_ =? dec.to_integral_value _ _)%dec eqn:Ei; [|apply gives_result_raise].
  simpl negb. cbv iota. bool_to_prop. apply gives_result_lift. intros pc Hb.
  eapply place_protective_result; [done | done | by eapply to_int_integral].
Qed.

Lemma handle_trade_update_result r u : gives_result (handle_trade_update r u) (update_result r).
Proof.
  unfold handle_trade_update, unresolved_result, settled_result.
  do 2 (apply gives_result_bind; intros ?).
  case_match; [|known_result; by eauto]. case_match; [by known_result|].
  do 3 (apply gives_result_bind; intros ?). case_match; [|by known_result].
  apply gives_result_bind; intros ?. apply gives_result_try; [apply protect_result|].
  intros e k. case_match; intros [= <-]. known_result. by eauto.
Qed.

(** ** [submit] *)

(** The order a SUBMITTED result rests on: the entry of the request, matched
    field by field by what the broker acknowledged and in an ordinary state. *)
Definition submitted r (now : datetime) w (res : ExecutionResult) w' : Prop :=
  ∃ c o again, entry_of r now c ∧ shape res = (XO_SUBMITTED, [], Some c, Some o, None, false) ∧
    matches c o = true ∧ terminal_rejection o = false ∧ broker_state_requires_reconciliation o = false ∧
    needs_protection r o = false ∧
    w_calls w' = w_calls w ++ [CLookup (co_client_order_id c); CSubmit c] ++ again ∧
    (again = [] ∨ again = [CLookup (co_client_order_id c)]).

(** A rejection: before the broker was called, or by the broker. *)
Definition submit_rejected w (res : ExecutionResult) w' : Prop :=
  xs_reconciliation_required res = false ∧
  ((∃ x, xs_rejection_reasons res = [x] ∧ xs_command res = None ∧ w_calls w' = w_calls w) ∨
   (xs_rejection_reasons res = [XR_BROKER_REJECTED] ∧ ∃ c, xs_command res = Some c)).

Definition submit_result r now w (res : ExecutionResult) w' : Prop :=
  match xs_outcome res with
  | XO_SUBMITTED => submitted r now w res w'
  | XO_REJECTED => submit_rejected w res w'
  | _ => update_result r res
  end.

Lemma call_gives {A} x (f : list BrokerCall → result A) :
  gives (call x f) (λ w a w', f (w_calls w) = Ok a ∧ w_calls w' = w_calls w ++ [x]).
Proof. intros w a w' E. injection E as E <-. done. Qed.

(** The result of a rejection by the broker or of an unresolved command. *)
Definition ended c (res : ExecutionResult) : Prop :=
  (∃ oo, shape res = (XO_REJECTED, [XR_BROKER_REJECTED], Some c, oo, None, false)) ∨
  (∃ x oo, shape res = (XO_RECONCILIATION_REQUIRED, [x], Some c, oo, None, true)).

Lemma ended_submit_result r now w c res w' : ended c res → submit_result r now w res w'.
Proof.
  unfold submit_result, shape. intros [(oo & [=])|(x & oo & [=])].
  - replace (xs_outcome res) with XO_REJECTED by done. split; [done|]. right. by eauto.
  - unfold update_result. replace (xs_outcome res) with XO_RECONCILIATION_REQUIRED by done. by eauto.
Qed.

Lemma update_submit_result r now w res w' : update_result r res → submit_result r now w res w'.
Proof. unfold submit_result, update_result. by destruct (xs_outcome res). Qed.

Lemma lookup_existing_gives r c now :
  gives (lookup_existing r c now) (λ w x w',
    match x with
    | inl res => ended c res
    | inr _ => w_calls w' = w_calls w ++ [CLookup (co_client_order_id c)]
    end).
Proof.
  intros w x w' E. unfold lookup_existing, try_except in E. rewrite eff_bind_unfold in E.
  unfold get_order_by_client_order_id, call in E.
  destruct (bk_get_order_by_client_order_id _ _) as [o|[]]; cbv beta iota in E; try discriminate E.
  - by injection E as <- <-.
  - by injection E as <- <-.
  - unfold unresolved_result in E. apply eff_bind_Ok in E as (res & w1 & E1 & E).
    apply finish_gives in E1 as [Hs _]. apply (f_equal fst), Ok_inj in E as <-. right. by eexists _, _.
Qed.

Lemma place_order_gives r c now :
  gives (place_order r c now) (λ w x w',
    match x with
    | inl res => ended c res
    | inr o => ∃ again, w_calls w' = w_calls w ++ CSubmit c :: again ∧
                 (again = [] ∨ again = [CLookup (co_client_order_id c)])
    end).
Proof.
  intros w x w' E. unfold place_order, try_except in E. rewrite eff_bind_unfold in E.
  unfold submit_order, get_order_by_client_order_id, call in E.
  destruct (bk_submit_order _ _) as [o|[]]; cbv beta iota in E; try discriminate E.
  - injection E as <- <-. exists []. simpl. by auto.
  - destruct transient.
    + rewrite eff_bind_unfold in E. destruct (bk_get_order_by_client_order_id _ _) as [o|e]; cbv beta iota in E.
      * injection E as <- <-. eexists [_]. simpl. rewrite <- app_assoc. by auto.
      * destruct (not_found_or_transport e); [|done].
        apply eff_bind_Ok in E as ([] & w1 & _ & E).
        unfold unresolved_result in E. apply eff_bind_Ok in E as (res & w2 & E1 & E).
        apply finish_gives in E1 as [Hs _]. apply (f_equal fst), Ok_inj in E as <-. right. by eexists _, _.
    + unfold rejected_result in E. apply eff_bind_Ok in E as (res & w1 & E1 & E).
      apply finish_gives in E1 as [Hs _]. apply (f_equal fst), Ok_inj in E as <-. left. by eexists.
Qed.

Lemma acknowledge_gives r c o out now :
  gives (acknowledge r c o out now) (λ w res w',
    ended c res ∨ update_result r res ∨
    shape res = (out, [], Some c, Some o, None, false) ∧ matches c o = true ∧ terminal_rejection o = false ∧
    broker_state_requires_reconciliation o = false ∧ needs_protection r o = false ∧ w_calls w' = w_calls w).
Proof.
  unfold acknowledge, unresolved_result, rejected_result, settled_result.
  assert (∀ w0 w (res : ExecutionResult) w', w_calls w = w_calls w0 →
    ended c res ∨ update_result r res ∨
    shape res = (out, [], Some c, Some o, None, false) ∧ matches c o = true ∧ terminal_rejection o = false ∧
    broker_state_requires_reconciliation o = false ∧ needs_protection r o = false ∧ w_calls w' = w_calls w →
    ended c res ∨ update_result r res ∨
    shape res = (out, [], Some c, Some o, None, false) ∧ matches c o = true ∧ terminal_rejection o = false ∧
    broker_state_requires_reconciliation o = false ∧ needs_protection r o = false ∧ w_calls w' = w_calls w0)
    as Hframe by by intros w0 w res w' ->.
  apply gives_after; [apply silent_save, save_snapshot_extends | done | intros _].
  apply gives_after; [apply event_silent | done | intros _].
  apply gives_after; [apply record_reservation_silent | done | intros _]. clear Hframe.
  destruct (matches c o); simpl; [|intros w res w' [Hs _]%finish_gives; left; right; by eexists _, _].
  destruct (terminal_rejection o); [intros w res w' [Hs _]%finish_gives; left; left; by eexists|].
  destruct (broker_state_requires_reconciliation o);
    [intros w res w' [Hs _]%finish_gives; left; right; by eexists _, _|].
  destruct (needs_protection r o); [|intros w res w' [Hs Hc]%finish_gives; right; right; by split_and!].
  destruct (TradeUpdate_ok _); [|by intros w res w' E].
  intros w res w' E. right. left. by eapply handle_trade_update_result.
Qed.

Lemma route_command_gives r now c :
  entry_of r now c → gives (route_command r c now) (submit_result r now).
Proof.
  intros Hen w res w' E. unfold route_command in E.
  apply eff_bind_Ok in E as (x & w1 & E1%lookup_existing_gives & E). destruct x as [res'|[o|]].
  - apply (f_equal fst), Ok_inj in E as <-. by eapply ended_submit_result.
  - apply acknowledge_gives in E as [?|[?|(Hs & _)]];
      [by eapply ended_submit_result | by apply update_submit_result|].
    unfold shape in Hs. injection Hs as Ho Hr Hc Hb Hp Hq.
    apply update_submit_result. unfold update_result. by rewrite Ho, Hr, Hc, Hb, Hp, Hq.
  - apply eff_bind_Ok in E as ([] & w2 & E2 & E).
    pose proof (si_calls _ _ (event_silent r XT_SUBMIT_STARTED now None (Some c) no_details w1)) as Hc2.
    rewrite E2 in Hc2. cbn [snd] in Hc2.
    apply eff_bind_Ok in E as (x & w3 & E3%place_order_gives & E). destruct x as [res'|o].
    { apply (f_equal fst), Ok_inj in E as <-. by eapply ended_submit_result. }
    destruct E3 as (again & Hc3 & Hag).
    apply acknowledge_gives in E as [?|[?|(Hs & Hm & Ht & Hb & Hn & Hc4)]];
      [by eapply ended_submit_result | by apply update_submit_result|].
    unfold submit_result. pose proof Hs as Hs'. unfold shape in Hs'. injection Hs' as -> _ _ _ _ _.
    exists c, o, again. split_and!; try done. rewrite Hc4, Hc3, Hc2, E1. by rewrite <- app_assoc.
Qed.

(** The rejection code of a request that never reaches the broker. *)
Definition submit_gate r (now : datetime) : option ExecutionRejectionCode :=
  if negb (bool_decide (xp_mode (xq_policy r) = XM_PAPER)) || xp_allow_live_execution (xq_policy r) then
    Some XR_PAPER_MODE_REQUIRED
  else if request_stale r now then Some XR_REQUEST_STALE
  else match build_entry_command r now with
       | Ok _ => None
       | Err e => Some (reason_of_message (exn_text e))
       end.

(** What [submit] does once the request is on record. *)
Definition after_gate r c now : exec ExecutionResult :=
  known ← on_repo (repository.get_command_by_client_order_id (co_client_order_id c));
  if collides known c then unresolved_result r XR_COMMAND_IDENTITY_CONFLICT (Some c) None now
  else
    on_repo (repository.save_command c) ;;
    event r XT_COMMAND_PERSISTED now None (Some c) no_details ;;
    event r XT_BROKER_LOOKUP now None (Some c) no_details ;;
    route_command r c now.

Lemma submit_unfold r now w :
  submit r now w =
    (on_repo (repository.save_request r) ;;
     event r XT_REQUEST_ACCEPTED now None None no_details ;;
     match submit_gate r now with
     | Some x => reject_request r x now
     | None => c ← lift (build_entry_command r now); after_gate r c now
     end) w.
Proof.
  unfold submit. rewrite !eff_bind_unfold.
  destruct (on_repo (repository.save_request r) w) as [[u|e] w1]; [|done]. rewrite !eff_bind_unfold.
  destruct (event r XT_REQUEST_ACCEPTED now None None no_details w1) as [[u'|e] w2]; [|done].
  unfold submit_gate. destruct (_ || _); [done|]. destruct (request_stale r now); [done|].
  destruct (build_entry_command r now) as [c|e] eqn:Hb; [done|].
  by rewrite (build_entry_command_Err _ _ _ Hb).
Qed.

Lemma after_gate_gives r now c : entry_of r now c → gives (after_gate r c now) (submit_result r now).
Proof.
  intros Hen. unfold after_gate, unresolved_result.
  assert (∀ w0 w (res : ExecutionResult) w',
    w_calls w = w_calls w0 → submit_result r now w res w' → submit_result r now w0 res w') as Hf.
  { intros w0 w res w' Hc. unfold submit_result, submitted, submit_rejected. by rewrite Hc. }
  apply gives_after; [by apply silent_save, read_extends | done | intros known].
  destruct (collides known c).
  { intros w res w' [Hs _]%finish_gives. apply (ended_submit_result _ _ _ c). right. by eexists _, _. }
  apply gives_after; [apply silent_save, save_command_extends | done | intros _].
  do 2 (apply gives_after; [apply event_silent | done | intros _]).
  by apply route_command_gives.
Qed.

Lemma reject_gives r x now :
  gives (reject_request r x now) (λ w res w',
    shape res = (XO_REJECTED, [x], None, None, None, false) ∧ w_calls w' = w_calls w).
Proof.
  unfold reject_request, rejected_result.
  apply gives_after; [apply event_silent | by intros w0 w res w' -> | intros _]. apply finish_gives.
Qed.


(** A request that fails a gate (not paper mode, a live policy, a stale or
    future request, a decision that is not approved or lacks an executable
    reservation or price, a passed cutoff, an expired reservation) reaches
    neither the broker nor the reservation sink, whatever happens, and its
    result is a rejection with exactly the code of that gate. *)
Theorem submit_gate_closed r now x w :
  submit_gate r now = Some x →
  w_calls (submit r now w).2 = w_calls w ∧ w_sink (submit r now w).2 = w_sink w ∧
  ∀ res w', submit r now w = (Ok res, w') →
    shape res = (XO_REJECTED, [x], None, None, None, false).
Proof.
  intros Hg. rewrite submit_unfold, Hg.
  assert (evolves quiet (on_repo (repository.save_request r) ;;
    event r XT_REQUEST_ACCEPTED now None None no_details ;; reject_request r x now)) as Hq.
  { unfold reject_request, rejected_result. frame_step; [by frame_step|].
    do 2 (frame_step; [apply event_quiet|]). apply finish_quiet. }
  destruct (Hq w) as [_ Hs Hc]. split_and!; [done..|]. intros res w' E.
  apply eff_bind_Ok in E as (u1 & w1 & _ & E). apply eff_bind_Ok in E as (u2 & w2 & _ & E).
  by apply reject_gives in E as [? _].
Qed.


(** ** Redelivery *)

(** Nothing but a stored result distinguishes the two worlds. *)
Record same_log (w w' : World) : Prop := {
  sl_calls : w_calls w' = w_calls w;
  sl_sink : w_sink w' = w_sink w;
  sl_events : er_events (w_repo w') = er_events (w_repo w);
  sl_commands : er_commands (w_repo w') = er_commands (w_repo w);
  sl_snapshots : er_snapshots (w_repo w') = er_snapshots (w_repo w);
  sl_claims : er_trade_update_ids (w_repo w') = er_trade_update_ids (w_repo w);
}.

Lemma finish_same_log r out rs oc oo op q t w : same_log w (finish r out rs oc oo op q t w).2.
Proof.
  unfold finish. rewrite eff_bind_unfold, on_repo_run. cbn [fst snd repository.list_events gets]. cbv zeta.
  case_match; [|by split]. rewrite eff_bind_unfold, on_repo_run. unfold repository.save_result, put_once.
  rewrite eff_bind_unfold. cbn [gets]. by destruct (collides _ _); split.
Qed.

Definition claimed_by r u w : Prop :=
  er_trade_update_ids (w_repo w) !! tu_event_id u = Some (xq_execution_id r, tu_raw_event_hash u).

Lemma claimed_by_grows r u w w' : grows w w' → claimed_by r u w → claimed_by r u w'.
Proof. intros [Hx _ _]. intros Hc. eapply lookup_weaken; [exact Hc | apply Hx]. Qed.

Lemma claim_run r u w :
  on_repo (repository.claim_trade_update (tu_event_id u) (xq_execution_id r) (tu_raw_event_hash u)) w =
    (Err (ERuntime "trade update identity collision"), w) ∨
  ∃ b w1, on_repo (repository.claim_trade_update (tu_event_id u) (xq_execution_id r) (tu_raw_event_hash u)) w =
    (Ok b, w1) ∧ claimed_by r u w1 ∧ (claimed_by r u w → b = false ∧ same_log w w1).
Proof.
  rewrite on_repo_run. unfold repository.claim_trade_update, claimed_by. rewrite eff_bind_unfold. cbn [gets].
  destruct w as [s k l]; cbn [w_repo w_sink w_calls].
  destruct (er_trade_update_ids s !! tu_event_id u) as [known|] eqn:E; [case_decide as D|].
  - right. eexists _, _. split; [done|]. split; [by rewrite <- D|]. by split.
  - by left.
  - right. eexists _, _. split; [done|]. simpl. split; [by rewrite lookup_insert_eq | done].
Qed.

Lemma handle_claimed r u w : claimed_by r u w → same_log w (handle_trade_update r u w).2.
Proof.
  intros Hc. unfold handle_trade_update, unresolved_result, settled_result. rewrite eff_bind_unfold.
  destruct (claim_run r u w) as [->|(b & w1 & -> & _ & Hb)]; [by split|].
  destruct (Hb Hc) as [-> Hsl]. rewrite eff_bind_unfold, on_repo_run. cbn [fst snd gets repository.get_command_by_client_order_id].
  set (w2 := {| w_repo := w_repo w1; w_sink := w_sink w1; w_calls := w_calls w1 |}).
  assert (same_log w w2) as [a1 a2 a3 a4 a5 a6] by by destruct Hsl; split.
  assert (∀ w3, same_log w2 w3 → same_log w w3) as Htr
    by (intros w3 [b1 b2 b3 b4 b5 b6]; split; by etrans).
  destruct (er_commands _ !! _); apply Htr, finish_same_log.
Qed.

(** A trade update takes effect at most once.  After its first delivery,
    whatever came of it, every later delivery of the same event to the same
    execution, however many operations lie between, calls the broker for
    nothing, sends the reservation sink nothing and leaves events, commands and
    snapshots as they are; an event id already claimed by another execution or
    another payload is refused with the world unchanged. *)
Theorem trade_update_once r u w w2 :
  grows (handle_trade_update r u w).2 w2 →
  handle_trade_update r u w = (Err (ERuntime "trade update identity collision"), w) ∨
  same_log w2 (handle_trade_update r u w2).2.
Proof.
  intros Hg. destruct (claim_run r u w) as [Hc|(b & w1 & Hc & Hk & _)].
  - left. unfold handle_trade_update. by rewrite eff_bind_unfold, Hc.
  - right. apply handle_claimed. eapply claimed_by_grows; [exact Hg|].
    revert Hk. unfold handle_trade_update. rewrite eff_bind_unfold, Hc. clear Hc Hg. intros Hk.
    eapply claimed_by_grows, Hk. revert w1 Hk.
    match goal with |- ∀ w1, claimed_by r u w1 → grows w1 (?m w1).2 =>
      enough (evolves grows m) as Hm by (intros w1 _; apply Hm) end.
    unfold unresolved_result, settled_result.
    repeat first [apply protect_grows | grow_step].
Qed.

(** ** Runs *)


(** No run, exceptions included, removes or changes anything on record:
    requests, commands, snapshots, results, claims, the event logs, the
    reservation events and the calls made only grow. *)
Theorem execution_append_only w w' : rtc exec_step w w' → grows w w'.
Proof. intros Hr. induction Hr; [done | etrans; [by apply step_grows | done]]. Qed.

(** Every order ever posted is justified: just before it the client order
    id was looked up and not found, its command is on record, and it is either
    the entry of a recorded request that passed every gate or the protective
    stop of a fill that the broker, asked right after a cancellation, reported
    on a cancelled parent. *)
Theorem posts_justified w h c t :
  reachable w → w_calls w = h ++ CSubmit c :: t → justified (w_repo w) h c.
Proof. intros Hr. apply (rtc_invariant journal _ _ step_journal Hr empty_journal). Qed.

Section ledger.
(** Whether the broker accepts the post of a command after the calls [h]. *)
Variable accepted : list BrokerCall → BrokerOrderCommand → bool.

(** The client order ids of the orders the broker accepted, in order. *)
Fixpoint ledger_from (h l : list BrokerCall) : list string :=
  match l with
  | [] => []
  | x :: l' =>
      match x with
      | CSubmit c => if accepted h c then [co_client_order_id c] else []
      | _ => []
      end ++ ledger_from (h ++ [x]) l'
  end.
Definition ledger (l : list BrokerCall) : list string := ledger_from [] l.

(** The abstract machine: an order is opened under a client id that has none. *)
Inductive open_once : list string → list string → Prop :=
  | open_order l id : id ∉ l → open_once l (l ++ [id]).

Lemma ledger_from_snoc h l x :
  ledger_from h (l ++ [x]) = ledger_from h l ++ ledger_from (h ++ l) [x].
Proof.
  revert h. induction l as [|y l IH]; intros h; [by rewrite app_nil_r|]. cbn [ledger_from app].
  by rewrite IH, <- !app_assoc.
Qed.

Lemma elem_of_ledger_from id h l :
  id ∈ ledger_from h l →
  ∃ l1 c l2, l = l1 ++ CSubmit c :: l2 ∧ accepted (h ++ l1) c = true ∧ co_client_order_id c = id.
Proof.
  revert h. induction l as [|x l IH]; intros h; cbn [ledger_from]; [by intros ?%elem_of_nil|].
  intros [Hx|Hl]%elem_of_app.
  - destruct x; try (by apply elem_of_nil in Hx). destruct (accepted h c) eqn:E; [|by apply elem_of_nil in Hx].
    apply list_elem_of_singleton in Hx as ->. exists [], c, l. by rewrite app_nil_r.
  - apply IH in Hl as (l1 & c & l2 & -> & Ha & Hid). exists (x :: l1), c, l2.
    split; [done|]. by rewrite <- app_assoc in Ha.
Qed.

Lemma open_once_NoDup l l' : rtc open_once l l' → NoDup l → NoDup l'.
Proof.
  induction 1 as [|? ? ? Ho Hrtc IH]; [done|]. intros Hl. apply IH. destruct Ho as [k id Hid].
  apply NoDup_app. split_and!; [done | | apply NoDup_singleton].
  by intros y Hy ->%list_elem_of_singleton.
Qed.

(** The documented behaviour of the lookup: an accepted order is found. *)
Variable visible : ∀ h c t,
  accepted h c = true →
  bk_get_order_by_client_order_id (h ++ CSubmit c :: t) (co_client_order_id c) ≠ Err EBrokerNotFound.

Lemma ledger_refines l l' :
  l `prefix_of` l' →
  (∀ h c t, l' = h ++ CSubmit c :: t → ∃ h0, h = h0 ++ [CLookup (co_client_order_id c)] ∧
     bk_get_order_by_client_order_id h0 (co_client_order_id c) = Err EBrokerNotFound) →
  rtc open_once (ledger l) (ledger l').
Proof.
  intros [k ->]. induction k as [|x k IH] using rev_ind; intros Hj; [by rewrite app_nil_r|].
  transitivity (ledger (l ++ k)).
  { apply IH. intros h c t E. apply (Hj h c (t ++ [x])). by rewrite app_assoc, E, <- app_assoc. }
  rewrite app_assoc. unfold ledger. rewrite ledger_from_snoc. cbn [ledger_from app]. rewrite app_nil_r.
  destruct x as [| c | | | | |]; try (rewrite app_nil_r; done).
  destruct (accepted (l ++ k) c) eqn:Ea; [|by rewrite app_nil_r].
  apply rtc_once. constructor. intros Hin.
  destruct (Hj (l ++ k) c []) as (h0 & E & Hnf); [by rewrite app_assoc|].
  rewrite E, ledger_from_snoc in Hin. cbn [ledger_from] in Hin. rewrite !app_nil_r in Hin.
  apply elem_of_ledger_from in Hin as (l1 & c' & l2 & -> & Ha & Hid). rewrite <- Hid in Hnf.
  by apply (visible l1 c' l2).
Qed.

(** C15: The coordinator refines the ledger that opens each client order id at
    most once: over a broker whose lookup finds every order it accepted, each
    operation from a reachable world, whatever it returns or raises and however
    the posts and lookups fail, extends the accepted orders by opening ids that
    were not open, so no id is ever opened twice. *)
Theorem posts_refine_ledger w w' :
  reachable w → exec_step w w' →
  rtc open_once (ledger (w_calls w)) (ledger (w_calls w')) ∧ NoDup (ledger (w_calls w')).
Proof.
  intros Hr Hs. assert (reachable w') as Hr' by (by eapply rtc_r).
  assert (∀ v, reachable v → ∀ h c t, w_calls v = h ++ CSubmit c :: t →
    ∃ h0, h = h0 ++ [CLookup (co_client_order_id c)] ∧
      bk_get_order_by_client_order_id h0 (co_client_order_id c) = Err EBrokerNotFound) as Hj.
  { intros v Hv h c t E.
    pose proof (rtc_invariant journal _ _ step_journal Hv empty_journal h c t E) as [(h0 & ? & ? & _) _]. eauto. }
  split.
  - apply ledger_refines; [apply (step_grows _ _ Hs) | by apply Hj].
  - apply (open_once_NoDup []); [|constructor]. change [] with (ledger []) at 1.
    apply ledger_refines; [apply prefix_nil | by apply Hj].
Qed.
End ledger.

(** A reconciliation that reports a match found the order under the
    command's client id, with the command's symbol, side and quantity. *)
Theorem reconcile_matched id c now w rep w' :
  reconcile_command id c now w = (Ok rep, w') → rc_matched rep = true →
  ∃ o, rc_broker_order rep = Some o ∧
    bk_get_order_by_client_order_id (w_calls w) (co_client_order_id c) = Ok o ∧
    os_client_order_id o = co_client_order_id c ∧ os_symbol o = cb_symbol (co_body c) ∧
    os_side o = cb_side (co_body c) ∧ (dval (os_quantity o) == inject_Z (cb_quantity (co_body c)))%Q ∧
    w_repo w' = w_repo w ∧ w_sink w' = w_sink w.
Proof.
  unfold reconcile_command, reconcile_lookup, try_except, get_order_by_client_order_id, get_position, call.
  rewrite !eff_bind_unfold. destruct (bk_get_order_by_client_order_id _ _) as [o|e] eqn:El.
  - unfold mret, eff_ret. cbv beta iota. rewrite eff_bind_unfold. cbn [w_calls w_repo w_sink]. destruct (bk_get_position _ _) as [q|e]; [|done].
    intros [= <- <-] Hm. cbn [rc_matched rc_broker_order w_repo w_sink app] in *. exists o.
    unfold order_mismatches in Hm.
    destruct (String.eqb (os_symbol o) _) eqn:E1; [|done].
    destruct (bool_decide (os_side o = _)) eqn:E2; [|done].
    destruct (_ =? dec.of_Z _)%dec eqn:E3; [|done].
    destruct (String.eqb (os_client_order_id o) _) eqn:E4; [|done]. bool_to_prop.
    apply String.eqb_eq in E1, E4. apply deqb_spec in E3. rewrite dval_of_Z in E3. by split_and!.
  - unfold mret, eff_ret. destruct e; try discriminate; cbv beta iota; rewrite eff_bind_unfold;
      (destruct (bk_get_position _ _) as [q|e]; [|done]); by intros [= <- <-].
Qed.
End contract.

(** ** A sample broker

    It accepts every order, answers a lookup with the order posted under that
    id, and fills nothing.  Its orders carry the two legs of a bracket. *)

Definition sample_leg (id kind : string) (c : CommandBody) (limit stop : option decimal) : BrokerOrderLeg :=
  {| lg_broker_order_id := id; lg_client_order_id := None; lg_side := "sell"; lg_order_type := kind;
     lg_status := "held"; lg_quantity := dec.of_Z (cb_quantity c); lg_filled_quantity := dec.zero;
     lg_limit_price := limit; lg_stop_price := stop |}.

Definition sample_order (command : BrokerOrderCommand) : BrokerOrderSnapshot :=
  let c := co_body command in
  {| os_snapshot_id := "snapshot-1"; os_broker_order_id := "order-1"; os_client_order_id := cb_client_order_id c;
     os_symbol := cb_symbol c; os_side := cb_side c; os_order_type := cb_order_type c;
     os_time_in_force := TimeInForce_value (cb_time_in_force c);
     os_order_class := OrderClass_value (cb_order_class c); os_status := BO_ACCEPTED;
     os_quantity := dec.of_Z (cb_quantity c); os_filled_quantity := dec.zero; os_filled_avg_price := None;
     os_limit_price := cb_limit_price c; os_stop_price := cb_stop_price c; os_submitted_at := None;
     os_updated_at := 1767623405500000;
     os_legs := [sample_leg "leg-1" "limit" c (cb_take_profit_limit_price c) None;
                 sample_leg "leg-2" "stop" c None (cb_stop_loss_stop_price c)];
     os_raw_response_hash := sample_hash; os_raw_response := PNone |}.

(** The order after a partial fill of three shares. *)
Definition sample_fill (status : BrokerOrderStatus) (command : BrokerOrderCommand) : BrokerOrderSnapshot :=
  let o := sample_order command in
  {| os_snapshot_id := "snapshot-2"; os_broker_order_id := os_broker_order_id o;
     os_client_order_id := os_client_order_id o; os_symbol := os_symbol o; os_side := os_side o;
     os_order_type := os_order_type o; os_time_in_force := os_time_in_force o;
     os_order_class := os_order_class o; os_status := status; os_quantity := os_quantity o;
     os_filled_quantity := Dec 30 (-1); os_filled_avg_price := None; os_limit_price := os_limit_price o;
     os_stop_price := os_stop_price o; os_submitted_at := None; os_updated_at := 1767623406000000;
     os_legs := os_legs o; os_raw_response_hash := sample_hash; os_raw_response := PNone |}.

Fixpoint posted (keep : BrokerOrderCommand → bool) (h : list BrokerCall) : option BrokerOrderCommand :=
  match h with
  | [] => None
  | CSubmit c :: h' => if keep c then Some c else posted keep h'
  | _ :: h' => posted keep h'
  end.
Definition posted_as (id : string) : list BrokerCall → option BrokerOrderCommand :=
  posted (λ c, String.eqb (co_client_order_id c) id).

#[local] Instance sample_broker : Broker :=
  {| bk_get_order_by_client_order_id h id :=
       match posted_as id h with Some c => Ok (sample_order c) | None => Err EBrokerNotFound end;
     bk_submit_order _ c := Ok (sample_order c);
     bk_cancel_order _ _ := Ok tt;
     bk_get_order h _ :=
       match posted (λ _, true) h with Some c => Ok (sample_fill BO_CANCELED c) | None => Err EBrokerNotFound end;
     bk_get_position _ _ := Ok None |}.

#[local] Instance sample_uuid : Uuid5 := λ s, string_take 32 (canonical_sha256 (PStr s)).
#[local] Instance sample_error : CommandError := λ _, "".
#[local] Instance sample_dump {A} : Dump A := null_dump.

Definition sample_execution : ExecutionRequest :=
  {| xq_execution_id := "execution-1"; xq_run_id := "run-1"; xq_trading_date := Date 2026 1 5;
     xq_requested_at := 1767623405000000; xq_submission_cutoff_timestamp := 1767623460000000;
     xq_risk_decision := sample_decision; xq_policy := default_execution_policy;
     xq_configuration_hash := sample_hash |}.

Definition sample_now : datetime := 1767623405400000.
Definition sample_submission : result ExecutionResult * World := submit sample_execution sample_now empty_world.

(** The partial fill of whatever was posted first. *)
Definition sample_update (w : World) : TradeUpdate :=
  {| tu_event_id := "event-1"; tu_event := "partial_fill"; tu_event_timestamp := 1767623406000000;
     tu_order := match posted (λ _, true) (w_calls w) with
                 | Some c => sample_fill BO_PARTIALLY_FILLED c
                 | None => sample_fill BO_PARTIALLY_FILLED {| co_body := entry_body sample_execution
                     {| rv_reservation_id := ""; rv_request_id := ""; rv_run_id := ""; rv_trading_date := Date 2026 1 5;
                        rv_ticker := ""; rv_client_order_id := ""; rv_reserved_quantity := 1;
                        rv_reserved_notional := dec.zero; rv_reserved_modeled_risk := dec.zero;
                        rv_created_at := 0; rv_expires_at := 1; rv_status := RV_RESERVED |}
                     dec.zero dec.zero dec.zero; co_command_hash := "" |}
                 end;
     tu_raw_event_hash := sample_hash |}.
Definition sample_protected : result ExecutionResult * World :=
  handle_trade_update sample_execution (sample_update sample_submission.2) sample_submission.2.

Definition outcome_of (x : result ExecutionResult * World) : option ExecutionOutcome * nat :=
  (match x.1 with Ok res => Some (xs_outcome res) | Err _ => None end, length (w_calls x.2)).

(** A submission (lookup, post), then the protection of its partial fill
    (cancel, get, lookup, post), on the sample broker. *)
Example sample_submits : outcome_of sample_submission = (Some XO_SUBMITTED, 2%nat).
Proof. vm_compute. reflexivity. Qed.
Example sample_protects : outcome_of sample_protected = (Some XO_PARTIAL_FILL_PROTECTED, 6%nat).
Proof. vm_compute. reflexivity. Qed.

Lemma sample_reachable : reachable sample_protected.2.
Proof.
  eapply rtc_r; [|apply step_trade_update]. eapply rtc_r; [apply rtc_refl | apply step_submit].
Qed.

(** A run that returned, from its computed outcome. *)
Lemma outcome_returns x out n : outcome_of x = (Some out, n) →
  ∃ res, x = (Ok res, x.2) ∧ xs_outcome res = out ∧ length (w_calls x.2) = n.
Proof. destruct x as [[res|e] w]; [|done]. intros [= <- <-]. by exists res. Qed.


Lemma submit_gate_closed_witness :
  submit_gate sample_execution (sample_now + 10000000) = Some XR_REQUEST_STALE ∧
  w_calls (submit sample_execution (sample_now + 10000000) empty_world).2 = [].
Proof.
  assert (submit_gate sample_execution (sample_now + 10000000) = Some XR_REQUEST_STALE) as Hg by reflexivity.
  split; [exact Hg|].
  apply (submit_gate_closed sample_execution (sample_now + 10000000) XR_REQUEST_STALE empty_world Hg).
Defined.


Lemma trade_update_once_witness :
  handle_trade_update sample_execution (sample_update sample_submission.2) sample_submission.2 =
    (Err (ERuntime "trade update identity collision"), sample_submission.2) ∨
  same_log sample_protected.2
    (handle_trade_update sample_execution (sample_update sample_submission.2) sample_protected.2).2.
Proof.
  apply (trade_update_once sample_execution (sample_update sample_submission.2) sample_submission.2 sample_protected.2).
  reflexivity.
Defined.


Lemma execution_append_only_witness : grows empty_world sample_protected.2.
Proof. apply (execution_append_only empty_world sample_protected.2 sample_reachable). Defined.

Lemma sample_post :
  match w_calls sample_submission.2 with
  | [CLookup id; CSubmit c] => String.eqb id (co_client_order_id c)
  | _ => false
  end = true.
Proof. vm_compute. reflexivity. Qed.

Lemma posts_justified_witness :
  ∃ id c, w_calls sample_submission.2 = [CLookup id; CSubmit c] ∧ justified (w_repo sample_submission.2) [CLookup id] c.
Proof.
  pose proof sample_post as Hp.
  destruct (w_calls sample_submission.2) as [|[id| | | | | |] [|[|c| | | | |] [|? ?]]] eqn:E; try discriminate Hp.
  exists id, c. split; [reflexivity|].
  apply (posts_justified sample_submission.2 [CLookup id] c []); [|exact E].
  eapply rtc_r; [apply rtc_refl | apply step_submit].
Defined.

Lemma posted_app_l keep h t c : posted keep h = Some c → posted keep (h ++ t) = Some c.
Proof.
  induction h as [|x h IH]; [done|]. simpl. destruct x; try done. by destruct (keep _).
Qed.

Lemma sample_visible h c t :
  true = true →
  bk_get_order_by_client_order_id (h ++ CSubmit c :: t) (co_client_order_id c) ≠ Err EBrokerNotFound.
Proof.
  intros _. unfold bk_get_order_by_client_order_id, sample_broker, posted_as.
  assert (∃ c', posted (λ c', String.eqb (co_client_order_id c') (co_client_order_id c))
            (h ++ CSubmit c :: t) = Some c') as [c' ->]; [|done].
  induction h as [|x h IH]; simpl; [rewrite String.eqb_refl; by eexists|].
  destruct x; try done. destruct (String.eqb _ _); [by eexists | done].
Qed.

(** Two orders on the ledger: the entry and its protective stop. *)
Lemma posts_refine_ledger_witness :
  rtc (open_once) (ledger (λ _ _, true) (w_calls sample_submission.2)) (ledger (λ _ _, true) (w_calls sample_protected.2)) ∧
  NoDup (ledger (λ _ _, true) (w_calls sample_protected.2)).
Proof.
  apply (posts_refine_ledger (λ _ _, true) sample_visible sample_submission.2 sample_protected.2).
  - eapply rtc_r; [apply rtc_refl | apply step_submit].
  - apply step_trade_update.
Defined.

Definition sample_reconcile (c : BrokerOrderCommand) : result ReconciliationReport * World :=
  reconcile_command "execution-1" c sample_now {| w_repo := empty_execution_repository; w_sink := [];
                                                  w_calls := [CSubmit c] |}.
Definition sample_command : result BrokerOrderCommand := build_entry_command sample_execution sample_now.
Lemma sample_command_built : is_ok sample_command = true.
Proof. vm_compute. reflexivity. Qed.

Lemma sample_reconciles :
  match (sample_reconcile (get_ok _ sample_command_built)).1 with Ok rep => rc_matched rep | Err _ => false end = true.
Proof. vm_compute. reflexivity. Qed.

Lemma reconcile_matched_witness :
  ∃ rep o, (sample_reconcile (get_ok _ sample_command_built)).1 = Ok rep ∧ rc_broker_order rep = Some o ∧
    os_symbol o = cb_symbol (co_body (get_ok _ sample_command_built)).
Proof.
  pose proof sample_reconciles as Hm.
  destruct (sample_reconcile (get_ok _ sample_command_built)) as [[rep|e] w'] eqn:E; [|discriminate Hm].
  destruct (reconcile_matched "execution-1" (get_ok _ sample_command_built) sample_now _ rep w' E Hm)
    as (o & Ho & _ & _ & Hs & _).
  exists rep, o. split; [reflexivity|]. split; [exact Ho | exact Hs].
Defined.
