(* ===== verification/OrchModels.v ===== *)
(** * OrchModels: the data of the session orchestrator

    daybreak_orchestration/enums.py, models.py, clock.py and kill_switch.py:
    the policy and plan of a session, health, leases, kill switch, alerts,
    positions and results, with the checks of their models. *)
From Stdlib Require Import Ascii String.
From S2P Require Import Prelude Numerics PyStr PyTime Contracts Canonical RiskModels ExecModels.

#[local] Open Scope Z_scope.

(** ** Enums *)

Inductive SessionPhase := SP_CREATED | SP_PREFLIGHT | SP_LEADERSHIP_ACQUIRED | SP_RECORDER_WARMUP | SP_RECORDING
  | SP_FEATURE_FREEZE | SP_EVALUATION | SP_RISK | SP_ELIGIBILITY_LOCK | SP_EXECUTION | SP_MONITORING
  | SP_FLATTENING | SP_RECONCILIATION | SP_COMPLETED | SP_FAILED | SP_KILLED.
Inductive SessionOutcome := SO_COMPLETED | SO_NO_SETUPS | SO_BLOCKED | SO_FAILED | SO_KILLED | SO_FLATTEN_INCOMPLETE.
Inductive PhaseStatus := PS_STARTED | PS_COMPLETED | PS_FAILED | PS_SKIPPED.
Inductive KillSwitchReason := KS_MANUAL | KS_HARD_DAILY_LOSS | KS_ACCOUNT_BLOCKED | KS_TRADING_BLOCKED
  | KS_MARKET_CIRCUIT_BREAKER | KS_CLOCK_UNSYNCED | KS_DATABASE_UNHEALTHY | KS_RECORDER_UNHEALTHY
  | KS_MARKET_DATA_UNHEALTHY | KS_TRADE_UPDATE_STREAM_UNHEALTHY | KS_BROKER_UNHEALTHY | KS_LEADERSHIP_LOST
  | KS_CONFIGURATION_MISMATCH | KS_RECONCILIATION_FAILURE | KS_UNPROTECTED_POSITION
  | KS_EXECUTION_CUTOFF_EXCEEDED | KS_FLATTEN_DEADLINE_EXCEEDED | KS_UNKNOWN_FAILURE.
Inductive AlertSeverity := AS_INFO | AS_WARNING | AS_CRITICAL.
Inductive LeadershipEventType := LE_ACQUIRED | LE_RENEWED | LE_RELEASED | LE_LOST.

#[export] Instance SessionPhase_eq_dec : EqDecision SessionPhase. Proof. solve_decision. Defined.
#[export] Instance SessionOutcome_eq_dec : EqDecision SessionOutcome. Proof. solve_decision. Defined.
#[export] Instance KillSwitchReason_eq_dec : EqDecision KillSwitchReason. Proof. solve_decision. Defined.
#[export] Instance AlertSeverity_eq_dec : EqDecision AlertSeverity. Proof. solve_decision. Defined.

Definition SessionPhase_value (p : SessionPhase) : string :=
  match p with
  | SP_CREATED => "created" | SP_PREFLIGHT => "preflight" | SP_LEADERSHIP_ACQUIRED => "leadership_acquired"
  | SP_RECORDER_WARMUP => "recorder_warmup" | SP_RECORDING => "recording" | SP_FEATURE_FREEZE => "feature_freeze"
  | SP_EVALUATION => "evaluation" | SP_RISK => "risk" | SP_ELIGIBILITY_LOCK => "eligibility_lock"
  | SP_EXECUTION => "execution" | SP_MONITORING => "monitoring" | SP_FLATTENING => "flattening"
  | SP_RECONCILIATION => "reconciliation" | SP_COMPLETED => "completed" | SP_FAILED => "failed"
  | SP_KILLED => "killed"
  end.
Definition SessionOutcome_value (o : SessionOutcome) : string :=
  match o with
  | SO_COMPLETED => "completed" | SO_NO_SETUPS => "no_setups" | SO_BLOCKED => "blocked" | SO_FAILED => "failed"
  | SO_KILLED => "killed" | SO_FLATTEN_INCOMPLETE => "flatten_incomplete"
  end.
Definition PhaseStatus_value (s : PhaseStatus) : string :=
  match s with
  | PS_STARTED => "started" | PS_COMPLETED => "completed" | PS_FAILED => "failed" | PS_SKIPPED => "skipped"
  end.
Definition KillSwitchReason_value (k : KillSwitchReason) : string :=
  match k with
  | KS_MANUAL => "MANUAL" | KS_HARD_DAILY_LOSS => "HARD_DAILY_LOSS" | KS_ACCOUNT_BLOCKED => "ACCOUNT_BLOCKED"
  | KS_TRADING_BLOCKED => "TRADING_BLOCKED" | KS_MARKET_CIRCUIT_BREAKER => "MARKET_CIRCUIT_BREAKER"
  | KS_CLOCK_UNSYNCED => "CLOCK_UNSYNCED" | KS_DATABASE_UNHEALTHY => "DATABASE_UNHEALTHY"
  | KS_RECORDER_UNHEALTHY => "RECORDER_UNHEALTHY" | KS_MARKET_DATA_UNHEALTHY => "MARKET_DATA_UNHEALTHY"
  | KS_TRADE_UPDATE_STREAM_UNHEALTHY => "TRADE_UPDATE_STREAM_UNHEALTHY"
  | KS_BROKER_UNHEALTHY => "BROKER_UNHEALTHY" | KS_LEADERSHIP_LOST => "LEADERSHIP_LOST"
  | KS_CONFIGURATION_MISMATCH => "CONFIGURATION_MISMATCH"
  | KS_RECONCILIATION_FAILURE => "RECONCILIATION_FAILURE" | KS_UNPROTECTED_POSITION => "UNPROTECTED_POSITION"
  | KS_EXECUTION_CUTOFF_EXCEEDED => "EXECUTION_CUTOFF_EXCEEDED"
  | KS_FLATTEN_DEADLINE_EXCEEDED => "FLATTEN_DEADLINE_EXCEEDED" | KS_UNKNOWN_FAILURE => "UNKNOWN_FAILURE"
  end.
Definition AlertSeverity_value (s : AlertSeverity) : string :=
  match s with AS_INFO => "info" | AS_WARNING => "warning" | AS_CRITICAL => "critical" end.
Definition LeadershipEventType_value (t : LeadershipEventType) : string :=
  match t with
  | LE_ACQUIRED => "acquired" | LE_RENEWED => "renewed" | LE_RELEASED => "released" | LE_LOST => "lost"
  end.

(** ** canonical.py

    As in the other packages, except that datetimes end in Z. *)
Definition datetime_iso_z (t : datetime) : string := date_iso (utc_date t) +:+ "T" +:+ time_iso (t mod DAY) +:+ "Z".

Fixpoint normalize (v : pyval) : pyval :=
  match v with
  | PDatetime t => PStr (datetime_iso_z t)
  | PSeq l => PSeq (map normalize l)
  | PDict m => PDict (map (λ kv, (kv.1, normalize kv.2)) m)
  | _ => v
  end.
Definition orch_sha256 (v : pyval) : string := canonical_sha256 (normalize v).

(** ** Policy and plan *)

(** Times of day in microseconds; the two float fields as the decimals of
    their shortest representation. *)
Record OrchestrationPolicy := {
  op_recorder_warmup_time_et : Z;
  op_feature_window_start_time_et : Z;
  op_feature_snapshot_time_et : Z;
  op_evaluator_cutoff_time_et : Z;
  op_eligibility_lock_time_et : Z;
  op_regular_session_open_time_et : Z;
  op_new_entry_cutoff_time_et : Z;
  op_mandatory_flatten_time_et : Z;
  op_final_flatten_deadline_et : Z;
  op_leadership_ttl_seconds : Z;
  op_leadership_renew_interval_seconds : Z;
  op_max_clock_skew_ms : Z;
  op_flatten_poll_interval_seconds : decimal;
  op_flatten_verification_timeout_seconds : decimal;
  op_alert_dedup_window_seconds : Z;
}.

Definition policy_version : string := "session_orchestration_policy_v1".

Definition default_orchestration_policy : OrchestrationPolicy :=
  {| op_recorder_warmup_time_et := time_of 3 55; op_feature_window_start_time_et := time_of 4 0;
     op_feature_snapshot_time_et := time_of 9 23; op_evaluator_cutoff_time_et := time_of 9 26 + 30 * SECOND;
     op_eligibility_lock_time_et := time_of 9 29 + 30 * SECOND; op_regular_session_open_time_et := time_of 9 30;
     op_new_entry_cutoff_time_et := time_of 9 31 + 30 * SECOND; op_mandatory_flatten_time_et := time_of 15 50;
     op_final_flatten_deadline_et := time_of 15 55; op_leadership_ttl_seconds := 30;
     op_leadership_renew_interval_seconds := 10; op_max_clock_skew_ms := 250;
     op_flatten_poll_interval_seconds := Dec 10 (-1); op_flatten_verification_timeout_seconds := Dec 3000 (-1);
     op_alert_dedup_window_seconds := 300 |}.

(** [any(left >= right for ...)] of consecutive elements, negated. *)
Fixpoint strictly_increasing (l : list Z) : bool :=
  match l with
  | a :: (b :: _) as l' => (a <? b) && strictly_increasing l'
  | _ => true
  end.

Definition policy_times (p : OrchestrationPolicy) : list Z :=
  [op_recorder_warmup_time_et p; op_feature_window_start_time_et p; op_feature_snapshot_time_et p;
   op_evaluator_cutoff_time_et p; op_eligibility_lock_time_et p; op_regular_session_open_time_et p;
   op_new_entry_cutoff_time_et p; op_mandatory_flatten_time_et p; op_final_flatten_deadline_et p].

(** OrchestrationPolicy.times_are_monotonic. *)
Definition times_are_monotonic (p : OrchestrationPolicy) : bool :=
  strictly_increasing (policy_times p)
  && (op_leadership_renew_interval_seconds p <? op_leadership_ttl_seconds p).

Definition OrchestrationPolicy_ok (p : OrchestrationPolicy) : bool :=
  between 5 300 (op_leadership_ttl_seconds p) && between 1 60 (op_leadership_renew_interval_seconds p)
  && between 1 5000 (op_max_clock_skew_ms p)
  && positive_dec (op_flatten_poll_interval_seconds p)
  && (op_flatten_poll_interval_seconds p <=? dec.of_Z 30)%dec
  && positive_dec (op_flatten_verification_timeout_seconds p)
  && (op_flatten_verification_timeout_seconds p <=? dec.of_Z 600)%dec
  && between 0 3600 (op_alert_dedup_window_seconds p) && times_are_monotonic p.

Record SessionPlan := {
  pl_session_id : string;
  pl_run_id : string;
  pl_trading_date : date;
  pl_recorder_warmup_at : datetime;
  pl_feature_window_start_at : datetime;
  pl_feature_snapshot_at : datetime;
  pl_evaluator_cutoff_at : datetime;
  pl_eligibility_lock_at : datetime;
  pl_regular_session_open_at : datetime;
  pl_new_entry_cutoff_at : datetime;
  pl_mandatory_flatten_at : datetime;
  pl_final_flatten_deadline_at : datetime;
  pl_policy : OrchestrationPolicy;
  pl_configuration_hash : string;
}.

Definition plan_times (p : SessionPlan) : list datetime :=
  [pl_recorder_warmup_at p; pl_feature_window_start_at p; pl_feature_snapshot_at p; pl_evaluator_cutoff_at p;
   pl_eligibility_lock_at p; pl_regular_session_open_at p; pl_new_entry_cutoff_at p;
   pl_mandatory_flatten_at p; pl_final_flatten_deadline_at p].

(** SessionPlan.chronological. *)
Definition chronological (p : SessionPlan) : bool := strictly_increasing (plan_times p).

Definition SessionPlan_ok (p : SessionPlan) : bool :=
  between 8 64 (str_len (pl_session_id p)) && between 1 128 (str_len (pl_run_id p))
  && OrchestrationPolicy_ok (pl_policy p) && hash_pattern (pl_configuration_hash p) && chronological p.

(** The UTC offset in force in New York at a wall-clock time, the first of two
    where the clock is set back. *)
Class NewYorkWall := ny_wall_offset : Z → Z.

Section clock.
Context `{NewYorkWall} `{Uuid5}.

(** [_at]. *)
Definition at_ (trading_date : date) (local_time : Z) : datetime :=
  let wall := days_of_civil trading_date * DAY + local_time in wall - ny_wall_offset wall.

Definition build_session_plan (trading_date : date) (run_id configuration_hash : string)
    (policy : option OrchestrationPolicy) : result SessionPlan :=
  let policy := default default_orchestration_policy policy in
  let plan :=
    {| pl_session_id := uuid5_hex ("daybreak-session:" +:+ date_iso trading_date +:+ ":" +:+ run_id +:+ ":"
                          +:+ configuration_hash +:+ ":" +:+ policy_version);
       pl_run_id := run_id; pl_trading_date := trading_date;
       pl_recorder_warmup_at := at_ trading_date (op_recorder_warmup_time_et policy);
       pl_feature_window_start_at := at_ trading_date (op_feature_window_start_time_et policy);
       pl_feature_snapshot_at := at_ trading_date (op_feature_snapshot_time_et policy);
       pl_evaluator_cutoff_at := at_ trading_date (op_evaluator_cutoff_time_et policy);
       pl_eligibility_lock_at := at_ trading_date (op_eligibility_lock_time_et policy);
       pl_regular_session_open_at := at_ trading_date (op_regular_session_open_time_et policy);
       pl_new_entry_cutoff_at := at_ trading_date (op_new_entry_cutoff_time_et policy);
       pl_mandatory_flatten_at := at_ trading_date (op_mandatory_flatten_time_et policy);
       pl_final_flatten_deadline_at := at_ trading_date (op_final_flatten_deadline_et policy);
       pl_policy := policy; pl_configuration_hash := configuration_hash |} in
  if SessionPlan_ok plan then Ok plan else Err (EValidation "SessionPlan").
End clock.

(** ** Health and the kill switch *)

Record HealthSnapshot := {
  hs_observed_at : datetime;
  hs_clock_synchronized : bool;
  hs_clock_skew_ms : Z;
  hs_database_healthy : bool;
  hs_recorder_healthy : bool;
  hs_market_data_stream_healthy : bool;
  hs_trade_update_stream_healthy : bool;
  hs_broker_healthy : bool;
  hs_account_active : bool;
  hs_account_blocked : bool;
  hs_trading_blocked : bool;
  hs_market_status_normal : bool;
  hs_configuration_hash : string;
  hs_details : pyval;
}.

Definition health_kill_reason (h : HealthSnapshot) (plan : SessionPlan) (policy : OrchestrationPolicy)
    : option KillSwitchReason :=
  if negb (String.eqb (hs_configuration_hash h) (pl_configuration_hash plan)) then Some KS_CONFIGURATION_MISMATCH
  else if negb (hs_clock_synchronized h) || (op_max_clock_skew_ms policy <? Z.abs (hs_clock_skew_ms h))
  then Some KS_CLOCK_UNSYNCED
  else if negb (hs_database_healthy h) then Some KS_DATABASE_UNHEALTHY
  else if negb (hs_recorder_healthy h) then Some KS_RECORDER_UNHEALTHY
  else if negb (hs_market_data_stream_healthy h) then Some KS_MARKET_DATA_UNHEALTHY
  else if negb (hs_trade_update_stream_healthy h) then Some KS_TRADE_UPDATE_STREAM_UNHEALTHY
  else if negb (hs_broker_healthy h) || negb (hs_account_active h) then Some KS_BROKER_UNHEALTHY
  else if hs_account_blocked h then Some KS_ACCOUNT_BLOCKED
  else if hs_trading_blocked h then Some KS_TRADING_BLOCKED
  else if negb (hs_market_status_normal h) then Some KS_MARKET_CIRCUIT_BREAKER
  else None.

Record KillSwitchState := {
  kw_session_id : string;
  kw_active : bool;
  kw_activated_at : option datetime;
  kw_reason : option KillSwitchReason;
  kw_details : pyval;
  kw_reset_required : bool;
  kw_state_hash : string;
}.

(** KillSwitchState.coherent. *)
Definition kill_switch_coherent (k : KillSwitchState) : bool :=
  if kw_active k
  then is_some (kw_activated_at k) && is_some (kw_reason k) && kw_reset_required k
  else negb (is_some (kw_activated_at k)) && negb (is_some (kw_reason k)).

Definition opt_py {A} (f : A → pyval) (o : option A) : pyval :=
  match o with Some x => f x | None => PNone end.

Definition kill_switch_of (session_id : string) (active : bool) (activated_at : option datetime)
    (reason : option KillSwitchReason) (details : pyval) (reset_required : bool) : KillSwitchState :=
  {| kw_session_id := session_id; kw_active := active; kw_activated_at := activated_at; kw_reason := reason;
     kw_details := details; kw_reset_required := reset_required;
     kw_state_hash := orch_sha256 (PDict
       [("session_id", PStr session_id); ("active", PBool active);
        ("activated_at", opt_py PDatetime activated_at);
        ("reason", opt_py (λ k, PEnum (KillSwitchReason_value k)) reason);
        ("details", details); ("reset_required", PBool reset_required)]) |}.

Definition inactive_kill_switch (session_id : string) : KillSwitchState :=
  kill_switch_of session_id false None None (PDict []) false.

Definition activate_kill_switch (session_id : string) (reason : KillSwitchReason) (now : datetime)
    (details : pyval) : KillSwitchState :=
  kill_switch_of session_id true (Some now) (Some reason) details true.

(** ** Leases, alerts, positions, results *)

Record LeadershipLease := {
  ll_session_id : string;
  ll_holder_id : string;
  ll_acquired_at : datetime;
  ll_renewed_at : datetime;
  ll_expires_at : datetime;
  ll_fencing_token : Z;
}.

Definition LeadershipLease_ok (l : LeadershipLease) : bool :=
  between 1 128 (str_len (ll_holder_id l)) && (1 <=? ll_fencing_token l)
  && (ll_acquired_at l <=? ll_renewed_at l) && (ll_renewed_at l <? ll_expires_at l).

Record LeadershipEvent := {
  le_session_id : string;
  le_holder_id : string;
  le_event_type : LeadershipEventType;
  le_event_timestamp : datetime;
  le_fencing_token : Z;
  le_details : pyval;
  le_event_hash : string;
}.

Record AlertRecord := {
  al_alert_id : string;
  al_session_id : string;
  al_severity : AlertSeverity;
  al_code : string;
  al_message : string;
  al_created_at : datetime;
  al_dedup_key : string;
  al_details : pyval;
  al_alert_hash : string;
}.

Definition AlertRecord_ok (a : AlertRecord) : bool :=
  between 8 64 (str_len (al_alert_id a)) && between 1 128 (code_points (al_code a))
  && between 1 2048 (code_points (al_message a)) && between 1 256 (code_points (al_dedup_key a))
  && hash_pattern (al_alert_hash a).

Inductive ManagedTargetSource := MT_EXECUTION_LEDGER | MT_BROKER_ORDER_RECONSTRUCTION | MT_COMBINED.
#[export] Instance ManagedTargetSource_eq_dec : EqDecision ManagedTargetSource. Proof. solve_decision. Defined.

Record ManagedPositionTarget := {
  mt_symbol : string;
  mt_quantity : decimal;
  mt_source : ManagedTargetSource;
}.
Definition ManagedPositionTarget_ok (t : ManagedPositionTarget) : bool :=
  is_canonical_ticker (mt_symbol t) && positive_dec (mt_quantity t).

Record SessionPosition := {
  sp_symbol : string;
  sp_quantity : decimal;
  sp_average_entry_price : option decimal;
  sp_observed_at : datetime;
  sp_raw_response_hash : string;
}.
(** [position.model_copy(update={'quantity': q})]. *)
Definition with_quantity (q : decimal) (p : SessionPosition) : SessionPosition :=
  {| sp_symbol := sp_symbol p; sp_quantity := q; sp_average_entry_price := sp_average_entry_price p;
     sp_observed_at := sp_observed_at p; sp_raw_response_hash := sp_raw_response_hash p |}.

Record FlattenOrder := {
  fo_symbol : string;
  fo_quantity : decimal;
  fo_broker_order_id : string;
  fo_client_order_id : option string;
  fo_submitted_at : datetime;
  fo_raw_response_hash : string;
}.

Record FlattenResult := {
  fr_flatten_id : string;
  fr_session_id : string;
  fr_started_at : datetime;
  fr_completed_at : datetime;
  fr_canceled_order_count : Z;
  fr_initial_positions : list SessionPosition;
  fr_close_orders : list FlattenOrder;
  fr_remaining_positions : list SessionPosition;
  fr_complete : bool;
  fr_errors : list string;
  fr_result_hash : string;
}.
Definition FlattenResult_ok (r : FlattenResult) : bool :=
  between 8 64 (str_len (fr_flatten_id r)) && (0 <=? fr_canceled_order_count r)
  && hash_pattern (fr_result_hash r).

Record PhaseRecord := {
  pr_session_id : string;
  pr_sequence : Z;
  pr_phase : SessionPhase;
  pr_status : PhaseStatus;
  pr_started_at : datetime;
  pr_ended_at : option datetime;
  pr_details : pyval;
  pr_record_hash : string;
}.

Record SessionResult := {
  sr_session_id : string;
  sr_run_id : string;
  sr_outcome : SessionOutcome;
  sr_started_at : datetime;
  sr_completed_at : datetime;
  sr_final_phase : SessionPhase;
  sr_leadership_holder_id : string;
  sr_kill_switch : KillSwitchState;
  sr_flatten_result : option FlattenResult;
  sr_phase_records : list PhaseRecord;
  sr_alerts : list AlertRecord;
  sr_error_message : option string;
  sr_result_hash : string;
}.

(** ** A sample plan: the default policy on 2026-01-05, Eastern Standard Time *)

Definition null_session_dump {A} : A → pyval := λ _, PNone.
Definition sample_session_uuid : Uuid5 := λ s, string_take 32 (canonical_sha256 (PStr s)).
Definition sample_session_hash : string := canonical_sha256 (PStr "configuration").
Definition est_wall : NewYorkWall := λ _, -5 * HOUR.
Definition sample_plan_result : result SessionPlan :=
  @build_session_plan est_wall sample_session_uuid (Date 2026 1 5) "run-1" sample_session_hash None.
Lemma sample_plan_built : is_ok sample_plan_result = true.
Proof. vm_compute. reflexivity. Qed.
Definition sample_plan : SessionPlan := get_ok _ sample_plan_built.
