(* ===== verification/Leadership.v ===== *)
(** * Leadership: the lease that makes one process the leader of a session

    MemoryLeadershipRepository of daybreak_orchestration/leadership.py, its
    runs under any interleaving of holders, and fencing: a deposed leader can
    neither renew nor release. *)
From Stdlib Require Import Ascii String.
From S2P Require Import Prelude Numerics PyStr PyTime Contracts Canonical RiskModels ExecModels OrchModels.

#[local] Open Scope Z_scope.

Record LeadershipRepository := {
  lr_leases : gmap string LeadershipLease;
  lr_events : list LeadershipEvent;
  lr_token : Z;
}.

Definition empty_leadership : LeadershipRepository := {| lr_leases := ∅; lr_events := []; lr_token := 0 |}.

Module leadership.
Abbreviation M := (eff LeadershipRepository).

Definition lease_event (lease : LeadershipLease) (event_type : LeadershipEventType) (now : datetime)
    : LeadershipEvent :=
  let details := PDict [("expires_at", PDatetime (ll_expires_at lease))] in
  {| le_session_id := ll_session_id lease; le_holder_id := ll_holder_id lease; le_event_type := event_type;
     le_event_timestamp := now; le_fencing_token := ll_fencing_token lease; le_details := details;
     le_event_hash := orch_sha256 (PDict
       [("session_id", PStr (ll_session_id lease)); ("holder_id", PStr (ll_holder_id lease));
        ("event_type", PEnum (LeadershipEventType_value event_type)); ("event_timestamp", PDatetime now);
        ("fencing_token", PInt (ll_fencing_token lease)); ("details", details)]) |}.

Definition append_event (e : LeadershipEvent) (s : LeadershipRepository) : LeadershipRepository :=
  {| lr_leases := lr_leases s; lr_events := lr_events s ++ [e]; lr_token := lr_token s |}.
Definition append_lease_event (lease : LeadershipLease) (t : LeadershipEventType) (now : datetime)
  : LeadershipRepository → LeadershipRepository := append_event (lease_event lease t now).

Definition put_lease (lease : LeadershipLease) (s : LeadershipRepository) : LeadershipRepository :=
  {| lr_leases := <[ll_session_id lease := lease]> (lr_leases s); lr_events := lr_events s;
     lr_token := lr_token s |}.
Definition next_token (s : LeadershipRepository) : LeadershipRepository :=
  {| lr_leases := lr_leases s; lr_events := lr_events s; lr_token := lr_token s + 1 |}.

(** The token is taken before the lease is validated. *)
Definition acquire (session_id holder_id : string) (now : datetime) (ttl_seconds : Z)
    : M (option LeadershipLease) :=
  existing ← gets (λ s, lr_leases s !! session_id);
  if match existing with Some l => now <? ll_expires_at l | None => false end then mret None
  else
    modify next_token ;;
    token ← gets lr_token;
    let lease := {| ll_session_id := session_id; ll_holder_id := holder_id; ll_acquired_at := now;
                    ll_renewed_at := now; ll_expires_at := now + ttl_seconds * SECOND;
                    ll_fencing_token := token |} in
    if LeadershipLease_ok lease then
      modify (put_lease lease) ;; modify (append_lease_event lease LE_ACQUIRED now) ;; mret (Some lease)
    else raise (EValidation "LeadershipLease").

Definition same_lease (a b : LeadershipLease) : bool :=
  String.eqb (ll_holder_id a) (ll_holder_id b) && (ll_fencing_token a =? ll_fencing_token b).

(** [model_copy] does not validate. *)
Definition renewed (l : LeadershipLease) (now : datetime) (ttl_seconds : Z) : LeadershipLease :=
  {| ll_session_id := ll_session_id l; ll_holder_id := ll_holder_id l; ll_acquired_at := ll_acquired_at l;
     ll_renewed_at := now; ll_expires_at := now + ttl_seconds * SECOND;
     ll_fencing_token := ll_fencing_token l |}.

Definition renew (lease : LeadershipLease) (now : datetime) (ttl_seconds : Z) : M (option LeadershipLease) :=
  current ← gets (λ s, lr_leases s !! ll_session_id lease);
  match current with
  | None => mret None
  | Some c =>
      if negb (same_lease c lease) then mret None
      else if ll_expires_at c <=? now then mret None
      else
        let l := renewed c now ttl_seconds in
        modify (put_lease l) ;; modify (append_lease_event l LE_RENEWED now) ;; mret (Some l)
  end.

Definition drop_lease (id : string) (s : LeadershipRepository) : LeadershipRepository :=
  {| lr_leases := delete id (lr_leases s); lr_events := lr_events s; lr_token := lr_token s |}.

Definition release (lease : LeadershipLease) (now : datetime) : M unit :=
  current ← gets (λ s, lr_leases s !! ll_session_id lease);
  match current with
  | None => mret tt
  | Some c =>
      if same_lease c lease
      then modify (drop_lease (ll_session_id lease)) ;; modify (append_lease_event c LE_RELEASED now)
      else mret tt
  end.
End leadership.

(** One operation of any process, at any clock reading. *)
Inductive lease_step : LeadershipRepository → LeadershipRepository → Prop :=
  | step_acquire id holder now ttl s : lease_step s (leadership.acquire id holder now ttl s).2
  | step_renew l now ttl s : lease_step s (leadership.renew l now ttl s).2
  | step_release l now s : lease_step s (leadership.release l now s).2.

(** Leases are stored under their session, and tokens come from the counter. *)
Record leases_ok (s : LeadershipRepository) : Prop := {
  lk_session k l : lr_leases s !! k = Some l → ll_session_id l = k;
  lk_token k l : lr_leases s !! k = Some l → ll_fencing_token l <= lr_token s;
}.

Import leadership.

(** The outcomes of an acquisition. *)
Inductive acquires (id holder : string) (now : datetime) (ttl : Z) (s : LeadershipRepository)
    : result (option LeadershipLease) * LeadershipRepository → Prop :=
  | acquire_held l : lr_leases s !! id = Some l → now < ll_expires_at l → acquires id holder now ttl s (Ok None, s)
  | acquire_invalid : acquires id holder now ttl s (Err (EValidation "LeadershipLease"), next_token s)
  | acquire_granted l :
      (∀ c, lr_leases s !! id = Some c → ll_expires_at c <= now) → LeadershipLease_ok l = true →
      ll_session_id l = id → ll_holder_id l = holder → ll_acquired_at l = now →
      ll_expires_at l = now + ttl * SECOND → ll_fencing_token l = lr_token s + 1 →
      acquires id holder now ttl s (Ok (Some l), append_lease_event l LE_ACQUIRED now (put_lease l (next_token s))).

Lemma acquire_spec id holder now ttl s : acquires id holder now ttl s (acquire id holder now ttl s).
Proof.
  unfold acquire. rewrite eff_bind_unfold. cbn [gets].
  destruct (lr_leases s !! id) as [c|] eqn:E.
  - destruct (now <? ll_expires_at c) eqn:El; bool_to_prop; [by eapply acquire_held|].
    rewrite eff_bind_unfold. cbn [modify]. rewrite eff_bind_unfold. cbn [gets]. cbv zeta.
    destruct (LeadershipLease_ok _) eqn:Eok; [|apply acquire_invalid].
    apply acquire_granted; try done. intros c'. rewrite E. by intros [= <-].
  - rewrite eff_bind_unfold. cbn [modify]. rewrite eff_bind_unfold. cbn [gets]. cbv zeta.
    destruct (LeadershipLease_ok _) eqn:Eok; [|apply acquire_invalid].
    apply acquire_granted; try done. intros c'. by rewrite E.
Qed.

Lemma same_lease_spec a b :
  same_lease a b = true ↔ ll_holder_id a = ll_holder_id b ∧ ll_fencing_token a = ll_fencing_token b.
Proof. unfold same_lease. by rewrite andb_true_iff, String.eqb_eq, Z.eqb_eq. Qed.

(** The outcomes of a renewal: refused, or the current lease extended. *)
Inductive renews (l : LeadershipLease) (now : datetime) (ttl : Z) (s : LeadershipRepository)
    : result (option LeadershipLease) * LeadershipRepository → Prop :=
  | renew_refused :
      (∀ c, lr_leases s !! ll_session_id l = Some c → same_lease c l = true → ll_expires_at c <= now) →
      renews l now ttl s (Ok None, s)
  | renew_granted c :
      lr_leases s !! ll_session_id l = Some c → same_lease c l = true → now < ll_expires_at c →
      renews l now ttl s (Ok (Some (renewed c now ttl)),
                          append_lease_event (renewed c now ttl) LE_RENEWED now (put_lease (renewed c now ttl) s)).

Lemma renew_spec l now ttl s : renews l now ttl s (renew l now ttl s).
Proof.
  unfold renew. rewrite eff_bind_unfold. cbn [gets].
  destruct (lr_leases s !! ll_session_id l) as [c|] eqn:E; [|apply renew_refused; by rewrite E].
  destruct (same_lease c l) eqn:Es; simpl negb; cbv iota.
  - destruct (ll_expires_at c <=? now) eqn:Ee; bool_to_prop.
    + apply renew_refused. rewrite E. by intros c' [= <-].
    + by apply renew_granted.
  - apply renew_refused. rewrite E. intros c' [= <-]. by rewrite Es.
Qed.

Inductive releases (l : LeadershipLease) (now : datetime) (s : LeadershipRepository)
    : result unit * LeadershipRepository → Prop :=
  | release_other :
      (∀ c, lr_leases s !! ll_session_id l = Some c → same_lease c l = false) → releases l now s (Ok tt, s)
  | release_own c :
      lr_leases s !! ll_session_id l = Some c → same_lease c l = true →
      releases l now s (Ok tt, append_lease_event c LE_RELEASED now (drop_lease (ll_session_id l) s)).

Lemma release_spec l now s : releases l now s (release l now s).
Proof.
  unfold release. rewrite eff_bind_unfold. cbn [gets].
  destruct (lr_leases s !! ll_session_id l) as [c|] eqn:E; [|apply release_other; by rewrite E].
  destruct (same_lease c l) eqn:Es; [by apply release_own|].
  apply release_other. rewrite E. by intros c' [= <-].
Qed.

(** What every step keeps of the lease of a session: its token never goes
    below [n], nor does the counter. *)
Definition at_least (id : string) (n : Z) (s : LeadershipRepository) : Prop :=
  n <= lr_token s ∧ ∀ c, lr_leases s !! id = Some c → n <= ll_fencing_token c.

Lemma put_lease_lookup l s k c :
  lr_leases (put_lease l s) !! k = Some c →
  (k = ll_session_id l ∧ c = l) ∨ lr_leases s !! k = Some c.
Proof. simpl. intros [[<- <-]|[_ ?]]%lookup_insert_Some; auto. Qed.

Lemma step_leases_ok s s' : lease_step s s' → leases_ok s → leases_ok s'.
Proof.
  intros [id holder now ttl s0|l now ttl s0|l now s0] [Hs Ht].
  - destruct (acquire_spec id holder now ttl s0) as [| |l _ _ Hid _ _ _ Htok]; simpl; [by split|..].
    + split; [done|]. simpl. intros k l Hl%Ht. lia.
    + split; intros k c [[-> ->]|Hc]%put_lease_lookup; simpl; [done | by eapply Hs | lia|].
      apply Ht in Hc. lia.
  - destruct (renew_spec l now ttl s0) as [|c Hc Hsame]; simpl; [by split|].
    split; intros k c' [[-> ->]|Hc']%put_lease_lookup; simpl; [done | by eapply Hs | by eapply Ht | by eapply Ht].
  - destruct (release_spec l now s0) as [|c Hc Hsame]; simpl; [by split|].
    split; simpl; intros k c' [_ Hk]%lookup_delete_Some; eauto.
Qed.

Lemma step_at_least id n s s' : lease_step s s' → leases_ok s → at_least id n s → at_least id n s'.
Proof.
  intros [id' holder now ttl s0|l now ttl s0|l now s0] Hok [Hn Hl].
  - destruct (acquire_spec id' holder now ttl s0) as [| |l _ _ Hid _ _ _ Htok]; simpl; [by split|..].
    + split; simpl; [lia | done].
    + split; simpl; [lia|]. intros c [[_ ->]|Hc]%put_lease_lookup; [lia | by apply Hl].
  - destruct (renew_spec l now ttl s0) as [|c Hc Hsame]; simpl; [by split|].
    split; [done|]. intros c' [[-> ->]|Hc']%put_lease_lookup; [|by apply Hl].
    apply (Hl c). simpl. by rewrite (lk_session _ Hok _ _ Hc).
  - destruct (release_spec l now s0) as [|c Hc Hsame]; simpl; [by split|].
    split; [done|]. simpl. intros c' [_ Hk]%lookup_delete_Some. by apply Hl.
Qed.

Lemma rtc_leases s s' : rtc lease_step s s' → leases_ok s →
  leases_ok s' ∧ ∀ id n, at_least id n s → at_least id n s'.
Proof.
  induction 1 as [|s s1 s' Hs _ IH]; intros Hok; [by auto|].
  destruct (IH (step_leases_ok _ _ Hs Hok)) as [Hok' Hn]. split; [done|].
  intros id n Ha. by eapply Hn, step_at_least.
Qed.

Lemma empty_leases_ok : leases_ok empty_leadership.
Proof. split; simpl; intros k l; by rewrite lookup_empty. Qed.

(** C18: Leadership is fenced.  From any history of acquisitions, renewals and
    releases by any processes at any clock readings, let [l] be the lease on
    record for its session.  If, however many operations later, another
    acquisition of that session is granted, then whatever lease was still on
    record had expired, the new fencing token is larger than [l]'s, and from
    then on, whatever happens next, a renewal of [l] is refused and a release
    of [l] changes nothing. *)
Theorem deposed_leader_fenced l s1 s2 holder now ttl l2 s3 s4 now' ttl' :
  rtc lease_step empty_leadership s1 → lr_leases s1 !! ll_session_id l = Some l →
  rtc lease_step s1 s2 → acquire (ll_session_id l) holder now ttl s2 = (Ok (Some l2), s3) →
  rtc lease_step s3 s4 →
  (∀ c, lr_leases s2 !! ll_session_id l = Some c → ll_expires_at c <= now) ∧
  ll_fencing_token l < ll_fencing_token l2 ∧
  renew l now' ttl' s4 = (Ok None, s4) ∧ release l now' s4 = (Ok tt, s4).
Proof.
  intros H1 Hl H12 Hacq H34.
  destruct (rtc_leases _ _ H1 empty_leases_ok) as [Hok1 _].
  destruct (rtc_leases _ _ H12 Hok1) as [Hok2 Hn2].
  assert (lease_step s2 s3) as H23 by (pose proof (step_acquire (ll_session_id l) holder now ttl s2) as K; by rewrite Hacq in K).
  destruct (Hn2 (ll_session_id l) (ll_fencing_token l)) as [Htok _].
  { split; [by eapply lk_token|]. rewrite Hl. by intros c [= <-]. }
  pose proof (acquire_spec (ll_session_id l) holder now ttl s2) as Ha. rewrite Hacq in Ha.
  inversion Ha as [| |l0 Hexp _ Hid _ _ _ Hl2 [E1 E2]]; subst l0 s3.
  assert (at_least (ll_session_id l) (ll_fencing_token l2) s4) as [_ Hlast].
  { apply (rtc_leases _ _ H34); [by eapply step_leases_ok|]. split; simpl; [lia|].
    rewrite Hid, lookup_insert_eq. by intros c [= <-]. }
  assert (∀ c, lr_leases s4 !! ll_session_id l = Some c → same_lease c l = false) as Hdiff.
  { intros c Hc%Hlast. destruct (same_lease c l) eqn:E; [|done]. apply same_lease_spec in E as [_ E]. lia. }
  split_and!; [done | lia | |].
  - destruct (renew_spec l now' ttl' s4) as [|c Hc Hs]; [done|]. by rewrite (Hdiff c Hc) in Hs.
  - destruct (release_spec l now' s4) as [|c Hc Hs]; [done|]. by rewrite (Hdiff c Hc) in Hs.
Qed.

(** A takeover after expiry: the first holder is deposed. *)
Definition sample_lease : LeadershipLease :=
  {| ll_session_id := "session-1"; ll_holder_id := "a"; ll_acquired_at := 0; ll_renewed_at := 0;
     ll_expires_at := 30 * SECOND; ll_fencing_token := 1 |}.
Definition sample_first : LeadershipRepository := (acquire "session-1" "a" 0 30 empty_leadership).2.

Lemma deposed_leader_fenced_witness :
  ∃ l2 s3, acquire "session-1" "b" (31 * SECOND) 30 sample_first = (Ok (Some l2), s3) ∧
    ll_fencing_token l2 = 2 ∧ renew sample_lease (32 * SECOND) 30 s3 = (Ok None, s3).
Proof.
  eexists _, _. split; [vm_compute; reflexivity|]. split; [reflexivity|].
  eapply (deposed_leader_fenced sample_lease sample_first sample_first "b" (31 * SECOND) 30 _ _ _ (32 * SECOND) 30).
  - apply rtc_once. apply (step_acquire "session-1" "a" 0 30).
  - reflexivity.
  - apply rtc_refl.
  - vm_compute. reflexivity.
  - apply rtc_refl.
Defined.
