(* ===== verification/OrchEnv.v ===== *)
(** * OrchEnv: what surrounds the session orchestrator

    The clock, the broker operations, the health probe, the phase hooks and the
    alert sinks of daybreak_orchestration/protocols.py are outside the program:
    each answer is an arbitrary function of the calls made before it, and the
    calls are on record.  Also here: Python's conversion of text to Decimal. *)
From Stdlib Require Import Ascii String.
From S2P Require Import Prelude Numerics PyStr PyTime Contracts Canonical RiskModels ExecModels OrchModels.

#[local] Open Scope Z_scope.

(** ** Decimal(text) *)

Inductive dnum := DFinite (d : decimal) | DInfinite (negative : bool) | DNaN | DMalformed.

Definition digits_value (l : chars) : Z :=
  fold_left (λ acc c, acc * 10 + Z.of_nat (nat_of_ascii c) - 48) l 0.

Definition take_sign (l : chars) : bool * chars :=
  match l with
  | "-"%char :: l' => (true, l')
  | "+"%char :: l' => (false, l')
  | _ => (false, l)
  end.

(** The exponent part: nothing, or e with a signed integer. *)
Definition take_exponent (l : chars) : option Z :=
  match l with
  | [] => Some 0
  | c :: l' =>
      if Ascii.eqb (ascii_lower c) "e" then
        let (neg, l2) := take_sign l' in
        let (ds, rest) := span_digits l2 in
        match ds, rest with
        | _ :: _, [] => Some (if neg then - digits_value ds else digits_value ds)
        | _, _ => None
        end
      else None
  end.

(** ASCII text; the other decimal digits of Unicode are read as malformed. *)
Definition parse_decimal (s : string) : dnum :=
  let l := filter (λ c, c ≠ "_"%char) (strip (list_ascii_of_string s)) in
  let (neg, l) := take_sign l in
  let low := string_lower (string_of_list_ascii l) in
  if String.eqb low "inf" || String.eqb low "infinity" then DInfinite neg
  else if String.eqb low "nan" || String.eqb low "snan" then DNaN
  else
    let (int_part, l) := span_digits l in
    let '(frac_part, l) := match l with "."%char :: l' => span_digits l' | _ => ([], l) end in
    match int_part ++ frac_part with
    | [] => DMalformed
    | ds =>
        match take_exponent l with
        | Some e =>
            let c := digits_value ds in
            DFinite (Dec (if neg then - c else c) (e - Z.of_nat (length frac_part)))
        | None => DMalformed
        end
    end.

Example parse_decimal_examples :
  map parse_decimal ["3"; " -1.50 "; "1_000"; ".5e3"; "1e-2"; "Infinity"; "nan"; ""; "1.2.3"; "e5"]
  = [DFinite (Dec 3 0); DFinite (Dec (-150) (-2)); DFinite (Dec 1000 0); DFinite (Dec 5 2);
     DFinite (Dec 1 (-2)); DInfinite false; DNaN; DMalformed; DMalformed; DMalformed].
Proof. vm_compute. reflexivity. Qed.

(** ** The environment *)

Inductive Hook := HK_WARMUP_RECORDER | HK_FREEZE_FEATURES | HK_EVALUATE | HK_SIZE_AND_EXECUTE | HK_RECONCILE.
#[export] Instance Hook_eq_dec : EqDecision Hook. Proof. solve_decision. Defined.

(** The argument of [sleep]. *)
Inductive duration := DFloat (s : flt) | DPoll (s : decimal).

Inductive EnvCall :=
  | EClock
  | ESleep (d : duration)
  | EDiscover
  | ECancelOrders
  | EListPositions (targets : list ManagedPositionTarget)
  | EClosePosition (p : SessionPosition)
  | EHealth (now : datetime)
  | EHook (h : Hook) (now : datetime) (fencing_token : Z)
  | ESendAlert (a : AlertRecord).

Abbreviation trace := (list EnvCall).

(** A hook answers with a dict. *)
Abbreviation details := (list (string * pyval)).

Class Env := {
  ev_clock : trace → datetime;
  ev_discover_daybreak_targets : trace → SessionPlan → result (list ManagedPositionTarget);
  ev_cancel_daybreak_orders : trace → SessionPlan → result Z;
  ev_list_positions : trace → list ManagedPositionTarget → result (list SessionPosition);
  ev_close_position : trace → SessionPosition → result FlattenOrder;
  ev_health : trace → SessionPlan → datetime → result HealthSnapshot;
  ev_hook : trace → Hook → SessionPlan → datetime → Z → result details;
  ev_send : trace → AlertRecord → result unit;
}.

(** A call and its answer.  Divergence is not an answer: it is the mark of a
    loop of the program that ran out of fuel. *)
Definition env_call {A} (c : EnvCall) (answer : trace → result A) : eff trace A := λ h,
  (match answer h with Err EDiverge => Err (EOther "Exception" "") | r => r end, h ++ [c]).

Section env.
Context `{Env}.
Definition clock : eff trace datetime := λ h, (Ok (ev_clock h), h ++ [EClock]).
Definition sleep (d : duration) : eff trace unit := λ h, (Ok tt, h ++ [ESleep d]).
End env.
