(* ===== verification/Flatten.v ===== *)
(** * Flatten: closing what the session holds

    FlattenService and _merge_targets of daybreak_orchestration/flatten.py over
    the environment of OrchEnv.v, and what it may close: never more of a symbol
    than the broker reported. *)
From Stdlib Require Import Ascii String QArith Lqa.
From S2P Require Import Prelude Numerics PyStr PyTime Contracts Canonical RiskModels Amounts ExecModels OrchModels OrchEnv.

#[local] Open Scope Z_scope.

(** [timedelta(seconds=x)] of a float, in microseconds. *)
Definition timedelta_seconds (x : decimal) : Z :=
  let f := if 0 <=? expo x then flt.of_ratio (coef x * 10 ^ expo x) 1
           else flt.of_ratio (coef x) (10 ^ (- expo x)) in
  if 0 <=? fe f then flt.to_int f * SECOND
  else
    let whole := flt.to_int f in
    let frac := Flt (fm f - whole * 2 ^ (- fe f)) (fe f) in
    let us := flt.mul_Z frac SECOND in
    whole * SECOND + (if 0 <=? fe us then fm us * 2 ^ fe us else div_half_even (fm us) (2 ^ (- fe us))).

Example timedelta_seconds_examples :
  map timedelta_seconds [Dec 3000 (-1); Dec 10 (-1); Dec 1 (-1); Dec 25 (-2); Dec 1234567891 (-9)]
  = [300000000; 1000000; 100000; 250000; 1234568].
Proof. vm_compute. reflexivity. Qed.

(** ** _merge_targets *)

(** The values of [managed_quantities]. *)
Inductive raw_quantity := QDecimal (d : decimal) | QInt (z : Z) | QStr (s : string).

(** [Decimal(str(raw))] followed by [quantity <= 0]: [None] to skip it.  An
    infinite quantity fails the model of the target. *)
Definition managed_quantity (raw : raw_quantity) : result (option decimal) :=
  match match raw with QDecimal d => DFinite d | QInt z => DFinite (dec.of_Z z) | QStr s => parse_decimal s end with
  | DFinite q => Ok (if (q <=? dec.zero)%dec then None else Some q)
  | DInfinite true => Ok None
  | DInfinite false => Err (EValidation "ManagedPositionTarget")
  | DNaN | DMalformed => Err EInvalidOperation
  end.

Definition Targets : Type := gmap string (decimal * list ManagedTargetSource).

(** [quantities[s] = max(quantities.get(s, 0), q)] and
    [sources.setdefault(s, set()).add(source)]. *)
Definition add_target (symbol : string) (quantity : decimal) (source : ManagedTargetSource) (m : Targets) : Targets :=
  let '(old, sources) := default (dec.zero, []) (m !! symbol) in
  <[symbol := (dec.max old quantity, if decide (source ∈ sources) then sources else sources ++ [source])]> m.

Fixpoint add_managed (managed : list (string * raw_quantity)) (m : Targets) : result Targets :=
  match managed with
  | [] => Ok m
  | (symbol, raw) :: rest =>
      q ← managed_quantity raw;
      add_managed rest (match q with Some q => add_target symbol q MT_EXECUTION_LEDGER m | None => m end)
  end.

Definition target_of (kv : string * (decimal * list ManagedTargetSource)) : ManagedPositionTarget :=
  {| mt_symbol := kv.1; mt_quantity := kv.2.1;
     mt_source := match kv.2.2 with [s] => s | _ => MT_COMBINED end |}.

Definition merge_targets (discovered : list ManagedPositionTarget) (managed : list (string * raw_quantity))
    : result (list ManagedPositionTarget) :=
  let m := fold_left (λ m t, add_target (mt_symbol t) (mt_quantity t) (mt_source t) m) discovered ∅ in
  m ← add_managed managed m;
  let targets := map target_of (sorted_by (λ a b, string_leb a.1 b.1) (map_to_list m)) in
  if forallb ManagedPositionTarget_ok targets then Ok targets else Err (EValidation "ManagedPositionTarget").

(** ** FlattenService.flatten *)

(** The lists and the dict the closures share. *)
Record FlattenState := {
  fs_errors : list string;
  fs_close_orders : list FlattenOrder;
  fs_submitted : gmap string decimal;
}.

Definition add_error (e : string) (s : FlattenState) : FlattenState :=
  {| fs_errors := fs_errors s ++ [e]; fs_close_orders := fs_close_orders s; fs_submitted := fs_submitted s |}.
Definition add_close (symbol : string) (quantity : decimal) (o : FlattenOrder) (s : FlattenState) : FlattenState :=
  {| fs_errors := fs_errors s; fs_close_orders := fs_close_orders s ++ [o];
     fs_submitted := <[symbol := quantity]> (fs_submitted s) |}.

Section flatten.
Context `{Env}.
Context `{Uuid5} `{Dump SessionPosition} `{Dump FlattenOrder}.

(** A guarded call: its answer, or the fallback with the error on record. *)
Definition attempt {A} (m : eff trace A) (fallback : A) (what : string) (s : FlattenState)
    : eff trace (A * FlattenState) :=
  r ← observe m;
  mret match r with
       | Ok a => (a, s)
       | Err e => (fallback, add_error (what +:+ " failed: " +:+ describe e) s)
       end.

Definition close_position (p : SessionPosition) : eff trace FlattenOrder :=
  env_call (EClosePosition p) (λ h, ev_close_position h p).
Definition list_positions (targets : list ManagedPositionTarget) : eff trace (list SessionPosition) :=
  env_call (EListPositions targets) (λ h, ev_list_positions h targets).

Definition close_one (s : FlattenState) (p : SessionPosition) : eff trace FlattenState :=
  let already := default dec.zero (fs_submitted s !! sp_symbol p) in
  let uncovered := (sp_quantity p - already)%dec in
  if (uncovered <=? dec.zero)%dec then mret s
  else
    r ← observe (close_position (with_quantity uncovered p));
    mret match r with
         | Ok o => add_close (sp_symbol p) (already + uncovered)%dec o s
         | Err e => add_error ("close position " +:+ sp_symbol p +:+ " failed: " +:+ describe e) s
         end.

Fixpoint close_uncovered (positions : list SessionPosition) (s : FlattenState) : eff trace FlattenState :=
  match positions with
  | [] => mret s
  | p :: rest => s' ← close_one s p; close_uncovered rest s'
  end.

(** The verification loop, [fuel] rounds at most. *)
Fixpoint verify (fuel : nat) (plan : SessionPlan) (targets : list ManagedPositionTarget) (deadline : datetime)
    (remaining : list SessionPosition) (s : FlattenState) : eff trace (list SessionPosition * FlattenState) :=
  match fuel with
  | O => raise EDiverge
  | S fuel' =>
      now ← clock;
      if negb (now <? deadline) then mret (remaining, s)
      else
        r ← observe (list_positions targets);
        match r with
        | Err e => mret (remaining, add_error ("verify Daybreak positions failed: " +:+ describe e) s)
        | Ok [] => mret ([], s)
        | Ok remaining' =>
            s' ← close_uncovered remaining' s;
            sleep (DPoll (op_flatten_poll_interval_seconds (pl_policy plan))) ;;
            verify fuel' plan targets deadline remaining' s'
        end
  end.

Definition flatten_core (plan : SessionPlan) (started_at completed_at : datetime) (canceled : Z)
    (initial : list SessionPosition) (s : FlattenState) (remaining : list SessionPosition) (complete : bool) : pyval :=
  PDict [("session_id", PStr (pl_session_id plan)); ("started_at", PDatetime started_at);
         ("completed_at", PDatetime completed_at); ("canceled_order_count", PInt canceled);
         ("initial_positions", PSeq (map dump initial)); ("close_orders", PSeq (map dump (fs_close_orders s)));
         ("remaining_positions", PSeq (map dump remaining)); ("complete", PBool complete);
         ("errors", PSeq (map PStr (fs_errors s)))].

Definition flatten_result (plan : SessionPlan) (started_at completed_at : datetime) (canceled : Z)
    (initial : list SessionPosition) (s : FlattenState) (remaining : list SessionPosition) : FlattenResult :=
  let complete := negb (nonempty remaining) && negb (nonempty (fs_errors s)) in
  let result_hash := orch_sha256 (flatten_core plan started_at completed_at canceled initial s remaining complete) in
  {| fr_flatten_id := uuid5_hex ("daybreak-flatten:" +:+ pl_session_id plan +:+ ":" +:+ result_hash);
     fr_session_id := pl_session_id plan; fr_started_at := started_at; fr_completed_at := completed_at;
     fr_canceled_order_count := canceled; fr_initial_positions := initial;
     fr_close_orders := fs_close_orders s; fr_remaining_positions := remaining; fr_complete := complete;
     fr_errors := fs_errors s; fr_result_hash := result_hash |}.

Definition no_flatten_state : FlattenState := {| fs_errors := []; fs_close_orders := []; fs_submitted := ∅ |}.

Definition flatten (fuel : nat) (plan : SessionPlan) (now : datetime) (managed : list (string * raw_quantity))
    : eff trace FlattenResult :=
  let started_at := now in
  '(discovered, s) ← attempt (env_call EDiscover (λ h, ev_discover_daybreak_targets h plan)) []
                       "discover Daybreak quantities" no_flatten_state;
  targets ← lift (merge_targets discovered managed);
  '(canceled, s) ← attempt (env_call ECancelOrders (λ h, ev_cancel_daybreak_orders h plan)) 0
                     "cancel Daybreak orders" s;
  '(initial, s) ← attempt (list_positions targets) [] "list Daybreak positions" s;
  s ← close_uncovered initial s;
  let deadline := Z.min (pl_final_flatten_deadline_at plan)
    (started_at + timedelta_seconds (op_flatten_verification_timeout_seconds (pl_policy plan))) in
  '(remaining, s) ← verify fuel plan targets deadline initial s;
  completed_at ← clock;
  let res := flatten_result plan started_at completed_at canceled initial s remaining in
  if FlattenResult_ok res then mret res else raise (EValidation "FlattenResult").

(** ** What is closed *)

(** The quantity of [x] in a call, if it is a close the broker accepts after [h]. *)
Definition closes (h : trace) (c : EnvCall) (x : string) : Q :=
  match c with
  | EClosePosition p =>
      if String.eqb (sp_symbol p) x && is_ok (ev_close_position h p) then dval (sp_quantity p) else 0%Q
  | _ => 0%Q
  end.

Fixpoint closed_from (h l : trace) (x : string) : Q :=
  match l with
  | [] => 0%Q
  | c :: l' => (closes h c x + closed_from (h ++ [c]) l' x)%Q
  end.
(** The accepted closes of [x] on record. *)
Definition closed (h : trace) (x : string) : Q := closed_from [] h x.

Lemma closed_from_snoc h l c x :
  (closed_from h (l ++ [c]) x == closed_from h l x + closes (h ++ l) c x)%Q.
Proof.
  revert h. induction l as [|y l IH]; intros h; cbn [closed_from app].
  - rewrite app_nil_r. ring.
  - rewrite IH, <- app_assoc. simpl. ring.
Qed.

Lemma closed_snoc h c x : (closed (h ++ [c]) x == closed h x + closes h c x)%Q.
Proof. apply closed_from_snoc. Qed.

(** What the broker reports of each symbol is at most [cap], in quanta. *)
Variable cap : string → Z.
Variable cap_bound : ∀ x, 0 <= cap x < 10 ^ 28.
Definition reported (p : SessionPosition) : Prop :=
  ∃ k, amt k (sp_quantity p) ∧ 0 < k <= cap (sp_symbol p).
Variable positions_reported : ∀ h targets ps,
  ev_list_positions h targets = Ok ps → Forall reported ps.

(** From the trace [h0] on, exactly the submitted quantities were closed, and
    no more than [cap] of each symbol. *)
Definition covered (h0 : trace) (s : FlattenState) (h : trace) : Prop :=
  ∀ x, ∃ k, amt k (default dec.zero (fs_submitted s !! x)) ∧ 0 <= k <= cap x ∧
    (closed h x == closed h0 x + inject_Z k * quantum)%Q.

Lemma covered_call h0 s h c : (∀ x, closes h c x == 0)%Q → covered h0 s h → covered h0 s (h ++ [c]).
Proof.
  intros Hc Hs x. destruct (Hs x) as (k & Ha & Hk & Hx). exists k. split; [done|]. split; [done|].
  rewrite closed_snoc, Hc, Hx. ring.
Qed.

Lemma covered_error h0 s h e : covered h0 s h → covered h0 (add_error e s) h.
Proof. done. Qed.

(** The outcome of a flatten step: the state stays covered. *)
Definition covers {A} (h0 : trace) (state : A → FlattenState) (x : result A * trace) : Prop :=
  match x with
  | (Ok a, h) => covered h0 (state a) h
  | (Err e, h) => ∃ s, covered h0 s h
  end.

Lemma close_one_covers h0 s h p :
  reported p → covered h0 s h → covers h0 (λ s, s) (close_one s p h) ∧ is_ok (close_one s p h).1 = true.
Proof.
  intros (q & Hq & Hqc) Hs. unfold close_one. cbv zeta.
  destruct (Hs (sp_symbol p)) as (k & Hk & Hkc & _). set (already := default dec.zero _) in *.
  pose proof (cap_bound (sp_symbol p)) as Hb.
  assert (amt (q - k) (sp_quantity p - already)%dec) as Hu by (apply amt_sub; [done..|lia]).
  rewrite (amt_leb (q - k) 0 _ _ Hu amt_zero). destruct (Z.leb_spec (q - k) 0) as [Hle|Hgt]; [by split|].
  rewrite eff_bind_unfold. unfold observe, close_position, env_call. cbn [fst snd].
  set (p' := with_quantity _ p).
  destruct (ev_close_position h p') as [o|e] eqn:Eo.
  - split; [|done]. intros x. simpl. destruct (decide (x = sp_symbol p)) as [->|Hne].
    + exists q. rewrite lookup_insert_eq. cbn [default].
      assert (amt q (already + (sp_quantity p - already))%dec) as Ha.
      { replace q with (k + (q - k)) by lia. apply amt_add; [done..|lia]. }
      split_and!; [done | lia | lia |]. destruct (Hs (sp_symbol p)) as (k' & Hk' & _ & Hx).
      rewrite (amt_inj _ _ _ Hk' Hk) in Hx. rewrite closed_snoc, Hx. unfold closes.
      cbn [sp_symbol with_quantity p']. rewrite String.eqb_refl, Eo. cbn [andb is_ok sp_quantity with_quantity p'].
      unfold amt in Hu. rewrite Hu, inject_minus. ring.
    + destruct (Hs x) as (k' & Hk' & Hc & Hx). exists k'. rewrite lookup_insert_ne by done.
      split_and!; [done | lia | lia|]. rewrite closed_snoc, Hx. unfold closes. cbn [sp_symbol with_quantity p'].
      destruct (String.eqb (sp_symbol p) x) eqn:E; [by apply String.eqb_eq in E|]. simpl. ring.
  - assert (covered h0 s (h ++ [EClosePosition p'])) as Hc.
    { apply covered_call; [|done]. intros x. unfold closes. rewrite Eo. by rewrite andb_false_r. }
    destruct e; by split.
Qed.

Lemma covers_bind {A B} h0 (m : eff trace A) (f : A → eff trace B) sa sb h :
  covers h0 sa (m h) → (∀ a h', covered h0 (sa a) h' → covers h0 sb (f a h')) → covers h0 sb ((m ≫= f) h).
Proof. intros Hm Hf. rewrite eff_bind_unfold. destruct (m h) as [[a|e] h']; [by apply Hf | done]. Qed.

Lemma close_uncovered_covers h0 ps s h :
  Forall reported ps → covered h0 s h → covers h0 (λ s, s) (close_uncovered ps s h).
Proof.
  intros Hps. revert s h. induction Hps as [|p ps Hp _ IH]; intros s h Hs; [done|]. cbn [close_uncovered].
  apply (covers_bind h0 _ _ (λ s, s)); [by apply close_one_covers | done].
Qed.

Lemma covered_quiet h0 s h c : (∀ p, c ≠ EClosePosition p) → covered h0 s h → covered h0 s (h ++ [c]).
Proof. intros Hc. apply covered_call. intros x. destruct c; try done. by destruct (Hc p). Qed.

Lemma list_positions_run targets h :
  ∃ r, observe (list_positions targets) h = (Ok r, h ++ [EListPositions targets]) ∧
    (∀ ps, r = Ok ps → Forall reported ps).
Proof.
  eexists. split; [reflexivity|]. unfold list_positions, env_call. cbn [fst].
  destruct (ev_list_positions h targets) as [ps|e] eqn:E; [|destruct e; by intros ? [=]].
  intros ps' [= <-]. by eapply positions_reported.
Qed.

Lemma verify_covers h0 fuel plan targets deadline remaining s h :
  covered h0 s h → covers h0 snd (verify fuel plan targets deadline remaining s h).
Proof.
  revert remaining s h. induction fuel as [|fuel IH]; intros remaining s h Hs; [by exists s|]. cbn [verify].
  rewrite eff_bind_unfold. unfold clock at 1.
  assert (covered h0 s (h ++ [EClock])) as Hs1 by by apply covered_quiet.
  destruct (negb _); [done|]. rewrite eff_bind_unfold.
  destruct (list_positions_run targets (h ++ [EClock])) as (r & -> & Hr).
  assert (covered h0 s ((h ++ [EClock]) ++ [EListPositions targets])) as Hs2 by by apply covered_quiet.
  destruct r as [[|p ps]|e]; [done | | done].
  apply (covers_bind h0 _ _ (λ s, s)); [apply close_uncovered_covers; [by apply Hr | done]|].
  intros s' h' Hs'. rewrite eff_bind_unfold. unfold sleep at 1. by apply IH, covered_quiet.
Qed.

Lemma attempt_covers {A} h0 c (f : trace → result A) fallback what s h :
  (∀ p, c ≠ EClosePosition p) → covered h0 s h →
  covers h0 snd (attempt (env_call c f) fallback what s h).
Proof.
  intros Hc Hs. unfold attempt, env_call. rewrite eff_bind_unfold. unfold observe. cbn [fst snd].
  assert (covered h0 s (h ++ [c])) by by apply covered_quiet. by destruct (f h) as [a|[]].
Qed.

(** Whatever the outcome, some covered state matches the trace. *)
Definition ends {A} (h0 : trace) (x : result A * trace) : Prop := ∃ s, covered h0 s x.2.

Lemma ends_bind {A B} h0 (m : eff trace A) (f : A → eff trace B) sa h :
  covers h0 sa (m h) → (∀ a h', covered h0 (sa a) h' → ends h0 (f a h')) → ends h0 ((m ≫= f) h).
Proof.
  intros Hm Hf. rewrite eff_bind_unfold. destruct (m h) as [[a|e] h']; [by apply Hf|]. exact Hm.
Qed.

Lemma covered_start h : covered h no_flatten_state h.
Proof.
  intros x. exists 0. split; [apply amt_zero|]. split; [pose proof (cap_bound x); lia|]. ring.
Qed.

Lemma flatten_ends fuel plan now managed h : ends h (flatten fuel plan now managed h).
Proof.
  unfold flatten. apply (ends_bind h _ _ snd); [by apply attempt_covers, covered_start|].
  intros [discovered s] h1 Hs. apply (ends_bind h _ _ (λ _, s)).
  { unfold lift. destruct (merge_targets discovered managed); [done | by exists s]. }
  intros targets h2 Hs2. apply (ends_bind h _ _ snd); [by apply attempt_covers|].
  intros [canceled s1] h3 Hs3.
  (* the first listing *)
  unfold attempt. rewrite !eff_bind_unfold.
  destruct (list_positions_run targets h3) as (res & -> & Hres).
  assert (covered h s1 (h3 ++ [EListPositions targets])) as Hs4 by by apply covered_quiet.
  set (w := match res with Ok a => (a, s1) | Err e => ([], _) end).
  assert (covered h w.2 (h3 ++ [EListPositions targets]) ∧ Forall reported w.1) as [Hw1 Hw2].
  { destruct res; simpl; [by auto | by split; [|constructor]]. }
  destruct w as [initial s2]. simpl in *.
  apply (ends_bind h _ _ (λ s, s)); [by apply close_uncovered_covers|].
  intros s3 h4 Hs5. apply (ends_bind h _ _ snd); [by apply verify_covers|].
  intros [remaining s4] h5 Hs6. rewrite eff_bind_unfold. unfold clock at 1.
  exists s4. case_match; by apply covered_quiet.
Qed.

End flatten.

(** ** A sample broker *)

Definition sample_position (quantity : Z) : SessionPosition :=
  {| sp_symbol := "ABC"; sp_quantity := dec.of_Z quantity; sp_average_entry_price := None; sp_observed_at := 0;
     sp_raw_response_hash := "" |}.
Definition sample_close (p : SessionPosition) : FlattenOrder :=
  {| fo_symbol := sp_symbol p; fo_quantity := sp_quantity p; fo_broker_order_id := "close"; fo_client_order_id := None;
     fo_submitted_at := 0; fo_raw_response_hash := "" |}.

Definition is_close (c : EnvCall) : bool := match c with EClosePosition _ => true | _ => false end.
Definition is_sleep (c : EnvCall) : bool := match c with ESleep _ => true | _ => false end.
Definition count (f : EnvCall → bool) (h : trace) : Z := len (filter (λ c, f c = true) h).

(** Ten shares, all closed by the first order; then [late] shares arrive by a
    late fill.  A sleep takes a second. *)
Definition sample_env (late : Z) : Env :=
  {| ev_clock h := pl_mandatory_flatten_at sample_plan + count is_sleep h * SECOND;
     ev_discover_daybreak_targets _ _ := Ok [];
     ev_cancel_daybreak_orders _ _ := Ok 1;
     ev_list_positions h _ :=
       Ok (if count is_close h =? 0 then [sample_position 10]
           else if late =? 0 then [] else [sample_position late]);
     ev_close_position _ p := Ok (sample_close p);
     ev_health _ _ _ := Err (ERuntime "");
     ev_hook _ _ _ _ _ := Ok [];
     ev_send _ _ := Ok tt |}.

Definition sample_flatten (late : Z) : result FlattenResult * trace :=
  @flatten (sample_env late) sample_session_uuid null_session_dump null_session_dump 400 sample_plan
    (pl_mandatory_flatten_at sample_plan) [("ABC", QInt 13)] [].

Definition flatten_summary (x : result FlattenResult * trace) :=
  match x.1 with
  | Ok res => Some (fr_complete res, map fo_quantity (fr_close_orders res), map sp_quantity (fr_remaining_positions res))
  | Err _ => None
  end.

Example sample_flatten_complete :
  flatten_summary (sample_flatten 0) = Some (true, [Dec 10 0], []).
Proof. vm_compute. reflexivity. Qed.

(** Three shares that fill after the close of ten are never closed: the loop
    subtracts what it has submitted from what is held now, so the three look
    covered until the deadline passes. *)
Example late_fill_left_open :
  flatten_summary (sample_flatten 3) = Some (false, [Dec 10 0], [Dec 3 0]).
Proof. vm_compute. reflexivity. Qed.

