(* ===== verification/Session.v ===== *)
(** * Session: the session orchestrator

    AlertManager of daybreak_orchestration/alerts.py,
    MemoryOrchestrationRepository of persistence.py and SessionOrchestrator of
    service.py, in the state-and-exception monad over the whole world of one
    process: repository, leases, alert times, the calls made, and the two
    attributes of the orchestrator. *)
From Stdlib Require Import Ascii String.
From S2P Require Import Prelude Numerics PyStr PyTime Stores Contracts Canonical PyVal RiskModels ExecModels OrchModels OrchEnv Leadership Flatten.

#[local] Open Scope Z_scope.

(** ** MemoryOrchestrationRepository *)

(** [kill_switches] is a dict whose insertion order matters. *)
Record OrchestrationRepository := {
  or_plans : gmap string SessionPlan;
  or_phases : gmap string (list PhaseRecord);
  or_kill_switches : list (string * KillSwitchState);
  or_alerts : gmap string (list AlertRecord);
  or_flattens : gmap string FlattenResult;
  or_results : gmap string SessionResult;
}.

Definition empty_orchestration_repository : OrchestrationRepository :=
  {| or_plans := ∅; or_phases := ∅; or_kill_switches := []; or_alerts := ∅; or_flattens := ∅; or_results := ∅ |}.

Definition set_or_plans m (s : OrchestrationRepository) : OrchestrationRepository :=
  {| or_plans := m; or_phases := or_phases s; or_kill_switches := or_kill_switches s; or_alerts := or_alerts s;
     or_flattens := or_flattens s; or_results := or_results s |}.
Definition set_or_phases m (s : OrchestrationRepository) : OrchestrationRepository :=
  {| or_plans := or_plans s; or_phases := m; or_kill_switches := or_kill_switches s; or_alerts := or_alerts s;
     or_flattens := or_flattens s; or_results := or_results s |}.
Definition set_or_kill_switches l (s : OrchestrationRepository) : OrchestrationRepository :=
  {| or_plans := or_plans s; or_phases := or_phases s; or_kill_switches := l; or_alerts := or_alerts s;
     or_flattens := or_flattens s; or_results := or_results s |}.
Definition set_or_alerts m (s : OrchestrationRepository) : OrchestrationRepository :=
  {| or_plans := or_plans s; or_phases := or_phases s; or_kill_switches := or_kill_switches s; or_alerts := m;
     or_flattens := or_flattens s; or_results := or_results s |}.
Definition set_or_flattens m (s : OrchestrationRepository) : OrchestrationRepository :=
  {| or_plans := or_plans s; or_phases := or_phases s; or_kill_switches := or_kill_switches s;
     or_alerts := or_alerts s; or_flattens := m; or_results := or_results s |}.
Definition set_or_results m (s : OrchestrationRepository) : OrchestrationRepository :=
  {| or_plans := or_plans s; or_phases := or_phases s; or_kill_switches := or_kill_switches s;
     or_alerts := or_alerts s; or_flattens := or_flattens s; or_results := m |}.

#[export] Instance or_plans_attribute : Attribute or_plans set_or_plans.
Proof. by split; [|intros []]. Qed.

(** [d[k] = v] of an ordered dict. *)
Fixpoint dict_set {A} (k : string) (v : A) (d : list (string * A)) : list (string * A) :=
  match d with
  | [] => [(k, v)]
  | (k', v') :: d' => if String.eqb k' k then (k', v) :: d' else (k', v') :: dict_set k v d'
  end.

(** Equality of plans and of kill-switch states, field by field; the decimals
    of the policy stand for floats, equal when their values are. *)
Definition policy_fields (p : OrchestrationPolicy) :=
  (policy_times p, op_leadership_ttl_seconds p, op_leadership_renew_interval_seconds p, op_max_clock_skew_ms p,
   op_flatten_poll_interval_seconds p, op_flatten_verification_timeout_seconds p, op_alert_dedup_window_seconds p).
#[export] Instance OrchestrationPolicy_py_eq : PyEq OrchestrationPolicy := λ a b, py_eqb (policy_fields a) (policy_fields b).
#[export] Instance OrchestrationPolicy_py_laws : PyEqLaws OrchestrationPolicy := py_eq_via policy_fields.
Definition plan_fields (p : SessionPlan) :=
  (pl_session_id p, pl_run_id p, pl_trading_date p, plan_times p, pl_policy p, pl_configuration_hash p).
#[export] Instance SessionPlan_py_eq : PyEq SessionPlan := λ a b, py_eqb (plan_fields a) (plan_fields b).
#[export] Instance SessionPlan_py_laws : PyEqLaws SessionPlan := py_eq_via plan_fields.
#[export] Instance KillSwitchReason_py_eq : PyEq KillSwitchReason := λ a b, bool_decide (a = b).
#[export] Instance KillSwitchReason_py_laws : PyEqLaws KillSwitchReason.
Proof.
  split; unfold py_eqb, KillSwitchReason_py_eq.
  - intros a. by apply bool_decide_eq_true.
  - intros a b. apply bool_decide_ext. split; congruence.
  - intros a b c E1 E2. bool_to_prop. apply bool_decide_eq_true. congruence.
Qed.
Definition kill_switch_fields (k : KillSwitchState) :=
  (kw_session_id k, kw_active k, kw_activated_at k, kw_reason k, kw_details k, kw_reset_required k, kw_state_hash k).
#[export] Instance KillSwitchState_py_eq : PyEq KillSwitchState := λ a b, py_eqb (kill_switch_fields a) (kill_switch_fields b).
#[export] Instance KillSwitchState_py_laws : PyEqLaws KillSwitchState := py_eq_via kill_switch_fields.

Module sessions.
Abbreviation M := (eff OrchestrationRepository).

Definition save_plan (plan : SessionPlan) : M unit :=
  put_once or_plans set_or_plans "session plan identity collision" (pl_session_id plan) plan.

Definition phases_of (id : string) (s : OrchestrationRepository) : list PhaseRecord := default [] (or_phases s !! id).
Definition list_phases (id : string) : M (list PhaseRecord) := gets (phases_of id).

Definition append_phase (r : PhaseRecord) : M unit :=
  modify (λ s, set_or_phases (setdefault (pr_session_id r) [] (or_phases s)) s) ;;
  items ← gets (phases_of (pr_session_id r));
  match last items with
  | Some prior =>
      if pr_sequence r =? pr_sequence prior + 1
      then modify (λ s, set_or_phases (<[pr_session_id r := items ++ [r]]> (or_phases s)) s)
      else raise (ERuntime "phase sequence is not contiguous")
  | None =>
      if pr_sequence r =? 1
      then modify (λ s, set_or_phases (<[pr_session_id r := items ++ [r]]> (or_phases s)) s)
      else raise (ERuntime "first phase sequence must be one")
  end.

Definition save_kill_switch (k : KillSwitchState) : M unit :=
  existing ← gets (λ s, dict_get (kw_state_hash k) (or_kill_switches s));
  if collides existing k then raise (ERuntime "kill-switch state collision")
  else modify (λ s, set_or_kill_switches (dict_set (kw_state_hash k) k (or_kill_switches s)) s).

Definition kill_switches_of (id : string) (s : OrchestrationRepository) : list KillSwitchState :=
  filter (λ k, kw_session_id k = id) (map snd (or_kill_switches s)).
Definition get_latest_kill_switch (id : string) : M (option KillSwitchState) :=
  gets (λ s, last (kill_switches_of id s)).

Definition alerts_of (id : string) (s : OrchestrationRepository) : list AlertRecord := default [] (or_alerts s !! id).
Definition save_alert (a : AlertRecord) : M unit :=
  modify (λ s,
    let items := alerts_of (al_session_id a) s in
    set_or_alerts
      (<[al_session_id a :=
           if forallb (λ b, negb (String.eqb (al_alert_id b) (al_alert_id a))) items then items ++ [a] else items]>
         (or_alerts s)) s).
Definition list_alerts (id : string) : M (list AlertRecord) := gets (alerts_of id).

Definition save_flatten (r : FlattenResult) : M unit :=
  modify (λ s, set_or_flattens (setdefault (fr_flatten_id r) r (or_flattens s)) s).
Definition save_result (r : SessionResult) : M unit :=
  modify (λ s, set_or_results (setdefault (sr_result_hash r) r (or_results s)) s).
End sessions.

(** ** The world of the process *)

Record OrchWorld := {
  ow_repo : OrchestrationRepository;
  ow_leadership : LeadershipRepository;
  ow_last_sent : gmap string datetime;
  ow_trace : trace;
  ow_lease : option LeadershipLease;
  ow_last_renewed_at : option datetime;
}.

Definition empty_orch_world : OrchWorld :=
  {| ow_repo := empty_orchestration_repository; ow_leadership := empty_leadership; ow_last_sent := ∅;
     ow_trace := []; ow_lease := None; ow_last_renewed_at := None |}.

(** The local variables of [run] that its handlers and its [finally] read. *)
Record RunLocals := {
  lo_kill_switch : KillSwitchState;
  lo_flatten_result : option FlattenResult;
  lo_outcome : SessionOutcome;
  lo_final_phase : SessionPhase;
  lo_error_message : option string;
  lo_managed_quantities : list (string * raw_quantity);
  lo_lease : option LeadershipLease;
}.

Abbreviation orch := (eff OrchWorld).
Abbreviation run_ := (eff (OrchWorld * RunLocals)).

Definition on_sessions {A} (m : eff OrchestrationRepository A) : orch A := λ w,
  ((m (ow_repo w)).1,
   {| ow_repo := (m (ow_repo w)).2; ow_leadership := ow_leadership w; ow_last_sent := ow_last_sent w;
      ow_trace := ow_trace w; ow_lease := ow_lease w; ow_last_renewed_at := ow_last_renewed_at w |}).
Definition on_leadership {A} (m : eff LeadershipRepository A) : orch A := λ w,
  ((m (ow_leadership w)).1,
   {| ow_repo := ow_repo w; ow_leadership := (m (ow_leadership w)).2; ow_last_sent := ow_last_sent w;
      ow_trace := ow_trace w; ow_lease := ow_lease w; ow_last_renewed_at := ow_last_renewed_at w |}).
Definition on_trace {A} (m : eff trace A) : orch A := λ w,
  ((m (ow_trace w)).1,
   {| ow_repo := ow_repo w; ow_leadership := ow_leadership w; ow_last_sent := ow_last_sent w;
      ow_trace := (m (ow_trace w)).2; ow_lease := ow_lease w; ow_last_renewed_at := ow_last_renewed_at w |}).
Definition set_last_sent (key : string) (t : datetime) (w : OrchWorld) : OrchWorld :=
  {| ow_repo := ow_repo w; ow_leadership := ow_leadership w; ow_last_sent := <[key := t]> (ow_last_sent w);
     ow_trace := ow_trace w; ow_lease := ow_lease w; ow_last_renewed_at := ow_last_renewed_at w |}.
Definition set_lease (l : LeadershipLease) (t : datetime) (w : OrchWorld) : OrchWorld :=
  {| ow_repo := ow_repo w; ow_leadership := ow_leadership w; ow_last_sent := ow_last_sent w;
     ow_trace := ow_trace w; ow_lease := Some l; ow_last_renewed_at := Some t |}.

(** The text of the ValidationError of an evaluation summary is pydantic's. *)
Class SummaryError := summary_error : details → string.

(** EvaluationPhaseSummary.model_validate of the evaluator's dict: exactly the
    two fields, coherent. *)
Definition run_statuses : list string := ["approved"; "no_setups"; "blocked_market"; "stale_payload"; "schema_failure"].
Definition evaluation_summary (d : details) : option (string * Z) :=
  match dict_get "run_status" d, dict_get "approved_count" d with
  | Some (PStr status), Some (PInt n) =>
      if (len d =? 2) && bool_decide (status ∈ run_statuses) && between 0 3 n
         && (if String.eqb status "approved" then negb (n =? 0) else n =? 0)
      then Some (status, n) else None
  | _, _ => None
  end.

(** [isinstance(quantity, (Decimal, int, str))], booleans excluded. *)
Definition quantity_of (v : pyval) : option raw_quantity :=
  match v with
  | PDecimal d => Some (QDecimal d) | PInt z => Some (QInt z) | PStr s | PEnum s => Some (QStr s)
  | _ => None
  end.

(** CompositeAlertSink.send: every sink is tried. *)
Fixpoint send_all {S} (sinks : list (AlertRecord → eff S unit)) (a : AlertRecord) : eff S (list exn) :=
  match sinks with
  | [] => mret []
  | sink :: rest =>
      r ← observe (sink a);
      errors ← send_all rest a;
      mret (match r with Ok _ => errors | Err e => e :: errors end)
  end.
Definition composite_send {S} (sinks : list (AlertRecord → eff S unit)) (a : AlertRecord) : eff S unit :=
  errors ← send_all sinks a;
  if nonempty errors && (len errors =? len sinks) then raise (ERuntime "all alert sinks failed") else mret tt.

Section orchestrator.
Context `{Env} `{Uuid5} `{SummaryError}.
Context `{Dump HealthSnapshot} `{Dump SessionPosition} `{Dump FlattenOrder} `{Dump KillSwitchState}.
Context `{Dump FlattenResult} `{Dump PhaseRecord} `{Dump AlertRecord}.

(** ** Alerts *)

(** [AlertManager(dedup_window_seconds=...)] and the holder of the process. *)
Context (dedup_window_seconds : Z) (holder_id : string).

Definition alert_of (session_id : string) (severity : AlertSeverity) (code message key : string) (now : datetime)
    : AlertRecord :=
  let alert_hash := orch_sha256 (PDict
    [("session_id", PStr session_id); ("severity", PEnum (AlertSeverity_value severity)); ("code", PStr code);
     ("message", PStr message); ("created_at", PDatetime now); ("dedup_key", PStr key); ("details", PDict [])]) in
  {| al_alert_id := uuid5_hex ("daybreak-alert:" +:+ alert_hash); al_session_id := session_id;
     al_severity := severity; al_code := code; al_message := message; al_created_at := now; al_dedup_key := key;
     al_details := PDict []; al_alert_hash := alert_hash |}.

(** [emit] without details or a key of its own, as the orchestrator calls it. *)
Definition emit (session_id : string) (severity : AlertSeverity) (code message : string) (now : datetime)
    : orch (option AlertRecord) :=
  let key := session_id +:+ ":" +:+ code in
  previous ← gets (λ w, ow_last_sent w !! key);
  if match previous with Some t => now - t <? dedup_window_seconds * SECOND | None => false end then mret None
  else
    let alert := alert_of session_id severity code message key now in
    if AlertRecord_ok alert then
      modify (set_last_sent key now) ;;
      on_trace (env_call (ESendAlert alert) (λ h, ev_send h alert)) ;;
      mret (Some alert)
    else raise (EValidation "AlertRecord").

Definition emit_critical (plan : SessionPlan) (code message : string) (now : datetime) : orch unit :=
  alert ← emit (pl_session_id plan) AS_CRITICAL code message now;
  match alert with Some a => on_sessions (sessions.save_alert a) | None => mret tt end.

(** ** The steps of the orchestrator *)

Definition reason_from_error (message : string) : KillSwitchReason :=
  let upper := string_upper message in
  if string_contains "LEADERSHIP" upper then KS_LEADERSHIP_LOST
  else if string_contains "EVALUATOR CUTOFF" upper || string_contains "ENTRY CUTOFF" upper
  then KS_EXECUTION_CUTOFF_EXCEEDED
  else if string_contains "CLOCK_UNSYNCED" upper then KS_CLOCK_UNSYNCED
  else if string_contains "DATABASE_UNHEALTHY" upper then KS_DATABASE_UNHEALTHY
  else if string_contains "RECORDER_UNHEALTHY" upper then KS_RECORDER_UNHEALTHY
  else if string_contains "MARKET_DATA_UNHEALTHY" upper then KS_MARKET_DATA_UNHEALTHY
  else if string_contains "TRADE_UPDATE_STREAM_UNHEALTHY" upper then KS_TRADE_UPDATE_STREAM_UNHEALTHY
  else if string_contains "ACCOUNT_BLOCKED" upper then KS_ACCOUNT_BLOCKED
  else if string_contains "TRADING_BLOCKED" upper then KS_TRADING_BLOCKED
  else if string_contains "MARKET_CIRCUIT_BREAKER" upper then KS_MARKET_CIRCUIT_BREAKER
  else if string_contains "CONFIGURATION_MISMATCH" upper then KS_CONFIGURATION_MISMATCH
  else KS_UNKNOWN_FAILURE.

Definition now_ : orch datetime := on_trace clock.

Definition phase_record (session_id : string) (sequence : Z) (ph : SessionPhase) (started_at : datetime)
    (ended_at : option datetime) (d : pyval) : PhaseRecord :=
  {| pr_session_id := session_id; pr_sequence := sequence; pr_phase := ph; pr_status := PS_COMPLETED;
     pr_started_at := started_at; pr_ended_at := ended_at; pr_details := d;
     pr_record_hash := orch_sha256 (PDict
       [("session_id", PStr session_id); ("sequence", PInt sequence); ("phase", PEnum (SessionPhase_value ph));
        ("status", PEnum (PhaseStatus_value PS_COMPLETED)); ("started_at", PDatetime started_at);
        ("ended_at", opt_py PDatetime ended_at); ("details", d)]) |}.

(** [_phase]. *)
Definition phase (plan : SessionPlan) (ph : SessionPhase) (started_at : datetime) (ended_at : option datetime)
    (d : pyval) : orch unit :=
  items ← on_sessions (sessions.list_phases (pl_session_id plan));
  on_sessions (sessions.append_phase
    (phase_record (pl_session_id plan) (len items + 1) ph started_at ended_at d)).

Definition renew_leadership (plan : SessionPlan) (now : datetime) : orch unit :=
  lease ← gets ow_lease;
  last_renewed ← gets ow_last_renewed_at;
  match lease with
  | None => raise (ERuntime "leadership lease missing")
  | Some l =>
      if match last_renewed with
         | Some t => flt.ltb_Z (total_seconds (now - t)) (op_leadership_renew_interval_seconds (pl_policy plan))
         | None => false
         end
      then mret tt
      else
        renewed ← on_leadership (leadership.renew l now (op_leadership_ttl_seconds (pl_policy plan)));
        match renewed with
        | None => raise (ERuntime "leadership lost")
        | Some l' => modify (set_lease l' now)
        end
  end.

(** [_wait_until], [fuel] rounds at most. *)
Fixpoint wait_until (fuel : nat) (plan : SessionPlan) (target : datetime) : orch unit :=
  match fuel with
  | O => raise EDiverge
  | S fuel' =>
      now ← now_;
      let remaining := total_seconds (target - now) in
      if negb (flt.gtb_Z remaining 0) then mret tt
      else
        on_trace (sleep (DFloat (if flt.gtb_Z remaining 1 then Flt 1 0 else remaining))) ;;
        t ← now_;
        renew_leadership plan t ;;
        wait_until fuel' plan target
  end.

(** [_run_phase]. *)
Definition run_phase (plan : SessionPlan) (ph : SessionPhase) (function : datetime → Z → orch details)
    : orch details :=
  started ← now_;
  renew_leadership plan started ;;
  lease ← gets ow_lease;
  match lease with
  | None => raise (ERuntime "leadership lease missing")
  | Some l =>
      d ← function started (ll_fencing_token l);
      ended ← now_;
      renew_leadership plan ended ;;
      phase plan ph started (Some ended) (PDict d) ;;
      mret d
  end.

Definition hook (plan : SessionPlan) (k : Hook) (now : datetime) (fencing_token : Z) : orch details :=
  on_trace (env_call (EHook k now fencing_token) (λ h, ev_hook h k plan now fencing_token)).

Definition wait_and_run (fuel : nat) (plan : SessionPlan) (ph : SessionPhase) (at_time : datetime)
    (function : datetime → Z → orch details) : orch details :=
  wait_until fuel plan at_time ;; run_phase plan ph function.

Definition preflight (plan : SessionPlan) (ph : SessionPhase) : orch unit :=
  now ← now_;
  renew_leadership plan now ;;
  health ← on_trace (env_call (EHealth now) (λ h, ev_health h plan now));
  match health_kill_reason health plan (pl_policy plan) with
  | Some reason => raise (ERuntime ("preflight failed: " +:+ KillSwitchReason_value reason))
  | None => phase plan ph now None (dump health)
  end.

Definition run_flatten (fuel : nat) (plan : SessionPlan) (now : option datetime)
    (managed : list (string * raw_quantity)) : orch FlattenResult :=
  now ← match now with Some t => mret t | None => now_ end;
  res ← on_trace (flatten fuel plan now managed);
  phase plan SP_FLATTENING now (Some (fr_completed_at res))
    (PDict [("complete", PBool (fr_complete res)); ("remaining", PInt (len (fr_remaining_positions res)))]) ;;
  on_sessions (sessions.save_flatten res) ;;
  mret res.

(** ** SessionOrchestrator.run *)

Definition on_world {A} (m : orch A) : run_ A := λ s, ((m s.1).1, ((m s.1).2, s.2)).
Definition locals (f : RunLocals → RunLocals) : run_ unit := λ s, (Ok tt, (s.1, f s.2)).

Definition set_outcome (o : SessionOutcome) (ph : SessionPhase) (f : RunLocals) : RunLocals :=
  {| lo_kill_switch := lo_kill_switch f; lo_flatten_result := lo_flatten_result f; lo_outcome := o;
     lo_final_phase := ph; lo_error_message := lo_error_message f;
     lo_managed_quantities := lo_managed_quantities f; lo_lease := lo_lease f |}.
Definition set_final_phase (ph : SessionPhase) (f : RunLocals) : RunLocals := set_outcome (lo_outcome f) ph f.
Definition set_error (m : string) (f : RunLocals) : RunLocals :=
  {| lo_kill_switch := lo_kill_switch f; lo_flatten_result := lo_flatten_result f; lo_outcome := lo_outcome f;
     lo_final_phase := lo_final_phase f; lo_error_message := Some m;
     lo_managed_quantities := lo_managed_quantities f; lo_lease := lo_lease f |}.
Definition set_kill_switch (k : KillSwitchState) (f : RunLocals) : RunLocals :=
  {| lo_kill_switch := k; lo_flatten_result := lo_flatten_result f; lo_outcome := lo_outcome f;
     lo_final_phase := lo_final_phase f; lo_error_message := lo_error_message f;
     lo_managed_quantities := lo_managed_quantities f; lo_lease := lo_lease f |}.
Definition set_flatten_result (r : FlattenResult) (f : RunLocals) : RunLocals :=
  {| lo_kill_switch := lo_kill_switch f; lo_flatten_result := Some r; lo_outcome := lo_outcome f;
     lo_final_phase := lo_final_phase f; lo_error_message := lo_error_message f;
     lo_managed_quantities := lo_managed_quantities f; lo_lease := lo_lease f |}.
Definition add_managed_quantity (kv : string * raw_quantity) (f : RunLocals) : RunLocals :=
  {| lo_kill_switch := lo_kill_switch f; lo_flatten_result := lo_flatten_result f; lo_outcome := lo_outcome f;
     lo_final_phase := lo_final_phase f; lo_error_message := lo_error_message f;
     lo_managed_quantities := dict_set kv.1 kv.2 (lo_managed_quantities f); lo_lease := lo_lease f |}.
Definition set_local_lease (l : LeadershipLease) (f : RunLocals) : RunLocals :=
  {| lo_kill_switch := lo_kill_switch f; lo_flatten_result := lo_flatten_result f; lo_outcome := lo_outcome f;
     lo_final_phase := lo_final_phase f; lo_error_message := lo_error_message f;
     lo_managed_quantities := lo_managed_quantities f; lo_lease := Some l |}.

Definition start_locals (k : KillSwitchState) : RunLocals :=
  {| lo_kill_switch := k; lo_flatten_result := None; lo_outcome := SO_FAILED; lo_final_phase := SP_CREATED;
     lo_error_message := None; lo_managed_quantities := []; lo_lease := None |}.

(** Leadership, then the persistent kill switch. *)
Definition take_leadership (plan : SessionPlan) (started_at : datetime) : run_ unit :=
  lease ← on_world (on_leadership (leadership.acquire (pl_session_id plan) holder_id started_at
                                     (op_leadership_ttl_seconds (pl_policy plan))));
  match lease with
  | None => raise (ELeadershipUnavailable "another process holds session leadership")
  | Some l =>
      locals (set_local_lease l) ;;
      on_world (modify (set_lease l started_at)) ;;
      on_world (phase plan SP_LEADERSHIP_ACQUIRED started_at None
                  (PDict [("fencing_token", PInt (ll_fencing_token l))])) ;;
      f ← gets snd;
      if kw_active (lo_kill_switch f) then
        raise (EPersistentKillSwitch ("persistent kill switch is active: "
          +:+ match kw_reason (lo_kill_switch f) with Some k => KillSwitchReason_value k | None => "None" end))
      else mret tt
  end.

(** Up to the evaluation and its cutoff. *)
Definition capture_and_evaluate (fuel : nat) (plan : SessionPlan) : orch details :=
  preflight plan SP_PREFLIGHT ;;
  wait_and_run fuel plan SP_RECORDER_WARMUP (pl_recorder_warmup_at plan) (hook plan HK_WARMUP_RECORDER) ;;
  wait_and_run fuel plan SP_RECORDING (pl_feature_window_start_at plan)
    (λ now token, mret [("capture_started_at", PDatetime now); ("fencing_token", PInt token)]) ;;
  wait_and_run fuel plan SP_FEATURE_FREEZE (pl_feature_snapshot_at plan) (hook plan HK_FREEZE_FEATURES) ;;
  evaluation ← wait_and_run fuel plan SP_EVALUATION (pl_feature_snapshot_at plan) (hook plan HK_EVALUATE);
  now ← now_;
  if pl_evaluator_cutoff_at plan <? now then raise (ERuntime "evaluator cutoff exceeded")
  else mret evaluation.

(** [managed_quantities[str(symbol)] = quantity], for each item. *)
Fixpoint record_managed (items : list (string * pyval)) : run_ unit :=
  match items with
  | [] => mret tt
  | (symbol, v) :: rest =>
      match quantity_of v with
      | Some q => locals (add_managed_quantity (symbol, q)) ;; record_managed rest
      | None => raise (ERuntime ("invalid managed position quantity for " +:+ symbol))
      end
  end.

(** The approved branch: lock, open, execution, monitoring. *)
Definition trade (fuel : nat) (plan : SessionPlan) : run_ unit :=
  on_world (wait_until fuel plan (pl_eligibility_lock_at plan)) ;;
  on_world (preflight plan SP_ELIGIBILITY_LOCK) ;;
  on_world (wait_until fuel plan (pl_regular_session_open_at plan)) ;;
  now ← on_world now_;
  if pl_new_entry_cutoff_at plan <? now then raise (ERuntime "new-entry cutoff exceeded") else
  execution ← on_world (run_phase plan SP_EXECUTION (hook plan HK_SIZE_AND_EXECUTE));
  match dict_get "managed_positions" execution with
  | Some (PDict items) => record_managed items
  | _ => mret tt
  end ;;
  now ← on_world now_;
  if pl_new_entry_cutoff_at plan <? now then raise (ERuntime "new-entry cutoff exceeded") else
  on_world (run_phase plan SP_MONITORING (hook plan HK_RECONCILE)) ;;
  locals (set_outcome SO_COMPLETED SP_MONITORING) ;;
  if truthy (default (PBool false) (dict_get "kill_switch_required" execution))
  then raise (ERuntime "execution requested kill switch")
  else mret tt.

(** The mandatory flatten and what follows. *)
Definition close_session (fuel : nat) (plan : SessionPlan) : run_ unit :=
  on_world (wait_until fuel plan (pl_mandatory_flatten_at plan)) ;;
  f ← gets snd;
  res ← on_world (run_flatten fuel plan None (lo_managed_quantities f));
  locals (set_flatten_result res) ;;
  locals (set_final_phase SP_FLATTENING) ;;
  if negb (fr_complete res) then
    let k := activate_kill_switch (pl_session_id plan) KS_FLATTEN_DEADLINE_EXCEEDED (fr_completed_at res)
      (PDict [("errors", PSeq (map PStr (fr_errors res)));
              ("remaining", PSeq (map (λ p, PStr (sp_symbol p)) (fr_remaining_positions res)))]) in
    locals (set_kill_switch k) ;;
    on_world (on_sessions (sessions.save_kill_switch k)) ;;
    on_world (emit_critical plan "FLATTEN_INCOMPLETE" "Mandatory end-of-day flatten did not complete."
                (fr_completed_at res)) ;;
    locals (set_outcome SO_FLATTEN_INCOMPLETE SP_KILLED)
  else
    on_world (phase plan SP_RECONCILIATION (fr_completed_at res) None (PDict [("flatten_complete", PBool true)])) ;;
    now ← on_world now_;
    f ← gets snd;
    on_world (phase plan SP_COMPLETED now None (PDict [("outcome", PStr (SessionOutcome_value (lo_outcome f)))])) ;;
    locals (set_final_phase SP_COMPLETED).

(** The body of the [try]. *)
Definition session (fuel : nat) (plan : SessionPlan) (started_at : datetime) : run_ unit :=
  take_leadership plan started_at ;;
  evaluation ← on_world (capture_and_evaluate fuel plan);
  match evaluation_summary evaluation with
  | None => raise (EValidation (summary_error evaluation))
  | Some (run_status, approved_count) =>
      if bool_decide (run_status ∈ ["blocked_market"; "stale_payload"; "schema_failure"])
      then locals (set_outcome SO_BLOCKED SP_EVALUATION)
      else if String.eqb run_status "no_setups" || (approved_count =? 0)
      then locals (set_outcome SO_NO_SETUPS SP_EVALUATION)
      else trade fuel plan
  end ;;
  close_session fuel plan.

(** [try: flatten_result = ... except Exception: error_message += ...]. *)
Definition emergency_flatten (fuel : nat) (plan : SessionPlan) (now : datetime) : run_ unit :=
  try_except
    (f ← gets snd;
     res ← on_world (run_flatten fuel plan (Some now) (lo_managed_quantities f));
     locals (set_flatten_result res))
    (λ e, match e with
          | EDiverge => None
          | _ => Some (locals (λ f, set_error (default "" (lo_error_message f)
                     +:+ "; emergency flatten failed: " +:+ describe e) f))
          end).

(** The three handlers. *)
Definition handle_leadership (plan : SessionPlan) (started_at : datetime) (m : string) : run_ unit :=
  locals (set_error m) ;;
  locals (set_outcome SO_BLOCKED SP_FAILED) ;;
  on_world (emit_critical plan "LEADERSHIP_UNAVAILABLE" m started_at).

Definition handle_persistent (fuel : nat) (plan : SessionPlan) (m : string) : run_ unit :=
  now ← on_world now_;
  locals (set_error m) ;;
  locals (set_outcome SO_KILLED SP_KILLED) ;;
  on_world (emit_critical plan "PERSISTENT_KILL_SWITCH_ACTIVE" m now) ;;
  emergency_flatten fuel plan now.

Definition handle_failure (fuel : nat) (plan : SessionPlan) (m : string) : run_ unit :=
  now ← on_world now_;
  locals (set_error m) ;;
  let reason := reason_from_error m in
  let k := activate_kill_switch (pl_session_id plan) reason now (PDict [("error", PStr m)]) in
  locals (set_kill_switch k) ;;
  on_world (on_sessions (sessions.save_kill_switch k)) ;;
  on_world (emit_critical plan (KillSwitchReason_value reason) m now) ;;
  locals (set_outcome SO_KILLED SP_KILLED) ;;
  emergency_flatten fuel plan now.

Definition handle (fuel : nat) (plan : SessionPlan) (started_at : datetime) (e : exn) : option (run_ unit) :=
  match e with
  | EDiverge => None
  | ELeadershipUnavailable m => Some (handle_leadership plan started_at m)
  | EPersistentKillSwitch m => Some (handle_persistent fuel plan m)
  | _ => Some (handle_failure fuel plan (describe e))
  end.

Definition session_core (plan : SessionPlan) (started_at completed_at : datetime) (f : RunLocals)
    (phases : list PhaseRecord) (alerts : list AlertRecord) : pyval :=
  PDict [("session_id", PStr (pl_session_id plan)); ("run_id", PStr (pl_run_id plan));
         ("outcome", PEnum (SessionOutcome_value (lo_outcome f))); ("started_at", PDatetime started_at);
         ("completed_at", PDatetime completed_at); ("final_phase", PEnum (SessionPhase_value (lo_final_phase f)));
         ("leadership_holder_id", PStr holder_id); ("kill_switch", dump (lo_kill_switch f));
         ("flatten_result", opt_py dump (lo_flatten_result f)); ("phase_records", PSeq (map dump phases));
         ("alerts", PSeq (map dump alerts)); ("error_message", opt_py PStr (lo_error_message f))].

(** The [finally]. *)
Definition finish_session (plan : SessionPlan) (started_at : datetime) : run_ SessionResult :=
  completed_at ← on_world now_;
  f ← gets snd;
  match lo_lease f with
  | Some l => on_world (on_leadership (leadership.release l completed_at))
  | None => mret tt
  end ;;
  phases ← on_world (on_sessions (sessions.list_phases (pl_session_id plan)));
  alerts ← on_world (on_sessions (sessions.list_alerts (pl_session_id plan)));
  let res :=
    {| sr_session_id := pl_session_id plan; sr_run_id := pl_run_id plan; sr_outcome := lo_outcome f;
       sr_started_at := started_at; sr_completed_at := completed_at; sr_final_phase := lo_final_phase f;
       sr_leadership_holder_id := holder_id; sr_kill_switch := lo_kill_switch f;
       sr_flatten_result := lo_flatten_result f; sr_phase_records := phases; sr_alerts := alerts;
       sr_error_message := lo_error_message f;
       sr_result_hash := orch_sha256 (session_core plan started_at completed_at f phases alerts) |} in
  on_world (on_sessions (sessions.save_result res)) ;;
  mret res.

(** [try: m  finally: c], then [return] what [c] computed; a loop that ran out
    of fuel ends there. *)
Definition try_finally {S A B} (m : eff S A) (c : eff S B) : eff S B := λ s,
  match m s with
  | (Err EDiverge, s') => (Err EDiverge, s')
  | (Ok _, s') => c s'
  | (Err e, s') => match c s' with (Ok _, s'') => (Err e, s'') | x => x end
  end.

Definition guarded_session (fuel : nat) (plan : SessionPlan) (started_at : datetime) : run_ SessionResult :=
  try_finally (try_except (session fuel plan started_at) (handle fuel plan started_at))
    (finish_session plan started_at).

Definition with_locals {A} (m : run_ A) (f : RunLocals) : orch A := λ w, ((m (w, f)).1, (m (w, f)).2.1).

Definition run (fuel : nat) (plan : SessionPlan) (start_at : option datetime) : orch SessionResult :=
  started_at ← match start_at with Some t => mret t | None => now_ end;
  on_sessions (sessions.save_plan plan) ;;
  latest ← on_sessions (sessions.get_latest_kill_switch (pl_session_id plan));
  k ← match latest with
      | Some k => mret k
      | None =>
          let k := inactive_kill_switch (pl_session_id plan) in
          on_sessions (sessions.save_kill_switch k) ;; mret k
      end;
  with_locals (guarded_session fuel plan started_at) (start_locals k).
End orchestrator.
