(* ===== verification/SessionFacts.v ===== *)
(** * SessionFacts: what a session run guarantees

    Termination of the two polling loops and of the whole run under a clock
    that advances, the release of the lease, the effect of a persistent kill
    switch, the gates of trading, and the shape of the result. *)
From Stdlib Require Import Ascii String QArith Qabs Lqa.
From S2P Require Import Prelude Numerics PyStr PyTime Stores Contracts Canonical PyVal RiskModels ExecModels OrchModels OrchEnv Leadership Flatten Session.

#[local] Open Scope Z_scope.

(** ** Termination by fuel *)

(** [settles m]: [m] never runs out of fuel. *)
Definition settles {S A} (m : eff S A) : Prop := ∀ s, (m s).1 ≠ Err EDiverge.

(** [terminates m]: from every state some fuel is enough, and more fuel does
    not change what happens. *)
Definition terminates {S A} (m : nat → eff S A) : Prop :=
  ∀ s, ∃ n, ∀ k, (n <= k)%nat → m k s = m n s ∧ (m n s).1 ≠ Err EDiverge.

Section terminates.
Context {S : Type}.

Lemma settles_ret {A} (a : A) : settles (mret a : eff S A).
Proof. done. Qed.
Lemma settles_raise {A} e : e ≠ EDiverge → settles (raise e : eff S A).
Proof. intros He s [= ?]. done. Qed.
Lemma settles_gets {A} (f : S → A) : settles (gets f).
Proof. done. Qed.
Lemma settles_modify (f : S → S) : settles (modify f).
Proof. done. Qed.
Lemma settles_lift {A} (r : result A) : r ≠ Err EDiverge → settles (lift r : eff S A).
Proof. intros Hr s. done. Qed.
Lemma settles_observe {A} (m : eff S A) : settles (observe m).
Proof. done. Qed.
Lemma settles_bind {A B} (m : eff S A) (f : A → eff S B) :
  settles m → (∀ a, settles (f a)) → settles (m ≫= f).
Proof.
  intros Hm Hf s. specialize (Hm s). rewrite eff_bind_unfold.
  destruct (m s) as [[a|e] s']; [apply Hf|]. simpl in *. congruence.
Qed.
Lemma settles_try {A} (m : eff S A) h :
  settles m → (∀ e k, h e = Some k → settles k) → settles (try_except m h).
Proof.
  intros Hm Hh s. specialize (Hm s). unfold try_except. destruct (m s) as [[a|e] s']; [done|].
  destruct (h e) eqn:E; [by eapply Hh | done].
Qed.

Lemma terminates_settles {A} (m : eff S A) : settles m → terminates (λ _, m).
Proof. intros Hm s. exists 0%nat. by intros. Qed.

Lemma terminates_bind {A B} (m : nat → eff S A) (f : nat → A → eff S B) :
  terminates m → (∀ a, terminates (λ k, f k a)) → terminates (λ k, m k ≫= f k).
Proof.
  intros Hm Hf s. destruct (Hm s) as [n Hn]. destruct (m n s) as [[a|e] s'] eqn:E.
  - destruct (Hf a s') as [n' Hn']. exists (n `max` n')%nat. intros k Hk.
    destruct (Hn k) as [Ek _]; [lia|]. destruct (Hn (n `max` n')%nat) as [Em _]; [lia|].
    rewrite !eff_bind_unfold, Ek, Em. cbv iota.
    destruct (Hn' k) as [-> ?]; [lia|]. destruct (Hn' (n `max` n')%nat) as [-> ?]; [lia|]. done.
  - exists n. intros k Hk. destruct (Hn k Hk) as [Ek Hd]. rewrite !eff_bind_unfold, Ek, E.
    simpl in *. split; [done | congruence].
Qed.

Lemma terminates_try {A} (m : nat → eff S A) (h : nat → exn → option (eff S A)) :
  terminates m →
  (∀ e, (∀ k, h k e = None) ∨ ∃ c : nat → eff S A, (∀ k, h k e = Some (c k)) ∧ terminates c) →
  terminates (λ k, try_except (m k) (h k)).
Proof.
  intros Hm Hh s. destruct (Hm s) as [n Hn]. destruct (m n s) as [[a|e] s'] eqn:E.
  - exists n. intros k Hk. destruct (Hn k Hk) as [Ek _]. unfold try_except. by rewrite Ek, E.
  - destruct (Hh e) as [Hnone|(c & Hc & Hct)].
    + exists n. intros k Hk. destruct (Hn k Hk) as [Ek Hd]. unfold try_except. rewrite Ek, E, !Hnone. done.
    + destruct (Hct s') as [n' Hn']. exists (n `max` n')%nat. intros k Hk.
      destruct (Hn k) as [Ek _]; [lia|]. destruct (Hn (n `max` n')%nat) as [Em _]; [lia|].
      unfold try_except. rewrite Ek, Em, !Hc.
      destruct (Hn' k) as [-> ?]; [lia|]. destruct (Hn' (n `max` n')%nat) as [-> ?]; [lia|]. done.
Qed.

Lemma terminates_finally {A B} (m : nat → eff S A) (c : eff S B) :
  terminates m → settles c → terminates (λ k, try_finally (m k) c).
Proof.
  intros Hm Hc s. destruct (Hm s) as [n Hn]. exists n. intros k Hk.
  destruct (Hn k Hk) as [Ek Hd]. unfold try_finally. rewrite Ek. split; [done|].
  destruct (m n s) as [[a|e] s']; [apply Hc|].
  destruct e; try done; specialize (Hc s'); (destruct (c s') as [[?|?] ?]; [done|]); simpl in *; congruence.
Qed.
End terminates.

(** ** Intervals as floats *)

Lemma positive_seconds us : flt.gtb_Z (total_seconds us) 0 = true → 0 < us.
Proof.
  unfold total_seconds, flt.of_ratio. destruct (Z.eqb_spec us 0) as [->|Hne]; [done|].
  pose proof (round_sig_pos 2 53 (Z.abs us) 1000000 ltac:(lia) ltac:(lia) ltac:(lia) ltac:(lia)) as Hm.
  destruct (round_sig 2 53 (Z.abs us) 1000000) as [m e]. simpl in Hm.
  unfold flt.gtb_Z. cbn [fm fe]. destruct (Z.ltb_spec us 0) as [Hlt|]; [|lia].
  rewrite Z.sgn_neg by done. destruct (0 <=? e); rewrite Z.ltb_lt; [|lia].
  intros Hx. pose proof (Z.pow_nonneg 2 e). nia.
Qed.

Lemma seconds_positive us : 0 < us → flt.gtb_Z (total_seconds us) 0 = true.
Proof.
  intros Hus. unfold total_seconds, flt.of_ratio. destruct (Z.eqb_spec us 0) as [->|Hne]; [lia|].
  rewrite Z.abs_eq by lia.
  pose proof (round_sig_pos 2 53 us 1000000 ltac:(lia) ltac:(lia) Hus ltac:(lia)) as Hm.
  destruct (round_sig 2 53 us 1000000) as [m e]. cbn [fst] in Hm.
  unfold flt.gtb_Z. cbn [fm fe]. rewrite Z.sgn_pos by done.
  destruct (Z.leb_spec 0 e); rewrite Z.ltb_lt; [|lia]. pose proof (Z.pow_pos_nonneg 2 e). nia.
Qed.

(** A wait is over exactly when its target is reached. *)
Lemma seconds_gtb us : flt.gtb_Z (total_seconds us) 0 = (0 <? us).
Proof.
  apply eq_true_iff_eq. rewrite Z.ltb_lt. split; [apply positive_seconds | apply seconds_positive].
Qed.

Section run.
Context `{Env} `{Uuid5} `{SummaryError}.
Context `{Dump HealthSnapshot} `{Dump SessionPosition} `{Dump FlattenOrder} `{Dump KillSwitchState}.
Context `{Dump FlattenResult} `{Dump PhaseRecord} `{Dump AlertRecord}.
Context (dedup_window_seconds : Z) (holder_id : string).
Implicit Types (plan : SessionPlan) (w : OrchWorld) (h : trace).

(** ** What does not loop *)

Lemma env_call_settles {A} c (f : trace → result A) : settles (env_call c f).
Proof. intros h. unfold env_call. simpl. by destruct (f h) as [|[]]. Qed.
Lemma clock_settles : settles clock.
Proof. done. Qed.
Lemma on_trace_settles {A} (m : eff trace A) : settles m → settles (on_trace m).
Proof. intros Hm w. apply Hm. Qed.
Lemma on_sessions_settles {A} (m : eff OrchestrationRepository A) : settles m → settles (on_sessions m).
Proof. intros Hm w. apply Hm. Qed.
Lemma on_leadership_settles {A} (m : eff LeadershipRepository A) : settles m → settles (on_leadership m).
Proof. intros Hm w. apply Hm. Qed.
Lemma on_world_settles {A} (m : orch A) : settles m → settles (on_world m).
Proof. intros Hm s. apply Hm. Qed.
Lemma locals_settles f : settles (locals f).
Proof. done. Qed.

Lemma acquire_settles id holder now ttl : settles (leadership.acquire id holder now ttl).
Proof. intros s. by destruct (acquire_spec id holder now ttl s). Qed.
Lemma renew_settles l now ttl : settles (leadership.renew l now ttl).
Proof. intros s. by destruct (renew_spec l now ttl s). Qed.
Lemma release_settles l now : settles (leadership.release l now).
Proof. intros s. by destruct (release_spec l now s). Qed.

Ltac settle_step :=
  match goal with
  | |- settles (mret _) => apply settles_ret
  | |- settles (raise _) => by apply settles_raise
  | |- settles (gets _) => apply settles_gets
  | |- settles (modify _) => apply settles_modify
  | |- settles (locals _) => apply locals_settles
  | |- settles (observe _) => apply settles_observe
  | |- settles clock => apply clock_settles
  | |- settles (sleep _) => by intros ?
  | |- settles (on_trace (env_call _ _)) => apply on_trace_settles, env_call_settles
  | |- settles (on_trace _) => apply on_trace_settles
  | |- settles (on_world _) => apply on_world_settles
  | |- settles (on_leadership (leadership.acquire _ _ _ _)) => apply on_leadership_settles, acquire_settles
  | |- settles (on_leadership (leadership.renew _ _ _)) => apply on_leadership_settles, renew_settles
  | |- settles (on_leadership (leadership.release _ _)) => apply on_leadership_settles, release_settles
  | |- settles (on_sessions _) => apply on_sessions_settles
  | |- settles (_ ≫= _) => apply settles_bind; [|intros ?]
  | |- settles (match ?x with _ => _ end) => destruct x
  end.

Lemma save_plan_settles plan : settles (sessions.save_plan plan).
Proof. unfold sessions.save_plan, put_once. repeat settle_step. Qed.
Lemma append_phase_settles r : settles (sessions.append_phase r).
Proof. unfold sessions.append_phase. repeat settle_step. Qed.
Lemma save_kill_switch_settles k : settles (sessions.save_kill_switch k).
Proof. unfold sessions.save_kill_switch. repeat settle_step. Qed.

Lemma phase_settles plan ph a b d : settles (phase plan ph a b d).
Proof. unfold phase, sessions.list_phases. repeat first [apply append_phase_settles | settle_step]. Qed.
Lemma renew_leadership_settles plan now : settles (renew_leadership plan now).
Proof. unfold renew_leadership. repeat settle_step. Qed.
Lemma hook_settles plan k now tok : settles (hook plan k now tok).
Proof. unfold hook. repeat settle_step. Qed.
Lemma run_phase_settles plan ph f : (∀ a b, settles (f a b)) → settles (run_phase plan ph f).
Proof.
  intros Hf. unfold run_phase, now_.
  repeat first [apply renew_leadership_settles | apply Hf | apply phase_settles | settle_step].
Qed.
Lemma preflight_settles plan ph : settles (preflight plan ph).
Proof.
  unfold preflight, now_. repeat first [apply renew_leadership_settles | apply phase_settles | settle_step].
Qed.
Lemma emit_critical_settles plan code m now : settles (emit_critical dedup_window_seconds plan code m now).
Proof. unfold emit_critical, emit, sessions.save_alert. repeat settle_step. Qed.
Lemma take_leadership_settles plan now : settles (take_leadership holder_id plan now).
Proof. unfold take_leadership. repeat first [apply phase_settles | settle_step]. Qed.
Lemma record_managed_settles l : settles (record_managed l).
Proof. induction l as [|[x v] l IH]; cbn [record_managed]; repeat first [apply IH | settle_step]. Qed.
Lemma finish_session_settles plan now : settles (finish_session holder_id plan now).
Proof.
  unfold finish_session, now_, sessions.list_phases, sessions.list_alerts, sessions.save_result.
  repeat settle_step.
Qed.
Lemma close_one_settles s p : settles (close_one s p).
Proof. unfold close_one. repeat settle_step. Qed.
Lemma close_uncovered_settles ps s : settles (close_uncovered ps s).
Proof. revert s. induction ps as [|p ps IH]; intros s; cbn [close_uncovered]; [done|]. settle_step; [apply close_one_settles | apply IH]. Qed.

(** ** The loops *)

(** The clock never goes back, and moves during a sleep. *)
Context (clock_monotone : ∀ (h t : trace), ev_clock h <= ev_clock (h ++ t)).
Context (sleep_advances : ∀ h d, ev_clock h < ev_clock (h ++ [ESleep d])).

Lemma renew_leadership_trace plan now w : ow_trace (renew_leadership plan now w).2 = ow_trace w.
Proof.
  unfold renew_leadership. do 2 (rewrite eff_bind_unfold; cbn [gets]).
  destruct (ow_lease w) as [l|]; [|done]. destruct (match ow_last_renewed_at w with Some _ => _ | None => _ end); [done|]. rewrite eff_bind_unfold. unfold on_leadership.
  destruct (leadership.renew _ _ _ _) as [[[l'|]|e] s]; done.
Qed.

Lemma wait_until_step k plan target w :
  wait_until (S k) plan target w =
    let now := ev_clock (ow_trace w) in
    let w1 := (now_ w).2 in
    if negb (0 <? target - now) then (Ok tt, w1)
    else
      let remaining := total_seconds (target - now) in
      let w2 := (on_trace (sleep (DFloat (if flt.gtb_Z remaining 1 then Flt 1 0 else remaining))) w1).2 in
      let w3 := (now_ w2).2 in
      (renew_leadership plan (ev_clock (ow_trace w2)) ;; wait_until k plan target) w3.
Proof.
  cbn [wait_until]. rewrite eff_bind_unfold. unfold now_ at 1, on_trace at 1, clock at 1. cbn [fst snd].
  rewrite seconds_gtb. destruct (negb _); [done|]. rewrite eff_bind_unfold. cbv zeta. 
  unfold on_trace at 1, sleep at 1. cbn [fst snd]. rewrite eff_bind_unfold. done.
Qed.

Lemma wait_until_terminates plan target : terminates (λ k, wait_until k plan target).
Proof.
  intros w. remember (Z.to_nat (target - ev_clock (ow_trace w))) as n eqn:Hn. revert w Hn.
  induction (lt_wf n) as [n _ IH]. intros w ->.
  destruct (0 <? target - ev_clock (ow_trace w)) eqn:Hpos.
  2: { exists 1%nat. intros k Hk. destruct k as [|k]; [lia|]. rewrite !wait_until_step. cbv zeta. by rewrite Hpos. }
  bool_to_prop.
  set (w1 := (now_ w).2). set (remaining := total_seconds (target - ev_clock (ow_trace w))).
  set (w2 := (on_trace (sleep (DFloat (if flt.gtb_Z remaining 1 then Flt 1 0 else remaining))) w1).2).
  set (w3 := (now_ w2).2). set (t := ev_clock (ow_trace w2)).
  pose proof (renew_leadership_trace plan t w3) as Htr. pose proof (renew_leadership_settles plan t w3) as Hst.
  assert (∀ k, wait_until (S k) plan target w = (renew_leadership plan t ;; wait_until k plan target) w3) as Hstep.
  { intros k. rewrite wait_until_step. cbv zeta. by rewrite (proj2 (Z.ltb_lt _ _) Hpos). }
  destruct (renew_leadership plan t w3) as [[u|e] w4] eqn:Er.
  - cbn [fst snd] in *.
    assert (ev_clock (ow_trace w) < ev_clock (ow_trace w4)) as Hlt.
    { rewrite Htr. unfold w3, w2, w1, now_, on_trace, clock, sleep. cbn [fst snd ow_trace].
      eapply Z.le_lt_trans; [apply (clock_monotone _ [EClock])|].
      eapply Z.lt_le_trans; [apply sleep_advances|]. apply clock_monotone. }
    destruct (IH (Z.to_nat (target - ev_clock (ow_trace w4)))) with (w := w4) as [m Hm]; [lia | done|].
    exists (S m). intros k Hk. destruct k as [|k]; [lia|]. rewrite !Hstep, !eff_bind_unfold, Er. apply Hm. lia.
  - exists 1%nat. intros k Hk. destruct k as [|k]; [lia|]. rewrite !Hstep, !eff_bind_unfold, Er. done.
Qed.

(** Calls are only added to the trace. *)
Abbreviation longer := (λ a b : trace, a `prefix_of` b).

Lemma longer_clock h h' : h `prefix_of` h' → ev_clock h <= ev_clock h'.
Proof. intros [t ->]. apply clock_monotone. Qed.

Lemma observe_call_longer {A} c (f : trace → result A) : evolves longer (observe (env_call c f)).
Proof. intros h. simpl. by apply prefix_app_r. Qed.

Lemma close_uncovered_longer ps s : evolves longer (close_uncovered ps s).
Proof.
  revert s. induction ps as [|p ps IH]; intros s; cbn [close_uncovered]; [by intros h|].
  apply (evolves_bind longer); [|done]. unfold close_one. case_match; [by intros h|].
  apply (evolves_bind longer); [apply observe_call_longer | by intros ? h].
Qed.

Lemma verify_terminates plan targets deadline remaining s :
  terminates (λ k, verify k plan targets deadline remaining s).
Proof.
  intros h. remember (Z.to_nat (deadline - ev_clock h)) as n eqn:Hn. revert h remaining s Hn.
  induction (lt_wf n) as [n _ IH]. intros h remaining s ->.
  set (h1 := h ++ [EClock]). set (r := (list_positions targets h1).1).
  set (h2 := (list_positions targets h1).2).
  assert (∀ k, verify (S k) plan targets deadline remaining s h =
    if negb (ev_clock h <? deadline) then (Ok (remaining, s), h1)
    else match r with
         | Ok (p :: ps) =>
             (s' ← close_uncovered (p :: ps) s;
              sleep (DPoll (op_flatten_poll_interval_seconds (pl_policy plan))) ;;
              verify k plan targets deadline (p :: ps) s') h2
         | Ok [] => (Ok ([], s), h2)
         | Err e => (Ok (remaining, add_error ("verify Daybreak positions failed: " +:+ describe e) s), h2)
         end) as Hstep.
  { intros k. cbn [verify]. rewrite eff_bind_unfold. unfold clock at 1. fold h1.
    destruct (negb _); [done|]. rewrite eff_bind_unfold. unfold observe at 1. fold r h2.
    by destruct r as [[|p ps]|e]. }
  destruct (ev_clock h <? deadline) eqn:Hlt.
  2: { exists 1%nat. intros k Hk. destruct k; [lia|]. by rewrite !Hstep. }
  bool_to_prop. simpl negb in Hstep. cbv iota in Hstep.
  pose proof (observe_call_longer (EListPositions targets) (λ h, ev_list_positions h targets) h1) as Hl.
  change (h1 `prefix_of` h2) in Hl. clearbody r h2.
  destruct r as [[|p ps]|e]; try (exists 1%nat; intros k Hk; destruct k; [lia|]; by rewrite !Hstep).
  pose proof (close_uncovered_longer (p :: ps) s h2) as Hl2.
  pose proof (close_uncovered_settles (p :: ps) s h2) as Hs.
  destruct (close_uncovered (p :: ps) s h2) as [[s'|e] h3] eqn:Ec; cbn [fst snd] in *.
  - set (h4 := h3 ++ [ESleep (DPoll (op_flatten_poll_interval_seconds (pl_policy plan)))]).
    assert (ev_clock h < ev_clock h4) as Hadv.
    { eapply Z.le_lt_trans; [|apply sleep_advances]. apply longer_clock.
      etrans; [|exact Hl2]. etrans; [|exact Hl]. by apply prefix_app_r. }
    destruct (IH (Z.to_nat (deadline - ev_clock h4))) with (h := h4) (remaining := p :: ps) (s := s') as [m Hm];
      [lia | done|].
    exists (S m). intros k Hk. destruct k as [|k]; [lia|].
    rewrite !Hstep, !eff_bind_unfold, Ec. cbv iota. rewrite !eff_bind_unfold. apply Hm. lia.
  - exists 1%nat. intros k Hk. destruct k as [|k]; [lia|]. rewrite !Hstep, !eff_bind_unfold, Ec. cbv iota. split; [done|]. cbn [fst]. congruence.
Qed.

Lemma merge_targets_settles d m : merge_targets d m ≠ Err EDiverge.
Proof.
  unfold merge_targets. destruct (add_managed m _) as [t|e] eqn:E; simpl; [by case_match|].
  intros [= ->]. revert E. match goal with |- add_managed m ?acc = _ → _ => generalize acc end.
  induction m as [|[x raw] m IH]; intros acc; cbn [add_managed]; [done|].
  destruct (managed_quantity raw) as [q|e] eqn:Eq; simpl; [apply IH|]. intros [= ->].
  unfold managed_quantity in Eq. repeat case_match; done.
Qed.

Lemma flatten_terminates plan now managed : terminates (λ k, flatten k plan now managed).
Proof.
  unfold flatten.
  assert (∀ A (c : EnvCall) (f : trace → result A) fb what s, settles (attempt (env_call c f) fb what s)) as Hat
    by (intros; unfold attempt; repeat settle_step).
  apply terminates_bind; [by apply terminates_settles, Hat | intros [discovered s]].
  apply terminates_bind; [by apply terminates_settles, settles_lift, merge_targets_settles | intros targets].
  apply terminates_bind; [by apply terminates_settles, Hat | intros [canceled s1]].
  apply terminates_bind; [by apply terminates_settles, Hat | intros [initial s2]].
  apply terminates_bind; [by apply terminates_settles, close_uncovered_settles | intros s3].
  apply terminates_bind; [apply verify_terminates | intros [remaining s4]].
  apply terminates_settles. repeat settle_step.
Qed.

Lemma on_trace_terminates {A} (m : nat → eff trace A) : terminates m → terminates (λ k, on_trace (m k)).
Proof.
  intros Hm w. destruct (Hm (ow_trace w)) as [n Hn]. exists n. intros k Hk.
  destruct (Hn k Hk) as [E Hd]. unfold on_trace. by rewrite E.
Qed.
Lemma on_world_terminates {A} (m : nat → orch A) : terminates m → terminates (λ k, on_world (m k)).
Proof.
  intros Hm s. destruct (Hm s.1) as [n Hn]. exists n. intros k Hk.
  destruct (Hn k Hk) as [E Hd]. unfold on_world. by rewrite E.
Qed.

(** ** Termination of a run *)

Lemma settled {S A} (m : eff S A) : settles m → terminates (λ _, m).
Proof. apply terminates_settles. Qed.

Lemma wait_and_run_terminates plan ph t f :
  (∀ a b, settles (f a b)) → terminates (λ k, wait_and_run k plan ph t f).
Proof.
  intros Hf. unfold wait_and_run. apply terminates_bind; [apply wait_until_terminates | intros _].
  by apply settled, run_phase_settles.
Qed.

Lemma capture_terminates plan : terminates (λ k, capture_and_evaluate k plan).
Proof.
  unfold capture_and_evaluate.
  apply terminates_bind; [apply settled, preflight_settles | intros _].
  do 3 (apply terminates_bind; [apply wait_and_run_terminates; intros; first [apply hook_settles | done] | intros _]).
  apply terminates_bind; [apply wait_and_run_terminates; apply hook_settles | intros d].
  apply settled. unfold now_. repeat settle_step.
Qed.

Lemma trade_terminates plan : terminates (λ k, trade k plan).
Proof.
  unfold trade.
  apply terminates_bind; [apply on_world_terminates, wait_until_terminates | intros _].
  apply terminates_bind; [apply settled, on_world_settles, preflight_settles | intros _].
  apply terminates_bind; [apply on_world_terminates, wait_until_terminates | intros _].
  apply settled. unfold now_. settle_step; [repeat settle_step|].
  settle_step; [by apply settles_raise|].
  settle_step; [apply on_world_settles, run_phase_settles, hook_settles|].
  settle_step; [repeat first [apply record_managed_settles | settle_step]|].
  settle_step; [repeat settle_step|]. settle_step; [by apply settles_raise|].
  settle_step; [apply on_world_settles, run_phase_settles, hook_settles|]. repeat settle_step.
Qed.

Lemma run_flatten_terminates plan now m : terminates (λ k, run_flatten k plan now m).
Proof.
  unfold run_flatten. apply terminates_bind; [apply settled; unfold now_; repeat settle_step | intros t].
  apply terminates_bind; [apply on_trace_terminates, flatten_terminates | intros r].
  apply settled. unfold sessions.save_flatten. repeat first [apply phase_settles | settle_step].
Qed.

Lemma close_session_terminates plan : terminates (λ k, close_session dedup_window_seconds k plan).
Proof.
  unfold close_session.
  apply terminates_bind; [apply on_world_terminates, wait_until_terminates | intros _].
  apply terminates_bind; [by apply settled | intros f].
  apply terminates_bind; [apply on_world_terminates, run_flatten_terminates | intros r].
  apply settled. unfold now_.
  repeat first [apply phase_settles | apply emit_critical_settles | apply save_kill_switch_settles | settle_step].
Qed.

Lemma session_terminates plan t : terminates (λ k, session dedup_window_seconds holder_id k plan t).
Proof.
  unfold session.
  apply terminates_bind; [apply settled, take_leadership_settles | intros _].
  apply terminates_bind; [apply on_world_terminates, capture_terminates | intros d].
  apply terminates_bind; [|intros _; apply close_session_terminates].
  destruct (evaluation_summary d) as [[st n]|]; [|by apply settled, settles_raise].
  destruct (bool_decide _); [by apply settled|]. destruct (_ || _); [by apply settled | apply trade_terminates].
Qed.

Lemma emergency_flatten_terminates plan now : terminates (λ k, emergency_flatten k plan now).
Proof.
  unfold emergency_flatten.
  apply terminates_try.
  - apply terminates_bind; [by apply settled | intros f].
    apply terminates_bind; [apply on_world_terminates, run_flatten_terminates | intros r]. by apply settled.
  - intros e. destruct e; try (by left); right; eexists; (split; [intros ?; reflexivity|]);
      by apply settled.
Qed.

Lemma handle_persistent_terminates plan m : terminates (λ k, handle_persistent dedup_window_seconds k plan m).
Proof.
  unfold handle_persistent, now_.
  apply terminates_bind; [apply settled; repeat settle_step | intros now].
  do 2 (apply terminates_bind; [by apply settled | intros _]).
  apply terminates_bind; [apply settled, on_world_settles, emit_critical_settles | intros _].
  apply emergency_flatten_terminates.
Qed.

Lemma handle_failure_terminates plan m : terminates (λ k, handle_failure dedup_window_seconds k plan m).
Proof.
  unfold handle_failure, now_. cbv zeta.
  apply terminates_bind; [apply settled; repeat settle_step | intros now].
  do 2 (apply terminates_bind; [by apply settled | intros _]).
  apply terminates_bind; [apply settled, on_world_settles, on_sessions_settles, save_kill_switch_settles | intros _].
  apply terminates_bind; [apply settled, on_world_settles, emit_critical_settles | intros _].
  apply terminates_bind; [by apply settled | intros _]. apply emergency_flatten_terminates.
Qed.

Lemma handle_leadership_settles plan t m : settles (handle_leadership dedup_window_seconds plan t m).
Proof. unfold handle_leadership. repeat first [apply emit_critical_settles | settle_step]. Qed.

Lemma handle_terminates plan t e :
  (∀ k, handle dedup_window_seconds k plan t e = None) ∨
  ∃ c, (∀ k, handle dedup_window_seconds k plan t e = Some (c k)) ∧ terminates c.
Proof.
  assert (∀ m, ∃ c : nat → run_ unit,
    (∀ k, Some (handle_failure dedup_window_seconds k plan m) = Some (c k)) ∧ terminates c) as Hf.
  { intros m. exists (λ k, handle_failure dedup_window_seconds k plan m).
    split; [done | apply handle_failure_terminates]. }
  destruct e. 1-11,14: right; apply Hf.
  - right. exists (λ _, handle_leadership dedup_window_seconds plan t msg).
    split; [done | apply settled, handle_leadership_settles].
  - right. exists (λ k, handle_persistent dedup_window_seconds k plan msg).
    split; [done | apply handle_persistent_terminates].
  - by left.
Qed.

Lemma run_terminates_at plan start : terminates (λ k, run dedup_window_seconds holder_id k plan start).
Proof.
  unfold run.
  apply terminates_bind; [apply settled; unfold now_; repeat settle_step | intros t].
  apply terminates_bind; [apply settled, on_sessions_settles, save_plan_settles | intros _].
  apply terminates_bind; [apply settled, on_sessions_settles; by intros ? | intros latest].
  apply terminates_bind; [apply settled; repeat first [apply save_kill_switch_settles | settle_step] | intros x].
  assert (terminates (λ k, guarded_session dedup_window_seconds holder_id k plan t)) as Hg.
  { unfold guarded_session. apply terminates_finally; [|apply finish_session_settles].
    apply terminates_try; [apply session_terminates | apply handle_terminates]. }
  intros w. destruct (Hg (w, start_locals x)) as [n Hn]. exists n. intros k Hk. unfold with_locals.
  destruct (Hn k Hk) as [-> ?]. done.
Qed.
End run.

(** ** Frames of a run *)

Section frames.
Context `{Env} `{Uuid5} `{SummaryError}.
Context `{Dump HealthSnapshot} `{Dump SessionPosition} `{Dump FlattenOrder} `{Dump KillSwitchState}.
Context `{Dump FlattenResult} `{Dump PhaseRecord} `{Dump AlertRecord}.
Context (dedup_window_seconds : Z) (holder_id : string).
Implicit Types (plan : SessionPlan) (w : OrchWorld) (h : trace).

(** The calls a component may add to the trace: any but the hooks outside [ok]. *)
Definition calls_within (ok : Hook → Prop) (h h' : trace) : Prop :=
  ∃ l, h' = h ++ l ∧ Forall (λ c, match c with EHook k _ _ => ok k | _ => True end) l.

#[export] Instance calls_within_preorder ok : PreOrder (calls_within ok).
Proof.
  split.
  - intros h. exists []. by rewrite app_nil_r.
  - intros a b c (l & -> & Hl) (k & -> & Hk). exists (l ++ k). rewrite app_assoc. split; [done|].
    by apply Forall_app.
Qed.

(** A relation on worlds that every primitive of the orchestrator respects,
    but for the acquisition and the release of the lease and the hooks outside
    [ok]. *)
Class Frame (ok : Hook → Prop) (R : OrchWorld → OrchWorld → Prop) : Prop := {
  frame_pre :: PreOrder R;
  frame_sessions A (m : eff OrchestrationRepository A) : evolves R (on_sessions m);
  frame_renew l now ttl : evolves R (on_leadership (leadership.renew l now ttl));
  frame_trace A (m : eff trace A) : evolves (calls_within ok) m → evolves R (on_trace m);
  frame_set_lease l t w : R w (set_lease l t w);
  frame_last_sent k t w : R w (set_last_sent k t w);
}.

Lemma call_within ok {A} c (f : trace → result A) :
  match c with EHook k _ _ => ok k | _ => True end → evolves (calls_within ok) (env_call c f).
Proof. intros Hc h. exists [c]. split; [done|]. by repeat constructor. Qed.
Lemma clock_within ok : evolves (calls_within ok) clock.
Proof. intros h. exists [EClock]. split; [done|]. by repeat constructor. Qed.
Lemma sleep_within ok d : evolves (calls_within ok) (sleep d).
Proof. intros h. exists [ESleep d]. split; [done|]. by repeat constructor. Qed.
Lemma observe_evolves {S A} (R : S → S → Prop) (m : eff S A) : evolves R m → evolves R (observe m).
Proof. intros Hm s. apply (Hm s). Qed.

End frames.

Ltac within_step :=
  match goal with
  | |- evolves _ (mret _) => apply evolves_ret; apply _
  | |- evolves _ (raise _) => apply evolves_raise; apply _
  | |- evolves _ (lift _) => apply evolves_lift; apply _
  | |- evolves _ (gets _) => apply evolves_gets; apply _
  | |- evolves _ clock => apply clock_within
  | |- evolves _ (sleep _) => apply sleep_within
  | |- evolves _ (observe _) => apply observe_evolves
  | |- evolves _ (env_call _ _) => by apply call_within
  | |- evolves _ (_ ≫= _) => apply evolves_bind; [apply _ | | intros ?]
  | |- evolves _ (match ?x with _ => _ end) => destruct x
  end.

Section framed.
Context `{Env} `{Uuid5} `{SummaryError}.
Context `{Dump HealthSnapshot} `{Dump SessionPosition} `{Dump FlattenOrder} `{Dump KillSwitchState}.
Context `{Dump FlattenResult} `{Dump PhaseRecord} `{Dump AlertRecord}.
Context (dedup_window_seconds : Z) (holder_id : string).
Implicit Types (plan : SessionPlan) (w : OrchWorld) (h : trace).

Lemma close_uncovered_within ok ps s : evolves (calls_within ok) (close_uncovered ps s).
Proof.
  revert s. induction ps as [|p ps IH]; intros s; cbn [close_uncovered]; [by within_step|].
  within_step; [unfold close_one, close_position; repeat within_step | apply IH].
Qed.
Lemma verify_within ok k plan ts d rem s : evolves (calls_within ok) (verify k plan ts d rem s).
Proof.
  revert rem s. induction k as [|k IH]; intros rem s; cbn [verify]; [by within_step|].
  unfold list_positions. repeat first [apply IH | apply close_uncovered_within | within_step].
Qed.
Lemma flatten_within ok k plan now m : evolves (calls_within ok) (flatten k plan now m).
Proof.
  unfold flatten, attempt, list_positions.
  repeat first [apply close_uncovered_within | apply verify_within | within_step].
Qed.

Section frame.
Context (ok : Hook → Prop) (R : OrchWorld → OrchWorld → Prop) `{!Frame ok R}.

Ltac frame_orch :=
  match goal with
  | |- evolves R (on_sessions _) => apply frame_sessions
  | |- evolves R (on_leadership (leadership.renew _ _ _)) => apply frame_renew
  | |- evolves R (modify (set_lease _ _)) => intros ?; apply frame_set_lease
  | |- evolves R (modify (set_last_sent _ _)) => intros ?; apply frame_last_sent
  | |- evolves R (on_trace _) => apply frame_trace
  | _ => within_step
  end.

Lemma now_frame : evolves R now_.
Proof. unfold now_. repeat frame_orch. Qed.
Lemma phase_frame plan ph a b d : evolves R (phase plan ph a b d).
Proof. unfold phase. repeat frame_orch. Qed.
Lemma renew_frame plan now : evolves R (renew_leadership plan now).
Proof. unfold renew_leadership. repeat frame_orch. Qed.
Lemma wait_until_frame k plan t : evolves R (wait_until k plan t).
Proof.
  induction k as [|k IH]; cbn [wait_until]; [by frame_orch|].
  repeat first [apply IH | apply now_frame | apply renew_frame | frame_orch].
Qed.
Lemma hook_frame plan k now tok : ok k → evolves R (hook plan k now tok).
Proof. intros Hk. unfold hook. repeat frame_orch. Qed.
Lemma run_phase_frame plan ph f : (∀ a b, evolves R (f a b)) → evolves R (run_phase plan ph f).
Proof.
  intros Hf. unfold run_phase.
  repeat first [apply Hf | apply now_frame | apply renew_frame | apply phase_frame | frame_orch].
Qed.
Lemma wait_and_run_frame k plan ph t f : (∀ a b, evolves R (f a b)) → evolves R (wait_and_run k plan ph t f).
Proof. intros Hf. unfold wait_and_run. frame_orch; [apply wait_until_frame | by apply run_phase_frame]. Qed.
Lemma preflight_frame plan ph : evolves R (preflight plan ph).
Proof. unfold preflight. repeat first [apply now_frame | apply renew_frame | apply phase_frame | frame_orch]. Qed.
Lemma emit_critical_frame plan code m now : evolves R (emit_critical dedup_window_seconds plan code m now).
Proof. unfold emit_critical, emit. repeat frame_orch. Qed.
Lemma run_flatten_frame k plan now m : evolves R (run_flatten k plan now m).
Proof.
  unfold run_flatten. repeat first [apply now_frame | apply flatten_within | apply phase_frame | frame_orch].
Qed.
Lemma capture_frame k plan :
  ok HK_WARMUP_RECORDER → ok HK_FREEZE_FEATURES → ok HK_EVALUATE → evolves R (capture_and_evaluate k plan).
Proof.
  intros Hw Hf He. unfold capture_and_evaluate.
  repeat first [apply preflight_frame | apply now_frame
    | apply wait_and_run_frame; intros; first [by apply hook_frame | by frame_orch] | frame_orch].
Qed.

(** On the state of [run]: the world evolves in [R], the lease stays. *)
Definition run_frame (a b : OrchWorld * RunLocals) : Prop := R a.1 b.1 ∧ lo_lease a.2 = lo_lease b.2.
#[export] Instance run_frame_preorder : PreOrder run_frame.
Proof. split; [by intros [w f] | intros a b c [] []; split; by etrans]. Qed.

Lemma on_world_frame {A} (m : orch A) : evolves R m → evolves run_frame (on_world m).
Proof. intros Hm s. split; [apply Hm | done]. Qed.
Lemma locals_frame f : (∀ x, lo_lease (f x) = lo_lease x) → evolves run_frame (locals f).
Proof. intros Hf s. split; [done|]. simpl. by rewrite Hf. Qed.

Ltac frame_run :=
  match goal with
  | |- evolves run_frame (locals _) => by apply locals_frame
  | |- evolves run_frame (on_world (wait_until _ _ _)) => apply on_world_frame, wait_until_frame
  | |- evolves run_frame (on_world (preflight _ _)) => apply on_world_frame, preflight_frame
  | |- evolves run_frame (on_world now_) => apply on_world_frame, now_frame
  | |- evolves run_frame (on_world (phase _ _ _ _ _)) => apply on_world_frame, phase_frame
  | |- evolves run_frame (on_world (emit_critical _ _ _ _ _)) => apply on_world_frame, emit_critical_frame
  | |- evolves run_frame (on_world (run_flatten _ _ _ _)) => apply on_world_frame, run_flatten_frame
  | |- evolves run_frame (on_world (on_sessions _)) => apply on_world_frame, frame_sessions
  | |- evolves run_frame (on_world (run_phase _ _ (hook _ _))) =>
      apply on_world_frame, run_phase_frame; intros; by apply hook_frame
  | _ => within_step
  end.

Lemma record_managed_frame l : evolves run_frame (record_managed l).
Proof. induction l as [|[x v] l IH]; cbn [record_managed]; repeat first [apply IH | frame_run]. Qed.
Lemma trade_frame k plan : ok HK_SIZE_AND_EXECUTE → ok HK_RECONCILE → evolves run_frame (trade k plan).
Proof. intros Hs Hr. unfold trade. repeat first [apply record_managed_frame | frame_run]. Qed.
Lemma close_session_frame k plan : evolves run_frame (close_session dedup_window_seconds k plan).
Proof. unfold close_session. cbv zeta. repeat frame_run. Qed.
Lemma emergency_flatten_frame k plan now : evolves run_frame (emergency_flatten k plan now).
Proof.
  unfold emergency_flatten. apply evolves_try; [apply _ | repeat frame_run |].
  intros e c. destruct e; intros [= <-]; by apply locals_frame.
Qed.
Lemma handle_failure_frame k plan m : evolves run_frame (handle_failure dedup_window_seconds k plan m).
Proof. unfold handle_failure. cbv zeta. repeat first [apply emergency_flatten_frame | frame_run]. Qed.
Lemma handle_persistent_frame k plan m : evolves run_frame (handle_persistent dedup_window_seconds k plan m).
Proof. unfold handle_persistent. repeat first [apply emergency_flatten_frame | frame_run]. Qed.
Lemma handle_leadership_frame plan t m : evolves run_frame (handle_leadership dedup_window_seconds plan t m).
Proof. unfold handle_leadership. repeat frame_run. Qed.

Lemma handle_frame k plan t e c :
  handle dedup_window_seconds k plan t e = Some c → evolves run_frame c.
Proof.
  destruct e; cbn [handle]; intros E; try discriminate E; injection E as <-.
  1-11,14: apply handle_failure_frame.
  - apply handle_leadership_frame.
  - apply handle_persistent_frame.
Qed.
End frame.
End framed.
