(* ===== verification/SessionContract.v ===== *)
(** * SessionContract: the contract of a session run

    Over every clock, health probe, hook, broker and alert sink: a run ends and
    gives its lease up; a persistent kill switch stops trading; trading is
    gated; and the result says what happened. *)
From Stdlib Require Import Ascii String.
From S2P Require Import Prelude Numerics PyStr PyTime Stores Contracts Canonical PyVal RiskModels ExecModels OrchModels OrchEnv Leadership Flatten Session SessionFacts.

#[local] Open Scope Z_scope.
Import leadership.

Section contract.
Context `{Env} `{Uuid5} `{SummaryError}.
Context `{Dump HealthSnapshot} `{Dump SessionPosition} `{Dump FlattenOrder} `{Dump KillSwitchState}.
Context `{Dump FlattenResult} `{Dump PhaseRecord} `{Dump AlertRecord}.
Context (dedup_window_seconds : Z) (holder_id : string).
Implicit Types (plan : SessionPlan) (w : OrchWorld) (h : trace).

Abbreviation run := (run dedup_window_seconds holder_id).

(** ** The lease *)

Definition keyed (s : LeadershipRepository) : Prop :=
  ∀ k l, lr_leases s !! k = Some l → ll_session_id l = k.

(** Leases are neither granted nor dropped, only renewed. *)
Definition kept (s s' : LeadershipRepository) : Prop :=
  keyed s → keyed s' ∧ ∀ k,
    match lr_leases s !! k with
    | None => lr_leases s' !! k = None
    | Some c => ∃ c', lr_leases s' !! k = Some c' ∧ same_lease c' c = true
    end.

Lemma same_lease_trans a b c : same_lease a b = true → same_lease b c = true → same_lease a c = true.
Proof. rewrite !same_lease_spec. intros [-> ->] [-> ->]. done. Qed.
Lemma same_lease_refl a : same_lease a a = true.
Proof. by apply same_lease_spec. Qed.

#[export] Instance kept_preorder : PreOrder kept.
Proof.
  split.
  - intros s Hs. split; [done|]. intros k. destruct (lr_leases s !! k) as [c|] eqn:E; [|done].
    exists c. split; [done | apply same_lease_refl].
  - intros a b c Hab Hbc Ha. destruct (Hab Ha) as [Hb F1]. destruct (Hbc Hb) as [Hc F2]. split; [done|].
    intros k. specialize (F1 k). specialize (F2 k). destruct (lr_leases a !! k) as [x|].
    + destruct F1 as (y & E & Hy). rewrite E in F2. destruct F2 as (z & Ez & Hz).
      exists z. split; [done | by eapply same_lease_trans].
    + by rewrite F1 in F2.
Qed.

Lemma renew_kept l now ttl : evolves kept (leadership.renew l now ttl).
Proof.
  intros s Hs. destruct (renew_spec l now ttl s) as [|c Hc Hsame]; [exact (reflexivity (R:=kept) s Hs)|]. cbn [snd].
  pose proof (Hs _ _ Hc) as Hk. split.
  - intros k x [[-> ->]|Hx]%put_lease_lookup; [done | by apply Hs].
  - intros k. simpl. rewrite Hk. destruct (decide (k = ll_session_id l)) as [->|Hne].
    + rewrite Hc, lookup_insert_eq. eexists. split; [done|]. by apply same_lease_spec.
    + rewrite lookup_insert_ne by done. destruct (lr_leases s !! k) as [x|]; [|done].
      exists x. split; [done | apply same_lease_refl].
Qed.

Definition kept_leases (w w' : OrchWorld) : Prop := kept (ow_leadership w) (ow_leadership w').

#[export] Instance kept_leases_frame : Frame (λ _, True) kept_leases.
Proof.
  split.
  - split; [intros w; apply (reflexivity (R:=kept) (ow_leadership w)) |].
    intros a b c. unfold kept_leases. intros ? ?. by etrans.
  - intros A m w. apply (reflexivity (R:=kept) (ow_leadership w)).
  - intros l now ttl w. apply (renew_kept l now ttl (ow_leadership w)).
  - intros A m Hm w. apply (reflexivity (R:=kept) (ow_leadership w)).
  - intros l t w. apply (reflexivity (R:=kept) (ow_leadership w)).
  - intros k t w. apply (reflexivity (R:=kept) (ow_leadership w)).
Qed.

(** What the run knows of the lease of its session: if it holds one, it is the
    one on record; if not, whatever is on record was there before. *)
Definition lease_state plan (base : LeadershipRepository) (s : OrchWorld * RunLocals) : Prop :=
  keyed (ow_leadership s.1) ∧
  match lo_lease s.2 with
  | Some l => ll_session_id l = pl_session_id plan ∧
      ∃ c, lr_leases (ow_leadership s.1) !! pl_session_id plan = Some c ∧ same_lease c l = true
  | None => ∀ c, lr_leases (ow_leadership s.1) !! pl_session_id plan = Some c →
      ∃ c0, lr_leases base !! pl_session_id plan = Some c0 ∧ same_lease c c0 = true
  end.

Lemma lease_state_frame plan base a b :
  run_frame kept_leases a b → lease_state plan base a → lease_state plan base b.
Proof.
  intros [Hk Hl] [Hkey Hs]. destruct (Hk Hkey) as [Hkey' Hp]. split; [done|]. rewrite <- Hl.
  specialize (Hp (pl_session_id plan)).
  destruct (lo_lease a.2) as [l|].
  - destruct Hs as (Hid & c & Hc & Hsame). rewrite Hc in Hp. destruct Hp as (c' & Hc' & Hsame').
    split; [done|]. exists c'. split; [done | by eapply same_lease_trans].
  - intros c' Hc'. destruct (lr_leases (ow_leadership a.1) !! pl_session_id plan) as [c|]; [|congruence].
    destruct Hp as (c'' & Hc'' & Hsame'). destruct (Hs c eq_refl) as (c0 & Hc0 & Hsame).
    exists c0. split; [done|]. rewrite Hc'' in Hc'. injection Hc' as <-. by eapply same_lease_trans.
Qed.

Lemma lease_state_preserved {A} plan base (m : run_ A) :
  evolves (run_frame kept_leases) m → preserves (lease_state plan base) m.
Proof. intros Hm s. apply lease_state_frame, Hm. Qed.

Definition with_leadership (s : LeadershipRepository) w : OrchWorld :=
  {| ow_repo := ow_repo w; ow_leadership := s; ow_last_sent := ow_last_sent w; ow_trace := ow_trace w;
     ow_lease := ow_lease w; ow_last_renewed_at := ow_last_renewed_at w |}.
Lemma on_world_leadership {A} (m : eff LeadershipRepository A) w f :
  on_world (on_leadership m) (w, f) = ((m (ow_leadership w)).1, (with_leadership (m (ow_leadership w)).2 w, f)).
Proof. done. Qed.

Lemma take_leadership_lease plan t w k :
  keyed (ow_leadership w) →
  lease_state plan (ow_leadership w) (take_leadership holder_id plan t (w, start_locals k)).2.
Proof.
  intros Hkey. unfold take_leadership. rewrite eff_bind_unfold.
  rewrite on_world_leadership.
  assert (∀ s, (∀ x, lr_leases s !! x = lr_leases (ow_leadership w) !! x) →
    lease_state plan (ow_leadership w) (with_leadership s w, start_locals k)) as Hbase.
  { intros s Hs. split; simpl; [intros x l; rewrite Hs; apply Hkey|].
    intros c. rewrite Hs. intros Hc. exists c. split; [done | apply same_lease_refl]. }
  destruct (acquire_spec (pl_session_id plan) holder_id t (op_leadership_ttl_seconds (pl_policy plan)) (ow_leadership w))
    as [l Hl Hexp| |l Hexp Hok Hid _ _ _ _]; cbn [fst snd].
  - by apply Hbase.
  - by apply Hbase.
  - rewrite eff_bind_unfold. unfold locals at 1. cbn [fst snd].
    match goal with |- lease_state _ _ (?m ?s).2 => assert (lease_state plan (ow_leadership w) s) as Hst end.
    { split; simpl.
      - intros x y [[-> ->]|Hy]%put_lease_lookup; [done | by apply Hkey].
      - split; [done|]. exists l. rewrite Hid, lookup_insert_eq. split; [done | apply same_lease_refl]. }
    revert Hst. apply lease_state_preserved. clear Hbase.
    apply evolves_bind; [apply _ | |intros _].
    { apply (on_world_frame kept_leases). intros ?. apply (frame_set_lease (ok := λ _, True)). }
    apply evolves_bind; [apply _ | |intros _].
    { apply (on_world_frame kept_leases), (phase_frame (λ _, True)). apply _. }
    apply evolves_bind; [apply _ | by apply evolves_gets, _ | intros f].
    destruct (kw_active _); [by apply evolves_raise, _ | by apply evolves_ret, _].
Qed.

Lemma session_lease fuel plan t w k :
  keyed (ow_leadership w) →
  lease_state plan (ow_leadership w) (session dedup_window_seconds holder_id fuel plan t (w, start_locals k)).2.
Proof.
  intros Hkey. unfold session. rewrite eff_bind_unfold.
  pose proof (take_leadership_lease plan t w k Hkey) as Hst.
  destruct (take_leadership holder_id plan t (w, start_locals k)) as [[u|e] s]; [|done].
  revert Hst. apply lease_state_preserved.
  apply evolves_bind; [apply _ | |intros d].
  { by apply (on_world_frame kept_leases), (capture_frame (λ _, True) kept_leases). }
  apply evolves_bind; [apply _ | |intros _; by apply (close_session_frame dedup_window_seconds (λ _, True) kept_leases)].
  destruct (evaluation_summary d) as [[st n]|]; [|by apply evolves_raise, _].
  repeat case_match; [by apply (locals_frame (λ _, True) kept_leases) | by apply (locals_frame (λ _, True) kept_leases) |].
  by apply (trade_frame (λ _, True) kept_leases).
Qed.

Lemma finish_session_releases plan t base s :
  lease_state plan base s →
  ∀ c, lr_leases (ow_leadership (finish_session holder_id plan t s).2.1) !! pl_session_id plan = Some c →
    ∃ c0, lr_leases base !! pl_session_id plan = Some c0 ∧ same_lease c c0 = true.
Proof.
  destruct s as [w f]. intros [Hkey Hs]. unfold finish_session. rewrite eff_bind_unfold.
  unfold on_world at 1, now_, on_trace, clock. cbn [fst snd]. rewrite eff_bind_unfold. cbn [gets snd].
  cbn [fst snd] in Hs. destruct (lo_lease f) as [l|]; rewrite eff_bind_unfold; [|exact Hs].
  destruct Hs as (Hid & c & Hc & Hsame). rewrite on_world_leadership. cbn [ow_leadership].
  destruct (release_spec l (ev_clock (ow_trace w)) (ow_leadership w)) as [Hother|c' Hc' Hs']; cbn [fst snd].
  - rewrite Hid in Hother. rewrite (Hother c Hc) in Hsame. done.
  - intros x E. change (delete (ll_session_id l) (lr_leases (ow_leadership w)) !! pl_session_id plan = Some x) in E.
    rewrite Hid, lookup_delete_eq in E. discriminate E.
Qed.

Lemma guarded_session_releases fuel plan t w k :
  keyed (ow_leadership w) →
  let out := guarded_session dedup_window_seconds holder_id fuel plan t (w, start_locals k) in
  out.1 ≠ Err EDiverge →
  ∀ c, lr_leases (ow_leadership out.2.1) !! pl_session_id plan = Some c →
    ∃ c0, lr_leases (ow_leadership w) !! pl_session_id plan = Some c0 ∧ same_lease c c0 = true.
Proof.
  intros Hkey out. subst out. unfold guarded_session, try_finally.
  set (m := try_except _ _).
  assert (lease_state plan (ow_leadership w) (m (w, start_locals k)).2) as Hst.
  { unfold m, try_except. pose proof (session_lease fuel plan t w k Hkey) as Hs.
    destruct (session _ _ _ _ _ _) as [[u|e] s]; [done|].
    destruct (handle _ _ _ _ e) as [c|] eqn:E; [|done]. revert Hs. apply lease_state_preserved.
    by eapply (handle_frame dedup_window_seconds (λ _, True) kept_leases). }
  destruct (m (w, start_locals k)) as [[u|e] s]; cbn [snd] in Hst; intros Hd.
  - by apply finish_session_releases.
  - assert (∀ r, (match finish_session holder_id plan t s with (Ok _, s'') => (Err e : result SessionResult, s'') | x => x end) = r →
      r.2 = (finish_session holder_id plan t s).2) as Hr
      by (intros r <-; by destruct (finish_session holder_id plan t s) as [[?|?] ?]).
    destruct e; try (rewrite (Hr _ eq_refl); by apply finish_session_releases). done.
Qed.

(** ** The run around the session *)

Definition clock_read (start : option datetime) : trace := match start with Some _ => [] | None => [EClock] end.
Definition starts_at (start : option datetime) w : datetime :=
  match start with Some t => t | None => ev_clock (ow_trace w) end.

(** The kill switch a run starts from: the latest of the session. *)
Definition starting_kill_switch plan w : KillSwitchState :=
  default (inactive_kill_switch (pl_session_id plan)) (last (sessions.kill_switches_of (pl_session_id plan) (ow_repo w))).

(** Before the [try] a run touches the repository only. *)
Inductive runs (fuel : nat) plan (start : option datetime) w : result SessionResult * OrchWorld → Prop :=
  | run_refused e w' :
      e ≠ EDiverge → ow_leadership w' = ow_leadership w → ow_trace w' = ow_trace w ++ clock_read start →
      runs fuel plan start w (Err e, w')
  | run_guarded w' :
      ow_leadership w' = ow_leadership w → ow_trace w' = ow_trace w ++ clock_read start →
      runs fuel plan start w
        (with_locals (guarded_session dedup_window_seconds holder_id fuel plan (starts_at start w))
           (start_locals (starting_kill_switch plan w)) w').

Lemma on_sessions_gets {A} (f : OrchestrationRepository → A) w : on_sessions (gets f) w = (Ok (f (ow_repo w)), w).
Proof. by destruct w. Qed.

Lemma save_plan_switches plan s :
  or_kill_switches (sessions.save_plan plan s).2 = or_kill_switches s.
Proof. unfold sessions.save_plan, put_once. rewrite eff_bind_unfold. cbn [gets]. by destruct (collides _ _). Qed.

Lemma run_spec fuel plan start w : runs fuel plan start w (run fuel plan start w).
Proof.
  unfold Session.run. rewrite eff_bind_unfold.
  assert (∃ w1, match start with Some t => mret t | None => now_ end w = (Ok (starts_at start w), w1) ∧
    ow_repo w1 = ow_repo w ∧ ow_leadership w1 = ow_leadership w ∧ ow_trace w1 = ow_trace w ++ clock_read start)
    as (w1 & -> & Er & El & Et).
  { destruct start as [t|]; eexists; (split; [reflexivity|]); simpl; by rewrite ?app_nil_r. }
  cbv iota. rewrite eff_bind_unfold. unfold on_sessions at 1.
  pose proof (save_plan_settles plan (ow_repo w1)) as Hst.
  pose proof (save_plan_switches plan (ow_repo w1)) as Hks.
  destruct (sessions.save_plan plan (ow_repo w1)) as [[u|e] r]; cbn [fst snd] in *.
  2: { apply run_refused; [by intros ->|done|done]. }
  rewrite eff_bind_unfold. unfold sessions.get_latest_kill_switch. rewrite on_sessions_gets.
  cbn [ow_repo].
  assert (sessions.kill_switches_of (pl_session_id plan) r = sessions.kill_switches_of (pl_session_id plan) (ow_repo w))
    as Hk by (unfold sessions.kill_switches_of; by rewrite Hks, Er).
  rewrite Hk, eff_bind_unfold.
  pose proof (run_guarded fuel plan start w) as Hg. unfold starting_kill_switch in Hg.
  destruct (last (sessions.kill_switches_of (pl_session_id plan) (ow_repo w))) as [k|]; [by apply Hg|].
  cbv zeta. rewrite eff_bind_unfold. unfold on_sessions at 1.
  pose proof (save_kill_switch_settles (inactive_kill_switch (pl_session_id plan)) r) as Hst2.
  cbn [ow_repo ow_leadership ow_trace ow_last_sent ow_lease ow_last_renewed_at].
  destruct (sessions.save_kill_switch _ r) as [[u'|e] r2]; cbn [fst snd] in *; [by apply Hg|].
  apply run_refused; [by intros ->|done|done].
Qed.

(** C21: A run ends and gives its lease up.  Under any clock that never goes
    back and moves during a sleep, whatever the probe, hooks, broker and alert
    sinks answer, a bounded number of polling rounds is enough for the run to
    come to its end, more rounds change nothing; and when it has ended, any
    lease left on the session is one that was there before the run. *)
Theorem run_ends_and_releases plan start w :
  (∀ h t : trace, ev_clock h <= ev_clock (h ++ t)) →
  (∀ h d, ev_clock h < ev_clock (h ++ [ESleep d])) →
  keyed (ow_leadership w) →
  ∃ n, ∀ k, (n <= k)%nat →
    run k plan start w = run n plan start w ∧ (run n plan start w).1 ≠ Err EDiverge ∧
    ∀ c, lr_leases (ow_leadership (run n plan start w).2) !! pl_session_id plan = Some c →
      ∃ c0, lr_leases (ow_leadership w) !! pl_session_id plan = Some c0 ∧ same_lease c c0 = true.
Proof.
  intros Hmono Hadv Hkey.
  destruct (run_terminates_at dedup_window_seconds holder_id Hmono Hadv plan start w) as [n Hn].
  exists n. intros k Hk. destruct (Hn k Hk) as [E Hd]. split; [exact E|]. split; [exact Hd|].
  revert Hd. destruct (run_spec n plan start w) as [e w' _ El _|w' El _]; cbn [fst snd].
  - intros _ c Hc. rewrite El in Hc. exists c. split; [done | apply same_lease_refl].
  - rewrite <- El. unfold with_locals. cbn [fst snd]. apply guarded_session_releases. by rewrite El.
Qed.

(** ** A persistent kill switch *)

(** The calls made, but for hooks outside [ok]. *)
Definition calls_traced (ok : Hook → Prop) w w' : Prop := calls_within ok (ow_trace w) (ow_trace w').

#[export] Instance traced_frame ok : Frame ok (calls_traced ok).
Proof.
  assert (PreOrder (calls_within ok)) as Hpre by apply _.
  split.
  - split; [intros w; apply Hpre |]. intros a b c. unfold calls_traced. intros. by etrans.
  - intros A m w. apply Hpre.
  - intros l now ttl w. apply Hpre.
  - intros A m Hm w. apply (Hm (ow_trace w)).
  - intros l t w. apply Hpre.
  - intros k t w. apply Hpre.
Qed.

(** Leadership is taken without a call, and without touching the kill switch. *)
Definition silently (a b : OrchWorld * RunLocals) : Prop :=
  ow_trace a.1 = ow_trace b.1 ∧ lo_kill_switch a.2 = lo_kill_switch b.2.
#[export] Instance silently_preorder : PreOrder silently.
Proof. split; [by intros ?|]. intros a b c [] []. split; congruence. Qed.

Lemma phase_silent plan ph t t' d : evolves silently (on_world (phase plan ph t t' d)).
Proof.
  intros s. unfold on_world, phase. split; [|done]. cbn [fst snd]. rewrite eff_bind_unfold.
  unfold sessions.list_phases. by rewrite on_sessions_gets.
Qed.

Lemma take_leadership_silent plan t : evolves silently (take_leadership holder_id plan t).
Proof.
  unfold take_leadership. apply evolves_bind; [apply _ | by intros [w f] |].
  intros [l|]; [|by apply evolves_raise, _].
  apply evolves_bind; [apply _ | by intros ? | intros _].
  apply evolves_bind; [apply _ | by intros ? | intros _].
  apply evolves_bind; [apply _ | apply phase_silent | intros _].
  apply evolves_bind; [apply _ | by intros ? | intros f].
  destruct (kw_active _); [by apply evolves_raise, _ | by apply evolves_ret, _].
Qed.

(** Leadership taken: the kill switch was off. *)
Lemma take_leadership_active plan t s :
  kw_active (lo_kill_switch s.2) = true → ∃ e, (take_leadership holder_id plan t s).1 = Err e.
Proof.
  intros Hk. destruct (take_leadership holder_id plan t s) as [[u|e] s'] eqn:E; [exfalso | by exists e].
  unfold take_leadership in E. apply eff_bind_Ok in E as ([l|] & s1 & E1 & E); [|done].
  assert (lo_kill_switch s1.2 = lo_kill_switch s.2) as F1 by (unfold on_world in E1; injection E1 as _ <-; done).
  apply eff_bind_Ok in E as (? & s2 & E2 & E). injection E2 as _ <-.
  apply eff_bind_Ok in E as (? & s3 & E3 & E). injection E3 as _ <-.
  apply eff_bind_Ok in E as (? & s4 & E4 & E).
  match type of E4 with _ ?s = _ => pose proof (phase_silent plan SP_LEADERSHIP_ACQUIRED t None
    (PDict [("fencing_token", PInt (ll_fencing_token l))]) s) as [_ F4]; rewrite E4 in F4 end.
  cbn in F4. apply eff_bind_Ok in E as (f & s5 & E5 & E). injection E5 as <- <-.
  rewrite <- F4, F1, Hk in E. done.
Qed.

(** A handler that returns has recorded the failure. *)
Definition failed (f : RunLocals) : Prop :=
  (∃ m, lo_error_message f = Some m) ∧
  ((lo_outcome f = SO_KILLED ∧ lo_final_phase f = SP_KILLED) ∨ (lo_outcome f = SO_BLOCKED ∧ lo_final_phase f = SP_FAILED)).

Definition named (m : string) (f : RunLocals) : Prop := lo_error_message f = Some m.

Definition anyhow : exn → OrchWorld * RunLocals → Prop := λ _ _, True.

Lemma triple_world {A} (L : RunLocals → Prop) (m : orch A) :
  triple (λ s, L s.2) (on_world m) (λ _ s, L s.2) anyhow.
Proof. intros [w f] Hf. unfold on_world. cbn [fst snd]. by destruct (m w) as [[?|?] ?]. Qed.
Lemma triple_locals (P Q : RunLocals → Prop) g :
  (∀ f, P f → Q (g f)) → triple (λ s, P s.2) (locals g) (λ _ s, Q s.2) anyhow.
Proof. intros Hg [w f] Hf. by apply Hg. Qed.
Lemma triple_then {A B} P (m : run_ A) (f : A → run_ B) (R : RunLocals → Prop) Q :
  triple P m (λ _ s, R s.2) anyhow → (∀ a, triple (λ s, R s.2) (f a) Q anyhow) → triple P (m ≫= f) Q anyhow.
Proof. apply triple_bind. Qed.

Lemma emergency_flatten_failed fuel plan now :
  triple (λ s, failed s.2) (emergency_flatten fuel plan now) (λ _ s, failed s.2) anyhow.
Proof.
  unfold emergency_flatten. apply triple_try with (E' := λ _ s, failed s.2).
  - intros [w f] Hf. rewrite eff_bind_unfold. cbn [gets snd]. rewrite eff_bind_unfold. unfold on_world. cbn [fst snd].
    destruct (run_flatten _ _ _ _ _) as [[r|e] w']; exact Hf.
  - intros e s Hf. destruct e; try (intros s' [(m & Hm) Ho]; split; [by eexists | exact Ho]). done.
Qed.

Lemma handle_failed fuel plan t e c :
  handle dedup_window_seconds fuel plan t e = Some c → triple (λ _, True) c (λ _ s, failed s.2) anyhow.
Proof.
  assert (∀ m, triple (λ _, True) (handle_failure dedup_window_seconds fuel plan m) (λ _ s, failed s.2) anyhow) as Hfail.
  { intros m. unfold handle_failure. cbv zeta.
    apply triple_then with (R := λ _, True); [by apply (triple_world (λ _, True)) | intros now].
    apply triple_then with (R := named m); [by apply (triple_locals (λ _, True)) | intros _].
    apply triple_then with (R := named m); [by apply triple_locals | intros _].
    apply triple_then with (R := named m); [apply triple_world | intros _].
    apply triple_then with (R := named m); [apply triple_world | intros _].
    apply triple_then with (R := failed); [|intros _; apply emergency_flatten_failed].
    apply triple_locals. intros f Hf. split; [by exists m | by left]. }
  destruct e; cbn [handle]; intros E; try discriminate E; injection E as <-.
  1-11,14: apply Hfail.
  - unfold handle_leadership.
    apply triple_then with (R := named msg); [by apply (triple_locals (λ _, True)) | intros _].
    apply triple_then with (R := failed); [|intros _; apply triple_world].
    apply triple_locals. intros f Hf. split; [by exists msg | by right].
  - unfold handle_persistent.
    apply triple_then with (R := λ _, True); [by apply (triple_world (λ _, True)) | intros now].
    apply triple_then with (R := named msg); [by apply (triple_locals (λ _, True)) | intros _].
    apply triple_then with (R := failed).
    { apply triple_locals. intros f Hf. split; [by exists msg | by left]. }
    intros _. apply triple_then with (R := failed); [apply triple_world | intros _; apply emergency_flatten_failed].
Qed.

(** What the [finally] computes. *)
Record finished (f : RunLocals) w (r : SessionResult) (w' : OrchWorld) : Prop := {
  fin_outcome : sr_outcome r = lo_outcome f;
  fin_phase : sr_final_phase r = lo_final_phase f;
  fin_switch : sr_kill_switch r = lo_kill_switch f;
  fin_flatten : sr_flatten_result r = lo_flatten_result f;
  fin_error : sr_error_message r = lo_error_message f;
  fin_trace : ow_trace w' = ow_trace w ++ [EClock];
  fin_switches : or_kill_switches (ow_repo w') = or_kill_switches (ow_repo w);
}.

Lemma finish_session_spec plan t w f :
  ∃ r w', finish_session holder_id plan t (w, f) = (Ok r, (w', f)) ∧ finished f w r w'.
Proof.
  unfold finish_session. rewrite eff_bind_unfold. unfold on_world at 1, now_, on_trace, clock. cbn [fst snd].
  rewrite eff_bind_unfold. cbn [gets snd]. destruct (lo_lease f) as [l|].
  - rewrite eff_bind_unfold, on_world_leadership. cbn [ow_leadership].
    pose proof (release_settles l (ev_clock (ow_trace w)) (ow_leadership w)) as Hst.
    destruct (release_spec l (ev_clock (ow_trace w)) (ow_leadership w)); cbn [fst snd];
      (eexists _, _; split; [reflexivity | by split]).
  - eexists _, _. split; [reflexivity | by split].
Qed.

Lemma guarded_session_unfold fuel plan t s :
  let body := try_except (session dedup_window_seconds holder_id fuel plan t) (handle dedup_window_seconds fuel plan t) in
  guarded_session dedup_window_seconds holder_id fuel plan t s =
    match body s with
    | (Err EDiverge, s') => (Err EDiverge, s')
    | (Ok _, s') => finish_session holder_id plan t s'
    | (Err e, s') => (Err e, (finish_session holder_id plan t s').2)
    end.
Proof.
  cbv zeta. unfold guarded_session, try_finally. destruct (try_except _ _ s) as [[u|e] [w f]]; [done|].
  destruct (finish_session_spec plan t w f) as (r & w' & -> & _). by destruct e.
Qed.

Lemma finish_traced ok plan t s : calls_traced ok s.1 (finish_session holder_id plan t s).2.1.
Proof.
  destruct s as [w f]. destruct (finish_session_spec plan t w f) as (r & w' & -> & Hf). cbn [fst snd].
  unfold calls_traced. rewrite (fin_trace _ _ _ _ Hf). apply (clock_within ok).
Qed.

(** Around a body that stays within [R] on traces, so does the session. *)
Lemma guarded_traced ok fuel plan t s :
  (let body := try_except (session dedup_window_seconds holder_id fuel plan t) (handle dedup_window_seconds fuel plan t) in
   calls_traced ok s.1 (body s).2.1) →
  calls_traced ok s.1 (guarded_session dedup_window_seconds holder_id fuel plan t s).2.1.
Proof.
  cbv zeta. rewrite guarded_session_unfold. cbv zeta. intros Hb.
  destruct (try_except _ _ s) as [[u|e] s']; cbn [snd] in Hb.
  - etrans; [exact Hb | apply finish_traced].
  - assert (calls_traced ok s.1 (finish_session holder_id plan t s').2.1) as Hall
      by (etrans; [exact Hb | apply finish_traced]).
    by destruct e.
Qed.

Definition no_hook (c : EnvCall) : Prop := match c with EHook _ _ _ => False | _ => True end.

(** With the kill switch on, the session fails before its first call. *)
Lemma session_active fuel plan t s :
  kw_active (lo_kill_switch s.2) = true →
  ∃ e s', session dedup_window_seconds holder_id fuel plan t s = (Err e, s') ∧ e ≠ EDiverge ∧ ow_trace s'.1 = ow_trace s.1.
Proof.
  intros Hk. destruct (take_leadership_active plan t s Hk) as [e He].
  pose proof (take_leadership_silent plan t s) as [Hs _].
  pose proof (take_leadership_settles holder_id plan t s) as Hd.
  unfold session. rewrite eff_bind_unfold.
  destruct (take_leadership holder_id plan t s) as [[u|e'] s']; [done|].
  exists e', s'. split; [done|]. split; [intros ->; done | done].
Qed.

End contract.

(** ** A small plan and its environment *)

Definition short_plan : SessionPlan :=
  {| pl_session_id := "session-0001"; pl_run_id := "run-1"; pl_trading_date := Date 2026 1 5;
     pl_recorder_warmup_at := 1 * SECOND; pl_feature_window_start_at := 2 * SECOND;
     pl_feature_snapshot_at := 3 * SECOND; pl_evaluator_cutoff_at := 4 * SECOND;
     pl_eligibility_lock_at := 5 * SECOND; pl_regular_session_open_at := 6 * SECOND;
     pl_new_entry_cutoff_at := 7 * SECOND; pl_mandatory_flatten_at := 8 * SECOND;
     pl_final_flatten_deadline_at := 20 * SECOND; pl_policy := default_orchestration_policy;
     pl_configuration_hash := sample_session_hash |}.

(** A clock that moves by a second per sleep, and a broker without positions. *)
Definition quiet_env : Env :=
  {| ev_clock h := count is_sleep h * SECOND;
     ev_discover_daybreak_targets _ _ := Ok []; ev_cancel_daybreak_orders _ _ := Ok 0;
     ev_list_positions _ _ := Ok []; ev_close_position _ p := Ok (sample_close p);
     ev_health _ _ _ := Err (ERuntime "probe down"); ev_hook _ _ _ _ _ := Ok []; ev_send _ _ := Ok tt |}.

Lemma count_nonneg f h : 0 <= count f h.
Proof. unfold count, len. lia. Qed.
Lemma count_app f (h t : trace) : count f (h ++ t) = count f h + count f t.
Proof. unfold count, len. rewrite filter_app, length_app. lia. Qed.

Abbreviation quiet_run := (@Session.run quiet_env sample_session_uuid (λ _, "") null_session_dump null_session_dump
  null_session_dump null_session_dump null_session_dump null_session_dump null_session_dump 300 "holder").

Lemma run_ends_and_releases_witness :
  ∃ n, ∀ k, (n <= k)%nat →
    quiet_run k short_plan None empty_orch_world = quiet_run n short_plan None empty_orch_world ∧
    (quiet_run n short_plan None empty_orch_world).1 ≠ Err EDiverge ∧
    lr_leases (ow_leadership (quiet_run n short_plan None empty_orch_world).2) !! pl_session_id short_plan = None.
Proof.
  destruct (@run_ends_and_releases quiet_env sample_session_uuid (λ _, "") null_session_dump null_session_dump
    null_session_dump null_session_dump null_session_dump null_session_dump null_session_dump 300 "holder"
    short_plan None empty_orch_world) as [n Hn].
  - intros h t. unfold ev_clock, quiet_env. rewrite count_app. pose proof (count_nonneg is_sleep t). unfold SECOND. lia.
  - intros h d. unfold ev_clock, quiet_env. rewrite count_app. change (count is_sleep [ESleep d]) with 1. unfold SECOND. lia.
  - intros k l. unfold empty_orch_world, ow_leadership, empty_leadership, lr_leases. by rewrite lookup_empty.
  - exists n. intros k Hk. destruct (Hn k Hk) as (E & Hd & Hl). split; [exact E|]. split; [exact Hd|].
    apply eq_None_not_Some. intros [c Hc]. destruct (Hl c Hc) as (c0 & Hc0 & _). discriminate Hc0.
Defined.

Definition stopped : KillSwitchState :=
  {| kw_session_id := "session-0001"; kw_active := true; kw_activated_at := Some 0;
     kw_reason := Some KS_DATABASE_UNHEALTHY; kw_details := PDict []; kw_reset_required := true;
     kw_state_hash := "" |}.
Definition stopped_world : OrchWorld :=
  {| ow_repo := set_or_kill_switches [("", stopped)] empty_orchestration_repository;
     ow_leadership := empty_leadership; ow_last_sent := ∅; ow_trace := []; ow_lease := None;
     ow_last_renewed_at := None |}.

