(* ===== verification/SessionVerdict.v ===== *)
(** * SessionVerdict: what the result of a session run means

    A session is reported closed only after a complete flatten; every other
    result carries the reason, and a kill switch that a later run will find. *)
From Stdlib Require Import Ascii String.
From S2P Require Import Prelude Numerics PyStr PyTime Stores Contracts Canonical PyVal RiskModels ExecModels OrchModels OrchEnv Leadership Flatten Session SessionFacts SessionContract.

#[local] Open Scope Z_scope.

(** ** The kill switches on record *)

Lemma dict_set_elem {A} k (v : A) d : (k, v) ∈ dict_set k v d ∨ ∃ k', (k', v) ∈ dict_set k v d.
Proof.
  induction d as [|[k' v'] d IH]; cbn [dict_set]; [left; set_solver|].
  destruct (String.eqb k' k); [right; exists k'; set_solver|].
  destruct IH as [IH|[x IH]]; [left | right; exists x]; set_solver.
Qed.

Lemma save_kill_switch_saved k s u s' :
  sessions.save_kill_switch k s = (Ok u, s') → k ∈ map snd (or_kill_switches s').
Proof.
  unfold sessions.save_kill_switch. rewrite eff_bind_unfold. cbn [gets].
  destruct (collides _ _); [done|]. intros [= _ <-]. simpl.
  destruct (dict_set_elem (kw_state_hash k) k (or_kill_switches s)) as [E|[x E]];
    apply list_elem_of_In, (in_map snd), list_elem_of_In in E; exact E.
Qed.

(** Calls may be made; no kill switch is saved. *)
Definition settled_switches (w w' : OrchWorld) : Prop :=
  or_kill_switches (ow_repo w') = or_kill_switches (ow_repo w) ∧ calls_within (λ _, True) (ow_trace w) (ow_trace w').

#[export] Instance settled_switches_preorder : PreOrder settled_switches.
Proof.
  split; [by intros w|]. intros a b c [E1 H1] [E2 H2]. split; [congruence | by etrans].
Qed.

Section verdict.
Context `{Env} `{Uuid5} `{SummaryError}.
Context `{Dump HealthSnapshot} `{Dump SessionPosition} `{Dump FlattenOrder} `{Dump KillSwitchState}.
Context `{Dump FlattenResult} `{Dump PhaseRecord} `{Dump AlertRecord}.
Context (dedup_window_seconds : Z) (holder_id : string).
Implicit Types (plan : SessionPlan) (w : OrchWorld) (h : trace).

Lemma on_trace_settled {A} (m : eff trace A) : evolves (calls_within (λ _, True)) m → evolves settled_switches (on_trace m).
Proof. intros Hm w. split; [done | apply Hm]. Qed.
Lemma on_sessions_settled {A} (m : eff OrchestrationRepository A) :
  evolves (λ s s', or_kill_switches s' = or_kill_switches s) m → evolves settled_switches (on_sessions m).
Proof. intros Hm w. split; [apply Hm | reflexivity]. Qed.

Lemma append_phase_switches r s : or_kill_switches (sessions.append_phase r s).2 = or_kill_switches s.
Proof.
  unfold sessions.append_phase. rewrite eff_bind_unfold. cbn [modify]. rewrite eff_bind_unfold. cbn [gets].
  destruct (last _); destruct (_ =? _); done.
Qed.

Lemma now_settled : evolves settled_switches now_.
Proof. apply on_trace_settled, clock_within. Qed.
Lemma phase_settled plan ph t t' d : evolves settled_switches (phase plan ph t t' d).
Proof.
  unfold phase. apply evolves_bind; [apply _ | by apply on_sessions_settled | intros items].
  apply on_sessions_settled. intros s. apply append_phase_switches.
Qed.
Lemma emit_critical_settled plan code m now : evolves settled_switches (emit_critical dedup_window_seconds plan code m now).
Proof.
  unfold emit_critical, emit. apply evolves_bind; [apply _ | |].
  - apply evolves_bind; [apply _ | by apply evolves_gets, _ | intros p]. cbv zeta.
    destruct (match p with Some _ => _ | None => _ end); [by apply evolves_ret, _|].
    destruct (AlertRecord_ok _); [|by apply evolves_raise, _].
    apply evolves_bind; [apply _ | by intros w | intros _].
    apply evolves_bind; [apply _ | by apply on_trace_settled, call_within | intros _]. by apply evolves_ret, _.
  - intros [a|]; [by apply on_sessions_settled | by apply evolves_ret, _].
Qed.
Lemma run_flatten_settled k plan now m : evolves settled_switches (run_flatten k plan now m).
Proof.
  unfold run_flatten. apply evolves_bind; [apply _ | | intros t].
  { destruct now; [by apply evolves_ret, _ | apply now_settled]. }
  apply evolves_bind; [apply _ | apply on_trace_settled, flatten_within | intros r].
  apply evolves_bind; [apply _ | apply phase_settled | intros _].
  apply evolves_bind; [apply _ | by apply on_sessions_settled | intros _]. by apply evolves_ret, _.
Qed.

(** ** The verdict *)

(** Between the two histories the broker was asked for the positions to close. *)
Definition discovered (h0 h : trace) : Prop := ∃ l, h = h0 ++ l ∧ EDiscover ∈ l.

Lemma discovered_more h0 h h' : discovered h0 h → calls_within (λ _, True) h h' → discovered h0 h'.
Proof. intros (l & -> & Hl) (k & -> & _). exists (l ++ k). rewrite app_assoc. split; [done | set_solver]. Qed.
Lemma discovered_before h0 h h' : calls_within (λ _, True) h0 h → discovered h h' → discovered h0 h'.
Proof. intros (l & -> & _) (k & -> & Hk). exists (l ++ k). rewrite app_assoc. split; [done | set_solver]. Qed.

Lemma flatten_discovers k plan now m h : discovered h (flatten k plan now m h).2.
Proof.
  apply discovered_more with (h ++ [EDiscover]); [exists [EDiscover]; split; [done | set_solver]|].
  unfold flatten.
  match goal with |- calls_within _ _ ((?m ≫= ?f) h).2 =>
    change (calls_within (λ _, True) (m h).2 ((m ≫= f) h).2) end.
  apply (evolves_after _). intros [d s].
  unfold attempt, list_positions.
  repeat first [apply close_uncovered_within | apply verify_within | within_step].
Qed.

Lemma run_flatten_discovers k plan now m w : discovered (ow_trace w) (ow_trace (run_flatten k plan now m w).2).
Proof.
  unfold run_flatten. rewrite eff_bind_unfold.
  set (step := match now with Some t => mret t | None => now_ end).
  assert (∃ t w1, step w = (Ok t, w1) ∧ calls_within (λ _, True) (ow_trace w) (ow_trace w1)) as (t & w1 & -> & Hw).
  { unfold step. destruct now as [t|]; eexists _, _; (split; [reflexivity|]); [reflexivity | apply clock_within]. }
  apply (discovered_before _ _ _ Hw).
  pose proof (flatten_discovers k plan t m (ow_trace w1)) as Hd.
  eapply discovered_more; [exact Hd|].
  change (flatten k plan t m (ow_trace w1)).2 with (ow_trace (on_trace (flatten k plan t m) w1).2).
  match goal with |- calls_within _ (ow_trace (?m ?s).2) (ow_trace ((?m ≫= ?f) ?s).2) =>
    apply (evolves_after settled_switches m f s) end.
  intros r. apply evolves_bind; [apply _ | apply phase_settled | intros _].
  apply evolves_bind; [apply _ | by apply on_sessions_settled | intros _]. by apply evolves_ret, _.
Qed.

(** The reports a run may make, given the kill switch it started from, the kill
    switches on record at its end, and its calls. *)
Inductive verdict (k0 : KillSwitchState) (on_record : list KillSwitchState) (h0 h : trace)
    : SessionOutcome → SessionPhase → option FlattenResult → KillSwitchState → option string → Prop :=
  | verdict_closed o fr k :
      o ∈ [SO_COMPLETED; SO_NO_SETUPS; SO_BLOCKED] → fr_complete fr = true → discovered h0 h →
      verdict k0 on_record h0 h o SP_COMPLETED (Some fr) k None
  | verdict_open fr k :
      fr_complete fr = false → kw_active k = true → k ∈ on_record → discovered h0 h →
      verdict k0 on_record h0 h SO_FLATTEN_INCOMPLETE SP_KILLED (Some fr) k None
  | verdict_killed fr k m :
      k = k0 ∨ (kw_active k = true ∧ k ∈ on_record) → discovered h0 h →
      verdict k0 on_record h0 h SO_KILLED SP_KILLED fr k (Some m)
  | verdict_refused fr k m : verdict k0 on_record h0 h SO_BLOCKED SP_FAILED fr k (Some m).

Section run.
Context (k0 : KillSwitchState) (h0 : trace).
Abbreviation state := (OrchWorld * RunLocals)%type.
Implicit Types s : state.

Definition on_record s : list KillSwitchState := map snd (or_kill_switches (ow_repo s.1)).
Definition reached s : Prop := calls_within (λ _, True) h0 (ow_trace s.1).
Definition judged s : Prop :=
  verdict k0 (on_record s) h0 (ow_trace s.1) (lo_outcome s.2) (lo_final_phase s.2) (lo_flatten_result s.2)
    (lo_kill_switch s.2) (lo_error_message s.2).

(** The kill switch of the run is the one it started from, or on record. *)
Definition switch_known s : Prop :=
  lo_kill_switch s.2 = k0 ∨ (kw_active (lo_kill_switch s.2) = true ∧ lo_kill_switch s.2 ∈ on_record s).

(** Where an exception leaves the session. *)
Definition broken (e : exn) s : Prop := reached s ∧ ∀ m, e = EPersistentKillSwitch m → switch_known s.

(** Nothing has failed so far. *)
Definition undisturbed s : Prop := reached s ∧ lo_kill_switch s.2 = k0 ∧ lo_error_message s.2 = None.

(** Calls are made; the kill switch and the error message stay. *)
Definition steady s s' : Prop :=
  calls_within (λ _, True) (ow_trace s.1) (ow_trace s'.1) ∧
  lo_kill_switch s'.2 = lo_kill_switch s.2 ∧ lo_error_message s'.2 = lo_error_message s.2.
#[export] Instance steady_preorder : PreOrder steady.
Proof. split; [by intros s|]. intros a b c (?&?&?) (?&?&?). split; [by etrans | split; congruence]. Qed.

Lemma steady_undisturbed {A} (m : run_ A) : evolves steady m → triple undisturbed m (λ _, undisturbed) broken.
Proof.
  intros Hm s (Hr & Hk & He). specialize (Hm s). destruct (m s) as [[a|e] s']; destruct Hm as (Ht & Hk' & He');
    unfold undisturbed, broken, reached, switch_known in *; cbn [snd] in *.
  - split; [by etrans | split; congruence].
  - split; [by etrans|]. intros _ _. left. congruence.
Qed.

Lemma steady_world {A} (m : orch A) : evolves (calls_traced (λ _, True)) m → evolves steady (on_world m).
Proof. intros Hm s. split; [apply Hm | done]. Qed.
Lemma steady_locals g :
  (∀ f, lo_kill_switch (g f) = lo_kill_switch f) → (∀ f, lo_error_message (g f) = lo_error_message f) →
  evolves steady (locals g).
Proof. intros Hk He s. split; [reflexivity | by split; simpl]. Qed.

Ltac steady_step :=
  match goal with
  | |- evolves steady (locals _) => by apply steady_locals
  | |- evolves steady (on_world (wait_until _ _ _)) =>
      apply steady_world, (wait_until_frame (λ _, True) (calls_traced (λ _, True)))
  | |- evolves steady (on_world (preflight _ _)) =>
      apply steady_world, (preflight_frame (λ _, True) (calls_traced (λ _, True)))
  | |- evolves steady (on_world now_) => apply steady_world, (now_frame (λ _, True) (calls_traced (λ _, True)))
  | |- evolves steady (on_world (run_phase _ _ (hook _ _))) =>
      apply steady_world, (run_phase_frame (λ _, True) (calls_traced (λ _, True)));
      intros; by apply (hook_frame (λ _, True) (calls_traced (λ _, True)))
  | |- evolves steady (on_world (capture_and_evaluate _ _)) =>
      by apply steady_world, (capture_frame (λ _, True) (calls_traced (λ _, True)))
  | _ => within_step
  end.

Lemma record_managed_steady l : evolves steady (record_managed l).
Proof. induction l as [|[x v] l IH]; cbn [record_managed]; repeat first [apply IH | steady_step]. Qed.
Lemma trade_steady k plan : evolves steady (trade k plan).
Proof. unfold trade. repeat first [apply record_managed_steady | steady_step]. Qed.

Lemma take_leadership_steady plan t : evolves steady (take_leadership holder_id plan t).
Proof.
  unfold take_leadership. steady_step; [apply steady_world; intros w; apply (reflexivity (ow_trace w)) |].
  destruct a; [|by steady_step]. steady_step; [by steady_step|]. steady_step; [apply steady_world; intros w; apply (reflexivity (ow_trace w)) |].
  steady_step; [apply steady_world, (phase_frame (λ _, True) (calls_traced (λ _, True))); apply _|]. 
  repeat steady_step.
Qed.

(** The approved branch that returns has completed its trading. *)
Lemma trade_completes k plan : triple (λ _, True) (trade k plan) (λ _ s, lo_outcome s.2 = SO_COMPLETED) anyhow.
Proof.
  assert (∀ A (m : run_ A), triple (λ _, True) m (λ _ _, True) anyhow) as Hany
    by (intros A m s _; by destruct (m s) as [[?|?] ?]).
  unfold trade. do 4 (eapply triple_bind; [apply Hany | intros ?; cbv beta]).
  destruct (_ <? _); [by intros s _|]. do 2 (eapply triple_bind; [apply Hany | intros ?; cbv beta]).
  eapply triple_bind; [apply Hany | intros now; cbv beta]. destruct (_ <? _); [by intros s _|].
  eapply triple_bind; [apply Hany | intros ?; cbv beta].
  apply triple_bind with (R := λ _ s, lo_outcome s.2 = SO_COMPLETED); [by intros s _ | intros _].
  destruct (truthy _); [by intros s _ | by intros s Hs].
Qed.

Definition closed_outcome (o : SessionOutcome) : Prop := o ∈ [SO_COMPLETED; SO_NO_SETUPS; SO_BLOCKED].
Definition to_close s : Prop := undisturbed s ∧ closed_outcome (lo_outcome s.2).

Lemma undisturbed_world {A} (m : orch A) (L : RunLocals → Prop) :
  evolves (calls_traced (λ _, True)) m →
  triple (λ s, undisturbed s ∧ L s.2) (on_world m) (λ _ s, undisturbed s ∧ L s.2) broken.
Proof.
  intros Hm s [Hu HL]. pose proof (steady_undisturbed _ (steady_world m Hm) s Hu) as Hs.
  destruct s as [w f]. unfold on_world in *. cbn [fst snd] in *. by destruct (m w) as [[?|?] ?].
Qed.

(** After a flatten. *)
Definition flattened s : Prop := undisturbed s ∧ discovered h0 (ow_trace s.1) ∧ closed_outcome (lo_outcome s.2).

Lemma flattened_world {A} (m : orch A) (L : RunLocals → Prop) :
  evolves (calls_traced (λ _, True)) m →
  triple (λ s, flattened s ∧ L s.2) (on_world m) (λ _ s, flattened s ∧ L s.2) broken.
Proof.
  intros Hm s [(Hu & Hd & Ho) HL]. pose proof (steady_undisturbed _ (steady_world m Hm) s Hu) as Hs.
  pose proof (Hm s.1) as Ht. destruct s as [w f]. unfold on_world in *. cbn [fst snd] in *.
  destruct (m w) as [[?|?] w']; [|done]. split; [|done]. split; [done|]. split; [|done].
  by eapply discovered_more.
Qed.

Lemma complete_flatten_judged plan res :
  fr_complete res = true →
  triple (λ s, flattened s ∧ lo_flatten_result s.2 = Some res)
    (on_world (phase plan SP_RECONCILIATION (fr_completed_at res) None (PDict [("flatten_complete", PBool true)])) ;;
     now ← on_world now_;
     f ← gets snd;
     on_world (phase plan SP_COMPLETED now None (PDict [("outcome", PStr (SessionOutcome_value (lo_outcome f)))])) ;;
     locals (set_final_phase SP_COMPLETED))
    (λ _, judged) broken.
Proof.
  intros Hc. set (L f := lo_flatten_result f = Some res).
  apply triple_bind with (R := λ _ s, flattened s ∧ L s.2).
  { by apply (flattened_world _ L), (phase_frame (λ _, True) (calls_traced (λ _, True))). }
  intros _. apply triple_bind with (R := λ _ s, flattened s ∧ L s.2).
  { apply (flattened_world _ L), (now_frame (λ _, True) (calls_traced (λ _, True))). }
  intros now. apply triple_bind with (R := λ _ s, flattened s ∧ L s.2); [by intros s Hs|]. intros f.
  apply triple_bind with (R := λ _ s, flattened s ∧ L s.2).
  { by apply (flattened_world _ L), (phase_frame (λ _, True) (calls_traced (λ _, True))). }
  intros _ [w g] [(Hu & Hd & Ho) HL]. destruct Hu as (_ & _ & He). unfold L in HL. cbn [fst snd] in *.
  unfold judged. cbn. rewrite HL, He. by apply verdict_closed.
Qed.

Lemma incomplete_flatten_judged plan res k :
  fr_complete res = false → kw_active k = true →
  triple (λ s, flattened s ∧ lo_flatten_result s.2 = Some res)
    (locals (set_kill_switch k) ;;
     on_world (on_sessions (sessions.save_kill_switch k)) ;;
     on_world (emit_critical dedup_window_seconds plan "FLATTEN_INCOMPLETE"
                 "Mandatory end-of-day flatten did not complete." (fr_completed_at res)) ;;
     locals (set_outcome SO_FLATTEN_INCOMPLETE SP_KILLED))
    (λ _, judged) broken.
Proof.
  intros Hc Hk [w f] [((Hr & _ & He) & Hd & Ho) HL]. cbn [fst snd] in *.
  rewrite eff_bind_unfold. unfold locals at 1. cbn [fst snd].
  rewrite eff_bind_unfold. unfold on_world at 1, on_sessions at 1. cbn [fst snd].
  pose proof (λ u r', save_kill_switch_saved k (ow_repo w) u r') as Hsaved.
  destruct (sessions.save_kill_switch k (ow_repo w)) as [[u|e] r] eqn:Es; cbn [fst snd].
  2: { split; [exact Hr|]. intros m ->. unfold sessions.save_kill_switch in Es.
       rewrite eff_bind_unfold in Es. cbn [gets] in Es. destruct (collides _ _); discriminate Es. }
  specialize (Hsaved u r eq_refl). rewrite eff_bind_unfold. unfold on_world at 1. cbn [fst snd].
  match goal with |- context [emit_critical _ plan ?c ?m ?t ?w0] =>
    pose proof (emit_critical_settled plan c m t w0) as [Hsw Ht];
    destruct (emit_critical dedup_window_seconds plan c m t w0) as [[v|e] w1] end.
  - unfold judged, on_record. cbn. rewrite HL, He. cbn in Hsw, Ht. rewrite Hsw, Es.
    apply verdict_open; [exact Hc | exact Hk | exact Hsaved |]. exact (discovered_more _ _ _ Hd Ht).
  - split; [unfold reached; etrans; [exact Hr | exact Ht]|].
    intros _ _. right. unfold on_record. cbn in Hsw |- *. by rewrite Hsw, Es.
Qed.

Lemma close_session_judged k plan :
  triple to_close (close_session dedup_window_seconds k plan) (λ _, judged) broken.
Proof.
  unfold close_session. apply triple_bind with (R := λ _, to_close).
  { apply (undisturbed_world _ (λ f, closed_outcome (lo_outcome f))), (wait_until_frame (λ _, True) (calls_traced (λ _, True))). }
  intros _. apply triple_bind with (R := λ _, to_close); [by intros s Hs | intros f].
  apply triple_bind with (R := λ _, flattened).
  { intros s [Hu Ho]. pose proof (run_flatten_discovers k plan None (lo_managed_quantities f) s.1) as Hd.
    pose proof (undisturbed_world (run_flatten k plan None (lo_managed_quantities f)) (λ f, closed_outcome (lo_outcome f))
      ltac:(apply (run_flatten_frame (λ _, True) (calls_traced (λ _, True)))) s (conj Hu Ho)) as Hs.
    destruct s as [w g]. unfold on_world in *. cbn [fst snd] in *.
    destruct (run_flatten _ _ _ _ w) as [[res|e] w'] eqn:E; [|done]. destruct Hs as [Hu' Ho'].
    split; [done|]. split; [|done]. destruct Hu as (Hr & _). exact (discovered_before _ _ _ Hr Hd). }
  intros res. apply triple_bind with (R := λ _ s, flattened s ∧ lo_flatten_result s.2 = Some res).
  { intros s Hs. split; [exact Hs | done]. }
  intros _. apply triple_bind with (R := λ _ s, flattened s ∧ lo_flatten_result s.2 = Some res).
  { by intros s Hs. }
  intros _. destruct (fr_complete res) eqn:Ec; cbn [negb]; cbv iota.
  - by apply complete_flatten_judged.
  - cbv zeta. by apply incomplete_flatten_judged.
Qed.

Lemma session_judged k plan t :
  triple undisturbed (session dedup_window_seconds holder_id k plan t) (λ _, judged) broken.
Proof.
  unfold session. apply triple_bind with (R := λ _, undisturbed).
  { apply steady_undisturbed, take_leadership_steady. }
  intros _. apply triple_bind with (R := λ _, undisturbed); [apply steady_undisturbed; steady_step | intros d].
  apply triple_bind with (R := λ _, to_close); [|intros _; apply close_session_judged].
  assert (∀ o ph, closed_outcome o → triple undisturbed (locals (set_outcome o ph)) (λ _, to_close) broken) as Hset
    by (intros o ph Ho s Hu; by split).
  destruct (evaluation_summary d) as [[st n]|].
  2: { intros s (Hr & Hk & _). split; [exact Hr|]. discriminate. }
  destruct (bool_decide _); [apply Hset; set_solver|].
  destruct (_ || _); [apply Hset; set_solver|].
  intros s Hu. pose proof (trade_completes k plan s I) as Ho.
  pose proof (steady_undisturbed _ (trade_steady k plan) s Hu) as Hs.
  destruct (trade k plan s) as [[u|e] s']; [|done]. split; [done|]. rewrite Ho. set_solver.
Qed.

(** A handler judges: it records the failure, and a kill switch. *)
Definition killable m s : Prop := reached s ∧ switch_known s ∧ lo_error_message s.2 = Some m.

Lemma emergency_flatten_judged k plan now m :
  triple (λ s, killable m s ∧ lo_outcome s.2 = SO_KILLED ∧ lo_final_phase s.2 = SP_KILLED)
    (emergency_flatten k plan now) (λ _, judged) anyhow.
Proof.
  intros [w f] [(Hr & Hk & He) [Ho Hp]]. cbn [fst snd] in *. unfold emergency_flatten, try_except.
  rewrite eff_bind_unfold. cbn [gets snd]. rewrite eff_bind_unfold. unfold on_world at 1. cbn [fst snd].
  pose proof (run_flatten_discovers k plan (Some now) (lo_managed_quantities f) w) as Hd.
  pose proof (run_flatten_settled k plan (Some now) (lo_managed_quantities f) w) as [Hsw _].
  destruct (run_flatten _ _ _ _ w) as [[res|e] w1]; cbn [fst snd] in *.
  - unfold locals. cbn. unfold judged, on_record. cbn. rewrite Ho, Hp, He, Hsw.
    apply verdict_killed; [exact Hk | exact (discovered_before _ _ _ Hr Hd)].
  - assert (∀ x, judged (w1, set_error x f)) as Hj.
    { intros x. unfold judged, on_record. cbn. rewrite Ho, Hp, Hsw.
      apply verdict_killed; [exact Hk | exact (discovered_before _ _ _ Hr Hd)]. }
    destruct e; try apply Hj. done.
Qed.

(** An alert changes neither the locals nor the kill switches on record. *)
Lemma emit_critical_killable plan code x now m :
  triple (killable m) (on_world (emit_critical dedup_window_seconds plan code x now)) (λ _, killable m) anyhow.
Proof.
  intros [w f] (Hr & Hk & He). unfold on_world. cbn [fst snd].
  pose proof (emit_critical_settled plan code x now w) as [Hsw Ht].
  destruct (emit_critical _ _ _ _ _ w) as [[?|?] w1]; [|done]. cbn [snd] in *. split; [unfold reached in *; cbn in *; by etrans|].
  split; [|done]. unfold switch_known, on_record in *. cbn in *. by rewrite Hsw.
Qed.

Lemma reached_now w f : reached (w, f) → reached ((now_ w).2, f).
Proof. intros Hr. unfold reached in *. etrans; [exact Hr | apply (clock_within (λ _, True))]. Qed.

Lemma killed_judged k plan now m :
  triple (killable m) (locals (set_outcome SO_KILLED SP_KILLED) ;; emergency_flatten k plan now) (λ _, judged) anyhow.
Proof.
  apply triple_bind with (R := λ _ s, killable m s ∧ lo_outcome s.2 = SO_KILLED ∧ lo_final_phase s.2 = SP_KILLED).
  - by intros s (Hr & Hk & He).
  - intros _. apply emergency_flatten_judged.
Qed.

Lemma handle_failure_judged k plan m : triple reached (handle_failure dedup_window_seconds k plan m) (λ _, judged) anyhow.
Proof.
  intros [w f] Hr. unfold handle_failure. rewrite eff_bind_unfold.
  unfold on_world at 1, now_, on_trace, clock. cbn [fst snd]. pose proof (reached_now w f Hr) as Hr1.
  change (now_ w).2 with (on_trace clock w).2 in Hr1. unfold on_trace, clock in Hr1. cbn [fst snd] in Hr1.
  set (w1 := {| ow_repo := _ |}) in *. clearbody w1. cbv zeta.
  rewrite eff_bind_unfold. unfold locals at 1. cbn [fst snd]. rewrite eff_bind_unfold. unfold locals at 1. cbn [fst snd].
  set (ks := activate_kill_switch _ _ _ _). assert (kw_active ks = true) as Hk by reflexivity.
  clearbody ks. rewrite eff_bind_unfold. unfold on_world at 1, on_sessions at 1. cbn [fst snd].
  pose proof (λ u r', save_kill_switch_saved ks (ow_repo w1) u r') as Hsaved.
  destruct (sessions.save_kill_switch ks (ow_repo w1)) as [[u|e] r] eqn:Es; cbn [fst snd]; [|done].
  specialize (Hsaved u r eq_refl).
  match goal with |- context [(?c ≫= ?g) ?s0] => 
    apply (triple_bind (killable m) c g (λ _, killable m) (λ _, judged) anyhow) end.
  - apply emit_critical_killable.
  - intros _. apply killed_judged.
  - split; [exact Hr1|]. split; [|done]. right. split; [exact Hk|]. unfold on_record. cbn. by rewrite Es.
Qed.

Lemma handle_judged k plan t e c :
  handle dedup_window_seconds k plan t e = Some c → triple (broken e) c (λ _, judged) anyhow.
Proof.
  destruct e; cbn [handle]; intros E; try discriminate E; injection E as <-.
  1-11,14: intros s [Hr _]; by apply handle_failure_judged.
  - intros s _. unfold handle_leadership.
    apply (triple_bind (λ _, True) _ _ (λ _ s, named msg s.2) (λ _, judged) anyhow); [by intros s' _ | | done].
    intros _. apply triple_bind with (R := λ _ s, named msg s.2 ∧ lo_outcome s.2 = SO_BLOCKED ∧ lo_final_phase s.2 = SP_FAILED).
    { by intros s' Hs. }
    intros _ [w f] (He & Ho & Hp). unfold on_world. cbn [fst snd] in *.
    destruct (emit_critical _ _ _ _ _ w) as [[?|?] w1]; [|done].
    unfold judged. cbn. rewrite Ho, Hp, He. apply verdict_refused.
  - intros [w f] [Hr Hk]. specialize (Hk msg eq_refl). unfold handle_persistent. rewrite eff_bind_unfold.
    unfold on_world at 1, now_, on_trace, clock. cbn [fst snd]. pose proof (reached_now w f Hr) as Hr1.
    change (now_ w).2 with (on_trace clock w).2 in Hr1. unfold on_trace, clock in Hr1. cbn [fst snd] in Hr1.
    rewrite eff_bind_unfold. unfold locals at 1. cbn [fst snd]. rewrite eff_bind_unfold. unfold locals at 1. cbn [fst snd].
    match goal with |- context [(?c ≫= ?g) ?s0] =>
      apply (triple_bind (λ s, killable msg s ∧ lo_outcome s.2 = SO_KILLED ∧ lo_final_phase s.2 = SP_KILLED) c g
        (λ _ s, killable msg s ∧ lo_outcome s.2 = SO_KILLED ∧ lo_final_phase s.2 = SP_KILLED) (λ _, judged) anyhow) end.
    + intros s [Hs Ho]. pose proof (emit_critical_killable plan "PERSISTENT_KILL_SWITCH_ACTIVE" msg (ev_clock (ow_trace w)) msg s Hs) as Hm.
      destruct s as [w1 f1]. unfold on_world in *. cbn [fst snd] in *.
      by destruct (emit_critical _ _ _ _ _ w1) as [[?|?] ?].
    + intros _. apply emergency_flatten_judged.
    + split; [|done]. split; [exact Hr1|]. by split.
Qed.

Lemma guarded_judged k plan t s :
  undisturbed s →
  match guarded_session dedup_window_seconds holder_id k plan t s with
  | (Ok r, s') => verdict k0 (on_record s') h0 (ow_trace s'.1) (sr_outcome r) (sr_final_phase r)
                    (sr_flatten_result r) (sr_kill_switch r) (sr_error_message r)
  | _ => True
  end.
Proof.
  intros Hu. rewrite guarded_session_unfold. cbv zeta. set (body := try_except _ _).
  assert (triple undisturbed body (λ _, judged) anyhow) as Hbody.
  { apply triple_try with (E' := broken); [apply session_judged|]. intros e s' Hb.
    destruct (handle _ _ _ _ e) as [c|] eqn:E; [by eapply handle_judged | done]. }
  specialize (Hbody s Hu). destruct (body s) as [[u|e] [w f]]; [|by destruct e].
  destruct (finish_session_spec holder_id plan t w f) as (r & w' & -> & Hfin). unfold judged, on_record in *.
  cbn [fst snd] in *. destruct Hfin as [-> -> -> -> -> Ht ->].
  destruct Hbody as [o fr x Ho Hc Hd|fr x Hc Hx Hin Hd|fr x m Hx Hd|].
  - apply verdict_closed; [done..|]. eapply discovered_more; [exact Hd | rewrite Ht; apply (clock_within (λ _, True))].
  - apply verdict_open; [done..|]. eapply discovered_more; [exact Hd | rewrite Ht; apply (clock_within (λ _, True))].
  - apply verdict_killed; [done|]. eapply discovered_more; [exact Hd | rewrite Ht; apply (clock_within (λ _, True))].
  - apply verdict_refused.
Qed.
End run.


(** An exception, and no flatten. *)
Definition cut_short {A} w (x : result A * (OrchWorld * RunLocals)) : Prop :=
  is_ok x.1 = false ∧ ∃ l, ow_trace x.2.1 = ow_trace w ++ l ∧ EDiscover ∉ l.

Lemma emit_undelivered plan code m t w :
  (∀ h a, is_ok (ev_send h a) = false) → ow_last_sent w = ∅ →
  ∃ e w', emit_critical dedup_window_seconds plan code m t w = (Err e, w') ∧
    ∃ l, ow_trace w' = ow_trace w ++ l ∧ EDiscover ∉ l.
Proof.
  intros Hsend Hlast. unfold emit_critical, emit. rewrite !eff_bind_unfold. cbn [gets]. rewrite Hlast, lookup_empty.
  cbv zeta iota. set (a := alert_of _ _ _ _ _ _). clearbody a. destruct (AlertRecord_ok a).
  2: { eexists _, w. split; [reflexivity|]. exists []. rewrite app_nil_r. split; [done | set_solver]. }
  rewrite !eff_bind_unfold. cbn [modify]. rewrite !eff_bind_unfold. unfold on_trace at 1, env_call at 1. cbn [fst snd ow_trace set_last_sent].
  specialize (Hsend (ow_trace w) a).
  assert (∃ e, match ev_send (ow_trace w) a with Err EDiverge => Err (EOther "Exception" "") | x => x end
    = Err e) as [e ->] by (destruct (ev_send _ _) as [|[]]; [done|..]; by eexists).
  eexists _, _. split; [reflexivity|]. exists [ESendAlert a]. split; [done | set_solver].
Qed.

(** When the alert of a failure is not delivered, the failure handler ends
    before the emergency flatten. *)
Lemma undelivered_alert_skips_flatten k plan m w f :
  (∀ h a, is_ok (ev_send h a) = false) → ow_last_sent w = ∅ →
  cut_short w (handle_failure dedup_window_seconds k plan m (w, f)).
Proof.
  intros Hsend Hlast. unfold handle_failure. rewrite eff_bind_unfold.
  unfold on_world at 1, now_, on_trace, clock. cbn [fst snd]. cbv zeta.
  set (ks := activate_kill_switch _ _ _ _). clearbody ks.
  rewrite eff_bind_unfold. unfold locals at 1. cbn [fst snd]. rewrite eff_bind_unfold. unfold locals at 1. cbn [fst snd].
  rewrite eff_bind_unfold. unfold on_world at 1. cbn [fst snd].
  set (w1 := {| ow_repo := _ |}).
  assert (ow_last_sent (on_sessions (sessions.save_kill_switch ks) w1).2 = ∅) as Hl by exact Hlast.
  assert (ow_trace (on_sessions (sessions.save_kill_switch ks) w1).2 = ow_trace w ++ [EClock]) as Ht by done.
  destruct (on_sessions (sessions.save_kill_switch ks) w1) as [[u|e] w2]; cbn [fst snd] in *.
  2: { split; [done|]. exists [EClock]. split; [done | set_solver]. }
  rewrite eff_bind_unfold. unfold on_world at 1. cbn [fst snd].
  match goal with |- context [emit_critical _ _ ?c ?x ?t w2] =>
    destruct (emit_undelivered plan c x t w2 Hsend Hl) as (e & w3 & -> & l & Hw3 & Hn) end.
  split; [done|]. exists (EClock :: l). split; [cbn [fst snd]; rewrite Hw3, Ht; by rewrite <- app_assoc | set_solver].
Qed.
End verdict.

(** An unhealthy broker is put down to an unknown failure. *)
Example broker_unhealthy_is_unknown :
  reason_from_error ("RuntimeError: preflight failed: " +:+ KillSwitchReason_value KS_BROKER_UNHEALTHY) = KS_UNKNOWN_FAILURE.
Proof. reflexivity. Qed.
