(* ===== verification/SessionTrading.v ===== *)
(** * SessionTrading: when a session run trades

    The execution hook is reached at most once, behind the evaluation, the
    health probe at the lock, the opening and the entry cutoff. *)
From Stdlib Require Import Ascii String.
From S2P Require Import Prelude Numerics PyStr PyTime Stores Contracts Canonical PyVal RiskModels ExecModels OrchModels OrchEnv Leadership Flatten Session SessionFacts SessionContract.

#[local] Open Scope Z_scope.

Section trading.
Context `{Env} `{Uuid5} `{SummaryError}.
Context `{Dump HealthSnapshot} `{Dump SessionPosition} `{Dump FlattenOrder} `{Dump KillSwitchState}.
Context `{Dump FlattenResult} `{Dump PhaseRecord} `{Dump AlertRecord}.
Context (dedup_window_seconds : Z) (holder_id : string).
Implicit Types (plan : SessionPlan) (w : OrchWorld) (h : trace).

(** Any hook but the execution. *)
Definition no_trade (k : Hook) : Prop := k ≠ HK_SIZE_AND_EXECUTE.

(** The history [h] of a run begun at [h0] at which execution may be called at
    [t]: the evaluation approved one to three names and answered before its
    cutoff; after it, the probe answered healthy; after that, the clock read
    the opening or later, and next no later than the entry cutoff. *)
Definition cleared plan (h0 h : trace) (t : datetime) : Prop :=
  ∃ ha te toke d n hb th hl hc,
    h0 `prefix_of` ha ∧ ev_hook ha HK_EVALUATE plan te toke = Ok d ∧
    evaluation_summary d = Some ("approved"%string, n) ∧ 1 <= n <= 3 ∧
    ev_clock (ha ++ [EHook HK_EVALUATE te toke; EClock]) <= pl_evaluator_cutoff_at plan ∧
    ha ++ [EHook HK_EVALUATE te toke; EClock; EClock] `prefix_of` hb ∧
    ev_health hb plan th = Ok hl ∧ health_kill_reason hl plan (pl_policy plan) = None ∧
    hb ++ [EHealth th] `prefix_of` hc ∧
    pl_regular_session_open_at plan <= ev_clock hc ∧
    ev_clock (hc ++ [EClock]) <= pl_new_entry_cutoff_at plan ∧
    h = hc ++ [EClock; EClock; EClock] ∧ t = ev_clock (hc ++ [EClock; EClock]).

(** No execution between the two histories, or one, cleared. *)
Definition gated plan (h0 h : trace) : Prop :=
  calls_within no_trade h0 h ∨
  ∃ h1 t tok, calls_within no_trade h0 h1 ∧ cleared plan h0 h1 t ∧
    calls_within no_trade (h1 ++ [EHook HK_SIZE_AND_EXECUTE t tok]) h.

Lemma gated_more plan h0 h h' : gated plan h0 h → calls_within no_trade h h' → gated plan h0 h'.
Proof.
  intros [Hq|(h1 & t & tok & Hq & Hc & Ht)] Hm; [left; by etrans|].
  right. exists h1, t, tok. split; [done|]. split; [done|]. by etrans.
Qed.

Lemma within_prefix ok h h' : calls_within ok h h' → h `prefix_of` h'.
Proof. intros (l & -> & _). by apply prefix_app_r. Qed.
Lemma within_list ok h l : Forall (λ c, match c with EHook k _ _ => ok k | _ => True end) l → calls_within ok h (h ++ l).
Proof. intros Hl. by exists l. Qed.

(** ** The steps that returned *)

Lemma now_returned w : ∃ w1, now_ w = (Ok (ev_clock (ow_trace w)), w1) ∧ ow_trace w1 = ow_trace w ++ [EClock].
Proof. by eexists. Qed.

Lemma phase_trace plan ph t t' d w : ow_trace (phase plan ph t t' d w).2 = ow_trace w.
Proof. unfold phase. rewrite eff_bind_unfold. unfold sessions.list_phases. by rewrite on_sessions_gets. Qed.

(** A phase: the clock, the function under the token, the clock. *)
Lemma run_phase_trace plan ph f w :
  let out := run_phase plan ph f w in
  (∃ e, out.1 = Err e ∧ ow_trace out.2 = ow_trace w ++ [EClock]) ∨
  ∃ tok w1, ow_trace w1 = ow_trace w ++ [EClock] ∧
    let inner := f (ev_clock (ow_trace w)) tok w1 in
    match inner.1 with
    | Ok d => ow_trace out.2 = ow_trace inner.2 ++ [EClock] ∧ ∀ d', out.1 = Ok d' → d' = d
    | Err e => out.1 = Err e ∧ ow_trace out.2 = ow_trace inner.2
    end.
Proof.
  cbv zeta. unfold run_phase. rewrite eff_bind_unfold. destruct (now_returned w) as (w1 & -> & Hw1).
  set (t := ev_clock (ow_trace w)). clearbody t.
  rewrite eff_bind_unfold. pose proof (renew_leadership_trace plan t w1) as Hr.
  destruct (renew_leadership plan t w1) as [[u|e] w2]; cbn [snd] in Hr; [|left; exists e; split; [done | cbn [fst snd]; congruence]].
  rewrite eff_bind_unfold. cbn [gets]. destruct (ow_lease w2) as [l|]; [|left; eexists; split; [reflexivity | change (ow_trace w2 = ow_trace w ++ [EClock]); congruence]].
  right. exists (ll_fencing_token l), w2. split; [congruence|].
  rewrite eff_bind_unfold. destruct (f t (ll_fencing_token l) w2) as [[d|e] w3]; cbn [fst snd]; [|done].
  rewrite eff_bind_unfold. destruct (now_returned w3) as (w4 & -> & Hw4).
  rewrite eff_bind_unfold. pose proof (renew_leadership_trace plan (ev_clock (ow_trace w3)) w4) as Hr2.
  destruct (renew_leadership _ _ w4) as [[u'|e] w5]; cbn [fst snd] in *; [|split; [congruence | done]].
  rewrite eff_bind_unfold. pose proof (phase_trace plan ph t (Some (ev_clock (ow_trace w3))) (PDict d) w5) as Hp.
  destruct (phase _ _ _ _ _ w5) as [[v|e] w6]; cbn [fst snd] in *; [|split; [congruence | done]].
  split; [change (ow_trace w6 = ow_trace w3 ++ [EClock]); congruence | by intros d' [= <-]].
Qed.

Lemma run_hook_returned plan ph k w d w' :
  run_phase plan ph (hook plan k) w = (Ok d, w') →
  ∃ tok, let t := ev_clock (ow_trace w) in
    ow_trace w' = ow_trace w ++ [EClock; EHook k t tok; EClock] ∧
    ev_hook (ow_trace w ++ [EClock]) k plan t tok = Ok d.
Proof.
  intros E. pose proof (run_phase_trace plan ph (hook plan k) w) as Hr. cbv zeta in Hr. rewrite E in Hr. cbn [fst snd] in Hr.
  destruct Hr as [(e & [=] & _)|(tok & w1 & Hw1 & Hr)]. exists tok. cbv zeta.
  unfold hook, on_trace, env_call in Hr. cbn [fst snd ow_trace] in Hr. rewrite Hw1 in Hr.
  destruct (ev_hook _ _ _ _ _) as [d'|e]; [|destruct e; destruct Hr; discriminate].
  destruct Hr as [Ht Hd]. rewrite Ht, (Hd d eq_refl). split; [|done]. by rewrite <- !app_assoc.
Qed.

Lemma wait_until_returned k plan target w w' :
  wait_until k plan target w = (Ok tt, w') →
  ∃ h, ow_trace w' = h ++ [EClock] ∧ target <= ev_clock h ∧ calls_within no_trade (ow_trace w) h.
Proof.
  revert w. induction k as [|k IH]; intros w; [done|]. rewrite wait_until_step. cbv zeta.
  destruct (negb _) eqn:Ew.
  - bool_to_prop. intros E. apply (f_equal snd) in E. cbn [snd] in E. subst w'.
    exists (ow_trace w). split; [done|]. split; [lia | reflexivity].
  - intros E. apply eff_bind_Ok in E as ([] & w1 & E1 & E).
    pose proof (f_equal (λ x, ow_trace x.2) E1) as Et. cbv beta in Et. rewrite renew_leadership_trace in Et. cbn [snd] in Et.
    destruct (IH _ E) as (h & Ht & Hle & Hq). exists h. split; [done|]. split; [done|].
    etrans; [|exact Hq]. rewrite <- Et. unfold now_, on_trace, sleep, clock. cbn [fst snd ow_trace].
    rewrite <- !app_assoc. apply within_list. by repeat constructor.
Qed.

Lemma preflight_returned plan ph w w' :
  preflight plan ph w = (Ok tt, w') →
  ∃ hl, let t := ev_clock (ow_trace w) in
    ow_trace w' = ow_trace w ++ [EClock; EHealth t] ∧ ev_health (ow_trace w ++ [EClock]) plan t = Ok hl ∧
    health_kill_reason hl plan (pl_policy plan) = None.
Proof.
  unfold preflight. intros E. apply eff_bind_Ok in E as (t & w1 & E1 & E).
  destruct (now_returned w) as (w1' & En & Hw1). rewrite En in E1. injection E1 as <- <-.
  apply eff_bind_Ok in E as ([] & w2 & E2 & E).
  pose proof (f_equal (λ x, ow_trace x.2) E2) as Ht2. cbv beta in Ht2. rewrite renew_leadership_trace in Ht2. cbn [snd] in Ht2.
  apply eff_bind_Ok in E as (hl & w3 & E3 & E). unfold on_trace, env_call in E3. cbn [fst snd] in E3.
  exists hl. cbv zeta. rewrite <- Hw1, Ht2.
  destruct (ev_health (ow_trace w2) plan (ev_clock (ow_trace w))) as [x|e] eqn:Eh; [|destruct e; discriminate E3].
  injection E3 as <- <-. destruct (health_kill_reason x plan (pl_policy plan)) eqn:Er; [done|].
  split; [|done]. pose proof (f_equal (λ x, ow_trace x.2) E) as Ht. cbv beta in Ht. rewrite phase_trace in Ht. cbn [snd ow_trace] in Ht.
  rewrite <- Ht, <- Ht2, Hw1. by rewrite <- app_assoc.
Qed.

Lemma wait_and_run_returned k plan ph t hk w d w' :
  wait_and_run k plan ph t (hook plan hk) w = (Ok d, w') →
  ∃ h t' tok, calls_within no_trade (ow_trace w) h ∧ ow_trace w' = h ++ [EHook hk t' tok; EClock] ∧
    ev_hook h hk plan t' tok = Ok d.
Proof.
  unfold wait_and_run. intros E. apply eff_bind_Ok in E as ([] & w1 & E1 & E).
  destruct (wait_until_returned _ _ _ _ _ E1) as (h & Hh & _ & Hq).
  destruct (run_hook_returned _ _ _ _ _ _ E) as (tok & Ht & Hk). rewrite Hh in Ht, Hk.
  exists ((h ++ [EClock]) ++ [EClock]). eexists _, tok. split; [|split; [|exact Hk]].
  - etrans; [exact Hq|]. rewrite <- app_assoc. apply within_list. by repeat constructor.
  - rewrite Ht. by rewrite <- !app_assoc.
Qed.

(** The evaluation answered, before its cutoff. *)
Lemma capture_returned k plan w d w' :
  capture_and_evaluate k plan w = (Ok d, w') →
  ∃ h t tok, calls_within no_trade (ow_trace w) h ∧ ev_hook h HK_EVALUATE plan t tok = Ok d ∧
    ow_trace w' = h ++ [EHook HK_EVALUATE t tok; EClock; EClock] ∧
    ev_clock (h ++ [EHook HK_EVALUATE t tok; EClock]) <= pl_evaluator_cutoff_at plan.
Proof.
  unfold capture_and_evaluate. intros E.
  apply eff_bind_Ok in E as (u1 & w1 & E1 & E). pose proof (preflight_frame no_trade (calls_traced no_trade) plan SP_PREFLIGHT w) as F1.
  apply eff_bind_Ok in E as (u2 & w2 & E2 & E).
  pose proof (wait_and_run_frame no_trade (calls_traced no_trade) k plan SP_RECORDER_WARMUP (pl_recorder_warmup_at plan)
    (hook plan HK_WARMUP_RECORDER) ltac:(intros; by apply (hook_frame no_trade (calls_traced no_trade))) w1) as F2.
  apply eff_bind_Ok in E as (u3 & w3 & E3 & E).
  match type of E3 with wait_and_run _ _ ?ph ?at_time ?f _ = _ =>
    pose proof (wait_and_run_frame no_trade (calls_traced no_trade) k plan ph at_time f ltac:(intros; by apply evolves_ret, _) w2) as F3 end.
  apply eff_bind_Ok in E as (u4 & w4 & E4 & E).
  pose proof (wait_and_run_frame no_trade (calls_traced no_trade) k plan SP_FEATURE_FREEZE (pl_feature_snapshot_at plan)
    (hook plan HK_FREEZE_FEATURES) ltac:(intros; by apply (hook_frame no_trade (calls_traced no_trade))) w3) as F4.
  rewrite E1 in F1. rewrite E2 in F2. rewrite E3 in F3. rewrite E4 in F4. cbn [snd] in F1, F2, F3, F4.
  apply eff_bind_Ok in E as (ev & w5 & E5 & E).
  destruct (wait_and_run_returned _ _ _ _ _ _ _ _ E5) as (h & t & tok & Hq & Ht & Hk).
  apply eff_bind_Ok in E as (now & w6 & E6 & E).
  destruct (now_returned w5) as (w6' & En & Hw6). rewrite En in E6. injection E6 as <- <-.
  destruct (_ <? _) eqn:Ec; [done|]. bool_to_prop. injection E as <- <-.
  exists h, t, tok. split; [|split; [done|split]].
  - unfold calls_traced in *. etrans; [exact F1|]. etrans; [exact F2|]. etrans; [exact F3|]. by etrans.
  - rewrite Hw6, Ht. by rewrite <- app_assoc.
  - by rewrite <- Ht.
Qed.

(** ** The gate *)

Abbreviation calls s := (ow_trace (fst s)).
Abbreviation quiet := (run_frame (calls_traced no_trade)).

Ltac quiet_step :=
  match goal with
  | |- evolves quiet (locals _) => by apply (locals_frame no_trade (calls_traced no_trade))
  | |- evolves quiet (on_world now_) => apply on_world_frame, (now_frame no_trade (calls_traced no_trade))
  | |- evolves quiet (on_world (run_phase _ _ (hook _ _))) =>
      apply on_world_frame, (run_phase_frame no_trade (calls_traced no_trade));
      intros; by apply (hook_frame no_trade (calls_traced no_trade))
  | _ => within_step
  end.

Lemma gated_bind {A B} plan h0 (m : run_ A) (f : A → run_ B) s :
  calls_within no_trade h0 (calls s) → evolves quiet m →
  (∀ a s', m s = (Ok a, s') → calls_within no_trade h0 (calls s') → gated plan h0 (calls (f a s').2)) →
  gated plan h0 (calls ((m ≫= f) s).2).
Proof.
  intros Hq Hm Hf. specialize (Hm s). destruct Hm as [Hm _]. rewrite eff_bind_unfold.
  assert (calls_within no_trade h0 (calls (m s).2)) as Hq' by (etrans; [exact Hq | exact Hm]).
  destruct (m s) as [[a|e] s']; [by apply Hf | by left].
Qed.

Lemma on_world_returned {A} (m : orch A) s a s' :
  on_world m s = (Ok a, s') → m s.1 = (Ok a, s'.1).
Proof. unfold on_world. destruct (m s.1) as [r w]. intros [= -> <-]. done. Qed.

Lemma execution_gated plan h0 w :
  calls_within no_trade h0 (ow_trace w) →
  cleared plan h0 (ow_trace w ++ [EClock]) (ev_clock (ow_trace w)) →
  gated plan h0 (ow_trace (run_phase plan SP_EXECUTION (hook plan HK_SIZE_AND_EXECUTE) w).2).
Proof.
  intros Hq Hc.
  assert (calls_within no_trade h0 (ow_trace w ++ [EClock])) as Hq1
    by (etrans; [exact Hq | apply within_list; by repeat constructor]).
  pose proof (run_phase_trace plan SP_EXECUTION (hook plan HK_SIZE_AND_EXECUTE) w) as Hrun. cbv zeta in Hrun.
  destruct (run_phase plan SP_EXECUTION (hook plan HK_SIZE_AND_EXECUTE) w) as [r wr]. cbn [fst snd] in *.
  destruct Hrun as [(e & _ & Ht)|(tok & w1 & Hw1 & Ht)].
  { left. by rewrite Ht. }
  right. exists (ow_trace w ++ [EClock]), (ev_clock (ow_trace w)), tok. split; [done|]. split; [done|].
  unfold hook, on_trace, env_call in Ht. cbn [fst snd ow_trace] in Ht. rewrite Hw1 in Ht.
  destruct (ev_hook _ _ _ _ _) as [d|e] in Ht.
  - destruct Ht as [-> _]. apply within_list. by repeat constructor.
  - destruct e; destruct Ht as [_ ->]; reflexivity.
Qed.

Lemma prefix_snoc_app (h l k : trace) : (h ++ l) `prefix_of` (h ++ l ++ k).
Proof. rewrite app_assoc. by apply prefix_app_r. Qed.

(** What the evaluation left behind. *)
Definition evaluated plan (h0 h : trace) : Prop :=
  ∃ ha te toke d n,
    h0 `prefix_of` ha ∧ ev_hook ha HK_EVALUATE plan te toke = Ok d ∧
    evaluation_summary d = Some ("approved"%string, n) ∧ 1 <= n <= 3 ∧
    ev_clock (ha ++ [EHook HK_EVALUATE te toke; EClock]) <= pl_evaluator_cutoff_at plan ∧
    ha ++ [EHook HK_EVALUATE te toke; EClock; EClock] `prefix_of` h.

Lemma trade_gated k plan h0 s :
  calls_within no_trade h0 (calls s) → evaluated plan h0 (calls s) →
  gated plan h0 (calls (trade k plan s).2).
Proof.
  intros Hq (ha & te & toke & d & n & Hp & Hk & He & Hn & Hcut & Hpre). unfold trade.
  apply gated_bind; [done | apply on_world_frame, (wait_until_frame no_trade (calls_traced no_trade)) |].
  intros [] s1 E1%on_world_returned Hq1. destruct (wait_until_returned _ _ _ _ _ E1) as (h1 & Ht1 & _ & Hw1).
  apply gated_bind; [done | apply on_world_frame, (preflight_frame no_trade (calls_traced no_trade)) |].
  intros [] s2 E2%on_world_returned Hq2. destruct (preflight_returned _ _ _ _ E2) as (hl & Ht2 & Hh & Hr).
  apply gated_bind; [done | apply on_world_frame, (wait_until_frame no_trade (calls_traced no_trade)) |].
  intros [] s3 E3%on_world_returned Hq3. destruct (wait_until_returned _ _ _ _ _ E3) as (hc & Ht3 & Hopen & Hw3).
  apply gated_bind; [done | apply on_world_frame, (now_frame no_trade (calls_traced no_trade)) |].
  intros now s4 E4%on_world_returned Hq4. destruct (now_returned s3.1) as (w4 & En & Hw4).
  rewrite En in E4. injection E4 as <- Es4. destruct (_ <? _) eqn:Ec; [by left | bool_to_prop].
  assert (gated plan h0 (ow_trace (run_phase plan SP_EXECUTION (hook plan HK_SIZE_AND_EXECUTE) s4.1).2)) as Hg.
  { apply execution_gated; [done|]. rewrite <- Es4, Hw4, Ht3.
    exists ha, te, toke, d, n, (ow_trace s1.1 ++ [EClock]), (ev_clock (ow_trace s1.1)), hl, hc.
    do 5 (split; [done|]). split.
    { etrans; [exact Hpre|]. apply within_prefix in Hw1. etrans; [exact Hw1|]. rewrite Ht1, <- app_assoc. by apply prefix_app_r. }
    do 2 (split; [done|]). split.
    { apply within_prefix in Hw3. rewrite Ht2 in Hw3. by rewrite <- app_assoc. }
    split; [done|]. rewrite Ht3 in Ec. split; [done|]. by rewrite <- !app_assoc. }
  match goal with |- gated _ _ (calls ((?m ≫= ?f) ?s).2) =>
    apply gated_more with (calls (m s).2); [exact Hg | apply (evolves_after quiet m f s)] end.
  intros execution. 
  repeat first [apply (record_managed_frame no_trade (calls_traced no_trade)) | quiet_step].
Qed.

Lemma evaluation_summary_status d st n : evaluation_summary d = Some (st, n) → st ∈ run_statuses.
Proof.
  unfold evaluation_summary. intros E.
  destruct (dict_get "run_status" d) as [[]|]; try discriminate E.
  destruct (dict_get "approved_count" d) as [[]|]; try discriminate E.
  match type of E with (if ?c then _ else _) = _ => destruct c eqn:Ec; [|discriminate E] end.
  injection E as <- <-. by bool_to_prop.
Qed.
Lemma evaluation_summary_bounds d st n : evaluation_summary d = Some (st, n) → 0 <= n <= 3.
Proof.
  unfold evaluation_summary. intros E.
  destruct (dict_get "run_status" d) as [[]|]; try discriminate E.
  destruct (dict_get "approved_count" d) as [[]|]; try discriminate E.
  match type of E with (if ?c then _ else _) = _ => destruct c eqn:Ec; [|discriminate E] end.
  injection E as <- <-. unfold between in Ec. bool_to_prop. lia.
Qed.

Lemma session_gated k plan t s : gated plan (calls s) (calls (session dedup_window_seconds holder_id k plan t s).2).
Proof.
  unfold session. pose proof (take_leadership_silent holder_id plan t s) as [Ht _].
  rewrite eff_bind_unfold. destruct (take_leadership holder_id plan t s) as [[[]|e] s1]; cbn [fst snd] in *.
  2: { left. rewrite Ht. reflexivity. }
  rewrite Ht. clear Ht. apply gated_bind; [reflexivity | by apply on_world_frame, (capture_frame no_trade (calls_traced no_trade)) |].
  intros d s2 E2%on_world_returned Hq2. destruct (capture_returned _ _ _ _ _ E2) as (h & te & toke & Hqh & Hk & Ht2 & Hcut).
  match goal with |- gated _ _ (calls ((?m ≫= ?f) ?s).2) =>
    apply gated_more with (calls (m s).2); [|apply (evolves_after quiet m f s)] end.
  2: { intros _. apply (close_session_frame dedup_window_seconds no_trade (calls_traced no_trade)). }
  destruct (evaluation_summary d) as [[st n]|] eqn:Ed; [|by left].
  destruct (bool_decide _) eqn:Eb; [by left|]. destruct (_ || _) eqn:En; [by left|].
  apply trade_gated; [done|]. pose proof (evaluation_summary_bounds _ _ _ Ed) as Hn.
  apply orb_false_iff in En as [En Hz]. bool_to_prop. apply Z.eqb_neq in Hz.
  assert (st = "approved"%string) as ->.
  { apply evaluation_summary_status in Ed. unfold run_statuses in Ed. apply String.eqb_neq in En. set_solver. }
  exists h, te, toke, d, n. split; [by apply (within_prefix no_trade)|]. do 2 (split; [done|]). split; [lia|].
  split; [done|]. by rewrite Ht2.
Qed.

Lemma gated_from plan h0 h1 h : calls_within no_trade h0 h1 → gated plan h1 h → gated plan h0 h.
Proof.
  intros Hq [Hh|(h2 & t & tok & Hh & Hc & Ht)]; [left; by etrans|].
  right. exists h2, t, tok. split; [by etrans|]. split; [|done].
  destruct Hc as (ha & te & toke & d & n & hb & th & hl & hc & Hp & Hc).
  exists ha, te, toke, d, n, hb, th, hl, hc. split; [|done]. etrans; [by eapply within_prefix | done].
Qed.

Lemma guarded_gated k plan t s :
  gated plan (calls s) (calls (guarded_session dedup_window_seconds holder_id k plan t s).2).
Proof.
  rewrite guarded_session_unfold. cbv zeta. set (body := try_except _ _).
  assert (gated plan (calls s) (calls (body s).2)) as Hb.
  { unfold body, try_except. pose proof (session_gated k plan t s) as Hs.
    destruct (session _ _ _ _ _ s) as [[u|e] s1]; [done|].
    destruct (handle _ _ _ _ e) as [c|] eqn:E; [|done]. apply (gated_more _ _ _ _ Hs).
    by eapply (handle_frame dedup_window_seconds no_trade (calls_traced no_trade)). }
  destruct (body s) as [[u|e] s1]; cbn [snd] in Hb.
  - apply (gated_more _ _ _ _ Hb), (finish_traced holder_id no_trade).
  - assert (gated plan (calls s) (calls (finish_session holder_id plan t s1).2)) as Hf
      by (apply (gated_more _ _ _ _ Hb), (finish_traced holder_id no_trade)).
    by destruct e.
Qed.

(** C24: Trading is gated.  In any run, from any state, under any clock and
    any answers: the execution hook is called at most once; and only after the
    evaluation hook of the same run approved one to three names and answered
    before its cutoff, a health probe after that found no reason to stop, the
    clock after that read the opening or later, and its next reading was no
    later than the entry cutoff; the time handed to the hook is the reading
    that follows. *)
Theorem trading_gated k plan start w :
  gated plan (ow_trace w) (ow_trace (run dedup_window_seconds holder_id k plan start w).2).
Proof.
  destruct (run_spec dedup_window_seconds holder_id k plan start w) as [e w' _ _ Et|w' _ Et];
    (assert (calls_within no_trade (ow_trace w) (ow_trace w')) as Hq
      by (rewrite Et; apply within_list; destruct start; by repeat constructor)).
  - by left.
  - apply (gated_from _ _ _ _ Hq), guarded_gated.
Qed.
End trading.
