(* ===== verification/FeatureModels.v ===== *)
(** * FeatureModels: the models of the feature engine

    daybreak_features/models.py: a record per model, and per model a boolean
    [*_ok] that holds when pydantic accepts its values; canonical.py, the
    serialization of the feature artifacts. *)
From Stdlib Require Import Ascii String.
From S2P Require Import Prelude Numerics PyStr PyTime Contracts Canonical RiskModels.

#[local] Open Scope Z_scope.

(** ** canonical.py

    A Decimal with an integral value becomes an int, any other a float. *)
Definition iso_micros_z (t : datetime) : string :=
  date_iso (utc_date t) +:+ "T" +:+ pad 2 (t mod DAY / HOUR) +:+ ":" +:+ pad 2 (t mod DAY / MINUTE mod 60) +:+ ":"
  +:+ pad 2 (t mod DAY / SECOND mod 60) +:+ "." +:+ pad 6 (t mod SECOND) +:+ "Z".

Definition decimal_number (d : decimal) : pyval :=
  if dec.eqb d (dec.to_integral_value d RHalfEven) then PInt (dec.to_int d) else PFloat (float_repr (py_float d)).

Fixpoint to_jsonable (v : pyval) : pyval :=
  match v with
  | PDecimal d => decimal_number d
  | PDatetime t => PStr (iso_micros_z t)
  | PSeq l => PSeq (map to_jsonable l)
  | PDict m => PDict (map (λ kv, (kv.1, to_jsonable kv.2)) m)
  | _ => v
  end.

Definition feature_json (v : pyval) : bytes := canonical_json_text (to_jsonable v).
Definition feature_sha256 (v : pyval) : string := canonical_sha256 (to_jsonable v).

Example to_jsonable_examples :
  map to_jsonable [PDecimal (Dec 100 (-1)); PDecimal (Dec 125 (-2)); PDatetime 1767621599000001; PDate (Date 2026 1 5)]
  = [PInt 10; PFloat "1.25"; PStr "2026-01-05T13:59:59.000001Z"; PDate (Date 2026 1 5)].
Proof. vm_compute. reflexivity. Qed.

(** ** Enums *)

Inductive TradeAction := TA_NEW | TA_CORRECTION | TA_CANCEL.
#[export] Instance TradeAction_eq_dec : EqDecision TradeAction. Proof. solve_decision. Defined.
Inductive FeatureSourceType := FS_PRIMARY | FS_SECONDARY | FS_UNCONFIRMED.
#[export] Instance FeatureSourceType_eq_dec : EqDecision FeatureSourceType. Proof. solve_decision. Defined.
Inductive FeatureBorrowStatus := FB_EASY | FB_HARD_TO_BORROW | FB_UNKNOWN.
Inductive QualityStatus := QS_VERIFIED | QS_SINGLE_SOURCE.
#[export] Instance QualityStatus_eq_dec : EqDecision QualityStatus. Proof. solve_decision. Defined.
Inductive ResistanceSource := RS_PIVOT_CLUSTER | RS_ALL_TIME_HIGH_FALLBACK | RS_NONE_ABOVE_ALL_TIME_HIGH.
#[export] Instance ResistanceSource_eq_dec : EqDecision ResistanceSource. Proof. solve_decision. Defined.

Definition TradeAction_value (a : TradeAction) : string :=
  match a with TA_NEW => "new" | TA_CORRECTION => "correction" | TA_CANCEL => "cancel" end.

(** ** Source records *)

Record DailyBar := {
  db_session_date : date;
  db_open : decimal;
  db_high : decimal;
  db_low : decimal;
  db_close : decimal;
  db_volume : Z;
}.
Definition DailyBar_ok (b : DailyBar) : bool :=
  positive_dec (db_open b) && positive_dec (db_high b) && positive_dec (db_low b) && positive_dec (db_close b)
  && (0 <=? db_volume b)
  && negb (db_high b <? dec.max (dec.max (db_open b) (db_close b)) (db_low b))%dec
  && negb (dec.min (dec.min (db_open b) (db_close b)) (db_high b) <? db_low b)%dec.

Record TradeLedgerEvent := {
  te_ingest_seq : Z;
  te_trade_id : string;
  te_action : TradeAction;
  te_event_timestamp : datetime;
  te_price : option decimal;
  te_size : option Z;
  te_original_trade_id : option string;
  te_eligible : bool;
}.
(** TradeLedgerEvent.validate_action_fields. *)
Definition validate_action_fields (e : TradeLedgerEvent) : bool :=
  match te_action e with
  | TA_NEW => is_some (te_price e) && is_some (te_size e) && negb (is_some (te_original_trade_id e))
  | TA_CORRECTION => is_some (te_original_trade_id e) && is_some (te_price e) && is_some (te_size e)
  | TA_CANCEL => is_some (te_original_trade_id e)
  end.
Definition id_length (s : string) : bool := between 1 128 (code_points s).
Definition TradeLedgerEvent_ok (e : TradeLedgerEvent) : bool :=
  (0 <? te_ingest_seq e) && id_length (te_trade_id e)
  && match te_price e with Some p => positive_dec p | None => true end
  && match te_size e with Some z => 0 <? z | None => true end
  && match te_original_trade_id e with Some s => id_length s | None => true end
  && validate_action_fields e.

Record PremarketSession := {
  pm_session_date : date;
  pm_events : list TradeLedgerEvent;
  pm_complete : bool;
}.

Record FloatRecord := {
  fl_ticker : string;
  fl_float_shares : Z;
  fl_effective_date : date;
  fl_observed_at : datetime;
  fl_validated_at : datetime;
  fl_expires_at : datetime;
  fl_quality_status : QualityStatus;
  fl_source : string;
  fl_raw_response_hashes : list string;
}.
Definition float_sources : list string := ["fmp"; "massive"; "sec_api"; "fixture"].
Definition FloatRecord_ok (r : FloatRecord) : bool :=
  is_canonical_ticker (fl_ticker r) && (0 <? fl_float_shares r) && existsb (String.eqb (fl_source r)) float_sources
  && forallb hash_pattern (fl_raw_response_hashes r) && (fl_validated_at r <? fl_expires_at r).

Record CatalystRecord := {
  ct_catalyst_id : string;
  ct_ticker : string;
  ct_catalyst_text : text;
  ct_source_type : FeatureSourceType;
  ct_source_name : text;
  ct_source_timestamp : datetime;
  ct_observed_at : datetime;
  ct_corroborated : bool;
  ct_disqualifier_flags : list DisqualifierFlag;
  ct_source_hash : string;
}.
Definition CatalystRecord_ok (c : CatalystRecord) : bool :=
  between 1 256 (code_points (ct_catalyst_id c)) && is_canonical_ticker (ct_ticker c)
  && (1 <=? len (ct_catalyst_text c)) && between 1 256 (len (ct_source_name c)) && hash_pattern (ct_source_hash c).

Record CandidateSourceData := {
  cd_ticker : string;
  cd_halted : bool;
  cd_borrow_status : FeatureBorrowStatus;
  cd_previous_regular_close : decimal;
  cd_current_session_events : list TradeLedgerEvent;
  cd_historical_premarket_sessions : list PremarketSession;
  cd_daily_bars : list DailyBar;
  cd_history_complete_since_listing : bool;
  cd_float_records : list FloatRecord;
  cd_catalysts : list CatalystRecord;
}.

Definition date_leb (a b : date) : bool := not_gt (date_compare a b).
Fixpoint dates_sorted (l : list date) : bool :=
  match l with
  | a :: ((b :: _) as l') => date_leb a b && dates_sorted l'
  | _ => true
  end.
(** CandidateSourceData.validate_order_and_identity. *)
Definition validate_order_and_identity (c : CandidateSourceData) : bool :=
  let dates := map db_session_date (cd_daily_bars c) in
  dates_sorted dates && no_dup dates
  && forallb (λ r, String.eqb (fl_ticker r) (cd_ticker c)) (cd_float_records c)
  && forallb (λ r, String.eqb (ct_ticker r) (cd_ticker c)) (cd_catalysts c).
Definition CandidateSourceData_ok (c : CandidateSourceData) : bool :=
  is_canonical_ticker (cd_ticker c) && positive_dec (cd_previous_regular_close c)
  && forallb TradeLedgerEvent_ok (cd_current_session_events c)
  && forallb (λ s, forallb TradeLedgerEvent_ok (pm_events s)) (cd_historical_premarket_sessions c)
  && forallb DailyBar_ok (cd_daily_bars c) && forallb FloatRecord_ok (cd_float_records c)
  && forallb CatalystRecord_ok (cd_catalysts c) && validate_order_and_identity c.

(** ** Configuration and context *)

Record FeatureEngineConfig := {
  fc_module_versions : list (string * string);
  fc_premarket_start_et : string;
  fc_snapshot_time_et : string;
  fc_rvol_lookback_sessions : Z;
  fc_min_daily_history : Z;
  fc_cluster_tolerance_atr : decimal;
  fc_blue_sky_sentinel : decimal;
  fc_spiky_max_bucket_share : decimal;
  fc_spiky_min_nonempty_coverage : decimal;
  fc_gap_min_pct : decimal;
  fc_premarket_volume_min : Z;
  fc_rvol_min : decimal;
  fc_resistance_min_atr : decimal;
  fc_max_evaluator_candidates : Z;
  fc_allow_single_source_float : bool;
}.

(** The fields of one value only. *)
Definition engine_version : string := "daily_features_v1".
Definition cluster_lookback_sessions : Z := 180.
Definition pivot_left_width : Z := 5.
Definition pivot_right_width : Z := 5.
Definition cluster_recency_sessions : Z := 120.
Definition distance_decimal_places : Z := 6.
Definition volume_bucket_minutes : Z := 5.

Definition default_feature_config : FeatureEngineConfig :=
  {| fc_module_versions := map (λ k, (k, "1.0.1"%string))
       ["trade_ledger"; "gap"; "premarket_volume"; "rvol_time_matched"; "atr_wilder_14"; "premarket_vwap";
        "volume_profile"; "daily_pivot_cluster_v1"; "float_join"; "news_join"; "prequalification"; "snapshot_builder"];
     fc_premarket_start_et := "04:00:00"; fc_snapshot_time_et := "09:23:00"; fc_rvol_lookback_sessions := 20;
     fc_min_daily_history := 30; fc_cluster_tolerance_atr := Dec 5 (-1); fc_blue_sky_sentinel := Dec 990 (-1);
     fc_spiky_max_bucket_share := Dec 35 (-2); fc_spiky_min_nonempty_coverage := Dec 60 (-2);
     fc_gap_min_pct := Dec 40 (-1); fc_premarket_volume_min := 500000; fc_rvol_min := Dec 50 (-1);
     fc_resistance_min_atr := Dec 10 (-1); fc_max_evaluator_candidates := 20; fc_allow_single_source_float := true |}.

(** FeatureEngineConfig.coherent. *)
Definition feature_config_coherent (c : FeatureEngineConfig) : bool :=
  positive_dec (fc_spiky_max_bucket_share c) && (fc_spiky_max_bucket_share c <=? dec.of_Z 1)%dec
  && positive_dec (fc_spiky_min_nonempty_coverage c) && (fc_spiky_min_nonempty_coverage c <=? dec.of_Z 1)%dec.
Definition FeatureEngineConfig_ok (c : FeatureEngineConfig) : bool :=
  (1 <=? fc_rvol_lookback_sessions c) && (14 <=? fc_min_daily_history c)
  && between 1 25 (fc_max_evaluator_candidates c) && feature_config_coherent c.

Record FeatureContext := {
  fx_evaluation_timestamp : datetime;
  fx_payload_timestamp : datetime;
  fx_catalyst_freshness_threshold_hours : decimal;
  fx_market_status : MarketStatus;
  fx_candidates : list CandidateSourceData;
  fx_config : FeatureEngineConfig;
}.
(** FeatureContext.validate_context. *)
Definition validate_context (x : FeatureContext) : bool :=
  negb (fx_evaluation_timestamp x <? fx_payload_timestamp x) && no_dup (map cd_ticker (fx_candidates x)).
Definition FeatureContext_ok (x : FeatureContext) : bool :=
  positive_dec (fx_catalyst_freshness_threshold_hours x) && forallb CandidateSourceData_ok (fx_candidates x)
  && FeatureEngineConfig_ok (fx_config x) && validate_context x.

(** ** What the engine computes *)

Record MaterializedTrade := {
  tr_trade_id : string;
  tr_event_timestamp : datetime;
  tr_price : decimal;
  tr_size : Z;
  tr_ingest_seq : Z;
}.

(** The raw distance is the decimal whose text the audit holds. *)
Record ResistanceAudit := {
  ra_available_completed_bars : Z;
  ra_cluster_lookback_bars : Z;
  ra_all_time_high_price : decimal;
  ra_all_time_high_date : date;
  ra_confirmed_pivot_count : Z;
  ra_synthetic_lookback_high_added : bool;
  ra_valid_cluster_count : Z;
  ra_selected_resistance_source : ResistanceSource;
  ra_selected_zone_low : option decimal;
  ra_selected_zone_high : option decimal;
  ra_selected_zone_center : option decimal;
  ra_selected_touch_count : option Z;
  ra_selected_touch_dates : list date;
  ra_raw_distance_to_resistance_atr : option decimal;
  ra_distance_to_resistance_atr : decimal;
  ra_chart_structure : ChartStructure;
  ra_is_blue_sky_sentinel : bool;
}.

Record CandidateFeatures := {
  cf_ticker : string;
  cf_halted : bool;
  cf_current_price : decimal;
  cf_premarket_low : decimal;
  cf_gap_pct : decimal;
  cf_premarket_volume : Z;
  cf_rvol_time_matched : decimal;
  cf_atr_value : decimal;
  cf_premarket_vwap : decimal;
  cf_distance_from_vwap_atr : decimal;
  cf_volume_profile : VolumeProfile;
  cf_float_shares : Z;
  cf_borrow_status : FeatureBorrowStatus;
  cf_resistance : ResistanceAudit;
  cf_catalyst : CatalystRecord;
  cf_catalyst_age_hours : decimal;
  cf_feature_source_hash : string;
}.
Definition CandidateFeatures_ok (f : CandidateFeatures) : bool :=
  is_canonical_ticker (cf_ticker f) && positive_dec (cf_current_price f) && positive_dec (cf_premarket_low f)
  && (0 <=? cf_premarket_volume f) && nonneg (cf_rvol_time_matched f) && positive_dec (cf_atr_value f)
  && positive_dec (cf_premarket_vwap f) && (0 <? cf_float_shares f) && nonneg (cf_catalyst_age_hours f)
  && hash_pattern (cf_feature_source_hash f).

Record PrequalificationDecision := {
  pd_ticker : string;
  pd_accepted : bool;
  pd_reason_codes : list string;
  pd_feature_source_hash : option string;
}.

Record CapacityOmission := {
  om_ticker : string;
  om_final_capacity_rank : Z;
}.

Record FeatureSnapshot := {
  sn_snapshot_id : string;
  sn_context_hash : string;
  sn_audit_hash : string;
  sn_payload : DaybreakInput;
  sn_payload_hash : string;
  sn_feature_hash : string;
  sn_configuration_hash : string;
  sn_module_manifest : list (string * string);
  sn_prequalification : list PrequalificationDecision;
  sn_capacity_omissions : list CapacityOmission;
  sn_accepted_feature_records : list CandidateFeatures;
}.
(** FeatureSnapshot.terminal_consistency. *)
Definition terminal_consistency (s : FeatureSnapshot) : bool :=
  bool_decide (map ti_ticker (di_tickers (sn_payload s)) = map cf_ticker (sn_accepted_feature_records s)).
