(* ===== verification/FeatureLedger.v ===== *)
(** * FeatureLedger: correction- and cancellation-aware trades

    materialize_trades of daybreak_features/ledger.py.  The order the events
    arrive in does not matter, and, when no two events share an identifier, no
    trade is lost or counted twice. *)
From Stdlib Require Import Ascii String.
From S2P Require Import Prelude Numerics PyStr PyTime Contracts Canonical RiskModels FeatureModels.

#[local] Open Scope Z_scope.

(** The two dicts of the loop. *)
Record Ledger := { lg_active : gmap string MaterializedTrade; lg_aliases : gmap string string }.
Definition empty_ledger : Ledger := {| lg_active := ∅; lg_aliases := ∅ |}.

(** [assert price is not None and size is not None], then the trade. *)
Definition trade_of (e : TradeLedgerEvent) : result MaterializedTrade :=
  match te_price e, te_size e with
  | Some p, Some z =>
      Ok {| tr_trade_id := te_trade_id e; tr_event_timestamp := te_event_timestamp e; tr_price := p;
            tr_size := z; tr_ingest_seq := te_ingest_seq e |}
  | _, _ => Err EAssertion
  end.

(** A new trade. *)
Definition apply_new (e : TradeLedgerEvent) (s : Ledger) : result Ledger :=
  let id := te_trade_id e in
  if is_some (lg_active s !! id) || is_some (lg_aliases s !! id) then Err (EDataQuality "DUPLICATE_TRADE_ID")
  else if negb (te_eligible e) then Ok {| lg_active := lg_active s; lg_aliases := <[id := id]> (lg_aliases s) |}
  else
    t ← trade_of e;
    Ok {| lg_active := <[id := t]> (lg_active s); lg_aliases := <[id := id]> (lg_aliases s) |}.

(** A correction or a cancellation. *)
Definition apply_change (e : TradeLedgerEvent) (s : Ledger) : result Ledger :=
  match te_original_trade_id e with
  | None => Err EAssertion
  | Some original =>
      let id := te_trade_id e in
      let root := default original (lg_aliases s !! original) in
      match lg_active s !! root with
      | None => Err (EDataQuality "UNKNOWN_ORIGINAL_TRADE")
      | Some _ =>
          let active := delete root (lg_active s) in
          let aliases := <[original := id]> (<[id := id]> (lg_aliases s)) in
          if bool_decide (te_action e = TA_CANCEL) || negb (te_eligible e)
          then Ok {| lg_active := active; lg_aliases := aliases |}
          else t ← trade_of e; Ok {| lg_active := <[id := t]> active; lg_aliases := aliases |}
      end
  end.

Definition apply_event (e : TradeLedgerEvent) (s : Ledger) : result Ledger :=
  if decide (te_action e = TA_NEW) then apply_new e s else apply_change e s.

Fixpoint apply_events (l : list TradeLedgerEvent) (s : Ledger) : result Ledger :=
  match l with [] => Ok s | e :: l' => s' ← apply_event e s; apply_events l' s' end.

Definition compare_seq (a b : TradeLedgerEvent) : comparison := Z.compare (te_ingest_seq a) (te_ingest_seq b).
Definition compare_trades (a b : MaterializedTrade) : comparison :=
  lex (Z.compare (tr_event_timestamp a) (tr_event_timestamp b))
      (lex (Z.compare (tr_ingest_seq a) (tr_ingest_seq b)) (String.compare (tr_trade_id a) (tr_trade_id b))).

Definition materialize_trades (events : list TradeLedgerEvent) : result (list MaterializedTrade) :=
  let ordered := sorted_by (λ a b, not_gt (compare_seq a b)) events in
  if no_dup (map te_ingest_seq ordered) then
    s ← apply_events ordered empty_ledger;
    Ok (sorted_by (λ a b, not_gt (compare_trades a b)) (map snd (map_to_list (lg_active s))))
  else Err (EDataQuality "DUPLICATE_INGEST_SEQUENCE").

(** ** Order of arrival *)

Lemma good_seq : good_compare compare_seq.
Proof. apply (good_map te_ingest_seq), good_Z. Qed.
Lemma good_trades : good_compare compare_trades.
Proof.
  apply (good_lex (λ a b, Z.compare (tr_event_timestamp a) (tr_event_timestamp b))); [apply (good_map tr_event_timestamp), good_Z|].
  apply (good_lex (λ a b, Z.compare (tr_ingest_seq a) (tr_ingest_seq b))); [apply (good_map tr_ingest_seq), good_Z|].
  apply (good_map tr_trade_id), good_string.
Qed.

Lemma no_dup_spec {A} `{EqDecision A} (l : list A) : no_dup l = true ↔ NoDup l.
Proof. unfold no_dup. by rewrite bool_decide_eq_true. Qed.

Lemma no_dup_perm {A} `{EqDecision A} (l k : list A) : l ≡ₚ k → no_dup l = no_dup k.
Proof. intros Hp. unfold no_dup. apply bool_decide_ext. by rewrite Hp. Qed.

(** The events in order of ingestion. *)
Definition ingestion (events : list TradeLedgerEvent) : list TradeLedgerEvent :=
  sorted_by (λ a b, not_gt (compare_seq a b)) events.

Lemma ingestion_perm events : ingestion events ≡ₚ events.
Proof. apply sorted_by_perm. Qed.

Lemma ingestion_unique a b :
  a ≡ₚ b → NoDup (map te_ingest_seq a) → ingestion a = ingestion b.
Proof.
  intros Hp Hnd. apply sort_unique; [apply good_seq | | done].
  intros x y Hx Hy E. apply Z.compare_eq in E. by eapply NoDup_map_inj.
Qed.

(** C25: The order events arrive in does not matter.  Two lists of trade events
    that are permutations of one another materialize to the same trades, or
    fail alike: events are taken in the order of their ingestion numbers, and
    lists with a repeated number are refused whatever their order. *)
Theorem materialize_order_independent a b : a ≡ₚ b → materialize_trades a = materialize_trades b.
Proof.
  intros Hp. unfold materialize_trades. fold (ingestion a) (ingestion b).
  assert (no_dup (map te_ingest_seq (ingestion a)) = no_dup (map te_ingest_seq (ingestion b))) as ->
    by (apply no_dup_perm; rewrite !ingestion_perm; by rewrite Hp).
  destruct (no_dup _) eqn:E; [|done]. apply no_dup_spec in E.
  rewrite (ingestion_unique a b); [done..|]. by rewrite Hp, <- (ingestion_perm b).
Qed.

Definition sample_event (seq : Z) (id : string) (action : TradeAction) (original : option string) (size : Z) : TradeLedgerEvent :=
  {| te_ingest_seq := seq; te_trade_id := id; te_action := action; te_event_timestamp := seq * SECOND;
     te_price := Some (dec.of_Z (10 + seq)); te_size := Some size; te_original_trade_id := original; te_eligible := true |}.

Lemma materialize_order_independent_witness :
  materialize_trades [sample_event 2 "C" TA_CORRECTION (Some "A"%string) 5; sample_event 1 "A" TA_NEW None 7]
  = Ok [{| tr_trade_id := "C"; tr_event_timestamp := 2 * SECOND; tr_price := dec.of_Z 12; tr_size := 5; tr_ingest_seq := 2 |}].
Proof.
  rewrite (materialize_order_independent _ [sample_event 1 "A" TA_NEW None 7; sample_event 2 "C" TA_CORRECTION (Some "A"%string) 5]).
  - vm_compute. reflexivity.
  - apply perm_swap.
Defined.

(** ** Conservation *)

(** What an event adds to the number of trades. *)
Definition contribution (e : TradeLedgerEvent) : Z :=
  match te_action e with
  | TA_NEW => if te_eligible e then 1 else 0
  | TA_CORRECTION => if te_eligible e then 0 else -1
  | TA_CANCEL => -1
  end.
Definition total {A} (f : A → Z) (l : list A) : Z := foldr (λ x acc, f x + acc) 0 l.

Lemma total_perm {A} (f : A → Z) l k : l ≡ₚ k → total f l = total f k.
Proof. induction 1; simpl in *; lia. Qed.

(** The active trades are events seen so far, under their own identifiers. *)
Definition from_events (seen : list TradeLedgerEvent) (s : Ledger) : Prop :=
  map_Forall (λ id t, tr_trade_id t = id ∧ ∃ e, e ∈ seen ∧ te_eligible e = true ∧ te_action e ≠ TA_CANCEL ∧
    trade_of e = Ok t) (lg_active s).

Lemma trade_of_id e t : trade_of e = Ok t → tr_trade_id t = te_trade_id e.
Proof. unfold trade_of. destruct (te_price e), (te_size e); try discriminate. by intros [= <-]. Qed.

Lemma from_events_more seen e s : from_events seen s → from_events (e :: seen) s.
Proof. intros Hs id t Ht. destruct (Hs id t Ht) as (Hid & e' & He & ?). split; [done|]. exists e'. split; [set_solver | done]. Qed.

Lemma from_events_insert seen e s t :
  from_events (e :: seen) s → te_eligible e = true → te_action e ≠ TA_CANCEL → trade_of e = Ok t →
  ∀ aliases, from_events (e :: seen) {| lg_active := <[te_trade_id e := t]> (lg_active s); lg_aliases := aliases |}.
Proof.
  intros Hs He Ha Ht aliases. apply map_Forall_insert_2; [|done]. split; [by apply trade_of_id|].
  exists e. split; [set_solver | done].
Qed.

Lemma from_events_fresh seen s id :
  from_events seen s → id ∉ map te_trade_id seen → lg_active s !! id = None.
Proof.
  intros Hs Hid. destruct (lg_active s !! id) as [t|] eqn:E; [exfalso | done].
  destruct (Hs id t E) as (Ht & e & He & _ & _ & Hof). apply Hid.
  rewrite <- Ht, (trade_of_id _ _ Hof). apply list_elem_of_fmap. by exists e.
Qed.

Lemma apply_event_spec seen e s s' :
  from_events seen s → te_trade_id e ∉ map te_trade_id seen → apply_event e s = Ok s' →
  from_events (e :: seen) s' ∧ Z.of_nat (size (lg_active s')) = Z.of_nat (size (lg_active s)) + contribution e.
Proof.
  intros Hs Hfresh. pose proof (from_events_fresh _ _ _ Hs Hfresh) as Hnone.
  pose proof (from_events_more _ e _ Hs) as Hs'. unfold apply_event, contribution.
  destruct (decide (te_action e = TA_NEW)) as [Hnew|Hnew].
  - unfold apply_new. rewrite Hnew. destruct (_ || _); [done|].
    destruct (te_eligible e) eqn:He; cbn [negb].
    + intros (t & Ht & Hx)%bind_Ok. injection Hx as <-. split.
      * refine (from_events_insert seen e s t Hs' He _ Ht _). congruence.
      * simpl. rewrite map_size_insert_None by done. lia.
    + intros [= <-]. split; [done|]. simpl. lia.
  - unfold apply_change. destruct (te_original_trade_id e) as [o|]; [|done]. cbv zeta.
    destruct (lg_active s !! default o (lg_aliases s !! o)) as [t0|] eqn:Er; [|done].
    set (root := default o (lg_aliases s !! o)) in *.
    assert (Z.of_nat (size (delete root (lg_active s))) = Z.of_nat (size (lg_active s)) - 1) as Hdel.
    { rewrite map_size_delete_Some by done. assert (size (lg_active s) ≠ 0)%nat; [|lia].
      intros E%map_size_empty_inv. by rewrite E in Er. }
    assert (∀ aliases, from_events (e :: seen) {| lg_active := delete root (lg_active s); lg_aliases := aliases |}) as Hd.
    { intros aliases. by apply map_Forall_delete. }
    destruct (bool_decide (te_action e = TA_CANCEL)) eqn:Ec; bool_to_prop; cbn [orb].
    { intros [= <-]. rewrite Ec. split; [apply Hd | simpl; lia]. }
    assert (te_action e = TA_CORRECTION) as Hcorr by (by destruct (te_action e)).
    rewrite Hcorr. destruct (te_eligible e) eqn:He; cbn [negb].
    + intros (t & Ht & Hx)%bind_Ok. injection Hx as <-. split.
      * exact (from_events_insert seen e {| lg_active := delete root (lg_active s); lg_aliases := ∅ |} t (Hd _) He Ec Ht _).
      * simpl. rewrite map_size_insert_None by (by rewrite lookup_delete_None; right). lia.
    + intros [= <-]. split; [apply Hd | simpl; lia].
Qed.

Lemma apply_events_spec l seen s s' :
  from_events seen s → NoDup (map te_trade_id (l ++ seen)) → apply_events l s = Ok s' →
  from_events (reverse l ++ seen) s' ∧ Z.of_nat (size (lg_active s')) = Z.of_nat (size (lg_active s)) + total contribution l.
Proof.
  revert seen s. induction l as [|e l IH]; intros seen s Hs Hnd; cbn [apply_events].
  - intros [= <-]. split; [done | simpl; lia].
  - intros (s1 & H1 & H2)%bind_Ok. simpl in Hnd. apply NoDup_cons in Hnd as [Hfresh Hnd].
    rewrite map_app in Hfresh. destruct (apply_event_spec seen e s s1 Hs) as [Hs1 Hsize]; [set_solver | done |].
    destruct (IH (e :: seen) s1 Hs1) as [Hs2 Hsize2]; [|done|].
    + rewrite map_app in *. simpl. apply NoDup_app in Hnd as (Hl & Hls & Hseen). apply NoDup_app.
      split; [done|]. split; [|constructor; [set_solver | done]]. intros x Hx. specialize (Hls x Hx). set_solver.
    + rewrite reverse_cons, <- app_assoc. split; [done|]. simpl in *. lia.
Qed.

(** C26: No trade is lost or invented.  When the events carry distinct
    identifiers, every materialized trade is an eligible new or corrected
    event of the input, under its own identifier and with its own price, size
    and time; identifiers are distinct; and there are exactly as many trades
    as eligible new events, less the cancellations and the corrections to an
    ineligible trade. *)
Theorem ledger_conserves events trades :
  NoDup (map te_trade_id events) → materialize_trades events = Ok trades →
  Forall (λ t, ∃ e, e ∈ events ∧ te_eligible e = true ∧ te_action e ≠ TA_CANCEL ∧ trade_of e = Ok t) trades ∧
  NoDup (map tr_trade_id trades) ∧ len trades = total contribution events.
Proof.
  intros Hnd. unfold materialize_trades. fold (ingestion events). destruct (no_dup _); [|done].
  intros (s & Hs & Ht)%bind_Ok. injection Ht as <-.
  destruct (apply_events_spec (ingestion events) [] empty_ledger s) as [Hfrom Hsize].
  { intros id t. unfold empty_ledger. simpl. by rewrite lookup_empty. }
  { by rewrite app_nil_r, ingestion_perm. }
  { done. }
  rewrite app_nil_r in Hfrom.
  assert (∀ id t, (id, t) ∈ map_to_list (lg_active s) → tr_trade_id t = id ∧
    ∃ e, e ∈ events ∧ te_eligible e = true ∧ te_action e ≠ TA_CANCEL ∧ trade_of e = Ok t) as Hin.
  { intros id t Hx%elem_of_map_to_list. destruct (Hfrom id t Hx) as (? & e & He & ?). split; [done|]. exists e.
    split; [|done]. by rewrite reverse_Permutation, ingestion_perm in He. }
  split; [|split].
  - apply Forall_forall. intros t Hx. apply elem_of_sorted_by in Hx.
    apply list_elem_of_fmap in Hx as ([id t'] & -> & Hx). by apply Hin in Hx as [_ Hx].
  - rewrite (sorted_by_perm _ (map snd _)), map_map.
    rewrite (map_ext_in _ fst); [apply NoDup_fst_map_to_list|].
    intros [id t] Hx%list_elem_of_In. by apply Hin in Hx as [? _].
  - unfold len. rewrite length_sorted_by, length_map, length_map_to_list, Hsize. simpl.
    apply (total_perm contribution), ingestion_perm.
Qed.

Lemma ledger_conserves_witness :
  ∃ trades,
    materialize_trades [sample_event 1 "A" TA_NEW None 7; sample_event 2 "B" TA_NEW None 3;
                        sample_event 3 "C" TA_CORRECTION (Some "A"%string) 5; sample_event 4 "D" TA_CANCEL (Some "B"%string) 3]
    = Ok trades ∧ len trades = 1.
Proof.
  eexists. split; [vm_compute; reflexivity|].
  refine (proj2 (proj2 (ledger_conserves [sample_event 1 "A" TA_NEW None 7; sample_event 2 "B" TA_NEW None 3;
    sample_event 3 "C" TA_CORRECTION (Some "A"%string) 5; sample_event 4 "D" TA_CANCEL (Some "B"%string) 3] _ _ _))).
  - apply no_dup_spec. vm_compute. reflexivity.
  - vm_compute. reflexivity.
Defined.

Definition trade_ids (r : result (list MaterializedTrade)) : result (list string) :=
  match r with Ok l => Ok (map tr_trade_id l) | Err e => Err e end.

(** A correction that carries the identifier of another active trade replaces
    that trade: of two trades and one correction, one trade is left. *)
Example correction_overwrites_a_trade :
  trade_ids (materialize_trades
    [sample_event 1 "A" TA_NEW None 7; sample_event 2 "B" TA_NEW None 3; sample_event 3 "B" TA_CORRECTION (Some "A"%string) 5])
  = Ok ["B"%string].
Proof. vm_compute. reflexivity. Qed.

(** Aliases are followed one step: a trade corrected twice, each time under the
    identifier of its last version, can be changed under the last two of its
    identifiers but not under its first. *)
Example first_identifier_forgotten :
  trade_ids (materialize_trades
    [sample_event 1 "A" TA_NEW None 7; sample_event 2 "B" TA_CORRECTION (Some "A"%string) 5;
     sample_event 3 "C" TA_CORRECTION (Some "B"%string) 4; sample_event 4 "D" TA_CANCEL (Some "A"%string) 4])
  = Err (EDataQuality "UNKNOWN_ORIGINAL_TRADE") ∧
  trade_ids (materialize_trades
    [sample_event 1 "A" TA_NEW None 7; sample_event 2 "B" TA_CORRECTION (Some "A"%string) 5;
     sample_event 3 "C" TA_CORRECTION (Some "B"%string) 4; sample_event 4 "D" TA_CANCEL (Some "B"%string) 4])
  = Ok [].
Proof. vm_compute. done. Qed.
