(* ===== verification/FeatureCore.v ===== *)
(** * FeatureCore: the market features of a candidate

    daybreak_features/core_features.py: premarket trades, price, gap, volume,
    VWAP, true range and Wilder's ATR, time-matched relative volume and the
    volume profile. *)
From Stdlib Require Import Ascii String QArith Lqa.
From S2P Require Import Prelude Numerics PyStr PyTime Contracts Canonical RiskModels FeatureModels FeatureLedger.

#[local] Open Scope Z_scope.

(** [time.fromisoformat] of HH:MM and HH:MM:SS; its other forms are read as
    malformed. *)
Definition digit_value (c : ascii) : option Z :=
  let n := Z.of_nat (nat_of_ascii c) in if between 48 57 n then Some (n - 48) else None.
Definition two_digits (a b : ascii) (bound : Z) : option Z :=
  match digit_value a, digit_value b with
  | Some x, Some y => if 10 * x + y <? bound then Some (10 * x + y) else None
  | _, _ => None
  end.
Definition clock_time (a b c d : ascii) : option Z :=
  h ← two_digits a b 24; m ← two_digits c d 60; Some (time_of h m).
Definition is_colon (c : ascii) : bool := Ascii.eqb c ":"%char.
Definition iso_time (s : string) : result Z :=
  let parsed :=
    match list_ascii_of_string s with
    | [a; b; x; c; d] => if is_colon x then clock_time a b c d else None
    | [a; b; x; c; d; y; e; f] =>
        if is_colon x && is_colon y then
          t ← clock_time a b c d; sec ← two_digits e f 60; Some (t + sec * SECOND)
        else None
    | _ => None
    end in
  match parsed with Some t => Ok t | None => Err (EValue "Invalid isoformat string") end.

Example iso_time_examples :
  map iso_time ["04:00:00"; "09:23"; "24:00"; "4:00"]
  = [Ok (time_of 4 0); Ok (time_of 9 23); Err (EValue "Invalid isoformat string"); Err (EValue "Invalid isoformat string")].
Proof. vm_compute. reflexivity. Qed.

(** [.quantize(Decimal('0.000001'), ROUND_HALF_EVEN)]. *)
Definition six (d : decimal) : result decimal := dec.quantize d (-6) RHalfEven.

Section core.
Context `{NewYork}.

(** [_in_premarket_window]. *)
Definition in_premarket_window (t : MaterializedTrade) (snapshot : datetime) (start : Z) : bool :=
  bool_decide (ny_date (tr_event_timestamp t) = ny_date snapshot)
  && (start <=? ny_time (tr_event_timestamp t)) && (ny_time (tr_event_timestamp t) <=? ny_time snapshot).

(** The window's start is parsed for each trade; without trades, never. *)
Definition current_session_trades (events : list TradeLedgerEvent) (snapshot : datetime) (config : FeatureEngineConfig)
    : result (list MaterializedTrade) :=
  trades ← materialize_trades events;
  match trades with
  | [] => Ok []
  | _ =>
      start ← iso_time (fc_premarket_start_et config);
      Ok (filter (λ t, in_premarket_window t snapshot start = true) trades)
  end.

Definition current_price (trades : list MaterializedTrade) : result decimal :=
  match last trades with
  | Some t => Ok (tr_price t)
  | None => Err (EDataQuality "NO_ELIGIBLE_PREMARKET_TRADES")
  end.

(** [min] and [max] of a nonempty list. *)
Definition min_of (x : decimal) (l : list decimal) : decimal := fold_left dec.min l x.
Definition max_of (x : decimal) (l : list decimal) : decimal := fold_left dec.max l x.

Definition premarket_low (trades : list MaterializedTrade) : result decimal :=
  match map tr_price trades with
  | x :: l => Ok (min_of x l)
  | [] => Err (EDataQuality "NO_ELIGIBLE_PREMARKET_TRADES")
  end.

Definition gap_pct (price previous_close : decimal) : result decimal :=
  if (previous_close <=? dec.zero)%dec then Err (EDataQuality "INVALID_PREVIOUS_CLOSE")
  else q ← dec.div (price - previous_close)%dec previous_close; six (q * dec.of_Z 100)%dec.

Definition premarket_volume (trades : list MaterializedTrade) : Z := total tr_size trades.

Definition premarket_vwap (trades : list MaterializedTrade) : result decimal :=
  let volume := premarket_volume trades in
  if volume <=? 0 then Err (EDataQuality "ZERO_PREMARKET_VOLUME")
  else
    let notional := dec.sum (map (λ t, (tr_price t * dec.of_Z (tr_size t))%dec) trades) in
    q ← dec.div notional (dec.of_Z volume); six q.

Definition distance_from_vwap_atr (price vwap atr : decimal) : result decimal :=
  if (atr <=? dec.zero)%dec then Err (EDataQuality "INVALID_ATR")
  else q ← dec.div (price - vwap)%dec atr; six q.

Definition true_range (current : DailyBar) (previous_close : decimal) : decimal :=
  max_of (db_high current - db_low current)%dec
    [dec.abs (db_high current - previous_close)%dec; dec.abs (db_low current - previous_close)%dec].

(** [[true_range(bars[i], bars[i-1].close) for i in range(1, len(bars))]]. *)
Fixpoint true_ranges (bars : list DailyBar) : list decimal :=
  match bars with
  | previous :: ((current :: _) as rest) => true_range current (db_close previous) :: true_ranges rest
  | _ => []
  end.

Fixpoint smooth (atr : decimal) (ranges : list decimal) : result decimal :=
  match ranges with
  | [] => Ok atr
  | value :: rest => atr' ← dec.div ((atr * dec.of_Z 13) + value)%dec (dec.of_Z 14); smooth atr' rest
  end.

Definition wilder_atr_14 (bars : list DailyBar) : result decimal :=
  if len bars <? 15 then Err (EDataQuality "INSUFFICIENT_ATR_HISTORY")
  else
    let ranges := true_ranges bars in
    initial ← dec.div (dec.sum (take 14 ranges)) (dec.of_Z 14);
    atr ← smooth initial (drop 14 ranges);
    if (atr <=? dec.zero)%dec then Err (EDataQuality "INVALID_ATR") else six atr.

Definition historical_session_volume (s : PremarketSession) (snapshot : datetime) (config : FeatureEngineConfig)
    : result Z :=
  if negb (pm_complete s) then Err (EDataQuality "INCOMPLETE_RVOL_SESSION")
  else
    start ← iso_time (fc_premarket_start_et config);
    trades ← materialize_trades (pm_events s);
    Ok (premarket_volume (filter (λ t,
      bool_decide (ny_date (tr_event_timestamp t) = pm_session_date s)
      && (start <=? ny_time (tr_event_timestamp t)) && (ny_time (tr_event_timestamp t) <=? ny_time snapshot) = true) trades)).

Fixpoint session_volumes (l : list PremarketSession) (snapshot : datetime) (config : FeatureEngineConfig)
    : result (list Z) :=
  match l with
  | [] => Ok []
  | s :: l' =>
      v ← historical_session_volume s snapshot config;
      vs ← session_volumes l' snapshot config;
      Ok (v :: vs)
  end.

Definition rvol_time_matched (current_volume : Z) (sessions : list PremarketSession) (snapshot : datetime)
    (config : FeatureEngineConfig) : result decimal :=
  let n := fc_rvol_lookback_sessions config in
  if len sessions <? n then Err (EDataQuality "INSUFFICIENT_RVOL_HISTORY")
  else
    let ordered := sorted_by (λ a b, date_leb (pm_session_date a) (pm_session_date b)) sessions in
    let selected := py_slice ordered (- n) (len ordered) in
    volumes ← session_volumes selected snapshot config;
    average ← dec.div (dec.of_Z (total id volumes)) (dec.of_Z (len volumes));
    if (average <=? dec.zero)%dec then Err (EDataQuality "ZERO_RVOL_BASELINE")
    else q ← dec.div (dec.of_Z current_volume) average; six q.

(** ** The volume profile *)

Definition minute_of_day (t : datetime) : Z := ny_time t / MINUTE.

Definition bucket_index (start_minutes bucket_count : Z) (t : MaterializedTrade) : Z :=
  Z.min ((minute_of_day (tr_event_timestamp t) - start_minutes) / volume_bucket_minutes) (bucket_count - 1).

(** [if index >= 0: buckets[index] += trade.size]. *)
Definition add_to_bucket (start_minutes bucket_count : Z) (buckets : list Z) (t : MaterializedTrade) : list Z :=
  let index := bucket_index start_minutes bucket_count t in
  if 0 <=? index then alter (Z.add (tr_size t)) (Z.to_nat index) buckets else buckets.

Definition fill_buckets (start_minutes bucket_count : Z) (trades : list MaterializedTrade) : list Z :=
  fold_left (add_to_bucket start_minutes bucket_count) trades (replicate (Z.to_nat bucket_count) 0).

Definition volume_profile (trades : list MaterializedTrade) (snapshot : datetime) (config : FeatureEngineConfig)
    : result VolumeProfile :=
  let total_volume := premarket_volume trades in
  if total_volume <=? 0 then Err (EDataQuality "ZERO_PREMARKET_VOLUME")
  else
    start ← iso_time (fc_premarket_start_et config);
    let start_minutes := start / MINUTE in
    let end_minutes := minute_of_day snapshot in
    let bucket_count := (end_minutes - start_minutes) / volume_bucket_minutes + 1 in
    if bucket_count <=? 0 then Err (EDataQuality "INVALID_PREMARKET_WINDOW")
    else
      let buckets := fill_buckets start_minutes bucket_count trades in
      max_share ← dec.div (dec.of_Z (fold_left Z.max buckets 0)) (dec.of_Z total_volume);
      nonempty_coverage ← dec.div (dec.of_Z (len (filter (λ v, 0 < v) buckets))) (dec.of_Z bucket_count);
      Ok (if (fc_spiky_max_bucket_share config <? max_share)%dec
             || (nonempty_coverage <? fc_spiky_min_nonempty_coverage config)%dec
          then VP_SPIKY else VP_CLEAN).
End core.

(** ** What the volume profile means *)

Lemma strip_zeros_shift f c e i s :
  dec.strip_zeros f c (e + s) (i + s) =
  let d := dec.strip_zeros f c e i in Dec (coef d) (expo d + s).
Proof.
  revert c e. induction f as [|f IH]; intros c e; simpl; [done|].
  replace (e + s <? i + s) with (e <? i) by (apply eq_true_iff_eq; rewrite !Z.ltb_lt; lia).
  destruct (_ && _); [|done]. rewrite <- IH. f_equal. lia.
Qed.

(** A shift of the dividend's exponent shifts the quotient's. *)
Lemma div_shift a b q s :
  dec.div a b = Ok q → dec.div (Dec (coef a) (expo a + s)) b = Ok (Dec (coef q) (expo q + s)).
Proof.
  unfold dec.div. cbn [coef expo]. destruct (coef b =? 0); [done|].
  destruct (coef a =? 0).
  - intros [= <-]. cbn [coef expo]. f_equal. f_equal. lia.
  - destruct (round_sig _ _ _ _) as [m e]. intros E. apply Ok_inj in E as <-. f_equal.
    replace (expo a + s - expo b) with (expo a - expo b + s) by lia.
    destruct (_ =? _); [|cbn [coef expo]; f_equal; lia].
    rewrite Z.add_assoc. rewrite strip_zeros_shift. done.
Qed.

(** Comparing a quotient of integers with hundredths. *)
Lemma div_cmp_percent A B q (t : decimal) k :
  dec.div (dec.of_Z A) (dec.of_Z B) = Ok q → 0 <= A < 10 ^ 25 → 0 < B → (dval t == inject_Z k * bp10 (-2))%Q →
  ((t <? q)%dec = true ↔ k * B < 100 * A) ∧ ((q <? t)%dec = true ↔ 100 * A < k * B).
Proof.
  intros Hq HA HB Ht. apply (div_shift _ _ _ 2) in Hq. cbn [coef expo dec.of_Z] in Hq.
  assert (dval (Dec A (0 + 2)) == inject_Z (100 * A) * 1)%Q as HA'.
  { unfold dval. cbn [coef expo]. rewrite inject_Z_mult. change (bp10 (0 + 2)) with (inject_Z 100). ring. }
  assert (dval (dec.of_Z B) == inject_Z B * 1)%Q as HB' by (rewrite dval_of_Z; ring).
  destruct (div_cmp_int _ _ _ 1 (100 * A) B k Hq ltac:(done) HA' HB') as [Hle Hge]; [unfold prec; lia | done|].
  assert (dval (Dec (coef q) (expo q + 2)) == dval q * 100)%Q as Hs.
  { unfold dval. cbn [coef expo]. rewrite bp10_add. change (bp10 2) with 100%Q. ring. }
  rewrite Hs in Hle, Hge. assert (dval t * 100 == inject_Z k)%Q as Ht'.
  { rewrite Ht. change (bp10 (-2)) with (1 # 100)%Q. ring. }
  rewrite !dltb_spec. split; split; intros Hlt.
  - apply Z.lt_nge. intros Hx%Hge. lra.
  - apply Qnot_le_lt. intros Hx. assert (100 * A <= k * B) by (apply Hge; lra). lia.
  - apply Z.lt_nge. intros Hx%Hle. lra.
  - apply Qnot_le_lt. intros Hx. assert (k * B <= 100 * A) by (apply Hle; lra). lia.
Qed.

Section profile.
Context `{NewYork}.

(** The volume of the trades of the [b]-th five minutes. *)
Definition volume_in (start_minutes b : Z) (trades : list MaterializedTrade) : Z :=
  total tr_size (filter (λ t, (minute_of_day (tr_event_timestamp t) - start_minutes) / volume_bucket_minutes = b) trades).
Definition bucket_volumes (start_minutes n : Z) (trades : list MaterializedTrade) : list Z :=
  map (λ b, volume_in start_minutes b trades) (seqZ 0 n).

Lemma volume_in_cons m b t trades :
  volume_in m b (t :: trades) =
    (if decide ((minute_of_day (tr_event_timestamp t) - m) / volume_bucket_minutes = b) then tr_size t else 0)
    + volume_in m b trades.
Proof. unfold volume_in. rewrite filter_cons. by destruct (decide _). Qed.

(** The trades fall in the buckets, none in the clamp. *)
Definition in_buckets (m n : Z) (t : MaterializedTrade) : Prop :=
  0 <= (minute_of_day (tr_event_timestamp t) - m) / volume_bucket_minutes < n.

Lemma fill_lookup m n trades buckets i v :
  Forall (in_buckets m n) trades → buckets !! i = Some v →
  fold_left (add_to_bucket m n) trades buckets !! i = Some (v + volume_in m (Z.of_nat i) trades).
Proof.
  intros Hin. revert buckets v. induction Hin as [|t trades Ht _ IH]; intros buckets v Hi; cbn [fold_left].
  - rewrite Hi. f_equal. unfold volume_in. simpl. lia.
  - rewrite volume_in_cons, Z.add_assoc. apply IH. unfold add_to_bucket, bucket_index, in_buckets in *.
    set (x := (minute_of_day _ - m) / _) in *. rewrite Z.min_l by lia.
    destruct (Z.leb_spec 0 x); [|lia]. destruct (decide (x = Z.of_nat i)) as [E|E].
    + rewrite E, Nat2Z.id, list_lookup_alter_eq, Hi. simpl. f_equal. lia.
    + rewrite list_lookup_alter_ne by lia. rewrite Hi. f_equal. lia.
Qed.

Lemma fill_length m n trades buckets :
  length (fold_left (add_to_bucket m n) trades buckets) = length buckets.
Proof.
  revert buckets. induction trades as [|t trades IH]; intros buckets; cbn [fold_left]; [done|].
  rewrite IH. unfold add_to_bucket. destruct (_ <=? _); [by rewrite length_alter | done].
Qed.

Lemma fill_buckets_spec m n trades :
  Forall (in_buckets m n) trades → fill_buckets m n trades = bucket_volumes m n trades.
Proof.
  intros Hin. apply list_eq. intros i. unfold bucket_volumes.
  destruct (decide (i < Z.to_nat n)%nat) as [Hi|Hi].
  - unfold fill_buckets. erewrite fill_lookup; [|done | by apply lookup_replicate_2].
    change (map ?f ?l) with (f <$> l). rewrite list_lookup_fmap, lookup_seqZ_lt by lia. simpl. f_equal. 
  - rewrite !lookup_ge_None_2; [done | |].
    + rewrite length_map, length_seqZ. lia.
    + unfold fill_buckets. rewrite fill_length, length_replicate. lia.
Qed.

Lemma fold_max_le l x k : fold_left Z.max l x <= k ↔ x <= k ∧ Forall (λ v, v <= k) l.
Proof.
  revert x. induction l as [|y l IH]; intros x; cbn [fold_left]; [split; [by repeat constructor | by intros []]|].
  rewrite IH, Forall_cons. split; [intros [? ?] | intros (? & ? & ?)]; split_and?; try done; lia.
Qed.
Lemma fold_max_in l x : fold_left Z.max l x = x ∨ fold_left Z.max l x ∈ l.
Proof.
  revert x. induction l as [|y l IH]; intros x; cbn [fold_left]; [by left|].
  destruct (IH (Z.max x y)) as [->|Hin]; [|right; set_solver].
  destruct (Z.max_spec x y) as [[_ ->]|[_ ->]]; [right; set_solver | by left].
Qed.

(** Trades of the premarket window, in microseconds of the day. *)
Definition of_window (start : Z) (snapshot : datetime) (t : MaterializedTrade) : Prop :=
  start <= ny_time (tr_event_timestamp t) <= ny_time snapshot ∧ 0 < tr_size t.

Lemma window_in_buckets start snapshot t :
  of_window start snapshot t →
  in_buckets (start / MINUTE) ((minute_of_day snapshot - start / MINUTE) / volume_bucket_minutes + 1) t.
Proof.
  intros [[Hlo Hhi] _]. unfold in_buckets, minute_of_day, volume_bucket_minutes.
  assert (start / MINUTE <= ny_time (tr_event_timestamp t) / MINUTE) by (apply Z.div_le_mono; [done | lia]).
  assert (ny_time (tr_event_timestamp t) / MINUTE <= ny_time snapshot / MINUTE) by (apply Z.div_le_mono; [done | lia]).
  split; [apply Z.div_pos; lia|]. apply Z.lt_succ_r, Z.div_le_mono; lia.
Qed.

Lemma total_in_le {A} (f : A → Z) (P : A → Prop) `{∀ x, Decision (P x)} l :
  Forall (λ x, 0 <= f x) l → 0 <= total f (filter P l) <= total f l.
Proof.
  induction 1 as [|x l Hx _ IH]; [done|]. rewrite filter_cons. destruct (decide (P x)); simpl in *; lia.
Qed.

Lemma premarket_volume_nonneg start snapshot trades :
  Forall (of_window start snapshot) trades → Forall (λ t, 0 <= tr_size t) trades.
Proof. intros Hw. eapply Forall_impl; [exact Hw|]. intros t [_ ?]. lia. Qed.

Lemma two_digits_nonneg a b k x : two_digits a b k = Some x → 0 <= x.
Proof.
  unfold two_digits, digit_value, between. intros E.
  destruct ((48 <=? Z.of_nat (nat_of_ascii a)) && _) eqn:Ea; [|done].
  destruct ((48 <=? Z.of_nat (nat_of_ascii b)) && _) eqn:Eb; [|done].
  destruct (_ <? k); [|done]. injection E as <-. bool_to_prop. lia.
Qed.

Lemma clock_time_nonneg a b c d t : clock_time a b c d = Some t → 0 <= t.
Proof.
  unfold clock_time. destruct (two_digits a b 24) as [h|] eqn:Eh; [|done]. simpl.
  destruct (two_digits c d 60) as [m|] eqn:Em; [|done]. simpl. intros [= <-].
  apply two_digits_nonneg in Eh, Em. unfold time_of, HOUR, MINUTE, SECOND. lia.
Qed.

Lemma iso_time_nonneg s t : iso_time s = Ok t → 0 <= t.
Proof.
  unfold iso_time. intros E.
  destruct (list_ascii_of_string s) as [|a [|b [|x [|c [|d [|y [|e [|f [|]]]]]]]]]; try discriminate E.
  - destruct (is_colon x); [|done]. destruct (clock_time a b c d) as [u|] eqn:Eu; [|done].
    injection E as <-. by eapply clock_time_nonneg.
  - destruct (_ && _); [|done]. destruct (clock_time a b c d) as [u|] eqn:Eu; [|done]. simpl in E.
    destruct (two_digits e f 60) as [v|] eqn:Ev; [|done]. simpl in E. injection E as <-.
    apply clock_time_nonneg in Eu. apply two_digits_nonneg in Ev. unfold SECOND. lia.
Qed.

(** The volume profile.  For the trades of a premarket window, clean means
    exactly that no five minutes carry more than the configured share of the
    volume and that at least the configured share of the five-minute buckets
    from the start to the snapshot, the last included, saw a trade; the
    rounding of the two quotients never decides.  Every trade counts in the
    bucket of its own minute. *)
Theorem volume_profile_spec trades snapshot config start p c :
  iso_time (fc_premarket_start_et config) = Ok start →
  (dval (fc_spiky_max_bucket_share config) == inject_Z p * bp10 (-2))%Q →
  (dval (fc_spiky_min_nonempty_coverage config) == inject_Z c * bp10 (-2))%Q →
  Forall (of_window start snapshot) trades → trades ≠ [] → premarket_volume trades < 10 ^ 25 →
  let n := (minute_of_day snapshot - start / MINUTE) / volume_bucket_minutes + 1 in
  let volumes := bucket_volumes (start / MINUTE) n trades in
  ∃ profile, volume_profile trades snapshot config = Ok profile ∧
    (profile = VP_CLEAN ↔
      Forall (λ v, 100 * v <= p * premarket_volume trades) volumes ∧
      c * n <= 100 * len (filter (λ v, 0 < v) volumes)).
Proof.
  intros Hstart Hp Hc Hw Hne Hmax n volumes.
  assert (Forall (in_buckets (start / MINUTE) n) trades) as Hin
    by (eapply Forall_impl; [exact Hw | intros t Ht; by apply window_in_buckets]).
  pose proof (premarket_volume_nonneg _ _ _ Hw) as Hnn.
  assert (0 < premarket_volume trades) as Hpos.
  { destruct trades as [|t l]; [done|]. apply Forall_cons in Hw as [[_ Ht] Hl]. apply Forall_cons in Hnn as [_ Hnn].
    unfold premarket_volume. simpl. pose proof (total_in_le tr_size (λ _, True) l Hnn). lia. }
  assert (0 < n) as Hn.
  { destruct trades as [|t l]; [done|]. apply Forall_cons in Hin as [Ht _]. unfold in_buckets in Ht. lia. }
  unfold volume_profile. destruct (Z.leb_spec (premarket_volume trades) 0); [lia|]. rewrite Hstart. cbn [mbind result_bind].
  fold n. destruct (Z.leb_spec n 0); [lia|]. rewrite (fill_buckets_spec _ _ _ Hin). fold volumes.
  assert (Forall (λ v, 0 <= v <= premarket_volume trades) volumes) as Hvol.
  { apply Forall_forall. intros v Hv. apply list_elem_of_fmap in Hv as (b & -> & _). by apply total_in_le. }
  assert (0 <= fold_left Z.max volumes 0 <= premarket_volume trades) as Hmx.
  { split; [|apply fold_max_le; split; [lia|]; eapply Forall_impl; [exact Hvol | by intros v [_ ?]]].
    assert (fold_left Z.max volumes 0 <= fold_left Z.max volumes 0) as [? _]%fold_max_le by done. done. }
  assert (0 <= len (filter (λ v, 0 < v) volumes) <= n) as Hcov.
  { unfold len. split; [lia|]. pose proof (length_filter (λ v, 0 < v) volumes) as Hl. unfold volumes in *.
    unfold bucket_volumes in Hl at 2. rewrite length_map, length_seqZ in Hl. lia. }
  assert (∀ A B, 0 <= A → 0 < B → ∃ q, dec.div (dec.of_Z A) (dec.of_Z B) = Ok q) as Hdiv.
  { intros A B HA HB. destruct (decide (A = 0)) as [->|]; [eexists; apply div_zero_l; simpl; lia|].
    destruct (div_pos_spec (dec.of_Z A) (dec.of_Z B)) as (q & Hq & _); [simpl; lia..|]. by exists q. }
  destruct (Hdiv (fold_left Z.max volumes 0) (premarket_volume trades)) as [q1 Hq1]; [lia..|]. rewrite Hq1.
  destruct (Hdiv (len (filter (λ v, 0 < v) volumes)) n) as [q2 Hq2]; [lia..|]. rewrite Hq2. cbn [mbind result_bind].
  eexists. split; [reflexivity|].
  destruct (div_cmp_percent _ _ _ _ _ Hq1 ltac:(lia) Hpos Hp) as [Hs _].
  assert (n < 10 ^ 25) as Hn25.
  { pose proof (iso_time_nonneg _ _ Hstart) as Hs0. unfold n, minute_of_day, volume_bucket_minutes, ny_time.
    pose proof (Z.mod_pos_bound (ny_wall snapshot) DAY ltac:(done)) as Hday.
    assert (0 <= start / MINUTE) by (apply Z.div_pos; [done | unfold MINUTE, SECOND; lia]).
    assert ((ny_wall snapshot mod DAY) / MINUTE <= DAY / MINUTE) by (apply Z.div_le_mono; [done | lia]).
    change (DAY / MINUTE) with 1440 in *.
    assert (((ny_wall snapshot mod DAY) / MINUTE - start / MINUTE) / 5 <= 1440 / 5) by (apply Z.div_le_mono; lia).
    change (1440 / 5) with 288 in *. lia. }
  destruct (div_cmp_percent _ _ _ _ _ Hq2 ltac:(lia) Hn Hc) as [_ Hs2].
  assert (100 * fold_left Z.max volumes 0 <= p * premarket_volume trades ↔
    Forall (λ v, 100 * v <= p * premarket_volume trades) volumes) as <-.
  { split; intros Hx.
    - assert (fold_left Z.max volumes 0 <= fold_left Z.max volumes 0) as [_ Hall]%fold_max_le by reflexivity.
      eapply Forall_impl; [exact Hall|]. intros v Hv. simpl in Hv. lia.
    - destruct (fold_max_in volumes 0) as [Ez|Hi]; [|rewrite Forall_forall in Hx; by apply Hx].
      rewrite Ez. assert (volumes ≠ []) as Hvne.
      { intros Hnil. apply (f_equal length) in Hnil. unfold volumes, bucket_volumes in Hnil.
        rewrite length_map, length_seqZ in Hnil. simpl in Hnil. lia. }
      destruct volumes as [|v l]; [done|]. apply Forall_cons in Hx as [Hx _]. apply Forall_cons in Hvol as [Hv _]. lia. }
  destruct (fc_spiky_max_bucket_share config <? q1)%dec; cbn [orb].
  { pose proof (proj1 Hs eq_refl). split; [done | lia]. }
  destruct (q2 <? fc_spiky_min_nonempty_coverage config)%dec.
  { pose proof (proj1 Hs2 eq_refl). split; [done | lia]. }
  split; [intros _ | done]. split; apply Z.nlt_ge; intros Hx; [apply Hs in Hx | apply Hs2 in Hx]; discriminate.
Qed.
End profile.

(** Three trades from 4:00 to 4:07 in a zone five hours behind UTC. *)
Definition est : NewYork := λ _, -5 * HOUR.
Definition sample_trade (minute size : Z) : MaterializedTrade :=
  {| tr_trade_id := "T"; tr_event_timestamp := time_of 9 minute; tr_price := dec.of_Z 10; tr_size := size;
     tr_ingest_seq := 1 |}.

Lemma volume_profile_spec_witness :
  ∃ profile, @volume_profile est [sample_trade 0 30; sample_trade 3 30; sample_trade 6 40] (time_of 9 7) default_feature_config
    = Ok profile ∧ profile ≠ VP_CLEAN.
Proof.
  destruct (@volume_profile_spec est [sample_trade 0 30; sample_trade 3 30; sample_trade 6 40] (time_of 9 7)
    default_feature_config (time_of 4 0) 35 60) as (profile & E & H).
  - reflexivity.
  - reflexivity.
  - reflexivity.
  - repeat constructor; vm_compute; discriminate.
  - discriminate.
  - reflexivity.
  - exists profile. split; [exact E|]. intros Hc. apply H in Hc as [Hv _]. vm_compute in Hv.
    apply Forall_cons in Hv as [Hv _]. apply Hv. reflexivity.
Defined.
