(* ===== verification/FeatureResistance.v ===== *)
(** * FeatureResistance: overhead resistance from clustered pivots

    daily_pivot_cluster_v1 of daybreak_features/resistance.py.  The loop over
    indices and the set of those already assigned is proved equal to a
    partition by anchors. *)
From Stdlib Require Import Ascii String QArith Lqa.
From Equations Require Import Equations.
From S2P Require Import Prelude Numerics PyStr PyTime Contracts Canonical RiskModels FeatureModels FeatureLedger FeatureCore.

#[local] Open Scope Z_scope.

Record Pivot := { pv_session_date : date; pv_price : decimal; pv_confirmed : bool; pv_lookback_high : bool }.

Record Cluster := {
  cu_sequence : Z;
  cu_anchor : decimal;
  cu_members : list Pivot;
  cu_zone_low : decimal;
  cu_zone_high : decimal;
  cu_zone_center : decimal;
  cu_touch_dates : list date;
  cu_most_recent_touch_age : Z;
  cu_contains_lookback_high : bool;
}.

(** [max] and [min] of a sequence; none of the source's is empty. *)
Definition dec_max (l : list decimal) : decimal := match l with x :: r => max_of x r | [] => dec.zero end.
Definition dec_min (l : list decimal) : decimal := match l with x :: r => min_of x r | [] => dec.zero end.
Definition date_max (a b : date) : date := if date_leb b a then a else b.
Definition latest (l : list date) : date := match l with x :: r => fold_left date_max r x | [] => Date 1 1 1 end.

(** ** Pivots *)

Definition highs (bars : list DailyBar) : list decimal := map db_high bars.

(** The bar at [i] is higher than the five before it and the five after. *)
Definition is_pivot (bars : list DailyBar) (i : Z) (price : decimal) : bool :=
  (dec_max (highs (py_slice bars (i - pivot_left_width) i)) <? price)%dec
  && (dec_max (highs (py_slice bars (i + 1) (i + pivot_right_width + 1))) <? price)%dec.

Definition confirmed_pivots (bars : list DailyBar) : list Pivot :=
  omap (λ i, bar ← bars !! Z.to_nat i;
             if is_pivot bars i (db_high bar)
             then Some {| pv_session_date := db_session_date bar; pv_price := db_high bar; pv_confirmed := true;
                          pv_lookback_high := false |}
             else None)
    (seqZ pivot_left_width (len bars - pivot_right_width - pivot_left_width)).

(** [max(bars, key=session_date)] keeps the first of the latest. *)
Definition later_bar (a b : DailyBar) : DailyBar := if date_leb (db_session_date b) (db_session_date a) then a else b.
Definition representative (bars : list DailyBar) : option DailyBar :=
  match filter (λ b, dec.eqb (db_high b) (dec_max (highs bars)) = true) bars with
  | x :: l => Some (fold_left later_bar l x)
  | [] => None
  end.

Definition pivot_candidates (bars : list DailyBar) : list Pivot * bool :=
  let pivots := confirmed_pivots bars in
  match representative bars with
  | None => (pivots, false)
  | Some r =>
      if existsb (λ p, bool_decide (pv_session_date p = db_session_date r)) pivots
      then (map (λ p, {| pv_session_date := pv_session_date p; pv_price := pv_price p; pv_confirmed := pv_confirmed p;
                         pv_lookback_high := bool_decide (pv_session_date p = db_session_date r) |}) pivots, false)
      else (pivots ++ [{| pv_session_date := db_session_date r; pv_price := db_high r; pv_confirmed := false;
                          pv_lookback_high := true |}], true)
  end.

(** ** Clusters *)

(** [(-item.price, item.session_date)]. *)
Definition compare_pivots (a b : Pivot) : comparison :=
  lex (dec.compare (dec.neg (pv_price a)) (dec.neg (pv_price b)))
      (date_compare (pv_session_date a) (pv_session_date b)).
Definition sort_pivots (l : list Pivot) : list Pivot := sorted_by (λ a b, not_gt (compare_pivots a b)) l.

(** [anchor.price - candidate.price <= tolerance]. *)
Definition in_reach (tolerance : decimal) (anchor candidate : Pivot) : bool :=
  (pv_price anchor - pv_price candidate <=? tolerance)%dec.

(** The inner loop, from index [j] on. *)
Fixpoint collect (tolerance : decimal) (anchor : Pivot) (j : nat) (rest : list Pivot) (members : list Pivot)
    (assigned : gset nat) : list Pivot * gset nat :=
  match rest with
  | [] => (members, assigned)
  | candidate :: rest' =>
      if decide (j ∈ assigned) then collect tolerance anchor (S j) rest' members assigned
      else if in_reach tolerance anchor candidate
      then collect tolerance anchor (S j) rest' (members ++ [candidate]) (assigned ∪ {[j]})
      else collect tolerance anchor (S j) rest' members assigned
  end.

(** [{member.session_date: member ...}], its values by date. *)
Definition by_date (members : list Pivot) : list Pivot :=
  sorted_by (λ a b, date_leb (pv_session_date a) (pv_session_date b))
    (map snd (map_to_list (fold_left (λ m p, <[pv_session_date p := p]> m) members (∅ : gmap date Pivot)))).

(** statistics.median. *)
Definition median (l : list decimal) : result decimal :=
  let data := sorted_by dec.leb l in
  let n := length data in
  if Nat.even n then
    match data !! (n / 2 - 1)%nat, data !! (n / 2)%nat with
    | Some a, Some b => dec.div (a + b)%dec (dec.of_Z 2)
    | _, _ => Err (EOther "StatisticsError" "no median for empty data")
    end
  else match data !! (n / 2)%nat with Some x => Ok x | None => Err (EOther "StatisticsError" "no median for empty data") end.

(** [date_to_index[d]]: the last bar of the date. *)
Fixpoint index_of_date (d : date) (bars : list DailyBar) (i : Z) (found : option Z) : option Z :=
  match bars with
  | [] => found
  | b :: rest => index_of_date d rest (i + 1) (if decide (db_session_date b = d) then Some i else found)
  end.

Definition cluster_of (bars : list DailyBar) (sequence : Z) (anchor : Pivot) (members : list Pivot) : result Cluster :=
  let unique_members := by_date members in
  let prices := map pv_price unique_members in
  let dates := map pv_session_date unique_members in
  center ← median prices;
  let most_recent := latest dates in
  index ← match index_of_date most_recent bars 0 None with
          | Some i => Ok i | None => Err (EKey (date_iso most_recent)) end;
  Ok {| cu_sequence := sequence; cu_anchor := pv_price anchor; cu_members := unique_members;
        cu_zone_low := dec_min prices; cu_zone_high := dec_max prices; cu_zone_center := center;
        cu_touch_dates := dates; cu_most_recent_touch_age := len bars - 1 - index;
        cu_contains_lookback_high := existsb pv_lookback_high unique_members |}.

(** The outer loop, from index [i] on. *)
Fixpoint cluster_loop (tolerance : decimal) (bars : list DailyBar) (i : nat) (rest : list Pivot) (assigned : gset nat)
    (acc : list Cluster) : result (list Cluster) :=
  match rest with
  | [] => Ok acc
  | anchor :: rest' =>
      if decide (i ∈ assigned) then cluster_loop tolerance bars (S i) rest' assigned acc
      else
        let (members, assigned') := collect tolerance anchor (S i) rest' [anchor] (assigned ∪ {[i]}) in
        c ← cluster_of bars (len acc + 1) anchor members;
        cluster_loop tolerance bars (S i) rest' assigned' (acc ++ [c])
  end.

Definition clusters (pivots : list Pivot) (bars : list DailyBar) (atr : decimal) (config : FeatureEngineConfig)
    : result (list Cluster) :=
  let tolerance := (fc_cluster_tolerance_atr config * atr)%dec in
  cluster_loop tolerance bars 0 (sort_pivots pivots) ∅ [].

(** ** The audit *)

Definition touches (c : Cluster) : Z := len (cu_touch_dates c).

Definition valid_cluster (c : Cluster) : bool :=
  ((2 <=? touches c) || cu_contains_lookback_high c)
  && negb ((cluster_recency_sessions <? cu_most_recent_touch_age c) && (touches c <? 3)).

(** The clusters above the price, or around it, with their distance. *)
Fixpoint eligible_clusters (price atr : decimal) (l : list Cluster) : result (list (decimal * Cluster)) :=
  match l with
  | [] => Ok []
  | c :: l' =>
      if (price <? cu_zone_low c)%dec then
        d ← dec.div (cu_zone_low c - price)%dec atr;
        rest ← eligible_clusters price atr l'; Ok ((d, c) :: rest)
      else
        rest ← eligible_clusters price atr l';
        Ok (if (cu_zone_low c <=? price)%dec && (price <=? cu_zone_high c)%dec then (dec.zero, c) :: rest else rest)
  end.

Definition last_touch (c : Cluster) : Z := match last (cu_touch_dates c) with Some d => days_of_civil d | None => 0 end.
Definition compare_eligible (a b : decimal * Cluster) : comparison :=
  lex (dec.compare a.1 b.1)
    (lex (Z.compare (- last_touch a.2) (- last_touch b.2))
      (lex (Z.compare (- touches a.2) (- touches b.2))
        (lex (dec.compare (cu_zone_low a.2) (cu_zone_low b.2)) (Z.compare (cu_sequence a.2) (cu_sequence b.2))))).

Definition structure_of (distance : decimal) : ChartStructure :=
  if (dec.of_Z 2 <? distance)%dec then CS_CLEAN_SHORT_TERM
  else if (dec.of_Z 1 <=? distance)%dec then CS_MODERATE_ROOM else CS_CAPPED.

(** What every audit shares. *)
Definition audit_of (bars cluster_bars : list DailyBar) (pivots : list Pivot) (synthetic : bool) (valid : list Cluster)
    (source : ResistanceSource) (selected : option Cluster) (raw : option decimal) (distance : decimal)
    (structure : ChartStructure) (sentinel : bool) : ResistanceAudit :=
  let ath := dec_max (highs bars) in
  {| ra_available_completed_bars := len bars; ra_cluster_lookback_bars := len cluster_bars;
     ra_all_time_high_price := ath;
     ra_all_time_high_date := latest (map db_session_date (filter (λ b, dec.eqb (db_high b) ath = true) bars));
     ra_confirmed_pivot_count := len (filter (λ p, pv_confirmed p = true) pivots);
     ra_synthetic_lookback_high_added := synthetic; ra_valid_cluster_count := len valid;
     ra_selected_resistance_source := source; ra_selected_zone_low := cu_zone_low <$> selected;
     ra_selected_zone_high := cu_zone_high <$> selected; ra_selected_zone_center := cu_zone_center <$> selected;
     ra_selected_touch_count := touches <$> selected;
     ra_selected_touch_dates := match selected with Some c => cu_touch_dates c | None => [] end;
     ra_raw_distance_to_resistance_atr := raw; ra_distance_to_resistance_atr := distance;
     ra_chart_structure := structure; ra_is_blue_sky_sentinel := sentinel |}.

Definition daily_pivot_cluster_v1 (bars : list DailyBar) (current_price atr : decimal)
    (history_complete_since_listing : bool) (config : FeatureEngineConfig) : result ResistanceAudit :=
  if len bars <? fc_min_daily_history config then Err (EDataQuality "INSUFFICIENT_DAILY_HISTORY")
  else if (atr <=? dec.zero)%dec then Err (EDataQuality "INVALID_ATR")
  else
    let cluster_bars := py_slice bars (- Z.min cluster_lookback_sessions (len bars)) (len bars) in
    let ath := dec_max (highs bars) in
    let (pivots, synthetic) := pivot_candidates cluster_bars in
    cs ← clusters pivots cluster_bars atr config;
    let valid := filter (λ c, valid_cluster c = true) cs in
    eligible ← eligible_clusters current_price atr valid;
    let audit := audit_of bars cluster_bars pivots synthetic valid in
    match sorted_by (λ a b, not_gt (compare_eligible a b)) eligible with
    | (raw, selected) :: _ =>
        distance ← dec.quantize raw (- distance_decimal_places) RHalfEven;
        Ok (audit RS_PIVOT_CLUSTER (Some selected) (Some raw) distance (structure_of distance) false)
    | [] =>
        if (current_price <? ath)%dec then
          raw ← dec.div (ath - current_price)%dec atr;
          distance ← dec.quantize raw (- distance_decimal_places) RHalfEven;
          Ok (audit RS_ALL_TIME_HIGH_FALLBACK None (Some raw) distance (structure_of distance) false)
        else if negb history_complete_since_listing then Err (EDataQuality "INCOMPLETE_HISTORY_FOR_BLUE_SKY_CHECK")
        else Ok (audit RS_NONE_ABOVE_ALL_TIME_HIGH None None (fc_blue_sky_sentinel config) CS_BLUE_SKY true)
    end.

(** ** Clustering as a partition

    The reference: the first pivot anchors a cluster of those within tolerance,
    the others are clustered in turn. *)
Equations anchored (tolerance : decimal) (l : list Pivot) : list (Pivot * list Pivot) by wf (length l) lt :=
  anchored _ [] := [];
  anchored tolerance (a :: r) :=
    (a, filter (λ p, in_reach tolerance a p = true) r) :: anchored tolerance (filter (λ p, in_reach tolerance a p = false) r).
Next Obligation.
  intros tolerance a r _. pose proof (length_filter (λ p, in_reach tolerance a p = false) r). simpl. lia.
Qed.

(** The pivots of [l], numbered from [j], not yet assigned. *)
Fixpoint unassigned (j : nat) (l : list Pivot) (assigned : gset nat) : list Pivot :=
  match l with
  | [] => []
  | p :: l' => if decide (j ∈ assigned) then unassigned (S j) l' assigned else p :: unassigned (S j) l' assigned
  end.

Lemma unassigned_ext j l s s' :
  (∀ k, (j <= k)%nat → k ∈ s ↔ k ∈ s') → unassigned j l s = unassigned j l s'.
Proof.
  revert j. induction l as [|p l IH]; intros j Hs; cbn [unassigned]; [done|].
  rewrite (IH (S j)) by (intros k Hk; apply Hs; lia).
  destruct (decide (j ∈ s)) as [Hj|Hj], (decide (j ∈ s')) as [Hj'|Hj']; try done; exfalso; apply (Hs j) in Hj || apply Hj, (Hs j); done || lia.
Qed.

Lemma unassigned_all j l : unassigned j l ∅ = l.
Proof. revert j. induction l as [|p l IH]; intros j; cbn [unassigned]; [done|]. destruct (decide _); [set_solver | by rewrite IH]. Qed.

Lemma collect_spec tolerance anchor j l members assigned :
  let free := unassigned j l assigned in
  let out := collect tolerance anchor j l members assigned in
  out.1 = members ++ filter (λ p, in_reach tolerance anchor p = true) free ∧
  (∀ k, (k < j)%nat → k ∈ out.2 ↔ k ∈ assigned) ∧
  unassigned j l out.2 = filter (λ p, in_reach tolerance anchor p = false) free.
Proof.
  revert j members assigned. induction l as [|p l IH]; intros j members assigned; cbn [collect unassigned].
  { cbv zeta. cbn [fst snd]. rewrite app_nil_r. done. }
  cbv zeta. destruct (decide (j ∈ assigned)) as [Hj|Hj].
  - destruct (IH (S j) members assigned) as (E1 & E2 & E3). split; [done|]. split; [intros k Hk; apply E2; lia|].
    destruct (decide (j ∈ _)) as [_|Hn]; [done|]. exfalso. apply Hn, E2; [lia | done].
  - rewrite !filter_cons. destruct (in_reach tolerance anchor p) eqn:Ew.
    + destruct (IH (S j) (members ++ [p]) (assigned ∪ {[j]})) as (E1 & E2 & E3).
      rewrite (unassigned_ext (S j) l (assigned ∪ {[j]}) assigned) in E1, E3 by set_solver by lia.
      destruct (decide (true = true)); [|done]. destruct (decide (true = false)); [done|].
      split; [by rewrite E1, <- app_assoc|]. split; [intros k Hk; rewrite E2 by lia; set_solver by lia|].
      destruct (decide (j ∈ _)) as [_|Hn]; [done|]. exfalso. apply Hn, E2; [lia | set_solver].
    + destruct (IH (S j) members assigned) as (E1 & E2 & E3).
      destruct (decide (false = true)); [done|]. destruct (decide (false = false)); [|done].
      split; [done|]. split; [intros k Hk; apply E2; lia|].
      destruct (decide (j ∈ _)) as [Hn|_]; [exfalso; apply Hj; apply E2 in Hn; [done | lia] | by rewrite E3].
Qed.

(** The clusters of the groups, numbered from [n]. *)
Fixpoint build (bars : list DailyBar) (n : Z) (groups : list (Pivot * list Pivot)) : result (list Cluster) :=
  match groups with
  | [] => Ok []
  | (a, members) :: rest =>
      c ← cluster_of bars n a (a :: members);
      cs ← build bars (n + 1) rest;
      Ok (c :: cs)
  end.

Lemma cluster_loop_spec tolerance bars i l assigned acc :
  cluster_loop tolerance bars i l assigned acc =
    match build bars (len acc + 1) (anchored tolerance (unassigned i l assigned)) with
    | Ok cs => Ok (acc ++ cs) | Err e => Err e end.
Proof.
  revert i assigned acc. induction l as [|p l IH]; intros i assigned acc; cbn [cluster_loop unassigned].
  { simp anchored. cbn [build]. by rewrite app_nil_r. }
  destruct (decide (i ∈ assigned)) as [Hi|Hi]; [apply IH|].
  pose proof (collect_spec tolerance p (S i) l [p] (assigned ∪ {[i]})) as (E1 & E2 & E3).
  rewrite (unassigned_ext (S i) l (assigned ∪ {[i]}) assigned) in E1, E3 by set_solver by lia.
  destruct (collect tolerance p (S i) l [p] (assigned ∪ {[i]})) as [members assigned']. cbn [fst snd] in *.
  rewrite E1. simp anchored. cbn [build app].
  destruct (cluster_of bars (len acc + 1) p _) as [c|e]; cbn [mbind result_bind]; [|done].
  rewrite IH, E3. unfold len. rewrite length_app. cbn [length].
  replace (Z.of_nat (length acc + 1) + 1) with (Z.of_nat (length acc) + 1 + 1) by lia.
  destruct (build _ _ _) as [cs|e]; [|done]. cbn [mbind result_bind]. by rewrite <- app_assoc.
Qed.

Lemma clusters_build pivots bars atr config :
  clusters pivots bars atr config =
    build bars 1 (anchored (fc_cluster_tolerance_atr config * atr)%dec (sort_pivots pivots)).
Proof. unfold clusters. rewrite cluster_loop_spec, unassigned_all. by destruct (build _ _ _). Qed.

(** ** Members of a cluster *)

Lemma fold_insert_perm (l : list Pivot) (m : gmap date Pivot) :
  NoDup (map pv_session_date l) → (∀ p, p ∈ l → m !! pv_session_date p = None) →
  map snd (map_to_list (fold_left (λ m p, <[pv_session_date p := p]> m) l m)) ≡ₚ l ++ map snd (map_to_list m).
Proof.
  revert m. induction l as [|p l IH]; intros m Hnd Hm; cbn [fold_left]; [done|].
  simpl in Hnd. apply NoDup_cons in Hnd as [Hp Hnd]. rewrite IH; [| done |].
  - rewrite map_to_list_insert by (apply Hm; set_solver). simpl. by rewrite Permutation_middle.
  - intros q Hq. rewrite lookup_insert_ne; [apply Hm; set_solver|].
    intros E. apply Hp. rewrite E. by apply list_elem_of_fmap_2.
Qed.

Lemma by_date_perm l : NoDup (map pv_session_date l) → by_date l ≡ₚ l.
Proof.
  intros Hnd. unfold by_date. rewrite (sorted_by_perm _ (map snd _)), fold_insert_perm; [|done|].
  - by rewrite map_to_list_empty, app_nil_r.
  - intros p _. by rewrite lookup_empty.
Qed.

Lemma good_date : good_compare date_compare.
Proof.
  apply (good_lex (λ a b, Z.compare (d_year a) (d_year b))); [apply (good_map d_year), good_Z|].
  apply (good_lex (λ a b, Z.compare (d_month a) (d_month b))); [apply (good_map d_month), good_Z|].
  apply (good_map d_day), good_Z.
Qed.

Lemma date_leb_total a b : date_leb a b = true ∨ date_leb b a = true.
Proof. apply good_total, good_date. Qed.

Lemma latest_in x l : latest (x :: l) ∈ x :: l.
Proof.
  unfold latest. revert x. induction l as [|y l IH]; intros x; cbn [fold_left]; [set_solver|].
  specialize (IH (date_max x y)). rewrite elem_of_cons in IH. rewrite !elem_of_cons.
  destruct IH as [IH|IH]; [|by right; right]. unfold date_max in IH |- *. destruct (date_leb y x); auto.
Qed.

Lemma index_of_date_found d bars i found :
  (is_Some found ∨ d ∈ map db_session_date bars) → is_Some (index_of_date d bars i found).
Proof.
  revert i found. induction bars as [|b bars IH]; intros i found Hd; cbn [index_of_date].
  - destruct Hd as [|Hd]; [done | set_solver].
  - apply IH. destruct (decide (db_session_date b = d)) as [E|Hne]; [by left; eexists|].
    destruct Hd as [|Hd]; [by left|]. right. set_solver.
Qed.

Lemma median_total l : l ≠ [] → ∃ m, median l = Ok m.
Proof.
  intros Hl. assert (length (sorted_by dec.leb l) ≠ 0%nat) as Hlen.
  { rewrite length_sorted_by. by destruct l. }
  unfold median. set (data := sorted_by dec.leb l) in *. set (n := length data) in *.
  assert (n / 2 < n)%nat as Hn by (apply Nat.div_lt; lia).
  destruct (lookup_lt_is_Some_2 data (n / 2)) as [b Hb]; [done|].
  destruct (Nat.even n) eqn:Ev.
  - destruct (lookup_lt_is_Some_2 data (n / 2 - 1)) as [a Ha]; [fold n; lia|]. rewrite Ha, Hb.
    unfold dec.div. simpl (coef (dec.of_Z 2) =? 0). destruct (_ =? 0); [by eexists|].
    destruct (round_sig _ _ _ _). by eexists.
  - rewrite Hb. by eexists.
Qed.

(** [min_of] and [max_of] bound the list. *)
Lemma dec_min_lower l x : x ∈ l → (dval (dec_min l) <= dval x)%Q.
Proof.
  destruct l as [|y l]; [set_solver|]. unfold dec_min, min_of. revert y x.
  assert (∀ l y, (dval (fold_left dec.min l y) <= dval y)%Q) as Hle.
  { clear. intros l. induction l as [|z l IH]; intros y; cbn [fold_left]; [lra|].
    pose proof (IH (dec.min y z)). destruct (dmin_spec y z) as [[? ?] _]. lra. }
  induction l as [|z l IH]; intros y x; cbn [fold_left].
  - intros ->%list_elem_of_singleton. lra.
  - intros [->|[->|Hx]%elem_of_cons]%elem_of_cons.
    + pose proof (Hle l (dec.min y z)). destruct (dmin_spec y z) as [[? ?] _]. lra.
    + pose proof (Hle l (dec.min y z)). destruct (dmin_spec y z) as [[? ?] _]. lra.
    + apply IH. set_solver.
Qed.

Lemma dec_max_upper l x : x ∈ l → (dval x <= dval (dec_max l))%Q.
Proof.
  destruct l as [|y l]; [set_solver|]. unfold dec_max, max_of. revert y x.
  assert (∀ l y, (dval y <= dval (fold_left dec.max l y))%Q) as Hle.
  { clear. intros l. induction l as [|z l IH]; intros y; cbn [fold_left]; [lra|].
    pose proof (IH (dec.max y z)). destruct (dmax_spec y z) as [[? ?] _]. lra. }
  induction l as [|z l IH]; intros y x; cbn [fold_left].
  - intros ->%list_elem_of_singleton. lra.
  - intros [->|[->|Hx]%elem_of_cons]%elem_of_cons.
    + pose proof (Hle l (dec.max y z)). destruct (dmax_spec y z) as [[? ?] _]. lra.
    + pose proof (Hle l (dec.max y z)). destruct (dmax_spec y z) as [[? ?] _]. lra.
    + apply IH. set_solver.
Qed.

(** ** The partition *)

Definition group_members (g : Pivot * list Pivot) : list Pivot := g.1 :: g.2.

Lemma filter_split_perm {A} (f : A → bool) (l : list A) :
  filter (λ x, f x = true) l ++ filter (λ x, f x = false) l ≡ₚ l.
Proof.
  induction l as [|x l IH]; [done|]. rewrite !filter_cons. destruct (f x) eqn:E.
  - destruct (decide (true = true)); [|done]. destruct (decide (true = false)); [done|]. simpl. by rewrite IH.
  - destruct (decide (false = true)); [done|]. destruct (decide (false = false)); [|done].
    rewrite <- Permutation_middle. by rewrite IH.
Qed.

Lemma anchored_perm tolerance l : concat (map group_members (anchored tolerance l)) ≡ₚ l.
Proof.
  funelim (anchored tolerance l); simp anchored; [done|].
  cbn [map concat group_members fst snd app]. rewrite H. by rewrite filter_split_perm.
Qed.

(** Within a group, all are close to the anchor; later groups are not. *)
Lemma anchored_close tolerance l :
  Forall (λ g, Forall (λ p, in_reach tolerance g.1 p = true) g.2) (anchored tolerance l).
Proof.
  funelim (anchored tolerance l); simp anchored; [constructor|]. constructor; [|done].
  apply Forall_forall. intros p Hp. by apply list_elem_of_filter in Hp as [? _].
Qed.

Lemma anchored_apart tolerance l :
  ∀ i j gi gj, (i < j)%nat → anchored tolerance l !! i = Some gi → anchored tolerance l !! j = Some gj →
    Forall (λ p, in_reach tolerance gi.1 p = false) (group_members gj).
Proof.
  funelim (anchored tolerance l); simp anchored; intros i j gi gj Hij Hi Hj; [done|].
  destruct j as [|j]; [lia|]. destruct i as [|i]; [|eapply (H i j); [lia | done | done]].
  simpl in Hi. injection Hi as <-. apply Forall_forall. intros p Hp.
  assert (p ∈ filter (λ p, in_reach tolerance a p = false) r) as Hin.
  { rewrite <- (anchored_perm tolerance). simpl in Hj. apply list_elem_of_In, in_concat.
    exists (group_members gj). split; [|by apply list_elem_of_In].
    apply in_map, list_elem_of_In. by eapply list_elem_of_lookup_2. }
  by apply list_elem_of_filter in Hin as [? _].
Qed.

(** A cluster of a group: its members by date, its zone around them. *)
Record shapes (n : Z) (g : Pivot * list Pivot) (c : Cluster) : Prop := {
  sh_sequence : cu_sequence c = n;
  sh_anchor : cu_anchor c = pv_price g.1;
  sh_members : cu_members c ≡ₚ group_members g;
  sh_dates : cu_touch_dates c = map pv_session_date (cu_members c);
  sh_zone : Forall (λ p, (dval (cu_zone_low c) <= dval (pv_price p) /\ dval (pv_price p) <= dval (cu_zone_high c))%Q)
              (cu_members c);
}.

Definition dated (bars : list DailyBar) (l : list Pivot) : Prop :=
  NoDup (map pv_session_date l) ∧ Forall (λ p, pv_session_date p ∈ map db_session_date bars) l.

Lemma cluster_of_shapes bars n g :
  dated bars (group_members g) → ∃ c, cluster_of bars n g.1 (group_members g) = Ok c ∧ shapes n g c.
Proof.
  intros [Hnd Hin]. destruct g as [a ms]. unfold group_members in *. cbn [fst snd] in *.
  pose proof (by_date_perm _ Hnd) as Hperm. unfold cluster_of. set (u := by_date (a :: ms)) in *.
  assert (u ≠ []) as Hu.
  { intros E. rewrite E in Hperm. by apply Permutation_nil_cons in Hperm. }
  destruct (median_total (map pv_price u)) as [m Hm]; [by destruct u|]. rewrite Hm. cbn [mbind result_bind].
  assert (latest (map pv_session_date u) ∈ map db_session_date bars) as Hl.
  { destruct u as [|x u']; [done|]. pose proof (latest_in (pv_session_date x) (map pv_session_date u')) as Hx.
    change (pv_session_date x :: map pv_session_date u') with (map pv_session_date (x :: u')) in Hx.
    apply list_elem_of_fmap in Hx as (p & E & Hp). rewrite Hperm in Hp. rewrite Forall_forall in Hin.
    simpl in E |- *. rewrite E. by apply Hin. }
  destruct (index_of_date_found (latest (map pv_session_date u)) bars 0 None) as [i Hi]; [by right|]. rewrite Hi.
  cbn [mbind result_bind]. eexists. split; [reflexivity|]. split; try done.
  cbn [cu_zone_low cu_zone_high cu_members]. apply Forall_forall. intros p Hp.
  split; [apply dec_min_lower | apply dec_max_upper]; by apply list_elem_of_fmap_2.
Qed.

Lemma build_shapes bars n groups :
  Forall (λ g, dated bars (group_members g)) groups →
  ∃ cs, build bars n groups = Ok cs ∧ length cs = length groups ∧
    ∀ i g, groups !! i = Some g → ∃ c, cs !! i = Some c ∧ shapes (n + Z.of_nat i) g c.
Proof.
  intros Hg. revert n. induction Hg as [|[a ms] groups Hd _ IH]; intros n; cbn [build].
  { exists []. by split_and!. }
  destruct (cluster_of_shapes bars n (a, ms) Hd) as (c & Hc & Hs). change (cluster_of bars n a (a :: ms) = Ok c) in Hc. rewrite Hc.
  destruct (IH (n + 1)) as (cs & Hcs & Hlen & Hall). cbn [mbind result_bind]. rewrite Hcs. cbn [mbind result_bind].
  exists (c :: cs). split; [done|]. split; [simpl; congruence|]. intros [|i] g Hi; simpl in Hi.
  - injection Hi as <-. exists c. split; [done|]. by rewrite Z.add_0_r.
  - destruct (Hall i g Hi) as (c' & Hc' & Hs'). exists c'. split; [done|].
    replace (n + Z.of_nat (S i)) with (n + 1 + Z.of_nat i) by lia. done.
Qed.

Lemma group_in l tolerance g p :
  g ∈ anchored tolerance l → p ∈ group_members g → p ∈ l.
Proof.
  intros Hg Hp. rewrite <- (anchored_perm tolerance l). apply list_elem_of_In, in_concat.
  exists (group_members g). split; [by apply in_map, list_elem_of_In | by apply list_elem_of_In].
Qed.

Lemma NoDup_concat_part {A} (L : list (list A)) l : NoDup (concat L) → l ∈ L → NoDup l.
Proof.
  induction L as [|x L IH]; [set_solver|]. simpl. intros (Hx & _ & Hl)%NoDup_app [->|Hin]%elem_of_cons; [done | by apply IH].
Qed.

Lemma groups_dated bars tolerance l :
  dated bars l → Forall (λ g, dated bars (group_members g)) (anchored tolerance l).
Proof.
  intros [Hnd Hin]. apply Forall_forall. intros g Hg. split.
  - assert (NoDup (concat (map (map pv_session_date) (map group_members (anchored tolerance l))))) as Hall
      by (rewrite <- concat_map; by rewrite anchored_perm).
    eapply NoDup_concat_part; [exact Hall|]. by do 2 apply list_elem_of_fmap_2.
  - apply Forall_forall. intros p Hp. rewrite Forall_forall in Hin. apply Hin. by eapply group_in.
Qed.


Definition sample_pivot (day price : Z) : Pivot :=
  {| pv_session_date := Date 2026 1 day; pv_price := Dec price (-1); pv_confirmed := true; pv_lookback_high := false |}.
Definition sample_bar (day : Z) : DailyBar :=
  {| db_session_date := Date 2026 1 day; db_open := dec.of_Z 9; db_high := dec.of_Z 11; db_low := dec.of_Z 8;
     db_close := dec.of_Z 10; db_volume := 1000 |}.


(** ** The pivots of a chart are dated *)

Lemma NoDup_map_omap {A B C} (f : A → option B) (g : B → C) l :
  (∀ i j x y, i ∈ l → j ∈ l → f i = Some x → f j = Some y → g x = g y → i = j) → NoDup l → NoDup (map g (omap f l)).
Proof.
  intros Hf. induction 1 as [|a l Ha Hl IH]; [constructor|]. simpl.
  assert (NoDup (map g (omap f l))) as Hrec by (apply IH; intros; eapply Hf; eauto; set_solver).
  destruct (f a) as [x|] eqn:Ea; [|done]. simpl. constructor; [|done].
  intros (y & E & Hy)%list_elem_of_fmap. apply list_elem_of_omap in Hy as (b & Hb & Eb).
  apply Ha. rewrite (Hf a b x y); [done | set_solver | set_solver | done..].
Qed.

Lemma confirmed_pivot_of bars p :
  p ∈ confirmed_pivots bars → ∃ b, b ∈ bars ∧ pv_session_date p = db_session_date b.
Proof.
  unfold confirmed_pivots. intros (i & _ & E)%list_elem_of_omap. destruct (bars !! Z.to_nat i) as [b|] eqn:Eb; [|done].
  simpl in E. destruct (is_pivot _ _ _); [|done]. injection E as <-. exists b. split; [by eapply list_elem_of_lookup_2 | done].
Qed.

Lemma representative_in bars r : representative bars = Some r → r ∈ bars.
Proof.
  unfold representative. destruct (filter _ bars) as [|x l] eqn:E; [done|]. intros [= <-].
  assert (∀ l x, fold_left later_bar l x ∈ x :: l) as Hin.
  { clear. induction l as [|y l IH]; intros x; cbn [fold_left]; [set_solver|].
    specialize (IH (later_bar x y)). unfold later_bar in *. destruct (date_leb _ _); set_solver. }
  assert (fold_left later_bar l x ∈ filter (λ b, dec.eqb (db_high b) (dec_max (highs bars)) = true) bars) as Hf
    by (rewrite E; apply Hin).
  by apply list_elem_of_filter in Hf as [_ ?].
Qed.

Lemma candidates_dated bars : NoDup (map db_session_date bars) → dated bars (pivot_candidates bars).1.
Proof.
  intros Hnd.
  assert (dated bars (confirmed_pivots bars)) as [Hcnd Hcin].
  { split.
    - apply NoDup_map_omap; [|apply NoDup_seqZ]. intros i j x y Hi Hj Ex Ey Exy.
      apply elem_of_seqZ in Hi, Hj. unfold pivot_left_width in *.
      destruct (bars !! Z.to_nat i) as [b|] eqn:Eb; [|done]. destruct (bars !! Z.to_nat j) as [c|] eqn:Ec; [|done].
      simpl in Ex, Ey. destruct (is_pivot _ _ _); [|done]. destruct (is_pivot _ _ _); [|done].
      injection Ex as <-. injection Ey as <-. simpl in Exy.
      assert (Z.to_nat i = Z.to_nat j); [|lia].
      eapply (NoDup_lookup (map db_session_date bars)); [done | |];
        change (map ?f ?l) with (f <$> l); rewrite list_lookup_fmap; [rewrite Eb | rewrite Ec]; simpl; by rewrite ?Exy.
    - apply Forall_forall. intros p (b & Hb & ->)%confirmed_pivot_of. by apply list_elem_of_fmap_2. }
  unfold pivot_candidates. destruct (representative bars) as [r|] eqn:Er; [|by split].
  apply representative_in in Er. destruct (existsb _ _) eqn:Ex; cbn [fst].
  - split; [by rewrite map_map | by rewrite Forall_map].
  - split.
    + rewrite map_app. apply NoDup_app. split; [done|]. split; [|repeat constructor; set_solver].
      intros d (p & -> & Hp)%list_elem_of_fmap [E|[]%not_elem_of_nil]%elem_of_cons. simpl in E.
      apply not_true_iff_false in Ex. apply Ex, existsb_exists. exists p. split; [by apply list_elem_of_In | by apply bool_decide_eq_true].
    + apply Forall_app. split; [done|]. repeat constructor. simpl. by apply list_elem_of_fmap_2.
Qed.
