(* ===== verification/FeatureJoins.v ===== *)
(** * FeatureJoins: point-in-time float and catalyst records

    daybreak_features/joins.py and prequalification.py: the float record and
    the catalyst of a candidate among those known at the snapshot, the
    prequalification reasons and the order in which candidates compete for the
    evaluator's capacity. *)
From Stdlib Require Import Ascii String.
From S2P Require Import Prelude Numerics PyStr PyTime Contracts Canonical RiskModels FeatureModels FeatureLedger FeatureCore FeatureResistance.

#[local] Open Scope Z_scope.

(** ** joins.py *)

Definition float_record_valid (ticker : string) (snapshot : datetime) (config : FeatureEngineConfig) (r : FloatRecord) : bool :=
  String.eqb (fl_ticker r) ticker && date_leb (fl_effective_date r) (utc_date snapshot)
  && (fl_observed_at r <=? snapshot) && (fl_validated_at r <=? snapshot) && (snapshot <? fl_expires_at r)
  && (bool_decide (fl_quality_status r = QS_VERIFIED)
      || (fc_allow_single_source_float config && bool_decide (fl_quality_status r = QS_SINGLE_SOURCE))).

(** The key (effective_date, observed_at, validated_at). *)
Definition compare_float_records (a b : FloatRecord) : comparison :=
  lex (date_compare (fl_effective_date a) (fl_effective_date b))
    (lex (Z.compare (fl_observed_at a) (fl_observed_at b)) (Z.compare (fl_validated_at a) (fl_validated_at b))).

(** [max(l, key=...)]: the first of the largest. *)
Definition max_by {A} (c : A → A → comparison) (x : A) (l : list A) : A :=
  fold_left (λ best y, match c best y with Lt => y | _ => best end) l x.

Definition select_float_record (records : list FloatRecord) (ticker : string) (snapshot : datetime)
    (config : FeatureEngineConfig) : result FloatRecord :=
  match filter (λ r, float_record_valid ticker snapshot config r = true) records with
  | [] => Err (EDataQuality "FLOAT_DATA_UNAVAILABLE")
  | r :: l => Ok (max_by compare_float_records r l)
  end.

(** Floats compare by value; [datetime.timestamp()] is the float of the seconds
    since the epoch. *)
Definition flt_compare (a b : flt) : comparison :=
  let e := Z.min (fe a) (fe b) in Z.compare (fm a * 2 ^ (fe a - e)) (fm b * 2 ^ (fe b - e)).
Definition timestamp (t : datetime) : flt := total_seconds t.

Definition source_priority (s : FeatureSourceType) : Z :=
  match s with FS_PRIMARY => 0 | FS_SECONDARY => 1 | FS_UNCONFIRMED => 2 end.

Definition catalyst_known (ticker : string) (snapshot : datetime) (c : CatalystRecord) : bool :=
  String.eqb (ct_ticker c) ticker && (ct_observed_at c <=? snapshot).

Definition compare_catalysts (a b : CatalystRecord) : comparison :=
  lex (Z.compare (source_priority (ct_source_type a)) (source_priority (ct_source_type b)))
    (lex (Z.compare (if ct_corroborated a then 0 else 1) (if ct_corroborated b then 0 else 1))
      (lex (flt_compare (timestamp (ct_source_timestamp b)) (timestamp (ct_source_timestamp a)))
        (String.compare (ct_catalyst_id a) (ct_catalyst_id b)))).

(** The age is the decimal of the float's text. *)
Definition select_catalyst (records : list CatalystRecord) (ticker : string) (snapshot : datetime)
    : result (CatalystRecord * decimal) :=
  match sorted_by (λ a b, not_gt (compare_catalysts a b)) (filter (λ c, catalyst_known ticker snapshot c = true) records) with
  | [] => Err (EDataQuality "CATALYST_DATA_UNAVAILABLE")
  | selected :: _ =>
      let age_seconds := shortest (total_seconds (snapshot - ct_source_timestamp selected)) in
      if (age_seconds <? dec.zero)%dec then Err (EDataQuality "FUTURE_CATALYST_TIMESTAMP")
      else hours ← dec.div age_seconds (dec.of_Z 3600); age_hours ← six hours; Ok (selected, age_hours)
  end.

(** ** prequalification.py *)

Definition code_when (c : bool) (code : string) : list string := if c then [code] else [].

Definition prequalification_reasons (f : CandidateFeatures) (config : FeatureEngineConfig) : list string :=
  code_when (cf_halted f) "HALTED"
  ++ code_when (cf_gap_pct f <? fc_gap_min_pct config)%dec "GAP_TOO_SMALL"
  ++ code_when (cf_premarket_volume f <? fc_premarket_volume_min config) "PREMARKET_VOLUME_TOO_LOW"
  ++ code_when (cf_rvol_time_matched f <? fc_rvol_min config)%dec "RVOL_TOO_LOW"
  ++ code_when (ra_distance_to_resistance_atr (cf_resistance f) <? fc_resistance_min_atr config)%dec "RESISTANCE_TOO_CLOSE"
  ++ code_when (bool_decide (ra_chart_structure (cf_resistance f) = CS_CAPPED)) "CAPPED_CHART"
  ++ code_when (bool_decide (ct_source_type (cf_catalyst f) = FS_UNCONFIRMED)) "UNCONFIRMED_SOURCE"
  ++ code_when (negb (bool_decide (ct_disqualifier_flags (cf_catalyst f) = []))) "DISQUALIFYING_CATALYST".

Definition is_nil {A} (l : list A) : bool := match l with [] => true | _ => false end.

Definition prequalify (f : CandidateFeatures) (config : FeatureEngineConfig) : PrequalificationDecision :=
  let reasons := prequalification_reasons f config in
  {| pd_ticker := cf_ticker f; pd_accepted := is_nil reasons; pd_reason_codes := reasons;
     pd_feature_source_hash := Some (cf_feature_source_hash f) |}.

(** The comparison of [capacity_sort_key]s. *)
Definition zero_if (c : bool) : Z := if c then 0 else 1.
Definition compare_capacity (a b : CandidateFeatures) : comparison :=
  let primary f := zero_if (bool_decide (ct_source_type (cf_catalyst f) = FS_PRIMARY)) in
  let corroborated f := zero_if (ct_corroborated (cf_catalyst f)) in
  let clean f := zero_if (bool_decide (cf_volume_profile f = VP_CLEAN)) in
  let room f := dec.neg (ra_distance_to_resistance_atr (cf_resistance f)) in
  lex (Z.compare (primary a) (primary b))
    (lex (Z.compare (corroborated a) (corroborated b))
      (lex (Z.compare (clean a) (clean b))
        (lex (dec.compare (cf_catalyst_age_hours a) (cf_catalyst_age_hours b))
          (lex (dec.compare (dec.neg (cf_rvol_time_matched a)) (dec.neg (cf_rvol_time_matched b)))
            (lex (Z.compare (- cf_premarket_volume a) (- cf_premarket_volume b))
              (lex (dec.compare (room a) (room b)) (String.compare (cf_ticker a) (cf_ticker b)))))))).

(** ** The orders *)

Lemma flt_compare_at a b e : e <= fe a → e <= fe b →
  flt_compare a b = Z.compare (fm a * 2 ^ (fe a - e)) (fm b * 2 ^ (fe b - e)).
Proof.
  intros Ha Hb. unfold flt_compare. set (e' := Z.min (fe a) (fe b)).
  assert (0 < 2 ^ (e' - e)) by (apply Z.pow_pos_nonneg; lia).
  replace (fe a - e) with ((fe a - e') + (e' - e)) by lia. replace (fe b - e) with ((fe b - e') + (e' - e)) by lia.
  rewrite !Z.pow_add_r, !Z.mul_assoc by lia. by apply Zmult_compare_compat_r, Z.lt_gt.
Qed.

Lemma good_flt : good_compare flt_compare.
Proof.
  split.
  - intros a b. unfold flt_compare. rewrite (Z.min_comm (fe b)). apply Z.compare_antisym.
  - intros a b d. set (e := Z.min (fe a) (Z.min (fe b) (fe d))).
    rewrite (flt_compare_at a b e), (flt_compare_at a d e), (flt_compare_at b d e) by lia.
    intros E. apply (gc_eq _ good_Z _ _ _ E).
  - intros a b d. set (e := Z.min (fe a) (Z.min (fe b) (fe d))).
    rewrite (flt_compare_at a b e), (flt_compare_at a d e), (flt_compare_at b d e) by lia.
    apply (gc_lt _ good_Z).
Qed.

Lemma good_catalysts : good_compare compare_catalysts.
Proof.
  unfold compare_catalysts. repeat apply good_lex.
  - apply (good_map (λ c, source_priority (ct_source_type c))), good_Z.
  - apply (good_map (λ c, if ct_corroborated c then 0 else 1)), good_Z.
  - apply (good_map (λ c, timestamp (ct_source_timestamp c)) (λ a b, flt_compare b a)), good_opp, good_flt.
  - apply (good_map ct_catalyst_id), good_string.
Qed.

Lemma good_float_records : good_compare compare_float_records.
Proof.
  unfold compare_float_records. apply good_lex; [|apply good_lex].
  - apply (good_map fl_effective_date), good_date.
  - apply (good_map fl_observed_at), good_Z.
  - apply (good_map fl_validated_at), good_Z.
Qed.

Lemma good_capacity : good_compare compare_capacity.
Proof.
  unfold compare_capacity. repeat apply good_lex.
  - apply (good_map (λ f, zero_if (bool_decide (ct_source_type (cf_catalyst f) = FS_PRIMARY)))), good_Z.
  - apply (good_map (λ f, zero_if (ct_corroborated (cf_catalyst f)))), good_Z.
  - apply (good_map (λ f, zero_if (bool_decide (cf_volume_profile f = VP_CLEAN)))), good_Z.
  - apply (good_map cf_catalyst_age_hours), good_dec.
  - apply (good_map (λ f, dec.neg (cf_rvol_time_matched f))), good_dec.
  - apply (good_map (λ f, - cf_premarket_volume f)), good_Z.
  - apply (good_map (λ f, dec.neg (ra_distance_to_resistance_atr (cf_resistance f)))), good_dec.
  - apply (good_map cf_ticker), good_string.
Qed.

Lemma compare_capacity_ticker a b : compare_capacity a b = Eq → cf_ticker a = cf_ticker b.
Proof.
  unfold compare_capacity, lex. intros E. repeat (match type of E with context [match ?c with _ => _ end] => destruct c eqn:? end; try done).
  by apply String.compare_eq_iff.
Qed.

(** ** The sign of an age *)

Lemma dec_sign_ltb d : (d <? dec.zero)%dec = (coef d <? 0).
Proof.
  unfold dec.ltb, dec.compare, dec.align, dec.zero. cbn [coef expo]. rewrite Z.mul_0_l.
  pose proof (Z.pow_pos_nonneg 10 (expo d - Z.min (expo d) 0)). unfold Z.ltb.
  destruct (Z.compare_spec (coef d * 10 ^ (expo d - Z.min (expo d) 0)) 0), (Z.compare_spec (coef d) 0); try done; nia.
Qed.

(** The age is negative exactly when the source is after the snapshot. *)
Lemma age_sign us : (shortest (total_seconds us) <? dec.zero)%dec = (us <? 0).
Proof.
  rewrite dec_sign_ltb. pose proof (shortest_sign (total_seconds us)) as H. rewrite total_seconds_sign in H.
  destruct (Z.ltb_spec us 0); [apply Z.ltb_lt | apply Z.ltb_ge]; lia.
Qed.

(** ** Point in time *)

Lemma filter_within {A} (P Q : A → Prop) `{∀ x, Decision (P x)} `{∀ x, Decision (Q x)} (l k : list A) :
  (∀ x, P x → Q x) → filter Q l = filter Q k → filter P l = filter P k.
Proof.
  intros HPQ E. assert (∀ m : list A, filter P m = filter P (filter Q m)) as HF; [|by rewrite (HF l), (HF k), E].
  intros m. rewrite list_filter_filter. apply list_filter_iff. naive_solver.
Qed.

Lemma max_by_spec {A} (c : A → A → comparison) x l : good_compare c →
  max_by c x l ∈ x :: l ∧ (∀ y, y ∈ x :: l → not_gt (c y (max_by c x l)) = true).
Proof.
  intros Hc. unfold max_by. revert x. induction l as [|y l IH]; intros x; cbn [fold_left].
  - split; [constructor|]. intros y Hy. apply list_elem_of_singleton in Hy as ->. destruct (good_total c x x Hc); done.
  - set (b := match c x y with Lt => y | _ => x end). destruct (IH b) as [Hin Hmax].
    assert (not_gt (c x b) = true ∧ not_gt (c y b) = true) as [Hx Hy].
    { unfold b. pose proof (gc_flip _ Hc x y) as Hf.
      destruct (good_total c x x Hc), (good_total c y y Hc); destruct (c x y) eqn:E; rewrite ?Hf, ?E; done. }
    split.
    + assert (b = x ∨ b = y) as [Eb|Eb] by (unfold b; destruct (c x y); auto);
        apply elem_of_cons in Hin as [Hin|Hin]; [rewrite Hin, Eb | | rewrite Hin, Eb |]; rewrite !elem_of_cons; auto.
    + intros z [->|[->|Hz]%elem_of_cons]%elem_of_cons; [| |by apply Hmax; right].
      all: eapply good_trans; [done | done | apply Hmax; constructor].
Qed.

Lemma sorted_head {A} (c : A → A → comparison) x k l : good_compare c → sorted_by (λ a b, not_gt (c a b)) l = x :: k →
  x ∈ l ∧ (∀ y, y ∈ l → not_gt (c x y) = true).
Proof.
  intros Hc E. pose proof (sort_sorted c l Hc) as Hs. rewrite E in Hs. apply StronglySorted_inv in Hs as [_ Hx].
  assert (∀ y, y ∈ l ↔ y ∈ x :: k) as Hin by (intros y; by rewrite <- E, elem_of_sorted_by).
  split; [apply Hin; constructor|]. intros y [->|Hy]%Hin%elem_of_cons; [by destruct (good_total c x x Hc)|].
  by eapply Forall_forall in Hx.
Qed.

Lemma float_record_valid_known ticker snapshot config r :
  float_record_valid ticker snapshot config r = true → fl_observed_at r <= snapshot.
Proof. unfold float_record_valid. intros H. bool_to_prop. done. Qed.

Lemma catalyst_known_observed ticker snapshot c : catalyst_known ticker snapshot c = true → ct_observed_at c <= snapshot.
Proof. unfold catalyst_known. intros H. bool_to_prop. done. Qed.

(** C28: The joins are point in time.  Records observed after the snapshot have
    no effect: two lists that agree on the records observed by then give the
    same float record and the same catalyst, or the same failure.  The float
    record taken is one that is valid at the snapshot and none valid is newer;
    the catalyst taken was known, its source is not dated after the snapshot,
    and none known comes before it in priority, corroboration, recency and
    identifier. *)
Theorem joins_point_in_time floats floats' catalysts catalysts' ticker snapshot config :
  filter (λ r, fl_observed_at r <= snapshot) floats = filter (λ r, fl_observed_at r <= snapshot) floats' →
  filter (λ c, ct_observed_at c <= snapshot) catalysts = filter (λ c, ct_observed_at c <= snapshot) catalysts' →
  select_float_record floats ticker snapshot config = select_float_record floats' ticker snapshot config ∧
  select_catalyst catalysts ticker snapshot = select_catalyst catalysts' ticker snapshot ∧
  (∀ r, select_float_record floats ticker snapshot config = Ok r →
     r ∈ floats ∧ float_record_valid ticker snapshot config r = true ∧
     ∀ r', r' ∈ floats → float_record_valid ticker snapshot config r' = true → not_gt (compare_float_records r' r) = true) ∧
  (∀ c age, select_catalyst catalysts ticker snapshot = Ok (c, age) →
     c ∈ catalysts ∧ catalyst_known ticker snapshot c = true ∧ ct_source_timestamp c <= snapshot ∧
     ∀ c', c' ∈ catalysts → catalyst_known ticker snapshot c' = true → not_gt (compare_catalysts c c') = true).
Proof.
  intros Hf Hc. split; [|split; [|split]].
  - unfold select_float_record. by rewrite (filter_within _ _ _ _ (float_record_valid_known ticker snapshot config) Hf).
  - unfold select_catalyst. by rewrite (filter_within _ _ _ _ (catalyst_known_observed ticker snapshot) Hc).
  - unfold select_float_record. intros r E. clear Hf Hc.
    destruct (filter (λ r, float_record_valid ticker snapshot config r = true) floats) as [|x l] eqn:El; [done|]. apply Ok_inj in E.
    destruct (max_by_spec compare_float_records x l good_float_records) as [Hin Hmax]. rewrite E, <- El in Hin, Hmax.
    apply list_elem_of_filter in Hin as [Hv Hr]. split; [exact Hr|]. split; [exact Hv|].
    intros r' Hr' Hv'. apply Hmax. by apply list_elem_of_filter.
  - unfold select_catalyst. intros c age E. destruct (sorted_by _ _) as [|x l] eqn:Es; [done|]. rewrite age_sign in E.
    destruct (Z.ltb_spec (snapshot - ct_source_timestamp x) 0); [done|]. apply bind_Ok in E as (h & _ & E).
    apply bind_Ok in E as (a & _ & E). injection E as <- <-.
    destruct (sorted_head _ _ _ _ good_catalysts Es) as [Hin Hmin]. apply list_elem_of_filter in Hin as [Hk Hx].
    split; [exact Hx|]. split; [exact Hk|]. split; [lia|]. intros c' Hc' Hk'. apply Hmin. by apply list_elem_of_filter.
Qed.

Definition sample_float (shares observed : Z) : FloatRecord :=
  {| fl_ticker := "ABC"; fl_float_shares := shares; fl_effective_date := Date 1970 1 1; fl_observed_at := observed;
     fl_validated_at := 0; fl_expires_at := 2 * DAY; fl_quality_status := QS_VERIFIED; fl_source := "fixture";
     fl_raw_response_hashes := [] |}.
Definition sample_catalyst (id : string) (source observed : Z) : CatalystRecord :=
  {| ct_catalyst_id := id; ct_ticker := "ABC"; ct_catalyst_text := [65]; ct_source_type := FS_PRIMARY;
     ct_source_name := [65]; ct_source_timestamp := source; ct_observed_at := observed; ct_corroborated := true;
     ct_disqualifier_flags := []; ct_source_hash := "" |}.

(** At noon the records of the afternoon do not count: the catalyst is an hour
    and a half old. *)
Lemma joins_point_in_time_witness :
  select_float_record [sample_float 5 (9 * HOUR); sample_float 9 (13 * HOUR)] "ABC" (12 * HOUR) default_feature_config
    = Ok (sample_float 5 (9 * HOUR)) ∧
  select_catalyst [sample_catalyst "new" (11 * HOUR) (13 * HOUR); sample_catalyst "old" (10 * HOUR + 30 * MINUTE) (11 * HOUR)]
    "ABC" (12 * HOUR) = Ok (sample_catalyst "old" (10 * HOUR + 30 * MINUTE) (11 * HOUR), Dec 1500000 (-6)).
Proof.
  destruct (joins_point_in_time [sample_float 5 (9 * HOUR); sample_float 9 (13 * HOUR)] [sample_float 5 (9 * HOUR)]
    [sample_catalyst "new" (11 * HOUR) (13 * HOUR); sample_catalyst "old" (10 * HOUR + 30 * MINUTE) (11 * HOUR)]
    [sample_catalyst "old" (10 * HOUR + 30 * MINUTE) (11 * HOUR)] "ABC" (12 * HOUR) default_feature_config) as (Hf & Hc & _).
  - reflexivity.
  - reflexivity.
  - rewrite Hf, Hc. split; vm_compute; reflexivity.
Defined.
