(* ===== verification/FeatureEngine.v ===== *)
(** * FeatureEngine: a feature snapshot from its context

    daybreak_features/engine.py: the features of each candidate, their
    prequalification, the ranking under the evaluator's capacity, the payload
    for the evaluator and the hashes that identify the snapshot. *)
From Stdlib Require Import Ascii String.
From S2P Require Import Prelude Numerics PyStr PyTime Contracts Canonical RiskModels FeatureModels FeatureLedger FeatureCore FeatureResistance FeatureJoins.

#[local] Open Scope Z_scope.

(** The values of the feature enums are values of the contract's enums. *)
Definition ContractSourceType (s : FeatureSourceType) : SourceType :=
  match s with FS_PRIMARY => ST_PRIMARY | FS_SECONDARY => ST_SECONDARY | FS_UNCONFIRMED => ST_UNCONFIRMED end.
Definition ContractBorrowStatus (b : FeatureBorrowStatus) : BorrowStatus :=
  match b with FB_EASY => BS_EASY | FB_HARD_TO_BORROW => BS_HARD_TO_BORROW | FB_UNKNOWN => BS_UNKNOWN end.

(** [_ticker_input]; constructing the model validates it. *)
Definition ticker_input_of (f : CandidateFeatures) : TickerInput :=
  let c := cf_catalyst f in
  {| ti_ticker := cf_ticker f; ti_halted := cf_halted f;
     ti_news_context :=
       {| nc_catalyst_text := ct_catalyst_text c; nc_source_type := ContractSourceType (ct_source_type c);
          nc_source_name := ct_source_name c; nc_source_timestamp := iso_micros_z (ct_source_timestamp c);
          nc_catalyst_age_hours := py_float (cf_catalyst_age_hours f); nc_corroborated := ct_corroborated c;
          nc_disqualifier_flags := ct_disqualifier_flags c |};
     ti_liquidity_metrics :=
       {| lm_gap_pct := py_float (cf_gap_pct f); lm_premarket_volume := cf_premarket_volume f;
          lm_rvol_time_matched := py_float (cf_rvol_time_matched f); lm_float_shares := cf_float_shares f;
          lm_volume_profile := cf_volume_profile f; lm_borrow_status := ContractBorrowStatus (cf_borrow_status f) |};
     ti_technical_context :=
       {| tc_distance_to_resistance_atr := py_float (ra_distance_to_resistance_atr (cf_resistance f));
          tc_distance_from_vwap_atr := py_float (cf_distance_from_vwap_atr f);
          tc_chart_structure := ra_chart_structure (cf_resistance f); tc_current_price := py_float (cf_current_price f);
          tc_atr_value := py_float (cf_atr_value f); tc_premarket_low := py_float (cf_premarket_low f) |} |}.

Definition ticker_input (f : CandidateFeatures) : result TickerInput :=
  let t := ticker_input_of f in
  _ ← guard_or (TickerInput_ok t) (EValidation "TickerInput"); Ok t.

(** The omitted candidates are numbered on from the capacity. *)
Fixpoint number_omissions (rank : Z) (l : list CandidateFeatures) : list CapacityOmission :=
  match l with
  | [] => []
  | f :: l' => {| om_ticker := cf_ticker f; om_final_capacity_rank := rank |} :: number_omissions (rank + 1) l'
  end.

(** [sorted(d.items())], keys being unique. *)
Definition sorted_items (l : list (string * string)) : list (string * string) := sorted_by (λ a b, string_leb a.1 b.1) l.

Section engine.
Context `{NewYork}.
Context `{Dump TradeLedgerEvent} `{Dump PremarketSession} `{Dump DailyBar} `{Dump FloatRecord} `{Dump CatalystRecord}.
Context `{Dump FeatureEngineConfig} `{Dump FeatureContext} `{Dump CandidateFeatures} `{Dump DaybreakInput}.
Context `{Dump PrequalificationDecision} `{Dump CapacityOmission}.

Definition dumps {A} `{Dump A} (l : list A) : pyval := PSeq (map dump l).

Definition source_material (x : FeatureContext) (source : CandidateSourceData) (f : FloatRecord) (c : CatalystRecord) : pyval :=
  PDict [("ticker"%string, PStr (cd_ticker source));
         ("events"%string, dumps (cd_current_session_events source));
         ("historical_sessions"%string, dumps (cd_historical_premarket_sessions source));
         ("daily_bars"%string, dumps (cd_daily_bars source));
         ("float_record"%string, dump f);
         ("catalyst"%string, dump c);
         ("config"%string, dump (fx_config x));
         ("payload_timestamp"%string, PDatetime (fx_payload_timestamp x))].

(** [_calculate_candidate]. *)
Definition calculate_candidate (x : FeatureContext) (source : CandidateSourceData) : result CandidateFeatures :=
  let snapshot := fx_payload_timestamp x in
  let config := fx_config x in
  trades ← current_session_trades (cd_current_session_events source) snapshot config;
  price ← current_price trades;
  low ← premarket_low trades;
  let volume := premarket_volume trades in
  atr ← wilder_atr_14 (cd_daily_bars source);
  vwap ← premarket_vwap trades;
  rvol ← rvol_time_matched volume (cd_historical_premarket_sessions source) snapshot config;
  profile ← volume_profile trades snapshot config;
  resistance ← daily_pivot_cluster_v1 (cd_daily_bars source) price atr (cd_history_complete_since_listing source) config;
  float_record ← select_float_record (cd_float_records source) (cd_ticker source) snapshot config;
  catalyst_and_age ← select_catalyst (cd_catalysts source) (cd_ticker source) snapshot;
  let (catalyst, catalyst_age) := catalyst_and_age : CatalystRecord * decimal in
  gap ← gap_pct price (cd_previous_regular_close source);
  vwap_distance ← distance_from_vwap_atr price vwap atr;
  let features :=
    {| cf_ticker := cd_ticker source; cf_halted := cd_halted source; cf_current_price := price;
       cf_premarket_low := low; cf_gap_pct := gap; cf_premarket_volume := volume; cf_rvol_time_matched := rvol;
       cf_atr_value := atr; cf_premarket_vwap := vwap; cf_distance_from_vwap_atr := vwap_distance;
       cf_volume_profile := profile; cf_float_shares := fl_float_shares float_record;
       cf_borrow_status := cd_borrow_status source; cf_resistance := resistance; cf_catalyst := catalyst;
       cf_catalyst_age_hours := catalyst_age;
       cf_feature_source_hash := feature_sha256 (source_material x source float_record catalyst) |} in
  _ ← guard_or (CandidateFeatures_ok features) (EValidation "CandidateFeatures");
  Ok features.

(** The decision the loop of [build_feature_snapshot] appends for a candidate,
    and its features when accepted.  Only DataQualityError is caught. *)
Definition decide_candidate (x : FeatureContext) (source : CandidateSourceData)
    : result (PrequalificationDecision * option CandidateFeatures) :=
  match calculate_candidate x source with
  | Err (EDataQuality code) =>
      Ok ({| pd_ticker := cd_ticker source; pd_accepted := false; pd_reason_codes := [code];
             pd_feature_source_hash := None |}, None)
  | Err e => Err e
  | Ok features =>
      let reasons := pd_reason_codes (prequalify features (fx_config x))
        ++ code_when (fx_catalyst_freshness_threshold_hours x <? cf_catalyst_age_hours features)%dec "STALE_CATALYST" in
      let decision :=
        {| pd_ticker := cf_ticker features; pd_accepted := is_nil reasons; pd_reason_codes := reasons;
           pd_feature_source_hash := Some (cf_feature_source_hash features) |} in
      Ok (decision, if pd_accepted decision then Some features else None)
  end.

Definition sorted_candidates (x : FeatureContext) : list CandidateSourceData :=
  sorted_by (λ a b, not_gt (String.compare (cd_ticker a) (cd_ticker b))) (fx_candidates x).

Definition snapshot_payload (x : FeatureContext) (selected : list CandidateFeatures) : result DaybreakInput :=
  tickers ← map_result ticker_input selected;
  let payload :=
    {| di_evaluation_timestamp := iso_micros_z (fx_evaluation_timestamp x);
       di_payload_timestamp := iso_micros_z (fx_payload_timestamp x);
       di_payload_age_seconds := flt.to_int (total_seconds (fx_evaluation_timestamp x - fx_payload_timestamp x));
       di_catalyst_freshness_threshold_hours := py_float (fx_catalyst_freshness_threshold_hours x);
       di_market_status := fx_market_status x; di_tickers := tickers |} in
  _ ← guard_or (DaybreakInput_ok payload) (EValidation "DaybreakInput"); Ok payload.

Definition snapshot_id_of (context_hash payload_hash feature_hash configuration_hash audit_hash : string) : string :=
  feature_sha256 (PDict [("context_hash"%string, PStr context_hash); ("payload_hash"%string, PStr payload_hash);
    ("feature_hash"%string, PStr feature_hash); ("configuration_hash"%string, PStr configuration_hash);
    ("audit_hash"%string, PStr audit_hash)]).

Definition build_feature_snapshot (x : FeatureContext) : result FeatureSnapshot :=
  let capacity := Z.to_nat (fc_max_evaluator_candidates (fx_config x)) in
  outcomes ← map_result (decide_candidate x) (sorted_candidates x);
  let decisions := map fst outcomes in
  let successful := omap snd outcomes in
  let ranked := sorted_by (λ a b, not_gt (compare_capacity a b)) successful in
  let selected := take capacity ranked in
  let omissions := number_omissions (fc_max_evaluator_candidates (fx_config x) + 1) (drop capacity ranked) in
  payload ← snapshot_payload x selected;
  let context_hash := feature_sha256 (dump x) in
  let configuration_hash := feature_sha256 (dump (fx_config x)) in
  let feature_hash := feature_sha256 (dumps selected) in
  let payload_hash := feature_sha256 (dump payload) in
  let audit_hash := feature_sha256 (PDict [("prequalification"%string, dumps decisions);
                                          ("capacity_omissions"%string, dumps omissions)]) in
  let snapshot :=
    {| sn_snapshot_id := snapshot_id_of context_hash payload_hash feature_hash configuration_hash audit_hash;
       sn_context_hash := context_hash; sn_audit_hash := audit_hash; sn_payload := payload;
       sn_payload_hash := payload_hash; sn_feature_hash := feature_hash; sn_configuration_hash := configuration_hash;
       sn_module_manifest := sorted_items (fc_module_versions (fx_config x)); sn_prequalification := decisions;
       sn_capacity_omissions := omissions; sn_accepted_feature_records := selected |} in
  _ ← guard_or (forallb hash_pattern [context_hash; audit_hash; payload_hash; feature_hash; configuration_hash]
                && terminal_consistency snapshot) (EValidation "FeatureSnapshot");
  Ok snapshot.
End engine.

(** ** Qualification *)

(** What a candidate's features must meet. *)
Record qualified (x : FeatureContext) (f : CandidateFeatures) : Prop := {
  q_trading : cf_halted f = false;
  q_gap : (fc_gap_min_pct (fx_config x) <=? cf_gap_pct f)%dec = true;
  q_volume : fc_premarket_volume_min (fx_config x) <= cf_premarket_volume f;
  q_rvol : (fc_rvol_min (fx_config x) <=? cf_rvol_time_matched f)%dec = true;
  q_room : (fc_resistance_min_atr (fx_config x) <=? ra_distance_to_resistance_atr (cf_resistance f))%dec = true;
  q_chart : ra_chart_structure (cf_resistance f) ≠ CS_CAPPED;
  q_source : ct_source_type (cf_catalyst f) ≠ FS_UNCONFIRMED;
  q_catalyst : ct_disqualifier_flags (cf_catalyst f) = [];
  q_fresh : (cf_catalyst_age_hours f <=? fx_catalyst_freshness_threshold_hours x)%dec = true;
}.

Definition reasons_of (x : FeatureContext) (f : CandidateFeatures) : list string :=
  prequalification_reasons f (fx_config x)
  ++ code_when (fx_catalyst_freshness_threshold_hours x <? cf_catalyst_age_hours f)%dec "STALE_CATALYST".

Lemma code_when_nil c s : code_when c s = [] ↔ c = false.
Proof. by destruct c. Qed.

Lemma dec_ltb_false a b : (a <? b)%dec = false ↔ (b <=? a)%dec = true.
Proof. unfold dec.ltb, dec.leb. rewrite (gc_flip _ good_dec a b). by destruct (dec.compare a b). Qed.

Lemma is_nil_spec {A} (l : list A) : is_nil l = true ↔ l = [].
Proof. by destruct l. Qed.

Lemma qualified_spec x f : is_nil (reasons_of x f) = true ↔ qualified x f.
Proof.
  unfold reasons_of, prequalification_reasons. rewrite is_nil_spec, !app_nil, !code_when_nil, !dec_ltb_false, Z.ltb_ge, negb_false_iff,
    bool_decide_eq_true, !bool_decide_eq_false. split; [intros; split; naive_solver | intros [????????]; naive_solver].
Qed.

Section accounting.
Context `{NewYork}.
Context `{Dump TradeLedgerEvent} `{Dump PremarketSession} `{Dump DailyBar} `{Dump FloatRecord} `{Dump CatalystRecord}.
Context `{Dump FeatureEngineConfig} `{Dump FeatureContext} `{Dump CandidateFeatures} `{Dump DaybreakInput}.
Context `{Dump PrequalificationDecision} `{Dump CapacityOmission}.

Lemma calculated_ticker x c f : calculate_candidate x c = Ok f → cf_ticker f = cd_ticker c.
Proof.
  unfold calculate_candidate. cbv zeta. intros E. repeat (apply bind_Ok in E as (? & _ & E)).
  destruct x9 as [catalyst age]. repeat (apply bind_Ok in E as (? & _ & E)). apply Ok_inj in E. by rewrite <- E.
Qed.

(** What the loop records for a candidate. *)
Definition accounts (x : FeatureContext) (c : CandidateSourceData) (d : PrequalificationDecision) : Prop :=
  pd_ticker d = cd_ticker c ∧
  match calculate_candidate x c with
  | Ok f => pd_accepted d = true ↔ qualified x f
  | Err e => pd_accepted d = false ∧ ∃ code, e = EDataQuality code ∧ pd_reason_codes d = [code]
  end.

Lemma decide_spec x c d o : decide_candidate x c = Ok (d, o) →
  accounts x c d ∧ (pd_accepted d = true ↔ is_Some o) ∧
  (∀ f, o = Some f ↔ calculate_candidate x c = Ok f ∧ qualified x f) ∧ (∀ f, o = Some f → pd_ticker d = cf_ticker f).
Proof.
  unfold decide_candidate, accounts. pose proof (calculated_ticker x c) as Ht. destruct (calculate_candidate x c) as [g|e].
  - intros E. apply Ok_inj in E. injection E as <- <-. cbn [pd_accepted pd_ticker].
    fold (reasons_of x g). pose proof (qualified_spec x g) as Hq. specialize (Ht g eq_refl).
    split; [done|]. destruct (is_nil (reasons_of x g)).
    + split; [by split|]. split; [|by intros f [= <-]]. intros f. split; [intros [= <-]; split; [done | by apply Hq] | by intros [[= ->] _]].
    + split; [split; [done | by intros [? ?]]|]. split; [|done]. intros f. split; [done|]. intros [[= <-] Hf]. by apply Hq in Hf.
  - destruct e; intros E; try done. apply Ok_inj in E. injection E as <- <-. cbn [pd_accepted pd_ticker pd_reason_codes].
    split; [by eauto|]. split; [split; [done | by intros [? ?]]|]. split; [|done]. intros f. split; [done | by intros [? _]].
Qed.

Lemma outcomes_spec x l outcomes : map_result (decide_candidate x) l = Ok outcomes →
  Forall2 (accounts x) l (map fst outcomes) ∧
  (∀ f, f ∈ omap snd outcomes ↔ ∃ c, c ∈ l ∧ calculate_candidate x c = Ok f ∧ qualified x f) ∧
  map pd_ticker (filter (λ d, pd_accepted d = true) (map fst outcomes)) = map cf_ticker (omap snd outcomes).
Proof.
  intros E. apply map_result_Forall2 in E. induction E as [|c [d o] l outcomes Hd _ (IH1 & IH2 & IH3)].
  - split; [constructor|]. split; [|done]. intros f. split; [by intros ?%not_elem_of_nil | by intros (c & ?%not_elem_of_nil & _)].
  - apply decide_spec in Hd as (Ha & Hs & Hf & Ht). cbn [map fst snd]. split; [by constructor|]. split.
    + intros f. assert (f ∈ omap snd ((d, o) :: outcomes) ↔ o = Some f ∨ f ∈ omap snd outcomes) as ->.
      { simpl. destruct o as [g|]; rewrite ?elem_of_cons; naive_solver. }
      rewrite Hf, IH2. setoid_rewrite elem_of_cons. naive_solver.
    + rewrite filter_cons. destruct (decide (pd_accepted d = true)) as [Hx|Hx].
      * apply Hs in Hx as [g ->]. simpl. by rewrite IH3, (Ht g eq_refl).
      * destruct o as [g|]; [by exfalso; apply Hx, Hs|]. exact IH3.
Qed.

Lemma number_omissions_spec rank l :
  map om_ticker (number_omissions rank l) = map cf_ticker l ∧
  map om_final_capacity_rank (number_omissions rank l) = seqZ rank (len l).
Proof.
  revert rank. induction l as [|f l IH]; intros rank; [done|]. cbn [number_omissions map om_ticker om_final_capacity_rank].
  destruct (IH (rank + 1)) as [-> ->]. split; [done|]. unfold len. rewrite (seqZ_cons rank) by (simpl; lia).
  f_equal. f_equal; simpl; lia.
Qed.

Lemma payload_spec x selected payload : snapshot_payload x selected = Ok payload →
  map ti_ticker (di_tickers payload) = map cf_ticker selected ∧ DaybreakInput_ok payload = true.
Proof.
  unfold snapshot_payload. intros E. apply bind_Ok in E as (tickers & Et & E). cbv zeta in E. apply bind_Ok in E as (? & Hok & E).
  apply guard_or_Ok in Hok. apply Ok_inj in E as <-. split; [|done]. cbn [di_tickers]. clear Hok.
  apply map_result_Forall2 in Et. induction Et as [|f t l k Ht _ IH]; [done|]. cbn [map]. rewrite IH. f_equal.
  unfold ticker_input in Ht. apply bind_Ok in Ht as (? & _ & Ht). by apply Ok_inj in Ht as <-.
Qed.

(** Once the payload is valid, so is the snapshot. *)
Lemma build_ok x :
  is_ok (build_feature_snapshot x) =
  is_ok (outcomes ← map_result (decide_candidate x) (sorted_candidates x);
         snapshot_payload x (take (Z.to_nat (fc_max_evaluator_candidates (fx_config x)))
           (sorted_by (λ a b, not_gt (compare_capacity a b)) (omap snd outcomes)))).
Proof.
  unfold build_feature_snapshot. cbv zeta. destruct (map_result _ _) as [outcomes|e]; [|done]. cbn [mbind result_bind].
  set (selected := take _ _). destruct (snapshot_payload x selected) as [payload|e] eqn:E; [|done].
  apply payload_spec in E as [E _]. unfold guard_or. cbn [forallb mbind result_bind].
  unfold feature_sha256. rewrite !canonical_sha256_pattern.
  unfold terminal_consistency. cbn [sn_payload sn_accepted_feature_records]. by rewrite bool_decide_eq_true_2.
Qed.

(** C29: Every candidate is accounted for.  A snapshot holds one decision per
    candidate, in the order of the tickers: a candidate is accepted exactly when
    its features can be computed and meet every threshold, and a candidate whose
    data fail is recorded with the failure's code.  The accepted candidates are
    those of the payload and those omitted, and no others; they are ranked by
    the capacity order, the first ones up to the capacity go to the payload, the
    others are numbered on from there; the payload is a valid evaluator input
    with the tickers of the selected candidates, in order. *)
Theorem snapshot_accounting x :
  match build_feature_snapshot x with
  | Err _ => True
  | Ok s =>
      let selected := sn_accepted_feature_records s in
      let capacity := fc_max_evaluator_candidates (fx_config x) in
      Forall2 (accounts x) (sorted_candidates x) (sn_prequalification s) ∧
      (∃ omitted,
         (∀ f, f ∈ selected ++ omitted ↔
           ∃ c, c ∈ fx_candidates x ∧ calculate_candidate x c = Ok f ∧ qualified x f) ∧
         map pd_ticker (filter (λ d, pd_accepted d = true) (sn_prequalification s)) ≡ₚ map cf_ticker (selected ++ omitted) ∧
         StronglySorted (λ a b, not_gt (compare_capacity a b) = true) (selected ++ omitted) ∧
         length selected = Nat.min (Z.to_nat capacity) (length (selected ++ omitted)) ∧
         map om_ticker (sn_capacity_omissions s) = map cf_ticker omitted ∧
         map om_final_capacity_rank (sn_capacity_omissions s) = seqZ (capacity + 1) (len omitted)) ∧
      map ti_ticker (di_tickers (sn_payload s)) = map cf_ticker selected ∧
      DaybreakInput_ok (sn_payload s) = true
  end.
Proof.
  destruct (build_feature_snapshot x) as [s|e] eqn:E; [|done]. unfold build_feature_snapshot in E. cbv zeta in E.
  apply bind_Ok in E as (outcomes & Ho & E). apply bind_Ok in E as (payload & Hp & E). apply bind_Ok in E as (? & _ & E).
  apply Ok_inj in E as <-. cbn [sn_accepted_feature_records sn_prequalification sn_capacity_omissions sn_payload].
  apply outcomes_spec in Ho as (Ha & Hm & Ht). set (ranked := sorted_by _ (omap snd outcomes)) in *.
  set (n := Z.to_nat _) in *. split; [exact Ha|]. split; [|by apply payload_spec in Hp].
  exists (drop n ranked). rewrite take_drop. split; [|split; [|split; [|split]]].
  - intros f. unfold ranked. rewrite elem_of_sorted_by, Hm. unfold sorted_candidates. by setoid_rewrite elem_of_sorted_by.
  - rewrite Ht. unfold ranked. by rewrite (sorted_by_perm _ (omap snd outcomes)).
  - apply sort_sorted, good_capacity.
  - apply length_take.
  - apply number_omissions_spec.
Qed.

(** The context with its candidates in another order. *)
Definition with_candidates (l : list CandidateSourceData) (x : FeatureContext) : FeatureContext :=
  {| fx_evaluation_timestamp := fx_evaluation_timestamp x; fx_payload_timestamp := fx_payload_timestamp x;
     fx_catalyst_freshness_threshold_hours := fx_catalyst_freshness_threshold_hours x;
     fx_market_status := fx_market_status x; fx_candidates := l; fx_config := fx_config x |}.

(** The snapshot with another identity. *)
Definition identified (snapshot_id context_hash : string) (s : FeatureSnapshot) : FeatureSnapshot :=
  {| sn_snapshot_id := snapshot_id; sn_context_hash := context_hash; sn_audit_hash := sn_audit_hash s;
     sn_payload := sn_payload s; sn_payload_hash := sn_payload_hash s; sn_feature_hash := sn_feature_hash s;
     sn_configuration_hash := sn_configuration_hash s; sn_module_manifest := sn_module_manifest s;
     sn_prequalification := sn_prequalification s; sn_capacity_omissions := sn_capacity_omissions s;
     sn_accepted_feature_records := sn_accepted_feature_records s |}.

(** What is computed from the candidates in the order of their tickers. *)
Lemma sorted_candidates_perm x l :
  l ≡ₚ fx_candidates x → NoDup (map cd_ticker l) → sorted_candidates (with_candidates l x) = sorted_candidates x.
Proof.
  intros Hp Hnd. unfold sorted_candidates. cbn [fx_candidates with_candidates].
  apply sort_unique; [apply (good_map cd_ticker), good_string | | done].
  intros a b Ha Hb E. apply String.compare_eq_iff in E. by eapply NoDup_map_inj.
Qed.

(** The order of the candidates does not matter.  A context whose
    candidates, with distinct tickers, come in another order gives the same
    snapshot but for the context's hash and the identifier derived from it, or
    fails in the same way. *)
Theorem candidate_order_irrelevant x l : l ≡ₚ fx_candidates x → NoDup (map cd_ticker l) →
  match build_feature_snapshot x, build_feature_snapshot (with_candidates l x) with
  | Ok s, Ok s' => s' = identified (sn_snapshot_id s') (feature_sha256 (dump (with_candidates l x))) s
  | Err e, Err e' => e = e'
  | _, _ => False
  end.
Proof.
  intros Hp Hnd. unfold build_feature_snapshot. cbv zeta. rewrite sorted_candidates_perm by done.
  change (decide_candidate (with_candidates l x)) with (decide_candidate x).
  change (fx_config (with_candidates l x)) with (fx_config x).
  destruct (map_result (decide_candidate x) (sorted_candidates x)) as [outcomes|e]; [|done]. cbn [mbind result_bind].
  set (selected := take _ _). change (snapshot_payload (with_candidates l x) selected) with (snapshot_payload x selected).
  destruct (snapshot_payload x selected) as [payload|e] eqn:E; [|done]. apply payload_spec in E as [E _].
  unfold guard_or. cbn [forallb mbind result_bind]. unfold feature_sha256. rewrite !canonical_sha256_pattern.
  unfold terminal_consistency. cbn [sn_payload sn_accepted_feature_records]. rewrite !bool_decide_eq_true_2 by done. done.
Qed.
End accounting.

#[local] Instance dump_nothing {A} : Dump A := λ _, PNone.
#[local] Existing Instance est.

(** A candidate without trades. *)
Definition quiet_candidate (ticker : string) : CandidateSourceData :=
  {| cd_ticker := ticker; cd_halted := false; cd_borrow_status := FB_EASY; cd_previous_regular_close := dec.of_Z 10;
     cd_current_session_events := []; cd_historical_premarket_sessions := []; cd_daily_bars := [];
     cd_history_complete_since_listing := true; cd_float_records := []; cd_catalysts := [] |}.
Definition sample_context (tickers : list string) : FeatureContext :=
  {| fx_evaluation_timestamp := time_of 14 24; fx_payload_timestamp := time_of 14 23;
     fx_catalyst_freshness_threshold_hours := dec.of_Z 24; fx_market_status := MS_NORMAL;
     fx_candidates := map quiet_candidate tickers; fx_config := default_feature_config |}.

Lemma candidate_order_irrelevant_witness :
  ∃ s s', build_feature_snapshot (sample_context ["ZED"; "ABC"]) = Ok s ∧
    build_feature_snapshot (sample_context ["ABC"; "ZED"]) = Ok s' ∧
    sn_prequalification s' = sn_prequalification s ∧ sn_audit_hash s' = sn_audit_hash s.
Proof.
  pose proof (candidate_order_irrelevant (sample_context ["ZED"; "ABC"]) (map quiet_candidate ["ABC"; "ZED"]%string)
    (perm_swap _ _ _) ltac:(apply no_dup_spec; vm_compute; reflexivity)) as Hs.
  change (with_candidates _ _) with (sample_context ["ABC"; "ZED"]) in Hs.
  assert (is_ok (build_feature_snapshot (sample_context ["ZED"; "ABC"])) = true) as Hok
    by (rewrite build_ok; vm_compute; reflexivity).
  destruct (build_feature_snapshot (sample_context ["ZED"; "ABC"])) as [s|e]; [|discriminate].
  destruct (build_feature_snapshot (sample_context ["ABC"; "ZED"])) as [s'|e]; [|destruct Hs].
  exists s, s'. split; [reflexivity|]. split; [reflexivity|]. by rewrite Hs.
Defined.

(** A text the record accepts can be too long for the evaluator: the snapshot
    then fails as a whole. *)
Lemma long_catalyst_text_fails f :
  4000 < len (ct_catalyst_text (cf_catalyst f)) → ticker_input f = Err (EValidation "TickerInput").
Proof.
  intros Hl. unfold ticker_input. cbv zeta. assert (TickerInput_ok (ticker_input_of f) = false) as ->; [|done].
  unfold TickerInput_ok, NewsContext_ok, ticker_input_of, between. cbn [ti_ticker ti_news_context nc_catalyst_text].
  destruct (Z.leb_spec (len (ct_catalyst_text (cf_catalyst f))) 4000); [lia|]. by rewrite !andb_false_r.
Qed.
