(* ===== verification/FeatureStore.v ===== *)
(** * FeatureStore: feature artifacts and their replay

    daybreak_features/persistence.py, InMemoryFeatureArtifactRepository, and
    replay.py: a context is stored under its hash, a snapshot under its
    identifier, and a stored context is rebuilt and compared byte for byte with
    the snapshot it gave. *)
From Stdlib Require Import Ascii String.
From S2P Require Import Prelude Numerics PyStr PyTime Contracts Canonical RiskModels FeatureModels FeatureCore FeatureEngine.

#[local] Open Scope Z_scope.

Record FeatureRepository := { fr_contexts : gmap string FeatureContext; fr_snapshots : gmap string FeatureSnapshot }.
Abbreviation repository := (eff FeatureRepository).

Record FeatureReplayResult := {
  fy_context_hash : string;
  fy_expected_snapshot_id : option string;
  fy_actual_snapshot_id : string;
  fy_byte_identical : option bool;
}.

Section store.
Context `{NewYork}.
Context `{Dump TradeLedgerEvent} `{Dump PremarketSession} `{Dump DailyBar} `{Dump FloatRecord} `{Dump CatalystRecord}.
Context `{Dump FeatureEngineConfig} `{Dump FeatureContext} `{Dump CandidateFeatures} `{Dump DaybreakInput}.
Context `{Dump PrequalificationDecision} `{Dump CapacityOmission} `{Dump FeatureSnapshot}.

(** [canonical_json_text(a) != canonical_json_text(b)]. *)
Definition text_differs {A} `{Dump A} (a b : A) : bool := negb (bool_decide (feature_json (dump a) = feature_json (dump b))).
Definition clashes {A} `{Dump A} (existing : option A) (new : A) : bool :=
  match existing with Some e => text_differs e new | None => false end.

Definition save_context (x : FeatureContext) : repository string := λ r,
  let context_hash := feature_sha256 (dump x) in
  if clashes (fr_contexts r !! context_hash) x then (Err (ERuntime "feature context hash collision"), r)
  else (Ok context_hash, {| fr_contexts := <[context_hash := x]> (fr_contexts r); fr_snapshots := fr_snapshots r |}).

Definition get_context (context_hash : string) : repository (option FeatureContext) :=
  gets (λ r, fr_contexts r !! context_hash).

Definition save_snapshot (s : FeatureSnapshot) : repository unit := λ r,
  if clashes (fr_snapshots r !! sn_snapshot_id s) s then (Err (ERuntime "feature snapshot id collision"), r)
  else (Ok tt, {| fr_contexts := fr_contexts r; fr_snapshots := <[sn_snapshot_id s := s]> (fr_snapshots r) |}).

Definition get_snapshot (snapshot_id : string) : repository (option FeatureSnapshot) :=
  gets (λ r, fr_snapshots r !! snapshot_id).

Definition replay_context (context_hash : string) (expected_snapshot_id : option string) : repository FeatureReplayResult :=
  found ← get_context context_hash;
  match found with
  | None => raise (EKey ("feature context not found: " +:+ context_hash))
  | Some x =>
      actual ← lift (build_feature_snapshot x);
      byte_identical ←
        match expected_snapshot_id with
        | None => mret None
        | Some id =>
            stored ← get_snapshot id;
            match stored with
            | None => raise (EKey ("feature snapshot not found: " +:+ id))
            | Some expected =>
                if text_differs actual expected then raise (EValue "feature replay mismatch") else mret (Some true)
            end
        end;
      mret {| fy_context_hash := context_hash; fy_expected_snapshot_id := expected_snapshot_id;
              fy_actual_snapshot_id := sn_snapshot_id actual; fy_byte_identical := byte_identical |}
  end.

(** The repository holds each artifact under its own key. *)
Record keyed (r : FeatureRepository) : Prop := {
  ky_contexts : map_Forall (λ k x, k = feature_sha256 (dump x)) (fr_contexts r);
  ky_snapshots : map_Forall (λ k s, k = sn_snapshot_id s) (fr_snapshots r);
}.

Lemma save_context_keyed x : preserves keyed (save_context x).
Proof.
  intros r [Hc Hs]. unfold save_context. cbv zeta. destruct (clashes _ _); [by split|].
  split; cbn [fr_contexts fr_snapshots snd]; [by apply map_Forall_insert_2 | done].
Qed.

Lemma save_snapshot_keyed s : preserves keyed (save_snapshot s).
Proof.
  intros r [Hc Hs]. unfold save_snapshot. destruct (clashes _ _); [by split|].
  split; cbn [fr_contexts fr_snapshots snd]; [done | by apply map_Forall_insert_2].
Qed.

(** Replay changes nothing. *)
Lemma replay_context_reads h id r : (replay_context h id r).2 = r.
Proof.
  unfold replay_context, get_context, get_snapshot. rewrite eff_bind_unfold. cbn [gets].
  destruct (fr_contexts r !! h) as [x|]; [|done]. rewrite eff_bind_unfold. unfold lift.
  destruct (build_feature_snapshot x) as [s|e]; [|done]. rewrite eff_bind_unfold. destruct id as [id|]; [|done].
  rewrite eff_bind_unfold. cbn [gets]. destruct (fr_snapshots r !! id) as [s'|]; [|done]. by destruct (text_differs s s').
Qed.

Lemma text_same {A} `{Dump A} (a : A) : text_differs a a = false.
Proof. unfold text_differs. by rewrite bool_decide_eq_true_2. Qed.

(** The snapshot built from a context and stored with it replays to the same
    bytes. *)
Theorem stored_snapshot_replays x s r :
  build_feature_snapshot x = Ok s →
  match (h ← save_context x; _ ← save_snapshot s; replay_context h (Some (sn_snapshot_id s))) r with
  | (Ok y, r') =>
      y = {| fy_context_hash := feature_sha256 (dump x); fy_expected_snapshot_id := Some (sn_snapshot_id s);
             fy_actual_snapshot_id := sn_snapshot_id s; fy_byte_identical := Some true |} ∧
      fr_contexts r' = <[feature_sha256 (dump x) := x]> (fr_contexts r) ∧
      fr_snapshots r' = <[sn_snapshot_id s := s]> (fr_snapshots r)
  | (Err e, r') => e = ERuntime "feature context hash collision" ∨ e = ERuntime "feature snapshot id collision"
  end.
Proof.
  intros Hb. rewrite eff_bind_unfold. unfold save_context. cbv zeta. destruct (clashes _ x); [by left|].
  rewrite eff_bind_unfold. unfold save_snapshot. cbn [fr_snapshots]. destruct (clashes _ s); [by right|].
  unfold replay_context, get_context, get_snapshot. rewrite eff_bind_unfold. cbn [gets fr_contexts].
  rewrite lookup_insert_eq, eff_bind_unfold. unfold lift. rewrite Hb, eff_bind_unfold, eff_bind_unfold.
  cbn [gets fr_snapshots]. by rewrite lookup_insert_eq, text_same.
Qed.
End store.
