(* ===== verification/RecorderModels.v ===== *)
(** * RecorderModels: the data of the raw-event recorder

    daybreak_recorder/models.py, canonical.py and the in-memory repository of
    persistence/repository.py.  Datetimes are instants in UTC, so [ensure_utc]
    holds by construction; UUIDs are their text; the coroutines of the
    in-memory repository hold its lock from their first to their last access
    and never wait inside, so each is one step. *)
From Stdlib Require Import Ascii String.
From S2P Require Import Prelude Numerics PyStr PyTime Contracts Stores Canonical RiskModels.

#[local] Open Scope Z_scope.

(** [str(uuid5(EVENT_NAMESPACE, name))]. *)
Class EventUuid := event_uuid : string → string.

(** ** canonical.py *)

(** [isoformat(timespec='microseconds')], with Z for the offset. *)
Definition datetime_z (t : datetime) : string :=
  let us := t mod DAY in
  date_iso (utc_date t) +:+ "T" +:+ pad 2 (us / HOUR) +:+ ":" +:+ pad 2 (us / MINUTE mod 60) +:+ ":"
  +:+ pad 2 (us / SECOND mod 60) +:+ "." +:+ pad 6 (us mod SECOND) +:+ "Z".

(** [_normalize]; a non-finite float, whose text json.dumps writes as NaN,
    Infinity or -Infinity, is a ValueError. *)
Definition float_text_finite (r : string) : bool :=
  negb (existsb (String.eqb r) ["NaN"; "Infinity"; "-Infinity"]%string).
Fixpoint canonical_value (v : pyval) : result json :=
  match v with
  | PNone => Ok JNull
  | PBool b => Ok (JBool b)
  | PInt z => Ok (JInt z)
  | PFloat r => if float_text_finite r then Ok (JFloat r) else Err (EValue "non-finite floats are not canonicalizable")
  | PDecimal d => Ok (JStr (decimal_f d))
  | PStr s => Ok (JStr s)
  | PEnum s => Ok (JStr s)
  | PDatetime t => Ok (JStr (datetime_z t))
  | PDate d => Ok (JStr (date_iso d))
  | PTime us => Ok (JStr (time_iso us))
  | PSeq l =>
      (fix go l : result (list json) :=
         match l with [] => Ok [] | x :: l' => y ← canonical_value x; ys ← go l'; Ok (y :: ys) end) l ≫= λ l, Ok (JArr l)
  | PDict m =>
      (fix go m : result (list (string * json)) :=
         match m with
         | [] => Ok []
         | (k, x) :: m' => y ← canonical_value x; ys ← go m'; Ok ((k, y) :: ys)
         end) m ≫= λ m, Ok (JObj m)
  end.
Definition sha256_hex (v : pyval) : result string :=
  j ← canonical_value v; Ok (sha256.hexdigest (json_text j)).

Example datetime_z_example : datetime_z 1767621599000001 = "2026-01-05T13:59:59.000001Z"%string.
Proof. vm_compute. reflexivity. Qed.

(** ** Enums *)

Inductive RecorderSource := RO_ALPACA_SIP | RO_ALPACA_NEWS | RO_ALPACA_TRADING | RO_SEC_EDGAR | RO_SYSTEM.
#[export] Instance RecorderSource_eq_dec : EqDecision RecorderSource. Proof. solve_decision. Defined.
Definition RecorderSource_value (s : RecorderSource) : string :=
  match s with
  | RO_ALPACA_SIP => "alpaca_sip" | RO_ALPACA_NEWS => "alpaca_news" | RO_ALPACA_TRADING => "alpaca_trading"
  | RO_SEC_EDGAR => "sec_edgar" | RO_SYSTEM => "system"
  end.

Inductive EventType :=
  RE_TRADE | RE_QUOTE | RE_MINUTE_BAR | RE_UPDATED_BAR | RE_DAILY_BAR | RE_TRADING_STATUS | RE_TRADE_CANCEL
  | RE_TRADE_CORRECTION | RE_NEWS | RE_TRADE_UPDATE | RE_SEC_SUBMISSIONS_SNAPSHOT | RE_SEC_SUBMISSION
  | RE_STREAM_CONNECTED | RE_STREAM_DISCONNECTED | RE_SUBSCRIPTION_MANIFEST | RE_HEARTBEAT | RE_ERROR.
#[export] Instance EventType_eq_dec : EqDecision EventType. Proof. solve_decision. Defined.
Definition EventType_value (e : EventType) : string :=
  match e with
  | RE_TRADE => "trade" | RE_QUOTE => "quote" | RE_MINUTE_BAR => "minute_bar" | RE_UPDATED_BAR => "updated_bar"
  | RE_DAILY_BAR => "daily_bar" | RE_TRADING_STATUS => "trading_status" | RE_TRADE_CANCEL => "trade_cancel"
  | RE_TRADE_CORRECTION => "trade_correction" | RE_NEWS => "news" | RE_TRADE_UPDATE => "trade_update"
  | RE_SEC_SUBMISSIONS_SNAPSHOT => "sec_submissions_snapshot" | RE_SEC_SUBMISSION => "sec_submission"
  | RE_STREAM_CONNECTED => "stream_connected" | RE_STREAM_DISCONNECTED => "stream_disconnected"
  | RE_SUBSCRIPTION_MANIFEST => "subscription_manifest" | RE_HEARTBEAT => "heartbeat" | RE_ERROR => "error"
  end.

Inductive SessionStatus :=
  RT_STARTING | RT_RUNNING | RT_STOPPING | RT_COMPLETED | RT_COMPLETED_PARTIAL | RT_FAILED | RT_SKIPPED_NON_TRADING_DAY.
#[export] Instance SessionStatus_eq_dec : EqDecision SessionStatus. Proof. solve_decision. Defined.

(** ** Raw events *)

Record RawEvent := {
  re_event_id : string;
  re_ingest_session_id : string;
  re_connection_id : string;
  re_source : RecorderSource;
  re_channel : string;
  re_event_type : EventType;
  re_symbol : option string;
  re_symbols : list string;
  re_provider_event_id : option string;
  re_event_timestamp : datetime;
  re_received_at : datetime;
  re_trading_date : date;
  re_sequence_hint : option Z;
  re_payload : pyval;
  re_payload_sha256 : string;
  re_idempotency_key : string;
}.

Definition text_or_none (s : option string) : pyval := match s with Some s => PStr s | None => PNone end.

(** The identity a raw event's key is the digest of. *)
Definition event_identity (session : string) (source : RecorderSource) (channel : string) (kind : EventType)
    (symbols : list string) (provider_event_id : option string) (event_timestamp : datetime) (payload_sha256 : string)
    : pyval :=
  PDict [("ingest_session_id"%string, PStr session); ("source"%string, PStr (RecorderSource_value source));
    ("channel"%string, PStr channel); ("event_type"%string, PStr (EventType_value kind));
    ("symbols"%string, PSeq (map PStr symbols)); ("provider_event_id"%string, text_or_none provider_event_id);
    ("event_timestamp"%string, PDatetime event_timestamp); ("payload_sha256"%string, PStr payload_sha256)].
Definition identity_of (e : RawEvent) : pyval :=
  event_identity (re_ingest_session_id e) (re_source e) (re_channel e) (re_event_type e) (re_symbols e)
    (re_provider_event_id e) (re_event_timestamp e) (re_payload_sha256 e).

Definition validate_symbols (symbols : list string) : bool :=
  no_dup symbols && forallb (λ s, between 1 32 (code_points s)) symbols.
Definition at_most_text (n : Z) (s : option string) : bool :=
  match s with Some s => code_points s <=? n | None => true end.

Section event.
Context `{EventUuid} `{NewYork}.

(** RawEvent.validate_integrity: the checks in order. *)
Definition validate_integrity (e : RawEvent) : result unit :=
  expected_hash ← sha256_hex (re_payload e);
  _ ← guard_or (String.eqb (re_payload_sha256 e) expected_hash) (EValidation "payload_sha256 does not match payload");
  expected_key ← sha256_hex (identity_of e);
  _ ← guard_or (String.eqb (re_idempotency_key e) expected_key) (EValidation "idempotency_key does not match event identity");
  _ ← guard_or (String.eqb (re_event_id e) (event_uuid expected_key))
        (EValidation "event_id does not match deterministic event identity");
  _ ← guard_or (bool_decide (re_trading_date e = ny_date (re_event_timestamp e)))
        (EValidation "trading_date must be derived from event_timestamp in America/New_York");
  guard_or (match re_symbol e with Some s => existsb (String.eqb s) (re_symbols e) | None => true end)
    (EValidation "primary symbol must be present in symbols").

(** The constraints of the fields. *)
Definition RawEvent_fields (e : RawEvent) : bool :=
  between 1 64 (code_points (re_channel e))
  && match re_symbol e with Some s => between 1 32 (code_points s) | None => true end
  && validate_symbols (re_symbols e) && at_most_text 256 (re_provider_event_id e)
  && match re_sequence_hint e with Some n => 0 <=? n | None => true end
  && hash_pattern (re_payload_sha256 e) && hash_pattern (re_idempotency_key e).

(** Building the model: the fields, then the validator. *)
Definition validated_event (e : RawEvent) : result RawEvent :=
  if RawEvent_fields e then _ ← validate_integrity e; Ok e else Err (EValidation "RawEvent").

Definition create (session connection : string) (source : RecorderSource) (channel : string) (kind : EventType)
    (event_timestamp received_at : datetime) (payload : pyval) (symbols : list string)
    (provider_event_id : option string) (sequence_hint : option Z) : result RawEvent :=
  let ordered := unique_from [] symbols in
  payload_hash ← sha256_hex payload;
  key ← sha256_hex (event_identity session source channel kind ordered provider_event_id event_timestamp payload_hash);
  validated_event
    {| re_event_id := event_uuid key; re_ingest_session_id := session; re_connection_id := connection;
       re_source := source; re_channel := channel; re_event_type := kind; re_symbol := head ordered;
       re_symbols := ordered; re_provider_event_id := provider_event_id; re_event_timestamp := event_timestamp;
       re_received_at := received_at; re_trading_date := ny_date event_timestamp; re_sequence_hint := sequence_hint;
       re_payload := payload; re_payload_sha256 := payload_hash; re_idempotency_key := key |}.
End event.

(** ** The other models *)

Record RawIngestFailure := {
  rf_failure_id : string;
  rf_ingest_session_id : string;
  rf_connection_id : option string;
  rf_source : RecorderSource;
  rf_channel : string;
  rf_received_at : datetime;
  rf_error_type : string;
  rf_error_message : string;
  rf_raw_payload : option pyval;
  rf_raw_payload_sha256 : option string;
}.
(** RawIngestFailure.validate_hash. *)
Definition validate_hash (f : RawIngestFailure) : result unit :=
  match rf_raw_payload f, rf_raw_payload_sha256 f with
  | None, Some _ => Err (EValidation "raw_payload_sha256 requires raw_payload")
  | None, None => Ok tt
  | Some payload, h =>
      expected ← sha256_hex payload;
      guard_or (bool_decide (h = Some expected)) (EValidation "raw_payload_sha256 does not match raw_payload")
  end.
Definition RawIngestFailure_fields (f : RawIngestFailure) : bool :=
  between 1 64 (code_points (rf_channel f)) && between 1 128 (code_points (rf_error_type f))
  && between 1 4096 (code_points (rf_error_message f))
  && match rf_raw_payload_sha256 f with Some h => hash_pattern h | None => true end.
(** RawIngestFailure.create: [failure_id] is the default factory's. *)
Definition create_failure (failure_id session : string) (connection : option string) (source : RecorderSource)
    (channel : string) (received_at : datetime) (error_type error_message : string) (raw_payload : option pyval)
    : result RawIngestFailure :=
  h ← match raw_payload with Some p => h ← sha256_hex p; Ok (Some h) | None => Ok None end;
  let f := {| rf_failure_id := failure_id; rf_ingest_session_id := session; rf_connection_id := connection;
              rf_source := source; rf_channel := channel; rf_received_at := received_at; rf_error_type := error_type;
              rf_error_message := error_message; rf_raw_payload := raw_payload; rf_raw_payload_sha256 := h |} in
  if RawIngestFailure_fields f then _ ← validate_hash f; Ok f else Err (EValidation "RawIngestFailure").

Record SubscriptionManifest := {
  sm_manifest_id : string;
  sm_ingest_session_id : string;
  sm_version : Z;
  sm_effective_at : datetime;
  sm_wildcard_minute_bars : bool;
  sm_wildcard_trading_statuses : bool;
  sm_tick_symbols : list string;
  sm_news_symbols : list string;
  sm_configuration_hash : string;
}.
Definition SubscriptionManifest_ok (m : SubscriptionManifest) : bool :=
  (1 <=? sm_version m) && no_dup (sm_tick_symbols m) && no_dup (sm_news_symbols m)
  && hash_pattern (sm_configuration_hash m).

Record IngestSession := {
  ig_ingest_session_id : string;
  ig_trading_date : date;
  ig_scheduled_start : datetime;
  ig_scheduled_stop : datetime;
  ig_started_at : datetime;
  ig_ended_at : option datetime;
  ig_status : SessionStatus;
  ig_configuration_hash : string;
  ig_host_name : string;
  ig_process_id : Z;
  ig_error_message : option string;
}.
(** IngestSession.validate_order. *)
Definition validate_order (s : IngestSession) : bool :=
  (ig_scheduled_start s <? ig_scheduled_stop s)
  && match ig_ended_at s with Some t => ig_started_at s <=? t | None => true end.
Definition IngestSession_ok (s : IngestSession) : bool :=
  hash_pattern (ig_configuration_hash s) && between 1 255 (code_points (ig_host_name s)) && (0 <? ig_process_id s)
  && at_most_text 4096 (ig_error_message s) && validate_order s.

Record AppendBatchResult := {
  ab_attempted : Z;
  ab_inserted : Z;
  ab_duplicates : Z;
}.
(** AppendBatchResult.validate_counts, and the bounds of the fields. *)
Definition AppendBatchResult_ok (r : AppendBatchResult) : bool :=
  (0 <=? ab_attempted r) && (0 <=? ab_inserted r) && (0 <=? ab_duplicates r)
  && (ab_inserted r + ab_duplicates r =? ab_attempted r).

Record PersistedRawEvent := {
  pr_ingest_seq : Z;
  pr_event : RawEvent;
}.
