(* ===== verification/RecorderStore.v ===== *)
(** * RecorderStore: the in-memory event log and its replay

    InMemoryRawEventRepository of daybreak_recorder/persistence/repository.py
    and daybreak_recorder/replay/engine.py. *)
From Stdlib Require Import String.
From S2P Require Import Prelude Numerics PyStr PyTime Contracts Stores Canonical RiskModels RecorderModels.

#[local] Open Scope Z_scope.

(** ** The repository *)

Record MemorySession := {
  my_session : IngestSession;
  my_status : SessionStatus;
  my_ended_at : option datetime;
  my_error_message : option string;
}.

Record RawEventRepository := {
  rr_events : list PersistedRawEvent;
  rr_by_idempotency : gmap string PersistedRawEvent;
  rr_failures : list RawIngestFailure;
  rr_manifests : list SubscriptionManifest;
  rr_sessions : gmap string MemorySession;
  rr_sec_seen : gmap string (gset string);
}.
Definition empty_raw_event_repository : RawEventRepository :=
  {| rr_events := []; rr_by_idempotency := ∅; rr_failures := []; rr_manifests := []; rr_sessions := ∅;
     rr_sec_seen := ∅ |}.
Definition with_events (events : list PersistedRawEvent) (keys : gmap string PersistedRawEvent)
    (s : RawEventRepository) : RawEventRepository :=
  {| rr_events := events; rr_by_idempotency := keys; rr_failures := rr_failures s; rr_manifests := rr_manifests s;
     rr_sessions := rr_sessions s; rr_sec_seen := rr_sec_seen s |}.
Definition with_failures l (s : RawEventRepository) : RawEventRepository :=
  {| rr_events := rr_events s; rr_by_idempotency := rr_by_idempotency s; rr_failures := l;
     rr_manifests := rr_manifests s; rr_sessions := rr_sessions s; rr_sec_seen := rr_sec_seen s |}.
Definition with_manifests l (s : RawEventRepository) : RawEventRepository :=
  {| rr_events := rr_events s; rr_by_idempotency := rr_by_idempotency s; rr_failures := rr_failures s;
     rr_manifests := l; rr_sessions := rr_sessions s; rr_sec_seen := rr_sec_seen s |}.
Definition with_sessions m (s : RawEventRepository) : RawEventRepository :=
  {| rr_events := rr_events s; rr_by_idempotency := rr_by_idempotency s; rr_failures := rr_failures s;
     rr_manifests := rr_manifests s; rr_sessions := m; rr_sec_seen := rr_sec_seen s |}.
Definition with_sec_seen m (s : RawEventRepository) : RawEventRepository :=
  {| rr_events := rr_events s; rr_by_idempotency := rr_by_idempotency s; rr_failures := rr_failures s;
     rr_manifests := rr_manifests s; rr_sessions := rr_sessions s; rr_sec_seen := m |}.

Module raw_events.
Definition create_session (x : IngestSession) : eff RawEventRepository unit :=
  existing ← gets (λ s, rr_sessions s !! ig_ingest_session_id x);
  match existing with
  | Some _ => raise (EValue "ingest session already exists")
  | None =>
      modify (λ s, with_sessions (<[ig_ingest_session_id x := {| my_session := x; my_status := ig_status x;
        my_ended_at := None; my_error_message := None |}]> (rr_sessions s)) s)
  end.
Definition finish_session (id : string) (status : SessionStatus) (ended_at : datetime) (error_message : option string)
    : eff RawEventRepository unit :=
  existing ← gets (λ s, rr_sessions s !! id);
  match existing with
  | None => raise (EKey id)
  | Some state =>
      modify (λ s, with_sessions (<[id := {| my_session := my_session state; my_status := status;
        my_ended_at := Some ended_at; my_error_message := error_message |}]> (rr_sessions s)) s)
  end.
Definition save_manifest (m : SubscriptionManifest) : eff RawEventRepository unit :=
  known ← gets rr_manifests;
  if existsb (λ e, String.eqb (sm_ingest_session_id e) (sm_ingest_session_id m) && (sm_version e =? sm_version m)) known
  then raise (EValue "manifest version already exists for session")
  else modify (λ s, with_manifests (rr_manifests s ++ [m]) s).

(** One event of a batch. *)
Definition append_event (e : RawEvent) (acc : RawEventRepository * (Z * Z)) : RawEventRepository * (Z * Z) :=
  let '(s, (inserted, duplicates)) := acc in
  match rr_by_idempotency s !! re_idempotency_key e with
  | Some _ => (s, (inserted, duplicates + 1))
  | None =>
      let p := {| pr_ingest_seq := len (rr_events s) + 1; pr_event := e |} in
      (with_events (rr_events s ++ [p]) (<[re_idempotency_key e := p]> (rr_by_idempotency s)) s,
       (inserted + 1, duplicates))
  end.
Definition append_events (l : list RawEvent) (s : RawEventRepository) : RawEventRepository * (Z * Z) :=
  fold_left (λ acc e, append_event e acc) l (s, (0, 0)).
Definition append_batch (l : list RawEvent) : eff RawEventRepository AppendBatchResult := λ s,
  let '(s', (inserted, duplicates)) := append_events l s in
  let r := {| ab_attempted := len l; ab_inserted := inserted; ab_duplicates := duplicates |} in
  (if AppendBatchResult_ok r then Ok r else Err (EValidation "AppendBatchResult"), s').

Definition append_failure (f : RawIngestFailure) : eff RawEventRepository unit :=
  modify (λ s, with_failures (rr_failures s ++ [f]) s).
(** The events an iteration yields: those of the snapshot taken at its start. *)
Definition iter_events (session : string) (after_ingest_seq : Z) (s : RawEventRepository) : list PersistedRawEvent :=
  filter (λ p, (after_ingest_seq <? pr_ingest_seq p) && String.eqb (re_ingest_session_id (pr_event p)) session = true)
    (rr_events s).
Definition get_sec_seen_accessions (cik : string) : eff RawEventRepository (gset string) :=
  gets (λ s, default ∅ (rr_sec_seen s !! cik)).
Definition mark_sec_accessions_seen (cik : string) (accessions : list string) : eff RawEventRepository unit :=
  modify (λ s, with_sec_seen (<[cik := default ∅ (rr_sec_seen s !! cik) ∪ list_to_set accessions]> (rr_sec_seen s)) s).
End raw_events.

(** ** replay/engine.py *)

Record ReplayStats := {
  rs_event_count : Z;
  rs_first_ingest_seq : option Z;
  rs_last_ingest_seq : option Z;
  rs_first_received_at : option string;
  rs_last_received_at : option string;
}.
Definition no_replay : ReplayStats :=
  {| rs_event_count := 0; rs_first_ingest_seq := None; rs_last_ingest_seq := None; rs_first_received_at := None;
     rs_last_received_at := None |}.

Definition verify_event_integrity (e : RawEvent) : result unit :=
  h ← sha256_hex (re_payload e);
  guard_or (String.eqb h (re_payload_sha256 e)) (EValue ("payload hash mismatch for event " +:+ re_event_id e)).

(** [stats.first_ingest_seq or item.ingest_seq]: zero counts as absent. *)
Definition or_seq (a : option Z) (b : Z) : Z := match a with Some z => if z =? 0 then b else z | None => b end.
Definition counted (p : PersistedRawEvent) (st : ReplayStats) : ReplayStats :=
  let at_ := datetime_iso (re_received_at (pr_event p)) in
  {| rs_event_count := rs_event_count st + 1;
     rs_first_ingest_seq := Some (or_seq (rs_first_ingest_seq st) (pr_ingest_seq p));
     rs_last_ingest_seq := Some (pr_ingest_seq p);
     rs_first_received_at := Some (default at_ (rs_first_received_at st)); rs_last_received_at := Some at_ |}.

(** [a / b] on floats, [b] positive. *)
Definition flt_div (a b : flt) : flt :=
  let e := fe a - fe b in
  if 0 <=? e then flt.of_ratio (fm a * 2 ^ e) (fm b) else flt.of_ratio (fm a) (fm b * 2 ^ (- e)).

Section replay.
(** The world of the handler and of [asyncio.sleep]. *)
Context {S : Type}.
Variable handler : PersistedRawEvent → eff S unit.
Variable sleep : flt → eff S unit.

(** The wait before an event, at a positive speed. *)
Definition paced (speed : flt) (previous : option datetime) (received : datetime) : eff S unit :=
  match previous with
  | Some t =>
      if flt.gtb_Z speed 0 then
        let delay := flt_div (total_seconds (received - t)) speed in
        if flt.gtb_Z delay 0 then sleep delay else mret tt
      else mret tt
  | None => mret tt
  end.

(** The loop over the events, from the last sequence and receipt time seen. *)
Fixpoint replay_from (speed : flt) (previous_seq : Z) (previous : option datetime) (st : ReplayStats)
    (l : list PersistedRawEvent) : eff S ReplayStats :=
  match l with
  | [] => mret st
  | p :: l' =>
      if pr_ingest_seq p <=? previous_seq then raise (EValue "repository returned non-monotonic ingest sequence")
      else
        lift (verify_event_integrity (pr_event p)) ;;
        paced speed previous (re_received_at (pr_event p)) ;;
        handler p ;;
        replay_from speed (pr_ingest_seq p) (Some (re_received_at (pr_event p))) (counted p st) l'
  end.

(** ReplayEngine.replay, of the events the repository yields. *)
Definition replay (speed : flt) (after_ingest_seq : Z) (l : list PersistedRawEvent) : eff S ReplayStats :=
  if flt.ltb_Z speed 0 then raise (EValue "speed must be nonnegative")
  else replay_from speed after_ingest_seq None no_replay l.
End replay.

(** ** export_session_jsonl *)

(** The lines written so far. *)
Definition write_record `{Dump RawEvent} (p : PersistedRawEvent) : eff (list (list Ascii.ascii)) unit := λ lines,
  match canonical_value (PDict [("ingest_seq"%string, PInt (pr_ingest_seq p)); ("event"%string, dump (pr_event p))]) with
  | Ok j => (Ok tt, lines ++ [json_text j])
  | Err e => (Err e, lines)
  end.
Definition export_session_jsonl `{Dump RawEvent} (session : string) (after_ingest_seq : Z) (s : RawEventRepository)
    : eff (list (list Ascii.ascii)) ReplayStats :=
  replay write_record (λ _, mret tt) {| fm := 0; fe := 0 |} after_ingest_seq
    (raw_events.iter_events session after_ingest_seq s).

(** ** What a batch adds *)

(** The events of [l] whose key is not in [seen] nor earlier in [l]. *)
Fixpoint fresh (seen : gset string) (l : list RawEvent) : list RawEvent :=
  match l with
  | [] => []
  | e :: l' => if decide (re_idempotency_key e ∈ seen) then fresh seen l'
               else e :: fresh ({[re_idempotency_key e]} ∪ seen) l'
  end.
(** Events in acceptance order, numbered from one. *)
Definition in_sequence (l : list RawEvent) : list PersistedRawEvent :=
  imap (λ i e, {| pr_ingest_seq := Z.of_nat i + 1; pr_event := e |}) l.

Lemma in_sequence_app l e :
  in_sequence (l ++ [e]) = in_sequence l ++ [{| pr_ingest_seq := len (in_sequence l) + 1; pr_event := e |}].
Proof. unfold in_sequence. rewrite imap_app. simpl. unfold len. by rewrite length_imap, Nat.add_0_r. Qed.

Definition keys_of (l : list RawEvent) : gset string := list_to_set (map re_idempotency_key l).

(** The log holds exactly [l], each key once. *)
Record logged (l : list RawEvent) (s : RawEventRepository) : Prop := {
  lg_events : rr_events s = in_sequence l;
  lg_keys : dom (rr_by_idempotency s) = keys_of l;
}.

Lemma empty_logged : logged [] empty_raw_event_repository.
Proof. split; [done | apply dom_empty_L]. Qed.

Lemma keys_app l e : keys_of (l ++ [e]) = {[re_idempotency_key e]} ∪ keys_of l.
Proof. unfold keys_of. rewrite map_app, list_to_set_app_L. simpl. set_solver. Qed.

Lemma append_event_logged l s e a b :
  logged l s →
  let new := bool_decide (re_idempotency_key e ∉ keys_of l) in
  ∃ s', raw_events.append_event e (s, (a, b)) = (s', if new then (a + 1, b) else (a, b + 1)) ∧
    logged (if new then l ++ [e] else l) s'.
Proof.
  intros [He Hk]. cbv zeta. unfold raw_events.append_event. rewrite <- Hk.
  destruct (rr_by_idempotency s !! re_idempotency_key e) as [p|] eqn:E.
  - rewrite bool_decide_false; [by exists s; split|]. rewrite elem_of_dom, E. intros Hn. by apply Hn.
  - rewrite bool_decide_true by (by apply not_elem_of_dom). eexists. split; [done|]. split.
    + simpl. by rewrite in_sequence_app, He.
    + simpl. by rewrite dom_insert_L, Hk, keys_app.
Qed.

Lemma append_events_logged k l s a b :
  logged l s →
  ∃ s', fold_left (λ acc e, raw_events.append_event e acc) k (s, (a, b))
        = (s', (a + len (fresh (keys_of l) k), b + (len k - len (fresh (keys_of l) k)))) ∧
    logged (l ++ fresh (keys_of l) k) s'.
Proof.
  revert l s a b. induction k as [|e k IH]; intros l s a b Hl; cbn [fold_left fresh].
  - exists s. rewrite app_nil_r. unfold len. simpl. split; [by rewrite !Z.add_0_r | done].
  - destruct (append_event_logged l s e a b Hl) as (s1 & E1 & H1). cbv zeta in E1. rewrite E1. clear E1.
    destruct (decide (re_idempotency_key e ∈ keys_of l)) as [Hin|Hin].
    + rewrite bool_decide_false in * by auto. destruct (IH l s1 a (b + 1) H1) as (s' & -> & H2).
      exists s'. split; [|done]. unfold len. simpl. do 2 f_equal. lia.
    + rewrite bool_decide_true in * by done. destruct (IH _ s1 (a + 1) b H1) as (s' & -> & H2).
      rewrite keys_app in *. exists s'. split; [unfold len; simpl; f_equal; f_equal; lia|]. by rewrite <- app_assoc in H2.
Qed.

Lemma length_fresh seen l : (length (fresh seen l) <= length l)%nat.
Proof.
  revert seen. induction l as [|e l IH]; intros seen; simpl; [done|].
  destruct (decide _); simpl; [etrans; [apply IH | lia] | specialize (IH ({[re_idempotency_key e]} ∪ seen)); lia].
Qed.

Lemma append_batch_logged k l s :
  logged l s →
  ∃ s', raw_events.append_batch k s
        = (Ok {| ab_attempted := len k; ab_inserted := len (fresh (keys_of l) k);
                 ab_duplicates := len k - len (fresh (keys_of l) k) |}, s') ∧
    logged (l ++ fresh (keys_of l) k) s'.
Proof.
  intros Hl. unfold raw_events.append_batch, raw_events.append_events.
  destruct (append_events_logged k l s 0 0 Hl) as (s' & -> & H'). rewrite !Z.add_0_l. cbv zeta.
  exists s'. split; [|done]. pose proof (length_fresh (keys_of l) k).
  replace (AppendBatchResult_ok _) with true; [done|]. symmetry. unfold AppendBatchResult_ok, len. simpl.
  rewrite !andb_true_iff, !Z.leb_le, Z.eqb_eq. lia.
Qed.

(** What the first occurrences are: each key once, none seen before, and every
    key of the list seen before or among them. *)
Lemma fresh_spec seen l :
  NoDup (map re_idempotency_key (fresh seen l)) ∧ (∀ e, e ∈ fresh seen l → re_idempotency_key e ∉ seen) ∧
  ∀ e, e ∈ l → re_idempotency_key e ∈ seen ∨ ∃ e', e' ∈ fresh seen l ∧ re_idempotency_key e' = re_idempotency_key e.
Proof.
  revert seen. induction l as [|e l IH]; intros seen; simpl; [split_and!; [constructor | set_solver..]|].
  destruct (decide _) as [Hin|Hin].
  - destruct (IH seen) as (H1 & H2 & H3). split_and!; [done..|]. intros e' [->|He']%elem_of_cons; [by left | by apply H3].
  - destruct (IH ({[re_idempotency_key e]} ∪ seen)) as (H1 & H2 & H3). simpl. split_and!.
    + apply NoDup_cons. split; [|done]. intros (e' & E & He')%list_elem_of_fmap. apply (H2 e' He'). set_solver.
    + intros e' [->|He']%elem_of_cons; [done|]. specialize (H2 e' He'). set_solver.
    + intros e' [->|He']%elem_of_cons; [right; exists e; split; [constructor | done]|].
      destruct (H3 e' He') as [[E%elem_of_singleton|]%elem_of_union|(e2 & ? & ?)]; [|by left|].
      * right. exists e. split; [constructor | done].
      * right. exists e2. split; [by constructor | done].
Qed.

Lemma fresh_app seen l k :
  fresh seen (l ++ k) = fresh seen l ++ fresh (keys_of (fresh seen l) ∪ seen) k.
Proof.
  revert seen. induction l as [|e l IH]; intros seen; simpl.
  - f_equal. unfold keys_of. set_solver.
  - destruct (decide _); [apply IH|]. rewrite IH. simpl. do 2 f_equal. f_equal. unfold keys_of. simpl. set_solver.
Qed.

(** The log after batches appended one after the other, from an empty one. *)
Fixpoint append_batches (batches : list (list RawEvent)) (s : RawEventRepository) : RawEventRepository :=
  match batches with
  | [] => s
  | k :: batches' => append_batches batches' (raw_events.append_batch k s).2
  end.

Lemma append_batches_logged batches l s :
  logged l s → logged (l ++ fresh (keys_of l) (concat batches)) (append_batches batches s).
Proof.
  revert l s. induction batches as [|k batches IH]; intros l s Hl; simpl; [by rewrite app_nil_r|].
  destruct (append_batch_logged k l s Hl) as (s' & -> & Hs). simpl. specialize (IH _ _ Hs).
  rewrite fresh_app, app_assoc. replace (keys_of (fresh (keys_of l) k) ∪ keys_of l)
    with (keys_of (l ++ fresh (keys_of l) k)); [done|].
  unfold keys_of. rewrite map_app, list_to_set_app_L. set_solver.
Qed.

(** ** What a replay delivers *)

(** A handler that keeps what it is given. *)
Definition keep_event (p : PersistedRawEvent) : eff (list PersistedRawEvent) unit := modify (λ l, l ++ [p]).
Definition no_wait {S} (_ : flt) : eff S unit := mret tt.

Definition increasing_after (k : Z) (l : list PersistedRawEvent) : Prop :=
  Forall (λ p, k < pr_ingest_seq p) l ∧ StronglySorted (λ p q, pr_ingest_seq p < pr_ingest_seq q) l.

Lemma increasing_cons k p l :
  increasing_after k (p :: l) → k < pr_ingest_seq p ∧ increasing_after (pr_ingest_seq p) l.
Proof. intros [[? _]%Forall_cons [? ?]%StronglySorted_inv]. by split; [|split]. Qed.

Lemma in_sequence_sorted l : StronglySorted (λ p q, pr_ingest_seq p < pr_ingest_seq q) (in_sequence l) ∧
  Forall (λ p, pr_ingest_seq p <= len l) (in_sequence l).
Proof.
  induction l as [|e l [IHs IHf]] using rev_ind; [split; constructor|]. rewrite in_sequence_app.
  assert (len (in_sequence l) = len l) as E by (unfold len, in_sequence; by rewrite length_imap).
  split.
  - apply StronglySorted_app_intro; [done | by repeat constructor|]. intros p q Hp ->%list_elem_of_singleton.
    eapply Forall_forall in IHf; [|exact Hp]. simpl. lia.
  - unfold len in *. rewrite length_app. simpl. apply Forall_app. split; [|constructor; [simpl; lia | done]].
    eapply Forall_impl; [exact IHf|]. simpl. lia.
Qed.

(** A replay of increasing events stops only at one whose payload does not
    match its digest; until then it delivers every event, and counts it. *)
Lemma replay_from_delivers speed k previous st l acc :
  increasing_after k l →
  match replay_from keep_event no_wait speed k previous st l acc with
  | (Ok st', acc') => acc' = acc ++ l ∧ rs_event_count st' = rs_event_count st + len l ∧
      rs_last_ingest_seq st' = match last l with Some p => Some (pr_ingest_seq p) | None => rs_last_ingest_seq st end
  | (Err e, acc') => ∃ done_ p rest, l = done_ ++ p :: rest ∧ acc' = acc ++ done_ ∧
      verify_event_integrity (pr_event p) = Err e
  end.
Proof.
  revert k previous st acc. induction l as [|p l IH]; intros k previous st acc Hl.
  { simpl. rewrite app_nil_r. unfold len. simpl. split; [done|]. split; [lia | done]. }
  apply increasing_cons in Hl as [Hk Hl]. cbn [replay_from].
  rewrite (proj2 (Z.leb_gt _ _) Hk). rewrite eff_bind_unfold. unfold lift at 1.
  destruct (verify_event_integrity (pr_event p)) as [[]|e] eqn:Hv; [|exists [], p, l; by rewrite app_nil_r].
  assert (∀ B (f : eff (list PersistedRawEvent) B), (paced no_wait speed previous (re_received_at (pr_event p)) ;; f) acc = f acc) as Hp.
  { intros B f. rewrite eff_bind_unfold. unfold paced, no_wait. destruct previous; [|done].
    destruct (flt.gtb_Z speed 0); [|done]. cbv zeta. by destruct (flt.gtb_Z _ _). }
  rewrite Hp, eff_bind_unfold. unfold keep_event at 1, modify at 1.
  specialize (IH (pr_ingest_seq p) (Some (re_received_at (pr_event p))) (counted p st) (acc ++ [p]) Hl).
  destruct (replay_from _ _ _ _ _ _ l _) as [[st'|e] acc'].
  - destruct IH as (-> & Hc & Hlast). rewrite <- app_assoc. split; [done|]. simpl in Hc, Hlast. rewrite Hc, Hlast.
    unfold len. simpl. split; [lia|].
    destruct l as [|q l]; [done|]. rewrite last_cons_cons. by destruct (last (q :: l)) eqn:E; [|apply last_None in E].
  - destruct IH as (d & q & rest & -> & -> & ?). exists (p :: d), q, rest. by rewrite <- app_assoc.
Qed.

Lemma validated_verifies `{EventUuid} `{NewYork} e : validate_integrity e = Ok tt → verify_event_integrity e = Ok tt.
Proof.
  unfold validate_integrity, verify_event_integrity. intros (h & -> & Hv)%bind_Ok. simpl.
  apply bind_Ok in Hv as (u & Hg & _). apply guard_or_Ok, String.eqb_eq in Hg as ->.
  by rewrite String.eqb_refl.
Qed.

(** C34: what was captured is what is replayed.  Batches appended to an empty
    log leave it holding the first event of each idempotency key, in the order
    of acceptance, numbered from one without a gap.  Replaying a session from
    a sequence number, at any nonnegative speed, gives the handler exactly the
    session's events after that number in that order, and counts them; the
    only error is an event whose payload no longer matches its digest, raised
    before that event is delivered, and events that satisfied the model's
    validator never raise it. *)
Theorem capture_replays `{EventUuid} `{NewYork} (batches : list (list RawEvent)) (session : string) (after : Z) (speed : flt) :
  let captured := fresh ∅ (concat batches) in
  let s := append_batches batches empty_raw_event_repository in
  let wanted := filter (λ p, (after <? pr_ingest_seq p) && String.eqb (re_ingest_session_id (pr_event p)) session = true)
                  (in_sequence captured) in
  let run := replay keep_event no_wait speed after (raw_events.iter_events session after s) [] in
  rr_events s = in_sequence captured ∧ NoDup (map re_idempotency_key captured) ∧
  (∀ e, e ∈ concat batches → ∃ e', e' ∈ captured ∧ re_idempotency_key e' = re_idempotency_key e) ∧
  match run with
  | (Ok st, delivered) => delivered = wanted ∧ rs_event_count st = len wanted ∧
      rs_last_ingest_seq st = pr_ingest_seq <$> last wanted
  | (Err e, delivered) => flt.ltb_Z speed 0 = true ∧ delivered = [] ∨
      ∃ p rest, wanted = delivered ++ p :: rest ∧ verify_event_integrity (pr_event p) = Err e ∧
        validate_integrity (pr_event p) ≠ Ok tt
  end.
Proof.
  cbv zeta. pose proof (append_batches_logged batches [] _ empty_logged) as [He _]. simpl in He.
  change (keys_of []) with (∅ : gset string) in He. split; [done|].
  destruct (fresh_spec ∅ (concat batches)) as (H1 & _ & H3). split; [done|]. split.
  { intros e Hin. destruct (H3 e Hin) as [?%elem_of_empty|]; done. }
  unfold raw_events.iter_events. rewrite He. unfold replay. destruct (flt.ltb_Z speed 0); [by left|].
  match goal with |- context [replay_from _ _ _ _ _ _ ?l _] => set (wanted := l) end.
  assert (increasing_after after wanted) as Hw.
  { split; [|by apply StronglySorted_filter, in_sequence_sorted].
    apply Forall_forall. intros p [Hp _]%list_elem_of_filter. by bool_to_prop. }
  pose proof (replay_from_delivers speed after None no_replay wanted [] Hw) as Hr.
  destruct (replay_from _ _ _ _ _ _ wanted _) as [[st|e] d].
  - destruct Hr as (-> & Hc & Hl). split; [done|]. rewrite Hc, Hl. split; [done|]. by destruct (last wanted).
  - destruct Hr as (d' & p & rest & Hd & -> & Hv). right. exists p, rest. split; [done|]. split; [done|].
    intros Hval%validated_verifies. congruence.
Qed.
