(* ===== verification/BatchWriter.v ===== *)
(** * BatchWriter: the asynchronous batch writer

    AsyncBatchWriter of daybreak_recorder/persistence/batch_writer.py as a
    state machine.  A coroutine of asyncio runs undisturbed from one await to
    the next, so each label is such a run: a client's, the writer task's, or
    the environment's (a timeout, the repository's answer, a cancellation).
    The repository is the in-memory log; [append_batch] may also raise, before
    or after the batch is stored, as a database does. *)
From Stdlib Require Import String.
From S2P Require Import Prelude Numerics PyStr PyTime Contracts Stores Canonical RiskModels RecorderModels RecorderStore.

#[local] Open Scope Z_scope.

(** ** Data *)

Record WriterStats := {
  ws_submitted : Z;
  ws_persisted : Z;
  ws_duplicates : Z;
  ws_batches : Z;
  ws_max_queue_depth : Z;
}.
Definition no_writes : WriterStats :=
  {| ws_submitted := 0; ws_persisted := 0; ws_duplicates := 0; ws_batches := 0; ws_max_queue_depth := 0 |}.

(** A future of the event loop is its number; the writer's futures are held by
    state. *)
Inductive FutureState := FU_PENDING | FU_DONE | FU_FAILED (e : exn) | FU_CANCELLED.
#[export] Instance FutureState_eq_dec : EqDecision FutureState. Proof. solve_decision. Defined.
Record QueuedEvent := {
  qe_event : RawEvent;
  qe_durable_future : option nat;
}.
Inductive QueueItem := QEvent (q : QueuedEvent) | QStop.

(** Where the writer task is: created and not yet begun; waiting for an item;
    waiting for the repository, and whether it returns after the flush;
    returned; or ended by an exception. *)
Inductive WriterTask := TK_CREATED | TK_GETTING | TK_FLUSHING (stopping : bool) | TK_RETURNED | TK_RAISED (e : exn).

Record WriterConfig := {
  wc_queue_maxsize : nat;
  wc_batch_size : nat;
}.

(** [bw_waiting]: the clients that passed the checks of [_enqueue] and wait for
    room in the queue.  [bw_cancelled]: the task was asked to cancel.
    [bw_accepted] and [bw_stored] are history: the items put on the queue by
    [_enqueue], and those handed to a repository that stored them. *)
Record BatchWriter := {
  bw_queue : list QueueItem;
  bw_waiting : list QueueItem;
  bw_task : option WriterTask;
  bw_cancelled : bool;
  bw_batch : list QueuedEvent;
  bw_fatal_error : option exn;
  bw_stats : WriterStats;
  bw_futures : gmap nat FutureState;
  bw_repository : RawEventRepository;
  bw_accepted : list QueuedEvent;
  bw_stored : list QueuedEvent;
}.
Definition new_writer : BatchWriter :=
  {| bw_queue := []; bw_waiting := []; bw_task := None; bw_cancelled := false; bw_batch := [];
     bw_fatal_error := None; bw_stats := no_writes; bw_futures := ∅; bw_repository := empty_raw_event_repository;
     bw_accepted := []; bw_stored := [] |}.

Definition set_queue q (w : BatchWriter) : BatchWriter :=
  {| bw_queue := q; bw_waiting := bw_waiting w; bw_task := bw_task w; bw_cancelled := bw_cancelled w;
     bw_batch := bw_batch w; bw_fatal_error := bw_fatal_error w; bw_stats := bw_stats w; bw_futures := bw_futures w;
     bw_repository := bw_repository w; bw_accepted := bw_accepted w; bw_stored := bw_stored w |}.
Definition set_waiting q (w : BatchWriter) : BatchWriter :=
  {| bw_queue := bw_queue w; bw_waiting := q; bw_task := bw_task w; bw_cancelled := bw_cancelled w;
     bw_batch := bw_batch w; bw_fatal_error := bw_fatal_error w; bw_stats := bw_stats w; bw_futures := bw_futures w;
     bw_repository := bw_repository w; bw_accepted := bw_accepted w; bw_stored := bw_stored w |}.
Definition set_task t (w : BatchWriter) : BatchWriter :=
  {| bw_queue := bw_queue w; bw_waiting := bw_waiting w; bw_task := t; bw_cancelled := bw_cancelled w;
     bw_batch := bw_batch w; bw_fatal_error := bw_fatal_error w; bw_stats := bw_stats w; bw_futures := bw_futures w;
     bw_repository := bw_repository w; bw_accepted := bw_accepted w; bw_stored := bw_stored w |}.
Definition set_batch b (w : BatchWriter) : BatchWriter :=
  {| bw_queue := bw_queue w; bw_waiting := bw_waiting w; bw_task := bw_task w; bw_cancelled := bw_cancelled w;
     bw_batch := b; bw_fatal_error := bw_fatal_error w; bw_stats := bw_stats w; bw_futures := bw_futures w;
     bw_repository := bw_repository w; bw_accepted := bw_accepted w; bw_stored := bw_stored w |}.
Definition set_futures f (w : BatchWriter) : BatchWriter :=
  {| bw_queue := bw_queue w; bw_waiting := bw_waiting w; bw_task := bw_task w; bw_cancelled := bw_cancelled w;
     bw_batch := bw_batch w; bw_fatal_error := bw_fatal_error w; bw_stats := bw_stats w; bw_futures := f;
     bw_repository := bw_repository w; bw_accepted := bw_accepted w; bw_stored := bw_stored w |}.
Definition set_stats s (w : BatchWriter) : BatchWriter :=
  {| bw_queue := bw_queue w; bw_waiting := bw_waiting w; bw_task := bw_task w; bw_cancelled := bw_cancelled w;
     bw_batch := bw_batch w; bw_fatal_error := bw_fatal_error w; bw_stats := s; bw_futures := bw_futures w;
     bw_repository := bw_repository w; bw_accepted := bw_accepted w; bw_stored := bw_stored w |}.
Definition set_accepted l (w : BatchWriter) : BatchWriter :=
  {| bw_queue := bw_queue w; bw_waiting := bw_waiting w; bw_task := bw_task w; bw_cancelled := bw_cancelled w;
     bw_batch := bw_batch w; bw_fatal_error := bw_fatal_error w; bw_stats := bw_stats w; bw_futures := bw_futures w;
     bw_repository := bw_repository w; bw_accepted := l; bw_stored := bw_stored w |}.
(** [self._fatal_error = self._fatal_error or e]. *)
Definition set_fatal e (w : BatchWriter) : BatchWriter :=
  {| bw_queue := bw_queue w; bw_waiting := bw_waiting w; bw_task := bw_task w; bw_cancelled := bw_cancelled w;
     bw_batch := bw_batch w; bw_fatal_error := Some (default e (bw_fatal_error w)); bw_stats := bw_stats w;
     bw_futures := bw_futures w; bw_repository := bw_repository w; bw_accepted := bw_accepted w;
     bw_stored := bw_stored w |}.
Definition set_cancelled c (w : BatchWriter) : BatchWriter :=
  {| bw_queue := bw_queue w; bw_waiting := bw_waiting w; bw_task := bw_task w; bw_cancelled := c;
     bw_batch := bw_batch w; bw_fatal_error := bw_fatal_error w; bw_stats := bw_stats w; bw_futures := bw_futures w;
     bw_repository := bw_repository w; bw_accepted := bw_accepted w; bw_stored := bw_stored w |}.
(** The batch reached the repository. *)
Definition store_batch (w : BatchWriter) : BatchWriter :=
  {| bw_queue := bw_queue w; bw_waiting := bw_waiting w; bw_task := bw_task w; bw_cancelled := bw_cancelled w;
     bw_batch := bw_batch w; bw_fatal_error := bw_fatal_error w; bw_stats := bw_stats w; bw_futures := bw_futures w;
     bw_repository := (raw_events.append_batch (map qe_event (bw_batch w)) (bw_repository w)).2;
     bw_accepted := bw_accepted w; bw_stored := bw_stored w ++ bw_batch w |}.

(** ** Futures *)

(** [if future is not None and not future.done(): ...]. *)
Definition settle (st : FutureState) (f : option nat) (m : gmap nat FutureState) : gmap nat FutureState :=
  match f with
  | Some n => match m !! n with Some FU_PENDING => <[n := st]> m | _ => m end
  | None => m
  end.
Definition settle_all (st : FutureState) (l : list QueuedEvent) (m : gmap nat FutureState) : gmap nat FutureState :=
  fold_left (λ m q, settle st (qe_durable_future q) m) l m.

Definition queued_events (q : list QueueItem) : list QueuedEvent :=
  omap (λ i, match i with QEvent e => Some e | QStop => None end) q.

(** ** The clients *)

(** What a client's call amounts to at once; [CR_WAITING] is a call that waits
    for room, for its acknowledgement or for the task. *)
Inductive ClientResult := CR_RETURNED | CR_WAITING | CR_RAISED (e : exn).

Section writer.
Variable config : WriterConfig.

(** [Queue.full()]; a queue of size zero is unbounded. *)
Definition queue_full (w : BatchWriter) : bool :=
  negb (wc_queue_maxsize config =? 0)%nat && (wc_queue_maxsize config <=? length (bw_queue w))%nat.

(** What follows the [put] in [_enqueue]. *)
Definition after_put (q : QueuedEvent) (w : BatchWriter) : BatchWriter :=
  let st := bw_stats w in
  set_accepted (bw_accepted w ++ [q])
    (set_stats {| ws_submitted := ws_submitted st + 1; ws_persisted := ws_persisted st;
                  ws_duplicates := ws_duplicates st; ws_batches := ws_batches st;
                  ws_max_queue_depth := Z.max (ws_max_queue_depth st) (len (bw_queue w)) |} w).
Definition put_item (i : QueueItem) (w : BatchWriter) : BatchWriter :=
  let w := set_queue (bw_queue w ++ [i]) w in
  match i with QEvent q => after_put q w | QStop => w end.
Definition put_or_wait (i : QueueItem) (w : BatchWriter) : BatchWriter :=
  if queue_full w then set_waiting (bw_waiting w ++ [i]) w else put_item i w.

(** [_enqueue], up to its wait for room. *)
Definition enqueue (q : QueuedEvent) (w : BatchWriter) : ClientResult * BatchWriter :=
  match bw_fatal_error w, bw_task w with
  | Some _, _ => (CR_RAISED (ERuntime "writer has failed"), w)
  | None, None => (CR_RAISED (ERuntime "writer has not been started"), w)
  | None, Some _ => (if queue_full w then CR_WAITING else CR_RETURNED, put_or_wait (QEvent q) w)
  end.
Definition submit (e : RawEvent) (w : BatchWriter) : ClientResult * BatchWriter :=
  enqueue {| qe_event := e; qe_durable_future := None |} w.
(** A new future's number has not been used. *)
Definition submit_and_wait (e : RawEvent) (n : nat) (w : BatchWriter) : ClientResult * BatchWriter :=
  let (r, w') := enqueue {| qe_event := e; qe_durable_future := Some n |} (set_futures (<[n := FU_PENDING]> (bw_futures w)) w) in
  (match r with CR_RAISED e => CR_RAISED e | _ => CR_WAITING end, w').

Definition start (w : BatchWriter) : ClientResult * BatchWriter :=
  match bw_task w with
  | Some _ => (CR_RAISED (ERuntime "writer already started"), w)
  | None => (CR_RETURNED, set_batch [] (set_cancelled false (set_task (Some TK_CREATED) w)))
  end.
Definition task_done (w : BatchWriter) : bool :=
  match bw_task w with Some TK_RETURNED | Some (TK_RAISED _) => true | _ => false end.

(** The end of [stop] and [abort], once the task is done. *)
Definition reap (w : BatchWriter) : BatchWriter := set_task None w.
Definition stop_result (failed : string) (w : BatchWriter) : ClientResult :=
  match bw_task w, bw_fatal_error w with
  | Some (TK_RAISED e), _ => CR_RAISED e
  | _, Some _ => CR_RAISED (ERuntime failed)
  | _, None => CR_RETURNED
  end.
(** [stop], up to its wait for the task. *)
Definition stop (w : BatchWriter) : ClientResult * BatchWriter :=
  match bw_task w with
  | None => (CR_RETURNED, w)
  | Some _ => if task_done w then (stop_result "writer failed before shutdown" w, reap w) else (CR_WAITING, put_or_wait QStop w)
  end.
(** [abort], up to its wait for the task. *)
Definition abort_reason (reason : option exn) : exn := default (ERuntime "writer aborted") reason.
Definition abort (reason : option exn) (w : BatchWriter) : ClientResult * BatchWriter :=
  let w := set_fatal (abort_reason reason) w in
  match bw_task w with
  | None => (CR_RETURNED, w)
  | Some _ => if task_done w then (CR_RETURNED, reap w) else (CR_WAITING, set_cancelled true w)
  end.
Definition record_failure (f : RawIngestFailure) (w : BatchWriter) : result BatchWriter :=
  match bw_fatal_error w with
  | Some _ => Err (ERuntime "writer has failed")
  | None =>
      Ok {| bw_queue := bw_queue w; bw_waiting := bw_waiting w; bw_task := bw_task w; bw_cancelled := bw_cancelled w;
            bw_batch := bw_batch w; bw_fatal_error := bw_fatal_error w; bw_stats := bw_stats w;
            bw_futures := bw_futures w; bw_repository := (raw_events.append_failure f (bw_repository w)).2;
            bw_accepted := bw_accepted w; bw_stored := bw_stored w |}
  end.

(** ** The writer task *)

(** [_flush]: an empty batch returns at once to what follows. *)
Definition flush (stopping : bool) (w : BatchWriter) : BatchWriter :=
  match bw_batch w with
  | [] => set_task (Some (if stopping then TK_RETURNED else TK_GETTING)) w
  | _ => set_task (Some (TK_FLUSHING stopping)) w
  end.

(** The repository returned. *)
Definition flushed (stopping : bool) (w : BatchWriter) : BatchWriter :=
  let counts := (raw_events.append_events (map qe_event (bw_batch w)) (bw_repository w)).2 in
  let w := store_batch w in
  let st := bw_stats w in
  let w := set_stats {| ws_submitted := ws_submitted st; ws_persisted := ws_persisted st + counts.1;
                        ws_duplicates := ws_duplicates st + counts.2; ws_batches := ws_batches st + 1;
                        ws_max_queue_depth := ws_max_queue_depth st |} w in
  let w := set_futures (settle_all FU_DONE (bw_batch w) (bw_futures w)) w in
  set_task (Some (if stopping then TK_RETURNED else TK_GETTING)) (set_batch [] w).

(** The handler of [_run]: fail what is pending and drain the queue. *)
Definition fail_run (e : exn) (w : BatchWriter) : BatchWriter :=
  let w := set_fatal e w in
  let terminal := FU_FAILED (default e (bw_fatal_error w)) in
  let w := set_futures (settle_all terminal (bw_batch w) (bw_futures w)) w in
  let w := set_futures (settle_all terminal (queued_events (bw_queue w)) (bw_futures w)) w in
  set_task (Some (TK_RAISED e)) (set_queue [] (set_batch [] w)).

(** The repository raised: the batch's futures fail with its error. *)
Definition flush_failed (e : exn) (w : BatchWriter) : BatchWriter :=
  fail_run e (set_batch [] (set_futures (settle_all (FU_FAILED e) (bw_batch w) (bw_futures w)) w)).

(** An item got from the queue. *)
Definition got (i : QueueItem) (w : BatchWriter) : BatchWriter :=
  match i with
  | QStop => flush true (set_queue [] (set_batch (bw_batch w ++ queued_events (bw_queue w)) w))
  | QEvent q =>
      let w := set_batch (bw_batch w ++ [q]) w in
      if (wc_batch_size config <=? length (bw_batch w))%nat then flush false w else w
  end.

(** ** The steps *)

Inductive Label :=
  | LStart
  | LSubmit (e : RawEvent)
  | LSubmitAndWait (e : RawEvent) (future : nat)
  | LStop
  | LAbort (reason : option exn)
  | LRecordFailure (f : RawIngestFailure)
  | LRoom (i : nat)              (** a waiting client finds room *)
  | LGiveUp (i : nat)            (** its wait times out, or is cancelled *)
  | LAbandon (future : nat)      (** a client waiting for its acknowledgement is cancelled *)
  | LStopCancelled               (** [stop] is cancelled while it waits for the task, and cancels it *)
  | LReap                        (** [stop] or [abort] sees the task done *)
  | LBegin                       (** the task begins *)
  | LGet                         (** the task gets an item *)
  | LTimeout                     (** its wait for an item times out *)
  | LAppended                    (** the repository returns *)
  | LAppendRaised (stored : bool) (e : exn)
  | LCancelled (stored : bool).  (** the cancellation reaches the task *)

Definition cancelled_error : exn := EOther "CancelledError" "".

(** [None]: the label is not enabled. *)
Definition step (w : BatchWriter) (l : Label) : option BatchWriter :=
  let running := negb (bw_cancelled w) in
  match l with
  | LStart => Some (start w).2
  | LSubmit e => Some (submit e w).2
  | LSubmitAndWait e n => if decide (bw_futures w !! n = None) then Some (submit_and_wait e n w).2 else None
  | LStop => Some (stop w).2
  | LAbort reason => Some (abort reason w).2
  | LRecordFailure f => match record_failure f w with Ok w' => Some w' | Err _ => Some w end
  | LRoom i =>
      if queue_full w then None
      else item ← bw_waiting w !! i; Some (put_item item (set_waiting (delete i (bw_waiting w)) w))
  | LGiveUp i =>
      match bw_waiting w !! i with
      | Some _ => Some (set_waiting (delete i (bw_waiting w)) w)
      | None => None
      end
  | LAbandon n =>
      match bw_futures w !! n with
      | Some FU_PENDING => Some (set_futures (<[n := FU_CANCELLED]> (bw_futures w)) w)
      | _ => None
      end
  | LStopCancelled =>
      match bw_task w with
      | Some _ => if task_done w then None else Some (set_cancelled true w)
      | None => None
      end
  | LReap => if task_done w then Some (reap w) else None
  | LBegin => match running, bw_task w with true, Some TK_CREATED => Some (set_task (Some TK_GETTING) w) | _, _ => None end
  | LGet =>
      match running, bw_task w, bw_queue w with
      | true, Some TK_GETTING, i :: q => Some (got i (set_queue q w))
      | _, _, _ => None
      end
  | LTimeout => match running, bw_task w with true, Some TK_GETTING => Some (flush false w) | _, _ => None end
  | LAppended =>
      match running, bw_task w with true, Some (TK_FLUSHING stopping) => Some (flushed stopping w) | _, _ => None end
  | LAppendRaised stored e =>
      match running, bw_task w with
      | true, Some (TK_FLUSHING _) => Some (flush_failed e (if stored then store_batch w else w))
      | _, _ => None
      end
  | LCancelled stored =>
      if bw_cancelled w then
        match bw_task w with
        | Some TK_CREATED => Some (set_task (Some (TK_RAISED cancelled_error)) w)
        | Some TK_GETTING => Some (fail_run cancelled_error w)
        | Some (TK_FLUSHING _) => Some (flush_failed cancelled_error (if stored then store_batch w else w))
        | _ => None
        end
      else None
  end.

Fixpoint run_labels (w : BatchWriter) (l : list Label) : option BatchWriter :=
  match l with [] => Some w | x :: l' => w' ← step w x; run_labels w' l' end.
End writer.

(** ** The invariant *)

(** The accepted items that were not dropped by a failure, in order. *)
Definition kept (w : BatchWriter) : list QueuedEvent := bw_stored w ++ bw_batch w ++ queued_events (bw_queue w).
Definition pending (w : BatchWriter) (n : nat) : Prop := bw_futures w !! n = Some FU_PENDING.

(** The batch a task may hold: short of full while it waits for an item, at
    most full while it flushes, unless it is stopping, and empty otherwise. *)
Definition batch_fits (config : WriterConfig) (t : option WriterTask) (b : list QueuedEvent) : Prop :=
  match t with
  | Some TK_GETTING => (length b < Nat.max 1 (wc_batch_size config))%nat
  | Some (TK_FLUSHING stopping) =>
      b ≠ [] ∧ (stopping = false → (length b <= Nat.max 1 (wc_batch_size config))%nat)
  | _ => b = []
  end.

Record writer_ok (config : WriterConfig) (w : BatchWriter) : Prop := {
  wo_kept : sublist (kept w) (bw_accepted w);
  wo_all : bw_fatal_error w = None → kept w = bw_accepted w;
  wo_log : logged (fresh ∅ (map qe_event (bw_stored w))) (bw_repository w);
  wo_done : ∀ n, bw_futures w !! n = Some FU_DONE → ∃ q, q ∈ bw_stored w ∧ qe_durable_future q = Some n;
  wo_pending : ∀ q n, q ∈ bw_accepted w → qe_durable_future q = Some n → pending w n →
    q ∈ bw_batch w ++ queued_events (bw_queue w);
  wo_known : ∀ q n, q ∈ bw_accepted w ++ queued_events (bw_waiting w) → qe_durable_future q = Some n → bw_futures w !! n ≠ None;
  wo_batch : batch_fits config (bw_task w) (bw_batch w);
  wo_queue : wc_queue_maxsize config ≠ 0%nat → (length (bw_queue w) <= wc_queue_maxsize config)%nat;
  wo_submitted : ws_submitted (bw_stats w) = len (bw_accepted w);
  wo_counts : bw_fatal_error w = None →
    ws_persisted (bw_stats w) = len (rr_events (bw_repository w)) ∧
    ws_persisted (bw_stats w) + ws_duplicates (bw_stats w) = len (bw_stored w);
}.

Lemma new_writer_ok config : writer_ok config new_writer.
Proof.
  split; try done; simpl.
  - intros q n Hq. by apply elem_of_nil in Hq.
  - lia.
Qed.

Lemma settle_lookup st f m n :
  settle st f m !! n = if decide (f = Some n ∧ m !! n = Some FU_PENDING) then Some st else m !! n.
Proof.
  unfold settle. destruct f as [k|]; [|by rewrite decide_False by (by intros [? _])].
  destruct (decide (k = n)) as [->|Hne].
  - destruct (m !! n) as [[]|] eqn:E; try (rewrite decide_False by (by intros [_ ?]); by rewrite ?E).
    rewrite decide_True by done. apply lookup_insert_eq.
  - rewrite decide_False by (by intros [[= ->] _]). destruct (m !! k) as [[]|]; try done. by apply lookup_insert_ne.
Qed.

Definition mentions (n : nat) (l : list QueuedEvent) : Prop := ∃ q, q ∈ l ∧ qe_durable_future q = Some n.

(** Settling touches pending futures only, and leaves none of [l] pending. *)
Lemma settle_all_lookup st l m n :
  st ≠ FU_PENDING →
  (settle_all st l m !! n = m !! n ∧ (m !! n = Some FU_PENDING → ¬ mentions n l)) ∨
  (m !! n = Some FU_PENDING ∧ mentions n l ∧ settle_all st l m !! n = Some st).
Proof.
  intros Hst. unfold settle_all. revert m. induction l as [|q l IH]; intros m; simpl.
  { left. split; [done|]. intros _ (q & Hq & _). by apply elem_of_nil in Hq. }
  assert (∀ k, mentions k l → mentions k (q :: l)) as Hcons by (intros k (q' & ? & ?); exists q'; split; [by constructor | done]).
  specialize (IH (settle st (qe_durable_future q) m)). rewrite settle_lookup in IH. case_decide as Hd.
  - destruct Hd as [Hf Hp]. right. split; [done|]. split; [exists q; split; [constructor | done]|].
    destruct IH as [[-> _]|(E & _ & _)]; [done|]. by injection E as E.
  - destruct IH as [[-> Hn]|(Hp & Hm & ->)]; [left | right; auto].
    split; [done|]. intros Hp (q' & [->|Hq']%elem_of_cons & Hf); [by apply Hd|]. apply Hn; [done|]. by exists q'.
Qed.

Lemma settle_all_pending st l m n :
  st ≠ FU_PENDING → settle_all st l m !! n = Some FU_PENDING → m !! n = Some FU_PENDING ∧ ¬ mentions n l.
Proof.
  intros Hst Hp. destruct (settle_all_lookup st l m n Hst) as [[E Hn]|(_ & _ & E)]; rewrite Hp in E; [|by injection E as E].
  symmetry in E. auto.
Qed.
Lemma settle_all_failed e l m n : settle_all (FU_FAILED e) l m !! n = Some FU_DONE → m !! n = Some FU_DONE.
Proof.
  intros Hd. destruct (settle_all_lookup (FU_FAILED e) l m n) as [[E _]|(_ & _ & E)]; [done | by rewrite <- E | congruence].
Qed.
Lemma settle_all_None st l m n : st ≠ FU_PENDING → settle_all st l m !! n = None → m !! n = None.
Proof.
  intros Hst Hp. destruct (settle_all_lookup st l m n Hst) as [[E Hn]|(_ & _ & E)]; rewrite Hp in E; [|done]. by symmetry.
Qed.

Lemma events_app q k : queued_events (q ++ k) = queued_events q ++ queued_events k.
Proof. apply omap_app. Qed.

Lemma elem_of_queued e q : e ∈ queued_events q ↔ QEvent e ∈ q.
Proof.
  unfold queued_events. rewrite list_elem_of_omap. split; [intros ([] & ? & [= ->]); done | intros ?; by exists (QEvent e)].
Qed.

Section preservation.
Variable config : WriterConfig.

(** The futures of [l] exist. *)
Definition all_known (w : BatchWriter) (l : list QueuedEvent) : Prop :=
  ∀ q n, q ∈ l → qe_durable_future q = Some n → bw_futures w !! n ≠ None.

Lemma set_waiting_ok l w :
  writer_ok config w → all_known w (queued_events l) → writer_ok config (set_waiting l w).
Proof.
  intros [] Hl. split; try done. intros q n [Hq|Hq]%elem_of_app Hf; [|by apply (Hl q n)].
  apply (wo_known0 q n); [|done]. apply elem_of_app. by left.
Qed.

Lemma not_full w : queue_full config w = false → wc_queue_maxsize config ≠ 0%nat →
  (length (bw_queue w) < wc_queue_maxsize config)%nat.
Proof.
  unfold queue_full. intros [E|E]%andb_false_iff Hne.
  - apply negb_false_iff, Nat.eqb_eq in E. lia.
  - by apply Nat.leb_gt in E.
Qed.

Lemma put_item_ok i w :
  writer_ok config w → queue_full config w = false → all_known w (queued_events [i]) → writer_ok config (put_item i w).
Proof.
  intros [] Hfull Hi. assert (∀ k, wc_queue_maxsize config ≠ 0%nat →
    (length (bw_queue w ++ [k]) <= wc_queue_maxsize config)%nat) as Hq.
  { intros k Hne. rewrite length_app. simpl. pose proof (not_full w Hfull Hne). lia. }
  destruct i as [q|]; unfold put_item, after_put; cbv zeta.
  - assert (kept (set_queue (bw_queue w ++ [QEvent q]) w) = kept w ++ [q]) as Hk.
    { unfold kept. simpl. by rewrite events_app, <- !app_assoc. }
    split; try done; simpl.
    + unfold kept in *. simpl in *. rewrite Hk. by apply sublist_app.
    + intros Hf. unfold kept in *. simpl in *. rewrite Hk. by f_equal; apply wo_all0.
    + rewrite events_app. intros p n [Hp| ->%list_elem_of_singleton]%elem_of_app Hf Hpend.
      * specialize (wo_pending0 p n Hp Hf Hpend). set_solver.
      * rewrite !elem_of_app. right. right. constructor.
    + intros p n [[Hp| ->%list_elem_of_singleton]%elem_of_app|Hp]%elem_of_app Hf.
      * apply (wo_known0 p n); [|done]. apply elem_of_app. by left.
      * apply (Hi q n); [constructor | done].
      * apply (wo_known0 p n); [|done]. apply elem_of_app. by right.
    + apply Hq.
    + rewrite wo_submitted0. unfold len. rewrite length_app. simpl. lia.
  - split; try done; simpl; unfold kept in *; simpl; rewrite ?events_app, ?app_nil_r; try done. apply Hq.
Qed.

Lemma put_or_wait_ok i w :
  writer_ok config w → all_known w (queued_events [i]) → writer_ok config (put_or_wait config i w).
Proof.
  intros Hw Hi. unfold put_or_wait. destruct (queue_full config w) eqn:E; [|by apply put_item_ok].
  apply set_waiting_ok; [done|]. rewrite events_app. intros q n [Hq|Hq]%elem_of_app; [|by apply Hi].
  apply (wo_known _ _ Hw). apply elem_of_app. by right.
Qed.

(** Fields the invariant does not read, or reads less of. *)
Lemma set_task_ok t w :
  writer_ok config w → batch_fits config t (bw_batch w) → writer_ok config (set_task t w).
Proof. intros [] Ht. by split. Qed.
Lemma set_fatal_ok e w : writer_ok config w → writer_ok config (set_fatal e w).
Proof. intros []. by split. Qed.
Lemma set_cancelled_ok c w : writer_ok config w → writer_ok config (set_cancelled c w).
Proof. intros []. by split. Qed.

Lemma new_future_ok n w :
  writer_ok config w → bw_futures w !! n = None → writer_ok config (set_futures (<[n := FU_PENDING]> (bw_futures w)) w).
Proof.
  intros [] Hn. split; try done; simpl.
  - intros k. rewrite lookup_insert. case_decide; [done | apply wo_done0].
  - intros q k Hq Hf. unfold pending. simpl. destruct (decide (n = k)) as [->|Hne]; [|rewrite lookup_insert_ne by done; by apply wo_pending0].
    intros _. exfalso. apply (wo_known0 q k); [|done..]. apply elem_of_app. by left.
  - intros q k Hq Hf. rewrite lookup_insert. case_decide; [done | by eapply wo_known0].
Qed.

(** Settling futures to a failure, or to a success of stored events. *)
Lemma settle_ok st l w :
  writer_ok config w → st ≠ FU_PENDING → (st = FU_DONE → ∀ q, q ∈ l → q ∈ bw_stored w) →
  writer_ok config (set_futures (settle_all st l (bw_futures w)) w).
Proof.
  intros [] Hst Hdone. split; try done; simpl.
  - intros n. destruct (settle_all_lookup st l (bw_futures w) n Hst) as [[-> _]|(_ & (q & Hq & Hf) & ->)]; [apply wo_done0|].
    intros [= ->]. exists q. split; [by apply Hdone | done].
  - intros q n Hq Hf [Hp _]%settle_all_pending; [by apply (wo_pending0 q n) | done].
  - intros q n Hq Hf Hno%settle_all_None; [by eapply wo_known0 | done].
Qed.

Lemma enqueue_ok q w :
  writer_ok config w → all_known w [q] → writer_ok config (enqueue config q w).2.
Proof.
  intros Hw Hq. unfold enqueue. destruct (bw_fatal_error w); [done|]. destruct (bw_task w); [|done].
  by apply put_or_wait_ok.
Qed.

(** What an abandoned run leaves: nothing in hand, and no pending future of an
    item it held. *)
Lemma dropped_ok w w' e :
  writer_ok config w → bw_task w' = Some (TK_RAISED e) → bw_fatal_error w' ≠ None →
  bw_queue w' = [] → bw_batch w' = [] → bw_waiting w' = bw_waiting w → bw_accepted w' = bw_accepted w →
  bw_stats w' = bw_stats w →
  bw_stored w' = bw_stored w ∧ bw_repository w' = bw_repository w ∨
    bw_stored w' = bw_stored w ++ bw_batch w ∧ logged (fresh ∅ (map qe_event (bw_stored w'))) (bw_repository w') →
  (∀ n, bw_futures w' !! n = Some FU_DONE → bw_futures w !! n = Some FU_DONE) →
  (∀ n, bw_futures w' !! n = None → bw_futures w !! n = None) →
  (∀ n, pending w' n → pending w n ∧ ¬ mentions n (bw_batch w) ∧ ¬ mentions n (queued_events (bw_queue w))) →
  writer_ok config w'.
Proof.
  intros [] Ht Hfatal Hq Hb Hw Ha Hs Hst Hd Hn Hp. split; try done.
  - unfold kept in *. rewrite Hq, Hb, Ha. simpl. rewrite !app_nil_r. etrans; [|exact wo_kept0].
    destruct Hst as [[-> _]|[-> _]]; [by apply sublist_inserts_r | rewrite app_assoc; by apply sublist_inserts_r].
  - by destruct Hst as [[-> ->]|[_ ?]].
  - intros n (q & Hin & Hf)%Hd%wo_done0. exists q. split; [|done].
    destruct Hst as [[-> _]|[-> _]]; [done | apply elem_of_app; by left].
  - intros q n Hin Hf (Hpend & Hnb & Hnq)%Hp. rewrite Ha in Hin.
    pose proof (wo_pending0 q n Hin Hf Hpend) as [Hx|Hx]%elem_of_app; exfalso; [apply Hnb | apply Hnq]; by exists q.
  - intros q n. rewrite Ha, Hw. intros Hin Hf ?%Hn. by eapply wo_known0.
  - by rewrite Ht.
  - rewrite Hq. simpl. lia.
  - by rewrite Hs, Ha.
Qed.

Lemma fail_run_ok e w : writer_ok config w → writer_ok config (fail_run e w).
Proof.
  intros Hw. eapply dropped_ok; [exact Hw|reflexivity | done.. | by left | | |]; intros n; simpl.
  - by intros H1%settle_all_failed%settle_all_failed.
  - by intros H1%settle_all_None%settle_all_None.
  - unfold pending. simpl. intros [[Hp Hb]%settle_all_pending Hq]%settle_all_pending; done.
Qed.

Lemma store_batch_logged w :
  writer_ok config w →
  logged (fresh ∅ (map qe_event (bw_stored (store_batch w)))) (bw_repository (store_batch w)) ∧
  let counts := (raw_events.append_events (map qe_event (bw_batch w)) (bw_repository w)).2 in
  len (rr_events (bw_repository (store_batch w))) = len (rr_events (bw_repository w)) + counts.1 ∧
  counts.1 + counts.2 = len (bw_batch w).
Proof.
  intros []. unfold store_batch, raw_events.append_batch, raw_events.append_events. simpl.
  destruct (append_events_logged (map qe_event (bw_batch w)) _ _ 0 0 wo_log0) as (s' & -> & Hs). cbv zeta. simpl.
  rewrite map_app, fresh_app, (union_empty_r_L (keys_of _)). split; [done|].
  rewrite (lg_events _ _ Hs), (lg_events _ _ wo_log0). unfold in_sequence, len. rewrite !length_imap, !length_app, length_map.
  lia.
Qed.

Lemma flush_failed_ok e w (stored : bool) :
  writer_ok config w → writer_ok config (flush_failed e (if stored then store_batch w else w)).
Proof.
  intros Hw. destruct (store_batch_logged w Hw) as [Hlog _].
  eapply dropped_ok; [exact Hw | reflexivity | done | done | done | by destruct stored.. | | | |].
  - destruct stored; [right | by left]. by split.
  - intros n. simpl. intros Hd%settle_all_failed%settle_all_failed. by destruct stored.
  - intros n. simpl. intros Hd%settle_all_None%settle_all_None; [by destruct stored | done..].
  - intros n. unfold pending. simpl. intros [[Hp Hb]%settle_all_pending Hq]%settle_all_pending; [|done..].
    by destruct stored.
Qed.

Lemma flushed_ok stopping w :
  writer_ok config w → writer_ok config (flushed stopping w).
Proof.
  intros Hw. destruct (store_batch_logged w Hw) as [Hlog [Hc1 Hc2]]. destruct Hw.
  unfold flushed. cbv zeta. split; try done; simpl.
  - unfold kept in *. simpl. by rewrite <- app_assoc.
  - unfold kept in *. simpl. by rewrite <- app_assoc.
  - intros n. destruct (settle_all_lookup FU_DONE (bw_batch w) (bw_futures w) n) as [[-> _]|(_ & (q & Hq & Hf) & ->)]; [done| |].
    + intros (q & Hq & Hf)%wo_done0. exists q. split; [apply elem_of_app; by left | done].
    + intros _. exists q. split; [apply elem_of_app; by right | done].
  - intros q n Hin Hf. unfold pending. simpl. intros [Hp Hb]%settle_all_pending; [|done].
    specialize (wo_pending0 q n Hin Hf Hp). apply elem_of_app in wo_pending0 as [Hx|Hx]; [|done]. exfalso. apply Hb. by exists q.
  - intros q n Hin Hf ?%settle_all_None; [|done]. by eapply wo_known0.
  - destruct stopping; simpl; [done | lia].
  - intros Hf. destruct (wo_counts0 Hf) as [H1 H2]. simpl in Hc1. rewrite Hc1. unfold len in *. rewrite length_app. lia.
Qed.

Lemma flush_ok stopping w :
  writer_ok config w → (stopping = false → (length (bw_batch w) <= Nat.max 1 (wc_batch_size config))%nat) →
  writer_ok config (flush stopping w).
Proof.
  intros Hw Hb. unfold flush. destruct (bw_batch w) as [|q l] eqn:E.
  - apply set_task_ok; [done|]. rewrite E. destruct stopping; simpl; [done | lia].
  - apply set_task_ok; [done|]. rewrite E. by split.
Qed.

(** Items moved from the head of the queue to the batch. *)
Lemma moved_ok w q new t :
  writer_ok config w → queued_events (bw_queue w) = new ++ queued_events q → (length q <= length (bw_queue w))%nat →
  batch_fits config t (bw_batch w ++ new) →
  writer_ok config (set_task t (set_batch (bw_batch w ++ new) (set_queue q w))).
Proof.
  intros [] He Hlen Ht.
  assert (kept (set_task t (set_batch (bw_batch w ++ new) (set_queue q w))) = kept w) as Hk.
  { unfold kept. simpl. by rewrite He, <- !app_assoc. }
  split; try done; rewrite ?Hk; try done.
  - intros p n Hp Hf Hpend. specialize (wo_pending0 p n Hp Hf Hpend). simpl. by rewrite <- app_assoc, <- He.
  - intros Hne. specialize (wo_queue0 Hne). simpl. lia.
Qed.

Lemma got_ok w i q :
  writer_ok config w → bw_task w = Some TK_GETTING → bw_queue w = i :: q → writer_ok config (got config i (set_queue q w)).
Proof.
  intros Hw Ht Hq. pose proof (wo_batch _ _ Hw) as Hb. rewrite Ht in Hb. simpl in Hb.
  destruct i as [x|]; unfold got; cbv zeta; simpl.
  - assert (∀ t, batch_fits config t (bw_batch w ++ [x]) →
      writer_ok config (set_task t (set_batch (bw_batch w ++ [x]) (set_queue q w)))) as Hx.
    { intros t. apply moved_ok; rewrite ?Hq; [done | done | simpl; lia]. }
    assert (length (bw_batch w ++ [x]) = S (length (bw_batch w))) as Hlen by (rewrite length_app; simpl; lia).
    destruct (Nat.leb_spec (wc_batch_size config) (length (bw_batch w ++ [x]))).
    + unfold flush. simpl. destruct (bw_batch w ++ [x]) eqn:E; [by apply app_eq_nil in E as [_ E]|].
      apply Hx. split; [done|]. intros _. lia.
    + apply (Hx (bw_task w)). rewrite Ht. simpl. lia.
  - assert (∀ t, batch_fits config t (bw_batch w ++ queued_events q) →
      writer_ok config (set_task t (set_batch (bw_batch w ++ queued_events q) (set_queue [] w)))) as Hx.
    { intros t. apply moved_ok; rewrite ?Hq; [done | by simpl; rewrite app_nil_r | simpl; lia]. }
    unfold flush. simpl. destruct (bw_batch w ++ queued_events q) eqn:E; by apply Hx.
Qed.

Lemma step_ok w l w' : writer_ok config w → step config w l = Some w' → writer_ok config w'.
Proof.
  intros Hw. pose proof (wo_batch _ _ Hw) as Hb. destruct l; simpl.
  - intros [= <-]. unfold start. destruct (bw_task w) as [t|] eqn:Ht; [done|].
    destruct Hw. by split; rewrite ?Hb; try done; unfold kept in *; simpl in *; rewrite Hb in *.
  - intros [= <-]. apply enqueue_ok; [done|]. intros q n ->%list_elem_of_singleton. done.
  - destruct (decide _) as [Hn|]; [|done]. intros [= <-]. unfold submit_and_wait.
    pose proof (enqueue_ok {| qe_event := e; qe_durable_future := Some future |} _ (new_future_ok future w Hw Hn)) as He.
    destruct (enqueue _ _ _) as [r w1]. apply He. intros q n ->%list_elem_of_singleton [= <-]. simpl. by rewrite lookup_insert_eq.
  - intros [= <-]. unfold stop. destruct (bw_task w) as [t|] eqn:Ht; [|done]. unfold task_done. rewrite Ht.
    destruct t; try (apply put_or_wait_ok; [done | intros ?? H'; by apply elem_of_nil in H']); by apply set_task_ok.
  - intros [= <-]. unfold abort. cbv zeta. simpl. pose proof (set_fatal_ok (abort_reason reason) w Hw) as Hf.
    destruct (bw_task w) as [t|] eqn:Ht; [|done]. unfold task_done. simpl. rewrite Ht.
    destruct t; try (by apply set_cancelled_ok); by apply set_task_ok.
  - unfold record_failure. destruct (bw_fatal_error w) eqn:Hf; intros [= <-]; [done|].
    destruct Hw. rewrite <- Hf. split; try done. simpl. destruct wo_log0. by split.
  - destruct (queue_full config w) eqn:Hfull; [done|]. destruct (bw_waiting w !! i) as [x|] eqn:Hi; [|done].
    intros [= <-]. assert (∀ l, l ⊆ bw_waiting w → all_known w (queued_events l)) as Hk.
    { intros l Hl q n Hq. apply (wo_known _ _ Hw). apply elem_of_app. right. apply elem_of_queued, Hl. by apply elem_of_queued. }
    apply put_item_ok; [apply set_waiting_ok; [done|] | done |]; apply Hk.
    + intros y Hy. by eapply list_elem_of_delete_inv.
    + intros y ->%list_elem_of_singleton. by eapply list_elem_of_lookup_2.
  - destruct (bw_waiting w !! i) as [x|] eqn:Hi; [|done]. intros [= <-]. apply set_waiting_ok; [done|].
    intros q n Hq. apply (wo_known _ _ Hw). apply elem_of_app. right. apply elem_of_queued. apply elem_of_queued in Hq.
    by eapply list_elem_of_delete_inv.
  - destruct (bw_futures w !! future) as [[]|] eqn:Hf; try done. intros [= <-]. destruct Hw. split; try done; simpl.
    + intros n. rewrite lookup_insert. case_decide; [done | apply wo_done0].
    + intros q n Hq Hqf. unfold pending. simpl. rewrite lookup_insert. case_decide; [done | by apply wo_pending0].
    + intros q n Hq Hqf. rewrite lookup_insert. case_decide; [done | by eapply wo_known0].
  - destruct (bw_task w) as [t|]; [|done]. destruct (task_done w); [done|]. intros [= <-]. by apply set_cancelled_ok.
  - unfold task_done. destruct (bw_task w) as [[]|] eqn:Ht; try done; intros [= <-]; by apply set_task_ok.
  - destruct (negb _), (bw_task w) as [[]|] eqn:Ht; try done. intros [= <-]. apply set_task_ok; [done|].
    simpl in *. rewrite Hb. simpl. lia.
  - destruct (negb _), (bw_task w) as [[]|] eqn:Ht; try done. destruct (bw_queue w) as [|x q] eqn:Hq; [done|].
    intros [= <-]. by apply got_ok.
  - destruct (negb _), (bw_task w) as [[]|] eqn:Ht; try done. intros [= <-]. apply flush_ok; [done|].
    intros _. simpl in Hb. lia.
  - destruct (negb _), (bw_task w) as [[]|] eqn:Ht; try done. intros [= <-]. by apply flushed_ok.
  - destruct (negb _), (bw_task w) as [[]|] eqn:Ht; try done. intros [= <-]. by apply flush_failed_ok.
  - destruct (bw_cancelled w); [|done]. destruct (bw_task w) as [[]|] eqn:Ht; try done; intros [= <-].
    + by apply set_task_ok.
    + by apply fail_run_ok.
    + by apply flush_failed_ok.
Qed.

Lemma run_labels_ok l w w' : writer_ok config w → run_labels config w l = Some w' → writer_ok config w'.
Proof.
  revert w. induction l as [|x l IH]; intros w Hw; simpl; [by intros [= <-]|].
  destruct (step config w x) as [w1|] eqn:E; [|done]. apply IH. by eapply step_ok.
Qed.
End preservation.


(** ** Two losses *)

Definition plain_event (key : string) : RawEvent :=
  {| re_event_id := key; re_ingest_session_id := "session"; re_connection_id := "connection"; re_source := RO_SYSTEM;
     re_channel := "channel"; re_event_type := RE_HEARTBEAT; re_symbol := None; re_symbols := [];
     re_provider_event_id := None; re_event_timestamp := 0; re_received_at := 0;
     re_trading_date := {| d_year := 1970; d_month := 1; d_day := 1 |}; re_sequence_hint := None;
     re_payload := PDict []; re_payload_sha256 := ""; re_idempotency_key := key |}.

Definition lost_future (w : BatchWriter) : Prop :=
  bw_task w = None ∧ bw_waiting w = [] ∧ bw_futures w !! 0%nat = Some FU_PENDING ∧
  map (re_idempotency_key ∘ qe_event) (queued_events (bw_queue w)) = ["late"%string].

(** An event submitted while [stop] flushes the last batch is accepted and then
    lost: the writer ends without an error, and the client that waits for the
    event's durability waits for ever. *)
Theorem late_submit_lost :
  ∃ w, run_labels {| wc_queue_maxsize := 10; wc_batch_size := 10 |} new_writer
         [LStart; LBegin; LSubmit (plain_event "early"); LGet; LStop; LGet;
          LSubmitAndWait (plain_event "late") 0; LAppended; LReap] = Some w ∧
    bw_fatal_error w = None ∧ ws_submitted (bw_stats w) = 2 ∧ ws_persisted (bw_stats w) = 1 ∧ lost_future w.
Proof. eexists. split; [vm_compute; reflexivity|]. by repeat split. Qed.

(** A client waiting for room when the repository fails finds it once the
    handler has drained the queue, and its event is left there, its
    acknowledgement neither given nor failed. *)
Theorem waiting_client_left_behind :
  ∃ w, run_labels {| wc_queue_maxsize := 1; wc_batch_size := 1 |} new_writer
         [LStart; LBegin; LSubmit (plain_event "first"); LGet; LSubmit (plain_event "second");
          LSubmitAndWait (plain_event "late") 0; LAppendRaised false (ERuntime "connection lost"); LRoom 0; LReap]
       = Some w ∧
    bw_fatal_error w = Some (ERuntime "connection lost") ∧ lost_future w.
Proof. eexists. split; [vm_compute; reflexivity|]. by repeat split. Qed.
