(* ===== verification/RecorderAdapters.v ===== *)
(** * RecorderAdapters: from provider messages to raw events

    daybreak_recorder/adapters/common.py: the normalization of a provider's
    message to JSON values, the timestamp, symbols and identifier read from it,
    and [build_and_submit], which hands the recorder an event or a failure. *)
From Stdlib Require Import Ascii String.
From S2P Require Import Prelude Numerics PyStr PyTime Contracts Stores Canonical PyVal RiskModels OrchModels RecorderModels.

#[local] Open Scope Z_scope.

(** ** Provider values

    What a message of the provider's library is made of, by the tests that
    [_normalize_provider_value] makes: [VTimestamp] has integer attributes
    seconds and nanoseconds, [VConverter] a to_datetime method and its answer
    (None: no datetime), [VDecimal] stands for Decimal and UUID with its text,
    [VModel] for an object with model_dump and what it dumps, [VRaw] for one
    with a dict [_raw_data].  The keys of a mapping are their [str]; a
    float is the text json.dumps writes for it. *)
Inductive provider :=
  | VNone
  | VBool (b : bool)
  | VInt (z : Z)
  | VFloat (text : string)
  | VStr (s : string)
  | VTimestamp (seconds nanoseconds : Z)
  | VConverter (answer : option (Z * option Z))
  | VDatetime (wall : Z) (offset : option Z)
  | VDecimal (text : string)
  | VEnum (value : provider)
  | VMapping (m : list (string * provider))
  | VSequence (l : list provider)
  | VBytes (b : list ascii)
  | VModel (dumped : provider)
  | VRaw (m : list (string * provider))
  | VOther.

(** The text of an instant to the second. *)
Definition second_text (t : datetime) : string :=
  let us := t mod DAY in
  date_iso (utc_date t) +:+ "T" +:+ pad 2 (us / HOUR) +:+ ":" +:+ pad 2 (us / MINUTE mod 60) +:+ ":"
  +:+ pad 2 (us / SECOND mod 60).
Definition timestamp_text (seconds nanoseconds : Z) : result string :=
  if between 0 999999999 nanoseconds
  then Ok (second_text (seconds * SECOND) +:+ "." +:+ pad 9 nanoseconds +:+ "Z")
  else Err (EValue "provider timestamp nanoseconds are outside [0, 1e9)").
(** [_timestamp_like_to_text]. *)
Definition timestamp_like_text (v : provider) : result (option string) :=
  match v with
  | VTimestamp s ns => t ← timestamp_text s ns; Ok (Some t)
  | VConverter (Some (wall, offset)) => Ok (Some (datetime_iso_z (wall - default 0 offset)))
  | VConverter None => Err ETypeError
  | _ => Ok None
  end.

Definition hex_bytes (b : list ascii) : string :=
  string_of_list_ascii (concat (map (λ c, sha256.hex_byte (Z.of_nat (nat_of_ascii c))) b)).

(** [_normalize_provider_value].  A dict keeps the place of the first of two
    keys with the same text and the value of the last. *)
Fixpoint normalize_value (v : provider) : result pyval :=
  match v with
  | VNone => Ok PNone
  | VBool b => Ok (PBool b)
  | VInt z => Ok (PInt z)
  | VFloat r => Ok (PFloat r)
  | VStr s => Ok (PStr s)
  | VTimestamp _ _ | VConverter _ =>
      t ← timestamp_like_text v; Ok match t with Some t => PStr t | None => PNone end
  | VDatetime _ None => Err (EValue "provider datetime is timezone-naive")
  | VDatetime wall (Some offset) => Ok (PStr (datetime_iso_z (wall - offset)))
  | VDecimal s => Ok (PStr s)
  | VEnum v => normalize_value v
  | VMapping m =>
      (fix go (m : list (string * provider)) (acc : list (string * pyval)) : result (list (string * pyval)) :=
         match m with [] => Ok acc | (k, x) :: m' => y ← normalize_value x; go m' (dict_put k y acc) end) m []
      ≫= λ m, Ok (PDict m)
  | VSequence l =>
      (fix go (l : list provider) : result (list pyval) :=
         match l with [] => Ok [] | x :: l' => y ← normalize_value x; ys ← go l'; Ok (y :: ys) end) l
      ≫= λ l, Ok (PSeq l)
  | VBytes b => Ok (PDict [("__daybreak_bytes_hex__"%string, PStr (hex_bytes b))])
  | VModel v => normalize_value v
  | VRaw _ | VOther => Err ETypeError
  end.
Definition model_to_payload (message : provider) : result (list (string * pyval)) :=
  normalized ← match message with
               | VMapping _ => normalize_value message
               | VModel v => normalize_value v
               | VRaw m => normalize_value (VMapping m)
               | _ => Err ETypeError
               end;
  match normalized with PDict m => Ok m | _ => Err ETypeError end.

(** ** parse_timestamp, on the values of a payload *)

(** [_FRACTION_RE]: from the end, the suffix, the digits, the point and the
    time; nothing of it spans a newline. *)
Definition digit_pair (a b : ascii) : bool := is_digit a && is_digit b.
Definition split_suffix (rev_text : chars) : option (chars * chars) :=
  match rev_text with
  | "Z"%char :: rest => Some (["Z"%char], rest)
  | d :: c :: ":"%char :: b :: a :: s :: rest =>
      if digit_pair a b && digit_pair c d && existsb (Ascii.eqb s) ["+"; "-"]%char
      then Some ([s; a; b; ":"%char; c; d], rest) else None
  | _ => None
  end.
Definition ends_in_time (rev_text : chars) : bool :=
  match rev_text with
  | f :: e :: ":"%char :: d :: c :: ":"%char :: b :: a :: "T"%char :: rest =>
      digit_pair a b && digit_pair c d && digit_pair e f && negb (existsb (Ascii.eqb "010") rest)
  | _ => false
  end.
(** The prefix, the fraction and the suffix. *)
Definition fraction_match (text : chars) : option (chars * chars * chars) :=
  match split_suffix (rev text) with
  | Some (suffix, rest) =>
      match span_digits rest with
      | (digit :: digits, "."%char :: prefix) =>
          if ends_in_time prefix then Some (rev prefix, rev (digit :: digits), suffix) else None
      | _ => None
      end
  | None => None
  end.
(** At most six digits of the fraction are kept. *)
Definition cut_fraction (text : chars) : chars :=
  match fraction_match text with
  | Some (prefix, fraction, suffix) =>
      if (6 <? length fraction)%nat then prefix ++ "."%char :: take 6 fraction ++ suffix else text
  | None => text
  end.
Definition zulu_offset (text : chars) : chars :=
  match rev text with
  | "Z"%char :: rest => rev rest ++ list_ascii_of_string "+00:00"
  | _ => text
  end.
Definition parse_timestamp `{FromIso} (value : pyval) (fallback : option datetime) : result datetime :=
  match value with
  | PDatetime t => Ok t
  | PStr s =>
      match fromisoformat (string_of_list_ascii (zulu_offset (cut_fraction (strip (list_ascii_of_string s))))) with
      | None => Err (EValue "Invalid isoformat string")
      | Some (_, None) => Err (EValue "provider timestamp is timezone-naive")
      | Some (wall, Some offset) => Ok (wall - offset)
      end
  | PNone => match fallback with Some t => Ok t | None => Err (EValue "provider timestamp is missing") end
  | _ => Err ETypeError
  end.

(** ** What is read from a payload *)

Abbreviation dict := (list (string * pyval)).

(** The first key whose value is not None. *)
Fixpoint first_value (keys : list string) (m : dict) : option pyval :=
  match keys with
  | [] => None
  | k :: keys' =>
      match dict_get k m with Some PNone | None => first_value keys' m | Some v => Some v end
  end.
Definition order_of (payload : dict) : option dict :=
  match dict_get "order" payload with Some (PDict m) => Some m | _ => None end.

Section extract.
Context `{FromIso} `{ContainerText}.

Definition extract_event_timestamp (payload : dict) (received_at : datetime) : result datetime :=
  match first_value ["t"; "timestamp"; "created_at"; "updated_at"; "acceptanceDateTime"]%string payload with
  | Some v => parse_timestamp v (Some received_at)
  | None =>
      match order_of payload ≫= first_value ["updated_at"; "submitted_at"; "created_at"]%string with
      | Some v => parse_timestamp v (Some received_at)
      | None => Ok received_at
      end
  end.

Definition nonempty_text (v : option pyval) : list string :=
  match v with Some (PStr s) => if String.eqb s "" then [] else [s] | _ => [] end.
(** [symbol.strip().upper()], when something is left. *)
Definition clean_symbol (s : string) : option string :=
  let t := string_of_list_ascii (strip (list_ascii_of_string s)) in
  if String.eqb t "" then None else Some (string_upper t).
Definition symbol_candidates (payload : dict) : list string :=
  nonempty_text (dict_get "S" payload) ++ nonempty_text (dict_get "symbol" payload)
  ++ match dict_get "symbols" payload with Some (PSeq l) => map py_str (filter (λ v, truthy v = true) l) | _ => [] end
  ++ match order_of payload with
     | Some o => match dict_get "symbol" o with Some (PStr s) => [s] | _ => [] end
     | None => []
     end.
Definition extract_symbols (payload : dict) : list string :=
  unique_from [] (omap clean_symbol (symbol_candidates payload)).

Definition extract_provider_event_id (payload : dict) : option string :=
  match first_value ["i"; "id"; "news_id"; "execution_id"; "accessionNumber"]%string payload with
  | Some v => Some (py_str v)
  | None =>
      match order_of payload with
      | Some o =>
          match first_value ["id"]%string o with
          | Some id => Some (py_str id +:+ ":" +:+ py_str (dict_get_or "event" (PStr "trade_update") payload)
                             +:+ ":" +:+ py_str (dict_get_or "timestamp" (PStr "") payload))
          | None => None
          end
      | None => None
      end
  end.
End extract.

(** ** build_and_submit *)

(** The sink in the recorder's loop: a world and its two coroutines; the text
    of a message for which there is no payload; the error's own text. *)
Class Sink (W : Type) := {
  sk_submit : RawEvent → eff W unit;
  sk_record_failure : RawIngestFailure → eff W unit;
  sk_now : eff W datetime;
  sk_failure_id : eff W string;
  sk_repr : provider → string * string;
}.

Section build.
Context {W : Type} `{Sink W} `{FromIso} `{ContainerText} `{EventUuid} `{NewYork}.

Definition event_of (session connection : string) (source : RecorderSource) (channel : string) (kind : EventType)
    (received_at : datetime) (message : provider) : result RawEvent :=
  payload ← model_to_payload message;
  event_timestamp ← extract_event_timestamp payload received_at;
  create session connection source channel kind event_timestamp received_at (PDict payload)
    (extract_symbols payload) (extract_provider_event_id payload) None.
(** The payload of a failure: the message's, or how it prints. *)
Definition failure_payload (message : provider) : pyval :=
  match model_to_payload message with
  | Ok payload => PDict payload
  | Err _ => PDict [("repr", PStr (sk_repr message).1); ("type", PStr (sk_repr message).2)]%string
  end.
(** [str(exc) or repr(exc)]. *)
Definition error_text (e : exn) : string :=
  if String.eqb (exn_message e) "" then exn_type_name e +:+ "()" else exn_message e.
Definition build_and_submit (session connection : string) (source : RecorderSource) (channel : string) (kind : EventType)
    (message : provider) : eff W unit :=
  received_at ← sk_now;
  try_except
    (event ← lift (event_of session connection source channel kind received_at message); sk_submit event)
    (λ e, Some (
      id ← sk_failure_id;
      failure ← lift (create_failure id session (Some connection) source channel received_at (exn_type_name e)
        (error_text e) (Some (failure_payload message)));
      sk_record_failure failure ;;
      raise e)).
End build.

Example cut_fraction_examples :
  map (λ s, string_of_list_ascii (cut_fraction (list_ascii_of_string s)))
    ["2026-01-05T14:30:00.123456789Z"; "2026-01-05T14:30:00.1234567-05:00"; "2026-01-05T14:30:00.12Z";
     "2026-01-05 14:30:00.123456789Z"; "2026-01-05T14:30:00.123456789"]%string
  = ["2026-01-05T14:30:00.123456Z"; "2026-01-05T14:30:00.123456-05:00"; "2026-01-05T14:30:00.12Z";
     "2026-01-05 14:30:00.123456789Z"; "2026-01-05T14:30:00.123456789"]%string.
Proof. vm_compute. reflexivity. Qed.
