(* ===== verification/SecPoller.v ===== *)
(** * SecPoller: the poller of the SEC's submissions

    daybreak_recorder/sec/submissions.py.  The server, the clock, the rate
    limiter, the stop event and the batch writer are coroutines over a world
    that holds the recorder's repository; while one of them waits, the other
    tasks of the process run, so what it may do to the repository is said by
    the laws of [WriterLaws] and not by its definition. *)
From Stdlib Require Import Ascii String.
From S2P Require Import Prelude Numerics PyStr PyTime Contracts Stores Canonical RiskModels OrchEnv RecorderModels RecorderStore PyVal RecorderAdapters.

#[local] Open Scope Z_scope.

(** ** Python's conversions *)

(** [date.fromisoformat(s)]; None where it raises ValueError. *)
Class DateFromIso := date_fromisoformat : string → option date.
Definition iso_date `{DateFromIso} (s : string) : result date :=
  match date_fromisoformat s with Some d => Ok d | None => Err (EValue "Invalid isoformat string") end.

(** The digits of [int(s)]: single underscores may stand between them. *)
Fixpoint int_digits (after_digit : bool) (l : chars) : option chars :=
  match l with
  | [] => if after_digit then Some [] else None
  | c :: l' =>
      if is_digit c then ds ← int_digits true l'; Some (c :: ds)
      else if Ascii.eqb c "_" && after_digit then int_digits false l'
      else None
  end.
(** [int(s)], of ASCII text. *)
Definition int_of_text (s : string) : result Z :=
  let '(neg, l) := take_sign (strip (list_ascii_of_string s)) in
  match int_digits false l with
  | Some ds =>
      if (4300 <? length ds)%nat then Err (EValue "Exceeds the limit (4300 digits) for integer string conversion")
      else Ok (if neg then - digits_value ds else digits_value ds)
  | None => Err (EValue "invalid literal for int() with base 10")
  end.
(** [int(v)]; a float is the double its text reads as. *)
Definition int_of (v : pyval) : result Z :=
  match v with
  | PInt z => Ok z
  | PBool b => Ok (if b then 1 else 0)
  | PStr s => int_of_text s
  | PFloat r =>
      match parse_decimal r with
      | DFinite d => Ok (flt.to_int (dec_float d))
      | DInfinite _ => Err (EOther "OverflowError" "cannot convert float infinity to integer")
      | _ => Err (EValue "cannot convert float NaN to integer")
      end
  | _ => Err ETypeError
  end.

Example int_of_examples :
  map int_of [PStr " 1_000 "; PStr "-12"; PStr "1__0"; PStr "_1"; PStr ""; PFloat "2.75"; PFloat "-2.75"; PBool true]
  = [Ok 1000; Ok (-12); Err (EValue "invalid literal for int() with base 10");
     Err (EValue "invalid literal for int() with base 10"); Err (EValue "invalid literal for int() with base 10");
     Ok 2; Ok (-2); Ok 1].
Proof. vm_compute. reflexivity. Qed.

(** ** parse_recent_filings *)

Record SecFilingRecord := {
  sf_cik : string;
  sf_accession_number : string;
  sf_form : string;
  sf_filing_date : date;
  sf_report_date : option date;
  sf_acceptance_timestamp : datetime;
  sf_primary_document : option string;
  sf_primary_document_description : option string;
  sf_items : option string;
  sf_size : option Z;
  sf_is_xbrl : option bool;
  sf_is_inline_xbrl : option bool;
  sf_raw_record : dict;
}.
Definition SecFilingRecord_ok (r : SecFilingRecord) : bool :=
  forallb is_digit (list_ascii_of_string (sf_cik r)) && (String.length (sf_cik r) =? 10)%nat
  && negb (String.eqb (sf_accession_number r) "") && negb (String.eqb (sf_form r) "")
  && match sf_size r with Some n => 0 <=? n | None => true end.

Definition list_or_nil (v : pyval) : list pyval := match v with PSeq l => l | _ => [] end.
Definition _column (recent : dict) (name : string) : list pyval := list_or_nil (dict_get_or name (PSeq []) recent).

Definition stripped (s : string) : string := string_of_list_ascii (strip (list_ascii_of_string s)).

Definition _parse_optional_sec_bool (value : pyval) (field_name : string) : result (option bool) :=
  match value with
  | PNone => Ok None
  | PBool b => Ok (Some b)
  | PInt 0 => Ok (Some false)
  | PInt 1 => Ok (Some true)
  | PStr s =>
      if String.eqb s "" then Ok None
      else if String.eqb (stripped s) "0" then Ok (Some false)
      else if String.eqb (stripped s) "1" then Ok (Some true)
      else Err (EValue (field_name +:+ " must be a SEC 0/1 Boolean value"))
  | _ => Err (EValue (field_name +:+ " must be a SEC 0/1 Boolean value"))
  end.

(** The columns' values at an index. *)
Definition raw_record_at (recent : dict) (index : nat) : dict :=
  omap (λ kv, match list_or_nil kv.2 !! index with Some v => Some (kv.1, v) | None => None end) recent.

Section poller.
Context `{FromIso} `{DateFromIso} `{ContainerText}.

(** [str(v) if v else None]. *)
Definition text_if (v : pyval) : option string := if truthy v then Some (py_str v) else None.
Definition nonempty_str (v : pyval) (e : exn) : result string :=
  match v with PStr s => if String.eqb s "" then Err e else Ok s | _ => Err e end.
Definition nonblank_str (v : pyval) (e : exn) : result string :=
  match v with PStr s => if blank s then Err e else Ok s | _ => Err e end.
Definition filing_size (v : pyval) (accession : string) : result (option Z) :=
  let read := n ← int_of v;
    if n <? 0 then Err (EValue ("size is negative for accession " +:+ accession)) else Ok (Some n) in
  match v with
  | PNone => Ok None
  | PStr s => if String.eqb s "" then Ok None else read
  | _ => read
  end.

(** The loop's body at an index. *)
Definition filing_at (cik : string) (recent : dict) (index : nat) (value : pyval) : result SecFilingRecord :=
  let get name := default PNone (_column recent name !! index) in
  accession ← nonblank_str value (EValue ("SEC accession at index " +:+ pretty index +:+ " is missing or invalid"));
  filing_date_raw ← nonempty_str (get "filingDate"%string) (EValue ("filingDate is missing for accession " +:+ accession));
  filing_date ← iso_date filing_date_raw;
  acceptance_raw ← nonempty_str (get "acceptanceDateTime"%string)
    (EValue ("acceptanceDateTime is missing for accession " +:+ accession));
  acceptance ← parse_timestamp (PStr acceptance_raw) None;
  form ← nonblank_str (get "form"%string) (EValue ("form is missing for accession " +:+ accession));
  report_date ← match get "reportDate"%string with
                | PStr s => if String.eqb s "" then Ok None else d ← iso_date s; Ok (Some d)
                | _ => Ok None
                end;
  size ← filing_size (get "size"%string) accession;
  is_xbrl ← _parse_optional_sec_bool (get "isXBRL"%string) "isXBRL";
  is_inline_xbrl ← _parse_optional_sec_bool (get "isInlineXBRL"%string) "isInlineXBRL";
  let r := {| sf_cik := cik; sf_accession_number := accession; sf_form := stripped form; sf_filing_date := filing_date;
              sf_report_date := report_date; sf_acceptance_timestamp := acceptance;
              sf_primary_document := text_if (get "primaryDocument"%string);
              sf_primary_document_description := text_if (get "primaryDocDescription"%string);
              sf_items := text_if (get "items"%string); sf_size := size; sf_is_xbrl := is_xbrl;
              sf_is_inline_xbrl := is_inline_xbrl; sf_raw_record := raw_record_at recent index |} in
  if SecFilingRecord_ok r then Ok r else Err (EValidation "SecFilingRecord").
Fixpoint filings_from (cik : string) (recent : dict) (index : nat) (accessions : list pyval) : result (list SecFilingRecord) :=
  match accessions with
  | [] => Ok []
  | v :: accessions' =>
      r ← filing_at cik recent index v; rs ← filings_from cik recent (S index) accessions'; Ok (r :: rs)
  end.
Definition parse_recent_filings (cik : string) (payload : dict) : result (list SecFilingRecord) :=
  match dict_get "filings" payload with
  | Some (PDict filings) =>
      match dict_get "recent" filings with
      | Some (PDict recent) => filings_from cik recent 0 (_column recent "accessionNumber")
      | _ => Err (EValue "SEC submissions response is missing filings.recent object")
      end
  | _ => Err (EValue "SEC submissions response is missing filings object")
  end.

(** ** Symbols and events *)

(** What [for x in v] goes through; the characters of a text are those its
    UTF-8 bytes encode. *)
Definition continuation (c : ascii) : bool := (128 <=? nat_of_ascii c)%nat && (nat_of_ascii c <? 192)%nat.
Fixpoint characters (l : chars) : list chars :=
  match l with
  | [] => []
  | c :: l' =>
      match characters l' with
      | (d :: w) :: ws => if continuation d then (c :: d :: w) :: ws else [c] :: (d :: w) :: ws
      | ws => [c] :: ws
      end
  end.
Definition iterate (v : pyval) : result (list pyval) :=
  match v with
  | PSeq l => Ok l
  | PDict m => Ok (map (λ kv, PStr kv.1) m)
  | PStr s => Ok (map (λ w, PStr (string_of_list_ascii w)) (characters (list_ascii_of_string s)))
  | _ => Err ETypeError
  end.
Definition tickers (payload : dict) : pyval := dict_get_or "tickers" (PSeq []) payload.
Definition sec_symbols (payload : dict) : result (list string) :=
  l ← iterate (tickers payload);
  Ok (unique_from [] (omap (λ v, match v with PStr s => clean_symbol s | _ => None end) l)).

Definition optional_value {A} (f : A → pyval) (x : option A) : pyval := match x with Some a => f a | None => PNone end.
(** [record.model_dump(mode='python')]. *)
Definition dump_filing (r : SecFilingRecord) : dict :=
  [("cik", PStr (sf_cik r)); ("accession_number", PStr (sf_accession_number r)); ("form", PStr (sf_form r));
   ("filing_date", PDate (sf_filing_date r)); ("report_date", optional_value PDate (sf_report_date r));
   ("acceptance_timestamp", PDatetime (sf_acceptance_timestamp r));
   ("primary_document", optional_value PStr (sf_primary_document r));
   ("primary_document_description", optional_value PStr (sf_primary_document_description r));
   ("items", optional_value PStr (sf_items r)); ("size", optional_value PInt (sf_size r)); ("is_xbrl", optional_value PBool (sf_is_xbrl r));
   ("is_inline_xbrl", optional_value PBool (sf_is_inline_xbrl r)); ("raw_record", PDict (sf_raw_record r))]%string.

Context `{EventUuid} `{NewYork}.

Definition snapshot_event (session connection cik : string) (received_at : datetime) (payload : dict)
    (symbols : list string) (records : list SecFilingRecord) : result RawEvent :=
  h ← sha256_hex (PDict payload);
  let latest := match map sf_acceptance_timestamp records with [] => received_at | t :: l => fold_left Z.max l t end in
  create session connection RO_SEC_EDGAR "submissions_snapshot" RE_SEC_SUBMISSIONS_SNAPSHOT latest received_at
    (PDict payload) symbols (Some ("CIK" +:+ cik +:+ ":" +:+ h)) None.
Definition filing_event (session connection : string) (received_at : datetime) (payload : dict) (symbols : list string)
    (r : SecFilingRecord) : result RawEvent :=
  create session connection RO_SEC_EDGAR "submissions" RE_SEC_SUBMISSION (sf_acceptance_timestamp r) received_at
    (PDict ([("company_name", dict_or_none "name" payload); ("tickers", tickers payload);
             ("exchanges", dict_get_or "exchanges" (PSeq []) payload)]%string ++ dump_filing r))
    symbols (Some (sf_accession_number r)) None.

(** [(acceptance_timestamp, accession_number)]. *)
Definition filing_compare (a b : SecFilingRecord) : comparison :=
  lex (sf_acceptance_timestamp a ?= sf_acceptance_timestamp b)
    (String.compare (sf_accession_number a) (sf_accession_number b)).
Definition filing_leb (a b : SecFilingRecord) : bool := not_gt (filing_compare a b).

(** ** The poller *)

Record SecResponse := {
  sr_status_code : Z;
  sr_text : string;
  sr_status_error : option exn;   (* what raise_for_status() raises *)
  sr_json : result pyval;
}.
Class SecWorld (W : Type) := {
  sw_repository : W → RawEventRepository;
  sw_with : RawEventRepository → W → W;
  sw_limit : eff W unit;
  sw_get : string → eff W SecResponse;
  sw_now : eff W datetime;
  sw_failure_id : eff W string;
  sw_record_failure : RawIngestFailure → eff W unit;
  sw_submit_many_and_wait : list RawEvent → eff W unit;
  sw_stopping : eff W bool;
  sw_wait_stop : eff W unit;
}.

Record SecSubmissionsPoller := {
  sp_ingest_session_id : string;
  sp_connection_id : string;
  sp_ciks : list string;
  sp_bootstrap_lookback : Z;   (* timedelta(hours=..), in microseconds *)
}.

Context {W : Type} `{SecWorld W}.
Variable poller : SecSubmissionsPoller.

Definition on_repository {A} (m : eff RawEventRepository A) : eff W A := λ w,
  let '(a, s) := m (sw_repository w) in (a, sw_with s w).

Definition sec_url (cik : string) : string := "https://data.sec.gov/submissions/CIK" +:+ cik +:+ ".json".

(** What the try block reads of an answer: the payload, once there is one, and
    the records. *)
Definition decoded_payload (response : SecResponse) : result dict :=
  match sr_status_error response with
  | Some e => Err e
  | None =>
      match sr_json response with
      | Ok (PDict payload) => Ok payload
      | Ok _ => Err (EValue "SEC submissions response is not a JSON object")
      | Err e => Err e
      end
  end.
Definition raw_failure_payload (cik : string) (response : option SecResponse) : pyval :=
  match response with
  | None => PDict [("url", PStr (sec_url cik))]%string
  | Some r =>
      match decoded_payload r with
      | Ok payload => PDict payload
      | Err _ => PDict [("url", PStr (sec_url cik)); ("status_code", PInt (sr_status_code r));
                        ("response_text", PStr (sr_text r))]%string
      end
  end.
Definition fail_poll {A} (cik : string) (response : option SecResponse) (e : exn) : eff W A :=
  received_at ← sw_now;
  id ← sw_failure_id;
  failure ← lift (create_failure id (sp_ingest_session_id poller) (Some (sp_connection_id poller)) RO_SEC_EDGAR
    "submissions" received_at (exn_type_name e) (error_text e) (Some (raw_failure_payload cik response)));
  sw_record_failure failure ;;
  raise e.

(** The limiter, the request and the try block. *)
Definition fetch (cik : string) : eff W (datetime * dict * list SecFilingRecord) :=
  sw_limit ;;
  answer ← observe (sw_get (sec_url cik));
  match answer with
  | Err e => fail_poll cik None e
  | Ok response =>
      received_at ← sw_now;
      match payload ← decoded_payload response; records ← parse_recent_filings cik payload; Ok (payload, records) with
      | Ok (payload, records) => mret (received_at, payload, records)
      | Err e => fail_poll cik (Some response) e
      end
  end.

(** The records to emit, in order, and the accessions to mark. *)
Definition to_emit (seen : gset string) (received_at : datetime) (records : list SecFilingRecord) : list SecFilingRecord :=
  sorted_by filing_leb
    (if decide (seen = ∅)
     then filter (λ r, received_at - sp_bootstrap_lookback poller <= sf_acceptance_timestamp r) records
     else filter (λ r, sf_accession_number r ∉ seen) records).
Definition to_mark (seen : gset string) (records : list SecFilingRecord) : list string :=
  map sf_accession_number (if decide (seen = ∅) then records else filter (λ r, sf_accession_number r ∉ seen) records).

(** [_poll_cik], from the records on. *)
Definition record_filings (cik : string) (received_at : datetime) (payload : dict) (records : list SecFilingRecord)
    : eff W Z :=
  seen ← on_repository (raw_events.get_sec_seen_accessions cik);
  let emitted := to_emit seen received_at records in
  symbols ← lift (sec_symbols payload);
  snapshot ← lift (snapshot_event (sp_ingest_session_id poller) (sp_connection_id poller) cik received_at payload
    symbols records);
  events ← lift (map_result
    (filing_event (sp_ingest_session_id poller) (sp_connection_id poller) received_at payload symbols) emitted);
  sw_submit_many_and_wait (snapshot :: events) ;;
  on_repository (raw_events.mark_sec_accessions_seen cik (to_mark seen records)) ;;
  mret (len events).
Definition _poll_cik (cik : string) : eff W Z :=
  '(received_at, payload, records) ← fetch cik;
  record_filings cik received_at payload records.

Fixpoint poll_ciks (ciks : list string) (inserted : Z) : eff W Z :=
  match ciks with
  | [] => mret inserted
  | cik :: ciks' => n ← _poll_cik cik; poll_ciks ciks' (inserted + n)
  end.
Definition poll_once : eff W Z := poll_ciks (sp_ciks poller) 0.

(** [run], of at most [fuel] rounds. *)
Fixpoint run_from (fuel : nat) : eff W unit :=
  match fuel with
  | O => raise EDiverge
  | S fuel' =>
      stopping ← sw_stopping;
      if (stopping : bool) then mret tt else poll_once ;; sw_wait_stop ;; run_from fuel'
  end.
Definition run_poller (fuel : nat) : eff W unit :=
  match sp_ciks poller with [] => mret tt | _ => run_from fuel end.
End poller.
