(* ===== verification/SecContract.v ===== *)
(** * SecContract: no filing is lost

    What the poller of SecPoller.v promises, against the laws of the
    repository and the batch writer, and a world in which they hold. *)
From Stdlib Require Import Ascii String.
From S2P Require Import Prelude Numerics PyStr PyTime Contracts Stores Canonical RiskModels OrchEnv RecorderModels RecorderStore PyVal RecorderAdapters SecPoller.

#[local] Open Scope Z_scope.

(** ** The laws *)

Section laws.
Context {W : Type} `{SecWorld W}.

Definition seen_of (cik : string) (w : W) : gset string := default ∅ (rr_sec_seen (sw_repository w) !! cik).
Definition log_keys (w : W) : gset string := dom (rr_by_idempotency (sw_repository w)).
(** What another task may do to the repository: append to the log.  Only the
    poller marks accessions. *)
Definition quiet (w w' : W) : Prop :=
  rr_sec_seen (sw_repository w') = rr_sec_seen (sw_repository w) ∧ log_keys w ⊆ log_keys w'.

#[export] Instance quiet_preorder : PreOrder quiet.
Proof. split; [by intros w; split|]. intros w1 w2 w3 [E1 ?] [E2 ?]. split; [congruence | by etrans]. Qed.
End laws.

(** An acknowledged batch is in the log: BatchWriter.writer_durable shows it of
    the writer. *)
Class WriterLaws (W : Type) `{SecWorld W} : Prop := {
  wl_with w s : sw_repository (sw_with s w) = s;
  wl_limit : evolves quiet sw_limit;
  wl_get url : evolves quiet (sw_get url);
  wl_now : evolves quiet sw_now;
  wl_failure_id : evolves quiet sw_failure_id;
  wl_record_failure f : evolves quiet (sw_record_failure f);
  wl_submit l : evolves quiet (sw_submit_many_and_wait l);
  wl_acknowledged l w u w' : sw_submit_many_and_wait l w = (Ok u, w') → ∀ e, e ∈ l → re_idempotency_key e ∈ log_keys w';
}.
Create HintDb sec.
#[export] Hint Resolve wl_limit wl_get wl_now wl_failure_id wl_record_failure wl_submit : sec.

Section contract.
Context `{FromIso} `{DateFromIso} `{ContainerText} `{EventUuid} `{NewYork}.
Context {W : Type} `{WriterLaws W}.
Variable poller : SecSubmissionsPoller.

(** The filing's event is in the log, under the key of its identity. *)
Definition filing_recorded (a : string) (w : W) : Prop :=
  ∃ e, re_idempotency_key e ∈ log_keys w ∧ sha256_hex (identity_of e) = Ok (re_idempotency_key e) ∧
    re_ingest_session_id e = sp_ingest_session_id poller ∧ re_source e = RO_SEC_EDGAR ∧
    re_event_type e = RE_SEC_SUBMISSION ∧ re_provider_event_id e = Some a.

Lemma filing_recorded_quiet a w w' : log_keys w ⊆ log_keys w' → filing_recorded a w → filing_recorded a w'.
Proof. intros Hs (e & He & ?). exists e. split; [by apply Hs | done]. Qed.

(** ** One poll *)

Lemma fail_poll_raises {A} cik r e w : ∃ e', (fail_poll poller cik r e w : result A * W).1 = Err e'.
Proof.
  unfold fail_poll. rewrite !eff_bind_unfold. destruct (sw_now w) as [[t|?] w1]; [|by eexists].
  rewrite eff_bind_unfold. destruct (sw_failure_id w1) as [[i|?] w2]; [|by eexists].
  rewrite eff_bind_unfold. unfold lift at 1. destruct (create_failure _ _ _ _ _ _ _ _ _) as [f|?]; [|by eexists].
  rewrite eff_bind_unfold. destruct (sw_record_failure f w2) as [[u|?] w3]; by eexists.
Qed.

Lemma fail_poll_quiet {A} cik r e : evolves quiet (fail_poll poller cik r e : eff W A).
Proof.
  unfold fail_poll.
  repeat first [apply evolves_bind; [apply _|..|intros ?] | apply evolves_lift; apply _ | apply evolves_raise; apply _
               | solve [auto with sec]].
Qed.
Lemma fetch_quiet cik : evolves quiet (fetch poller cik).
Proof.
  unfold fetch. apply evolves_bind; [apply _ | auto with sec|]. intros _.
  apply evolves_bind; [apply _ | intros w; apply wl_get|]. intros [r|e]; [|apply fail_poll_quiet].
  apply evolves_bind; [apply _ | auto with sec|]. intros t.
  destruct (_ ≫= _) as [[p k]|e]; [apply evolves_ret; apply _ | apply fail_poll_quiet].
Qed.

(** A created event carries what it is created from, under the key of its
    identity. *)
Lemma create_identity session connection source channel kind at_ received payload symbols provider_id hint e :
  create session connection source channel kind at_ received payload symbols provider_id hint = Ok e →
  sha256_hex (identity_of e) = Ok (re_idempotency_key e) ∧ re_ingest_session_id e = session ∧ re_source e = source ∧
  re_event_type e = kind ∧ re_provider_event_id e = provider_id.
Proof.
  unfold create. intros (h & _ & (key & Hk & Hv)%bind_Ok)%bind_Ok. unfold validated_event in Hv.
  destruct (RawEvent_fields _); [|discriminate]. apply bind_Ok in Hv as (u & _ & <-%Ok_inj). split_and!; [exact Hk | reflexivity..].
Qed.

(** What a poll that read an answer marks and emits. *)
Lemma record_filings_outcome cik received payload records w :
  let seen := seen_of cik w in
  match record_filings poller cik received payload records w with
  | (Err e, w') => quiet w w'
  | (Ok n, w') =>
      log_keys w ⊆ log_keys w' ∧ seen_of cik w' = seen ∪ list_to_set (to_mark seen records) ∧
      (∀ c, c ≠ cik → seen_of c w' = seen_of c w) ∧
      n = len (to_emit poller seen received records) ∧
      ∀ r, r ∈ to_emit poller seen received records → filing_recorded (sf_accession_number r) w'
  end.
Proof.
  intros seen. unfold record_filings. rewrite eff_bind_unfold.
  unfold on_repository at 1, raw_events.get_sec_seen_accessions, gets. cbn [fst snd].
  set (w1 := sw_with (sw_repository w) w).
  assert (sw_repository w1 = sw_repository w) as E1 by apply wl_with.
  assert (quiet w w1) as Q1 by (split; unfold log_keys; by rewrite E1).
  change (default ∅ (rr_sec_seen (sw_repository w) !! cik)) with seen. clearbody w1.
  rewrite eff_bind_unfold. unfold lift at 1. destruct (sec_symbols payload) as [symbols|e]; [|done].
  rewrite eff_bind_unfold. unfold lift at 1. destruct (snapshot_event _ _ _ _ _ _ _) as [snapshot|e]; [|done].
  rewrite eff_bind_unfold. unfold lift at 1. destruct (map_result _ _) as [events|e] eqn:Ee; [|done].
  rewrite eff_bind_unfold. pose proof (wl_submit (snapshot :: events) w1) as Q2.
  destruct (sw_submit_many_and_wait (snapshot :: events) w1) as [[[]|e] w2] eqn:Es; cbn [snd] in Q2; [|by etrans].
  pose proof (wl_acknowledged _ _ _ _ Es) as Hlog. rewrite eff_bind_unfold.
  unfold on_repository, raw_events.mark_sec_accessions_seen, modify, mret. cbn [fst snd].
  set (w3 := sw_with _ w2).
  assert (sw_repository w3 = with_sec_seen (<[cik := default ∅ (rr_sec_seen (sw_repository w2) !! cik)
    ∪ list_to_set (to_mark seen records)]> (rr_sec_seen (sw_repository w2))) (sw_repository w2)) as E3 by apply wl_with.
  assert (log_keys w3 = log_keys w2) as K3 by (unfold log_keys; by rewrite E3).
  destruct Q1 as [S1 K1], Q2 as [S2 K2]. clearbody w3. split_and!.
  - rewrite K3. by etrans.
  - unfold seen_of at 1. rewrite E3. simpl. rewrite lookup_insert_eq. simpl. by rewrite S2, S1.
  - intros c Hc. unfold seen_of. rewrite E3. simpl. by rewrite lookup_insert_ne, S2, S1 by done.
  - unfold len. do 2 f_equal. apply map_result_Forall2, Forall2_length in Ee. done.
  - intros r Hr. apply map_result_Forall2 in Ee. apply list_elem_of_lookup in Hr as [i Hi].
    destruct (Forall2_lookup_l _ _ _ _ _ Ee Hi) as (e & He & Hf). unfold filing_event in Hf.
    destruct (create_identity _ _ _ _ _ _ _ _ _ _ _ _ Hf) as (? & ? & ? & ? & ?). exists e. split; [|done].
    rewrite K3. apply Hlog. right. by eapply list_elem_of_lookup_2.
Qed.

Lemma poll_cik_outcome cik w :
  match _poll_cik poller cik w with
  | (Err e, w') => quiet w w'
  | (Ok n, w') => ∃ received payload records w1,
      fetch poller cik w = (Ok (received, payload, records), w1) ∧ quiet w w1 ∧
      let seen := seen_of cik w in
      log_keys w1 ⊆ log_keys w' ∧ seen_of cik w' = seen ∪ list_to_set (to_mark seen records) ∧
      (∀ c, c ≠ cik → seen_of c w' = seen_of c w) ∧
      n = len (to_emit poller seen received records) ∧
      ∀ r, r ∈ to_emit poller seen received records → filing_recorded (sf_accession_number r) w'
  end.
Proof.
  unfold _poll_cik. rewrite eff_bind_unfold. pose proof (fetch_quiet cik w) as Hq.
  destruct (fetch poller cik w) as [[[[received payload] records]|e] w1]; cbn [snd] in Hq; [|done].
  pose proof (record_filings_outcome cik received payload records w1) as Hr. cbv zeta in *.
  assert (∀ c, seen_of c w1 = seen_of c w) as Hs by (intros c; unfold seen_of; by rewrite (proj1 Hq)).
  destruct (record_filings _ _ _ _ _ w1) as [[n|e] w2]; [|by etrans].
  rewrite Hs in Hr. destruct Hr as (? & ? & Ho & ? & ?). exists received, payload, records, w1.
  split_and!; try done. intros c Hc. by rewrite Ho.
Qed.

(** ** Many polls *)

(** From a world to a world: completed polls of a CIK, with what each was
    served; polls that raised, wherever they did; and anything that the polls
    of the other CIKs and the other tasks do in between. *)
Inductive polls (cik : string) (w0 : W) : list (datetime * list SecFilingRecord) → W → Prop :=
  | polls_start : polls cik w0 [] w0
  | polls_completed trace w n received payload records w1 w' :
      polls cik w0 trace w → fetch poller cik w = (Ok (received, payload, records), w1) →
      _poll_cik poller cik w = (Ok n, w') → polls cik w0 (trace ++ [(received, records)]) w'
  | polls_raised trace w e w' :
      polls cik w0 trace w → _poll_cik poller cik w = (Err e, w') → polls cik w0 trace w'
  | polls_others trace w c o w' :
      polls cik w0 trace w → c ≠ cik → _poll_cik poller c w = (o, w') → polls cik w0 trace w'
  | polls_elsewhere trace w w' :
      polls cik w0 trace w → quiet w w' → polls cik w0 trace w'.

(** The first answer that showed any filing showed this one as older than the
    configured horizon. *)
Definition passed_over (a : string) (trace : list (datetime * list SecFilingRecord)) : Prop :=
  ∃ before received records after r,
    trace = before ++ (received, records) :: after ∧ (∀ x, x ∈ before → x.2 = []) ∧ r ∈ records ∧
    sf_accession_number r = a ∧ sf_acceptance_timestamp r < received - sp_bootstrap_lookback poller.

Definition served (a : string) (trace : list (datetime * list SecFilingRecord)) : Prop :=
  ∃ x r, x ∈ trace ∧ r ∈ x.2 ∧ sf_accession_number r = a.

Record accounted (cik : string) (w0 : W) (trace : list (datetime * list SecFilingRecord)) (w : W) : Prop := {
  ac_seen : ∀ a, a ∈ seen_of cik w ↔ a ∈ seen_of cik w0 ∨ served a trace;
  ac_why : ∀ a, a ∈ seen_of cik w → a ∈ seen_of cik w0 ∨ filing_recorded a w ∨ seen_of cik w0 = ∅ ∧ passed_over a trace;
}.

Lemma passed_over_app a trace x : passed_over a trace → passed_over a (trace ++ [x]).
Proof.
  intros (b & t & k & l & r & -> & ?). exists b, t, k, (l ++ [x]), r. split; [by rewrite <- app_assoc | done].
Qed.

Lemma accounted_quiet cik w0 trace w w' :
  accounted cik w0 trace w → seen_of cik w' = seen_of cik w → log_keys w ⊆ log_keys w' → accounted cik w0 trace w'.
Proof.
  intros [Hs Hw] E K. split; intros a; rewrite E; [apply Hs|].
  intros Ha. destruct (Hw a Ha) as [?|[?|?]]; [by left | right; left; by eapply filing_recorded_quiet | by right; right].
Qed.

Lemma elem_of_to_mark a seen records :
  a ∈ seen ∪ list_to_set (to_mark seen records) ↔ a ∈ seen ∨ ∃ r, r ∈ records ∧ sf_accession_number r = a.
Proof.
  rewrite elem_of_union, elem_of_list_to_set. unfold to_mark. rewrite list_elem_of_fmap.
  destruct (decide (seen = ∅)) as [->|Hne].
  - split; [intros [?|(r & -> & ?)]; [by left | right; by exists r] | intros [?|(r & ? & <-)]; [by left | right; by exists r]].
  - split.
    + intros [?|(r & -> & [_ Hr]%list_elem_of_filter)]; [by left | right; by exists r].
    + intros [?|(r & Hr & <-)]; [by left|]. destruct (decide (sf_accession_number r ∈ seen)); [by left|].
      right. exists r. split; [done|]. by apply list_elem_of_filter.
Qed.

Lemma accounted_completed cik w0 trace w n received payload records w1 w' :
  accounted cik w0 trace w → fetch poller cik w = (Ok (received, payload, records), w1) →
  _poll_cik poller cik w = (Ok n, w') → accounted cik w0 (trace ++ [(received, records)]) w'.
Proof.
  intros [Hs Hw] Hf Hp. pose proof (poll_cik_outcome cik w) as Ho. rewrite Hp, Hf in Ho. cbv zeta in Ho.
  destruct Ho as (rc & pl & rs & w2 & E & [_ K1] & K2 & Hseen & _ & _ & Hrec). injection E as <- <- <- <-.
  assert (∀ a, served a (trace ++ [(received, records)]) ↔
    served a trace ∨ ∃ r, r ∈ records ∧ sf_accession_number r = a) as Hserved.
  { intros a. unfold served. split.
    - intros (x & r & [Hx| ->%list_elem_of_singleton]%elem_of_app & ? & ?); [left; by exists x, r | right; by exists r].
    - intros [(x & r & ? & ?)|(r & ? & ?)]; [exists x, r | exists (received, records), r];
        (split; [apply elem_of_app | done]); [by left | right; by left]. }
  split; intros a; rewrite Hseen, elem_of_to_mark.
  { rewrite Hs, Hserved. tauto. }
  intros [Ha|(r & Hr & <-)].
  { destruct (Hw a Ha) as [?|[Hre|[??]]]; [by left | right; left; eapply filing_recorded_quiet; [|exact Hre]; by etrans |].
    right; right. split; [done | by apply passed_over_app]. }
  destruct (decide (seen_of cik w = ∅)) as [He|He].
  - destruct (decide (received - sp_bootstrap_lookback poller <= sf_acceptance_timestamp r)) as [Hnew|Hold].
    + right; left. apply Hrec. unfold to_emit. rewrite elem_of_sorted_by, decide_True by done. by apply list_elem_of_filter.
    + right; right. split; [apply elem_of_equiv_empty_L; intros a Ha;
        assert (a ∈ seen_of cik w) as Hin by (apply Hs; by left); set_solver|].
      exists trace, received, records, [], r. split_and!; [done| |done|done|lia].
      intros x Hx. destruct x.2 as [|r' l] eqn:Ex; [done|]. exfalso.
      assert (sf_accession_number r' ∈ seen_of cik w) as Hin; [|set_solver].
      apply Hs. right. exists x, r'. rewrite Ex. split_and!; [done | by left | done].
  - destruct (decide (sf_accession_number r ∈ seen_of cik w)) as [Hin|Hout].
    + destruct (Hw _ Hin) as [?|[Hre|[??]]]; [by left | right; left; eapply filing_recorded_quiet; [|exact Hre]; by etrans |].
      right; right. split; [done | by apply passed_over_app].
    + right; left. apply Hrec. unfold to_emit. rewrite elem_of_sorted_by, decide_False by done. by apply list_elem_of_filter.
Qed.

Lemma polls_accounted cik w0 trace w : polls cik w0 trace w → accounted cik w0 trace w.
Proof.
  induction 1 as [|trace w n received payload records w1 w' _ IH Hf Hp|trace w e w' _ IH Hp|trace w c o w' _ IH Hc Hp|trace w w' _ IH [Q1 Q2]].
  - split; intros a; [|by left]. split; [by left|]. intros [?|(x & r & Hx & _)]; [done | by apply not_elem_of_nil in Hx].
  - by eapply accounted_completed.
  - pose proof (poll_cik_outcome cik w) as Ho. rewrite Hp in Ho. destruct Ho as [Q1 Q2].
    eapply accounted_quiet; [exact IH | | done]. unfold seen_of. by rewrite Q1.
  - pose proof (poll_cik_outcome c w) as Ho. rewrite Hp in Ho. destruct o as [n|e].
    + cbv zeta in Ho. destruct Ho as (? & ? & ? & w1 & _ & [_ K1] & K2 & _ & Hother & _).
      eapply accounted_quiet; [exact IH | by apply Hother | by etrans].
    + destruct Ho as [Q1 Q2]. eapply accounted_quiet; [exact IH | | done]. unfold seen_of. by rewrite Q1.
  - eapply accounted_quiet; [exact IH | | done]. unfold seen_of. by rewrite Q1.
Qed.
End contract.


(** ** A world: the in-memory log, and a server with one answer *)

Lemma append_events_keys k acc :
  let s' := (fold_left (λ acc e, raw_events.append_event e acc) k acc).1 in
  rr_sec_seen s' = rr_sec_seen acc.1 ∧ dom (rr_by_idempotency acc.1) ⊆ dom (rr_by_idempotency s') ∧
  ∀ e, e ∈ k → re_idempotency_key e ∈ dom (rr_by_idempotency s').
Proof.
  revert acc. induction k as [|e k IH]; intros [s [a b]]; cbn [fold_left].
  { split_and!; [done..|]. by intros e ?%not_elem_of_nil. }
  destruct (IH (raw_events.append_event e (s, (a, b)))) as (I1 & I2 & I3). cbv zeta in *.
  assert (rr_sec_seen (raw_events.append_event e (s, (a, b))).1 = rr_sec_seen s ∧
    {[re_idempotency_key e]} ∪ dom (rr_by_idempotency s) ⊆ dom (rr_by_idempotency (raw_events.append_event e (s, (a, b))).1))
    as [E1 E2].
  { unfold raw_events.append_event. destruct (rr_by_idempotency s !! re_idempotency_key e) as [p|] eqn:Ep; simpl.
    - split; [done|]. assert (re_idempotency_key e ∈ dom (rr_by_idempotency s)) by (apply elem_of_dom; by eexists). set_solver.
    - split; [done|]. by rewrite dom_insert_L. }
  simpl in *. split_and!; [by rewrite I1, E1 | set_solver|].
  intros e' [->|He']%elem_of_cons; [set_solver | by apply I3].
Qed.

Section demo.
Variable answer : SecResponse.
Variable now : datetime.

Definition one_answer : SecWorld RawEventRepository := {|
  sw_repository := λ w, w; sw_with := λ s _, s; sw_limit := mret tt; sw_get := λ _, mret answer; sw_now := mret now;
  sw_failure_id := mret "failure"%string; sw_record_failure := raw_events.append_failure;
  sw_submit_many_and_wait := λ l, raw_events.append_batch l ;; mret tt; sw_stopping := mret false; sw_wait_stop := mret tt |}.

Lemma one_answer_laws : @WriterLaws RawEventRepository one_answer.
Proof.
  assert (∀ l w, ∃ o, sw_submit_many_and_wait (SecWorld := one_answer) l w = (o, (raw_events.append_events l w).1)) as Hs.
  { intros l w. cbn [sw_submit_many_and_wait one_answer]. rewrite eff_bind_unfold. unfold raw_events.append_batch.
    destruct (raw_events.append_events l w) as [s' [i d]]. cbv zeta. simpl. destruct (AppendBatchResult_ok _); by eexists. }
  split; try (intros; intros w; split; [reflexivity | done]); [done| |].
  - intros l w. destruct (Hs l w) as [o ->]. destruct (append_events_keys l (w, (0, 0))) as (E & K & _). by split.
  - intros l w u w' E e He. destruct (Hs l w) as [o Eo]. rewrite E in Eo. injection Eo as _ ->.
    by apply (append_events_keys l (w, (0, 0))).
Qed.
End demo.

#[local] Instance sample_container : ContainerText := λ _, ""%string.
#[local] Instance sample_iso : FromIso := λ s,
  if String.eqb s "2026-01-05T14:20:00.123456+00:00" then Some (1767622800123456, Some 0) else Some (1767000000000000, Some 0).
#[local] Instance sample_date : DateFromIso := λ _, Some (Date 2026 1 5).
#[local] Instance sample_uuid : EventUuid := λ s, s.
#[local] Instance sample_offset : NewYork := λ _, -5 * HOUR.
Definition sample_answer : SecResponse :=
  {| sr_status_code := 200; sr_text := ""; sr_status_error := None;
     sr_json := Ok (PDict [("name", PStr "Acme"); ("tickers", PSeq [PStr " acme "; PStr "ACME"]);
       ("filings", PDict [("recent", PDict [
          ("accessionNumber", PSeq [PStr "A-2"; PStr "A-1"]); ("form", PSeq [PStr "8-K"; PStr "10-Q"]);
          ("filingDate", PSeq [PStr "2026-01-05"; PStr "2025-12-29"]);
          ("acceptanceDateTime", PSeq [PStr "2026-01-05T14:20:00.123456789Z"; PStr "2025-12-29T09:20:00Z"]);
          ("size", PSeq [PInt 1200; PStr "900"]); ("isXBRL", PSeq [PInt 1; PInt 0])])])]%string) |}.
Definition sample_poller : SecSubmissionsPoller :=
  {| sp_ingest_session_id := "session"; sp_connection_id := "connection"; sp_ciks := ["0000000001"%string];
     sp_bootstrap_lookback := 24 * HOUR |}.
#[local] Instance sample_world : SecWorld RawEventRepository := one_answer sample_answer 1767623400000000.
#[local] Instance sample_laws : WriterLaws RawEventRepository := one_answer_laws _ _.

(** The first poll emits the recent filing, marks both, and the second emits
    nothing. *)
Definition two_polls := (poll_once sample_poller ;; poll_once sample_poller) empty_raw_event_repository.
Example two_polls_result :
  two_polls.1 = Ok 0 ∧
  map (λ p, (re_provider_event_id (pr_event p), re_symbols (pr_event p))) (drop 1 (rr_events two_polls.2))
    = [(Some "A-2", ["ACME"])]%string ∧
  seen_of "0000000001" two_polls.2 = {["A-1"; "A-2"]}%string.
Proof. vm_compute. split_and!; reflexivity. Qed.

(** An answer whose tickers are null ends the poll after the part that records
    failures: nothing says why. *)
Definition null_tickers : dict :=
  [("tickers", PNone); ("filings", PDict [("recent", PDict [])])]%string.
Example null_tickers_unrecorded :
  let '(o, w) := _poll_cik (H4 := one_answer {| sr_status_code := 200; sr_text := ""; sr_status_error := None;
      sr_json := Ok (PDict null_tickers) |} 1767623400000000) sample_poller "0000000001" empty_raw_event_repository in
  o = Err ETypeError ∧ rr_failures w = [] ∧ rr_events w = [].
Proof. vm_compute. by split_and!. Qed.

Definition sample_payload : dict := match sr_json sample_answer with Ok (PDict m) => m | _ => [] end.
Definition sample_records : list SecFilingRecord :=
  match parse_recent_filings "0000000001" sample_payload with Ok l => l | Err _ => [] end.
Definition after_poll : RawEventRepository := (_poll_cik sample_poller "0000000001" empty_raw_event_repository).2.

Lemma sample_polls :
  polls sample_poller "0000000001" empty_raw_event_repository [(1767623400000000, sample_records)] after_poll.
Proof.
  eapply (polls_completed _ _ _ [] _ 1 _ sample_payload _ empty_raw_event_repository); [apply polls_start|..].
  - vm_compute. reflexivity.
  - etrans; [apply surjective_pairing|]. apply (f_equal2 pair); [vm_compute; reflexivity | reflexivity].
Qed.

