(* ===== verification/StreamAdapter.v ===== *)
(** * StreamAdapter: the provider's streams and their lifecycle events

    daybreak_recorder/adapters/alpaca_streams.py.  The library's stream runs in
    a thread of its own; the adapter sees whether it ended, the flag
    [_running], and the loop's clock, and may be cancelled at every await. *)
From Stdlib Require Import Ascii String.
From S2P Require Import Prelude Numerics PyStr PyTime Contracts Stores Canonical RiskModels RecorderModels RecorderStore PyVal BatchWriter RecorderAdapters.

#[local] Open Scope Z_scope.

(** ** What an adapter subscribes to *)

(** The kinds of message of a stream, with the channel and the event type its
    handler gives [build_and_submit]. *)
Inductive Handler := HD_TRADE | HD_QUOTE | HD_BAR | HD_UPDATED_BAR | HD_STATUS | HD_CANCEL | HD_CORRECTION | HD_NEWS | HD_UPDATE.
#[export] Instance Handler_eq_dec : EqDecision Handler. Proof. solve_decision. Defined.
Definition handler_channel (h : Handler) : string * EventType :=
  match h with
  | HD_TRADE => ("trades", RE_TRADE) | HD_QUOTE => ("quotes", RE_QUOTE) | HD_BAR => ("minute_bars", RE_MINUTE_BAR)
  | HD_UPDATED_BAR => ("updated_bars", RE_UPDATED_BAR) | HD_STATUS => ("trading_statuses", RE_TRADING_STATUS)
  | HD_CANCEL => ("trade_cancels", RE_TRADE_CANCEL) | HD_CORRECTION => ("trade_corrections", RE_TRADE_CORRECTION)
  | HD_NEWS => ("news", RE_NEWS) | HD_UPDATE => ("trade_updates", RE_TRADE_UPDATE)
  end.
(** AlpacaStockStreamAdapter.run: the subscriptions in order; the two
    registrations have no symbols. *)
Definition stock_subscriptions (m : SubscriptionManifest) : list (Handler * list string) :=
  let ticks (handlers : list Handler) :=
    match sm_tick_symbols m with [] => [] | l => map (λ h, (h, l)) handlers end in
  [(HD_CANCEL, []); (HD_CORRECTION, [])]
  ++ (if sm_wildcard_minute_bars m then [(HD_BAR, ["*"]); (HD_UPDATED_BAR, ["*"])] else ticks [HD_BAR; HD_UPDATED_BAR])
  ++ (if sm_wildcard_trading_statuses m then [(HD_STATUS, ["*"])] else ticks [HD_STATUS])
  ++ ticks [HD_TRADE; HD_QUOTE].
Definition news_subscriptions (symbols : list string) : list (Handler * list string) := [(HD_NEWS, symbols)].
Definition update_subscriptions : list (Handler * list string) := [(HD_UPDATE, [])].

(** ** The adapter *)

Record StreamAdapter := {
  sa_type_name : string;
  sa_ingest_session_id : string;
  sa_connection_id : string;
  sa_channel : string;
  sa_connect_timeout : Z;      (* in microseconds *)
  sa_timeout_text : string;    (* as it prints *)
}.

(** The runner is the task that runs the stream's thread. *)
Class StreamWorld (W : Type) := {
  st_subscribe : list (Handler * list string) → eff W unit;   (* makes the library's stream, with its handlers *)
  st_start_runner : eff W unit;
  st_runner_done : eff W bool;
  st_await_runner : eff W unit;      (* of a runner that is done *)
  st_running : eff W bool;
  st_time : eff W Z;
  st_sleep : eff W unit;
  st_stop_stream : eff W unit;       (* stop_ws(), stop() in a thread, or nothing without a stream *)
  st_wait_runner : eff W unit;       (* wait_for(runner, timeout) *)
  st_cancel_runner : eff W unit;     (* cancel, and gather *)
  st_stop_requested : eff W bool;
  st_set_stop_requested : bool → eff W unit;
}.

(** The local variables of [_run_sdk_stream]; [lv_emitted] is the history of
    the events submitted, with the generation, and [lv_refused] says that a
    submission raised. *)
Record Locals := {
  lv_connected : bool;
  lv_ever_connected : bool;
  lv_generation : Z;
  lv_emitted : list (EventType * Z);
  lv_refused : bool;
}.
Definition fresh_locals : Locals :=
  {| lv_connected := false; lv_ever_connected := false; lv_generation := 0; lv_emitted := []; lv_refused := false |}.
Definition connect (l : Locals) : Locals :=
  {| lv_connected := true; lv_ever_connected := true; lv_generation := lv_generation l + 1; lv_emitted := lv_emitted l;
     lv_refused := lv_refused l |}.
Definition disconnect (l : Locals) : Locals :=
  {| lv_connected := false; lv_ever_connected := lv_ever_connected l; lv_generation := lv_generation l;
     lv_emitted := lv_emitted l; lv_refused := lv_refused l |}.
Definition emitted (kind : EventType) (returned : bool) (l : Locals) : Locals :=
  {| lv_connected := lv_connected l; lv_ever_connected := lv_ever_connected l; lv_generation := lv_generation l;
     lv_emitted := if returned then lv_emitted l ++ [(kind, lv_generation l)] else lv_emitted l;
     lv_refused := lv_refused l || negb returned |}.

(** CancelledError is no Exception: [except Exception] lets it pass. *)
Definition is_cancelled (e : exn) : bool := bool_decide (e = cancelled_error).

Section adapter.
Context `{EventUuid} `{NewYork} {W : Type} `{Sink W} `{StreamWorld W}.
Variable adapter : StreamAdapter.

Definition _emit_system (kind : EventType) (payload : dict) : eff W unit :=
  now ← sk_now;
  event ← lift (create (sa_ingest_session_id adapter) (sa_connection_id adapter) RO_SYSTEM (sa_channel adapter) kind
    now now (PDict payload) [] None None);
  sk_submit event.
Definition stop_adapter : eff W unit := st_set_stop_requested true ;; st_stop_stream.

Abbreviation frame A := (eff (W * Locals) A).
Definition await {A} (m : eff W A) : frame A := λ s, let '(a, w) := m s.1 in (a, (w, s.2)).
Definition locals : frame Locals := gets snd.
Definition assign (f : Locals → Locals) : frame unit := modify (λ s, (s.1, f s.2)).
(** An emission, and its history. *)
Definition emit_event (kind : EventType) (payload : Locals → dict) : frame unit := λ s,
  let '(a, w) := _emit_system kind (payload s.2) s.1 in (a, (w, emitted kind (is_ok a) s.2)).

Definition connected_payload (base : dict) (l : Locals) : dict :=
  base ++ [("connection_generation", PInt (lv_generation l))]%string.
Definition disconnected_payload (reason : string) (l : Locals) : dict :=
  [("adapter", PStr (sa_type_name adapter)); ("connection_id", PStr (sa_connection_id adapter));
   ("connection_generation", PInt (lv_generation l)); ("reason", PStr reason)]%string.
Definition error_payload (e : exn) (l : Locals) : dict :=
  [("adapter", PStr (sa_type_name adapter)); ("connection_id", PStr (sa_connection_id adapter));
   ("error_type", PStr (exn_type_name e)); ("error_message", PStr (error_text e))]%string.

(** The transition seen at one look at the stream. *)
Definition observe_stream (base : dict) : frame unit :=
  sdk_running ← await st_running;
  l ← locals;
  if (sdk_running : bool) && negb (lv_connected l) then
    assign connect ;; emit_event RE_STREAM_CONNECTED (connected_payload base)
  else if negb sdk_running && lv_connected l then
    emit_event RE_STREAM_DISCONNECTED (disconnected_payload "sdk_not_running") ;; assign disconnect
  else mret tt.
Definition connect_timeout : exn :=
  EOther "TimeoutError" ("Alpaca stream did not authenticate and subscribe within " +:+ sa_timeout_text adapter +:+ " seconds").
Definition check_deadline (deadline : Z) : frame unit :=
  l ← locals;
  if lv_ever_connected l then mret tt
  else now ← await st_time; if deadline <=? now then raise connect_timeout else mret tt.
(** The runner is done. *)
Definition runner_ended : frame unit :=
  await st_await_runner ;;
  stopped ← await st_stop_requested;
  l ← locals;
  if (stopped : bool) then mret tt
  else raise (ERuntime (if lv_ever_connected l then "Alpaca stream ended unexpectedly"
                        else "Alpaca stream ended before becoming ready")).
Fixpoint watch (fuel : nat) (base : dict) (deadline : Z) : frame unit :=
  match fuel with
  | O => raise EDiverge
  | S fuel' =>
      ended ← await st_runner_done;
      if (ended : bool) then runner_ended
      else observe_stream base ;; check_deadline deadline ;; await st_sleep ;; watch fuel' base deadline
  end.
Definition with_error_event (fuel : nat) (base : dict) (deadline : Z) : frame unit :=
  try_except (watch fuel base deadline)
    (λ e, if is_cancelled e then None else Some (emit_event RE_ERROR (error_payload e) ;; raise e)).
(** The finally block. *)
Definition wind_down : frame unit :=
  ended ← await st_runner_done;
  (if (ended : bool) then mret tt
   else try_except (await stop_adapter ;; await st_wait_runner)
          (λ e, if is_cancelled e then None else Some (await st_cancel_runner))) ;;
  l ← locals;
  if lv_connected l then emit_event RE_STREAM_DISCONNECTED (disconnected_payload "adapter_stopped") else mret tt.
Definition _run_sdk_stream (fuel : nat) (base : dict) : frame unit :=
  await (st_set_stop_requested false) ;;
  await st_start_runner ;;
  start ← await st_time;
  outcome ← observe (with_error_event fuel base (start + sa_connect_timeout adapter));
  wind_down ;;
  lift outcome.

(** The three adapters' [run]. *)
Definition adapter_payload (rest : dict) : dict :=
  [("adapter", PStr (sa_type_name adapter)); ("connection_id", PStr (sa_connection_id adapter))]%string ++ rest.
Definition run_stock_stream (fuel : nat) (m : SubscriptionManifest) : frame unit :=
  await (st_subscribe (stock_subscriptions m)) ;;
  _run_sdk_stream fuel (adapter_payload [("feed", PStr "sip"); ("manifest_version", PInt (sm_version m))]%string).
Definition run_news_stream (fuel : nat) (symbols : list string) : frame unit :=
  await (st_subscribe (news_subscriptions symbols)) ;;
  _run_sdk_stream fuel (adapter_payload [("symbols"%string, PSeq (map PStr symbols))]).
Definition run_trade_update_stream (fuel : nat) (paper : bool) : frame unit :=
  await (st_subscribe update_subscriptions) ;;
  _run_sdk_stream fuel (adapter_payload [("paper"%string, PBool paper)]).
End adapter.

(** ** The lifecycle events of a run *)

(** [st_left w]: how many sleeps, at most, until the stream's thread ends. *)
Class StreamLaws (W : Type) `{Sink W} `{StreamWorld W} := {
  st_left : W → nat;
  tl_done w : (st_runner_done w).1 = Ok (bool_decide (st_left w = 0%nat)) ∨ (st_runner_done w).1 = Ok true;
  tl_done_left w : (st_left (st_runner_done w).2 <= st_left w)%nat;
  tl_running_left w : (st_left (st_running w).2 <= st_left w)%nat;
  tl_time_left w : (st_left (st_time w).2 <= st_left w)%nat;
  tl_now_left w : (st_left (sk_now w).2 <= st_left w)%nat;
  tl_submit_left e w : (st_left (sk_submit e w).2 <= st_left w)%nat;
  tl_sleep_left w : (st_left (st_sleep w).2 <= Nat.pred (st_left w))%nat;
  tl_start_left w : (st_left (st_start_runner w).2 <= st_left w)%nat;
  tl_set_left b w : (st_left (st_set_stop_requested b w).2 <= st_left w)%nat;
  (** gather(.., return_exceptions=True) raises no exception of the runner. *)
  tl_cancel w e : (st_cancel_runner w).1 = Err e → e = cancelled_error;
}.

Definition bracket (g : Z) : list (EventType * Z) := [(RE_STREAM_CONNECTED, g); (RE_STREAM_DISCONNECTED, g)].
(** Connected and disconnected, once for each generation up to the [n]-th. *)
Definition brackets (n : Z) : list (EventType * Z) := concat (map bracket (seqZ 1 n)).
Definition lifecycle (l : list (EventType * Z)) : list (EventType * Z) := filter (λ x, x.1 ≠ RE_ERROR) l.
Definition error_count (l : list (EventType * Z)) : nat := length (filter (λ x, x.1 = RE_ERROR) l).
(** What the lifecycle events are while the stream is connected or not. *)
Definition history (l : Locals) : list (EventType * Z) :=
  if lv_connected l then brackets (lv_generation l - 1) ++ [(RE_STREAM_CONNECTED, lv_generation l)]
  else brackets (lv_generation l).

Definition told (errors : nat) (l : Locals) : Prop :=
  lv_refused l = false →
  0 <= lv_generation l ∧ (lv_connected l = true → 1 <= lv_generation l) ∧ lifecycle (lv_emitted l) = history l ∧
  error_count (lv_emitted l) = errors.

Lemma lifecycle_app l k : lifecycle (l ++ k) = lifecycle l ++ lifecycle k.
Proof. apply filter_app. Qed.
Lemma error_count_app l k : error_count (l ++ k) = (error_count l + error_count k)%nat.
Proof. unfold error_count. by rewrite filter_app, length_app. Qed.
Lemma lifecycle_one kind g : lifecycle [(kind, g)] = if decide (kind = RE_ERROR) then [] else [(kind, g)].
Proof. unfold lifecycle. rewrite filter_cons, filter_nil. cbn [fst]. by destruct (decide (kind = RE_ERROR)), (decide (kind ≠ RE_ERROR)). Qed.
Lemma error_count_one kind g : error_count [(kind, g)] = if decide (kind = RE_ERROR) then 1%nat else 0%nat.
Proof. unfold error_count. rewrite filter_cons, filter_nil. cbn [fst]. by destruct (decide (kind = RE_ERROR)). Qed.
Lemma brackets_next n : 0 <= n → brackets (n + 1) = brackets n ++ bracket (n + 1).
Proof.
  intros Hn. unfold brackets. rewrite seqZ_app by lia. rewrite map_app, concat_app. f_equal.
  replace (1 + n) with (n + 1) by lia. by rewrite seqZ_cons by lia.
Qed.

Create HintDb leaves.

Section lifecycle.
Context `{EventUuid} `{NewYork} {W : Type} `{StreamLaws W}.
Variable adapter : StreamAdapter.

Definition telling (errors : nat) (s : W * Locals) : Prop := told errors s.2.

Lemma triple_frame {A} (m : eff W A) (P : W * Locals → Prop) :
  (∀ w w' l, P (w, l) → P (w', l)) → triple P (await m) (λ _, P) (λ _, P).
Proof. intros HP [w l] Hs. unfold await. cbn [fst snd]. destruct (m w) as [[a|e] w']; by eapply HP. Qed.
Lemma triple_await {A} (m : eff W A) n : triple (telling n) (await m) (λ _, telling n) (λ _, telling n).
Proof. by apply triple_frame. Qed.

(** An emission that returned. *)
Lemma told_emitted n kind l :
  lv_refused (emitted kind true l) = false → told n l →
  0 <= lv_generation l ∧ (lv_connected l = true → 1 <= lv_generation l) ∧
  lifecycle (lv_emitted (emitted kind true l))
    = history l ++ (if decide (kind = RE_ERROR) then [] else [(kind, lv_generation l)]) ∧
  error_count (lv_emitted (emitted kind true l)) = (n + if decide (kind = RE_ERROR) then 1 else 0)%nat.
Proof.
  unfold emitted. cbn [lv_refused lv_emitted negb]. rewrite orb_false_r. intros Hr Ht.
  destruct (Ht Hr) as (? & ? & Hl & He).
  by rewrite lifecycle_app, Hl, error_count_app, He, lifecycle_one, error_count_one.
Qed.

(** A disconnection told while connected, and then noted. *)
Lemma told_disconnected n l :
  told n l → lv_connected l = true → told n (disconnect (emitted RE_STREAM_DISCONNECTED true l)).
Proof.
  intros Ht Hc Hr. destruct (told_emitted n RE_STREAM_DISCONNECTED l Hr Ht) as (? & Hg & Hl & He).
  specialize (Hg Hc). rewrite decide_False in Hl by done. rewrite decide_False in He by done. split_and!; [done | done| |].
  - etrans; [exact Hl|]. unfold history. rewrite Hc.
    rewrite <- app_assoc.
    pose proof (brackets_next (lv_generation l - 1) ltac:(lia)) as E.
    replace (lv_generation l - 1 + 1) with (lv_generation l) in E by lia. symmetry. exact E.
  - etrans; [exact He | lia].
Qed.
Lemma told_connected n l :
  told n l → lv_connected l = false → told n (emitted RE_STREAM_CONNECTED true (connect l)).
Proof.
  intros Ht Hc Hr. unfold emitted in Hr. cbn in Hr. rewrite orb_false_r in Hr.
  destruct (Ht Hr) as (? & _ & Hl & He). unfold told, emitted, history in *. cbn [lv_generation lv_connected lv_emitted connect].
  rewrite Hc in Hl. split_and!; [lia | lia| |].
  - rewrite lifecycle_app, Hl, lifecycle_one, decide_False by done. by replace (lv_generation l + 1 - 1) with (lv_generation l) by lia.
  - rewrite error_count_app, He, error_count_one, decide_False by done. lia.
Qed.
Lemma told_error n l : told n l → told (S n) (emitted RE_ERROR true l).
Proof.
  intros Ht Hr. destruct (told_emitted n RE_ERROR l Hr Ht) as (? & ? & Hl & He). rewrite decide_True in Hl by done. rewrite decide_True in He by done.
  rewrite app_nil_r in Hl. split_and!; [done | done | exact Hl | etrans; [exact He | lia]].
Qed.
Lemma told_refused n kind l : told n (emitted kind false l).
Proof. intros Hr. cbn in Hr. by rewrite orb_true_r in Hr. Qed.

Lemma observe_stream_tells base n : triple (telling n) (observe_stream adapter base) (λ _, telling n) (λ _, telling n).
Proof.
  eapply triple_bind; [apply triple_await|]. intros running [w l] Hs.
  unfold locals, gets. rewrite eff_bind_unfold. cbn [fst snd]. unfold telling in Hs; cbn [snd] in Hs.
  destruct running, (lv_connected l) eqn:Hc; cbn [andb negb]; [done| | |done].
  - rewrite eff_bind_unfold. unfold assign, modify, emit_event. cbn [fst snd].
    destruct (_emit_system _ _ _ w) as [[u|e] w']; cbn [is_ok]; [by apply told_connected | apply told_refused].
  - rewrite eff_bind_unfold. unfold emit_event. cbn [fst snd].
    destruct (_emit_system _ _ _ w) as [[u|e] w']; cbn [is_ok]; [|apply told_refused].
    unfold assign, modify. cbn [fst snd]. by apply told_disconnected.
Qed.

Lemma watch_tells fuel base deadline n :
  triple (telling n) (watch adapter fuel base deadline) (λ _, telling n) (λ _, telling n).
Proof.
  induction fuel as [|fuel IH]; [by intros s Hs|]. cbn [watch].
  eapply triple_bind; [apply triple_await|]. intros [].
  - unfold runner_ended. eapply triple_bind; [apply triple_await|]. intros ?.
    eapply triple_bind; [apply triple_await|]. intros stopped [w l] Hs. unfold locals, gets. rewrite eff_bind_unfold.
    cbn [fst snd]. by destruct stopped.
  - eapply triple_bind; [apply observe_stream_tells|]. intros ?. eapply triple_bind; [|intros ?; eapply triple_bind; [apply triple_await | by intros ?]].
    unfold check_deadline. intros [w l] Hs. unfold locals, gets. rewrite eff_bind_unfold. cbn [fst snd].
    destruct (lv_ever_connected l); [done|]. rewrite eff_bind_unfold. unfold await. cbn [fst snd].
    destruct (st_time w) as [[now|e] w']; [|done]. by destruct (deadline <=? now).
Qed.

Definition error_told (e : exn) : nat := if is_cancelled e then 0 else 1.
Lemma with_error_event_tells fuel base deadline :
  triple (telling 0) (with_error_event adapter fuel base deadline) (λ _, telling 0)
    (λ e s, telling (error_told e) s).
Proof.
  intros s Hs. pose proof (watch_tells fuel base deadline 0 s Hs) as Hw. unfold with_error_event, try_except.
  destruct (watch adapter fuel base deadline s) as [[u|e] [w l]]; [done|].
  destruct (is_cancelled e) eqn:Hc; [unfold error_told; by rewrite Hc|].
  rewrite eff_bind_unfold. unfold emit_event. cbn [fst snd].
  destruct (_emit_system _ _ _ w) as [[u|e'] w']; cbn [is_ok]; [|apply told_refused].
  unfold raise, error_told. rewrite Hc. by apply told_error.
Qed.

(** After the finally block: every generation is disconnected, unless the block
    itself was cancelled. *)
Definition closed (n : nat) (l : Locals) : Prop :=
  lv_refused l = false → lifecycle (lv_emitted l) = brackets (lv_generation l) ∧ error_count (lv_emitted l) = n.
Lemma last_disconnection n (s : W * Locals) :
  telling n s →
  let '(r, s') := (if lv_connected s.2 then emit_event adapter RE_STREAM_DISCONNECTED (disconnected_payload adapter "adapter_stopped")
                   else mret tt) s in
  closed n s'.2 ∧ (is_ok r = false → lv_refused s'.2 = true).
Proof.
  destruct s as [w l]. unfold telling. cbn [snd]. intros Ht. destruct (lv_connected l) eqn:Hc.
  - unfold emit_event. cbn [fst snd]. destruct (_emit_system _ _ _ w) as [[u|e] w']; cbn [is_ok snd].
    + split; [|done]. intros Hr. destruct (told_disconnected n l Ht Hc Hr) as (_ & _ & Hl & He). by split.
    + split; [intros Hr|intros _]; cbn in *; rewrite orb_true_r in *; done.
  - cbn. split; [|done]. intros Hr. destruct (Ht Hr) as (_ & _ & Hl & He). unfold history in Hl. rewrite Hc in Hl. by split.
Qed.

Definition wound (n : nat) (r : result unit) (l : Locals) : Prop :=
  lv_refused l = false →
  error_count (lv_emitted l) = n ∧
  match r with
  | Ok _ => lifecycle (lv_emitted l) = brackets (lv_generation l)
  | Err e => e = cancelled_error ∧ lifecycle (lv_emitted l) = history l
  end.
Definition stop_runner : eff (W * Locals) unit :=
  try_except (await stop_adapter ;; await st_wait_runner)
    (λ e, if is_cancelled e then None else Some (await st_cancel_runner)).
Lemma stop_runner_outcome s :
  let '(o, s') := stop_runner s in s'.2 = s.2 ∧ ∀ e, o = Err e → e = cancelled_error.
Proof.
  unfold stop_runner, try_except. rewrite eff_bind_unfold. unfold await.
  assert (∀ w : W, let '(o, w') := st_cancel_runner w in ∀ e, o = Err e → e = cancelled_error) as Hc.
  { intros w. pose proof (tl_cancel w) as Hc. by destruct (st_cancel_runner w). }
  assert (∀ e (w : W), let '(o, s') := match (if is_cancelled e then None else Some (await st_cancel_runner)) with
      Some k => k (w, s.2) | None => (Err e, (w, s.2)) end in s'.2 = s.2 ∧ ∀ e', o = Err e' → e' = cancelled_error) as Hh.
  { intros e w. destruct (is_cancelled e) eqn:E.
    - split; [done|]. intros e' [= <-]. by apply bool_decide_eq_true in E.
    - unfold await. cbn [fst snd]. specialize (Hc w). destruct (st_cancel_runner w) as [o w']. by split. }
  destruct (stop_adapter s.1) as [[[]|e] w]; cbn [fst snd]; [|apply Hh].
  destruct (st_wait_runner w) as [[[]|e] w']; [by split | apply Hh].
Qed.

Lemma wind_down_closes n s : telling n s → let '(r, s') := wind_down adapter s in wound n r s'.2.
Proof.
  intros Hs. unfold wind_down. rewrite eff_bind_unfold. unfold await at 1.
  pose proof (tl_done s.1) as Hd. destruct (st_runner_done s.1) as [[ended|e] w]; [|by destruct Hd].
  clear Hd. fold stop_runner. rewrite eff_bind_unfold.
  assert (let '(o, s') := (if ended then mret tt else stop_runner) (w, s.2) in
          s'.2 = s.2 ∧ ∀ e, o = Err e → e = cancelled_error) as Hm by (destruct ended; [done | exact (stop_runner_outcome (w, s.2))]).
  destruct ((if ended then mret tt else stop_runner) (w, s.2)) as [[[]|e] s1]; destruct Hm as [E He].
  - unfold locals, gets. rewrite eff_bind_unfold. assert (telling n s1) as Ht by (unfold telling; by rewrite E).
    pose proof (last_disconnection n s1 Ht) as Hl.
    match goal with |- context [(if lv_connected s1.2 then ?a else ?b) s1] =>
      destruct ((if lv_connected s1.2 then a else b) s1) as [[[]|e] s2] end; destruct Hl as [Hl Hr]; intros Hf.
    + destruct (Hl Hf). by split.
    + by rewrite Hr in Hf.
  - unfold telling in Hs. rewrite <- E in Hs. intros Hf. destruct (Hs Hf) as (_ & _ & Hl & Hn). split; [done|]. split; [by apply He | done].
Qed.

(** ** Fuel *)

Definition leaves {A} (m : eff (W * Locals) A) : Prop := ∀ s, (st_left (m s).2.1 <= st_left s.1)%nat.
Lemma leaves_bind {A B} (m : eff (W * Locals) A) (f : A → eff (W * Locals) B) :
  leaves m → (∀ a, leaves (f a)) → leaves (m ≫= f).
Proof.
  intros Hm Hf s. specialize (Hm s). rewrite eff_bind_unfold. destruct (m s) as [[a|e] s']; [|done].
  etrans; [apply Hf | done].
Qed.
Lemma leaves_await {A} (m : eff W A) : (∀ w, (st_left (m w).2 <= st_left w)%nat) → leaves (await m).
Proof. intros Hm s. unfold await. specialize (Hm s.1). by destruct (m s.1). Qed.
Lemma leaves_emit_event kind payload : leaves (emit_event adapter kind payload).
Proof.
  intros [w l]. unfold emit_event, _emit_system. cbn [fst snd]. rewrite eff_bind_unfold. pose proof (tl_now_left w) as Hn.
  destruct (sk_now w) as [[now|e] w1]; [|done]. rewrite eff_bind_unfold. unfold lift.
  destruct (create _ _ _ _ _ _ _ _ _ _ _) as [event|e]; [|done]. pose proof (tl_submit_left event w1) as Hsub.
  destruct (sk_submit event w1) as [o w2]. cbn in *. lia.
Qed.

Lemma leaves_ret {A} (a : A) : leaves (mret a). Proof. by intros s. Qed.
Lemma leaves_locals : leaves locals. Proof. by intros s. Qed.
Lemma leaves_assign f : leaves (assign f). Proof. by intros s. Qed.
Lemma leaves_raise {A} e : leaves (raise e : eff _ A). Proof. by intros s. Qed.
#[local] Hint Resolve leaves_ret leaves_locals leaves_assign leaves_raise leaves_emit_event leaves_await : leaves.
#[local] Hint Resolve tl_running_left tl_time_left : leaves.

Lemma look_leaves base deadline : leaves (observe_stream adapter base ;; check_deadline adapter deadline).
Proof.
  unfold observe_stream, check_deadline.
  repeat first [apply leaves_bind; [|intros ?] | case_match | solve [auto with leaves]].
Qed.

Definition told_returned (l : Locals) : Prop :=
  lv_refused l = false → lifecycle (lv_emitted l) = brackets (lv_generation l) ∧ error_count (lv_emitted l) = 0%nat.
Definition told_raised (e : exn) (l : Locals) : Prop :=
  lv_refused l = false →
  (lifecycle (lv_emitted l) = brackets (lv_generation l) ∨ e = cancelled_error ∧ lifecycle (lv_emitted l) = history l) ∧
  (e ≠ cancelled_error → error_count (lv_emitted l) = 1%nat ∨ lv_emitted l = []).
Lemma fresh_step {A B} (m : eff W A) (f : A → eff (W * Locals) B) (Q : B → W * Locals → Prop) :
  (∀ a, triple (λ s, s.2 = fresh_locals) (f a) Q (λ e s, told_raised e s.2)) →
  triple (λ s, s.2 = fresh_locals) (await m ≫= f) Q (λ e s, told_raised e s.2).
Proof.
  intros Hf [w l] E. cbn [snd] in E. subst l. rewrite eff_bind_unfold. unfold await. cbn [fst snd].
  destruct (m w) as [[a|e] w']; [by apply Hf|]. intros _. split; [by left | by right].
Qed.
Lemma run_tells fuel base :
  triple (λ s, s.2 = fresh_locals) (_run_sdk_stream adapter fuel base) (λ _ s, told_returned s.2)
    (λ e s, told_raised e s.2).
Proof.
  unfold _run_sdk_stream. do 2 (apply fresh_step; intros ?). apply fresh_step. intros start [w l] E. cbn [snd] in E. subst l.
  rewrite eff_bind_unfold. unfold observe.
  pose proof (with_error_event_tells fuel base (start + sa_connect_timeout adapter) (w, fresh_locals)) as Hg.
  assert (telling 0 (w, fresh_locals)) as Hfresh by (intros _; by split_and!). specialize (Hg Hfresh).
  destruct (with_error_event adapter fuel base _ (w, fresh_locals)) as [o s]. cbn [fst snd].
  set (n := match o with Ok _ => 0%nat | Err e => error_told e end).
  assert (telling n s) as Ht by (by destruct o). pose proof (wind_down_closes n s Ht) as Hw. rewrite eff_bind_unfold.
  destruct (wind_down adapter s) as [[u|e] s']; unfold lift.
  - destruct o as [u'|e]; intros Hr; destruct (Hw Hr) as [Hn Hl]; [by split|].
    split; [by left|]. intros Hne. left. rewrite Hn. unfold n, error_told, is_cancelled. by rewrite bool_decide_false.
  - intros Hr. destruct (Hw Hr) as (Hn & -> & Hl). split; [by right | done].
Qed.

(** A run with more fuel than the stream's thread lasts looks is the run with
    any more. *)
Lemma watch_enough fuel more base deadline s :
  (st_left s.1 < fuel)%nat → watch adapter (fuel + more) base deadline s = watch adapter fuel base deadline s.
Proof.
  revert s. induction fuel as [|fuel IH]; intros s Hf; [lia|]. cbn [watch Nat.add].
  rewrite !eff_bind_unfold. unfold await at 1 3. pose proof (tl_done s.1) as Hd. pose proof (tl_done_left s.1) as Hl.
  destruct (st_runner_done s.1) as [[ended|e] w]; [|done]. cbn [fst snd] in *. destruct ended; [done|].
  assert (st_left s.1 ≠ 0%nat) as Hne by (intros Hz; destruct Hd as [Hd|Hd]; [rewrite bool_decide_true in Hd by done|]; discriminate).
  pose proof (look_leaves base deadline (w, s.2)) as Hk. rewrite eff_bind_unfold in Hk. rewrite !eff_bind_unfold.
  destruct (observe_stream adapter base (w, s.2)) as [[u|e] s1]; [|done]. rewrite !eff_bind_unfold.
  destruct (check_deadline adapter deadline s1) as [[u'|e] s2]; [|done]. rewrite !eff_bind_unfold.
  unfold await. pose proof (tl_sleep_left s2.1) as Hsl. destruct (st_sleep s2.1) as [[u''|e] w']; [|done].
  cbn in *. apply IH. cbn. lia.
Qed.
End lifecycle.


(** ** A stream that drops once and is stopped *)

(** The world counts the looks left; the flag is set at even counts. *)
#[local] Instance demo_sink : Sink nat :=
  {| sk_submit := λ _, mret tt; sk_record_failure := λ _, mret tt; sk_now := mret 1767623400000000;
     sk_failure_id := mret "failure"%string; sk_repr := λ _, (""%string, ""%string) |}.
#[local] Instance demo_stream : StreamWorld nat :=
  {| st_subscribe := λ _, mret tt; st_start_runner := mret tt; st_runner_done := gets (λ n, bool_decide (n = 0%nat)); st_await_runner := mret tt;
     st_running := gets Nat.even; st_time := mret 0; st_sleep := modify Nat.pred; st_stop_stream := mret tt;
     st_wait_runner := mret tt; st_cancel_runner := mret tt; st_stop_requested := mret true;
     st_set_stop_requested := λ _, mret tt |}.
#[local] Instance demo_laws : StreamLaws nat.
Proof. refine {| st_left := λ n, n |}; try by intros; cbn. intros w. by left. Defined.
#[local] Instance demo_uuid : EventUuid := λ s, s.
#[local] Instance demo_offset : NewYork := λ _, -5 * HOUR.
Definition demo_adapter : StreamAdapter :=
  {| sa_type_name := "AlpacaNewsStreamAdapter"; sa_ingest_session_id := "session"; sa_connection_id := "connection";
     sa_channel := "news"; sa_connect_timeout := 20 * SECOND; sa_timeout_text := "20.0" |}.
Example dropped_once :
  let '(r, (_, l)) := _run_sdk_stream demo_adapter 5 [] (4%nat, fresh_locals) in
  r = Ok tt ∧ lv_emitted l = [(RE_STREAM_CONNECTED, 1); (RE_STREAM_DISCONNECTED, 1); (RE_STREAM_CONNECTED, 2);
                             (RE_STREAM_DISCONNECTED, 2)].
Proof. vm_compute. by split. Qed.

