(* ===== verification/Capture.v ===== *)
(** * Capture: the recorder's capture session

    daybreak_recorder/orchestration/calendar.py and service.py.  The streams,
    the pollers, the writer and the timers are tasks of one event loop; what
    they do between two awaits of [run_capture] is the world's, the session
    kept in the repository is the service's. *)
From Stdlib Require Import Ascii String.
From S2P Require Import Prelude Numerics PyStr PyTime Contracts Stores Canonical RiskModels OrchModels RecorderModels RecorderStore PyVal BatchWriter RecorderAdapters SecPoller StreamAdapter.

#[local] Open Scope Z_scope.

(** ** The capture window *)

Record MarketSessionSchedule := {
  ms_trading_date : date;
  ms_regular_open : Z;
  ms_regular_close : Z;
}.
(** validate_market_hours. *)
Definition MarketSessionSchedule_ok (s : MarketSessionSchedule) : bool := ms_regular_open s <? ms_regular_close s.

Record CaptureWindow := {
  cw_trading_date : date;
  cw_start_at : datetime;
  cw_stop_at : datetime;
  cw_regular_open_at : datetime;
  cw_regular_close_at : datetime;
}.
(** validate_window. *)
Definition CaptureWindow_ok (w : CaptureWindow) : bool := cw_start_at w <? cw_stop_at w.

Record RecorderSettings := {
  cs_configuration_hash : string;
  cs_capture_start_et : Z;
  cs_capture_stop_et : Z;
  cs_preconnect_lead : Z;           (* seconds *)
  cs_wildcard_minute_bars : bool;
  cs_wildcard_trading_statuses : bool;
  cs_tick_symbols : list string;
  cs_news_symbols : list string;
  cs_shutdown_timeout : string;     (* as it prints *)
}.

Section calendar.
Context `{NewYork} `{NewYorkWall} {W : Type}.
Variable settings : RecorderSettings.

(** [datetime.combine(.., tzinfo=..)] is a time of the wall; the sum and the
    minimum are the wall's. *)
Definition wall_at (d : date) (local_time : Z) : Z := days_of_civil d * DAY + local_time.
Definition from_wall (wall : Z) : datetime := wall - ny_wall_offset wall.
Definition resolve_window (schedule : MarketSessionSchedule) : result CaptureWindow :=
  let at_time := wall_at (ms_trading_date schedule) in
  let close_grace := at_time (ms_regular_close schedule) + 5 * MINUTE in
  let w := {| cw_trading_date := ms_trading_date schedule; cw_start_at := from_wall (at_time (cs_capture_start_et settings));
              cw_stop_at := from_wall (Z.min (at_time (cs_capture_stop_et settings)) close_grace);
              cw_regular_open_at := from_wall (at_time (ms_regular_open schedule));
              cw_regular_close_at := from_wall (at_time (ms_regular_close schedule)) |} in
  if CaptureWindow_ok w then Ok w else Err (EValidation "CaptureWindow").
(** [now or datetime.now(UTC)] is the argument. *)
Definition local_date (now : datetime) : date := ny_date now.
Definition resolve_today (get_session : date → eff W (option MarketSessionSchedule)) (now : datetime)
    : eff W (option CaptureWindow) :=
  schedule ← get_session (local_date now);
  match schedule with Some s => w ← lift (resolve_window s); mret (Some w) | None => mret None end.
Definition preconnect_at (w : CaptureWindow) : datetime := cw_start_at w - cs_preconnect_lead settings * SECOND.
(** wait_until_preconnect, wait_until_start, wait_until_stop and _sleep_until. *)
Definition capture_wait_until (sleep : flt → eff W unit) (at_ now : datetime) : eff W unit :=
  let delay := total_seconds (at_ - now) in if flt.gtb_Z delay 0 then sleep delay else mret tt.
End calendar.

(** ** run_capture *)

(** What [asyncio.wait] of the services, the timer and the external stop saw
    first: a service that is done, with its outcome, or a stop. *)
Inductive Finished := FI_SERVICE (outcome : result unit) | FI_STOP.

(** The results that [gather(.., return_exceptions=True)] returns in time; None:
    the wait timed out. *)
Abbreviation gathered := (option (list (result unit))).

Class CaptureWorld (W : Type) := {
  cp_repository : W → RawEventRepository;
  cp_with : RawEventRepository → W → W;
  cp_open : eff W unit;
  cp_close : eff W unit;
  cp_now : eff W datetime;
  cp_fresh_id : eff W string;
  cp_host_name : string;
  cp_process_id : Z;
  cp_writer_start : eff W unit;
  cp_submit_and_wait : RawEvent → eff W unit;
  cp_writer_stop : eff W unit;
  cp_writer_abort : exn → eff W unit;
  cp_stats : W → WriterStats;
  cp_stream_factory : string → SubscriptionManifest → eff W nat;   (* how many *)
  cp_polling_factory : string → eff W nat;
  cp_wait : eff W Finished;
  cp_end_auxiliary : eff W unit;                (* cancel and gather the timer and the external wait *)
  cp_stop_streams : eff W gathered;
  cp_settle : bool → eff W gathered;            (* the stream tasks, or the poller tasks *)
  cp_cancel_tasks : bool → eff W unit;
}.

Record RecorderSessionResult := {
  rr_ingest_session_id : string;
  rr_status : SessionStatus;
  rr_started_at : datetime;
  rr_ended_at : datetime;
  rr_writer_submitted : Z;
  rr_writer_persisted : Z;
  rr_writer_duplicates : Z;
  rr_error_message : option string;
}.

(** The local variables that the finally block reads. *)
Record CaptureLocals := {
  cl_streams : nat;
  cl_stream_tasks : nat;
  cl_poller_tasks : nat;
  cl_timer : bool;
}.
Definition no_tasks : CaptureLocals := {| cl_streams := 0; cl_stream_tasks := 0; cl_poller_tasks := 0; cl_timer := false |}.
Definition with_streams (n : nat) : CaptureLocals :=
  {| cl_streams := n; cl_stream_tasks := 0; cl_poller_tasks := 0; cl_timer := false |}.
Definition with_tasks (n k : nat) : CaptureLocals :=
  {| cl_streams := n; cl_stream_tasks := n; cl_poller_tasks := k; cl_timer := true |}.

(** The first [n] characters. *)
Fixpoint take_characters (n : nat) (l : chars) : chars :=
  match l with
  | [] => []
  | c :: l' =>
      if continuation c then c :: take_characters n l'
      else match n with O => [] | S n' => c :: take_characters n' l' end
  end.
Definition _format_errors (errors : list string) : option string :=
  match errors with
  | [] => None
  | _ => Some (string_of_list_ascii (take_characters 4096 (list_ascii_of_string (String.concat "; " errors))))
  end.

Section capture.
Context `{EventUuid} `{NewYork} `{Dump SubscriptionManifest} {W : Type} `{CaptureWorld W}.
Variable settings : RecorderSettings.
Variable window : CaptureWindow.

Abbreviation frame A := (eff (W * CaptureLocals) A).
Definition inner {A} (m : eff W A) : frame A := λ s, let '(a, w) := m s.1 in (a, (w, s.2)).
Definition set_locals (l : CaptureLocals) : frame unit := modify (λ s, (s.1, l)).
Definition in_repository {A} (m : eff RawEventRepository A) : eff W A := λ w,
  let '(a, s) := m (cp_repository w) in (a, cp_with s w).

Definition capture_session (id : string) (started_at : datetime) : result IngestSession :=
  let s := {| ig_ingest_session_id := id; ig_trading_date := cw_trading_date window;
              ig_scheduled_start := cw_start_at window; ig_scheduled_stop := cw_stop_at window;
              ig_started_at := started_at; ig_ended_at := None; ig_status := RT_RUNNING;
              ig_configuration_hash := cs_configuration_hash settings; ig_host_name := cp_host_name;
              ig_process_id := cp_process_id; ig_error_message := None |} in
  if IngestSession_ok s then Ok s else Err (EValidation "IngestSession").
Definition capture_manifest (manifest_id id : string) (started_at : datetime) : result SubscriptionManifest :=
  let m := {| sm_manifest_id := manifest_id; sm_ingest_session_id := id; sm_version := 1; sm_effective_at := started_at;
              sm_wildcard_minute_bars := cs_wildcard_minute_bars settings;
              sm_wildcard_trading_statuses := cs_wildcard_trading_statuses settings;
              sm_tick_symbols := cs_tick_symbols settings; sm_news_symbols := cs_news_symbols settings;
              sm_configuration_hash := cs_configuration_hash settings |} in
  if SubscriptionManifest_ok m then Ok m else Err (EValidation "SubscriptionManifest").
Definition manifest_event (m : SubscriptionManifest) : result RawEvent :=
  create (sm_ingest_session_id m) (sm_manifest_id m) RO_SYSTEM "subscription_manifest" RE_SUBSCRIPTION_MANIFEST
    (sm_effective_at m) (sm_effective_at m) (dump m) [] None None.

(** The try block; [polled]: there is a polling factory. *)
Definition capture_body (m : SubscriptionManifest) (polled partial_capture : bool) : frame SessionStatus :=
  inner (in_repository (raw_events.save_manifest m)) ;;
  inner cp_writer_start ;;
  event ← lift (manifest_event m);
  inner (cp_submit_and_wait event) ;;
  streams ← inner (cp_stream_factory (sm_ingest_session_id m) m);
  set_locals (with_streams streams) ;;
  if (streams =? 0)%nat then raise (ERuntime "at least one required stream must be configured") else
  pollers ← (if polled then inner (cp_polling_factory (sm_ingest_session_id m)) else mret 0%nat);
  set_locals (with_tasks streams pollers) ;;
  finished ← inner cp_wait;
  match finished with
  | FI_SERVICE (Err e) =>
      if is_cancelled e then raise cancelled_error else raise (ERuntime "a required ingestion service failed")
  | FI_SERVICE (Ok _) => raise (ERuntime "a required ingestion service ended before the capture stop")
  | FI_STOP => mret (if partial_capture then RT_COMPLETED_PARTIAL else RT_COMPLETED)
  end.

(** The messages of the results that are errors. *)
Definition gathered_failures (prefix : string) (counts : exn → bool) (l : list (result unit)) : list string :=
  omap (λ r, match r with Err e => if counts e then Some (prefix +:+ exn_message e) else None | Ok _ => None end) l.
Definition _stop_streams (n : nat) : eff W (list string) :=
  match n with
  | O => mret []
  | _ =>
      r ← cp_stop_streams;
      match r with
      | None => mret ["stream stop timeout: one or more stream adapters did not stop within "
                        +:+ cs_shutdown_timeout settings +:+ " seconds"]%string
      | Some l => mret (gathered_failures "stream stop failed: " (λ _, true) l)
      end
  end.
Definition _settle_tasks (pollers : bool) (n : nat) (label : string) : eff W (list string) :=
  match n with
  | O => mret []
  | _ =>
      r ← cp_settle pollers;
      match r with
      | None =>
          cp_cancel_tasks pollers ;;
          mret [label +:+ " shutdown timeout after " +:+ cs_shutdown_timeout settings +:+ " seconds"]%string
      | Some l => mret (gathered_failures (label +:+ " failed during shutdown: ") (λ e, negb (is_cancelled e)) l)
      end
  end.
Definition stop_writer : eff W (list string) :=
  try_except (cp_writer_stop ;; mret [])
    (λ e, if is_cancelled e then None
          else Some (cp_writer_abort e ;; mret ["writer shutdown failed: " +:+ exn_message e]%string)).
(** The finally block, up to the writer: its errors. *)
Definition shutdown (l : CaptureLocals) : eff W (list string) :=
  (if cl_timer l then cp_end_auxiliary else mret tt) ;;
  stopped ← _stop_streams (cl_streams l);
  streams ← _settle_tasks false (cl_stream_tasks l) "stream tasks";
  pollers ← _settle_tasks true (cl_poller_tasks l) "poller tasks";
  writer ← stop_writer;
  mret (stopped ++ streams ++ pollers ++ writer).

(** The handlers: the status, the errors and the cancellation. *)
Definition body_verdict (o : result SessionStatus) : SessionStatus * list string * option exn :=
  match o with
  | Ok status => (status, [], None)
  | Err e =>
      if is_cancelled e then (RT_FAILED, ["CancelledError: recorder task was cancelled"%string], Some e)
      else (RT_FAILED, [describe e], None)
  end.
Definition try_body (m : SubscriptionManifest) (polled partial_capture : bool)
    : eff W (result SessionStatus * CaptureLocals) := λ w,
  let '(o, (w', l)) := capture_body m polled partial_capture (w, no_tasks) in (Ok (o, l), w').

(** The rest of the finally block: the session's record, and the close, whatever
    happens to it. *)
Definition record_end (id : string) (status : SessionStatus) (ended_at : datetime) (error : option string) : eff W unit :=
  finished ← observe (in_repository (raw_events.finish_session id status ended_at error));
  cp_close ;;
  lift finished.

(** [run_capture], from the try statement on. *)
Definition supervise (polled : bool) (session : IngestSession) (manifest : SubscriptionManifest)
    : eff W RecorderSessionResult :=
  let id := ig_ingest_session_id session in
  let started_at := ig_started_at session in
  '(outcome, locals) ← try_body manifest polled (cw_start_at window <? started_at);
  let '(status, body_errors, cancellation) := body_verdict outcome in
  more ← shutdown locals;
  let errors := body_errors ++ more in
  let status := match errors with [] => status | _ => RT_FAILED end in
  ended_at ← cp_now;
  let error_message := _format_errors errors in
  record_end id status ended_at error_message ;;
  match cancellation with
  | Some e => raise e
  | None =>
      stats ← gets cp_stats;
      mret {| rr_ingest_session_id := id; rr_status := status; rr_started_at := started_at; rr_ended_at := ended_at;
              rr_writer_submitted := ws_submitted stats; rr_writer_persisted := ws_persisted stats;
              rr_writer_duplicates := ws_duplicates stats; rr_error_message := error_message |}
  end.
Definition run_capture (polled : bool) : eff W RecorderSessionResult :=
  started_at ← cp_now;
  id ← cp_fresh_id;
  session ← lift (capture_session id started_at);
  manifest_id ← cp_fresh_id;
  manifest ← lift (capture_manifest manifest_id id started_at);
  cp_open ;;
  in_repository (raw_events.create_session session) ;;
  supervise polled session manifest.
End capture.
