(* ===== verification/CaptureContract.v ===== *)
(** * CaptureContract: what the record of a capture session says is true

    The outcomes of [run_capture] of Capture.v against the laws of its world,
    and runs of a small process: a clean one, failed stops, and two ends that
    leave something open. *)
From Stdlib Require Import Ascii String.
From S2P Require Import Prelude Numerics PyStr PyTime Contracts Stores Canonical RiskModels OrchModels RecorderModels RecorderStore PyVal BatchWriter RecorderAdapters SecPoller StreamAdapter Capture.

#[local] Open Scope Z_scope.

(** ** The laws: only the service writes the sessions *)

Section laws.
Context {W : Type} `{CaptureWorld W}.
Definition sessions (w : W) : gmap string MemorySession := rr_sessions (cp_repository w).
Definition steady (w w' : W) : Prop := sessions w' = sessions w.
#[export] Instance steady_preorder : PreOrder steady.
Proof. split; [by intros w|]. intros w1 w2 w3 E1 E2. unfold steady in *. congruence. Qed.
End laws.

Class CaptureLaws (W : Type) `{CaptureWorld W} : Prop := {
  kl_with w s : cp_repository (cp_with s w) = s;
  kl_open : evolves steady cp_open;
  kl_close : evolves steady cp_close;
  kl_now : evolves steady cp_now;
  kl_fresh : evolves steady cp_fresh_id;
  kl_start : evolves steady cp_writer_start;
  kl_submit e : evolves steady (cp_submit_and_wait e);
  kl_stop : evolves steady cp_writer_stop;
  kl_abort e : evolves steady (cp_writer_abort e);
  kl_streams id m : evolves steady (cp_stream_factory id m);
  kl_pollers id : evolves steady (cp_polling_factory id);
  kl_wait : evolves steady cp_wait;
  kl_auxiliary : evolves steady cp_end_auxiliary;
  kl_stop_streams : evolves steady cp_stop_streams;
  kl_settle b : evolves steady (cp_settle b);
  kl_cancel b : evolves steady (cp_cancel_tasks b);
}.
Create HintDb capture.
#[export] Hint Resolve kl_open kl_close kl_now kl_fresh kl_start kl_submit kl_stop kl_abort kl_streams kl_pollers kl_wait
  kl_auxiliary kl_stop_streams kl_settle kl_cancel : capture.

Section contract.
Context `{EventUuid} `{NewYork} `{Dump SubscriptionManifest} {W : Type} `{CaptureLaws W}.
Variable settings : RecorderSettings.
Variable window : CaptureWindow.

Definition frame_steady (s s' : W * CaptureLocals) : Prop := steady s.1 s'.1.
#[local] Instance frame_steady_preorder : PreOrder frame_steady.
Proof. split; [by intros s|]. intros s1 s2 s3. unfold frame_steady. apply transitivity. Qed.

Lemma inner_steady {A} (m : eff W A) : evolves steady m → evolves frame_steady (inner m).
Proof. intros Hm s. unfold inner. specialize (Hm s.1). by destruct (m s.1). Qed.
Lemma set_locals_steady l : evolves frame_steady (set_locals (W := W) l).
Proof. by intros s. Qed.
Lemma save_manifest_steady m : evolves steady (in_repository (raw_events.save_manifest m)).
Proof.
  intros w. unfold in_repository, raw_events.save_manifest, steady, sessions. rewrite eff_bind_unfold. unfold gets.
  destruct (existsb _ _); cbn; by rewrite kl_with.
Qed.
Hint Resolve inner_steady set_locals_steady save_manifest_steady : capture.

Ltac steps := repeat first
  [ apply evolves_bind; [apply _|..|intros ?] | apply evolves_ret; apply _ | apply evolves_raise; apply _
  | apply evolves_lift; apply _ | case_match | solve [auto with capture] ].

Lemma capture_body_steady m polled partial : evolves frame_steady (capture_body m polled partial).
Proof. unfold capture_body. steps. Qed.
Lemma try_body_steady m polled partial : evolves steady (try_body m polled partial).
Proof.
  intros w. unfold try_body. pose proof (capture_body_steady m polled partial (w, no_tasks)) as Hb.
  by destruct (capture_body m polled partial (w, no_tasks)) as [o [w' l]].
Qed.
Lemma shutdown_steady l : evolves steady (shutdown settings l).
Proof.
  unfold shutdown, _stop_streams, _settle_tasks, stop_writer. steps.
  apply evolves_try; [apply _ | steps|]. intros e k Hk. destruct (is_cancelled e); [done|].
  injection Hk as <-. steps.
Qed.

Definition running (s : IngestSession) : MemorySession :=
  {| my_session := s; my_status := RT_RUNNING; my_ended_at := None; my_error_message := None |}.
Definition ended_as (s : IngestSession) (status : SessionStatus) (ended_at : datetime) (error : option string) : MemorySession :=
  {| my_session := s; my_status := status; my_ended_at := Some ended_at; my_error_message := error |}.
(** Why a session ended as it did: an error is told, or the stop came before any
    service ended, everything was shut down without an error, and the session
    is complete exactly if it started in time. *)
Definition explained (polled : bool) (started_at : datetime) (status : SessionStatus) (error : option string) : Prop :=
  status = RT_FAILED ∧ is_Some error ∨
  let partial := cw_start_at window <? started_at in
  error = None ∧ status = (if partial then RT_COMPLETED_PARTIAL else RT_COMPLETED) ∧
  ∃ m w1 w2 l w3, capture_body m polled partial (w1, no_tasks) = (Ok status, (w2, l)) ∧
    shutdown settings l w2 = (Ok [], w3).

Lemma capture_session_Ok id t s :
  capture_session settings window id t = Ok s → ig_ingest_session_id s = id ∧ ig_started_at s = t ∧ ig_status s = RT_RUNNING.
Proof. unfold capture_session. destruct (IngestSession_ok _); [|discriminate]. by intros <-%Ok_inj. Qed.

Lemma create_session_outcome s w :
  match in_repository (raw_events.create_session s) w with
  | (Ok _, w') => sessions w !! ig_ingest_session_id s = None ∧
      sessions w' = <[ig_ingest_session_id s := {| my_session := s; my_status := ig_status s; my_ended_at := None;
                                                   my_error_message := None |}]> (sessions w)
  | (Err _, w') => steady w w'
  end.
Proof.
  unfold in_repository, raw_events.create_session. rewrite eff_bind_unfold. unfold gets, steady, sessions.
  destruct (rr_sessions (cp_repository w) !! ig_ingest_session_id s) as [x|] eqn:E; cbn; by rewrite kl_with.
Qed.

Lemma finish_session_outcome s id status ended_at error w :
  sessions w !! id = Some (running s) →
  ∃ w1, in_repository (raw_events.finish_session id status ended_at error) w = (Ok tt, w1) ∧
    sessions w1 = <[id := ended_as s status ended_at error]> (sessions w).
Proof.
  intros Hid. unfold in_repository, raw_events.finish_session. rewrite eff_bind_unfold. unfold gets.
  unfold sessions in Hid. rewrite Hid. eexists. split; [reflexivity|]. unfold sessions. by rewrite kl_with.
Qed.
Lemma record_end_outcome s id status ended_at error w :
  sessions w !! id = Some (running s) →
  let '(o, w') := record_end id status ended_at error w in
  sessions w' = <[id := ended_as s status ended_at error]> (sessions w).
Proof.
  intros (w1 & E1 & E)%(finish_session_outcome s id status ended_at error).
  unfold record_end. rewrite eff_bind_unfold. unfold observe. rewrite E1. cbn [fst snd].
  rewrite eff_bind_unfold. pose proof (kl_close w1) as Hc. unfold steady in Hc.
  destruct (cp_close w1) as [[u|e] w2]; cbn in *; congruence.
Qed.

Lemma body_status m polled partial s status s' :
  capture_body m polled partial s = (Ok status, s') → status = if partial then RT_COMPLETED_PARTIAL else RT_COMPLETED.
Proof.
  unfold capture_body. intros H'.
  repeat match goal with
  | H' : (_ ≫= _) _ = (Ok _, _) |- _ => apply eff_bind_Ok in H' as (? & ? & _ & H')
  end.
  destruct (_ =? 0)%nat; [discriminate|].
  repeat match goal with
  | H' : (_ ≫= _) _ = (Ok _, _) |- _ => apply eff_bind_Ok in H' as (? & ? & _ & H')
  end.
  match goal with H' : context [match ?f with FI_SERVICE _ => _ | FI_STOP => _ end] |- _ => destruct f as [[u|e]|] end;
    [discriminate | by destruct (is_cancelled e) |].
  by injection H'.
Qed.

Lemma format_errors_some x l : is_Some (_format_errors (x :: l)).
Proof. by eexists. Qed.

(** The record of a session at the end of its supervision. *)
Definition recorded_end (polled : bool) (s : IngestSession) (old : gmap string MemorySession) (o : result RecorderSessionResult)
    (w' : W) : Prop :=
  ∃ status ended_at error,
    sessions w' = <[ig_ingest_session_id s := ended_as s status ended_at error]> old ∧
    explained polled (ig_started_at s) status error ∧
    ∀ r, o = Ok r → rr_ingest_session_id r = ig_ingest_session_id s ∧ rr_status r = status ∧
      rr_started_at r = ig_started_at s ∧ rr_ended_at r = ended_at ∧ rr_error_message r = error.
(** Something interrupted the shutdown. *)
Definition interrupted (e : exn) : Prop :=
  (∃ l w1 w2, shutdown settings l w1 = (Err e, w2)) ∨ (∃ w1 w2 : W, cp_now w1 = (Err e, w2)).

Lemma supervise_outcome polled s m w :
  sessions w !! ig_ingest_session_id s = Some (running s) →
  let '(o, w') := supervise settings window polled s m w in
  recorded_end polled s (sessions w) o w' ∨ sessions w' = sessions w ∧ ∃ e, o = Err e ∧ interrupted e.
Proof.
  intros Hid. unfold supervise. rewrite eff_bind_unfold. set (partial := cw_start_at window <? ig_started_at s).
  pose proof (try_body_steady m polled partial w) as Hb. unfold try_body in *.
  destruct (capture_body m polled partial (w, no_tasks)) as [outcome [w1 l]] eqn:Eb. cbn [snd] in Hb. unfold steady in Hb.
  destruct (body_verdict outcome) as [[status body_errors] cancellation] eqn:Ev. cbv zeta. rewrite eff_bind_unfold.
  pose proof (shutdown_steady l w1) as Hs. unfold steady in Hs.
  destruct (shutdown settings l w1) as [[more|e] w2] eqn:Es; cbn [snd] in Hs;
    [|right; split; [congruence|]; exists e; split; [done|]; left; by exists l, w1, w2].
  rewrite eff_bind_unfold. pose proof (kl_now w2) as Hn. unfold steady in Hn.
  destruct (cp_now w2) as [[ended_at|e] w3] eqn:En; cbn [snd] in Hn;
    [|right; split; [congruence|]; exists e; split; [done|]; right; by exists w2, w3].
  set (errors := body_errors ++ more).
  set (final := match errors with [] => status | _ => RT_FAILED end).
  assert (sessions w3 !! ig_ingest_session_id s = Some (running s)) as Hid3 by congruence.
  pose proof (record_end_outcome s _ final ended_at (_format_errors errors) w3 Hid3) as He. rewrite eff_bind_unfold.
  assert (explained polled (ig_started_at s) final (_format_errors errors)) as Hx.
  { unfold final. destruct errors as [|x k] eqn:Ee; [|left; split; [done | apply format_errors_some]].
    right. apply app_eq_nil in Ee as [-> ->]. destruct outcome as [st|e]; [|by cbn in Ev; destruct (is_cancelled e)].
    injection Ev as <- <-. split; [done|]. split; [by eapply body_status|]. by exists m, w, w1, l, w2. }
  clearbody final errors. destruct (record_end _ _ _ _ w3) as [[u|e] w4].
  - destruct cancellation as [e|]; left; (exists final, ended_at, (_format_errors errors)); (split; [cbn; congruence|]); split; try done.
    by intros r [= <-].
  - left. exists final, ended_at, (_format_errors errors). split; [congruence|]. by split.
Qed.
End contract.


(** ** Runs *)

(** A repository with its connection, and the rest of the process: the id that
    it draws, and how stopping the streams goes. *)
Record Process := {
  pc_repository : RawEventRepository;
  pc_open : bool;
}.
Section demo.
Variable stopping : result gathered.
Definition process (id : string) (now : datetime) : CaptureWorld Process := {|
  cp_repository := pc_repository; cp_with := λ s p, {| pc_repository := s; pc_open := pc_open p |};
  cp_open := modify (λ p, {| pc_repository := pc_repository p; pc_open := true |});
  cp_close := modify (λ p, {| pc_repository := pc_repository p; pc_open := false |});
  cp_now := mret now; cp_fresh_id := mret id; cp_host_name := "host"; cp_process_id := 1; cp_writer_start := mret tt;
  cp_submit_and_wait := λ _, mret tt; cp_writer_stop := mret tt; cp_writer_abort := λ _, mret tt; cp_stats := λ _, no_writes;
  cp_stream_factory := λ _ _, mret 2%nat; cp_polling_factory := λ _, mret 0%nat; cp_wait := mret FI_STOP;
  cp_end_auxiliary := mret tt; cp_stop_streams := lift stopping; cp_settle := λ _, mret (Some []);
  cp_cancel_tasks := λ _, mret tt |}.
Lemma process_laws id now : @CaptureLaws Process (process id now).
Proof. split; intros; (try intros p); reflexivity. Qed.
End demo.

#[local] Instance sample_uuid : EventUuid := λ s, s.
#[local] Instance sample_offset : NewYork := λ _, -5 * HOUR.
#[local] Instance sample_wall : NewYorkWall := λ _, -5 * HOUR.
#[local] Instance sample_dump : Dump SubscriptionManifest := λ m, PDict [("version"%string, PInt (sm_version m))].
Definition sample_settings : RecorderSettings :=
  {| cs_configuration_hash := sample_session_hash; cs_capture_start_et := time_of 4 0; cs_capture_stop_et := time_of 16 5;
     cs_preconnect_lead := 300; cs_wildcard_minute_bars := true; cs_wildcard_trading_statuses := true;
     cs_tick_symbols := ["ACME"%string]; cs_news_symbols := ["*"%string]; cs_shutdown_timeout := "15.0" |}.
(** A half day: the capture stops five minutes after the close. *)
Definition sample_window_result : result CaptureWindow :=
  resolve_window sample_settings
    {| ms_trading_date := Date 2026 11 27; ms_regular_open := time_of 9 30; ms_regular_close := time_of 13 0 |}.
Lemma sample_window_built : is_ok sample_window_result = true.
Proof. vm_compute. reflexivity. Qed.
Definition sample_capture_window : CaptureWindow := get_ok sample_window_result sample_window_built.
Example half_day_window : cw_stop_at sample_capture_window - cw_regular_close_at sample_capture_window = 5 * MINUTE.
Proof. vm_compute. reflexivity. Qed.

Definition run_sample (stopping : result gathered) (p : Process) : result RecorderSessionResult * Process :=
  run_capture (H2 := process stopping "s1" (cw_start_at sample_capture_window)) sample_settings sample_capture_window false p.
Definition fresh_process : Process := {| pc_repository := empty_raw_event_repository; pc_open := false |}.
Definition session_records (p : Process) : list (string * SessionStatus) :=
  map (λ x, (x.1, my_status x.2)) (map_to_list (rr_sessions (pc_repository p))).

Definition stopped_well : result gathered := Ok (Some [Ok tt; Ok tt]).
Example clean_capture :
  let '(o, p) := run_sample stopped_well fresh_process in
  session_records p = [("s1"%string, RT_COMPLETED)] ∧ pc_open p = false.
Proof. vm_compute. by split. Qed.
Example failed_stop_fails_the_session :
  let '(o, p) := run_sample (Ok (Some [Ok tt; Err (ERuntime "socket")])) fresh_process in
  session_records p = [("s1"%string, RT_FAILED)] ∧ pc_open p = false.
Proof. vm_compute. by split. Qed.

(** A cancellation that arrives while the streams are stopped ends the run in
    the finally block: the session is recorded as running for ever, and the
    repository stays open. *)
Example cancelled_shutdown_stays_running :
  let '(o, p) := run_sample (Err cancelled_error) fresh_process in
  o = Err cancelled_error ∧ session_records p = [("s1"%string, RT_RUNNING)] ∧ pc_open p = true.
Proof. vm_compute. by split_and!. Qed.
(** A session that cannot be created leaves the repository open: the try
    statement that closes it has not begun. *)
Example refused_session_stays_open :
  let '(o, p) := run_sample stopped_well (run_sample stopped_well fresh_process).2 in
  o = Err (EValue "ingest session already exists") ∧ pc_open p = true.
Proof. vm_compute. by split. Qed.

