(* ===== verification/RecorderConfig.v ===== *)
(** * RecorderConfig: the recorder's symbols, CIKs and limits

    daybreak_recorder/settings.py: the validators of the lists and of the whole,
    and how from_env reads lists and flags; text is ASCII.  What a valid
    configuration promises the stream adapters and the SEC poller. *)
From Stdlib Require Import Ascii String.
From S2P Require Import Prelude Numerics PyStr PyTime Contracts Canonical PyVal RiskModels RecorderModels RecorderAdapters SecPoller StreamAdapter Capture.

#[local] Open Scope Z_scope.

(** ** Validators *)

(** validate_feed. *)
Definition validate_feed (value : string) : result string :=
  if String.eqb (string_lower value) "sip" then Ok "sip"%string else Err (EValue "Phase 1 requires the SIP feed").
Definition normalize_symbol_tuple (value : list string) : result (list string) :=
  let normalized := omap clean_symbol value in
  if no_dup normalized then Ok normalized else Err (EValue "symbol lists must be unique after normalization").

(** [cik.strip().removeprefix('CIK')], of digits, filled to ten. *)
Definition remove_cik (l : chars) : chars :=
  match l with "C"%char :: "I"%char :: "K"%char :: l' => l' | _ => l end.
Definition normalized_cik (cik : string) : result string :=
  let digits := remove_cik (strip (list_ascii_of_string cik)) in
  if nonempty digits && forallb is_digit digits && (length digits <=? 10)%nat
  then Ok (string_of_list_ascii (replicate (10 - length digits) "0"%char ++ digits))
  else Err (EValue ("invalid SEC CIK: " +:+ cik)).
Definition validate_ciks (value : list string) : result (list string) :=
  normalized ← map_result normalized_cik value;
  if no_dup normalized then Ok normalized else Err (EValue "SEC CIK list contains duplicates").

Record RecorderLimits := {
  rl_tick_symbols : list string;
  rl_news_symbols : list string;
  rl_max_tick_symbols : Z;
  rl_sec_ciks : list string;
  rl_sec_user_agent : option string;
  rl_capture_start_et : Z;
  rl_capture_stop_et : Z;
}.
(** validate_limits: the checks in order. *)
Definition validate_limits (s : RecorderLimits) : result unit :=
  guard_or (len (rl_tick_symbols s) <=? rl_max_tick_symbols s) (EValue "tick_symbols exceeds max_tick_symbols") ≫= λ _,
  guard_or (negb (existsb (String.eqb "*") (rl_tick_symbols s)))
    (EValue "wildcard trades and quotes are prohibited in tick_symbols") ≫= λ _,
  guard_or (forallb is_canonical_ticker (rl_tick_symbols s)) (EValue "invalid tick_symbols") ≫= λ _,
  guard_or (nonempty (rl_news_symbols s)) (EValue "news_symbols must contain at least one symbol or '*'") ≫= λ _,
  guard_or (forallb (λ n, String.eqb n "*" || is_canonical_ticker n) (rl_news_symbols s)) (EValue "invalid news_symbols")
    ≫= λ _,
  guard_or (negb (nonempty (rl_sec_ciks s)) || match rl_sec_user_agent s with Some u => negb (blank u) | None => false end)
    (EValue "sec_user_agent is required when sec_ciks is configured") ≫= λ _,
  guard_or (rl_capture_start_et s <? rl_capture_stop_et s) (EValue "capture_stop_et must be later than capture_start_et").

(** ** from_env *)

(** [raw.split(',')], the parts that are not blank. *)
Fixpoint split_commas (l : chars) : list chars :=
  match l with
  | [] => [[]]
  | c :: l' =>
      match split_commas l' with
      | part :: parts => if Ascii.eqb c "," then [] :: part :: parts else (c :: part) :: parts
      | [] => [[c]]
      end
  end.
Definition csv (raw : option string) (default : list string) : list string :=
  match raw with
  | None => default
  | Some s =>
      omap (λ part, if forallb is_space part then None else Some (string_of_list_ascii part))
        (split_commas (list_ascii_of_string s))
  end.
Definition as_bool (raw : option string) (default : bool) : bool :=
  match raw with
  | None => default
  | Some s => existsb (String.eqb (string_lower (stripped s))) ["1"; "true"; "yes"; "on"]%string
  end.

Example csv_examples :
  csv (Some " aapl,, msft ,"%string) [] = [" aapl"; " msft "]%string ∧ csv (Some ""%string) ["*"%string] = [].
Proof. by split. Qed.
(** What is no yes is a no: a misspelt ALPACA_PAPER connects the trade-update
    stream to the live account. *)
Example misspelt_paper_is_live : as_bool (Some "ture"%string) true = false.
Proof. reflexivity. Qed.

(** ** What a valid configuration promises *)

Lemma normalized_cik_digits cik s :
  normalized_cik cik = Ok s → String.length s = 10%nat ∧ forallb is_digit (list_ascii_of_string s) = true.
Proof.
  unfold normalized_cik. set (digits := remove_cik _). intros Hs.
  destruct (nonempty digits && forallb is_digit digits && (length digits <=? 10)%nat) eqn:E; [|discriminate].
  apply Ok_inj in Hs as <-. apply andb_true_iff in E as [[_ Hd]%andb_true_iff Hl%Nat.leb_le].
  assert (∀ l : chars, String.length (string_of_list_ascii l) = length l) as Hlen.
  { intros l. induction l as [|c l IH]; simpl; [done | by rewrite IH]. }
  split.
  - rewrite Hlen, length_app, length_replicate. lia.
  - rewrite list_ascii_of_string_of_list_ascii, forallb_app, Hd, andb_true_r.
    apply forallb_forall. intros c Hc%list_elem_of_In%elem_of_replicate. by destruct Hc as [-> _].
Qed.

(** Each configured CIK is one that the poller's records accept. *)
Theorem configured_ciks_polled value ciks r :
  validate_ciks value = Ok ciks → sf_cik r ∈ ciks → sf_accession_number r ≠ ""%string → sf_form r ≠ ""%string →
  match sf_size r with Some n => 0 <= n | None => True end → SecFilingRecord_ok r = true.
Proof.
  unfold validate_ciks. intros (normalized & Hn & Hv)%bind_Ok Hin Ha Hf Hs.
  destruct (no_dup normalized); [|discriminate]. apply Ok_inj in Hv as ->.
  apply map_result_Forall2 in Hn. apply list_elem_of_lookup in Hin as [i Hi].
  destruct (Forall2_lookup_r _ _ _ _ _ Hn Hi) as (c & _ & [Hl Hd]%normalized_cik_digits).
  unfold SecFilingRecord_ok. rewrite Hd, Hl. cbn [Nat.eqb andb].
  rewrite (proj2 (String.eqb_neq _ _) Ha), (proj2 (String.eqb_neq _ _) Hf). cbn [negb andb].
  destruct (sf_size r); [by apply Z.leb_le | done].
Qed.

(** With a valid configuration no trade or quote is subscribed for the
    wildcard, and every symbol subscribed for them is a ticker. *)
Theorem no_wildcard_ticks s m h l :
  validate_limits s = Ok tt → sm_tick_symbols m = rl_tick_symbols s → (h, l) ∈ stock_subscriptions m →
  h = HD_TRADE ∨ h = HD_QUOTE → ∀ x, x ∈ l → is_canonical_ticker x = true ∧ x ≠ "*"%string.
Proof.
  unfold validate_limits.
  intros (u1 & _ & (u2 & Hw%guard_or_Ok & (u3 & Ht%guard_or_Ok & _)%bind_Ok)%bind_Ok)%bind_Ok Hm Hin Hh x Hx.
  assert (l = rl_tick_symbols s) as ->.
  { unfold stock_subscriptions in Hin. rewrite Hm in Hin. destruct (rl_tick_symbols s) as [|t ts];
      destruct (sm_wildcard_minute_bars m), (sm_wildcard_trading_statuses m); simpl in Hin;
      repeat (apply elem_of_cons in Hin as [Hin|Hin]); try (by apply not_elem_of_nil in Hin);
      injection Hin as -> ->; try done; by destruct Hh. }
  apply list_elem_of_In in Hx. split; [by apply (proj1 (forallb_forall _ _) Ht)|].
  intros ->. apply negb_true_iff in Hw. assert (existsb (String.eqb "*") (rl_tick_symbols s) = true) as E; [|congruence].
  apply existsb_exists. exists "*"%string. by rewrite String.eqb_refl.
Qed.
