(* ===== verification/Settings.v ===== *)
(** * Settings: the runtime configuration

    daybreak/core/config.py.  A settings model is its table of fields, with the
    check pydantic makes in strict mode and the default; the settings are the
    sections with their fields in that order.  TOML has no paths or enums: a
    text of the paths section stands for the Path made of it, and
    [Environment(s)] is a [PEnum]. *)
From Stdlib Require Import Ascii String.
From S2P Require Import Prelude Numerics PyStr PyTime Contracts Canonical PyVal RecorderAdapters.

#[local] Open Scope Z_scope.

(** ** Fields *)

Inductive FieldKind :=
  | FBool
  | FInt (low high : option Z)           (* ge, le *)
  | FStr
  | FOptStr
  | FChoice (values : list string)
  | FFloat (low : Z) (strict : bool) (high : Z)
  | FPath
  | FEnvironment.
Record FieldSpec := Field {
  fs_name : string;
  fs_kind : FieldKind;
  fs_default : pyval;
}.
Abbreviation section_spec := (list FieldSpec).
Abbreviation settings_section := (list (string * pyval)).
Abbreviation settings := (list (string * settings_section)).

Definition environments : list string := ["development"; "test"; "paper"; "live"]%string.

(** pydantic's reading of a number as a float within the bounds, of which the
    first is strict or not; None: refused. *)
Class FloatField := float_field : pyval → Z → bool → Z → option pyval.

Definition in_bounds (low high : option Z) (z : Z) : bool :=
  match low with Some a => a <=? z | None => true end && match high with Some b => z <=? b | None => true end.
(** The value that a strict field makes of an input. *)
Definition field_value `{FloatField} (k : FieldKind) (v : pyval) : option pyval :=
  match k, v with
  | FBool, PBool _ => Some v
  | FInt low high, PInt z => if in_bounds low high z then Some v else None
  | (FStr | FPath), PStr _ => Some v
  | FOptStr, (PStr _ | PNone) => Some v
  | FChoice l, PStr s => if existsb (String.eqb s) l then Some v else None
  | FFloat low strict high, (PFloat _ | PInt _) => float_field v low strict high
  | FEnvironment, PEnum s => if existsb (String.eqb s) environments then Some v else None
  | _, _ => None
  end.

(** ** The models *)

Definition disabled : FieldSpec := Field "enabled" FBool (PBool false).
Definition str_field (name value : string) : FieldSpec := Field name FStr (PStr value).
Definition int_field (name : string) (value : Z) (low : Z) (high : option Z) : FieldSpec :=
  Field name (FInt (Some low) high) (PInt value).
Definition RuntimeSettings : section_spec :=
  [Field "environment" FEnvironment (PEnum "development");
   Field "timezone" (FChoice ["America/New_York"%string]) (PStr "America/New_York");
   Field "log_level" (FChoice ["DEBUG"; "INFO"; "WARNING"; "ERROR"; "CRITICAL"]%string) (PStr "INFO");
   Field "json_logs" FBool (PBool true)].
Definition PathSettings : section_spec :=
  [Field "state_dir" FPath (PStr "state"); Field "artifact_dir" FPath (PStr "artifacts");
   Field "spec_path" FPath (PStr "docs/spec/Project_Daybreak_v6.3_Final.md")].
Definition DatabaseSettings : section_spec :=
  [disabled; str_field "dsn_env" "DAYBREAK_DATABASE_URL"; int_field "connect_timeout_seconds" 5 1 (Some 60)].
Definition CoreRecorderSettings : section_spec :=
  [disabled; str_field "start_time_et" "03:55:00"; str_field "feature_window_start_et" "04:00:00";
   str_field "feature_snapshot_time_et" "09:23:00"].
Definition FeatureSettings : section_spec :=
  [Field "enabled" FBool (PBool true); str_field "snapshot_time_et" "09:23:00";
   int_field "max_evaluator_candidates" 20 1 (Some 25); int_field "hard_max_evaluator_candidates" 25 1 (Some 25);
   Field "allow_single_source_float" FBool (PBool true)].
Definition EvaluatorSettings : section_spec :=
  [disabled; str_field "api_key_env" "OPENAI_API_KEY"; str_field "primary_model" "gpt-5.6-terra";
   Field "shadow_model" FOptStr (PStr "gpt-5.6-sol"); Field "run_shadow" FBool (PBool true);
   str_field "response_cutoff_time_et" "09:26:30";
   Field "reasoning_effort" (FChoice ["none"; "low"; "medium"; "high"; "xhigh"; "max"]%string) (PStr "low");
   int_field "max_output_tokens" 64000 1000 (Some 128000); int_field "max_attempts" 2 1 (Some 2);
   Field "request_timeout_seconds" (FFloat 0 true 300) (PFloat "90.0");
   Field "shadow_timeout_seconds" (FFloat 0 true 600) (PFloat "180.0");
   Field "store_raw_provider_response" FBool (PBool true)].
Definition RiskSettings : section_spec :=
  [disabled; Field "profile_name" (FChoice ["paper_v1"; "live_pilot_v1"]%string) (PStr "paper_v1");
   Field "persist_reservations" FBool (PBool true)].
Definition paper_url : string := "https://paper-api.alpaca.markets".
Definition ExecutionSettings : section_spec :=
  [disabled; Field "mode" (FChoice ["paper"%string]) (PStr "paper"); str_field "api_key_env" "APCA_API_KEY_ID";
   str_field "secret_key_env" "APCA_API_SECRET_KEY"; Field "base_url" (FChoice [paper_url]) (PStr paper_url);
   Field "request_timeout_seconds" (FFloat 0 true 30) (PFloat "5.0");
   int_field "cancel_unfilled_after_seconds" 10 1 (Some 120); Field "partial_fill_protection_enabled" FBool (PBool true)].
Definition OrchestrationSettings : section_spec :=
  [disabled; str_field "holder_id" "daybreak-orchestrator-1"; str_field "recorder_warmup_time_et" "03:55:00";
   str_field "feature_window_start_time_et" "04:00:00"; str_field "feature_snapshot_time_et" "09:23:00";
   str_field "evaluator_cutoff_time_et" "09:26:30"; str_field "eligibility_lock_time_et" "09:29:30";
   str_field "regular_session_open_time_et" "09:30:00"; str_field "new_entry_cutoff_time_et" "09:31:30";
   str_field "mandatory_flatten_time_et" "15:50:00"; str_field "final_flatten_deadline_et" "15:55:00";
   int_field "leadership_ttl_seconds" 30 5 (Some 300); int_field "leadership_renew_interval_seconds" 10 1 (Some 60);
   Field "flatten_poll_interval_seconds" (FFloat 0 true 30) (PFloat "1.0");
   Field "flatten_verification_timeout_seconds" (FFloat 0 true 600) (PFloat "300.0");
   int_field "alert_dedup_window_seconds" 300 0 (Some 3600)].
Definition OperationsSettings : section_spec :=
  [disabled; int_field "heartbeat_interval_seconds" 5 1 (Some 60); int_field "max_heartbeat_gap_seconds" 20 2 (Some 300);
   int_field "minimum_free_disk_bytes" 5000000000 100000000 None; int_field "minimum_file_descriptor_limit" 4096 256 None;
   int_field "required_backup_retention_count" 7 1 (Some 365)].
Definition AnalyticsSettings : section_spec :=
  [disabled; int_field "minimum_sessions" 30 1 (Some 365); int_field "minimum_filled_orders" 50 1 (Some 10000);
   Field "minimum_clean_session_rate" (FFloat 0 false 1) (PFloat "1.0"); int_field "required_drill_count" 7 0 (Some 32)].
Definition ProductionSettings : section_spec :=
  [disabled; int_field "minimum_tests_collected" 250 1 None; int_field "minimum_schema_count" 47 1 None;
   Field "require_independent_review" FBool (PBool true)].
Definition SafetySettings : section_spec :=
  [Field "live_execution_enabled" FBool (PBool false); Field "require_ntp_sync" FBool (PBool true);
   int_field "max_clock_skew_ms" 250 1 (Some 5000)].
Definition DaybreakSettings : list (string * section_spec) :=
  [("runtime", RuntimeSettings); ("paths", PathSettings); ("database", DatabaseSettings);
   ("recorder", CoreRecorderSettings); ("features", FeatureSettings); ("evaluator", EvaluatorSettings);
   ("risk", RiskSettings); ("execution", ExecutionSettings); ("orchestration", OrchestrationSettings);
   ("operations", OperationsSettings); ("analytics", AnalyticsSettings); ("production", ProductionSettings);
   ("safety", SafetySettings)]%string.

(** [s.section.field]. *)
Definition setting (sec name : string) (s : settings) : pyval := dict_or_none name (default [] (dict_get sec s)).
Definition setting_on (sec name : string) (s : settings) : bool := truthy (setting sec name s).

(** ** Validation *)

Section validation.
Context `{FloatField}.

Definition validate_fields (spec : section_spec) (m : dict) : option settings_section :=
  if forallb (λ kv, existsb (λ f, String.eqb (fs_name f) kv.1) spec) m
  then mapM (λ f, match dict_get (fs_name f) m with
                  | Some v => x ← field_value (fs_kind f) v; Some (fs_name f, x)
                  | None => Some (fs_name f, fs_default f)
                  end) spec
  else None.
(** heartbeat_window_is_coherent. *)
Definition heartbeat_window_is_coherent (s : settings_section) : bool :=
  match dict_get "heartbeat_interval_seconds" s, dict_get "max_heartbeat_gap_seconds" s with
  | Some (PInt interval), Some (PInt gap) => interval <? gap
  | _, _ => true
  end.
Definition validate_section (name : string) (spec : section_spec) (v : option pyval) : option settings_section :=
  match v with
  | None => validate_fields spec []
  | Some (PDict m) =>
      s ← validate_fields spec m;
      if String.eqb name "operations" && negb (heartbeat_window_is_coherent s) then None else Some s
  | Some _ => None
  end.
(** protect_live_environment. *)
Definition protect_live_environment (s : settings) : bool :=
  negb (setting_on "safety" "live_execution_enabled" s)
  && negb (setting_on "execution" "enabled" s
           && match setting "runtime" "environment" s with PEnum e => String.eqb e "live" | _ => false end).
(** [DaybreakSettings.model_validate]. *)
Definition model_validate (data : dict) : option settings :=
  if forallb (λ kv, existsb (λ sec, String.eqb sec.1 kv.1) DaybreakSettings) data then
    s ← mapM (λ sec, x ← validate_section sec.1 sec.2 (dict_get sec.1 data); Some (sec.1, x)) DaybreakSettings;
    if protect_live_environment s then Some s else None
  else None.
End validation.

(** ** Loading *)

Definition configuration_error (m : string) : exn := EOther "ConfigurationError" m.

(** [repr(s)] of ASCII text; the other characters print as they are. *)
Definition repr_char (quote c : ascii) : string :=
  let n := nat_of_ascii c in
  if Ascii.eqb c "\" || Ascii.eqb c quote then String "\" (String c "")
  else if (n =? 9)%nat then "\t" else if (n =? 10)%nat then "\n" else if (n =? 13)%nat then "\r"
  else if (n <? 32)%nat || (n =? 127)%nat then "\x" +:+ string_of_list_ascii (sha256.hex_byte (Z.of_nat n))
  else String c "".
Definition str_repr (s : string) : string :=
  let l := list_ascii_of_string s in
  let quote := if existsb (Ascii.eqb "'") l && negb (existsb (Ascii.eqb "034") l) then "034"%char else "'"%char in
  String quote (String.concat "" (map (repr_char quote) l)) +:+ String quote "".

Example str_repr_examples :
  map str_repr ["paper"; "it's"; "a\b"; ""]%string = ["'paper'"; String "034" ("it's" +:+ String "034" ""); "'a\\b'"; "''"]%string.
Proof. vm_compute. reflexivity. Qed.

Definition _parse_bool (raw : string) : result bool :=
  let normalized := string_lower (string_of_list_ascii (strip (list_ascii_of_string raw))) in
  if existsb (String.eqb normalized) ["1"; "true"; "yes"; "on"]%string then Ok true
  else if existsb (String.eqb normalized) ["0"; "false"; "no"; "off"]%string then Ok false
  else Err (configuration_error ("Invalid Boolean environment value: " +:+ str_repr raw)).

(** The parser of a variable: [_parse_bool], or [str]. *)
Definition parse_variable (boolean : bool) (raw : string) : result pyval :=
  if boolean then b ← _parse_bool raw; Ok (PBool b) else Ok (PStr raw).
Definition overlay_mapping : list (string * (string * string * bool)) :=
  [("DAYBREAK_ENVIRONMENT", ("runtime", "environment", false)); ("DAYBREAK_LOG_LEVEL", ("runtime", "log_level", false));
   ("DAYBREAK_JSON_LOGS", ("runtime", "json_logs", true)); ("DAYBREAK_DATABASE_ENABLED", ("database", "enabled", true));
   ("DAYBREAK_RECORDER_ENABLED", ("recorder", "enabled", true)); ("DAYBREAK_FEATURES_ENABLED", ("features", "enabled", true));
   ("DAYBREAK_EVALUATOR_ENABLED", ("evaluator", "enabled", true));
   ("DAYBREAK_EVALUATOR_RUN_SHADOW", ("evaluator", "run_shadow", true));
   ("DAYBREAK_EVALUATOR_PRIMARY_MODEL", ("evaluator", "primary_model", false));
   ("DAYBREAK_EVALUATOR_SHADOW_MODEL", ("evaluator", "shadow_model", false));
   ("DAYBREAK_RISK_ENABLED", ("risk", "enabled", true)); ("DAYBREAK_RISK_PROFILE", ("risk", "profile_name", false));
   ("DAYBREAK_EXECUTION_ENABLED", ("execution", "enabled", true));
   ("DAYBREAK_ORCHESTRATION_ENABLED", ("orchestration", "enabled", true));
   ("DAYBREAK_ORCHESTRATION_HOLDER_ID", ("orchestration", "holder_id", false));
   ("DAYBREAK_OPERATIONS_ENABLED", ("operations", "enabled", true));
   ("DAYBREAK_ANALYTICS_ENABLED", ("analytics", "enabled", true));
   ("DAYBREAK_PRODUCTION_ENABLED", ("production", "enabled", true));
   ("DAYBREAK_REQUIRE_NTP_SYNC", ("safety", "require_ntp_sync", true))]%string.

Abbreviation environ := (string → option string).
Definition overlay_one (e : environ) (data : dict) (entry : string * (string * string * bool)) : result dict :=
  let '(variable, (sec, key, boolean)) := entry in
  match e variable with
  | None => Ok data
  | Some raw =>
      match dict_get_or sec (PDict []) data with
      | PDict m => v ← parse_variable boolean raw; Ok (dict_put sec (PDict (dict_put key v m)) data)
      | _ => Err (configuration_error ("Configuration section " +:+ str_repr sec +:+ " must be a table"))
      end
  end.
Fixpoint overlay_all (e : environ) (mapping : list (string * (string * string * bool))) (data : dict) : result dict :=
  match mapping with
  | [] => Ok data
  | entry :: mapping' => data' ← overlay_one e data entry; overlay_all e mapping' data'
  end.
Definition _overlay_environment (e : environ) (data : dict) : result dict := overlay_all e overlay_mapping data.

(** A text becomes the enum, or a ValueError; the paths are their text. *)
Definition _normalize_toml_types (data : dict) : result dict :=
  match dict_get "runtime" data with
  | Some (PDict m) =>
      match dict_get "environment" m with
      | Some (PStr s) =>
          if existsb (String.eqb s) environments
          then Ok (dict_put "runtime" (PDict (dict_put "environment" (PEnum s) m)) data)
          else Err (EValue (str_repr s +:+ " is not a valid Environment"))
      | _ => Ok data
      end
  | _ => Ok data
  end.

(** What reading and parsing the file gives: the tables, or an exception. *)
Definition toml_error (path : string) (e : exn) : exn :=
  if String.eqb (exn_type_name e) "FileNotFoundError" then configuration_error ("Configuration file not found: " +:+ path)
  else if String.eqb (exn_type_name e) "TOMLDecodeError"
  then configuration_error ("Invalid TOML in " +:+ path +:+ ": " +:+ exn_message e)
  else e.
Definition load_settings `{FloatField} (path : string) (file : result dict) (validation_text : dict → string) (e : environ)
    : result settings :=
  raw ← match file with Ok m => Ok m | Err x => Err (toml_error path x) end;
  raw ← _overlay_environment e raw;
  raw ← _normalize_toml_types raw;
  match model_validate raw with
  | Some s => Ok s
  | None => Err (configuration_error ("Invalid Daybreak configuration: " +:+ validation_text raw))
  end.

(** ** Facts *)

Lemma dict_get_put k v (m : dict) : dict_get k (dict_put k v m) = Some v.
Proof. induction m as [|[k' x] m IH]; simpl; [by rewrite String.eqb_refl|]. destruct (String.eqb k' k) eqn:E; simpl; by rewrite E. Qed.
Lemma dict_get_put_ne k k' v (m : dict) : k ≠ k' → dict_get k (dict_put k' v m) = dict_get k m.
Proof.
  intros Hk. induction m as [|[k2 x] m IH]; simpl.
  - by rewrite (proj2 (String.eqb_neq k' k)) by done.
  - destruct (String.eqb_spec k2 k') as [->|Hne]; simpl; [|by rewrite IH].
    by rewrite (proj2 (String.eqb_neq k' k)) by done.
Qed.

(** The value of a key of a section. *)
Definition entry_of (sec key : string) (data : dict) : option pyval :=
  match dict_get sec data with Some (PDict m) => dict_get key m | _ => None end.
Lemma entry_of_put sec key v m data : entry_of sec key (dict_put sec (PDict (dict_put key v m)) data) = Some v.
Proof. unfold entry_of. by rewrite dict_get_put, dict_get_put. Qed.
Lemma entry_of_put_ne sec key sec' key' v m data :
  (sec, key) ≠ (sec', key') → dict_get_or sec' (PDict []) data = PDict m →
  entry_of sec key (dict_put sec' (PDict (dict_put key' v m)) data) = entry_of sec key data.
Proof.
  intros Hne Hm. unfold entry_of. destruct (decide (sec = sec')) as [->|Hs]; [|by rewrite dict_get_put_ne].
  rewrite dict_get_put, dict_get_put_ne by congruence. unfold dict_get_or in Hm.
  destruct (dict_get sec' data) as [x|]; simpl in Hm; [by subst x | by injection Hm as <-].
Qed.

Lemma overlay_one_other e data data' variable sec key boolean sec' key' :
  overlay_one e data (variable, (sec, key, boolean)) = Ok data' → (sec', key') ≠ (sec, key) →
  entry_of sec' key' data' = entry_of sec' key' data.
Proof.
  unfold overlay_one. intros H Hne. destruct (e variable) as [raw|]; [|by apply Ok_inj in H as <-].
  destruct (dict_get_or sec (PDict []) data) eqn:Em; try discriminate. apply bind_Ok in H as (v & _ & <-%Ok_inj).
  by apply entry_of_put_ne.
Qed.
Lemma overlay_all_other e mapping data data' sec key :
  overlay_all e mapping data = Ok data' → (sec, key) ∉ map (λ x, x.2.1) mapping →
  entry_of sec key data' = entry_of sec key data.
Proof.
  revert data. induction mapping as [|[variable [[s k] b]] mapping IH]; intros data H Hn; simpl in *; [by apply Ok_inj in H as <-|].
  apply bind_Ok in H as (d & H1 & H2). apply not_elem_of_cons in Hn as [Hne Hn]. rewrite (IH _ H2 Hn).
  by eapply overlay_one_other.
Qed.
Lemma overlay_all_wins e mapping data data' variable sec key boolean raw :
  overlay_all e mapping data = Ok data' → NoDup (map (λ x, x.2.1) mapping) →
  (variable, (sec, key, boolean)) ∈ mapping → e variable = Some raw →
  ∃ v, parse_variable boolean raw = Ok v ∧ entry_of sec key data' = Some v.
Proof.
  revert data. induction mapping as [|[variable' [[s k] b]] mapping IH]; intros data H Hnd Hin He; simpl in *.
  { by apply not_elem_of_nil in Hin. }
  apply bind_Ok in H as (d & H1 & H2). apply NoDup_cons in Hnd as [Hn Hnd].
  apply elem_of_cons in Hin as [E|Hin]; [|by eapply IH].
  injection E as <- <- <- <-. rewrite (overlay_all_other _ _ _ _ _ _ H2 Hn).
  unfold overlay_one in H1. rewrite He in H1. destruct (dict_get_or sec (PDict []) data); try discriminate.
  apply bind_Ok in H1 as (v & Hv & <-%Ok_inj). exists v. split; [exact Hv | apply entry_of_put].
Qed.
Lemma overlay_mapping_distinct : NoDup (map (λ x, x.2.1) overlay_mapping).
Proof. apply (bool_decide_unpack _). vm_compute. reflexivity. Qed.

(** The entries after the texts became enums. *)
Definition normalized_value (sec key : string) (v : pyval) : pyval :=
  match v with
  | PStr s => if String.eqb sec "runtime" && String.eqb key "environment" then PEnum s else v
  | _ => v
  end.
Lemma normalize_entry data data' sec key v :
  _normalize_toml_types data = Ok data' → entry_of sec key data = Some v →
  entry_of sec key data' = Some (normalized_value sec key v).
Proof.
  unfold _normalize_toml_types. intros H Hv.
  assert (∀ m, dict_get "runtime" data = Some (PDict m) → sec = "runtime"%string → dict_get key m = Some v) as Hr.
  { intros m Hm ->. unfold entry_of in Hv. by rewrite Hm in Hv. }
  destruct (decide ((sec, key) = ("runtime", "environment")%string)) as [[= -> ->]|Hne].
  - destruct (dict_get "runtime" data) as [[]|] eqn:Em; try (unfold entry_of in Hv; rewrite Em in Hv; discriminate).
    specialize (Hr _ eq_refl eq_refl). rewrite Hr in H. unfold normalized_value. cbn [String.eqb Ascii.eqb Bool.eqb andb].
    destruct v; try (apply Ok_inj in H as <-; exact Hv).
    destruct (existsb _ environments); [|discriminate]. apply Ok_inj in H as <-. by rewrite entry_of_put.
  - assert (normalized_value sec key v = v) as ->.
    { unfold normalized_value. destruct v; try done. destruct (String.eqb_spec sec "runtime") as [->|]; [|done].
      destruct (String.eqb_spec key "environment") as [->|]; done. }
    destruct (dict_get "runtime" data) as [[]|] eqn:Em; try (by apply Ok_inj in H as <-).
    destruct (dict_get "environment" m) as [[]|]; try (by apply Ok_inj in H as <-).
    destruct (existsb _ environments); [|discriminate]. apply Ok_inj in H as <-.
    rewrite entry_of_put_ne; [done | done|]. unfold dict_get_or. by rewrite Em.
Qed.

Section validated.
Context `{FloatField}.

Lemma dict_get_mapM {A B} (name : A → string) (f : A → option B) (l : list A) m x v :
  mapM (λ a, y ← f a; Some (name a, y)) l = Some m → NoDup (map name l) → x ∈ l → f x = Some v →
  dict_get (name x) m = Some v.
Proof.
  revert m. induction l as [|a l IH]; intros m Hm Hnd Hx Hv; [by apply not_elem_of_nil in Hx|].
  apply mapM_Some in Hm. inversion Hm as [|? [k y] ? m' Hk Hm']; subst. cbn in Hk.
  apply bind_Some in Hk as (y' & Hf & [= <- <-]). apply NoDup_cons in Hnd as [Hn Hnd]. simpl.
  apply elem_of_cons in Hx as [->|Hx].
  - rewrite String.eqb_refl. congruence.
  - destruct (String.eqb_spec (name a) (name x)) as [E|_].
    + destruct Hn. rewrite E. by apply list_elem_of_fmap_2.
    + apply IH; [by apply mapM_Some | done..].
Qed.

(** The value of a field in the validated section: what the field makes of its
    input, or its default. *)
Lemma validated_field spec m s f :
  validate_fields spec m = Some s → NoDup (map fs_name spec) → f ∈ spec →
  match dict_get (fs_name f) m with
  | Some v => ∃ x, field_value (fs_kind f) v = Some x ∧ dict_get (fs_name f) s = Some x
  | None => dict_get (fs_name f) s = Some (fs_default f)
  end.
Proof.
  unfold validate_fields. destruct (forallb _ _); [|discriminate]. intros Hs Hnd Hf.
  set (g := λ f, match dict_get (fs_name f) m with Some v => field_value (fs_kind f) v | None => Some (fs_default f) end).
  assert (mapM (λ f, y ← g f; Some (fs_name f, y)) spec = Some s) as Hg.
  { rewrite <- Hs. apply mapM_ext. intros f'. unfold g. by destruct (dict_get (fs_name f') m). }
  apply mapM_Some in Hg as Hall. apply list_elem_of_lookup in Hf as Hi. destruct Hi as [i Hi].
  destruct (Forall2_lookup_l _ _ _ _ _ Hall Hi) as (kv & _ & Hkv). apply bind_Some in Hkv as (y & Hy & _).
  pose proof (dict_get_mapM fs_name g spec s f y Hg Hnd Hf Hy) as Hd. unfold g in Hy.
  destruct (dict_get (fs_name f) m) as [v|]; [by exists y | congruence].
Qed.

Definition names_distinct : bool :=
  bool_decide (NoDup (map fst DaybreakSettings)) && forallb (λ sec, bool_decide (NoDup (map fs_name sec.2))) DaybreakSettings.
Lemma names_are_distinct : names_distinct = true.
Proof. vm_compute. reflexivity. Qed.
Lemma section_names_distinct : NoDup (map fst DaybreakSettings).
Proof. pose proof names_are_distinct as E. by apply andb_true_iff in E as [E%bool_decide_eq_true _]. Qed.
Lemma field_names_distinct sec spec : (sec, spec) ∈ DaybreakSettings → NoDup (map fs_name spec).
Proof.
  pose proof names_are_distinct as E. apply andb_true_iff in E as [_ E]. intros Hin.
  apply list_elem_of_In in Hin. apply (proj1 (forallb_forall _ _) E) in Hin. by apply bool_decide_eq_true in Hin.
Qed.

Lemma validated_entry data s sec spec f :
  model_validate data = Some s → (sec, spec) ∈ DaybreakSettings → f ∈ spec →
  match entry_of sec (fs_name f) data with
  | Some v => ∃ x, field_value (fs_kind f) v = Some x ∧ setting sec (fs_name f) s = x
  | None => setting sec (fs_name f) s = fs_default f
  end.
Proof.
  unfold model_validate. destruct (forallb _ _); [|discriminate]. intros (s' & Hs & Hp)%bind_Some Hsec Hf.
  destruct (protect_live_environment s'); [|discriminate]. injection Hp as ->.
  apply mapM_Some in Hs as Hall. apply list_elem_of_lookup in Hsec as Hi. destruct Hi as [i Hi].
  destruct (Forall2_lookup_l _ _ _ _ _ Hall Hi) as (kv & _ & Hkv). cbn [fst snd] in Hkv.
  apply bind_Some in Hkv as (m & Hm & _).
  pose proof (dict_get_mapM fst (λ x, validate_section x.1 x.2 (dict_get x.1 data)) DaybreakSettings s (sec, spec) m Hs
    section_names_distinct Hsec Hm) as Hd. cbn [fst] in Hd.
  assert (∃ d, validate_fields spec d = Some m ∧ entry_of sec (fs_name f) data = dict_get (fs_name f) d) as (d & Hv & He).
  { unfold validate_section in Hm. unfold entry_of. destruct (dict_get sec data) as [[]|]; try discriminate.
    - apply bind_Some in Hm as (m' & Hm' & E). destruct (_ && _); [discriminate|]. injection E as ->. by exists m0.
    - by exists []. }
  rewrite He. pose proof (validated_field spec d m f Hv (field_names_distinct _ _ Hsec) Hf) as Hx.
  unfold setting, dict_or_none, dict_get_or. rewrite Hd. cbn [from_option id].
  destruct (dict_get (fs_name f) d) as [v|]; [destruct Hx as (x & Hx & ->); by exists x | by rewrite Hx].
Qed.

(** A field that is no float keeps its input. *)
Lemma field_value_same k v x : field_value k v = Some x → (∀ a b c, k ≠ FFloat a b c) → x = v.
Proof.
  intros Hv Hk. destruct k, v; simpl in Hv; try discriminate; try (by injection Hv); try (by edestruct Hk);
    match type of Hv with context [if ?b then _ else _] => destruct b end; congruence.
Qed.
End validated.

Definition is_float (k : FieldKind) : bool := match k with FFloat _ _ _ => true | _ => false end.
Lemma overlay_fields variable sec key boolean :
  (variable, (sec, key, boolean)) ∈ overlay_mapping →
  ∃ spec f, (sec, spec) ∈ DaybreakSettings ∧ f ∈ spec ∧ fs_name f = key ∧ is_float (fs_kind f) = false.
Proof.
  intros Hin.
  assert (forallb (λ x, existsb (λ s, String.eqb s.1 x.2.1.1
      && existsb (λ f, String.eqb (fs_name f) x.2.1.2 && negb (is_float (fs_kind f))) s.2) DaybreakSettings) overlay_mapping = true)
    as E by (vm_compute; reflexivity).
  apply list_elem_of_In in Hin. apply (proj1 (forallb_forall _ _) E) in Hin. cbn [fst snd] in Hin.
  apply existsb_exists in Hin as ([s spec] & Hs & [Es%String.eqb_eq Hf]%andb_true_iff). cbn [fst snd] in *. subst s.
  apply existsb_exists in Hf as (f & Hf & [Hn%String.eqb_eq Hk%negb_true_iff]%andb_true_iff).
  exists spec, f. by split_and!; try apply list_elem_of_In.
Qed.

(** The settings that load are those of a paper trading system: no live
    execution; when execution is on, the environment is not live, the mode is
    paper and the address is the paper one; every field is what its check makes
    of the file's or the environment's value, or its default; and a variable of
    the environment that is set wins over the file. *)
Theorem loaded_settings_paper_only `{FloatField} path file text e s :
  load_settings path file text e = Ok s →
  setting_on "safety" "live_execution_enabled" s = false ∧
  (setting_on "execution" "enabled" s = true → setting "runtime" "environment" s ≠ PEnum "live") ∧
  setting "execution" "base_url" s = PStr paper_url ∧ setting "execution" "mode" s = PStr "paper" ∧
  (∀ sec spec f, (sec, spec) ∈ DaybreakSettings → f ∈ spec →
     setting sec (fs_name f) s = fs_default f ∨ ∃ v, field_value (fs_kind f) v = Some (setting sec (fs_name f) s)) ∧
  (∀ variable sec key boolean raw, (variable, (sec, key, boolean)) ∈ overlay_mapping → e variable = Some raw →
     ∃ v, parse_variable boolean raw = Ok v ∧ setting sec key s = normalized_value sec key v).
Proof.
  unfold load_settings. intros (m0 & _ & (m1 & Ho & (m2 & Hn & Hv)%bind_Ok)%bind_Ok)%bind_Ok.
  destruct (model_validate m2) as [s'|] eqn:Hs; [|discriminate]. apply Ok_inj in Hv as ->.
  assert (protect_live_environment s = true) as Hp.
  { unfold model_validate in Hs. destruct (forallb _ m2); [|discriminate]. apply bind_Some in Hs as (s' & _ & Hs).
    destruct (protect_live_environment s') eqn:E; [|discriminate]. by injection Hs as <-. }
  apply andb_true_iff in Hp as [Hlive%negb_true_iff Henv%negb_true_iff].
  assert (∀ sec spec f, (sec, spec) ∈ DaybreakSettings → f ∈ spec →
    setting sec (fs_name f) s = fs_default f ∨ ∃ v, field_value (fs_kind f) v = Some (setting sec (fs_name f) s)) as Hall.
  { intros sec spec f Hsec Hf. pose proof (validated_entry m2 s sec spec f Hs Hsec Hf) as Hx.
    destruct (entry_of sec (fs_name f) m2) as [v|]; [|by left]. destruct Hx as (x & Hx & <-). right. by exists v. }
  assert (∀ name l, l = [name] → ∀ f, f ∈ ExecutionSettings → fs_kind f = FChoice l → fs_default f = PStr name →
    setting "execution" (fs_name f) s = PStr name) as Hone.
  { intros name l -> f Hf Hk Hd. destruct (Hall "execution"%string ExecutionSettings f) as [E|(v & Hv)];
      [apply list_elem_of_In; cbn; tauto | done | by rewrite E|].
    rewrite Hk in Hv. destruct v; try discriminate. cbn in Hv.
    match type of Hv with context [String.eqb ?a ?b] => destruct (String.eqb a b) eqn:Es end; [|discriminate].
    apply String.eqb_eq in Es. injection Hv as Hv. congruence. }
  split_and!; [done| | | |exact Hall|].
  - intros Hex E. rewrite Hex, E in Henv. done.
  - apply (Hone paper_url _ eq_refl (Field "base_url" (FChoice [paper_url]) (PStr paper_url))); [|done..].
    apply list_elem_of_In. cbn. tauto.
  - apply (Hone "paper"%string _ eq_refl (Field "mode" (FChoice ["paper"%string]) (PStr "paper"))); [|done..].
    apply list_elem_of_In. cbn. tauto.
  - intros variable sec key boolean raw Hin Hraw.
    destruct (overlay_all_wins e overlay_mapping m0 m1 variable sec key boolean raw Ho overlay_mapping_distinct Hin Hraw)
      as (v & Hv & He). exists v. split; [done|].
    destruct (overlay_fields _ _ _ _ Hin) as (spec & f & Hsec & Hf & <- & Hk).
    pose proof (validated_entry m2 s sec spec f Hs Hsec Hf) as Hx.
    rewrite (normalize_entry _ _ _ _ _ Hn He) in Hx. destruct Hx as (x & Hx & ->).
    eapply field_value_same; [exact Hx|]. intros a b c E. by rewrite E in Hk.
Qed.

(** The paper profile of the examples, and the environment's refusals. *)
#[local] Instance finite_floats : FloatField := λ v _ _ _, Some v.
Definition paper_file : dict :=
  [("runtime", PDict [("environment", PStr "paper")]); ("execution", PDict [("enabled", PBool true)])]%string.
Definition load_example (e : list (string * string)) : result settings :=
  load_settings "daybreak.toml" (Ok paper_file) (λ _, ""%string) (λ k, dict_get k e).
Example paper_profile_loads :
  match load_example [("DAYBREAK_DATABASE_ENABLED", " Yes ")]%string with
  | Ok s => setting_on "database" "enabled" s && setting_on "execution" "enabled" s
  | Err _ => false
  end = true.
Proof. vm_compute. reflexivity. Qed.
Example live_profile_refused :
  load_example [("DAYBREAK_ENVIRONMENT", "live")]%string = Err (configuration_error "Invalid Daybreak configuration: ").
Proof. vm_compute. reflexivity. Qed.
(** An unknown environment is no ConfigurationError. *)
Example unknown_environment_is_value_error :
  load_example [("DAYBREAK_ENVIRONMENT", "prod")]%string = Err (EValue "'prod' is not a valid Environment").
Proof. vm_compute. reflexivity. Qed.
