(* ===== verification/PaperGate.v ===== *)
(** * PaperGate: the paper environment acceptance report

    daybreak_orchestration/acceptance.py: the configuration and the probes must
    all pass before a session may run. *)
From Stdlib Require Import Ascii String.
From S2P Require Import Prelude Numerics PyStr PyTime Contracts Canonical PyVal RiskModels ExecModels OrchModels RecorderAdapters Settings.

#[local] Open Scope Z_scope.

Inductive GateStatus := GT_PASS | GT_FAIL | GT_SKIP.
#[export] Instance GateStatus_eq_dec : EqDecision GateStatus. Proof. solve_decision. Defined.
Definition GateStatus_value (s : GateStatus) : string :=
  match s with GT_PASS => "pass" | GT_FAIL => "fail" | GT_SKIP => "skip" end.
Record AcceptanceCheck := {
  ak_name : string;
  ak_status : GateStatus;
  ak_message : string;
  ak_observed_at : datetime;
  ak_details : dict;
}.
Record AcceptanceReport := {
  ap_report_id : string;
  ap_generated_at : datetime;
  ap_online_verified : bool;
  ap_paper_ready : bool;
  ap_checks : list AcceptanceCheck;
  ap_configuration_hash : string;
  ap_report_hash : string;
}.
Definition AcceptanceReport_ok (r : AcceptanceReport) : bool :=
  between 8 64 (str_len (ap_report_id r)) && hash_pattern (ap_configuration_hash r) && hash_pattern (ap_report_hash r).

(** [settings.configuration_hash()]: the digest of what pydantic dumps. *)
Class ConfigurationHash := configuration_hash : settings → string.

Abbreviation probe_result := (bool * string * dict)%type.

Section gate.
Context `{ConfigurationHash} `{Uuid5} {W : Type}.
Variable s : settings.
Variable e : environ.

Definition gate_check (now : datetime) (name : string) (passed : bool) (message : string) (details : dict)
    : result AcceptanceCheck :=
  if between 1 128 (code_points name)
  then Ok {| ak_name := name; ak_status := if passed then GT_PASS else GT_FAIL; ak_message := message;
             ak_observed_at := now; ak_details := details |}
  else Err (EValidation "AcceptanceCheck").
Definition setting_text (sec name : string) : string := match setting sec name s with PStr t => t | _ => "" end.
(** [bool(environ.get(name))]. *)
Definition variable_present (name : string) : bool := match e name with Some v => negb (String.eqb v "") | None => false end.
Definition variable_check (name variable : string) : string * bool * string :=
  (name, variable_present variable, "Environment variable " +:+ variable +:+ if variable_present variable then " is present." else " is missing.").

(** The checks of the configuration: name, outcome and message. *)
Definition configuration_checks : list (string * bool * string) :=
  let environment := match setting "runtime" "environment" s with PEnum v => v | _ => "" end in
  let live := setting_on "safety" "live_execution_enabled" s in
  let execution := setting_on "execution" "enabled" s in
  let database := setting_on "database" "enabled" s in
  [("paper_environment"%string, existsb (String.eqb environment) ["paper"; "development"; "test"]%string,
    if String.eqb environment "live" then "Live runtime is forbidden." else "Runtime is not configured as live.");
   ("live_execution_disabled"%string, negb live,
    if live then "Live execution must be disabled." else "Live execution is disabled.");
   ("paper_endpoint"%string, String.eqb (setting_text "execution" "base_url") paper_url,
    "Alpaca paper endpoint is configured.");
   ("execution_enabled"%string, execution,
    if execution then "Paper execution is enabled." else "Paper execution must be enabled for acceptance.");
   ("database_enabled"%string, database,
    if database then "Database persistence is enabled." else "Database persistence must be enabled.");
   variable_check "alpaca_api_key_present" (setting_text "execution" "api_key_env");
   variable_check "alpaca_secret_present" (setting_text "execution" "secret_key_env")]%string
  ++ if database then [variable_check "database_dsn_present" (setting_text "database" "dsn_env")] else [].

(** A probe that raises fails. *)
Definition run_probe (now : datetime) (probe : string * eff W probe_result) : eff W AcceptanceCheck :=
  r ← observe probe.2;
  let '(passed, message, details) :=
    match r with
    | Ok x => x
    | Err x => (false, "Probe failed: " +:+ describe x, [])
    end in
  lift (gate_check now probe.1 passed message details).
Fixpoint run_probes (now : datetime) (probes : list (string * eff W probe_result)) : eff W (list AcceptanceCheck) :=
  match probes with
  | [] => mret []
  | p :: probes' => c ← run_probe now p; cs ← run_probes now probes'; mret (c :: cs)
  end.

Definition required_online : list string :=
  ["alpaca_account"; "alpaca_clock"]%string
  ++ (if setting_on "database" "enabled" s then ["postgresql"%string] else [])
  ++ (if setting_on "safety" "require_ntp_sync" s then ["system_ntp"%string] else []).
Definition name_leb (a b : string * eff W probe_result) : bool := string_leb a.1 b.1.
Definition check_value (c : AcceptanceCheck) : pyval :=
  PDict [("name", PStr (ak_name c)); ("status", PEnum (GateStatus_value (ak_status c))); ("message", PStr (ak_message c));
         ("observed_at", PDatetime (ak_observed_at c)); ("details", PDict (ak_details c))]%string.
Definition report_body (now : datetime) (online ready : bool) (checks : list AcceptanceCheck) : pyval :=
  PDict [("generated_at", PDatetime now); ("online_verified", PBool online); ("paper_ready", PBool ready);
         ("checks", PSeq (map check_value checks)); ("configuration_hash", PStr (configuration_hash s))]%string.
(** The probes are a dict: its items, whose names do not repeat. *)
Definition build_acceptance_report (now : datetime) (probes : list (string * eff W probe_result)) : eff W AcceptanceReport :=
  configured ← lift (map_result (λ c, gate_check now c.1.1 c.1.2 c.2 []) configuration_checks);
  probed ← run_probes now (sorted_by name_leb probes);
  let checks := configured ++ probed in
  let online := forallb (λ n, existsb (λ p, String.eqb p.1 n) probes) required_online in
  let ready := online && forallb (λ c, bool_decide (ak_status c = GT_PASS)) checks in
  let hash := orch_sha256 (report_body now online ready checks) in
  let r := {| ap_report_id := uuid5_hex ("daybreak-acceptance:" +:+ hash); ap_generated_at := now;
              ap_online_verified := online; ap_paper_ready := ready; ap_checks := checks;
              ap_configuration_hash := configuration_hash s; ap_report_hash := hash |} in
  lift (if AcceptanceReport_ok r then Ok r else Err (EValidation "AcceptanceReport")).
End gate.

(** ** system_ntp_probe *)

(** A command's output and exit code; FileNotFoundError and TimeoutExpired are
    what the probe expects. *)
Section ntp.
Context {W : Type}.
Variable run_command : list string → eff W (string * Z).

Definition expected_failure (e : exn) : bool :=
  existsb (String.eqb (exn_type_name e)) ["FileNotFoundError"; "TimeoutExpired"]%string.
Definition ntp_commands : list (list string) :=
  [["timedatectl"; "show"; "-p"; "NTPSynchronized"; "--value"]; ["chronyc"; "tracking"]]%string.
Fixpoint try_commands (commands : list (list string)) (errors : list string) : eff W probe_result :=
  match commands with
  | [] => mret (false, "No supported NTP synchronization probe succeeded.", [("errors", PSeq (map PStr errors))])%string
  | command :: commands' =>
      let name := hd ""%string command in
      r ← observe (run_command command);
      match r with
      | Err e =>
          if expected_failure e then try_commands commands' (errors ++ [name +:+ ": " +:+ exn_type_name e]) else raise e
      | Ok (stdout, code) =>
          let output := string_of_list_ascii (strip (list_ascii_of_string stdout)) in
          if String.eqb name "timedatectl" && (code =? 0) then
            let passed := String.eqb (string_lower output) "yes" in
            mret (passed, if passed then "System clock is NTP synchronized." else "System clock is not NTP synchronized.",
                  [("source", PStr "timedatectl")])%string
          else if String.eqb name "chronyc" && (code =? 0) then
            let passed := string_contains "Leap status" output && negb (string_contains "Not synchronised" output) in
            mret (passed, if passed then "Chrony reports a synchronized clock." else "Chrony does not report synchronization.",
                  [("source", PStr "chronyc")])%string
          else try_commands commands' (errors ++ [name +:+ " returned " +:+ pretty code])
      end
  end.
Definition system_ntp_probe : eff W probe_result := try_commands ntp_commands [].
End ntp.

(** ** What a ready report shows *)

Section ready.
Context `{ConfigurationHash} `{Uuid5} {W : Type}.
Variable s : settings.
Variable e : environ.

Lemma gate_check_Ok now name passed message details c :
  gate_check now name passed message details = Ok c →
  ak_name c = name ∧ (ak_status c = GT_PASS ↔ passed = true).
Proof. unfold gate_check. destruct (between _ _ _); [|discriminate]. intros <-%Ok_inj. by destruct passed. Qed.

(** Each probe gives one check, which passes only if the probe said so. *)
Lemma run_probes_checks now (probes : list (string * eff W probe_result)) w cs w' :
  run_probes now probes w = (Ok cs, w') →
  Forall2 (λ p c, ak_name c = p.1 ∧ (ak_status c = GT_PASS → ∃ w1 w2 m d, p.2 w1 = (Ok (true, m, d), w2))) probes cs.
Proof.
  revert w cs w'. induction probes as [|p probes IH]; intros w cs w' H'; cbn [run_probes] in H'.
  { injection H' as <- _. constructor. }
  apply eff_bind_Ok in H' as (c & w1 & Hc & (cs' & w2 & Hcs & H')%eff_bind_Ok). injection H' as <- _.
  constructor; [|by eapply IH].
  unfold run_probe in Hc. apply eff_bind_Ok in Hc as (r & w3 & Hr & Hc). unfold observe in Hr. injection Hr as <- <-.
  destruct (p.2 w) as [[[[passed m] d]|x] w4] eqn:Ep; cbn [fst snd] in Hc; apply lift_Ok in Hc as [Hc _];
    destruct (gate_check_Ok _ _ _ _ _ _ Hc) as [Hn Hs]; (split; [done|]).
  - intros Hpass. apply Hs in Hpass as ->. by exists w, w4, m, d.
  - intros Hpass. apply Hs in Hpass. discriminate.
Qed.

Lemma ready_all (l : list AcceptanceCheck) :
  forallb (λ c, bool_decide (ak_status c = GT_PASS)) l = true ↔ ∀ c, c ∈ l → ak_status c = GT_PASS.
Proof.
  rewrite forallb_forall. split; intros Hl c Hc; [apply list_elem_of_In, Hl, bool_decide_eq_true in Hc|]; try done.
  apply bool_decide_eq_true, Hl. by apply list_elem_of_In.
Qed.

(** A report that is ready shows a configuration that may trade on paper and
    never live, the credentials, and every required probe passed. *)
Theorem paper_ready_means now (probes : list (string * eff W probe_result)) w r w' :
  build_acceptance_report s e now probes w = (Ok r, w') → ap_paper_ready r = true →
  Forall (λ c, c.1.2 = true) (configuration_checks s e) ∧
  (∀ c, c ∈ ap_checks r → ak_status c = GT_PASS) ∧
  ∀ n, n ∈ required_online s → ∃ p w1 w2 m d, p ∈ probes ∧ p.1 = n ∧ p.2 w1 = (Ok (true, m, d), w2).
Proof.
  unfold build_acceptance_report. intros Hb Hready.
  apply eff_bind_Ok in Hb as (configured & w1 & [Hc ->]%lift_Ok & (probed & w2 & Hp & Hb)%eff_bind_Ok).
  cbv zeta in Hb. apply lift_Ok in Hb as [Hb _].
  match type of Hb with (if ?c then _ else _) = _ => destruct c end; [|discriminate]. apply Ok_inj in Hb as <-.
  cbn [ap_paper_ready ap_checks] in *. apply andb_true_iff in Hready as [Honline Hall]. rewrite ready_all in Hall.
  apply map_result_Forall2 in Hc. pose proof (run_probes_checks _ _ _ _ _ Hp) as Hps.
  split; [|split; [exact Hall|]].
  - apply Forall_forall. intros c Hin. apply list_elem_of_lookup in Hin as [i Hi].
    destruct (Forall2_lookup_l _ _ _ _ _ Hc Hi) as (k & Hk & Hok). apply gate_check_Ok in Hok as [_ Hok]. apply Hok, Hall.
    apply elem_of_app. left. by eapply list_elem_of_lookup_2.
  - intros n Hn. apply list_elem_of_In in Hn. apply (proj1 (forallb_forall _ _) Honline) in Hn.
    apply existsb_exists in Hn as (p & Hin & <-%String.eqb_eq).
    assert (p ∈ sorted_by name_leb probes) as Hin' by (apply elem_of_sorted_by; by apply list_elem_of_In).
    apply list_elem_of_lookup in Hin' as [i Hi]. destruct (Forall2_lookup_l _ _ _ _ _ Hps Hi) as (c & Hk & _ & Hpass).
    destruct Hpass as (w3 & w4 & m & d & E); [apply Hall, elem_of_app; right; by eapply list_elem_of_lookup_2|].
    exists p, w3, w4, m, d. split; [by apply list_elem_of_In | done].
Qed.
End ready.
