(* ===== verification/AnalyticsModels.v ===== *)
(** * AnalyticsModels: the evidence of paper sessions

    daybreak_analytics/enums.py and models.py.  Fields of one value only are
    constants; a [*_ok] predicate is a model's constraints and validators;
    datetimes are instants in UTC. *)
From Stdlib Require Import Ascii String.
From S2P Require Import Prelude Numerics PyStr PyTime Contracts Canonical RiskModels OrchModels.

#[local] Open Scope Z_scope.

(** ** Enums *)

Inductive ReplayComponent := RK_RECORDER | RK_FEATURES | RK_EVALUATOR | RK_RISK | RK_EXECUTION | RK_ORCHESTRATION.
#[export] Instance ReplayComponent_eq_dec : EqDecision ReplayComponent. Proof. solve_decision. Defined.
Definition ReplayComponent_value (c : ReplayComponent) : string :=
  match c with
  | RK_RECORDER => "recorder" | RK_FEATURES => "features" | RK_EVALUATOR => "evaluator" | RK_RISK => "risk"
  | RK_EXECUTION => "execution" | RK_ORCHESTRATION => "orchestration"
  end.
Definition all_components : list ReplayComponent :=
  [RK_RECORDER; RK_FEATURES; RK_EVALUATOR; RK_RISK; RK_EXECUTION; RK_ORCHESTRATION].

Inductive ExitReason :=
  EX_TARGET | EX_STOP | EX_TIME_EXIT | EX_KILL_SWITCH | EX_MANUAL_SAFETY | EX_BROKER_RECONCILIATION.
#[export] Instance ExitReason_eq_dec : EqDecision ExitReason. Proof. solve_decision. Defined.
Definition ExitReason_value (r : ExitReason) : string :=
  match r with
  | EX_TARGET => "target" | EX_STOP => "stop" | EX_TIME_EXIT => "time_exit" | EX_KILL_SWITCH => "kill_switch"
  | EX_MANUAL_SAFETY => "manual_safety" | EX_BROKER_RECONCILIATION => "broker_reconciliation"
  end.

Inductive AcceptanceStatus := AC_COLLECTING | AC_BLOCKED | AC_PAPER_QUALIFIED.
#[export] Instance AcceptanceStatus_eq_dec : EqDecision AcceptanceStatus. Proof. solve_decision. Defined.
Definition AcceptanceStatus_value (s : AcceptanceStatus) : string :=
  match s with AC_COLLECTING => "collecting" | AC_BLOCKED => "blocked" | AC_PAPER_QUALIFIED => "paper_qualified" end.
Inductive DeploymentStatus := DE_INCOMPLETE | DE_PAPER_READY.
#[export] Instance DeploymentStatus_eq_dec : EqDecision DeploymentStatus. Proof. solve_decision. Defined.
Definition DeploymentStatus_value (s : DeploymentStatus) : string :=
  match s with DE_INCOMPLETE => "incomplete" | DE_PAPER_READY => "paper_ready" end.

(** daybreak_operations/enums.py's drill types. *)
Inductive DrillType :=
  DT_DATABASE_DISCONNECT | DT_MARKET_DATA_DISCONNECT | DT_TRADE_UPDATE_DISCONNECT | DT_BROKER_TIMEOUT
  | DT_CLOCK_SKEW | DT_PROCESS_RESTART | DT_DISK_PRESSURE.
#[export] Instance DrillType_eq_dec : EqDecision DrillType. Proof. solve_decision. Defined.
Definition DrillType_value (d : DrillType) : string :=
  match d with
  | DT_DATABASE_DISCONNECT => "database_disconnect" | DT_MARKET_DATA_DISCONNECT => "market_data_disconnect"
  | DT_TRADE_UPDATE_DISCONNECT => "trade_update_disconnect" | DT_BROKER_TIMEOUT => "broker_timeout"
  | DT_CLOCK_SKEW => "clock_skew" | DT_PROCESS_RESTART => "process_restart" | DT_DISK_PRESSURE => "disk_pressure"
  end.

(** ** Sorted and unique *)

(** [tuple(sorted(l, key=...)) == l]: no element is below the one before it. *)
Fixpoint in_order {A} (le : A → A → bool) (l : list A) : bool :=
  match l with
  | a :: ((b :: _) as l') => le a b && in_order le l'
  | _ => true
  end.
Definition ID_ok (s : string) : bool := between 8 64 (code_points s).

(** ** Models *)

Record AnalyticsPolicy := {
  py_minimum_sessions : Z;
  py_minimum_filled_orders : Z;
  py_minimum_clean_session_rate : decimal;
  py_maximum_invariant_violations : Z;
  py_maximum_unresolved_reconciliations : Z;
  py_maximum_duplicate_orders : Z;
  py_maximum_late_primary_responses : Z;
  py_required_drill_count : Z;
}.
Definition rate_ok (d : decimal) : bool := (dec.zero <=? d)%dec && (d <=? dec.of_Z 1)%dec.
Definition nonneg_dec (d : decimal) : bool := (dec.zero <=? d)%dec.
Definition AnalyticsPolicy_ok (p : AnalyticsPolicy) : bool :=
  between 1 365 (py_minimum_sessions p) && between 1 10000 (py_minimum_filled_orders p)
  && rate_ok (py_minimum_clean_session_rate p)
  && forallb (Z.leb 0) [py_maximum_invariant_violations p; py_maximum_unresolved_reconciliations p;
       py_maximum_duplicate_orders p; py_maximum_late_primary_responses p]
  && between 0 32 (py_required_drill_count p).
Definition default_analytics_policy : AnalyticsPolicy :=
  {| py_minimum_sessions := 30; py_minimum_filled_orders := 50; py_minimum_clean_session_rate := dec.of_Z 1;
     py_maximum_invariant_violations := 0; py_maximum_unresolved_reconciliations := 0;
     py_maximum_duplicate_orders := 0; py_maximum_late_primary_responses := 0; py_required_drill_count := 7 |}.

Record TradeOutcome := {
  ot_trade_id : string;
  ot_session_id : string;
  ot_ticker : string;
  ot_final_rank : Z;
  ot_quantity : Z;
  ot_entry_timestamp : datetime;
  ot_exit_timestamp : datetime;
  ot_planned_entry_price : decimal;
  ot_average_entry_price : decimal;
  ot_planned_stop_price : decimal;
  ot_planned_target_price : decimal;
  ot_average_exit_price : decimal;
  ot_fees : decimal;
  ot_source_type : string;
  ot_chart_structure : string;
  ot_risk_flags : list string;
  ot_exit_reason : ExitReason;
}.
Definition one_of (l : list string) (s : string) : bool := existsb (String.eqb s) l.
Definition RISK_FLAG_ORDER : list string :=
  ["parabolic_vwap_extension"; "hard_to_borrow"; "unknown_borrow"; "low_float"; "spiky_volume"; "secondary_source"].
(** The place of a text in a list. *)
Fixpoint place (l : list string) (s : string) : nat :=
  match l with [] => O | x :: l' => if String.eqb x s then O else S (place l' s) end.
(** TradeOutcome.risk_flags_canonical. *)
Definition risk_flags_canonical (flags : list string) : bool :=
  no_dup flags && in_order (λ a b, (place RISK_FLAG_ORDER a <=? place RISK_FLAG_ORDER b)%nat) flags.
(** TradeOutcome.coherent. *)
Definition trade_coherent (t : TradeOutcome) : bool :=
  (ot_entry_timestamp t <=? ot_exit_timestamp t)
  && (ot_planned_stop_price t <? ot_planned_entry_price t)%dec
  && (ot_planned_entry_price t <? ot_planned_target_price t)%dec.
Definition TradeOutcome_ok (t : TradeOutcome) : bool :=
  ID_ok (ot_trade_id t) && ID_ok (ot_session_id t) && is_canonical_ticker (ot_ticker t)
  && between 1 3 (ot_final_rank t) && (0 <? ot_quantity t)
  && forallb positive_dec [ot_planned_entry_price t; ot_average_entry_price t; ot_planned_stop_price t;
       ot_planned_target_price t; ot_average_exit_price t]
  && nonneg_dec (ot_fees t) && one_of ["primary"; "secondary"] (ot_source_type t)
  && one_of ["blue_sky"; "clean_short_term"; "moderate_room"] (ot_chart_structure t)
  && forallb (one_of RISK_FLAG_ORDER) (ot_risk_flags t) && risk_flags_canonical (ot_risk_flags t)
  && trade_coherent t.

Record SessionEvidence := {
  sv_session_id : string;
  sv_trading_date : date;
  sv_generated_at : datetime;
  sv_configuration_hash : string;
  sv_full_session_recorded : bool;
  sv_raw_event_count : Z;
  sv_evaluator_run_count : Z;
  sv_approved_setup_count : Z;
  sv_qualified_not_selected_count : Z;
  sv_excluded_ticker_count : Z;
  sv_orders_submitted : Z;
  sv_orders_filled : Z;
  sv_invariant_violations : Z;
  sv_unresolved_reconciliations : Z;
  sv_duplicate_order_count : Z;
  sv_late_primary_response_count : Z;
  sv_all_positions_flat : bool;
  sv_kill_switch_activation_count : Z;
  sv_trades : list TradeOutcome;
}.
Definition trade_le (a b : TradeOutcome) : bool :=
  match ot_entry_timestamp a ?= ot_entry_timestamp b with
  | Lt => true | Eq => string_leb (ot_trade_id a) (ot_trade_id b) | Gt => false
  end.
(** SessionEvidence.coherent. *)
Definition session_coherent (s : SessionEvidence) : bool :=
  forallb (λ t, String.eqb (ot_session_id t) (sv_session_id s)) (sv_trades s)
  && no_dup (map ot_trade_id (sv_trades s)) && in_order trade_le (sv_trades s)
  && (sv_orders_filled s =? len (sv_trades s)) && (sv_orders_filled s <=? sv_orders_submitted s).
Definition SessionEvidence_ok (s : SessionEvidence) : bool :=
  ID_ok (sv_session_id s) && hash_pattern (sv_configuration_hash s)
  && forallb (Z.leb 0) [sv_raw_event_count s; sv_evaluator_run_count s; sv_approved_setup_count s;
       sv_qualified_not_selected_count s; sv_excluded_ticker_count s; sv_orders_submitted s; sv_orders_filled s;
       sv_invariant_violations s; sv_unresolved_reconciliations s; sv_duplicate_order_count s;
       sv_late_primary_response_count s; sv_kill_switch_activation_count s]
  && (sv_approved_setup_count s <=? 3) && forallb TradeOutcome_ok (sv_trades s) && session_coherent s.

Record AttributionBucket := {
  bk_dimension : string;
  bk_key : string;
  bk_trade_count : Z;
  bk_net_pnl : decimal;
  bk_win_rate : decimal;
  bk_expectancy : decimal;
  bk_average_r_multiple : decimal;
}.
Definition AttributionBucket_ok (b : AttributionBucket) : bool := (0 <? bk_trade_count b) && rate_ok (bk_win_rate b).

Record SessionPerformance := {
  sp_analytics_id : string;
  sp_session_id : string;
  sp_trading_date : date;
  sp_trade_count : Z;
  sp_winning_trade_count : Z;
  sp_losing_trade_count : Z;
  sp_breakeven_trade_count : Z;
  sp_gross_pnl : decimal;
  sp_fees : decimal;
  sp_net_pnl : decimal;
  sp_win_rate : decimal;
  sp_profit_factor : option decimal;
  sp_expectancy : decimal;
  sp_average_win : decimal;
  sp_average_loss : decimal;
  sp_average_r_multiple : decimal;
  sp_maximum_drawdown : decimal;
  sp_total_entry_slippage : decimal;
  sp_average_entry_slippage_bps : decimal;
  sp_attributions : list AttributionBucket;
  sp_evidence_hash : string;
  sp_analytics_hash : string;
}.
Definition SessionPerformance_ok (p : SessionPerformance) : bool :=
  ID_ok (sp_analytics_id p) && ID_ok (sp_session_id p)
  && forallb (Z.leb 0) [sp_trade_count p; sp_winning_trade_count p; sp_losing_trade_count p; sp_breakeven_trade_count p]
  && nonneg_dec (sp_fees p) && rate_ok (sp_win_rate p) && nonneg_dec (sp_maximum_drawdown p)
  && forallb AttributionBucket_ok (sp_attributions p) && hash_pattern (sp_evidence_hash p)
  && hash_pattern (sp_analytics_hash p).

Record ReplayComponentEvidence := {
  ce_component : ReplayComponent;
  ce_expected_hash : option string;
  ce_actual_hash : option string;
  ce_evidence_count : Z;
  ce_verified : bool;
  ce_errors : list string;
}.
(** ReplayComponentEvidence.coherent: two hashes, equal, and no error. *)
Definition component_coherent (c : ReplayComponentEvidence) : bool :=
  let expected := match ce_expected_hash c, ce_actual_hash c with
    | Some e, Some a => String.eqb e a && negb (nonempty (ce_errors c)) | _, _ => false end in
  eqb (ce_verified c) expected.
Definition hash_or_none (h : option string) : bool := match h with Some s => hash_pattern s | None => true end.
Definition ReplayComponentEvidence_ok (c : ReplayComponentEvidence) : bool :=
  hash_or_none (ce_expected_hash c) && hash_or_none (ce_actual_hash c) && (0 <=? ce_evidence_count c)
  && component_coherent c.

Definition components_ok (l : list ReplayComponentEvidence) : bool :=
  no_dup (map ce_component l)
  && in_order (λ a b, string_leb (ReplayComponent_value (ce_component a)) (ReplayComponent_value (ce_component b))) l
  && forallb ReplayComponentEvidence_ok l.
(** [frozenset(item.component for item in components) == frozenset(ReplayComponent)]. *)
Definition all_present (l : list ReplayComponentEvidence) : bool :=
  forallb (λ c, existsb (λ x, bool_decide (ce_component x = c)) l) all_components.

Record FullSessionReplayRequest := {
  fq_session_id : string;
  fq_trading_date : date;
  fq_replayed_at : datetime;
  fq_expected_raw_event_count : Z;
  fq_actual_raw_event_count : Z;
  fq_event_ordering_verified : bool;
  fq_point_in_time_integrity_verified : bool;
  fq_components : list ReplayComponentEvidence;
}.
Definition FullSessionReplayRequest_ok (r : FullSessionReplayRequest) : bool :=
  ID_ok (fq_session_id r) && (0 <=? fq_expected_raw_event_count r) && (0 <=? fq_actual_raw_event_count r)
  && components_ok (fq_components r).

Record FullSessionReplayReport := {
  rp_replay_id : string;
  rp_session_id : string;
  rp_trading_date : date;
  rp_replayed_at : datetime;
  rp_complete : bool;
  rp_passed : bool;
  rp_expected_raw_event_count : Z;
  rp_actual_raw_event_count : Z;
  rp_event_ordering_verified : bool;
  rp_point_in_time_integrity_verified : bool;
  rp_components : list ReplayComponentEvidence;
  rp_errors : list string;
  rp_request_hash : string;
  rp_report_hash : string;
}.
(** FullSessionReplayReport.coherent. *)
Definition report_coherent (r : FullSessionReplayReport) : bool :=
  let expected_complete := all_present (rp_components r) in
  let expected_passed := expected_complete && (rp_expected_raw_event_count r =? rp_actual_raw_event_count r)
    && rp_event_ordering_verified r && rp_point_in_time_integrity_verified r
    && forallb ce_verified (rp_components r) && negb (nonempty (rp_errors r)) in
  eqb (rp_complete r) expected_complete && eqb (rp_passed r) expected_passed.
Definition FullSessionReplayReport_ok (r : FullSessionReplayReport) : bool :=
  ID_ok (rp_replay_id r) && ID_ok (rp_session_id r) && (0 <=? rp_expected_raw_event_count r)
  && (0 <=? rp_actual_raw_event_count r) && components_ok (rp_components r) && hash_pattern (rp_request_hash r)
  && hash_pattern (rp_report_hash r) && report_coherent r.

Record PaperAcceptanceRequest := {
  pq_generated_at : datetime;
  pq_policy : AnalyticsPolicy;
  pq_sessions : list SessionEvidence;
  pq_replay_reports : list FullSessionReplayReport;
  pq_target_acceptance_verified : bool;
  pq_restore_validation_verified : bool;
  pq_passed_drills : list DrillType;
  pq_configuration_hash : string;
}.
Definition key_le {A} (day : A → date) (id : A → string) (a b : A) : bool :=
  match date_compare (day a) (day b) with Lt => true | Eq => string_leb (id a) (id b) | Gt => false end.
(** [{key(x): x for x in l}]: the last of each key. *)
Definition by_key {A} (key : A → string) (l : list A) : gmap string A :=
  list_to_map (reverse (map (λ x, (key x, x)) l)).
(** PaperAcceptanceRequest.evidence_sets_match. *)
Definition evidence_sets_match (r : PaperAcceptanceRequest) : bool :=
  let session_map := by_key sv_session_id (pq_sessions r) in
  let replay_map := by_key rp_session_id (pq_replay_reports r) in
  bool_decide (dom session_map = dom replay_map)
  && forallb (λ s, String.eqb (sv_configuration_hash s) (pq_configuration_hash r)
       && match replay_map !! sv_session_id s with
          | Some p => bool_decide (rp_trading_date p = sv_trading_date s) | None => true end) (pq_sessions r).
Definition PaperAcceptanceRequest_ok (r : PaperAcceptanceRequest) : bool :=
  AnalyticsPolicy_ok (pq_policy r) && forallb SessionEvidence_ok (pq_sessions r)
  && forallb FullSessionReplayReport_ok (pq_replay_reports r)
  && no_dup (map (λ s, (sv_trading_date s, sv_session_id s)) (pq_sessions r))
  && in_order (key_le sv_trading_date sv_session_id) (pq_sessions r)
  && no_dup (map (λ s, (rp_trading_date s, rp_session_id s)) (pq_replay_reports r))
  && in_order (key_le rp_trading_date rp_session_id) (pq_replay_reports r)
  && no_dup (pq_passed_drills r)
  && in_order (λ a b, string_leb (DrillType_value a) (DrillType_value b)) (pq_passed_drills r)
  && hash_pattern (pq_configuration_hash r) && evidence_sets_match r.

Record SessionAcceptance := {
  sa_session_id : string;
  sa_trading_date : date;
  sa_clean : bool;
  sa_reasons : list string;
  sa_analytics_id : string;
  sa_replay_id : option string;
}.
Definition SessionAcceptance_ok (s : SessionAcceptance) : bool :=
  ID_ok (sa_session_id s) && ID_ok (sa_analytics_id s)
  && match sa_replay_id s with Some i => ID_ok i | None => true end.

Record AggregatePerformance := {
  ag_session_count : Z;
  ag_trade_count : Z;
  ag_gross_pnl : decimal;
  ag_fees : decimal;
  ag_net_pnl : decimal;
  ag_win_rate : decimal;
  ag_profit_factor : option decimal;
  ag_expectancy : decimal;
  ag_maximum_drawdown : decimal;
  ag_average_r_multiple : decimal;
}.
Definition AggregatePerformance_ok (a : AggregatePerformance) : bool :=
  (0 <=? ag_session_count a) && (0 <=? ag_trade_count a) && nonneg_dec (ag_fees a) && rate_ok (ag_win_rate a)
  && nonneg_dec (ag_maximum_drawdown a).

Record PaperAcceptanceLedger := {
  pa_ledger_id : string;
  pa_generated_at : datetime;
  pa_status : AcceptanceStatus;
  pa_paper_ready : bool;
  pa_live_ready : bool;
  pa_session_count : Z;
  pa_clean_session_count : Z;
  pa_filled_order_count : Z;
  pa_clean_session_rate : decimal;
  pa_sessions : list SessionAcceptance;
  pa_performance : AggregatePerformance;
  pa_blockers : list string;
  pa_policy : AnalyticsPolicy;
  pa_configuration_hash : string;
  pa_request_hash : string;
  pa_ledger_hash : string;
}.
(** PaperAcceptanceLedger.coherent. *)
Definition ledger_coherent (l : PaperAcceptanceLedger) : bool :=
  eqb (pa_paper_ready l) (bool_decide (pa_status l = AC_PAPER_QUALIFIED))
  && negb (pa_paper_ready l && nonempty (pa_blockers l)).
Definition PaperAcceptanceLedger_ok (l : PaperAcceptanceLedger) : bool :=
  ID_ok (pa_ledger_id l) && negb (pa_live_ready l)
  && forallb (Z.leb 0) [pa_session_count l; pa_clean_session_count l; pa_filled_order_count l]
  && rate_ok (pa_clean_session_rate l) && forallb SessionAcceptance_ok (pa_sessions l)
  && AggregatePerformance_ok (pa_performance l) && AnalyticsPolicy_ok (pa_policy l)
  && hash_pattern (pa_configuration_hash l) && hash_pattern (pa_request_hash l) && hash_pattern (pa_ledger_hash l)
  && ledger_coherent l.

Record DeploymentEvidenceRequest := {
  dq_generated_at : datetime;
  dq_configuration_hash : string;
  dq_source_archive_sha256 : string;
  dq_wheel_sha256 : string;
  dq_migrations_sha256 : string;
  dq_schemas_bundle_sha256 : string;
  dq_verification_report_sha256 : string;
  dq_specification_sha256 : string;
  dq_tests_collected : Z;
  dq_tests_passed : Z;
  dq_schema_count : Z;
  dq_secret_findings : Z;
  dq_paper_ledger : PaperAcceptanceLedger;
  dq_target_acceptance_verified : bool;
  dq_restore_validation_verified : bool;
  dq_required_drills_verified : bool;
  dq_online_paper_account_verified : bool;
  dq_postgres_verified : bool;
  dq_ntp_verified : bool;
}.
Definition release_version : string := "1.0.2".
Definition specification_version : string := "6.3".
Definition migration_head : string := "0009_phase9_release".
Definition DeploymentEvidenceRequest_ok (r : DeploymentEvidenceRequest) : bool :=
  forallb hash_pattern [dq_configuration_hash r; dq_source_archive_sha256 r; dq_wheel_sha256 r; dq_migrations_sha256 r;
    dq_schemas_bundle_sha256 r; dq_verification_report_sha256 r; dq_specification_sha256 r]
  && (0 <? dq_tests_collected r) && (0 <=? dq_tests_passed r) && (0 <? dq_schema_count r)
  && (0 <=? dq_secret_findings r) && PaperAcceptanceLedger_ok (dq_paper_ledger r)
  && String.eqb (pa_configuration_hash (dq_paper_ledger r)) (dq_configuration_hash r).

Record DeploymentEvidenceReport := {
  dr_report_id : string;
  dr_generated_at : datetime;
  dr_status : DeploymentStatus;
  dr_paper_deployment_ready : bool;
  dr_live_deployment_ready : bool;
  dr_blockers : list string;
  dr_configuration_hash : string;
  dr_paper_ledger_id : string;
  dr_paper_ledger_hash : string;
  dr_tests_collected : Z;
  dr_tests_passed : Z;
  dr_schema_count : Z;
  dr_secret_findings : Z;
  dr_evidence_hashes : list (string * string);
  dr_request_hash : string;
  dr_report_hash : string;
}.
Definition pair_le (a b : string * string) : bool :=
  match String.compare a.1 b.1 with Lt => true | Eq => string_leb a.2 b.2 | Gt => false end.
(** DeploymentEvidenceReport.coherent and evidence_sorted_unique. *)
Definition deployment_coherent (r : DeploymentEvidenceReport) : bool :=
  eqb (dr_paper_deployment_ready r) (bool_decide (dr_status r = DE_PAPER_READY))
  && negb (dr_paper_deployment_ready r && nonempty (dr_blockers r)) && (dr_tests_passed r <=? dr_tests_collected r).
Definition DeploymentEvidenceReport_ok (r : DeploymentEvidenceReport) : bool :=
  ID_ok (dr_report_id r) && negb (dr_live_deployment_ready r) && hash_pattern (dr_configuration_hash r)
  && ID_ok (dr_paper_ledger_id r) && hash_pattern (dr_paper_ledger_hash r) && (0 <? dr_tests_collected r)
  && (0 <=? dr_tests_passed r) && (0 <? dr_schema_count r) && (0 <=? dr_secret_findings r)
  && in_order pair_le (dr_evidence_hashes r) && no_dup (map fst (dr_evidence_hashes r))
  && forallb (λ kv, hash_pattern kv.2) (dr_evidence_hashes r) && hash_pattern (dr_request_hash r)
  && hash_pattern (dr_report_hash r) && deployment_coherent r.
