(* ===== verification/Analytics.v ===== *)
(** * Analytics: session performance, full-session replay and paper acceptance

    daybreak_analytics/analytics.py, replay.py and acceptance.py.  Decimal
    arithmetic is the default context's; [Q] is ten decimal places. *)
From Stdlib Require Import Ascii String.
From S2P Require Import Prelude Numerics PyStr PyTime Contracts Canonical RiskModels OrchModels AnalyticsModels.

#[local] Open Scope Z_scope.

(** ** analytics.py *)

Definition TEN_THOUSAND : decimal := dec.of_Z 10000.
(** [_q]. *)
Definition q10 (x : decimal) : result decimal := dec.quantize x (-10) RHalfEven.

Record TradeMetrics := {
  tm_gross : decimal;
  tm_net : decimal;
  tm_risk : decimal;
  tm_r : decimal;
  tm_entry_slippage : decimal;
  tm_entry_slippage_bps : decimal;
}.
Definition trade_metrics (t : TradeOutcome) : result TradeMetrics :=
  let quantity := dec.of_Z (ot_quantity t) in
  let gross := ((ot_average_exit_price t - ot_average_entry_price t) * quantity)%dec in
  let net := (gross - ot_fees t)%dec in
  let risk := ((ot_planned_entry_price t - ot_planned_stop_price t) * quantity)%dec in
  r_multiple ← if (dec.zero <? risk)%dec then dec.div net risk else Ok dec.zero;
  let slipped := (ot_average_entry_price t - ot_planned_entry_price t)%dec in
  let entry_slippage := (slipped * quantity)%dec in
  relative ← dec.div slipped (ot_planned_entry_price t);
  gross ← q10 gross;
  net ← q10 net;
  risk ← q10 risk;
  r ← q10 r_multiple;
  slippage ← q10 entry_slippage;
  bps ← q10 (relative * TEN_THOUSAND)%dec;
  Ok {| tm_gross := gross; tm_net := net; tm_risk := risk; tm_r := r; tm_entry_slippage := slippage;
        tm_entry_slippage_bps := bps |}.

Record TradeSummary := {
  su_trade_count : Z;
  su_wins : Z;
  su_losses : Z;
  su_breakeven : Z;
  su_gross_pnl : decimal;
  su_fees : decimal;
  su_net_pnl : decimal;
  su_win_rate : decimal;
  su_profit_factor : option decimal;
  su_expectancy : decimal;
  su_average_win : decimal;
  su_average_loss : decimal;
  su_average_r : decimal;
  su_maximum_drawdown : decimal;
  su_total_slippage : decimal;
  su_average_slippage_bps : decimal;
}.

(** [_q(total / Decimal(n)) if n else ZERO]. *)
Definition mean_of (total : decimal) (n : Z) : result decimal :=
  if n =? 0 then Ok dec.zero else x ← dec.div total (dec.of_Z n); q10 x.

(** The loop over the net values: the cumulative sum, its peak and the deepest
    fall below the peak. *)
Fixpoint drawdown_from (cumulative peak deepest : decimal) (l : list decimal) : decimal :=
  match l with
  | [] => deepest
  | v :: l' =>
      let cumulative := (cumulative + v)%dec in
      let peak := dec.max peak cumulative in
      drawdown_from cumulative peak (dec.max deepest (peak - cumulative)%dec) l'
  end.
Definition drawdown (l : list decimal) : decimal := drawdown_from dec.zero dec.zero dec.zero l.

Definition winning (v : decimal) : bool := (dec.zero <? v)%dec.
Definition losing (v : decimal) : bool := (v <? dec.zero)%dec.

(** [_summary]. *)
Definition summary (trades : list TradeOutcome) : result TradeSummary :=
  metrics ← map_result trade_metrics trades;
  let net_values := map tm_net metrics in
  gross_pnl ← q10 (dec.sum (map tm_gross metrics));
  fees ← q10 (dec.sum (map ot_fees trades));
  net_pnl ← q10 (dec.sum net_values);
  let wins := filter (λ v, winning v = true) net_values in
  let losses := filter (λ v, losing v = true) net_values in
  let count := len trades in
  win_rate ← mean_of (dec.of_Z (len wins)) count;
  let gross_profit := dec.sum wins in
  let gross_loss := dec.abs (dec.sum losses) in
  profit_factor ← if (dec.zero <? gross_loss)%dec
                  then x ← dec.div gross_profit gross_loss; y ← q10 x; Ok (Some y) else Ok None;
  expectancy ← mean_of net_pnl count;
  average_win ← mean_of gross_profit (len wins);
  average_loss ← mean_of (dec.sum losses) (len losses);
  average_r ← mean_of (dec.sum (map tm_r metrics)) count;
  total_slippage ← q10 (dec.sum (map tm_entry_slippage metrics));
  average_slippage_bps ← mean_of (dec.sum (map tm_entry_slippage_bps metrics)) count;
  maximum_drawdown ← q10 (drawdown net_values);
  Ok {| su_trade_count := count; su_wins := len wins; su_losses := len losses;
        su_breakeven := count - len wins - len losses; su_gross_pnl := gross_pnl; su_fees := fees;
        su_net_pnl := net_pnl; su_win_rate := win_rate; su_profit_factor := profit_factor; su_expectancy := expectancy;
        su_average_win := average_win; su_average_loss := average_loss; su_average_r := average_r;
        su_maximum_drawdown := maximum_drawdown; su_total_slippage := total_slippage;
        su_average_slippage_bps := average_slippage_bps |}.

(** The groups of [_attributions] a trade belongs to. *)
Definition memberships (t : TradeOutcome) : list (string * string) :=
  [("source_type", ot_source_type t); ("chart_structure", ot_chart_structure t);
   ("exit_reason", ExitReason_value (ot_exit_reason t))]%string
  ++ map (pair "risk_flag"%string) (ot_risk_flags t).
Definition members_of (k : string * string) (trades : list TradeOutcome) : list TradeOutcome :=
  concat (map (λ t, map (λ _, t) (filter (λ m, m = k) (memberships t))) trades).
Definition group_keys (trades : list TradeOutcome) : list (string * string) :=
  sorted_by pair_le (unique_from [] (concat (map memberships trades))).
Definition attribution (trades : list TradeOutcome) (k : string * string) : result AttributionBucket :=
  s ← summary (members_of k trades);
  let b := {| bk_dimension := k.1; bk_key := k.2; bk_trade_count := su_trade_count s; bk_net_pnl := su_net_pnl s;
              bk_win_rate := su_win_rate s; bk_expectancy := su_expectancy s;
              bk_average_r_multiple := su_average_r s |} in
  if AttributionBucket_ok b then Ok b else Err (EValidation "AttributionBucket").
Definition attributions (trades : list TradeOutcome) : result (list AttributionBucket) :=
  map_result (attribution trades) (group_keys trades).

Section analytics.
Context `{Dump SessionEvidence} `{Dump AttributionBucket}.

Definition performance_body (e : SessionEvidence) (s : TradeSummary) (buckets : list AttributionBucket)
    (evidence_hash : string) : pyval :=
  PDict [("session_id", PStr (sv_session_id e)); ("trading_date", PDate (sv_trading_date e));
    ("trade_count", PInt (su_trade_count s)); ("winning_trade_count", PInt (su_wins s));
    ("losing_trade_count", PInt (su_losses s)); ("breakeven_trade_count", PInt (su_breakeven s));
    ("gross_pnl", PDecimal (su_gross_pnl s)); ("fees", PDecimal (su_fees s)); ("net_pnl", PDecimal (su_net_pnl s));
    ("win_rate", PDecimal (su_win_rate s)); ("profit_factor", opt_py PDecimal (su_profit_factor s));
    ("expectancy", PDecimal (su_expectancy s)); ("average_win", PDecimal (su_average_win s));
    ("average_loss", PDecimal (su_average_loss s)); ("average_r_multiple", PDecimal (su_average_r s));
    ("maximum_drawdown", PDecimal (su_maximum_drawdown s)); ("total_entry_slippage", PDecimal (su_total_slippage s));
    ("average_entry_slippage_bps", PDecimal (su_average_slippage_bps s)); ("attributions", PSeq (map dump buckets));
    ("evidence_hash", PStr evidence_hash)]%string.
Definition analyze_session (e : SessionEvidence) : result SessionPerformance :=
  s ← summary (sv_trades e);
  let evidence_hash := orch_sha256 (dump e) in
  buckets ← attributions (sv_trades e);
  let analytics_hash := orch_sha256 (performance_body e s buckets evidence_hash) in
  let p := {| sp_analytics_id := "AN-" +:+ string_take 20 analytics_hash; sp_session_id := sv_session_id e;
     sp_trading_date := sv_trading_date e; sp_trade_count := su_trade_count s; sp_winning_trade_count := su_wins s;
     sp_losing_trade_count := su_losses s; sp_breakeven_trade_count := su_breakeven s;
     sp_gross_pnl := su_gross_pnl s; sp_fees := su_fees s; sp_net_pnl := su_net_pnl s; sp_win_rate := su_win_rate s;
     sp_profit_factor := su_profit_factor s; sp_expectancy := su_expectancy s; sp_average_win := su_average_win s;
     sp_average_loss := su_average_loss s; sp_average_r_multiple := su_average_r s;
     sp_maximum_drawdown := su_maximum_drawdown s; sp_total_entry_slippage := su_total_slippage s;
     sp_average_entry_slippage_bps := su_average_slippage_bps s; sp_attributions := buckets;
     sp_evidence_hash := evidence_hash; sp_analytics_hash := analytics_hash |} in
  if SessionPerformance_ok p then Ok p else Err (EValidation "SessionPerformance").
End analytics.

(** [summarize_sessions], without the trades and with them. *)
Definition summarize_sessions (sessions : list SessionPerformance) (trades : option (list TradeOutcome))
    : result AggregatePerformance :=
  match trades with
  | Some trades =>
      s ← summary trades;
      Ok {| ag_session_count := len sessions; ag_trade_count := su_trade_count s; ag_gross_pnl := su_gross_pnl s;
            ag_fees := su_fees s; ag_net_pnl := su_net_pnl s; ag_win_rate := su_win_rate s;
            ag_profit_factor := su_profit_factor s; ag_expectancy := su_expectancy s;
            ag_maximum_drawdown := su_maximum_drawdown s; ag_average_r_multiple := su_average_r s |}
  | None =>
      let trade_count := foldr Z.add 0 (map sp_trade_count sessions) in
      gross_pnl ← q10 (dec.sum (map sp_gross_pnl sessions));
      fees ← q10 (dec.sum (map sp_fees sessions));
      net_pnl ← q10 (dec.sum (map sp_net_pnl sessions));
      win_rate ← mean_of (dec.of_Z (foldr Z.add 0 (map sp_winning_trade_count sessions))) trade_count;
      expectancy ← mean_of net_pnl trade_count;
      average_r ← mean_of (dec.sum (map (λ s, sp_average_r_multiple s * dec.of_Z (sp_trade_count s))%dec sessions)) trade_count;
      maximum_drawdown ← q10 (drawdown (map sp_net_pnl sessions));
      Ok {| ag_session_count := len sessions; ag_trade_count := trade_count; ag_gross_pnl := gross_pnl;
            ag_fees := fees; ag_net_pnl := net_pnl; ag_win_rate := win_rate; ag_profit_factor := None;
            ag_expectancy := expectancy; ag_maximum_drawdown := maximum_drawdown; ag_average_r_multiple := average_r |}
  end.
