(* ===== verification/PaperAcceptance.v ===== *)
(** * PaperAcceptance: the replay report, the paper ledger and the deployment report

    daybreak_analytics/replay.py and acceptance.py. *)
From Stdlib Require Import Ascii String.
From S2P Require Import Prelude Numerics PyStr PyTime Contracts Canonical RiskModels OrchModels AnalyticsModels Analytics.

#[local] Open Scope Z_scope.

(** [errors.append(e)] when [c]. *)
Definition note (c : bool) (e : string) : list string := if c then [e] else [].

(** ** replay.py *)

Fixpoint comma_separated (l : list string) : string :=
  match l with [] => "" | [x] => x | x :: l' => x +:+ "," +:+ comma_separated l' end.
Definition missing_components (l : list ReplayComponentEvidence) : list string :=
  sorted_by string_leb (map ReplayComponent_value
    (filter (λ c, existsb (λ x, bool_decide (ce_component x = c)) l = false) all_components)).
Definition replay_errors (r : FullSessionReplayRequest) : list string :=
  let missing := missing_components (fq_components r) in
  note (nonempty missing) ("MISSING_COMPONENTS:" +:+ comma_separated missing)
  ++ note (negb (fq_expected_raw_event_count r =? fq_actual_raw_event_count r)) "RAW_EVENT_COUNT_MISMATCH"
  ++ note (negb (fq_event_ordering_verified r)) "EVENT_ORDERING_NOT_VERIFIED"
  ++ note (negb (fq_point_in_time_integrity_verified r)) "POINT_IN_TIME_INTEGRITY_NOT_VERIFIED"
  ++ concat (map (λ c, note (negb (ce_verified c))
       ("COMPONENT_FAILED:" +:+ ReplayComponent_value (ce_component c))) (fq_components r)).

Section acceptance.
Context `{Dump SessionEvidence} `{Dump AttributionBucket} `{Dump FullSessionReplayRequest} `{Dump ReplayComponentEvidence}.
Context `{Dump PaperAcceptanceRequest} `{Dump SessionAcceptance} `{Dump AggregatePerformance} `{Dump AnalyticsPolicy}.
Context `{Dump DeploymentEvidenceRequest}.

Definition build_full_session_replay_report (r : FullSessionReplayRequest) : result FullSessionReplayReport :=
  let request_hash := orch_sha256 (dump r) in
  let errors := replay_errors r in
  let complete := all_present (fq_components r) in
  let passed := complete && negb (nonempty errors) in
  let report_hash := orch_sha256 (PDict [("session_id", PStr (fq_session_id r)); ("trading_date", PDate (fq_trading_date r));
    ("replayed_at", PDatetime (fq_replayed_at r)); ("complete", PBool complete); ("passed", PBool passed);
    ("expected_raw_event_count", PInt (fq_expected_raw_event_count r));
    ("actual_raw_event_count", PInt (fq_actual_raw_event_count r));
    ("event_ordering_verified", PBool (fq_event_ordering_verified r));
    ("point_in_time_integrity_verified", PBool (fq_point_in_time_integrity_verified r));
    ("components", PSeq (map dump (fq_components r))); ("errors", PSeq (map PStr errors));
    ("request_hash", PStr request_hash)]%string) in
  let report := {| rp_replay_id := "RP-" +:+ string_take 20 report_hash; rp_session_id := fq_session_id r;
    rp_trading_date := fq_trading_date r; rp_replayed_at := fq_replayed_at r; rp_complete := complete;
    rp_passed := passed; rp_expected_raw_event_count := fq_expected_raw_event_count r;
    rp_actual_raw_event_count := fq_actual_raw_event_count r; rp_event_ordering_verified := fq_event_ordering_verified r;
    rp_point_in_time_integrity_verified := fq_point_in_time_integrity_verified r; rp_components := fq_components r;
    rp_errors := errors; rp_request_hash := request_hash; rp_report_hash := report_hash |} in
  if FullSessionReplayReport_ok report then Ok report else Err (EValidation "FullSessionReplayReport").

(** ** The paper ledger *)

(** Why a session is not clean. *)
Definition session_reasons (p : AnalyticsPolicy) (s : SessionEvidence) (replay : option FullSessionReplayReport) : list string :=
  note (negb (sv_full_session_recorded s)) "SESSION_NOT_FULLY_RECORDED"
  ++ note (py_maximum_invariant_violations p <? sv_invariant_violations s) "INVARIANT_VIOLATIONS"
  ++ note (py_maximum_unresolved_reconciliations p <? sv_unresolved_reconciliations s) "UNRESOLVED_RECONCILIATIONS"
  ++ note (py_maximum_duplicate_orders p <? sv_duplicate_order_count s) "DUPLICATE_ORDERS"
  ++ note (py_maximum_late_primary_responses p <? sv_late_primary_response_count s) "LATE_PRIMARY_RESPONSES"
  ++ note (negb (sv_all_positions_flat s)) "POSITIONS_NOT_FLAT"
  ++ note (match replay with Some r => negb (rp_passed r) | None => true end) "REPLAY_NOT_VERIFIED".

Definition accept_session (p : AnalyticsPolicy) (replays : gmap string FullSessionReplayReport) (s : SessionEvidence)
    : result (SessionPerformance * SessionAcceptance) :=
  analytics ← analyze_session s;
  let replay := replays !! sv_session_id s in
  let reasons := session_reasons p s replay in
  let record := {| sa_session_id := sv_session_id s; sa_trading_date := sv_trading_date s;
    sa_clean := negb (nonempty reasons); sa_reasons := reasons; sa_analytics_id := sp_analytics_id analytics;
    sa_replay_id := rp_replay_id <$> replay |} in
  if SessionAcceptance_ok record then Ok (analytics, record) else Err (EValidation "SessionAcceptance").

Definition ledger_blockers (r : PaperAcceptanceRequest) (session_count filled_orders : Z) (clean_rate : decimal) : list string :=
  let p := pq_policy r in
  note (session_count <? py_minimum_sessions p) "MINIMUM_SESSION_COUNT_NOT_MET"
  ++ note (filled_orders <? py_minimum_filled_orders p) "MINIMUM_FILLED_ORDER_COUNT_NOT_MET"
  ++ note (clean_rate <? py_minimum_clean_session_rate p)%dec "CLEAN_SESSION_RATE_NOT_MET"
  ++ note (negb (pq_target_acceptance_verified r)) "TARGET_ACCEPTANCE_NOT_VERIFIED"
  ++ note (negb (pq_restore_validation_verified r)) "RESTORE_VALIDATION_NOT_VERIFIED"
  ++ note (len (pq_passed_drills r) <? py_required_drill_count p) "REQUIRED_DRILLS_NOT_VERIFIED".
Definition ledger_status (p : AnalyticsPolicy) (session_count filled_orders : Z) (blockers : list string) : AcceptanceStatus :=
  if (session_count <? py_minimum_sessions p) || (filled_orders <? py_minimum_filled_orders p) then AC_COLLECTING
  else if nonempty blockers then AC_BLOCKED else AC_PAPER_QUALIFIED.

(** The body the ledger's hash covers, as the ledger is dumped. *)
Definition paper_ledger_body (l : PaperAcceptanceLedger) : pyval :=
  PDict [("generated_at", PDatetime (pa_generated_at l)); ("status", PEnum (AcceptanceStatus_value (pa_status l)));
    ("paper_ready", PBool (pa_paper_ready l)); ("live_ready", PBool (pa_live_ready l));
    ("session_count", PInt (pa_session_count l)); ("clean_session_count", PInt (pa_clean_session_count l));
    ("filled_order_count", PInt (pa_filled_order_count l)); ("clean_session_rate", PDecimal (pa_clean_session_rate l));
    ("sessions", PSeq (map dump (pa_sessions l))); ("performance", dump (pa_performance l));
    ("blockers", PSeq (map PStr (pa_blockers l))); ("policy", dump (pa_policy l));
    ("configuration_hash", PStr (pa_configuration_hash l)); ("request_hash", PStr (pa_request_hash l))]%string.

Definition build_paper_acceptance_ledger (r : PaperAcceptanceRequest) : result PaperAcceptanceLedger :=
  let request_hash := orch_sha256 (dump r) in
  let replay_by_session := by_key rp_session_id (pq_replay_reports r) in
  accepted ← map_result (accept_session (pq_policy r) replay_by_session) (pq_sessions r);
  let records := map snd accepted in
  let session_count := len (pq_sessions r) in
  let clean_count := len (filter (λ s, sa_clean s = true) records) in
  let filled_orders := foldr Z.add 0 (map sv_orders_filled (pq_sessions r)) in
  clean_rate ← mean_of (dec.of_Z clean_count) session_count;
  let blockers := ledger_blockers r session_count filled_orders clean_rate in
  let status := ledger_status (pq_policy r) session_count filled_orders blockers in
  performance ← summarize_sessions (map fst accepted) (Some (concat (map sv_trades (pq_sessions r))));
  _ ← guard_or (AggregatePerformance_ok performance) (EValidation "AggregatePerformance");
  let body := PDict [("generated_at", PDatetime (pq_generated_at r)); ("status", PEnum (AcceptanceStatus_value status));
    ("paper_ready", PBool (bool_decide (status = AC_PAPER_QUALIFIED))); ("live_ready", PBool false);
    ("session_count", PInt session_count); ("clean_session_count", PInt clean_count);
    ("filled_order_count", PInt filled_orders); ("clean_session_rate", PDecimal clean_rate);
    ("sessions", PSeq (map dump records)); ("performance", dump performance);
    ("blockers", PSeq (map PStr blockers)); ("policy", dump (pq_policy r));
    ("configuration_hash", PStr (pq_configuration_hash r)); ("request_hash", PStr request_hash)]%string in
  let ledger_hash := orch_sha256 body in
  let ledger := {| pa_ledger_id := "PL-" +:+ string_take 20 ledger_hash; pa_generated_at := pq_generated_at r;
    pa_status := status; pa_paper_ready := bool_decide (status = AC_PAPER_QUALIFIED); pa_live_ready := false;
    pa_session_count := session_count; pa_clean_session_count := clean_count; pa_filled_order_count := filled_orders;
    pa_clean_session_rate := clean_rate; pa_sessions := records; pa_performance := performance;
    pa_blockers := blockers; pa_policy := pq_policy r; pa_configuration_hash := pq_configuration_hash r;
    pa_request_hash := request_hash; pa_ledger_hash := ledger_hash |} in
  if PaperAcceptanceLedger_ok ledger then Ok ledger else Err (EValidation "PaperAcceptanceLedger").

(** ** The deployment report *)

Definition deployment_blockers (r : DeploymentEvidenceRequest) : list string :=
  let l := dq_paper_ledger r in
  note (negb (dq_tests_passed r =? dq_tests_collected r)) "TEST_SUITE_NOT_GREEN"
  ++ note (negb (dq_secret_findings r =? 0)) "SECRET_FINDINGS_PRESENT"
  ++ note (negb (String.eqb (orch_sha256 (paper_ledger_body l)) (pa_ledger_hash l))) "PAPER_LEDGER_HASH_INVALID"
  ++ note (negb (pa_paper_ready l)) "PAPER_LEDGER_NOT_QUALIFIED"
  ++ note (negb (dq_target_acceptance_verified r)) "TARGET_ACCEPTANCE_NOT_VERIFIED"
  ++ note (negb (dq_restore_validation_verified r)) "RESTORE_VALIDATION_NOT_VERIFIED"
  ++ note (negb (dq_required_drills_verified r)) "REQUIRED_DRILLS_NOT_VERIFIED"
  ++ note (negb (dq_online_paper_account_verified r)) "ONLINE_PAPER_ACCOUNT_NOT_VERIFIED"
  ++ note (negb (dq_postgres_verified r)) "POSTGRES_NOT_VERIFIED"
  ++ note (negb (dq_ntp_verified r)) "NTP_NOT_VERIFIED".
Definition evidence_hashes (r : DeploymentEvidenceRequest) : list (string * string) :=
  sorted_by pair_le
    [("configuration", dq_configuration_hash r); ("migrations", dq_migrations_sha256 r);
     ("paper_ledger", pa_ledger_hash (dq_paper_ledger r)); ("schemas_bundle", dq_schemas_bundle_sha256 r);
     ("source_archive", dq_source_archive_sha256 r); ("specification", dq_specification_sha256 r);
     ("verification_report", dq_verification_report_sha256 r); ("wheel", dq_wheel_sha256 r)]%string.

(** [deployment_report_body]: what the report's hash covers. *)
Definition deployment_report_body (r : DeploymentEvidenceReport) : pyval :=
  PDict [("generated_at", PDatetime (dr_generated_at r)); ("status", PEnum (DeploymentStatus_value (dr_status r)));
    ("paper_deployment_ready", PBool (dr_paper_deployment_ready r)); ("live_deployment_ready", PBool (dr_live_deployment_ready r));
    ("blockers", PSeq (map PStr (dr_blockers r))); ("release_version", PStr release_version);
    ("specification_version", PStr specification_version); ("migration_head", PStr migration_head);
    ("configuration_hash", PStr (dr_configuration_hash r)); ("paper_ledger_id", PStr (dr_paper_ledger_id r));
    ("paper_ledger_hash", PStr (dr_paper_ledger_hash r)); ("tests_collected", PInt (dr_tests_collected r));
    ("tests_passed", PInt (dr_tests_passed r)); ("schema_count", PInt (dr_schema_count r));
    ("secret_findings", PInt (dr_secret_findings r));
    ("evidence_hashes", PSeq (map (λ kv, PSeq [PStr kv.1; PStr kv.2]) (dr_evidence_hashes r)));
    ("request_hash", PStr (dr_request_hash r))]%string.
Definition build_deployment_evidence_report (r : DeploymentEvidenceRequest) : result DeploymentEvidenceReport :=
  let request_hash := orch_sha256 (dump r) in
  let blockers := deployment_blockers r in
  let ready := negb (nonempty blockers) in
  let report id hash := {| dr_report_id := id; dr_generated_at := dq_generated_at r;
    dr_status := if ready then DE_PAPER_READY else DE_INCOMPLETE; dr_paper_deployment_ready := ready;
    dr_live_deployment_ready := false; dr_blockers := blockers; dr_configuration_hash := dq_configuration_hash r;
    dr_paper_ledger_id := pa_ledger_id (dq_paper_ledger r); dr_paper_ledger_hash := pa_ledger_hash (dq_paper_ledger r);
    dr_tests_collected := dq_tests_collected r; dr_tests_passed := dq_tests_passed r;
    dr_schema_count := dq_schema_count r; dr_secret_findings := dq_secret_findings r;
    dr_evidence_hashes := evidence_hashes r; dr_request_hash := request_hash; dr_report_hash := hash |} in
  let report_hash := orch_sha256 (deployment_report_body (report "" "")) in
  let result_ := report ("DE-" +:+ string_take 20 report_hash) report_hash in
  if DeploymentEvidenceReport_ok result_ then Ok result_ else Err (EValidation "DeploymentEvidenceReport").
End acceptance.

(** ** persistence.py: the in-memory repository

    A dict in insertion order. *)
Record AnalyticsRepository := {
  an_session_performance : list (string * SessionPerformance);
  an_replay_reports : list (string * FullSessionReplayReport);
  an_paper_ledgers : list (string * PaperAcceptanceLedger);
  an_deployment_reports : list (string * DeploymentEvidenceReport);
}.
Definition empty_analytics_repository : AnalyticsRepository :=
  {| an_session_performance := []; an_replay_reports := []; an_paper_ledgers := []; an_deployment_reports := [] |}.
(** [d.setdefault(k, v)]. *)
Definition setdefault_item {A} (k : string) (v : A) (d : list (string * A)) : list (string * A) :=
  if existsb (λ kv, String.eqb kv.1 k) d then d else d ++ [(k, v)].
Definition save_session_performance (p : SessionPerformance) : eff AnalyticsRepository unit :=
  modify (λ s, {| an_session_performance := setdefault_item (sp_analytics_id p) p (an_session_performance s);
    an_replay_reports := an_replay_reports s; an_paper_ledgers := an_paper_ledgers s;
    an_deployment_reports := an_deployment_reports s |}).
Definition save_replay_report (r : FullSessionReplayReport) : eff AnalyticsRepository unit :=
  modify (λ s, {| an_session_performance := an_session_performance s;
    an_replay_reports := setdefault_item (rp_replay_id r) r (an_replay_reports s);
    an_paper_ledgers := an_paper_ledgers s; an_deployment_reports := an_deployment_reports s |}).
Definition save_paper_ledger (l : PaperAcceptanceLedger) : eff AnalyticsRepository unit :=
  modify (λ s, {| an_session_performance := an_session_performance s; an_replay_reports := an_replay_reports s;
    an_paper_ledgers := setdefault_item (pa_ledger_id l) l (an_paper_ledgers s);
    an_deployment_reports := an_deployment_reports s |}).
Definition save_deployment_report (r : DeploymentEvidenceReport) : eff AnalyticsRepository unit :=
  modify (λ s, {| an_session_performance := an_session_performance s; an_replay_reports := an_replay_reports s;
    an_paper_ledgers := an_paper_ledgers s;
    an_deployment_reports := setdefault_item (dr_report_id r) r (an_deployment_reports s) |}).
Definition get_session_performance (session_id : string) : eff AnalyticsRepository (option SessionPerformance) :=
  gets (λ s, find (λ p, String.eqb (sp_session_id p) session_id) (map snd (an_session_performance s))).
(** [max(values, key=generated_at)]: the first of the latest. *)
Definition later (best : option PaperAcceptanceLedger) (l : PaperAcceptanceLedger) : option PaperAcceptanceLedger :=
  match best with
  | Some b => if pa_generated_at b <? pa_generated_at l then Some l else Some b
  | None => Some l
  end.
Definition get_latest_paper_ledger : eff AnalyticsRepository (option PaperAcceptanceLedger) :=
  gets (λ s, fold_left later (map snd (an_paper_ledgers s)) None).
