(* ===== verification/AnalyticsContract.v ===== *)
(** * AnalyticsContract: what the performance summary and the acceptance
    reports say

    The accounts of a summary against exact sums in units of [Q], and what
    paper readiness stands on. *)
From Stdlib Require Import Ascii String QArith Qabs Qreduction Lqa.
From S2P Require Import Prelude Numerics PyStr PyTime Contracts Canonical RiskModels OrchModels AnalyticsModels Analytics PaperAcceptance.

#[local] Open Scope Z_scope.

(** ** Exact sums of values in units of [Q] *)

Abbreviation bp10 := (bp 10).

Lemma q10_units x r : q10 x = Ok r → r = Dec (coef r) (-10) ∧ Z.abs (coef r) < 10 ^ prec.
Proof.
  intros [-> Hr]%quantize_Ok. split; [|done]. unfold dec.rescale. by destruct (-10 <=? expo x).
Qed.

Lemma units_value k : (dval (Dec k (-10)) == inject_Z k * bp10 (-10))%Q.
Proof. done. Qed.

Lemma units_representable q k : (q == inject_Z k * bp10 (-10))%Q → Z.abs k < 10 ^ prec → representable q.
Proof. intros Hq Hk. by exists k, (-10). Qed.

Lemma units_add a b x y :
  (dval a == inject_Z x * bp10 (-10))%Q → (dval b == inject_Z y * bp10 (-10))%Q → Z.abs (x + y) < 10 ^ prec →
  (dval (a + b)%dec == inject_Z (x + y) * bp10 (-10))%Q.
Proof.
  intros Ha Hb Hk. assert (dval a + dval b == inject_Z (x + y) * bp10 (-10))%Q as E
    by (rewrite Ha, Hb, inject_Z_plus; ring).
  rewrite add_exact; [done|]. by eapply units_representable.
Qed.
Lemma units_sub a b x y :
  (dval a == inject_Z x * bp10 (-10))%Q → (dval b == inject_Z y * bp10 (-10))%Q → Z.abs (x - y) < 10 ^ prec →
  (dval (a - b)%dec == inject_Z (x - y) * bp10 (-10))%Q.
Proof.
  intros Ha Hb Hk. assert (dval a - dval b == inject_Z (x - y) * bp10 (-10))%Q as E
    by (rewrite Ha, Hb, inject_minus; ring).
  rewrite sub_exact; [done|]. by eapply units_representable.
Qed.
Lemma units_max a b x y :
  (dval a == inject_Z x * bp10 (-10))%Q → (dval b == inject_Z y * bp10 (-10))%Q →
  (dval (dec.max a b) == inject_Z (Z.max x y) * bp10 (-10))%Q.
Proof.
  intros Ha Hb. unfold dec.max. pose proof (bp10_pos (-10)) as Hp.
  destruct (dec.ltb a b) eqn:E.
  - apply dltb_spec in E. rewrite Ha, Hb in E. apply Qmult_lt_r in E; [|done]. rewrite <- Zlt_Qlt in E.
    by rewrite Z.max_r by lia.
  - apply dltb_false in E. rewrite Ha, Hb in E. apply Qmult_le_r in E; [|done]. rewrite <- Zle_Qle in E.
    by rewrite Z.max_l by lia.
Qed.

(** A decimal worth a number of units. *)
Definition worth (x : decimal) (k : Z) : Prop := (dval x == inject_Z k * bp10 (-10))%Q.

Definition total (l : list Z) : Z := foldr Z.add 0 l.
Definition size (l : list Z) : Z := total (map Z.abs l).

Lemma total_app l k : total (l ++ k) = total l + total k.
Proof. unfold total. induction l as [|x l IH]; simpl; [done|]. rewrite IH. lia. Qed.
Lemma size_nonneg l : 0 <= size l.
Proof. unfold size, total. induction l as [|x l IH]; simpl; [done|]. lia. Qed.
Lemma size_total l : Z.abs (total l) <= size l.
Proof. unfold size, total. induction l as [|x l IH]; simpl; [done|]. lia. Qed.

Lemma sum_from l ks acc a :
  Forall2 worth l ks → worth acc a → Z.abs a + size ks < 10 ^ prec →
  worth (fold_left dec.add l acc) (a + total ks).
Proof.
  intros Hl. revert acc a. induction Hl as [|x k l ks Hx Hl IH]; intros acc a Ha Hb; cbn [fold_left].
  - change (total []) with 0. by rewrite Z.add_0_r.
  - change (size (k :: ks)) with (Z.abs k + size ks) in Hb. pose proof (size_nonneg ks) as Hn.
    change (total (k :: ks)) with (k + total ks). rewrite Z.add_assoc. apply IH; [apply units_add; [done..|]|]; lia.
Qed.
Lemma sum_worth l ks : Forall2 worth l ks → size ks < 10 ^ prec → worth (dec.sum l) (total ks).
Proof. intros Hl Hs. apply (sum_from l ks dec.zero 0 Hl); [done|]. lia. Qed.

Lemma q10_worth x r k : q10 x = Ok r → worth x k → r = Dec k (-10).
Proof. intros [-> _]%quantize_Ok. apply rescale_exact. Qed.

(** ** The drawdown *)

(** The sum after [i] values. *)
Definition level (ks : list Z) (i : nat) : Z := total (take i ks).

(** [deepest ks d]: [d] is the deepest fall from a level to a later one. *)
Definition deepest (ks : list Z) (d : Z) : Prop :=
  (∀ i j, (i <= j <= length ks)%nat → level ks i - level ks j <= d) ∧
  (∃ i j, (i <= j <= length ks)%nat ∧ level ks i - level ks j = d).

(** The loop, from a prefix [done_] already seen: its level, its highest level
    and its deepest fall. *)
Lemma drawdown_from_spec l ks done_ c p d cz pz dz :
  Forall2 worth l ks → worth c cz → worth p pz → worth d dz →
  2 * size (done_ ++ ks) < 10 ^ prec →
  cz = level done_ (length done_) → (∀ i, (i <= length done_)%nat → level done_ i <= pz) →
  (∃ i, (i <= length done_)%nat ∧ level done_ i = pz) → deepest done_ dz →
  ∃ k, worth (drawdown_from c p d l) k ∧ deepest (done_ ++ ks) k.
Proof.
  intros Hl. revert done_ c p d cz pz dz. induction Hl as [|v k l ks Hv Hl IH]; intros done_ c p d cz pz dz Hc Hp Hd Hs Hcz Hpz Hex Hdeep; simpl.
  - exists dz. by rewrite app_nil_r.
  - assert (∀ i, (i <= length done_)%nat → level (done_ ++ [k]) i = level done_ i) as Hlev.
    { intros i Hi. unfold level. by rewrite take_app_le. }
    assert (level (done_ ++ [k]) (S (length done_)) = cz + k) as Hlast.
    { unfold level. rewrite take_ge by (rewrite length_app; simpl; lia). rewrite total_app, Hcz. unfold level.
      rewrite take_ge by lia. unfold total. simpl. lia. }
    assert (∀ i, (i <= S (length done_))%nat → (i <= length done_)%nat ∨ i = S (length done_)) as Hsplit by lia.
    assert (size (done_ ++ k :: ks) = size done_ + Z.abs k + size ks) as Hsz
      by (unfold size; rewrite map_app, total_app; unfold total; simpl; lia).
    assert (∀ i, Z.abs (level done_ i) <= size done_) as Habs.
    { intros i. etrans; [apply size_total|]. unfold size. rewrite <- (take_drop i done_) at 2.
      rewrite map_app, total_app. pose proof (size_nonneg (drop i done_)). unfold size in *. lia. }
    destruct Hex as (ip & Hip & Hpe). pose proof (size_nonneg ks). pose proof (size_nonneg done_).
    assert (Z.abs cz <= size done_) as Hcb by (rewrite Hcz; apply Habs).
    assert (Z.abs pz <= size done_) as Hpb by (rewrite <- Hpe; apply Habs).
    assert (done_ ++ k :: ks = (done_ ++ [k]) ++ ks) as E by (by rewrite <- app_assoc).
    rewrite E in Hs, Hsz |- *.
    apply (IH (done_ ++ [k]) _ _ _ (cz + k) (Z.max pz (cz + k)) (Z.max dz (Z.max pz (cz + k) - (cz + k)))).
    + apply units_add; [done..|]. lia.
    + apply units_max; [done|]. apply units_add; [done..|]. lia.
    + apply units_max; [done|]. apply units_sub; [|apply units_add; [done..|]; lia|lia].
      apply units_max; [done|]. apply units_add; [done..|]. lia.
    + done.
    + rewrite length_app, Nat.add_1_r. by rewrite Hlast.
    + rewrite length_app, Nat.add_1_r. intros i [Hi| ->]%Hsplit; [|rewrite Hlast; lia].
      rewrite Hlev by done. specialize (Hpz i Hi). lia.
    + rewrite length_app, Nat.add_1_r. destruct (Z.max_spec pz (cz + k)) as [[? ->]|[? ->]].
      * exists (S (length done_)). split; [lia | done].
      * exists ip. split; [lia|]. by rewrite Hlev.
    + destruct Hdeep as [Hall (i0 & j0 & Hij & Hd0)]. unfold deepest. rewrite length_app, Nat.add_1_r. split.
      * intros i j [Hij' [Hj| ->]%Hsplit].
        -- rewrite !Hlev by lia. specialize (Hall i j ltac:(lia)). lia.
        -- rewrite Hlast. destruct (Hsplit i Hij') as [Hi| ->]; [|rewrite Hlast; lia].
           rewrite Hlev by done. specialize (Hpz i Hi). lia.
      * destruct (Z.max_spec dz (Z.max pz (cz + k) - (cz + k))) as [[? ->]|[? ->]].
        -- destruct (Z.max_spec pz (cz + k)) as [[? ->]|[? ->]].
           ++ exists (S (length done_)), (S (length done_)). split; [lia|]. lia.
           ++ exists ip, (S (length done_)). split; [lia|]. rewrite Hlev, Hlast by done. lia.
        -- exists i0, j0. split; [lia|]. by rewrite !Hlev by lia.
Qed.

Lemma drawdown_spec l ks :
  Forall2 worth l ks → 2 * size ks < 10 ^ prec → ∃ k, worth (drawdown l) k ∧ deepest ks k.
Proof.
  intros Hl Hs. apply (drawdown_from_spec l ks [] dec.zero dec.zero dec.zero 0 0 0); try done.
  - intros i Hi. unfold level. by rewrite take_nil.
  - exists 0%nat. done.
  - split; [intros i j _; unfold level; by rewrite !take_nil | by exists 0%nat, 0%nat].
Qed.

(** ** The summary *)

Lemma units_worth ks : Forall2 worth (map (λ k, Dec k (-10)) ks) ks.
Proof. induction ks as [|k ks IH]; constructor; done. Qed.

Lemma trade_metrics_units t m : trade_metrics t = Ok m → tm_net m = Dec (coef (tm_net m)) (-10).
Proof.
  unfold trade_metrics. cbv zeta. intros H. apply bind_Ok in H as (r & _ & H).
  apply bind_Ok in H as (rel & _ & H). apply bind_Ok in H as (g & _ & H). apply bind_Ok in H as (n & Hn & H).
  apply q10_units in Hn as [Hn _]. repeat (apply bind_Ok in H as (? & _ & H)). by apply Ok_inj in H as <-.
Qed.

Lemma nets_units trades metrics :
  map_result trade_metrics trades = Ok metrics →
  map tm_net metrics = map (λ k, Dec k (-10)) (map (λ m, coef (tm_net m)) metrics).
Proof.
  intros H%map_result_Forall2. induction H as [|t m trades metrics Hm Ht IH]; simpl; [done|].
  rewrite IH. f_equal. by eapply trade_metrics_units.
Qed.

Lemma winning_units k : winning (Dec k (-10)) = (0 <? k).
Proof. by destruct k. Qed.
Lemma losing_units k : losing (Dec k (-10)) = (k <? 0).
Proof. by destruct k. Qed.

(** The values of a list of units a test keeps, and how many. *)
Lemma filter_units (test : decimal → bool) (P : Z → Prop) `{∀ k, Decision (P k)} ks :
  (∀ k, test (Dec k (-10)) = true ↔ P k) →
  filter (λ v, test v = true) (map (λ k, Dec k (-10)) ks) = map (λ k, Dec k (-10)) (filter P ks).
Proof.
  intros Ht. induction ks as [|k ks IH]; [done|]. cbn [map]. rewrite !filter_cons.
  destruct (decide (test (Dec k (-10)) = true)) as [E|E], (decide (P k)) as [Hk|Hk]; simpl; rewrite ?IH; try done;
    exfalso; [apply Hk | apply E]; by apply Ht.
Qed.
Lemma win_loss_split ks :
  len ks = len (filter (λ k, 0 < k) ks) + len (filter (λ k, k < 0) ks) + len (filter (λ k, k = 0) ks).
Proof.
  unfold len. induction ks as [|k ks IH]; [done|]. rewrite !filter_cons.
  repeat case_decide; simpl length in *; lia.
Qed.

Lemma filter_none {A} (P : A → Prop) `{∀ x, Decision (P x)} l : (∀ x, x ∈ l → ¬ P x) → filter P l = [].
Proof.
  induction l as [|x l IH]; intros Hl; [done|]. rewrite filter_cons.
  case_decide; [by destruct (Hl x); [constructor|] | apply IH; intros y Hy; apply Hl; by constructor].
Qed.
Lemma units_abs a k : worth a k → Z.abs k < 10 ^ prec → worth (dec.abs a) (Z.abs k).
Proof.
  unfold worth. intros Ha Hk. unfold dec.abs.
  assert (dval (Dec (Z.abs (coef a)) (expo a)) == inject_Z (Z.abs k) * bp10 (-10))%Q as E.
  { change (dval (Dec (Z.abs (coef a)) (expo a))) with (inject_Z (Z.abs (coef a)) * bp10 (expo a))%Q.
    rewrite <- Qabs_dval, Ha, Qabs_Qmult, inject_Z_abs, (Qabs_pos (bp10 (-10))); [done|].
    apply Qlt_le_weak, bp10_pos. }
  rewrite fix_exact; [done|]. eapply units_representable; [done | lia].
Qed.
Lemma units_positive a k : worth a k → dec.ltb dec.zero a = (0 <? k).
Proof.
  intros Ha. pose proof (bp10_pos (-10)) as Hp. apply eq_true_iff_eq. rewrite dltb_spec, Z.ltb_lt, Zlt_Qlt.
  unfold worth in Ha. rewrite Ha. assert (dval dec.zero == 0 * bp10 (-10))%Q as -> by done. change (inject_Z 0) with 0%Q.
  by apply Qmult_lt_r.
Qed.
Lemma losses_size ks :
  let lost := filter (λ k, k < 0) ks in size lost <= size ks ∧ (total lost = 0 → lost = []).
Proof.
  cbv zeta. assert (total (filter (λ k, k < 0) ks) <= 0 ∧ size (filter (λ k, k < 0) ks) <= size ks ∧
    (total (filter (λ k, k < 0) ks) = 0 → filter (λ k, k < 0) ks = [])); [|tauto].
  unfold size, total. induction ks as [|k ks IH]; [done|]. rewrite filter_cons.
  case_decide; simpl; [|split_and!; try tauto; lia]. split_and!; [lia..|]. lia.
Qed.

(** C35: a session's accounts are exact.  If the trades' net results, in units
    of [Q], stay within half the 28 digits of the context, the summary counts
    every trade as one win, loss or break-even, by the sign of its net result;
    its net profit is their sum, with no rounding; its maximum drawdown is the
    deepest fall from any level of the running total, the start included, to a
    later one; and it has a profit factor exactly when there is a loss. *)
Theorem summary_accounts trades metrics s :
  map_result trade_metrics trades = Ok metrics → summary trades = Ok s →
  let ks := map (λ m, coef (tm_net m)) metrics in
  2 * size ks < 10 ^ prec →
  su_trade_count s = len ks ∧ su_wins s = len (filter (λ k, 0 < k) ks) ∧
  su_losses s = len (filter (λ k, k < 0) ks) ∧ su_breakeven s = len (filter (λ k, k = 0) ks) ∧
  su_net_pnl s = Dec (total ks) (-10) ∧
  (∃ d, su_maximum_drawdown s = Dec d (-10) ∧ deepest ks d) ∧
  (su_profit_factor s = None ↔ ∀ k, k ∈ ks → 0 <= k).
Proof.
  intros Hm Hs ks Hb. unfold summary in Hs. rewrite Hm in Hs. cbn [mbind result_bind] in Hs. cbv zeta in Hs.
  rewrite (nets_units _ _ Hm) in Hs. fold ks in Hs.
  assert (len trades = len ks) as Hlen.
  { unfold ks, len. rewrite length_map. apply map_result_Forall2, Forall2_length in Hm. by rewrite Hm. }
  rewrite (filter_units winning (λ k, 0 < k)) in Hs by (intros k; by rewrite winning_units, Z.ltb_lt).
  rewrite (filter_units losing (λ k, k < 0)) in Hs by (intros k; by rewrite losing_units, Z.ltb_lt).
  assert (∀ l : list Z, len (map (λ k, Dec k (-10)) l) = len l) as Hml by (intros l; unfold len; by rewrite length_map).
  rewrite !Hml, Hlen in Hs. pose proof (size_nonneg ks) as Hk0.
  apply bind_Ok in Hs as (gross & _ & Hs). apply bind_Ok in Hs as (fees & _ & Hs).
  apply bind_Ok in Hs as (net & Hnet & Hs). apply bind_Ok in Hs as (rate & _ & Hs).
  apply bind_Ok in Hs as (pf & Hpf & Hs). do 5 (apply bind_Ok in Hs as (? & _ & Hs)).
  apply bind_Ok in Hs as (bps & _ & Hs). apply bind_Ok in Hs as (dd & Hdd & Hs). apply Ok_inj in Hs as <-. cbn.
  destruct (drawdown_spec _ _ (units_worth ks) Hb) as (d & Hd & Hdeep).
  split; [done|]. split; [done|]. split; [done|]. split; [pose proof (win_loss_split ks); lia|].
  split; [eapply q10_worth; [exact Hnet|]; apply sum_worth; [apply units_worth | lia]|].
  split; [exists d; split; [by eapply q10_worth | done]|].
  set (lost := filter (λ k, k < 0) ks) in *.
  assert (size lost <= size ks ∧ (total lost = 0 → lost = [])) as [Hls Hl0] by (by apply losses_size).
  assert (worth (dec.abs (dec.sum (map (λ k, Dec k (-10)) lost))) (Z.abs (total lost))) as Hloss.
  { pose proof (size_total lost). apply units_abs; [apply sum_worth; [apply units_worth | lia] | lia]. }
  assert (lost = [] ↔ ∀ k, k ∈ ks → 0 <= k) as <-.
  { unfold lost. split; intros Hf; [intros k Hk | apply filter_none; intros k Hk].
    - destruct (Z_lt_le_dec k 0) as [Hk0'|]; [|done]. by destruct (filter_nil_not_elem_of (λ k, k < 0) ks k Hf Hk0').
    - specialize (Hf k Hk). lia. }
  assert (dec.ltb dec.zero (dec.abs (dec.sum (map (λ k, Dec k (-10)) lost))) = (0 <? Z.abs (total lost))) as Hlt
    by (by apply units_positive).
  rewrite Hlt in Hpf. destruct (Z.ltb_spec 0 (Z.abs (total lost))) as [Hpos|Hzero].
  - apply bind_Ok in Hpf as (pq & _ & Hpf). apply bind_Ok in Hpf as (pr & _ & Hpf). apply Ok_inj in Hpf as <-.
    split; [done|]. intros E. rewrite E in Hpos. done.
  - apply Ok_inj in Hpf as <-. split; [|done]. intros _. apply Hl0. lia.
Qed.

(** *** A session of three trades *)

Definition sample_trade (id : string) (entry exit stop fees : Z) (source : string) (flags : list string) : TradeOutcome :=
  {| ot_trade_id := id; ot_session_id := "session-1"; ot_ticker := "ABCD"; ot_final_rank := 1; ot_quantity := 100;
     ot_entry_timestamp := 0; ot_exit_timestamp := 1; ot_planned_entry_price := dec.of_Z entry;
     ot_average_entry_price := dec.of_Z entry; ot_planned_stop_price := dec.of_Z stop;
     ot_planned_target_price := dec.of_Z (entry + 5); ot_average_exit_price := dec.of_Z exit;
     ot_fees := dec.of_Z fees; ot_source_type := source; ot_chart_structure := "blue_sky"; ot_risk_flags := flags;
     ot_exit_reason := EX_TARGET |}.
Definition sample_trades : list TradeOutcome :=
  [sample_trade "trade-01" 10 12 9 1 "primary" []; sample_trade "trade-02" 20 18 19 1 "primary" ["low_float"%string];
   sample_trade "trade-03" 10 11 9 1 "secondary" ["secondary_source"%string]].

Lemma summary_accounts_witness :
  ∃ s, summary sample_trades = Ok s ∧ su_wins s = 2 ∧ su_losses s = 1 ∧ su_net_pnl s = Dec 970000000000 (-10) ∧
    su_maximum_drawdown s = Dec 2010000000000 (-10).
Proof.
  set (metrics := get_ok (map_result trade_metrics sample_trades) (eq_refl true)).
  set (s := get_ok (summary sample_trades) (eq_refl true)).
  assert (map_result trade_metrics sample_trades = Ok metrics) as Hm by (vm_compute; reflexivity).
  assert (summary sample_trades = Ok s) as Hs by (vm_compute; reflexivity).
  destruct (summary_accounts sample_trades metrics s Hm Hs) as (_ & Hw & Hl & _ & Hn & _).
  { vm_compute. reflexivity. }
  exists s. split; [exact Hs|]. split; [rewrite Hw; vm_compute; reflexivity|].
  split; [rewrite Hl; vm_compute; reflexivity|]. split; [rewrite Hn; vm_compute; reflexivity|].
  vm_compute. reflexivity.
Defined.

(** ** Paper readiness *)

Lemma note_nil c e : note c e = [] ↔ c = false.
Proof. by destruct c. Qed.
Lemma nonempty_false {A} (l : list A) : nonempty l = false ↔ l = [].
Proof. by destruct l. Qed.

(** Half-even rounding to a quantum moves a value by half of it at most. *)
Lemma rescale_half_err a e : (Qabs (dval (dec.rescale RHalfEven a e) - dval a) <= (1 # 2) * bp10 e)%Q.
Proof.
  unfold dec.rescale. pose proof (bp10_pos e) as Hp. destruct (Z.leb_spec e (expo a)) as [He|He].
  - pose proof (dval_align a e He) as E. change (dval (Dec (dec.align a e) e)) with (inject_Z (dec.align a e) * bp10 e)%Q.
    rewrite E. setoid_replace (dval a - dval a)%Q with 0%Q using relation Qeq by ring. change (Qabs 0) with 0%Q. lra.
  - cbn [round_div]. set (m := 10 ^ (e - expo a)).
    assert (0 < m) as Hm by (apply Z.pow_pos_nonneg; lia).
    pose proof (div_half_even_err (coef a) m Hm) as Herr. set (c := div_half_even (coef a) m) in *.
    assert (bp10 e == inject_Z m * bp10 (expo a))%Q as Hbe.
    { unfold m. rewrite <- bp10_nonneg, <- bp10_add by lia. by replace (e - expo a + expo a) with e by lia. }
    pose proof (bp10_pos (expo a)) as Hpa.
    change (dval (Dec c e)) with (inject_Z c * bp10 e)%Q. unfold dval at 1. rewrite Hbe.
    setoid_replace (inject_Z c * (inject_Z m * bp10 (expo a)) - inject_Z (coef a) * bp10 (expo a))%Q
      with (inject_Z (c * m - coef a) * bp10 (expo a))%Q using relation Qeq by (rewrite inject_minus, inject_Z_mult; ring).
    rewrite Qabs_Qmult, inject_Z_abs, (Qabs_pos (bp10 (expo a))), Qmult_assoc by lra.
    apply Qmult_le_compat_r; [|lra]. rewrite Zle_Qle, inject_Z_mult in Herr. change (inject_Z 2) with 2%Q in Herr. lra.
Qed.

(** A rate of at least one is not a rounded smaller one, up to a billion. *)
Lemma full_rate k n x :
  0 <= k → 0 < n <= 10 ^ 9 → mean_of (dec.of_Z k) n = Ok x → (dec.of_Z 1 <=? x)%dec = true → n <= k.
Proof.
  intros Hk [Hn Hb] Hx Hr. destruct (Z_le_gt_dec n k) as [|Hlt]; [done|exfalso]. apply dleb_spec in Hr.
  unfold mean_of in Hx. destruct (Z.eqb_spec n 0) as [|_]; [lia|]. apply bind_Ok in Hx as (d & Hd & Hq).
  apply quantize_Ok in Hq as [-> _]. pose proof (rescale_half_err d (-10)) as Herr. apply Qabs_Qle_condition in Herr as [_ Herr].
  rewrite dval_of_Z in Hr.
  destruct (Z.eq_dec k 0) as [->|Hk0].
  { rewrite div_zero_l in Hd by (simpl; lia). apply Ok_inj in Hd as <-.
    assert (dval (Dec 0 (expo (dec.of_Z 0) - expo (dec.of_Z n))) == 0)%Q as E by done. rewrite E in Herr.
    change (inject_Z 1) with 1%Q in Hr. change (bp10 (-10)) with (1 # 10000000000)%Q in Herr. lra. }
  destruct (div_pos_spec (dec.of_Z k) (dec.of_Z n) ltac:(simpl; lia) ltac:(simpl; lia)) as (d' & Hd' & Hde & _).
  rewrite Hd in Hd'. apply Ok_inj in Hd' as <-. rewrite !dval_of_Z in Hde. apply Qabs_Qle_condition in Hde as [_ Hde].
  assert (0 < inject_Z n)%Q as HnQ by (by apply inject_Z_pos). set (t := (inject_Z k / inject_Z n)%Q) in *.
  assert (t * inject_Z n == inject_Z k)%Q as Ht by (unfold t; field; lra).
  assert (inject_Z k <= inject_Z n - 1)%Q as Hkn.
  { rewrite <- (inject_minus n 1), <- Zle_Qle. lia. }
  assert (inject_Z n <= 1000000000)%Q as HnB by (change 1000000000%Q with (inject_Z (10 ^ 9)); by rewrite <- Zle_Qle).
  assert (t <= 1 - (1 # 1000000000))%Q as Htb.
  { apply (Qmult_le_r _ _ (inject_Z n)); [done|]. rewrite Ht. nra. }
  assert ((1 # 2) * bp10 (1 - prec) <= 1 # 1000000000000)%Q as Hw by (vm_compute; discriminate).
  assert (0 <= t)%Q as Ht0 by (unfold t; apply Qle_shift_div_l; [done|]; rewrite Qmult_0_l; change 0%Q with (inject_Z 0); rewrite <- Zle_Qle; lia).
  change (bp10 (-10)) with (1 # 10000000000)%Q in Herr. change (inject_Z 1) with 1%Q in Hr.
  set (w := ((1 # 2) * bp10 (1 - prec))%Q) in *. assert (w * t <= 1 # 1000000000000)%Q by nra. lra.
Qed.

Lemma filter_full {A} (P : A → Prop) `{∀ x, Decision (P x)} l :
  (length l <= length (filter P l))%nat → Forall P l.
Proof.
  induction l as [|x l IH]; [constructor|]. pose proof (length_filter P l) as Hl. rewrite filter_cons.
  case_decide; simpl; intros Hlen; [constructor; [done | apply IH; lia] | lia].
Qed.

(** A session that counts as clean. *)
Record session_clean (p : AnalyticsPolicy) (s : SessionEvidence) (replay : option FullSessionReplayReport) : Prop := {
  sc_recorded : sv_full_session_recorded s = true;
  sc_invariants : sv_invariant_violations s <= py_maximum_invariant_violations p;
  sc_reconciled : sv_unresolved_reconciliations s <= py_maximum_unresolved_reconciliations p;
  sc_duplicates : sv_duplicate_order_count s <= py_maximum_duplicate_orders p;
  sc_late : sv_late_primary_response_count s <= py_maximum_late_primary_responses p;
  sc_flat : sv_all_positions_flat s = true;
  sc_replayed : ∃ r, replay = Some r ∧ rp_passed r = true;
}.
Lemma session_reasons_nil p s replay : session_reasons p s replay = [] ↔ session_clean p s replay.
Proof.
  unfold session_reasons. rewrite !app_nil, !note_nil, !negb_false_iff, !Z.ltb_ge. split.
  - intros (? & ? & ? & ? & ? & ? & Hr). split; try done. destruct replay as [r|]; [|done].
    apply negb_false_iff in Hr. eauto.
  - intros [? ? ? ? ? ? (r & -> & Hr)]. by rewrite Hr.
Qed.

(** What a qualified ledger needs. *)
Record qualified (r : PaperAcceptanceRequest) (rate : decimal) : Prop := {
  qf_sessions : py_minimum_sessions (pq_policy r) <= len (pq_sessions r);
  qf_orders : py_minimum_filled_orders (pq_policy r) <= total (map sv_orders_filled (pq_sessions r));
  qf_rate : (py_minimum_clean_session_rate (pq_policy r) <=? rate)%dec = true;
  qf_target : pq_target_acceptance_verified r = true;
  qf_restore : pq_restore_validation_verified r = true;
  qf_drills : py_required_drill_count (pq_policy r) <= len (pq_passed_drills r);
}.
Lemma ledger_status_qualified r rate :
  let n := len (pq_sessions r) in
  let f := total (map sv_orders_filled (pq_sessions r)) in
  ledger_status (pq_policy r) n f (ledger_blockers r n f rate) = AC_PAPER_QUALIFIED ↔ qualified r rate.
Proof.
  cbv zeta. unfold ledger_status. set (b := ledger_blockers _ _ _ _).
  assert (b = [] ↔ qualified r rate) as Hb.
  { unfold b, ledger_blockers. rewrite !app_nil, !note_nil, !negb_false_iff, !Z.ltb_ge.
    assert (∀ x y, dec.ltb x y = false ↔ dec.leb y x = true) as Hd by (intros; rewrite dltb_false, dleb_spec; done).
    rewrite Hd. split; [intros (? & ? & ? & ? & ? & ?); by split | by intros []]. }
  rewrite <- Hb. destruct (_ || _) eqn:E.
  - split; [done|]. intros Hq%Hb. destruct Hq. apply orb_true_iff in E as [E|E]; apply Z.ltb_lt in E; lia.
  - destruct b; simpl; by split.
Qed.

Section readiness.
Context `{Dump SessionEvidence} `{Dump AttributionBucket} `{Dump PaperAcceptanceRequest} `{Dump SessionAcceptance}.
Context `{Dump AggregatePerformance} `{Dump AnalyticsPolicy} `{Dump DeploymentEvidenceRequest}.

(** What a ledger says of the request it was built from. *)
Record ledger_of (r : PaperAcceptanceRequest) (l : PaperAcceptanceLedger) : Prop := {
  lo_live : pa_live_ready l = false;
  lo_hash : pa_ledger_hash l = orch_sha256 (paper_ledger_body l);
  lo_sessions : Forall2 (λ s a, sa_session_id a = sv_session_id s ∧ (sa_clean a = true ↔
      session_clean (pq_policy r) s (by_key rp_session_id (pq_replay_reports r) !! sv_session_id s)))
    (pq_sessions r) (pa_sessions l);
  lo_clean : pa_clean_session_count l = len (filter (λ a, sa_clean a = true) (pa_sessions l));
  lo_rate : mean_of (dec.of_Z (pa_clean_session_count l)) (len (pq_sessions r)) = Ok (pa_clean_session_rate l);
  lo_ready : pa_paper_ready l = true ↔ qualified r (pa_clean_session_rate l);
}.

Lemma ledger_built r l : build_paper_acceptance_ledger r = Ok l → ledger_of r l.
Proof.
  unfold build_paper_acceptance_ledger. cbv zeta. intros Hl. apply bind_Ok in Hl as (acc & Hacc & Hl).
  apply bind_Ok in Hl as (rate & Hrate & Hl). apply bind_Ok in Hl as (perf & _ & Hl).
  apply bind_Ok in Hl as (u & _ & Hl). destruct (PaperAcceptanceLedger_ok _); [|done]. apply Ok_inj in Hl as <-.
  split; try done.
  - cbn [pa_sessions]. apply map_result_Forall2 in Hacc. apply Forall2_fmap_r. eapply Forall2_impl; [exact Hacc|].
    intros s [p a] Ha. unfold accept_session in Ha. apply bind_Ok in Ha as (an & _ & Ha). cbv zeta in Ha.
    destruct (SessionAcceptance_ok _); [|done]. apply Ok_inj in Ha. injection Ha as _ <-. simpl.
    split; [done|]. by rewrite negb_true_iff, nonempty_false, session_reasons_nil.
  - cbn [pa_paper_ready pa_clean_session_rate]. rewrite bool_decide_eq_true. apply ledger_status_qualified.
Qed.

(** A qualified ledger whose policy asks for a rate of one has no unclean
    session. *)
Lemma qualified_all_clean r l :
  ledger_of r l → pa_paper_ready l = true → (dec.of_Z 1 <=? py_minimum_clean_session_rate (pq_policy r))%dec = true →
  0 < len (pq_sessions r) <= 10 ^ 9 →
  ∀ s, s ∈ pq_sessions r →
    session_clean (pq_policy r) s (by_key rp_session_id (pq_replay_reports r) !! sv_session_id s).
Proof.
  intros [] Hr Hone Hn s Hs. apply lo_ready0 in Hr as [_ _ Hrate _ _ _].
  assert (len (pq_sessions r) <= pa_clean_session_count l) as Hall.
  { eapply full_rate; [|exact Hn|exact lo_rate0|]; [rewrite lo_clean0; unfold len; lia|].
    apply dleb_spec in Hone, Hrate. apply dleb_spec. by eapply Qle_trans. }
  pose proof (Forall2_length _ _ _ lo_sessions0) as Hlen. rewrite lo_clean0 in Hall. unfold len in Hall.
  apply list_elem_of_lookup in Hs as [i Hi]. eapply Forall2_lookup_l in lo_sessions0 as (a & Ha & _ & Hc); [|exact Hi].
  apply Hc. assert (Forall (λ a, sa_clean a = true) (pa_sessions l)) as Hf; [|by eapply Forall_lookup_1 in Hf].
  apply (filter_full (λ a, sa_clean a = true)). lia.
Qed.

(** What a deployment needs besides its ledger. *)
Record deployable (d : DeploymentEvidenceRequest) : Prop := {
  dp_tests : dq_tests_passed d = dq_tests_collected d;
  dp_secrets : dq_secret_findings d = 0;
  dp_target : dq_target_acceptance_verified d = true;
  dp_restore : dq_restore_validation_verified d = true;
  dp_drills : dq_required_drills_verified d = true;
  dp_account : dq_online_paper_account_verified d = true;
  dp_postgres : dq_postgres_verified d = true;
  dp_ntp : dq_ntp_verified d = true;
}.
Lemma deployment_blockers_nil d :
  deployment_blockers d = [] ↔
  deployable d ∧ pa_paper_ready (dq_paper_ledger d) = true ∧
  orch_sha256 (paper_ledger_body (dq_paper_ledger d)) = pa_ledger_hash (dq_paper_ledger d).
Proof.
  unfold deployment_blockers. rewrite !app_nil, !note_nil, !negb_false_iff, !Z.eqb_eq, String.eqb_eq. split.
  - intros (? & ? & ? & ? & ? & ? & ? & ? & ? & ?). by split.
  - intros ([] & ? & ?). done.
Qed.

(** Paper readiness is evidence, and never live.  A ledger built from a
    request is sealed by the hash of its own body, which the deployment report
    recomputes; each of its records is clean exactly when that session was
    recorded in full, stayed within the policy's limits on violations,
    unresolved reconciliations, duplicate orders and late responses, ended flat
    and has a replay report that passed; it is paper-ready exactly when there
    are enough sessions, filled orders and drills, the clean rate reaches the
    policy's and the target and restore checks were verified, and, under a
    policy that asks for a rate of one, only if every session is clean.  A
    deployment report built on such a ledger is ready exactly when the ledger
    is and the tests, secrets, account, database and clock evidence is
    complete.  Neither is ever ready for live trading. *)
Theorem paper_readiness r :
  match build_paper_acceptance_ledger r with
  | Err _ => True
  | Ok l =>
      ledger_of r l ∧
      (pa_paper_ready l = true ∧ (dec.of_Z 1 <=? py_minimum_clean_session_rate (pq_policy r))%dec = true ∧
         0 < len (pq_sessions r) <= 10 ^ 9 →
       ∀ s, s ∈ pq_sessions r →
         session_clean (pq_policy r) s (by_key rp_session_id (pq_replay_reports r) !! sv_session_id s)) ∧
      ∀ d, dq_paper_ledger d = l →
        match build_deployment_evidence_report d with
        | Err _ => True
        | Ok rep => dr_live_deployment_ready rep = false ∧
            (dr_paper_deployment_ready rep = true ↔ deployable d ∧ qualified r (pa_clean_session_rate l))
        end
  end.
Proof.
  destruct (build_paper_acceptance_ledger r) as [l|] eqn:E; [|done]. apply ledger_built in E as Hl.
  split; [done|]. split.
  { intros (Hr & Hone & Hn). by apply (qualified_all_clean r l). }
  intros d Hd. destruct (build_deployment_evidence_report d) as [rep|] eqn:Er; [|done].
  unfold build_deployment_evidence_report in Er. cbv zeta in Er.
  destruct (DeploymentEvidenceReport_ok _); [|done]. apply Ok_inj in Er as <-. split; [done|].
  cbn [dr_paper_deployment_ready]. rewrite negb_true_iff, nonempty_false, deployment_blockers_nil, Hd.
  rewrite (lo_ready _ _ Hl), <- (lo_hash _ _ Hl). tauto.
Qed.

End readiness.

(** ** The builders return *)

Lemma code_points_app s t : code_points (s +:+ t) = code_points s + code_points t.
Proof.
  induction s as [|c s IH]; [done|]. change (String c s +:+ t) with (String c (s +:+ t)). cbn [code_points].
  rewrite IH. lia.
Qed.
Lemma hex_counts c : is_hex c = true →
  (if (128 <=? nat_of_ascii c)%nat && (nat_of_ascii c <? 192)%nat then 0 else 1) = 1.
Proof.
  unfold is_hex. intros Hc. assert (nat_of_ascii c < 128)%nat as Hn.
  { apply orb_true_iff in Hc as [Hc|Hc]; apply andb_true_iff in Hc as [_ Hc]; apply Nat.leb_le in Hc; lia. }
  by rewrite (proj2 (Nat.leb_gt _ _) Hn).
Qed.

(** An identifier made of a prefix and twenty digits of a digest. *)
Lemma id_of_hash p h : hash_pattern h = true → code_points p = 3 → ID_ok (p +:+ string_take 20 h) = true.
Proof.
  unfold hash_pattern. intros [Hlen Hhex]%andb_true_iff Hp. apply Nat.eqb_eq in Hlen.
  unfold ID_ok. rewrite code_points_app, Hp.
  assert (∀ n s, forallb is_hex (bytes_of s) = true → (n <= String.length s)%nat →
    code_points (string_take n s) = Z.of_nat n) as ->; [|done|done|lia].
  unfold string_take. clear. induction n as [|n IH]; intros [|c s] Hs Hn; cbn [String.length] in *; try done; try lia.
  cbn [bytes_of list_ascii_of_string forallb] in Hs. apply andb_true_iff in Hs as [Hc Hs].
  cbn [substring code_points]. rewrite IH by (done || lia).
  rewrite hex_counts by done. lia.
Qed.

Lemma orch_sha256_pattern v : hash_pattern (orch_sha256 v) = true.
Proof. apply canonical_sha256_pattern. Qed.


Section building.
Context `{Dump SessionEvidence} `{Dump AttributionBucket} `{Dump FullSessionReplayRequest} `{Dump ReplayComponentEvidence}.
Context `{Dump PaperAcceptanceRequest} `{Dump SessionAcceptance} `{Dump AggregatePerformance} `{Dump AnalyticsPolicy}.
Context `{Dump DeploymentEvidenceRequest}.

Lemma missing_nil l : missing_components l = [] ↔ all_present l = true.
Proof.
  unfold missing_components, all_present. rewrite forallb_forall. split.
  - intros Hm c Hc%list_elem_of_In. apply (f_equal length) in Hm. rewrite length_sorted_by, length_map in Hm.
    apply length_zero_iff_nil in Hm.
    destruct (existsb (λ x, bool_decide (ce_component x = c)) l) eqn:E; [done|].
    by destruct (filter_nil_not_elem_of (λ c, existsb (λ x, bool_decide (ce_component x = c)) l = false) _ c Hm E).
  - intros Hall. rewrite filter_none; [done|]. intros c Hc. rewrite Hall; [done | by apply list_elem_of_In].
Qed.

(** What a full-session replay must show. *)
Record replay_verified (r : FullSessionReplayRequest) : Prop := {
  rv_present : ∀ c, ∃ e, e ∈ fq_components r ∧ ce_component e = c;
  rv_counts : fq_expected_raw_event_count r = fq_actual_raw_event_count r;
  rv_ordering : fq_event_ordering_verified r = true;
  rv_point_in_time : fq_point_in_time_integrity_verified r = true;
  rv_components : ∀ e, e ∈ fq_components r → ce_verified e = true;
}.
Lemma all_present_spec l : all_present l = true ↔ ∀ c, ∃ e, e ∈ l ∧ ce_component e = c.
Proof.
  unfold all_present. rewrite forallb_forall. split.
  - intros Ha c. assert (In c all_components) as Hc by (destruct c; simpl; tauto).
    apply Ha, existsb_exists in Hc as (e & He%list_elem_of_In & Ec). bool_to_prop. eauto.
  - intros Ha c _. destruct (Ha c) as (e & He & Ec). apply existsb_exists. exists e.
    split; [by apply list_elem_of_In | by apply bool_decide_eq_true].
Qed.
Lemma replay_errors_nil r : replay_errors r = [] ↔ replay_verified r.
Proof.
  unfold replay_errors. cbv zeta.
  rewrite !app_nil, !note_nil, !negb_false_iff, nonempty_false, missing_nil, all_present_spec, Z.eqb_eq.
  assert (concat (map (λ c, note (negb (ce_verified c)) ("COMPONENT_FAILED:" +:+ ReplayComponent_value (ce_component c)))
    (fq_components r)) = [] ↔ ∀ e, e ∈ fq_components r → ce_verified e = true) as ->.
  { induction (fq_components r) as [|c l IH]; simpl.
    - split; [intros _ e He; by apply elem_of_nil in He | done].
    - rewrite app_nil, IH, note_nil, negb_false_iff. setoid_rewrite elem_of_cons. split.
      + intros [Hc Hl] e [->|He]; auto.
      + intros Ha. split; [by apply Ha; left | intros e He; apply Ha; by right]. }
  split; [intros (? & ? & ? & ? & ?); by split | by intros []].
Qed.

(** A valid replay request gets a report, and the report passes exactly when
    the replay showed everything. *)
Lemma replay_report_built r :
  FullSessionReplayRequest_ok r = true →
  ∃ rep, build_full_session_replay_report r = Ok rep ∧ rp_session_id rep = fq_session_id r ∧
    rp_trading_date rep = fq_trading_date r ∧ (rp_passed rep = true ↔ replay_verified r).
Proof.
  intros Hr. unfold build_full_session_replay_report. cbv zeta.
  match goal with |- context [orch_sha256 (PDict ?b)] => generalize (orch_sha256_pattern (PDict b));
    generalize (orch_sha256 (PDict b)); intros h Hh end.
  assert (all_present (fq_components r) && negb (nonempty (replay_errors r)) = true ↔ replay_verified r) as Hp.
  { rewrite andb_true_iff, negb_true_iff, nonempty_false, replay_errors_nil, all_present_spec. split; [by intros [_ ?]|].
    intros Hv. split; [by apply Hv | done]. }
  match goal with |- context [FullSessionReplayReport_ok ?x] => exists x; replace (FullSessionReplayReport_ok x) with true;
    [by split_and! | symmetry] end.
  unfold FullSessionReplayReport_ok, report_coherent. cbv zeta.
  cbn [rp_replay_id rp_session_id rp_expected_raw_event_count rp_actual_raw_event_count rp_components rp_request_hash
    rp_report_hash rp_event_ordering_verified rp_point_in_time_integrity_verified rp_errors rp_complete rp_passed]. rewrite (id_of_hash "RP-") by done.
  unfold FullSessionReplayRequest_ok in Hr.
  repeat match goal with H : _ && _ = true |- _ => apply andb_true_iff in H; destruct H end.
  repeat match goal with H : ?b = true |- context [?b] => rewrite H end.
  rewrite orch_sha256_pattern, eqb_reflx, !andb_true_l. apply eqb_true_iff.
  apply eq_true_iff_eq. rewrite Hp, !andb_true_iff, negb_true_iff, nonempty_false, replay_errors_nil, Z.eqb_eq, forallb_forall.
  split; [|tauto]. intros Hv. destruct Hv as [? ? ? ? Hc]. split_and!; try done; [by apply all_present_spec|].
  intros e He. apply Hc. by apply list_elem_of_In.
Qed.
End building.

(** *** A session's performance and a ledger that qualifies *)

Section sample.
#[local] Instance no_dump {A} : Dump A := λ _, PNone.

Lemma performance_built e s buckets :
  summary (sv_trades e) = Ok s → attributions (sv_trades e) = Ok buckets →
  ID_ok (sv_session_id e)
  && forallb (Z.leb 0) [su_trade_count s; su_wins s; su_losses s; su_breakeven s]
  && nonneg_dec (su_fees s) && rate_ok (su_win_rate s) && nonneg_dec (su_maximum_drawdown s)
  && forallb AttributionBucket_ok buckets = true →
  ∃ p, analyze_session e = Ok p ∧ ID_ok (sp_analytics_id p) = true.
Proof.
  intros Hs Hb Hok. unfold analyze_session. rewrite Hs. cbn [mbind result_bind]. cbv zeta. rewrite Hb.
  cbn [mbind result_bind].
  match goal with |- context [orch_sha256 (performance_body ?a ?b ?c ?d)] =>
    generalize (orch_sha256_pattern (performance_body a b c d)); generalize (orch_sha256 (performance_body a b c d)) end.
  intros h Hh. match goal with |- context [SessionPerformance_ok ?x] => exists x; replace (SessionPerformance_ok x) with true end.
  { split; [done|]. by apply id_of_hash. }
  symmetry. unfold SessionPerformance_ok.
  cbn [sp_analytics_id sp_session_id sp_trade_count sp_winning_trade_count sp_losing_trade_count sp_breakeven_trade_count
    sp_fees sp_win_rate sp_maximum_drawdown sp_attributions sp_evidence_hash sp_analytics_hash].
  rewrite (id_of_hash "AN-") by done. rewrite orch_sha256_pattern, Hh, !andb_true_r. exact Hok.
Qed.

Definition sample_hash : string := "0123456789abcdef0123456789abcdef0123456789abcdef0123456789abcdef".
Definition sample_evidence : SessionEvidence :=
  {| sv_session_id := "session-1"; sv_trading_date := {| d_year := 2026; d_month := 8; d_day := 3 |};
     sv_generated_at := 0; sv_configuration_hash := sample_hash; sv_full_session_recorded := true;
     sv_raw_event_count := 10; sv_evaluator_run_count := 1; sv_approved_setup_count := 3;
     sv_qualified_not_selected_count := 0; sv_excluded_ticker_count := 0; sv_orders_submitted := 3;
     sv_orders_filled := 3; sv_invariant_violations := 0; sv_unresolved_reconciliations := 0;
     sv_duplicate_order_count := 0; sv_late_primary_response_count := 0; sv_all_positions_flat := true;
     sv_kill_switch_activation_count := 0; sv_trades := sample_trades |}.
Definition sample_replay : FullSessionReplayReport :=
  {| rp_replay_id := "replay-1"; rp_session_id := "session-1"; rp_trading_date := sv_trading_date sample_evidence;
     rp_replayed_at := 0; rp_complete := true; rp_passed := true; rp_expected_raw_event_count := 10;
     rp_actual_raw_event_count := 10; rp_event_ordering_verified := true; rp_point_in_time_integrity_verified := true;
     rp_components := map (λ c, {| ce_component := c; ce_expected_hash := Some sample_hash;
       ce_actual_hash := Some sample_hash; ce_evidence_count := 1; ce_verified := true; ce_errors := [] |})
       [RK_EVALUATOR; RK_EXECUTION; RK_FEATURES; RK_ORCHESTRATION; RK_RECORDER; RK_RISK];
     rp_errors := []; rp_request_hash := sample_hash; rp_report_hash := sample_hash |}.
Definition sample_request : PaperAcceptanceRequest :=
  {| pq_generated_at := 0;
     pq_policy := {| py_minimum_sessions := 1; py_minimum_filled_orders := 3; py_minimum_clean_session_rate := dec.of_Z 1;
       py_maximum_invariant_violations := 0; py_maximum_unresolved_reconciliations := 0;
       py_maximum_duplicate_orders := 0; py_maximum_late_primary_responses := 0; py_required_drill_count := 1 |};
     pq_sessions := [sample_evidence]; pq_replay_reports := [sample_replay]; pq_target_acceptance_verified := true;
     pq_restore_validation_verified := true; pq_passed_drills := [DT_CLOCK_SKEW]; pq_configuration_hash := sample_hash |}.

Example sample_request_valid : PaperAcceptanceRequest_ok sample_request = true.
Proof. vm_compute. reflexivity. Qed.

Lemma sample_session_accepted :
  ∃ p a, accept_session (pq_policy sample_request) (by_key rp_session_id [sample_replay]) sample_evidence = Ok (p, a) ∧
    sa_clean a = true ∧ SessionAcceptance_ok a = true.
Proof.
  destruct (performance_built sample_evidence (get_ok (summary sample_trades) (eq_refl true))
    (get_ok (attributions sample_trades) (eq_refl true))) as (p & Hp & Hid); [vm_compute; reflexivity..|].
  unfold accept_session. rewrite Hp. cbn [mbind result_bind]. cbv zeta.
  match goal with |- context [SessionAcceptance_ok ?x] => exists p, x; assert (SessionAcceptance_ok x = true) as -> end.
  { unfold SessionAcceptance_ok. cbn [sa_session_id sa_analytics_id sa_replay_id]. rewrite Hid. vm_compute. reflexivity. }
  split; [done|]. split; vm_compute; reflexivity.
Qed.

Lemma sample_ledger_qualifies :
  ∃ l, build_paper_acceptance_ledger sample_request = Ok l ∧ pa_paper_ready l = true.
Proof.
  destruct sample_session_accepted as (p & a & Ha & Hclean & Hok).
  unfold build_paper_acceptance_ledger. change (pq_sessions sample_request) with [sample_evidence].
  change (pq_replay_reports sample_request) with [sample_replay]. cbv zeta. cbn [map_result].
  rewrite Ha. cbn [mbind result_bind map fst snd].
  change (filter (λ s, sa_clean s = true) [a]) with (if decide (sa_clean a = true) then [a] else []).
  rewrite decide_True by done.
  set (rate := get_ok (mean_of (dec.of_Z (len [a])) (len [sample_evidence])) (eq_refl true)).
  assert (mean_of (dec.of_Z (len [a])) (len [sample_evidence]) = Ok rate) as -> by (vm_compute; reflexivity).
  cbn [mbind result_bind].
  assert (∃ perf, summarize_sessions [p] (Some sample_trades) = Ok perf ∧ AggregatePerformance_ok perf = true)
    as (perf & Hsum & Hperf) by (eexists; split; vm_compute; reflexivity).
  match goal with |- context [summarize_sessions [p] (Some ?l)] => change l with sample_trades end.
  rewrite Hsum. cbn [mbind result_bind]. rewrite Hperf. cbn [guard_or].
  match goal with |- context [orch_sha256 (PDict ?b)] => generalize (orch_sha256_pattern (PDict b));
    generalize (orch_sha256 (PDict b)); intros h Hh end.
  match goal with |- context [PaperAcceptanceLedger_ok ?x] => exists x; replace (PaperAcceptanceLedger_ok x) with true end.
  { split; [done|]. vm_compute. reflexivity. }
  symmetry. unfold PaperAcceptanceLedger_ok. cbn [pa_ledger_id pa_live_ready pa_session_count pa_clean_session_count
    pa_filled_order_count pa_clean_session_rate pa_sessions pa_performance pa_policy pa_configuration_hash
    pa_request_hash pa_ledger_hash].
  rewrite (id_of_hash "PL-") by done. rewrite orch_sha256_pattern, Hh, Hperf. cbn [forallb]. rewrite Hok.
  vm_compute. reflexivity.
Qed.
End sample.
