(* ===== verification/OperationsModels.v ===== *)
(** * OperationsModels: recovery, backups, drills and target acceptance

    daybreak_operations/enums.py and models.py.  Fields of one value only are
    constants; a [*_ok] predicate is a model's constraints and validators;
    a model held in another one is not checked again;
    paths are texts, a [details] dict is its dump.  DrillType is in
    AnalyticsModels. *)
From Stdlib Require Import Ascii String.
From S2P Require Import Prelude Numerics PyStr PyTime Contracts Canonical RiskModels OrchModels AnalyticsModels.

#[local] Open Scope Z_scope.

(** ** Enums *)

Inductive RecoveryAction := RA_BLOCK | RA_CAPTURE_ONLY | RA_RECONCILE_ONLY | RA_FLATTEN_ONLY | RA_MANUAL_REVIEW.
#[export] Instance RecoveryAction_eq_dec : EqDecision RecoveryAction. Proof. solve_decision. Defined.
Definition RecoveryAction_value (a : RecoveryAction) : string :=
  match a with
  | RA_BLOCK => "block" | RA_CAPTURE_ONLY => "capture_only" | RA_RECONCILE_ONLY => "reconcile_only"
  | RA_FLATTEN_ONLY => "flatten_only" | RA_MANUAL_REVIEW => "manual_review"
  end.
Inductive DrillStatus := DS_PASSED | DS_FAILED | DS_SKIPPED.
#[export] Instance DrillStatus_eq_dec : EqDecision DrillStatus. Proof. solve_decision. Defined.
Definition DrillStatus_value (s : DrillStatus) : string :=
  match s with DS_PASSED => "passed" | DS_FAILED => "failed" | DS_SKIPPED => "skipped" end.
Inductive CheckStatus := CK_PASS | CK_FAIL | CK_SKIP.
#[export] Instance CheckStatus_eq_dec : EqDecision CheckStatus. Proof. solve_decision. Defined.
Definition CheckStatus_value (s : CheckStatus) : string :=
  match s with CK_PASS => "pass" | CK_FAIL => "fail" | CK_SKIP => "skip" end.

(** ** Policy and observability *)

Record OperationsPolicy := {
  os_heartbeat_interval_seconds : Z;
  os_max_heartbeat_gap_seconds : Z;
  os_minimum_free_disk_bytes : Z;
  os_minimum_file_descriptor_limit : Z;
  os_required_backup_retention_count : Z;
}.
Definition os_recovery_requires_manual_trade_enable (p : OperationsPolicy) : bool := true.
Definition os_allow_automatic_trade_resume (p : OperationsPolicy) : bool := false.
Definition os_allow_live_execution (p : OperationsPolicy) : bool := false.
Definition OperationsPolicy_ok (p : OperationsPolicy) : bool :=
  between 1 60 (os_heartbeat_interval_seconds p) && between 2 300 (os_max_heartbeat_gap_seconds p)
  && (100000000 <=? os_minimum_free_disk_bytes p) && (256 <=? os_minimum_file_descriptor_limit p)
  && between 1 365 (os_required_backup_retention_count p)
  && (os_heartbeat_interval_seconds p <? os_max_heartbeat_gap_seconds p).
Definition default_operations_policy : OperationsPolicy :=
  {| os_heartbeat_interval_seconds := 5; os_max_heartbeat_gap_seconds := 20;
     os_minimum_free_disk_bytes := 5000000000; os_minimum_file_descriptor_limit := 4096;
     os_required_backup_retention_count := 7 |}.

Record MetricSample := {
  mt_name : string;
  mt_value : decimal;
  mt_unit : string;
  mt_labels : list (string * string);
}.
Definition MetricSample_ok (m : MetricSample) : bool :=
  between 1 128 (code_points (mt_name m)) && between 1 32 (code_points (mt_unit m))
  && in_order pair_le (mt_labels m) && no_dup (map fst (mt_labels m)).

Record ObservabilitySnapshot := {
  ob_snapshot_id : string;
  ob_session_id : option string;
  ob_observed_at : datetime;
  ob_healthy : bool;
  ob_metrics : list MetricSample;
  ob_failures : list string;
  ob_configuration_hash : string;
  ob_snapshot_hash : string;
}.
Definition ObservabilitySnapshot_ok (s : ObservabilitySnapshot) : bool :=
  ID_ok (ob_snapshot_id s) && hash_pattern (ob_configuration_hash s) && hash_pattern (ob_snapshot_hash s).

(** ** Recovery *)

Record RestartState := {
  rt_trading_date : date;
  rt_session_id : option string;
  rt_previous_outcome : option string;
  rt_kill_switch_active : bool;
  rt_managed_position_count : Z;
  rt_open_daybreak_order_count : Z;
  rt_recorder_checkpoint_available : bool;
  rt_database_consistent : bool;
  rt_leadership_lease_active : bool;
  rt_configuration_hash_matches : bool;
  rt_now : datetime;
}.
Definition RestartState_ok (s : RestartState) : bool :=
  (0 <=? rt_managed_position_count s) && (0 <=? rt_open_daybreak_order_count s).

Record RecoveryPlan := {
  rc_plan_id : string;
  rc_generated_at : datetime;
  rc_action : RecoveryAction;
  rc_reasons : list string;
  rc_may_resume_capture : bool;
  rc_may_resume_evaluation : bool;
  rc_may_resume_new_entries : bool;
  rc_manual_acknowledgement_required : bool;
  rc_state_hash : string;
  rc_plan_hash : string;
}.
Definition RecoveryPlan_ok (p : RecoveryPlan) : bool :=
  ID_ok (rc_plan_id p) && negb (rc_may_resume_new_entries p) && rc_manual_acknowledgement_required p
  && hash_pattern (rc_state_hash p) && hash_pattern (rc_plan_hash p).

(** ** Backups *)

(** [sorted] of (str, int) pairs. *)
Definition count_le (a b : string * Z) : bool := not_gt (lex (String.compare a.1 b.1) (Z.compare a.2 b.2)).

Record BackupManifest := {
  bm_backup_id : string;
  bm_created_at : datetime;
  bm_source_database : string;
  bm_artifact_path : string;
  bm_artifact_size_bytes : Z;
  bm_artifact_sha256 : string;
  bm_schema_revision : string;
  bm_table_counts : list (string * Z);
  bm_encrypted : bool;
  bm_complete : bool;
  bm_manifest_hash : string;
}.
Definition BackupManifest_ok (m : BackupManifest) : bool :=
  ID_ok (bm_backup_id m) && between 1 256 (code_points (bm_source_database m)) && (0 <? bm_artifact_size_bytes m)
  && hash_pattern (bm_artifact_sha256 m) && between 1 128 (code_points (bm_schema_revision m))
  && in_order count_le (bm_table_counts m) && forallb (λ c, 0 <=? c.2) (bm_table_counts m)
  && hash_pattern (bm_manifest_hash m).

Record RestoreValidation := {
  rv_validation_id : string;
  rv_backup_id : string;
  rv_restored_at : datetime;
  rv_target_database : string;
  rv_artifact_hash_verified : bool;
  rv_schema_revision_match : bool;
  rv_table_counts_match : bool;
  rv_replay_verified : bool;
  rv_passed : bool;
  rv_errors : list string;
  rv_validation_hash : string;
}.
(** RestoreValidation.coherent. *)
Definition restore_coherent (v : RestoreValidation) : bool :=
  eqb (rv_passed v)
    (rv_artifact_hash_verified v && rv_schema_revision_match v && rv_table_counts_match v
     && rv_replay_verified v && negb (nonempty (rv_errors v))).
Definition RestoreValidation_ok (v : RestoreValidation) : bool :=
  ID_ok (rv_validation_id v) && between 1 256 (code_points (rv_target_database v))
  && hash_pattern (rv_validation_hash v) && restore_coherent v.

(** ** Drills and the acceptance report *)

Record DrillObservation := {
  do_name : string;
  do_passed : bool;
  do_message : string;
  do_details : list (string * pyval);
}.
Definition DrillObservation_ok (o : DrillObservation) : bool := between 1 128 (code_points (do_name o)).

Record DrillResult := {
  dl_drill_id : string;
  dl_drill_type : DrillType;
  dl_started_at : datetime;
  dl_completed_at : datetime;
  dl_status : DrillStatus;
  dl_failure_detected : bool;
  dl_new_entries_blocked : bool;
  dl_kill_switch_activated : bool;
  dl_recovery_verified : bool;
  dl_observations : list DrillObservation;
  dl_errors : list string;
  dl_result_hash : string;
}.
(** DrillResult.coherent. *)
Definition drill_coherent (r : DrillResult) : bool :=
  eqb (bool_decide (dl_status r = DS_PASSED))
    (dl_failure_detected r && dl_new_entries_blocked r && dl_recovery_verified r && negb (nonempty (dl_errors r))).
Definition DrillResult_ok (r : DrillResult) : bool :=
  ID_ok (dl_drill_id r) && hash_pattern (dl_result_hash r) && drill_coherent r.

Record OperationsCheck := {
  oc_name : string;
  oc_status : CheckStatus;
  oc_required : bool;
  oc_message : string;
  oc_details : list (string * pyval);
}.
Definition OperationsCheck_ok (c : OperationsCheck) : bool := between 1 128 (code_points (oc_name c)).

Record TargetAcceptanceReport := {
  ta_report_id : string;
  ta_generated_at : datetime;
  ta_target_verified : bool;
  ta_paper_ready : bool;
  ta_checks : list OperationsCheck;
  ta_required_drills : list DrillType;
  ta_passed_drills : list DrillType;
  ta_restore_validation_id : option string;
  ta_recovery_plan_id : option string;
  ta_configuration_hash : string;
  ta_report_hash : string;
}.
Definition TargetAcceptanceReport_ok (r : TargetAcceptanceReport) : bool :=
  ID_ok (ta_report_id r) && hash_pattern (ta_configuration_hash r) && hash_pattern (ta_report_hash r).
