(* ===== verification/Operations.v ===== *)
(** * Operations: recovery plans, restores, drills, observability, acceptance

    daybreak_operations/recovery.py, backup.py, drills.py, observability.py,
    acceptance.py and the in-memory repository.  The host (files, disk,
    limits, programs) and the probes are parameters; a probe acts on a state
    of its own type, so that a later probe may see what an earlier one did. *)
From Stdlib Require Import Ascii String.
From S2P Require Import Prelude Numerics PyStr PyTime Contracts Canonical RiskModels ExecModels OrchModels AnalyticsModels Analytics PaperAcceptance OperationsModels.

#[local] Open Scope Z_scope.

(** ** Files *)

(** [Path.resolve], and the contents of the regular file at a path. *)
Class Files := {
  fs_resolve : string → string;
  fs_file : string → option bytes;
}.
Definition file_sha256 (contents : bytes) : string := sha256.hexdigest contents.

(** The callables a drill is given. *)
Record Drill (W : Type) := {
  fd_inject_failure : eff W unit;
  fd_detect_failure : eff W bool;
  fd_entries_blocked : eff W bool;
  fd_recovery_probe : eff W bool;
  fd_kill_switch_probe : option (eff W bool);
  fd_now : eff W datetime;
}.
Arguments fd_inject_failure {W} d. Arguments fd_detect_failure {W} d. Arguments fd_entries_blocked {W} d.
Arguments fd_recovery_probe {W} d. Arguments fd_kill_switch_probe {W} d. Arguments fd_now {W} d.

Abbreviation details := (list (string * pyval)).
Abbreviation ProbeResult := (bool * string * details)%type.

(** The host the report describes.  The state directory is made, then asked
    about. *)
Record Host (W : Type) := {
  ho_version_info : Z * Z;
  ho_python_version : string;
  ho_platform : string;
  ho_mkdir : string → eff W unit;
  ho_writable : string → eff W bool;
  ho_free : string → eff W Z;
  ho_nofile : eff W (Z * Z);
  ho_systemctl : eff W bool;
}.
Arguments ho_version_info {W} h. Arguments ho_python_version {W} h. Arguments ho_platform {W} h.
Arguments ho_mkdir {W} h. Arguments ho_writable {W} h. Arguments ho_free {W} h. Arguments ho_nofile {W} h.
Arguments ho_systemctl {W} h.

Section operations.
Context `{Uuid5} `{Files}.
Context `{Dump RestartState} `{Dump MetricSample} `{Dump DrillObservation} `{Dump OperationsCheck}.

Definition uuid_of (kind hash : string) : string := uuid5_hex (kind +:+ ":" +:+ hash).
Definition opt_str (o : option string) : pyval := opt_py PStr o.

(** ** recovery.py *)

(** The findings that do not depend on the orders, positions and checkpoint. *)
Definition conflicts (s : RestartState) : list string :=
  note (negb (rt_configuration_hash_matches s)) "CONFIGURATION_HASH_MISMATCH"
  ++ note (negb (rt_database_consistent s)) "DATABASE_NOT_CONSISTENT"
  ++ note (rt_leadership_lease_active s) "ACTIVE_LEADERSHIP_LEASE_EXISTS".
(** The local variables of the function: action, reasons, may_capture and
    may_evaluate. *)
Definition recovery_decision (s : RestartState) : RecoveryAction * list string * bool * bool :=
  let action := if nonempty (conflicts s) then RA_BLOCK else RA_CAPTURE_ONLY in
  let may_capture := negb (nonempty (conflicts s)) in
  let action := if rt_kill_switch_active s then RA_MANUAL_REVIEW else action in
  let reasons := conflicts s ++ note (rt_kill_switch_active s) "KILL_SWITCH_ACTIVE" in
  if 0 <? rt_managed_position_count s then
    (RA_FLATTEN_ONLY, reasons ++ ["MANAGED_POSITIONS_REQUIRE_RECONCILIATION"], false, false)
  else if 0 <? rt_open_daybreak_order_count s then
    (RA_RECONCILE_ONLY, reasons ++ ["OPEN_ORDERS_REQUIRE_RECONCILIATION"], false, false)
  else if negb (rt_recorder_checkpoint_available s) then
    (RA_CAPTURE_ONLY, reasons ++ ["RECORDER_CHECKPOINT_MISSING"], may_capture, false)
  else if negb (nonempty reasons) then
    (RA_CAPTURE_ONLY, reasons ++ ["SAFE_CAPTURE_RECOVERY_ONLY"], may_capture, true)
  else (action, reasons, may_capture, false).

Definition recovery_core (now : datetime) (d : RecoveryAction * list string * bool * bool) (state_hash : string) : pyval :=
  let '(action, reasons, may_capture, may_evaluate) := d in
  PDict [("generated_at", PDatetime now); ("action", PEnum (RecoveryAction_value action));
    ("reasons", PSeq (map PStr reasons)); ("may_resume_capture", PBool may_capture);
    ("may_resume_evaluation", PBool may_evaluate); ("may_resume_new_entries", PBool false);
    ("manual_acknowledgement_required", PBool true); ("state_hash", PStr state_hash)]%string.
Definition build_recovery_plan (s : RestartState) : result RecoveryPlan :=
  let d := recovery_decision s in
  let state_hash := orch_sha256 (dump s) in
  let plan_hash := orch_sha256 (recovery_core (rt_now s) d state_hash) in
  let '(action, reasons, may_capture, may_evaluate) := d in
  let plan := {| rc_plan_id := uuid_of "daybreak-recovery" plan_hash; rc_generated_at := rt_now s;
    rc_action := action; rc_reasons := reasons; rc_may_resume_capture := may_capture;
    rc_may_resume_evaluation := may_evaluate; rc_may_resume_new_entries := false;
    rc_manual_acknowledgement_required := true; rc_state_hash := state_hash; rc_plan_hash := plan_hash |} in
  if RecoveryPlan_ok plan then Ok plan else Err (EValidation "RecoveryPlan").

(** ** backup.py *)

(** The pairs of a dict, sorted. *)
Definition sorted_counts (counts : list (string * Z)) : list (string * Z) := sorted_by count_le counts.
Definition count_py (c : string * Z) : pyval := PSeq [PStr c.1; PInt c.2].

Definition build_backup_manifest (artifact_path source_database schema_revision : string)
    (table_counts : list (string * Z)) (encrypted complete : bool) (created_at : datetime) : result BackupManifest :=
  let path := fs_resolve artifact_path in
  match fs_file path with
  | None => Err (EOther "FileNotFoundError" path)
  | Some contents =>
      let size := len contents in
      _ ← guard_or (0 <? size) (EValue "backup artifact is empty");
      let counts := sorted_counts table_counts in
      let artifact_sha256 := file_sha256 contents in
      let manifest_hash := orch_sha256 (PDict [("created_at", PDatetime created_at);
        ("source_database", PStr source_database); ("artifact_path", PStr path);
        ("artifact_size_bytes", PInt size); ("artifact_sha256", PStr artifact_sha256);
        ("schema_revision", PStr schema_revision); ("table_counts", PSeq (map count_py counts));
        ("encrypted", PBool encrypted); ("complete", PBool complete)]%string) in
      let manifest := {| bm_backup_id := uuid_of "daybreak-backup" manifest_hash; bm_created_at := created_at;
        bm_source_database := source_database; bm_artifact_path := path; bm_artifact_size_bytes := size;
        bm_artifact_sha256 := artifact_sha256; bm_schema_revision := schema_revision; bm_table_counts := counts;
        bm_encrypted := encrypted; bm_complete := complete; bm_manifest_hash := manifest_hash |} in
      if BackupManifest_ok manifest then Ok manifest else Err (EValidation "BackupManifest")
  end.

(** What [bool(replay_probe())] gave, and the error of a probe that raised. *)
Definition probe_answer (r : result bool) : bool * list string :=
  match r with
  | Ok b => (b, [])
  | Err e => (false, ["REPLAY_PROBE_FAILED:" +:+ exn_type_name e +:+ ":" +:+ exn_message e])
  end.
Definition artifact_verified (m : BackupManifest) : bool :=
  match fs_file (bm_artifact_path m) with
  | Some contents => String.eqb (file_sha256 contents) (bm_artifact_sha256 m)
  | None => false
  end.
(** One error per piece of evidence that fails. *)
Definition restore_errors (m : BackupManifest) (probe_error : list string)
    (artifact schema counts replay : bool) : list string :=
  probe_error
  ++ note (negb (bm_complete m)) "BACKUP_MARKED_INCOMPLETE"
  ++ note (negb artifact) "ARTIFACT_HASH_MISMATCH"
  ++ note (negb schema) "SCHEMA_REVISION_MISMATCH"
  ++ note (negb counts) "TABLE_COUNTS_MISMATCH"
  ++ note (negb replay && negb (existsb (String.prefix "REPLAY_PROBE_FAILED") probe_error)) "REPLAY_VERIFICATION_FAILED".

Definition validate_restore {W} (m : BackupManifest) (target_database restored_schema_revision : string)
    (restored_table_counts : list (string * Z)) (replay_probe : eff W bool) (restored_at : datetime)
    : eff W RestoreValidation :=
  let artifact := artifact_verified m in
  let schema := String.eqb restored_schema_revision (bm_schema_revision m) in
  let counts := bool_decide (sorted_counts restored_table_counts = bm_table_counts m) in
  answer ← observe replay_probe;
  let '(replay, probe_error) := probe_answer answer in
  let errors := restore_errors m probe_error artifact schema counts replay in
  let validation_hash := orch_sha256 (PDict [("backup_id", PStr (bm_backup_id m));
    ("restored_at", PDatetime restored_at); ("target_database", PStr target_database);
    ("artifact_hash_verified", PBool artifact); ("schema_revision_match", PBool schema);
    ("table_counts_match", PBool counts); ("replay_verified", PBool replay);
    ("passed", PBool (negb (nonempty errors))); ("errors", PSeq (map PStr errors))]%string) in
  let validation := {| rv_validation_id := uuid_of "daybreak-restore" validation_hash;
    rv_backup_id := bm_backup_id m; rv_restored_at := restored_at; rv_target_database := target_database;
    rv_artifact_hash_verified := artifact; rv_schema_revision_match := schema; rv_table_counts_match := counts;
    rv_replay_verified := replay; rv_passed := negb (nonempty errors); rv_errors := errors;
    rv_validation_hash := validation_hash |} in
  if RestoreValidation_ok validation then mret validation else raise (EValidation "RestoreValidation").

(** ** drills.py *)

Definition bool_text (b : bool) : string := if b then "True" else "False".
Definition observation (name : string) (passed : bool) (message : string) : DrillObservation :=
  {| do_name := name; do_passed := passed; do_message := message; do_details := [] |}.

(** [_probe]: the answer, and what it appends to the observations and to the
    errors. *)
Definition _probe {W} (name : string) (probe : option (eff W bool)) : eff W (bool * list DrillObservation * list string) :=
  match probe with
  | None => mret (false, [], [])
  | Some probe =>
      answer ← observe probe;
      mret match answer with
      | Ok passed => (passed, [observation name passed (name +:+ " returned " +:+ bool_text passed +:+ ".")],
          note (negb passed) (string_upper name))
      | Err e => (false, [observation name false (exn_message e)],
          [string_upper name +:+ "_FAILED:" +:+ exn_type_name e +:+ ":" +:+ exn_message e])
      end
  end.
(** The injection's observation and error. *)
Definition injection (r : result unit) : list DrillObservation * list string :=
  match r with
  | Ok _ => ([observation "failure_injected" true "Failure injection completed."], [])
  | Err e => ([observation "failure_injected" false (exn_message e)],
      ["INJECTION_FAILED:" +:+ exn_type_name e +:+ ":" +:+ exn_message e])
  end.

Definition drill_core (r : DrillResult) : pyval :=
  PDict [("drill_type", PEnum (DrillType_value (dl_drill_type r))); ("started_at", PDatetime (dl_started_at r));
    ("completed_at", PDatetime (dl_completed_at r)); ("status", PEnum (DrillStatus_value (dl_status r)));
    ("failure_detected", PBool (dl_failure_detected r)); ("new_entries_blocked", PBool (dl_new_entries_blocked r));
    ("kill_switch_activated", PBool (dl_kill_switch_activated r)); ("recovery_verified", PBool (dl_recovery_verified r));
    ("observations", PSeq (map dump (dl_observations r))); ("errors", PSeq (map PStr (dl_errors r)))]%string.
Definition run_failure_drill {W} (drill_type : DrillType) (d : Drill W) : eff W DrillResult :=
  started_at ← fd_now d;
  injected ← observe (fd_inject_failure d);
  let '(obs0, err0) := injection injected in
  '(failure_detected, obs1, err1) ← _probe "failure_detected" (Some (fd_detect_failure d));
  '(new_entries_blocked, obs2, err2) ← _probe "new_entries_blocked" (Some (fd_entries_blocked d));
  '(kill_switch_activated, obs3, err3) ← _probe "kill_switch_activated" (fd_kill_switch_probe d);
  '(recovery_verified, obs4, err4) ← _probe "recovery_verified" (Some (fd_recovery_probe d));
  completed_at ← fd_now d;
  let errors := err0 ++ err1 ++ err2 ++ err3 ++ err4 in
  let passed := failure_detected && new_entries_blocked && recovery_verified && negb (nonempty errors) in
  let result_ id hash := {| dl_drill_id := id; dl_drill_type := drill_type; dl_started_at := started_at;
    dl_completed_at := completed_at; dl_status := if passed then DS_PASSED else DS_FAILED;
    dl_failure_detected := failure_detected; dl_new_entries_blocked := new_entries_blocked;
    dl_kill_switch_activated := kill_switch_activated; dl_recovery_verified := recovery_verified;
    dl_observations := obs0 ++ obs1 ++ obs2 ++ obs3 ++ obs4; dl_errors := errors; dl_result_hash := hash |} in
  let result_hash := orch_sha256 (drill_core (result_ "" "")) in
  let r := result_ (uuid_of "daybreak-drill" result_hash) result_hash in
  if DrillResult_ok r then mret r else raise (EValidation "DrillResult").

(** ** observability.py *)

(** A metric as it is given: a Decimal, an int, a float (the decimal of its
    shortest representation) or a text. *)
Inductive MetricValue := MV_Decimal (d : decimal) | MV_Int (z : Z) | MV_Float (x : decimal) | MV_Str (s : string).

(** [Decimal(repr(x))] of a float: a float in fixed notation has at least one
    digit after the point. *)
Definition decimal_of_float (x : decimal) : decimal :=
  if coef x =? 0 then Dec 0 (-1) else
  let d := dec.strip_zeros 400 (coef x) (expo x) (expo x + 400) in
  let point := ndigits 10 (coef d) + expo d in
  if (0 <=? expo d) && (point <=? 16) then Dec (coef d * 10 ^ (expo d + 1)) (-1) else d.

Fixpoint digits_value (acc : Z) (l : chars) : Z :=
  match l with [] => acc | c :: l' => digits_value (acc * 10 + (Z.of_N (N_of_ascii c) - 48)) l' end.
(** An optional sign. *)
Definition take_sign (l : chars) : Z * chars :=
  match l with
  | "+"%char :: l' => (1, l')
  | "-"%char :: l' => (-1, l')
  | _ => (1, l)
  end.
(** The exponent part, with nothing after it. *)
Definition exponent_part (l : chars) : option Z :=
  match l with
  | [] => Some 0
  | ("e" | "E")%char :: l' =>
      let '(sign, l') := take_sign l' in
      let '(ds, rest) := span_digits l' in
      if nonempty ds && negb (nonempty rest) then Some (sign * digits_value 0 ds) else None
  | _ => None
  end.
(** [Decimal(s)] of an ASCII text: surrounding spaces and underscores are
    dropped.  NaN and the infinities, which a metric's model refuses, are not
    told apart from a text that is no number. *)
Definition decimal_of_text (s : string) : option decimal :=
  let l := filter (λ c, Ascii.eqb c "_" = false) (strip (list_ascii_of_string s)) in
  let '(sign, l) := take_sign l in
  let '(whole, l) := span_digits l in
  let '(frac, l) := match l with "."%char :: l' => span_digits l' | _ => ([], l) end in
  if nonempty (whole ++ frac) then
    e ← exponent_part l; Some (Dec (sign * digits_value 0 (whole ++ frac)) (e - len frac))
  else None.
Definition metric_decimal (v : MetricValue) : result decimal :=
  match v with
  | MV_Decimal d => Ok d
  | MV_Int z => Ok (dec.of_Z z)
  | MV_Float x => Ok (decimal_of_float x)
  | MV_Str s => match decimal_of_text s with Some d => Ok d | None => Err EInvalidOperation end
  end.
Definition _unit_for (name : string) : string :=
  if string_ends_with "_seconds" name then "seconds"
  else if string_ends_with "_ms" name then "milliseconds"
  else if string_ends_with "_bytes" name then "bytes"
  else if string_ends_with "_count" name || string_ends_with "_limit" name then "count"
  else "value".
Definition metric_sample (kv : string * MetricValue) : result MetricSample :=
  value ← metric_decimal kv.2;
  let m := {| mt_name := kv.1; mt_value := value; mt_unit := _unit_for kv.1; mt_labels := [] |} in
  if MetricSample_ok m then Ok m else Err (EValidation "MetricSample").
(** [lookup.get(name, d)]. *)
Definition metric_or (samples : list MetricSample) (name : string) (d : decimal) : decimal :=
  match find (λ m, String.eqb (mt_name m) name) (rev samples) with Some m => mt_value m | None => d end.
Definition health_failures (p : OperationsPolicy) (samples : list MetricSample) : list string :=
  note (dec.of_Z (os_max_heartbeat_gap_seconds p) <? metric_or samples "heartbeat_gap_seconds" dec.zero)%dec
    "HEARTBEAT_GAP_EXCEEDED"
  ++ note (metric_or samples "free_disk_bytes" (dec.of_Z (os_minimum_free_disk_bytes p))
       <? dec.of_Z (os_minimum_free_disk_bytes p))%dec "FREE_DISK_BELOW_MINIMUM"
  ++ note (metric_or samples "file_descriptor_limit" (dec.of_Z (os_minimum_file_descriptor_limit p))
       <? dec.of_Z (os_minimum_file_descriptor_limit p))%dec "FILE_DESCRIPTOR_LIMIT_BELOW_MINIMUM".
Definition build_observability_snapshot (metrics : list (string * MetricValue)) (configuration_hash : string)
    (policy : option OperationsPolicy) (session_id : option string) (observed_at : datetime)
    : result ObservabilitySnapshot :=
  let policy := default default_operations_policy policy in
  samples ← map_result metric_sample (sorted_by Canonical.key_le metrics);
  let failures := health_failures policy samples in
  let snapshot_hash := orch_sha256 (PDict [("session_id", opt_str session_id); ("observed_at", PDatetime observed_at);
    ("healthy", PBool (negb (nonempty failures))); ("metrics", PSeq (map dump samples));
    ("failures", PSeq (map PStr failures)); ("configuration_hash", PStr configuration_hash)]%string) in
  let snapshot := {| ob_snapshot_id := uuid_of "daybreak-observability" snapshot_hash; ob_session_id := session_id;
    ob_observed_at := observed_at; ob_healthy := negb (nonempty failures); ob_metrics := samples;
    ob_failures := failures; ob_configuration_hash := configuration_hash; ob_snapshot_hash := snapshot_hash |} in
  if ObservabilitySnapshot_ok snapshot then Ok snapshot else Err (EValidation "ObservabilitySnapshot").

(** ** acceptance.py *)

Definition REQUIRED_DRILLS : list DrillType :=
  [DT_DATABASE_DISCONNECT; DT_MARKET_DATA_DISCONNECT; DT_TRADE_UPDATE_DISCONNECT; DT_BROKER_TIMEOUT;
   DT_CLOCK_SKEW; DT_PROCESS_RESTART].
Definition required_probe_names : list string :=
  ["alpaca_account"; "alpaca_clock"; "postgresql"; "system_ntp"; "migration_head"].
Definition check_of (name : string) (passed : bool) (message : string) (d : details) : OperationsCheck :=
  {| oc_name := name; oc_status := if passed then CK_PASS else CK_FAIL; oc_required := true; oc_message := message;
     oc_details := d |}.
(** [add]: the new check. *)
Definition add_check {W} (name : string) (passed : bool) (message : string) (d : details) : eff W OperationsCheck :=
  if OperationsCheck_ok (check_of name passed message d) then mret (check_of name passed message d)
  else raise (EValidation "OperationsCheck").
Definition host_checks {W} (h : Host W) (policy : OperationsPolicy) (state_dir : string) : eff W (list OperationsCheck) :=
  let state := fs_resolve state_dir in
  c1 ← add_check "paper_only_policy" (negb (os_allow_live_execution policy) && negb (os_allow_automatic_trade_resume policy))
    "Operations policy is paper-only and forbids automatic trade resume." [];
  c2 ← add_check "python_version" (let '(major, minor) := ho_version_info h in (3 <? major) || ((major =? 3) && (12 <=? minor)))
    ("Python " +:+ ho_python_version h +:+ " detected.") [];
  c3 ← add_check "linux_platform" (String.prefix "linux" (ho_platform h)) ("Platform is " +:+ ho_platform h +:+ ".") [];
  _ ← ho_mkdir h state;
  writable ← ho_writable h state;
  c4 ← add_check "state_directory_writable" writable ("State directory is " +:+ state +:+ ".") [];
  free ← ho_free h state;
  c5 ← add_check "free_disk" (os_minimum_free_disk_bytes policy <=? free) ("Free disk bytes: " +:+ pretty free +:+ ".")
    [("free_bytes", PInt free); ("minimum", PInt (os_minimum_free_disk_bytes policy))]%string;
  '(soft, hard) ← ho_nofile h;
  c6 ← add_check "file_descriptor_limit" (os_minimum_file_descriptor_limit policy <=? soft)
    ("Soft file descriptor limit: " +:+ pretty soft +:+ ".") [("soft", PInt soft); ("hard", PInt hard)]%string;
  systemctl ← ho_systemctl h;
  c7 ← add_check "systemd_available" systemctl "systemctl availability checked." [];
  mret [c1; c2; c3; c4; c5; c6; c7].

(** One probe: its answer, or the failure of a probe that raised. *)
Definition probe_check {W} (kv : string * eff W ProbeResult) : eff W OperationsCheck :=
  answer ← observe kv.2;
  match answer with
  | Ok (passed, message, d) => add_check kv.1 passed message d
  | Err e => add_check kv.1 false ("Probe failed: " +:+ exn_type_name e +:+ ": " +:+ exn_message e) []
  end.
Fixpoint probe_checks {W} (probes : list (string * eff W ProbeResult)) : eff W (list OperationsCheck) :=
  match probes with
  | [] => mret []
  | kv :: probes => c ← probe_check kv; l ← probe_checks probes; mret (c :: l)
  end.
Definition drill_le (a b : DrillType) : bool := string_leb (DrillType_value a) (DrillType_value b).
Definition passed_drill_types (results : list DrillResult) : list DrillType :=
  sorted_by drill_le (map dl_drill_type (filter (λ r, dl_status r = DS_PASSED) results)).
Definition recovery_safe (plan : option RecoveryPlan) : bool :=
  match plan with
  | Some p => negb (rc_may_resume_new_entries p) && rc_manual_acknowledgement_required p
  | None => false
  end.
Definition closing_checks {W} (restore : option RestoreValidation) (plan : option RecoveryPlan) (passed : list DrillType)
    : eff W (list OperationsCheck) :=
  c1 ← add_check "backup_restore_validation" (match restore with Some v => rv_passed v | None => false end)
    "A passing backup/restore validation is required." [];
  c2 ← add_check "restart_recovery_plan" (recovery_safe plan) "Recovery plan must prohibit automatic new-entry resume." [];
  c3 ← add_check "failure_drills" (forallb (λ t, bool_decide (t ∈ passed)) REQUIRED_DRILLS)
    "All required operational failure drills must pass."
    [("required", PSeq (map (λ t, PStr (DrillType_value t)) REQUIRED_DRILLS));
     ("passed", PSeq (map (λ t, PStr (DrillType_value t)) passed))]%string;
  mret [c1; c2; c3].
Definition report_core (r : TargetAcceptanceReport) : pyval :=
  PDict [("generated_at", PDatetime (ta_generated_at r)); ("target_verified", PBool (ta_target_verified r));
    ("paper_ready", PBool (ta_paper_ready r)); ("checks", PSeq (map dump (ta_checks r)));
    ("required_drills", PSeq (map (λ t, PEnum (DrillType_value t)) (ta_required_drills r)));
    ("passed_drills", PSeq (map (λ t, PEnum (DrillType_value t)) (ta_passed_drills r)));
    ("restore_validation_id", opt_str (ta_restore_validation_id r)); ("recovery_plan_id", opt_str (ta_recovery_plan_id r));
    ("configuration_hash", PStr (ta_configuration_hash r))]%string.
Definition build_target_acceptance_report {W} (h : Host W) (configuration_hash : string) (policy : option OperationsPolicy)
    (state_dir : string) (probes : list (string * eff W ProbeResult)) (restore_validation : option RestoreValidation)
    (recovery_plan : option RecoveryPlan) (drill_results : list DrillResult) (generated_at : datetime)
    : eff W TargetAcceptanceReport :=
  let policy := default default_operations_policy policy in
  checks1 ← host_checks h policy state_dir;
  checks2 ← probe_checks (sorted_by Canonical.key_le probes);
  let passed := passed_drill_types drill_results in
  checks3 ← closing_checks restore_validation recovery_plan passed;
  let checks := checks1 ++ checks2 ++ checks3 in
  let target_verified := forallb (λ n, existsb (String.eqb n) (map fst probes)) required_probe_names in
  let paper_ready := target_verified
    && forallb (λ c, bool_decide (oc_status c = CK_PASS)) (filter (λ c, oc_required c = true) checks) in
  let report id hash := {| ta_report_id := id; ta_generated_at := generated_at; ta_target_verified := target_verified;
    ta_paper_ready := paper_ready; ta_checks := checks; ta_required_drills := REQUIRED_DRILLS;
    ta_passed_drills := passed; ta_restore_validation_id := rv_validation_id <$> restore_validation;
    ta_recovery_plan_id := rc_plan_id <$> recovery_plan; ta_configuration_hash := configuration_hash;
    ta_report_hash := hash |} in
  let report_hash := orch_sha256 (report_core (report "" "")) in
  let r := report (uuid_of "daybreak-target-acceptance" report_hash) report_hash in
  if TargetAcceptanceReport_ok r then mret r else raise (EValidation "TargetAcceptanceReport").
End operations.

(** ** persistence.py: the in-memory repository

    Dicts in insertion order. *)
Record OperationsRepository := {
  or_observability : list (string * ObservabilitySnapshot);
  or_recovery : list (string * RecoveryPlan);
  or_backups : list (string * BackupManifest);
  or_restores : list (string * RestoreValidation);
  or_drills : list (string * DrillResult);
  or_acceptance : list (string * TargetAcceptanceReport);
}.
Definition empty_operations_repository : OperationsRepository :=
  {| or_observability := []; or_recovery := []; or_backups := []; or_restores := []; or_drills := [];
     or_acceptance := [] |}.
Definition save_observability (v : ObservabilitySnapshot) : eff OperationsRepository unit :=
  modify (λ s, {| or_observability := setdefault_item (ob_snapshot_id v) v (or_observability s);
    or_recovery := or_recovery s; or_backups := or_backups s; or_restores := or_restores s;
    or_drills := or_drills s; or_acceptance := or_acceptance s |}).
Definition save_recovery (v : RecoveryPlan) : eff OperationsRepository unit :=
  modify (λ s, {| or_observability := or_observability s;
    or_recovery := setdefault_item (rc_plan_id v) v (or_recovery s); or_backups := or_backups s;
    or_restores := or_restores s; or_drills := or_drills s; or_acceptance := or_acceptance s |}).
Definition save_backup (v : BackupManifest) : eff OperationsRepository unit :=
  modify (λ s, {| or_observability := or_observability s; or_recovery := or_recovery s;
    or_backups := setdefault_item (bm_backup_id v) v (or_backups s); or_restores := or_restores s;
    or_drills := or_drills s; or_acceptance := or_acceptance s |}).
Definition save_restore (v : RestoreValidation) : eff OperationsRepository unit :=
  modify (λ s, {| or_observability := or_observability s; or_recovery := or_recovery s; or_backups := or_backups s;
    or_restores := setdefault_item (rv_validation_id v) v (or_restores s); or_drills := or_drills s;
    or_acceptance := or_acceptance s |}).
Definition save_drill (v : DrillResult) : eff OperationsRepository unit :=
  modify (λ s, {| or_observability := or_observability s; or_recovery := or_recovery s; or_backups := or_backups s;
    or_restores := or_restores s; or_drills := setdefault_item (dl_drill_id v) v (or_drills s);
    or_acceptance := or_acceptance s |}).
Definition save_acceptance (v : TargetAcceptanceReport) : eff OperationsRepository unit :=
  modify (λ s, {| or_observability := or_observability s; or_recovery := or_recovery s; or_backups := or_backups s;
    or_restores := or_restores s; or_drills := or_drills s;
    or_acceptance := setdefault_item (ta_report_id v) v (or_acceptance s) |}).
(** [max(values, key=observed_at)]: the first of the latest. *)
Definition later_snapshot (best : option ObservabilitySnapshot) (s : ObservabilitySnapshot) : option ObservabilitySnapshot :=
  match best with
  | Some b => if ob_observed_at b <? ob_observed_at s then Some s else Some b
  | None => Some s
  end.
Definition get_latest_observability : eff OperationsRepository (option ObservabilitySnapshot) :=
  gets (λ s, fold_left later_snapshot (map snd (or_observability s)) None).
