(* ===== verification/OperationsContract.v ===== *)
(** * OperationsContract: what recovery plans, restores, drills and acceptance promise

    A recovery plan never resumes new entries and says exactly why; a restore
    passes exactly when all its evidence agrees with the backup; a drill passes
    exactly when every callable answered yes; a target is accepted only on
    passed probes, restore, plan and drills. *)
From Stdlib Require Import Ascii String.
From S2P Require Import Prelude Numerics PyStr PyTime Contracts Canonical RiskModels ExecModels OrchModels AnalyticsModels Analytics PaperAcceptance OperationsModels Operations AnalyticsContract.

#[local] Open Scope Z_scope.

(** uuid5(...).hex has 32 characters. *)
Class Uuid5Hex `{Uuid5} : Prop := uuid5_hex_ok s : ID_ok (uuid5_hex s) = true.

(** ** Recovery *)

(** A conflict: configuration, database or leadership. *)
Definition conflicted (s : RestartState) : bool :=
  negb (rt_configuration_hash_matches s) || negb (rt_database_consistent s) || rt_leadership_lease_active s.
(** Nothing wrong. *)
Definition clean_restart (s : RestartState) : bool :=
  negb (conflicted s) && negb (rt_kill_switch_active s) && (rt_managed_position_count s =? 0)
  && (rt_open_daybreak_order_count s =? 0) && rt_recorder_checkpoint_available s.
(** The action: the first line that applies. *)
Definition action_table (s : RestartState) : RecoveryAction :=
  if 0 <? rt_managed_position_count s then RA_FLATTEN_ONLY
  else if 0 <? rt_open_daybreak_order_count s then RA_RECONCILE_ONLY
  else if negb (rt_recorder_checkpoint_available s) then RA_CAPTURE_ONLY
  else if rt_kill_switch_active s then RA_MANUAL_REVIEW
  else if conflicted s then RA_BLOCK else RA_CAPTURE_ONLY.
(** When a reason is given. *)
Definition reason_holds (s : RestartState) (r : string) : Prop :=
  (r = "CONFIGURATION_HASH_MISMATCH" ∧ rt_configuration_hash_matches s = false) ∨
  (r = "DATABASE_NOT_CONSISTENT" ∧ rt_database_consistent s = false) ∨
  (r = "ACTIVE_LEADERSHIP_LEASE_EXISTS" ∧ rt_leadership_lease_active s = true) ∨
  (r = "KILL_SWITCH_ACTIVE" ∧ rt_kill_switch_active s = true) ∨
  (r = "MANAGED_POSITIONS_REQUIRE_RECONCILIATION" ∧ 0 < rt_managed_position_count s) ∨
  (r = "OPEN_ORDERS_REQUIRE_RECONCILIATION" ∧ rt_managed_position_count s = 0 ∧ 0 < rt_open_daybreak_order_count s) ∨
  (r = "RECORDER_CHECKPOINT_MISSING" ∧ rt_managed_position_count s = 0 ∧ rt_open_daybreak_order_count s = 0 ∧
     rt_recorder_checkpoint_available s = false) ∨
  (r = "SAFE_CAPTURE_RECOVERY_ONLY" ∧ clean_restart s = true).

Lemma note_spec c e r : r ∈ note c e ↔ r = e ∧ c = true.
Proof. destruct c; simpl; set_solver. Qed.

Lemma nonempty_conflicts s : nonempty (conflicts s) = conflicted s.
Proof.
  unfold conflicts, conflicted.
  by destruct (rt_configuration_hash_matches s), (rt_database_consistent s), (rt_leadership_lease_active s).
Qed.

(** What a decision says. *)
Lemma decision_table s action reasons may_capture may_evaluate :
  RestartState_ok s = true → recovery_decision s = (action, reasons, may_capture, may_evaluate) →
  action = action_table s ∧ (∀ r, r ∈ reasons ↔ reason_holds s r) ∧
  may_capture = negb (conflicted s) && (rt_managed_position_count s =? 0) && (rt_open_daybreak_order_count s =? 0) ∧
  may_evaluate = clean_restart s.
Proof.
  intros [Hp Ho]%andb_true_iff. bool_to_prop. unfold recovery_decision, action_table, clean_restart. cbv zeta.
  rewrite nonempty_conflicts. unfold reason_holds, clean_restart.
  assert (nonempty (conflicts s ++ note (rt_kill_switch_active s) "KILL_SWITCH_ACTIVE")
    = conflicted s || rt_kill_switch_active s) as ->.
  { rewrite <- nonempty_conflicts. destruct (conflicts s); [|done]. by destruct (rt_kill_switch_active s). }
  assert (∀ r, r ∈ conflicts s ++ note (rt_kill_switch_active s) "KILL_SWITCH_ACTIVE" ↔
    (r = "CONFIGURATION_HASH_MISMATCH" ∧ rt_configuration_hash_matches s = false) ∨
    (r = "DATABASE_NOT_CONSISTENT" ∧ rt_database_consistent s = false) ∨
    (r = "ACTIVE_LEADERSHIP_LEASE_EXISTS" ∧ rt_leadership_lease_active s = true) ∨
    (r = "KILL_SWITCH_ACTIVE" ∧ rt_kill_switch_active s = true)) as Hr.
  { intros r. unfold conflicts. rewrite !elem_of_app, !note_spec, !negb_true_iff. tauto. }
  revert Hr. generalize (conflicts s ++ note (rt_kill_switch_active s) "KILL_SWITCH_ACTIVE"). intros base Hr.
  destruct (0 <? rt_managed_position_count s) eqn:E1; bool_to_prop.
  { intros [= <- <- <- <-]. rewrite !(proj2 (Z.eqb_neq _ 0)) by lia. rewrite !andb_false_r. cbn [andb].
    split; [done|]. split; [|done]. intros r. rewrite elem_of_app, Hr, list_elem_of_singleton. intuition lia. }
  assert (rt_managed_position_count s = 0) as Ep by lia. rewrite Ep. clear E1 Hp Ep.
  destruct (0 <? rt_open_daybreak_order_count s) eqn:E2; bool_to_prop.
  { intros [= <- <- <- <-]. rewrite !(proj2 (Z.eqb_neq (rt_open_daybreak_order_count s) 0)) by lia.
    rewrite !andb_false_r. cbn [andb]. split; [done|]. split; [|done].
    intros r. rewrite elem_of_app, Hr, list_elem_of_singleton. intuition (done || lia). }
  assert (rt_open_daybreak_order_count s = 0) as Eo by lia. rewrite Eo. clear E2 Ho Eo. rewrite Z.eqb_refl, !andb_true_r.
  destruct (rt_recorder_checkpoint_available s) eqn:E3; cbn [negb];
    [destruct (conflicted s) eqn:E4, (rt_kill_switch_active s) eqn:E5; cbn [negb andb orb]|];
    intros [= <- <- <- <-]; rewrite ?andb_false_r; (split; [done|]); (split; [|done]);
    intros r; rewrite ?elem_of_app, Hr, ?list_elem_of_singleton; intuition (done || lia).
Qed.

Section recovery.
Context `{U : Uuid5} `{!Uuid5Hex} `{Dump RestartState}.

Lemma recovery_plan_built s :
  ∃ p, build_recovery_plan s = Ok p ∧ rc_may_resume_new_entries p = false ∧
    rc_manual_acknowledgement_required p = true ∧ rc_generated_at p = rt_now s ∧
    recovery_decision s = (rc_action p, rc_reasons p, rc_may_resume_capture p, rc_may_resume_evaluation p).
Proof.
  unfold build_recovery_plan. cbv zeta. destruct (recovery_decision s) as [[[action reasons] may_capture] may_evaluate].
  generalize (orch_sha256_pattern (dump s)). generalize (orch_sha256 (dump s)). intros h Hh.
  match goal with |- context [orch_sha256 ?v] => generalize (orch_sha256_pattern v); generalize (orch_sha256 v) end.
  intros h' Hh'. match goal with |- context [RecoveryPlan_ok ?x] => exists x; replace (RecoveryPlan_ok x) with true; [done|] end.
  symmetry. unfold RecoveryPlan_ok.
  cbn [rc_plan_id rc_may_resume_new_entries rc_manual_acknowledgement_required rc_state_hash rc_plan_hash].
  unfold uuid_of. by rewrite uuid5_hex_ok, Hh, Hh'.
Qed.

End recovery.

(** A missing recorder checkpoint, with no position or order left, makes the
    action capture_only whatever else is wrong: it hides an active kill switch,
    which asks for a manual review, and a conflict, which blocks recovery. *)
Lemma missing_checkpoint_hides s action reasons may_capture may_evaluate :
  rt_managed_position_count s = 0 → rt_open_daybreak_order_count s = 0 →
  rt_recorder_checkpoint_available s = false →
  recovery_decision s = (action, reasons, may_capture, may_evaluate) → action = RA_CAPTURE_ONLY.
Proof. intros Hp Ho Hc. unfold recovery_decision. cbv zeta. rewrite Hp, Ho, Hc. simpl. congruence. Qed.
Definition killed_restart : RestartState :=
  {| rt_trading_date := {| d_year := 2026; d_month := 8; d_day := 3 |}; rt_session_id := None;
     rt_previous_outcome := None; rt_kill_switch_active := true; rt_managed_position_count := 0;
     rt_open_daybreak_order_count := 0; rt_recorder_checkpoint_available := false; rt_database_consistent := true;
     rt_leadership_lease_active := false; rt_configuration_hash_matches := true; rt_now := 0 |}.
Example killed_restart_captures :
  RestartState_ok killed_restart = true ∧
  recovery_decision killed_restart = (RA_CAPTURE_ONLY, ["KILL_SWITCH_ACTIVE"; "RECORDER_CHECKPOINT_MISSING"], true, false).
Proof. split; reflexivity. Qed.

(** ** Restores *)

(** Sorting pairs with distinct first components. *)
Lemma good_count : good_compare (λ a b : string * Z, lex (String.compare a.1 b.1) (Z.compare a.2 b.2)).
Proof. apply good_lex; [apply (good_map fst), good_string | apply (good_map snd), good_Z]. Qed.
Lemma sorted_counts_permuted l k : sorted_counts l = sorted_counts k ↔ Permutation l k.
Proof.
  split.
  - unfold sorted_counts. intros E. by rewrite <- (sorted_by_perm count_le l), E, sorted_by_perm.
  - intros Hp. apply sort_unique; [apply good_count | | done]. intros [a x] [b y] _ _. simpl.
    unfold lex. destruct (String.compare a b) eqn:E; [|done..]. intros Hz%Z.compare_eq.
    apply String.compare_eq_iff in E. by subst.
Qed.

Section restore.
Context `{U : Uuid5} `{!Uuid5Hex}.

(** What the evidence of a restore is, for the files at the time of the
    restore and the answer of the probe. *)
Record restore_agrees `{Files} (m : BackupManifest) (revision : string) (counts : list (string * Z)) (answer : result bool)
    : Prop := {
  ra_complete : bm_complete m = true;
  ra_artifact : ∃ contents, fs_file (bm_artifact_path m) = Some contents ∧ file_sha256 contents = bm_artifact_sha256 m;
  ra_revision : revision = bm_schema_revision m;
  ra_counts : sorted_counts counts = bm_table_counts m;
  ra_probe : answer = Ok true;
}.
Lemma artifact_verified_spec `{Files} m :
  artifact_verified m = true ↔
  ∃ contents, fs_file (bm_artifact_path m) = Some contents ∧ file_sha256 contents = bm_artifact_sha256 m.
Proof.
  unfold artifact_verified. destruct (fs_file (bm_artifact_path m)) as [c|]; [|naive_solver].
  rewrite String.eqb_eq. naive_solver.
Qed.
Lemma restore_errors_nil m answer artifact schema counts :
  let '(replay, probe_error) := probe_answer answer in
  restore_errors m probe_error artifact schema counts replay = [] ↔
  bm_complete m = true ∧ artifact = true ∧ schema = true ∧ counts = true ∧ answer = Ok true.
Proof.
  destruct answer as [b|e]; cbn [probe_answer]; unfold restore_errors.
  - cbn [existsb]. rewrite !app_nil, !note_nil, !negb_false_iff, andb_false_iff, negb_false_iff. simpl. naive_solver.
  - split; [|naive_solver]. by intros [E _]%app_nil.
Qed.

(** A validation is always reported, and passes exactly when the evidence
    agrees. *)
Lemma restore_reported `{Files} {W} m target revision counts (probe : eff W bool) t w :
  between 1 256 (code_points target) = true →
  ∃ v, validate_restore m target revision counts probe t w = (Ok v, (probe w).2) ∧
    rv_backup_id v = bm_backup_id m ∧ (rv_passed v = true ↔ restore_agrees m revision counts (probe w).1).
Proof.
  intros Ht. unfold validate_restore. cbv zeta. rewrite eff_bind_unfold. unfold observe at 1. cbn [fst snd].
  pose proof (restore_errors_nil m (probe w).1 (artifact_verified m) (String.eqb revision (bm_schema_revision m))
    (bool_decide (sorted_counts counts = bm_table_counts m))) as Hn.
  destruct (probe_answer (probe w).1) as [replay err] eqn:Ea.
  assert (restore_errors m err (artifact_verified m) (String.eqb revision (bm_schema_revision m))
    (bool_decide (sorted_counts counts = bm_table_counts m)) replay = [] ↔ restore_agrees m revision counts (probe w).1) as Hr.
  { rewrite Hn, artifact_verified_spec, String.eqb_eq, bool_decide_eq_true. split; [by intros (?&?&?&?&?) | by intros []]. }
  match goal with |- context [orch_sha256 ?v] => generalize (orch_sha256_pattern v); generalize (orch_sha256 v) end.
  intros h Hh.
  match goal with |- context [RestoreValidation_ok ?x] => exists x; replace (RestoreValidation_ok x) with true end.
  - split; [done|]. split; [done|]. cbn [rv_passed]. by rewrite negb_true_iff, nonempty_false.
  - symmetry. unfold RestoreValidation_ok, restore_coherent. cbn [rv_validation_id rv_target_database rv_validation_hash
      rv_passed rv_artifact_hash_verified rv_schema_revision_match rv_table_counts_match rv_replay_verified rv_errors].
    unfold uuid_of. rewrite uuid5_hex_ok, Ht, Hh, !andb_true_l. apply eqb_true_iff, eq_true_iff_eq.
    rewrite !andb_true_iff, !negb_true_iff, nonempty_false, Hn. split; [|tauto]. intros (Hc & Ha & Hs & Hco & Hp).
    rewrite Hp in Ea. injection Ea as <- <-. tauto.
Qed.

(** What a manifest records. *)
Lemma manifest_records `{Files} path database revision counts encrypted complete t m :
  build_backup_manifest path database revision counts encrypted complete t = Ok m →
  bm_artifact_path m = fs_resolve path ∧ bm_schema_revision m = revision ∧ bm_table_counts m = sorted_counts counts ∧
  bm_complete m = complete ∧
  ∃ contents, fs_file (fs_resolve path) = Some contents ∧ 0 < bm_artifact_size_bytes m ∧
    bm_artifact_size_bytes m = len contents ∧ bm_artifact_sha256 m = file_sha256 contents.
Proof.
  unfold build_backup_manifest. cbv zeta. destruct (fs_file (fs_resolve path)) as [c|] eqn:Ef; [|done].
  intros (_ & Hg%guard_or_Ok & E)%bind_Ok. revert E.
  match goal with |- context [orch_sha256 ?v] => generalize (orch_sha256 v) end. intros h'.
  case_match; [|done]. intros <-%Ok_inj. bool_to_prop. split_and!; try done. by exists c.
Qed.

(** C37: Restoring a backup passes exactly when the backup was complete, the
    artifact at its path still hashes to what was recorded, the schema revision
    is the recorded one, the table counts are those that were backed up, in any
    order, and the replay probe answered true; whatever happens, a coherent
    validation of that backup is reported. *)
Theorem restore_certifies {F F' : Files} {W} path database revision counts encrypted complete t m
    target revision' counts' (probe : eff W bool) t' w :
  @build_backup_manifest U F path database revision counts encrypted complete t = Ok m →
  between 1 256 (code_points target) = true →
  ∃ v, @validate_restore U F' W m target revision' counts' probe t' w = (Ok v, (probe w).2) ∧
    rv_backup_id v = bm_backup_id m ∧
    (rv_passed v = true ↔
       complete = true ∧
       (∃ c c', @fs_file F (@fs_resolve F path) = Some c ∧ @fs_file F' (@fs_resolve F path) = Some c' ∧
          file_sha256 c' = file_sha256 c) ∧
       revision' = revision ∧ Permutation counts' counts ∧ (probe w).1 = Ok true).
Proof.
  intros Hm Ht. destruct (manifest_records _ _ _ _ _ _ _ _ Hm) as (Hp & Hs & Hc & Hd & c & Hf & _ & _ & Hh).
  destruct (@restore_reported F' W m target revision' counts' probe t' w Ht) as (v & Hv & Hid & Hpass).
  exists v. split; [done|]. split; [done|]. rewrite Hpass. split.
  - intros [Ha (c' & Hc' & Hh') Hr Hk Hpr]. rewrite Hp in Hc'. rewrite <- sorted_counts_permuted. split_and!; try congruence.
    exists c, c'. split_and!; [done..|congruence].
  - intros (Ha & (c0 & c' & Hc0 & Hc' & Hh') & Hr & Hk & Hpr). split; try congruence.
    + exists c'. rewrite Hp. split; [done|]. congruence.
    + rewrite Hc. by apply sorted_counts_permuted.
Qed.
End restore.

(** ** Drills *)

Section drill.
Context `{U : Uuid5} `{!Uuid5Hex} `{Dump DrillObservation} {W : Type}.
Implicit Types d : Drill W.

(** A probe that was given answered true. *)
Definition answers (probe : eff W bool) (w : W) : Prop := (probe w).1 = Ok true.

Lemma probe_spec name probe w :
  ∃ b obs err, _probe name (Some probe) w = (Ok (b, obs, err), (probe w).2) ∧
    (b = true ↔ answers probe w) ∧ (err = [] ↔ answers probe w).
Proof.
  unfold _probe, observe, answers. rewrite eff_bind_unfold. destruct (probe w) as [[b|e] w'] eqn:E; cbn [fst snd].
  - do 3 eexists. split; [reflexivity|]. rewrite note_nil, negb_false_iff. split; naive_solver.
  - do 3 eexists. split; [reflexivity|]. split; naive_solver.
Qed.

(** The states a drill goes through, one after each callable. *)
Record drill_passes d (w : W) : Prop := {
  dp_injected : (fd_inject_failure d (fd_now d w).2).1 = Ok tt;
  dp_detected : answers (fd_detect_failure d) (fd_inject_failure d (fd_now d w).2).2;
  dp_blocked : answers (fd_entries_blocked d) (fd_detect_failure d (fd_inject_failure d (fd_now d w).2).2).2;
  dp_killed : ∀ k, fd_kill_switch_probe d = Some k →
    answers k (fd_entries_blocked d (fd_detect_failure d (fd_inject_failure d (fd_now d w).2).2).2).2;
  dp_recovered :
    let w' := (fd_entries_blocked d (fd_detect_failure d (fd_inject_failure d (fd_now d w).2).2).2).2 in
    answers (fd_recovery_probe d) (match fd_kill_switch_probe d with Some k => (k w').2 | None => w' end);
}.

(** A run: what each callable answered, in order. *)
Lemma drill_runs t d w :
  (∀ w', is_ok (fd_now d w').1 = true) →
  ∃ r w' b1 b2 b4 (err0 err1 err2 err3 err4 : list string),
    let w0 := (fd_now d w).2 in let w1 := (fd_inject_failure d w0).2 in let w2 := (fd_detect_failure d w1).2 in
    let w3 := (fd_entries_blocked d w2).2 in
    let w4 := match fd_kill_switch_probe d with Some k => (k w3).2 | None => w3 end in
    run_failure_drill t d w = (Ok r, w') ∧ dl_drill_type r = t ∧
    (dl_status r = DS_PASSED ↔
       b1 && b2 && b4 && negb (nonempty (err0 ++ err1 ++ err2 ++ err3 ++ err4)) = true) ∧
    (err0 = [] ↔ (fd_inject_failure d w0).1 = Ok tt) ∧
    ((b1 = true ↔ answers (fd_detect_failure d) w1) ∧ (err1 = [] ↔ answers (fd_detect_failure d) w1)) ∧
    ((b2 = true ↔ answers (fd_entries_blocked d) w2) ∧ (err2 = [] ↔ answers (fd_entries_blocked d) w2)) ∧
    (err3 = [] ↔ ∀ k, fd_kill_switch_probe d = Some k → answers k w3) ∧
    ((b4 = true ↔ answers (fd_recovery_probe d) w4) ∧ (err4 = [] ↔ answers (fd_recovery_probe d) w4)).
Proof.
  intros Hclock. cbv zeta. unfold run_failure_drill. rewrite eff_bind_unfold.
  pose proof (Hclock w) as Hw. destruct (fd_now d w) as [[t0|] w0]; [|done]. cbn [fst snd] in *. clear Hw.
  rewrite eff_bind_unfold. unfold observe at 1. cbn [fst snd].
  destruct (injection (fd_inject_failure d w0).1) as [obs0 err0] eqn:E0.
  assert (err0 = [] ↔ (fd_inject_failure d w0).1 = Ok tt) as Hi.
  { destruct (fd_inject_failure d w0).1 as [[]|e]; injection E0 as <- <-; naive_solver. }
  generalize (fd_inject_failure d w0).2. intros w1.
  destruct (probe_spec "failure_detected" (fd_detect_failure d) w1) as (b1 & obs1 & err1 & E1 & H1).
  rewrite eff_bind_unfold, E1.
  destruct (probe_spec "new_entries_blocked" (fd_entries_blocked d) (fd_detect_failure d w1).2)
    as (b2 & obs2 & err2 & E2 & H2).
  rewrite eff_bind_unfold, E2. set (w3 := (fd_entries_blocked d (fd_detect_failure d w1).2).2).
  set (w4 := match fd_kill_switch_probe d with Some k => (k w3).2 | None => w3 end).
  assert (∃ b3 obs3 err3, _probe "kill_switch_activated" (fd_kill_switch_probe d) w3 = (Ok (b3, obs3, err3), w4) ∧
    (err3 = [] ↔ ∀ k, fd_kill_switch_probe d = Some k → answers k w3)) as (b3 & obs3 & err3 & E3 & H3).
  { subst w4. destruct (fd_kill_switch_probe d) as [k|].
    - destruct (probe_spec "kill_switch_activated" k w3) as (b & o & e & E & _ & He). exists b, o, e.
      split; [done|]. rewrite He. naive_solver.
    - exists false, [], []. split; [done|]. naive_solver. }
  rewrite eff_bind_unfold, E3.
  destruct (probe_spec "recovery_verified" (fd_recovery_probe d) w4) as (b4 & obs4 & err4 & E4 & H4).
  rewrite eff_bind_unfold, E4. rewrite eff_bind_unfold.
  pose proof (Hclock (fd_recovery_probe d w4).2) as Hw.
  destruct (fd_now d (fd_recovery_probe d w4).2) as [[t1|] w5]; [|done]. cbn [fst snd] in *. clear Hw. cbv zeta.
  match goal with |- context [orch_sha256 ?v] => generalize (orch_sha256_pattern v); generalize (orch_sha256 v) end.
  intros h Hh. set (errors := err0 ++ err1 ++ err2 ++ err3 ++ err4).
  match goal with |- context [DrillResult_ok ?x] => assert (DrillResult_ok x = true) as Hok end.
  { unfold DrillResult_ok, drill_coherent. cbn [dl_drill_id dl_result_hash dl_status dl_failure_detected
      dl_new_entries_blocked dl_recovery_verified dl_errors]. unfold uuid_of. rewrite uuid5_hex_ok, Hh, !andb_true_l.
    by destruct (b1 && b2 && b4 && negb (nonempty errors)). }
  rewrite Hok. do 2 eexists. exists b1, b2, b4, err0, err1, err2, err3, err4.
  split; [reflexivity|]. split; [done|]. split; [|done].
  cbn [dl_status]. fold errors. by destruct (b1 && b2 && b4 && negb (nonempty errors)).
Qed.

(** A drill whose clock can be read is always reported, and it passes
    exactly when the failure was injected without an exception and then, each
    on the state the one before it left, the failure was detected, new entries
    were blocked, the kill switch (when it is probed) was active and the
    recovery was verified: no probe that fails or raises is passed over. *)
Theorem drill_passes_exactly t d w :
  (∀ w', is_ok (fd_now d w').1 = true) →
  ∃ r w', run_failure_drill t d w = (Ok r, w') ∧ dl_drill_type r = t ∧
    (dl_status r = DS_PASSED ↔ drill_passes d w).
Proof.
  intros Hclock. destruct (drill_runs t d w Hclock) as (r & w' & b1 & b2 & b4 & err0 & err1 & err2 & err3 & err4 &
    Hrun & Ht & Hst & Hi & [Hb1 He1] & [Hb2 He2] & He3 & [Hb4 He4]).
  exists r, w'. split; [done|]. split; [done|].
  rewrite Hst, !andb_true_iff, negb_true_iff, nonempty_false, !app_nil, Hi, Hb1, Hb2, Hb4, He1, He2, He3, He4.
  split; [by intros (_ & ? & ? & ? & ? & ?) | intros []; tauto].
Qed.
End drill.

(** ** Acceptance *)

Section acceptance.
Context `{U : Uuid5} `{Files} `{Dump OperationsCheck} {W : Type}.
Implicit Types h : Host W.

Lemma add_check_Ok name passed message d (w w' : W) c :
  add_check name passed message d w = (Ok c, w') → c = check_of name passed message d ∧ w' = w.
Proof. unfold add_check. case_match; [|done]. by intros [= <- <-]. Qed.

Lemma check_status name passed message d :
  oc_status (check_of name passed message d) = CK_PASS ↔ passed = true.
Proof. destruct passed; simpl; naive_solver. Qed.

(** The checks of the probes, in the order of their names. *)
Lemma probe_checks_Ok (probes : list (string * eff W ProbeResult)) w l w' :
  probe_checks probes w = (Ok l, w') →
  Forall (λ c, oc_required c = true) l ∧
  (Forall (λ c, oc_status c = CK_PASS) l →
   ∀ kv, kv ∈ probes → ∃ w0 message d, (kv.2 w0).1 = Ok (true, message, d)).
Proof.
  revert w l. induction probes as [|kv probes IH]; intros w l; cbn [probe_checks].
  { intros [= <- <-]. split; [constructor | set_solver]. }
  intros (c & w1 & Hc & (l' & w2 & Hl & E)%eff_bind_Ok)%eff_bind_Ok. injection E as <- <-.
  destruct (IH _ _ Hl) as [Hreq Hall]. unfold probe_check in Hc.
  apply eff_bind_Ok in Hc as (r & w0 & Hr & Hc). injection Hr as <- <-.
  destruct (kv.2 w).1 as [[[b m] d]|e] eqn:Ek; apply add_check_Ok in Hc as [-> _]; (split; [by constructor|]);
    intros [Hs Hf]%Forall_cons kv' [->|Hin]%elem_of_cons; try (by apply Hall); apply check_status in Hs; try done.
  subst b. by exists w, m, d.
Qed.

(** The host's own checks, at the states it was asked in. *)
Record host_accepted h (policy : OperationsPolicy) (state_dir : string) : Prop := {
  ha_python : ∃ major minor, ho_version_info h = (major, minor) ∧ (3 < major ∨ major = 3 ∧ 12 <= minor);
  ha_linux : String.prefix "linux" (ho_platform h) = true;
  ha_writable : ∃ w, (ho_writable h (fs_resolve state_dir) w).1 = Ok true;
  ha_free : ∃ w n, (ho_free h (fs_resolve state_dir) w).1 = Ok n ∧ os_minimum_free_disk_bytes policy <= n;
  ha_nofile : ∃ w n m, (ho_nofile h w).1 = Ok (n, m) ∧ os_minimum_file_descriptor_limit policy <= n;
  ha_systemctl : ∃ w, (ho_systemctl h w).1 = Ok true;
}.
Lemma host_checks_Ok h policy state_dir w l w' :
  host_checks h policy state_dir w = (Ok l, w') →
  Forall (λ c, oc_required c = true) l ∧
  (Forall (λ c, oc_status c = CK_PASS) l → host_accepted h policy state_dir).
Proof.
  unfold host_checks. cbv zeta.
  intros (c1 & ? & [-> ->]%add_check_Ok & Hm)%eff_bind_Ok.
  apply eff_bind_Ok in Hm as (c2 & ? & [-> ->]%add_check_Ok & Hm).
  apply eff_bind_Ok in Hm as (c3 & ? & [-> ->]%add_check_Ok & Hm).
  apply eff_bind_Ok in Hm as (_ & w1 & _ & Hm).
  apply eff_bind_Ok in Hm as (writable & w2 & Hw & Hm).
  apply eff_bind_Ok in Hm as (c4 & ? & [-> ->]%add_check_Ok & Hm).
  apply eff_bind_Ok in Hm as (free & w3 & Hf & Hm).
  apply eff_bind_Ok in Hm as (c5 & ? & [-> ->]%add_check_Ok & Hm).
  apply eff_bind_Ok in Hm as ([soft hard] & w4 & Hn & Hm).
  apply eff_bind_Ok in Hm as (c6 & ? & [-> ->]%add_check_Ok & Hm).
  apply eff_bind_Ok in Hm as (systemctl & w5 & Hs & Hm).
  apply eff_bind_Ok in Hm as (c7 & ? & [-> ->]%add_check_Ok & E). injection E as <- <-.
  split; [by repeat constructor|]. rewrite !Forall_cons, !check_status. intros (_ & H2 & H3 & H4 & H5 & H6 & H7 & _).
  split; [|done|..].
  - destruct (ho_version_info h) as [major minor]. exists major, minor. split; [done|].
    apply orb_true_iff in H2 as [H2|H2]; bool_to_prop; [by left | right; lia].
  - exists w1. by rewrite Hw, H4.
  - exists w2, free. rewrite Hf. bool_to_prop. done.
  - exists w3, soft, hard. rewrite Hn. bool_to_prop. done.
  - exists w4. by rewrite Hs, H7.
Qed.

Lemma drills_subset (results : list DrillResult) :
  forallb (λ t, bool_decide (t ∈ passed_drill_types results)) REQUIRED_DRILLS = true ↔
  ∀ t, t ∈ REQUIRED_DRILLS → ∃ r, r ∈ results ∧ dl_drill_type r = t ∧ dl_status r = DS_PASSED.
Proof.
  rewrite forallb_Forall, Forall_forall. setoid_rewrite bool_decide_eq_true.
  unfold passed_drill_types. setoid_rewrite elem_of_sorted_by. setoid_rewrite list_elem_of_fmap.
  setoid_rewrite list_elem_of_filter. naive_solver.
Qed.
Lemma evidence_checks_Ok restore plan results (w w' : W) l :
  closing_checks restore plan (passed_drill_types results) w = (Ok l, w') →
  Forall (λ c, oc_required c = true) l ∧
  (Forall (λ c, oc_status c = CK_PASS) l →
   (∃ v, restore = Some v ∧ rv_passed v = true) ∧
   (∃ p, plan = Some p ∧ rc_may_resume_new_entries p = false ∧ rc_manual_acknowledgement_required p = true) ∧
   ∀ t, t ∈ REQUIRED_DRILLS → ∃ r, r ∈ results ∧ dl_drill_type r = t ∧ dl_status r = DS_PASSED).
Proof.
  unfold closing_checks.
  intros (c1 & ? & [-> ->]%add_check_Ok & Hm)%eff_bind_Ok.
  apply eff_bind_Ok in Hm as (c2 & ? & [-> ->]%add_check_Ok & Hm).
  apply eff_bind_Ok in Hm as (c3 & ? & [-> ->]%add_check_Ok & E). injection E as <- <-.
  split; [by repeat constructor|]. rewrite !Forall_cons, !check_status. intros (H1 & H2 & H3 & _).
  split_and!; [| |by apply drills_subset].
  - destruct restore as [v|]; [|done]. by exists v.
  - destruct plan as [p|]; [|done]. simpl in H2. bool_to_prop. by exists p.
Qed.

(** When the checks are made, so is the report. *)
Lemma acceptance_built `{!Uuid5Hex} h config policy state_dir probes restore plan results t w w1 l1 w2 l2 w3 l3 :
  hash_pattern config = true →
  host_checks h (default default_operations_policy policy) state_dir w = (Ok l1, w1) →
  probe_checks (sorted_by Canonical.key_le probes) w1 = (Ok l2, w2) →
  closing_checks restore plan (passed_drill_types results) w2 = (Ok l3, w3) →
  ∃ r, build_target_acceptance_report h config policy state_dir probes restore plan results t w = (Ok r, w3) ∧
    ta_paper_ready r = forallb (λ n, existsb (String.eqb n) (map fst probes)) required_probe_names
      && forallb (λ c, bool_decide (oc_status c = CK_PASS)) (filter (λ c, oc_required c = true) (l1 ++ l2 ++ l3)).
Proof.
  intros Hc E1 E2 E3. unfold build_target_acceptance_report. cbv zeta.
  rewrite eff_bind_unfold, E1, eff_bind_unfold, E2, eff_bind_unfold, E3.
  match goal with |- context [orch_sha256 ?v] => generalize (orch_sha256_pattern v); generalize (orch_sha256 v) end.
  intros hash Hh. match goal with |- context [TargetAcceptanceReport_ok ?x] => exists x; assert (TargetAcceptanceReport_ok x = true) as Hok end.
  { unfold TargetAcceptanceReport_ok. cbn [ta_report_id ta_configuration_hash ta_report_hash].
    unfold uuid_of. by rewrite uuid5_hex_ok, Hc, Hh. }
  rewrite Hok. done.
Qed.

(** A target is only ever reported paper ready when every one of the five
    online probes was given, every probe that was given answered true, a
    restore validation passed, the recovery plan forbids resuming entries,
    every required drill has a result that passed, and the host itself has
    the Python, the platform, the disk, the descriptors and systemd the policy
    asks for. *)
Theorem target_accepted_on_evidence h config policy state_dir probes restore plan results t w r w' :
  build_target_acceptance_report h config policy state_dir probes restore plan results t w = (Ok r, w') →
  ta_paper_ready r = true →
  ta_target_verified r = true ∧
  (∀ n, n ∈ required_probe_names → ∃ p, (n, p) ∈ probes) ∧
  (∀ n p, (n, p) ∈ probes → ∃ w0 message d, (p w0).1 = Ok (true, message, d)) ∧
  (∃ v, restore = Some v ∧ rv_passed v = true ∧ ta_restore_validation_id r = Some (rv_validation_id v)) ∧
  (∃ p, plan = Some p ∧ rc_may_resume_new_entries p = false ∧ rc_manual_acknowledgement_required p = true ∧
     ta_recovery_plan_id r = Some (rc_plan_id p)) ∧
  (∀ d, d ∈ REQUIRED_DRILLS → ∃ x, x ∈ results ∧ dl_drill_type x = d ∧ dl_status x = DS_PASSED) ∧
  host_accepted h (default default_operations_policy policy) state_dir.
Proof.
  unfold build_target_acceptance_report. cbv zeta.
  intros (l1 & w1 & H1 & Hm)%eff_bind_Ok. apply eff_bind_Ok in Hm as (l2 & w2 & H2 & Hm).
  apply eff_bind_Ok in Hm as (l3 & w3 & H3 & E). revert E.
  match goal with |- context [orch_sha256 ?v] => generalize (orch_sha256 v) end. intros hash.
  case_match; [|done]. intros E. pose proof (Ok_inj _ _ (f_equal fst E)) as <-. clear E.
  cbn [ta_paper_ready ta_target_verified ta_restore_validation_id ta_recovery_plan_id].
  intros [Hv Hall]%andb_true_iff. split; [done|].
  destruct (host_checks_Ok _ _ _ _ _ _ H1) as [R1 P1]. destruct (probe_checks_Ok _ _ _ _ H2) as [R2 P2].
  destruct (evidence_checks_Ok _ _ _ _ _ _ H3) as [R3 P3].
  assert (Forall (λ c, oc_status c = CK_PASS) (l1 ++ l2 ++ l3)) as Hf.
  { assert (Forall (λ c, oc_required c = true) (l1 ++ l2 ++ l3)) as Hr by by rewrite !Forall_app.
    rewrite Forall_forall in Hr |- *. rewrite forallb_Forall, Forall_forall in Hall.
    intros c Hc. specialize (Hall c (proj2 (list_elem_of_filter _ _ _) (conj (Hr c Hc) Hc))).
    by apply bool_decide_eq_true in Hall. }
  apply Forall_app in Hf as [Hf1 [Hf2 Hf3]%Forall_app]. destruct (P3 Hf3) as ((v & -> & Hvp) & (p & -> & Hn & Ha) & Hd).
  split; [|split; [|split; [by exists v | split; [by exists p | split; [done | by apply P1]]]]].
  - intros n Hn'. pose proof (proj1 (forallb_forall _ _) Hv n (proj1 (list_elem_of_In _ _) Hn')) as Hx. clear Hv.
    apply existsb_exists in Hx as (n' & Hin & E).
    apply String.eqb_eq in E as <-. apply in_map_iff in Hin as ([n' p'] & E & Hin). simpl in E. subst n'.
    exists p'. by apply list_elem_of_In.
  - intros n q Hin. apply (P2 Hf2 (n, q)). by apply elem_of_sorted_by.
Qed.
End acceptance.

(** ** Witnesses *)

Section samples.
#[local] Instance fixed_uuid : Uuid5 := λ _, "0123456789abcdef0123456789abcdef".
#[local] Instance fixed_uuid_hex : Uuid5Hex. Proof. intros s. reflexivity. Qed.
#[local] Instance one_file : Files := {| fs_resolve p := p; fs_file _ := Some (bytes_of "dump") |}.
#[local] Instance nothing {A} : Dump A := λ _, PNone.


Lemma sample_manifest_built :
  ∃ m, build_backup_manifest "backup.dump" "daybreak" "0007" [("runs", 3); ("events", 9)]%string true true 0 = Ok m.
Proof.
  unfold build_backup_manifest. cbv zeta. cbn [fs_file one_file fs_resolve].
  change (guard_or (0 <? len (bytes_of "dump")) (EValue "backup artifact is empty")) with (@Ok unit tt). cbn [mbind result_bind].
  match goal with |- context [orch_sha256 ?v] => generalize (orch_sha256_pattern v); generalize (orch_sha256 v) end.
  generalize (hexdigest_pattern (bytes_of "dump") : hash_pattern (file_sha256 (bytes_of "dump")) = true).
  generalize (file_sha256 (bytes_of "dump")). intros c Hc h Hh. match goal with |- context [BackupManifest_ok ?x] => exists x; replace (BackupManifest_ok x) with true; [done|] end.
  symmetry. unfold BackupManifest_ok. cbn [bm_backup_id bm_source_database bm_artifact_size_bytes bm_artifact_sha256
    bm_schema_revision bm_table_counts bm_manifest_hash]. by rewrite Hh, Hc.
Qed.

Lemma restore_certifies_witness :
  ∃ m v, build_backup_manifest "backup.dump" "daybreak" "0007" [("runs", 3); ("events", 9)]%string true true 0 = Ok m ∧
    validate_restore m "daybreak_restore" "0007" [("events", 9); ("runs", 3)]%string (mret true : eff unit bool) 1 tt
      = (Ok v, tt) ∧ rv_passed v = true.
Proof.
  destruct sample_manifest_built as (m & Hm).
  destruct (restore_certifies (F := one_file) (F' := one_file) "backup.dump" "daybreak" "0007"
    [("runs", 3); ("events", 9)]%string true true 0 m "daybreak_restore" "0007" [("events", 9); ("runs", 3)]%string
    (mret true : eff unit bool) 1 tt Hm eq_refl) as (v & Hv & _ & Hp).
  exists m, v. split; [exact Hm|]. split; [exact Hv|]. apply Hp.
  split; [reflexivity|]. split.
  { exists (bytes_of "dump"), (bytes_of "dump"). exact (conj eq_refl (conj eq_refl eq_refl)). }
  split; [reflexivity|]. split; [apply Permutation_swap | reflexivity].
Defined.

Definition sample_drill : Drill Z :=
  {| fd_inject_failure := modify (λ n, n + 1); fd_detect_failure := gets (Z.ltb 0);
     fd_entries_blocked := mret true; fd_recovery_probe := gets (Z.ltb 0); fd_kill_switch_probe := Some (mret true);
     fd_now := gets id |}.
Lemma drill_passes_exactly_witness :
  ∃ r w, run_failure_drill DT_CLOCK_SKEW sample_drill 0 = (Ok r, w) ∧ dl_status r = DS_PASSED.
Proof.
  destruct (drill_passes_exactly DT_CLOCK_SKEW sample_drill 0 (λ w, eq_refl)) as (r & w & Hr & _ & Hp).
  exists r, w. split; [exact Hr|]. apply Hp. split; try reflexivity. by intros k [= <-].
Defined.

Definition sample_host : Host unit :=
  {| ho_version_info := (3, 12); ho_python_version := "3.12.4"; ho_platform := "linux"; ho_mkdir _ := mret tt;
     ho_writable _ := mret true; ho_free _ := mret 6000000000; ho_nofile := mret (4096, 8192); ho_systemctl := mret true |}.
Definition sample_probes : list (string * eff unit ProbeResult) :=
  map (λ n, (n, mret (true, "ok"%string, []))) required_probe_names.
Definition sample_drills : list DrillResult :=
  map (λ t, {| dl_drill_id := "drill-id"; dl_drill_type := t; dl_started_at := 0; dl_completed_at := 1;
    dl_status := DS_PASSED; dl_failure_detected := true; dl_new_entries_blocked := true;
    dl_kill_switch_activated := false; dl_recovery_verified := true; dl_observations := []; dl_errors := [];
    dl_result_hash := "" |}) REQUIRED_DRILLS.
Definition sample_restore : RestoreValidation :=
  {| rv_validation_id := "restore-1"; rv_backup_id := "backup-1"; rv_restored_at := 0; rv_target_database := "d";
     rv_artifact_hash_verified := true; rv_schema_revision_match := true; rv_table_counts_match := true;
     rv_replay_verified := true; rv_passed := true; rv_errors := []; rv_validation_hash := "" |}.
Definition sample_plan : RecoveryPlan :=
  {| rc_plan_id := "plan-001"; rc_generated_at := 0; rc_action := RA_CAPTURE_ONLY; rc_reasons := [];
     rc_may_resume_capture := true; rc_may_resume_evaluation := true; rc_may_resume_new_entries := false;
     rc_manual_acknowledgement_required := true; rc_state_hash := ""; rc_plan_hash := "" |}.
Lemma target_accepted_on_evidence_witness :
  ∃ r, build_target_acceptance_report sample_host sample_hash None "state" sample_probes (Some sample_restore)
      (Some sample_plan) sample_drills 0 tt = (Ok r, tt) ∧ ta_paper_ready r = true ∧ ta_target_verified r = true.
Proof.
  destruct (acceptance_built sample_host sample_hash None "state" sample_probes (Some sample_restore) (Some sample_plan)
    sample_drills 0 tt tt (get_ok (host_checks sample_host default_operations_policy "state" tt).1 eq_refl) tt
    (get_ok (probe_checks (sorted_by Canonical.key_le sample_probes) tt).1 eq_refl) tt
    (get_ok (closing_checks (Some sample_restore) (Some sample_plan) (passed_drill_types sample_drills) tt).1 eq_refl))
    as (r & Hr & Hready); [vm_compute; reflexivity..|].
  assert (ta_paper_ready r = true) as Hp by (rewrite Hready; vm_compute; reflexivity).
  exists r. split; [exact Hr|]. split; [exact Hp|].
  exact (proj1 (target_accepted_on_evidence _ _ _ _ _ _ _ _ _ _ _ _ Hr Hp)).
Defined.
End samples.
