(* ===== verification/ReleaseModels.v ===== *)
(** * ReleaseModels: the evidence of a paper release candidate

    daybreak_release/enums.py and models.py.  Fields of one value only are
    constant functions; a [*_ok] predicate is a model's constraints and
    validators, those of the models inside it included; datetimes are
    instants in UTC. *)
From Stdlib Require Import Ascii String.
From S2P Require Import Prelude Numerics PyStr PyTime Contracts Canonical RiskModels OrchModels AnalyticsModels.

#[local] Open Scope Z_scope.

(** ** Enums *)

Inductive ReviewSeverity := SV_INFO | SV_LOW | SV_MEDIUM | SV_HIGH | SV_CRITICAL.
#[export] Instance ReviewSeverity_eq_dec : EqDecision ReviewSeverity. Proof. solve_decision. Defined.
Inductive FindingStatus := FS_OPEN | FS_RESOLVED.
#[export] Instance FindingStatus_eq_dec : EqDecision FindingStatus. Proof. solve_decision. Defined.
Inductive ApprovalRole := AR_ENGINEERING | AR_OPERATIONS | AR_RISK | AR_SECURITY | AR_INDEPENDENT_REVIEW.
#[export] Instance ApprovalRole_eq_dec : EqDecision ApprovalRole. Proof. solve_decision. Defined.
Definition ApprovalRole_value (r : ApprovalRole) : string :=
  match r with
  | AR_ENGINEERING => "engineering" | AR_OPERATIONS => "operations" | AR_RISK => "risk" | AR_SECURITY => "security"
  | AR_INDEPENDENT_REVIEW => "independent_review"
  end.
Inductive CandidateStatus := CS_INCOMPLETE | CS_BLOCKED | CS_PAPER_RELEASE_CANDIDATE.
#[export] Instance CandidateStatus_eq_dec : EqDecision CandidateStatus. Proof. solve_decision. Defined.
Definition CandidateStatus_value (s : CandidateStatus) : string :=
  match s with
  | CS_INCOMPLETE => "incomplete" | CS_BLOCKED => "blocked" | CS_PAPER_RELEASE_CANDIDATE => "paper_release_candidate"
  end.

Definition release_id_ok (s : string) : bool := between 8 96 (code_points s).
Definition role_le (a b : ApprovalRole) : bool := string_leb (ApprovalRole_value a) (ApprovalRole_value b).
(** [tuple(sorted(set(roles), key=...)) == roles]. *)
Definition roles_sorted_unique (l : list ApprovalRole) : bool := in_order role_le l && no_dup l.

(** ** Policy and evidence *)

Record ProductionCandidatePolicy := {
  pc_minimum_tests_collected : Z;
  pc_minimum_schema_count : Z;
  pc_required_approval_roles : list ApprovalRole;
  pc_maximum_open_medium_findings : Z;
}.
(** Literal[True] and Literal[0] fields. *)
Definition pc_required (p : ProductionCandidatePolicy) : bool := true.
Definition pc_maximum_open_high_findings (p : ProductionCandidatePolicy) : Z := 0.
Definition pc_maximum_open_critical_findings (p : ProductionCandidatePolicy) : Z := 0.
Definition ProductionCandidatePolicy_ok (p : ProductionCandidatePolicy) : bool :=
  (1 <=? pc_minimum_tests_collected p) && (1 <=? pc_minimum_schema_count p)
  && roles_sorted_unique (pc_required_approval_roles p) && (0 <=? pc_maximum_open_medium_findings p).
Definition default_candidate_policy : ProductionCandidatePolicy :=
  {| pc_minimum_tests_collected := 250; pc_minimum_schema_count := 47;
     pc_required_approval_roles := [AR_ENGINEERING; AR_INDEPENDENT_REVIEW; AR_OPERATIONS; AR_RISK; AR_SECURITY];
     pc_maximum_open_medium_findings := 0 |}.

Record ArtifactEvidence := {
  ae_name : string;
  ae_sha256 : string;
  ae_size_bytes : Z;
  ae_required : bool;
}.
Definition is_lower (c : ascii) : bool := let n := nat_of_ascii c in ((97 <=? n) && (n <=? 122))%nat.
(** [^[a-z][a-z0-9_]{1,63}$] *)
Definition artifact_name_ok (s : string) : bool :=
  match s with
  | String c s' => is_lower c && between 1 63 (Z.of_nat (String.length s'))
      && forallb (λ c, is_lower c || is_digit c || Ascii.eqb c "_") (list_ascii_of_string s')
  | EmptyString => false
  end.
Definition ArtifactEvidence_ok (a : ArtifactEvidence) : bool :=
  artifact_name_ok (ae_name a) && hash_pattern (ae_sha256 a) && (0 <? ae_size_bytes a).

Record EvidenceManifest := {
  em_generated_at : datetime;
  em_artifacts : list ArtifactEvidence;
  em_manifest_hash : string;
}.
(** EvidenceManifest.artifacts_sorted_unique. *)
Definition artifacts_sorted_unique (l : list ArtifactEvidence) : bool :=
  in_order string_leb (map ae_name l) && no_dup (map ae_name l).
Definition EvidenceManifest_ok (m : EvidenceManifest) : bool :=
  forallb ArtifactEvidence_ok (em_artifacts m) && artifacts_sorted_unique (em_artifacts m)
  && hash_pattern (em_manifest_hash m).

Record BuildAttestation := {
  bt_generated_at : datetime;
  bt_tests_collected : Z;
  bt_tests_passed : Z;
  bt_schema_count : Z;
  bt_secret_findings : Z;
  bt_clean_install_passed : bool;
  bt_extracted_source_test_passed : bool;
  bt_python_compile_passed : bool;
  bt_wheel_smoke_test_passed : bool;
  bt_source_archive_sha256 : string;
  bt_wheel_sha256 : string;
  bt_migrations_sha256 : string;
  bt_schemas_bundle_sha256 : string;
  bt_verification_report_sha256 : string;
  bt_attestation_hash : string;
}.
Definition bt_release_version (b : BuildAttestation) : string := "1.0.2".
Definition bt_specification_version (b : BuildAttestation) : string := "6.3".
Definition bt_migration_head (b : BuildAttestation) : string := "0009_phase9_release".
Definition BuildAttestation_ok (b : BuildAttestation) : bool :=
  (0 <? bt_tests_collected b) && (0 <=? bt_tests_passed b) && (0 <? bt_schema_count b) && (0 <=? bt_secret_findings b)
  && forallb hash_pattern [bt_source_archive_sha256 b; bt_wheel_sha256 b; bt_migrations_sha256 b;
       bt_schemas_bundle_sha256 b; bt_verification_report_sha256 b; bt_attestation_hash b]
  && (bt_tests_passed b <=? bt_tests_collected b).

Record ConfigurationFreeze := {
  cz_frozen_at : datetime;
  cz_configuration_hash : string;
  cz_specification_sha256 : string;
  cz_component_versions : list (string * string);
  cz_freeze_hash : string;
}.
Definition cz_release_version (c : ConfigurationFreeze) : string := "1.0.2".
Definition cz_specification_version (c : ConfigurationFreeze) : string := "6.3".
Definition cz_environment (c : ConfigurationFreeze) : string := "paper".
Definition cz_live_execution_enabled (c : ConfigurationFreeze) : bool := false.
Definition cz_migration_head (c : ConfigurationFreeze) : string := "0009_phase9_release".
Definition ConfigurationFreeze_ok (c : ConfigurationFreeze) : bool :=
  forallb hash_pattern [cz_configuration_hash c; cz_specification_sha256 c; cz_freeze_hash c]
  && in_order pair_le (cz_component_versions c) && no_dup (map fst (cz_component_versions c)).

Record ReviewFinding := {
  rf_finding_id : string;
  rf_severity : ReviewSeverity;
  rf_status : FindingStatus;
  rf_category : string;
  rf_title : string;
  rf_owner : string;
  rf_evidence_refs : list string;
}.
Definition ReviewFinding_ok (f : ReviewFinding) : bool :=
  release_id_ok (rf_finding_id f) && between 2 64 (code_points (rf_category f))
  && between 4 240 (code_points (rf_title f)) && between 2 128 (code_points (rf_owner f))
  && in_order string_leb (rf_evidence_refs f) && no_dup (rf_evidence_refs f).

Record ApprovalAttestation := {
  aa_role : ApprovalRole;
  aa_reviewer_id : string;
  aa_approved : bool;
  aa_approved_at : datetime;
  aa_evidence_package_hash : string;
  aa_comment : string;
}.
Definition ApprovalAttestation_ok (a : ApprovalAttestation) : bool :=
  between 2 128 (code_points (aa_reviewer_id a)) && hash_pattern (aa_evidence_package_hash a)
  && (code_points (aa_comment a) <=? 500).

Record RollbackEvidence := {
  rb_tested_at : datetime;
  rb_backup_restore_verified : bool;
  rb_previous_wheel_available : bool;
  rb_previous_source_archive_available : bool;
  rb_emergency_flatten_verified : bool;
  rb_database_forward_recovery_verified : bool;
  rb_rollback_plan_sha256 : string;
  rb_evidence_hash : string;
}.
Definition rollback_verified (r : RollbackEvidence) : bool :=
  rb_backup_restore_verified r && rb_previous_wheel_available r && rb_previous_source_archive_available r
  && rb_emergency_flatten_verified r && rb_database_forward_recovery_verified r.
Definition RollbackEvidence_ok (r : RollbackEvidence) : bool :=
  hash_pattern (rb_rollback_plan_sha256 r) && hash_pattern (rb_evidence_hash r).

(** ** The request *)

Record ProductionCandidateRequest := {
  pd_generated_at : datetime;
  pd_policy : ProductionCandidatePolicy;
  pd_evidence_manifest : EvidenceManifest;
  pd_build_attestation : BuildAttestation;
  pd_configuration_freeze : ConfigurationFreeze;
  pd_paper_ledger : PaperAcceptanceLedger;
  pd_deployment_evidence : DeploymentEvidenceReport;
  pd_rollback_evidence : RollbackEvidence;
  pd_findings : list ReviewFinding;
  pd_approvals : list ApprovalAttestation;
  pd_independent_review_complete : bool;
}.
(** [dict(pairs)]: the last value of a key. *)
Definition dict_of {A} (l : list (string * A)) : gmap string A := list_to_map (rev l).
(** The hash each required artifact must have. *)
Definition expected_artifact_hashes (r : ProductionCandidateRequest) : list (string * string) :=
  let build := pd_build_attestation r in
  [("source_archive", bt_source_archive_sha256 build); ("wheel", bt_wheel_sha256 build);
   ("migrations", bt_migrations_sha256 build); ("schemas_bundle", bt_schemas_bundle_sha256 build);
   ("verification_report", bt_verification_report_sha256 build);
   ("specification", cz_specification_sha256 (pd_configuration_freeze r))]%string.
Definition expected_deployment_hashes (r : ProductionCandidateRequest) : list (string * string) :=
  let build := pd_build_attestation r in let freeze := pd_configuration_freeze r in
  [("configuration", cz_configuration_hash freeze); ("migrations", bt_migrations_sha256 build);
   ("paper_ledger", pa_ledger_hash (pd_paper_ledger r)); ("schemas_bundle", bt_schemas_bundle_sha256 build);
   ("source_archive", bt_source_archive_sha256 build); ("specification", cz_specification_sha256 freeze);
   ("verification_report", bt_verification_report_sha256 build); ("wheel", bt_wheel_sha256 build)]%string.
Definition artifact_hash (m : EvidenceManifest) (name : string) : option string :=
  dict_of (map (λ a, (ae_name a, ae_sha256 a)) (em_artifacts m)) !! name.
(** ProductionCandidateRequest.evidence_coherent. *)
Definition evidence_coherent (r : ProductionCandidateRequest) : bool :=
  let build := pd_build_attestation r in let freeze := pd_configuration_freeze r in
  let ledger := pd_paper_ledger r in let deployment := pd_deployment_evidence r in
  let manifest := pd_evidence_manifest r in
  forallb (λ kv, bool_decide (artifact_hash manifest kv.1 = Some kv.2)) (expected_artifact_hashes r)
  && String.eqb (bt_release_version build) release_version && String.eqb (cz_release_version freeze) release_version
  && String.eqb (bt_specification_version build) specification_version
  && String.eqb (cz_specification_version freeze) specification_version
  && String.eqb (pa_configuration_hash ledger) (cz_configuration_hash freeze)
  && String.eqb (dr_configuration_hash deployment) (cz_configuration_hash freeze)
  && String.eqb (dr_paper_ledger_id deployment) (pa_ledger_id ledger)
  && String.eqb (dr_paper_ledger_hash deployment) (pa_ledger_hash ledger)
  && bool_decide (dict_of (dr_evidence_hashes deployment) = dict_of (expected_deployment_hashes r))
  && (dr_tests_collected deployment =? bt_tests_collected build) && (dr_tests_passed deployment =? bt_tests_passed build)
  && (dr_schema_count deployment =? bt_schema_count build) && (dr_secret_findings deployment =? bt_secret_findings build)
  && forallb (λ a, String.eqb (aa_evidence_package_hash a) (em_manifest_hash manifest)) (pd_approvals r)
  && forallb (λ a, em_generated_at manifest <=? aa_approved_at a) (pd_approvals r)
  && forallb (λ a, aa_approved_at a <=? pd_generated_at r) (pd_approvals r).
Definition ProductionCandidateRequest_ok (r : ProductionCandidateRequest) : bool :=
  ProductionCandidatePolicy_ok (pd_policy r) && EvidenceManifest_ok (pd_evidence_manifest r)
  && BuildAttestation_ok (pd_build_attestation r) && ConfigurationFreeze_ok (pd_configuration_freeze r)
  && PaperAcceptanceLedger_ok (pd_paper_ledger r) && DeploymentEvidenceReport_ok (pd_deployment_evidence r)
  && RollbackEvidence_ok (pd_rollback_evidence r) && forallb ReviewFinding_ok (pd_findings r)
  && forallb ApprovalAttestation_ok (pd_approvals r)
  && in_order string_leb (map rf_finding_id (pd_findings r)) && no_dup (map rf_finding_id (pd_findings r))
  && in_order role_le (map aa_role (pd_approvals r)) && no_dup (map aa_role (pd_approvals r))
  && evidence_coherent r.

(** ** The report *)

Record ReviewSummary := {
  rs_finding_count : Z;
  rs_open_info_count : Z;
  rs_open_low_count : Z;
  rs_open_medium_count : Z;
  rs_open_high_count : Z;
  rs_open_critical_count : Z;
  rs_approved_roles : list ApprovalRole;
  rs_missing_roles : list ApprovalRole;
}.
Definition ReviewSummary_ok (s : ReviewSummary) : bool :=
  forallb (Z.leb 0) [rs_finding_count s; rs_open_info_count s; rs_open_low_count s; rs_open_medium_count s;
    rs_open_high_count s; rs_open_critical_count s]
  && roles_sorted_unique (rs_approved_roles s) && roles_sorted_unique (rs_missing_roles s).

Record ProductionCandidateReport := {
  pe_report_id : string;
  pe_generated_at : datetime;
  pe_status : CandidateStatus;
  pe_paper_release_candidate : bool;
  pe_live_capital_eligible : bool;
  pe_blockers : list string;
  pe_warnings : list string;
  pe_configuration_hash : string;
  pe_evidence_manifest_hash : string;
  pe_build_attestation_hash : string;
  pe_configuration_freeze_hash : string;
  pe_paper_ledger_id : string;
  pe_deployment_report_id : string;
  pe_review_summary : ReviewSummary;
  pe_request_hash : string;
  pe_report_hash : string;
}.
(** ProductionCandidateReport.coherent. *)
Definition candidate_coherent (r : ProductionCandidateReport) : bool :=
  eqb (pe_paper_release_candidate r) (bool_decide (pe_status r = CS_PAPER_RELEASE_CANDIDATE))
  && negb (pe_paper_release_candidate r && nonempty (pe_blockers r)).
Definition ProductionCandidateReport_ok (r : ProductionCandidateReport) : bool :=
  release_id_ok (pe_report_id r) && negb (pe_live_capital_eligible r)
  && forallb hash_pattern [pe_configuration_hash r; pe_evidence_manifest_hash r; pe_build_attestation_hash r;
       pe_configuration_freeze_hash r; pe_request_hash r; pe_report_hash r]
  && release_id_ok (pe_paper_ledger_id r) && release_id_ok (pe_deployment_report_id r)
  && candidate_coherent r.
