(* ===== verification/Release.v ===== *)
(** * Release: the evidence manifest, the configuration freeze and the review

    daybreak_release/evidence.py, freeze.py, review.py and the in-memory
    repository. *)
From Stdlib Require Import Ascii String.
From S2P Require Import Prelude Numerics PyStr PyTime Contracts Canonical RiskModels OrchModels AnalyticsModels Analytics PaperAcceptance OperationsModels Operations ReleaseModels.

#[local] Open Scope Z_scope.

(** ** Aware datetimes

    The two builders take a timestamp in any zone: its instant and the offset
    of the zone, in minutes.  The model keeps the instant; the hash is over the
    local text. *)
Record aware := { aw_instant : datetime; aw_offset : Z }.
Definition offset_text (minutes : Z) : string :=
  (if minutes <? 0 then "-" else "+") +:+ pad 2 (Z.abs minutes / 60) +:+ ":" +:+ pad 2 (Z.abs minutes mod 60).
(** [isoformat().replace('+00:00', 'Z')]. *)
Definition aware_iso (t : aware) : string :=
  let local := aw_instant t + aw_offset t * MINUTE in
  date_iso (utc_date local) +:+ "T" +:+ time_iso (local mod DAY)
    +:+ (if aw_offset t =? 0 then "Z" else offset_text (aw_offset t)).

(** ** evidence.py *)

Definition artifact_py (a : ArtifactEvidence) : pyval :=
  PDict [("name", PStr (ae_name a)); ("sha256", PStr (ae_sha256 a)); ("size_bytes", PInt (ae_size_bytes a));
    ("required", PBool (ae_required a))]%string.
(** The body of the hash, for the text or the instant of its time. *)
Definition manifest_body (generated_at : pyval) (artifacts : list ArtifactEvidence) : pyval :=
  PDict [("generated_at", generated_at); ("artifacts", PSeq (map artifact_py artifacts))]%string.

Section release.
Context `{Files}.

Definition artifact_of (file : string * string) : result ArtifactEvidence :=
  match fs_file file.2 with
  | None => Err (EOther "FileNotFoundError" file.2)
  | Some contents =>
      let a := {| ae_name := file.1; ae_sha256 := file_sha256 contents; ae_size_bytes := len contents; ae_required := true |} in
      if ArtifactEvidence_ok a then Ok a else Err (EValidation "ArtifactEvidence")
  end.
Definition build_evidence_manifest (files : list (string * string)) (timestamp : aware) : result EvidenceManifest :=
  artifacts ← map_result artifact_of (sorted_by Canonical.key_le files);
  let manifest := {| em_generated_at := aw_instant timestamp; em_artifacts := artifacts;
    em_manifest_hash := orch_sha256 (manifest_body (PStr (aware_iso timestamp)) artifacts) |} in
  if EvidenceManifest_ok manifest then Ok manifest else Err (EValidation "EvidenceManifest").

(** ** freeze.py *)

Definition freeze_body (frozen_at : pyval) (configuration_hash specification_sha256 : string)
    (components : list (string * string)) : pyval :=
  PDict [("frozen_at", frozen_at); ("release_version", PStr "1.0.2"); ("specification_version", PStr "6.3");
    ("environment", PStr "paper"); ("live_execution_enabled", PBool false);
    ("configuration_hash", PStr configuration_hash); ("specification_sha256", PStr specification_sha256);
    ("migration_head", PStr "0009_phase9_release");
    ("component_versions", PSeq (map (λ kv, PSeq [PStr kv.1; PStr kv.2]) components))]%string.
(** What is read from the settings: whether the environment is paper, whether
    live execution is enabled, and the configuration hash. *)
Record FrozenSettings := {
  fz_paper : bool;
  fz_live_execution_enabled : bool;
  fz_configuration_hash : string;
}.
Definition build_configuration_freeze (settings : FrozenSettings) (specification_path : string)
    (component_versions : list (string * string)) (timestamp : aware) : result ConfigurationFreeze :=
  _ ← guard_or (fz_paper settings) (EValue "production candidate configuration must use the paper environment");
  _ ← guard_or (negb (fz_live_execution_enabled settings)) (EValue "live execution must remain disabled");
  let components := sorted_by pair_le component_versions in
  match fs_file specification_path with
  | None => Err (EOther "FileNotFoundError" specification_path)
  | Some contents =>
      let freeze := {| cz_frozen_at := aw_instant timestamp; cz_configuration_hash := fz_configuration_hash settings;
        cz_specification_sha256 := file_sha256 contents; cz_component_versions := components;
        cz_freeze_hash := orch_sha256 (freeze_body (PStr (aware_iso timestamp)) (fz_configuration_hash settings)
          (file_sha256 contents) components) |} in
      if ConfigurationFreeze_ok freeze then Ok freeze else Err (EValidation "ConfigurationFreeze")
  end.
End release.

(** ** review.py *)

Definition build_body (b : BuildAttestation) : pyval :=
  PDict [("generated_at", PDatetime (bt_generated_at b)); ("release_version", PStr (bt_release_version b));
    ("specification_version", PStr (bt_specification_version b)); ("migration_head", PStr (bt_migration_head b));
    ("tests_collected", PInt (bt_tests_collected b)); ("tests_passed", PInt (bt_tests_passed b));
    ("schema_count", PInt (bt_schema_count b)); ("secret_findings", PInt (bt_secret_findings b));
    ("clean_install_passed", PBool (bt_clean_install_passed b));
    ("extracted_source_test_passed", PBool (bt_extracted_source_test_passed b));
    ("python_compile_passed", PBool (bt_python_compile_passed b));
    ("wheel_smoke_test_passed", PBool (bt_wheel_smoke_test_passed b));
    ("source_archive_sha256", PStr (bt_source_archive_sha256 b)); ("wheel_sha256", PStr (bt_wheel_sha256 b));
    ("migrations_sha256", PStr (bt_migrations_sha256 b)); ("schemas_bundle_sha256", PStr (bt_schemas_bundle_sha256 b));
    ("verification_report_sha256", PStr (bt_verification_report_sha256 b))]%string.
Definition rollback_body (r : RollbackEvidence) : pyval :=
  PDict [("tested_at", PDatetime (rb_tested_at r)); ("backup_restore_verified", PBool (rb_backup_restore_verified r));
    ("previous_wheel_available", PBool (rb_previous_wheel_available r));
    ("previous_source_archive_available", PBool (rb_previous_source_archive_available r));
    ("emergency_flatten_verified", PBool (rb_emergency_flatten_verified r));
    ("database_forward_recovery_verified", PBool (rb_database_forward_recovery_verified r));
    ("rollback_plan_sha256", PStr (rb_rollback_plan_sha256 r))]%string.

Definition _REQUIRED_ARTIFACTS : list string :=
  ["migrations"; "schemas_bundle"; "source_archive"; "specification"; "verification_report"; "wheel"].
(** The last artifact of a name. *)
Definition artifact_named (m : EvidenceManifest) (name : string) : option ArtifactEvidence :=
  dict_of (map (λ a, (ae_name a, a)) (em_artifacts m)) !! name.

Definition manifest_blockers (m : EvidenceManifest) : list string :=
  note (negb (String.eqb (orch_sha256 (manifest_body (PDatetime (em_generated_at m)) (em_artifacts m))) (em_manifest_hash m)))
    "EVIDENCE_MANIFEST_HASH_INVALID"
  ++ note (existsb (λ n, bool_decide (artifact_named m n = None)) _REQUIRED_ARTIFACTS) "REQUIRED_ARTIFACTS_MISSING"
  ++ note (existsb (λ a, ae_required a && (ae_size_bytes a <=? 0)) (em_artifacts m)) "REQUIRED_ARTIFACT_EMPTY".
Definition build_blockers (p : ProductionCandidatePolicy) (b : BuildAttestation) : list string :=
  note (negb (String.eqb (orch_sha256 (build_body b)) (bt_attestation_hash b))) "BUILD_ATTESTATION_HASH_INVALID"
  ++ note (bt_tests_collected b <? pc_minimum_tests_collected p) "MINIMUM_TEST_COUNT_NOT_MET"
  ++ note (negb (bt_tests_passed b =? bt_tests_collected b)) "TEST_SUITE_NOT_GREEN"
  ++ note (bt_schema_count b <? pc_minimum_schema_count p) "MINIMUM_SCHEMA_COUNT_NOT_MET"
  ++ note (pc_required p && negb (bt_secret_findings b =? 0)) "SECRET_FINDINGS_PRESENT"
  ++ note (pc_required p && negb (bt_clean_install_passed b)) "CLEAN_INSTALL_NOT_VERIFIED"
  ++ note (pc_required p && negb (bt_extracted_source_test_passed b)) "EXTRACTED_SOURCE_TEST_NOT_VERIFIED"
  ++ note (pc_required p && negb (bt_python_compile_passed b)) "PYTHON_COMPILE_NOT_VERIFIED"
  ++ note (pc_required p && negb (bt_wheel_smoke_test_passed b)) "WHEEL_SMOKE_TEST_NOT_VERIFIED"
  ++ note (negb (String.eqb (bt_migration_head b) migration_head)) "MIGRATION_HEAD_MISMATCH".
Definition artifact_chain_blockers (r : ProductionCandidateRequest) : list string :=
  note (existsb (λ kv, match artifact_named (pd_evidence_manifest r) kv.1 with
      | Some a => negb (String.eqb (ae_sha256 a) kv.2) | None => true end) (expected_artifact_hashes r))
    "EVIDENCE_MANIFEST_CHAIN_MISMATCH".
Definition freeze_blockers (b : BuildAttestation) (c : ConfigurationFreeze) : list string :=
  note (negb (String.eqb (orch_sha256 (freeze_body (PDatetime (cz_frozen_at c)) (cz_configuration_hash c)
      (cz_specification_sha256 c) (cz_component_versions c))) (cz_freeze_hash c))) "CONFIGURATION_FREEZE_HASH_INVALID"
  ++ note (negb (String.eqb (cz_migration_head c) migration_head)) "CONFIGURATION_FREEZE_MIGRATION_HEAD_MISMATCH"
  ++ note (negb (String.eqb (cz_environment c) "paper") || cz_live_execution_enabled c) "CONFIGURATION_NOT_PAPER_ONLY"
  ++ note (negb (String.eqb (bt_release_version b) release_version) || negb (String.eqb (cz_release_version c) release_version)
       || negb (String.eqb (bt_specification_version b) specification_version)
       || negb (String.eqb (cz_specification_version c) specification_version)) "RELEASE_METADATA_MISMATCH".

Section review.
Context `{Dump SessionAcceptance} `{Dump AggregatePerformance} `{Dump AnalyticsPolicy}.
Context `{Dump ProductionCandidateRequest}.

Definition paper_blockers (p : ProductionCandidatePolicy) (l : PaperAcceptanceLedger) (d : DeploymentEvidenceReport)
    : list string :=
  note (pc_required p && negb (pa_paper_ready l)) "PAPER_LEDGER_NOT_QUALIFIED"
  ++ note (negb (String.eqb (orch_sha256 (paper_ledger_body l)) (pa_ledger_hash l))) "PAPER_LEDGER_HASH_INVALID"
  ++ note (negb (String.eqb (pa_ledger_id l) ("PL-" +:+ string_take 20 (pa_ledger_hash l)))) "PAPER_LEDGER_ID_INVALID"
  ++ note (pc_required p && negb (dr_paper_deployment_ready d)) "PAPER_DEPLOYMENT_EVIDENCE_NOT_QUALIFIED"
  ++ note (negb (String.eqb (orch_sha256 (deployment_report_body d)) (dr_report_hash d))) "DEPLOYMENT_EVIDENCE_HASH_INVALID"
  ++ note (negb (String.eqb (dr_report_id d) ("DE-" +:+ string_take 20 (dr_report_hash d)))) "DEPLOYMENT_EVIDENCE_ID_INVALID"
  ++ note (dr_live_deployment_ready d) "INVALID_LIVE_DEPLOYMENT_EVIDENCE".
End review.
Definition deployment_chain_blockers (r : ProductionCandidateRequest) : list string :=
  let d := pd_deployment_evidence r in let l := pd_paper_ledger r in
  let freeze := pd_configuration_freeze r in let build := pd_build_attestation r in
  note (negb (String.eqb (dr_configuration_hash d) (cz_configuration_hash freeze))
    || negb (String.eqb (pa_configuration_hash l) (cz_configuration_hash freeze))
    || negb (String.eqb (dr_paper_ledger_id d) (pa_ledger_id l))
    || negb (String.eqb (dr_paper_ledger_hash d) (pa_ledger_hash l))
    || negb (bool_decide (dict_of (dr_evidence_hashes d) = dict_of (expected_deployment_hashes r)))
    || negb (dr_tests_collected d =? bt_tests_collected build) || negb (dr_tests_passed d =? bt_tests_passed build)
    || negb (dr_schema_count d =? bt_schema_count build) || negb (dr_secret_findings d =? bt_secret_findings build))
    "DEPLOYMENT_EVIDENCE_CHAIN_MISMATCH".
Definition rollback_blockers (r : ProductionCandidateRequest) : list string :=
  let p := pd_policy r in let e := pd_rollback_evidence r in
  note (negb (String.eqb (orch_sha256 (rollback_body e)) (rb_evidence_hash e))) "ROLLBACK_EVIDENCE_HASH_INVALID"
  ++ note (pc_required p && negb (rollback_verified e)) "ROLLBACK_EVIDENCE_NOT_VERIFIED"
  ++ note (pc_required p && negb (pd_independent_review_complete r)) "INDEPENDENT_REVIEW_INCOMPLETE".

(** ** Findings and approvals *)

(** [open_counts[severity]]. *)
Definition open_count (r : ProductionCandidateRequest) (s : ReviewSeverity) : Z :=
  len (filter (λ f, rf_status f = FS_OPEN ∧ rf_severity f = s) (pd_findings r)).
Definition finding_blockers (r : ProductionCandidateRequest) : list string :=
  let p := pd_policy r in
  note (pc_maximum_open_medium_findings p <? open_count r SV_MEDIUM) "OPEN_MEDIUM_FINDINGS_EXCEED_POLICY"
  ++ note (pc_maximum_open_high_findings p <? open_count r SV_HIGH) "OPEN_HIGH_FINDINGS_PRESENT"
  ++ note (pc_maximum_open_critical_findings p <? open_count r SV_CRITICAL) "OPEN_CRITICAL_FINDINGS_PRESENT".
Definition finding_warnings (r : ProductionCandidateRequest) : list string :=
  note (negb (open_count r SV_LOW =? 0)) "OPEN_LOW_FINDINGS_PRESENT"
  ++ note (negb (open_count r SV_INFO =? 0)) "OPEN_INFORMATIONAL_FINDINGS_PRESENT".
Definition approved_roles (r : ProductionCandidateRequest) : list ApprovalRole :=
  sorted_by role_le (map aa_role (filter (λ a, aa_approved a = true) (pd_approvals r))).
Definition missing_roles (r : ProductionCandidateRequest) : list ApprovalRole :=
  sorted_by role_le (filter (λ x, x ∉ approved_roles r) (unique_from [] (pc_required_approval_roles (pd_policy r)))).
Definition approval_blockers (r : ProductionCandidateRequest) : list string :=
  note (nonempty (missing_roles r)) "REQUIRED_APPROVALS_MISSING"
  ++ note (existsb (λ a, negb (aa_approved a)) (pd_approvals r)) "EXPLICIT_APPROVAL_REJECTION_PRESENT"
  ++ note (existsb (λ a, negb (String.eqb (aa_evidence_package_hash a) (em_manifest_hash (pd_evidence_manifest r))))
       (pd_approvals r)) "APPROVAL_EVIDENCE_CHAIN_MISMATCH"
  ++ note (existsb (λ a, (aa_approved_at a <? em_generated_at (pd_evidence_manifest r))
       || (pd_generated_at r <? aa_approved_at a)) (pd_approvals r)) "APPROVAL_TIMESTAMP_INVALID".
Definition review_summary (r : ProductionCandidateRequest) : ReviewSummary :=
  {| rs_finding_count := len (pd_findings r); rs_open_info_count := open_count r SV_INFO;
     rs_open_low_count := open_count r SV_LOW; rs_open_medium_count := open_count r SV_MEDIUM;
     rs_open_high_count := open_count r SV_HIGH; rs_open_critical_count := open_count r SV_CRITICAL;
     rs_approved_roles := approved_roles r; rs_missing_roles := missing_roles r |}.
Definition explicit_failure_codes : list string :=
  ["TEST_SUITE_NOT_GREEN"; "SECRET_FINDINGS_PRESENT"; "CONFIGURATION_NOT_PAPER_ONLY"; "INVALID_LIVE_DEPLOYMENT_EVIDENCE";
   "OPEN_HIGH_FINDINGS_PRESENT"; "OPEN_CRITICAL_FINDINGS_PRESENT"; "EXPLICIT_APPROVAL_REJECTION_PRESENT"].
Definition candidate_status (blockers : list string) : CandidateStatus :=
  if negb (nonempty blockers) then CS_PAPER_RELEASE_CANDIDATE
  else if existsb (λ b, existsb (String.eqb b) explicit_failure_codes) blockers then CS_BLOCKED else CS_INCOMPLETE.
(** [tuple(sorted(set(l)))]. *)
Definition sorted_set (l : list string) : list string := sorted_by string_leb (unique_from [] l).
Definition role_py (x : ApprovalRole) : pyval := PEnum (ApprovalRole_value x).
Definition summary_py (s : ReviewSummary) : pyval :=
  PDict [("finding_count", PInt (rs_finding_count s)); ("open_info_count", PInt (rs_open_info_count s));
    ("open_low_count", PInt (rs_open_low_count s)); ("open_medium_count", PInt (rs_open_medium_count s));
    ("open_high_count", PInt (rs_open_high_count s)); ("open_critical_count", PInt (rs_open_critical_count s));
    ("approved_roles", PSeq (map role_py (rs_approved_roles s))); ("missing_roles", PSeq (map role_py (rs_missing_roles s)))]%string.

Section candidate.
Context `{Dump SessionAcceptance} `{Dump AggregatePerformance} `{Dump AnalyticsPolicy}.
Context `{Dump ProductionCandidateRequest}.

(** The blockers, in the order they are appended. *)
Definition all_blockers (r : ProductionCandidateRequest) : list string :=
  let p := pd_policy r in
  manifest_blockers (pd_evidence_manifest r) ++ build_blockers p (pd_build_attestation r) ++ artifact_chain_blockers r
  ++ freeze_blockers (pd_build_attestation r) (pd_configuration_freeze r)
  ++ paper_blockers p (pd_paper_ledger r) (pd_deployment_evidence r) ++ deployment_chain_blockers r
  ++ rollback_blockers r ++ finding_blockers r ++ approval_blockers r.
Definition candidate_body (r : ProductionCandidateReport) : pyval :=
  PDict [("generated_at", PDatetime (pe_generated_at r)); ("status", PEnum (CandidateStatus_value (pe_status r)));
    ("paper_release_candidate", PBool (pe_paper_release_candidate r)); ("live_capital_eligible", PBool false);
    ("blockers", PSeq (map PStr (pe_blockers r))); ("warnings", PSeq (map PStr (pe_warnings r)));
    ("release_version", PStr release_version); ("specification_version", PStr specification_version);
    ("configuration_hash", PStr (pe_configuration_hash r)); ("evidence_manifest_hash", PStr (pe_evidence_manifest_hash r));
    ("build_attestation_hash", PStr (pe_build_attestation_hash r));
    ("configuration_freeze_hash", PStr (pe_configuration_freeze_hash r)); ("paper_ledger_id", PStr (pe_paper_ledger_id r));
    ("deployment_report_id", PStr (pe_deployment_report_id r)); ("review_summary", summary_py (pe_review_summary r));
    ("request_hash", PStr (pe_request_hash r))]%string.
Definition review_production_candidate (r : ProductionCandidateRequest) : result ProductionCandidateReport :=
  let request_hash := orch_sha256 (dump r) in
  let blockers := all_blockers r in
  let summary := review_summary r in
  _ ← guard_or (ReviewSummary_ok summary) (EValidation "ReviewSummary");
  let status := candidate_status blockers in
  let report id hash := {| pe_report_id := id; pe_generated_at := pd_generated_at r; pe_status := status;
    pe_paper_release_candidate := bool_decide (status = CS_PAPER_RELEASE_CANDIDATE); pe_live_capital_eligible := false;
    pe_blockers := sorted_set blockers; pe_warnings := sorted_set (finding_warnings r);
    pe_configuration_hash := cz_configuration_hash (pd_configuration_freeze r);
    pe_evidence_manifest_hash := em_manifest_hash (pd_evidence_manifest r);
    pe_build_attestation_hash := bt_attestation_hash (pd_build_attestation r);
    pe_configuration_freeze_hash := cz_freeze_hash (pd_configuration_freeze r);
    pe_paper_ledger_id := pa_ledger_id (pd_paper_ledger r);
    pe_deployment_report_id := dr_report_id (pd_deployment_evidence r); pe_review_summary := summary;
    pe_request_hash := request_hash; pe_report_hash := hash |} in
  let report_hash := orch_sha256 (candidate_body (report "" "")) in
  let result_ := report ("PC-" +:+ string_take 20 report_hash) report_hash in
  if ProductionCandidateReport_ok result_ then Ok result_ else Err (EValidation "ProductionCandidateReport").
End candidate.

(** ** persistence.py: the in-memory repository *)
Record ReleaseRepository := {
  rl_evidence_manifests : list (string * EvidenceManifest);
  rl_build_attestations : list (string * BuildAttestation);
  rl_configuration_freezes : list (string * ConfigurationFreeze);
  rl_candidate_reports : list (string * ProductionCandidateReport);
}.
Definition empty_release_repository : ReleaseRepository :=
  {| rl_evidence_manifests := []; rl_build_attestations := []; rl_configuration_freezes := [];
     rl_candidate_reports := [] |}.
Definition save_evidence_manifest (v : EvidenceManifest) : eff ReleaseRepository unit :=
  modify (λ s, {| rl_evidence_manifests := setdefault_item (em_manifest_hash v) v (rl_evidence_manifests s);
    rl_build_attestations := rl_build_attestations s; rl_configuration_freezes := rl_configuration_freezes s;
    rl_candidate_reports := rl_candidate_reports s |}).
Definition save_build_attestation (v : BuildAttestation) : eff ReleaseRepository unit :=
  modify (λ s, {| rl_evidence_manifests := rl_evidence_manifests s;
    rl_build_attestations := setdefault_item (bt_attestation_hash v) v (rl_build_attestations s);
    rl_configuration_freezes := rl_configuration_freezes s; rl_candidate_reports := rl_candidate_reports s |}).
Definition save_configuration_freeze (v : ConfigurationFreeze) : eff ReleaseRepository unit :=
  modify (λ s, {| rl_evidence_manifests := rl_evidence_manifests s; rl_build_attestations := rl_build_attestations s;
    rl_configuration_freezes := setdefault_item (cz_freeze_hash v) v (rl_configuration_freezes s);
    rl_candidate_reports := rl_candidate_reports s |}).
Definition save_candidate_report (v : ProductionCandidateReport) : eff ReleaseRepository unit :=
  modify (λ s, {| rl_evidence_manifests := rl_evidence_manifests s; rl_build_attestations := rl_build_attestations s;
    rl_configuration_freezes := rl_configuration_freezes s;
    rl_candidate_reports := setdefault_item (pe_report_id v) v (rl_candidate_reports s) |}).
(** [max(values, key=generated_at)]: the first of the latest. *)
Definition later_candidate (best : option ProductionCandidateReport) (r : ProductionCandidateReport)
    : option ProductionCandidateReport :=
  match best with
  | Some b => if pe_generated_at b <? pe_generated_at r then Some r else Some b
  | None => Some r
  end.
Definition get_latest_candidate_report : eff ReleaseRepository (option ProductionCandidateReport) :=
  gets (λ s, fold_left later_candidate (map snd (rl_candidate_reports s)) None).
Definition get_build_attestation (attestation_hash : string) : eff ReleaseRepository (option BuildAttestation) :=
  gets (λ s, snd <$> find (λ kv, String.eqb kv.1 attestation_hash) (rl_build_attestations s)).
