(* ===== verification/ReleaseContract.v ===== *)
(** * ReleaseContract: what a release candidate is evidence of

    A valid review request always gets a report; it is a paper release
    candidate exactly when every gate is met, blocked exactly when the evidence
    shows an explicit failure, and never eligible for live capital. *)
From Stdlib Require Import Ascii String.
From S2P Require Import Prelude Numerics PyStr PyTime Contracts Canonical RiskModels OrchModels AnalyticsModels Analytics PaperAcceptance AnalyticsContract OperationsModels Operations ReleaseModels Release.

#[local] Open Scope Z_scope.

(** ** Lists of notes *)

Lemma existsb_note (f : string → bool) c e : existsb f (note c e) = c && f e.
Proof. destruct c; simpl; [by rewrite orb_false_r | done]. Qed.

Lemma sorted_in_order {A} (le : A → A → bool) l : Sorted (λ x y, le x y = true) l → in_order le l = true.
Proof.
  induction 1 as [|x l Hs IH Hh]; [done|]. destruct l as [|y l]; [done|].
  inversion Hh; subst. simpl in *. by rewrite IH, andb_true_r.
Qed.
Lemma sorted_roles l : NoDup l → roles_sorted_unique (sorted_by role_le l) = true.
Proof.
  intros Hnd. unfold roles_sorted_unique. apply andb_true_iff. split.
  - apply sorted_in_order, sorted_by_sorted. intros a b. destruct a, b; (by left) || (by right).
  - apply bool_decide_eq_true. by rewrite sorted_by_perm.
Qed.

Lemma elem_of_sorted_set l x : x ∈ sorted_set l ↔ x ∈ l.
Proof. unfold sorted_set. rewrite elem_of_sorted_by, elem_of_unique_from. set_solver. Qed.
Lemma nonempty_sorted_set l : nonempty (sorted_set l) = nonempty l.
Proof.
  apply eq_true_iff_eq. rewrite <- !not_false_iff_true, !nonempty_false. f_equiv.
  split; intros E; apply elem_of_nil_inv; intros x Hx.
  - apply elem_of_sorted_set in Hx. rewrite E in Hx. by apply elem_of_nil in Hx.
  - apply elem_of_sorted_set in Hx. rewrite E in Hx. by apply elem_of_nil in Hx.
Qed.

(** ** Gates *)

Record candidate_gates `{Dump SessionAcceptance} `{Dump AggregatePerformance} `{Dump AnalyticsPolicy}
    (r : ProductionCandidateRequest) : Prop := {
  cg_manifest : orch_sha256 (manifest_body (PDatetime (em_generated_at (pd_evidence_manifest r)))
    (em_artifacts (pd_evidence_manifest r))) = em_manifest_hash (pd_evidence_manifest r);
  cg_attestation : orch_sha256 (build_body (pd_build_attestation r)) = bt_attestation_hash (pd_build_attestation r);
  cg_tests : pc_minimum_tests_collected (pd_policy r) <= bt_tests_collected (pd_build_attestation r);
  cg_green : bt_tests_passed (pd_build_attestation r) = bt_tests_collected (pd_build_attestation r);
  cg_schemas : pc_minimum_schema_count (pd_policy r) <= bt_schema_count (pd_build_attestation r);
  cg_secrets : bt_secret_findings (pd_build_attestation r) = 0;
  cg_installs : bt_clean_install_passed (pd_build_attestation r) = true;
  cg_source : bt_extracted_source_test_passed (pd_build_attestation r) = true;
  cg_compiles : bt_python_compile_passed (pd_build_attestation r) = true;
  cg_wheel : bt_wheel_smoke_test_passed (pd_build_attestation r) = true;
  cg_freeze : orch_sha256 (freeze_body (PDatetime (cz_frozen_at (pd_configuration_freeze r)))
      (cz_configuration_hash (pd_configuration_freeze r)) (cz_specification_sha256 (pd_configuration_freeze r))
      (cz_component_versions (pd_configuration_freeze r))) = cz_freeze_hash (pd_configuration_freeze r);
  cg_ledger : pa_paper_ready (pd_paper_ledger r) = true;
  cg_ledger_hash : orch_sha256 (paper_ledger_body (pd_paper_ledger r)) = pa_ledger_hash (pd_paper_ledger r);
  cg_ledger_id : pa_ledger_id (pd_paper_ledger r) = "PL-" +:+ string_take 20 (pa_ledger_hash (pd_paper_ledger r));
  cg_deployment : dr_paper_deployment_ready (pd_deployment_evidence r) = true;
  cg_deployment_hash :
    orch_sha256 (deployment_report_body (pd_deployment_evidence r)) = dr_report_hash (pd_deployment_evidence r);
  cg_deployment_id :
    dr_report_id (pd_deployment_evidence r) = "DE-" +:+ string_take 20 (dr_report_hash (pd_deployment_evidence r));
  cg_rollback_hash : orch_sha256 (rollback_body (pd_rollback_evidence r)) = rb_evidence_hash (pd_rollback_evidence r);
  cg_rollback : rollback_verified (pd_rollback_evidence r) = true;
  cg_review : pd_independent_review_complete r = true;
  cg_medium : open_count r SV_MEDIUM <= pc_maximum_open_medium_findings (pd_policy r);
  cg_high : ∀ f, f ∈ pd_findings r → rf_status f = FS_OPEN → rf_severity f ≠ SV_HIGH ∧ rf_severity f ≠ SV_CRITICAL;
  cg_approved : ∀ x, x ∈ pc_required_approval_roles (pd_policy r) →
    ∃ a, a ∈ pd_approvals r ∧ aa_role a = x ∧ aa_approved a = true;
  cg_not_rejected : ∀ a, a ∈ pd_approvals r → aa_approved a = true;
}.
(** An explicit failure. *)
Definition explicit_failure (r : ProductionCandidateRequest) : Prop :=
  bt_tests_passed (pd_build_attestation r) ≠ bt_tests_collected (pd_build_attestation r) ∨
  bt_secret_findings (pd_build_attestation r) ≠ 0 ∨
  (∃ f, f ∈ pd_findings r ∧ rf_status f = FS_OPEN ∧ (rf_severity f = SV_HIGH ∨ rf_severity f = SV_CRITICAL)) ∨
  ∃ a, a ∈ pd_approvals r ∧ aa_approved a = false.

(** ** What a valid request already ensures *)

Ltac split_valid H :=
  unfold ProductionCandidateRequest_ok in H;
  repeat match type of H with _ && _ = true => let H' := fresh "Hv" in apply andb_true_iff in H as [H H'] end.

Lemma artifact_hash_named m n : artifact_hash m n = ae_sha256 <$> artifact_named m n.
Proof.
  unfold artifact_hash, artifact_named, dict_of. rewrite <- lookup_fmap, <- list_to_map_fmap, <- !map_rev. f_equal. f_equal.
  change (fmap (prod_map id ae_sha256)) with (map (prod_map (@id string) ae_sha256)). by rewrite map_map.
Qed.

Lemma chain_clear r :
  evidence_coherent r = true →
  artifact_chain_blockers r = [] ∧ deployment_chain_blockers r = [] ∧
  existsb (λ n, bool_decide (artifact_named (pd_evidence_manifest r) n = None)) _REQUIRED_ARTIFACTS = false.
Proof.
  unfold evidence_coherent. cbv zeta. intros Hc.
  repeat match type of Hc with _ && _ = true => let H' := fresh "Hv" in apply andb_true_iff in Hc as [Hc H'] end.
  rewrite forallb_forall in Hc.
  assert (∀ n h, In (n, h) (expected_artifact_hashes r) →
    ∃ a, artifact_named (pd_evidence_manifest r) n = Some a ∧ ae_sha256 a = h) as Ha.
  { intros n h Hin. specialize (Hc _ Hin). apply bool_decide_eq_true in Hc. cbn [fst snd] in Hc.
    rewrite artifact_hash_named in Hc. by apply fmap_Some in Hc as (a & Ha & ->); eauto. }
  clear Hc. split_and!.
  - unfold artifact_chain_blockers. apply note_nil. apply not_true_iff_false. intros ([n h] & Hin & Hb)%existsb_exists.
    destruct (Ha n h Hin) as (a & Ea & <-). cbn [fst snd] in Hb. by rewrite Ea, String.eqb_refl in Hb.
  - unfold deployment_chain_blockers. cbv zeta. apply note_nil.
    repeat match goal with H : ?b = true |- context [?b] => rewrite H end. done.
  - apply not_true_iff_false. intros (n & Hin & Hb)%existsb_exists. apply bool_decide_eq_true in Hb.
    assert (∃ h, In (n, h) (expected_artifact_hashes r)) as (h & Hh).
    { unfold expected_artifact_hashes. cbv zeta. simpl in Hin.
      destruct Hin as [<-|[<-|[<-|[<-|[<-|[<-|[]]]]]]]; eexists; simpl; eauto 10. }
    destruct (Ha n h Hh) as (a & Ea & _). congruence.
Qed.

(** *** The blockers of a valid request *)

Lemma existsb_all_false {A} (f : A → bool) l : existsb f l = false ↔ ∀ x, x ∈ l → f x = false.
Proof.
  induction l as [|x l IH]; simpl; [split; [intros _ y Hy; by apply elem_of_nil in Hy | done]|].
  rewrite orb_false_iff, IH. setoid_rewrite elem_of_cons. naive_solver.
Qed.
Lemma forallb_in {A} (f : A → bool) l x : forallb f l = true → x ∈ l → f x = true.
Proof. intros Hf Hx. by apply forallb_forall with (2 := proj1 (list_elem_of_In _ _) Hx) in Hf. Qed.

Lemma open_count_nonneg r s : 0 <= open_count r s.
Proof. unfold open_count, len. lia. Qed.
Lemma open_count_zero r s :
  open_count r s <= 0 ↔ ∀ f, f ∈ pd_findings r → rf_status f = FS_OPEN → rf_severity f ≠ s.
Proof.
  unfold open_count, len. split.
  - intros Hl f Hf Ho Hs. assert (f ∈ filter (λ f, rf_status f = FS_OPEN ∧ rf_severity f = s) (pd_findings r)) as Hin
      by by apply list_elem_of_filter.
    destruct (filter _ (pd_findings r)); [by apply elem_of_nil in Hin | simpl in Hl; lia].
  - intros Hall. destruct (filter (λ f, rf_status f = FS_OPEN ∧ rf_severity f = s) (pd_findings r)) as [|f l] eqn:E; [simpl; lia|].
    assert (f ∈ filter (λ f, rf_status f = FS_OPEN ∧ rf_severity f = s) (pd_findings r)) as Hin by (rewrite E; by left).
    apply list_elem_of_filter in Hin as [[Ho Hs] Hf]. by destruct (Hall f Hf Ho).
Qed.

Lemma missing_roles_nil r :
  missing_roles r = [] ↔
  ∀ x, x ∈ pc_required_approval_roles (pd_policy r) → ∃ a, a ∈ pd_approvals r ∧ aa_role a = x ∧ aa_approved a = true.
Proof.
  assert (∀ x, x ∈ missing_roles r ↔ x ∈ pc_required_approval_roles (pd_policy r) ∧ x ∉ approved_roles r) as Hm.
  { intros x. unfold missing_roles. rewrite elem_of_sorted_by, list_elem_of_filter, elem_of_unique_from. set_solver. }
  assert (∀ x, x ∈ approved_roles r ↔ ∃ a, a ∈ pd_approvals r ∧ aa_role a = x ∧ aa_approved a = true) as Ha.
  { intros x. unfold approved_roles. rewrite elem_of_sorted_by, list_elem_of_fmap.
    setoid_rewrite list_elem_of_filter. naive_solver. }
  setoid_rewrite <- Ha. split.
  - intros E x Hx. destruct (decide (x ∈ approved_roles r)) as [|Hn]; [done|].
    assert (x ∈ missing_roles r) as Hin by by apply Hm. rewrite E in Hin. by apply elem_of_nil in Hin.
  - intros Hall. apply elem_of_nil_inv. intros x [Hx Hn]%Hm. by apply Hn, Hall.
Qed.

Section candidate.
Context `{Dump SessionAcceptance} `{Dump AggregatePerformance} `{Dump AnalyticsPolicy}.
Context `{Dump ProductionCandidateRequest}.

(** What a valid request rules out: the chain of the evidence is already
    consistent. *)
Record request_chained (r : ProductionCandidateRequest) : Prop := {
  qc_artifacts : artifact_chain_blockers r = [];
  qc_deployment : deployment_chain_blockers r = [];
  qc_present : existsb (λ n, bool_decide (artifact_named (pd_evidence_manifest r) n = None)) _REQUIRED_ARTIFACTS = false;
  qc_sizes : existsb (λ a, ae_required a && (ae_size_bytes a <=? 0)) (em_artifacts (pd_evidence_manifest r)) = false;
  qc_live : dr_live_deployment_ready (pd_deployment_evidence r) = false;
  qc_package : existsb (λ a, negb (String.eqb (aa_evidence_package_hash a) (em_manifest_hash (pd_evidence_manifest r))))
    (pd_approvals r) = false;
  qc_times : existsb (λ a, (aa_approved_at a <? em_generated_at (pd_evidence_manifest r))
    || (pd_generated_at r <? aa_approved_at a)) (pd_approvals r) = false;
}.
Lemma valid_chained r : ProductionCandidateRequest_ok r = true → request_chained r.
Proof.
  intros Hr. split_valid Hr. rename Hv into Hco. pose proof (chain_clear r Hco) as (Hc1 & Hc2 & Hc3).
  unfold evidence_coherent in Hco. cbv zeta in Hco. repeat (apply andb_true_iff in Hco as [Hco ?]).
  split; try done.
  - apply existsb_all_false. intros a Ha. unfold EvidenceManifest_ok in Hv11. repeat (apply andb_true_iff in Hv11 as [Hv11 ?]).
    pose proof (forallb_in _ _ _ Hv11 Ha) as Hok. unfold ArtifactEvidence_ok in Hok. bool_to_prop.
    rewrite (proj2 (Z.leb_gt _ 0)) by lia. apply andb_false_r.
  - unfold DeploymentEvidenceReport_ok in Hv7. repeat (apply andb_true_iff in Hv7 as [Hv7 ?]).
    by destruct (dr_live_deployment_ready _).
  - apply existsb_all_false. intros a Ha. apply negb_false_iff.
    by apply (forallb_in (λ a, String.eqb (aa_evidence_package_hash a) (em_manifest_hash (pd_evidence_manifest r))) (pd_approvals r)).
  - apply existsb_all_false. intros a Ha. apply orb_false_iff. rewrite !Z.ltb_ge, <- !Z.leb_le. split.
    + by apply (forallb_in (λ a, em_generated_at (pd_evidence_manifest r) <=? aa_approved_at a) (pd_approvals r)).
    + by apply (forallb_in (λ a, aa_approved_at a <=? pd_generated_at r) (pd_approvals r)).
Qed.

Lemma all_blockers_nil r : request_chained r → all_blockers r = [] ↔ candidate_gates r.
Proof.
  intros [Ha Hd Hpr Hsz Hl Hpk Ht]. unfold all_blockers. cbv zeta. rewrite Ha, Hd.
  unfold manifest_blockers, build_blockers, freeze_blockers, paper_blockers, rollback_blockers, finding_blockers,
    approval_blockers. cbv zeta. rewrite Hpr, Hsz, Hl, Hpk, Ht.
  change (pc_required (pd_policy r)) with true.
  change (String.eqb (bt_migration_head (pd_build_attestation r)) migration_head) with true.
  change (String.eqb (cz_migration_head (pd_configuration_freeze r)) migration_head) with true.
  change (negb (String.eqb (cz_environment (pd_configuration_freeze r)) "paper")
    || cz_live_execution_enabled (pd_configuration_freeze r)) with false.
  change (negb (String.eqb (bt_release_version (pd_build_attestation r)) release_version)
    || negb (String.eqb (cz_release_version (pd_configuration_freeze r)) release_version)
    || negb (String.eqb (bt_specification_version (pd_build_attestation r)) specification_version)
    || negb (String.eqb (cz_specification_version (pd_configuration_freeze r)) specification_version)) with false.
  cbn [negb andb]. change (λ e, note false e) with (λ _ : string, @nil string).
  rewrite !app_nil, !note_nil, !negb_false_iff, !String.eqb_eq, !Z.ltb_ge, !Z.eqb_eq, nonempty_false,
    missing_roles_nil, existsb_all_false, !open_count_zero.
  setoid_rewrite negb_false_iff. split.
  - intros ((?&_)&(?&?&?&?&?&?&?&?&?&_)&_&(?&_)&(?&?&?&?&?&?&_)&_&(?&?&?)&(?&Hh&Hcr)&?&?&_).
    split; try assumption. intros f Hf Ho. split; [by apply Hh | by apply Hcr].
  - intros G. destruct G. split_and!; try done; intros f Hf Ho; apply (cg_high0 f Hf Ho).
Qed.

(** A code that is an explicit failure. *)
Abbreviation explicit := (λ b : string, existsb (String.eqb b) explicit_failure_codes).

Lemma blocked_spec r :
  request_chained r → existsb explicit (all_blockers r) = true ↔ explicit_failure r.
Proof.
  intros [Ha Hd Hpr Hsz Hl Hpk Ht]. unfold all_blockers. cbv zeta. rewrite Ha, Hd.
  unfold manifest_blockers, build_blockers, freeze_blockers, paper_blockers, rollback_blockers, finding_blockers,
    approval_blockers. cbv zeta. rewrite Hl, !existsb_app, !existsb_note.
  repeat match goal with |- context [existsb (String.eqb ?e) explicit_failure_codes] =>
    let b := eval vm_compute in (existsb (String.eqb e) explicit_failure_codes) in
    change (existsb (String.eqb e) explicit_failure_codes) with b end.
  change (pc_required (pd_policy r)) with true.
  change (negb (String.eqb (cz_environment (pd_configuration_freeze r)) "paper")
    || cz_live_execution_enabled (pd_configuration_freeze r)) with false.
  cbn [existsb]. rewrite !andb_false_r, !andb_true_r, !andb_true_l, !orb_false_r, !orb_false_l.
  unfold explicit_failure. rewrite !orb_true_iff, !negb_true_iff, !Z.eqb_neq, !Z.ltb_lt, existsb_exists.
  setoid_rewrite negb_true_iff. setoid_rewrite <- list_elem_of_In.
  assert (∀ s, 0 < open_count r s ↔ ∃ f, f ∈ pd_findings r ∧ rf_status f = FS_OPEN ∧ rf_severity f = s) as Hopen.
  { intros s. destruct (decide (0 < open_count r s)) as [Hp|Hp].
    - split; [intros _ | done]. unfold open_count, len in Hp.
      destruct (filter (λ f, rf_status f = FS_OPEN ∧ rf_severity f = s) (pd_findings r)) as [|f l] eqn:E; [simpl in Hp; lia|].
      exists f. assert (f ∈ filter (λ f, rf_status f = FS_OPEN ∧ rf_severity f = s) (pd_findings r)) as Hin by (rewrite E; by left).
      apply list_elem_of_filter in Hin. tauto.
    - split; [done|]. intros (f & Hf & Ho & Hs). apply Z.nlt_ge in Hp. by destruct (proj1 (open_count_zero r s) Hp f Hf Ho). }
  change (pc_maximum_open_high_findings (pd_policy r)) with 0. change (pc_maximum_open_critical_findings (pd_policy r)) with 0.
  rewrite !Hopen. split.
  - intros [[?|?]|[[(f&?&?&?)|(f&?&?&?)]|?]]; unfold explicit_failure; eauto 10.
  - intros [?|[?|[(f&?&?&[?|?])|?]]]; eauto 10.
Qed.

Lemma review_built r :
  ProductionCandidateRequest_ok r = true →
  ∃ rep, review_production_candidate r = Ok rep ∧ pe_live_capital_eligible rep = false ∧
    pe_status rep = candidate_status (all_blockers r) ∧
    pe_paper_release_candidate rep = bool_decide (pe_status rep = CS_PAPER_RELEASE_CANDIDATE) ∧
    pe_blockers rep = sorted_set (all_blockers r) ∧ pe_review_summary rep = review_summary r.
Proof.
  intros Hr. unfold review_production_candidate. cbv zeta. generalize (all_blockers r). intros blockers.
  assert (ReviewSummary_ok (review_summary r) = true) as ->.
  { split_valid Hr. unfold ReviewSummary_ok. cbn [rs_finding_count rs_open_info_count rs_open_low_count rs_open_medium_count
      rs_open_high_count rs_open_critical_count rs_approved_roles rs_missing_roles review_summary forallb].
    rewrite !(proj2 (Z.leb_le 0 _)) by (apply open_count_nonneg || (unfold len; lia)).
    assert (roles_sorted_unique (missing_roles r) = true) as -> by apply sorted_roles, NoDup_filter, NoDup_unique_from.
    assert (roles_sorted_unique (approved_roles r) = true) as ->; [|done].
    apply sorted_roles, NoDup_map_filter. by apply bool_decide_eq_true in Hv0. }
  cbn [guard_or mbind result_bind].
  generalize (orch_sha256_pattern (dump r)). generalize (orch_sha256 (dump r)). intros request_hash Hq.
  match goal with |- context [orch_sha256 ?v] => generalize (orch_sha256_pattern v); generalize (orch_sha256 v) end.
  intros h Hh. match goal with |- context [ProductionCandidateReport_ok ?x] => exists x;
    assert (ProductionCandidateReport_ok x = true) as Hok end; [|rewrite Hok; done].
  split_valid Hr. unfold ProductionCandidateReport_ok, candidate_coherent.
  cbn [pe_report_id pe_live_capital_eligible pe_configuration_hash pe_evidence_manifest_hash pe_build_attestation_hash
    pe_configuration_freeze_hash pe_request_hash pe_report_hash pe_paper_ledger_id pe_deployment_report_id
    pe_paper_release_candidate pe_status pe_blockers].
  assert (∀ s, ID_ok s = true → release_id_ok s = true) as Hid.
  { intros s. unfold ID_ok, release_id_ok, between. rewrite !andb_true_iff, !Z.leb_le. lia. }
  assert (hash_pattern (em_manifest_hash (pd_evidence_manifest r)) = true ∧
    hash_pattern (bt_attestation_hash (pd_build_attestation r)) = true ∧
    hash_pattern (cz_configuration_hash (pd_configuration_freeze r)) = true ∧
    hash_pattern (cz_freeze_hash (pd_configuration_freeze r)) = true ∧
    ID_ok (pa_ledger_id (pd_paper_ledger r)) = true ∧ ID_ok (dr_report_id (pd_deployment_evidence r)) = true)
    as (Ha & Hb & Hc & Hd & He & Hf).
  { unfold EvidenceManifest_ok, BuildAttestation_ok, ConfigurationFreeze_ok, PaperAcceptanceLedger_ok,
      DeploymentEvidenceReport_ok in *. cbn [forallb] in *.
    repeat match goal with H : _ && _ = true |- _ => apply andb_true_iff in H as [? ?] end. done. }
  cbn [forallb]. rewrite (Hid _ (id_of_hash "PC-" h Hh eq_refl)), Ha, Hb, Hc, Hd, Hq, Hh, (Hid _ He), (Hid _ Hf).
  rewrite eqb_reflx, nonempty_sorted_set. cbn [negb andb].
  unfold candidate_status. destruct (nonempty blockers); [|by rewrite andb_false_r].
  by destruct (existsb explicit blockers).
Qed.

(** C38: A valid review request always gets a report.  It is a paper release
    candidate exactly when every gate is met, blocked exactly when the evidence
    shows an explicit failure (tests that do not pass, a secret, an open high or
    critical finding, a rejected approval), and incomplete otherwise; it is
    never eligible for live capital, and it lists each blocker, none else. *)
Theorem review_decides r :
  ProductionCandidateRequest_ok r = true →
  ∃ rep, review_production_candidate r = Ok rep ∧ pe_live_capital_eligible rep = false ∧
    (pe_paper_release_candidate rep = true ↔ candidate_gates r) ∧
    (pe_status rep = CS_BLOCKED ↔ explicit_failure r) ∧
    (∀ b, b ∈ pe_blockers rep ↔ b ∈ all_blockers r).
Proof.
  intros Hr. pose proof (valid_chained r Hr) as Hch.
  destruct (review_built r Hr) as (rep & Hrep & Hlive & Hst & Hc & Hb & _).
  exists rep. split; [exact Hrep|]. split; [exact Hlive|]. rewrite Hc, Hst, Hb, bool_decide_eq_true.
  pose proof (all_blockers_nil r Hch) as Hn. pose proof (blocked_spec r Hch) as Hx.
  revert Hn Hx. generalize (all_blockers r). intros blockers Hn Hx. unfold candidate_status.
  split; [|split; [|intros b; apply elem_of_sorted_set]].
  - rewrite <- Hn. destruct blockers as [|b l]; [done|]. cbn [nonempty negb]. by destruct (existsb explicit (b :: l)).
  - rewrite <- Hx. destruct blockers as [|b l]; [done|]. cbn [nonempty negb]. by destruct (existsb explicit (b :: l)).
Qed.
End candidate.

(** ** The builders' hashes *)

(** With a timestamp in UTC, what the builders hash is what the review hashes. *)
Lemma aware_utc t : aware_iso {| aw_instant := t; aw_offset := 0 |} = datetime_iso_z t.
Proof. unfold aware_iso, datetime_iso_z. cbn [aw_instant aw_offset]. by rewrite Z.mul_0_l, Z.add_0_r. Qed.
Lemma manifest_body_utc t l :
  orch_sha256 (manifest_body (PStr (aware_iso {| aw_instant := t; aw_offset := 0 |})) l)
  = orch_sha256 (manifest_body (PDatetime t) l).
Proof. by rewrite aware_utc. Qed.
Lemma built_manifest_accepted `{Files} files t m :
  build_evidence_manifest files {| aw_instant := t; aw_offset := 0 |} = Ok m →
  orch_sha256 (manifest_body (PDatetime (em_generated_at m)) (em_artifacts m)) = em_manifest_hash m.
Proof.
  unfold build_evidence_manifest. intros (l & _ & E)%bind_Ok. revert E. cbv zeta. rewrite manifest_body_utc.
  intros E. match type of E with (if ?b then _ else _) = _ => destruct b; [|discriminate E] end.
  apply Ok_inj in E as <-. reflexivity.
Qed.

(** In another zone it is another text: the manifest carries the hash of a
    body that the review, which has only the instant, never recomputes. *)
Lemma pad_digits n z : ∀ c, c ∈ bytes_of (pad n z) → c ≠ "Z"%char.
Proof.
  assert (forallb Canonical.is_digit (bytes_of (pad n z)) = true) as Hd.
  { unfold pad. cbv zeta. generalize (n - String.length (digits_string z))%nat. intros k.
    induction k as [|k IH]; [apply pretty_N_digits|]. 
    change (bytes_of (zeros (S k) +:+ digits_string z)) with ("0"%char :: bytes_of (zeros k +:+ digits_string z)).
    cbn [forallb]. by rewrite IH. }
  intros c Hc ->. by apply (forallb_in _ _ _ Hd) in Hc.
Qed.
Lemma bytes_app a b : bytes_of (a +:+ b) = bytes_of a ++ bytes_of b.
Proof. induction a as [|c a IH]; [done|]. simpl. by rewrite <- IH. Qed.
Lemma offset_text_last m : ∃ c, last (bytes_of (offset_text m)) = Some c ∧ c ≠ "Z"%char.
Proof.
  unfold offset_text. rewrite !bytes_app, !app_assoc, last_app.
  assert (bytes_of (pad 2 (Z.abs m mod 60)) ≠ []) as Hn.
  { unfold pad. cbv zeta. rewrite bytes_app. intros [_ E]%app_nil. revert E. apply pretty_N_nonempty. }
  destruct (last (bytes_of (pad 2 (Z.abs m mod 60)))) as [c|] eqn:E; [|by apply last_None in E].
  exists c. split; [done|]. by apply last_Some_elem_of, pad_digits in E.
Qed.
Lemma other_zone_other_text t offset :
  offset ≠ 0 → aware_iso {| aw_instant := t; aw_offset := offset |} ≠ datetime_iso_z t.
Proof.
  intros Ho. unfold aware_iso, datetime_iso_z. cbn [aw_instant aw_offset]. rewrite (proj2 (Z.eqb_neq _ _) Ho).
  intros E. apply (f_equal (λ s, last (bytes_of s))) in E. revert E.
  rewrite !bytes_app, !app_assoc, !last_app. destruct (offset_text_last offset) as (c & -> & Hc).
  intros [= ->]. by apply Hc.
Qed.
Lemma other_zone_other_body t offset l :
  offset ≠ 0 →
  OrchModels.normalize (manifest_body (PStr (aware_iso {| aw_instant := t; aw_offset := offset |})) l)
  ≠ OrchModels.normalize (manifest_body (PDatetime t) l).
Proof.
  intros Ho E. apply (other_zone_other_text t offset Ho). unfold manifest_body in E.
  cbn [OrchModels.normalize map fst snd] in E. congruence.
Qed.

(** ** A request that is short of evidence *)

Section sample.
#[local] Instance nothing {A} : Dump A := λ _, PNone.

Definition sample_ledger : PaperAcceptanceLedger :=
  {| pa_ledger_id := "PL-0123456789abcdef0123"; pa_generated_at := 0; pa_status := AC_COLLECTING; pa_paper_ready := false;
     pa_live_ready := false; pa_session_count := 1; pa_clean_session_count := 1; pa_filled_order_count := 3;
     pa_clean_session_rate := dec.of_Z 1; pa_sessions := [];
     pa_performance := {| ag_session_count := 1; ag_trade_count := 3; ag_gross_pnl := dec.zero; ag_fees := dec.zero;
       ag_net_pnl := dec.zero; ag_win_rate := dec.zero; ag_profit_factor := None; ag_expectancy := dec.zero;
       ag_maximum_drawdown := dec.zero; ag_average_r_multiple := dec.zero |};
     pa_blockers := ["MINIMUM_SESSION_COUNT_NOT_MET"]; pa_policy := default_analytics_policy;
     pa_configuration_hash := sample_hash; pa_request_hash := sample_hash; pa_ledger_hash := sample_hash |}.
Definition sample_deployment : DeploymentEvidenceReport :=
  {| dr_report_id := "DE-0123456789abcdef0123"; dr_generated_at := 0; dr_status := DE_INCOMPLETE;
     dr_paper_deployment_ready := false; dr_live_deployment_ready := false; dr_blockers := ["PAPER_LEDGER_NOT_QUALIFIED"];
     dr_configuration_hash := sample_hash; dr_paper_ledger_id := pa_ledger_id sample_ledger;
     dr_paper_ledger_hash := sample_hash; dr_tests_collected := 300; dr_tests_passed := 299; dr_schema_count := 50;
     dr_secret_findings := 0;
     dr_evidence_hashes := map (λ n, (n, sample_hash)) ["configuration"; "migrations"; "paper_ledger"; "schemas_bundle";
       "source_archive"; "specification"; "verification_report"; "wheel"];
     dr_request_hash := sample_hash; dr_report_hash := sample_hash |}.
Definition sample_candidate : ProductionCandidateRequest :=
  {| pd_generated_at := 2; pd_policy := default_candidate_policy;
     pd_evidence_manifest := {| em_generated_at := 0;
       em_artifacts := map (λ n, {| ae_name := n; ae_sha256 := sample_hash; ae_size_bytes := 1; ae_required := true |})
         _REQUIRED_ARTIFACTS;
       em_manifest_hash := sample_hash |};
     pd_build_attestation := {| bt_generated_at := 0; bt_tests_collected := 300; bt_tests_passed := 299;
       bt_schema_count := 50; bt_secret_findings := 0; bt_clean_install_passed := true;
       bt_extracted_source_test_passed := true; bt_python_compile_passed := true; bt_wheel_smoke_test_passed := true;
       bt_source_archive_sha256 := sample_hash; bt_wheel_sha256 := sample_hash; bt_migrations_sha256 := sample_hash;
       bt_schemas_bundle_sha256 := sample_hash; bt_verification_report_sha256 := sample_hash;
       bt_attestation_hash := sample_hash |};
     pd_configuration_freeze := {| cz_frozen_at := 0; cz_configuration_hash := sample_hash;
       cz_specification_sha256 := sample_hash; cz_component_versions := [("risk", "1"); ("scanner", "2")]%string;
       cz_freeze_hash := sample_hash |};
     pd_paper_ledger := sample_ledger; pd_deployment_evidence := sample_deployment;
     pd_rollback_evidence := {| rb_tested_at := 0; rb_backup_restore_verified := true; rb_previous_wheel_available := true;
       rb_previous_source_archive_available := true; rb_emergency_flatten_verified := true;
       rb_database_forward_recovery_verified := true; rb_rollback_plan_sha256 := sample_hash;
       rb_evidence_hash := sample_hash |};
     pd_findings := [];
     pd_approvals := map (λ x, {| aa_role := x; aa_reviewer_id := "reviewer"; aa_approved := true; aa_approved_at := 1;
       aa_evidence_package_hash := sample_hash; aa_comment := "" |}) (pc_required_approval_roles default_candidate_policy);
     pd_independent_review_complete := true |}.
Lemma sample_candidate_valid : ProductionCandidateRequest_ok sample_candidate = true.
Proof. vm_compute. reflexivity. Qed.

(** One reviewer may attest every role: nothing compares the reviewers. *)
Example one_reviewer_approves : missing_roles sample_candidate = [].
Proof. vm_compute. reflexivity. Qed.

Lemma review_decides_witness :
  ∃ rep, review_production_candidate sample_candidate = Ok rep ∧ pe_status rep = CS_BLOCKED.
Proof.
  destruct (review_decides sample_candidate sample_candidate_valid) as (rep & Hrep & _ & _ & Hb & _).
  exists rep. split; [exact Hrep|]. apply Hb. left. discriminate.
Defined.
End sample.
