(* ===== verification/Scanner.v ===== *)
(** * Scanner: qualification, mechanical signals, outcomes and the scorecard

    daybreak_scanner: models.py, rvol.py, discovery.py, atr.py, signals.py,
    outcomes.py, scorecard.py, forecast.py (its pure part), trading_window.py,
    and the steps of cli.py between the requests and the files.  The market
    data client and the forecaster are parameters: what a request answers. *)
From Stdlib Require Import Ascii String.
From S2P Require Import Prelude Numerics PyStr PyTime Contracts Canonical RiskModels OrchModels FeatureModels FeatureCore AnalyticsModels PaperAcceptance.

#[local] Open Scope Z_scope.

(** ** models.py *)

(** [Field(gt=0, max_digits=18, decimal_places=6)]. *)
Definition Money_ok (a : decimal) : bool :=
  (if -6 <=? expo a then Z.abs (coef a * 10 ^ (expo a + 6)) <? 10 ^ 18
   else (coef a mod 10 ^ (-6 - expo a) =? 0) && (Z.abs (coef a / 10 ^ (-6 - expo a)) <? 10 ^ 18))
  && positive_dec a.

Record MarketMover := {
  mm_ticker : string;
  mm_percent_change : decimal;
  mm_change : decimal;
  mm_price : decimal;
}.
Definition MarketMover_ok (m : MarketMover) : bool := is_canonical_ticker (mm_ticker m) && Money_ok (mm_price m).

Record ScannerPolicy := {
  sy_gap_min_pct : decimal;
  sy_premarket_volume_min : Z;
  sy_rvol_min : decimal;
  sy_rvol_lookback_sessions : Z;
  sy_max_candidates : Z;
}.
Definition ScannerPolicy_ok (p : ScannerPolicy) : bool :=
  (0 <=? sy_premarket_volume_min p) && (1 <=? sy_rvol_lookback_sessions p) && between 1 25 (sy_max_candidates p).
Definition default_scanner_policy : ScannerPolicy :=
  {| sy_gap_min_pct := Dec 40 (-1); sy_premarket_volume_min := 500000; sy_rvol_min := Dec 50 (-1);
     sy_rvol_lookback_sessions := 20; sy_max_candidates := 20 |}.

Record CandidateQualification := {
  cq_ticker : string;
  cq_percent_change : decimal;
  cq_price : decimal;
  cq_volume : Z;
  cq_relative_volume : option decimal;
  cq_qualifies : bool;
  cq_disqualification_reasons : list string;
}.
Definition CandidateQualification_ok (c : CandidateQualification) : bool :=
  is_canonical_ticker (cq_ticker c) && Money_ok (cq_price c) && (0 <=? cq_volume c).

Record Signal := {
  sg_ticker : string;
  sg_trading_date : date;
  sg_generated_at : datetime;
  sg_entry_price : decimal;
  sg_atr_value : decimal;
  sg_stop_price : decimal;
  sg_target_price_1 : decimal;
  sg_target_price_2 : decimal;
  sg_percent_change : decimal;
  sg_relative_volume : option decimal;
  sg_forecast_trend_pct : option decimal;
}.
Definition Signal_ok (s : Signal) : bool :=
  is_canonical_ticker (sg_ticker s)
  && forallb Money_ok [sg_entry_price s; sg_atr_value s; sg_stop_price s; sg_target_price_1 s; sg_target_price_2 s].

Record MinuteBar := {
  mb_timestamp : datetime;
  mb_open : decimal;
  mb_high : decimal;
  mb_low : decimal;
  mb_close : decimal;
  mb_volume : Z;
}.
Definition MinuteBar_ok (b : MinuteBar) : bool :=
  forallb Money_ok [mb_open b; mb_high b; mb_low b; mb_close b] && (0 <=? mb_volume b).

Inductive Outcome := OC_WIN | OC_LOSS | OC_EXPIRED.
#[export] Instance Outcome_eq_dec : EqDecision Outcome. Proof. solve_decision. Defined.
Inductive TargetHit := TH_TARGET_1 | TH_TARGET_2.
#[export] Instance TargetHit_eq_dec : EqDecision TargetHit. Proof. solve_decision. Defined.
Record SignalOutcome := {
  so_ticker : string;
  so_trading_date : date;
  so_resolved_at : datetime;
  so_outcome : Outcome;
  so_target_hit : option TargetHit;
  so_exit_price : decimal;
  so_return_pct : decimal;
}.
Definition SignalOutcome_ok (o : SignalOutcome) : bool := is_canonical_ticker (so_ticker o) && Money_ok (so_exit_price o).

(** ** Dicts in insertion order *)

Definition assoc {A} (k : string) (d : list (string * A)) : option A :=
  snd <$> find (λ kv, String.eqb kv.1 k) d.

(** [str(d)]: positional notation unless the exponent is positive or the
    number is below 10^-6. *)
Definition decimal_str (d : decimal) : string :=
  let ds := digits_string (Z.abs (coef d)) in
  let n := Z.of_nat (String.length ds) in
  let adjusted := expo d + n - 1 in
  if (expo d <=? 0) && (-6 <=? adjusted) then decimal_f d
  else (if coef d <? 0 then "-" else "") +:+
    (if n =? 1 then ds else string_take 1 ds +:+ "." +:+ String.substring 1 (String.length ds) ds)
    +:+ "E" +:+ (if adjusted <? 0 then "-" else "+") +:+ digits_string (Z.abs adjusted).
Example decimal_str_examples :
  map decimal_str [Dec 40 (-1); Dec (-5) 0; Dec 0 0; Dec 123 2; Dec 5 (-7); Dec 12345 (-10); Dec 0 (-2)]
  = ["4.0"; "-5"; "0"; "1.23E+4"; "5E-7"; "0.0000012345"; "0.00"].
Proof. vm_compute. reflexivity. Qed.

(** ** rvol.py *)

Definition session_le (a b : DailyBar) : bool := not_gt (date_compare (db_session_date a) (db_session_date b)).
Definition by_session (bars : list DailyBar) : list DailyBar := sorted_by session_le bars.
(** [l[-n:]] for [1 <= n]. *)
Definition last_n {A} (n : Z) (l : list A) : list A := drop (length l - Z.to_nat n) l.
Definition average_daily_volume (bars : list DailyBar) (lookback_sessions : Z) : result (option decimal) :=
  if negb (nonempty bars) then Ok None
  else
    let recent := last_n lookback_sessions (by_session bars) in
    let total := foldr Z.add 0 (map db_volume recent) in
    average ← dec.div (dec.of_Z total) (dec.of_Z (len recent)); Ok (Some average).
Definition relative_volume (current_volume : Z) (average_volume : option decimal) : result (option decimal) :=
  match average_volume with
  | None => Ok None
  | Some a => if (a =? dec.zero)%dec then Ok None
      else ratio ← dec.div (dec.of_Z current_volume) a; Ok (Some ratio)
  end.

(** ** discovery.py *)

(** The reasons to disqualify, and the relative volume. *)
Definition gap_reasons (p : ScannerPolicy) (m : MarketMover) : list string :=
  note (mm_percent_change m <? sy_gap_min_pct p)%dec
    ("percent_change " +:+ decimal_str (mm_percent_change m) +:+ " below gap_min_pct " +:+ decimal_str (sy_gap_min_pct p)).
Definition volume_reasons (p : ScannerPolicy) (volume : option Z) : list string :=
  match volume with
  | None => ["ticker had no current-session volume in the snapshot response"]
  | Some v => note (v <? sy_premarket_volume_min p)
      ("volume " +:+ pretty v +:+ " below premarket_volume_min " +:+ pretty (sy_premarket_volume_min p))
  end.
Definition rvol_reasons (p : ScannerPolicy) (rvol : option decimal) : list string :=
  match rvol with
  | Some x => note (x <? sy_rvol_min p)%dec
      ("relative_volume " +:+ decimal_str x +:+ " below rvol_min " +:+ decimal_str (sy_rvol_min p))
  | None => []
  end.
Definition rvol_of (volume : option Z) (averages : list (string * decimal)) (ticker : string) : result (option decimal) :=
  match volume, assoc ticker averages with
  | Some v, Some average => relative_volume v (Some average)
  | _, _ => Ok None
  end.
Definition qualify_one (p : ScannerPolicy) (volumes : list (string * Z)) (averages : list (string * decimal))
    (m : MarketMover) : result CandidateQualification :=
  let volume := assoc (mm_ticker m) volumes in
  rvol ← rvol_of volume averages (mm_ticker m);
  let reasons := gap_reasons p m ++ volume_reasons p volume ++ rvol_reasons p rvol in
  let c := {| cq_ticker := mm_ticker m; cq_percent_change := mm_percent_change m; cq_price := mm_price m;
    cq_volume := default 0 volume; cq_relative_volume := rvol; cq_qualifies := negb (nonempty reasons);
    cq_disqualification_reasons := reasons |} in
  if CandidateQualification_ok c then Ok c else Err (EValidation "CandidateQualification").
Definition qualify_candidates (gainers : list MarketMover) (volumes : list (string * Z)) (policy : option ScannerPolicy)
    (averages : option (list (string * decimal))) : result (list CandidateQualification) :=
  map_result (qualify_one (default default_scanner_policy policy) volumes (default [] averages)) gainers.
(** A stable descending order: an element stays before an equal one. *)
Definition percent_ge (a b : CandidateQualification) : bool := (cq_percent_change b <=? cq_percent_change a)%dec.
Definition ranked_candidates (l : list CandidateQualification) : list CandidateQualification :=
  sorted_by percent_ge (filter (λ c, cq_qualifies c = true) l).
Definition qualifying_tickers (candidates : list CandidateQualification) (limit : option Z) : list string :=
  map cq_ticker (match limit with
    | Some n => py_slice (ranked_candidates candidates) 0 n
    | None => ranked_candidates candidates
    end).

(** ** atr.py *)

Definition ATR_PERIOD : Z := 14.
Definition range_of (previous current : DailyBar) : decimal :=
  dec.max (dec.max (db_high current - db_low current)%dec (dec.abs (db_high current - db_close previous)%dec))
    (dec.abs (db_low current - db_close previous)%dec).
Definition ranges_of (ordered : list DailyBar) : list decimal :=
  map (λ pc, range_of pc.1 pc.2) (zip ordered (tail ordered)).
Fixpoint smoothed (period : Z) (atr : decimal) (ranges : list decimal) : result decimal :=
  match ranges with
  | [] => Ok atr
  | r :: rest => atr' ← dec.div ((atr * dec.of_Z (period - 1)) + r)%dec (dec.of_Z period); smoothed period atr' rest
  end.
Definition wilder_atr (bars : list DailyBar) (period : Z) : result (option decimal) :=
  let ordered := by_session bars in
  if len ordered <? period + 1 then Ok None
  else
    let ranges := ranges_of ordered in
    initial ← dec.div (dec.sum (take (Z.to_nat period) ranges)) (dec.of_Z period);
    atr ← smoothed period initial (drop (Z.to_nat period) ranges);
    atr ← dec.quantize atr (-6) RHalfEven;
    Ok (Some atr).

(** ** signals.py *)

Fixpoint keep_some {A} (l : list (option A)) : list A :=
  match l with [] => [] | Some x :: l => x :: keep_some l | None :: l => keep_some l end.

Definition signal_of (c : CandidateQualification) (atr : decimal) (trading_date : date) (now : datetime)
    (trends : list (string * decimal)) : Signal :=
  {| sg_ticker := cq_ticker c; sg_trading_date := trading_date; sg_generated_at := now; sg_entry_price := cq_price c;
     sg_atr_value := atr; sg_stop_price := (cq_price c - atr)%dec;
     sg_target_price_1 := (cq_price c + atr * dec.of_Z 2)%dec; sg_target_price_2 := (cq_price c + atr * dec.of_Z 3)%dec;
     sg_percent_change := cq_percent_change c; sg_relative_volume := cq_relative_volume c;
     sg_forecast_trend_pct := assoc (cq_ticker c) trends |}.
(** The signal of a candidate, if it gets one. *)
Definition candidate_signal (bars_by_ticker : list (string * list DailyBar)) (trading_date : date) (now : datetime)
    (trends : list (string * decimal)) (c : CandidateQualification) : result (option Signal) :=
  if negb (cq_qualifies c) then Ok None
  else
    atr ← wilder_atr (default [] (assoc (cq_ticker c) bars_by_ticker)) ATR_PERIOD;
    match atr with
    | None => Ok None
    | Some atr =>
        if (atr <=? dec.zero)%dec then Ok None
        else
          let s := signal_of c atr trading_date now trends in
          if Signal_ok s then Ok (Some s) else Err (EValidation "Signal")
    end.
Definition build_signals (candidates : list CandidateQualification) (bars_by_ticker : list (string * list DailyBar))
    (trading_date : date) (now : datetime) (trends : list (string * decimal)) : result (list Signal) :=
  l ← map_result (candidate_signal bars_by_ticker trading_date now trends) candidates; Ok (keep_some l).

(** ** outcomes.py *)

Definition _return_pct (entry_price exit_price : decimal) : result decimal :=
  q ← dec.div (exit_price - entry_price)%dec entry_price; Ok (q * dec.of_Z 100)%dec.
Definition outcome_at (s : Signal) (resolved_at : datetime) (outcome : Outcome) (hit : option TargetHit)
    (exit_price : decimal) : result SignalOutcome :=
  return_pct ← _return_pct (sg_entry_price s) exit_price;
  let o := {| so_ticker := sg_ticker s; so_trading_date := sg_trading_date s; so_resolved_at := resolved_at;
    so_outcome := outcome; so_target_hit := hit; so_exit_price := exit_price; so_return_pct := return_pct |} in
  if SignalOutcome_ok o then Ok o else Err (EValidation "SignalOutcome").
Definition bar_le (a b : MinuteBar) : bool := mb_timestamp a <=? mb_timestamp b.
(** The walk over bars in order. *)
Fixpoint walk (s : Signal) (bars : list MinuteBar) : result (option SignalOutcome) :=
  match bars with
  | [] => Ok None
  | bar :: rest =>
      if (mb_low bar <=? sg_stop_price s)%dec then
        o ← outcome_at s (mb_timestamp bar) OC_LOSS None (sg_stop_price s); Ok (Some o)
      else if (sg_target_price_2 s <=? mb_high bar)%dec then
        o ← outcome_at s (mb_timestamp bar) OC_WIN (Some TH_TARGET_2) (sg_target_price_2 s); Ok (Some o)
      else if (sg_target_price_1 s <=? mb_high bar)%dec then
        o ← outcome_at s (mb_timestamp bar) OC_WIN (Some TH_TARGET_1) (sg_target_price_1 s); Ok (Some o)
      else walk s rest
  end.
Definition resolve_outcome (s : Signal) (bars : list MinuteBar) : result (option SignalOutcome) :=
  walk s (sorted_by bar_le bars).
Definition expire_at_close (s : Signal) (close_price : decimal) (closed_at : datetime) : result SignalOutcome :=
  outcome_at s closed_at OC_EXPIRED None close_price.

(** ** scorecard.py *)

Definition count_outcome (o : Outcome) (l : list SignalOutcome) : Z := len (filter (λ x, so_outcome x = o) l).
Definition count_hit (h : TargetHit) (l : list SignalOutcome) : Z := len (filter (λ x, so_target_hit x = Some h) l).
(** [Decimal(n) / Decimal(decided) * 100] when [decided] is not 0. *)
Definition rate_pct (n decided : Z) : result (option decimal) :=
  if decided =? 0 then Ok None
  else q ← dec.div (dec.of_Z n) (dec.of_Z decided); Ok (Some (q * dec.of_Z 100)%dec).
Record Scorecard := {
  sr_total_signals : Z;
  sr_wins : Z;
  sr_losses : Z;
  sr_expired : Z;
  sr_wins_target_1 : Z;
  sr_wins_target_2 : Z;
  sr_win_rate_pct : option decimal;
  sr_target_1_hit_rate_pct : option decimal;
  sr_target_2_hit_rate_pct : option decimal;
  sr_average_return_pct : option decimal;
}.
Definition build_scorecard (outcomes : list SignalOutcome) : result Scorecard :=
  let total := len outcomes in
  let wins := count_outcome OC_WIN outcomes in let losses := count_outcome OC_LOSS outcomes in
  let decided := wins + losses in
  win_rate ← rate_pct wins decided;
  target_1 ← rate_pct (count_hit TH_TARGET_1 outcomes) decided;
  target_2 ← rate_pct (count_hit TH_TARGET_2 outcomes) decided;
  average ← (if total =? 0 then Ok None
    else q ← dec.div (dec.sum (map so_return_pct outcomes)) (dec.of_Z total); Ok (Some q));
  Ok {| sr_total_signals := total; sr_wins := wins; sr_losses := losses; sr_expired := count_outcome OC_EXPIRED outcomes;
    sr_wins_target_1 := count_hit TH_TARGET_1 outcomes; sr_wins_target_2 := count_hit TH_TARGET_2 outcomes;
    sr_win_rate_pct := win_rate; sr_target_1_hit_rate_pct := target_1; sr_target_2_hit_rate_pct := target_2;
    sr_average_return_pct := average |}.

(** ** forecast.py: the pure part *)

Definition trend_pct (closes point_forecast : list decimal) : result (option decimal) :=
  match last closes, last point_forecast with
  | Some last_real, Some forecast =>
      if (last_real =? dec.zero)%dec then Ok None
      else q ← dec.div (forecast - last_real)%dec last_real; Ok (Some (q * dec.of_Z 100)%dec)
  | _, _ => Ok None
  end.
Definition daily_closes_by_ticker (bars_by_ticker : list (string * list DailyBar)) (lookback_sessions : Z)
    : list (string * list decimal) :=
  filter (λ kv, nonempty kv.2 = true)
    (map (λ kv, (kv.1, map db_close (last_n lookback_sessions (by_session kv.2)))) bars_by_ticker).

(** ** trading_window.py *)

Definition in_trading_window `{NewYork} (now : datetime) (start stop : Z) : bool :=
  (weekday (ny_date now) <? 5) && (start <=? ny_time now) && (ny_time now <=? stop).

(** ** cli.py: the scan *)

(** What the market data client and the forecaster answer. *)
Class Market := {
  mk_gainers : Z → result (list MarketMover);
  mk_current_volumes : list string → result (list (string * Z));
  mk_daily_bars : list string → date → date → result (list (string * list DailyBar));
  mk_minute_bars : string → datetime → datetime → result (list MinuteBar);
  mk_forecast : list (string * list decimal) → result (list (string * list decimal));
}.
(** ScannerError and its subclass; ForecastError. *)
Definition is_scanner_error (e : exn) : bool :=
  match e with EOther kind _ => String.eqb kind "ScannerError" || String.eqb kind "ScannerTransportError" | _ => false end.
Definition is_forecast_error (e : exn) : bool :=
  match e with EOther kind _ => String.eqb kind "ForecastError" | _ => false end.

(** The files of a day, by the date in their name, with the models they hold. *)
Record ScanFiles := {
  sf_candidates : gmap string (datetime * list CandidateQualification * list string);
  sf_signals : gmap string (datetime * list Signal);
  sf_outcomes : gmap string (list SignalOutcome);
}.
Record ScanArgs := {
  sn_top : Z;
  sn_rvol_lookback_days : Z;
  sn_replace : bool;
  sn_with_forecast : bool;
}.
Definition days_before (d : date) (n : Z) : date := civil_of_days (days_of_civil d - n).

Section cli.
Context `{Market}.

(** The average daily volume of each symbol that has one. *)
Fixpoint averages_of (lookback : Z) (bars : list (string * list DailyBar)) : result (list (string * decimal)) :=
  match bars with
  | [] => Ok []
  | (symbol, l) :: bars =>
      average ← average_daily_volume l lookback;
      rest ← averages_of lookback bars;
      Ok match average with Some a => (symbol, a) :: rest | None => rest end
  end.
Fixpoint trends_of (closes : list (string * list decimal)) (forecasts : list (string * list decimal))
    : result (list (string * decimal)) :=
  match forecasts with
  | [] => Ok []
  | (ticker, values) :: forecasts =>
      match assoc ticker closes with
      | None => Err (EKey ticker)
      | Some l =>
          trend ← trend_pct l values;
          rest ← trends_of closes forecasts;
          Ok match trend with Some t => (ticker, t) :: rest | None => rest end
      end
  end.
(** The forecast never fails the scan. *)
Definition forecast_trends (with_forecast : bool) (qualifying : list string) (bars : list (string * list DailyBar))
    : result (list (string * decimal)) :=
  if with_forecast then
    let closes := daily_closes_by_ticker (filter (λ kv, kv.1 ∈ qualifying) bars) 90 in
    match (forecasts ← mk_forecast closes; trends_of closes forecasts) with
    | Err e => if is_forecast_error e then Ok [] else Err e
    | r => r
    end
  else Ok [].

(** The outcome of a scan: an exit code, or the candidates, the qualifying
    tickers and the signals. *)
Definition scan (args : ScanArgs) (trading_date : date) (generated_at : datetime)
    : result (Z + (list CandidateQualification * list string * list Signal)) :=
  match mk_gainers (sn_top args) with
  | Err e => if is_scanner_error e then Ok (inl 3) else Err e
  | Ok gainers =>
      let tickers := map mm_ticker gainers in
      match mk_current_volumes tickers with
      | Err e => if is_scanner_error e then Ok (inl 3) else Err e
      | Ok volumes =>
          bars ← match mk_daily_bars tickers (days_before trading_date (sn_rvol_lookback_days args)) (days_before trading_date 1) with
            | Err e => if is_scanner_error e then Ok [] else Err e
            | r => r
            end;
          let policy := default_scanner_policy in
          averages ← averages_of (sy_rvol_lookback_sessions policy) bars;
          candidates ← qualify_candidates gainers volumes (Some policy) (Some averages);
          let qualifying := qualifying_tickers candidates (Some (sy_max_candidates policy)) in
          trends ← forecast_trends (sn_with_forecast args) qualifying bars;
          signals ← build_signals candidates bars trading_date generated_at trends;
          Ok (inr (candidates, qualifying, signals))
      end
  end.
(** [_run_scan] after the credentials: a day's scan is not repeated unless it
    is asked for. *)
Definition _run_scan (args : ScanArgs) (trading_date : date) (generated_at : datetime) : eff ScanFiles Z :=
  files ← gets id;
  let day := date_iso trading_date in
  if bool_decide (sf_signals files !! day ≠ None) && negb (sn_replace args) then mret 5
  else
    outcome ← lift (scan args trading_date generated_at);
    match outcome with
    | inl code => mret code
    | inr (candidates, qualifying, signals) =>
        modify (λ f, {| sf_candidates := <[day := (generated_at, candidates, qualifying)]> (sf_candidates f);
          sf_signals := <[day := (generated_at, signals)]> (sf_signals f); sf_outcomes := sf_outcomes f |}) ;;
        mret 0
    end.

(** ** cli.py: the outcomes *)

(** [d[k] = v]: in place, or at the end. *)
Fixpoint dict_set {A} (k : string) (v : A) (d : list (string * A)) : list (string * A) :=
  match d with
  | [] => [(k, v)]
  | (k', v') :: d => if String.eqb k' k then (k, v) :: d else (k', v') :: dict_set k v d
  end.
(** The outcomes already on file whose ticker still has a signal. *)
Definition carried (signals : list Signal) (outcomes : list SignalOutcome) : list (string * SignalOutcome) :=
  foldl (λ d o, dict_set (so_ticker o) o d) []
    (filter (λ o, existsb (λ s, String.eqb (sg_ticker s) (so_ticker o)) signals = true) outcomes).
(** One signal's outcome, if it has one now. *)
Definition outcome_now (now session_close : datetime) (s : Signal) : result (option SignalOutcome) :=
  match mk_minute_bars (sg_ticker s) (sg_generated_at s) (Z.min now session_close) with
  | Err e => if is_scanner_error e then Ok None else Err e
  | Ok bars =>
      outcome ← resolve_outcome s bars;
      match outcome with
      | Some o => Ok (Some o)
      | None =>
          if session_close <=? now then
            o ← expire_at_close s (match last bars with Some b => mb_close b | None => sg_entry_price s end) session_close;
            Ok (Some o)
          else Ok None
      end
  end.
Fixpoint resolve_signals (now session_close : datetime) (signals : list Signal) (resolved : list (string * SignalOutcome))
    : result (list (string * SignalOutcome)) :=
  match signals with
  | [] => Ok resolved
  | s :: signals =>
      match assoc (sg_ticker s) resolved with
      | Some _ => resolve_signals now session_close signals resolved
      | None =>
          outcome ← outcome_now now session_close s;
          resolve_signals now session_close signals
            match outcome with Some o => dict_set (sg_ticker s) o resolved | None => resolved end
      end
  end.
(** [_run_check_outcomes] after the credentials: the exit code and the
    scorecard over every day. *)
Definition _run_check_outcomes (trading_date : date) (session_close now : datetime) : eff ScanFiles (Z + Scorecard) :=
  files ← gets id;
  let day := date_iso trading_date in
  match sf_signals files !! day with
  | None => mret (inl 4)
  | Some (_, signals) =>
      resolved ← lift (resolve_signals now session_close signals (carried signals (default [] (sf_outcomes files !! day))));
      modify (λ f, {| sf_candidates := sf_candidates f; sf_signals := sf_signals f;
        sf_outcomes := <[day := map snd resolved]> (sf_outcomes f) |}) ;;
      files ← gets id;
      card ← lift (build_scorecard (concat (map snd (sorted_by Canonical.key_le (map_to_list (sf_outcomes files))))));
      mret (inr card)
  end.
End cli.
