(* ===== verification/ScannerContract.v ===== *)
(** * ScannerContract: what the mechanical scanner promises

    A signal is its candidate's price with a stop one ATR below and targets two
    and three above; its ATR is the feature engine's; an outcome is the first
    touch of the bars in order of time; an outcome on file is never rewritten
    while its ticker keeps a signal. *)
From Stdlib Require Import Ascii String QArith Qabs Lqa.
From S2P Require Import Prelude Numerics PyStr PyTime Contracts Canonical RiskModels Amounts OrchModels FeatureModels FeatureCore AnalyticsModels PaperAcceptance Scanner.

#[local] Open Scope Z_scope.

(** ** Money *)

Lemma Money_amt a : Money_ok a = true ↔ ∃ k, amt (k * 10 ^ 4) a ∧ 0 < k < 10 ^ 18.
Proof.
  unfold Money_ok. rewrite andb_true_iff.
  pose proof (fixed_digits (-6) (10 ^ 18) a) as Hf. change (expo a - -6) with (expo a + 6) in Hf. rewrite Hf. clear Hf.
  assert (∀ k, (dval a == inject_Z k * bp10 (-6))%Q ↔ amt (k * 10 ^ 4) a) as Hk.
  { intros k. unfold amt, quantum. rewrite inject_Z_mult, <- Qmult_assoc, <- (bp10_nonneg 4), <- bp10_add by lia. done. }
  setoid_rewrite Hk. unfold positive_dec. split.
  - intros [(k & Ha & Hb) Hp]. exists k. rewrite (amt_ltb 0 _ _ _ amt_zero Ha) in Hp. bool_to_prop. split; [done|lia].
  - intros (k & Ha & Hb). split; [exists k; split; [done|lia]|].
    rewrite (amt_ltb 0 _ _ _ amt_zero Ha). apply Z.ltb_lt. lia.
Qed.

(** ** Signals *)

(** A signal's prices: 0 < stop < entry < target 1 < target 2, at one, two and
    three times the ATR, exactly. *)
Record signal_shape (s : Signal) : Prop := {
  sh_stop : (dval (sg_stop_price s) == dval (sg_entry_price s) - dval (sg_atr_value s))%Q;
  sh_target_1 : (dval (sg_target_price_1 s) == dval (sg_entry_price s) + 2 * dval (sg_atr_value s))%Q;
  sh_target_2 : (dval (sg_target_price_2 s) == dval (sg_entry_price s) + 3 * dval (sg_atr_value s))%Q;
  sh_positive : (0 < dval (sg_stop_price s))%Q;
  sh_below : (dval (sg_stop_price s) < dval (sg_entry_price s))%Q;
  sh_above : (dval (sg_entry_price s) < dval (sg_target_price_1 s))%Q;
  sh_farther : (dval (sg_target_price_1 s) < dval (sg_target_price_2 s))%Q;
}.

Lemma forallb_cons_true {A} (f : A → bool) x l : forallb f (x :: l) = true ↔ f x = true ∧ forallb f l = true.
Proof. simpl. apply andb_true_iff. Qed.

Lemma signal_of_shape c atr d now trends :
  Signal_ok (signal_of c atr d now trends) = true → signal_shape (signal_of c atr d now trends).
Proof.
  unfold Signal_ok. cbn [signal_of sg_ticker sg_entry_price sg_atr_value sg_stop_price sg_target_price_1 sg_target_price_2].
  rewrite andb_true_iff, !forallb_cons_true. intros (_ & Hp & Ha & Hs & _).
  apply Money_amt in Hp as (p & Hp & Hpb). apply Money_amt in Ha as (k & Ha & Hkb).
  apply Money_amt in Hs as (t & Hs & Htb).
  assert (amt (p * 10 ^ 4 - k * 10 ^ 4) (cq_price c - atr)%dec) as Hsub by (apply amt_sub; [done..|lia]).
  assert (amt (k * 10 ^ 4 * 2) (atr * dec.of_Z 2)%dec) as H2 by (apply amt_mul_Z; [done|lia]).
  assert (amt (k * 10 ^ 4 * 3) (atr * dec.of_Z 3)%dec) as H3 by (apply amt_mul_Z; [done|lia]).
  assert (amt (p * 10 ^ 4 + k * 10 ^ 4 * 2) (cq_price c + atr * dec.of_Z 2)%dec) as Ht1 by (apply amt_add; [done..|lia]).
  assert (amt (p * 10 ^ 4 + k * 10 ^ 4 * 3) (cq_price c + atr * dec.of_Z 3)%dec) as Ht2 by (apply amt_add; [done..|lia]).
  pose proof (amt_inj _ _ _ Hsub Hs) as E.
  split; cbn [signal_of sg_entry_price sg_atr_value sg_stop_price sg_target_price_1 sg_target_price_2].
  - unfold amt in Hp, Ha, Hsub, Ht1, Ht2. rewrite Hsub, Hp, Ha. unfold Z.sub. rewrite inject_Z_plus, inject_Z_opp.
    generalize (inject_Z (p * 10 ^ 4)) (inject_Z (k * 10 ^ 4)) quantum. intros. ring.
  - unfold amt in Hp, Ha, Hsub, Ht1, Ht2. rewrite Ht1, Hp, Ha. rewrite inject_Z_plus, (inject_Z_mult (k * 10 ^ 4)). 
    generalize (inject_Z (p * 10 ^ 4)) (inject_Z (k * 10 ^ 4)) quantum. intros. change (inject_Z 2) with 2%Q. ring.
  - unfold amt in Hp, Ha, Hsub, Ht1, Ht2. rewrite Ht2, Hp, Ha. rewrite inject_Z_plus, (inject_Z_mult (k * 10 ^ 4)). 
    generalize (inject_Z (p * 10 ^ 4)) (inject_Z (k * 10 ^ 4)) quantum. intros. change (inject_Z 3) with 3%Q. ring.
  - apply (amt_pos _ _ Hs). lia.
  - apply (amt_lt _ _ _ _ Hsub Hp). lia.
  - apply (amt_lt _ _ _ _ Hp Ht1). lia.
  - apply (amt_lt _ _ _ _ Ht1 Ht2). lia.
Qed.

Lemma elem_of_keep_some {A} (l : list (option A)) x : x ∈ keep_some l ↔ Some x ∈ l.
Proof.
  induction l as [|[y|] l IH]; simpl.
  - by rewrite !elem_of_nil.
  - rewrite !elem_of_cons, IH. split; intros [E|E]; auto; [left; by rewrite E | left; congruence].
  - rewrite elem_of_cons, IH. split; [auto | by intros [E|E]].
Qed.

Lemma dec_leb_zero a : (a <=? dec.zero)%dec = false ↔ (0 < dval a)%Q.
Proof. rewrite dleb_false. done. Qed.

Lemma candidate_signal_Some bars d now trends c s :
  candidate_signal bars d now trends c = Ok (Some s) →
  ∃ atr, cq_qualifies c = true ∧ wilder_atr (default [] (assoc (cq_ticker c) bars)) ATR_PERIOD = Ok (Some atr) ∧
    (0 < dval atr)%Q ∧ s = signal_of c atr d now trends ∧ Signal_ok s = true.
Proof.
  unfold candidate_signal. destruct (cq_qualifies c); [|done]. cbn [negb]. intros ([atr|] & Ha & E)%bind_Ok; [|done].
  destruct (atr <=? dec.zero)%dec eqn:Ez; [done|]. destruct (Signal_ok _) eqn:Hok; [|done].
  injection E as <-. exists atr. by rewrite <- dec_leb_zero.
Qed.
Lemma candidate_signal_None bars d now trends c :
  candidate_signal bars d now trends c = Ok None →
  ∀ atr, cq_qualifies c = true → wilder_atr (default [] (assoc (cq_ticker c) bars)) ATR_PERIOD = Ok (Some atr) →
  ¬ (0 < dval atr)%Q.
Proof.
  unfold candidate_signal. intros E atr Hq Ha. rewrite Hq, Ha in E. cbn [negb mbind result_bind] in E.
  rewrite <- dec_leb_zero. destruct (atr <=? dec.zero)%dec; [done|]. by destruct (Signal_ok _).
Qed.

(** Signals that are built are exactly those of the qualifying candidates
    whose ATR is known and positive; each has its candidate's ticker and price,
    and, as exact numbers, its stop one ATR below the entry and its targets two
    and three above it, all positive and in order. *)
Theorem signals_well_shaped candidates bars d now trends signals :
  build_signals candidates bars d now trends = Ok signals →
  ∀ s, s ∈ signals ↔
    ∃ c atr, c ∈ candidates ∧ cq_qualifies c = true ∧
      wilder_atr (default [] (assoc (cq_ticker c) bars)) ATR_PERIOD = Ok (Some atr) ∧ (0 < dval atr)%Q ∧
      s = signal_of c atr d now trends ∧ signal_shape s.
Proof.
  unfold build_signals. intros (l & Hl & E)%bind_Ok s. apply Ok_inj in E as <-. apply map_result_Forall2 in Hl.
  rewrite elem_of_keep_some. split.
  - intros Hs. apply list_elem_of_lookup in Hs as (i & Hi). destruct (Forall2_lookup_r _ _ _ _ _ Hl Hi) as (c & Hc & E).
    apply candidate_signal_Some in E as (atr & Hq & Ha & Hp & -> & Hok). apply list_elem_of_lookup_2 in Hc.
    exists c, atr. split_and!; try done. by apply signal_of_shape.
  - intros (c & atr & Hc & Hq & Ha & Hp & -> & Hsh). apply list_elem_of_lookup in Hc as (i & Hi).
    destruct (Forall2_lookup_l _ _ _ _ _ Hl Hi) as (o & Ho & E). apply list_elem_of_lookup_2 in Ho.
    destruct o as [s|]; [apply candidate_signal_Some in E as (atr' & _ & Ha' & _ & -> & _); congruence|].
    by destruct (candidate_signal_None _ _ _ _ _ E atr Hq Ha).
Qed.

(** ** The ATR is the feature engine's *)

Lemma ranges_agree bars : ranges_of bars = true_ranges bars.
Proof.
  unfold ranges_of. induction bars as [|b [|b' bars] IH]; [done..|].
  cbn [tail zip zip_with map true_ranges]. f_equal. exact IH.
Qed.
Lemma smoothed_agrees atr l : smoothed 14 atr l = smooth atr l.
Proof.
  revert atr. induction l as [|r l IH]; intros atr; [done|]. cbn [smoothed smooth]. change (14 - 1) with 13.
  destruct (dec.div _ _); [apply IH | done].
Qed.
Lemma quantize_nonpositive a e r :
  dec.quantize a e RHalfEven = Ok r → (dval a <= 0)%Q → (dval r <= 0)%Q.
Proof.
  unfold dec.quantize. case_match; [done|]. intros <-%Ok_inj Ha.
  unfold dec.rescale. destruct (Z.leb_spec e (expo a)) as [He|He].
  - change (dval (Dec (dec.align a e) e)) with (inject_Z (dec.align a e) * bp10 e)%Q. by rewrite dval_align.
  - assert (coef a <= 0) as Hc.
    { pose proof (bp10_pos (expo a)). destruct (Z.le_gt_cases (coef a) 0) as [|Hp]; [done|].
      assert (0 < inject_Z (coef a))%Q by (change 0%Q with (inject_Z 0); by rewrite <- Zlt_Qlt). unfold dval in Ha. nra. }
    cbn [round_div]. pose proof (Z.pow_pos_nonneg 10 (e - expo a)) as Hd. set (d := 10 ^ (e - expo a)) in *.
    assert (div_half_even (coef a) d <= 0) as Hq.
    { unfold div_half_even. cbv zeta. assert (coef a / d <= 0) by (apply Z.div_le_upper_bound; lia).
      pose proof (Z.div_mod (coef a) d). pose proof (Z.mod_pos_bound (coef a) d). repeat case_match; bool_to_prop; nia. }
    pose proof (bp10_pos e). unfold dval. cbn [coef expo].
    assert (inject_Z (div_half_even (coef a) d) <= 0)%Q by (change 0%Q with (inject_Z 0); by rewrite <- Zle_Qle). nra.
Qed.

(** C39: For any daily bars, in any order, the scanner's ATR is a positive number
    [atr] exactly when the feature engine's Wilder ATR of the bars in order of
    session is that number. *)
Theorem atr_matches_feature_engine bars atr :
  (0 < dval atr)%Q →
  wilder_atr bars ATR_PERIOD = Ok (Some atr) ↔ wilder_atr_14 (by_session bars) = Ok atr.
Proof.
  intros Hp. unfold wilder_atr, wilder_atr_14, ATR_PERIOD, six. cbv zeta. change (14 + 1) with 15.
  destruct (len (by_session bars) <? 15); [done|]. rewrite ranges_agree. change (Z.to_nat 14) with 14%nat.
  destruct (dec.div (dec.sum (take 14 (true_ranges (by_session bars)))) (dec.of_Z 14)) as [initial|]; [|done].
  cbn [mbind result_bind]. rewrite smoothed_agrees. destruct (smooth initial _) as [x|]; [|done]. cbn [mbind result_bind].
  destruct (dec.quantize x (-6) RHalfEven) as [r|] eqn:Eq.
  - destruct (x <=? dec.zero)%dec eqn:Ez; [|cbn [mbind result_bind]; naive_solver]. split; [|done].
    cbn [mbind result_bind]. intros [= ->]. apply dleb_spec in Ez. change (dval dec.zero) with 0%Q in Ez.
    pose proof (quantize_nonpositive _ _ _ Eq Ez). lra.
  - split; [done|]. by destruct (x <=? dec.zero)%dec.
Qed.

(** ** Qualification *)

Lemma note_empty c e : note c e = [] ↔ c = false.
Proof. by destruct c. Qed.

(** A scanned mover qualifies exactly when its gap, its volume and, when there
    is a baseline, its relative volume reach the policy's; otherwise it carries
    a reason. *)
Lemma qualified_exactly p volumes averages m c :
  qualify_one p volumes averages m = Ok c →
  cq_ticker c = mm_ticker m ∧ cq_price c = mm_price m ∧
  (cq_qualifies c = true ↔ cq_disqualification_reasons c = []) ∧
  (cq_qualifies c = true ↔
     (dval (sy_gap_min_pct p) <= dval (mm_percent_change m))%Q ∧
     (∃ v, assoc (mm_ticker m) volumes = Some v ∧ sy_premarket_volume_min p <= v) ∧
     ∀ x, cq_relative_volume c = Some x → (dval (sy_rvol_min p) <= dval x)%Q).
Proof.
  unfold qualify_one. intros (rvol & Hr & E)%bind_Ok. revert E. cbv zeta. case_match; [|done]. intros <-%Ok_inj.
  cbn [cq_ticker cq_price cq_qualifies cq_disqualification_reasons cq_relative_volume].
  set (reasons := gap_reasons p m ++ _).
  assert (negb (nonempty reasons) = true ↔ reasons = []) as Hn by by destruct reasons.
  split; [done|]. split; [done|]. split; [exact Hn|]. rewrite Hn. unfold reasons, gap_reasons.
  rewrite !app_nil, note_empty, dltb_false. clear Hr Hn. split.
  - intros (Hg & Hv & Hx). split; [done|]. destruct (assoc (mm_ticker m) volumes) as [v|]; [|done].
    split; [exists v; split; [done|]; apply note_empty in Hv; bool_to_prop; done|].
    intros x ->. apply note_empty in Hx. by apply dltb_false.
  - intros (Hg & (v & -> & Hv) & Hx). split; [done|]. split; [apply note_empty; by apply Z.ltb_ge|].
    destruct rvol as [x|]; [|done]. apply note_empty, dltb_false. by apply Hx.
Qed.

(** The qualifying tickers are the candidates that qualify, the best gap first,
    up to the limit. *)
Lemma qualifying_limited candidates n :
  0 <= n → (length (qualifying_tickers candidates (Some n)) <= Z.to_nat n)%nat.
Proof.
  intros Hn. unfold qualifying_tickers, py_slice, slice_index. rewrite length_map, length_take, length_drop.
  change (0 <? 0) with false. rewrite (proj2 (Z.ltb_ge n 0)) by done. lia.
Qed.

(** ** Outcomes *)

(** What a bar does to a signal: the worse case first. *)
Definition touch (s : Signal) (b : MinuteBar) : option (Outcome * option TargetHit * decimal) :=
  if (mb_low b <=? sg_stop_price s)%dec then Some (OC_LOSS, None, sg_stop_price s)
  else if (sg_target_price_2 s <=? mb_high b)%dec then Some (OC_WIN, Some TH_TARGET_2, sg_target_price_2 s)
  else if (sg_target_price_1 s <=? mb_high b)%dec then Some (OC_WIN, Some TH_TARGET_1, sg_target_price_1 s)
  else None.

Lemma Money_coef a : Money_ok a = true → coef a ≠ 0.
Proof. intros (k & Ha & Hk)%Money_amt. pose proof (amt_coef_pos _ _ Ha). lia. Qed.

(** An outcome at a valid price is always built. *)
Lemma outcome_built s t o h x :
  Signal_ok s = true → Money_ok x = true →
  ∃ r, outcome_at s t o h x = Ok r ∧ so_ticker r = sg_ticker s ∧ so_resolved_at r = t ∧ so_outcome r = o ∧
    so_target_hit r = h ∧ so_exit_price r = x.
Proof.
  intros [Ht Hm]%andb_true_iff Hx. apply forallb_cons_true in Hm as [He _]. unfold outcome_at, _return_pct.
  destruct (dec_div_ok (x - sg_entry_price s)%dec (sg_entry_price s)) as (q & ->); [by apply Money_coef|].
  cbn [mbind result_bind]. cbv zeta. unfold SignalOutcome_ok. cbn [so_ticker so_exit_price]. rewrite Ht, Hx. cbn [andb].
  eexists. split; [reflexivity|]. done.
Qed.
Lemma touch_price s b o h x : Signal_ok s = true → touch s b = Some (o, h, x) → Money_ok x = true.
Proof.
  intros [_ Hm]%andb_true_iff. rewrite !forallb_cons_true in Hm. destruct Hm as (_ & _ & Hs & H1 & H2 & _).
  unfold touch. repeat case_match; naive_solver.
Qed.

(** The walk stops at the first bar that touches. *)
Lemma walk_spec s bars :
  Signal_ok s = true →
  (∃ before b after o h x r, bars = before ++ b :: after ∧ Forall (λ b, touch s b = None) before ∧
     touch s b = Some (o, h, x) ∧ outcome_at s (mb_timestamp b) o h x = Ok r ∧ walk s bars = Ok (Some r)) ∨
  (Forall (λ b, touch s b = None) bars ∧ walk s bars = Ok None).
Proof.
  intros Hok. induction bars as [|b bars IH]; [by right|].
  destruct (touch s b) as [[[o h] x]|] eqn:Et.
  - left. destruct (outcome_built s (mb_timestamp b) o h x Hok (touch_price _ _ _ _ _ Hok Et)) as (r & Hr & _).
    exists [], b, bars, o, h, x, r. split_and!; try done. cbn [walk]. unfold touch in Et.
    repeat case_match; simplify_eq; by rewrite Hr.
  - assert (walk s (b :: bars) = walk s bars) as Ew.
    { cbn [walk]. unfold touch in Et. by repeat case_match. }
    destruct IH as [(before & b' & after & o & h & x & r & -> & Hb & Ht & Hr & Hw)|[Hn Hw]].
    + left. exists (b :: before), b', after, o, h, x, r. rewrite Ew. split_and!; try done. by constructor.
    + right. rewrite Ew. by split; [constructor|].
Qed.

(** C40: Resolving a valid signal always returns.  It gives an outcome exactly
    when some bar touches, and then it is that of the first such bar in order
    of time: a loss at the stop when the bar reaches the stop, whatever else it
    reaches, otherwise a win at the farthest target it reaches; no earlier bar
    touched, and a loss exits below the entry, a win above it. *)
Theorem outcome_first_touch s bars :
  Signal_ok s = true → signal_shape s →
  ∃ res, resolve_outcome s bars = Ok res ∧
    match res with
    | None => ∀ b, b ∈ bars → touch s b = None
    | Some r =>
        ∃ before b after o h x, Permutation bars (before ++ b :: after) ∧
          Sorted (λ a b, bar_le a b = true) (before ++ b :: after) ∧
          (∀ b', b' ∈ before → touch s b' = None) ∧ touch s b = Some (o, h, x) ∧
          so_resolved_at r = mb_timestamp b ∧ so_outcome r = o ∧ so_target_hit r = h ∧ so_exit_price r = x ∧
          (o = OC_LOSS ∧ (dval x < dval (sg_entry_price s))%Q ∨ o = OC_WIN ∧ (dval (sg_entry_price s) < dval x)%Q)
    end.
Proof.
  intros Hok [_ _ _ _ Hb Ha Hf]. unfold resolve_outcome.
  destruct (walk_spec s (sorted_by bar_le bars) Hok) as [(before & b & after & o & h & x & r & E & Hn & Ht & Hr & Hw)|[Hn Hw]].
  - exists (Some r). split; [done|]. exists before, b, after, o, h, x.
    destruct (outcome_built s (mb_timestamp b) o h x Hok (touch_price _ _ _ _ _ Hok Ht)) as (r' & Hr' & _ & F1 & F2 & F3 & F4).
    rewrite Hr in Hr'. injection Hr' as <-. split_and!; try done.
    + rewrite <- E. symmetry. apply sorted_by_perm.
    + rewrite <- E. apply sorted_by_sorted. intros a c. unfold bar_le. rewrite !Z.leb_le. lia.
    + intros b' Hb'. by apply (proj1 (Forall_forall _ _) Hn).
    + clear F1 F2 F3 F4. unfold touch in Ht. repeat case_match; simplify_eq; [left | right | right]; (split; [done|]); lra.
  - exists None. split; [done|]. intros b Hb'. apply (proj1 (Forall_forall _ _) Hn). by apply elem_of_sorted_by.
Qed.

(** ** Outcomes on file *)

Lemma assoc_dict_set {A} k k' (v : A) d : assoc k (dict_set k' v d) = if decide (k = k') then Some v else assoc k d.
Proof.
  unfold assoc. induction d as [|[k0 v0] d IH]; cbn [dict_set find fst].
  - destruct (String.eqb_spec k' k) as [->|Hn]; [by rewrite decide_True | by rewrite decide_False].
  - destruct (String.eqb_spec k0 k') as [->|Hn]; cbn [find fst].
    + destruct (String.eqb_spec k' k) as [->|Hk]; [by rewrite decide_True | by rewrite decide_False].
    + destruct (String.eqb_spec k0 k) as [->|Hk]; [by rewrite decide_False | exact IH].
Qed.

(** A dict of outcomes by ticker. *)
Record outcome_dict (d : list (string * SignalOutcome)) : Prop := {
  od_keys : NoDup (map fst d);
  od_tickers : ∀ k o, (k, o) ∈ d → so_ticker o = k;
}.
Lemma assoc_in {A} k (v : A) d : NoDup (map fst d) → assoc k d = Some v ↔ (k, v) ∈ d.
Proof.
  unfold assoc. induction d as [|[k0 v0] d IH]; cbn [map find fst snd]; [by rewrite elem_of_nil|].
  intros [Hn Hd]%NoDup_cons. rewrite elem_of_cons. destruct (String.eqb_spec k0 k) as [->|Hk]; cbn [fmap option_fmap option_map snd].
  - split; [intros [= ->]; by left | intros [[= ->]|Hin]; [done|]]. destruct Hn. by apply (list_elem_of_fmap_2 fst _ (k, v)).
  - rewrite (IH Hd). naive_solver.
Qed.
Lemma dict_set_keys {A} k (v : A) d x : x ∈ map fst (dict_set k v d) ↔ x = k ∨ x ∈ map fst d.
Proof.
  induction d as [|[k0 v0] d IH]; cbn [dict_set map fst]; [set_solver|].
  destruct (String.eqb_spec k0 k) as [->|Hk]; cbn [map fst]; rewrite ?elem_of_cons, ?IH; set_solver.
Qed.
Lemma dict_set_wf k o d : so_ticker o = k → outcome_dict d → outcome_dict (dict_set k o d).
Proof.
  intros Ho [Hd Ht]. assert (NoDup (map fst (dict_set k o d))) as Hnd.
  { clear Ht. induction d as [|[k0 v0] d IH]; cbn [dict_set map fst] in *; [repeat constructor; set_solver|].
    apply NoDup_cons in Hd as [Hn Hd]. destruct (String.eqb_spec k0 k) as [->|Hk]; cbn [map fst]; constructor; try done.
    - rewrite dict_set_keys. intros [->|]; done.
    - by apply IH. }
  split; [done|]. intros k' o' Hin%assoc_in; [|done]. rewrite assoc_dict_set in Hin. case_decide; [congruence|].
  by apply Ht, assoc_in.
Qed.
Lemma dict_set_fresh {A} k (v : A) d : k ∉ map fst d → dict_set k v d = d ++ [(k, v)].
Proof.
  induction d as [|[k0 v0] d IH]; [done|]. cbn [dict_set map fst app]. rewrite elem_of_cons. intros Hn.
  destruct (String.eqb_spec k0 k) as [->|Hk]; [tauto|]. by rewrite IH by tauto.
Qed.
Lemma carried_unique signals l :
  NoDup (map so_ticker l) →
  carried signals l = map (λ o, (so_ticker o, o)) (filter (λ o, existsb (λ s, String.eqb (sg_ticker s) (so_ticker o)) signals = true) l).
Proof.
  intros Hl. unfold carried.
  pose proof (NoDup_map_filter so_ticker (λ o, existsb (λ s, String.eqb (sg_ticker s) (so_ticker o)) signals = true) l Hl) as Hn.
  revert Hn. generalize (filter (λ o, existsb (λ s, String.eqb (sg_ticker s) (so_ticker o)) signals = true) l).
  clear. intros l Hl. change (map (λ o, (so_ticker o, o)) l) with ([] ++ map (λ o, (so_ticker o, o)) l).
  assert (∀ o, o ∈ l → so_ticker o ∉ map fst ([] : list (string * SignalOutcome))) as Hd by (intros; simpl; set_solver).
  revert Hd. generalize ([] : list (string * SignalOutcome)). induction l as [|o l IH]; intros d Hd; [by rewrite app_nil_r|].
  apply NoDup_cons in Hl as [Hn Hl]. cbn [foldl map]. rewrite dict_set_fresh by (apply Hd; by left).
  rewrite IH; [by rewrite <- app_assoc | done|]. intros o' Ho'. rewrite map_app, elem_of_app. intros [Hin|Hin].
  - by apply (Hd o'); [right|].
  - cbn [map fst] in Hin. apply list_elem_of_singleton in Hin. apply Hn. rewrite <- Hin. by apply list_elem_of_fmap_2.
Qed.

Section outcomes.
Context `{Market}.

(** A run of the resolution keeps what is resolved, and what it adds is the
    outcome of the ticker's first signal without one. *)
Lemma resolve_keeps now session_close signals resolved resolved' :
  resolve_signals now session_close signals resolved = Ok resolved' →
  (∀ k o, assoc k resolved = Some o → assoc k resolved' = Some o) ∧
  (∀ k o, assoc k resolved' = Some o → assoc k resolved = Some o ∨
     ∃ s, s ∈ signals ∧ sg_ticker s = k ∧ outcome_now now session_close s = Ok (Some o)).
Proof.
  revert resolved. induction signals as [|s signals IH]; intros resolved; cbn [resolve_signals].
  { intros <-%Ok_inj. split; [done | by left]. }
  destruct (assoc (sg_ticker s) resolved) as [o0|] eqn:Es.
  { intros [H1 H2]%IH. split; [done|]. intros k o Hk. destruct (H2 k o Hk) as [|(s' & ? & ? & ?)]; [by left | right].
    exists s'. split; [by right | done]. }
  intros ([o|] & Ho & [H1 H2]%IH)%bind_Ok.
  - split.
    + intros k o' Hk. apply H1. rewrite assoc_dict_set. case_decide; [congruence | done].
    + intros k o' Hk. destruct (H2 k o' Hk) as [Hd|(s' & ? & ? & ?)].
      * rewrite assoc_dict_set in Hd. case_decide as Ek; [right | by left]. injection Hd as ->.
        exists s. split; [by left | done].
      * right. exists s'. split; [by right | done].
  - split; [done|]. intros k o' Hk. destruct (H2 k o' Hk) as [|(s' & ? & ? & ?)]; [by left | right].
    exists s'. split; [by right | done].
Qed.
Lemma outcome_ticker now session_close s o : outcome_now now session_close s = Ok (Some o) → so_ticker o = sg_ticker s.
Proof.
  assert (∀ t k h x r, outcome_at s t k h x = Ok r → so_ticker r = sg_ticker s) as Hat.
  { unfold outcome_at. intros t k h x r (q & _ & E)%bind_Ok. revert E. cbv zeta. case_match; [|done]. by intros <-%Ok_inj. }
  unfold outcome_now. case_match; [|by case_match]. intros ([r|] & Hr & E)%bind_Ok.
  - injection E as ->. unfold resolve_outcome in Hr. induction (sorted_by bar_le a) as [|b l IH]; cbn [walk] in Hr; [done|].
    repeat case_match; try (apply bind_Ok in Hr as (x & Hx & E); injection E as <-; by eapply Hat). by apply IH.
  - case_match; [|done]. apply bind_Ok in E as (x & Hx & E). injection E as <-. by eapply Hat.
Qed.
Lemma resolve_wf now session_close signals resolved resolved' :
  resolve_signals now session_close signals resolved = Ok resolved' → outcome_dict resolved → outcome_dict resolved'.
Proof.
  revert resolved. induction signals as [|s signals IH]; intros resolved; cbn [resolve_signals]; [by intros <-%Ok_inj|].
  destruct (assoc _ _); [by apply IH|]. intros ([o|] & Ho & E)%bind_Ok Hd; eapply IH; try done.
  apply dict_set_wf; [by eapply outcome_ticker | done].
Qed.

(** One outcome per ticker and day. *)
Definition outcomes_unique (f : ScanFiles) : Prop := ∀ day l, sf_outcomes f !! day = Some l → NoDup (map so_ticker l).

(** A check of the outcomes of a day keeps one outcome per ticker; it
    rewrites no outcome on file whose ticker still has a signal, and what it
    adds is the outcome its ticker's signal has now, from the bars since the
    signal or at the close; no other file changes. *)
Theorem check_outcomes_keeps trading_date session_close now f f' card t signals :
  outcomes_unique f → sf_signals f !! date_iso trading_date = Some (t, signals) →
  _run_check_outcomes trading_date session_close now f = (Ok card, f') →
  outcomes_unique f' ∧ sf_signals f' = sf_signals f ∧ sf_candidates f' = sf_candidates f ∧
  delete (date_iso trading_date) (sf_outcomes f') = delete (date_iso trading_date) (sf_outcomes f) ∧
  let before := default [] (sf_outcomes f !! date_iso trading_date) in
  ∃ after, sf_outcomes f' !! date_iso trading_date = Some after ∧
    (∀ o, o ∈ before → (∃ s, s ∈ signals ∧ sg_ticker s = so_ticker o) → o ∈ after) ∧
    (∀ o, o ∈ after → o ∈ before ∨
       ∃ s, s ∈ signals ∧ sg_ticker s = so_ticker o ∧ outcome_now now session_close s = Ok (Some o)).
Proof.
  intros Hu Hs. unfold _run_check_outcomes. rewrite eff_bind_unfold. cbn [gets]. unfold id at 1. rewrite Hs. cbv zeta.
  set (day := date_iso trading_date) in *. set (before := default [] (sf_outcomes f !! day)).
  intros (resolved & f1 & [Hr ->]%lift_Ok & E)%eff_bind_Ok. apply eff_bind_Ok in E as ([] & f2 & Hm & E).
  apply (f_equal snd) in Hm. cbn [modify snd] in Hm. subst f2. apply eff_bind_Ok in E as (f3 & f4 & Hg & E). injection Hg as <- <-.
  apply eff_bind_Ok in E as (c & f5 & [_ ->]%lift_Ok & E). injection E as _ <-.
  assert (NoDup (map so_ticker before)) as Hb.
  { unfold before. destruct (sf_outcomes f !! day) as [l|] eqn:El; [by eapply Hu | constructor]. }
  assert (outcome_dict (carried signals before)) as Hc.
  { rewrite carried_unique by done. split.
    - rewrite map_map. cbn [fst]. by apply NoDup_map_filter.
    - intros k o (o' & [= -> ->] & _)%list_elem_of_fmap. done. }
  pose proof (resolve_wf _ _ _ _ _ Hr Hc) as Hw. destruct (resolve_keeps _ _ _ _ _ Hr) as [Hk Ha].
  assert (∀ o, o ∈ map snd resolved ↔ assoc (so_ticker o) resolved = Some o) as Hin.
  { intros o. destruct Hw as [Hn Ht]. rewrite assoc_in by done. rewrite list_elem_of_fmap. split.
    - intros ([k o'] & -> & Hko). cbn [snd] in *. by rewrite (Ht _ _ Hko).
    - intros Hko. by exists (so_ticker o, o). }
  assert (∀ o, assoc (so_ticker o) (carried signals before) = Some o ↔
    o ∈ before ∧ ∃ s, s ∈ signals ∧ sg_ticker s = so_ticker o) as Hcar.
  { intros o. rewrite assoc_in by apply Hc. rewrite carried_unique by done. rewrite list_elem_of_fmap.
    setoid_rewrite list_elem_of_filter. setoid_rewrite existsb_exists. setoid_rewrite <- list_elem_of_In.
    setoid_rewrite String.eqb_eq. naive_solver. }
  cbn [sf_signals sf_candidates sf_outcomes]. split_and!; try done.
  - intros day' l. cbn [sf_outcomes]. rewrite lookup_insert. case_decide as Ed; [intros [= <-] | apply Hu].
    destruct Hw as [Hn Ht]. replace (map so_ticker (map snd resolved)) with (map fst resolved); [done|].
    rewrite map_map. apply map_ext_in. intros [k o] Hko%list_elem_of_In. symmetry. by apply Ht.
  - by rewrite delete_insert_eq.
  - exists (map snd resolved). rewrite lookup_insert_eq. split; [done|]. split.
    + intros o Ho Hsg. by apply Hin, Hk, Hcar.
    + intros o [Ho|(s & ? & ? & ?)]%Hin%Ha; [left; by apply Hcar in Ho as [Ho _] | right; by exists s].
Qed.
End outcomes.

(** ** Findings and witnesses *)

(** A qualifying candidate whose ATR is not below its price makes the whole
    batch fail: its stop is no price, and the ValidationError is not caught. *)
Lemma atr_above_price_fails candidates bars d now trends c atr :
  c ∈ candidates → cq_qualifies c = true → Money_ok (cq_price c) = true →
  wilder_atr (default [] (assoc (cq_ticker c) bars)) ATR_PERIOD = Ok (Some atr) →
  (dval (cq_price c) <= dval atr)%Q →
  is_ok (build_signals candidates bars d now trends) = false.
Proof.
  intros Hc Hq Hm Ha Hle. destruct (build_signals candidates bars d now trends) as [signals|] eqn:E; [exfalso|done].
  unfold build_signals in E. apply bind_Ok in E as (l & Hl & _). apply map_result_Forall2 in Hl.
  apply list_elem_of_lookup in Hc as (i & Hi). destruct (Forall2_lookup_l _ _ _ _ _ Hl Hi) as ([s|] & _ & Es).
  - apply candidate_signal_Some in Es as (atr' & _ & Ha' & _ & -> & Hok). assert (atr' = atr) as -> by congruence.
    destruct (signal_of_shape _ _ _ _ _ Hok) as [Hs _ _ Hp _ _ _].
    cbn [signal_of sg_stop_price sg_entry_price sg_atr_value] in *. lra.
  - apply (candidate_signal_None _ _ _ _ _ Es atr Hq Ha). apply Money_amt in Hm as (p & Hp & Hpb).
    pose proof (amt_pos _ _ Hp). assert (0 < dval (cq_price c))%Q by (apply (amt_pos _ _ Hp); lia). lra.
Qed.

Definition outcome_of (o : Outcome) (h : option TargetHit) : SignalOutcome :=
  {| so_ticker := "AAA"; so_trading_date := {| d_year := 2026; d_month := 8; d_day := 3 |}; so_resolved_at := 0;
     so_outcome := o; so_target_hit := h; so_exit_price := dec.of_Z 1; so_return_pct := dec.zero |}.
(** Two hit rates that do not add up to the win rate: 1/3 and 1/3 of 2/3. *)
Example rates_do_not_add_up :
  match build_scorecard [outcome_of OC_WIN (Some TH_TARGET_1); outcome_of OC_WIN (Some TH_TARGET_2); outcome_of OC_LOSS None] with
  | Ok card =>
      match sr_target_1_hit_rate_pct card, sr_target_2_hit_rate_pct card, sr_win_rate_pct card with
      | Some a, Some b, Some w => (a + b =? w)%dec = false
      | _, _, _ => False
      end
  | Err _ => False
  end.
Proof. vm_compute. reflexivity. Qed.

Section sample.
Definition sample_day (n : Z) : date := {| d_year := 2026; d_month := 7; d_day := n |}.
Definition sample_bar (n : Z) : DailyBar :=
  {| db_session_date := sample_day n; db_open := Dec 105 (-1); db_high := dec.of_Z 11; db_low := dec.of_Z 10;
     db_close := Dec 105 (-1); db_volume := 100000 |}.
Definition sample_bars : list DailyBar := map sample_bar [1; 2; 3; 4; 5; 6; 7; 8; 9; 10; 11; 12; 13; 14; 15].
Definition sample_mover (ticker : string) : MarketMover :=
  {| mm_ticker := ticker; mm_percent_change := dec.of_Z 9; mm_change := dec.of_Z 1; mm_price := dec.of_Z 12 |}.
(** Every gainer qualifies and has the same bars; a minute bar reaches the
    first target. *)
#[local] Instance sample_market : Market :=
  {| mk_gainers _ := Ok (map (λ n, sample_mover (String "A" (String (ascii_of_nat (65 + n)) ""))) (seq 0 21));
     mk_current_volumes l := Ok (map (λ t, (t, 600000)) l);
     mk_daily_bars l _ _ := Ok (map (λ t, (t, sample_bars)) l);
     mk_minute_bars _ _ _ := Ok [{| mb_timestamp := 60; mb_open := dec.of_Z 12; mb_high := dec.of_Z 14;
       mb_low := dec.of_Z 12; mb_close := dec.of_Z 13; mb_volume := 5 |}];
     mk_forecast _ := Ok [] |}.
Definition sample_args : ScanArgs :=
  {| sn_top := 50; sn_rvol_lookback_days := 60; sn_replace := false; sn_with_forecast := false |}.
Definition sample_scan : result (Z + (list CandidateQualification * list string * list Signal)) :=
  scan sample_args (sample_day 16) 0.

(** More signals than qualifying tickers: the limit on candidates does not
    reach the signals. *)
Example signals_not_capped :
  match sample_scan with
  | Ok (inr (candidates, qualifying, signals)) => (length qualifying, length signals) = (20%nat, 21%nat)
  | _ => False
  end.
Proof. vm_compute. reflexivity. Qed.

Definition sample_candidate : CandidateQualification :=
  {| cq_ticker := "AA"; cq_percent_change := dec.of_Z 9; cq_price := dec.of_Z 12; cq_volume := 600000;
     cq_relative_volume := Some (dec.of_Z 6); cq_qualifies := true; cq_disqualification_reasons := [] |}.
Definition sample_signal : Signal := signal_of sample_candidate (Dec 1000000 (-6)) (sample_day 16) 0 [].
Lemma sample_atr : wilder_atr sample_bars ATR_PERIOD = Ok (Some (Dec 1000000 (-6))).
Proof. vm_compute. reflexivity. Qed.
Lemma sample_signals : build_signals [sample_candidate] [("AA"%string, sample_bars)] (sample_day 16) 0 [] = Ok [sample_signal].
Proof. vm_compute. reflexivity. Qed.

Lemma signals_well_shaped_witness :
  sample_signal ∈ [sample_signal] ∧ signal_shape sample_signal.
Proof.
  assert (sample_signal ∈ [sample_signal]) as Hin by (by left). split; [exact Hin|].
  destruct (proj1 (signals_well_shaped _ _ _ _ _ _ sample_signals sample_signal) Hin) as (c & atr & _ & _ & _ & _ & _ & Hs).
  exact Hs.
Defined.
Lemma atr_matches_feature_engine_witness :
  (0 < dval (Dec 1000000 (-6)))%Q ∧ wilder_atr_14 (by_session sample_bars) = Ok (Dec 1000000 (-6)).
Proof.
  assert (0 < dval (Dec 1000000 (-6)))%Q as Hp by reflexivity. split; [exact Hp|].
  exact (proj1 (atr_matches_feature_engine sample_bars (Dec 1000000 (-6)) Hp) sample_atr).
Defined.
Lemma outcome_first_touch_witness :
  Signal_ok sample_signal = true ∧ ∃ r, resolve_outcome sample_signal
    [{| mb_timestamp := 60; mb_open := dec.of_Z 12; mb_high := dec.of_Z 14; mb_low := dec.of_Z 12;
        mb_close := dec.of_Z 13; mb_volume := 5 |}] = Ok (Some r).
Proof.
  assert (Signal_ok sample_signal = true) as Hok by (vm_compute; reflexivity). split; [exact Hok|].
  destruct (outcome_first_touch sample_signal [{| mb_timestamp := 60; mb_open := dec.of_Z 12; mb_high := dec.of_Z 14;
    mb_low := dec.of_Z 12; mb_close := dec.of_Z 13; mb_volume := 5 |}] Hok (signal_of_shape _ _ _ _ _ Hok)) as ([r|] & Hr & H).
  - exists r. exact Hr.
  - exfalso. specialize (H _ (list_elem_of_here _ _)). vm_compute in H. discriminate H.
Defined.

Definition sample_files : ScanFiles :=
  {| sf_candidates := ∅; sf_signals := {[date_iso (sample_day 16) := (0, [sample_signal])]}; sf_outcomes := ∅ |}.
Lemma sample_check_runs : is_ok (_run_check_outcomes (sample_day 16) 1000 500 sample_files).1 = true.
Proof. vm_compute. reflexivity. Qed.
Lemma check_outcomes_keeps_witness :
  outcomes_unique sample_files ∧ outcomes_unique (_run_check_outcomes (sample_day 16) 1000 500 sample_files).2.
Proof.
  assert (outcomes_unique sample_files) as Hu by (intros day l E; discriminate E). split; [exact Hu|].
  pose proof sample_check_runs as Hok.
  destruct (_run_check_outcomes (sample_day 16) 1000 500 sample_files) as [[card|e] f'] eqn:E; [|discriminate Hok].
  exact (proj1 (check_outcomes_keeps (sample_day 16) 1000 500 sample_files f' card 0 [sample_signal] Hu eq_refl E)).
Defined.
End sample.
