(* ===== verification/DecimalText.v ===== *)
(** * DecimalText: [Decimal] reads back what [format(d, 'f')] writes

    The round trip between decimal_f of Canonical.v and parse_decimal of
    OrchEnv.v, on which every price and quantity sent to the broker and read
    back depends. *)
From Stdlib Require Import Ascii String QArith.
From S2P Require Import Prelude Numerics PyStr PyTime Contracts Canonical RiskModels ExecModels OrchModels OrchEnv.

#[local] Open Scope Z_scope.

Abbreviation text_of := list_ascii_of_string.
Abbreviation digits := (forallb PyStr.is_digit).

(** ** Texts as lists of characters *)

Lemma text_of_app a b : text_of (a +:+ b) = text_of a ++ text_of b.
Proof. induction a as [|c a IH]; [done|]. simpl. by rewrite IH. Qed.

Lemma text_of_substring n k s : text_of (String.substring n k s) = take k (drop n (text_of s)).
Proof.
  revert n k. induction s as [|c s IH]; intros n k.
  - by destruct n, k.
  - destruct n as [|n], k as [|k]; simpl; rewrite ?IH; try done; by destruct s.
Qed.

Lemma length_text_of s : length (text_of s) = String.length s.
Proof. induction s as [|c s IH]; [done|]. simpl. by rewrite IH. Qed.

Lemma text_of_zeros n : text_of (zeros n) = replicate n "0"%char.
Proof. induction n as [|n IH]; [done|]. simpl. by rewrite IH. Qed.

(** ** Digits *)

Lemma span_digits_app a b :
  digits a = true → match b with c :: _ => PyStr.is_digit c = false | [] => True end →
  span_digits (a ++ b) = (a, b).
Proof.
  intros Ha Hb. induction a as [|c a IH]; simpl in *.
  - destruct b as [|c b]; [done|]. simpl. by rewrite Hb.
  - apply andb_true_iff in Ha as [-> Ha]. by rewrite IH.
Qed.

(** [acc] followed by the digits. *)
Definition read_from (acc : Z) (l : chars) : Z :=
  fold_left (λ acc c, acc * 10 + Z.of_nat (nat_of_ascii c) - 48) l acc.

Lemma read_from_app acc a b : read_from acc (a ++ b) = read_from (read_from acc a) b.
Proof. apply fold_left_app. Qed.

Lemma read_zeros n acc : read_from acc (replicate n "0"%char) = acc * 10 ^ Z.of_nat n.
Proof.
  revert acc. induction n as [|n IH]; intros acc; [cbn; lia|].
  change (read_from (acc * 10 + 48 - 48) (replicate n "0"%char) = acc * 10 ^ Z.of_nat (S n)).
  rewrite IH, Nat2Z.inj_succ, Z.pow_succ_r by lia. lia.
Qed.

Lemma digit_char_value n : (n < 10)%N → Z.of_nat (nat_of_ascii (pretty_N_char n)) - 48 = Z.of_N n.
Proof.
  intros Hn. assert (n = 0 ∨ n = 1 ∨ n = 2 ∨ n = 3 ∨ n = 4 ∨ n = 5 ∨ n = 6 ∨ n = 7 ∨ n = 8 ∨ n = 9)%N as Hc by lia.
  by repeat destruct Hc as [->|Hc]; [..|subst].
Qed.

Lemma read_pretty_go n s : read_from 0 (text_of (pretty_N_go n s)) = read_from (Z.of_N n) (text_of s).
Proof.
  revert s. induction (N.lt_wf_0 n) as [n _ IH]. intros s.
  destruct (decide (0 < n)%N) as [Hn|Hn].
  - rewrite pretty_N_go_step by done. rewrite IH by (by apply N.div_lt). cbn [list_ascii_of_string].
    unfold read_from at 1. cbn [fold_left]. fold (read_from (Z.of_N n) (text_of s)).
    unfold read_from. f_equal. assert (n mod 10 < 10)%N as Hm by (by apply N.mod_lt).
    pose proof (digit_char_value _ Hm). pose proof (N.Div0.div_mod n 10). lia.
  - assert (n = 0)%N as -> by lia. by rewrite pretty_N_go_0.
Qed.

Lemma read_digits_string z : 0 <= z → read_from 0 (text_of (digits_string z)) = z.
Proof.
  intros Hz. unfold digits_string, pretty, pretty_N. case_decide as Hd.
  - assert (z = 0) as -> by lia. done.
  - rewrite read_pretty_go. cbn. lia.
Qed.

Lemma pretty_char_digit x : PyStr.is_digit (pretty_N_char x) = true.
Proof. unfold pretty_N_char. by destruct x as [|[[[|[]|]|[|[]|]|]|[[]|[|[]|]|]|]]. Qed.

Lemma pretty_go_text n s : digits (text_of s) = true → digits (text_of (pretty_N_go n s)) = true.
Proof.
  revert s. induction (N.lt_wf_0 n) as [n _ IH]. intros s Hs.
  destruct (decide (0 < n)%N) as [Hn|Hn].
  - rewrite pretty_N_go_step by done. apply IH; [by apply N.div_lt|]. simpl. by rewrite Hs, pretty_char_digit.
  - assert (n = 0)%N as -> by lia. by rewrite pretty_N_go_0.
Qed.

Lemma digits_string_digits z : digits (text_of (digits_string z)) = true ∧ text_of (digits_string z) ≠ [].
Proof.
  split; [|apply pretty_N_nonempty]. unfold digits_string, pretty, pretty_N. case_decide; [done|]. by apply pretty_go_text.
Qed.

Lemma digits_zeros n : digits (replicate n "0"%char) = true.
Proof. by induction n. Qed.

(** ** Reading a positional text *)

(** Neither a space nor an underscore. *)
Definition plain_char (c : ascii) : bool := negb (is_space c) && negb (Ascii.eqb c "_").

Lemma digit_plain c : PyStr.is_digit c = true → plain_char c = true.
Proof. destruct c as [[] [] [] [] [] [] [] []]; vm_compute; congruence. Qed.
Lemma digits_plain l : digits l = true → forallb plain_char l = true.
Proof. induction l as [|c l IH]; [done|]. simpl. intros [Hc Hl]%andb_true_iff. by rewrite digit_plain, IH. Qed.

Lemma strip_left_plain l : forallb plain_char l = true → strip_left l = l.
Proof.
  destruct l as [|c l]; [done|]. simpl. intros [Hc _]%andb_true_iff. unfold plain_char in Hc.
  apply andb_true_iff in Hc as [Hc _]. apply negb_true_iff in Hc. by rewrite Hc.
Qed.
Lemma strip_plain l : forallb plain_char l = true → strip l = l.
Proof.
  intros Hl. unfold strip. rewrite (strip_left_plain l) by done. rewrite (strip_left_plain (rev l)), rev_involutive; [done|].
  apply forallb_forall. intros c Hc%in_rev. by apply (proj1 (forallb_forall _ _) Hl).
Qed.
Lemma filter_plain l : forallb plain_char l = true → filter (λ c, c ≠ "_"%char) l = l.
Proof.
  induction l as [|c l IH]; [done|]. simpl. intros [Hc Hl]%andb_true_iff. rewrite filter_cons, IH by done.
  unfold plain_char in Hc. apply andb_true_iff in Hc as [_ Hc]. apply negb_true_iff, Ascii.eqb_neq in Hc.
  by rewrite decide_True.
Qed.

(** A text that starts with a digit names no special value and has no sign. *)
Lemma digit_first c l :
  PyStr.is_digit c = true →
  take_sign (c :: l) = (false, c :: l) ∧
  existsb (String.eqb (string_lower (String c (string_of_list_ascii l)))) ["inf"; "infinity"; "nan"; "snan"] = false.
Proof.
  intros Hc. destruct c as [b0 b1 b2 b3 b4 b5 b6 b7].
  destruct b0, b1, b2, b3, b4, b5, b6, b7; try discriminate Hc; split; reflexivity.
Qed.

Definition sign_chars (neg : bool) : chars := if neg then ["-"%char] else [].
Definition fraction_chars (frac : option chars) : chars := match frac with Some f => "."%char :: f | None => [] end.

Lemma parse_positional neg whole frac s :
  text_of s = sign_chars neg ++ whole ++ fraction_chars frac →
  digits whole = true → whole ≠ [] → digits (default [] frac) = true →
  parse_decimal s = DFinite (Dec ((if neg then -1 else 1) * digits_value (whole ++ default [] frac)) (- len (default [] frac))).
Proof.
  intros Es Hw Hne Hf. unfold parse_decimal. rewrite Es.
  assert (forallb plain_char (sign_chars neg ++ whole ++ fraction_chars frac) = true) as Hp.
  { rewrite !forallb_app, (digits_plain whole) by done.
    assert (forallb plain_char (fraction_chars frac) = true) as ->; [|by destruct neg].
    destruct frac as [f|]; [|done]. change (forallb plain_char f = true). by apply digits_plain. }
  rewrite strip_plain, filter_plain by done. clear Hp Es.
  destruct whole as [|c whole]; [done|]. simpl in Hw. apply andb_true_iff in Hw as [Hc Hw].
  pose proof (digit_first c (whole ++ fraction_chars frac) Hc) as [Hsign Hspecial].
  assert (take_sign (sign_chars neg ++ (c :: whole) ++ fraction_chars frac)
    = (neg, (c :: whole) ++ fraction_chars frac)) as ->.
  { destruct neg; [reflexivity|]. exact Hsign. }
  cbv zeta. cbn [string_of_list_ascii app existsb] in *.
  apply orb_false_iff in Hspecial as [-> Hspecial]. apply orb_false_iff in Hspecial as [-> Hspecial].
  apply orb_false_iff in Hspecial as [-> Hspecial]. apply orb_false_iff in Hspecial as [-> _]. cbn [orb].
  change (c :: whole ++ fraction_chars frac) with ((c :: whole) ++ fraction_chars frac).
  rewrite span_digits_app; [|simpl; by rewrite Hc, Hw | by destruct frac].
  destruct frac as [f|]; cbn [fraction_chars default from_option id] in *.
  - rewrite <- (app_nil_r f) at 1. rewrite span_digits_app by done. cbn [app take_exponent].
    do 2 f_equal. destruct neg; lia.
  - cbn [app take_exponent]. rewrite app_nil_r. do 2 f_equal. destruct neg; lia.
Qed.

(** The value a positional text is read as. *)
Definition positional (d : decimal) : decimal :=
  if 0 <=? expo d then Dec (coef d * 10 ^ expo d) 0 else d.

Lemma positional_value d : (dval (positional d) == dval d)%Q.
Proof.
  unfold positional. destruct (0 <=? expo d) eqn:E; [|reflexivity]. apply Z.leb_le in E.
  unfold dval. cbn [coef expo]. rewrite bp_0, Qmult_1_r, inject_Z_mult, (bp10_nonneg (expo d)) by done. reflexivity.
Qed.

Lemma digits_value_read l : digits_value l = read_from 0 l. Proof. reflexivity. Qed.

Lemma digits_app a b : digits a = true → digits b = true → digits (a ++ b) = true.
Proof. intros Ha Hb. by rewrite forallb_app, Ha, Hb. Qed.
Lemma digits_take n l : digits l = true → digits (take n l) = true ∧ digits (drop n l) = true.
Proof. intros Hl. rewrite <- (take_drop n l), forallb_app in Hl. by apply andb_true_iff in Hl. Qed.

Lemma sgn_abs z : (if z <? 0 then -1 else 1) * Z.abs z = z.
Proof. destruct (Z.ltb_spec z 0); lia. Qed.

(** [Decimal(format(d, 'f'))]. *)
Lemma parse_decimal_f d : parse_decimal (decimal_f d) = DFinite (positional d).
Proof.
  pose proof (digits_string_digits (Z.abs (coef d))) as [Hd Hn].
  assert (text_of (if coef d <? 0 then "-" else "") = sign_chars (coef d <? 0)) as Hs by (by destruct (coef d <? 0)).
  unfold positional. destruct (0 <=? expo d) eqn:E.
  - apply Z.leb_le in E.
    assert (parse_decimal (decimal_f d) = DFinite (Dec ((if coef d <? 0 then -1 else 1) * (Z.abs (coef d) * 10 ^ expo d)) 0))
      as ->; [|by rewrite Z.mul_assoc, sgn_abs].
    destruct (Z.eqb_spec (coef d) 0) as [Ez|Ez].
    + rewrite (parse_positional false ["0"%char] None); [by rewrite Ez | | done..].
      unfold decimal_f. rewrite (proj2 (Z.leb_le 0 (expo d)) E), Ez. done.
    + rewrite (parse_positional (coef d <? 0) (text_of (digits_string (Z.abs (coef d))) ++ replicate (Z.to_nat (expo d)) "0"%char) None).
      * cbn [default from_option]. rewrite app_nil_r, digits_value_read, read_from_app, read_digits_string, read_zeros, Z2Nat.id by lia.
        reflexivity.
      * unfold decimal_f. rewrite (proj2 (Z.leb_le 0 (expo d)) E), (proj2 (Z.eqb_neq _ _) Ez).
        rewrite !text_of_app, Hs, text_of_zeros. simpl. by rewrite app_nil_r.
      * apply digits_app; [done | apply digits_zeros].
      * intros [? _]%app_eq_nil. done.
      * done.
  - set (k := Z.to_nat (- expo d)). apply Z.leb_gt in E as E'.
    set (ds := zeros (S k - String.length (digits_string (Z.abs (coef d)))) +:+ digits_string (Z.abs (coef d))).
    assert (digits (text_of ds) = true) as Hds.
    { unfold ds. rewrite text_of_app, text_of_zeros. apply digits_app; [apply digits_zeros | done]. }
    assert (S k <= length (text_of ds))%nat as Hlen.
    { unfold ds. rewrite text_of_app, length_app, text_of_zeros, length_replicate, length_text_of. lia. }
    assert (read_from 0 (text_of ds) = Z.abs (coef d)) as Hread.
    { unfold ds. rewrite text_of_app, read_from_app, text_of_zeros, read_zeros, Z.mul_0_l, read_digits_string by lia. done. }
    rewrite (parse_positional (coef d <? 0) (take (length (text_of ds) - k) (text_of ds))
      (Some (drop (length (text_of ds) - k) (text_of ds)))); cbn [default from_option id].
    + rewrite take_drop, digits_value_read, Hread, sgn_abs.
      unfold len. rewrite length_drop. f_equal. destruct d as [cd ed]. cbn [coef expo] in *. f_equal. unfold k. lia.
    + unfold decimal_f. rewrite E. fold k. fold ds. rewrite !text_of_app. unfold string_take.
      rewrite !text_of_substring, Hs, <- length_text_of, drop_0. cbn [fraction_chars list_ascii_of_string app].
      rewrite (take_ge (drop _ _)); [done | rewrite length_drop; lia].
    + by apply digits_take.
    + intros Ht. apply (f_equal length) in Ht. rewrite length_take in Ht. simpl in Ht. lia.
    + by apply digits_take.
Qed.

(** [Decimal(str(n))] of a natural number. *)
Lemma parse_digits z : 0 <= z → parse_decimal (digits_string z) = DFinite (Dec z 0).
Proof.
  intros Hz. pose proof (digits_string_digits z) as [Hd Hn].
  rewrite (parse_positional false (text_of (digits_string z)) None); [|simpl; by rewrite app_nil_r|done..].
  cbn [default from_option]. rewrite app_nil_r, digits_value_read, read_digits_string by done. f_equal. f_equal. lia.
Qed.
Lemma pretty_digits z : 0 <= z → pretty z = digits_string z.
Proof. intros Hz. unfold digits_string. destruct z; try lia; reflexivity. Qed.

Lemma positional_money d : money_ok d = true → money_ok (positional d) = true.
Proof.
  unfold positional. destruct (0 <=? expo d) eqn:E; [|done]. apply Z.leb_le in E. unfold money_ok. cbn [expo coef].
  rewrite (proj2 (Z.leb_le (-10) (expo d))) by lia. change (-10 <=? 0) with true. cbv iota.
  intros H. rewrite <- Z.mul_assoc, <- Z.pow_add_r by lia. exact H.
Qed.
