(* ===== verification/Alpaca.v ===== *)
(** * Alpaca: the paper broker behind HTTP

    daybreak_execution/alpaca.py and normalize_trade_update of
    trade_updates.py.  The server is outside the program: each answer, and the
    clock, is an arbitrary function of the requests sent before.  A response
    body is what [response.json()] reads from it; a JSON object is a [PDict]
    whose keys do not repeat, a JSON float a [PFloat] with the text json.dumps
    gives it.
    [Alpaca.broker] makes the adapter an instance of the Broker interface that
    the execution service of ExecService.v runs against. *)
From Stdlib Require Import Ascii String.
From S2P Require Import Prelude Numerics PyStr PyTime Contracts Canonical RiskModels ExecModels ExecStore OrchModels OrchEnv PyVal.

#[local] Open Scope Z_scope.

(** ** Python values *)

(** [Decimal(s)]: NaN and the infinities are values, which every model
    refuses. *)
Inductive pydecimal := Finite (d : decimal) | NonFinite.
Definition Decimal_of (s : string) : result pydecimal :=
  match parse_decimal s with
  | DFinite d => Ok (Finite d)
  | DInfinite _ | DNaN => Ok NonFinite
  | DMalformed => Err EInvalidOperation
  end.
(** A field of a model: pydantic's Decimal is finite. *)
Definition decimal_field (x : pydecimal) : result decimal :=
  match x with Finite d => Ok d | NonFinite => Err (EValidation "finite_number") end.
Definition opt_decimal_field (x : option pydecimal) : result (option decimal) :=
  match x with Some x => d ← decimal_field x; Ok (Some d) | None => Ok None end.

(** [json.dumps(.., allow_nan=False)] and [.encode('utf-8')], hashed. *)
Fixpoint has_nan (v : pyval) : bool :=
  match v with
  | PFloat r => String.eqb r "NaN" || String.eqb r "Infinity" || String.eqb r "-Infinity"
  | PSeq l => existsb has_nan l
  | PDict m => existsb (λ kv, has_nan kv.2) m
  | _ => false
  end.
Definition strict_sha256 (v : pyval) : result string :=
  if has_nan v then Err (EValue "Out of range float values are not JSON compliant") else Ok (canonical_sha256 v).

(** ** HTTP *)

Record HttpRequest := {
  hq_method : string;
  hq_path : string;
  hq_params : list (string * string);
  hq_json : option pyval;
}.
Record HttpResponse := {
  hr_status_code : Z;
  hr_empty : bool;                 (* not response.content *)
  hr_json : option pyval;          (* None: response.json() raises ValueError *)
  hr_request_id : option string;   (* the X-Request-ID header *)
}.

(** The requests sent so far. *)
Abbreviation wire := (list HttpRequest).

(** httpx.TimeoutException and httpx.NetworkError are told apart from what else
    the client raises, a RemoteProtocolError say. *)
Inductive HttpOutcome := Answered (r : HttpResponse) | TimedOut | NetworkFailed | ClientFailed (kind : string).

Class Server := {
  sv_answer : wire → HttpRequest → HttpOutcome;
  sv_now : wire → datetime;
}.

(** response.is_error. *)
Definition is_error (r : HttpResponse) : bool := between 400 599 (hr_status_code r).
Definition is_transient_status (code : Z) : bool :=
  existsb (Z.eqb code) [408; 409; 425; 429] || (500 <=? code).
(** response.status_code == 204 or not response.content. *)
Definition no_content (r : HttpResponse) : bool := (hr_status_code r =? 204) || hr_empty r.

(** except (KeyError, TypeError, ValueError). *)
Definition is_payload_error (e : exn) : bool :=
  match e with EKey _ | ETypeError => true | _ => is_value_error e end.

Definition OrderSide_of (s : string) : result OrderSide :=
  match s with
  | "buy" => Ok OS_BUY | "sell" => Ok OS_SELL | _ => Err (EValue "OrderSide")
  end%string.
Definition OrderType_of (s : string) : result OrderType :=
  match s with
  | "limit" => Ok OT_LIMIT | "stop" => Ok OT_STOP | _ => Err (EValue "OrderType")
  end%string.
Definition ALL_STATUSES : list BrokerOrderStatus :=
  [BO_ACCEPTED; BO_ACCEPTED_FOR_BIDDING; BO_PENDING_NEW; BO_NEW; BO_PARTIALLY_FILLED; BO_FILLED;
   BO_DONE_FOR_DAY; BO_CANCELED; BO_EXPIRED; BO_REPLACED; BO_PENDING_CANCEL; BO_PENDING_REPLACE;
   BO_STOPPED; BO_REJECTED; BO_SUSPENDED; BO_CALCULATED].
Definition BrokerOrderStatus_of (s : string) : result BrokerOrderStatus :=
  match find (λ v, String.eqb (BrokerOrderStatus_value v) s) ALL_STATUSES with
  | Some v => Ok v
  | None => Err (EValue "BrokerOrderStatus")
  end.

(** [command_payload]: the body of the POST. *)
Definition opt_entry (k : string) (o : option decimal) : list (string * pyval) :=
  match o with Some d => [(k, PStr (decimal_f d))] | None => [] end.
(** [format(None, 'f')] raises TypeError; a command's bracket has both prices. *)
Definition format_f (o : option decimal) : result string :=
  match o with Some d => Ok (decimal_f d) | None => Err ETypeError end.
Definition command_payload (command : BrokerOrderCommand) : result pyval :=
  let c := co_body command in
  let base := [("symbol", PStr (cb_symbol c)); ("qty", PStr (pretty (cb_quantity c)));
    ("side", PStr (OrderSide_value (cb_side c))); ("type", PStr (OrderType_value (cb_order_type c)));
    ("time_in_force", PStr (TimeInForce_value (cb_time_in_force c)));
    ("client_order_id", PStr (cb_client_order_id c)); ("extended_hours", PBool false)]%string in
  let prices := opt_entry "limit_price" (cb_limit_price c) ++ opt_entry "stop_price" (cb_stop_price c) in
  match cb_order_class c with
  | OC_SIMPLE => Ok (PDict (base ++ prices))
  | OC_BRACKET =>
      target ← format_f (cb_take_profit_limit_price c);
      stop ← format_f (cb_stop_loss_stop_price c);
      Ok (PDict (base ++ prices ++ [("order_class", PStr "bracket");
        ("take_profit", PDict [("limit_price", PStr target)]);
        ("stop_loss", PDict [("stop_price", PStr stop)])]%string))
  end.

Definition PAPER_BASE_URL : string := "https://paper-api.alpaca.markets".
(** [base_url.rstrip('/')]. *)
Fixpoint drop_slashes (l : chars) : chars :=
  match l with "/"%char :: l' => drop_slashes l' | _ => l end.
Definition rstrip_slash (s : string) : string :=
  string_of_list_ascii (rev (drop_slashes (rev (list_ascii_of_string s)))).
(** The checks of [__init__]. *)
Definition broker_init (base_url api_key secret_key : string) : result unit :=
  if negb (String.eqb (rstrip_slash base_url) PAPER_BASE_URL) then
    Err (EValue "v0.5.0 permits only the Alpaca paper endpoint")
  else if String.eqb api_key "" || String.eqb secret_key "" then Err (EValue "Alpaca paper credentials are required")
  else Ok tt.

Section adapter.
Context `{ContainerText} `{FromIso} `{Uuid5} `{Server}.

(** [_decimal]. *)
Definition _decimal (value : pyval) : result (option pydecimal) :=
  match value with
  | PNone | PStr "" => Ok None
  | _ => d ← Decimal_of (py_str value); Ok (Some d)
  end.

(** [s.replace('Z', '+00:00')]. *)
Fixpoint replace_Z (s : string) : string :=
  match s with
  | EmptyString => EmptyString
  | String c s' => if Ascii.eqb c "Z" then "+00:00" +:+ replace_Z s' else String c (replace_Z s')
  end.
(** A naive reading is taken as UTC. *)
Definition parse_iso (s : string) : result datetime :=
  match fromisoformat (replace_Z s) with
  | Some (wall, offset) => Ok (wall - default 0 offset)
  | None => Err (EValue "Invalid isoformat string")
  end.
Definition _parse_timestamp (value : pyval) (default : datetime) : result datetime :=
  if negb (truthy value) then Ok default else parse_iso (py_str value).

Definition _snapshot_id (order_id : string) (updated_at : datetime) (raw_hash : string) : string :=
  uuid5_hex ("alpaca-order:" +:+ order_id +:+ ":" +:+ datetime_iso updated_at +:+ ":" +:+ raw_hash).

(** ** normalize_order *)

Definition normalize_leg (leg : pyval) : result BrokerOrderLeg :=
  match leg with
  | PDict m =>
      id ← dict_at "id" m;
      let client := dict_or_none "client_order_id" m in
      quantity ← Decimal_of (py_str (dict_get_or "qty" (PStr "0") m));
      filled ← Decimal_of (py_str (dict_get_or "filled_qty" (PStr "0") m));
      limit_price ← _decimal (dict_or_none "limit_price" m);
      stop_price ← _decimal (dict_or_none "stop_price" m);
      quantity ← decimal_field quantity;
      filled ← decimal_field filled;
      limit_price ← opt_decimal_field limit_price;
      stop_price ← opt_decimal_field stop_price;
      let l := {| lg_broker_order_id := py_str id;
        lg_client_order_id := if is_none client then None else Some (py_str client);
        lg_side := py_str (dict_get_or "side" (PStr "sell") m);
        lg_order_type := py_str (dict_get_or "type" (PStr "limit") m);
        lg_status := py_str (dict_get_or "status" (PStr "new") m);
        lg_quantity := quantity; lg_filled_quantity := filled;
        lg_limit_price := limit_price; lg_stop_price := stop_price |} in
      if BrokerOrderLeg_ok l then Ok l else Err (EValidation "BrokerOrderLeg")
  | _ => Err ETypeError
  end.

(** [payload.get('legs') or []]: a list is iterated; the characters of a text,
    the keys of a dict and a number all raise TypeError. *)
Definition normalize_legs (v : pyval) : result (list BrokerOrderLeg) :=
  if negb (truthy v) then Ok []
  else match v with PSeq l => map_result normalize_leg l | _ => Err ETypeError end.

Definition normalize_order (payload : list (string * pyval)) (observed_at : datetime) : result BrokerOrderSnapshot :=
  raw_hash ← strict_sha256 (PDict payload);
  updated_at ← _parse_timestamp (dict_or_none "updated_at" payload) observed_at;
  legs ← normalize_legs (dict_or_none "legs" payload);
  id ← dict_at "id" payload;
  client_order_id ← dict_at "client_order_id" payload;
  symbol ← dict_at "symbol" payload;
  side ← dict_at "side" payload;
  side ← OrderSide_of (py_str side);
  type_ ← dict_at "type" payload;
  order_type ← OrderType_of (py_str type_);
  status ← dict_at "status" payload;
  status ← BrokerOrderStatus_of (py_str status);
  qty ← dict_at "qty" payload;
  quantity ← Decimal_of (py_str qty);
  filled ← Decimal_of (py_str (dict_get_or "filled_qty" (PStr "0") payload));
  filled_avg_price ← _decimal (dict_or_none "filled_avg_price" payload);
  limit_price ← _decimal (dict_or_none "limit_price" payload);
  stop_price ← _decimal (dict_or_none "stop_price" payload);
  submitted_at ← (if is_none (dict_or_none "submitted_at" payload) then Ok None
    else t ← _parse_timestamp (dict_or_none "submitted_at" payload) observed_at; Ok (Some t));
  quantity ← decimal_field quantity;
  filled ← decimal_field filled;
  filled_avg_price ← opt_decimal_field filled_avg_price;
  limit_price ← opt_decimal_field limit_price;
  stop_price ← opt_decimal_field stop_price;
  let o := {| os_snapshot_id := _snapshot_id (py_str id) updated_at raw_hash;
    os_broker_order_id := py_str id; os_client_order_id := py_str client_order_id;
    os_symbol := py_str symbol; os_side := side; os_order_type := order_type;
    os_time_in_force := py_str (dict_get_or "time_in_force" (PStr "day") payload);
    os_order_class := py_str (dict_get_or "order_class" (PStr "simple") payload);
    os_status := status; os_quantity := quantity; os_filled_quantity := filled;
    os_filled_avg_price := filled_avg_price; os_limit_price := limit_price; os_stop_price := stop_price;
    os_submitted_at := submitted_at; os_updated_at := updated_at; os_legs := legs;
    os_raw_response_hash := raw_hash; os_raw_response := PDict payload |} in
  if BrokerOrderSnapshot_ok o then Ok o else Err (EValidation "BrokerOrderSnapshot").

(** ** Requests *)

Definition send (q : HttpRequest) : eff wire HttpOutcome := λ w, (Ok (sv_answer w q), w ++ [q]).
Definition now : eff wire datetime := gets sv_now.

Definition GET (path : string) (params : list (string * string)) : HttpRequest :=
  {| hq_method := "GET"; hq_path := path; hq_params := params; hq_json := None |}.
Definition DELETE (path : string) (params : list (string * string)) : HttpRequest :=
  {| hq_method := "DELETE"; hq_path := path; hq_params := params; hq_json := None |}.
Definition POST (path : string) (body : pyval) : HttpRequest :=
  {| hq_method := "POST"; hq_path := path; hq_params := []; hq_json := Some body |}.

(** What [_request] and [_request_list] share: the body, None when there is no
    content. *)
Definition response_body (q : HttpRequest) : eff wire (option pyval) :=
  outcome ← send q;
  match outcome with
  | TimedOut | NetworkFailed => raise (EBrokerTransport true)
  | ClientFailed kind => raise (EOther kind "")
  | Answered r =>
      if hr_status_code r =? 404 then raise EBrokerNotFound
      else if is_error r then raise (EBrokerTransport (is_transient_status (hr_status_code r)))
      else if no_content r then mret None
      else match hr_json r with
           | None => raise (EBrokerTransport true)
           | Some data => mret (Some data)
           end
  end.
Definition _request (q : HttpRequest) : eff wire (option (list (string * pyval))) :=
  body ← response_body q;
  match body with
  | None => mret None
  | Some (PDict m) => mret (Some m)
  | Some _ => raise (EBrokerTransport false)
  end.
Definition object_of (v : pyval) : result (list (string * pyval)) :=
  match v with PDict m => Ok m | _ => Err (EBrokerTransport false) end.
Definition _request_list (q : HttpRequest) : eff wire (list (list (string * pyval))) :=
  body ← response_body q;
  match body with
  | None => mret []
  | Some (PSeq l) => lift (map_result object_of l)
  | Some _ => raise (EBrokerTransport false)
  end.
(** [assert data is not None]. *)
Definition present {A} (o : option A) : eff wire A := match o with Some x => mret x | None => raise EAssertion end.
(** A payload error of the adapter is a transient transport error. *)
Definition payload_guard {A} (m : eff wire A) : eff wire A :=
  try_except m (λ e, if is_payload_error e then Some (raise (EBrokerTransport true)) else None).

(** ** AlpacaPaperBroker *)

Definition order_request (q : HttpRequest) : eff wire BrokerOrderSnapshot :=
  data ← _request q;
  data ← present data;
  payload_guard (t ← now; lift (normalize_order data t)).

Definition get_order_by_client_order_id (client_order_id : string) : eff wire BrokerOrderSnapshot :=
  order_request (GET "/v2/orders:by_client_order_id" [("client_order_id", client_order_id); ("nested", "true")]%string).
Definition submit_order (command : BrokerOrderCommand) : eff wire BrokerOrderSnapshot :=
  body ← lift (command_payload command);
  order_request (POST "/v2/orders" body).
Definition cancel_order (broker_order_id : string) : eff wire unit :=
  _request (DELETE ("/v2/orders/" +:+ broker_order_id) []) ;; mret tt.
Definition get_order (broker_order_id : string) : eff wire BrokerOrderSnapshot :=
  order_request (GET ("/v2/orders/" +:+ broker_order_id) [("nested", "true")]%string).

(** [abs(Decimal(..))]: rounded to 28 digits. *)
Definition abs_decimal (x : pydecimal) : pydecimal :=
  match x with Finite d => Finite (dec.abs d) | NonFinite => NonFinite end.
Definition normalize_position (symbol : string) (m : list (string * pyval)) (observed : datetime)
    : result BrokerPositionSnapshot :=
  quantity ← Decimal_of (py_str (dict_get_or "qty" (PStr "0") m));
  price ← _decimal (dict_or_none "avg_entry_price" m);
  raw_hash ← strict_sha256 (PDict m);
  quantity ← decimal_field (abs_decimal quantity);
  price ← opt_decimal_field price;
  let p := {| ps_symbol := symbol; ps_quantity := quantity; ps_average_entry_price := price;
    ps_observed_at := observed; ps_raw_response_hash := raw_hash |} in
  if BrokerPositionSnapshot_ok p then Ok p else Err (EValidation "BrokerPositionSnapshot").
Definition get_position (symbol : string) : eff wire (option BrokerPositionSnapshot) :=
  data ← try_except (data ← _request (GET ("/v2/positions/" +:+ symbol) []); mret (Some data))
    (λ e, match e with EBrokerNotFound => Some (mret None) | _ => None end);
  match data with
  | None => mret None
  | Some data =>
      data ← present data;
      observed ← now;
      p ← lift (normalize_position symbol data observed);
      mret (Some p)
  end.

Definition listed_position (observed : datetime) (row : list (string * pyval)) : result BrokerPositionSnapshot :=
  symbol ← dict_at "symbol" row; normalize_position (py_str symbol) row observed.
Definition list_positions : eff wire (list BrokerPositionSnapshot) :=
  rows ← _request_list (GET "/v2/positions" []);
  observed ← now;
  payload_guard (lift (map_result (listed_position observed) rows)).
Definition list_orders (status : string) : eff wire (list BrokerOrderSnapshot) :=
  rows ← _request_list (GET "/v2/orders" [("status", status); ("nested", "true")]%string);
  payload_guard (t ← now; lift (map_result (λ row, normalize_order row t) rows)).

(** ** trade_updates.py *)

Definition normalize_trade_update (payload : list (string * pyval)) (received_at : datetime) : result TradeUpdate :=
  data ← match dict_get_or "data" (PDict payload) payload with
         | PDict m => Ok m
         | _ => Err (EValue "trade update data must be an object")
         end;
  order_payload ← match dict_or_none "order" data with
                  | PDict m => Ok m
                  | _ => Err (EValue "trade update is missing order object")
                  end;
  let event := py_str (dict_get_or "event" (PStr "unknown") data) in
  let raw := or_else (dict_or_none "timestamp" data) (dict_or_none "event_at" data) in
  event_timestamp ← _parse_timestamp raw received_at;
  raw_hash ← strict_sha256 (PDict payload);
  let event_id := uuid5_hex ("alpaca-trade-update:" +:+ py_str (dict_or_none "id" order_payload) +:+ ":" +:+ event
    +:+ ":" +:+ datetime_iso event_timestamp +:+ ":" +:+ raw_hash) in
  order ← normalize_order order_payload received_at;
  let u := {| tu_event_id := event_id; tu_event := event; tu_event_timestamp := event_timestamp;
    tu_order := order; tu_raw_event_hash := raw_hash |} in
  if TradeUpdate_ok u then Ok u else Err (EValidation "TradeUpdate").

(** ** The Broker interface *)

(** The request each call of the service sends; a command that cannot be put
    into a payload sends none. *)
Definition requests_of (c : BrokerCall) : wire :=
  match c with
  | CLookup id => [GET "/v2/orders:by_client_order_id" [("client_order_id", id); ("nested", "true")]%string]
  | CSubmit c => match command_payload c with Ok body => [POST "/v2/orders" body] | Err _ => [] end
  | CCancel id => [DELETE ("/v2/orders/" +:+ id) []]
  | CGet id => [GET ("/v2/orders/" +:+ id) [("nested", "true")]%string]
  | CPosition symbol => [GET ("/v2/positions/" +:+ symbol) []]
  | CPositions => [GET "/v2/positions" []]
  | COrders status => [GET "/v2/orders" [("status", status); ("nested", "true")]%string]
  end.
Definition wire_of (calls : list BrokerCall) : wire := concat (map requests_of calls).

Definition alpaca_broker : Broker := {|
  bk_get_order_by_client_order_id h id := (get_order_by_client_order_id id (wire_of h)).1;
  bk_submit_order h c := (submit_order c (wire_of h)).1;
  bk_cancel_order h id := (cancel_order id (wire_of h)).1;
  bk_get_order h id := (get_order id (wire_of h)).1;
  bk_get_position h symbol := (get_position symbol (wire_of h)).1;
|}.
End adapter.

#[export] Existing Instance alpaca_broker.
