(* ===== verification/AlpacaContract.v ===== *)
(** * AlpacaContract: what the adapter promises the execution service

    Orders read back are valid and carry their evidence; an echoed command is
    recognised as itself; and, against the Broker interface, a POST is sent
    only after the server has answered 404 to the lookup of its client id. *)
From Stdlib Require Import Ascii String QArith.
From S2P Require Import Prelude Numerics PyStr PyTime Stores Contracts Canonical RiskModels RiskEngine RiskContract ExecModels OrderBuilder ExecStore ExecService ExecFacts ExecContract OrchModels OrchEnv DecimalText PyVal Alpaca.

#[local] Open Scope Z_scope.

(** ** Decimals sent *)

Lemma decimal_text d : Decimal_of (decimal_f d) = Ok (Finite (positional d)).
Proof. unfold Decimal_of. by rewrite parse_decimal_f. Qed.

Lemma decimal_f_nonempty d : decimal_f d ≠ ""%string.
Proof. intros E. pose proof (parse_decimal_f d) as H. rewrite E in H. vm_compute in H. discriminate. Qed.

(** The outcome of a chain of checks that ends in a validated model. *)
Ltac ok_chain :=
  repeat match goal with
  | E : _ ≫= _ = Ok _ |- _ => apply bind_Ok in E as (? & ? & E)
  | E : (if ?c then Ok _ else Err _) = Ok _ |- _ => destruct c eqn:?; [apply Ok_inj in E|discriminate E]
  end.

Section contract.
Context `{ContainerText} `{FromIso} `{Uuid5} `{Server}.

(** ** Snapshots carry their evidence *)

Lemma strict_sha256_Ok v x : strict_sha256 v = Ok x → x = canonical_sha256 v ∧ has_nan v = false.
Proof. unfold strict_sha256. destruct (has_nan v) eqn:E; [discriminate|]. by intros <-%Ok_inj. Qed.

Lemma normalize_order_Ok payload t o :
  normalize_order payload t = Ok o →
  BrokerOrderSnapshot_ok o = true ∧ os_raw_response o = PDict payload ∧
  os_raw_response_hash o = canonical_sha256 (PDict payload) ∧ has_nan (PDict payload) = false ∧
  ∃ id, dict_get "id" payload = Some id ∧ os_broker_order_id o = py_str id.
Proof.
  unfold normalize_order. intros E. apply bind_Ok in E as (h & [Eh En]%strict_sha256_Ok & E).
  apply bind_Ok in E as (t1 & _ & E). apply bind_Ok in E as (legs & _ & E).
  apply bind_Ok in E as (id & Hid & E). ok_chain. subst o.
  cbn [os_raw_response os_raw_response_hash os_broker_order_id]. split_and!; [done..|].
  exists id. unfold dict_at in Hid. destruct (dict_get "id" payload); [|done]. by injection Hid as ->.
Qed.

(** ** Requests *)

Lemma response_body_run q w :
  response_body q w =
  (match sv_answer w q with
   | TimedOut | NetworkFailed => Err (EBrokerTransport true)
   | ClientFailed kind => Err (EOther kind "")
   | Answered r =>
       if hr_status_code r =? 404 then Err EBrokerNotFound
       else if is_error r then Err (EBrokerTransport (is_transient_status (hr_status_code r)))
       else if no_content r then Ok None
       else match hr_json r with None => Err (EBrokerTransport true) | Some data => Ok (Some data) end
   end, w ++ [q]).
Proof.
  unfold response_body. rewrite eff_bind_unfold. unfold send. destruct (sv_answer w q) as [r| | |kind]; [|done..].
  destruct (hr_status_code r =? 404); [done|]. destruct (is_error r); [done|].
  destruct (no_content r); [done|]. by destruct (hr_json r).
Qed.

(** What the adapter makes of a response body that should be an object. *)
Definition object_body (r : HttpResponse) : result (option (list (string * pyval))) :=
  if hr_status_code r =? 404 then Err EBrokerNotFound
  else if is_error r then Err (EBrokerTransport (is_transient_status (hr_status_code r)))
  else if no_content r then Ok None
  else match hr_json r with
       | None => Err (EBrokerTransport true)
       | Some (PDict m) => Ok (Some m)
       | Some _ => Err (EBrokerTransport false)
       end.

Lemma request_run q w :
  _request q w =
  (match sv_answer w q with
   | TimedOut | NetworkFailed => Err (EBrokerTransport true)
   | ClientFailed kind => Err (EOther kind "")
   | Answered r => object_body r
   end, w ++ [q]).
Proof.
  unfold _request. rewrite eff_bind_unfold, response_body_run. destruct (sv_answer w q) as [r| | |kind]; [|done..].
  unfold object_body. destruct (hr_status_code r =? 404); [done|]. destruct (is_error r); [done|].
  destruct (no_content r); [done|]. destruct (hr_json r) as [v|]; [|done]. by destruct v.
Qed.

Definition guarded {A} (x : result A) : result A :=
  match x with Err e => Err (if is_payload_error e then EBrokerTransport true else e) | Ok _ => x end.

Lemma order_request_run q w :
  order_request q w =
  (match sv_answer w q with
   | TimedOut | NetworkFailed => Err (EBrokerTransport true)
   | ClientFailed kind => Err (EOther kind "")
   | Answered r =>
       body ← object_body r;
       match body with
       | None => Err EAssertion
       | Some m => guarded (normalize_order m (sv_now (w ++ [q])))
       end
   end, w ++ [q]).
Proof.
  unfold order_request. rewrite eff_bind_unfold, request_run. destruct (sv_answer w q) as [r| | |kind]; [|done..].
  destruct (object_body r) as [[m|]|e]; [|done..].
  rewrite eff_bind_unfold. cbn [present]. unfold mret, eff_ret. cbv beta iota.
  unfold payload_guard, try_except, now, gets, lift. rewrite eff_bind_unfold. cbv beta iota.
  destruct (normalize_order m _) as [o|e] eqn:E; cbn.
  - by rewrite E.
  - rewrite E. cbn [guarded]. by destruct (is_payload_error e).
Qed.

(** ** Which answers mean what *)

Lemma guarded_not_found {A} (x : result A) : x ≠ Err EBrokerNotFound → guarded x ≠ Err EBrokerNotFound.
Proof. destruct x as [a|e]; [done|]. cbn [guarded]. by destruct e. Qed.

(** No check of a payload raises an error of the transport. *)
Definition clean {A} (x : result A) : Prop := ∀ e, x = Err e →
  match e with EBrokerNotFound | EBrokerTransport _ | EDiverge => False | _ => True end.

Lemma clean_Ok {A} (a : A) : clean (Ok a). Proof. by intros e. Qed.
Lemma clean_Err {A} e : match e with EBrokerNotFound | EBrokerTransport _ | EDiverge => False | _ => True end → clean (@Err A e).
Proof. by intros He e' [= <-]. Qed.
Lemma clean_bind {A B} (x : result A) (f : A → result B) : clean x → (∀ a, clean (f a)) → clean (x ≫= f).
Proof. intros Hx Hf. destruct x as [a|e]; [apply Hf|]. intros e' [= <-]. by apply (Hx e). Qed.
Lemma clean_if {A} (c : bool) (x y : result A) : clean x → clean y → clean (if c then x else y).
Proof. by destruct c. Qed.
Lemma clean_map {A B} (f : A → result B) l : (∀ a, clean (f a)) → clean (map_result f l).
Proof.
  intros Hf. induction l as [|a l IH]; [apply clean_Ok|]. apply clean_bind; [apply Hf|]. intros b.
  apply clean_bind; [done|]. intros k. apply clean_Ok.
Qed.

Create HintDb clean.
#[local] Hint Resolve clean_Ok clean_bind clean_if clean_map : clean.
#[local] Hint Extern 1 (clean (Err _)) => by apply clean_Err : clean.

Lemma clean_dict_at k m : clean (dict_at k m).
Proof. unfold dict_at. destruct (dict_get k m); auto with clean. Qed.
Lemma clean_Decimal_of s : clean (Decimal_of s).
Proof. unfold Decimal_of. destruct (parse_decimal s); auto with clean. Qed.
Lemma clean_decimal v : clean (_decimal v).
Proof.
  unfold _decimal. destruct v as [| | | | |s| | | | | |]; try destruct s; eauto using clean_Decimal_of with clean.
Qed.
Lemma clean_decimal_field x : clean (decimal_field x).
Proof. destruct x; unfold decimal_field; auto with clean. Qed.
Lemma clean_opt_field x : clean (opt_decimal_field x).
Proof. destruct x; unfold opt_decimal_field; eauto using clean_decimal_field with clean. Qed.
Lemma clean_sha v : clean (strict_sha256 v).
Proof. unfold strict_sha256. auto with clean. Qed.
Lemma clean_timestamp v d : clean (_parse_timestamp v d).
Proof. unfold _parse_timestamp, parse_iso. destruct (fromisoformat _) as [[]|]; auto with clean. Qed.
Lemma clean_side s : clean (OrderSide_of s).
Proof. unfold OrderSide_of. repeat case_match; auto with clean. Qed.
Lemma clean_type s : clean (OrderType_of s).
Proof. unfold OrderType_of. repeat case_match; auto with clean. Qed.
Lemma clean_status s : clean (BrokerOrderStatus_of s).
Proof. unfold BrokerOrderStatus_of. case_match; auto with clean. Qed.
#[local] Hint Resolve clean_dict_at clean_Decimal_of clean_decimal clean_decimal_field clean_opt_field clean_sha
  clean_timestamp clean_side clean_type clean_status : clean.
Lemma clean_leg v : clean (normalize_leg v).
Proof.
  destruct v; cbn [normalize_leg]; auto with clean.
  repeat (apply clean_bind; [auto with clean|intros ?]). auto with clean.
Qed.
Lemma clean_legs v : clean (normalize_legs v).
Proof. unfold normalize_legs. destruct v; auto using clean_leg with clean. Qed.
#[local] Hint Resolve clean_legs : clean.
Lemma clean_order m t : clean (normalize_order m t).
Proof.
  unfold normalize_order. repeat (apply clean_bind; [auto 6 with clean|intros ?]).
  all: auto with clean.
Qed.

(** ** Failures of an order call *)

(** What the adapter reads as a definite refusal: a client error status, or a
    JSON body that is no object. *)
Definition refused (r : HttpResponse) : Prop :=
  (is_error r = true ∧ is_transient_status (hr_status_code r) = false) ∨
  (is_error r = false ∧ no_content r = false ∧ ∃ v, hr_json r = Some v ∧ ∀ m, v ≠ PDict m).

Lemma body_not_found r : object_body r = Err EBrokerNotFound ↔ hr_status_code r = 404.
Proof.
  unfold object_body. destruct (Z.eqb_spec (hr_status_code r) 404); [done|].
  split; [|done]. destruct (is_error r); [done|]. destruct (no_content r); [done|].
  destruct (hr_json r) as [[]|]; discriminate.
Qed.

Lemma body_refused r : object_body r = Err (EBrokerTransport false) ↔ hr_status_code r ≠ 404 ∧ refused r.
Proof.
  unfold object_body, refused. destruct (Z.eqb_spec (hr_status_code r) 404); [split; [discriminate | by intros [? _]]|].
  destruct (is_error r).
  { destruct (is_transient_status _).
    - split; [discriminate|]. by intros [_ [[_ ?]|[? _]]].
    - split; [|done]. intros _. split; [done | by left]. }
  destruct (no_content r).
  { split; [discriminate|]. by intros [_ [[? _]|(_ & ? & _)]]. }
  destruct (hr_json r) as [v|].
  2: { split; [discriminate|]. by intros [_ [[? _]|(_ & _ & v & ? & _)]]. }
  assert (match v with PDict m => Ok (Some m) | _ => Err (EBrokerTransport false) end
    = Err (EBrokerTransport false) ↔ ∀ m, v ≠ PDict m) as Hv.
  { destruct v; split; intros Hv; try done; try discriminate. by destruct (Hv m eq_refl). }
  rewrite Hv. split; [intros Hm; split; [done|right; by eauto] |]. intros [_ [[? _]|(_ & _ & v' & [= <-] & ?)]]; done.
Qed.

(** An order call fails with [e], which is an answer of the transport, exactly
    when the response says so. *)
Lemma order_request_fails q w e :
  e = EBrokerNotFound ∨ e = EBrokerTransport false →
  (order_request q w).1 = Err e ↔ ∃ r, sv_answer w q = Answered r ∧ object_body r = Err e.
Proof.
  intros He. rewrite order_request_run. cbn [fst]. destruct (sv_answer w q) as [r| | |kind].
  2-4: split; [intros [= <-]; by destruct He | by intros (r & [=] & _)].
  split; [|intros (r' & [= <-] & ->); done]. intros E. exists r. split; [done|].
  destruct (object_body r) as [[m|]|e'].
  2: { change (@Err BrokerOrderSnapshot EAssertion = Err e) in E. injection E as <-. by destruct He. }
  2: { change (@Err BrokerOrderSnapshot e' = Err e) in E. by injection E as ->. }
  change (guarded (normalize_order m (sv_now (w ++ [q]))) = Err e) in E.
  pose proof (clean_order m (sv_now (w ++ [q]))) as Hcl. destruct (normalize_order _ _) as [o|e']; [done|].
  specialize (Hcl e' eq_refl). injection E as E. destruct (is_payload_error e'); [subst e; by destruct He|].
  subst e'. by destruct He as [-> | ->].
Qed.

(** An order call of the Alpaca adapter fails in a way that says what is
    known: "not found" exactly when the server answers 404, so that a timeout
    is never taken for an absent order, and a permanent failure exactly when
    the server has answered with a refusal. *)
Theorem order_failures q w :
  ((order_request q w).1 = Err EBrokerNotFound ↔ ∃ r, sv_answer w q = Answered r ∧ hr_status_code r = 404) ∧
  ((order_request q w).1 = Err (EBrokerTransport false) ↔
     ∃ r, sv_answer w q = Answered r ∧ hr_status_code r ≠ 404 ∧ refused r).
Proof.
  rewrite !order_request_fails by auto.
  split; [setoid_rewrite body_not_found | setoid_rewrite body_refused]; done.
Qed.

(** ** Orders read back *)

(** Every order the adapter returns comes from a response that is no
    error and is a valid snapshot: it names the id of the payload, keeps the
    payload, and its hash is the hash of that payload. *)
Theorem orders_certified q w o :
  (order_request q w).1 = Ok o →
  ∃ r m id, sv_answer w q = Answered r ∧ is_error r = false ∧ hr_json r = Some (PDict m) ∧
    BrokerOrderSnapshot_ok o = true ∧ os_raw_response o = PDict m ∧
    os_raw_response_hash o = canonical_sha256 (PDict m) ∧
    dict_get "id" m = Some id ∧ os_broker_order_id o = py_str id.
Proof.
  rewrite order_request_run. cbn [fst]. destruct (sv_answer w q) as [r| | |kind]; [|done..].
  unfold object_body. destruct (hr_status_code r =? 404); [done|]. destruct (is_error r) eqn:Ee; [done|].
  destruct (no_content r); [done|]. destruct (hr_json r) as [v|] eqn:Ej; [|done]. destruct v as [| | | | | | | | | | |m]; try done.
  intros E. change (guarded (normalize_order m (sv_now (w ++ [q]))) = Ok o) in E.
  destruct (normalize_order _ _) as [o'|e] eqn:En; [|done]. injection E as ->.
  apply normalize_order_Ok in En as (Hok & Hraw & Hh & _ & id & Hid & Hb). by exists r, m, id.
Qed.

(** ** The interface: calls of the service and requests on the wire *)

Lemma wire_of_app h k : wire_of (h ++ k) = wire_of h ++ wire_of k.
Proof. unfold wire_of. by rewrite map_app, concat_app. Qed.
Lemma wire_of_snoc h c : wire_of (h ++ [c]) = wire_of h ++ requests_of c.
Proof. rewrite wire_of_app. unfold wire_of. simpl. by rewrite app_nil_r. Qed.

Lemma order_request_wire q w : (order_request q w).2 = w ++ [q].
Proof. by rewrite order_request_run. Qed.

(** The requests an instance of the interface has sent are those of the calls
    on record. *)
Lemma calls_are_requests h :
  (∀ id, (get_order_by_client_order_id id (wire_of h)).2 = wire_of (h ++ [CLookup id])) ∧
  (∀ c, (submit_order c (wire_of h)).2 = wire_of (h ++ [CSubmit c])) ∧
  (∀ id, (cancel_order id (wire_of h)).2 = wire_of (h ++ [CCancel id])) ∧
  (∀ id, (get_order id (wire_of h)).2 = wire_of (h ++ [CGet id])) ∧
  (∀ s, (get_position s (wire_of h)).2 = wire_of (h ++ [CPosition s])).
Proof.
  split_and!; intros x; rewrite wire_of_snoc; cbn [requests_of].
  - apply order_request_wire.
  - unfold submit_order. rewrite eff_bind_unfold. unfold lift.
    destruct (command_payload x); [apply order_request_wire | by rewrite app_nil_r].
  - unfold cancel_order. rewrite eff_bind_unfold, request_run. by destruct (sv_answer _ _) as [r| | |]; [destruct (object_body r)|..].
  - apply order_request_wire.
  - unfold get_position, try_except. rewrite !eff_bind_unfold, request_run.
    destruct (sv_answer _ _) as [r| | |]; [|done..]. destruct (object_body r) as [[m|]|e]; [|done|].
    + unfold mret, eff_ret. cbv beta iota. rewrite eff_bind_unfold. cbn [present]. unfold mret, eff_ret. cbv beta iota.
      rewrite eff_bind_unfold. unfold now, gets. cbv beta iota. rewrite eff_bind_unfold. unfold lift.
      by destruct (normalize_position _ _ _).
    + cbv beta iota. by destruct e.
Qed.

(** A call sends at most one request. *)
Lemma one_request c : requests_of c = [] ∨ ∃ q, requests_of c = [q].
Proof. destruct c; cbn [requests_of]; eauto. destruct (command_payload c); eauto. Qed.

Lemma request_of_call h a q b :
  wire_of h = a ++ q :: b →
  ∃ h1 c h2, h = h1 ++ c :: h2 ∧ wire_of h1 = a ∧ requests_of c = [q].
Proof.
  revert a b. induction h as [|c h IH] using rev_ind; intros a b E; [by destruct a|].
  rewrite wire_of_snoc in E. destruct (one_request c) as [Ec|[q' Ec]]; rewrite Ec in E.
  - rewrite app_nil_r in E. apply IH in E as (h1 & c' & h2 & -> & ? & ?).
    exists h1, c', (h2 ++ [c]). by rewrite <- app_assoc.
  - destruct b as [|x b _] using rev_ind.
    + apply app_inj_tail in E as [<- <-]. by exists h, c, [].
    + rewrite app_comm_cons, app_assoc in E. apply app_inj_tail in E as [E _].
      apply IH in E as (h1 & c' & h2 & -> & ? & ?). exists h1, c', (h2 ++ [c]). by rewrite <- app_assoc.
Qed.

Section service.
Context `{CommandError}.
Context `{Dump ExecutionRequest} `{Dump BrokerOrderCommand} `{Dump BrokerOrderSnapshot} `{Dump ExecutionEvent}.
Context `{Dump BrokerPositionSnapshot}.

(** C16: On the wire, every POST the execution service makes through the Alpaca
    adapter carries the payload of a recorded command, and the request just
    before it is the lookup of that command's client order id, which the server
    answered with 404: no timeout, server error or malformed body of a lookup
    is ever followed by a POST. *)
Theorem posts_follow_404 w a q b :
  reachable w → wire_of (w_calls w) = a ++ q :: b → hq_method q = "POST"%string →
  ∃ c a0 r, command_payload c = Ok (default PNone (hq_json q)) ∧ hq_path q = "/v2/orders"%string ∧
    holds (er_commands (w_repo w)) (co_client_order_id c) c ∧
    a = a0 ++ requests_of (CLookup (co_client_order_id c)) ∧
    sv_answer a0 (GET "/v2/orders:by_client_order_id"
      [("client_order_id", co_client_order_id c); ("nested", "true")]%string) = Answered r ∧
    hr_status_code r = 404.
Proof.
  intros Hr Hw Hq. apply request_of_call in Hw as (h & x & t & Eh & <- & Ex).
  destruct x as [|c| | | | |]; cbn [requests_of] in Ex; try (injection Ex as <-; discriminate Hq).
  destruct (command_payload c) as [body|] eqn:Ep; [|discriminate]. injection Ex as <-.
  destruct (rtc_invariant journal _ _ step_journal Hr empty_journal h c t Eh) as [(h0 & -> & Hn & _) Hs].
  cbn [bk_get_order_by_client_order_id alpaca_broker] in Hn.
  apply order_request_fails in Hn as (r & Ha & Hr404); [|by left]. apply body_not_found in Hr404.
  exists c, (wire_of h0), r. rewrite wire_of_snoc. by split_and!.
Qed.
End service.

(** ** An echoed command is recognised *)

(** What the order entity of the broker is documented to repeat: the fields of
    the command as they were sent, and the two legs of a bracket. *)
Record echoes_leg (kind price : string) (c : CommandBody) (d : option decimal) (m : list (string * pyval)) : Prop := {
  el_id : is_some (dict_get "id" m);
  el_side : dict_get "side" m = Some (PStr "sell");
  el_type : dict_get "type" m = Some (PStr kind);
  el_qty : dict_get "qty" m = Some (PStr (pretty (cb_quantity c)));
  el_filled : dict_get "filled_qty" m = Some (PStr "0");
  el_price : ∀ x, d = Some x → dict_get price m = Some (PStr (decimal_f x));
  el_other : ∀ k, k ∈ ["limit_price"; "stop_price"]%string → k ≠ price → dict_or_none k m = PNone;
}.
Record echoes (c : CommandBody) (m : list (string * pyval)) : Prop := {
  ec_finite : has_nan (PDict m) = false;
  ec_id : is_some (dict_get "id" m);
  ec_client : dict_get "client_order_id" m = Some (PStr (cb_client_order_id c));
  ec_symbol : dict_get "symbol" m = Some (PStr (cb_symbol c));
  ec_side : dict_get "side" m = Some (PStr (OrderSide_value (cb_side c)));
  ec_type : dict_get "type" m = Some (PStr (OrderType_value (cb_order_type c)));
  ec_tif : dict_get "time_in_force" m = Some (PStr (TimeInForce_value (cb_time_in_force c)));
  ec_class : dict_get "order_class" m = Some (PStr (OrderClass_value (cb_order_class c)));
  ec_status : ∃ s, dict_get "status" m = Some (PStr (BrokerOrderStatus_value s));
  ec_qty : dict_get "qty" m = Some (PStr (pretty (cb_quantity c)));
  ec_filled : dict_get "filled_qty" m = Some (PStr "0");
  ec_avg : dict_or_none "filled_avg_price" m = PNone;
  ec_limit : dict_or_none "limit_price" m = match cb_limit_price c with Some p => PStr (decimal_f p) | None => PNone end;
  ec_stop : dict_or_none "stop_price" m = match cb_stop_price c with Some p => PStr (decimal_f p) | None => PNone end;
  ec_updated : ∃ s t, dict_get "updated_at" m = Some (PStr s) ∧ fromisoformat (replace_Z s) = Some t;
  ec_submitted : dict_or_none "submitted_at" m = PNone;
  ec_legs : match cb_order_class c with
            | OC_BRACKET => ∃ tp sl, dict_get "legs" m = Some (PSeq [PDict tp; PDict sl]) ∧
                echoes_leg "limit" "limit_price" c (cb_take_profit_limit_price c) tp ∧
                echoes_leg "stop" "stop_price" c (cb_stop_loss_stop_price c) sl
            | OC_SIMPLE => dict_or_none "legs" m = PNone
            end;
}.

Lemma sent_decimal d : _decimal (PStr (decimal_f d)) = Ok (Some (Finite (positional d))).
Proof.
  pose proof (decimal_f_nonempty d) as Hn. unfold _decimal. destruct (decimal_f d) as [|a s] eqn:E; [done|].
  change (py_str (PStr (String a s))) with (String a s). by rewrite <- E, decimal_text.
Qed.
Lemma sent_opt o v : v = match o with Some p => PStr (decimal_f p) | None => PNone end →
  _decimal v = Ok (option_map (λ p, Finite (positional p)) o) ∧
  opt_decimal_field (option_map (λ p, Finite (positional p)) o) = Ok (option_map positional o).
Proof. intros ->. destruct o as [p|]; [|done]. by rewrite sent_decimal. Qed.
Lemma sent_quantity z : 0 <= z → Decimal_of (pretty z) = Ok (Finite (dec.of_Z z)).
Proof. intros Hz. unfold Decimal_of. by rewrite pretty_digits, parse_digits by done. Qed.

Lemma present_at k m : is_some (dict_get k m) → ∃ v, dict_at k m = Ok v.
Proof. unfold dict_at. destruct (dict_get k m); [by eexists | done]. Qed.

(** One check of a chain, with the value it gives. *)
Ltac pass E := eapply bind_returns_with; [exact E|]; cbv beta.

(** The last check, of the model itself. *)
Tactic Notation "pass_check" constr(ok) "as" ident(H) :=
  match goal with |- context [if ok ?x then _ else _] => assert (ok x = true) as H; [|rewrite H] end.

Lemma echoed_leg kind price c x m (limit stop : option decimal) :
  0 < cb_quantity c → money_ok x = true → echoes_leg kind price c (Some x) m →
  (price = "limit_price"%string ∧ limit = Some x ∧ stop = None ∨
   price = "stop_price"%string ∧ limit = None ∧ stop = Some x) →
  ∃ l, normalize_leg (PDict m) = Ok l ∧ BrokerOrderLeg_ok l = true ∧ lg_side l = "sell"%string ∧ lg_order_type l = kind ∧
    lg_quantity l = dec.of_Z (cb_quantity c) ∧ lg_limit_price l = option_map positional limit ∧
    lg_stop_price l = option_map positional stop.
Proof.
  intros Hq Hx [Hid Hside Htype Hqty Hfilled Hprice Hother] Hp.
  assert (dict_or_none "limit_price" m = match limit with Some p => PStr (decimal_f p) | None => PNone end ∧
          dict_or_none "stop_price" m = match stop with Some p => PStr (decimal_f p) | None => PNone end) as [Hl Hs].
  { destruct Hp as [(-> & -> & ->)|(-> & -> & ->)];
      (rewrite (dict_or_none_some _ _ _ (Hprice x eq_refl)), Hother; [done | set_solver | done]). }
  apply sent_opt in Hl as [El Fl], Hs as [Es Fs]. apply present_at in Hid as [id Hid].
  cbn [normalize_leg]. pass Hid. rewrite (dict_get_or_some _ _ _ _ Hqty), (dict_get_or_some _ _ _ _ Hfilled).
  rewrite (dict_get_or_some _ _ _ _ Hside), (dict_get_or_some _ _ _ _ Htype).
  pass (sent_quantity (cb_quantity c) ltac:(lia)). pass (eq_refl (Decimal_of "0")). pass El. pass Es.
  pass (eq_refl (decimal_field (Finite (dec.of_Z (cb_quantity c))))). pass (eq_refl (decimal_field (Finite (Dec 0 0)))).
  pass Fl. pass Fs.
  pass_check BrokerOrderLeg_ok as Hok; [|eexists; split; [reflexivity|]; by split_and!].
  unfold BrokerOrderLeg_ok. cbn [lg_limit_price lg_stop_price].
  destruct Hp as [(_ & -> & ->)|(_ & -> & ->)]; cbn [option_map opt_ok]; by rewrite positional_money.
Qed.


Lemma positional_same d : py_eqb (Some (positional d)) (Some d) = true.
Proof. apply deqb_spec, positional_value. Qed.

(** The legs of the echoed order: none is asked of a simple order. *)
Definition legs_match (c : CommandBody) (l : list BrokerOrderLeg) : Prop :=
  match cb_order_class c with
  | OC_SIMPLE => True
  | OC_BRACKET => len l = 2 ∧ len (filter (λ x, take_profit_leg c x = true) l) = 1 ∧
      len (filter (λ x, stop_loss_leg c x = true) l) = 1
  end.

Lemma echoed_legs c m :
  0 < cb_quantity c → validate_shape c = true →
  opt_ok money_ok (cb_take_profit_limit_price c) = true → opt_ok money_ok (cb_stop_loss_stop_price c) = true →
  echoes c m →
  ∃ l, normalize_legs (dict_or_none "legs" m) = Ok l ∧ forallb BrokerOrderLeg_ok l = true ∧ legs_match c l.
Proof.
  intros Hq Hv Htp Hsl He. pose proof (ec_legs _ _ He) as Hl. unfold validate_shape in Hv. unfold legs_match.
  destruct (cb_order_class c); [|rewrite Hl; by exists []].
  destruct Hl as (tp & sl & Hl & Htpl & Hsll). rewrite (dict_or_none_some _ _ _ Hl).
  destruct (cb_take_profit_limit_price c) as [p|] eqn:Ep; [|by destruct (cb_limit_price c); bool_to_prop].
  destruct (cb_stop_loss_stop_price c) as [q|] eqn:Eq; [|by destruct (cb_limit_price c); bool_to_prop].
  eapply echoed_leg in Htpl as (l1 & E1 & Ok1 & S1 & T1 & Q1 & L1 & P1); [|done..|by left].
  eapply echoed_leg in Hsll as (l2 & E2 & Ok2 & S2 & T2 & Q2 & L2 & P2); [|done..|by right].
  exists [l1; l2]. split; [|split; [simpl; by rewrite Ok1, Ok2|]].
  { unfold normalize_legs. cbn [truthy nonempty negb map_result]. by rewrite E1, E2. }
  assert (take_profit_leg c l1 = true ∧ stop_loss_leg c l1 = false ∧
          take_profit_leg c l2 = false ∧ stop_loss_leg c l2 = true) as (A1 & B1 & A2 & B2).
  { unfold take_profit_leg, stop_loss_leg. rewrite S1, S2, T1, T2, Q1, Q2, L1, P2, Ep, Eq. cbn [option_map].
    rewrite !positional_same. assert ((dec.of_Z (cb_quantity c) =? dec.of_Z (cb_quantity c))%dec = true) as ->; [|done].
    apply deqb_spec. reflexivity. }
  rewrite !filter_cons, !filter_nil. rewrite A1, B1, A2, B2. done.
Qed.

Lemma positive_money_ok o : opt_ok positive_money o = true → opt_ok money_ok o = true.
Proof. destruct o as [d|]; [|done]. cbn [opt_ok]. unfold positive_money. by intros [? _]%andb_true_iff. Qed.

Lemma echoed_matches c h m o l :
  echoes c m → legs_match c l → os_legs o = l →
  os_client_order_id o = cb_client_order_id c → os_symbol o = cb_symbol c → os_side o = cb_side c →
  os_order_type o = cb_order_type c → os_time_in_force o = TimeInForce_value (cb_time_in_force c) →
  os_order_class o = OrderClass_value (cb_order_class c) → os_quantity o = dec.of_Z (cb_quantity c) →
  os_limit_price o = option_map positional (cb_limit_price c) →
  os_stop_price o = option_map positional (cb_stop_price c) →
  matches {| co_body := c; co_command_hash := h |} o = true.
Proof.
  intros He Hl El E1 E2 E3 E4 E5 E6 E7 E8 E9. unfold matches. cbn [co_body]. cbv zeta.
  assert (identity_matches c o = true) as ->.
  { unfold identity_matches, prices_match. rewrite E1, E2, E3, E4, E5, E6, E7, E8, E9, !String.eqb_refl, !bool_decide_eq_true_2 by done.
    assert ((dec.of_Z (cb_quantity c) =? dec.of_Z (cb_quantity c))%dec = true) as -> by (by apply deqb_spec).
    destruct (cb_limit_price c), (cb_stop_price c); cbn [option_map]; rewrite ?positional_same; done. }
  rewrite El. unfold legs_match in Hl. destruct (cb_order_class c); [|done].
  destruct Hl as (-> & -> & ->). done.
Qed.

Lemma status_text s : BrokerOrderStatus_of (BrokerOrderStatus_value s) = Ok s.
Proof. by destruct s. Qed.
Lemma side_text s : OrderSide_of (OrderSide_value s) = Ok s.
Proof. by destruct s. Qed.
Lemma type_text s : OrderType_of (OrderType_value s) = Ok s.
Proof. by destruct s. Qed.

Lemma echoed_update c m t : echoes c m → ∃ u, _parse_timestamp (dict_or_none "updated_at" m) t = Ok u.
Proof.
  intros He. destruct (ec_updated _ _ He) as (us & u & Hus & Hu). rewrite (dict_or_none_some _ _ _ Hus).
  unfold _parse_timestamp, parse_iso. destruct (negb (truthy _)); [by exists t|]. cbn [py_str]. rewrite Hu. destruct u. by eexists.
Qed.

Lemma opt_positional_money o : opt_ok money_ok o = true → opt_ok money_ok (option_map positional o) = true.
Proof. destruct o as [d|]; [|done]. apply positional_money. Qed.

Lemma whole_quantity z : 0 < z → positive_dec (dec.of_Z z) = true ∧ (Dec 0 0 <=? dec.of_Z z)%dec = true.
Proof.
  intros Hz. unfold positive_dec. rewrite dltb_spec, dleb_spec, dval_of_Z.
  assert (dval dec.zero == 0)%Q as -> by reflexivity. assert (dval (Dec 0 0) == 0)%Q as -> by reflexivity.
  split; [by apply inject_Z_pos | apply Qlt_le_weak; by apply inject_Z_pos].
Qed.


(** ** Market orders *)

(** The adapter knows limit and stop orders only. *)
Lemma market_order_refused m t : dict_get "type" m = Some (PStr "market") → ∃ e, normalize_order m t = Err e.
Proof.
  intros Ht. destruct (normalize_order m t) as [o|e] eqn:E; [|by eexists]. exfalso. unfold normalize_order in E.
  do 8 apply bind_Ok in E as (? & _ & E). apply bind_Ok in E as (ty & Hty & E).
  rewrite (dict_at_some _ _ _ Ht) in Hty. injection Hty as <-. apply bind_Ok in E as (? & [=] & _).
Qed.

(** One market order among the orders of the account, such as the flatten
    step's own closing orders, and list_orders returns none of them. *)
Lemma market_order_fails_list status w w' orders row :
  list_orders status w = (Ok orders, w') →
  ∀ r, sv_answer w (GET "/v2/orders" [("status", status); ("nested", "true")]%string) = Answered r →
  hr_json r = Some (PSeq row) → is_error r = false → no_content r = false →
  Forall (λ v, ∀ m, v = PDict m → dict_get "type" m ≠ Some (PStr "market")) row.
Proof.
  intros E r Ha Hj He Hn. unfold list_orders in E. apply eff_bind_Ok in E as (rows & w1 & E1 & E2).
  unfold _request_list in E1. rewrite eff_bind_unfold, response_body_run, Ha, He, Hn, Hj in E1.
  destruct (hr_status_code r =? 404); [done|]. apply lift_Ok in E1 as [E1 ->].
  unfold payload_guard, try_except, now, gets, lift in E2. rewrite eff_bind_unfold in E2.
  apply map_result_Forall2 in E1. apply Forall_forall. intros v Hv m -> Ht.
  apply list_elem_of_lookup_1 in Hv as [i Hi]. eapply Forall2_lookup_l in E1 as (x & Hx & Ex); [|exact Hi].
  injection Ex as <-.
  destruct (map_result _ rows) as [l|e] eqn:El; [|by destruct (is_payload_error e)].
  apply map_result_Forall2 in El. eapply Forall2_lookup_l in El as (o & _ & Eo); [|exact Hx].
  destruct (market_order_refused m (sv_now (w ++ [GET "/v2/orders" [("status", status); ("nested", "true")]%string])) Ht) as [e Ee].
  congruence.
Qed.
End contract.

(** ** A sample server

    It keeps no state: a POST is answered with the order entity of its body, a
    lookup with 404 until there was a POST. *)

Definition field (k : string) (m : list (string * pyval)) : pyval := dict_or_none k m.
Definition sub_field (k k' : string) (m : list (string * pyval)) : pyval :=
  match field k m with PDict m' => field k' m' | _ => PNone end.
Definition sample_leg_entity (id kind price : string) (qty value : pyval) : pyval :=
  PDict [("id", PStr id); ("side", PStr "sell"); ("type", PStr kind); ("status", PStr "held"); ("qty", qty);
    ("filled_qty", PStr "0"); (price, value)]%string.
Definition sample_entity (m : list (string * pyval)) : list (string * pyval) :=
  [("id", PStr "order-1"); ("client_order_id", field "client_order_id" m); ("symbol", field "symbol" m);
   ("side", field "side" m); ("type", field "type" m); ("time_in_force", field "time_in_force" m);
   ("order_class", dict_get_or "order_class" (PStr "simple") m); ("status", PStr "new"); ("qty", field "qty" m);
   ("filled_qty", PStr "0"); ("limit_price", field "limit_price" m); ("stop_price", field "stop_price" m);
   ("updated_at", PStr "2026-01-05T14:30:05.5Z");
   ("legs", if is_none (field "take_profit" m) then PNone else PSeq
      [sample_leg_entity "leg-1" "limit" "limit_price" (field "qty" m) (sub_field "take_profit" "limit_price" m);
       sample_leg_entity "leg-2" "stop" "stop_price" (field "qty" m) (sub_field "stop_loss" "stop_price" m)])]%string.
Definition answer_200 (v : pyval) : HttpOutcome :=
  Answered {| hr_status_code := 200; hr_empty := false; hr_json := Some v; hr_request_id := None |}.
Definition answer_404 : HttpOutcome := Answered {| hr_status_code := 404; hr_empty := true; hr_json := None; hr_request_id := None |}.

(** [post m]: the answer to a POST of the body [m]. *)
Definition server_with (post : list (string * pyval) → HttpOutcome) : Server :=
  {| sv_answer w q := match hq_json q with Some (PDict m) => post m | _ => answer_404 end;
     sv_now _ := 1767623405500000 |}.
Definition sample_server : Server := server_with (λ m, answer_200 (PDict (sample_entity m))).

#[local] Instance sample_container : ContainerText := λ _, ""%string.
#[local] Instance sample_iso : FromIso := λ _, Some (1767623405500000, Some 0).
#[local] Instance sample_uuid : Uuid5 := λ s, string_take 32 (canonical_sha256 (PStr s)).
#[local] Instance sample_error : CommandError := λ _, ""%string.
#[local] Instance sample_dump {A} : Dump A := null_dump.

Definition alpaca_submission (server : Server) : result ExecutionResult * World :=
  submit (H := @alpaca_broker _ _ _ server) sample_execution sample_now empty_world.

Definition report_of (x : result ExecutionResult * World) : option (ExecutionOutcome * list ExecutionRejectionCode * bool) * nat :=
  (match x.1 with Ok r => Some (xs_outcome r, xs_rejection_reasons r, xs_reconciliation_required r) | Err _ => None end,
   length (w_calls x.2)).

Example alpaca_submits : report_of (alpaca_submission sample_server) = (Some (XO_SUBMITTED, [], false), 2%nat).
Proof. vm_compute. reflexivity. Qed.

(** The POST is answered 200 with a JSON array: the order may be live, the
    service reports a rejection and asks for no reconciliation. *)
Example live_order_reported_rejected :
  report_of (alpaca_submission (server_with (λ m, answer_200 (PSeq [PDict (sample_entity m)]))))
  = (Some (XO_REJECTED, [XR_BROKER_REJECTED], false), 2%nat).
Proof. vm_compute. reflexivity. Qed.

(** The POST is answered 200 with a quantity that is no number: the error is
    not a ValueError, escapes the adapter and the service, and no result is
    recorded, although the comment there says the caller must reconcile. *)
Example malformed_quantity_escapes :
  let answer m := answer_200 (PDict (("qty", PStr "ten") :: filter (λ kv, kv.1 ≠ "qty") (sample_entity m))%string) in
  (alpaca_submission (server_with answer)).1 = Err EInvalidOperation ∧
  er_results (w_repo (alpaca_submission (server_with answer)).2) = ∅.
Proof. vm_compute. split; reflexivity. Qed.

(** ** Witnesses *)

Definition sample_bracket : BrokerOrderCommand :=
  {| co_body := {| cb_command_id := "command-1"; cb_execution_id := "execution-1"; cb_client_order_id := "DB-20260105-1";
       cb_symbol := "ABC"; cb_quantity := 40; cb_side := OS_BUY; cb_order_type := OT_LIMIT; cb_time_in_force := TF_DAY;
       cb_order_class := OC_BRACKET; cb_limit_price := Some (Dec 1025 (-2)); cb_stop_price := None;
       cb_take_profit_limit_price := Some (Dec 12 0); cb_stop_loss_stop_price := Some (Dec 975 (-2));
       cb_parent_client_order_id := None |};
     co_command_hash := sample_hash |}.
Definition sample_payload : list (string * pyval) :=
  match command_payload sample_bracket with Ok (PDict m) => m | _ => [] end.

Lemma sample_uuid_length s : between 8 64 (str_len (uuid5_hex s)) = true.
Proof.
  unfold uuid5_hex, sample_uuid, string_take. pose proof (canonical_sha256_pattern (PStr s)) as Hp.
  unfold hash_pattern in Hp. apply andb_true_iff in Hp as [Hp _]. generalize dependent (canonical_sha256 (PStr s)).
  intros h Hh. apply Nat.eqb_eq in Hh || apply Z.eqb_eq in Hh.
  unfold str_len. rewrite <- length_text_of, text_of_substring, drop_0, length_take, length_text_of.
  unfold between. rewrite andb_true_iff, !Z.leb_le. lia.
Qed.


(** The POST of the bracket, alone on the wire. *)
Definition sample_post_request : HttpRequest := POST "/v2/orders" (PDict sample_payload).
Lemma sample_answered : is_ok (order_request (H2 := sample_server) sample_post_request []).1 = true.
Proof. vm_compute. reflexivity. Qed.

Lemma orders_certified_witness :
  ∃ o r m id, (order_request (H2 := sample_server) sample_post_request []).1 = Ok o ∧
    @sv_answer sample_server [] sample_post_request = Answered r ∧ is_error r = false ∧ hr_json r = Some (PDict m) ∧
    BrokerOrderSnapshot_ok o = true ∧ os_raw_response o = PDict m ∧
    os_raw_response_hash o = canonical_sha256 (PDict m) ∧ dict_get "id" m = Some id ∧ os_broker_order_id o = py_str id.
Proof.
  pose proof (get_ok_eq _ sample_answered) as E.
  destruct (orders_certified (H2 := sample_server) sample_post_request [] _ E) as (r & m & id & Hall).
  exists (get_ok _ sample_answered), r, m, id. split; [exact E | exact Hall].
Defined.

Lemma alpaca_post :
  match w_calls (alpaca_submission sample_server).2 with
  | [CLookup id; CSubmit c] => is_ok (command_payload c)
  | _ => false
  end = true.
Proof. vm_compute. reflexivity. Qed.

Lemma posts_follow_404_witness :
  ∃ lookup q c r, wire_of (w_calls (alpaca_submission sample_server).2) = [lookup; q] ∧
    command_payload c = Ok (default PNone (hq_json q)) ∧
    @sv_answer sample_server [] lookup = Answered r ∧ hr_status_code r = 404.
Proof.
  pose proof alpaca_post as Hp.
  destruct (w_calls (alpaca_submission sample_server).2) as [|[id| | | | | |] [|[|c| | | | |] [|? ?]]] eqn:E; try discriminate Hp.
  destruct (command_payload c) as [body|e] eqn:Ec; [|discriminate Hp].
  assert (wire_of (w_calls (alpaca_submission sample_server).2) = requests_of (CLookup id) ++ POST "/v2/orders" body :: []) as Ew.
  { rewrite E. unfold wire_of. cbn [map concat requests_of]. by rewrite Ec. }
  destruct (posts_follow_404 (H2 := sample_server) (alpaca_submission sample_server).2 (requests_of (CLookup id))
    (POST "/v2/orders" body) []) as (c' & a0 & r & Hc & _ & _ & Ha & Hr & H404); [|exact Ew|reflexivity|].
  { exact (rtc_once _ _ (step_submit (H := @alpaca_broker sample_container sample_iso sample_uuid sample_server)
      sample_execution sample_now empty_world)). }
  destruct a0 as [|? [|? ?]]; [|discriminate Ha..]. rewrite E in Ew. injection Ha as ->.
  eexists _, (POST "/v2/orders" body), c', r. split_and!; [|exact Hc|exact Hr|exact H404].
  exact Ew.
Defined.
