(* ===== verification/AlpacaOps.v ===== *)
(** * AlpacaOps: flattening and probing the paper account over HTTP

    AlpacaPaperOperations of daybreak_orchestration/alpaca_ops.py: which orders
    of the account are Daybreak's, the net position they built, what is
    cancelled and closed.  The server and the clock are those of Alpaca.v.  The
    attributes of AlpacaOperationsError are a record here; once raised it is
    told apart by its name and text only. *)
From Stdlib Require Import Ascii String QArith.
From S2P Require Import Prelude Numerics PyStr PyTime Contracts Canonical RiskModels ExecModels OrchModels OrchEnv PyVal Alpaca.

#[local] Open Scope Z_scope.

Record OpsFailure := { of_message : string; of_transient : bool; of_status_code : option Z }.
Definition AlpacaOperationsError (f : OpsFailure) : exn := EOther "AlpacaOperationsError" (of_message f).

(** A decimal that need not be finite. *)
Definition num_of (s : string) : result dnum :=
  match parse_decimal s with DMalformed => Err EInvalidOperation | x => Ok x end.
Definition num_neg (x : dnum) : dnum :=
  match x with DFinite d => DFinite (dec.neg d) | DInfinite b => DInfinite (negb b) | _ => x end.
Definition num_abs (x : dnum) : dnum :=
  match x with DFinite d => DFinite (dec.abs d) | DInfinite _ => DInfinite false | _ => x end.
Definition num_add (x y : dnum) : result dnum :=
  match x, y with
  | DFinite a, DFinite b => Ok (DFinite (dec.add a b))
  | DInfinite a, DInfinite b => if Bool.eqb a b then Ok x else Err EInvalidOperation
  | DInfinite _, DFinite _ => Ok x
  | DFinite _, DInfinite _ => Ok y
  | _, _ => Ok DNaN
  end.

(** [order.get('legs') or []], as far as its elements are dicts: the
    characters of a text and the keys of a dict are none. *)
Definition leg_values (v : pyval) : result (list pyval) :=
  if negb (truthy v) then Ok []
  else match v with PSeq l => Ok l | PStr _ | PDict _ => Ok [] | _ => Err ETypeError end.
Definition dicts_of (l : list pyval) : list (list (string * pyval)) :=
  omap (λ v, match v with PDict m => Some m | _ => None end) l.
Definition order_legs (order : list (string * pyval)) : result (list (list (string * pyval))) :=
  l ← leg_values (dict_or_none "legs" order); Ok (dicts_of l).

Section ops.
Context `{ContainerText} `{FromIso} `{Server}.
Abbreviation dict := (list (string * pyval)).

(** The checks of [__init__]. *)
Definition operations_init (base_url api_key secret_key : string) : result unit :=
  if negb (String.eqb (rstrip_slash base_url) PAPER_BASE_URL) then
    Err (EValue "Project Daybreak v1.0.2 permits only the Alpaca paper endpoint")
  else if String.eqb api_key "" || String.eqb secret_key "" then Err (EValue "Alpaca paper credentials are required")
  else Ok tt.

(** ** Requests *)

(** [_request]: the failure of the server or the body, with [last_request_id]. *)
Definition request_outcome (q : HttpRequest) : eff wire (OpsFailure + pyval * option string) :=
  outcome ← send q;
  match outcome with
  | TimedOut | NetworkFailed => mret (inl {| of_message := ""; of_transient := true; of_status_code := None |})
  | ClientFailed kind => raise (EOther kind "")
  | Answered r =>
      if is_error r then
        mret (inl {| of_message := "Alpaca returned HTTP " +:+ pretty (hr_status_code r);
                     of_transient := is_transient_status (hr_status_code r);
                     of_status_code := Some (hr_status_code r) |})
      else if no_content r then mret (inr (PNone, hr_request_id r))
      else match hr_json r with
           | None => mret (inl {| of_message := "Alpaca returned malformed JSON"; of_transient := true;
                                  of_status_code := Some (hr_status_code r) |})
           | Some data => mret (inr (data, hr_request_id r))
           end
  end.
Definition ops_request (q : HttpRequest) : eff wire (pyval * option string) :=
  r ← request_outcome q;
  match r with inl f => raise (AlpacaOperationsError f) | inr x => mret x end.

Definition shape_error (msg : string) : exn :=
  AlpacaOperationsError {| of_message := msg; of_transient := false; of_status_code := None |}.
Definition object_or (msg : string) (v : pyval) : result dict :=
  match v with PDict m => Ok m | _ => Err (shape_error msg) end.

Definition get_account : eff wire (dict * option string) :=
  '(data, id) ← ops_request (GET "/v2/account" []);
  m ← lift (object_or "account response was not an object" data); mret (m, id).
Definition get_clock : eff wire (dict * option string) :=
  '(data, id) ← ops_request (GET "/v2/clock" []);
  m ← lift (object_or "clock response was not an object" data); mret (m, id).

Definition _prefix (plan : SessionPlan) : string := "DB-" +:+ date_compact (pl_trading_date plan) +:+ "-".

Definition orders_request (status : string) (after : datetime) : HttpRequest :=
  GET "/v2/orders" [("status", status); ("limit", "500"); ("nested", "true"); ("direction", "asc");
                    ("after", datetime_iso after)]%string.
Definition _orders (status : string) (after : datetime) : eff wire (list dict) :=
  '(data, _) ← ops_request (orders_request status after);
  match data with
  | PSeq l => lift (map_result (object_or "order entry was not an object") l)
  | _ => raise (shape_error "orders response was not an array")
  end.

(** ** Which orders are Daybreak's *)

Definition text_field (k : string) (order : dict) : string := py_str (dict_get_or k (PStr "") order).
(** [order.get('id')], when it is truthy. *)
Definition id_of (order : dict) : option string :=
  let v := dict_or_none "id" order in if truthy v then Some (py_str v) else None.
Definition has_prefix (prefix : string) (order : dict) : bool :=
  String.prefix prefix (text_field "client_order_id" order).

Definition add_id (order : dict) (owned : gset string) : gset string :=
  match id_of order with Some id => {[id]} ∪ owned | None => owned end.
Definition add_ids (orders : list dict) (owned : gset string) : gset string :=
  fold_left (λ owned order, add_id order owned) orders owned.

(** The ids of prefixed orders; then of their legs, where the orders are
    visited in turn and an id found on the way counts for those after it; then
    of the orders whose parent is owned, in the same way: [set.update] takes
    the ids from the generator one by one. *)
Definition prefixed_ids (prefix : string) (orders : list dict) : gset string :=
  add_ids (filter (λ o, has_prefix prefix o = true) orders) ∅.
Fixpoint with_legs (orders : list dict) (owned : gset string) : result (gset string) :=
  match orders with
  | [] => Ok owned
  | order :: rest =>
      if decide (text_field "id" order ∈ owned) then
        legs ← order_legs order; with_legs rest (add_ids legs owned)
      else with_legs rest owned
  end.
Definition with_children (orders : list dict) (owned : gset string) : gset string :=
  fold_left (λ owned order,
    if decide (text_field "parent_order_id" order ∈ owned) then add_id order owned else owned) orders owned.
Definition owned_ids (prefix : string) (orders : list dict) : result (gset string) :=
  owned ← with_legs orders (prefixed_ids prefix orders);
  Ok (with_children orders owned).

(** ** discover_daybreak_targets *)

(** The dict [net], in insertion order. *)
Fixpoint net_get (symbol : string) (net : list (string * dnum)) : dnum :=
  match net with
  | [] => DFinite dec.zero
  | (s, x) :: rest => if String.eqb s symbol then x else net_get symbol rest
  end.
Fixpoint net_set (symbol : string) (x : dnum) (net : list (string * dnum)) : list (string * dnum) :=
  match net with
  | [] => [(symbol, x)]
  | (s, y) :: rest => if String.eqb s symbol then (s, x) :: rest else (s, y) :: net_set symbol x rest
  end.

Record Fills := { fi_net : list (string * dnum); fi_seen : gset string }.

Definition signed_fill (order : dict) : result dnum :=
  filled ← num_of (py_str (or_else (dict_get_or "filled_qty" (PStr "0") order) (PStr "0")));
  Ok (if String.eqb (text_field "side" order) "buy" then filled else num_neg filled).

Definition apply_fill (owned : gset string) (s : Fills) (order : dict) (parent_symbol : string) : result Fills :=
  let order_id := text_field "id" order in
  if String.eqb order_id "" || bool_decide (order_id ∈ fi_seen s) || negb (bool_decide (order_id ∈ owned)) then Ok s
  else
    let seen := {[order_id]} ∪ fi_seen s in
    let symbol := py_str (or_else (dict_or_none "symbol" order) (PStr parent_symbol)) in
    if String.eqb symbol "" then Ok {| fi_net := fi_net s; fi_seen := seen |}
    else
      fill ← signed_fill order;
      x ← num_add (net_get symbol (fi_net s)) fill;
      Ok {| fi_net := net_set symbol x (fi_net s); fi_seen := seen |}.

Fixpoint apply_legs (owned : gset string) (symbol : string) (legs : list dict) (s : Fills) : result Fills :=
  match legs with
  | [] => Ok s
  | leg :: rest => s' ← apply_fill owned s leg symbol; apply_legs owned symbol rest s'
  end.
Fixpoint apply_orders (owned : gset string) (orders : list dict) (s : Fills) : result Fills :=
  match orders with
  | [] => Ok s
  | order :: rest =>
      s' ← apply_fill owned s order "";
      legs ← order_legs order;
      s'' ← apply_legs owned (text_field "symbol" order) legs s';
      apply_orders owned rest s''
  end.

(** [quantity > 0] and the model of the target. *)
Definition target_for (kv : string * dnum) : result (option ManagedPositionTarget) :=
  match kv.2 with
  | DFinite q =>
      if (dec.zero <? q)%dec then
        let t := {| mt_symbol := kv.1; mt_quantity := q; mt_source := MT_BROKER_ORDER_RECONSTRUCTION |} in
        if ManagedPositionTarget_ok t then Ok (Some t) else Err (EValidation "ManagedPositionTarget")
      else Ok None
  | DInfinite true => Ok None
  | DInfinite false => Err (EValidation "ManagedPositionTarget")
  | DNaN | DMalformed => Err EInvalidOperation
  end.

Definition symbol_le (a b : string * dnum) : bool := string_leb a.1 b.1.
Definition targets_of (prefix : string) (orders : list dict) : result (list ManagedPositionTarget) :=
  owned ← owned_ids prefix orders;
  s ← apply_orders owned orders {| fi_net := []; fi_seen := ∅ |};
  l ← map_result target_for (sorted_by symbol_le (fi_net s));
  Ok (omap (M := list) (λ t, t) l).

Definition discover_daybreak_targets (plan : SessionPlan) : eff wire (list ManagedPositionTarget) :=
  orders ← _orders "all" (pl_recorder_warmup_at plan);
  lift (targets_of (_prefix plan) orders).

(** ** cancel_daybreak_orders *)

(** [owned_ids] of the cancellation: the prefixed orders with their legs, then
    the children. *)
Fixpoint cancel_owned (prefix : string) (orders : list dict) (owned : gset string) : result (gset string) :=
  match orders with
  | [] => Ok owned
  | order :: rest =>
      if has_prefix prefix order then
        legs ← order_legs order;
        cancel_owned prefix rest (add_ids legs (add_id order owned))
      else cancel_owned prefix rest owned
  end.
Definition is_owned (prefix : string) (owned : gset string) (order : dict) : bool :=
  bool_decide (text_field "id" order ∈ owned) || has_prefix prefix order
  || bool_decide (text_field "parent_order_id" order ∈ owned).
Fixpoint cancel_each (prefix : string) (owned : gset string) (orders : list dict) (count : Z) : eff wire Z :=
  match orders with
  | [] => mret count
  | order :: rest =>
      if negb (is_owned prefix owned order) then cancel_each prefix owned rest count
      else
        let order_id := text_field "id" order in
        if String.eqb order_id "" then raise (shape_error "Daybreak order missing broker id")
        else
          ops_request (DELETE ("/v2/orders/" +:+ order_id) []) ;;
          cancel_each prefix owned rest (count + 1)
  end.
Definition cancel_daybreak_orders (plan : SessionPlan) : eff wire Z :=
  all_orders ← _orders "all" (pl_recorder_warmup_at plan);
  owned ← lift (cancel_owned (_prefix plan) all_orders ∅);
  open_ ← _orders "open" (pl_recorder_warmup_at plan);
  cancel_each (_prefix plan) (with_children all_orders owned) open_ 0.

(** ** list_positions and close_position *)

Definition SessionPosition_ok (p : SessionPosition) : bool :=
  is_canonical_ticker (sp_symbol p) && positive_dec (sp_quantity p)
  && opt_ok positive_dec (sp_average_entry_price p) && hash_pattern (sp_raw_response_hash p).
Definition FlattenOrder_ok (o : FlattenOrder) : bool :=
  is_canonical_ticker (fo_symbol o) && positive_dec (fo_quantity o) && hash_pattern (fo_raw_response_hash o).

(** [min(account_quantity, target.quantity)]. *)
Definition capped (account : dnum) (target : decimal) : result decimal :=
  match account with
  | DFinite a => Ok (dec.min a target)
  | DInfinite _ => Ok target
  | DNaN | DMalformed => Err EInvalidOperation
  end.
Definition session_position (observed_at : datetime) (target : ManagedPositionTarget) (raw : dict)
    : result (option SessionPosition) :=
  account ← num_of (py_str (dict_get_or "qty" (PStr "0") raw));
  quantity ← capped (num_abs account) (mt_quantity target);
  if (quantity <=? dec.zero)%dec then Ok None
  else
    symbol ← dict_at "symbol" raw;
    price ← _decimal (dict_or_none "avg_entry_price" raw);
    price ← opt_decimal_field price;
    let p := {| sp_symbol := py_str symbol; sp_quantity := quantity; sp_average_entry_price := price;
      sp_observed_at := observed_at; sp_raw_response_hash := orch_sha256 (PDict raw) |} in
    if SessionPosition_ok p then Ok (Some p) else Err (EValidation "SessionPosition").

Definition position_of (observed_at : datetime) (target : ManagedPositionTarget) : eff wire (option SessionPosition) :=
  r ← request_outcome (GET ("/v2/positions/" +:+ mt_symbol target) []);
  match r with
  | inl f => if bool_decide (of_status_code f = Some 404) then mret None else raise (AlpacaOperationsError f)
  | inr (data, _) =>
      raw ← lift (object_or "position response was not an object" data);
      lift (session_position observed_at target raw)
  end.
Fixpoint positions_of (observed_at : datetime) (targets : list ManagedPositionTarget) : eff wire (list SessionPosition) :=
  match targets with
  | [] => mret []
  | target :: rest =>
      p ← position_of observed_at target;
      ps ← positions_of observed_at rest;
      mret (match p with Some p => p :: ps | None => ps end)
  end.
Definition list_session_positions (targets : list ManagedPositionTarget) : eff wire (list SessionPosition) :=
  observed_at ← now;
  positions_of observed_at (sorted_by (λ a b, string_leb (mt_symbol a) (mt_symbol b)) targets).

Definition ops_timestamp (value : pyval) (default : datetime) : result datetime :=
  match value with PNone | PStr "" => Ok default | _ => parse_iso (py_str value) end.
Definition flatten_order (position : SessionPosition) (t : datetime) (data : dict) : result FlattenOrder :=
  submitted_at ← ops_timestamp (dict_or_none "submitted_at" data) t;
  id ← dict_at "id" data;
  let client := dict_or_none "client_order_id" data in
  let o := {| fo_symbol := sp_symbol position; fo_quantity := sp_quantity position; fo_broker_order_id := py_str id;
    fo_client_order_id := if is_none client then None else Some (py_str client); fo_submitted_at := submitted_at;
    fo_raw_response_hash := orch_sha256 (PDict data) |} in
  if FlattenOrder_ok o then Ok o else Err (EValidation "FlattenOrder").
Definition close_position (position : SessionPosition) : eff wire FlattenOrder :=
  '(data, _) ← ops_request (DELETE ("/v2/positions/" +:+ sp_symbol position) [("qty", decimal_f (sp_quantity position))%string]);
  data ← lift (object_or "close-position response was not an object" data);
  t ← now;
  lift (flatten_order position t data).

(** ** Probes *)

Definition opt_id (id : option string) : pyval := match id with Some s => PStr s | None => PNone end.
(** [d.get(k, False)], as a bool. *)
Definition flag (k : string) (m : dict) : bool := truthy (dict_get_or k (PBool false) m).
Definition account_eligible (account : dict) : bool :=
  String.eqb (string_upper (text_field "status" account)) "ACTIVE"
  && negb (truthy (dict_or_none "account_blocked" account) || truthy (dict_or_none "trading_blocked" account)).
Definition account_probe : eff wire (bool * string * list (string * pyval)) :=
  '(account, id) ← get_account;
  mret (account_eligible account,
    if account_eligible account then "Paper account is active and unblocked." else "Paper account is not eligible.",
    [("status", PStr (text_field "status" account)); ("account_blocked", PBool (flag "account_blocked" account));
     ("trading_blocked", PBool (flag "trading_blocked" account)); ("request_id", opt_id id)])%string.
Definition clock_probe : eff wire (bool * string * list (string * pyval)) :=
  '(clock, id) ← get_clock;
  mret (is_some (dict_get "timestamp" clock) && is_some (dict_get "next_open" clock) && is_some (dict_get "next_close" clock),
    "Alpaca market clock responded with required fields.",
    [("is_open", PBool (flag "is_open" clock)); ("timestamp", PStr (text_field "timestamp" clock));
     ("next_open", PStr (text_field "next_open" clock)); ("next_close", PStr (text_field "next_close" clock));
     ("request_id", opt_id id)])%string.
End ops.
