(* ===== verification/AlpacaOpsContract.v ===== *)
(** * AlpacaOpsContract: what the flatten step may touch

    The orders cancelled are exactly the open orders that are Daybreak's, the
    targets are the net of its own fills, each counted once, and no position is
    reported or closed beyond its target. *)
From Stdlib Require Import Ascii String QArith Sorted.
From S2P Require Import Prelude Numerics PyStr PyTime Contracts Canonical RiskModels ExecModels OrchModels OrchEnv DecimalText PyVal Alpaca AlpacaOps.

#[local] Open Scope Z_scope.

Section contract.
Context `{ContainerText} `{FromIso} `{Server}.
Abbreviation dict := (list (string * pyval)).

(** ** Requests *)

(** A call that sends [q], whatever comes back. *)
Definition sends {A} (m : eff wire A) (q : HttpRequest) : Prop := ∀ w, (m w).2 = w ++ [q].

Lemma request_outcome_sends q : sends (request_outcome q) q.
Proof.
  intros w. unfold request_outcome. rewrite eff_bind_unfold. unfold send.
  destruct (sv_answer w q) as [r| | |]; [|done..]. destruct (is_error r); [done|].
  destruct (no_content r); [done|]. by destruct (hr_json r).
Qed.

Lemma sends_bind {A B} (m : eff wire A) (f : A → eff wire B) q :
  sends m q → (∀ a w, (f a w).2 = w) → sends (m ≫= f) q.
Proof.
  intros Hm Hf w. rewrite eff_bind_unfold. specialize (Hm w). destruct (m w) as [[a|e] w']; [|done]. by rewrite Hf.
Qed.

Lemma ops_request_sends q : sends (ops_request q) q.
Proof. apply sends_bind; [apply request_outcome_sends|]. by intros [f|x] w. Qed.

Lemma orders_sends status after : sends (_orders status after) (orders_request status after).
Proof. apply sends_bind; [apply ops_request_sends|]. intros [data id] w. by destruct data. Qed.

(** ** What is cancelled *)

Definition delete_order (order : dict) : HttpRequest := DELETE ("/v2/orders/" +:+ text_field "id" order) [].

Lemma cancel_each_run prefix owned orders count w :
  let mine := filter (λ o, is_owned prefix owned o = true) orders in
  ∃ k, (cancel_each prefix owned orders count w).2 = w ++ map delete_order (take k mine) ∧
    ∀ n, (cancel_each prefix owned orders count w).1 = Ok n → (k = length mine)%nat ∧ n = count + len mine.
Proof.
  cbv zeta. revert count w. induction orders as [|order rest IH]; intros count w.
  { exists 0%nat. split; [by rewrite app_nil_r|]. intros n [= <-]. split; [done | unfold len; simpl; lia]. }
  cbn [cancel_each]. rewrite filter_cons. destruct (is_owned prefix owned order) eqn:Eo; cbn [negb].
  2: { rewrite decide_False by discriminate. apply IH. }
  rewrite decide_True by done. destruct (String.eqb (text_field "id" order) "").
  { exists 0%nat. split; [by rewrite app_nil_r | by intros n [=]]. }
  rewrite eff_bind_unfold. pose proof (ops_request_sends (delete_order order) w) as Hs.
  change (DELETE ("/v2/orders/" +:+ text_field "id" order) []) with (delete_order order).
  destruct (ops_request (delete_order order) w) as [[a|e] w1]; cbn [snd] in Hs; subst w1.
  - destruct (IH (count + 1) (w ++ [delete_order order])) as (k & Hw & Hn). exists (S k). split.
    + rewrite Hw. cbn [take map]. by rewrite <- app_assoc.
    + intros n Hr. apply Hn in Hr as [-> ->]. split; [done | unfold len; simpl; lia].
  - exists 1%nat. split; [done | by intros n [=]].
Qed.

(** ** Whose orders *)

(** The ids that are Daybreak's among [orders]: those of orders with the
    session's prefix, of their legs, and of the orders under an owned parent. *)
Inductive mine (prefix : string) (orders : list dict) : string → Prop :=
  | mine_prefixed o id : o ∈ orders → has_prefix prefix o = true → id_of o = Some id → mine prefix orders id
  | mine_leg o legs leg id :
      o ∈ orders → has_prefix prefix o = true ∨ mine prefix orders (text_field "id" o) →
      order_legs o = Ok legs → leg ∈ legs → id_of leg = Some id → mine prefix orders id
  | mine_child o id :
      o ∈ orders → mine prefix orders (text_field "parent_order_id" o) → id_of o = Some id → mine prefix orders id.

Definition all_mine (prefix : string) (orders : list dict) (owned : gset string) : Prop :=
  ∀ id, id ∈ owned → mine prefix orders id.

Lemma elem_of_add_id o owned id : id ∈ add_id o owned ↔ id ∈ owned ∨ id_of o = Some id.
Proof. unfold add_id. destruct (id_of o) as [i|]; [set_solver | naive_solver]. Qed.

Lemma elem_of_add_ids l owned id : id ∈ add_ids l owned ↔ id ∈ owned ∨ ∃ o, o ∈ l ∧ id_of o = Some id.
Proof.
  unfold add_ids. revert owned. induction l as [|o l IH]; intros owned; simpl; [set_solver|].
  rewrite IH, elem_of_add_id. setoid_rewrite elem_of_cons. naive_solver.
Qed.

(** [l] is what is left of the listing. *)
Lemma with_children_mine prefix orders l owned :
  l ⊆ orders → all_mine prefix orders owned → all_mine prefix orders (with_children l owned).
Proof.
  unfold with_children. revert owned. induction l as [|o l IH]; intros owned Hsub Ho; simpl; [done|].
  apply IH; [set_solver|]. case_decide as Hp; [|done]. intros id [Hid|Hid]%elem_of_add_id; [by apply Ho|].
  apply (mine_child _ _ o); [set_solver | by apply Ho | done].
Qed.

Lemma cancel_owned_mine prefix orders l owned owned' :
  l ⊆ orders → cancel_owned prefix l owned = Ok owned' → all_mine prefix orders owned → all_mine prefix orders owned'.
Proof.
  revert owned. induction l as [|o l IH]; intros owned Hsub E Ho; cbn [cancel_owned] in E; [by apply Ok_inj in E as <-|].
  destruct (has_prefix prefix o) eqn:Hp; [|eapply IH; [|done..]; set_solver].
  apply bind_Ok in E as (legs & Hl & E). eapply IH; [|done|]; [set_solver|].
  intros id [[Hid|Hid]%elem_of_add_id|(leg & Hleg & Hid)]%elem_of_add_ids; [by apply Ho | |].
  - eapply mine_prefixed; [|done..]. set_solver.
  - eapply mine_leg; [|by left|done..]. set_solver.
Qed.

Lemma with_legs_mine prefix orders l owned owned' :
  l ⊆ orders → with_legs l owned = Ok owned' → all_mine prefix orders owned → all_mine prefix orders owned'.
Proof.
  revert owned. induction l as [|o l IH]; intros owned Hsub E Ho; cbn [with_legs] in E; [by apply Ok_inj in E as <-|].
  case_decide as Hid; [|eapply IH; [|done..]; set_solver].
  apply bind_Ok in E as (legs & Hl & E). eapply IH; [|done|]; [set_solver|].
  intros id [Hin|(leg & Hleg & Hi)]%elem_of_add_ids; [by apply Ho|].
  eapply mine_leg; [|right; by apply Ho|done..]. set_solver.
Qed.

(** The targets count orders that are Daybreak's only. *)
Lemma owned_ids_mine prefix orders owned : owned_ids prefix orders = Ok owned → all_mine prefix orders owned.
Proof.
  intros E. apply bind_Ok in E as (owned0 & E & [= <-]). apply with_children_mine; [done|].
  eapply with_legs_mine; [reflexivity|done|]. intros id [Hid|(o & Ho & Hi)]%elem_of_add_ids; [set_solver|].
  apply list_elem_of_filter in Ho as [Hp Ho]. by eapply mine_prefixed.
Qed.

(** An open order that is Daybreak's: by prefix, by id or by its parent. *)
Definition belongs (prefix : string) (orders : list dict) (o : dict) : Prop :=
  has_prefix prefix o = true ∨ mine prefix orders (text_field "id" o) ∨ mine prefix orders (text_field "parent_order_id" o).

Lemma is_owned_belongs prefix orders owned o :
  all_mine prefix orders owned → is_owned prefix owned o = true → belongs prefix orders o.
Proof.
  intros Ho. unfold is_owned, belongs. rewrite !orb_true_iff, !bool_decide_eq_true. intros [[?|?]|?]; auto.
Qed.

(** Flattening cancels Daybreak's open orders and no other: the requests
    are the two listings and then DELETEs of the listed open orders, in order,
    each of an order that bears the session's prefix, is known as Daybreak's or
    has a parent that is; a failure leaves a prefix of them, and a count that is
    returned is the number of all the open orders that are owned. *)
Theorem cancels_exactly_owned plan w :
  let run := cancel_daybreak_orders plan w in
  let listing status := orders_request status (pl_recorder_warmup_at plan) in
  (∃ l, run.2 = w ++ l ∧ Forall (λ q, hq_method q = "GET"%string) l) ∨
  ∃ all owned open_ k,
    (_orders "all" (pl_recorder_warmup_at plan) w).1 = Ok all ∧
    (_orders "open" (pl_recorder_warmup_at plan) (w ++ [listing "all"%string])).1 = Ok open_ ∧
    let cancelled := filter (λ o, is_owned (_prefix plan) owned o = true) open_ in
    run.2 = w ++ listing "all"%string :: listing "open"%string :: map delete_order (take k cancelled) ∧
    Forall (belongs (_prefix plan) all) cancelled ∧
    ∀ n, run.1 = Ok n → k = length cancelled ∧ n = len cancelled.
Proof.
  cbv zeta. unfold cancel_daybreak_orders. rewrite eff_bind_unfold.
  pose proof (orders_sends "all" (pl_recorder_warmup_at plan) w) as Ha.
  set (qa := orders_request "all" _) in *. set (qo := orders_request "open" _) in *.
  destruct (_orders "all" _ w) as [[all|e] w1]; cbn [snd] in Ha; subst w1;
    [|left; exists [qa]; split; [reflexivity | by repeat constructor]].
  rewrite eff_bind_unfold. unfold lift. destruct (cancel_owned _ _ _) as [owned|e] eqn:Eo;
    [|left; exists [qa]; split; [reflexivity | by repeat constructor]].
  rewrite eff_bind_unfold. pose proof (orders_sends "open" (pl_recorder_warmup_at plan) (w ++ [qa])) as Hsend. fold qo in Hsend.
  destruct (_orders "open" _ (w ++ [qa])) as [[open_|e] w2]; cbn [snd] in Hsend; subst w2.
  2: { left. exists [qa; qo]. rewrite <- app_assoc. split; [done | by repeat constructor]. }
  right. destruct (cancel_each_run (_prefix plan) (with_children all owned) open_ 0 ((w ++ [qa]) ++ [qo])) as (k & Hw & Hn).
  exists all, (with_children all owned), open_, k. split; [done|]. split; [done|]. cbv zeta.
  split; [etrans; [exact Hw | by rewrite <- !app_assoc]|].
  split; [|intros n Hr; by apply Hn].
  apply Forall_forall. intros o [Ho _]%list_elem_of_filter. eapply is_owned_belongs; [|done].
  apply with_children_mine; [done|]. eapply cancel_owned_mine; [reflexivity|done|]. set_solver.
Qed.

(** ** The net position *)

(** The orders and legs in the order they are visited, each with the symbol of
    the order it hangs under. *)
Fixpoint visits (orders : list dict) : result (list (dict * string)) :=
  match orders with
  | [] => Ok []
  | order :: rest =>
      legs ← order_legs order;
      vs ← visits rest;
      Ok ((order, ""%string) :: map (λ leg, (leg, text_field "symbol" order)) legs ++ vs)
  end.
Definition symbol_of (v : dict * string) : string := py_str (or_else (dict_or_none "symbol" v.1) (PStr v.2)).
Definition visit_id (v : dict * string) : string := text_field "id" v.1.

(** The visits that count: the first of each owned id. *)
Fixpoint first_visits (owned seen : gset string) (vs : list (dict * string)) : list (dict * string) :=
  match vs with
  | [] => []
  | v :: rest =>
      if String.eqb (visit_id v) "" || bool_decide (visit_id v ∈ seen) || negb (bool_decide (visit_id v ∈ owned))
      then first_visits owned seen rest
      else v :: first_visits owned ({[visit_id v]} ∪ seen) rest
  end.

(** The signed fills of one symbol, summed from [x] on. *)
Fixpoint sum_fills (symbol : string) (x : dnum) (vs : list (dict * string)) : result dnum :=
  match vs with
  | [] => Ok x
  | v :: rest =>
      if String.eqb (symbol_of v) symbol then
        fill ← signed_fill v.1; x' ← num_add x fill; sum_fills symbol x' rest
      else sum_fills symbol x rest
  end.

Fixpoint apply_visits (owned : gset string) (vs : list (dict * string)) (s : Fills) : result Fills :=
  match vs with
  | [] => Ok s
  | v :: rest => s' ← apply_fill owned s v.1 v.2; apply_visits owned rest s'
  end.

Lemma apply_visits_app owned l k s s' :
  apply_visits owned (l ++ k) s = Ok s' ↔ ∃ s1, apply_visits owned l s = Ok s1 ∧ apply_visits owned k s1 = Ok s'.
Proof.
  revert s. induction l as [|v l IH]; intros s; simpl.
  - split; [by exists s | by intros (? & [= ->] & ?)].
  - destruct (apply_fill owned s v.1 v.2) as [s1|e]; simpl; [apply IH|]. split; [done | by intros (? & [=] & _)].
Qed.

Lemma apply_legs_visits owned symbol legs s :
  apply_legs owned symbol legs s = apply_visits owned (map (λ leg, (leg, symbol)) legs) s.
Proof.
  revert s. induction legs as [|leg legs IH]; intros s; simpl; [done|]. by destruct (apply_fill _ _ _ _); simpl.
Qed.

Lemma apply_orders_visits owned orders s s' :
  apply_orders owned orders s = Ok s' → ∃ vs, visits orders = Ok vs ∧ apply_visits owned vs s = Ok s'.
Proof.
  revert s. induction orders as [|o orders IH]; intros s E; cbn [apply_orders visits] in *.
  - exists []. by apply Ok_inj in E as ->.
  - apply bind_Ok in E as (s1 & E1 & E). apply bind_Ok in E as (legs & E2 & E). apply bind_Ok in E as (s2 & E3 & E).
    apply IH in E as (vs & E4 & E5). rewrite E2, E4. eexists. split; [reflexivity|].
    cbn [apply_visits fst snd]. rewrite E1. cbn. rewrite apply_legs_visits in E3.
    apply apply_visits_app. by exists s2.
Qed.

Lemma net_get_set symbol x net y :
  net_get y (net_set symbol x net) = if String.eqb symbol y then x else net_get y net.
Proof.
  induction net as [|[s z] net IH]; simpl; [done|]. destruct (String.eqb_spec s symbol) as [->|Hs]; simpl.
  - by destruct (String.eqb symbol y).
  - rewrite IH. destruct (String.eqb_spec symbol y) as [->|?]; [|done].
    apply String.eqb_neq in Hs. by rewrite Hs.
Qed.

Lemma net_set_keys symbol x net :
  map fst (net_set symbol x net) = if decide (symbol ∈ map fst net) then map fst net else map fst net ++ [symbol].
Proof.
  induction net as [|[s z] net IH]; simpl; [done|]. destruct (String.eqb_spec s symbol) as [->|Hs]; simpl.
  - rewrite decide_True; [done | set_solver].
  - rewrite IH. do 2 case_decide; set_solver.
Qed.

(** The named symbols of the visits, and the empty one for those without. *)
Definition named (vs : list (dict * string)) : list (dict * string) :=
  filter (λ v, symbol_of v ≠ ""%string) vs.

Lemma named_cons v vs : named (v :: vs) = if decide (symbol_of v = ""%string) then named vs else v :: named vs.
Proof. unfold named. rewrite filter_cons. repeat case_decide; naive_solver. Qed.

Record net_of (vs : list (dict * string)) (s s' : Fills) : Prop := {
  no_sum : ∀ x, x ≠ ""%string → sum_fills x (net_get x (fi_net s)) vs = Ok (net_get x (fi_net s'));
  no_keys : ∀ x, x ∈ map fst (fi_net s') ↔ x ∈ map fst (fi_net s) ∨ x ∈ map symbol_of (named vs);
  no_nodup : NoDup (map fst (fi_net s)) → NoDup (map fst (fi_net s'));
}.

Lemma apply_visits_net owned vs s s' :
  apply_visits owned vs s = Ok s' → net_of (first_visits owned (fi_seen s) vs) s s'.
Proof.
  revert s. induction vs as [|v vs IH]; intros s E; cbn [apply_visits first_visits] in *.
  { apply Ok_inj in E as <-. split; [done | set_solver | done]. }
  apply bind_Ok in E as (s1 & E1 & E). apply IH in E as [Hsum Hkeys Hnd]. unfold apply_fill in E1.
  fold (visit_id v) in E1. destruct (_ || _ || _); [apply Ok_inj in E1 as <-; by split|].
  fold (symbol_of v) in E1. pose proof (named_cons v (first_visits owned ({[visit_id v]} ∪ fi_seen s) vs)) as Hnamed.
  destruct (String.eqb_spec (symbol_of v) "") as [Es|Es].
  { apply Ok_inj in E1 as <-. cbn [fi_net fi_seen] in *. rewrite decide_True in Hnamed by done.
    split; [|by rewrite Hnamed|exact Hnd]. intros x Hx. cbn [sum_fills]. rewrite Es. destruct (String.eqb_spec "" x) as [<-|_]; [done|]. by apply Hsum. }
  rewrite decide_False in Hnamed by done. apply bind_Ok in E1 as (fill & Ef & E1). apply bind_Ok in E1 as (x1 & Ex & [= <-]).
  cbn [fi_net fi_seen] in *. split.
  - intros x Hx. specialize (Hsum x Hx). rewrite net_get_set in Hsum. cbn [sum_fills].
    destruct (String.eqb_spec (symbol_of v) x) as [Heq|Hne]; [|done]. subst x.
    rewrite Ef. cbn. by rewrite Ex.
  - intros x. rewrite Hkeys, net_set_keys, Hnamed. cbn [map]. rewrite elem_of_cons. case_decide; set_solver.
  - intros Hn. apply Hnd. rewrite net_set_keys. case_decide as Hin; [done|].
    apply NoDup_app. split_and!; [done | set_solver | apply NoDup_singleton].
Qed.

Lemma first_visits_spec owned seen vs :
  NoDup (map visit_id (first_visits owned seen vs)) ∧
  ∀ v, v ∈ first_visits owned seen vs → v ∈ vs ∧ visit_id v ∈ owned ∧ visit_id v ∉ seen.
Proof.
  revert seen. induction vs as [|v vs IH]; intros seen; cbn [first_visits]; [split; [constructor | set_solver]|].
  destruct (_ || _ || _) eqn:E; [destruct (IH seen); set_solver|]. bool_to_prop.
  destruct (IH ({[visit_id v]} ∪ seen)) as [Hn Hv]. split.
  - cbn [map]. constructor; [|done]. intros (v' & Hid & Hin)%list_elem_of_fmap.
    apply Hv in Hin as (_ & _ & Hseen). set_solver.
  - intros v' [->|Hin]%elem_of_cons; [set_solver|]. apply Hv in Hin. set_solver.
Qed.

Lemma target_for_spec kv o :
  target_for kv = Ok o →
  ∀ t, o = Some t ↔ kv.2 = DFinite (mt_quantity t) ∧ (dec.zero <? mt_quantity t)%dec = true ∧ mt_symbol t = kv.1 ∧
    mt_source t = MT_BROKER_ORDER_RECONSTRUCTION.
Proof.
  destruct kv as [x [q|[]| |]]; unfold target_for; cbn [fst snd]; try done.
  - destruct (dec.zero <? q)%dec eqn:Eq; [destruct (ManagedPositionTarget_ok _); [|done]|]; intros [= <-] t; split.
    + by intros [= <-].
    + intros ([= ->] & _ & <- & <-). by destruct t.
    + done.
    + intros ([= ->] & Hq & _). congruence.
  - intros [= <-] t. split; [done | by intros ([=] & _)].
Qed.

Lemma net_get_in x q net : NoDup (map fst net) → (x, q) ∈ net → net_get x net = q.
Proof.
  induction net as [|[s y] net IH]; [set_solver|]. cbn [map fst net_get]. intros [Hs Hn]%NoDup_cons [Heq|Hin]%elem_of_cons.
  - injection Heq as -> ->. by rewrite String.eqb_refl.
  - destruct (String.eqb_spec s x) as [->|_]; [|by apply IH]. destruct Hs. apply list_elem_of_fmap. by exists (x, q).
Qed.
Lemma net_get_key x net : x ∈ map fst net → (x, net_get x net) ∈ net.
Proof.
  induction net as [|[s y] net IH]; [set_solver|]. cbn [map fst net_get]. destruct (String.eqb_spec s x) as [->|Hs]; set_solver.
Qed.

Lemma in_targets (l : list (string * dnum)) (os : list (option ManagedPositionTarget)) t :
  map_result target_for l = Ok os →
  t ∈ omap (M := list) (λ t, t) os ↔
    (mt_symbol t, DFinite (mt_quantity t)) ∈ l ∧ (dec.zero <? mt_quantity t)%dec = true ∧ mt_source t = MT_BROKER_ORDER_RECONSTRUCTION.
Proof.
  intros Hl%map_result_Forall2. rewrite list_elem_of_omap. split.
  - intros (o & Ho & ->). apply list_elem_of_lookup_1 in Ho as [i Hi].
    eapply Forall2_lookup_r in Hl as (kv & Hkv & E); [|exact Hi].
    apply target_for_spec with (t := t) in E. destruct E as [E _]. destruct (E eq_refl) as (Eq & Hq & Es & Hs).
    apply list_elem_of_lookup_2 in Hkv. destruct kv as [x y]. cbn [fst snd] in *. subst. done.
  - intros (Hin & Hq & Hs). apply list_elem_of_lookup_1 in Hin as [i Hi].
    eapply Forall2_lookup_l in Hl as (o & Ho & E); [|exact Hi].
    exists o. split; [by eapply list_elem_of_lookup_2|]. apply (target_for_spec _ _ E). done.
Qed.

Lemma target_symbols (l : list (string * dnum)) os :
  map_result target_for l = Ok os → map mt_symbol (omap (M := list) (λ t, t) os) `sublist_of` map fst l.
Proof.
  intros Hl%map_result_Forall2. induction Hl as [|kv o l os E _ IH]; [done|]. cbn [map].
  destruct o as [t|]; [|by apply sublist_cons].
  apply target_for_spec with (t := t) in E. destruct E as [E _]. destruct (E eq_refl) as (_ & _ & Es & _).
  change (mt_symbol t :: map mt_symbol (omap (M := list) (λ t, t) os) `sublist_of` kv.1 :: map fst l).
  rewrite Es. by apply sublist_skip.
Qed.


(** ** Positions and closes *)

Definition position_request (t : ManagedPositionTarget) : HttpRequest := GET ("/v2/positions/" +:+ mt_symbol t) [].

(** A position reported for a target. *)
Definition within (t : ManagedPositionTarget) (p : SessionPosition) : Prop :=
  SessionPosition_ok p = true ∧ (dval (sp_quantity p) <= dval (mt_quantity t))%Q.

Lemma session_position_within at_ t raw p : session_position at_ t raw = Ok (Some p) → within t p.
Proof.
  intros E. apply bind_Ok in E as (account & _ & E). apply bind_Ok in E as (q & Eq & E).
  destruct (q <=? dec.zero)%dec; [discriminate|].
  apply bind_Ok in E as (s & _ & E). apply bind_Ok in E as (x & _ & E). apply bind_Ok in E as (y & _ & E).
  cbv zeta in E. match type of E with (if ?c then _ else _) = _ => destruct c eqn:Eok; [|discriminate] end.
  apply Ok_inj in E. injection E as <-. split; [exact Eok|]. cbn [sp_quantity].
  destruct (num_abs account) as [a| | |]; cbn [capped] in Eq; try discriminate; apply Ok_inj in Eq as <-; [|apply Qle_refl].
  apply dmin_spec.
Qed.

Lemma position_of_run at_ t w :
  (position_of at_ t w).2 = w ++ [position_request t] ∧
  ∀ p, (position_of at_ t w).1 = Ok (Some p) → within t p.
Proof.
  unfold position_of. rewrite eff_bind_unfold. pose proof (request_outcome_sends (position_request t) w) as Hs.
  unfold position_request in Hs. destruct (request_outcome _ w) as [[[f|[data id]]|e] w1]; cbn [snd] in Hs; subst w1; [| |done].
  - by destruct (bool_decide _).
  - rewrite eff_bind_unfold. unfold lift. destruct (object_or _ data) as [raw|e]; [|done]. split; [done|].
    apply session_position_within.
Qed.

(** A position to close never exceeds its target: the positions listed
    come one per target, in the order of the symbols, from one request each;
    every one is a valid long position of at most the quantity of its target,
    so that shares the session did not buy are neither reported nor closed. *)
Theorem positions_within_targets targets w ps w' :
  list_session_positions targets w = (Ok ps, w') →
  let sorted := sorted_by (λ a b, string_leb (mt_symbol a) (mt_symbol b)) targets in
  w' = w ++ map position_request sorted ∧ ∃ held, held `sublist_of` sorted ∧ Forall2 within held ps.
Proof.
  unfold list_session_positions, now, gets. rewrite eff_bind_unfold. cbv beta iota zeta.
  generalize (sv_now w) as at_. generalize (sorted_by (λ a b, string_leb (mt_symbol a) (mt_symbol b)) targets) as l.
  intros l at_. revert w ps. induction l as [|t l IH]; intros w ps E; cbn [positions_of] in E.
  { injection E as <- <-. split; [by rewrite app_nil_r|]. exists []. by split. }
  apply eff_bind_Ok in E as (o & w1 & Ep & E). apply eff_bind_Ok in E as (ps' & w2 & Er & [= <- <-]).
  destruct (position_of_run at_ t w) as [Hw Hp]. rewrite Ep in Hw, Hp. cbn [fst snd] in *. subst w1.
  apply IH in Er as (-> & held & Hsub & Hall). split; [by rewrite <- app_assoc|].
  destruct o as [p|]; [exists (t :: held) | exists held].
  - split; [by apply sublist_skip | constructor; [by apply Hp | done]].
  - split; [by apply sublist_cons | done].
Qed.

(** The quantity asked of the broker reads back as the position's. *)
Lemma close_asks_quantity p w o w' :
  close_position p w = (Ok o, w') →
  fo_symbol o = sp_symbol p ∧ fo_quantity o = sp_quantity p ∧
  ∃ q, w' = w ++ [DELETE ("/v2/positions/" +:+ sp_symbol p) [("qty", q)%string]] ∧
    parse_decimal q = DFinite (positional (sp_quantity p)).
Proof.
  unfold close_position. intros E. apply eff_bind_Ok in E as ([data id] & w1 & E1 & E).
  apply eff_bind_Ok in E as (m & w2 & [_ ->]%lift_Ok & E). unfold now, gets in E. rewrite eff_bind_unfold in E.
  apply lift_Ok in E as [E ->]. pose proof (ops_request_sends (DELETE ("/v2/positions/" +:+ sp_symbol p)
    [("qty", decimal_f (sp_quantity p))%string]) w) as Hs. rewrite E1 in Hs. cbn [snd] in Hs.
  apply bind_Ok in E as (t & _ & E). apply bind_Ok in E as (i & _ & E). cbv zeta in E.
  match type of E with (if ?c then _ else _) = _ => destruct c; [|discriminate] end. apply Ok_inj in E. subst o.
  split_and!; [done..|]. exists (decimal_f (sp_quantity p)). split; [done | apply parse_decimal_f].
Qed.
End contract.

(** ** Samples *)

#[local] Instance sample_container : ContainerText := λ _, ""%string.
#[local] Instance sample_iso : FromIso := λ _, Some (0, Some 0).

(** A bracket with a fill on each side, a late child, and an order that is not
    Daybreak's. *)
Definition order_of (id client symbol side filled : string) (rest : list (string * pyval)) : list (string * pyval) :=
  [("id", PStr id); ("client_order_id", PStr client); ("symbol", PStr symbol); ("side", PStr side);
   ("filled_qty", PStr filled)]%string ++ rest.
Definition sample_orders : list (list (string * pyval)) :=
  [order_of "o1" "DB-20260105-1" "ABC" "buy" "40"
     [("legs", PSeq [PDict (order_of "o2" "" "ABC" "sell" "15" []); PDict (order_of "o3" "" "ABC" "sell" "0" [])])];
   order_of "o2" "x" "ABC" "sell" "15" []; order_of "o4" "x" "ABC" "sell" "5.5" [("parent_order_id", PStr "o1")];
   order_of "o5" "manual" "ABC" "buy" "100" []]%string.

Example sample_targets :
  targets_of "DB-20260105-" sample_orders =
  Ok [{| mt_symbol := "ABC"; mt_quantity := Dec 195 (-1); mt_source := MT_BROKER_ORDER_RECONSTRUCTION |}].
Proof. vm_compute. reflexivity. Qed.

(** A short position of the account is reported, and closed, as a long one. *)
Example short_position_reported_long :
  let target := {| mt_symbol := "ABC"; mt_quantity := dec.of_Z 40; mt_source := MT_COMBINED |} in
  match session_position 0 target [("symbol", PStr "ABC"); ("qty", PStr "-40")]%string with
  | Ok (Some p) => sp_quantity p = dec.of_Z 40
  | _ => False
  end.
Proof. vm_compute. reflexivity. Qed.

(** ** Witnesses *)


(** Sixty shares in the account, forty of them the session's. *)
#[local] Instance sample_account : Server :=
  {| sv_answer _ _ := Answered {| hr_status_code := 200; hr_empty := false;
       hr_json := Some (PDict [("symbol", PStr "ABC"); ("qty", PStr "60"); ("avg_entry_price", PStr "10.25")]%string);
       hr_request_id := None |};
     sv_now _ := 0 |}.
Definition sample_target : ManagedPositionTarget :=
  {| mt_symbol := "ABC"; mt_quantity := dec.of_Z 40; mt_source := MT_BROKER_ORDER_RECONSTRUCTION |}.

Lemma sample_listed : is_ok (list_session_positions [sample_target] []).1 = true.
Proof. vm_compute. reflexivity. Qed.

Lemma returned {A S} (x : result A * S) (H : is_ok x.1 = true) : x = (Ok (get_ok x.1 H), x.2).
Proof. destruct x as [r s]. cbn [fst snd] in *. by rewrite <- get_ok_eq. Qed.

Lemma positions_within_targets_witness :
  ∃ ps, (list_session_positions [sample_target] []).1 = Ok ps ∧
    ∃ held, held `sublist_of` [sample_target] ∧ Forall2 within held ps.
Proof.
  pose proof (returned _ sample_listed) as E.
  destruct (positions_within_targets [sample_target] [] _ _ E) as [_ Hh].
  exists (get_ok _ sample_listed). split; [exact (get_ok_eq _ sample_listed) | exact Hh].
Defined.
