(* ===== verification/MarketData.v ===== *)
(** * MarketData: the scanner's market-data client

    daybreak_scanner/alpaca_data.py, over the server of Alpaca.v: a request is
    answered by any function of the requests sent before. *)
From Stdlib Require Import Ascii String.
From S2P Require Import Prelude Numerics PyStr PyTime Contracts Canonical PyVal RiskModels FeatureModels RecorderAdapters SecPoller Settings Scanner Alpaca.

#[local] Open Scope Z_scope.

(** ScannerTransportError. *)
Definition scanner_transport_error (message : string) : exn := EOther "ScannerTransportError" message.
Definition invalid_row (e : exn) (what : string) : option exn :=
  if is_payload_error e then Some (scanner_transport_error what) else None.

Record ActiveStock := {
  as_ticker : string;
  as_volume : Z;
  as_trade_count : Z;
}.
Definition ActiveStock_ok (a : ActiveStock) : bool :=
  is_canonical_ticker (as_ticker a) && (0 <=? as_volume a) && (0 <=? as_trade_count a).

(** [__init__]. *)
Definition market_client_init (api_key secret_key : string) : result unit :=
  guard_or (negb (String.eqb api_key "" || String.eqb secret_key ""))
    (EValue "Alpaca market data credentials are required").

(** [row[k]]: a row that is no dict raises TypeError. *)
Definition row_at (k : string) (row : pyval) : result pyval :=
  match row with PDict m => dict_at k m | _ => Err ETypeError end.

Section client.
Context `{FromIso} `{DateFromIso} `{ContainerText} `{Server}.

(** [Decimal(str(row[k]))], a field of a model. *)
Definition row_decimal (k : string) (row : pyval) : result pydecimal :=
  v ← row_at k row; Decimal_of (py_str v).
Definition row_int (k : string) (row : pyval) : result Z := v ← row_at k row; int_of v.

(** [_request]. *)
Definition market_request (path : string) (params : list (string * string)) : eff wire dict :=
  outcome ← send (GET path params);
  match outcome with
  | TimedOut | NetworkFailed => raise (scanner_transport_error "")
  | ClientFailed kind => raise (EOther kind "")
  | Answered r =>
      if is_error r then raise (scanner_transport_error ("Alpaca market data returned HTTP " +:+ pretty (hr_status_code r)))
      else match hr_json r with
           | None => raise (scanner_transport_error "Alpaca market data response was not valid JSON")
           | Some (PDict m) => mret m
           | Some _ => raise (scanner_transport_error "Alpaca market data response was not a JSON object")
           end
  end.

(** The rows of a list, each read, an unreadable one a transport error. *)
Definition read_rows {A} (read : pyval → result A) (what : string) (rows : list pyval) : result (list A) :=
  match map_result read rows with
  | Ok l => Ok l
  | Err e => Err (default e (invalid_row e what))
  end.

Definition market_mover (row : pyval) : result MarketMover :=
  symbol ← row_at "symbol" row;
  percent ← row_decimal "percent_change" row;
  change ← row_decimal "change" row;
  price ← row_decimal "price" row;
  percent ← decimal_field percent; change ← decimal_field change; price ← decimal_field price;
  let m := {| mm_ticker := py_str symbol; mm_percent_change := percent; mm_change := change; mm_price := price |} in
  if MarketMover_ok m then Ok m else Err (EValidation "MarketMover").
Definition get_gainers (top : Z) : eff wire (list MarketMover) :=
  data ← market_request "/v1beta1/screener/stocks/movers" [("top"%string, pretty top)];
  match dict_get "gainers" data with
  | Some (PSeq rows) => lift (read_rows market_mover "Alpaca movers response contained an invalid row" rows)
  | _ => raise (scanner_transport_error "Alpaca movers response was missing a 'gainers' list")
  end.

Definition active_stock (row : pyval) : result ActiveStock :=
  symbol ← row_at "symbol" row;
  volume ← row_int "volume" row;
  trades ← row_int "trade_count" row;
  let a := {| as_ticker := py_str symbol; as_volume := volume; as_trade_count := trades |} in
  if ActiveStock_ok a then Ok a else Err (EValidation "ActiveStock").
Definition get_most_actives (top : Z) (by_ : string) : eff wire (list ActiveStock) :=
  data ← market_request "/v1beta1/screener/stocks/most-actives" [("top"%string, pretty top); ("by"%string, by_)];
  match dict_get "most_actives" data with
  | Some (PSeq rows) => lift (read_rows active_stock "Alpaca most-actives response contained an invalid row" rows)
  | _ => raise (scanner_transport_error "Alpaca most-actives response was missing a 'most_actives' list")
  end.

(** A snapshot without a daily volume is skipped. *)
Definition snapshot_volume (snapshot : pyval) : option pyval :=
  match snapshot with
  | PDict m => match dict_get "dailyBar" m with Some (PDict bar) => dict_get "v" bar | _ => None end
  | _ => None
  end.
Fixpoint volumes_of (data : dict) : result (list (string * Z)) :=
  match data with
  | [] => Ok []
  | (symbol, snapshot) :: data' =>
      match snapshot_volume snapshot with
      | None => volumes_of data'
      | Some v =>
          match int_of v with
          | Ok n => l ← volumes_of data'; Ok ((symbol, n) :: l)
          | Err e =>
              Err (match e with
                   | ETypeError | EValue _ | EValidation _ =>
                       scanner_transport_error ("Alpaca snapshot for " +:+ str_repr symbol +:+ " had an invalid volume")
                   | _ => e
                   end)
          end
      end
  end.
Definition get_current_volumes (symbols : list string) : eff wire (list (string * Z)) :=
  match symbols with
  | [] => mret []
  | _ => data ← market_request "/v2/stocks/snapshots" [("symbols"%string, String.concat "," symbols)]; lift (volumes_of data)
  end.

(** ** Bars, page by page *)

Section pages.
Context {A : Type}.
Variable params : list (string * string).
(** What a page's bars add to the rows read so far. *)
Variable add : dict → A → result A.

Definition page_params (token : pyval) : list (string * string) :=
  params ++ match token with PNone => [] | _ => [("page_token"%string, py_str token)] end.
Definition page_bars (data : dict) : result dict :=
  match dict_get "bars" data with
  | Some (PDict m) => Ok m
  | _ => Err (scanner_transport_error "Alpaca bars response was missing a 'bars' object")
  end.
(** The loop: it ends with the first answer whose token is false. *)
Fixpoint read_pages (fuel : nat) (token : pyval) (acc : A) : eff wire A :=
  match fuel with
  | O => raise EDiverge
  | S fuel' =>
      data ← market_request "/v2/stocks/bars" (page_params token);
      bars ← lift (page_bars data);
      acc ← lift (add bars acc);
      let token := dict_or_none "next_page_token" data in
      if truthy token then read_pages fuel' token acc else mret acc
  end.
End pages.

Definition rows_of (what : string) (v : pyval) : result (list pyval) :=
  match v with
  | PSeq rows => Ok rows
  | _ => Err (scanner_transport_error ("Alpaca bars response for " +:+ str_repr what +:+ " was not a list"))
  end.
(** [raw_bars.setdefault(symbol, []).extend(rows)], for each symbol of a page. *)
Fixpoint add_daily (bars : dict) (acc : dict) : result dict :=
  match bars with
  | [] => Ok acc
  | (symbol, v) :: bars' =>
      rows ← rows_of symbol v;
      add_daily bars' (dict_put symbol (PSeq (list_or_nil (dict_get_or symbol (PSeq []) acc) ++ rows)) acc)
  end.
Definition add_minute (symbol : string) (bars : dict) (acc : list pyval) : result (list pyval) :=
  rows ← rows_of symbol (dict_get_or symbol (PSeq []) bars); Ok (acc ++ rows).

(** The first ten characters. *)
Definition first_ten (s : string) : string := string_take 10 s.
Definition daily_bar (row : pyval) : result DailyBar :=
  t ← row_at "t" row;
  day ← iso_date (first_ten (py_str t));
  o ← row_decimal "o" row; h ← row_decimal "h" row; l ← row_decimal "l" row; c ← row_decimal "c" row;
  volume ← row_int "v" row;
  o ← decimal_field o; h ← decimal_field h; l ← decimal_field l; c ← decimal_field c;
  let b := {| db_session_date := day; db_open := o; db_high := h; db_low := l; db_close := c; db_volume := volume |} in
  if DailyBar_ok b then Ok b else Err (EValidation "DailyBar").
Definition minute_bar (row : pyval) : result MinuteBar :=
  t ← row_at "t" row;
  instant ← match fromisoformat (replace_Z (py_str t)) with
            | Some x => Ok x | None => Err (EValue "Invalid isoformat string") end;
  o ← row_decimal "o" row; h ← row_decimal "h" row; l ← row_decimal "l" row; c ← row_decimal "c" row;
  volume ← row_int "v" row;
  o ← decimal_field o; h ← decimal_field h; l ← decimal_field l; c ← decimal_field c;
  match instant with
  | (wall, Some 0) =>
      let b := {| mb_timestamp := wall; mb_open := o; mb_high := h; mb_low := l; mb_close := c; mb_volume := volume |} in
      if MinuteBar_ok b then Ok b else Err (EValidation "MinuteBar")
  | _ => Err (EValidation "timestamp must be timezone-aware UTC")
  end.

Definition invalid_bars : string := "Alpaca bars response contained an invalid row".
Definition daily_params (symbols : list string) (start stop : date) : list (string * string) :=
  [("symbols", String.concat "," symbols); ("timeframe", "1Day"); ("start", date_iso start); ("end", date_iso stop);
   ("adjustment", "split"); ("limit", "10000")]%string.
(** The symbols' bars; what the server sends of other symbols is read too. *)
Definition daily_bars_of (raw : dict) : result (list (string * list DailyBar)) :=
  map_result (λ kv, l ← read_rows daily_bar invalid_bars (list_or_nil kv.2); Ok (kv.1, l)) raw.
Definition get_daily_bars (fuel : nat) (symbols : list string) (start stop : date)
    : eff wire (list (string * list DailyBar)) :=
  match symbols with
  | [] => mret []
  | _ =>
      raw ← read_pages (daily_params symbols start stop) add_daily fuel PNone
              (fold_left (λ m s, dict_put s (PSeq []) m) symbols []);
      lift (daily_bars_of raw)
  end.
Definition minute_params (symbol : string) (start stop : datetime) : list (string * string) :=
  [("symbols", symbol); ("timeframe", "1Min"); ("start", datetime_iso start); ("end", datetime_iso stop);
   ("adjustment", "split"); ("limit", "10000")]%string.
Definition get_minute_bars (fuel : nat) (symbol : string) (start stop : datetime) : eff wire (list MinuteBar) :=
  rows ← read_pages (minute_params symbol start stop) (add_minute symbol) fuel PNone [];
  lift (read_rows minute_bar invalid_bars rows).
End client.

(** ** What paging reads *)

Section paging.
Context `{FromIso} `{DateFromIso} `{ContainerText} `{Server} {A : Type}.
Variable params : list (string * string).
Variable add : dict → A → result A.

(** The pages that the server sends from a state of the wire, from a token on
    to the first that names no next one. *)
Inductive pages_served : pyval → wire → list dict → wire → Prop :=
  | last_page token w w' data :
      market_request "/v2/stocks/bars" (page_params params token) w = (Ok data, w') →
      truthy (dict_or_none "next_page_token" data) = false → pages_served token w [data] w'
  | next_page token w w1 w' data pages :
      market_request "/v2/stocks/bars" (page_params params token) w = (Ok data, w1) →
      truthy (dict_or_none "next_page_token" data) = true →
      pages_served (dict_or_none "next_page_token" data) w1 pages w' → pages_served token w (data :: pages) w'.

(** What the pages add up to, in their order. *)
Fixpoint add_pages (pages : list dict) (acc : A) : result A :=
  match pages with
  | [] => Ok acc
  | data :: pages' => bars ← page_bars data; acc ← add bars acc; add_pages pages' acc
  end.

(** Reading returns exactly when the server comes to a last page within the
    fuel and every page adds up; it then returns the sum of all the pages, none
    left out and none read twice. *)
Lemma read_pages_spec fuel token acc w r w' :
  read_pages params add fuel token acc w = (Ok r, w') ↔
  ∃ pages, pages_served token w pages w' ∧ (length pages <= fuel)%nat ∧ add_pages pages acc = Ok r.
Proof.
  revert token acc w. induction fuel as [|fuel IH]; intros token acc w; cbn [read_pages].
  { split; [done|]. intros (pages & Hp & Hl & _). destruct Hp; simpl in Hl; lia. }
  rewrite eff_bind_Ok. split.
  - intros (data & w1 & Hr & (bars & w2 & [Hb ->]%lift_Ok & (acc1 & w3 & [Ha ->]%lift_Ok & Hk)%eff_bind_Ok)%eff_bind_Ok).
    destruct (truthy (dict_or_none "next_page_token" data)) eqn:Ht.
    + apply IH in Hk as (pages & Hp & Hl & Hs). exists (data :: pages). split; [by eapply next_page|]. split; [simpl; lia|].
      cbn [add_pages]. rewrite Hb. cbn [mbind result_bind]. by rewrite Ha.
    + injection Hk as <- <-. exists [data]. split; [by apply last_page|]. split; [simpl; lia|].
      cbn [add_pages]. rewrite Hb. cbn [mbind result_bind]. by rewrite Ha.
  - intros (pages & Hp & Hl & Hs). destruct Hp as [token w w1 data Hr Ht|token w w1 w' data pages Hr Ht Hp];
      cbn [add_pages] in Hs; apply bind_Ok in Hs as (bars & Hb & (acc1 & Ha & Hs)%bind_Ok); exists data, w1; (split; [done|]);
      apply eff_bind_Ok; exists bars, w1; (split; [by apply lift_Ok|]); apply eff_bind_Ok; exists acc1, w1;
      (split; [by apply lift_Ok|]); rewrite Ht.
    + by injection Hs as <-.
    + apply IH. exists pages. split; [done|]. split; [simpl in Hl; lia | done].
Qed.
End paging.

(** The minute bars are those of all the pages for the symbol, in the order of
    the pages. *)
Lemma minute_rows_of_pages symbol pages acc r :
  add_pages (add_minute symbol) pages acc = Ok r →
  r = acc ++ concat (map (λ data, match page_bars data with
                                 | Ok bars => list_or_nil (dict_get_or symbol (PSeq []) bars) | Err _ => [] end) pages).
Proof.
  revert acc. induction pages as [|data pages IH]; intros acc Hr; simpl in *; [apply Ok_inj in Hr as <-; by rewrite app_nil_r|].
  apply bind_Ok in Hr as (bars & -> & (acc1 & Ha & Hr)%bind_Ok). unfold add_minute in Ha.
  apply bind_Ok in Ha as (rows & Hrows & <-%Ok_inj). apply IH in Hr as ->. rewrite <- app_assoc. do 2 f_equal.
  unfold rows_of in Hrows. destruct (dict_get_or symbol (PSeq []) bars); try discriminate. by apply Ok_inj in Hrows as <-.
Qed.

(** A server of two pages. *)
#[local] Instance page_iso : FromIso := λ _, Some (1767623400000000, Some 0).
#[local] Instance page_container : ContainerText := λ _, ""%string.
Definition bar_row (price : string) : pyval :=
  PDict [("t", PStr "2026-01-05T14:30:00Z"); ("o", PFloat price); ("h", PFloat price); ("l", PFloat price);
         ("c", PFloat price); ("v", PInt 100)]%string.
Definition page_of (price : string) (next : pyval) : pyval :=
  PDict [("bars", PDict [("ACME", PSeq [bar_row price])]); ("next_page_token", next)]%string.
#[local] Instance two_pages : Server :=
  {| sv_answer := λ w q, Answered {| hr_status_code := 200; hr_empty := false; hr_request_id := None;
       hr_json := Some (if existsb (λ p, String.eqb p.1 "page_token") (hq_params q)
                        then page_of "10.5" PNone else page_of "10.25" (PStr "next")) |};
     sv_now := λ _, 0 |}.
Example both_pages_read :
  match (get_minute_bars 2 "ACME" 0 1 []).1 with Ok l => map mb_close l | Err _ => [] end
  = [Dec 1025 (-2); Dec 105 (-1)].
Proof. vm_compute. reflexivity. Qed.
Example no_fuel_for_the_second_page : (get_minute_bars 1 "ACME" 0 1 []).1 = Err EDiverge.
Proof. vm_compute. reflexivity. Qed.
